(* ===== verification/_CoqProject ===== *)
-Q . S2P
Prelude.v
CLib.v
HexUtils.v
MemManager.v
GdbIf.v
GdbPacket.v
TargetState.v
Target.v
TargetFlash.v
TargetProps.v
Platform.v
Crc32.v
Eeprom.v
DeviceConfig.v
General.v
Exception.v
Morse.v
Frame.v
Command.v
CommandProps.v
GdbMain.v
GdbMainProps.v
Dap.v
Adiv5.v
Adiv5Props.v
Swd.v
SwdProps.v
Jtag.v
JtagProps.v
JtagWire.v
JtagWireProps.v
JtagDpProps.v
Objects.v
Cortexm.v
CoreSpec.v
CortexmCache.v
CortexmAp.v
CortexmSim.v
CortexmProps.v
CortexmRegs.v
CortexmBreak.v
CortexmRun.v
Recovery.v
Scan.v
ScanProps.v
FlashDev.v
Stm32f1.v
Stm32f1Props.v
Stm32f4.v
Stm32l4.v
Stm32g0.v
LpcCommon.v
Lpc11xx.v
Lpc15xx.v
Lpc17xx.v
Lpc43xx.v
Lpc546xx.v
Lmi.v
Nrf51.v
Rp.v
Stm32h7.v
Stm32l0.v
Sam3x.v
Sam4l.v
Samd.v
Samx5x.v
Kinetis.v
Nxpke04.v
Msp432.v
Efm32.v
Remote.v
RemoteProps.v
Cortexa.v
CortexaCore.v
CortexaProps.v
Session.v
Pins.v
Usb.v
UsbUart.v
Board.v
