(* ===== verification/Prelude.v ===== *)
(** * Verification of the Miyako-Link debug probe firmware

    The firmware (src/src) is a GDB server on an RP2040: it receives GDB remote
    protocol packets over a byte channel, executes them on a target's memory,
    registers, breakpoints and flash through the drivers of the target, and
    reaches the target over SWD or JTAG; beside that it bridges a UART to USB.
    It is derived from Black Magic Probe; what this development models is the
    part of it that is built for the RubyLink platform and has logic of its own.

    ** How C is modelled

    An operation is a function of the effect monad [M W A] (this file): from a
    state it returns ([Ok]), jumps to an exception handler ([Raise]), does
    something undefined ([Fault]: null pointer, indeterminate value, access out
    of bounds, division by zero) or never ends ([Hang]).  Integers are [Z] with
    the wrap of their type written at every operation that can leave it; bytes
    are [Z]; a buffer is the list of its bytes, read and written through the
    checked accesses of CLib.  A loop is [iter] with fuel; [Hang] is only ever
    the outcome of a loop out of fuel or of a blocking read that nothing will
    satisfy, and the theorems of kind termination and every theorem of the form
    "exists w', run = Ok .. w'" show that the fuel is enough.  Code that is not
    under src (FreeRTOS, the Pico SDK, the PIO programs) is a type class of
    operations, with a second class of laws where a theorem relies on it; each
    theorem with such laws has a witness on a concrete instance.

    ** The files

    - CLib: the C library functions used: strtol, the sscanf and printf
      conversions, string prefixes, checked buffer accesses.
    - HexUtils: hex_utils.c.
    - MemManager: platforms/RubyLink/mem_manager.c, the memory pools.
    - GdbIf: gdb_if.h as the class [GdbIf] with its laws [GdbIfSpec], and
      main.c's implementation over stream buffers, which satisfies them.
    - GdbPacket: gdb_packet.c, framing, escaping, checksum, retransmission.
    - TargetState, Target, TargetFlash, TargetProps: include/target.h,
      target/target_internal.h and target/target.c.  The state is the record
      [world]: the heap of targets, the controllers, the packet buffer, and the
      rest of the world [D]; what the method pointers of a target lead to is
      the class [Driver].
    - Platform: the clock, and timing.c's timeouts.
    - Crc32: crc32.c.  Eeprom, DeviceConfig: eeprom.c and device_config.c.
      General: the task and interface tables of general.c.  Exception:
      exception.c and TRY_CATCH.  Morse: morse.c.
    - Frame: which operations leave targets and controllers alone (the
      predicate [keeps] with its hint database and tactic).
    - Command, CommandProps: command.c, the monitor commands.
    - GdbMain, GdbMainProps: gdb_main.c, gdb_hostio.c and the loop body of
      main.c's gdb_main_1.
    - Dap: an ADIv5 memory access port as a step relation, and the interface
      [DpIf]/[DapSpec] between adiv5.c and a debug port.
    - Adiv5, Adiv5Props: the access port accessors and memory transfers of
      target/adiv5.c, proved against that interface.
    - Swd, SwdProps: target/adiv5_swdp.c and the SWD functions of
      platforms/RubyLink/platform_target_interface_non_iso.c over the PIO calls
      of the SDK, proved to implement the interface.
    - Jtag, JtagProps: jtag_scan.c, jtag_devs.c's records, jtagtap.c and
      adiv5_jtagdp.c's accesses, over a chain of devices as the class [TapIf].
    - JtagWire, JtagWireProps: the JTAG functions of
      platform_target_interface_non_iso.c over the PIO, down to the bits on the
      wires, proved to implement that interface.  JtagDpProps: the debug port of
      adiv5_jtagdp.c on a chain, proved to implement the interface of Dap.
    - Objects: the objects behind a target with their reference counts (access
      ports, debug ports, cortexm.c's private data), and the class [DpObj] of
      what of a debug port is not its accesses.
    - Cortexm: cortexm.c.  Its sections are the memory and register methods
      over an access port, the operations over the target's own interface
      (attach, reset, halt, resume, breakpoints, semihosting, running code,
      probing), and the driver [cortexm_driver] that dispatches a target's
      method pointers to them, layer by layer.
    - CoreSpec: the debug registers of an ARMv7-M core as a reference machine
      and the interface by which a target reaches one.  CortexmAp: that the
      memory methods of cortexm.c over an access port are that interface.
      CortexmCache: the cache maintenance in it.  CortexmSim: a concrete core
      and access port, the instance of the witnesses.
    - CortexmProps (register numbers and single registers), CortexmRegs (all
      registers at once), CortexmBreak (breakpoints), CortexmRun (resuming,
      polling, running code): the theorems about cortexm.c.
    - Recovery: the recovery access ports of kinetis.c, nrf51.c, efm32.c and
      rp.c.  Scan: the search for targets: adiv5.c's debug port set-up, access
      ports and ROM tables, adiv5_swdp.c's scan, and the instances that put
      them over Swd.  ScanProps: the theorems about them.
    - FlashDev: what the device drivers share: the parts of cortexm.c they call
      ([CortexmIf]), their waiting loops, a driver's functions by the names a
      target holds ([device], [device_layer]), and the interface [BusSpec]
      between a driver and a device as a machine on its target's bus, with a
      concrete bus (Module BusSim) for the witnesses.
    - The device drivers of target/, a file each: Stm32f1, Stm32f4, Stm32l4,
      Stm32g0, Stm32h7, Stm32l0, LpcCommon (lpc_common.c, the calls into the
      boot ROM), Lpc11xx, Lpc15xx, Lpc17xx, Lpc43xx, Lpc546xx, Lmi, Nrf51, Rp,
      Sam3x, Sam4l, Samd, Samx5x, Kinetis, Nxpke04, Msp432, Efm32.
      Stm32f1Props: the flash controller of the STM32F1 as a machine, and the
      theorems about its driver; Nrf51 has both for the nRF51 itself.
    - Remote: remote.c, the packets by which a debugger on the host uses the
      probe's wires and ports; RemoteProps: what such a packet can do to the
      receiver of GdbPacket, and what its answers say.
    - Cortexa: cortexa.c.  CortexaCore: the debug registers of an ARMv7-A core
      that executes the instructions put into it, the access port that shows
      them, and the interface to both.  CortexaProps: the theorems about
      cortexa.c over it.
    - Pins: periph_conf.h, mux_task.c, system_pins.c and the pin functions of
      platform_target_interface_non_iso.c; the shift registers as a machine and
      the task that feeds it as a step relation.
    - Usb: usb_descriptors.c (Module Desc), usb_cdc_task.c and usb_task.c, with
      the theorems about the threads of a serial port.
    - UsbUart: usb_uart_task.c; the UART and its DMA channels as a machine, and
      bytes, interrupts and timer as a step relation over it.
    - Board: system_func.c's log with main.c's log task; platform.c's clock and
      the frequency of the target interface, over DeviceConfig.
    - Session: the layers put together: a debugger's requests from the bytes of
      the host's channel to the memory behind an access port.

    A name of the code is the name of its definition wherever that is possible;
    parts of a long function are definitions of their own (a loop's body is
    [.._body], a packet's handler [handle_..]).

    ** What the theorems show

    - The layers together: what a debugger writes with an X request and reads
      with an m request are the same bytes, from the host's channel through the
      packets, the server, target.c, cortexm.c and adiv5.c to a memory access
      port and back, whatever else is in the channel in front of them.
    - The packet layer: what gdb_putpacket sends gdb_getpacket decodes to the
      same bytes; whatever the host sends, gdb_getpacket stays in its buffer; a
      wrong checksum is answered with '-' and the repetition accepted; a packet
      is sent at most four times.  The byte channel keeps order and loses
      nothing.
    - Target memory: over any debug port that makes the steps of Dap, a memory
      read or write of any alignment and length transfers exactly the bytes
      asked for, across the 1 KiB windows of TAR's auto-increment; the SWD
      functions over the PIO make those steps, and so does the JTAG debug port
      on a scan chain over the PIO, so the same holds end to end over both.
      FAULT answers are sticky; a JTAG port that stalls is aborted in the end and its
      fault stays marked.
    - Remote packets: a packet in front of a GDB packet is answered with a
      frame or nothing and the GDB packet received behind it, or undefined,
      since the pointers of its debug port are never set; the numbers in
      answers are read back as they were.
    - GDB requests: an 'm' packet answers with the target's memory; qXfer
      reads are slices of their document; replies to host calls are decoded as
      they were written; generic_crc32 is the bit-by-bit CRC-32 of memory.
    - Flash: buffered programming keeps the pending image right for any
      sequence of chunks, done flushes exactly that image, erase terminates and
      stays inside region and range.
      Over stm32f1.c and over nrf51.c with their flash controllers this holds
      end to end: erase, program and done leave exactly the data in erased
      pages.
    - The board: the pins show what was set last, however tasks and interrupts
      interleave; the threads of a USB serial port and the UART's interrupts
      carry every byte in order, under the conditions they state, which
      examples show to be needed; the log's blocks are the queue's; a frequency
      that is set survives a restart.
    - Memory and lifetime: the pools hand out disjoint blocks and take them
      back; freeing the target list leaves no dangling pointer in a controller.
    - Configuration: set, get, CRC and the EEPROM image.
    - Exceptions: a raise lands in the innermost accepting frame.
    - JTAG: a scan finds the devices of any chain; selecting an instruction
      and shifting data reach exactly the device asked for, down to the PIO's
      words, whatever else is in the chain.
    - Cortex-M: the registers read are the core's and those written arrive;
      breakpoints refine the list a target keeps to what the core stops at; a
      poll reports the reason for a stop; code run on the core comes back, with
      its answer or a timeout, and the core is halted again.
    - Cortex-A: memory read and written through the core's own instructions is
      the memory asked for, an access that aborts is reported, and a stop
      leaves every register as it was.
    - The search: what the ROM tables of a memory image say is what is probed,
      in order; a new access port is fit for the memory transfers.
    - Behaviour the code probably does not intend is stated as theorems too
      (an overrun of the memory map buffer and of the EEPROM buffer, target
      commands that are never found, a vAttach that never attaches, and more);
      the manifest lists them as findings.

    ** Bounds and fuel

    gdb_getpacket's loops are bounded by the bytes the host will send; the
    flash loops by the length of the range plus one, since each round consumes
    at least one byte; a memory transfer's loop by its number of units plus
    one; gdb_getchar's receive loop by the number of receives that will time
    out ([idle]).  The JTAG scan's loops have the bound of their source (32
    devices, 8 or 9 bits of an identity, 512 guesses); a wire transfer's loop
    takes one round for 32 ticks.  The cache loop takes one round for a line
    ([cache_rounds]).  A loop that waits for the core has the fuel [polls], and
    the theorems ask that the clock can be read fewer times than that before
    the timeout.  The tables of adiv5_component_probe may be nested
    [depth] deep; the code has no limit.  A device driver's waiting loop has the
    fuel [polls], the erase of a range one round for a page ([page_rounds]).
    [swd_low_access] takes the rounds of its WAIT loop and the depth of the aborts nested in it as parameters: neither has a bound in the
    code, whose abort is itself an access.

    ** Not modelled

    The theorems about targets hold for any driver, and the probe functions of
    the device drivers are parameters of cortexm.c's model.  Memory that a driver reads beyond the
    objects it means to read (the arguments lpc_iap_call takes from the stack,
    the bytes behind a Kinetis write buffer, the rest of an LPC17xx result) is
    a parameter of its section.
    Log statements (DEBUG_...) are left out, the
    target accesses in their arguments excepted.  main() and the Ethernet task,
    which it does not start, only call the SDK in order; SysView and WIZnet code
    is vendored, and the other platforms of the source tree are not part of this
    firmware.  Interrupts are taken to run to their end between two transfers of
    the DMA (UsbUart) and between two steps of a task (Pins). 
    The end-to-end theorem over JTAG takes the port to be done with an access
    before the next exchange (latency 0); what happens when it is not is
    [jtag_access_outcome].  The device drivers other than stm32f1.c and
    nrf51.c are modelled without a machine for the device behind them. *)

From Stdlib Require Import ZArith Lia.
From stdpp Require Import base list numbers option.

#[global] Open Scope Z_scope.

(** ** Machine-width integers

    A C unsigned integer of [w] bits is a [Z] in [0 .. 2^w - 1]; every
    arithmetic operation of the source that can leave the range is followed by
    the wrap of its type. *)

Definition wrap (w : Z) (x : Z) : Z := x mod 2 ^ w.
Definition u8 : Z -> Z := wrap 8.
Definition u16 : Z -> Z := wrap 16.
Definition u32 : Z -> Z := wrap 32.
Definition u64 : Z -> Z := wrap 64.

(** The signed reading of a [w]-bit word (two's complement). *)
Definition swrap (w : Z) (x : Z) : Z :=
  let y := wrap w x in if y <? 2 ^ (w - 1) then y else y - 2 ^ w.
Definition i32 : Z -> Z := swrap 32.

Definition in_width (w : Z) (x : Z) : Prop := 0 <= x < 2 ^ w.
Abbreviation is_byte := (in_width 8).
Abbreviation is_u16 := (in_width 16).
Abbreviation is_u32 := (in_width 32).
Abbreviation is_bytes := (Forall (in_width 8)).

Definition bit (x i : Z) : Z := Z.land (Z.shiftr x i) 1.
Definition flag (x mask : Z) : bool := negb (Z.land x mask =? 0).

(** ** The effect monad

    The code is a C program: an operation runs on a state, and ends by
    returning, by [raise_exception] (a [longjmp] to a handler), by undefined
    behaviour, or not at all. *)

Inductive fault : Set :=
| NullDeref        (* a null pointer is dereferenced *)
| UninitRead       (* an indeterminate local is read *)
| OutOfBounds      (* an access outside its object *)
| DivByZero        (* a division by zero *)
| AbortCalled.     (* abort(): an exception nobody catches *)

Inductive outcome (W A : Type) : Type :=
| Ok (a : A) (w : W)
| Raise (ty : Z) (msg : list Z) (w : W)
| Fault (why : fault) (w : W)
| Hang.
Arguments Ok {W A} a w.
Arguments Raise {W A} ty msg w.
Arguments Fault {W A} why w.
Arguments Hang {W A}.

Definition M (W A : Type) : Type := W -> outcome W A.

Definition ret {W A} (a : A) : M W A := fun w => Ok a w.
Definition bind {W A B} (m : M W A) (f : A -> M W B) : M W B := fun w =>
  match m w with
  | Ok a w' => f a w'
  | Raise ty msg w' => Raise ty msg w'
  | Fault why w' => Fault why w'
  | Hang => Hang
  end.
Definition get {W} : M W W := fun w => Ok w w.
Definition put {W} (w : W) : M W unit := fun _ => Ok tt w.
Definition gets {W A} (f : W -> A) : M W A := fun w => Ok (f w) w.
Definition modify {W} (f : W -> W) : M W unit := fun w => Ok tt (f w).
Definition raise {W A} (ty : Z) (msg : list Z) : M W A := fun w => Raise ty msg w.
Definition crash {W A} (why : fault) : M W A := fun w => Fault why w.
Definition hang {W A} : M W A := fun _ => Hang.

Declare Scope c_scope.
Delimit Scope c_scope with c.
Notation "'let!' x ':=' c1 'in' c2" := (bind c1 (fun x => c2))
  (at level 10, x pattern, c1 at level 100, c2 at level 200,
   format "'[v' 'let!'  x  ':='  c1  'in' '/' c2 ']'") : c_scope.
Notation "'do!' c1 'in' c2" := (bind c1 (fun _ => c2))
  (at level 10, c1 at level 100, c2 at level 200,
   format "'[v' 'do!'  c1  'in' '/' c2 ']'") : c_scope.
#[global] Open Scope c_scope.

(** [if (b) m;] with no else branch. *)
Definition when {W} (b : bool) (m : M W unit) : M W unit :=
  if b then m else ret tt.

(** Dereference of a pointer modelled as an option. *)
Definition deref {W A} (p : option A) : M W A :=
  match p with Some a => ret a | None => crash NullDeref end.

(** ** Loops

    [iter fuel body s] runs a C loop whose loop-carried locals are [s]:
    [body] returns [inl s'] to go round again and [inr a] to leave.  A loop
    that uses up its fuel is [Hang]. *)
Fixpoint iter {W S A} (fuel : nat) (body : S -> M W (S + A)) (s : S) : M W A :=
  match fuel with
  | O => hang
  | Datatypes.S n =>
      let! r := body s in
      match r with
      | inl s' => iter n body s'
      | inr a => ret a
      end
  end.

(** A [for] loop over the elements of a list, in order. *)
Fixpoint for_each {W A} (l : list A) (body : A -> M W unit) : M W unit :=
  match l with
  | [] => ret tt
  | x :: l' => do! body x in for_each l' body
  end.

Lemma bind_ret {W A B} (a : A) (f : A -> M W B) w : bind (ret a) f w = f a w.
Proof. reflexivity. Qed.
Lemma bind_ret_r {W A} (m : M W A) w : bind m ret w = m w.
Proof. unfold bind. by destruct (m w). Qed.
Lemma bind_bind {W A B C} (m : M W A) (f : A -> M W B) (g : B -> M W C) w :
  bind (bind m f) g w = bind m (fun a => bind (f a) g) w.
Proof. unfold bind. by destruct (m w). Qed.
Lemma bind_Ok {W A B} (m : M W A) (f : A -> M W B) w a w' :
  m w = Ok a w' -> bind m f w = f a w'.
Proof. unfold bind. by intros ->. Qed.
Lemma bind_Hang {W A B} (m : M W A) (f : A -> M W B) w : m w = Hang -> bind m f w = Hang.
Proof. unfold bind. by intros ->. Qed.
Lemma bind_inv {W A B} (m : M W A) (f : A -> M W B) w b w' :
  bind m f w = Ok b w' -> exists a w1, m w = Ok a w1 /\ f a w1 = Ok b w'.
Proof. unfold bind. destruct (m w); naive_solver. Qed.
Lemma bind_ext {W A B} (m : M W A) (f g : A -> M W B) w :
  (forall a w', f a w' = g a w') -> bind m f w = bind m g w.
Proof. intros H. unfold bind. destruct (m w); auto. Qed.

Lemma iter_S {W S A} n (body : S -> M W (S + A)) s w :
  iter (Datatypes.S n) body s w =
  bind (body s) (fun r => match r with inl s' => iter n body s' | inr a => ret a end) w.
Proof. reflexivity. Qed.

Lemma for_each_app {W X} (l l' : list X) (f : X -> M W unit) w :
  for_each (l ++ l') f w = bind (for_each l f) (fun _ => for_each l' f) w.
Proof.
  revert w. induction l as [|x l IH]; intros w; cbn [app for_each]; [by rewrite bind_ret|].
  rewrite bind_bind. apply bind_ext. intros [] w'. apply IH.
Qed.

(** Fuel only decides whether a loop is seen to end: a run that ends keeps its
    outcome with more fuel. *)
Lemma iter_mono {W S A} (body : S -> M W (S + A)) n m s w :
  (n <= m)%nat -> iter n body s w <> Hang -> iter m body s w = iter n body s w.
Proof.
  revert m s w. induction n as [|n IH]; intros [|m] s w Hle Hne; try done; [lia|].
  rewrite iter_S in Hne. rewrite (iter_S m), (iter_S n). unfold bind in *.
  destruct (body s w) as [[s'|a] w'| | |]; try done.
  apply IH; [lia|done].
Qed.

(** Rule for a loop that terminates with an invariant [I] and a measure. *)
Lemma iter_total {W S A} (body : S -> M W (S + A)) (I : S -> W -> Prop)
    (Q : A -> W -> Prop) (mu : S -> W -> nat) :
  (forall s w, I s w -> exists r w', body s w = Ok r w' /\
     match r with
     | inl s' => I s' w' /\ (mu s' w' < mu s w)%nat
     | inr a => Q a w'
     end) ->
  forall n s w, I s w -> (mu s w < n)%nat ->
  exists a w', iter n body s w = Ok a w' /\ Q a w'.
Proof.
  intros Hbody n. induction n as [|n IH]; intros s w HI Hmu; [lia|].
  destruct (Hbody s w HI) as ([s'|a] & w' & Hrun & Hpost).
  - destruct Hpost as [HI' Hlt]. destruct (IH s' w' HI') as (a & w2 & Hr & HQ); [lia|].
    exists a, w2. split; [|done]. rewrite iter_S. by rewrite (bind_Ok _ _ _ _ _ Hrun).
  - exists a, w'. split; [|done]. rewrite iter_S. by rewrite (bind_Ok _ _ _ _ _ Hrun).
Qed.

(** Rule for a loop that may not terminate: whatever it returns satisfies [Q]. *)
Lemma iter_partial {W S A} (body : S -> M W (S + A)) (I : S -> W -> Prop)
    (Q : A -> W -> Prop) :
  (forall s w r w', I s w -> body s w = Ok r w' ->
     match r with inl s' => I s' w' | inr a => Q a w' end) ->
  forall n s w a w', I s w -> iter n body s w = Ok a w' -> Q a w'.
Proof.
  intros Hbody n. induction n as [|n IH]; intros s w a w' HI Hrun; [done|].
  rewrite iter_S in Hrun. apply bind_inv in Hrun as (r & w1 & Hr & Hk).
  pose proof (Hbody s w r w1 HI Hr) as Hp. destruct r as [s'|b].
  - eauto.
  - by injection Hk as <- <-.
Qed.

(** ** Safety of runs

    [safe m w Q E]: the run of [m] from [w] has no undefined behaviour; if it
    returns, the result satisfies [Q], and if it raises, the state satisfies
    [E].  It may also wait for ever. *)
Definition safe {W A} (m : M W A) (w : W) (Q : A -> W -> Prop) (E : W -> Prop) : Prop :=
  match m w with
  | Ok a w' => Q a w'
  | Raise _ _ w' => E w'
  | Fault _ _ => False
  | Hang => True
  end.

Lemma safe_ret {W A} (a : A) (w : W) (Q : A -> W -> Prop) E : Q a w -> safe (ret a) w Q E.
Proof. done. Qed.
Lemma safe_bind {W A B} (m : M W A) (f : A -> M W B) w R Q E :
  safe m w R E -> (forall a w', R a w' -> safe (f a) w' Q E) -> safe (bind m f) w Q E.
Proof. unfold safe, bind. destruct (m w); auto. intros HR Hf. apply (Hf _ _ HR). Qed.
Lemma safe_mono {W A} (m : M W A) w (Q Q' : A -> W -> Prop) (E E' : W -> Prop) :
  safe m w Q E -> (forall a w', Q a w' -> Q' a w') -> (forall w', E w' -> E' w') -> safe m w Q' E'.
Proof. unfold safe. destruct (m w); auto. Qed.
Lemma safe_iter {W S A} (body : S -> M W (S + A)) (I : S -> W -> Prop) (Q : A -> W -> Prop) E :
  (forall s w, I s w -> safe (body s) w (fun r w' =>
     match r with inl s' => I s' w' | inr a => Q a w' end) E) ->
  forall n s w, I s w -> safe (iter n body s) w Q E.
Proof.
  intros Hb n. induction n as [|n IH]; intros s w HI; [done|].
  cbn [iter]. eapply safe_bind; [by apply Hb|]. intros [s'|a] w' Hr; [by apply IH|done].
Qed.

(** Rewriting of the monad's administrative steps. *)
Ltac m_norm :=
  repeat first
    [ progress cbn [bind ret get put gets modify when deref]
    | rewrite bind_ret | rewrite bind_bind ].
Ltac m_unfold := unfold bind, ret, get, put, gets, modify, when, deref, raise, crash, hang in *.

(** Inversion of a monadic run that returned. *)
Ltac m_inv :=
  repeat match goal with
  | H : bind _ _ _ = Ok _ _ |- _ =>
      let a := fresh "a" in let w := fresh "w" in let H1 := fresh H in
      apply bind_inv in H as (a & w & H1 & H)
  | H : ret _ _ = Ok _ _ |- _ => unfold ret in H; injection H as ? ?; subst
  | H : Ok _ _ = Ok _ _ |- _ => injection H as ? ?; subst
  end.

(** ** Arithmetic shared by the components *)

Lemma wrap_range w x : 0 <= w -> 0 <= wrap w x < 2 ^ w.
Proof. intros. apply Z.mod_pos_bound, Z.pow_pos_nonneg; lia. Qed.
Lemma wrap_small w x : 0 <= x < 2 ^ w -> wrap w x = x.
Proof. apply Z.mod_small. Qed.
Lemma u8_range x : 0 <= u8 x < 256.
Proof. apply (wrap_range 8). lia. Qed.
Lemma u32_range x : 0 <= u32 x < 2 ^ 32.
Proof. apply (wrap_range 32). lia. Qed.
Lemma u8_small x : 0 <= x < 256 -> u8 x = x.
Proof. apply (wrap_small 8). Qed.
Lemma u32_small x : 0 <= x < 2 ^ 32 -> u32 x = x.
Proof. apply (wrap_small 32). Qed.
Lemma u8_add_l a b : u8 (u8 a + b) = u8 (a + b).
Proof. apply Zplus_mod_idemp_l. Qed.
Lemma u8_add_r a b : u8 (a + u8 b) = u8 (a + b).
Proof. apply Zplus_mod_idemp_r. Qed.
Lemma u32_add_l a b : u32 (u32 a + b) = u32 (a + b).
Proof. apply Zplus_mod_idemp_l. Qed.

(** A property of every byte holds when the 256 cases compute to true. *)
Definition all_bytes : list Z := seqZ 0 256.
Lemma all_bytes_spec (P : Z -> bool) b :
  forallb P all_bytes = true -> is_byte b -> P b = true.
Proof.
  intros H Hb. apply (proj1 (forallb_forall P all_bytes) H).
  apply list_elem_of_In, elem_of_seqZ. unfold in_width in Hb. lia.
Qed.

Lemma in_width_land w a m : 0 <= w -> 0 <= m -> in_width w a -> in_width w (Z.land a m).
Proof.
  unfold in_width. intros Hw Hm Ha. split; [apply Z.land_nonneg; lia|].
  destruct (Z.eq_dec (Z.land a m) 0) as [->|Hne]; [apply Z.pow_pos_nonneg; lia|].
  assert (0 <= Z.land a m) by (apply Z.land_nonneg; lia).
  apply Z.log2_lt_pow2; [lia|].
  eapply Z.le_lt_trans; [apply Z.log2_land; lia|].
  assert (a <> 0) by (intros ->; by rewrite Z.land_0_l in Hne).
  eapply Z.le_lt_trans; [apply Z.le_min_l|]. apply Z.log2_lt_pow2; lia.
Qed.
Lemma in_width_lxor w a b : 0 <= w -> in_width w a -> in_width w b -> in_width w (Z.lxor a b).
Proof.
  unfold in_width. intros Hw Ha Hb.
  assert (0 <= Z.lxor a b) by (apply Z.lxor_nonneg; lia). split; [done|].
  destruct (Z.eq_dec (Z.lxor a b) 0) as [->|Hne]; [apply Z.pow_pos_nonneg; lia|].
  apply Z.log2_lt_pow2; [lia|].
  eapply Z.le_lt_trans; [apply Z.log2_lxor; lia|].
  destruct (Z.eq_dec w 0) as [->|]; [assert (a = 0) by lia; assert (b = 0) by lia; by subst|].
  apply Z.max_lub_lt.
  - destruct (Z.eq_dec a 0) as [->|]; [cbn; lia|]. apply Z.log2_lt_pow2; lia.
  - destruct (Z.eq_dec b 0) as [->|]; [cbn; lia|]. apply Z.log2_lt_pow2; lia.
Qed.
Lemma in_width_lor w a b : 0 <= w -> in_width w a -> in_width w b -> in_width w (Z.lor a b).
Proof.
  unfold in_width. intros Hw Ha Hb.
  assert (0 <= Z.lor a b) by (apply Z.lor_nonneg; lia). split; [done|].
  destruct (Z.eq_dec (Z.lor a b) 0) as [->|Hne]; [apply Z.pow_pos_nonneg; lia|].
  apply Z.log2_lt_pow2; [lia|]. rewrite Z.log2_lor by lia.
  destruct (Z.eq_dec w 0) as [->|]; [assert (a = 0) by lia; assert (b = 0) by lia; by subst|].
  apply Z.max_lub_lt.
  - destruct (Z.eq_dec a 0) as [->|]; [cbn; lia|]. apply Z.log2_lt_pow2; lia.
  - destruct (Z.eq_dec b 0) as [->|]; [cbn; lia|]. apply Z.log2_lt_pow2; lia.
Qed.

Lemma flag_testbit x i : 0 <= i -> flag x (2 ^ i) = Z.testbit x i.
Proof.
  intros Hi. unfold flag. destruct (Z.testbit x i) eqn:Hb.
  - destruct (Z.eqb_spec (Z.land x (2 ^ i)) 0) as [Hz|]; [|done].
    assert (Hx : Z.testbit (Z.land x (2 ^ i)) i = true) by (by rewrite Z.land_spec, Hb, Z.pow2_bits_true).
    by rewrite Hz, Z.bits_0 in Hx.
  - destruct (Z.eqb_spec (Z.land x (2 ^ i)) 0) as [|Hz]; [done|]. exfalso. apply Hz, Z.bits_inj'. intros n Hn.
    rewrite Z.land_spec, Z.bits_0, Z.pow2_bits_eqb by lia. destruct (Z.eqb_spec i n) as [<-|]; [by rewrite Hb|apply andb_false_r].
Qed.

(** ** Byte strings and little-endian words *)

Fixpoint le_bytes (n : nat) (x : Z) : list Z :=
  match n with
  | O => []
  | S n' => u8 x :: le_bytes n' (Z.shiftr x 8)
  end.
Fixpoint le_val (l : list Z) : Z :=
  match l with
  | [] => 0
  | b :: l' => b + 256 * le_val l'
  end.

Lemma length_le_bytes n x : length (le_bytes n x) = n.
Proof. revert x. induction n; intros; cbn; auto. Qed.
Lemma le_bytes_is_bytes n x : is_bytes (le_bytes n x).
Proof. revert x. induction n; intros; constructor; auto. apply u8_range. Qed.
Lemma le_val_bytes n x : le_val (le_bytes n x) = x mod 256 ^ Z.of_nat n.
Proof.
  revert x. induction n as [|n IH]; intros x; [by rewrite Z.mod_1_r|].
  cbn [le_bytes le_val]. rewrite IH, Z.shiftr_div_pow2 by lia.
  rewrite Nat2Z.inj_succ, Z.pow_succ_r by lia. unfold u8, wrap.
  change (2 ^ 8) with 256. symmetry. apply Z.rem_mul_r; [lia|]. apply Z.pow_pos_nonneg; lia.
Qed.
Lemma le_val_range l : is_bytes l -> 0 <= le_val l < 256 ^ Z.of_nat (length l).
Proof.
  induction 1 as [|b l Hb Hl IH]; [cbn; lia|].
  cbn [le_val length]. rewrite Nat2Z.inj_succ, Z.pow_succ_r by lia. unfold in_width in Hb. lia.
Qed.
Lemma le_bytes_val l : is_bytes l -> le_bytes (length l) (le_val l) = l.
Proof.
  induction 1 as [|b l Hb Hl IH]; [done|]. cbn [le_val length le_bytes]. unfold in_width in Hb.
  f_equal.
  - unfold u8, wrap. change (2 ^ 8) with 256 in *.
    rewrite Z.mul_comm, Z.mod_add by lia. apply Z.mod_small. lia.
  - rewrite Z.shiftr_div_pow2 by lia. change (2 ^ 8) with 256 in *.
    rewrite Z.mul_comm, Z.div_add by lia. rewrite (Z.div_small b) by lia. done.
Qed.

(** Lists indexed by a C integer. *)
Definition zlen {A} (l : list A) : Z := Z.of_nat (length l).
Definition ztake {A} (n : Z) (l : list A) : list A := take (Z.to_nat n) l.
Definition zdrop {A} (n : Z) (l : list A) : list A := drop (Z.to_nat n) l.
Definition zget (l : list Z) (i : Z) : Z :=
  if i <? 0 then 0 else nth (Z.to_nat i) l 0.
(** [memcpy(buf + off, src, len)]: the bytes outside [off, off + len) stay. *)
Definition splice (buf : list Z) (off : Z) (src : list Z) : list Z :=
  ztake off buf ++ src ++ zdrop (off + zlen src) buf.
Definition memset (n : Z) (c : Z) : list Z := replicate (Z.to_nat n) c.

Lemma zlen_nonneg {A} (l : list A) : 0 <= zlen l.
Proof. unfold zlen. lia. Qed.
Lemma zlen_app {A} (l k : list A) : zlen (l ++ k) = zlen l + zlen k.
Proof. unfold zlen. rewrite length_app. lia. Qed.
Lemma zlen_cons {A} (x : A) (l : list A) : zlen (x :: l) = zlen l + 1.
Proof. unfold zlen. cbn. lia. Qed.
Lemma zlen_memset n c : 0 <= n -> zlen (memset n c) = n.
Proof. intros. unfold zlen, memset. rewrite length_replicate. lia. Qed.
Lemma zlen_ztake {A} n (l : list A) : 0 <= n <= zlen l -> zlen (ztake n l) = n.
Proof. unfold zlen, ztake. intros. rewrite length_take. lia. Qed.
Lemma zlen_zdrop {A} n (l : list A) : 0 <= n <= zlen l -> zlen (zdrop n l) = zlen l - n.
Proof. unfold zlen, zdrop. intros. rewrite length_drop. lia. Qed.
Lemma zlen_splice buf off src :
  0 <= off -> off + zlen src <= zlen buf -> zlen (splice buf off src) = zlen buf.
Proof.
  intros. unfold splice. pose proof (zlen_nonneg src).
  rewrite !zlen_app, zlen_ztake, zlen_zdrop by lia. lia.
Qed.
Lemma splice_nil buf off : splice buf off [] = buf.
Proof. unfold splice, zdrop, ztake, zlen. cbn. rewrite Z.add_0_r. apply take_drop. Qed.
Lemma zlen_insert (buf : list Z) n c : zlen (<[n := c]> buf) = zlen buf.
Proof. unfold zlen. by rewrite length_insert. Qed.
(** Storing one byte and then the rest is storing the whole. *)
Lemma splice_insert (buf : list Z) i c src : 0 <= i < zlen buf ->
  splice (<[Z.to_nat i := c]> buf) (i + 1) src = splice buf i (c :: src).
Proof.
  unfold zlen. intros Hi. unfold splice, ztake, zdrop, zlen. cbn [length].
  replace (Z.to_nat (i + 1)) with (S (Z.to_nat i)) by lia.
  replace (Z.to_nat (i + 1 + Z.of_nat (length src))) with (S (Z.to_nat i) + length src)%nat by lia.
  replace (Z.to_nat (i + Z.of_nat (S (length src)))) with (S (Z.to_nat i) + length src)%nat by lia.
  rewrite drop_insert_lt by lia.
  rewrite (take_S_r _ _ c) by (rewrite list_lookup_insert_eq; [done|lia]).
  rewrite take_insert_ge by lia. by rewrite <- app_assoc.
Qed.
Lemma ztake_splice0 buf src : zlen src <= zlen buf -> ztake (zlen src) (splice buf 0 src) = src.
Proof.
  intros. unfold splice, ztake, zlen. rewrite Nat2Z.id. change (Z.to_nat 0) with 0%nat.
  rewrite take_0. cbn. by rewrite take_app_length.
Qed.
Lemma ztake_zdrop {A} n (l : list A) : ztake n l ++ zdrop n l = l.
Proof. apply take_drop. Qed.

(** Reading with [zget]. *)
Lemma zget_lookup (l : list Z) i : 0 <= i < zlen l -> l !! Z.to_nat i = Some (zget l i).
Proof.
  unfold zlen, zget. intros Hi. rewrite (proj2 (Z.ltb_ge _ _)) by lia.
  destruct (lookup_lt_is_Some_2 l (Z.to_nat i)) as [x Hx]; [lia|].
  by rewrite Hx, (nth_lookup_Some _ _ _ _ Hx).
Qed.
Lemma zget_memset n c i : 0 <= i < n -> zget (memset n c) i = c.
Proof.
  intros Hi. assert (E : memset n c !! Z.to_nat i = Some (zget (memset n c) i))
    by (apply zget_lookup; rewrite zlen_memset; lia).
  unfold memset in E at 1. apply lookup_replicate in E as [-> _]. done.
Qed.
Lemma zget_app (l k : list Z) i : 0 <= i ->
  zget (l ++ k) i = if i <? zlen l then zget l i else zget k (i - zlen l).
Proof.
  unfold zget, zlen. intros Hi. rewrite (proj2 (Z.ltb_ge _ _)) by lia.
  destruct (i <? Z.of_nat (length l)) eqn:E.
  - apply app_nth1. lia.
  - rewrite (proj2 (Z.ltb_ge _ _)) by lia. rewrite app_nth2 by lia. f_equal. lia.
Qed.
Lemma zget_ztake (l : list Z) n i : 0 <= i < n -> zget (ztake n l) i = zget l i.
Proof.
  intros Hi. unfold zget, ztake. rewrite (proj2 (Z.ltb_ge _ _)) by lia.
  rewrite <- (firstn_skipn (Z.to_nat n) l) at 2.
  destruct (decide (Z.to_nat i < length (firstn (Z.to_nat n) l))%nat) as [Hl|Hl].
  - by rewrite app_nth1.
  - rewrite !nth_overflow; [done| |lia]. rewrite length_app, length_firstn, length_skipn in *. lia.
Qed.
Lemma zget_zdrop (l : list Z) n i : 0 <= n -> 0 <= i -> zget (zdrop n l) i = zget l (n + i).
Proof.
  intros Hn Hi. unfold zget, zdrop. rewrite !(proj2 (Z.ltb_ge _ _)) by lia.
  change (nth (Z.to_nat i) (skipn (Z.to_nat n) l) 0 = nth (Z.to_nat (n + i)) l 0).
  rewrite nth_skipn. f_equal. lia.
Qed.
Lemma zget_splice (b c : list Z) off i : 0 <= off -> off + zlen c <= zlen b -> 0 <= i ->
  zget (splice b off c) i = if (off <=? i) && (i <? off + zlen c) then zget c (i - off) else zget b i.
Proof.
  intros Ho Hb Hi. pose proof (zlen_nonneg c). unfold splice.
  rewrite zget_app, zlen_ztake by lia. destruct (i <? off) eqn:E1.
  - rewrite zget_ztake by lia. by rewrite (proj2 (Z.leb_gt _ _)) by lia.
  - rewrite (proj2 (Z.leb_le _ _)) by lia. cbn. rewrite zget_app by lia.
    destruct (i <? off + zlen c) eqn:E2.
    + by rewrite (proj2 (Z.ltb_lt _ _)) by lia.
    + rewrite (proj2 (Z.ltb_ge _ _)) by lia. rewrite zget_zdrop by lia. f_equal. lia.
Qed.

Lemma ztake_all {A} (l : list A) : ztake (zlen l) l = l.
Proof. unfold ztake, zlen. rewrite Nat2Z.id. apply firstn_all. Qed.
Lemma is_bytes_memset n c : is_byte c -> is_bytes (memset n c).
Proof. intros Hc. by apply Forall_replicate. Qed.
Lemma is_bytes_splice buf off src : is_bytes buf -> is_bytes src -> is_bytes (splice buf off src).
Proof. intros Hb Hs. unfold splice. apply Forall_app. split; [by apply Forall_take|]. apply Forall_app. split; [done|by apply Forall_drop]. Qed.
Lemma zget_ext (l k : list Z) : zlen l = zlen k -> (forall i, 0 <= i < zlen l -> zget l i = zget k i) -> l = k.
Proof.
  intros Hl Hi. apply list_eq. intros n. destruct (decide (n < length l)%nat) as [Hn|Hn].
  - assert (E := Hi (Z.of_nat n) ltac:(unfold zlen; lia)).
    pose proof (zget_lookup l (Z.of_nat n) ltac:(unfold zlen; lia)) as H1.
    pose proof (zget_lookup k (Z.of_nat n) ltac:(unfold zlen in *; lia)) as H2.
    rewrite Nat2Z.id in *. by rewrite H1, H2, E.
  - rewrite !lookup_ge_None_2; [done| |]; unfold zlen in *; lia.
Qed.

(** ** Hints shared by the development *)
Create HintDb bytes.
#[export] Hint Resolve u8_range u32_range le_bytes_is_bytes zlen_nonneg : bytes.
#[export] Hint Rewrite @zlen_app @zlen_cons length_le_bytes : bytes.
