(* ===== verification/CLib.v ===== *)
(** The parts of the C standard library the firmware's protocol code uses:
    character classes, [strtol], the [sscanf] conversions [%x %d %c %n], the
    [printf] conversions [%d %x %X], [strncmp] as a prefix test, and C strings
    inside a byte buffer.  Strings are lists of byte values. *)

From Stdlib Require Import ZArith Lia String Ascii.
From stdpp Require Import base list numbers option.
From S2P Require Import Prelude.

(** A string literal as bytes, without its terminating NUL. *)
Definition str (s : string) : list Z :=
  List.map (fun c => Z.of_N (N_of_ascii c)) (list_ascii_of_string s).
Definition chr (s : string) : Z := zget (str s) 0.

(** The C string that starts at [s]: the bytes before the first NUL. *)
Fixpoint cstr (s : list Z) : list Z :=
  match s with
  | [] => []
  | c :: s' => if c =? 0 then [] else c :: cstr s'
  end.

(** [strncmp(s, p, strlen(p)) == 0]. *)
Fixpoint prefixb (p s : list Z) : bool :=
  match p, s with
  | [], _ => true
  | a :: p', b :: s' => (a =? b) && prefixb p' s'
  | _ :: _, [] => false
  end.
Fixpoint eqb_str (a b : list Z) : bool :=
  match a, b with
  | [], [] => true
  | x :: a', y :: b' => (x =? y) && eqb_str a' b'
  | _, _ => false
  end.

(** ** Character classes *)
Definition isspace (c : Z) : bool := (c =? 32) || ((9 <=? c) && (c <=? 13)).
Definition isdigit (c : Z) : bool := (48 <=? c) && (c <=? 57).
Definition isxdigit (c : Z) : bool :=
  isdigit c || ((65 <=? c) && (c <=? 70)) || ((97 <=? c) && (c <=? 102)).

(** The value of a digit character in bases up to 16. *)
Definition digit_val (c : Z) : Z :=
  if isdigit c then c - 48
  else if (65 <=? c) && (c <=? 70) then c - 55
  else if (97 <=? c) && (c <=? 102) then c - 87
  else 16.

(** ** Integer input

    [scan_digits base fuel acc s] reads at most [fuel] digits of [base]; it
    gives the value, the number of digits read and the rest. *)
Fixpoint scan_digits (base : Z) (fuel : nat) (acc : Z) (s : list Z) : Z * nat * list Z :=
  match fuel, s with
  | S n, c :: s' =>
      if digit_val c <? base then
        let '(v, k, r) := scan_digits base n (acc * base + digit_val c) s' in (v, S k, r)
      else (acc, O, s)
  | _, _ => (acc, O, s)
  end.

Fixpoint skip_space (s : list Z) : list Z :=
  match s with
  | c :: s' => if isspace c then skip_space s' else s
  | [] => []
  end.

(** The subject sequence of [strtol] and of the integer conversions of
    [scanf]: an optional sign, for base 16 an optional 0x, digits.  [None]: no
    conversion; otherwise (negative?, magnitude, rest).  [width] bounds the
    characters consumed. *)
Definition scan_int (base : Z) (width : nat) (s : list Z) : option (bool * Z * list Z) :=
  let '(neg, w1, s1) :=
    match width, s with
    | S w, c :: s' =>
        if c =? 45 then (true, w, s') else if c =? 43 then (false, w, s') else (false, width, s)
    | _, _ => (false, width, s)
    end in
  let '(w2, s2) :=
    match w1, s1 with
    | S (S (S _ as w)), z :: x :: d :: _ =>
        if (base =? 16) && (z =? 48) && ((x =? 120) || (x =? 88)) && (digit_val d <? 16)
        then (w, List.tl (List.tl s1)) else (w1, s1)
    | _, _ => (w1, s1)
    end in
  let '(v, k, r) := scan_digits base w2 0 s2 in
  match k with O => None | S _ => Some (neg, v, r) end.

(** [long] and [unsigned long] have 32 bits on the probe. *)
Definition to_long (neg : bool) (v : Z) : Z :=
  Z.max (- 2 ^ 31) (Z.min (2 ^ 31 - 1) (if neg then - v else v)).
Definition to_ulong (neg : bool) (v : Z) : Z :=
  if 2 ^ 32 - 1 <? v then 2 ^ 32 - 1 else if neg then u32 (- v) else v.

(** [strtol(s, &end, base)] for base 10 or 16, with [end]. *)
Definition strtol_end (base : Z) (s : list Z) : Z * list Z :=
  match scan_int base (length s) (skip_space s) with
  | Some (neg, v, r) => (to_long neg v, r)
  | None => (0, s)
  end.
Definition strtol (base : Z) (s : list Z) : Z := fst (strtol_end base s).
Definition strtoul (base : Z) (s : list Z) : Z :=
  match scan_int base (length s) (skip_space s) with
  | Some (neg, v, r) => to_ulong neg v
  | None => 0
  end.

(** ** [sscanf] *)
Inductive conv : Set :=
| CLit (c : Z)             (* an ordinary character *)
| CHex (width : nat)       (* %x, %8lx: an unsigned int, at most width characters *)
| CDec                     (* %d *)
| CChr                     (* %c *)
| CPos.                    (* %n *)

(** No field of a packet is longer than this: the width of a conversion
    without one. *)
Definition nowidth : nat := 4096.

(** [sscanf fmt s total]: the values stored, in the order of the arguments
    (the arguments after them keep their indeterminate value), and the number
    of conversions [sscanf] returns ([%n] does not count).  [total] is the
    length of the whole string, for [%n]. *)
Fixpoint sscanf (fmt : list conv) (s : list Z) (total : Z) : list Z * Z :=
  match fmt with
  | [] => ([], 0)
  | CLit c :: fmt' =>
      match s with
      | b :: s' => if b =? c then sscanf fmt' s' total else ([], 0)
      | [] => ([], 0)
      end
  | CHex w :: fmt' =>
      match scan_int 16 w (skip_space s) with
      | Some (neg, v, r) =>
          let '(l, n) := sscanf fmt' r total in (to_ulong neg v :: l, n + 1)
      | None => ([], 0)
      end
  | CDec :: fmt' =>
      match scan_int 10 nowidth (skip_space s) with
      | Some (neg, v, r) =>
          let '(l, n) := sscanf fmt' r total in (to_long neg v :: l, n + 1)
      | None => ([], 0)
      end
  | CChr :: fmt' =>
      match s with
      | b :: s' => let '(l, n) := sscanf fmt' s' total in (b :: l, n + 1)
      | [] => ([], 0)
      end
  | CPos :: fmt' =>
      let '(l, n) := sscanf fmt' s total in (total - zlen s :: l, n)
  end.
Definition scan (fmt : list conv) (s : list Z) : list Z * Z :=
  let c := cstr s in sscanf fmt c (zlen c).
Definition lits (s : string) : list conv := List.map CLit (str s).

(** ** Integer output *)
Definition digit_char (upper : bool) (d : Z) : Z :=
  if d <? 10 then 48 + d else (if upper then 55 else 87) + d.
(** Exactly [n] digits, the most significant first. *)
Fixpoint hex_fixed (upper : bool) (n : nat) (x : Z) : list Z :=
  match n with
  | O => []
  | S n' => hex_fixed upper n' (x / 16) ++ [digit_char upper (x mod 16)]
  end.
(** The digits of [x] without leading zeros, one at least. *)
Fixpoint digits (upper : bool) (base : Z) (fuel : nat) (x : Z) (acc : list Z) : list Z :=
  match fuel with
  | O => acc
  | S n =>
      let acc' := digit_char upper (x mod base) :: acc in
      if x / base =? 0 then acc' else digits upper base n (x / base) acc'
  end.
Definition pad0 (n : nat) (s : list Z) : list Z := replicate (n - length s) 48 ++ s.
(** [%0<n>X], [%0<n>x] and [%d]. *)
Definition fmt_X (n : nat) (x : Z) : list Z := pad0 n (digits true 16 20 x []).
Definition fmt_x (n : nat) (x : Z) : list Z := pad0 n (digits false 16 20 x []).
Definition fmt_d (x : Z) : list Z :=
  if x <? 0 then 45 :: digits false 10 20 (- x) [] else digits false 10 20 x [].

(** ** Byte buffers: accesses outside the object are undefined behaviour *)
Definition load {W} (buf : list Z) (i : Z) : M W Z :=
  if (0 <=? i) && (i <? zlen buf) then ret (zget buf i) else crash OutOfBounds.
Definition store {W} (buf : list Z) (i v : Z) : M W (list Z) :=
  if (0 <=? i) && (i <? zlen buf) then ret (<[Z.to_nat i := v]> buf) else crash OutOfBounds.
Definition load_n {W} (buf : list Z) (off n : Z) : M W (list Z) :=
  if (0 <=? off) && (0 <=? n) && (off + n <=? zlen buf)
  then ret (ztake n (zdrop off buf)) else crash OutOfBounds.
Definition store_n {W} (buf : list Z) (off : Z) (src : list Z) : M W (list Z) :=
  if (0 <=? off) && (off + zlen src <=? zlen buf)
  then ret (splice buf off src) else crash OutOfBounds.

(** ** Lemmas *)

Lemma prefixb_spec p s : prefixb p s = true <-> exists r, s = p ++ r.
Proof.
  revert s. induction p as [|a p IH]; intros s; cbn; [naive_solver|].
  destruct s as [|b s]; cbn; [naive_solver|].
  rewrite andb_true_iff, Z.eqb_eq, IH. naive_solver.
Qed.
Lemma eqb_str_eq a b : eqb_str a b = true <-> a = b.
Proof.
  revert b. induction a as [|x a IH]; intros [|y b]; cbn; try naive_solver.
  rewrite andb_true_iff, Z.eqb_eq, IH. naive_solver.
Qed.

Lemma cstr_app_nul s t : Forall (fun c => c <> 0) s -> cstr (s ++ 0 :: t) = s.
Proof.
  induction 1 as [|c s Hc _ IH]; [done|]. cbn. by rewrite (proj2 (Z.eqb_neq c 0) Hc), IH.
Qed.
Lemma cstr_id s : Forall (fun c => c <> 0) s -> cstr s = s.
Proof.
  induction 1 as [|c s Hc _ IH]; [done|]. cbn. by rewrite (proj2 (Z.eqb_neq c 0) Hc), IH.
Qed.

Lemma digit_char_hex up d : 0 <= d < 16 ->
  digit_val (digit_char up d) = d /\ isxdigit (digit_char up d) = true /\ 48 <= digit_char up d < 103.
Proof.
  intros Hd. assert (d ∈ seqZ 0 16) as Hin by (apply elem_of_seqZ; lia).
  assert (H : forallb (fun d => (digit_val (digit_char up d) =? d) && isxdigit (digit_char up d)
    && (48 <=? digit_char up d) && (digit_char up d <? 103)) (seqZ 0 16) = true)
    by (destruct up; vm_compute; reflexivity).
  pose proof (proj1 (forallb_forall _ _) H d (proj1 (list_elem_of_In _ _) Hin)) as Hc.
  cbn beta in Hc. repeat (apply andb_true_iff in Hc as [Hc ?]). split_and!; auto; lia.
Qed.

Lemma length_hex_fixed up n x : length (hex_fixed up n x) = n.
Proof.
  revert x. induction n as [|n IH]; intros; [done|]. cbn [hex_fixed].
  rewrite length_app, IH. cbn. lia.
Qed.

Lemma scan_digits_snoc n acc s c :
  digit_val c < 16 ->
  scan_digits 16 n acc s = (fst (fst (scan_digits 16 n acc s)), length s, []) ->
  (length s < n)%nat ->
  scan_digits 16 n acc (s ++ [c]) =
    (fst (fst (scan_digits 16 n acc s)) * 16 + digit_val c, S (length s), []).
Proof.
  revert acc s. induction n as [|n IH]; intros acc s Hc Hall Hlen; [lia|].
  destruct s as [|d s]; cbn in *.
  - rewrite (proj2 (Z.ltb_lt _ _) Hc). by destruct n.
  - destruct (digit_val d <? 16); [|by injection Hall].
    specialize (IH (acc * 16 + digit_val d) s Hc).
    destruct (scan_digits 16 n (acc * 16 + digit_val d) s) as [[v k] r] eqn:E. cbn in *.
    injection Hall as -> ->. rewrite IH; [done|done|lia].
Qed.

(** Reading back fixed-width hex digits gives the number. *)
Lemma scan_digits_hex_fixed up n m x :
  0 <= x < 16 ^ Z.of_nat n -> (n <= m)%nat ->
  scan_digits 16 m 0 (hex_fixed up n x) = (x, n, []).
Proof.
  revert x. induction n as [|n IH]; intros x Hx Hm.
  - cbn in Hx. destruct m; cbn; repeat f_equal; lia.
  - cbn [hex_fixed].
    rewrite Nat2Z.inj_succ, Z.pow_succ_r in Hx by lia.
    assert (Hd : 0 <= x / 16 < 16 ^ Z.of_nat n)
      by (split; [apply Z.div_pos; lia|apply Z.div_lt_upper_bound; lia]).
    assert (Hm16 : 0 <= x mod 16 < 16) by (apply Z.mod_pos_bound; lia).
    destruct (digit_char_hex up (x mod 16) Hm16) as (Hv & _).
    rewrite scan_digits_snoc; rewrite ?Hv, ?(IH (x / 16)), ?length_hex_fixed by lia; cbn; try done; try lia.
    repeat f_equal. pose proof (Z.div_mod x 16). lia.
Qed.

(** A character that is no digit ends the conversion. *)
Lemma scan_digits_app base fuel acc s v k c r :
  scan_digits base fuel acc s = (v, k, []) -> base <= digit_val c -> scan_digits base fuel acc (s ++ c :: r) = (v, k, c :: r).
Proof.
  intros Hs Hc. revert acc s v k Hs. induction fuel as [|fuel IH]; intros acc s v k Hs.
  - cbn in *. injection Hs as <- <- ->. done.
  - destruct s as [|d s]; cbn in *.
    + injection Hs as <- <-. by rewrite (proj2 (Z.ltb_ge _ _)) by lia.
    + destruct (digit_val d <? base); [|by injection Hs].
      destruct (scan_digits base fuel (acc * base + digit_val d) s) as [[v' k'] r'] eqn:E.
      injection Hs as <- <- ->. by rewrite (IH _ _ _ _ E).
Qed.
Lemma hex_fixed_head up n x : exists d, 0 <= d < 16 /\ exists l, hex_fixed up (S n) x = digit_char up d :: l /\
  (l = [] /\ n = O \/ exists d2 l2, 0 <= d2 < 16 /\ l = digit_char up d2 :: l2).
Proof.
  revert x. induction n as [|n IH]; intros x.
  - exists (x mod 16). split; [apply Z.mod_pos_bound; lia|]. exists []. split; [done|auto].
  - destruct (IH (x / 16)) as (d & Hd & l & El & Hl). exists d. split; [done|].
    change (hex_fixed up (S (S n)) x) with (hex_fixed up (S n) (x / 16) ++ [digit_char up (x mod 16)]). rewrite El.
    eexists. split; [done|]. right. destruct Hl as [[-> ->]|(d2 & l2 & Hd2 & ->)].
    + eexists _, []. split; [|done]. apply Z.mod_pos_bound. lia.
    + by eexists d2, _.
Qed.
(** [%x] reads back a number written with [n] hex digits, up to the first
    character that is not one. *)
Lemma scan_int_hex up n w x c r : 0 <= x < 16 ^ Z.of_nat (S n) -> (S n <= w)%nat -> 16 <= digit_val c -> c <> 120 -> c <> 88 ->
  scan_int 16 w (hex_fixed up (S n) x ++ c :: r) = Some (false, x, c :: r).
Proof.
  intros Hx Hw Hc Hcx HcX. pose proof (scan_digits_app 16 w 0 _ _ _ c r (scan_digits_hex_fixed up (S n) w x Hx Hw) Hc) as Hs.
  destruct (hex_fixed_head up n x) as (d & Hd & l & El & Hl). destruct (digit_char_hex up d Hd) as (Hv & _ & Hr).
  unfold scan_int. rewrite El in *. cbn [app] in *. destruct w as [|w]; [lia|].
  rewrite !(proj2 (Z.eqb_neq (digit_char up d) _)) by lia. cbn [Z.eqb].
  assert (Hno : match l ++ c :: r with x0 :: _ => (x0 =? 120) || (x0 =? 88) = false | [] => True end).
  { destruct Hl as [[-> _]|(d2 & l2 & Hd2 & ->)]; cbn.
    - by rewrite !(proj2 (Z.eqb_neq _ _)).
    - destruct (digit_char_hex up d2 Hd2) as (_ & Hx2 & Hr2).
      assert (digit_char up d2 <> 88) by (intros E; by rewrite E in Hx2).
      by rewrite (proj2 (Z.eqb_neq (digit_char up d2) 120)), (proj2 (Z.eqb_neq (digit_char up d2) 88)) by lia. }
  revert Hs Hno. generalize (l ++ c :: r). intros t Hs Hno.
  destruct w as [|[|w]]; destruct t as [|x0 [|d0 t]]; cbn -[scan_digits digit_char digit_val Z.eqb];
    rewrite ?Hno, ?andb_false_r; cbn -[scan_digits digit_char digit_val Z.eqb]; by rewrite Hs.
Qed.
