(* ===== verification/HexUtils.v ===== *)
(** hex_utils.c: conversion between bytes and ASCII hex digits. *)

From Stdlib Require Import ZArith Lia String.
From stdpp Require Import base list numbers option.
From S2P Require Import Prelude CLib.

(** ** Model *)

(** [static const char hexdigits[] = "0123456789abcdef"]. *)
Definition hexdigits : list Z := str "0123456789abcdef".

(** The digits [hexify] stores, without the NUL. *)
Fixpoint hexify_digits (b : list Z) : list Z :=
  match b with
  | [] => []
  | x :: b' => zget hexdigits (Z.shiftr x 4) :: zget hexdigits (Z.land x 15) :: hexify_digits b'
  end.

(** Everything [hexify(hex, buf, size)] stores from [hex] on: two digits per
    byte and a NUL. *)
Definition hexify (b : list Z) : list Z := hexify_digits b ++ [0].

(** [tmp] is a [uint8_t]: each subtraction wraps. *)
Definition unhex_digit (hex : Z) : Z :=
  let tmp := u8 (hex - 48) in
  let tmp := if 9 <? tmp then u8 (tmp - (65 - 48 - 10)) else tmp in
  if 16 <? tmp then u8 (tmp - (97 - 65)) else tmp.

(** [unhexify(buf, hex, size)]: the [size] bytes stored. *)
Fixpoint unhexify (hex : list Z) (size : nat) : list Z :=
  match size with
  | O => []
  | S n => Z.lor (u8 (Z.shiftl (unhex_digit (zget hex 0)) 4)) (unhex_digit (zget hex 1))
           :: unhexify (zdrop 2 hex) n
  end.

(** ** Properties *)

Lemma length_hexify_digits b : length (hexify_digits b) = (2 * length b)%nat.
Proof. induction b; cbn; lia. Qed.
Lemma zlen_hexify b : zlen (hexify b) = 2 * zlen b + 1.
Proof. unfold hexify. rewrite zlen_app. unfold zlen. rewrite length_hexify_digits. cbn. lia. Qed.
Lemma hexify_digits_app a b : hexify_digits (a ++ b) = hexify_digits a ++ hexify_digits b.
Proof. induction a; cbn; congruence. Qed.

Lemma unhex_hexdigit x :
  is_byte x ->
  Z.lor (u8 (Z.shiftl (unhex_digit (zget hexdigits (Z.shiftr x 4))) 4))
        (unhex_digit (zget hexdigits (Z.land x 15))) = x.
Proof.
  intros Hx. apply Z.eqb_eq. revert Hx.
  apply (all_bytes_spec (fun x => Z.lor (u8 (Z.shiftl (unhex_digit (zget hexdigits (Z.shiftr x 4))) 4))
        (unhex_digit (zget hexdigits (Z.land x 15))) =? x)).
  vm_compute. reflexivity.
Qed.

(** [unhex_digit] reads both digit cases. *)
Lemma unhex_digit_spec c : isxdigit c = true -> unhex_digit c = digit_val c.
Proof.
  intros H. assert (is_byte c) as Hb.
  { unfold isxdigit, isdigit, in_width in *. lia. }
  apply Z.eqb_eq. revert H.
  enough (implb (isxdigit c) (unhex_digit c =? digit_val c) = true) as E.
  { intros H. by rewrite H in E. }
  revert Hb. apply (all_bytes_spec (fun c => implb (isxdigit c) (unhex_digit c =? digit_val c))).
  vm_compute. reflexivity.
Qed.

Lemma unhexify_hexify_app b rest :
  is_bytes b -> unhexify (hexify_digits b ++ rest) (length b) = b.
Proof.
  induction 1 as [|x b Hx Hb IH]; [done|]. cbn [length unhexify hexify_digits].
  f_equal; [apply (unhex_hexdigit x Hx)|apply IH].
Qed.

Lemma length_unhexify hex n : length (unhexify hex n) = n.
Proof. revert hex. induction n; intros; cbn; auto. Qed.

(** No digit is one of the packet framing characters, or a NUL. *)
Lemma hexify_digits_plain b :
  is_bytes b -> Forall (fun c => isxdigit c = true) (hexify_digits b).
Proof.
  induction 1 as [|x b Hx Hb IH]; [constructor|]. cbn.
  assert (E : isxdigit (zget hexdigits (Z.shiftr x 4)) && isxdigit (zget hexdigits (Z.land x 15)) = true).
  { revert Hx. apply (all_bytes_spec (fun x => isxdigit (zget hexdigits (Z.shiftr x 4))
      && isxdigit (zget hexdigits (Z.land x 15)))). vm_compute. reflexivity. }
  apply andb_true_iff in E as [??]. auto.
Qed.

(** [unhexify] undoes [hexify]: for every byte buffer, reading back the
    digits [hexify] wrote gives the buffer, whatever follows them, and
    [hexify] writes exactly two digits per byte and a NUL. *)
Theorem unhexify_hexify (b rest : list Z) :
  is_bytes b ->
  unhexify (hexify b ++ rest) (length b) = b /\ zlen (hexify b) = 2 * zlen b + 1.
Proof.
  intros Hb. split; [|apply zlen_hexify]. unfold hexify. rewrite <- app_assoc.
  by apply unhexify_hexify_app.
Qed.

Lemma unhexify_hexify_witness :
  unhexify (hexify [222; 173; 0; 255] ++ [71]) 4 = [222; 173; 0; 255].
Proof. apply (unhexify_hexify [222; 173; 0; 255] [71]). repeat constructor; lia. Defined.
