(* ===== verification/MemManager.v ===== *)
(** mem_manager.c: the fixed-size block allocator every other component takes
    its buffers from.  Eight pools of blocks; each pool keeps its free blocks
    in a FreeRTOS queue used as a stack. *)

From Stdlib Require Import ZArith Lia Sorted.
From stdpp Require Import base list numbers option gmap.
From S2P Require Import Prelude.

(** ** The interface to clients *)
Class MemIf (W : Type) := {
  MemManager_Alloc : Z -> M W (option positive);
  MemManager_Free : option positive -> M W unit;
}.

Module Mem.

(** *** State *)

(** A [MemManager_Item_t]: its size word and its data bytes. *)
Record item := { item_size : Z; item_data : list Z }.
(** A [MemManager_Pool_t]; the queue holds item pointers, front first. *)
Record pool := { bufSize : Z; bufCount : Z; queue : list positive }.
#[export] Instance pool_eq_dec : EqDecision pool.
Proof. solve_decision. Defined.
(** [arena]: the addresses [pvPortMalloc] will hand out; then it returns NULL. *)
Record mem_state := {
  memManagerPools : list pool;
  items : gmap positive item;
  in_interrupt : bool;
  arena : list positive;
}.
Definition set_pools ps (s : mem_state) : mem_state :=
  {| memManagerPools := ps; items := items s; in_interrupt := in_interrupt s; arena := arena s |}.
Definition set_items it (s : mem_state) : mem_state :=
  {| memManagerPools := memManagerPools s; items := it; in_interrupt := in_interrupt s; arena := arena s |}.
Definition set_arena ar (s : mem_state) : mem_state :=
  {| memManagerPools := memManagerPools s; items := items s; in_interrupt := in_interrupt s; arena := ar |}.

(** [MEM_MANAGER_POOL_CONFIG]: sizes and counts. *)
Definition MEM_MANAGER_POOL_CONFIG : list (Z * Z) :=
  [(16, 200); (64, 100); (128, 50); (256, 10); (512, 10); (1024, 10); (2048, 3); (4096, 3)].

(** *** FreeRTOS queues and heap, as documented *)
Definition xQueueSendToFront (p : pool) (x : positive) : bool * pool :=
  if zlen (queue p) <? bufCount p
  then (true, {| bufSize := bufSize p; bufCount := bufCount p; queue := x :: queue p |})
  else (false, p).
Definition xQueueReceive (p : pool) : option positive * pool :=
  match queue p with
  | x :: q => (Some x, {| bufSize := bufSize p; bufCount := bufCount p; queue := q |})
  | [] => (None, p)
  end.
Definition pvPortMalloc (size : Z) : M mem_state (option positive) :=
  let! s := get in
  match arena s with
  | [] => ret None
  | x :: ar => do! put (set_arena ar s) in ret (Some x)
  end.

(** *** Operations *)

(** The inner loop of [MemManager_Init]: [j] blocks for one pool. *)
Fixpoint init_pool (j : nat) (p : pool) : M mem_state pool :=
  match j with
  | O => ret p
  | S j' =>
      let! r := pvPortMalloc (8 + (bufSize p - 1)) in
      let! x := deref r in
      do! modify (fun s => set_items (<[x := {| item_size := bufSize p; item_data := memset (bufSize p) 0 |}]> (items s)) s) in
      let '(_, p') := xQueueSendToFront p x in
      init_pool j' p'
  end.
Definition MemManager_Init : M mem_state unit :=
  for_each MEM_MANAGER_POOL_CONFIG (fun '(size, count) =>
    let! p := init_pool (Z.to_nat count) {| bufSize := size; bufCount := count; queue := [] |} in
    modify (fun s => set_pools (memManagerPools s ++ [p]) s)).

(** The search loop of [MemManager_Alloc] over the pools from [ps] on: the
    block taken, and the pools afterwards. *)
Fixpoint alloc_from (size : Z) (ps : list pool) : option positive * list pool :=
  match ps with
  | [] => (None, [])
  | p :: ps' =>
      if size <=? bufSize p then
        let '(r, p') := xQueueReceive p in (r, p' :: ps')   (* taken, or break *)
      else
        let '(r, ps'') := alloc_from size ps' in (r, p :: ps'')
  end.
Definition alloc (size : Z) : M mem_state (option positive) :=
  let! s := get in
  if in_interrupt s then ret None else
  let '(r, ps) := alloc_from size (memManagerPools s) in
  do! modify (set_pools ps) in
  match r with
  | None => ret None
  | Some x =>
      let! it := deref (items s !! x) in
      do! modify (fun s => set_items (<[x := {| item_size := item_size it;
                                               item_data := memset (item_size it) 0 |}]> (items s)) s) in
      ret (Some x)
  end.

(** The search loop of [MemManager_Free]: the first pool of that size. *)
Fixpoint free_into (x : positive) (size : Z) (ps : list pool) : list pool :=
  match ps with
  | [] => []
  | p :: ps' => if size =? bufSize p then snd (xQueueSendToFront p x) :: ps'
                else p :: free_into x size ps'
  end.
Definition free (pBuffer : option positive) : M mem_state unit :=
  let! s := get in
  if in_interrupt s then ret tt else
  match pBuffer with
  | None => ret tt
  | Some x =>
      let! it := deref (items s !! x) in
      put (set_pools (free_into x (item_size it) (memManagerPools s)) s)
  end.

#[export] Instance mem_if : MemIf mem_state := {
  MemManager_Alloc := alloc; MemManager_Free := free }.

(** ** Specification: the set of live blocks

    [inv s live]: every block belongs to the pool of its size; it is either in
    that pool's queue, once, or in [live]. *)
Definition free_blocks (ps : list pool) : list positive := concat (queue <$> ps).

Record inv (s : mem_state) (live : gset positive) : Prop := {
  inv_sorted : StronglySorted (fun p q => bufSize p < bufSize q) (memManagerPools s);
  inv_sizes : forall p x, p ∈ memManagerPools s -> x ∈ queue p ->
    exists it, items s !! x = Some it /\ item_size it = bufSize p;
  inv_live_items : forall x, x ∈ live -> exists p it, p ∈ memManagerPools s /\
    items s !! x = Some it /\ item_size it = bufSize p;
  inv_nodup : NoDup (free_blocks (memManagerPools s));
  inv_disjoint : forall x, x ∈ live -> x ∉ free_blocks (memManagerPools s);
  inv_room : forall p, p ∈ memManagerPools s ->
    (length (queue p) + size (filter (fun x => item_size <$> (items s !! x) = Some (bufSize p)) live)
      <= Z.to_nat (bufCount p))%nat;
}.

Lemma free_blocks_cons p ps : free_blocks (p :: ps) = queue p ++ free_blocks ps.
Proof. done. Qed.
Lemma elem_free_blocks x ps : x ∈ free_blocks ps <-> exists p, p ∈ ps /\ x ∈ queue p.
Proof.
  unfold free_blocks. rewrite list_elem_of_In, in_concat. split.
  - intros (q & Hq & Hx). apply list_elem_of_In, list_elem_of_fmap in Hq as (p & -> & Hp).
    exists p. split; [done|by apply list_elem_of_In].
  - intros (p & Hp & Hx). exists (queue p). split; [|by apply list_elem_of_In].
    apply list_elem_of_In, list_elem_of_fmap. eauto.
Qed.

(** What [alloc_from] does to the pools: the first pool that is large enough
    decides; it gives its front block or nothing. *)
Lemma alloc_from_spec n ps r ps' : alloc_from n ps = (r, ps') ->
  (exists l p k, ps = l ++ p :: k /\ Forall (fun q => bufSize q < n) l /\ n <= bufSize p /\
     match r with
     | Some x => exists q, queue p = x :: q /\
         ps' = l ++ {| bufSize := bufSize p; bufCount := bufCount p; queue := q |} :: k
     | None => queue p = [] /\ ps' = ps
     end) \/
  (r = None /\ ps' = ps /\ Forall (fun q => bufSize q < n) ps).
Proof.
  revert r ps'. induction ps as [|p ps IH]; intros r ps' H; cbn in H.
  - injection H as <- <-. right. auto.
  - destruct (n <=? bufSize p) eqn:E.
    + left. exists [], p, ps. unfold xQueueReceive in H.
      destruct (queue p) as [|x q] eqn:Eq; injection H as <- <-; split_and!; eauto; lia.
    + destruct (alloc_from n ps) as [r0 ps0] eqn:E2. injection H as <- <-.
      destruct (IH _ _ eq_refl) as [(l & p0 & k & -> & Hl & Hn & Hr)|(-> & -> & Hf)].
      * left. exists (p :: l), p0, k. split; [done|]. split; [constructor; [lia|done]|].
        split; [done|]. destruct r0 as [x|].
        -- destruct Hr as (q & Hq & ->). eauto.
        -- destruct Hr as (Hq & ->). done.
      * right. split_and!; try done. constructor; [lia|done].
Qed.

(** [free_into] puts the block in front of the queue of the pool of its size. *)
Lemma free_into_spec x n l p k :
  Forall (fun q => bufSize q <> n) l -> bufSize p = n ->
  free_into x n (l ++ p :: k) = l ++ snd (xQueueSendToFront p x) :: k.
Proof.
  intros Hl Hp. induction Hl as [|q l Hq Hl IH]; cbn.
  - by rewrite (proj2 (Z.eqb_eq _ _)).
  - rewrite (proj2 (Z.eqb_neq _ _)) by done. by rewrite IH.
Qed.

Lemma sorted_mid l p k :
  StronglySorted (fun p q => bufSize p < bufSize q) (l ++ p :: k) ->
  Forall (fun q => bufSize q < bufSize p) l /\ Forall (fun q => bufSize p < bufSize q) k.
Proof.
  induction l as [|a l IH]; cbn; intros H; apply StronglySorted_inv in H as [H Ha].
  - auto.
  - destruct (IH H) as [??]. split; [|done]. constructor; [|done].
    rewrite Forall_forall in Ha. apply Ha. set_solver.
Qed.
Lemma sorted_replace l p p' k : bufSize p' = bufSize p ->
  StronglySorted (fun p q => bufSize p < bufSize q) (l ++ p :: k) ->
  StronglySorted (fun p q => bufSize p < bufSize q) (l ++ p' :: k).
Proof.
  intros E. induction l as [|a l IH]; cbn; intros H; apply StronglySorted_inv in H as [H Ha].
  - constructor; [done|by rewrite E].
  - constructor; [auto|]. rewrite !Forall_app, !Forall_cons in *. by rewrite E.
Qed.
Lemma free_blocks_mid l p k : free_blocks (l ++ p :: k) ≡ₚ queue p ++ free_blocks (l ++ k).
Proof.
  unfold free_blocks. rewrite !fmap_app, fmap_cons, !concat_app. cbn.
  rewrite (Permutation_app_comm (concat (queue <$> l))), <- app_assoc. f_equiv.
  apply Permutation_app_comm.
Qed.

(** The sizes the invariant reads from [items] do not change. *)
Definition same_sizes (it it' : gmap positive item) : Prop :=
  forall x, item_size <$> (it !! x) = item_size <$> (it' !! x).
Lemma same_sizes_Some it it' x i : same_sizes it it' -> it !! x = Some i ->
  exists i', it' !! x = Some i' /\ item_size i' = item_size i.
Proof.
  intros H E. specialize (H x). rewrite E in H. destruct (it' !! x) as [i'|]; [|done].
  exists i'. split; [done|]. cbn in H. congruence.
Qed.
Lemma same_sizes_filter it it' n (live : gset positive) : same_sizes it it' ->
  filter (fun x => item_size <$> (it' !! x) = Some n) live =
  filter (fun x => item_size <$> (it !! x) = Some n) live.
Proof. intros H. apply leibniz_equiv. intros x. rewrite !elem_of_filter, H. done. Qed.

(** One pool's queue changes and the live set with it: the invariant follows
    from what happened to that pool. *)
Lemma inv_update l p p' k it' (s : mem_state) (live live' : gset positive) :
  inv s live -> memManagerPools s = l ++ p :: k ->
  bufSize p' = bufSize p -> bufCount p' = bufCount p ->
  same_sizes (items s) it' ->
  list_to_set (queue p') ∪ live' = list_to_set (queue p) ∪ live ->
  NoDup (queue p') -> (forall x, x ∈ live' -> x ∉ queue p') ->
  (forall x, (x ∈ live' /\ x ∉ live) \/ (x ∈ live /\ x ∉ live') ->
     item_size <$> (items s !! x) = Some (bufSize p)) ->
  (length (queue p') + size (filter (fun x => item_size <$> (items s !! x) = Some (bufSize p)) live')
     <= Z.to_nat (bufCount p))%nat ->
  inv (set_items it' (set_pools (l ++ p' :: k) s)) live'.
Proof.
  intros [Hso Hsz Hli Hnd Hdj Hrm] Eps Eb Ec Hss Hset Hnd' Hdis Hch Hroom.
  rewrite Eps in *.
  assert (Hq : forall x, x ∈ queue p' \/ x ∈ live' <-> x ∈ queue p \/ x ∈ live).
  { intros x. assert (Hx : x ∈ (list_to_set (queue p') ∪ live' : gset positive) <->
       x ∈ (list_to_set (queue p) ∪ live : gset positive)) by (by rewrite Hset). set_solver. }
  rewrite free_blocks_mid in Hnd. apply NoDup_app in Hnd as (Hnp & Hdisj & Hnk).
  assert (Hin : forall x q, q ∈ l ++ k -> x ∈ queue q -> x ∈ free_blocks (l ++ k)).
  { intros x q ??. apply elem_free_blocks. eauto. }
  assert (Hout : forall x, x ∈ free_blocks (l ++ k) -> x ∉ queue p' /\ x ∉ live').
  { intros x Hx. enough (~ (x ∈ queue p \/ x ∈ live)) as Hn by (rewrite <- Hq in Hn; naive_solver).
    intros [Hp|Hl]; [by eapply Hdisj|]. apply (Hdj x Hl). rewrite free_blocks_mid. set_solver. }
  constructor; cbn.
  - by eapply sorted_replace.
  - intros q x Hqin Hx.
    assert (Hold : exists i, items s !! x = Some i /\ item_size i = bufSize q).
    { apply elem_of_app in Hqin as [Hl|[->|Hk]%elem_of_cons].
      - apply (Hsz q x); set_solver.
      - rewrite Eb. destruct (decide (x ∈ live)) as [Hlx|Hlx].
        + specialize (Hch x (or_intror (conj Hlx (fun H => Hdis x H Hx)))).
          destruct (items s !! x) as [i|]; [|done]. injection Hch as ?. eauto.
        + destruct (proj1 (Hq x)) as [Hpx|]; [auto| |done]. apply (Hsz p x); set_solver.
      - apply (Hsz q x); set_solver. }
    destruct Hold as (i & Hi & Hs). destruct (same_sizes_Some _ _ _ _ Hss Hi) as (i' & ? & ?).
    exists i'. split; [done|congruence].
  - intros x Hx.
    destruct (decide (x ∈ live)) as [Hlx|Hlx].
    + destruct (Hli x Hlx) as (q & i & Hqin & Hi & Hs).
      destruct (same_sizes_Some _ _ _ _ Hss Hi) as (i' & ? & ?).
      exists (if decide (q = p) then p' else q), i'. split; [|split; [done|]].
      * case_decide; set_solver.
      * case_decide; subst; congruence.
    + specialize (Hch x (or_introl (conj Hx Hlx))).
      destruct (items s !! x) as [i|] eqn:Hi; [|done]. injection Hch as Hs.
      destruct (same_sizes_Some _ _ _ _ Hss Hi) as (i' & ? & ?).
      exists p', i'. split; [set_solver|]. split; [done|congruence].
  - change (NoDup (free_blocks (l ++ p' :: k))).
    rewrite free_blocks_mid. apply NoDup_app. split_and!; [done| |done].
    intros x Hx Hf. by destruct (Hout x Hf).
  - intros x Hx. change (x ∉ free_blocks (l ++ p' :: k)).
    rewrite free_blocks_mid. intros [Hp|Hf]%elem_of_app; [by eapply Hdis|].
    by destruct (Hout x Hf).
  - intros q Hqin. rewrite (same_sizes_filter _ _ _ _ Hss).
    apply elem_of_app in Hqin as [Hl|[->|Hk]%elem_of_cons]; [|by rewrite Eb, Ec|].
    all: destruct (sorted_mid _ _ _ Hso) as [Hlo Hhi]; rewrite Forall_forall in Hlo, Hhi.
    all: assert (Hne : bufSize q <> bufSize p) by
      (first [specialize (Hlo q Hl)|specialize (Hhi q Hk)]; lia).
    all: replace (filter (fun x => item_size <$> (items s !! x) = Some (bufSize q)) live')
      with (filter (fun x => item_size <$> (items s !! x) = Some (bufSize q)) live);
      [apply Hrm; set_solver|].
    all: apply leibniz_equiv; intros x; rewrite !elem_of_filter;
      destruct (decide (x ∈ live)), (decide (x ∈ live')); try naive_solver;
      split; intros [He ?]; try done; specialize (Hch x ltac:(naive_solver)); congruence.
Qed.

(** The block sizes of the pools, which no operation changes. *)
Definition sizes (s : mem_state) : list Z := bufSize <$> memManagerPools s.

Lemma same_sizes_insert (m : gmap positive item) x i i' : m !! x = Some i ->
  item_size i' = item_size i -> same_sizes m (<[x := i']> m).
Proof.
  intros E H y. destruct (decide (x = y)) as [<-|].
  - rewrite lookup_insert_eq, E. cbn. congruence.
  - by rewrite lookup_insert_ne.
Qed.

Lemma inv_take l p k x q s live : inv s live -> memManagerPools s = l ++ p :: k ->
  queue p = x :: q -> forall i, items s !! x = Some i -> forall d,
  inv (set_items (<[x := {| item_size := item_size i; item_data := d |}]> (items s))
        (set_pools (l ++ {| bufSize := bufSize p; bufCount := bufCount p; queue := q |} :: k) s))
      ({[x]} ∪ live) /\ x ∉ live /\ item_size i = bufSize p.
Proof.
  intros HI Eps Eq i Hi d. pose proof HI as [Hso Hsz Hli Hnd Hdj Hrm]. rewrite Eps in *.
  assert (Hp : p ∈ l ++ p :: k) by set_solver.
  destruct (Hsz p x Hp) as (i' & Hi' & Hs); [rewrite Eq; set_solver|].
  rewrite Hi in Hi'. injection Hi' as <-.
  rewrite free_blocks_mid, Eq in Hnd. cbn in Hnd. apply NoDup_cons in Hnd as [Hxn Hnd].
  assert (Hnl : x ∉ live).
  { intros Hl. apply (Hdj x Hl). rewrite free_blocks_mid, Eq. set_solver. }
  split; [|done]. eapply inv_update; try done.
  - by eapply same_sizes_insert.
  - rewrite Eq. cbn. set_solver.
  - apply NoDup_app in Hnd. apply Hnd.
  - cbn. intros y [->%elem_of_singleton|Hy]%elem_of_union Hyq.
    + apply Hxn. set_solver.
    + apply (Hdj y Hy). rewrite free_blocks_mid, Eq. set_solver.
  - intros y Hy. assert (y = x) as -> by set_solver. rewrite Hi. cbn. congruence.
  - cbn. specialize (Hrm p Hp). rewrite Eq in Hrm. cbn in Hrm.
    assert (size (filter (fun y => item_size <$> (items s !! y) = Some (bufSize p)) ({[x]} ∪ live))
      <= S (size (filter (fun y => item_size <$> (items s !! y) = Some (bufSize p)) live)))%nat; [|lia].
    set (fl := filter _ live).
    transitivity (size ({[x]} ∪ fl)).
    + apply subseteq_size. intros y. unfold fl. rewrite elem_of_union, !elem_of_filter. set_solver.
    + rewrite size_union by (unfold fl; set_solver). by rewrite size_singleton.
Qed.

(** Allocation outside an interrupt handler: the smallest pool that fits
    decides. It gives a zeroed block no client holds, or NULL without a change,
    and never looks at a larger pool. *)
Lemma alloc_spec n s live : inv s live -> in_interrupt s = false ->
  exists r s', alloc n s = Ok r s' /\ sizes s' = sizes s /\ in_interrupt s' = false /\
  match r with
  | Some x => x ∉ live /\ inv s' ({[x]} ∪ live) /\
      (exists sz, items s' !! x = Some {| item_size := sz; item_data := memset sz 0 |} /\
        n <= sz /\ sz ∈ sizes s /\ (forall z, z ∈ sizes s -> n <= z -> sz <= z)) /\
      (forall y, y ∈ live -> items s' !! y = items s !! y)
  | None => s' = s /\ (Forall (fun z => z < n) (sizes s) \/
      exists p, p ∈ memManagerPools s /\ n <= bufSize p /\ queue p = [] /\
        (forall z, z ∈ sizes s -> n <= z -> bufSize p <= z))
  end.
Proof.
  intros HI Hint. unfold alloc, bind at 1, get. rewrite Hint. unfold sizes.
  assert (Hmin : forall l p k, memManagerPools s = l ++ p :: k -> Forall (fun q => bufSize q < n) l ->
     forall z, z ∈ bufSize <$> memManagerPools s -> n <= z -> bufSize p <= z).
  { intros l p k Eps Hl z Hz Hn. pose proof (inv_sorted _ _ HI) as Hso. rewrite Eps in Hso, Hz.
    destruct (sorted_mid _ _ _ Hso) as [_ Hk]. rewrite Forall_forall in Hk, Hl.
    apply list_elem_of_fmap in Hz as (q & -> & [Hq|[->|Hq]%elem_of_cons]%elem_of_app); [|lia|].
    - specialize (Hl q Hq). lia.
    - specialize (Hk q Hq). lia. }
  destruct (alloc_from n (memManagerPools s)) as [r ps] eqn:Ea.
  destruct (alloc_from_spec _ _ _ _ Ea) as [(l & p & k & Eps & Hl & Hn & Hr)|(-> & -> & Hf)].
  - destruct r as [x|].
    + destruct Hr as (q & Eq & ->).
      destruct (inv_sizes _ _ HI p x) as (i & Hi & Hs); [rewrite Eps; set_solver|rewrite Eq; set_solver|].
      destruct (inv_take l p k x q s live HI Eps Eq i Hi (memset (item_size i) 0)) as (HI' & Hx & _).
      unfold bind, modify, deref. cbn [items set_pools]. rewrite Hi. cbn.
      eexists _, _; split; [reflexivity|]. split; [|split; [done|]].
      * cbn. rewrite Eps, !fmap_app, !fmap_cons. done.
      * split; [done|]. split; [exact HI'|]. split.
        -- exists (bufSize p). cbn. rewrite lookup_insert_eq, Hs. split_and!; try done.
           ++ rewrite Eps, fmap_app, fmap_cons. set_solver.
           ++ by eapply Hmin.
        -- intros y Hy. cbn. rewrite lookup_insert_ne; [done|set_solver].
    + destruct Hr as [Eq ->]. unfold bind, modify, ret. eexists None, _; split; [reflexivity|].
      split; [done|]. split; [done|]. split; [by destruct s|].
      right. exists p. rewrite Eps. split_and!; [set_solver|done|done|].
      rewrite <- Eps. by eapply Hmin.
  - unfold bind, modify, ret. eexists None, _; split; [reflexivity|]. split; [done|]. split; [done|].
    split; [by destruct s|]. left. by apply Forall_fmap.
Qed.

(** A client that gives back a block it holds: the block is free again, every
    other block stays as it was. *)
Lemma free_spec x s live : inv s live -> in_interrupt s = false -> x ∈ live ->
  exists s', free (Some x) s = Ok tt s' /\ sizes s' = sizes s /\ in_interrupt s' = false /\
    inv s' (live ∖ {[x]}) /\ items s' = items s /\ x ∈ free_blocks (memManagerPools s').
Proof.
  intros HI Hint Hx. pose proof HI as [Hso Hsz Hli Hnd Hdj Hrm].
  destruct (Hli x Hx) as (p & i & Hp & Hi & Hs). unfold free, bind, get. rewrite Hint, Hi. cbn.
  apply list_elem_of_split in Hp as (l & k & Eps). rewrite Eps in *.
  destruct (sorted_mid _ _ _ Hso) as [Hlo _].
  rewrite Hs, (free_into_spec x (bufSize p) l p k);
    [|eapply Forall_impl; [exact Hlo|cbn; intros; lia]|done].
  assert (Hp : p ∈ l ++ p :: k) by set_solver. specialize (Hrm p Hp).
  set (fl := filter (fun x => item_size <$> (items s !! x) = Some (bufSize p)) live) in *.
  assert (Hxf : x ∈ fl) by (apply elem_of_filter; rewrite Hi; cbn; split; [congruence|done]).
  assert (Hsize : (size (filter (fun x => item_size <$> (items s !! x) = Some (bufSize p)) (live ∖ {[x]})) < size fl)%nat).
  { apply subset_size. split; [unfold fl; set_solver|]. intros Hsub. specialize (Hsub x Hxf). set_solver. }
  assert (Hroom : zlen (queue p) < bufCount p) by (unfold zlen; lia).
  unfold xQueueSendToFront. rewrite (proj2 (Z.ltb_lt _ _) Hroom). cbn [snd].
  eexists; split; [reflexivity|]. split; [|split; [done|]].
  { unfold sizes. cbn. rewrite Eps, !fmap_app, !fmap_cons. done. }
  split; [|split; [done|]].
  2: { cbn. apply elem_free_blocks. eexists; split; [apply elem_of_app; right; apply elem_of_cons; by left|].
       cbn. set_solver. }
  replace s with (set_items (items s) s) at 1 by by destruct s.
  change (set_pools ?a (set_items ?b ?c)) with (set_items b (set_pools a c)).
  rewrite free_blocks_mid in Hnd. apply NoDup_app in Hnd as (Hnp & _ & _).
  eapply inv_update; try done; cbn.
  - apply set_eq. intros y. destruct (decide (y = x)); set_solver.
  - apply NoDup_cons. split; [|done]. intros Hxq. apply (Hdj x Hx). rewrite free_blocks_mid. set_solver.
  - intros y Hy [->|Hyq]%elem_of_cons; [set_solver|]. apply (Hdj y); [set_solver|].
    rewrite free_blocks_mid. set_solver.
  - intros y Hy. assert (y = x) as -> by (destruct (decide (y = x)); [done|set_solver]).
    rewrite Hi. cbn. congruence.
  - lia.
Qed.

Lemma size_filter_empty (P : positive -> Prop) `{!forall x, Decision (P x)} :
  size (filter P (∅ : gset positive)) = 0%nat.
Proof. apply size_empty_iff. intros x. rewrite elem_of_filter. set_solver. Qed.

Lemma init_pool_spec j : forall p s xs rest,
  arena s = xs ++ rest -> length xs = j -> (j + length (queue p) <= Z.to_nat (bufCount p))%nat ->
  NoDup (xs ++ rest) ->
  exists s', init_pool j p s = Ok {| bufSize := bufSize p; bufCount := bufCount p;
                                     queue := rev xs ++ queue p |} s' /\
    arena s' = rest /\ memManagerPools s' = memManagerPools s /\ in_interrupt s' = in_interrupt s /\
    (forall x, x ∈ xs -> items s' !! x = Some {| item_size := bufSize p; item_data := memset (bufSize p) 0 |}) /\
    (forall x, x ∉ xs -> items s' !! x = items s !! x).
Proof.
  induction j as [|j IH]; intros p s xs rest Ear Hlen Hroom Hnd.
  - destruct xs; [|done]. exists s. destruct p. cbn in *. split_and!; try done. set_solver.
  - destruct xs as [|x xs]; [done|]. injection Hlen as Hlen. cbn in Hnd. apply NoDup_cons in Hnd as [Hx Hnd].
    cbn [init_pool]. unfold pvPortMalloc, bind at 1, bind at 1, bind at 1, get. rewrite Ear. cbn [app put bind ret deref modify].
    unfold bind, put, ret, deref, modify.
    unfold xQueueSendToFront. rewrite (proj2 (Z.ltb_lt _ _)) by (unfold zlen; lia).
    edestruct (IH {| bufSize := bufSize p; bufCount := bufCount p; queue := x :: queue p |})
      as (s' & Hrun & Har & Hps & Hint & Hin & Hout); [| |cbn; lia|exact Hnd|].
    2: exact Hlen.
    2: { exists s'. split; [rewrite Hrun; f_equal; f_equal; cbn; by rewrite <- app_assoc|].
      split; [done|]. split; [done|]. split; [done|]. split.
      - intros y [->|Hy]%elem_of_cons; [|by apply Hin].
        rewrite Hout by set_solver. cbn. by rewrite lookup_insert_eq.
      - intros y Hy. rewrite Hout by set_solver. cbn. apply lookup_insert_ne. set_solver. }
    done.
Qed.

(** Building the pools one after the other, in increasing size order. *)
Lemma init_pools_spec cfg : forall s xs rest,
  inv s ∅ -> arena s = xs ++ rest -> NoDup (free_blocks (memManagerPools s) ++ xs ++ rest) ->
  (forall z c, (z, c) ∈ cfg -> Forall (fun y => y < z) (sizes s)) ->
  StronglySorted (fun a b : Z * Z => a.1 < b.1) cfg -> Forall (fun a : Z * Z => 0 <= a.2) cfg ->
  length xs = list_sum (List.map (fun a : Z * Z => Z.to_nat a.2) cfg) ->
  exists s', for_each cfg (fun '(size, count) =>
      let! p := init_pool (Z.to_nat count) {| bufSize := size; bufCount := count; queue := [] |} in
      modify (fun s => set_pools (memManagerPools s ++ [p]) s)) s = Ok tt s' /\
    inv s' ∅ /\ sizes s' = sizes s ++ cfg.*1 /\ in_interrupt s' = in_interrupt s /\ arena s' = rest /\
    free_blocks (memManagerPools s') ≡ₚ free_blocks (memManagerPools s) ++ xs.
Proof.
  induction cfg as [|[z c] cfg IH]; intros s xs rest HI Ear Hnd Hlt Hso Hnn Hlen.
  - destruct xs; [|done]. exists s. cbn. rewrite !app_nil_r. done.
  - apply StronglySorted_inv in Hso as [Hso Hhd]. apply Forall_cons in Hnn as [Hc Hnn]. cbn in Hc.
    cbn in Hlen. rewrite <- (take_drop (Z.to_nat c) xs) in Ear, Hnd.
    set (x1 := take (Z.to_nat c) xs) in *. set (x2 := drop (Z.to_nat c) xs) in *.
    assert (Hx1 : length x1 = Z.to_nat c) by (unfold x1; rewrite length_take; lia).
    rewrite <- app_assoc in Ear. rewrite <- app_assoc in Hnd.
    pose proof Hnd as Hnd0. apply NoDup_app in Hnd0 as (_ & Hfa & Hnda).
    edestruct (init_pool_spec (Z.to_nat c) {| bufSize := z; bufCount := c; queue := [] |} s x1 (x2 ++ rest))
      as (s1 & Hrun & Har & Hps & Hint & Hin & Hout); [done|done|cbn; lia|done|].
    cbn [bufSize bufCount queue] in *. rewrite app_nil_r in Hrun.
    set (p := {| bufSize := z; bufCount := c; queue := rev x1 |}) in *.
    assert (Hfb : free_blocks (memManagerPools s1 ++ [p]) ≡ₚ free_blocks (memManagerPools s) ++ x1).
    { rewrite Hps, free_blocks_mid, app_nil_r, Permutation_app_comm. f_equiv. symmetry. apply Permutation_rev. }
    assert (HI1 : inv (set_pools (memManagerPools s1 ++ [p]) s1) ∅).
    { destruct HI as [Hs1 Hs2 _ _ _ Hs6]. constructor; cbn -[free_blocks].
      - rewrite Hps. specialize (Hlt z c (proj2 (elem_of_cons _ _ _) (or_introl eq_refl))). unfold sizes in Hlt. rewrite Forall_fmap in Hlt.
        clear -Hs1 Hlt. induction Hs1 as [|a l Hl IHl Ha]; cbn; [repeat constructor|].
        apply Forall_cons in Hlt as [Hz Hlt]. constructor; [auto|]. rewrite Forall_app. split; [done|].
        constructor; [apply Hz|constructor].
      - rewrite Hps. intros q x [Hq|Hq]%elem_of_app Hx.
        + rewrite Hout; [by apply Hs2|]. intros Hx1'. apply (Hfa x); [apply elem_free_blocks; eauto|]. apply elem_of_app. by left.
        + apply list_elem_of_singleton in Hq as ->. cbn in Hx. rewrite list_elem_of_In, <- in_rev, <- list_elem_of_In in Hx.
          eexists; split; [by apply Hin|done].
      - intros x Hx. by apply not_elem_of_empty in Hx.
      - rewrite Hfb. rewrite !app_assoc in Hnd. apply NoDup_app in Hnd as [Hnd _].
        apply NoDup_app in Hnd as [Hnd _]. done.
      - intros x Hx. by apply not_elem_of_empty in Hx.
      - rewrite Hps. intros q [Hq|Hq]%elem_of_app.
        + specialize (Hs6 q Hq). rewrite size_filter_empty in *. lia.
        + apply list_elem_of_singleton in Hq as ->. cbn. rewrite size_filter_empty, length_rev. lia. }
    destruct (IH _ x2 rest HI1) as (s2 & Hrun2 & HI2 & Hsz2 & Hint2 & Har2 & Hfb2); try done.
    + cbn -[free_blocks]. rewrite Hfb, <- app_assoc. done.
    + intros z' c' Hzc. unfold sizes. cbn. rewrite Hps, fmap_app, Forall_app. split.
      * apply (Hlt z' c'), elem_of_cons. by right.
      * constructor; [|constructor]. rewrite Forall_forall in Hhd. apply (Hhd (z', c') Hzc).
    + unfold x2. rewrite length_drop. unfold list_sum in *. cbn in *. lia.
    + exists s2. cbn [for_each]. unfold bind at 1. unfold bind at 1. rewrite Hrun. cbn. split; [done|].
      split; [done|]. split; [rewrite Hsz2; unfold sizes; cbn; by rewrite Hps, fmap_app, <- app_assoc|].
      split; [rewrite Hint2; done|]. split; [done|].
      rewrite Hfb2. cbn -[free_blocks]. rewrite Hfb, <- app_assoc. unfold x1, x2. by rewrite take_drop.
Qed.

Definition empty_state (addrs : list positive) : mem_state :=
  {| memManagerPools := []; items := ∅; in_interrupt := false; arena := addrs |}.
Lemma inv_empty addrs : inv (empty_state addrs) ∅.
Proof. constructor; cbn; try set_solver. constructor. constructor. Qed.

(** The number of blocks the configuration asks for. *)
Definition total_blocks : nat := list_sum (List.map (fun a : Z * Z => Z.to_nat a.2) MEM_MANAGER_POOL_CONFIG).

Lemma init_spec addrs : NoDup addrs -> (total_blocks <= length addrs)%nat ->
  exists s', MemManager_Init (empty_state addrs) = Ok tt s' /\ inv s' ∅ /\
    sizes s' = [16; 64; 128; 256; 512; 1024; 2048; 4096] /\ in_interrupt s' = false /\
    free_blocks (memManagerPools s') ≡ₚ take total_blocks addrs.
Proof.
  intros Hnd Hlen.
  destruct (init_pools_spec MEM_MANAGER_POOL_CONFIG (empty_state addrs)
    (take total_blocks addrs) (drop total_blocks addrs)) as (s' & Hrun & HI & Hs & Hint & _ & Hf).
  - apply inv_empty.
  - cbn. by rewrite take_drop.
  - rewrite take_drop. done.
  - intros. constructor.
  - repeat constructor.
  - repeat constructor; cbn; lia.
  - rewrite length_take. unfold total_blocks in *. lia.
  - exists s'. split_and!; done.
Qed.
End Mem.

(** ** Properties *)
Import Mem.

(** after [MemManager_Init], with 386 addresses from the heap, the eight
    pools hold all the blocks and none is out. *)
Theorem init_builds_pools (addrs : list positive) :
  NoDup addrs -> (total_blocks <= length addrs)%nat ->
  exists s', MemManager_Init (empty_state addrs) = Ok tt s' /\ inv s' ∅ /\
    sizes s' = [16; 64; 128; 256; 512; 1024; 2048; 4096] /\
    free_blocks (memManagerPools s') ≡ₚ take total_blocks addrs.
Proof.
  intros Hnd Hlen. destruct (init_spec addrs Hnd Hlen) as (s' & ? & ? & ? & _ & ?). by exists s'.
Qed.

(** C33: the allocator keeps the blocks apart: outside interrupts
    [MemManager_Alloc] returns either NULL without changing anything, when no
    pool is large enough or the smallest one that is has run out, or a zeroed
    block of the smallest sufficient size that nobody holds, leaving the
    contents of every live block alone. *)
Theorem alloc_fresh (n : Z) (s : mem_state) (live : gset positive) :
  inv s live -> in_interrupt s = false ->
  exists r s', alloc n s = Ok r s' /\ sizes s' = sizes s /\
  match r with
  | Some x => x ∉ live /\ inv s' ({[x]} ∪ live) /\
      (exists sz, items s' !! x = Some {| item_size := sz; item_data := memset sz 0 |} /\
        n <= sz /\ sz ∈ sizes s /\ (forall z, z ∈ sizes s -> n <= z -> sz <= z)) /\
      (forall y, y ∈ live -> items s' !! y = items s !! y)
  | None => s' = s /\ (Forall (fun z => z < n) (sizes s) \/
      exists p, p ∈ memManagerPools s /\ n <= bufSize p /\ queue p = [] /\
        (forall z, z ∈ sizes s -> n <= z -> bufSize p <= z))
  end.
Proof.
  intros HI Hint. destruct (alloc_spec n s live HI Hint) as (r & s' & ? & ? & _ & ?).
  by exists r, s'.
Qed.

(** freeing a block a client holds returns it to the pool of its size; no
    other block's contents and no other client's block are touched. *)
Theorem free_returns_block (x : positive) (s : mem_state) (live : gset positive) :
  inv s live -> in_interrupt s = false -> x ∈ live ->
  exists s', free (Some x) s = Ok tt s' /\ inv s' (live ∖ {[x]}) /\
    items s' = items s /\ x ∈ free_blocks (memManagerPools s').
Proof.
  intros HI Hint Hx. destruct (free_spec x s live HI Hint Hx) as (s' & ? & _ & _ & ? & ? & ?).
  by exists s'.
Qed.

(** A list of 386 distinct addresses. *)
Definition some_addresses : list positive := Pos.of_succ_nat <$> seq 0 total_blocks.
Lemma some_addresses_ok : NoDup some_addresses /\ (total_blocks <= length some_addresses)%nat.
Proof.
  split.
  - apply NoDup_fmap_2; [|apply NoDup_seq]. intros a b E. by apply SuccNat2Pos.inj.
  - unfold some_addresses. by rewrite length_fmap, length_seq.
Qed.

Lemma init_builds_pools_witness :
  exists s', MemManager_Init (empty_state some_addresses) = Ok tt s' /\ inv s' ∅.
Proof.
  destruct (init_builds_pools some_addresses (proj1 some_addresses_ok) (proj2 some_addresses_ok))
    as (s' & H1 & H2 & _). exists s'. exact (conj H1 H2).
Defined.

(** A small instance: two blocks of 16 bytes and one of 64. *)
Definition small : mem_state :=
  {| memManagerPools := [{| bufSize := 16; bufCount := 2; queue := [2; 1]%positive |};
                         {| bufSize := 64; bufCount := 1; queue := [3%positive] |}];
     items := list_to_map [(1%positive, {| item_size := 16; item_data := memset 16 0 |});
                           (2%positive, {| item_size := 16; item_data := memset 16 0 |});
                           (3%positive, {| item_size := 64; item_data := memset 64 0 |})];
     in_interrupt := false; arena := [] |}.
Lemma small_ok : inv small ∅.
Proof.
  destruct (init_pools_spec [(16, 2); (64, 1)] (empty_state [1; 2; 3]%positive) [1; 2; 3]%positive [])
    as (s' & Hrun & HI & _).
  - apply inv_empty.
  - done.
  - cbn. apply NoDup_ListNoDup. repeat constructor; cbn; intuition discriminate.
  - intros. constructor.
  - repeat constructor.
  - repeat constructor; cbn; lia.
  - done.
  - vm_compute in Hrun. injection Hrun as <-. exact HI.
Qed.

Lemma alloc_fresh_witness :
  exists r s', alloc 20 small = Ok r s' /\ sizes s' = sizes small.
Proof.
  destruct (alloc_fresh 20 small ∅ small_ok eq_refl) as (r & s' & H1 & H2 & _).
  exists r, s'. exact (conj H1 H2).
Defined.

(** Block 2 is out. *)
Definition small_out : mem_state := match alloc 10 small with Ok _ s => s | _ => small end.
Lemma small_out_ok : inv small_out ({[2%positive]} ∪ ∅).
Proof.
  destruct (alloc_spec 10 small ∅ small_ok eq_refl) as (r & s' & Ha & _ & _ & Hr).
  unfold small_out. rewrite Ha. vm_compute in Ha. injection Ha as <- <-. apply Hr.
Qed.

Lemma free_returns_block_witness :
  exists s', free (Some 2%positive) small_out = Ok tt s' /\ 2%positive ∈ free_blocks (memManagerPools s').
Proof.
  destruct (free_returns_block 2%positive small_out ({[2%positive]} ∪ ∅) small_out_ok eq_refl)
    as (s' & H1 & _ & _ & H2); [apply elem_of_union_l, elem_of_singleton_2; reflexivity|].
  exists s'. exact (conj H1 H2).
Defined.
