(* ===== verification/GdbIf.v ===== *)
(** The byte channel to GDB: the interface the protocol code is written
    against (gdb_if.h) as type classes, and main.c's implementation of it over
    FreeRTOS stream buffers, with the theorem that it implements the
    interface. *)

From Stdlib Require Import ZArith Lia.
From stdpp Require Import base list numbers option.
From S2P Require Import Prelude CLib.

(** ** The interface (gdb_if.h) *)

Class GdbIf (W : Type) := {
  gdb_if_getchar : M W Z;
  gdb_if_getchar_to : Z -> M W Z;
  gdb_if_putchar : Z -> bool -> M W unit;
}.

(** What a client relies on: [rx w] is what the host has sent and the probe not
    yet read, [tx w] all the probe has written. *)
Class GdbIfSpec (W : Type) `{GdbIf W} := {
  if_wf : W -> Prop;
  rx : W -> list Z;
  tx : W -> list Z;
  getchar_rx w b r : if_wf w -> rx w = b :: r ->
    exists w', gdb_if_getchar w = Ok b w' /\ if_wf w' /\ rx w' = r /\ tx w' = tx w;
  getchar_blocks w : if_wf w -> rx w = [] -> gdb_if_getchar w = Hang;
  getchar_to_spec w t : if_wf w ->
    exists b w', gdb_if_getchar_to t w = Ok b w' /\ if_wf w' /\ tx w' = tx w /\
    ((b = 255 /\ rx w' = rx w) \/ rx w = b :: rx w');
  putchar_spec w c f : if_wf w ->
    exists w', gdb_if_putchar c f w = Ok tt w' /\ if_wf w' /\
    rx w' = rx w /\ tx w' = tx w ++ [u8 c];
}.

(** ** FreeRTOS stream buffers

    Not code of this repository: the calls are operations of an environment
    [E], with the behaviour FreeRTOS documents.  [incoming] is what the sender
    put or will put into the receive stream, [sent] what left through the
    transmit stream, [idle] how many receive calls will still time out before
    the next byte is there. *)
Class StreamBuffer (E : Type) := {
  xStreamBufferBytesAvailable : E -> Z;
  xStreamBufferReceive : Z -> Z -> E -> list Z * E;
  xStreamBufferSend : list Z -> E -> E;
}.
Class StreamBufferSpec (E : Type) `{StreamBuffer E} := {
  incoming : E -> list Z;
  sent : E -> list Z;
  idle : E -> nat;
  available_receive e max t : 0 < max -> 0 < xStreamBufferBytesAvailable e ->
    fst (xStreamBufferReceive max t e) <> [];
  receive_spec e max t l e' : 0 < max -> xStreamBufferReceive max t e = (l, e') ->
    incoming e = l ++ incoming e' /\ zlen l <= max /\ sent e' = sent e;
  receive_live e max t e' : 0 < max -> incoming e <> [] ->
    xStreamBufferReceive max t e = ([], e') -> (idle e' < idle e)%nat;
  send_spec e l : incoming (xStreamBufferSend l e) = incoming e /\
    sent (xStreamBufferSend l e) = sent e ++ l;
}.

(** ** main.c's channel *)
Module Channel.
Section Channel.
Context {E : Type} `{StreamBufferSpec E}.

(** main.c's globals gdb_tx_buf .. gdb_rx_last_pos, and the two streams. *)
Record chan_state := {
  gdb_tx_buf : list Z;
  gdb_tx_count : Z;
  gdb_rx_buf : list Z;
  gdb_rx_count : Z;
  gdb_rx_last_pos : Z;
  streams : E;
}.
Definition buf_size : Z := 256.
Definition set_tx buf n (s : chan_state) : chan_state :=
  {| gdb_tx_buf := buf; gdb_tx_count := n; gdb_rx_buf := gdb_rx_buf s;
     gdb_rx_count := gdb_rx_count s; gdb_rx_last_pos := gdb_rx_last_pos s; streams := streams s |}.
Definition set_rx buf n pos (s : chan_state) : chan_state :=
  {| gdb_tx_buf := gdb_tx_buf s; gdb_tx_count := gdb_tx_count s; gdb_rx_buf := buf;
     gdb_rx_count := n; gdb_rx_last_pos := pos; streams := streams s |}.
Definition set_streams e (s : chan_state) : chan_state :=
  {| gdb_tx_buf := gdb_tx_buf s; gdb_tx_count := gdb_tx_count s; gdb_rx_buf := gdb_rx_buf s;
     gdb_rx_count := gdb_rx_count s; gdb_rx_last_pos := gdb_rx_last_pos s; streams := e |}.

Definition gdb_if_putchar (c : Z) (flush : bool) : M chan_state unit :=
  let! s := get in
  let! buf := store (gdb_tx_buf s) (gdb_tx_count s) (u8 c) in
  let n := u32 (gdb_tx_count s + 1) in
  do! modify (set_tx buf n) in
  if (n =? buf_size) || flush then
    let! out := load_n buf 0 n in
    do! modify (fun s => set_streams (xStreamBufferSend out (streams s)) s) in
    modify (fun s => set_tx (gdb_tx_buf s) 0 s)
  else ret tt.

(** [return gdb_rx_buf[gdb_rx_last_pos++]] after [gdb_rx_count--]. *)
Definition buffered : M chan_state Z :=
  let! s := get in
  let! b := load (gdb_rx_buf s) (gdb_rx_last_pos s) in
  do! modify (set_rx (gdb_rx_buf s) (gdb_rx_count s - 1) (u32 (gdb_rx_last_pos s + 1))) in
  ret b.

(** One [xStreamBufferReceive] into [gdb_rx_buf]: the number of bytes. *)
Definition rx_receive (timeout : Z) : M chan_state Z :=
  let! s := get in
  let '(l, e) := xStreamBufferReceive buf_size timeout (streams s) in
  do! put (set_streams e (set_rx (splice (gdb_rx_buf s) 0 l) (gdb_rx_count s) (gdb_rx_last_pos s) s)) in
  ret (zlen l).

(** After a receive: the count and position, and the first byte. *)
Definition first_byte (received_bytes : Z) : M chan_state Z :=
  do! modify (fun s => set_rx (gdb_rx_buf s) (u32 (received_bytes - 1)) 1 s) in
  let! s := get in load (gdb_rx_buf s) 0.

(** The receive loop has no bound in the code; it ends when a byte arrives, so
    the receives that will time out bound it. *)
Definition gdb_if_getchar : M chan_state Z :=
  let! s := get in
  if negb (gdb_rx_count s =? 0) then buffered else
  let timeout := if 1 <=? xStreamBufferBytesAvailable (streams s) then 0 else 20 in
  let! received_bytes :=
    iter (S (idle (streams s))) (fun _ : unit =>
      let! n := rx_receive timeout in
      ret (if (n =? 0) && negb (timeout =? 0) then inl tt else inr n)) tt in
  first_byte received_bytes.

Definition gdb_if_getchar_to (timeout : Z) : M chan_state Z :=
  let stream_timeout := 20 in
  let! s := get in
  if negb (gdb_rx_count s =? 0) then buffered else
  let timeout := if 1 <=? xStreamBufferBytesAvailable (streams s) then 0 else timeout in
  let tries_limit := u32 (Z.quot timeout stream_timeout) in
  let! received_bytes :=
    iter (S (Z.to_nat tries_limit)) (fun tries : Z =>
      let! n := rx_receive stream_timeout in
      ret (if n =? 0 then (if tries <? tries_limit then inl (tries + 1) else inr 0) else inr n)) 0 in
  if received_bytes =? 0 then ret 255 else first_byte received_bytes.

(** The buffers never hold more than they can. *)
Definition wf (s : chan_state) : Prop :=
  zlen (gdb_tx_buf s) = buf_size /\ 0 <= gdb_tx_count s < buf_size /\
  zlen (gdb_rx_buf s) = buf_size /\ 0 <= gdb_rx_count s /\
  0 <= gdb_rx_last_pos s /\ gdb_rx_last_pos s + gdb_rx_count s <= buf_size.
Definition rx_pending (s : chan_state) : list Z :=
  ztake (gdb_rx_count s) (zdrop (gdb_rx_last_pos s) (gdb_rx_buf s)).
Definition tx_pending (s : chan_state) : list Z := ztake (gdb_tx_count s) (gdb_tx_buf s).
Definition rx_all (s : chan_state) : list Z := rx_pending s ++ incoming (streams s).
Definition tx_all (s : chan_state) : list Z := sent (streams s) ++ tx_pending s.

Lemma ztake_insert_snoc (l : list Z) n c :
  0 <= n < zlen l -> ztake (n + 1) (<[Z.to_nat n := c]> l) = ztake n l ++ [c].
Proof.
  unfold zlen, ztake. intros Hn. replace (Z.to_nat (n + 1)) with (S (Z.to_nat n)) by lia.
  rewrite (take_S_r _ _ c) by (rewrite list_lookup_insert_eq; [done|lia]).
  by rewrite take_insert_ge by lia.
Qed.

(** [gdb_if_putchar] appends exactly its byte to what the host will see, and a
    flush leaves nothing behind in the buffer. *)
Lemma putchar_ok s c f :
  wf s -> exists s', gdb_if_putchar c f s = Ok tt s' /\ wf s' /\
    rx_all s' = rx_all s /\ tx_all s' = tx_all s ++ [u8 c] /\
    (f = true -> tx_pending s' = []).
Proof.
  intros (Ht & Hc & Hr & Hn & Hp & Hs).
  unfold gdb_if_putchar, get, bind, store.
  rewrite Ht, (proj2 (Z.leb_le 0 _)), (proj2 (Z.ltb_lt _ _)) by lia. cbn [andb ret modify].
  assert (Hu : u32 (gdb_tx_count s + 1) = gdb_tx_count s + 1)
    by (apply u32_small; unfold buf_size in *; lia).
  rewrite Hu. set (buf := <[Z.to_nat (gdb_tx_count s) := u8 c]> (gdb_tx_buf s)).
  assert (Hlen : zlen buf = buf_size) by (unfold buf, zlen; rewrite length_insert; apply Ht).
  pose proof (ztake_insert_snoc (gdb_tx_buf s) (gdb_tx_count s) (u8 c)) as Hsnoc.
  rewrite Ht in Hsnoc. fold buf in Hsnoc.
  unfold ret at 1. cbn [modify].
  destruct ((gdb_tx_count s + 1 =? buf_size) || f) eqn:Eflush.
  - unfold load_n. rewrite Hlen, !(proj2 (Z.leb_le _ _)) by lia. cbn.
    eexists; split; [reflexivity|]. destruct (send_spec (streams s) (ztake (gdb_tx_count s + 1) (zdrop 0 buf))) as [Hi Ho].
    split; [|split; [|split]].
    + unfold wf; cbn. unfold buf_size in *. split_and!; done || lia.
    + unfold rx_all, rx_pending; cbn. by rewrite Hi.
    + unfold tx_all, tx_pending; cbn. change (zdrop 0 buf) with buf in *.
      rewrite Ho, Hsnoc by lia. by rewrite app_nil_r, app_assoc.
    + done.
  - apply orb_false_iff in Eflush as [Ene ->]. apply Z.eqb_neq in Ene.
    eexists; split; [reflexivity|]. split; [|split; [|split]].
    + unfold wf; cbn. split_and!; done || lia.
    + done.
    + unfold tx_all, tx_pending; cbn. rewrite Hsnoc by lia. by rewrite app_assoc.
    + done.
Qed.

Lemma buffered_ok s : wf s -> gdb_rx_count s <> 0 ->
  exists b s', buffered s = Ok b s' /\ wf s' /\ rx_all s = b :: rx_all s' /\ tx_all s' = tx_all s.
Proof.
  intros (Ht & Hc & Hr & Hn & Hp & Hs) Hne. unfold buffered, bind, get, load.
  rewrite Hr, (proj2 (Z.leb_le 0 _)), (proj2 (Z.ltb_lt _ _)) by lia. cbn.
  rewrite u32_small by (unfold buf_size in *; lia).
  eexists _, _; split; [reflexivity|]. split; [unfold wf; cbn; split_and!; done || lia|].
  split; [|done]. unfold rx_all, rx_pending, ztake, zdrop, zget; cbn.
  rewrite (proj2 (Z.ltb_ge _ 0)) by lia.
  set (p := Z.to_nat (gdb_rx_last_pos s)). unfold zlen in Hr.
  assert (Hlt : (p < length (gdb_rx_buf s))%nat) by (unfold p, buf_size in *; lia).
  replace (Z.to_nat (gdb_rx_last_pos s + 1)) with (S p) by lia.
  replace (Z.to_nat (gdb_rx_count s)) with (S (Z.to_nat (gdb_rx_count s - 1))) by lia.
  destruct (lookup_lt_is_Some_2 _ _ Hlt) as [b Hb].
  rewrite (drop_S _ _ _ Hb). cbn [take]. cbn. f_equal. symmetry. by apply nth_lookup_Some.
Qed.

(** The state after a receive that brought [l], reached from [s] through
    receives that timed out. *)
Definition received (s : chan_state) (l : list Z) (s1 : chan_state) : Prop :=
  wf s1 /\ gdb_rx_count s1 = 0 /\ ztake (zlen l) (gdb_rx_buf s1) = l /\ zlen l <= buf_size /\
  rx_all s = l ++ incoming (streams s1) /\ tx_all s1 = tx_all s.

Lemma receive_step t s : wf s -> gdb_rx_count s = 0 ->
  exists l s1, rx_receive t s = Ok (zlen l) s1 /\ received s l s1 /\
    (l = [] -> incoming (streams s) <> [] -> (idle (streams s1) < idle (streams s))%nat) /\
    (0 < xStreamBufferBytesAvailable (streams s) -> l <> []).
Proof.
  intros (Ht & Hc & Hr & Hn & Hp & Hs) Hz. unfold rx_receive, bind, get.
  destruct (xStreamBufferReceive buf_size t (streams s)) as [l e] eqn:Er.
  destruct (receive_spec _ buf_size _ _ _ ltac:(reflexivity) Er) as (Hcat & Hmax & Hsent).
  eexists l, _; split; [reflexivity|]. pose proof (zlen_nonneg l). split; [|split].
  - unfold received, wf, rx_all, rx_pending, tx_all, tx_pending; cbn.
    rewrite zlen_splice by lia. rewrite Hz, Hsent, Hcat. split_and!; try done; try lia.
    unfold splice, ztake, zlen. rewrite Nat2Z.id, take_0. cbn. by rewrite take_app_length.
  - intros -> Hi. cbn. by apply (receive_live _ buf_size t).
  - intros Ha ->. pose proof (available_receive _ buf_size t ltac:(reflexivity) Ha) as Hav.
    by rewrite Er in Hav.
Qed.

Lemma received_nil s s1 : received s [] s1 ->
  wf s1 /\ gdb_rx_count s1 = 0 /\ rx_all s1 = rx_all s /\ tx_all s1 = tx_all s.
Proof.
  intros (Hw & Hz & _ & _ & Hrx & Htx). split_and!; try done.
  rewrite Hrx. unfold rx_all, rx_pending. by rewrite Hz.
Qed.
Lemma received_trans s s1 l s2 : received s [] s1 -> received s1 l s2 -> received s l s2.
Proof.
  intros H1 (Hw & Hz & Hl & Hm & Hrx & Htx). destruct (received_nil _ _ H1) as (_ & _ & Hr & Hx).
  unfold received. rewrite <- Hr, <- Hx. done.
Qed.

(** A receive that brings bytes: the first is returned, the rest buffered. *)
Lemma first_byte_ok s l s1 : l <> [] -> received s l s1 ->
  exists b s', first_byte (zlen l) s1 = Ok b s' /\ wf s' /\
    rx_all s = b :: rx_all s' /\ tx_all s' = tx_all s.
Proof.
  intros Hl ((Ht & Hc & Hr & Hn & Hp & Hs) & Hz & Htk & Hlen & Hrx & Htx).
  destruct l as [|b l]; [done|]. rewrite zlen_cons in *. pose proof (zlen_nonneg l).
  unfold first_byte, modify, get, bind, load; cbn [gdb_rx_buf set_rx set_streams].
  rewrite Hr. change (0 <? buf_size) with true. cbn [andb Z.leb Z.compare].
  rewrite u32_small by (unfold buf_size in *; lia). replace (zlen l + 1 - 1) with (zlen l) by lia.
  unfold ztake in Htk. replace (Z.to_nat (zlen l + 1)) with (S (length l)) in Htk by (unfold zlen; lia).
  destruct (gdb_rx_buf s1) as [|b' buf] eqn:Eb; [done|]. cbn in Htk. injection Htk as -> Htk.
  exists b. eexists; split; [reflexivity|]. split; [|split].
  - unfold wf; cbn. split_and!; try done; lia.
  - rewrite Hrx. unfold rx_all, rx_pending, ztake, zdrop, zlen; cbn. rewrite Nat2Z.id.
    change (Pos.to_nat 1) with 1%nat. cbn. by rewrite <- Htk at 1.
  - rewrite <- Htx. done.
Qed.

Lemma zlen_zero {A} (l : list A) : (zlen l =? 0) = match l with [] => true | _ => false end.
Proof. destruct l; [done|]. apply Z.eqb_neq. rewrite zlen_cons. pose proof (zlen_nonneg l). lia. Qed.

(** The receive loop of [gdb_if_getchar]. *)
Definition getchar_body (timeout : Z) (_ : unit) : M chan_state (unit + Z) :=
  let! n := rx_receive timeout in
  ret (if (n =? 0) && negb (timeout =? 0) then inl tt else inr n).

Lemma getchar_loop timeout n : forall s, (idle (streams s) < n)%nat -> wf s ->
  gdb_rx_count s = 0 -> incoming (streams s) <> [] ->
  (timeout = 0 -> 0 < xStreamBufferBytesAvailable (streams s)) ->
  exists l s1, iter n (getchar_body timeout) tt s = Ok (zlen l) s1 /\ l <> [] /\ received s l s1.
Proof.
  induction n as [|n IH]; intros s Hlt Hw Hz Hi Hav; [lia|].
  destruct (receive_step timeout s Hw Hz) as (l & s1 & Hrun & Hrec & Hidle & Hne).
  rewrite iter_S. unfold getchar_body at 1. rewrite bind_bind, (bind_Ok _ _ _ _ _ Hrun), bind_ret, zlen_zero.
  destruct l as [|b l]; [|exists (b :: l), s1; done].
  assert ((timeout =? 0) = false) as -> by (apply Z.eqb_neq; intros ->; by apply Hne; [apply Hav|]).
  cbn. destruct (received_nil _ _ Hrec) as (Hw1 & Hz1 & Hr1 & _).
  assert (Hi1 : incoming (streams s1) = incoming (streams s)).
  { unfold rx_all, rx_pending in Hr1. rewrite Hz, Hz1 in Hr1. apply Hr1. }
  destruct (IH s1) as (l & s2 & Hrun2 & Hl & Hrec2); try done.
  - specialize (Hidle eq_refl Hi). lia.
  - by rewrite Hi1.
  - intros ->. by destruct (Hne (Hav eq_refl)).
  - exists l, s2. split_and!; try done. by eapply received_trans.
Qed.

Lemma getchar_ok s : wf s -> rx_all s <> [] ->
  exists b s', gdb_if_getchar s = Ok b s' /\ wf s' /\ rx_all s = b :: rx_all s' /\ tx_all s' = tx_all s.
Proof.
  intros Hwf Hrx. unfold gdb_if_getchar. unfold bind at 1, get.
  destruct (gdb_rx_count s =? 0) eqn:E0; cbn [negb]; [|apply buffered_ok; [done|by apply Z.eqb_neq]].
  apply Z.eqb_eq in E0. set (timeout := if 1 <=? _ then 0 else 20).
  destruct (getchar_loop timeout (S (idle (streams s))) s) as (l & s1 & Hrun & Hl & Hrec); try done; try lia; [| |].
  - unfold rx_all, rx_pending in Hrx. by rewrite E0 in Hrx.
  - unfold timeout. destruct (1 <=? _) eqn:E1; [lia|done].
  - unfold getchar_body in Hrun. rewrite (bind_Ok _ _ _ _ _ Hrun). by apply first_byte_ok.
Qed.

(** With nothing left to come the read waits for ever. *)
Lemma getchar_loop_empty timeout n : forall s, wf s -> gdb_rx_count s = 0 ->
  incoming (streams s) = [] -> timeout <> 0 -> iter n (getchar_body timeout) tt s = Hang.
Proof.
  induction n as [|n IH]; intros s Hw Hz Hi Ht; [done|].
  destruct (receive_step timeout s Hw Hz) as (l & s1 & Hrun & Hrec & _ & _).
  rewrite iter_S. unfold getchar_body at 1. rewrite bind_bind, (bind_Ok _ _ _ _ _ Hrun), bind_ret, zlen_zero.
  assert (Hrx : rx_all s = []) by (unfold rx_all, rx_pending; by rewrite Hz, Hi).
  destruct Hrec as (Hw1 & Hz1 & _ & _ & Hcat & _). rewrite Hrx in Hcat.
  symmetry in Hcat. apply app_eq_nil in Hcat as [-> Hi1].
  rewrite (proj2 (Z.eqb_neq _ _) Ht). cbn. by apply IH.
Qed.

Lemma getchar_empty s : wf s -> rx_all s = [] -> gdb_if_getchar s = Hang.
Proof.
  intros Hwf Hrx. unfold gdb_if_getchar. unfold bind at 1, get.
  destruct (gdb_rx_count s =? 0) eqn:E0; cbn [negb].
  2: { apply Z.eqb_neq in E0. destruct (buffered_ok s Hwf E0) as (b & s' & _ & _ & H' & _). congruence. }
  apply Z.eqb_eq in E0.
  assert (Hi : incoming (streams s) = []) by (unfold rx_all, rx_pending in Hrx; by rewrite E0 in Hrx).
  destruct (1 <=? _) eqn:E1.
  - destruct (receive_step 0 s Hwf E0) as (l & s1 & _ & (_ & _ & _ & _ & Hcat & _) & _ & Hne).
    rewrite Hrx in Hcat. symmetry in Hcat. apply app_eq_nil in Hcat as [-> _].
    exfalso. apply Hne; [lia|done].
  - pose proof (getchar_loop_empty 20 (S (idle (streams s))) s Hwf E0 Hi ltac:(lia)) as Hl.
    erewrite bind_Hang; [done|exact Hl].
Qed.

(** The timed read gives up with 0xff and has then consumed nothing. *)
Lemma getchar_to_loop limit n : forall tries s, wf s -> gdb_rx_count s = 0 ->
  0 <= tries <= limit -> (Z.to_nat (limit - tries) < n)%nat ->
  exists l s1, iter n (fun tries : Z =>
      let! n := rx_receive 20 in
      ret (if n =? 0 then (if tries <? limit then inl (tries + 1) else inr 0) else inr n)) tries s
    = Ok (zlen l) s1 /\ received s l s1.
Proof.
  induction n as [|n IH]; intros tries s Hw Hz Ht Hn; [lia|].
  destruct (receive_step 20 s Hw Hz) as (l & s1 & Hrun & Hrec & _ & _).
  rewrite iter_S, bind_bind, (bind_Ok _ _ _ _ _ Hrun), bind_ret, zlen_zero.
  destruct l as [|b l]; [|exists (b :: l), s1; done].
  destruct (tries <? limit) eqn:Elt; [|exists [], s1; done].
  destruct (received_nil _ _ Hrec) as (Hw1 & Hz1 & _).
  destruct (IH (tries + 1) s1 Hw1 Hz1) as (l & s2 & Hrun2 & Hrec2); [lia|lia|].
  exists l, s2. split; [done|by eapply received_trans].
Qed.

Lemma getchar_to_ok s t : wf s -> exists b s', gdb_if_getchar_to t s = Ok b s' /\ wf s' /\
  tx_all s' = tx_all s /\ ((b = 255 /\ rx_all s' = rx_all s) \/ rx_all s = b :: rx_all s').
Proof.
  intros Hwf. unfold gdb_if_getchar_to. unfold bind at 1, get.
  destruct (gdb_rx_count s =? 0) eqn:E0; cbn [negb].
  2: { apply Z.eqb_neq in E0. destruct (buffered_ok s Hwf E0) as (b & s' & ? & ? & ? & ?).
       exists b, s'. auto. }
  apply Z.eqb_eq in E0. set (timeout := if 1 <=? _ then 0 else t).
  pose proof (u32_range (Z.quot timeout 20)).
  destruct (getchar_to_loop (u32 (Z.quot timeout 20)) (S (Z.to_nat (u32 (Z.quot timeout 20)))) 0 s)
    as (l & s1 & Hrun & Hrec); try done; try lia.
  rewrite (bind_Ok _ _ _ _ _ Hrun), zlen_zero. destruct l as [|b l].
  - destruct (received_nil _ _ Hrec) as (? & _ & ? & ?). exists 255, s1. split_and!; try done. by left.
  - destruct (first_byte_ok s (b :: l) s1) as (c & s' & ? & ? & ? & ?); [done..|]. exists c, s'. split_and!; try done. by right.
Qed.

(** main.c's channel implements the interface. *)
#[global] Instance channel_if : GdbIf chan_state := {
  gdb_if_getchar := gdb_if_getchar;
  gdb_if_getchar_to := gdb_if_getchar_to;
  gdb_if_putchar := gdb_if_putchar;
}.
#[global, refine] Instance channel_spec : GdbIfSpec chan_state := {
  if_wf := wf; rx := rx_all; tx := tx_all;
}.
Proof.
  - intros w b r Hw Hrx. destruct (getchar_ok w Hw) as (c & w' & ? & ? & He & ?); [by rewrite Hrx|].
    rewrite Hrx in He. injection He as -> ->. exists w'. split_and!; done.
  - exact getchar_empty.
  - exact (fun w t H => getchar_to_ok w t H).
  - intros w c f Hw. destruct (putchar_ok w c f Hw) as (w' & ? & ? & ? & ? & _). exists w'. split_and!; done.
Defined.
End Channel.
End Channel.

(** ** The plain wire: the interface without buffering, for concrete runs *)
Module Wire.
Record wire := { w_rx : list Z; w_tx : list Z }.

Definition getchar : M wire Z := fun w =>
  match w_rx w with
  | b :: r => Ok b {| w_rx := r; w_tx := w_tx w |}
  | [] => Hang
  end.
Definition getchar_to (timeout : Z) : M wire Z := fun w =>
  match w_rx w with
  | b :: r => Ok b {| w_rx := r; w_tx := w_tx w |}
  | [] => Ok 255 w
  end.
Definition putchar (c : Z) (flush : bool) : M wire unit := fun w =>
  Ok tt {| w_rx := w_rx w; w_tx := w_tx w ++ [u8 c] |}.

#[global] Instance wire_if : GdbIf wire := {
  gdb_if_getchar := getchar; gdb_if_getchar_to := getchar_to; gdb_if_putchar := putchar }.
#[global, refine] Instance wire_spec : GdbIfSpec wire := {
  if_wf _ := True; rx := w_rx; tx := w_tx }.
Proof.
  - intros [[|c l] t] b r _ E; [done|]. injection E as -> ->. eexists; split_and!; done.
  - intros [[|c l] t] _ E; done.
  - intros [[|c l] t] n _.
    + exists 255, {| w_rx := []; w_tx := t |}. split_and!; try done. by left.
    + exists c, {| w_rx := l; w_tx := t |}. split_and!; try done. by right.
  - intros w c f _. eexists; split_and!; done.
Defined.
Definition of_bytes (l : list Z) : wire := {| w_rx := l; w_tx := [] |}.
End Wire.

(** ** Properties of the channel *)
Section ChannelProperties.
Context {E : Type} `{StreamBufferSpec E}.

(** [gdb_if_putchar] never overruns its 256-byte buffer and appends exactly
    its byte, cut to 8 bits, to what the host will have seen once the buffer
    is sent; with [flush] nothing stays behind in the buffer. *)
Theorem putchar_buffered (s : Channel.chan_state) (c : Z) (f : bool) :
  Channel.wf s ->
  exists s', Channel.gdb_if_putchar c f s = Ok tt s' /\ Channel.wf s' /\
    Channel.tx_all s' = Channel.tx_all s ++ [u8 c] /\ Channel.rx_all s' = Channel.rx_all s /\
    (f = true -> sent (Channel.streams s') = Channel.tx_all s ++ [u8 c]).
Proof.
  intros Hwf. destruct (Channel.putchar_ok s c f Hwf) as (s' & Hrun & Hwf' & Hr & Ht & Hfl).
  exists s'. split_and!; try done. intros Hf. rewrite <- Ht. unfold Channel.tx_all.
  by rewrite (Hfl Hf), app_nil_r.
Qed.

(** C38: [gdb_if_getchar] delivers the host's bytes in order, none lost and none
    twice, whatever the sizes of the chunks the stream buffer returns; it
    never reads outside its buffer, and with no byte to come it waits for
    ever. *)
Theorem getchar_in_order (s : Channel.chan_state) :
  Channel.wf s ->
  match Channel.rx_all s with
  | [] => Channel.gdb_if_getchar s = Hang
  | b :: r => exists s', Channel.gdb_if_getchar s = Ok b s' /\ Channel.wf s' /\
      Channel.rx_all s' = r /\ Channel.tx_all s' = Channel.tx_all s
  end.
Proof.
  intros Hwf. destruct (Channel.rx_all s) as [|b r] eqn:Er; [by apply Channel.getchar_empty|].
  destruct (Channel.getchar_ok s Hwf) as (c & s' & Hrun & Hwf' & Hc & Ht); [by rewrite Er|].
  rewrite Er in Hc. injection Hc as -> ->. by exists s'.
Qed.
End ChannelProperties.

(** *** A concrete stream buffer: the chunks still to arrive, and the bytes sent *)
Module Chunks.
Record env := { chunks : list (list Z); out : list Z }.
Definition receive (max t : Z) (e : env) : list Z * env :=
  match chunks e with
  | [] => ([], e)
  | l :: r => if max <? zlen l
              then (ztake max l, {| chunks := zdrop max l :: r; out := out e |})
              else (l, {| chunks := r; out := out e |})
  end.
#[global] Instance chunks_sb : StreamBuffer env := {
  xStreamBufferBytesAvailable e := match chunks e with l :: _ => zlen l | [] => 0 end;
  xStreamBufferReceive := receive;
  xStreamBufferSend l e := {| chunks := chunks e; out := out e ++ l |};
}.
#[global, refine] Instance chunks_spec : StreamBufferSpec env := {
  incoming e := concat (chunks e); sent := out; idle e := length (chunks e) }.
Proof.
  - intros [[|l r] o] max t Hm Ha; cbn in *; [unfold zlen in Ha; cbn in Ha; lia|].
    unfold receive; cbn. destruct (max <? zlen l) eqn:E; cbn.
    + intros Hn. apply (f_equal zlen) in Hn. rewrite zlen_ztake in Hn by lia. unfold zlen in Hn; cbn in Hn. lia.
    + intros ->. unfold zlen in Ha; cbn in Ha; lia.
  - intros [[|l r] o] max t l' e' Hm Hr; unfold xStreamBufferReceive, chunks_sb, receive in Hr; cbn in Hr.
    + injection Hr as <- <-. cbn. unfold zlen; cbn. split_and!; done || lia.
    + destruct (max <? zlen l) eqn:E; injection Hr as <- <-; cbn.
      * rewrite app_assoc, ztake_zdrop. rewrite zlen_ztake by lia. split_and!; done || lia.
      * split_and!; done || lia.
  - intros [[|l r] o] max t e' Hm Hne Hr; unfold xStreamBufferReceive, chunks_sb, receive in Hr; cbn in *; [done|].
    destruct (max <? zlen l) eqn:E; injection Hr as Hl <-; cbn; [|lia].
    apply (f_equal zlen) in Hl. rewrite zlen_ztake in Hl by lia. unfold zlen in Hl; cbn in Hl. lia.
  - done.
Defined.
Definition start (l : list (list Z)) : Channel.chan_state :=
  {| Channel.gdb_tx_buf := memset 256 0; Channel.gdb_tx_count := 0; Channel.gdb_rx_buf := memset 256 0;
     Channel.gdb_rx_count := 0; Channel.gdb_rx_last_pos := 0; Channel.streams := {| chunks := l; out := [] |} |}.
End Chunks.

Lemma putchar_buffered_witness :
  Channel.wf (Chunks.start []) /\
  exists s', Channel.gdb_if_putchar 65 true (Chunks.start []) = Ok tt s' /\
    sent (Channel.streams s') = [65].
Proof.
  assert (Hwf : Channel.wf (Chunks.start [])) by (unfold Channel.wf; vm_compute; intuition discriminate).
  split; [exact Hwf|].
  destruct (putchar_buffered (Chunks.start []) 65 true Hwf) as (s' & Hrun & _ & _ & _ & Hs).
  exists s'. split; [exact Hrun|]. rewrite (Hs eq_refl). vm_compute. reflexivity.
Defined.

Lemma getchar_in_order_witness :
  exists s', Channel.gdb_if_getchar (Chunks.start [[]; [36; 37]; [38]]) = Ok 36 s' /\
    Channel.rx_all s' = [37; 38].
Proof.
  assert (Hwf : Channel.wf (Chunks.start [[]; [36; 37]; [38]]))
    by (unfold Channel.wf; vm_compute; intuition discriminate).
  pose proof (getchar_in_order (Chunks.start [[]; [36; 37]; [38]]) Hwf) as H.
  change (Channel.rx_all (Chunks.start [[]; [36; 37]; [38]])) with [36; 37; 38] in H.
  cbv beta iota in H. destruct H as (s' & Hrun & _ & Hr & _). exists s'. split; [exact Hrun|exact Hr].
Defined.
