(* ===== verification/GdbPacket.v ===== *)
(** gdb_packet.c: reception and transmission of GDB remote serial protocol
    packets: framing, escaping, checksums, acknowledgement and retransmission,
    and the output helpers built on them. *)

From Stdlib Require Import ZArith Lia String.
From stdpp Require Import base list numbers option.
From S2P Require Import Prelude CLib HexUtils GdbIf MemManager.

Definition REMOTE_SOM : Z := 33.   (* '!' *)
Definition REMOTE_EOM : Z := 35.   (* '#' *)
Definition SOP : Z := 36.          (* '$' *)
Definition ESC : Z := 125.         (* the escape character, a closing brace *)
Definition EOT : Z := 4.

Definition GDB_OUT_PACKET_SIZE : Z := 2048.
Definition GDB_PUT_PACKET_SIZE : Z := 4096.

(** ** Model *)
Section Packet.
Context {W : Type} `{GdbIf W} `{MemIf W}.

(** [remotePacketProcess(i, packet)] (remote.c) may use the packet buffer as
    scratch memory: it gives the buffer back. *)
Variable remotePacketProcess : Z -> list Z -> M W (list Z).
(** Iterations of each loop that are observed. *)
Variable fuel : nat.

(** The innermost [do .. while]: wait for a start character.  [inr None]: the
    EOT character was read and [gdb_getpacket] returns at once. *)
Definition wait_start (packet : list Z) : M W (bool * list Z) :=
  iter fuel (fun packet =>
    let! c := gdb_if_getchar in
    let! packet := store packet 0 c in
    if c =? EOT then ret (inr (true, packet))
    else if (c =? SOP) || (c =? REMOTE_SOM) then ret (inr (false, packet))
    else ret (inl packet)) packet.

(** The [gettingRemotePacket] loop: one character. *)
Definition remote_packet_body (size : Z) (st : Z * list Z) : M W (Z * list Z + list Z) :=
  let '(i, packet) := st in
  let! c := gdb_if_getchar in
  if c =? REMOTE_SOM then ret (inl (0, packet))
  else if c =? REMOTE_EOM then
    let! packet := store packet i 0 in
    let! packet := remotePacketProcess i packet in
    ret (inr packet)
  else if c =? SOP then
    let! packet := store packet 0 SOP in ret (inr packet)
  else if i <? size then
    let! packet := store packet i c in ret (inl (i + 1, packet))
  else ret (inr packet).
Definition remote_packet (size : Z) (packet : list Z) : M W (list Z) :=
  iter fuel (remote_packet_body size) (0, packet).

(** The outer [do .. while (packet[0] != '$')]; [true]: EOT. *)
Definition find_packet_body (size : Z) (packet : list Z) : M W (list Z + bool * list Z) :=
  let! (eot, packet) := wait_start packet in
  if eot : bool then ret (inr (true, packet)) else
  let! p0 := load packet 0 in
  let! packet := if p0 =? REMOTE_SOM then remote_packet size packet else ret packet in
  let! p0 := load packet 0 in
  ret (if p0 =? SOP then inr (false, packet) else inl packet).
Definition find_packet (size : Z) (packet : list Z) : M W (bool * list Z) :=
  iter fuel (find_packet_body size) packet.

(** "Capture packet data into buffer": one character; the state is
    (i, csum, packet). *)
Definition capture_body (size : Z) (st : Z * Z * list Z) : M W (Z * Z * list Z + Z * Z * list Z) :=
  let '(i, csum, packet) := st in
  let! c := gdb_if_getchar in
  if c =? REMOTE_EOM then ret (inr (i, csum, packet))
  else if i =? size then ret (inr (i, csum, packet))
  else if c =? SOP then ret (inl (0, 0, packet))
  else if c =? ESC then
    let! c := gdb_if_getchar in
    let csum := u8 (csum + (c + ESC)) in
    let! packet := store packet i (Z.lxor c 32) in
    ret (inl (i + 1, csum, packet))
  else
    let! packet := store packet i c in
    ret (inl (i + 1, u8 (csum + c), packet)).
Definition capture (size : Z) (packet : list Z) : M W (Z * Z * list Z) :=
  iter fuel (capture_body size) (0, 0, packet).

(** One round of [gdb_getpacket]'s [while (1)]. *)
Definition getpacket_body (size : Z) (packet : list Z) : M W (list Z + Z * list Z) :=
  let! (eot, packet) := find_packet size packet in
  if eot : bool then ret (inr (1, packet)) else
  let! (i, csum, packet) := capture size packet in
  let! r0 := gdb_if_getchar in
  let! r1 := gdb_if_getchar in
  if csum =? strtol 16 (cstr [r0; r1]) then
    do! gdb_if_putchar 43 true in           (* '+' *)
    let! packet := store packet i 0 in
    ret (inr (i, packet))
  else
    do! gdb_if_putchar 45 true in           (* '-' *)
    ret (inl packet).
Definition gdb_getpacket (packet : list Z) (size : Z) : M W (Z * list Z) :=
  iter fuel (getpacket_body size) packet.

(** The [for] loop of [gdb_putpacket]: the body of a frame and its checksum. *)
Fixpoint put_body (packet : list Z) (csum : Z) : M W Z :=
  match packet with
  | [] => ret csum
  | c :: packet' =>
      if (c =? SOP) || (c =? REMOTE_EOM) || (c =? ESC) then
        do! gdb_if_putchar ESC false in
        do! gdb_if_putchar (Z.lxor c 32) false in
        put_body packet' (u8 (csum + (ESC + Z.lxor c 32)))
      else
        do! gdb_if_putchar c false in
        put_body packet' (u8 (csum + c))
  end.

Definition put_frame (packet : list Z) : M W unit :=
  do! gdb_if_putchar SOP false in
  let! csum := put_body packet 0 in
  do! gdb_if_putchar REMOTE_EOM false in
  let xmit_csum := fmt_X 2 csum in
  do! gdb_if_putchar (zget xmit_csum 0) false in
  gdb_if_putchar (zget xmit_csum 1) true.

(** [do .. while (getchar_to(2000) != '+' && tries++ < 3)]: at most 4 frames. *)
Definition putpacket_body (packet : list Z) (tries : Z) : M W (Z + unit) :=
  do! put_frame packet in
  let! c := gdb_if_getchar_to 2000 in
  ret (if negb (c =? 43) && (tries <? 3) then inl (tries + 1) else inr tt).
Definition gdb_putpacket (packet : list Z) : M W unit :=
  iter 4 (putpacket_body packet) 0.
Definition gdb_putpacketz (s : list Z) : M W unit := gdb_putpacket (cstr s).

(** What [vsnprintf(buf, n, ..)] leaves in [buf] when the whole text is
    [text]: at most [n - 1] characters and a NUL; the rest of the block is as
    the allocator left it, zero. *)
Definition vsnprintf_buf (n : Z) (text : list Z) : list Z :=
  let t := ztake (n - 1) text in t ++ memset (n - zlen t) 0.

(** [gdb_putpacket_f], after formatting: [text] is the formatted text. *)
Definition gdb_putpacket_f (text : list Z) : M W unit :=
  let! buf := MemManager_Alloc GDB_PUT_PACKET_SIZE in
  let! _ := deref buf in
  let size := zlen text in
  do! (if 0 <? size then
         let! data := load_n (vsnprintf_buf GDB_PUT_PACKET_SIZE text) 0 size in
         gdb_putpacket data
       else ret tt) in
  MemManager_Free buf.

Definition gdb_out (buf : list Z) : M W unit :=
  let i := zlen (cstr buf) * 2 + 1 in
  if GDB_PUT_PACKET_SIZE <=? i then ret tt else
  let! hexdata := MemManager_Alloc (i + 1) in
  let! _ := deref hexdata in
  do! gdb_putpacket (chr "O" :: hexify_digits (cstr buf)) in
  MemManager_Free hexdata.

Definition gdb_voutf (text : list Z) : M W unit :=
  let! buf := MemManager_Alloc GDB_OUT_PACKET_SIZE in
  let! _ := deref buf in
  do! (if 0 <? zlen text then gdb_out (vsnprintf_buf GDB_OUT_PACKET_SIZE text) else ret tt) in
  MemManager_Free buf.
Definition gdb_outf (text : list Z) : M W unit := gdb_voutf text.
End Packet.

(** ** The wire format

    The reference encoding: what a frame for [packet] is on the wire. *)
Definition escaped (c : Z) : list Z :=
  if (c =? SOP) || (c =? REMOTE_EOM) || (c =? ESC) then [ESC; Z.lxor c 32] else [c].
Definition body (packet : list Z) : list Z := concat (escaped <$> packet).
Definition checksum (l : list Z) : Z := u8 (foldr Z.add 0 l).
Definition frame (packet : list Z) : list Z :=
  SOP :: body packet ++ REMOTE_EOM :: fmt_X 2 (checksum (body packet)).

Lemma body_cons c data : body (c :: data) = escaped c ++ body data.
Proof. done. Qed.

(** ** Safety: the packet buffer is never overrun *)
Section Safety.
Context {W : Type} `{GdbIfSpec W}.
Variable remote : Z -> list Z -> M W (list Z).
Variable fuel : nat.

(** The remote handler works inside the buffer it is given. *)
Definition remote_ok (n : Z) : Prop := forall i p w, if_wf w -> zlen p = n -> 0 <= i < n ->
  safe (remote i p) w (fun p' w' => if_wf w' /\ zlen p' = n) if_wf.

Lemma getchar_safe w : if_wf w -> safe gdb_if_getchar w (fun _ w' => if_wf w') if_wf.
Proof.
  intros Hw. unfold safe. destruct (rx w) as [|b r] eqn:E.
  - by rewrite (getchar_blocks w Hw E).
  - destruct (getchar_rx w b r Hw E) as (w' & -> & ? & _). done.
Qed.
Lemma putchar_safe c f w : if_wf w -> safe (gdb_if_putchar c f) w (fun _ w' => if_wf w') if_wf.
Proof. intros Hw. unfold safe. destruct (putchar_spec w c f Hw) as (w' & -> & ? & _). done. Qed.
Lemma store_safe buf i v w (E : W -> Prop) : if_wf w -> 0 <= i < zlen buf ->
  safe (store buf i v) w (fun p w' => if_wf w' /\ p = <[Z.to_nat i := v]> buf) E.
Proof.
  intros Hw Hi. unfold safe, store.
  by rewrite (proj2 (Z.leb_le _ _)), (proj2 (Z.ltb_lt _ _)) by lia.
Qed.
Lemma load_safe buf i w (E : W -> Prop) : if_wf w -> 0 <= i < zlen buf ->
  safe (load buf i) w (fun b w' => if_wf w' /\ b = zget buf i) E.
Proof.
  intros Hw Hi. unfold safe, load.
  by rewrite (proj2 (Z.leb_le _ _)), (proj2 (Z.ltb_lt _ _)) by lia.
Qed.

Ltac s_getchar c w Hw := eapply safe_bind; [by apply getchar_safe|]; intros c w Hw; cbn beta in Hw.
Ltac s_store p w Hw := eapply safe_bind; [apply store_safe; [done|lia]|]; intros p w [Hw ->].

Lemma wait_start_safe n p w : if_wf w -> zlen p = n -> 0 < n ->
  safe (wait_start fuel p) w (fun '(eot, p') w' => if_wf w' /\ zlen p' = n /\
    (eot = true -> zget p' 0 = EOT)) if_wf.
Proof.
  intros Hw Hp Hn. apply (safe_iter _ (fun p w => if_wf w /\ zlen p = n)); [|done].
  clear p w Hw Hp. intros p w [Hw Hp]. s_getchar c w1 Hw1. s_store p1 w2 Hw2.
  assert (zget (<[Z.to_nat 0 := c]> p) 0 = c) as Hg.
  { destruct p; [unfold zlen in Hp; cbn in Hp; lia|done]. }
  destruct (c =? EOT) eqn:Ee; [apply safe_ret; split_and!; try done; [by rewrite zlen_insert|intros _; lia]|].
  destruct ((c =? SOP) || (c =? REMOTE_SOM)); apply safe_ret; split_and!; try done; by rewrite zlen_insert.
Qed.

Lemma remote_packet_safe size p w : remote_ok (size + 1) -> if_wf w -> zlen p = size + 1 -> 0 < size ->
  safe (remote_packet remote fuel size p) w (fun p' w' => if_wf w' /\ zlen p' = size + 1) if_wf.
Proof.
  intros Hr Hw Hp Hn.
  apply (safe_iter _ (fun '(i, p) w => if_wf w /\ zlen p = size + 1 /\ 0 <= i <= size)); [|split_and!; done || lia].
  clear p w Hw Hp. intros [i p] w (Hw & Hp & Hi). s_getchar c w1 Hw1.
  destruct (c =? REMOTE_SOM); [apply safe_ret; split_and!; done || lia|].
  destruct (c =? REMOTE_EOM).
  { s_store p1 w2 Hw2. eapply safe_bind; [apply Hr; rewrite ?zlen_insert; done || lia|].
    intros p2 w3 [Hw3 Hp2]. apply safe_ret. done. }
  destruct (c =? SOP); [s_store p1 w2 Hw2; apply safe_ret; split; [done|by rewrite zlen_insert]|].
  destruct (i <? size) eqn:E; [|apply safe_ret; done].
  s_store p1 w2 Hw2. apply safe_ret. rewrite zlen_insert. split_and!; try done; lia.
Qed.

Lemma find_packet_safe size p w : remote_ok (size + 1) -> if_wf w -> zlen p = size + 1 -> 0 < size ->
  safe (find_packet remote fuel size p) w (fun '(eot, p') w' => if_wf w' /\ zlen p' = size + 1 /\
    (eot = true -> zget p' 0 = EOT)) if_wf.
Proof.
  intros Hr Hw Hp Hn. apply (safe_iter _ (fun p w => if_wf w /\ zlen p = size + 1)); [|done].
  clear p w Hw Hp. intros p w [Hw Hp].
  eapply safe_bind; [by apply (wait_start_safe (size + 1)); try lia|]. intros [[] p1] w1 (Hw1 & Hp1 & He).
  { apply safe_ret. split_and!; done. }
  eapply safe_bind; [apply load_safe; [done|lia]|]. intros p0 w2 [Hw2 ->].
  eapply (safe_bind _ _ _ (fun p w => if_wf w /\ zlen p = size + 1)).
  { destruct (zget p1 0 =? REMOTE_SOM); [by apply remote_packet_safe|by apply safe_ret]. }
  intros p2 w3 [Hw3 Hp2]. eapply safe_bind; [apply load_safe; [done|lia]|]. intros q w4 [Hw4 ->].
  destruct (zget p2 0 =? SOP); apply safe_ret; split_and!; done.
Qed.

Lemma capture_safe size p w : if_wf w -> zlen p = size + 1 -> 0 < size ->
  safe (capture fuel size p) w (fun '(i, _, p') w' => if_wf w' /\ zlen p' = size + 1 /\ 0 <= i <= size) if_wf.
Proof.
  intros Hw Hp Hn.
  apply (safe_iter _ (fun '(i, _, p) w => if_wf w /\ zlen p = size + 1 /\ 0 <= i <= size)); [|split_and!; done || lia].
  clear p w Hw Hp. intros [[i csum] p] w (Hw & Hp & Hi). s_getchar c w1 Hw1.
  destruct (c =? REMOTE_EOM); [by apply safe_ret|].
  destruct (i =? size) eqn:Ei; [by apply safe_ret|].
  destruct (c =? SOP); [apply safe_ret; split_and!; done || lia|].
  destruct (c =? ESC); [s_getchar c2 w2 Hw2|].
  all: s_store p1 w3 Hw3; apply safe_ret; rewrite zlen_insert; split_and!; try done; lia.
Qed.

Lemma getpacket_safe packet size w : remote_ok (size + 1) -> if_wf w ->
  zlen packet = size + 1 -> 0 < size ->
  safe (gdb_getpacket remote fuel packet size) w (fun '(i, p) w' => if_wf w' /\
    zlen p = size + 1 /\ 0 <= i <= size /\ (zget p i = 0 \/ (i = 1 /\ zget p 0 = EOT))) if_wf.
Proof.
  intros Hr Hw Hp Hn. apply (safe_iter _ (fun p w => if_wf w /\ zlen p = size + 1)); [|done].
  clear packet w Hw Hp. intros p w [Hw Hp].
  eapply safe_bind; [by apply find_packet_safe|]. intros [[] p1] w1 (Hw1 & Hp1 & He).
  { apply safe_ret. split_and!; [done|done|lia|lia|]. right. split; [done|by apply He]. }
  eapply safe_bind; [by apply capture_safe|]. intros [[i csum] p2] w2 (Hw2 & Hp2 & Hi).
  s_getchar r0 w3 Hw3. s_getchar r1 w4 Hw4.
  destruct (csum =? _).
  - eapply safe_bind; [by apply putchar_safe|]. intros [] w5 Hw5. s_store p3 w6 Hw6.
    apply safe_ret. rewrite zlen_insert. split_and!; try done; try lia. left.
    unfold zget. rewrite (proj2 (Z.ltb_ge _ _)) by lia. apply nth_lookup_Some.
    apply list_lookup_insert_eq. unfold zlen in Hp2. lia.
  - eapply safe_bind; [by apply putchar_safe|]. intros [] w5 Hw5. by apply safe_ret.
Qed.
End Safety.

(** ** Transmission: what goes over the wire *)
Section Transmit.
Context {W : Type} `{GdbIfSpec W}.

Lemma putchar_run c f w : if_wf w -> is_byte c ->
  exists w', gdb_if_putchar c f w = Ok tt w' /\ if_wf w' /\ rx w' = rx w /\ tx w' = tx w ++ [c].
Proof. intros Hw Hc. destruct (putchar_spec w c f Hw) as (w' & Hp). rewrite (u8_small c Hc) in Hp. eauto. Qed.

Lemma escaped_byte c : is_byte c -> is_byte (Z.lxor c 32).
Proof. intros. apply in_width_lxor; [lia|done|unfold in_width; lia]. Qed.
Lemma esc_is_byte : is_byte ESC.
Proof. unfold in_width, ESC. lia. Qed.

Lemma put_body_spec data : forall csum w, if_wf w -> is_bytes data -> u8 csum = csum ->
  exists w', put_body data csum w = Ok (u8 (csum + foldr Z.add 0 (body data))) w' /\
    if_wf w' /\ rx w' = rx w /\ tx w' = tx w ++ body data.
Proof.
  induction data as [|c data IH]; intros csum w Hw Hd E.
  - cbn. exists w. rewrite Z.add_0_r, E, app_nil_r. done.
  - apply Forall_cons_1 in Hd as [Hc Hd]. cbn [put_body]. rewrite body_cons. unfold escaped.
    destruct ((c =? SOP) || (c =? REMOTE_EOM) || (c =? ESC)).
    + destruct (putchar_run ESC false w Hw esc_is_byte) as (w1 & Hp1 & Hw1 & Hr1 & Ht1).
      destruct (putchar_run (Z.lxor c 32) false w1 Hw1 (escaped_byte c Hc)) as (w2 & Hp2 & Hw2 & Hr2 & Ht2).
      rewrite (bind_Ok _ _ _ _ _ Hp1), (bind_Ok _ _ _ _ _ Hp2).
      destruct (IH (u8 (csum + (ESC + Z.lxor c 32))) w2 Hw2 Hd) as (w3 & Hp3 & Hw3 & Hr3 & Ht3);
        [apply u8_small, u8_range|].
      exists w3. split; [rewrite Hp3, u8_add_l; f_equal; f_equal; cbn; lia|].
      split; [done|]. split; [congruence|]. rewrite Ht3, Ht2, Ht1, <- !app_assoc. done.
    + destruct (putchar_run c false w Hw Hc) as (w1 & Hp1 & Hw1 & Hr1 & Ht1).
      rewrite (bind_Ok _ _ _ _ _ Hp1).
      destruct (IH (u8 (csum + c)) w1 Hw1 Hd) as (w3 & Hp3 & Hw3 & Hr3 & Ht3); [apply u8_small, u8_range|].
      exists w3. split; [rewrite Hp3, u8_add_l; f_equal; f_equal; cbn; lia|].
      split; [done|]. split; [congruence|]. rewrite Ht3, Ht1, <- !app_assoc. done.
Qed.

(** Two upper-case digits, whatever the checksum. *)
Lemma csum_digits x : is_byte x ->
  exists a b, fmt_X 2 x = [a; b] /\ is_byte a /\ is_byte b /\ strtol 16 (cstr [a; b]) = x.
Proof.
  intros Hx.
  assert (E : match fmt_X 2 x with
     | [a; b] => (0 <=? a) && (a <? 256) && (0 <=? b) && (b <? 256) && (strtol 16 (cstr [a; b]) =? x)
     | _ => false end = true).
  { revert Hx. apply (all_bytes_spec (fun x => match fmt_X 2 x with
     | [a; b] => (0 <=? a) && (a <? 256) && (0 <=? b) && (b <? 256) && (strtol 16 (cstr [a; b]) =? x)
     | _ => false end)). vm_compute. reflexivity. }
  destruct (fmt_X 2 x) as [|a [|b [|]]]; try done. exists a, b.
  repeat (apply andb_true_iff in E as [E ?]). unfold in_width. split_and!; try done; lia.
Qed.

Lemma checksum_byte (l : list Z) : is_byte (checksum l).
Proof. apply u8_range. Qed.

Lemma put_frame_spec data w : if_wf w -> is_bytes data ->
  exists w', put_frame data w = Ok tt w' /\ if_wf w' /\ rx w' = rx w /\ tx w' = tx w ++ frame data.
Proof.
  intros Hw Hd. unfold put_frame.
  destruct (putchar_run SOP false w Hw) as (w1 & Hp1 & Hw1 & Hr1 & Ht1); [unfold in_width, SOP; lia|].
  rewrite (bind_Ok _ _ _ _ _ Hp1).
  destruct (put_body_spec data 0 w1 Hw1 Hd eq_refl) as (w2 & Hp2 & Hw2 & Hr2 & Ht2).
  rewrite (bind_Ok _ _ _ _ _ Hp2). change (u8 (0 + _)) with (checksum (body data)).
  destruct (putchar_run REMOTE_EOM false w2 Hw2) as (w3 & Hp3 & Hw3 & Hr3 & Ht3); [unfold in_width, REMOTE_EOM; lia|].
  rewrite (bind_Ok _ _ _ _ _ Hp3).
  destruct (csum_digits _ (checksum_byte (body data))) as (a & b & Hab & Ha & Hb & _).
  rewrite Hab. change (zget [a; b] 0) with a. change (zget [a; b] 1) with b.
  destruct (putchar_run a false w3 Hw3 Ha) as (w4 & Hp4 & Hw4 & Hr4 & Ht4).
  rewrite (bind_Ok _ _ _ _ _ Hp4).
  destruct (putchar_run b true w4 Hw4 Hb) as (w5 & Hp5 & Hw5 & Hr5 & Ht5).
  exists w5. split; [done|]. split; [done|]. split; [congruence|].
  unfold frame. rewrite Ht5, Ht4, Ht3, Ht2, Ht1, Hab. by rewrite <- !app_assoc.
Qed.

Lemma putpacket_loop data n : forall tries w, if_wf w -> is_bytes data ->
  0 <= tries <= 3 -> n = S (Z.to_nat (3 - tries)) ->
  exists k w', iter n (putpacket_body data) tries w = Ok tt w' /\
    (1 <= k <= n)%nat /\ if_wf w' /\ tx w' = tx w ++ concat (replicate k (frame data)) /\
    exists used, rx w = used ++ rx w' /\ (length used <= k)%nat.
Proof.
  induction n as [|n IH]; intros tries w Hw Hd Ht Hn; [lia|]. rewrite iter_S. unfold putpacket_body at 1. rewrite bind_bind.
  destruct (put_frame_spec data w Hw Hd) as (w1 & Hp1 & Hw1 & Hr1 & Ht1).
  rewrite (bind_Ok _ _ _ _ _ Hp1), bind_bind.
  destruct (getchar_to_spec w1 2000 Hw1) as (c & w2 & Hg & Hw2 & Ht2 & Hc).
  rewrite (bind_Ok _ _ _ _ _ Hg), bind_ret.
  assert (Hused : exists used, rx w = used ++ rx w2 /\ (length used <= 1)%nat).
  { destruct Hc as [[-> E]|E]; [exists []|exists [c]]; cbn; split; try lia; congruence. }
  destruct (negb (c =? 43) && (tries <? 3)) eqn:E.
  - destruct (IH (tries + 1) w2 Hw2 Hd) as (k & w3 & Hrun & Hk & Hw3 & Ht3 & used3 & Hu3 & Hl3); [lia|lia|].
    exists (S k), w3. split; [done|]. split; [lia|]. split; [done|]. split.
    + rewrite Ht3, Ht2, Ht1, <- app_assoc. done.
    + destruct Hused as (u & Hu & Hl). exists (u ++ used3). rewrite Hu, Hu3, <- app_assoc, length_app. split; [done|lia].
  - exists 1%nat, w2. split; [done|]. split; [lia|]. split; [done|]. split; [|done].
    rewrite Ht2, Ht1. cbn. by rewrite app_nil_r.
Qed.
End Transmit.

(** ** Reception *)

Section Receive.
Context {W : Type} `{GdbIfSpec W}.

Lemma bind_getchar {B} (f : Z -> M W B) w b r : if_wf w -> rx w = b :: r ->
  exists w', bind gdb_if_getchar f w = f b w' /\ if_wf w' /\ rx w' = r /\ tx w' = tx w.
Proof.
  intros Hw Hr. destruct (getchar_rx w b r Hw Hr) as (w' & Hg & ?).
  exists w'. by rewrite (bind_Ok _ _ _ _ _ Hg).
Qed.
(** Reads the next character in the goal, where [Hr] says what it is. *)
Ltac step_getchar Hw Hr w' Hw' Hr' Ht' :=
  match goal with |- context [bind gdb_if_getchar ?f ?w] =>
    destruct (bind_getchar f w _ _ Hw Hr) as (w' & -> & Hw' & Hr' & Ht') end.
Lemma bind_store {B} (f : list Z -> M W B) buf i v w : 0 <= i < zlen buf ->
  bind (store buf i v) f w = f (<[Z.to_nat i := v]> buf) w.
Proof.
  intros Hi. unfold bind, store. by rewrite (proj2 (Z.leb_le _ _)), (proj2 (Z.ltb_lt _ _)) by lia.
Qed.
Lemma bind_load {B} (f : Z -> M W B) buf i w : 0 <= i < zlen buf ->
  bind (load buf i) f w = f (zget buf i) w.
Proof.
  intros Hi. unfold bind, load. by rewrite (proj2 (Z.leb_le _ _)), (proj2 (Z.ltb_lt _ _)) by lia.
Qed.

Lemma sum_app (s t : list Z) : foldr Z.add 0 (s ++ t) = foldr Z.add 0 s + foldr Z.add 0 t.
Proof. induction s as [|a s IH]; cbn; lia. Qed.

(** The capture loop undoes [body]. *)
Lemma capture_loop size data : forall fuel i csum packet w r,
  if_wf w -> rx w = body data ++ REMOTE_EOM :: r -> u8 csum = csum ->
  0 <= i -> i + zlen data <= size -> zlen packet = size + 1 -> (length data < fuel)%nat ->
  exists w', iter fuel (capture_body size) (i, csum, packet) w
    = Ok (i + zlen data, u8 (csum + foldr Z.add 0 (body data)), splice packet i data) w' /\
    if_wf w' /\ rx w' = r /\ tx w' = tx w.
Proof.
  induction data as [|c data IH]; intros fuel i csum packet w r Hw Hr Hcs Hi Hsz Hp Hf.
  - destruct fuel as [|fuel]; [cbn in Hf; lia|]. rewrite iter_S. unfold capture_body at 1. rewrite bind_bind.
    step_getchar Hw Hr w1 Hw1 Hr1 Ht1.
    rewrite Z.eqb_refl, bind_ret. exists w1. split; [|done]. unfold ret. cbn [body fmap list_fmap concat foldr].
    change (zlen (@nil Z)) with 0. rewrite splice_nil, !Z.add_0_r, Hcs. done.
  - destruct fuel as [|fuel]; [cbn in Hf; lia|]. rewrite zlen_cons in Hsz. pose proof (zlen_nonneg data).
    cbn [length] in Hf. rewrite iter_S. unfold capture_body at 1. rewrite bind_bind. rewrite body_cons in Hr |- *.
    unfold escaped in Hr |- *.
    assert (Hend : forall v w1, if_wf w1 -> rx w1 = body data ++ REMOTE_EOM :: r -> tx w1 = tx w ->
      forall s, foldr Z.add 0 s = v ->
      exists w', iter fuel (capture_body size) (i + 1, u8 (csum + v), <[Z.to_nat i := c]> packet) w1
      = Ok (i + zlen (c :: data), u8 (csum + foldr Z.add 0 (s ++ body data)), splice packet i (c :: data)) w' /\
      if_wf w' /\ rx w' = r /\ tx w' = tx w).
    { intros v w1 Hw1 Hr1 Ht1 s Hs.
      destruct (IH fuel (i + 1) (u8 (csum + v)) (<[Z.to_nat i := c]> packet) w1 r) as (w' & Hrun & ? & ? & ?);
        try done; try lia; [apply u8_small, u8_range|by rewrite zlen_insert|].
      exists w'. rewrite Hrun, u8_add_l, splice_insert by lia. split; [|split_and!; congruence].
      rewrite sum_app, <- Hs, zlen_cons.
      replace (i + 1 + zlen data) with (i + (zlen data + 1)) by lia. rewrite (Z.add_assoc csum). done. }
    destruct ((c =? SOP) || (c =? REMOTE_EOM) || (c =? ESC)) eqn:E; cbn [app] in Hr.
    + step_getchar Hw Hr w1 Hw1 Hr1 Ht1.
      change (ESC =? REMOTE_EOM) with false. change (ESC =? SOP) with false. change (ESC =? ESC) with true. cbn match.
      rewrite (proj2 (Z.eqb_neq i size)) by lia. rewrite bind_bind.
      step_getchar Hw1 Hr1 w2 Hw2 Hr2 Ht2.
      rewrite bind_bind, bind_store, bind_ret by lia.
      rewrite Z.lxor_assoc, Z.lxor_nilpotent, Z.lxor_0_r.
      apply (Hend (Z.lxor c 32 + ESC)); try done; try congruence. cbn. lia.
    + step_getchar Hw Hr w1 Hw1 Hr1 Ht1.
      apply orb_false_iff in E as [[E1 E2]%orb_false_iff E3]. rewrite E1, E2, E3.
      rewrite (proj2 (Z.eqb_neq i size)) by lia. rewrite bind_bind, bind_store, bind_ret by lia.
      apply (Hend c); try done. cbn. lia.
Qed.

(** Characters the receiver skips while it waits for a packet. *)
Definition noise (l : list Z) : Prop := Forall (fun c => c <> SOP /\ c <> REMOTE_SOM /\ c <> EOT) l.

Variable remote : Z -> list Z -> M W (list Z).
Variable fuel : nat.

Lemma wait_start_noise skip : forall n packet w r, noise skip -> if_wf w -> rx w = skip ++ SOP :: r ->
  0 < zlen packet -> (length skip < n)%nat ->
  exists p' w', wait_start n packet w = Ok (false, p') w' /\ if_wf w' /\ rx w' = r /\ tx w' = tx w /\
    zlen p' = zlen packet /\ zget p' 0 = SOP.
Proof.
  induction skip as [|c skip IH]; intros n packet w r Hn Hw Hr Hp Hf; (destruct n as [|n]; [cbn in Hf; lia|]);
    unfold wait_start; rewrite iter_S, bind_bind; cbn [app] in Hr.
  all: step_getchar Hw Hr w1 Hw1 Hr1 Ht1.
  all: rewrite bind_bind, bind_store by lia.
  - cbn. exists (<[Z.to_nat 0 := SOP]> packet), w1. rewrite zlen_insert. split_and!; try done.
    destruct packet; [unfold zlen in Hp; cbn in Hp; lia|done].
  - apply Forall_cons_1 in Hn as [(Hc1 & Hc2 & Hc3) Hn].
    rewrite (proj2 (Z.eqb_neq _ _) Hc1), (proj2 (Z.eqb_neq _ _) Hc2), (proj2 (Z.eqb_neq _ _) Hc3). cbn [orb].
    rewrite bind_ret. destruct (IH n (<[Z.to_nat 0 := c]> packet) w1 r) as (p' & w' & Hrun & ? & ? & ? & Hl & ?);
      try done; [by rewrite zlen_insert|cbn in Hf; lia|].
    rewrite zlen_insert in Hl. exists p', w'. split; [exact Hrun|]. split_and!; congruence.
Qed.

Lemma find_body_noise size skip packet w r : noise skip -> if_wf w -> rx w = skip ++ SOP :: r ->
  0 < zlen packet -> (length skip < fuel)%nat ->
  exists p' w', find_packet_body remote fuel size packet w = Ok (inr (false, p')) w' /\ if_wf w' /\ rx w' = r /\
    tx w' = tx w /\ zlen p' = zlen packet.
Proof.
  intros Hn Hw Hr Hp Hf.
  destruct (wait_start_noise skip fuel packet w r) as (p' & w' & Hrun & Hw' & Hr' & Ht' & Hl & Hg); try done.
  exists p', w'. split; [|done]. unfold find_packet_body.
  rewrite (bind_Ok _ _ _ _ _ Hrun), bind_load by lia.
  rewrite Hg. change (SOP =? REMOTE_SOM) with false. cbn match. rewrite bind_ret, bind_load by lia.
  by rewrite Hg.
Qed.
Lemma find_packet_noise size skip packet w r : noise skip -> if_wf w -> rx w = skip ++ SOP :: r ->
  0 < zlen packet -> (length skip < fuel)%nat ->
  exists p' w', find_packet remote fuel size packet w = Ok (false, p') w' /\ if_wf w' /\ rx w' = r /\
    tx w' = tx w /\ zlen p' = zlen packet.
Proof.
  intros Hn Hw Hr Hp Hf. destruct (find_body_noise size skip packet w r) as (p' & w' & Hrun & Hrest); try done.
  exists p', w'. split; [|done]. unfold find_packet. destruct fuel as [|n] eqn:En; [lia|].
  rewrite iter_S. rewrite <- En in *. by rewrite (bind_Ok _ _ _ _ _ Hrun).
Qed.

(** One round of the receiver on a complete frame: the checksum decides. *)
Lemma found_round size data a b packet p1 w w1 r :
  find_packet remote fuel size packet w = Ok (false, p1) w1 ->
  if_wf w1 -> rx w1 = body data ++ REMOTE_EOM :: a :: b :: r ->
  zlen p1 = size + 1 -> zlen data <= size -> (length data < fuel)%nat ->
  exists p' w', if_wf w' /\ rx w' = r /\ zlen p' = size + 1 /\
  if checksum (body data) =? strtol 16 (cstr [a; b])
  then getpacket_body remote fuel size packet w = Ok (inr (zlen data, p')) w' /\ tx w' = tx w1 ++ [43] /\
    ztake (zlen data) p' = data /\ zget p' (zlen data) = 0
  else getpacket_body remote fuel size packet w = Ok (inl p') w' /\ tx w' = tx w1 ++ [45].
Proof.
  intros Hrun1 Hw1 Hr1 Hp Hd Hf2. pose proof (zlen_nonneg data). unfold getpacket_body.
  rewrite (bind_Ok _ _ _ _ _ Hrun1). unfold capture.
  destruct (capture_loop size data fuel 0 0 p1 w1 _ Hw1 Hr1) as (w2 & Hrun2 & Hw2 & Hr2 & Ht2); try done; try lia.
  rewrite (bind_Ok _ _ _ _ _ Hrun2). rewrite !Z.add_0_l. change (u8 (foldr Z.add 0 (body data))) with (checksum (body data)).
  step_getchar Hw2 Hr2 w3 Hw3 Hr3 Ht3.
  step_getchar Hw3 Hr3 w4 Hw4 Hr4 Ht4.
  assert (Hsl : zlen (splice p1 0 data) = size + 1) by (rewrite zlen_splice; lia).
  destruct (checksum (body data) =? strtol 16 (cstr [a; b])).
  - destruct (putchar_spec w4 43 true Hw4) as (w5 & Hput & Hw5 & Hr5 & Ht5). rewrite (bind_Ok _ _ _ _ _ Hput).
    rewrite bind_store by lia. eexists _, w5. split; [done|]. split; [congruence|].
    split; [|split; [reflexivity|]]; [by rewrite zlen_insert|]. split; [change (u8 43) with 43 in Ht5; congruence|].
    split.
    + unfold ztake. rewrite take_insert_ge by lia. apply ztake_splice0. lia.
    + unfold zget. rewrite (proj2 (Z.ltb_ge _ _)) by lia. apply nth_lookup_Some, list_lookup_insert_eq.
      unfold zlen in *. lia.
  - destruct (putchar_spec w4 45 true Hw4) as (w5 & Hput & Hw5 & Hr5 & Ht5). rewrite (bind_Ok _ _ _ _ _ Hput).
    exists (splice p1 0 data), w5. split; [done|]. split; [congruence|]. split; [done|].
    split; [done|]. change (u8 45) with 45 in Ht5. congruence.
Qed.

Lemma getpacket_round size skip data a b packet w r :
  noise skip -> if_wf w -> rx w = skip ++ SOP :: body data ++ REMOTE_EOM :: a :: b :: r ->
  zlen packet = size + 1 -> zlen data <= size -> (length skip < fuel)%nat -> (length data < fuel)%nat ->
  exists p' w', if_wf w' /\ rx w' = r /\ zlen p' = size + 1 /\
  if checksum (body data) =? strtol 16 (cstr [a; b])
  then getpacket_body remote fuel size packet w = Ok (inr (zlen data, p')) w' /\ tx w' = tx w ++ [43] /\
    ztake (zlen data) p' = data /\ zget p' (zlen data) = 0
  else getpacket_body remote fuel size packet w = Ok (inl p') w' /\ tx w' = tx w ++ [45].
Proof.
  intros Hn Hw Hr Hp Hd Hf1 Hf2. pose proof (zlen_nonneg data).
  destruct (find_packet_noise size skip packet w _ Hn Hw Hr) as (p1 & w1 & Hrun1 & Hw1 & Hr1 & Ht1 & Hl1); [lia|done|].
  rewrite <- Ht1. eapply found_round; try done. congruence.
Qed.

Lemma frame_shape data : exists a b, frame data = SOP :: body data ++ [REMOTE_EOM; a; b] /\
  strtol 16 (cstr [a; b]) = checksum (body data).
Proof.
  destruct (csum_digits _ (checksum_byte (body data))) as (a & b & Hab & _ & _ & He).
  exists a, b. unfold frame. by rewrite Hab.
Qed.

(** A good frame is accepted, acknowledged and decoded. *)
Lemma found_frame size data packet p1 w w1 r :
  find_packet remote fuel size packet w = Ok (false, p1) w1 ->
  if_wf w1 -> SOP :: rx w1 = frame data ++ r -> zlen p1 = size + 1 -> zlen data <= size -> (length data < fuel)%nat ->
  exists p' w', gdb_getpacket remote fuel packet size w = Ok (zlen data, p') w' /\ if_wf w' /\
    rx w' = r /\ tx w' = tx w1 ++ [43] /\ ztake (zlen data) p' = data /\ zget p' (zlen data) = 0 /\ zlen p' = size + 1.
Proof.
  intros Hf Hw Hr Hp Hd Hf2. destruct (frame_shape data) as (a & b & Hfr & Hab).
  rewrite Hfr in Hr. cbn [app] in Hr. rewrite <- app_assoc in Hr. cbn [app] in Hr. injection Hr as Hr.
  destruct (found_round size data a b packet p1 w w1 r) as (p' & w' & Hw' & Hr' & Hz & Hround); try done.
  rewrite Hab, Z.eqb_refl in Hround. destruct Hround as (Hrun & Ht & Hdat & Hnul).
  exists p', w'. split_and!; try done. unfold gdb_getpacket. destruct fuel as [|n] eqn:En; [lia|].
  rewrite iter_S. rewrite <- En in Hrun |- *. by rewrite (bind_Ok _ _ _ _ _ Hrun).
Qed.
Lemma getpacket_frame size skip data packet w r :
  noise skip -> if_wf w -> rx w = skip ++ frame data ++ r ->
  zlen packet = size + 1 -> zlen data <= size -> (length skip < fuel)%nat -> (length data < fuel)%nat ->
  exists p' w', gdb_getpacket remote fuel packet size w = Ok (zlen data, p') w' /\ if_wf w' /\
    rx w' = r /\ tx w' = tx w ++ [43] /\ ztake (zlen data) p' = data /\ zget p' (zlen data) = 0 /\ zlen p' = size + 1.
Proof.
  intros Hn Hw Hr Hp Hd Hf1 Hf2. pose proof (zlen_nonneg data).
  destruct (find_packet_noise size skip packet w (body data ++ REMOTE_EOM :: fmt_X 2 (checksum (body data)) ++ r))
    as (p1 & w1 & Hrun1 & Hw1 & Hr1 & Ht1 & Hl1); try done; [rewrite Hr; unfold frame; cbn [app]; by rewrite <- app_assoc|lia|].
  rewrite <- Ht1. eapply found_frame; try done; [|congruence]. rewrite Hr1. unfold frame. cbn [app]. by rewrite <- app_assoc.
Qed.
End Receive.

(** ** Properties *)
Section Properties.
Context {W W2 : Type} `{GdbIfSpec W} `{GdbIfSpec W2}.

(** C2: whatever bytes a packet holds, framing characters included, the frame
    [gdb_putpacket] sends is one [gdb_getpacket] accepts: it skips the
    characters before the frame, answers '+', and returns the same bytes, their
    number and a terminating NUL, consuming exactly the frame. *)
Theorem packet_roundtrip (remote : Z -> list Z -> M W2 (list Z)) (fuel : nat)
    (data skip after packet : list Z) (size : Z) (w : W) (v : W2) :
  if_wf w -> is_bytes data ->
  if_wf v -> noise skip -> zlen packet = size + 1 -> zlen data <= size ->
  (length skip < fuel)%nat -> (length data < fuel)%nat ->
  exists wire w', put_frame data w = Ok tt w' /\ tx w' = tx w ++ wire /\
    (rx v = skip ++ wire ++ after ->
     exists p' v', gdb_getpacket remote fuel packet size v = Ok (zlen data, p') v' /\
       ztake (zlen data) p' = data /\ zget p' (zlen data) = 0 /\
       rx v' = after /\ tx v' = tx v ++ [43]).
Proof.
  intros Hw Hb Hv Hn Hp Hd Hf1 Hf2. destruct (put_frame_spec data w Hw Hb) as (w' & Hrun & _ & _ & Ht).
  exists (frame data), w'. split_and!; try done. intros Hrx.
  destruct (getpacket_frame remote fuel size skip data packet v after) as (p' & v' & ? & _ & ? & ? & ? & ? & _); try done.
  exists p', v'. done.
Qed.


(** C26: a frame whose checksum digits do not match is answered '-' and dropped,
    and the frame the host then repeats is accepted with '+'. *)
Theorem bad_checksum_nack (remote : Z -> list Z -> M W (list Z)) (fuel : nat)
    (bad data packet r : list Z) (a b size : Z) (w : W) :
  if_wf w -> rx w = SOP :: body bad ++ REMOTE_EOM :: a :: b :: frame data ++ r ->
  checksum (body bad) <> strtol 16 (cstr [a; b]) ->
  zlen packet = size + 1 -> zlen bad <= size -> zlen data <= size ->
  (length bad < fuel)%nat -> (length data + 1 < fuel)%nat ->
  exists p' w', gdb_getpacket remote fuel packet size w = Ok (zlen data, p') w' /\
    ztake (zlen data) p' = data /\ rx w' = r /\ tx w' = tx w ++ [45; 43].
Proof.
  intros Hw Hr Hbad Hp Hsb Hsd Hf1 Hf2.
  destruct (getpacket_round remote fuel size [] bad a b packet w (frame data ++ r))
    as (p1 & w1 & Hw1 & Hr1 & Hp1 & Hround); try done; [constructor|cbn; lia|].
  rewrite (proj2 (Z.eqb_neq _ _) Hbad) in Hround. destruct Hround as [Hrun1 Ht1].
  destruct (frame_shape data) as (c & d & Hfr & Hcd).
  rewrite Hfr in Hr1. cbn [app] in Hr1. rewrite <- app_assoc in Hr1. cbn [app] in Hr1.
  destruct (getpacket_round remote fuel size [] data c d p1 w1 r)
    as (p2 & w2 & Hw2 & Hr2 & Hp2 & Hround); try done; [constructor|cbn; lia|lia|].
  rewrite Hcd, Z.eqb_refl in Hround. destruct Hround as (Hrun2 & Ht2 & Hdat & _).
  exists p2, w2. split; [|split_and!; try done; by rewrite Ht2, Ht1, <- app_assoc].
  unfold gdb_getpacket. destruct fuel as [|[|n]] eqn:En; [lia|lia|].
  rewrite iter_S. rewrite <- En in *. rewrite (bind_Ok _ _ _ _ _ Hrun1). subst fuel.
  rewrite iter_S. by rewrite (bind_Ok _ _ _ _ _ Hrun2).
Qed.

(** [gdb_putpacket] always comes back: it sends the same frame between one
    and four times, nothing else, and reads at most one answer per frame. *)
Theorem putpacket_at_most_four (data : list Z) (w : W) :
  if_wf w -> is_bytes data ->
  exists k w', gdb_putpacket data w = Ok tt w' /\ (1 <= k <= 4)%nat /\
    tx w' = tx w ++ concat (replicate k (frame data)) /\
    exists used, rx w = used ++ rx w' /\ (length used <= k)%nat.
Proof.
  intros Hw Hb. destruct (putpacket_loop data 4 0 w Hw Hb) as (k & w' & ? & ? & _ & ? & ?); try done.
  exists k, w'. done.
Qed.
End Properties.

Definition no_remote {W} : Z -> list Z -> M W (list Z) := fun _ p => ret p.

Lemma packet_roundtrip_witness :
  exists p' v', gdb_getpacket no_remote 10 (memset 9 0) 8
      (Wire.of_bytes (43 :: frame [36; 125; 65] ++ [7])) = Ok (3, p') v' /\
    ztake 3 p' = [36; 125; 65] /\ rx v' = [7] /\ tx v' = [43].
Proof.
  destruct (packet_roundtrip no_remote 10 [36; 125; 65] [43] [7] (memset 9 0) 8
    (Wire.of_bytes []) (Wire.of_bytes (43 :: frame [36; 125; 65] ++ [7])))
    as (wire & w' & Hput & Htx & Hget); try done; try lia.
  - repeat constructor; lia.
  - repeat constructor; done.
  - vm_compute. lia.
  - vm_compute. lia.
  - vm_compute in Hput. injection Hput as Hput. rewrite <- Hput in Htx.
    cbn [app] in Htx. vm_compute in Htx. subst wire.
    destruct Hget as (p' & v' & ? & ? & ? & ? & ?); [vm_compute; reflexivity|].
    exists p', v'. split_and!; done.
Defined.


Lemma bad_checksum_nack_witness :
  exists p' w', gdb_getpacket no_remote 10 (memset 5 0) 4
      (Wire.of_bytes (str "$g#00" ++ frame (str "g"))) = Ok (1, p') w' /\
    ztake 1 p' = str "g" /\ rx w' = [] /\ tx w' = [45; 43].
Proof.
  destruct (bad_checksum_nack no_remote 10 (str "g") (str "g") (memset 5 0) [] 48 48 4
    (Wire.of_bytes (str "$g#00" ++ frame (str "g")))) as (p' & w' & ? & ? & ? & ?);
    try done; try (vm_compute; lia).
  exists p', w'. split_and!; done.
Defined.

Lemma putpacket_at_most_four_witness :
  exists k w', gdb_putpacket (str "OK") (Wire.of_bytes (str "-+")) = Ok tt w' /\ (1 <= k <= 4)%nat /\
    tx w' = concat (replicate k (str "$OK#9A")).
Proof.
  destruct (putpacket_at_most_four (str "OK") (Wire.of_bytes (str "-+"))) as (k & w' & ? & ? & Ht & _).
  - done.
  - repeat constructor; lia.
  - exists k, w'. split_and!; try done; lia.
Defined.
