(* ===== verification/TargetState.v ===== *)
(** The data model of the target layer: target.h's [struct target_controller],
    target_internal.h's [struct target_s] with its RAM and flash regions and
    breakpoints, the heap they live in, and the interface to the drivers whose
    functions the structures point to.

    A linked list of the code is a list here; a pointer to a target is the
    handle of its memory block. *)

From Stdlib Require Import ZArith Lia String.
From stdpp Require Import base list numbers option gmap.
From S2P Require Import Prelude CLib GdbIf MemManager.

(** ** target.h *)

Inductive target_halt_reason : Set :=
| TARGET_HALT_RUNNING | TARGET_HALT_ERROR | TARGET_HALT_REQUEST | TARGET_HALT_STEPPING
| TARGET_HALT_BREAKPOINT | TARGET_HALT_WATCHPOINT | TARGET_HALT_FAULT.
#[export] Instance target_halt_reason_eq_dec : EqDecision target_halt_reason.
Proof. solve_decision. Defined.

(** [enum target_breakwatch]. *)
Definition TARGET_BREAK_SOFT : Z := 0.
Definition TARGET_BREAK_HARD : Z := 1.
Definition TARGET_WATCH_WRITE : Z := 2.
Definition TARGET_WATCH_READ : Z := 3.
Definition TARGET_WATCH_ACCESS : Z := 4.

(** [enum target_errno], the values target.c uses. *)
Definition TARGET_ENOENT : Z := 2.
Definition TARGET_EBADF : Z := 9.
Definition TARGET_ENFILE : Z := 23.

(** ** target_internal.h *)

Record target_ram := { ram_start : Z; ram_length : Z }.

(** The functions a device driver puts in a flash region, by name. *)
Record flash_ops := { fo_erase : string; fo_write : string }.
(** [buf]: NULL, or the block and the [buf_size] bytes the code uses of it;
    [f_extra]: the members a driver's larger structure has behind it. *)
Record target_flash := {
  f_start : Z;
  f_length : Z;
  blocksize : Z;
  has_done : bool;            (* done != NULL *)
  erased : Z;
  buf_size : Z;
  buf_addr : Z;
  buf : option (positive * list Z);
  f_ops : flash_ops;
  f_extra : list Z;
}.
Definition set_buf (b : option (positive * list Z)) (a : Z) (f : target_flash) : target_flash :=
  {| f_start := f_start f; f_length := f_length f; blocksize := blocksize f; has_done := has_done f;
     erased := erased f; buf_size := buf_size f; buf_addr := a; buf := b; f_ops := f_ops f; f_extra := f_extra f |}.

Record breakwatch := {
  bw_type : Z;
  bw_addr : Z;
  bw_size : Z;
  bw_reserved : list Z;        (* for use by the implementing driver *)
}.

(** A [struct command_s]; the handler, a function pointer, by name. *)
Record command := { c_cmd : list Z; c_handler : string; c_help : list Z }.
Definition cmd_entry (name handler help : string) : command :=
  {| c_cmd := str name; c_handler := handler; c_help := str help |}.
(** A [struct target_command_s]. *)
Record target_command_set := { tc_handle : positive; specific_name : list Z; tc_cmds : list command }.

(** What a method pointer holds: NULL, the [nop_function] or [null_function]
    [target_new] puts there, the core driver's own function, or the one of a
    device driver named. *)
Inductive fptr : Set := FNULL | Fnop | Fnull | Fdriver | Fdev (name : string).

Definition MAX_CMDLINE : Z := 81.

Record target := {
  attached : bool;
  t_tc : option nat;                     (* the controller it is attached to *)
  m_attach : fptr; m_detach : fptr; m_check_error : fptr;
  m_mem_read : fptr; m_mem_write : fptr;
  regs_size : Z; tdesc : option (list Z);
  m_regs_read : fptr; m_regs_write : fptr; m_reg_read : fptr; m_reg_write : fptr;
  m_reset : fptr; m_halt_request : fptr; m_halt_poll : fptr; m_halt_resume : fptr;
  m_breakwatch_set : fptr; m_breakwatch_clear : fptr;
  bw_list : list (positive * breakwatch);
  t_designer : Z; idcode : Z;
  target_storage : option (positive * list Z);   (* a driver's block, and the words in it *)
  ram : list (positive * target_ram);
  flash : list (positive * target_flash);
  driver : option (list Z); core : option (list Z); cpuid : Z;
  cmdline : list Z;                      (* MAX_CMDLINE bytes *)
  heapinfo : list Z;                     (* 4 words *)
  commands : list target_command_set;
  priv : option positive;
  m_extended_reset : fptr;
  target_options : Z;
  unsafe_enabled : bool;                 (* and [ke04_mode]: a union *)
}.

(** ** The controller (target.h), the fields the modelled code uses *)
Record controller := {
  has_destroy_callback : bool;
  has_printf : bool;
  (* the host system calls: NULL or set *)
  h_open : bool; h_close : bool; h_read : bool; h_write : bool; h_lseek : bool; h_rename : bool;
  h_unlink : bool; h_stat : bool; h_fstat : bool; h_gettimeofday : bool; h_isatty : bool; h_system : bool;
  errno_ : Z;
  interrupted : bool;
  cur_target : option positive;
  last_target : option positive;
  target_list : list positive;
  flash_mode : bool;
  connect_assert_srst : bool;
  cortexm_wait_timeout : Z;
  running_status : bool;
  has_platform : bool;                   (* the platform's functions are set *)
}.

(** ** The world: heap, controllers, gdb_main.c's packet buffer [pbuf],
    command.c's [debug_bmp], and everything else ([D]) *)
Record world (D : Type) := {
  heap : gmap positive target;
  ctls : gmap nat controller;
  pbuf : list Z;
  debug_bmp : bool;
  dev : D;
}.
Arguments heap {D}. Arguments ctls {D}. Arguments pbuf {D}. Arguments debug_bmp {D}. Arguments dev {D}.
Arguments Build_world {D}.

Section World.
Context {D : Type}.
Implicit Types w : world D.
Definition set_heap h w : world D :=
  {| heap := h; ctls := ctls w; pbuf := pbuf w; debug_bmp := debug_bmp w; dev := dev w |}.
Definition set_ctls c w : world D :=
  {| heap := heap w; ctls := c; pbuf := pbuf w; debug_bmp := debug_bmp w; dev := dev w |}.
Definition set_pbuf b w : world D :=
  {| heap := heap w; ctls := ctls w; pbuf := b; debug_bmp := debug_bmp w; dev := dev w |}.
Definition set_debug_bmp b w : world D :=
  {| heap := heap w; ctls := ctls w; pbuf := pbuf w; debug_bmp := b; dev := dev w |}.
Definition set_dev d w : world D :=
  {| heap := heap w; ctls := ctls w; pbuf := pbuf w; debug_bmp := debug_bmp w; dev := d |}.

(** An operation of the outside world leaves heap and controllers alone. *)
Definition lift {A} (m : M D A) : M (world D) A := fun w =>
  match m (dev w) with
  | Ok a d => Ok a (set_dev d w)
  | Raise ty msg d => Raise ty msg (set_dev d w)
  | Fault why d => Fault why (set_dev d w)
  | Hang => Hang
  end.

(** Access through a target pointer. *)
Definition deref_target (t : option positive) : M (world D) (positive * target) :=
  let! w := get in
  match t with
  | None => crash NullDeref
  | Some p => match heap w !! p with Some x => ret (p, x) | None => crash OutOfBounds end
  end.
Definition load_target (p : positive) : M (world D) target :=
  let! (_, x) := deref_target (Some p) in ret x.
Definition store_target (p : positive) (x : target) : M (world D) unit :=
  modify (fun w => set_heap (<[p := x]> (heap w)) w).
Definition load_ctl (c : nat) : M (world D) controller :=
  let! w := get in
  match ctls w !! c with Some x => ret x | None => crash OutOfBounds end.
Definition store_ctl (c : nat) (x : controller) : M (world D) unit :=
  modify (fun w => set_ctls (<[c := x]> (ctls w)) w).
Definition upd_ctl (c : nat) (f : controller -> controller) : M (world D) unit :=
  let! x := load_ctl c in store_ctl c (f x).
Definition upd_target (p : positive) (f : target -> target) : M (world D) unit :=
  let! x := load_target p in store_target p (f x).
End World.

#[global] Instance world_if {D} `{GdbIf D} : GdbIf (world D) := {
  gdb_if_getchar := lift gdb_if_getchar;
  gdb_if_getchar_to t := lift (gdb_if_getchar_to t);
  gdb_if_putchar c f := lift (gdb_if_putchar c f);
}.
#[global] Instance world_mem {D} `{MemIf D} : MemIf (world D) := {
  MemManager_Alloc n := lift (MemManager_Alloc n);
  MemManager_Free p := lift (MemManager_Free p);
}.

(** ** Field updates *)
Definition set_target_lists (c : controller) l cur last : controller :=
  {| has_destroy_callback := has_destroy_callback c; has_printf := has_printf c;
     h_open := h_open c; h_close := h_close c; h_read := h_read c; h_write := h_write c;
     h_lseek := h_lseek c; h_rename := h_rename c; h_unlink := h_unlink c; h_stat := h_stat c;
     h_fstat := h_fstat c; h_gettimeofday := h_gettimeofday c; h_isatty := h_isatty c; h_system := h_system c;
     errno_ := errno_ c; interrupted := interrupted c; cur_target := cur; last_target := last;
     target_list := l; flash_mode := flash_mode c; connect_assert_srst := connect_assert_srst c;
     cortexm_wait_timeout := cortexm_wait_timeout c; running_status := running_status c;
     has_platform := has_platform c |}.
Definition set_cur (t : option positive) (c : controller) := set_target_lists c (target_list c) t (last_target c).
Definition set_last (t : option positive) (c : controller) := set_target_lists c (target_list c) (cur_target c) t.
Definition set_target_list l (c : controller) := set_target_lists c l (cur_target c) (last_target c).
Definition set_misc (c : controller) e i fm srst tmo run : controller :=
  {| has_destroy_callback := has_destroy_callback c; has_printf := has_printf c;
     h_open := h_open c; h_close := h_close c; h_read := h_read c; h_write := h_write c;
     h_lseek := h_lseek c; h_rename := h_rename c; h_unlink := h_unlink c; h_stat := h_stat c;
     h_fstat := h_fstat c; h_gettimeofday := h_gettimeofday c; h_isatty := h_isatty c; h_system := h_system c;
     errno_ := e; interrupted := i; cur_target := cur_target c; last_target := last_target c;
     target_list := target_list c; flash_mode := fm; connect_assert_srst := srst;
     cortexm_wait_timeout := tmo; running_status := run; has_platform := has_platform c |}.
Definition set_errno e c := set_misc c e (interrupted c) (flash_mode c) (connect_assert_srst c) (cortexm_wait_timeout c) (running_status c).
Definition set_interrupted i c := set_misc c (errno_ c) i (flash_mode c) (connect_assert_srst c) (cortexm_wait_timeout c) (running_status c).
Definition set_flash_mode b c := set_misc c (errno_ c) (interrupted c) b (connect_assert_srst c) (cortexm_wait_timeout c) (running_status c).
Definition set_connect_srst b c := set_misc c (errno_ c) (interrupted c) (flash_mode c) b (cortexm_wait_timeout c) (running_status c).
Definition set_halt_timeout n c := set_misc c (errno_ c) (interrupted c) (flash_mode c) (connect_assert_srst c) n (running_status c).
Definition set_running b c := set_misc c (errno_ c) (interrupted c) (flash_mode c) (connect_assert_srst c) (cortexm_wait_timeout c) b.

Definition set_conn (a : bool) (tc : option nat) (t : target) : target :=
  {| attached := a; t_tc := tc; m_attach := m_attach t; m_detach := m_detach t; m_check_error := m_check_error t;
     m_mem_read := m_mem_read t; m_mem_write := m_mem_write t; regs_size := regs_size t; tdesc := tdesc t;
     m_regs_read := m_regs_read t; m_regs_write := m_regs_write t; m_reg_read := m_reg_read t; m_reg_write := m_reg_write t;
     m_reset := m_reset t; m_halt_request := m_halt_request t; m_halt_poll := m_halt_poll t; m_halt_resume := m_halt_resume t;
     m_breakwatch_set := m_breakwatch_set t; m_breakwatch_clear := m_breakwatch_clear t; bw_list := bw_list t;
     t_designer := t_designer t; idcode := idcode t; target_storage := target_storage t; ram := ram t; flash := flash t;
     driver := driver t; core := core t; cpuid := cpuid t; cmdline := cmdline t; heapinfo := heapinfo t;
     commands := commands t; priv := priv t;
     m_extended_reset := m_extended_reset t; target_options := target_options t; unsafe_enabled := unsafe_enabled t |}.
Definition set_parts (bws : list (positive * breakwatch)) (rs : list (positive * target_ram))
    (fs : list (positive * target_flash)) (cs : list target_command_set)
    (cl hi : list Z) (t : target) : target :=
  {| attached := attached t; t_tc := t_tc t; m_attach := m_attach t; m_detach := m_detach t; m_check_error := m_check_error t;
     m_mem_read := m_mem_read t; m_mem_write := m_mem_write t; regs_size := regs_size t; tdesc := tdesc t;
     m_regs_read := m_regs_read t; m_regs_write := m_regs_write t; m_reg_read := m_reg_read t; m_reg_write := m_reg_write t;
     m_reset := m_reset t; m_halt_request := m_halt_request t; m_halt_poll := m_halt_poll t; m_halt_resume := m_halt_resume t;
     m_breakwatch_set := m_breakwatch_set t; m_breakwatch_clear := m_breakwatch_clear t; bw_list := bws;
     t_designer := t_designer t; idcode := idcode t; target_storage := target_storage t; ram := rs; flash := fs;
     driver := driver t; core := core t; cpuid := cpuid t; cmdline := cl; heapinfo := hi;
     commands := cs; priv := priv t;
     m_extended_reset := m_extended_reset t; target_options := target_options t; unsafe_enabled := unsafe_enabled t |}.
Definition set_bw_list l t := set_parts l (ram t) (flash t) (commands t) (cmdline t) (heapinfo t) t.
Definition set_ram l t := set_parts (bw_list t) l (flash t) (commands t) (cmdline t) (heapinfo t) t.
Definition set_flash l t := set_parts (bw_list t) (ram t) l (commands t) (cmdline t) (heapinfo t) t.
Definition set_commands l t := set_parts (bw_list t) (ram t) (flash t) l (cmdline t) (heapinfo t) t.
Definition set_cmdline l t := set_parts (bw_list t) (ram t) (flash t) (commands t) l (heapinfo t) t.
Definition set_heapinfo l t := set_parts (bw_list t) (ram t) (flash t) (commands t) (cmdline t) l t.

(** What a probe finds out and what it puts in the methods. *)
Definition set_info (designer id : Z) (storage : option (positive * list Z)) (drv cor : option (list Z)) (cpu : Z)
    (pr : option positive) (opts : Z) (unsafe : bool) (t : target) : target :=
  {| attached := attached t; t_tc := t_tc t; m_attach := m_attach t; m_detach := m_detach t; m_check_error := m_check_error t;
     m_mem_read := m_mem_read t; m_mem_write := m_mem_write t; regs_size := regs_size t; tdesc := tdesc t;
     m_regs_read := m_regs_read t; m_regs_write := m_regs_write t; m_reg_read := m_reg_read t; m_reg_write := m_reg_write t;
     m_reset := m_reset t; m_halt_request := m_halt_request t; m_halt_poll := m_halt_poll t; m_halt_resume := m_halt_resume t;
     m_breakwatch_set := m_breakwatch_set t; m_breakwatch_clear := m_breakwatch_clear t; bw_list := bw_list t;
     t_designer := designer; idcode := id; target_storage := storage; ram := ram t; flash := flash t; driver := drv;
     core := cor; cpuid := cpu; cmdline := cmdline t; heapinfo := heapinfo t; commands := commands t; priv := pr;
     m_extended_reset := m_extended_reset t; target_options := opts; unsafe_enabled := unsafe |}.
Definition set_designer x t := set_info x (idcode t) (target_storage t) (driver t) (core t) (cpuid t) (priv t) (target_options t) (unsafe_enabled t) t.
Definition set_idcode x t := set_info (t_designer t) x (target_storage t) (driver t) (core t) (cpuid t) (priv t) (target_options t) (unsafe_enabled t) t.
Definition set_storage x t := set_info (t_designer t) (idcode t) x (driver t) (core t) (cpuid t) (priv t) (target_options t) (unsafe_enabled t) t.
Definition set_driver x t := set_info (t_designer t) (idcode t) (target_storage t) (Some x) (core t) (cpuid t) (priv t) (target_options t) (unsafe_enabled t) t.
Definition set_core x t := set_info (t_designer t) (idcode t) (target_storage t) (driver t) (Some x) (cpuid t) (priv t) (target_options t) (unsafe_enabled t) t.
Definition set_cpuid x t := set_info (t_designer t) (idcode t) (target_storage t) (driver t) (core t) x (priv t) (target_options t) (unsafe_enabled t) t.
Definition set_priv x t := set_info (t_designer t) (idcode t) (target_storage t) (driver t) (core t) (cpuid t) x (target_options t) (unsafe_enabled t) t.
Definition set_options x t := set_info (t_designer t) (idcode t) (target_storage t) (driver t) (core t) (cpuid t) (priv t) x (unsafe_enabled t) t.
Definition set_unsafe x t := set_info (t_designer t) (idcode t) (target_storage t) (driver t) (core t) (cpuid t) (priv t) (target_options t) x t.
Definition set_memory_methods rd wr t : target :=
  {| attached := attached t; t_tc := t_tc t; m_attach := m_attach t; m_detach := m_detach t; m_check_error := m_check_error t;
     m_mem_read := rd; m_mem_write := wr; regs_size := regs_size t; tdesc := tdesc t; m_regs_read := m_regs_read t;
     m_regs_write := m_regs_write t; m_reg_read := m_reg_read t; m_reg_write := m_reg_write t; m_reset := m_reset t;
     m_halt_request := m_halt_request t; m_halt_poll := m_halt_poll t; m_halt_resume := m_halt_resume t;
     m_breakwatch_set := m_breakwatch_set t; m_breakwatch_clear := m_breakwatch_clear t; bw_list := bw_list t;
     t_designer := t_designer t; idcode := idcode t; target_storage := target_storage t; ram := ram t; flash := flash t;
     driver := driver t; core := core t; cpuid := cpuid t; cmdline := cmdline t; heapinfo := heapinfo t;
     commands := commands t; priv := priv t; m_extended_reset := m_extended_reset t; target_options := target_options t;
     unsafe_enabled := unsafe_enabled t |}.
Definition set_attach_methods at_ de t : target :=
  {| attached := attached t; t_tc := t_tc t; m_attach := at_; m_detach := de; m_check_error := m_check_error t;
     m_mem_read := m_mem_read t; m_mem_write := m_mem_write t; regs_size := regs_size t; tdesc := tdesc t;
     m_regs_read := m_regs_read t; m_regs_write := m_regs_write t; m_reg_read := m_reg_read t; m_reg_write := m_reg_write t;
     m_reset := m_reset t; m_halt_request := m_halt_request t; m_halt_poll := m_halt_poll t; m_halt_resume := m_halt_resume t;
     m_breakwatch_set := m_breakwatch_set t; m_breakwatch_clear := m_breakwatch_clear t; bw_list := bw_list t;
     t_designer := t_designer t; idcode := idcode t; target_storage := target_storage t; ram := ram t; flash := flash t;
     driver := driver t; core := core t; cpuid := cpuid t; cmdline := cmdline t; heapinfo := heapinfo t;
     commands := commands t; priv := priv t; m_extended_reset := m_extended_reset t; target_options := target_options t;
     unsafe_enabled := unsafe_enabled t |}.
Definition set_reset_methods rs ext res t : target :=
  {| attached := attached t; t_tc := t_tc t; m_attach := m_attach t; m_detach := m_detach t; m_check_error := m_check_error t;
     m_mem_read := m_mem_read t; m_mem_write := m_mem_write t; regs_size := regs_size t; tdesc := tdesc t;
     m_regs_read := m_regs_read t; m_regs_write := m_regs_write t; m_reg_read := m_reg_read t; m_reg_write := m_reg_write t;
     m_reset := rs; m_halt_request := m_halt_request t; m_halt_poll := m_halt_poll t; m_halt_resume := res;
     m_breakwatch_set := m_breakwatch_set t; m_breakwatch_clear := m_breakwatch_clear t; bw_list := bw_list t;
     t_designer := t_designer t; idcode := idcode t; target_storage := target_storage t; ram := ram t; flash := flash t;
     driver := driver t; core := core t; cpuid := cpuid t; cmdline := cmdline t; heapinfo := heapinfo t;
     commands := commands t; priv := priv t; m_extended_reset := ext; target_options := target_options t;
     unsafe_enabled := unsafe_enabled t |}.
Definition set_regs n desc t : target :=
  {| attached := attached t; t_tc := t_tc t; m_attach := m_attach t; m_detach := m_detach t; m_check_error := m_check_error t;
     m_mem_read := m_mem_read t; m_mem_write := m_mem_write t; regs_size := n; tdesc := desc; m_regs_read := m_regs_read t;
     m_regs_write := m_regs_write t; m_reg_read := m_reg_read t; m_reg_write := m_reg_write t; m_reset := m_reset t;
     m_halt_request := m_halt_request t; m_halt_poll := m_halt_poll t; m_halt_resume := m_halt_resume t;
     m_breakwatch_set := m_breakwatch_set t; m_breakwatch_clear := m_breakwatch_clear t; bw_list := bw_list t;
     t_designer := t_designer t; idcode := idcode t; target_storage := target_storage t; ram := ram t; flash := flash t;
     driver := driver t; core := core t; cpuid := cpuid t; cmdline := cmdline t; heapinfo := heapinfo t;
     commands := commands t; priv := priv t; m_extended_reset := m_extended_reset t; target_options := target_options t;
     unsafe_enabled := unsafe_enabled t |}.
(** The methods a probe needs itself. *)
Definition set_probe_methods t : target :=
  {| attached := attached t; t_tc := t_tc t; m_attach := m_attach t; m_detach := m_detach t; m_check_error := Fdriver;
     m_mem_read := Fdriver; m_mem_write := Fdriver; regs_size := regs_size t; tdesc := tdesc t;
     m_regs_read := m_regs_read t; m_regs_write := m_regs_write t; m_reg_read := m_reg_read t; m_reg_write := m_reg_write t;
     m_reset := m_reset t; m_halt_request := m_halt_request t; m_halt_poll := m_halt_poll t; m_halt_resume := m_halt_resume t;
     m_breakwatch_set := m_breakwatch_set t; m_breakwatch_clear := m_breakwatch_clear t; bw_list := bw_list t;
     t_designer := t_designer t; idcode := idcode t; target_storage := target_storage t; ram := ram t; flash := flash t;
     driver := driver t; core := core t; cpuid := cpuid t; cmdline := cmdline t; heapinfo := heapinfo t;
     commands := commands t; priv := priv t; m_extended_reset := m_extended_reset t; target_options := target_options t;
     unsafe_enabled := unsafe_enabled t |}.
(** Every method of a core is the core driver's. *)
Definition set_core_methods t : target :=
  {| attached := attached t; t_tc := t_tc t; m_attach := Fdriver; m_detach := Fdriver; m_check_error := Fdriver;
     m_mem_read := Fdriver; m_mem_write := Fdriver; regs_size := regs_size t; tdesc := tdesc t; m_regs_read := Fdriver;
     m_regs_write := Fdriver; m_reg_read := Fdriver; m_reg_write := Fdriver; m_reset := Fdriver; m_halt_request := Fdriver;
     m_halt_poll := Fdriver; m_halt_resume := Fdriver; m_breakwatch_set := Fdriver; m_breakwatch_clear := Fdriver;
     bw_list := bw_list t; t_designer := t_designer t; idcode := idcode t; target_storage := target_storage t; ram := ram t;
     flash := flash t; driver := driver t; core := core t; cpuid := cpuid t; cmdline := cmdline t; heapinfo := heapinfo t;
     commands := commands t; priv := priv t; m_extended_reset := m_extended_reset t; target_options := target_options t;
     unsafe_enabled := unsafe_enabled t |}.

(** ** The drivers

    The functions the method pointers of a target lead to.  They are given the
    target's handle and may change anything in the world. *)
Class Driver (D : Type) := {
  drv_attach : positive -> M (world D) bool;
  drv_detach : positive -> M (world D) unit;
  drv_check_error : positive -> M (world D) bool;
  drv_mem_read : positive -> Z -> Z -> M (world D) (list Z);          (* src, len *)
  drv_mem_write : positive -> Z -> list Z -> M (world D) unit;
  drv_regs_read : positive -> M (world D) (list Z);
  drv_regs_write : positive -> list Z -> M (world D) unit;
  drv_reg_read : positive -> Z -> Z -> M (world D) (Z * list Z);      (* reg, max: result, bytes stored *)
  drv_reg_write : positive -> Z -> list Z -> M (world D) Z;
  drv_reset : positive -> M (world D) unit;
  drv_halt_request : positive -> M (world D) unit;
  drv_halt_poll : positive -> M (world D) (target_halt_reason * Z);   (* reason, watch *)
  drv_halt_resume : positive -> bool -> M (world D) unit;
  drv_breakwatch_set : positive -> breakwatch -> M (world D) (Z * breakwatch);
  drv_breakwatch_clear : positive -> breakwatch -> M (world D) Z;
  drv_priv_free : positive -> M (world D) unit;
  drv_command : positive -> command -> list (list Z) -> M (world D) bool;
  (* the methods of a flash region *)
  drv_flash_erase : positive -> target_flash -> Z -> Z -> M (world D) Z;
  drv_flash_write : positive -> target_flash -> Z -> list Z -> M (world D) Z;
  drv_flash_done : positive -> target_flash -> M (world D) Z;
}.

(** A call through a method pointer.  [nop_function] returns 1 and
    [null_function] 0; neither touches its arguments, [nop] being what a
    caller then has. *)
Definition call {W A} (f : fptr) (nop null : M W A) (drv : M W A) : M W A :=
  match f with
  | FNULL => crash NullDeref
  | Fnop => nop
  | Fnull => null
  | Fdriver | Fdev _ => drv
  end.
(** A buffer the callee should have filled is still indeterminate. *)
Definition unfilled {W A} : M W A := crash UninitRead.
