(* ===== verification/Target.v ===== *)
(** target.c: target objects, their lists, attachment, the memory map, memory
    and register access, breakpoints, commands and host calls.  The buffered
    flash programming is in TargetFlash.v. *)

From Stdlib Require Import ZArith Lia String.
From stdpp Require Import base list numbers option gmap.
From S2P Require Import Prelude CLib HexUtils GdbIf MemManager GdbPacket TargetState.

(** The sizes of the structures the code allocates, on the probe's ABI. *)
Definition sizeof_target : Z := 236.
Definition sizeof_ram : Z := 12.
Definition sizeof_command_set : Z := 12.
Definition sizeof_breakwatch : Z := 32.

(** The host system calls of [struct target_controller]. *)
Inductive hostcall : Set :=
| HOpen (path path_len flags mode : Z)
| HClose (fd : Z)
| HRead (fd buf count : Z)
| HWrite (fd buf count : Z)
| HLseek (fd offset flag : Z)
| HRename (oldpath old_len newpath new_len : Z)
| HUnlink (path path_len : Z)
| HStat (path path_len buf : Z)
| HFstat (fd buf : Z)
| HGettimeofday (tv tz : Z)
| HIsatty (fd : Z)
| HSystem (cmd cmd_len : Z).
Class HostIf (D : Type) := { host_call : nat -> hostcall -> M (world D) Z }.

(** An element of a command's argv: a string, or, in argv[0], the controller
    pointer [command_process] puts there. *)
Inductive arg : Type := AStr (s : list Z) | ACtl (c : nat).

Section Target.
Context {D : Type} `{GdbIf D} `{MemIf D} `{Driver D} `{HostIf D}.
Notation MW := (M (world D)).

(** ** Target objects *)

(** A target as [target_new] leaves it: zeroed memory and no-op methods. *)
Definition blank_target : target :=
  {| attached := false; t_tc := None; m_attach := Fnop; m_detach := Fnop; m_check_error := Fnull;
     m_mem_read := Fnop; m_mem_write := Fnop; regs_size := 0; tdesc := None;
     m_regs_read := Fnop; m_regs_write := Fnop; m_reg_read := Fnop; m_reg_write := Fnop;
     m_reset := Fnop; m_halt_request := Fnop; m_halt_poll := Fnop; m_halt_resume := Fnop;
     m_breakwatch_set := FNULL; m_breakwatch_clear := FNULL; bw_list := [];
     t_designer := 0; idcode := 0; target_storage := None; ram := []; flash := [];
     driver := None; core := None; cpuid := 0; cmdline := memset MAX_CMDLINE 0;
     heapinfo := [0; 0; 0; 0]; commands := []; priv := None; m_extended_reset := FNULL; target_options := 0; unsafe_enabled := false |}.

(** [target_new(&tc->target_list)]. *)
Definition target_new (c : nat) : MW (option positive) :=
  let! t := MemManager_Alloc sizeof_target in
  match t with
  | None => ret None
  | Some p =>
      do! store_target p blank_target in
      do! upd_ctl c (fun tc => set_target_list (target_list tc ++ [p]) tc) in
      ret (Some p)
  end.

(** The callback sees the index, from 1, and the target; the result is one more
    than the number of targets. *)
Fixpoint foreach_from (i : Z) (l : list positive) (cb : Z -> positive -> MW unit) : MW Z :=
  match l with
  | [] => ret i
  | t :: l' => do! cb i t in foreach_from (i + 1) l' cb
  end.
Definition target_foreach (l : list positive) (cb : Z -> positive -> MW unit) : MW Z :=
  foreach_from 1 l cb.

Definition target_mem_map_free (p : positive) : MW unit :=
  let! t := load_target p in
  do! for_each (ram t) (fun '(r, _) => MemManager_Free (Some r)) in
  do! upd_target p (set_ram []) in
  do! for_each (flash t) (fun '(h, f) =>
    do! match buf f with Some (b, _) => MemManager_Free (Some b) | None => ret tt end in
    MemManager_Free (Some h)) in
  upd_target p (set_flash []).

(** gdb_main.c's [gdb_target_destroy_callback], the only destroy callback. *)
Definition gdb_target_destroy_callback (c : nat) (p : positive) : MW unit :=
  do! upd_ctl c (fun tc => if decide (cur_target tc = Some p) then set_cur None tc else tc) in
  upd_ctl c (fun tc => if decide (last_target tc = Some p) then set_last None tc else tc).
Definition destroy_callback (c : nat) (p : positive) : MW unit :=
  let! tc := load_ctl c in
  if has_destroy_callback tc then gdb_target_destroy_callback c p else crash NullDeref.

(** One round of [target_list_free]'s loop. *)
Definition free_target (p : positive) : MW unit :=
  let! t := load_target p in
  do! match t_tc t with
      | Some c => let! tc := load_ctl c in
                  when (has_destroy_callback tc) (destroy_callback c p)
      | None => ret tt
      end in
  do! match priv t with Some _ => drv_priv_free p | None => ret tt end in
  let! t := load_target p in
  do! for_each (commands t) (fun tc => MemManager_Free (Some (tc_handle tc))) in
  do! upd_target p (set_commands []) in
  do! MemManager_Free (fst <$> target_storage t) in
  do! target_mem_map_free p in
  do! for_each (bw_list t) (fun '(b, _) => MemManager_Free (Some b)) in
  do! upd_target p (set_bw_list []) in
  do! MemManager_Free (Some p) in
  modify (fun w => set_heap (delete p (heap w)) w).
Definition target_list_free (c : nat) : MW unit :=
  let! tc := load_ctl c in
  do! for_each (target_list tc) free_target in
  upd_ctl c (set_target_list []).

Definition target_add_commands (p : positive) (cmds : list command) (name : list Z) : MW unit :=
  let! tc := MemManager_Alloc sizeof_command_set in
  match tc with
  | None => ret tt
  | Some h => upd_target p (fun t =>
      set_commands (commands t ++ [{| tc_handle := h; specific_name := name; tc_cmds := cmds |}]) t)
  end.

(** ** Attaching *)
Definition target_attach (t : option positive) (c : nat) : MW (option positive) :=
  let! (p, x) := deref_target t in
  do! match t_tc x with Some c0 => destroy_callback c0 p | None => ret tt end in
  do! upd_target p (fun x => set_conn (attached x) (Some c) x) in
  let! x := load_target p in
  let! ok := call (m_attach x) (ret true) (ret false) (drv_attach p) in
  if ok : bool then
    do! upd_target p (fun x => set_conn true (t_tc x) x) in
    ret (Some p)
  else ret None.
(** The target numbered [n], counting from 1. *)
Definition target_attach_n (n : Z) (c : nat) : MW (option positive) :=
  let! tc := load_ctl c in
  match (if 1 <=? n then target_list tc !! Z.to_nat (n - 1) else None) with
  | Some p => target_attach (Some p) c
  | None => ret None
  end.
Definition target_detach (t : option positive) : MW unit :=
  let! (p, x) := deref_target t in
  do! call (m_detach x) (ret tt) (ret tt) (drv_detach p) in
  upd_target p (fun x => set_conn false (t_tc x) x).

(** ** The memory map *)
Definition target_add_ram (p : positive) (start len : Z) : MW unit :=
  let! r := MemManager_Alloc sizeof_ram in
  match r with
  | None => ret tt
  | Some h => upd_target p (fun t => set_ram ((h, {| ram_start := start; ram_length := len |}) :: ram t) t)
  end.
Definition with_buf_size (n : Z) (f : target_flash) : target_flash :=
  {| f_start := f_start f; f_length := f_length f; blocksize := blocksize f; has_done := has_done f;
     erased := erased f; buf_size := n; buf_addr := buf_addr f; buf := buf f;
     f_ops := f_ops f; f_extra := f_extra f |}.
Definition target_add_flash (p h : positive) (f : target_flash) : MW unit :=
  let f := if buf_size f =? 0 then with_buf_size (Z.min (blocksize f) 1024) f else f in
  upd_target p (fun t => set_flash ((h, f) :: flash t) t).

Definition quoted (s : list Z) : list Z := [34] ++ s ++ [34].
Definition map_ram (r : target_ram) : list (list Z) :=
  [ str "<memory type=" ++ quoted (str "ram") ++ str " start=" ++ quoted (str "0x" ++ fmt_x 8 (ram_start r))
    ++ str " length=" ++ quoted (str "0x" ++ fmt_x 1 (ram_length r)) ++ str "/>" ].
Definition map_flash (f : target_flash) : list (list Z) :=
  [ str "<memory type=" ++ quoted (str "flash") ++ str " start=" ++ quoted (str "0x" ++ fmt_x 8 (f_start f))
    ++ str " length=" ++ quoted (str "0x" ++ fmt_x 1 (f_length f)) ++ str ">";
    str "<property name=" ++ quoted (str "blocksize") ++ str ">0x" ++ fmt_x 1 (blocksize f)
    ++ str "</property></memory>" ].
(** The texts [target_mem_map] prints, in order. *)
Definition mem_map_texts (t : target) : list (list Z) :=
  [str "<memory-map>"] ++ concat (List.map (fun '(_, r) => map_ram r) (ram t))
  ++ concat (List.map (fun '(_, f) => map_flash f) (flash t)) ++ [str "</memory-map>"].
(** [i += snprintf(&tmp[i], len - i, ..)] for each text.  [len - i] is
    unsigned: once [i] is past [len] the bound is huge and the write goes
    beyond the buffer. *)
Fixpoint print_all (texts : list (list Z)) (tmp : list Z) (i len : Z) : MW (list Z * Z) :=
  match texts with
  | [] => ret (tmp, i)
  | s :: texts' =>
      let! tmp :=
        if len <? i then crash OutOfBounds
        else if len - i =? 0 then ret tmp
        else store_n tmp i (ztake (len - i - 1) s ++ [0]) in
      print_all texts' tmp (i + zlen s) len
  end.
Definition target_mem_map (t : option positive) (tmp : list Z) (len : Z) : MW (list Z * bool) :=
  let! (_, x) := deref_target t in
  let! (tmp, i) := print_all (mem_map_texts x) tmp 0 len in
  ret (tmp, negb (len - 2 <? i)).

(** ** Memory and registers *)
Definition target_check_error (t : option positive) : MW bool :=
  match t with
  | None => ret false
  | Some p => let! x := load_target p in
              call (m_check_error x) (ret true) (ret false) (drv_check_error p)
  end.
Definition target_attached (t : option positive) : MW bool :=
  let! (_, x) := deref_target t in ret (attached x).

(** The bytes read, and the error flag. *)
Definition target_mem_read (t : option positive) (src len : Z) : MW (list Z * bool) :=
  let! (p, x) := deref_target t in
  let! dest := call (m_mem_read x) unfilled unfilled (drv_mem_read p src len) in
  let! e := target_check_error t in
  ret (dest, e).
Definition target_mem_write (t : option positive) (dest : Z) (src : list Z) : MW bool :=
  let! (p, x) := deref_target t in
  do! call (m_mem_write x) (ret tt) (ret tt) (drv_mem_write p dest src) in
  target_check_error t.
Definition target_reg_read (t : option positive) (reg max : Z) : MW (Z * list Z) :=
  let! (p, x) := deref_target t in
  call (m_reg_read x) (ret (1, [])) (ret (0, [])) (drv_reg_read p reg max).
Definition target_reg_write (t : option positive) (reg : Z) (data : list Z) : MW Z :=
  let! (p, x) := deref_target t in
  call (m_reg_write x) (ret 1) (ret 0) (drv_reg_write p reg data).

(** Without a [regs_read] method the registers are read one by one until
    [regs_size] bytes are there. *)
Definition regs_read_body (t : option positive) (x : target) (st : Z * Z * list Z) : MW (Z * Z * list Z + list Z) :=
  let '(n, i, data) := st in
  if regs_size x <=? n then ret (inr data) else
  let! (r, bytes) := target_reg_read t i (regs_size x - n) in
  let! data := store_n data n bytes in
  ret (inl (u32 (n + r), i + 1, data)).
Definition target_regs_read (fuel : nat) (t : option positive) : MW (list Z) :=
  let! (p, x) := deref_target t in
  match m_regs_read x with
  | FNULL => iter fuel (regs_read_body t x) (0, 0, memset (regs_size x) 0)
  | f => call f unfilled unfilled (drv_regs_read p)
  end.
Definition regs_write_body (t : option positive) (x : target) (data : list Z) (st : Z * Z) : MW (Z * Z + unit) :=
  let '(n, i) := st in
  if regs_size x <=? n then ret (inr tt) else
  let! r := target_reg_write t i (ztake (regs_size x - n) (zdrop n data)) in
  ret (inl (u32 (n + r), i + 1)).
Definition target_regs_write (fuel : nat) (t : option positive) (data : list Z) : MW unit :=
  let! (p, x) := deref_target t in
  match m_regs_write x with
  | FNULL => iter fuel (regs_write_body t x data) (0, 0)
  | f => call f (ret tt) (ret tt) (drv_regs_write p data)
  end.

(** ** Run control *)
Definition target_reset (t : option positive) : MW unit :=
  let! (p, x) := deref_target t in call (m_reset x) (ret tt) (ret tt) (drv_reset p).
Definition target_halt_request (t : option positive) : MW unit :=
  let! (p, x) := deref_target t in call (m_halt_request x) (ret tt) (ret tt) (drv_halt_request p).
Definition target_halt_poll (t : option positive) : MW (target_halt_reason * Z) :=
  let! (p, x) := deref_target t in
  call (m_halt_poll x) (ret (TARGET_HALT_ERROR, 0)) (ret (TARGET_HALT_RUNNING, 0)) (drv_halt_poll p).
Definition target_halt_resume (t : option positive) (step : bool) : MW unit :=
  let! (p, x) := deref_target t in call (m_halt_resume x) (ret tt) (ret tt) (drv_halt_resume p step).

(** [strncpy(t->cmdline, cmdline, 79)], then a NUL where the string ends. *)
Definition target_set_cmdline (t : option positive) (cl : list Z) : MW unit :=
  let! (p, x) := deref_target t in
  let n := MAX_CMDLINE - 1 - 1 in
  let copied := ztake n (cstr cl) in
  let! arr := store_n (cmdline x) 0 (copied ++ memset (n - zlen copied) 0) in
  let! arr := store arr (zlen (cstr arr)) 0 in
  upd_target p (set_cmdline arr).
Definition target_set_heapinfo (t : option positive) (heap_base heap_limit stack_base stack_limit : Z) : MW unit :=
  match t with
  | None => ret tt
  | Some p => upd_target p (set_heapinfo [heap_base; heap_limit; stack_base; stack_limit])
  end.

(** ** Breakpoints and watchpoints *)
Definition target_breakwatch_set (t : option positive) (type addr len : Z) : MW Z :=
  let! (p, x) := deref_target t in
  let bw := {| bw_type := type; bw_addr := addr; bw_size := len; bw_reserved := [0; 0; 0; 0] |} in
  let! (r, bw) := match m_breakwatch_set x with
                  | FNULL => ret (1, bw)
                  | f => call f (ret (1, bw)) (ret (0, bw)) (drv_breakwatch_set p bw)
                  end in
  if r =? 0 then
    let! bwm := MemManager_Alloc sizeof_breakwatch in
    match bwm with
    | None => ret 1
    | Some h => do! upd_target p (fun x => set_bw_list ((h, bw) :: bw_list x) x) in ret r
    end
  else ret r.

Definition bw_matches (type addr len : Z) (bw : breakwatch) : bool :=
  (bw_type bw =? type) && (bw_addr bw =? addr) && (bw_size bw =? len).
(** The first matching entry, and the list without it. *)
Fixpoint bw_find (type addr len : Z) (l : list (positive * breakwatch))
  : option (positive * breakwatch * list (positive * breakwatch)) :=
  match l with
  | [] => None
  | (h, bw) :: l' =>
      if bw_matches type addr len bw then Some (h, bw, l')
      else match bw_find type addr len l' with
           | Some (h', bw', r) => Some (h', bw', (h, bw) :: r)
           | None => None
           end
  end.
Definition target_breakwatch_clear (t : option positive) (type addr len : Z) : MW Z :=
  let! (p, x) := deref_target t in
  match bw_find type addr len (bw_list x) with
  | None => ret (-1)
  | Some (h, bw, rest) =>
      let! r := match m_breakwatch_clear x with
                | FNULL => ret 1
                | f => call f (ret 1) (ret 0) (drv_breakwatch_clear p bw)
                end in
      if r =? 0 then
        do! upd_target p (set_bw_list rest) in
        do! MemManager_Free (Some h) in
        ret r
      else ret r
  end.

(** ** Accessors *)
Definition target_regs_size (t : option positive) : MW Z :=
  let! (_, x) := deref_target t in ret (regs_size x).
Definition target_tdesc (t : option positive) : MW (list Z) :=
  let! (_, x) := deref_target t in ret (default [] (tdesc x)).
Definition target_driver_name (t : option positive) : MW (option (list Z)) :=
  let! (_, x) := deref_target t in ret (driver x).
Definition target_core_name (t : option positive) : MW (option (list Z)) :=
  let! (_, x) := deref_target t in ret (core x).
Definition target_designer (t : option positive) : MW Z :=
  let! (_, x) := deref_target t in ret (t_designer x).
Definition target_idcode (t : option positive) : MW Z :=
  let! (_, x) := deref_target t in ret (idcode x).

Definition target_read_n (n : nat) (t : option positive) (addr : Z) : MW Z :=
  let! (p, x) := deref_target t in
  let! b := call (m_mem_read x) unfilled unfilled (drv_mem_read p addr (Z.of_nat n)) in
  ret (le_val b).
Definition target_write_n (n : nat) (t : option positive) (addr value : Z) : MW unit :=
  let! (p, x) := deref_target t in
  call (m_mem_write x) (ret tt) (ret tt) (drv_mem_write p addr (le_bytes n value)).
Definition target_mem_read32 := target_read_n 4.
Definition target_mem_write32 := target_write_n 4.
Definition target_mem_read16 := target_read_n 2.
Definition target_mem_write16 := target_write_n 2.
Definition target_mem_read8 := target_read_n 1.
Definition target_mem_write8 := target_write_n 1.

(** ** Commands *)

(** gdb_main.c's [gdb_target_printf], the only printf of a controller. *)
Definition tc_printf (t : option positive) (text : list Z) : MW unit :=
  let! (_, x) := deref_target t in
  match t_tc x with
  | None => ret tt
  | Some c => let! tc := load_ctl c in
              if has_printf tc then gdb_voutf text else crash NullDeref
  end.

Definition target_command_help (t : option positive) : MW unit :=
  let! (_, x) := deref_target t in
  for_each (commands x) (fun set =>
    do! tc_printf t (specific_name set ++ str " specific commands:" ++ [10]) in
    for_each (tc_cmds set) (fun c =>
      tc_printf t ([9] ++ c_cmd c ++ str " -- " ++ c_help c ++ [10]))).

(** The bytes a controller structure starts with, read as a C string: the low
    bytes of its first member, a function pointer. *)
Variable ctl_bytes : nat -> list Z.
Definition arg_str (a : arg) : list Z :=
  match a with AStr s => s | ACtl c => ctl_bytes c end.

(** [strncmp(argv[0], c->cmd, strlen(argv[0])) == 0]: argv[0] is a prefix. *)
Fixpoint find_command (name : list Z) (cmds : list command) : option command :=
  match cmds with
  | [] => None
  | c :: cmds' => if prefixb name (c_cmd c) then Some c else find_command name cmds'
  end.
Definition target_command (t : option positive) (argv : list arg) : MW Z :=
  let! (p, x) := deref_target t in
  let! a0 := deref (argv !! 0%nat) in
  match find_command (arg_str a0) (concat (List.map tc_cmds (commands x))) with
  | Some c => let! ok := drv_command p c (List.map arg_str argv) in ret (if ok : bool then 0 else 1)
  | None => ret (-1)
  end.

(** ** Host system calls *)

(** A call through a member of the controller, or what the code does when the
    member is NULL. *)
Definition tc_call (t : option positive) (set : controller -> bool)
    (missing : controller -> controller) (value : Z) (h : hostcall) : MW Z :=
  let! (_, x) := deref_target t in
  let! c := deref (t_tc x) in
  let! tc := load_ctl c in
  if set tc then host_call c h
  else do! upd_ctl c missing in ret value.
Definition tc_open t path plen flags mode :=
  tc_call t h_open (set_errno TARGET_ENFILE) (-1) (HOpen path plen flags mode).
Definition tc_close t fd := tc_call t h_close (set_errno TARGET_EBADF) (-1) (HClose fd).
Definition tc_read t fd buf count := tc_call t h_read id 0 (HRead fd buf count).
Definition tc_write t fd buf count := tc_call t h_write id 0 (HWrite fd buf count).
Definition tc_lseek t fd offset flag := tc_call t h_lseek id 0 (HLseek fd offset flag).
Definition tc_rename t oldpath oldlen newpath newlen :=
  tc_call t h_rename (set_errno TARGET_ENOENT) (-1) (HRename oldpath oldlen newpath newlen).
Definition tc_unlink t path plen := tc_call t h_unlink (set_errno TARGET_ENOENT) (-1) (HUnlink path plen).
Definition tc_stat t path plen buf := tc_call t h_stat (set_errno TARGET_ENOENT) (-1) (HStat path plen buf).
Definition tc_fstat t fd buf := tc_call t h_fstat id 0 (HFstat fd buf).
Definition tc_gettimeofday t tv tz := tc_call t h_gettimeofday id (-1) (HGettimeofday tv tz).
Definition tc_isatty t fd := tc_call t h_isatty id 1 (HIsatty fd).
Definition tc_system t cmd cmdlen := tc_call t h_system id (-1) (HSystem cmd cmdlen).
End Target.
