(* ===== verification/TargetFlash.v ===== *)
(** target.c: erasing and programming flash.  Writes go through one sector
    buffer per flash region; [target_flash_done] writes out what is left. *)

From Stdlib Require Import ZArith Lia ZifyBool String.
From stdpp Require Import base list numbers option gmap.
From S2P Require Import Prelude CLib GdbIf MemManager TargetState.

(** [(uint32_t)-1]: the buffer holds no sector. *)
Definition no_sector : Z := 4294967295.

(** ** Model *)
Section Flash.
Context {D : Type} `{MemIf D} `{Driver D}.
Notation MW := (M (world D)).

Fixpoint find_flash (i : nat) (fs : list (positive * target_flash)) (addr : Z) : option (nat * target_flash) :=
  match fs with
  | [] => None
  | (_, f) :: fs' =>
      if (f_start f <=? addr) && (addr <? u32 (f_start f + f_length f)) then Some (i, f)
      else find_flash (S i) fs' addr
  end.
(** The region that holds [addr], with its place in the list. *)
Definition flash_for_addr (t : target) (addr : Z) : option (nat * target_flash) :=
  find_flash 0 (flash t) addr.

Definition load_flash (p : positive) (i : nat) : MW target_flash :=
  let! t := load_target p in
  match flash t !! i with Some (_, f) => ret f | None => crash OutOfBounds end.
Definition upd_flash (p : positive) (i : nat) (g : target_flash -> target_flash) : MW unit :=
  upd_target p (fun t => set_flash (alter (fun '(h, f) => (h, g f)) i (flash t)) t).

(** The end of the part of [addr, addr + len) that lies in [f]. *)
Definition chunk_len (f : target_flash) (addr len : Z) : Z :=
  u32 (Z.min (u32 (addr + len)) (u32 (f_start f + f_length f)) - addr).

Definition erase_body (p : positive) (st : Z * Z * Z) : MW (Z * Z * Z + Z) :=
  let '(addr, len, r) := st in
  if len =? 0 then ret (inr r) else
  let! t := load_target p in
  match flash_for_addr t addr with
  | None => ret (inr r)                  (* "Erase stopped at .." *)
  | Some (i, f) =>
      let tmplen := chunk_len f addr len in
      let! e := drv_flash_erase p f addr tmplen in
      ret (inl (u32 (addr + tmplen), u32 (len - tmplen), Z.lor r e))
  end.
Definition target_flash_erase (fuel : nat) (t : option positive) (addr len : Z) : MW Z :=
  let! (p, _) := deref_target t in
  iter fuel (erase_body p) (addr, len, 0).

(** One chunk of the [while (len)] loop: the state is (dest, src, ret). *)
Definition write_buffered_body (p : positive) (i : nat) (st : Z * list Z * Z) : MW (Z * list Z * Z + Z) :=
  let '(dest, src, r) := st in
  if zlen src =? 0 then ret (inr r) else
  let! f := load_flash p i in
  let! (_, b) := deref (buf f) in
  if buf_size f =? 0 then crash DivByZero else
  let offset := dest mod buf_size f in
  let base := u32 (dest - offset) in
  let! (b, r) :=
    (if base =? buf_addr f then ret (b, r) else
     let! r := if buf_addr f =? no_sector then ret r
               else let! e := drv_flash_write p f (buf_addr f) b in ret (Z.lor r e) in
     ret (memset (buf_size f) (erased f), r)) in
  let sectlen := Z.min (buf_size f - offset) (zlen src) in
  let! b := store_n b offset (ztake sectlen src) in
  do! upd_flash p i (fun f => set_buf (fmap (fun '(h, _) => (h, b)) (buf f)) base f) in
  ret (inl (u32 (dest + sectlen), zdrop sectlen src, r)).
Definition target_flash_write_buffered (p : positive) (i : nat) (dest : Z) (src : list Z) : MW Z :=
  let! f := load_flash p i in
  let! ready := match buf f with
    | Some _ => ret true
    | None =>
        let! b := MemManager_Alloc (buf_size f) in
        match b with
        | None => ret false
        | Some h => do! upd_flash p i (set_buf (Some (h, memset (buf_size f) 0)) no_sector) in ret true
        end
    end in
  if ready : bool then iter (S (length src)) (write_buffered_body p i) (dest, src, 0)
  else ret 1.

Definition write_body (p : positive) (st : Z * list Z * Z) : MW (Z * list Z * Z + Z) :=
  let '(dest, src, r) := st in
  if zlen src =? 0 then ret (inr r) else
  let! t := load_target p in
  match flash_for_addr t dest with
  | None => ret (inr 1)
  | Some (i, f) =>
      let tmplen := chunk_len f dest (zlen src) in
      let! e := target_flash_write_buffered p i dest (ztake tmplen src) in
      ret (inl (u32 (dest + tmplen), zdrop tmplen src, Z.lor r e))
  end.
Definition target_flash_write (t : option positive) (dest : Z) (src : list Z) : MW Z :=
  let! (p, _) := deref_target t in
  iter (S (length src)) (write_body p) (dest, src, 0).

Definition target_flash_done_buffered (p : positive) (i : nat) : MW Z :=
  let! f := load_flash p i in
  match buf f with
  | Some (h, b) =>
      if buf_addr f =? no_sector then ret 0 else
      let! r := drv_flash_write p f (buf_addr f) b in
      do! MemManager_Free (Some h) in
      do! upd_flash p i (set_buf None no_sector) in
      ret r
  | None => ret 0
  end.
(** The loop over the regions, from the [i]th on; the first error ends it. *)
Fixpoint done_from (p : positive) (n i : nat) : MW Z :=
  match n with
  | O => ret 0
  | S n' =>
      let! tmp := target_flash_done_buffered p i in
      if negb (tmp =? 0) then ret tmp else
      let! f := load_flash p i in
      let! tmp := if has_done f then drv_flash_done p f else ret 0 in
      if negb (tmp =? 0) then ret tmp else done_from p n' (S i)
  end.
Definition target_flash_done (t : option positive) : MW Z :=
  let! (p, x) := deref_target t in
  done_from p (length (flash x)) 0.
End Flash.

(** ** Specification: the memory image

    [img w] is the content of the flash, as a driver whose writes work sees it:
    a sector of an erased range takes the data, and nothing else changes.
    [fm_ok p w]: the flash of target [p] can be programmed; [fm_region f]: [f]
    is a region the driver made. *)
Class FlashMemory (D : Type) `{MemIf D} `{Driver D} := {
  img : world D -> Z -> Z;
  fm_ok : positive -> world D -> Prop;
  fm_region : target_flash -> Prop;
  fm_region_buf b a f : fm_region f -> fm_region (set_buf b a f);
  flash_write_ok p f a data w : fm_ok p w -> fm_region f -> is_bytes data -> 0 < zlen data -> zlen data = buf_size f ->
    a mod buf_size f = 0 -> f_start f <= a -> a + zlen data <= f_start f + f_length f ->
    (forall x, a <= x < a + zlen data -> img w x = erased f) ->
    exists w', drv_flash_write p f a data w = Ok 0 w' /\ heap w' = heap w /\ fm_ok p w' /\
      (forall x, img w' x = if (a <=? x) && (x <? a + zlen data) then zget data (x - a) else img w x);
  flash_done_ok p f w : fm_ok p w -> fm_region f -> has_done f = true ->
    exists w', drv_flash_done p f w = Ok 0 w' /\ heap w' = heap w /\ fm_ok p w' /\ (forall x, img w' x = img w x);
  img_dev w w' : dev w = dev w' -> forall x, img w x = img w' x;
  fm_heap p t l w : fm_ok p w -> heap w !! p = Some t -> fm_ok p (set_heap (<[p := set_flash l t]> (heap w)) w);
  alloc_img p n w : fm_ok p w -> exists r w', MemManager_Alloc n w = Ok r w' /\ heap w' = heap w /\ fm_ok p w' /\ (forall x, img w' x = img w x);
  free_img p q w : fm_ok p w -> exists w', MemManager_Free q w = Ok tt w' /\ heap w' = heap w /\ fm_ok p w' /\ (forall x, img w' x = img w x);
}.

Section Correct.
Context {D : Type} `{FlashMemory D}.
Implicit Types w : world D.

(** Target [p] has the regions [l], and they can be programmed. *)
Definition regions (w : world D) (p : positive) (l : list target_flash) : Prop :=
  fm_ok p w /\ exists t, heap w !! p = Some t /\ (flash t).*2 = l.

(** The image once the sector buffer [b] at [a] is written out. *)
Definition overlay (m : Z -> Z) (a : Z) (b : list Z) (x : Z) : Z :=
  if (a <=? x) && (x <? a + zlen b) then zget b (x - a) else m x.
Definition pending (f : target_flash) (m : Z -> Z) : Z -> Z :=
  match buf f with
  | Some (_, b) => if buf_addr f =? no_sector then m else overlay m (buf_addr f) b
  | None => m
  end.
Definition sector (f : target_flash) (x : Z) : Z := x - x mod buf_size f.

(** Ready to program from [dest] up to [hi]: every sector from the pending one
    to the one that ends behind [hi] is erased. *)
Definition whole_sectors (f : target_flash) : Prop :=
  fm_region f /\ is_byte (erased f) /\ 0 <= f_start f /\ f_start f mod buf_size f = 0 /\ f_length f mod buf_size f = 0.
Record ready (w : world D) (f : target_flash) (dest hi : Z) : Prop := {
  rd_size : 0 < buf_size f;
  rd_shape : whole_sectors f;
  rd_range : f_start f <= dest /\ dest <= hi /\ hi <= f_start f + f_length f /\ hi < no_sector;
  rd_buf : match buf f with
    | Some (_, b) => zlen b = buf_size f /\ is_bytes b /\
        (buf_addr f = no_sector \/ (f_start f <= buf_addr f /\ buf_addr f mod buf_size f = 0 /\ buf_addr f <= dest /\ buf_addr f < hi /\
                                    buf_addr f + buf_size f <= f_start f + f_length f))
    | None => True
    end;
  rd_erased : forall x,
    (match buf f with Some _ => if buf_addr f =? no_sector then sector f dest else buf_addr f
                    | None => sector f dest end) <= x -> sector f x < hi -> img w x = erased f;
}.

Lemma overlay_splice m a b off c x : 0 <= off -> off + zlen c <= zlen b ->
  overlay m a (splice b off c) x =
  if (a + off <=? x) && (x <? a + off + zlen c) then zget c (x - (a + off)) else overlay m a b x.
Proof.
  intros Ho Hl. unfold overlay. rewrite zlen_splice by lia. pose proof (zlen_nonneg c).
  destruct ((a <=? x) && (x <? a + zlen b)) eqn:E.
  - rewrite zget_splice by lia. replace (off <=? x - a) with (a + off <=? x) by lia.
    replace (x - a <? off + zlen c) with (x <? a + off + zlen c) by lia.
    by rewrite <- Z.sub_add_distr.
  - destruct ((a + off <=? x) && (x <? a + off + zlen c)) eqn:E2; [lia|done].
Qed.

Lemma sector_of f a x : 0 < buf_size f -> a mod buf_size f = 0 -> a <= x < a + buf_size f -> sector f x = a.
Proof.
  intros Hb Ha Hx. unfold sector. pose proof (Z.div_mod a (buf_size f) ltac:(lia)) as Hd.
  rewrite <- (Z.mod_unique_pos x (buf_size f) (a / buf_size f) (x - a)); lia.
Qed.
Lemma sector_step bs a dest : 0 < bs -> a mod bs = 0 -> a <= dest -> dest - dest mod bs <> a ->
  a + bs <= dest - dest mod bs.
Proof.
  intros Hb Ha Hle Hne. pose proof (Z.div_mod a bs ltac:(lia)). pose proof (Z.div_mod dest bs ltac:(lia)).
  assert (a / bs <= dest / bs) by (apply Z.div_le_mono; lia).
  assert (a / bs <> dest / bs) by (intros E; rewrite E in *; lia).
  assert (bs * (a / bs + 1) <= bs * (dest / bs)) by (apply Z.mul_le_mono_nonneg_l; lia). lia.
Qed.

Lemma sector_inside f dest : 0 < buf_size f -> whole_sectors f -> f_start f <= dest < f_start f + f_length f ->
  f_start f <= dest - dest mod buf_size f /\ dest - dest mod buf_size f + buf_size f <= f_start f + f_length f.
Proof.
  intros Hb (_ & _ & _ & Hs & Hl) Hd. set (bs := buf_size f) in *. pose proof (Z.div_mod dest bs ltac:(lia)) as Hd1.
  pose proof (Z.mod_pos_bound dest bs Hb). pose proof (Z.div_mod (f_start f) bs ltac:(lia)) as Hd2.
  pose proof (Z.div_mod (f_length f) bs ltac:(lia)) as Hd3. rewrite Hs in Hd2. rewrite Hl in Hd3.
  assert (f_start f / bs <= dest / bs) by (apply Z.div_le_mono; lia).
  assert (bs * (dest / bs) < bs * (f_start f / bs + f_length f / bs)) by lia.
  assert (dest / bs < f_start f / bs + f_length f / bs) by (eapply Z.mul_lt_mono_pos_l; [exact Hb|lia]). nia.
Qed.
Lemma load_flash_run w p i f l : regions w p l -> l !! i = Some f -> load_flash p i w = Ok f w.
Proof.
  intros (_ & t & Hp & <-) Hi. apply list_lookup_fmap_Some in Hi as ([h g] & -> & Hf).
  unfold load_flash, load_target, deref_target, bind, get, ret. by rewrite Hp, Hf.
Qed.
Lemma upd_flash_run w p i f l g : regions w p l -> l !! i = Some f ->
  exists w', upd_flash p i g w = Ok tt w' /\ dev w' = dev w /\ regions w' p (<[i := g f]> l).
Proof.
  intros (Hok & t & Hp & <-) Hi. apply list_lookup_fmap_Some in Hi as ([h f'] & -> & Hf).
  unfold upd_flash, upd_target, load_target, deref_target, store_target, bind, get, ret, modify.
  rewrite Hp. eexists; split; [reflexivity|]. split; [done|].
  split; [by apply fm_heap|]. eexists. cbn. rewrite lookup_insert_eq. split; [done|]. cbn.
  apply list_eq. intros j. rewrite list_lookup_fmap. destruct (decide (i = j)) as [<-|Hne].
  - rewrite list_lookup_alter_eq, Hf, list_lookup_insert_eq; [done|].
    rewrite length_fmap. by eapply lookup_lt_Some.
  - by rewrite list_lookup_alter_ne, list_lookup_insert_ne, list_lookup_fmap.
Qed.
Lemma regions_heap w w' p l : heap w' = heap w -> fm_ok p w' -> regions w p l -> regions w' p l.
Proof. intros E Hok (_ & t & ? & ?). split; [done|]. exists t. by rewrite E. Qed.

(** One chunk: whether or not a sector had to be written out first, the image
    with the buffer pending changes exactly on the chunk. *)
Lemma write_chunk w p i f l h b dest hi src r :
  regions w p l -> l !! i = Some f -> buf f = Some (h, b) -> ready w f dest hi -> is_bytes src -> src <> [] -> dest + zlen src <= hi ->
  exists n b' base w', write_buffered_body p i (dest, src, r) w = Ok (inl (dest + n, zdrop n src, r)) w' /\
    0 < n <= zlen src /\ let f' := set_buf (Some (h, b')) base f in
    regions w' p (<[i := f']> l) /\ ready w' f' (dest + n) hi /\
    (forall x, pending f' (img w') x =
       if (dest <=? x) && (x <? dest + n) then zget src (x - dest) else pending f (img w) x).
Proof.
  intros Hreg Hli Hbuf [Hsz Hsh Hrg Hb Her] Hby Hne Hhi. rewrite Hbuf in Hb, Her. destruct Hb as (Hlb & Hbb & Hba).
  pose proof Hsh as (Hfr & Heb & Hs0 & _ & _).
  assert (Hls : 0 < zlen src) by (destruct src; [done|rewrite zlen_cons; pose proof (zlen_nonneg src); lia]).
  set (bs := buf_size f) in *. set (base := dest - dest mod bs).
  assert (Hm : 0 <= dest mod bs < bs) by (apply Z.mod_pos_bound; lia).
  assert (Hsec : f_start f <= base /\ base + bs <= f_start f + f_length f) by (apply sector_inside; [done|done|lia]).
  assert (Hbase : 0 <= base) by lia.
  assert (Hbm : base mod bs = 0).
  { unfold base. rewrite <- (Z.mod_0_l bs), Zminus_mod_idemp_r, Z.sub_diag by lia. done. }
  assert (Hub : u32 base = base) by (apply u32_small; unfold base, no_sector in *; lia).
  set (n := Z.min (bs - dest mod bs) (zlen src)).
  assert (Hn : 0 < n <= zlen src) by (unfold n; lia).
  (* the buffer and the memory before the chunk is copied *)
  assert (Hprep : exists b1 w1, (if base =? buf_addr f then ret (b, r) else
     let! r := if buf_addr f =? no_sector then ret r
               else let! e := drv_flash_write p f (buf_addr f) b in ret (Z.lor r e) in
     ret (memset bs (erased f), r)) w = Ok (b1, r) w1 /\ heap w1 = heap w /\ fm_ok p w1 /\ zlen b1 = bs /\ is_bytes b1 /\
     (forall x, overlay (img w1) base b1 x = pending f (img w) x) /\
     (forall x, base <= x -> sector f x < hi -> img w1 x = erased f)).
  { unfold pending. rewrite Hbuf. destruct (base =? buf_addr f) eqn:E1.
    - apply Z.eqb_eq in E1. exists b, w. split; [done|]. split; [done|]. split; [apply Hreg|]. split; [done|]. split; [done|].
      rewrite (proj2 (Z.eqb_neq _ _)) in Her |- * by (unfold base, no_sector in *; lia).
      split; [intros; by rewrite E1|]. intros x Hx Hs. apply Her; lia.
    - apply Z.eqb_neq in E1. destruct (buf_addr f =? no_sector) eqn:E2.
      + exists (memset bs (erased f)), w. rewrite zlen_memset by lia. split; [done|]. split; [done|]. split; [apply Hreg|].
        split; [done|]. split; [by apply is_bytes_memset|].
        assert (He : forall x, base <= x -> sector f x < hi -> img w x = erased f) by (intros x Hx; by apply Her).
        split; [|done]. intros x. unfold overlay. rewrite zlen_memset by lia.
        destruct ((base <=? x) && (x <? base + bs)) eqn:E; [|done].
        rewrite zget_memset by lia. rewrite He; [done|lia|]. rewrite (sector_of f base) by (done || lia). lia.
      + destruct Hba as [Hba|(Ha0 & Ham & Had & Hah & Hae)]; [lia|].
        assert (Hstep : buf_addr f + bs <= base) by (apply sector_step; auto).
        destruct (flash_write_ok p f (buf_addr f) b w) as (w1 & Hw & Hh & Hok & Himg); try done; [apply Hreg|fold bs in Hlb; lia|by rewrite Hlb|..].
        { intros x Hx. apply Her; [lia|]. rewrite (sector_of f (buf_addr f)) by (done || lia). done. }
        exists (memset bs (erased f)), w1. rewrite zlen_memset by lia. unfold bind, ret. rewrite Hw, Z.lor_0_r.
        split; [done|]. split; [done|]. split; [done|]. split; [done|]. split; [by apply is_bytes_memset|]. rewrite Hlb in Himg.
        assert (He : forall x, base <= x -> sector f x < hi -> img w1 x = erased f).
        { intros x Hx Hs. rewrite Himg. destruct ((buf_addr f <=? x) && (x <? buf_addr f + bs)) eqn:E; [lia|].
          apply Her; [lia|done]. }
        split; [|done]. intros x. unfold overlay. rewrite zlen_memset, Hlb by lia.
        destruct ((base <=? x) && (x <? base + bs)) eqn:E.
        * rewrite zget_memset by lia. destruct ((buf_addr f <=? x) && (x <? buf_addr f + bs)) eqn:E3; [lia|].
          symmetry. apply Her; [lia|]. rewrite (sector_of f base) by (done || lia). lia.
        * apply Himg. }
  destruct Hprep as (b1 & w1 & Hrun1 & Hh1 & Hok1 & Hl1 & Hbb1 & Hov & Her1).
  assert (Hcl : zlen (ztake n src) = n) by (apply zlen_ztake; lia).
  set (b2 := splice b1 (dest mod bs) (ztake n src)).
  assert (Hl2 : zlen b2 = bs) by (unfold b2; rewrite zlen_splice; lia).
  assert (Hbb2 : is_bytes b2) by (apply is_bytes_splice; [done|by apply Forall_take]).
  destruct (upd_flash_run w1 p i f l (fun f => set_buf (fmap (fun '(h, _) => (h, b2)) (buf f)) base f))
    as (w2 & Hupd & Hdev & Hreg2); [by apply (regions_heap w)|done|].
  rewrite Hbuf in Hreg2. cbn [fmap option_fmap option_map] in Hreg2.
  exists n, b2, base, w2. split; [|split; [done|]].
  - unfold write_buffered_body. rewrite (proj2 (Z.eqb_neq _ _)) by lia.
    rewrite (bind_Ok _ _ _ _ _ (load_flash_run _ _ _ _ _ Hreg Hli)), Hbuf. unfold deref. rewrite bind_ret.
    fold bs. rewrite (proj2 (Z.eqb_neq _ _)) by lia. cbv zeta. fold base. rewrite Hub.
    rewrite (bind_Ok _ _ _ _ _ Hrun1). fold n. unfold store_n.
    rewrite (proj2 (Z.leb_le 0 _)), (proj2 (Z.leb_le _ _)) by lia. cbn [andb]. rewrite bind_ret.
    fold b2. rewrite (bind_Ok _ _ _ _ _ Hupd). unfold ret. repeat f_equal.
    apply u32_small. unfold no_sector in *. lia.
  - cbv zeta. split; [done|]. assert (Hi2 : forall x, img w2 x = img w1 x) by (apply img_dev; done).
    assert (Hnb : (base =? no_sector) = false) by (apply Z.eqb_neq; unfold base, no_sector in *; lia).
    split.
    + constructor; cbn -[no_sector]; rewrite ?Hnb; try done; try lia.
      * split; [by apply fm_region_buf|apply Hsh].
      * split; [done|]. split; [done|]. right. split; [lia|]. split; [done|]. split; [unfold base; lia|]. split; lia.
      * intros x Hx Hs. rewrite Hi2. by apply Her1.
    + intros x. unfold pending. cbn -[no_sector]. rewrite Hnb. unfold b2.
      rewrite overlay_splice by lia. rewrite Hcl. replace (base + dest mod bs) with dest by (unfold base; lia).
      destruct ((dest <=? x) && (x <? dest + n)) eqn:E; [apply zget_ztake; lia|].
      rewrite <- Hov. unfold overlay. by rewrite Hi2.
Qed.

(** The image expected after [src] is programmed at [dest]. *)
Definition programmed (m : Z -> Z) (dest : Z) (src : list Z) (x : Z) : Z :=
  if (dest <=? x) && (x <? dest + zlen src) then zget src (x - dest) else m x.

(** What a programming step establishes: [f] became [f'], the pending image
    has [src] at [dest], and programming can go on behind it. *)
Record wrote (w : world D) (f : target_flash) (w' : world D) (f' : target_flash) (dest hi : Z) (src : list Z) : Prop := {
  wr_ready : ready w' f' (dest + zlen src) hi;
  wr_same : exists b a, f' = set_buf (Some b) a f;
  wr_img : forall x, pending f' (img w') x = programmed (pending f (img w)) dest src x;
}.

Lemma write_loop p i hi k src : (length src <= k)%nat -> forall w f l hb dest r,
  regions w p l -> l !! i = Some f -> buf f = Some hb -> ready w f dest hi -> is_bytes src -> dest + zlen src <= hi ->
  exists f' w', iter (S k) (write_buffered_body p i) (dest, src, r) w = Ok r w' /\
    regions w' p (<[i := f']> l) /\ wrote w f w' f' dest hi src.
Proof.
  revert src. induction k as [|k IH]; intros src Hk w f l [h b] dest r Hreg Hli Hbuf Hrd Hby Hhi.
  1: assert (Hnil : src = []) by (destruct src; cbn in Hk; [done|lia]).
  2: destruct (decide (src = [])) as [Hnil|Hne].
  1, 2: subst src; exists f, w; rewrite (list_insert_id l i f Hli); split; [done|]; split; [done|]; split;
    [by rewrite Z.add_0_r|exists (h, b), (buf_addr f); rewrite <- Hbuf; by destruct f|];
    intros x; unfold programmed; cbn; rewrite Z.add_0_r; destruct (_ && _) eqn:E; [lia|done].
  destruct (write_chunk w p i f l h b dest hi src r) as (n & b' & base & w1 & Hrun & Hn & Hreg1 & Hrd1 & Himg1); try done.
  cbv zeta in *. set (f1 := set_buf (Some (h, b')) base f) in *.
  assert (Hzd : zlen (zdrop n src) = zlen src - n) by (apply zlen_zdrop; lia).
  destruct (IH (zdrop n src)) with (w := w1) (f := f1) (l := <[i := f1]> l) (hb := (h, b')) (dest := dest + n) (r := r)
    as (f' & w' & Hrun' & Hreg' & [Hrd' (hb' & a' & Hsame) Himg']); try done; [unfold zlen in *; lia|..|by apply Forall_drop|lia|].
  { apply list_lookup_insert_eq. by eapply lookup_lt_Some. }
  rewrite list_insert_insert_eq in Hreg'.
  exists f', w'. split; [|split; [done|]].
  - rewrite iter_S. by rewrite (bind_Ok _ _ _ _ _ Hrun).
  - split.
    + rewrite Hzd in Hrd'. by replace (dest + n + (zlen src - n)) with (dest + zlen src) in Hrd' by lia.
    + exists hb', a'. by rewrite Hsame.
    + intros x. rewrite Himg'. unfold programmed. rewrite Himg1, Hzd.
      destruct ((dest + n <=? x) && (x <? dest + n + (zlen src - n))) eqn:E1,
        ((dest <=? x) && (x <? dest + n)) eqn:E2, ((dest <=? x) && (x <? dest + zlen src)) eqn:E3; try lia; try done.
      rewrite zget_zdrop by lia. by replace (n + (x - (dest + n))) with (x - dest) by lia.
Qed.

Lemma write_buffered_run w p i f l dest hi src :
  regions w p l -> l !! i = Some f -> ready w f dest hi -> is_bytes src -> dest + zlen src <= hi ->
  exists r w', target_flash_write_buffered p i dest src w = Ok r w' /\
    (r = 1 \/ r = 0 /\ exists f', regions w' p (<[i := f']> l) /\ wrote w f w' f' dest hi src).
Proof.
  intros Hreg Hli Hrd Hby Hhi. unfold target_flash_write_buffered.
  rewrite (bind_Ok _ _ _ _ _ (load_flash_run _ _ _ _ _ Hreg Hli)).
  destruct (buf f) as [hb|] eqn:Hbuf.
  - rewrite bind_ret.
    destruct (write_loop p i hi (length src) src ltac:(lia) w f l hb dest 0) as (f' & w' & Hrun & Hreg' & Hw); try done.
    exists 0, w'. split; [done|]. right. split; [done|]. by exists f'.
  - rewrite bind_bind. destruct (alloc_img p (buf_size f) w (proj1 Hreg)) as (q & w1 & Ha & Hh & Hok & Hi). rewrite (bind_Ok _ _ _ _ _ Ha).
    destruct q as [h|]; [|rewrite bind_ret; exists 1, w1; split; [done|by left]].
    rewrite bind_bind.
    destruct (upd_flash_run w1 p i f l (set_buf (Some (h, memset (buf_size f) 0)) no_sector))
      as (w2 & Hupd & Hdev & Hreg2); [by apply (regions_heap w)|done|].
    rewrite (bind_Ok _ _ _ _ _ Hupd), bind_ret. set (f1 := set_buf _ no_sector f) in *.
    assert (Hi2 : forall x, img w2 x = img w x) by (intros x; rewrite <- Hi; by apply img_dev).
    destruct Hrd as [Hsz Hsh Hrg _ Her]. rewrite Hbuf in Her.
    destruct (write_loop p i hi (length src) src ltac:(lia) w2 f1 (<[i := f1]> l) (h, memset (buf_size f) 0) dest 0)
      as (f' & w' & Hrun & Hreg' & [Hrd' (hb' & a' & Hs) Himg']); try done.
    { apply list_lookup_insert_eq. by eapply lookup_lt_Some. }
    { constructor; cbn; try done.
      - split; [by apply fm_region_buf, Hsh|apply Hsh].
      - rewrite zlen_memset by lia. split; [done|]. split; [by apply is_bytes_memset|by left].
      - intros x Hx Hs. rewrite Hi2. by apply Her. }
    rewrite list_insert_insert_eq in Hreg'.
    exists 0, w'. split; [done|]. right. split; [done|]. exists f'. split; [done|]. split; [done|by exists hb', a'|].
    intros x. rewrite Himg'. unfold programmed, pending at 1. unfold f1. cbn -[no_sector]. rewrite Z.eqb_refl, Hi2.
    unfold pending. by rewrite Hbuf.
Qed.

Lemma find_flash_Some n fs addr i f : find_flash n fs addr = Some (i, f) ->
  exists j, i = (n + j)%nat /\ fs.*2 !! j = Some f /\ f_start f <= addr < u32 (f_start f + f_length f).
Proof.
  revert n. induction fs as [|[h g] fs IH]; intros n Hf; [done|]. cbn in Hf.
  destruct ((f_start g <=? addr) && (addr <? u32 (f_start g + f_length g))) eqn:E.
  - injection Hf as <- <-. exists 0%nat. split; [lia|]. split; [done|lia].
  - destruct (IH _ Hf) as (j & -> & Hj & Hr). exists (S j). split; [lia|]. done.
Qed.
Lemma deref_target_run w p t : heap w !! p = Some t -> deref_target (Some p) w = Ok (p, t) w.
Proof. intros Hp. unfold deref_target, bind, get, ret. by rewrite Hp. Qed.
Lemma load_target_run w p t : heap w !! p = Some t -> load_target p w = Ok t w.
Proof. intros Hp. unfold load_target. by rewrite (bind_Ok _ _ _ _ _ (deref_target_run _ _ _ Hp)). Qed.

Lemma write_pending_run w p t i f dest hi src :
  fm_ok p w -> heap w !! p = Some t -> flash_for_addr t dest = Some (i, f) -> is_bytes src -> 0 < zlen src ->
  dest + zlen src <= hi -> dest + zlen src <= u32 (f_start f + f_length f) -> ready w f dest hi ->
  exists r w', target_flash_write (Some p) dest src w = Ok r w' /\
    (r = 1 \/ r = 0 /\ exists f', regions w' p (<[i := f']> (flash t).*2) /\ wrote w f w' f' dest hi src).
Proof.
  intros Hok Hp Hff Hby Hls Hhi Hend Hrd. destruct (find_flash_Some _ _ _ _ _ Hff) as (j & Hj & Hli & Hr). cbn in Hj. subst j.
  pose proof (rd_range _ _ _ _ Hrd) as Hrg. pose proof (u32_range (f_start f + f_length f)) as Hur.
  unfold target_flash_write. rewrite (bind_Ok _ _ _ _ _ (deref_target_run _ _ _ Hp)), iter_S.
  assert (Hcl : chunk_len f dest (zlen src) = zlen src).
  { unfold chunk_len, no_sector in *.
    pose proof (rd_shape _ _ _ _ Hrd) as (_ & _ & Hs0 & _). rewrite (u32_small (dest + zlen src)), Z.min_l by lia.
    rewrite u32_small; lia. }
  pose proof (ztake_all src) as Hzt.
  assert (Hzd : zdrop (zlen src) src = []) by (unfold zdrop, zlen; rewrite Nat2Z.id; apply skipn_all).
  destruct (write_buffered_run w p i f _ dest hi src ltac:(by split; [|exists t]) Hli Hrd Hby Hhi) as (r & w' & Hrun & Hpost).
  exists r, w'. split; [|done]. unfold write_body at 1. rewrite (proj2 (Z.eqb_neq _ _)), bind_bind by lia.
  rewrite (bind_Ok _ _ _ _ _ (load_target_run _ _ _ Hp)), Hff, bind_bind, Hcl, Hzt, (bind_Ok _ _ _ _ _ Hrun), bind_ret, Hzd.
  destruct src as [|c src]; [discriminate Hls|]. done.
Qed.

(** Nothing to write out. *)
Definition idle (f : target_flash) : Prop := buf f = None \/ buf_addr f = no_sector.
(** The pending sector is one of the region, and erased. *)
Definition flushable w (f : target_flash) : Prop :=
  fm_region f /\
  match buf f with
  | Some (_, b) => buf_addr f <> no_sector ->
      (is_bytes b /\ 0 < zlen b /\ zlen b = buf_size f /\ buf_addr f mod buf_size f = 0 /\ f_start f <= buf_addr f /\
       buf_addr f + zlen b <= f_start f + f_length f) /\
      forall x, buf_addr f <= x < buf_addr f + zlen b -> img w x = erased f
  | None => True
  end.
(** What is pending after programming can be written out. *)
Lemma ready_flushable w f dest hi : ready w f dest hi -> flushable w f.
Proof.
  intros [Hsz Hsh _ Hb Her]. split; [apply Hsh|]. destruct (buf f) as [[h b]|]; [|done]. intros Hne.
  destruct Hb as (Hl & Hbb & [?|(H1' & H2' & H3' & H4' & H5')]); [done|]. rewrite (proj2 (Z.eqb_neq _ _) Hne) in Her.
  split; [rewrite Hl; by repeat split|]. intros x Hx. rewrite Hl in Hx. apply Her; [lia|]. rewrite (sector_of f (buf_addr f)) by (done || lia). done.
Qed.
Lemma idle_pending f m x : idle f -> pending f m x = m x.
Proof. unfold pending. intros [->| ->]; [done|]. rewrite Z.eqb_refl. by destruct (buf f) as [[]|]. Qed.
Lemma idle_flushable w f : fm_region f -> idle f -> flushable w f.
Proof. intros Hr. unfold flushable. intros [->| ->]; [done|]. split; [done|]. by destruct (buf f) as [[]|]. Qed.

Lemma done_buffered_run w p i f l : regions w p l -> l !! i = Some f ->
  flushable w f ->
  exists w' f', target_flash_done_buffered p i w = Ok 0 w' /\ regions w' p (<[i := f']> l) /\
    fm_region f' /\ idle f' /\ (forall x, img w' x = pending f (img w) x).
Proof.
  intros Hreg Hli [Hfr Her]. unfold target_flash_done_buffered, idle in *.
  rewrite (bind_Ok _ _ _ _ _ (load_flash_run _ _ _ _ _ Hreg Hli)). unfold pending.
  destruct (buf f) as [[h b]|] eqn:Hbuf.
  2: { exists w, f. rewrite list_insert_id, Hbuf by done. auto 8. }
  destruct (buf_addr f =? no_sector) eqn:E.
  { apply Z.eqb_eq in E. exists w, f. rewrite list_insert_id, Hbuf by done. auto 8. }
  destruct (Her (proj1 (Z.eqb_neq _ _) E)) as [(Hb1 & Hb2 & Hb3 & Hb4 & Hb5 & Hb6) Her'].
  destruct (flash_write_ok p f (buf_addr f) b w (proj1 Hreg)) as (w1 & Hw & Hh & Hok1 & Himg); try done.
  rewrite (bind_Ok _ _ _ _ _ Hw).
  destruct (free_img p (Some h) w1 Hok1) as (w2 & Hf & Hh2 & Hok2 & Hi2). rewrite (bind_Ok _ _ _ _ _ Hf).
  destruct (upd_flash_run w2 p i f l (set_buf None no_sector)) as (w3 & Hu & Hd & Hreg3);
    [apply (regions_heap w); [by rewrite Hh2|done|done]|done|].
  rewrite (bind_Ok _ _ _ _ _ Hu). exists w3, (set_buf None no_sector f). split; [done|]. split; [done|].
  split; [by apply fm_region_buf|]. split; [by left|].
  intros x. rewrite (img_dev w3 w2) by done. rewrite Hi2, Himg. done.
Qed.

(** One turn of the loop over the regions. *)
Lemma done_from_S w p i f l n : regions w p l -> l !! i = Some f -> flushable w f ->
  exists w' f', done_from p (S n) i w = done_from p n (S i) w' /\ regions w' p (<[i := f']> l) /\
    fm_region f' /\ idle f' /\ (forall x, img w' x = pending f (img w) x).
Proof.
  intros Hreg Hli Hfl. destruct (done_buffered_run w p i f l Hreg Hli Hfl) as (w1 & f' & Hrun & Hreg1 & Hfr & Hid & Hi1).
  assert (Hli1 : <[i := f']> l !! i = Some f') by (apply list_lookup_insert_eq; by eapply lookup_lt_Some).
  cbn [done_from]. rewrite (bind_Ok _ _ _ _ _ Hrun). cbn [negb Z.eqb].
  rewrite (bind_Ok _ _ _ _ _ (load_flash_run _ _ _ _ _ Hreg1 Hli1)).
  destruct (has_done f') eqn:Hd0.
  - destruct (flash_done_ok p f' w1 (proj1 Hreg1) Hfr Hd0) as (w2 & Hd & Hh & Hok2 & Hi2). rewrite (bind_Ok _ _ _ _ _ Hd). cbn.
    exists w2, f'. split; [done|]. split; [by apply (regions_heap w1)|]. split; [done|]. split; [done|]. intros x. by rewrite Hi2.
  - rewrite bind_ret. cbn. by exists w1, f'.
Qed.
Lemma done_idle n p : forall i w l, regions w p l -> (i + n)%nat = length l ->
  (forall j g, (i <= j)%nat -> l !! j = Some g -> fm_region g /\ idle g) ->
  exists w', done_from p n i w = Ok 0 w' /\ (forall x, img w' x = img w x).
Proof.
  induction n as [|n IH]; intros i w l Hreg Hn Hid; [by exists w|].
  destruct (lookup_lt_is_Some_2 l i ltac:(lia)) as [f Hf]. destruct (Hid i f ltac:(lia) Hf) as [Hfrf Hidf].
  destruct (done_from_S w p i f l n Hreg Hf (idle_flushable _ _ Hfrf Hidf)) as (w1 & f' & -> & Hreg1 & _ & _ & Hi1).
  destruct (IH (S i) w1 _ Hreg1) as (w' & -> & Hi').
  - rewrite length_insert. lia.
  - intros j g Hj. rewrite list_lookup_insert_ne by lia. apply Hid. lia.
  - exists w'. split; [done|]. intros x. by rewrite Hi', Hi1, idle_pending.
Qed.

Lemma done_flushes_run w p t k f :
  fm_ok p w -> heap w !! p = Some t -> (flash t).*2 !! k = Some f -> flushable w f ->
  (forall j g, j <> k -> (flash t).*2 !! j = Some g -> fm_region g /\ idle g) ->
  exists w', target_flash_done (Some p) w = Ok 0 w' /\ (forall x, img w' x = pending f (img w) x).
Proof.
  intros Hok Hp Hk Hfl Hid. unfold target_flash_done. rewrite (bind_Ok _ _ _ _ _ (deref_target_run _ _ _ Hp)).
  assert (Hgen : forall n i w l, regions w p l -> (i + n)%nat = length l -> (i <= k)%nat -> l !! k = Some f ->
    flushable w f -> (forall j g, j <> k -> l !! j = Some g -> fm_region g /\ idle g) ->
    exists w', done_from p n i w = Ok 0 w' /\ (forall x, img w' x = pending f (img w) x)).
  { clear. induction n as [|n IH]; intros i w l Hreg Hn Hik Hk Hfl Hid; [apply lookup_lt_Some in Hk; lia|].
    destruct (decide (i = k)) as [->|Hne].
    - destruct (done_from_S w p k f l n Hreg Hk Hfl) as (w1 & f' & -> & Hreg1 & _ & _ & Hi1).
      destruct (done_idle n p (S k) w1 _ Hreg1) as (w' & -> & Hi'); [rewrite length_insert; lia| |].
      { intros j g Hj. rewrite list_lookup_insert_ne by lia. apply Hid. lia. }
      exists w'. split; [done|]. intros x. by rewrite Hi'.
    - destruct (lookup_lt_is_Some_2 l i ltac:(lia)) as [g Hg]. destruct (Hid i g ltac:(lia) Hg) as [Hfrg Hidg].
      destruct (done_from_S w p i g l n Hreg Hg (idle_flushable _ _ Hfrg Hidg)) as (w1 & g' & -> & Hreg1 & Hfrg' & Hidg' & Hi1).
      assert (Heq : forall x, img w1 x = img w x) by (intros x; rewrite Hi1; by apply idle_pending).
      destruct (IH (S i) w1 _ Hreg1) as (w' & -> & Hi'); [rewrite length_insert; lia|lia| | | |].
      + by rewrite list_lookup_insert_ne.
      + destruct Hfl as [Hfr Hfl]. split; [done|]. destruct (buf f) as [[h b]|]; [|done]. intros Ha.
        destruct (Hfl Ha) as [Hb He]. split; [done|]. intros x Hx. rewrite Heq. auto.
      + intros j g2 Hj. rewrite list_lookup_insert_Some. intros [(-> & <- & _)|[? ?]]; eauto.
      + exists w'. split; [done|]. intros x. rewrite Hi'. unfold pending.
        destruct (buf f) as [[h b]|]; [|apply Heq].
        destruct (buf_addr f =? no_sector); unfold overlay; by rewrite Heq. }
  apply (Hgen _ _ _ (flash t).*2); try done; [by split; [|exists t]|by rewrite length_fmap|lia].
Qed.
(** C12: [target_flash_done] ends, returns 0, and leaves in flash exactly the
    pending image of the region that was being programmed. *)
Theorem flash_done_flushes w p t k f :
  fm_ok p w -> heap w !! p = Some t -> (flash t).*2 !! k = Some f -> flushable w f ->
  (forall j g, j <> k -> (flash t).*2 !! j = Some g -> fm_region g /\ idle g) ->
  exists w', target_flash_done (Some p) w = Ok 0 w' /\ (forall x, img w' x = pending f (img w) x).
Proof. apply done_flushes_run. Qed.

(** *** Programming an erased range *)
Definition erase_from (m : Z -> Z) (a n : Z) : Z -> Z := fun x => if (a <=? x) && (x <? a + n) then 0xff else m x.
(** The pages that hold a range of [len] bytes. *)
Definition erase_size (ps len : Z) : Z := ps * ((len - 1) / ps + 1).
(** The erased range holds every sector that is written. *)
Lemma erased_range bs addr n dest (src : list Z) x : 0 < bs -> addr mod bs = 0 -> addr <= dest -> dest + zlen src <= addr + bs * n ->
  dest - dest mod bs <= x -> x - x mod bs < dest + zlen src -> addr <= x < addr + bs * n.
Proof.
  intros Hb Ha Hd Hs Hx Hx2. pose proof (Z.div_mod addr bs ltac:(lia)) as Ea. rewrite Ha in Ea.
  pose proof (Z.div_mod dest bs ltac:(lia)) as Ed. pose proof (Z.div_mod x bs ltac:(lia)) as Ex.
  pose proof (Z.mod_pos_bound dest bs Hb). pose proof (Z.mod_pos_bound x bs Hb).
  pose proof (Z.div_le_mono addr dest bs Hb Hd).
  assert (bs * (addr / bs) <= bs * (dest / bs)) by (apply Z.mul_le_mono_nonneg_l; lia). split; [lia|].
  assert (Hlt : bs * (x / bs) < bs * (addr / bs + n)) by lia. apply Z.mul_lt_mono_pos_l in Hlt; [|done].
  assert (bs * (x / bs + 1) <= bs * (addr / bs + n)) by (apply Z.mul_le_mono_nonneg_l; lia). lia.
Qed.
(** The only region of a target, nothing buffered: writing data into [n] erased
    sectors from [a] on, and done, put it there and change nothing else. *)
Lemma program_erased w p t h f a n dest src : fm_ok p w -> heap w !! p = Some t -> flash t = [(h, f)] ->
  whole_sectors f -> buf f = None -> 0 < buf_size f -> a mod buf_size f = 0 -> f_start f <= a ->
  a + buf_size f * n <= f_start f + f_length f -> f_start f + f_length f < no_sector ->
  (forall x, a <= x < a + buf_size f * n -> img w x = erased f) ->
  is_bytes src -> src <> [] -> a <= dest -> dest + zlen src <= a + buf_size f * n ->
  exists r w2, target_flash_write (Some p) dest src w = Ok r w2 /\
    (r = 1 \/ r = 0 /\ exists w3, target_flash_done (Some p) w2 = Ok 0 w3 /\ forall x, img w3 x = programmed (img w) dest src x).
Proof.
  intros Hok Hp Hfl Hws Hbuf Hbs Ha Hlo Hhi Hend Her Hby Hne Hd Hde. pose proof Hws as (Hreg & _ & Hs0 & _). unfold no_sector in *.
  assert (Hls : 0 < zlen src) by (destruct src; [done|rewrite zlen_cons; pose proof (zlen_nonneg src); lia]).
  assert (Hff : flash_for_addr t dest = Some (0%nat, f)).
  { unfold flash_for_addr. rewrite Hfl. cbn [find_flash]. rewrite u32_small by lia. by replace (_ && _) with true by lia. }
  assert (Hrd : ready w f dest (dest + zlen src)).
  { constructor; rewrite ?Hbuf; try done; [unfold no_sector; lia|].
    intros x. unfold sector. intros Hx Hx2. apply Her. by apply (erased_range _ _ _ dest src). }
  destruct (write_pending_run w p t 0 f dest (dest + zlen src) src) as (r & w2 & Hr2 & Hpost); try done.
  { rewrite u32_small; lia. }
  exists r, w2. split; [done|]. destruct Hpost as [->|(-> & f' & (Hok2 & t2 & Hp2 & Hfl2) & [Hrd2 _ Himg])]; [by left|right].
  split; [done|]. rewrite Hfl in Hfl2. cbn in Hfl2.
  destruct (done_flushes_run w2 p t2 0 f') as (w3 & Hr3 & Hi3).
  - done.
  - done.
  - by rewrite Hfl2.
  - by eapply ready_flushable.
  - rewrite Hfl2. intros [|[|]] g Hj Hg; done.
  - exists w3. split; [done|]. intros x. rewrite Hi3, Himg. unfold programmed, pending. by rewrite Hbuf.
Qed.
(** An erase within one region is one call of its driver. *)
Lemma erase_one w w' p t i f addr len : heap w !! p = Some t -> heap w' = heap w -> flash_for_addr t addr = Some (i, f) ->
  0 < len -> 0 <= addr -> addr + len <= f_start f + f_length f -> 0 <= f_start f -> f_start f + f_length f < 2 ^ 32 ->
  drv_flash_erase p f addr len w = Ok 0 w' -> target_flash_erase (S (Z.to_nat len)) (Some p) addr len w = Ok 0 w'.
Proof.
  intros Hp Hh Hff Hlen Ha Hend Hs Hs2 Hr.
  assert (Hcl : chunk_len f addr len = len).
  { unfold chunk_len. rewrite (u32_small (addr + len)), (u32_small (f_start f + f_length f)), Z.min_l, u32_small by lia. lia. }
  unfold target_flash_erase. rewrite (bind_Ok _ _ _ _ _ (deref_target_run _ _ _ Hp)), iter_S. unfold erase_body at 1.
  replace (len =? 0) with false by lia. rewrite bind_bind, (bind_Ok _ _ _ _ _ (load_target_run _ _ _ Hp)), Hff, Hcl.
  rewrite bind_bind, (bind_Ok _ _ _ _ _ Hr), bind_ret, Z.sub_diag. destruct (Z.to_nat len) eqn:E; [lia|]. rewrite iter_S. done.
Qed.
End Correct.

(** ** Erasing *)
Section Erase.
Context {D : Type} `{MemIf D} `{Driver D}.
Implicit Types w : world D.

(** [target_flash_erase] of an address no region holds erases nothing and
    still reports success. *)
Theorem flash_erase_unmapped w p t addr len fuel :
  heap w !! p = Some t -> flash_for_addr t addr = None ->
  target_flash_erase (S fuel) (Some p) addr len w = Ok 0 w.
Proof.
  intros Hp Hf. unfold target_flash_erase. rewrite (bind_Ok _ _ _ _ _ (deref_target_run _ _ _ Hp)), iter_S.
  unfold erase_body. destruct (len =? 0); [done|]. rewrite bind_bind.
  by rewrite (bind_Ok _ _ _ _ _ (load_target_run _ _ _ Hp)), Hf.
Qed.

(** C39: [target_flash_erase] terminates: with erase routines that return and
    leave the target's data alone, every turn shortens the range left, and
    every call a driver gets stays inside one region and inside the range. *)
Theorem flash_erase_total w p t addr len
    (erase_in : forall f a n w, heap w !! p = Some t -> In f (flash t).*2 ->
       f_start f <= a -> a + n <= u32 (f_start f + f_length f) -> addr <= a -> a + n <= addr + len -> 0 < n ->
       exists e w', drv_flash_erase p f a n w = Ok e w' /\ heap w' !! p = Some t) :
  heap w !! p = Some t -> 0 <= addr -> 0 <= len -> addr + len < 2 ^ 32 ->
  exists r w', target_flash_erase (S (Z.to_nat len)) (Some p) addr len w = Ok r w'.
Proof.
  intros Hp Ha Hl Hb. unfold target_flash_erase. rewrite (bind_Ok _ _ _ _ _ (deref_target_run _ _ _ Hp)).
  destruct (iter_total (erase_body p)
    (fun '(a, n, _) w => heap w !! p = Some t /\ addr <= a /\ 0 <= n /\ a + n = addr + len) (fun _ _ => True)
    (fun '(_, n, _) _ => Z.to_nat n)) with (n := S (Z.to_nat len)) (s := (addr, len, 0)) (w := w)
    as (r & w' & Hrun & _); [|split_and!; done || lia|lia|by exists r, w'].
  intros [[a n] r] w0 (Hp0 & Haa & Hn & Hs). unfold erase_body.
  destruct (n =? 0) eqn:En; [by exists (inr r), w0|]. apply Z.eqb_neq in En.
  rewrite (bind_Ok _ _ _ _ _ (load_target_run _ _ _ Hp0)).
  destruct (flash_for_addr t a) as [[i f]|] eqn:Hf; [|by exists (inr r), w0].
  destruct (find_flash_Some _ _ _ _ _ Hf) as (j & _ & Hin & Hr).
  pose proof (u32_range (f_start f + f_length f)) as Hur.
  set (m := Z.min (a + n) (u32 (f_start f + f_length f)) - a).
  assert (Hcl : chunk_len f a n = m).
  { unfold chunk_len. rewrite (u32_small (a + n)) by lia. apply u32_small. lia. }
  rewrite Hcl. assert (Hm : 0 < m <= n) by lia.
  destruct (erase_in f a m w0) as (e & w1 & He & Hp1); try (done || lia).
  { apply list_elem_of_In. by eapply list_elem_of_lookup_2. }
  rewrite (bind_Ok _ _ _ _ _ He). rewrite !u32_small by lia.
  eexists (inl _), w1. split; [done|]. split_and!; done || lia.
Qed.
End Erase.

(** ** A flash the theorems can be tried on *)
Module FlashSim.
(** The device is its flash content. *)
#[global] Instance sim_mem : MemIf (Z -> Z) := {
  MemManager_Alloc n := ret (if n <=? 256 then Some 7%positive else None);
  MemManager_Free _ := ret tt;
}.
Definition noop {A} (a : A) : M (world (Z -> Z)) A := ret a.
#[global] Instance sim_driver : Driver (Z -> Z) := {
  drv_attach _ := noop true; drv_detach _ := noop tt; drv_check_error _ := noop false;
  drv_mem_read _ _ _ := noop []; drv_mem_write _ _ _ := noop tt; drv_regs_read _ := noop [];
  drv_regs_write _ _ := noop tt; drv_reg_read _ _ _ := noop (0, []); drv_reg_write _ _ _ := noop 0;
  drv_reset _ := noop tt; drv_halt_request _ := noop tt; drv_halt_poll _ := noop (TARGET_HALT_RUNNING, 0);
  drv_halt_resume _ _ := noop tt; drv_breakwatch_set _ b := noop (0, b); drv_breakwatch_clear _ _ := noop 0;
  drv_priv_free _ := noop tt; drv_command _ _ _ := noop true;
  drv_flash_erase _ f a n := let! w := get in do! put (set_dev (fun x => if (a <=? x) && (x <? a + n) then erased f else dev w x) w) in ret 0;
  drv_flash_write _ f a data := let! w := get in do! put (set_dev (fun x => if (a <=? x) && (x <? a + zlen data) then zget data (x - a) else dev w x) w) in ret 0;
  drv_flash_done _ _ := noop 0;
}.
#[global] Instance sim_flash : FlashMemory (Z -> Z).
Proof.
  refine {| img w := dev w; fm_ok _ _ := True; fm_region _ := True |}; try done.
  - intros p f a data w _ _ _ _ _ _ _ _ _. eexists. split; [reflexivity|]. done.
  - intros p f w _ _ _. by exists w.
  - by intros w w' ->.
  - intros p n w _. eexists _, _. split; [reflexivity|]. done.
  - intros p q w _. eexists _. split; [reflexivity|]. done.
Defined.

Definition region0 : target_flash :=
  {| f_start := 4096; f_length := 4096; blocksize := 1024; has_done := false; erased := 255;
     buf_size := 16; buf_addr := 0; buf := None;
     f_ops := {| fo_erase := EmptyString; fo_write := EmptyString |}; f_extra := [] |}.
Definition blank : target :=
  {| attached := true; t_tc := None; m_attach := FNULL; m_detach := FNULL; m_check_error := FNULL;
     m_mem_read := FNULL; m_mem_write := FNULL; regs_size := 0; tdesc := None;
     m_regs_read := FNULL; m_regs_write := FNULL; m_reg_read := FNULL; m_reg_write := FNULL;
     m_reset := FNULL; m_halt_request := FNULL; m_halt_poll := FNULL; m_halt_resume := FNULL;
     m_breakwatch_set := FNULL; m_breakwatch_clear := FNULL; bw_list := [];
     t_designer := 0; idcode := 0; target_storage := None; ram := []; flash := [(3%positive, region0)];
     driver := None; core := None; cpuid := 0; cmdline := memset 81 0; heapinfo := memset 4 0;
     commands := []; priv := None; m_extended_reset := FNULL; target_options := 0; unsafe_enabled := false |}.
Definition w0 : world (Z -> Z) :=
  {| heap := {[ 5%positive := blank ]}; ctls := empty; pbuf := []; debug_bmp := false; dev := fun _ => 255 |}.
(** The same, one sector pending. *)
Definition region1 : target_flash := set_buf (Some (7%positive, memset 16 9)) 4128 region0.
Definition w1 : world (Z -> Z) :=
  {| heap := {[ 5%positive := set_flash [(3%positive, region1)] blank ]}; ctls := empty; pbuf := []; debug_bmp := false; dev := fun _ => 255 |}.
End FlashSim.


Lemma flash_done_flushes_witness : exists w',
  target_flash_done (Some 5%positive) FlashSim.w1 = Ok 0 w' /\
  (forall x, img w' x = pending FlashSim.region1 (img FlashSim.w1) x).
Proof.
  apply (flash_done_flushes FlashSim.w1 5 (set_flash [(3%positive, FlashSim.region1)] FlashSim.blank) 0);
    [exact I|reflexivity|reflexivity|split; [exact I|]|].
  - intros _. split; [|intros x _; reflexivity]. split; [apply is_bytes_memset; unfold in_width; lia|].
    split; [reflexivity|]. split; [reflexivity|]. by repeat split.
  - intros [|[|]] g Hj Hg; [congruence|discriminate|discriminate].
Defined.

Lemma flash_erase_unmapped_witness :
  target_flash_erase 9 (Some 5%positive) 0 64 FlashSim.w0 = Ok 0 FlashSim.w0.
Proof. apply (flash_erase_unmapped FlashSim.w0 5 FlashSim.blank); reflexivity. Defined.

Lemma flash_erase_total_witness : exists r w',
  target_flash_erase 65 (Some 5%positive) 4096 64 FlashSim.w0 = Ok r w'.
Proof.
  apply (flash_erase_total FlashSim.w0 5 FlashSim.blank 4096 64); [|reflexivity|lia|lia|lia].
  intros f a n w Hp _ _ _ _ _ _. eexists _, _. split; [reflexivity|exact Hp].
Defined.
