(* ===== verification/TargetProps.v ===== *)
(** Correctness of target.c's lists, breakpoints, memory map and command line:
    theorems about the definitions of Target.v. *)

From Stdlib Require Import ZArith Lia String.
From stdpp Require Import base list numbers option gmap.
From S2P Require Import Prelude CLib HexUtils GdbIf MemManager GdbPacket TargetState Target TargetFlash.

(** ** Steps on targets and controllers *)
Section Steps.
Context {D : Type}.
Implicit Types w : world D.

Lemma deref_target_Ok w p t : heap w !! p = Some t -> deref_target (Some p) w = Ok (p, t) w.
Proof. intros Hp. unfold deref_target, bind, get, ret. by rewrite Hp. Qed.
Lemma load_target_Ok w p t : heap w !! p = Some t -> load_target p w = Ok t w.
Proof. intros Hp. unfold load_target. by rewrite (bind_Ok _ _ _ _ _ (deref_target_Ok _ _ _ Hp)). Qed.
Lemma upd_target_Ok w p t g : heap w !! p = Some t ->
  upd_target p g w = Ok tt (set_heap (<[p := g t]> (heap w)) w).
Proof. intros Hp. unfold upd_target. by rewrite (bind_Ok _ _ _ _ _ (load_target_Ok _ _ _ Hp)). Qed.
Lemma load_ctl_Ok w c k : ctls w !! c = Some k -> load_ctl c w = Ok k w.
Proof. intros Hc. unfold load_ctl, bind, get, ret. by rewrite Hc. Qed.
Lemma upd_ctl_Ok w c k g : ctls w !! c = Some k ->
  upd_ctl c g w = Ok tt (set_ctls (<[c := g k]> (ctls w)) w).
Proof. intros Hc. unfold upd_ctl. by rewrite (bind_Ok _ _ _ _ _ (load_ctl_Ok _ _ _ Hc)). Qed.

Lemma alter_Some {A} (f : A -> A) (m : gmap nat A) i x : m !! i = Some x -> alter f i m = <[i := f x]> m.
Proof.
  intros Hi. apply map_eq. intros j. destruct (decide (i = j)) as [<-|Hne].
  - by rewrite lookup_alter_eq, Hi, lookup_insert_eq.
  - by rewrite lookup_alter_ne, lookup_insert_ne.
Qed.
(** Same targets and controllers. *)
Definition framed w w' : Prop := heap w' = heap w /\ ctls w' = ctls w.
Lemma framed_refl w : framed w w.
Proof. done. Qed.
Lemma framed_trans w1 w2 w3 : framed w1 w2 -> framed w2 w3 -> framed w1 w3.
Proof. unfold framed. intros [-> ->] [-> ->]. done. Qed.
Lemma for_each_framed {A} (l : list A) (body : A -> M (world D) unit) :
  (forall x w, exists w', body x w = Ok tt w' /\ framed w w') ->
  forall w, exists w', for_each l body w = Ok tt w' /\ framed w w'.
Proof.
  intros Hb. induction l as [|x l IH]; intros w; [by exists w|]. cbn.
  destruct (Hb x w) as (w1 & Hr & Hf). rewrite (bind_Ok _ _ _ _ _ Hr).
  destruct (IH w1) as (w2 & Hr2 & Hf2). exists w2. split; [done|]. by eapply framed_trans.
Qed.
End Steps.

(** What the pool and the drivers promise here: [MemManager_Free] and a
    [priv_free] return and leave the targets and controllers alone. *)
Class FreeOk (D : Type) `{MemIf D} `{Driver D} := {
  free_returns q (d : D) : exists d', MemManager_Free q d = Ok tt d';
  priv_free_returns p (w : world D) : exists w', drv_priv_free p w = Ok tt w' /\ framed w w';
}.

Section Lists.
Context {D : Type} `{GdbIf D} `{MemIf D} `{Driver D} `{HostIf D} `{!FreeOk D}.
Implicit Types w : world D.

Lemma free_framed q w : exists w', MemManager_Free (W := world D) q w = Ok tt w' /\ framed w w'.
Proof.
  destruct (free_returns q (dev w)) as (d' & Hd). exists (set_dev d' w).
  split; [|done]. cbn. unfold lift. by rewrite Hd.
Qed.

(** The pointers of controller [k] to [p] are cleared. *)
Definition forget (p : positive) (k : controller) : controller :=
  let k := if decide (cur_target k = Some p) then set_cur None k else k in
  if decide (last_target k = Some p) then set_last None k else k.
Lemma forget_not p k : cur_target (forget p k) <> Some p /\ last_target (forget p k) <> Some p.
Proof. unfold forget. repeat case_decide; cbn in *; split; congruence. Qed.
Lemma forget_lists p k : target_list (forget p k) = target_list k /\
  has_destroy_callback (forget p k) = has_destroy_callback k.
Proof. unfold forget. by repeat case_decide. Qed.
Lemma forget_sub p q k :
  (cur_target (forget p k) = Some q -> cur_target k = Some q) /\ (last_target (forget p k) = Some q -> last_target k = Some q).
Proof. unfold forget. repeat case_decide; cbn in *; split; congruence. Qed.

Lemma destroy_callback_Ok w c k p : ctls w !! c = Some k -> has_destroy_callback k = true ->
  destroy_callback c p w = Ok tt (set_ctls (<[c := forget p k]> (ctls w)) w).
Proof.
  intros Hc Hd. unfold destroy_callback. rewrite (bind_Ok _ _ _ _ _ (load_ctl_Ok _ _ _ Hc)), Hd.
  unfold gdb_target_destroy_callback. rewrite (bind_Ok _ _ _ _ _ (upd_ctl_Ok _ _ _ _ Hc)).
  erewrite upd_ctl_Ok by (cbn; apply lookup_insert_eq). unfold set_ctls. cbn.
  by rewrite insert_insert_eq.
Qed.

Lemma mem_map_free_Ok w p t : heap w !! p = Some t ->
  exists w' t', target_mem_map_free p w = Ok tt w' /\ heap w' = <[p := t']> (heap w) /\ ctls w' = ctls w.
Proof.
  intros Hp. unfold target_mem_map_free. rewrite (bind_Ok _ _ _ _ _ (load_target_Ok _ _ _ Hp)).
  destruct (for_each_framed (ram t) (fun '(r, _) => MemManager_Free (Some r))) with (w := w) as (w1 & Hr1 & Hh1 & Hc1).
  { intros [r ?] w0. apply free_framed. }
  rewrite (bind_Ok _ _ _ _ _ Hr1). rewrite <- Hh1 in Hp. rewrite (bind_Ok _ _ _ _ _ (upd_target_Ok _ _ _ _ Hp)).
  set (w1' := set_heap _ _).
  destruct (for_each_framed (flash t) (fun '(h, f) =>
    do! match buf f with Some (b, _) => MemManager_Free (Some b) | None => ret tt end in
    MemManager_Free (Some h))) with (w := w1') as (w2 & Hr2 & Hh2 & Hc2); [|rewrite (bind_Ok _ _ _ _ _ Hr2)].
  { intros [h f] w0. destruct (buf f) as [[b ?]|]; [|rewrite bind_ret; apply free_framed].
    destruct (free_framed (Some b) w0) as (w3 & Hr3 & Hf3). rewrite (bind_Ok _ _ _ _ _ Hr3).
    destruct (free_framed (Some h) w3) as (w4 & Hr4 & Hf4). exists w4. split; [done|]. by eapply framed_trans. }
  erewrite upd_target_Ok by (rewrite Hh2; cbn; apply lookup_insert_eq).
  eexists _, _. split; [done|]. cbn. rewrite Hh2, Hc2. cbn. by rewrite insert_insert_eq, Hh1, Hc1.
Qed.

(** Freeing one target removes it from the heap and from the controller it
    was attached to. *)
Lemma free_target_Ok w p t : heap w !! p = Some t ->
  (forall c, t_tc t = Some c -> exists k, ctls w !! c = Some k /\ has_destroy_callback k = true) ->
  exists w', free_target p w = Ok tt w' /\ heap w' = delete p (heap w) /\
    ctls w' = match t_tc t with Some c => alter (forget p) c (ctls w) | None => ctls w end.
Proof.
  intros Hp Hc. unfold free_target. rewrite (bind_Ok _ _ _ _ _ (load_target_Ok _ _ _ Hp)).
  assert (exists w1, match t_tc t with Some c => let! tc := load_ctl c in when (has_destroy_callback tc) (destroy_callback c p)
      | None => ret tt end w = Ok tt w1 /\ heap w1 = heap w /\
      ctls w1 = match t_tc t with Some c => alter (forget p) c (ctls w) | None => ctls w end) as (w1 & Hr1 & Hh1 & Hc1).
  { destruct (t_tc t) as [c|]; [|by exists w]. destruct (Hc c eq_refl) as (k & Hk & Hd).
    rewrite (bind_Ok _ _ _ _ _ (load_ctl_Ok _ _ _ Hk)), Hd. cbn [when].
    rewrite (destroy_callback_Ok _ _ _ _ Hk Hd). eexists. split; [done|]. split; [done|]. cbn.
    symmetry. by apply alter_Some. }
  rewrite (bind_Ok _ _ _ _ _ Hr1).
  assert (exists w2, match priv t with Some _ => drv_priv_free p | None => ret tt end w1 = Ok tt w2 /\ framed w1 w2)
    as (w2 & Hr2 & Hh2 & Hc2) by (destruct (priv t); [apply priv_free_returns|by exists w1]).
  rewrite (bind_Ok _ _ _ _ _ Hr2). assert (Hp2 : heap w2 !! p = Some t) by (by rewrite Hh2, Hh1).
  rewrite (bind_Ok _ _ _ _ _ (load_target_Ok _ _ _ Hp2)).
  destruct (for_each_framed (commands t) (fun tc => MemManager_Free (Some (tc_handle tc))))
    with (w := w2) as (w3 & Hr3 & Hh3 & Hc3); [intros; apply free_framed|].
  rewrite (bind_Ok _ _ _ _ _ Hr3). erewrite bind_Ok; [|apply upd_target_Ok; by rewrite Hh3].
  edestruct (free_framed (fst <$> target_storage t)) as (w4 & Hr4 & Hh4 & Hc4). rewrite (bind_Ok _ _ _ _ _ Hr4).
  edestruct (mem_map_free_Ok w4 p) as (w5 & t5 & Hr5 & Hh5 & Hc5);
    [rewrite Hh4; cbn; apply lookup_insert_eq|]. rewrite (bind_Ok _ _ _ _ _ Hr5).
  destruct (for_each_framed (bw_list t) (fun '(b, _) => MemManager_Free (Some b))) with (w := w5)
    as (w6 & Hr6 & Hh6 & Hc6); [|rewrite (bind_Ok _ _ _ _ _ Hr6)].
  { intros [b ?] w0. apply free_framed. }
  erewrite bind_Ok; [|eapply upd_target_Ok; rewrite Hh6, Hh5; apply lookup_insert_eq].
  edestruct (free_framed (Some p)) as (w7 & Hr7 & Hh7 & Hc7). rewrite (bind_Ok _ _ _ _ _ Hr7).
  eexists. split; [done|]. cbn. rewrite Hh7, Hc7. cbn. rewrite Hh6, Hh5, Hh4, Hc6, Hc5, Hc4. cbn.
  rewrite Hc3, Hc2, Hc1, Hh3, Hh2, Hh1. by rewrite !insert_insert_eq, delete_insert_eq.
Qed.

(** The pointers controllers keep to a target of [l] belong to the controller
    that target is attached to, which has a destroy callback. *)
Definition owned (l : list positive) w : Prop :=
  (forall p, p ∈ l -> exists t, heap w !! p = Some t /\
     forall c, t_tc t = Some c -> exists k, ctls w !! c = Some k /\ has_destroy_callback k = true) /\
  (forall p c k, p ∈ l -> ctls w !! c = Some k -> cur_target k = Some p \/ last_target k = Some p ->
     exists t, heap w !! p = Some t /\ t_tc t = Some c).

Lemma free_step p l w w1 t : NoDup (p :: l) -> owned (p :: l) w -> heap w !! p = Some t ->
  heap w1 = delete p (heap w) ->
  ctls w1 = match t_tc t with Some c => alter (forget p) c (ctls w) | None => ctls w end ->
  owned l w1 /\ (forall c, option_map target_list (ctls w1 !! c) = option_map target_list (ctls w !! c)) /\
  forall c k, ctls w1 !! c = Some k -> (cur_target k <> Some p /\ last_target k <> Some p) /\
    exists k0, ctls w !! c = Some k0 /\ (cur_target k = cur_target k0 \/ cur_target k = None) /\
      (last_target k = last_target k0 \/ last_target k = None).
Proof.
  intros [Hnin Hnd]%NoDup_cons [Ho1 Ho2] Hp Hh Hc.
  assert (Hck : forall c k, ctls w1 !! c = Some k -> exists k0, ctls w !! c = Some k0 /\
     has_destroy_callback k = has_destroy_callback k0 /\ (k = k0 /\ t_tc t <> Some c \/ k = forget p k0)).
  { intros c k Hk. rewrite Hc in Hk. destruct (t_tc t) as [c0|]; [|exists k; auto].
    apply lookup_alter_Some in Hk as [(<- & k0 & Hk0 & ->)|[Hne Hk]];
      [exists k0; split; [done|]; split; [apply forget_lists|auto]|exists k; split; [done|]; split; [done|left; split; congruence]]. }
  split; [split|split].
  - intros q Hq. destruct (Ho1 q ltac:(by right)) as (tq & Htq & Hdq). exists tq. split.
    + rewrite Hh, lookup_delete_ne; [done|]. intros ->. done.
    + intros c Hcq. destruct (Hdq c Hcq) as (k0 & Hk0 & Hd0). rewrite Hc. destruct (t_tc t) as [c0|]; [|by exists k0].
      destruct (decide (c0 = c)) as [->|Hne].
      * exists (forget p k0). rewrite lookup_alter_eq, Hk0. split; [done|]. rewrite <- Hd0. apply forget_lists.
      * exists k0. by rewrite lookup_alter_ne.
  - intros q c k Hq Hk Hor. destruct (Hck c k Hk) as (k0 & Hk0 & _ & Hcase).
    destruct (Ho2 q c k0 ltac:(by right) Hk0) as (tq & Htq & Htc).
    { destruct Hcase as [[-> _]| ->]; [done|]. destruct (forget_sub p q k0). tauto. }
    exists tq. split; [|done]. rewrite Hh, lookup_delete_ne; [done|]. intros ->. done.
  - intros c. rewrite Hc. destruct (t_tc t) as [c0|]; [|done]. destruct (decide (c0 = c)) as [->|Hne].
    + rewrite lookup_alter_eq. destruct (ctls w !! c); cbn; [|done]. f_equal. apply forget_lists.
    + by rewrite lookup_alter_ne.
  - intros c k Hk. destruct (Hck c k Hk) as (k0 & Hk0 & _ & Hcase). split.
    + destruct Hcase as [[-> Hne]| ->]; [|apply forget_not].
      split; intros E; destruct (Ho2 p c k0 ltac:(by left) Hk0 ltac:(auto)) as (t' & Ht' & ?); congruence.
    + exists k0. split; [done|]. destruct Hcase as [[-> _]| ->]; [auto|].
      unfold forget. repeat case_decide; cbn; auto.
Qed.

Lemma free_all l : forall w, NoDup l -> owned l w ->
  exists w', for_each l free_target w = Ok tt w' /\
    (forall p, p ∈ l -> heap w' !! p = None) /\ (forall p, p ∉ l -> heap w' !! p = heap w !! p) /\
    (forall c, option_map target_list (ctls w' !! c) = option_map target_list (ctls w !! c)) /\
    forall c k, ctls w' !! c = Some k ->
      (forall p, p ∈ l -> cur_target k <> Some p /\ last_target k <> Some p) /\
      exists k0, ctls w !! c = Some k0 /\ (cur_target k = cur_target k0 \/ cur_target k = None) /\
        (last_target k = last_target k0 \/ last_target k = None).
Proof.
  induction l as [|p l IH]; intros w Hnd Ho.
  { exists w. split_and!; try done. 1: intros p Hp; by apply elem_of_nil in Hp.
    intros c k Hk. split; [intros p Hp; by apply elem_of_nil in Hp|exists k; auto]. }
  destruct Ho as [Ho1 Ho2]. destruct (Ho1 p ltac:(by left)) as (t & Hp & Htc).
  destruct (free_target_Ok w p t Hp Htc) as (w1 & Hr1 & Hh1 & Hc1).
  destruct (free_step p l w w1 t Hnd (conj Ho1 Ho2) Hp Hh1 Hc1) as (Ho' & Hl1 & Hk1).
  apply NoDup_cons in Hnd as [Hnin Hnd].
  destruct (IH w1 Hnd Ho') as (w' & Hr & Hin & Hout & Hl & Hk).
  exists w'. cbn [for_each]. rewrite (bind_Ok _ _ _ _ _ Hr1). split_and!; [done|..].
  - intros q [->|Hq]%elem_of_cons; [|by apply Hin]. rewrite Hout by done. by rewrite Hh1, lookup_delete_eq.
  - intros q Hq. rewrite not_elem_of_cons in Hq. destruct Hq as [Hne Hq].
    rewrite Hout, Hh1, lookup_delete_ne by done. done.
  - intros c. by rewrite Hl.
  - intros c k Hck. destruct (Hk c k Hck) as (Hnone & k1 & Hk1' & Hcur & Hlast).
    destruct (Hk1 c k1 Hk1') as ([Hnc Hnl] & k0 & Hk0 & Hcur0 & Hlast0). split.
    + intros q [->|Hq]%elem_of_cons; [|by apply Hnone]. split; intros E; [destruct Hcur|destruct Hlast]; congruence.
    + exists k0. split; [done|]. split; [destruct Hcur as [->| ->]|destruct Hlast as [->| ->]]; auto.
Qed.


(** ** Breakpoints *)

(** A breakpoint that was set is the one cleared: after
    [target_breakwatch_set] returned 0, [target_breakwatch_clear] of the same
    type, address and length hands the driver exactly the record its set
    routine filled in, and restores the list. *)
Theorem breakwatch_set_clear w p t h d1 type addr len bw
    (Hset : m_breakwatch_set t = Fdriver) (Hclear : m_breakwatch_clear t = Fdriver)
    (Hdrv : drv_breakwatch_set p {| bw_type := type; bw_addr := addr; bw_size := len; bw_reserved := [0; 0; 0; 0] |} w
      = Ok (0, bw) w)
    (Hkeep : bw_matches type addr len bw = true)
    (Halloc : MemManager_Alloc sizeof_breakwatch (dev w) = Ok (Some h) d1)
    (Hdrv2 : forall w', drv_breakwatch_clear p bw w' = Ok 0 w') :
  heap w !! p = Some t ->
  exists w1, target_breakwatch_set (Some p) type addr len w = Ok 0 w1 /\
    option_map bw_list (heap w1 !! p) = Some ((h, bw) :: bw_list t) /\
    exists w2, target_breakwatch_clear (Some p) type addr len w1 = Ok 0 w2 /\
    option_map bw_list (heap w2 !! p) = Some (bw_list t).
Proof.
  intros Hp. unfold target_breakwatch_set.
  rewrite (bind_Ok _ _ _ _ _ (deref_target_Ok _ _ _ Hp)), Hset. cbn [call].
  rewrite (bind_Ok _ _ _ _ _ Hdrv). cbn [Z.eqb].
  rewrite (bind_Ok _ _ w (Some h) (set_dev d1 w)) by (cbn; unfold lift; by rewrite Halloc).
  rewrite (bind_Ok _ _ _ _ _ (upd_target_Ok (set_dev d1 w) p t _ Hp)).
  eexists. split; [done|]. cbn [heap set_heap dev set_dev]. rewrite lookup_insert_eq. split; [done|].
  set (w1 := set_heap _ _).
  assert (Hp1 : heap w1 !! p = Some (set_bw_list ((h, bw) :: bw_list t) t)) by (cbn; apply lookup_insert_eq).
  unfold target_breakwatch_clear. rewrite (bind_Ok _ _ _ _ _ (deref_target_Ok _ _ _ Hp1)).
  cbn [bw_list set_bw_list set_parts bw_find]. rewrite Hkeep. change (m_breakwatch_clear _) with (m_breakwatch_clear t). rewrite Hclear. cbn [call].
  rewrite (bind_Ok _ _ _ _ _ (Hdrv2 _)). cbn [Z.eqb].
  rewrite (bind_Ok _ _ _ _ _ (upd_target_Ok w1 p _ _ Hp1)).
  destruct (free_framed (Some h) (set_heap (<[p:=set_bw_list (bw_list t) (set_bw_list ((h, bw) :: bw_list t) t)]> (heap w1)) w1))
    as (w2 & Hr2 & Hh2 & _).
  rewrite (bind_Ok _ _ _ _ _ Hr2). exists w2. split; [done|]. rewrite Hh2. cbn. by rewrite lookup_insert_eq.
Qed.

(** Clearing a breakpoint that was never set returns -1, calls no driver
    and changes nothing. *)
Theorem breakwatch_clear_unknown w p t type addr len :
  heap w !! p = Some t -> Forall (fun e => bw_matches type addr len e.2 = false) (bw_list t) ->
  target_breakwatch_clear (Some p) type addr len w = Ok (-1) w.
Proof.
  intros Hp Hnone. unfold target_breakwatch_clear. rewrite (bind_Ok _ _ _ _ _ (deref_target_Ok _ _ _ Hp)).
  assert (E : bw_find type addr len (bw_list t) = None).
  { induction Hnone as [|[h b] l Hb _ IH]; [done|]. cbn in *. by rewrite Hb, IH. }
  by rewrite E.
Qed.

(** ** The memory map *)

Fixpoint total (texts : list (list Z)) : Z :=
  match texts with [] => 0 | s :: l => zlen s + total l end.
Lemma total_nonneg texts : 0 <= total texts.
Proof. induction texts as [|s l IH]; cbn; [lia|]. pose proof (zlen_nonneg s). lia. Qed.
Lemma total_concat texts : total texts = zlen (concat texts).
Proof. induction texts as [|s l IH]; [done|]. cbn. by rewrite zlen_app, IH. Qed.

Lemma ztake_splice_app (tmp s r : list Z) i : 0 <= i <= zlen tmp ->
  ztake (i + zlen s) (splice tmp i (s ++ r)) = ztake i tmp ++ s.
Proof.
  intros Hi. unfold splice. rewrite <- app_assoc, app_assoc.
  assert (E : Z.to_nat (i + zlen s) = length (ztake i tmp ++ s)).
  { rewrite length_app. unfold ztake, zlen in *. rewrite length_take. lia. }
  unfold ztake at 1. rewrite E. apply take_app_length.
Qed.
Lemma print_all_fits texts : forall w tmp i len,
  0 <= i -> len <= zlen tmp -> i + total texts < len ->
  exists tmp', print_all texts tmp i len w = Ok (tmp', i + total texts) w /\ zlen tmp' = zlen tmp /\
    ztake (i + total texts) tmp' = ztake i tmp ++ concat texts.
Proof.
  induction texts as [|s texts IH]; intros w tmp i len Hi Hlen Hfit.
  { exists tmp. cbn in *. by rewrite Z.add_0_r, app_nil_r. }
  cbn in *. pose proof (total_nonneg texts). pose proof (zlen_nonneg s).
  rewrite (proj2 (Z.ltb_ge _ _)), (proj2 (Z.eqb_neq (len - i) 0)) by lia.
  assert (Hz : ztake (len - i - 1) s = s) by (unfold ztake; apply firstn_all2; unfold zlen in *; lia).
  rewrite Hz. unfold store_n. rewrite zlen_app. cbn [zlen length].
  assert (Hl1 : zlen (s ++ [0]) = zlen s + 1) by (rewrite zlen_app; done).
  rewrite (proj2 (Z.leb_le 0 i)), (proj2 (Z.leb_le _ _)) by (change (zlen [0]) with 1; lia).
  cbn [andb]. rewrite bind_ret.
  assert (Hsl : zlen (splice tmp i (s ++ [0])) = zlen tmp) by (apply zlen_splice; lia).
  destruct (IH w (splice tmp i (s ++ [0])) (i + zlen s) len) as (tmp' & Hr & Hl & Ht); [lia..|].
  exists tmp'. rewrite Hr. split; [by rewrite Z.add_assoc|]. split; [lia|].
  rewrite Z.add_assoc, Ht, app_assoc. f_equal. apply ztake_splice_app; lia.
Qed.

(** When the texts fit, [target_mem_map] writes their concatenation (the
    memory map document: every RAM and flash region once, in list order) at the
    start of the buffer and reports success. *)
Theorem mem_map_complete w p t tmp len :
  heap w !! p = Some t -> total (mem_map_texts t) + 2 <= len <= zlen tmp ->
  exists tmp', target_mem_map (Some p) tmp len w = Ok (tmp', true) w /\ zlen tmp' = zlen tmp /\
    ztake (total (mem_map_texts t)) tmp' = concat (mem_map_texts t).
Proof.
  intros Hp Hl. destruct (print_all_fits (mem_map_texts t) w tmp 0 len) as (tmp' & Hr & Hz & Ht); [lia..|].
  exists tmp'. unfold target_mem_map. rewrite (bind_Ok _ _ _ _ _ (deref_target_Ok _ _ _ Hp)), (bind_Ok _ _ _ _ _ Hr).
  split; [|split; [done|by rewrite Z.add_0_l in Ht]]. unfold ret. rewrite (proj2 (Z.ltb_ge _ _)) by lia. done.
Qed.

Lemma print_all_overruns texts : forall w tmp i len, 0 <= i -> 0 <= len <= zlen tmp -> texts <> [] ->
  len < i + total (removelast texts) -> exists w', print_all (D := D) texts tmp i len w = Fault OutOfBounds w'.
Proof.
  induction texts as [|s texts IH]; intros w tmp i len Hi Hlen Hne Hov; [done|]. cbn [print_all].
  destruct (len <? i) eqn:E; [by exists w|]. apply Z.ltb_ge in E.
  destruct texts as [|s2 texts]; [cbn in Hov; lia|].
  assert (Hov2 : len < (i + zlen s) + total (removelast (s2 :: texts))).
  { change (removelast (s :: s2 :: texts)) with (s :: removelast (s2 :: texts)) in Hov. cbn [total] in Hov. lia. }
  pose proof (zlen_nonneg s). destruct (len - i =? 0) eqn:E2.
  - rewrite bind_ret. apply IH; done || lia.
  - apply Z.eqb_neq in E2. set (k := ztake (len - i - 1) s ++ [0]).
    assert (Hk : zlen k <= len - i).
    { unfold k, ztake, zlen. rewrite length_app, length_take. cbn. lia. }
    unfold store_n. rewrite (proj2 (Z.leb_le 0 i)), (proj2 (Z.leb_le _ _)) by lia. cbn [andb]. rewrite bind_ret.
    apply IH; try (done || lia). rewrite zlen_splice by lia. lia.
Qed.

(** When the map does not fit, [target_mem_map] goes out of bounds: once
    the texts before the last one are longer than the buffer, the unsigned
    [len - i] wraps and the next [snprintf] writes beyond the buffer. *)
Theorem mem_map_overflow w p t tmp len :
  heap w !! p = Some t -> 0 <= len <= zlen tmp -> len < total (removelast (mem_map_texts t)) ->
  exists w', target_mem_map (Some p) tmp len w = Fault OutOfBounds w'.
Proof.
  intros Hp Hl Hov. destruct (print_all_overruns (mem_map_texts t) w tmp 0 len) as (w' & Hr); [lia|lia|done|lia|].
  exists w'. unfold target_mem_map. rewrite (bind_Ok _ _ _ _ _ (deref_target_Ok _ _ _ Hp)). unfold bind. by rewrite Hr.
Qed.

(** ** The command line *)

(** 81 bytes, the one before the last being NUL. *)
Definition cmdline_ok (t : target) : Prop := zlen (cmdline t) = MAX_CMDLINE /\ zget (cmdline t) 79 = 0.

Lemma cstr_nonzero s : Forall (fun c => c <> 0) (cstr s).
Proof. induction s as [|c s IH]; cbn; [done|]. destruct (c =? 0) eqn:E; constructor; [lia|done]. Qed.
Lemma insert_app_mid {A} (l k : list A) a b : <[length l := b]> (l ++ a :: k) = l ++ b :: k.
Proof. rewrite insert_app_r_alt by lia. by rewrite Nat.sub_diag. Qed.

(** [target_set_cmdline] never leaves its array, keeps it terminated, and
    stores the first 79 characters of the string. *)
Theorem set_cmdline_bounded w p t cl :
  heap w !! p = Some t -> cmdline_ok t ->
  exists t', target_set_cmdline (Some p) cl w = Ok tt (set_heap (<[p := t']> (heap w)) w) /\
    cmdline_ok t' /\ cstr (cmdline t') = ztake 79 (cstr cl).
Proof.
  intros Hp [Hlen H79]. unfold target_set_cmdline. rewrite (bind_Ok _ _ _ _ _ (deref_target_Ok _ _ _ Hp)).
  change (MAX_CMDLINE - 1 - 1) with 79. unfold MAX_CMDLINE in *. cbv zeta. set (c := ztake 79 (cstr cl)).
  assert (Hc : zlen c <= 79) by (unfold c, ztake, zlen; rewrite length_take; lia). pose proof (zlen_nonneg c).
  assert (Hnz : Forall (fun c => c <> 0) c) by apply Forall_take, cstr_nonzero.
  assert (Hsrc : zlen (c ++ memset (79 - zlen c) 0) = 79) by (rewrite zlen_app, zlen_memset by lia; lia).
  assert (Hsp : exists r, splice (cmdline t) 0 (c ++ memset (79 - zlen c) 0) = c ++ 0 :: r).
  { unfold splice. rewrite Hsrc. change (ztake 0 (cmdline t)) with (@nil Z). cbn [app]. rewrite <- app_assoc.
    assert (Hd : zdrop (0 + 79) (cmdline t) = 0 :: zdrop 80 (cmdline t)).
    { unfold zdrop. change (Z.to_nat (0 + 79)) with 79%nat. change (Z.to_nat 80) with 80%nat.
      rewrite (drop_S _ 0 79); [done|]. change 79%nat with (Z.to_nat 79). by rewrite zget_lookup, H79 by lia. }
    rewrite Hd. destruct (Z.eq_dec (zlen c) 79) as [E|E].
    - rewrite E. change (memset (79 - 79) 0) with (@nil Z). by eexists.
    - exists (memset (78 - zlen c) 0 ++ 0 :: zdrop 80 (cmdline t)). f_equal. unfold memset.
      replace (Z.to_nat (79 - zlen c)) with (S (Z.to_nat (78 - zlen c))) by lia. done. }
  unfold store_n. rewrite Hsrc. rewrite (proj2 (Z.leb_le _ (zlen (cmdline t)))) by lia. cbn [Z.leb Z.compare andb].
  rewrite bind_ret.
  assert (Hz : zlen (splice (cmdline t) 0 (c ++ memset (79 - zlen c) 0)) = 81) by (rewrite zlen_splice; lia).
  assert (H79' : zget (splice (cmdline t) 0 (c ++ memset (79 - zlen c) 0)) 79 = 0).
  { rewrite zget_splice by lia. rewrite Hsrc. exact H79. }
  destruct Hsp as [r Hsp]. rewrite Hsp in *. rewrite cstr_app_nul by done.
  unfold store. rewrite (proj2 (Z.leb_le 0 _)), (proj2 (Z.ltb_lt _ _)) by lia. cbn [andb]. rewrite bind_ret.
  assert (E : <[Z.to_nat (zlen c) := 0]> (c ++ 0 :: r) = c ++ 0 :: r).
  { unfold zlen. rewrite Nat2Z.id. apply insert_app_mid. }
  rewrite E, (upd_target_Ok _ _ _ _ Hp). eexists. split; [done|]. split; [done|]. cbn. by apply cstr_app_nul.
Qed.
End Lists.

(** ** Concrete targets *)
Module TargetSim.
Import FlashSim.
#[global] Instance sim_free : FreeOk (Z -> Z).
Proof. constructor; [intros q d; by exists d|intros p w; exists w; split; [reflexivity|done]]. Defined.

Definition ctl : controller :=
  {| has_destroy_callback := true; has_printf := true; h_open := false; h_close := false; h_read := false;
     h_write := false; h_lseek := false; h_rename := false; h_unlink := false; h_stat := false; h_fstat := false;
     h_gettimeofday := false; h_isatty := false; h_system := false; errno_ := 0; interrupted := false;
     cur_target := Some 5%positive; last_target := Some 5%positive; target_list := [5%positive];
     flash_mode := false; connect_assert_srst := false; cortexm_wait_timeout := 2000; running_status := false; has_platform := true |}.
Definition t5 : target := set_conn true (Some 0%nat) blank.
Definition w5 : world (Z -> Z) :=
  {| heap := {[ 5%positive := t5 ]}; ctls := {[ 0%nat := ctl ]}; pbuf := []; debug_bmp := false; dev := fun _ => 255 |}.
Definition bw0 : breakwatch := {| bw_type := 1; bw_addr := 4096; bw_size := 2; bw_reserved := [0; 0; 0; 0] |}.
(** A target with breakpoint methods. *)
Definition t6 : target :=
  {| attached := true; t_tc := None; m_attach := FNULL; m_detach := FNULL; m_check_error := FNULL;
     m_mem_read := FNULL; m_mem_write := FNULL; regs_size := 0; tdesc := None;
     m_regs_read := FNULL; m_regs_write := FNULL; m_reg_read := FNULL; m_reg_write := FNULL;
     m_reset := FNULL; m_halt_request := FNULL; m_halt_poll := FNULL; m_halt_resume := FNULL;
     m_breakwatch_set := Fdriver; m_breakwatch_clear := Fdriver; bw_list := [];
     t_designer := 0; idcode := 0; target_storage := None; ram := []; flash := [];
     driver := None; core := None; cpuid := 0; cmdline := memset 81 0; heapinfo := memset 4 0;
     commands := []; priv := None; m_extended_reset := FNULL; target_options := 0; unsafe_enabled := false |}.
Definition w6 : world (Z -> Z) :=
  {| heap := {[ 5%positive := t6 ]}; ctls := empty; pbuf := []; debug_bmp := false; dev := fun _ => 255 |}.
End TargetSim.


Lemma breakwatch_set_clear_witness : exists w1,
  target_breakwatch_set (Some 5%positive) 1 4096 2 TargetSim.w6 = Ok 0 w1 /\
  option_map bw_list (heap w1 !! 5%positive) = Some [(7%positive, TargetSim.bw0)] /\
  exists w2, target_breakwatch_clear (Some 5%positive) 1 4096 2 w1 = Ok 0 w2 /\
  option_map bw_list (heap w2 !! 5%positive) = Some [].
Proof.
  apply (breakwatch_set_clear TargetSim.w6 5 TargetSim.t6 7 (fun _ => 255) 1 4096 2 TargetSim.bw0); reflexivity.
Defined.

Lemma breakwatch_clear_unknown_witness :
  target_breakwatch_clear (Some 5%positive) 1 4096 2 TargetSim.w6 = Ok (-1) TargetSim.w6.
Proof. apply (breakwatch_clear_unknown TargetSim.w6 5 TargetSim.t6); [reflexivity|constructor]. Defined.

Lemma mem_map_complete_witness : exists tmp',
  target_mem_map (Some 5%positive) (memset 1024 0) 1024 TargetSim.w5 = Ok (tmp', true) TargetSim.w5 /\
  zlen tmp' = zlen (memset 1024 0) /\
  ztake (total (mem_map_texts TargetSim.t5)) tmp' = concat (mem_map_texts TargetSim.t5).
Proof.
  apply (mem_map_complete TargetSim.w5 5 TargetSim.t5); [reflexivity|].
  split; apply Z.leb_le; vm_compute; reflexivity.
Defined.

Lemma mem_map_overflow_witness : exists w',
  target_mem_map (Some 5%positive) (memset 64 0) 64 TargetSim.w5 = Fault OutOfBounds w'.
Proof.
  apply (mem_map_overflow TargetSim.w5 5 TargetSim.t5);
    [reflexivity|split; apply Z.leb_le; vm_compute; reflexivity|apply Z.ltb_lt; vm_compute; reflexivity].
Defined.

Lemma set_cmdline_bounded_witness : exists t',
  target_set_cmdline (Some 5%positive) (str "run") TargetSim.w5
    = Ok tt (set_heap (<[5%positive := t']> (heap TargetSim.w5)) TargetSim.w5) /\
  cmdline_ok t' /\ cstr (cmdline t') = ztake 79 (cstr (str "run")).
Proof. apply (set_cmdline_bounded TargetSim.w5 5 TargetSim.t5); [reflexivity|split; vm_compute; reflexivity]. Defined.
