(* ===== verification/Platform.v ===== *)
(** What the platform gives the protocol code: the millisecond clock and
    timing.c's timeouts. *)

From Stdlib Require Import ZArith Lia.
From stdpp Require Import base list numbers option gmap.
From S2P Require Import Prelude TargetState.

Class ClockIf (W : Type) := {
  platform_time_ms : M W Z;
  platform_delay : Z -> M W unit;
}.
#[global] Instance world_clock {D} `{ClockIf D} : ClockIf (world D) := {
  platform_time_ms := lift platform_time_ms;
  platform_delay n := lift (platform_delay n);
}.

(** timing.c: a timeout is the time it ends at. *)
Definition platform_timeout_set {W} `{ClockIf W} (ms : Z) : M W Z :=
  let! now := platform_time_ms in ret (u32 (now + ms)).
Definition platform_timeout_is_expired {W} `{ClockIf W} (time : Z) : M W bool :=
  let! now := platform_time_ms in ret (time <? now).
