(* ===== verification/Crc32.v ===== *)
(** crc32.c, the version for probes without a CRC unit: the table-driven CRC-32
    (polynomial 0x04C11DB7) over target memory, read in chunks of 128 bytes. *)

From Stdlib Require Import ZArith Lia String.
From stdpp Require Import base list numbers option gmap.
From S2P Require Import Prelude CLib GdbIf MemManager GdbPacket TargetState Target TargetProps Platform.

Definition crc32_table : list Z := [
  0x00000000; 0x04c11db7; 0x09823b6e; 0x0d4326d9; 0x130476dc; 0x17c56b6b; 0x1a864db2; 0x1e475005;
  0x2608edb8; 0x22c9f00f; 0x2f8ad6d6; 0x2b4bcb61; 0x350c9b64; 0x31cd86d3; 0x3c8ea00a; 0x384fbdbd;
  0x4c11db70; 0x48d0c6c7; 0x4593e01e; 0x4152fda9; 0x5f15adac; 0x5bd4b01b; 0x569796c2; 0x52568b75;
  0x6a1936c8; 0x6ed82b7f; 0x639b0da6; 0x675a1011; 0x791d4014; 0x7ddc5da3; 0x709f7b7a; 0x745e66cd;
  0x9823b6e0; 0x9ce2ab57; 0x91a18d8e; 0x95609039; 0x8b27c03c; 0x8fe6dd8b; 0x82a5fb52; 0x8664e6e5;
  0xbe2b5b58; 0xbaea46ef; 0xb7a96036; 0xb3687d81; 0xad2f2d84; 0xa9ee3033; 0xa4ad16ea; 0xa06c0b5d;
  0xd4326d90; 0xd0f37027; 0xddb056fe; 0xd9714b49; 0xc7361b4c; 0xc3f706fb; 0xceb42022; 0xca753d95;
  0xf23a8028; 0xf6fb9d9f; 0xfbb8bb46; 0xff79a6f1; 0xe13ef6f4; 0xe5ffeb43; 0xe8bccd9a; 0xec7dd02d;
  0x34867077; 0x30476dc0; 0x3d044b19; 0x39c556ae; 0x278206ab; 0x23431b1c; 0x2e003dc5; 0x2ac12072;
  0x128e9dcf; 0x164f8078; 0x1b0ca6a1; 0x1fcdbb16; 0x018aeb13; 0x054bf6a4; 0x0808d07d; 0x0cc9cdca;
  0x7897ab07; 0x7c56b6b0; 0x71159069; 0x75d48dde; 0x6b93dddb; 0x6f52c06c; 0x6211e6b5; 0x66d0fb02;
  0x5e9f46bf; 0x5a5e5b08; 0x571d7dd1; 0x53dc6066; 0x4d9b3063; 0x495a2dd4; 0x44190b0d; 0x40d816ba;
  0xaca5c697; 0xa864db20; 0xa527fdf9; 0xa1e6e04e; 0xbfa1b04b; 0xbb60adfc; 0xb6238b25; 0xb2e29692;
  0x8aad2b2f; 0x8e6c3698; 0x832f1041; 0x87ee0df6; 0x99a95df3; 0x9d684044; 0x902b669d; 0x94ea7b2a;
  0xe0b41de7; 0xe4750050; 0xe9362689; 0xedf73b3e; 0xf3b06b3b; 0xf771768c; 0xfa325055; 0xfef34de2;
  0xc6bcf05f; 0xc27dede8; 0xcf3ecb31; 0xcbffd686; 0xd5b88683; 0xd1799b34; 0xdc3abded; 0xd8fba05a;
  0x690ce0ee; 0x6dcdfd59; 0x608edb80; 0x644fc637; 0x7a089632; 0x7ec98b85; 0x738aad5c; 0x774bb0eb;
  0x4f040d56; 0x4bc510e1; 0x46863638; 0x42472b8f; 0x5c007b8a; 0x58c1663d; 0x558240e4; 0x51435d53;
  0x251d3b9e; 0x21dc2629; 0x2c9f00f0; 0x285e1d47; 0x36194d42; 0x32d850f5; 0x3f9b762c; 0x3b5a6b9b;
  0x0315d626; 0x07d4cb91; 0x0a97ed48; 0x0e56f0ff; 0x1011a0fa; 0x14d0bd4d; 0x19939b94; 0x1d528623;
  0xf12f560e; 0xf5ee4bb9; 0xf8ad6d60; 0xfc6c70d7; 0xe22b20d2; 0xe6ea3d65; 0xeba91bbc; 0xef68060b;
  0xd727bbb6; 0xd3e6a601; 0xdea580d8; 0xda649d6f; 0xc423cd6a; 0xc0e2d0dd; 0xcda1f604; 0xc960ebb3;
  0xbd3e8d7e; 0xb9ff90c9; 0xb4bcb610; 0xb07daba7; 0xae3afba2; 0xaafbe615; 0xa7b8c0cc; 0xa379dd7b;
  0x9b3660c6; 0x9ff77d71; 0x92b45ba8; 0x9675461f; 0x8832161a; 0x8cf30bad; 0x81b02d74; 0x857130c3;
  0x5d8a9099; 0x594b8d2e; 0x5408abf7; 0x50c9b640; 0x4e8ee645; 0x4a4ffbf2; 0x470cdd2b; 0x43cdc09c;
  0x7b827d21; 0x7f436096; 0x7200464f; 0x76c15bf8; 0x68860bfd; 0x6c47164a; 0x61043093; 0x65c52d24;
  0x119b4be9; 0x155a565e; 0x18197087; 0x1cd86d30; 0x029f3d35; 0x065e2082; 0x0b1d065b; 0x0fdc1bec;
  0x3793a651; 0x3352bbe6; 0x3e119d3f; 0x3ad08088; 0x2497d08d; 0x2056cd3a; 0x2d15ebe3; 0x29d4f654;
  0xc5a92679; 0xc1683bce; 0xcc2b1d17; 0xc8ea00a0; 0xd6ad50a5; 0xd26c4d12; 0xdf2f6bcb; 0xdbee767c;
  0xe3a1cbc1; 0xe760d676; 0xea23f0af; 0xeee2ed18; 0xf0a5bd1d; 0xf464a0aa; 0xf9278673; 0xfde69bc4;
  0x89b8fd09; 0x8d79e0be; 0x803ac667; 0x84fbdbd0; 0x9abc8bd5; 0x9e7d9662; 0x933eb0bb; 0x97ffad0c;
  0xafb010b1; 0xab710d06; 0xa6322bdf; 0xa2f33668; 0xbcb4666d; 0xb8757bda; 0xb5365d03; 0xb1f740b4].

Definition crc32_calc (crc data : Z) : Z :=
  Z.lxor (u32 (Z.shiftl crc 8)) (zget crc32_table (Z.land (Z.lxor (Z.shiftr crc 24) data) 255)).

Section Generic.
Context {D : Type} `{GdbIf D} `{MemIf D} `{Driver D} `{ClockIf D}.
Notation MW := (M (world D)).

(** One round of the [while (len)] loop; it ends with the result code and
    [*crc_res]. *)
Definition crc32_body (t : option positive) (st : Z * Z * Z * Z) : MW (Z * Z * Z * Z + Z * option Z) :=
  let '(base, len, crc, last_time) := st in
  if len =? 0 then ret (inr (0, Some crc)) else
  let! actual_time := platform_time_ms in
  let! last_time :=
    if u32 (last_time + 1000) <? actual_time
    then do! gdb_if_putchar 0 true in ret actual_time
    else ret last_time in
  let read_len := Z.min 128 len in
  let! (bytes, err) := target_mem_read t base read_len in
  if err : bool then ret (inr (-1, None)) else
  let! bytes := load_n bytes 0 read_len in
  ret (inl (u32 (base + read_len), len - read_len, fold_left crc32_calc bytes crc, last_time)).
(** The result code and, when it is 0, the CRC stored through the pointer. *)
Definition generic_crc32 (t : option positive) (base len : Z) : MW (Z * option Z) :=
  let! start_time := platform_time_ms in
  iter (S (Z.to_nat len)) (crc32_body t) (base, len, 4294967295, start_time).
End Generic.

(** ** Reference: the CRC bit by bit, as the other branch of the source
    computes it for the bytes its CRC unit does not take *)
Definition crc_step (crc : Z) : Z :=
  if Z.testbit crc 31 then Z.lxor (u32 (Z.shiftl crc 1)) 0x4c11db7 else u32 (Z.shiftl crc 1).
Definition crc_bits (crc data : Z) : Z :=
  Nat.iter 8 crc_step (Z.lxor crc (Z.shiftl data 24)).

Lemma u32_lxor a b : u32 (Z.lxor a b) = Z.lxor (u32 a) (u32 b).
Proof.
  unfold u32, wrap. rewrite <- !Z.land_ones by lia. apply Z.bits_inj'. intros n Hn.
  rewrite !Z.lxor_spec, !Z.land_spec, Z.lxor_spec. by destruct (Z.testbit (Z.ones 32) n), (Z.testbit a n), (Z.testbit b n).
Qed.
Lemma crc_step_lxor a b : crc_step (Z.lxor a b) = Z.lxor (crc_step a) (crc_step b).
Proof.
  unfold crc_step. rewrite Z.lxor_spec, Z.shiftl_lxor, u32_lxor.
  set (p := 0x4c11db7). set (x := u32 _). set (y := u32 _).
  destruct (Z.testbit a 31), (Z.testbit b 31); cbn [xorb]; try done.
  - by rewrite Z.lxor_assoc, (Z.lxor_comm y), <- (Z.lxor_assoc p p), Z.lxor_nilpotent, Z.lxor_0_l.
  - by rewrite !Z.lxor_assoc, (Z.lxor_comm y).
  - by rewrite Z.lxor_assoc.
Qed.
Lemma crc_steps_lxor n a b : Nat.iter n crc_step (Z.lxor a b) = Z.lxor (Nat.iter n crc_step a) (Nat.iter n crc_step b).
Proof. induction n as [|n IH]; [done|]. by rewrite !Nat.iter_succ, IH, crc_step_lxor. Qed.
(** A word whose top bits are clear is only shifted. *)
Lemma crc_steps_low n x : (n <= 32)%nat -> 0 <= x < 2 ^ (32 - Z.of_nat n) ->
  Nat.iter n crc_step x = Z.shiftl x (Z.of_nat n).
Proof.
  induction n as [|n IH]; intros Hn Hx; [by rewrite Z.shiftl_0_r|].
  assert (H2 : 2 ^ (32 - Z.of_nat n) = 2 * 2 ^ (32 - Z.of_nat (S n))).
  { rewrite <- Z.pow_succ_r by lia. f_equal. lia. }
  rewrite Nat.iter_succ, IH by lia.
  assert (Hr : 0 <= Z.shiftl x (Z.of_nat n) < 2 ^ 31).
  { rewrite Z.shiftl_mul_pow2 by lia.
    assert (E : 2 ^ 31 = 2 ^ (32 - Z.of_nat (S n)) * 2 ^ Z.of_nat n) by (rewrite <- Z.pow_add_r by lia; f_equal; lia).
    pose proof (Z.pow_pos_nonneg 2 (Z.of_nat n) ltac:(lia) ltac:(lia)) as Hp. rewrite E. split; [nia|].
    apply Z.mul_lt_mono_pos_r; lia. }
  unfold crc_step. rewrite (Z.bits_above_log2 (Z.shiftl x (Z.of_nat n)) 31).
  - rewrite Z.shiftl_shiftl by lia. rewrite <- Z.shiftl_shiftl by lia.
    rewrite u32_small.
    + rewrite Z.shiftl_shiftl by lia. f_equal. lia.
    + rewrite (Z.shiftl_mul_pow2 _ 1) by lia. lia.
  - lia.
  - destruct (Z.eq_dec (Z.shiftl x (Z.of_nat n)) 0) as [->|]; [done|]. apply Z.log2_lt_pow2; lia.
Qed.

(** The table holds the eight steps of each byte. *)
Lemma crc32_table_spec b : is_byte b ->
  zget crc32_table b = Nat.iter 8 crc_step (Z.shiftl b 24).
Proof.
  intros Hb. apply Z.eqb_eq.
  apply (all_bytes_spec (fun b => zget crc32_table b =? Nat.iter 8 crc_step (Z.shiftl b 24))); [|done].
  vm_compute. reflexivity.
Qed.

(** The table-driven step is the bit-by-bit division by 0x04C11DB7. *)
Lemma crc32_calc_bits_aux crc data : is_u32 crc -> is_byte data -> crc32_calc crc data = crc_bits crc data.
Proof.
  unfold in_width. intros Hc Hd. unfold crc32_calc, crc_bits.
  set (hi := Z.shiftr crc 24). set (lo := Z.land crc (Z.ones 24)).
  assert (Hhi : 0 <= hi < 256) by (unfold hi; rewrite Z.shiftr_div_pow2 by lia; split; [apply Z.div_pos; lia|apply Z.div_lt_upper_bound; lia]).
  assert (Hlo : 0 <= lo < 2 ^ 24) by (unfold lo; rewrite Z.land_ones by lia; apply Z.mod_pos_bound; lia).
  assert (Hidx : is_byte (Z.lxor hi data)) by (apply in_width_lxor; done || lia).
  assert (E : Z.lxor crc (Z.shiftl data 24) = Z.lxor (Z.shiftl (Z.lxor hi data) 24) lo).
  { apply Z.bits_inj'. intros n Hn. unfold hi, lo.
    rewrite !Z.lxor_spec, !Z.shiftl_spec, Z.land_spec, Z.lxor_spec by lia.
    destruct (Z.lt_ge_cases n 24) as [Hlt|Hge].
    - rewrite !(Z.testbit_neg_r _ (n - 24)) by lia.
      rewrite Z.ones_spec_low, andb_true_r by lia. cbn. by destruct (Z.testbit crc n).
    - rewrite Z.shiftr_spec, Z.ones_spec_high by lia. replace (n - 24 + 24) with n by lia.
      rewrite andb_false_r. by destruct (Z.testbit crc n), (Z.testbit data (n - 24)). }
  rewrite E, crc_steps_lxor, (crc_steps_low 8 lo) by (cbn; lia).
  rewrite <- (crc32_table_spec (Z.lxor hi data)) by done.
  change 255 with (Z.ones 8). rewrite (Z.land_ones (Z.lxor hi data)) by lia.
  rewrite (Z.mod_small (Z.lxor hi data)) by (exact Hidx). rewrite Z.lxor_comm. f_equal.
  unfold u32, wrap, lo. rewrite <- Z.land_ones by lia. apply Z.bits_inj'. intros n Hn.
  rewrite Z.land_spec, !Z.shiftl_spec, Z.land_spec by lia. change (Z.of_nat 8) with 8.
  destruct (Z.lt_ge_cases n 8); [by rewrite (Z.testbit_neg_r crc) by lia|].
  destruct (Z.lt_ge_cases n 32).
  - by rewrite !Z.ones_spec_low by lia.
  - by rewrite !Z.ones_spec_high by lia.
Qed.

(** ** The whole CRC *)
Section Whole.
Context {D : Type} `{GdbIf D} `{MemIf D} `{Driver D} `{ClockIf D}.
Implicit Types w : world D.

(** The target memory, and a driver that reads it without error. *)
Variable mem : Z -> Z.
Hypothesis mem_bytes : forall a, is_byte (mem a).
Definition mem_range (a n : Z) : list Z := List.map (fun i => mem (a + i)) (seqZ 0 n).
Variables (p : positive) (t : target).
Hypothesis t_read : m_mem_read t = Fdriver.
Hypothesis t_check : m_check_error t = Fdriver.
Hypothesis drv_reads : forall w a n, heap w !! p = Some t -> 0 <= n <= 128 ->
  exists w', drv_mem_read p a n w = Ok (mem_range a n) w' /\ heap w' = heap w.
Hypothesis drv_no_error : forall w, heap w !! p = Some t ->
  exists w', drv_check_error p w = Ok false w' /\ heap w' = heap w.
(** The clock and the channel return. *)
Hypothesis clock_returns : forall d, exists n d', platform_time_ms (W := D) d = Ok n d'.
Hypothesis putchar_returns : forall d, exists d', gdb_if_putchar (W := D) 0 true d = Ok tt d'.

Lemma length_mem_range a n : 0 <= n -> zlen (mem_range a n) = n.
Proof. intros. unfold zlen, mem_range. rewrite length_map, length_seqZ. lia. Qed.
Lemma mem_range_split a n m : 0 <= n -> 0 <= m -> mem_range a (n + m) = mem_range a n ++ mem_range (a + n) m.
Proof.
  intros Hn Hm. unfold mem_range. rewrite seqZ_app by lia. rewrite map_app. f_equal.
  replace (seqZ (0 + n) m) with (List.map (Z.add n) (seqZ 0 m)).
  - rewrite map_map. apply map_ext. intros i. f_equal. lia.
  - change (List.map (Z.add n) (seqZ 0 m)) with (Z.add n <$> seqZ 0 m). rewrite fmap_add_seqZ. f_equal. lia.
Qed.

Lemma time_runs w : exists n w', platform_time_ms (W := world D) w = Ok n w' /\ heap w' = heap w.
Proof. destruct (clock_returns (dev w)) as (n & d & E). exists n, (set_dev d w). cbn. unfold lift. by rewrite E. Qed.
Lemma putchar_runs w : exists w', gdb_if_putchar (W := world D) 0 true w = Ok tt w' /\ heap w' = heap w.
Proof. destruct (putchar_returns (dev w)) as (d & E). exists (set_dev d w). cbn. unfold lift. by rewrite E. Qed.

Lemma mem_read_runs w a n : heap w !! p = Some t -> 0 <= n <= 128 ->
  exists w', target_mem_read (Some p) a n w = Ok (mem_range a n, false) w' /\ heap w' = heap w.
Proof.
  intros Hp Hn. unfold target_mem_read. rewrite (bind_Ok _ _ _ _ _ (deref_target_Ok _ _ _ Hp)), t_read. cbn [call].
  destruct (drv_reads w a n Hp Hn) as (w1 & Hr & Hh). rewrite (bind_Ok _ _ _ _ _ Hr).
  rewrite <- Hh in Hp. unfold target_check_error. rewrite bind_bind, (bind_Ok _ _ _ _ _ (load_target_Ok _ _ _ Hp)), t_check.
  cbn [call]. destruct (drv_no_error w1 Hp) as (w2 & Hr2 & Hh2). rewrite (bind_Ok _ _ _ _ _ Hr2).
  exists w2. split; [done|]. by rewrite Hh2.
Qed.

Lemma crc32_calc_u32 crc b : is_u32 crc -> is_byte b -> is_u32 (crc32_calc crc b).
Proof.
  intros Hc Hb. apply in_width_lxor; [lia|apply u32_range|].
  set (i := Z.land _ _). assert (Hi : is_byte i).
  { unfold i. change 255 with (Z.ones 8). rewrite Z.land_ones by lia. apply Z.mod_pos_bound. lia. }
  assert (E : forallb (fun b => (0 <=? zget crc32_table b) && (zget crc32_table b <? 2 ^ 32)) all_bytes = true)
    by (vm_compute; reflexivity).
  pose proof (all_bytes_spec (fun b => (0 <=? zget crc32_table b) && (zget crc32_table b <? 2 ^ 32)) i E Hi) as Hr.
  apply andb_true_iff in Hr as [? ?]. split; lia.
Qed.
Lemma mem_range_bytes a n : is_bytes (mem_range a n).
Proof. apply Forall_forall. intros x Hx. apply list_elem_of_In, in_map_iff in Hx as (i & <- & _). apply mem_bytes. Qed.
Lemma fold_calc_bits l : is_bytes l -> forall crc, is_u32 crc ->
  fold_left crc32_calc l crc = fold_left crc_bits l crc /\ is_u32 (fold_left crc32_calc l crc).
Proof.
  induction 1 as [|b l Hb _ IH]; intros crc Hc; [done|]. cbn.
  pose proof (crc32_calc_u32 _ _ Hc Hb) as Hc'. destruct (IH _ Hc') as [E Hr]. split; [|done].
  rewrite E. by rewrite crc32_calc_bits_aux.
Qed.

(** C35: [generic_crc32] of readable target memory returns 0 and the CRC of the
    whole range, bit-by-bit division by 0x04C11DB7 from all ones: reading in
    chunks of 128 bytes, the table, and the keep-alives do not change it. *)
Theorem generic_crc32_correct w base len :
  heap w !! p = Some t -> 0 <= base -> 0 <= len -> base + len < 2 ^ 32 ->
  exists w', generic_crc32 (Some p) base len w
    = Ok (0, Some (fold_left crc_bits (mem_range base len) 4294967295)) w'.
Proof.
  intros Hp Hb Hl Hbl. unfold generic_crc32.
  destruct (time_runs w) as (now & w1 & Hr & Hh). rewrite (bind_Ok _ _ _ _ _ Hr). rewrite <- Hh in Hp. clear Hr Hh.
  destruct (iter_total (crc32_body (Some p))
    (fun '(a, n, crc, _) w => heap w !! p = Some t /\ 0 <= n /\ base <= a /\ a + n = base + len /\ is_u32 crc /\
       crc = fold_left crc_bits (mem_range base (a - base)) 4294967295)
    (fun r _ => r = (0, Some (fold_left crc_bits (mem_range base len) 4294967295)))
    (fun '(_, n, _, _) _ => Z.to_nat n)) with (n := S (Z.to_nat len)) (s := (base, len, 4294967295, now)) (w := w1)
    as (r & w' & Hrun & ->); [| |lia|by exists w'].
  2: { rewrite Z.sub_diag. split_and!; done || lia. }
  intros [[[a n] crc] last] w0 (Hp0 & Hn & Ha & Hs & Hc & Ec). unfold crc32_body.
  destruct (n =? 0) eqn:En.
  { apply Z.eqb_eq in En. exists (inr (0, Some crc)), w0. split; [done|]. rewrite Ec. repeat f_equal. lia. }
  apply Z.eqb_neq in En. destruct (time_runs w0) as (tm & w2 & Hr & Hh). rewrite (bind_Ok _ _ _ _ _ Hr).
  rewrite <- Hh in Hp0. clear Hr Hh.
  assert (exists last' w3, (if u32 (last + 1000) <? tm then do! gdb_if_putchar 0 true in ret tm else ret last) w2 = Ok last' w3
    /\ heap w3 = heap w2) as (last' & w3 & Hr & Hh).
  { case_match; [|by exists last, w2]. destruct (putchar_runs w2) as (w3 & Hr & Hh).
    exists tm, w3. by rewrite (bind_Ok _ _ _ _ _ Hr). }
  rewrite (bind_Ok _ _ _ _ _ Hr). rewrite <- Hh in Hp0. clear Hr Hh. set (k := Z.min 128 n).
  destruct (mem_read_runs w3 a k Hp0 ltac:(lia)) as (w4 & Hr & Hh). rewrite (bind_Ok _ _ _ _ _ Hr).
  pose proof (length_mem_range a k ltac:(lia)) as Hlk.
  unfold load_n. rewrite (proj2 (Z.leb_le 0 k)), (proj2 (Z.leb_le (0 + k) _)) by lia. cbn [Z.leb Z.compare andb].
  rewrite bind_ret. change (zdrop 0 (mem_range a k)) with (mem_range a k).
  assert (Ht : ztake k (mem_range a k) = mem_range a k).
  { rewrite <- Hlk at 1. unfold ztake, zlen. rewrite Nat2Z.id. apply firstn_all. }
  rewrite Ht. eexists (inl _), w4. split; [done|]. cbn.
  destruct (fold_calc_bits _ (mem_range_bytes a k) crc Hc) as [Ef Hf].
  rewrite (u32_small (a + k)) by lia. split; [|lia]. split_and!; try (done || lia).
  - by rewrite Hh.
  - replace (a + k - base) with ((a - base) + k) by lia. rewrite mem_range_split, fold_left_app, <- Ec by lia.
    replace (base + (a - base)) with a by lia. done.
Qed.
End Whole.

(** ** A memory the theorem can be tried on *)
Module CrcSim.
Definition noop {A} (a : A) : M (world unit) A := ret a.
Definition mem (a : Z) : Z := a mod 251.
Lemma mem_ok a : is_byte (mem a).
Proof. unfold mem, in_width. pose proof (Z.mod_pos_bound a 251). lia. Qed.
#[global] Instance sim_if : GdbIf unit := {
  gdb_if_getchar := ret 0; gdb_if_getchar_to _ := ret (-1); gdb_if_putchar _ _ := ret tt;
}.
#[global] Instance sim_clock : ClockIf unit := { platform_time_ms := ret 0; platform_delay _ := ret tt }.
#[global] Instance sim_driver : Driver unit := {
  drv_attach _ := noop true; drv_detach _ := noop tt; drv_check_error _ := noop false;
  drv_mem_read _ a n := noop (mem_range mem a n); drv_mem_write _ _ _ := noop tt; drv_regs_read _ := noop [];
  drv_regs_write _ _ := noop tt; drv_reg_read _ _ _ := noop (0, []); drv_reg_write _ _ _ := noop 0;
  drv_reset _ := noop tt; drv_halt_request _ := noop tt; drv_halt_poll _ := noop (TARGET_HALT_RUNNING, 0);
  drv_halt_resume _ _ := noop tt; drv_breakwatch_set _ b := noop (0, b); drv_breakwatch_clear _ _ := noop 0;
  drv_priv_free _ := noop tt; drv_command _ _ _ := noop true;
  drv_flash_erase _ _ _ _ := noop 0; drv_flash_write _ _ _ _ := noop 0; drv_flash_done _ _ := noop 0;
}.
(** A target that can be read. *)
Definition readable : target :=
  {| attached := true; t_tc := None; m_attach := Fdriver; m_detach := Fdriver; m_check_error := Fdriver;
     m_mem_read := Fdriver; m_mem_write := Fdriver; regs_size := 0; tdesc := None;
     m_regs_read := FNULL; m_regs_write := FNULL; m_reg_read := FNULL; m_reg_write := FNULL;
     m_reset := FNULL; m_halt_request := FNULL; m_halt_poll := FNULL; m_halt_resume := FNULL;
     m_breakwatch_set := FNULL; m_breakwatch_clear := FNULL; bw_list := [];
     t_designer := 0; idcode := 0; target_storage := None; ram := []; flash := [];
     driver := None; core := None; cpuid := 0; cmdline := memset 81 0; heapinfo := memset 4 0;
     commands := []; priv := None; m_extended_reset := FNULL; target_options := 0; unsafe_enabled := false |}.
Definition w0 : world unit := {| heap := {[ 5%positive := readable ]}; ctls := empty; pbuf := []; debug_bmp := false; dev := tt |}.
(** The CRC-32/MPEG-2 check value. *)
Example check_value : fold_left crc_bits (str "123456789") 4294967295 = 0x0376e6e7.
Proof. vm_compute. reflexivity. Qed.
End CrcSim.

Lemma generic_crc32_correct_witness : exists w',
  generic_crc32 (Some 5%positive) 536870912 200 CrcSim.w0
    = Ok (0, Some (fold_left crc_bits (mem_range CrcSim.mem 536870912 200) 4294967295)) w'.
Proof.
  apply (generic_crc32_correct CrcSim.mem CrcSim.mem_ok 5 CrcSim.readable);
    [reflexivity|reflexivity| | | | |reflexivity|lia|lia|lia].
  - intros w a n Hp Hn. exists w. split; reflexivity.
  - intros w Hp. exists w. split; reflexivity.
  - intros d. exists 0, d. reflexivity.
  - intros d. exists d. reflexivity.
Defined.
