(* ===== verification/Eeprom.v ===== *)
(** eeprom.c: reading and writing the configuration EEPROM over I2C, the I2C
    driver of the microcontroller's SDK being a parameter. *)

From Stdlib Require Import ZArith Lia.
From stdpp Require Import base list numbers option.
From S2P Require Import Prelude CLib.

Definition EEPROM_ADDR_START : Z := 0.
Definition EEPROM_ADDR_MAC : Z := 250.
Definition EEPROM_LAST_ADDR : Z := EEPROM_ADDR_MAC.
Definition EEPROM_WR_DELAY : Z := 5.
Definition EEPROM_WR_ATTEMPTS : Z := 100.
Definition EEPROM_MAX_WRITE_SIZE : Z := 8.
Definition EEPROM_PIN_SDA : Z := 6.
Definition EEPROM_PIN_SCL : Z := 7.
Definition EEPROM_I2C_BAUD : Z := 20000.

(** The SDK's I2C functions on the EEPROM's bus and address: the result is the
    number of bytes, or negative when the device did not answer. *)
Class I2cIf (W : Type) := {
  i2c_init : Z -> M W unit;
  gpio_set_function_i2c : Z -> M W unit;
  i2c_write_blocking : list Z -> bool -> M W Z;         (* bytes, nostop *)
  i2c_read_blocking : Z -> bool -> M W (Z * list Z);    (* length, nostop: result, bytes stored *)
  busy_wait_ms : Z -> M W unit;
}.

(** What device_config.c uses of the EEPROM. *)
Class EepromIf (W : Type) := {
  eeprom_init : M W unit;
  eeprom_read : Z -> Z -> M W (Z * list Z);             (* address, length: result, bytes stored *)
  eeprom_write : Z -> list Z -> Z -> M W Z;             (* address, the object at pData, length *)
}.

Section Eeprom.
Context {W : Type} `{I2cIf W}.

Definition do_eeprom_init : M W unit :=
  do! i2c_init EEPROM_I2C_BAUD in
  do! gpio_set_function_i2c EEPROM_PIN_SDA in
  gpio_set_function_i2c EEPROM_PIN_SCL.

Definition do_eeprom_read (address len : Z) : M W (Z * list Z) :=
  let! r := i2c_write_blocking [address] true in
  if r <? 0 then ret (-1, []) else
  let! (read_len, bytes) := i2c_read_blocking len false in
  if read_len <? 0 then ret (-1, bytes) else ret (read_len, bytes).

(** The retry loop: it ends with [attempt_count]. *)
Definition attempt_body (data : list Z) (attempt_count : Z) : M W (Z + Z) :=
  let! r := i2c_write_blocking data false in
  if (r <? 0) && (attempt_count <? EEPROM_WR_ATTEMPTS) then
    do! busy_wait_ms EEPROM_WR_DELAY in ret (inl (u8 (attempt_count + 1)))
  else ret (inr attempt_count).
Definition attempts (data : list Z) : M W Z :=
  iter (S (S (Z.to_nat EEPROM_WR_ATTEMPTS))) (attempt_body data) 0.

(** One transfer: the state is ([i], [data]). *)
Definition write_page (address : Z) (pData : list Z) (len : Z) (st : Z * list Z) : M W (Z * list Z + Z) :=
  let '(i, data) := st in
  if len <=? i then ret (inr len) else
  let write_size := if EEPROM_MAX_WRITE_SIZE <? len - i then EEPROM_MAX_WRITE_SIZE + 1 else len - i + 1 in
  let! data := store data 0 (u8 (address + i)) in
  let! src := load_n pData i write_size in
  let! data := store_n data 1 src in
  let! attempt_count := attempts (ztake write_size data) in
  if EEPROM_WR_ATTEMPTS <=? attempt_count then ret (inr (-1))
  else ret (inl (i + EEPROM_MAX_WRITE_SIZE, data)).
Definition do_eeprom_write (address : Z) (pData : list Z) (len : Z) : M W Z :=
  if (EEPROM_LAST_ADDR <? len) || (EEPROM_LAST_ADDR <? address + len) then ret (-1) else
  iter (S (Z.to_nat len)) (write_page address pData len) (0, memset (EEPROM_MAX_WRITE_SIZE + 1) 0).

(** Writing eight bytes or more copies one byte too many into the nine-byte
    transfer buffer, whatever the data: the run leaves the buffer before
    anything is sent. *)
Theorem eeprom_write_overrun address pData len w :
  0 <= address -> 8 <= len -> address + len <= EEPROM_LAST_ADDR ->
  do_eeprom_write address pData len w = Fault OutOfBounds w.
Proof.
  intros Ha Hl Hal. unfold EEPROM_LAST_ADDR, EEPROM_ADDR_MAC in *. unfold do_eeprom_write.
  unfold EEPROM_LAST_ADDR, EEPROM_ADDR_MAC. rewrite !(proj2 (Z.ltb_ge _ _)) by lia. cbn [orb].
  rewrite iter_S. unfold write_page at 1. rewrite (proj2 (Z.leb_gt _ _)) by lia.
  assert (Hws : (if EEPROM_MAX_WRITE_SIZE <? len - 0 then EEPROM_MAX_WRITE_SIZE + 1 else len - 0 + 1) = 9).
  { unfold EEPROM_MAX_WRITE_SIZE. destruct (8 <? len - 0) eqn:E; [done|]. apply Z.ltb_ge in E. lia. }
  rewrite Hws. rewrite bind_bind. unfold store, load_n.
  assert (Hm : zlen (memset (EEPROM_MAX_WRITE_SIZE + 1) 0) = 9) by reflexivity. rewrite Hm.
  cbn [Z.leb Z.ltb Z.compare andb]. rewrite bind_ret.
  destruct (0 + 9 <=? zlen pData) eqn:E; [|reflexivity]. apply Z.leb_le in E. rewrite bind_bind, bind_ret, bind_bind.
  unfold store_n. rewrite zlen_insert, Hm, zlen_ztake by (change (zdrop 0 pData) with pData; lia). reflexivity.
Qed.

(** The device refuses [n] transfers, then takes one. *)
Inductive refuses (data : list Z) : nat -> W -> W -> Prop :=
| takes w w' r : i2c_write_blocking data false w = Ok r w' -> 0 <= r -> refuses data 0 w w'
| refuse n w r w1 w2 w' : i2c_write_blocking data false w = Ok r w1 -> r < 0 ->
    busy_wait_ms EEPROM_WR_DELAY w1 = Ok tt w2 -> refuses data n w2 w' -> refuses data (S n) w w'.

Lemma attempts_run data n w w' : refuses data n w w' -> forall k fuel, (n < fuel)%nat -> 0 <= k ->
  k + Z.of_nat n <= EEPROM_WR_ATTEMPTS -> iter fuel (attempt_body data) k w = Ok (k + Z.of_nat n) w'.
Proof.
  unfold EEPROM_WR_ATTEMPTS. induction 1 as [w w' r Hr Hp|n w r w1 w2 w' Hr Hn Hb _ IH]; intros k [|fuel] Hf Hk Hb2; try lia.
  - rewrite iter_S. unfold attempt_body at 1. rewrite bind_bind, (bind_Ok _ _ _ _ _ Hr), (proj2 (Z.ltb_ge _ _)) by lia.
    cbn [andb]. rewrite bind_ret. unfold ret. f_equal. lia.
  - rewrite iter_S. unfold attempt_body at 1. rewrite bind_bind, (bind_Ok _ _ _ _ _ Hr), (proj2 (Z.ltb_lt _ _)) by lia.
    unfold EEPROM_WR_ATTEMPTS. rewrite (proj2 (Z.ltb_lt k 100)) by lia. cbn [andb].
    rewrite bind_bind, (bind_Ok _ _ _ _ _ Hb), bind_ret, u8_small by lia. rewrite IH by lia. f_equal. lia.
Qed.

(** A short write (fewer than eight bytes, with one more byte readable
    behind them) is one transfer, address first.  It succeeds when the device
    takes it after at most 99 refusals, and is reported as failed when the
    device takes it on the hundredth retry, although it did. *)
Theorem eeprom_write_short address pData len n w w' :
  0 <= address -> 0 < len < 8 -> address + len <= EEPROM_LAST_ADDR -> len < zlen pData ->
  refuses (address :: ztake len pData) n w w' -> Z.of_nat n <= EEPROM_WR_ATTEMPTS ->
  do_eeprom_write address pData len w = Ok (if Z.of_nat n <? EEPROM_WR_ATTEMPTS then len else -1) w'.
Proof.
  intros Ha Hl Hal Hp Href Hn. pose proof (attempts_run _ _ _ _ Href 0 102 ltac:(unfold EEPROM_WR_ATTEMPTS in *; lia) ltac:(lia) Hn) as Hatt.
  unfold EEPROM_LAST_ADDR, EEPROM_ADDR_MAC in *. unfold do_eeprom_write.
  unfold EEPROM_LAST_ADDR, EEPROM_ADDR_MAC. rewrite !(proj2 (Z.ltb_ge _ _)) by lia. cbn [orb].
  rewrite iter_S. unfold write_page at 1. rewrite (proj2 (Z.leb_gt len 0)) by lia.
  assert (Hws : (if EEPROM_MAX_WRITE_SIZE <? len - 0 then EEPROM_MAX_WRITE_SIZE + 1 else len - 0 + 1) = len + 1).
  { unfold EEPROM_MAX_WRITE_SIZE. rewrite (proj2 (Z.ltb_ge _ _)) by lia. lia. }
  rewrite Hws. rewrite bind_bind. unfold store. cbn [Z.leb Z.ltb Z.compare andb].
  assert (Hm : zlen (memset (EEPROM_MAX_WRITE_SIZE + 1) 0) = 9) by reflexivity. rewrite Hm. cbn [Z.ltb Z.compare]. rewrite bind_ret.
  unfold load_n. rewrite (proj2 (Z.leb_le 0 (len + 1))), (proj2 (Z.leb_le (0 + (len + 1)) _)) by lia. cbn [Z.leb Z.compare andb].
  rewrite bind_bind, bind_ret, bind_bind. change (zdrop 0 pData) with pData.
  unfold store_n. rewrite zlen_insert, Hm, zlen_ztake, (proj2 (Z.leb_le _ 9)) by lia. cbn [Z.leb Z.compare andb]. rewrite bind_ret.
  set (data := splice _ _ _).
  assert (E : ztake (len + 1) data = address :: ztake len pData).
  { unfold data. rewrite Z.add_0_r, u8_small by lia. unfold splice.
    rewrite zlen_ztake by lia. change (ztake 1 (<[Z.to_nat 0 := address]> (memset (EEPROM_MAX_WRITE_SIZE + 1) 0))) with [address].
    unfold ztake. replace (Z.to_nat (len + 1)) with (S (Z.to_nat len)) by lia. cbn [app take].
    f_equal. rewrite take_app_le by (rewrite length_take; unfold zlen in Hp; lia).
    rewrite take_take. f_equal. lia. }
  rewrite E. unfold attempts. rewrite bind_bind. rewrite (bind_Ok _ _ _ _ _ Hatt).
  unfold EEPROM_WR_ATTEMPTS in *. rewrite Z.add_0_l.
  destruct (Z.of_nat n <? 100) eqn:En.
  - rewrite (proj2 (Z.leb_gt 100 _)) by lia. rewrite bind_ret.
    destruct (Z.to_nat len) as [|f] eqn:Ef; [lia|]. rewrite iter_S. unfold write_page at 1.
    unfold EEPROM_MAX_WRITE_SIZE. rewrite (proj2 (Z.leb_le len _)) by lia. done.
  - rewrite (proj2 (Z.leb_le 100 _)) by lia. done.
Qed.
End Eeprom.

#[global] Instance i2c_eeprom {W} `{I2cIf W} : EepromIf W := {
  eeprom_init := do_eeprom_init;
  eeprom_read := do_eeprom_read;
  eeprom_write := do_eeprom_write;
}.

(** An EEPROM that is always ready, and its last transfer. *)
Module I2cSim.
#[global] Instance sim_i2c : I2cIf (list Z) := {
  i2c_init _ := ret tt; gpio_set_function_i2c _ := ret tt;
  i2c_write_blocking b _ := do! put b in ret (zlen b);
  i2c_read_blocking n _ := ret (n, memset n 255);
  busy_wait_ms _ := ret tt;
}.
(** A device that is busy for the number of transfers in its state. *)
#[global] Instance busy_i2c : I2cIf nat := {
  i2c_init _ := ret tt; gpio_set_function_i2c _ := ret tt;
  i2c_write_blocking b _ := let! n := get in match n with O => ret (zlen b) | S k => do! put k in ret (-2) end;
  i2c_read_blocking n _ := ret (n, memset n 255);
  busy_wait_ms _ := ret tt;
}.
End I2cSim.

Lemma eeprom_write_overrun_witness :
  do_eeprom_write 0 (memset 39 1) 33 ([] : list Z) = Fault OutOfBounds ([] : list Z).
Proof. apply eeprom_write_overrun; unfold EEPROM_LAST_ADDR, EEPROM_ADDR_MAC; lia. Defined.
Lemma eeprom_write_short_witness :
  do_eeprom_write 4 [1; 2; 3; 4] 3 2%nat = Ok (if 2 <? EEPROM_WR_ATTEMPTS then 3 else -1) 0%nat.
Proof.
  apply (eeprom_write_short 4 [1; 2; 3; 4] 3 2); unfold EEPROM_LAST_ADDR, EEPROM_ADDR_MAC, EEPROM_WR_ATTEMPTS;
    [lia|lia|lia|reflexivity| |lia].
  eapply refuse; [reflexivity|lia|reflexivity|]. eapply refuse; [reflexivity|lia|reflexivity|].
  eapply takes; [reflexivity|vm_compute; discriminate].
Defined.
