(* ===== verification/DeviceConfig.v ===== *)
(** device_config.c: the probe's configuration, kept in a packed structure, its
    CRC-16, and its copy in EEPROM. *)

From Stdlib Require Import ZArith Lia ZifyBool.
From stdpp Require Import base list numbers option.
From S2P Require Import Prelude CLib Eeprom.

(** ** CRC-16 *)
Definition crc_table : list Z := [
  0x0000; 0xc0c1; 0xc181; 0x0140; 0xc301; 0x03c0; 0x0280; 0xc241;
  0xc601; 0x06c0; 0x0780; 0xc741; 0x0500; 0xc5c1; 0xc481; 0x0440;
  0xcc01; 0x0cc0; 0x0d80; 0xcd41; 0x0f00; 0xcfc1; 0xce81; 0x0e40;
  0x0a00; 0xcac1; 0xcb81; 0x0b40; 0xc901; 0x09c0; 0x0880; 0xc841;
  0xd801; 0x18c0; 0x1980; 0xd941; 0x1b00; 0xdbc1; 0xda81; 0x1a40;
  0x1e00; 0xdec1; 0xdf81; 0x1f40; 0xdd01; 0x1dc0; 0x1c80; 0xdc41;
  0x1400; 0xd4c1; 0xd581; 0x1540; 0xd701; 0x17c0; 0x1680; 0xd641;
  0xd201; 0x12c0; 0x1380; 0xd341; 0x1100; 0xd1c1; 0xd081; 0x1040;
  0xf001; 0x30c0; 0x3180; 0xf141; 0x3300; 0xf3c1; 0xf281; 0x3240;
  0x3600; 0xf6c1; 0xf781; 0x3740; 0xf501; 0x35c0; 0x3480; 0xf441;
  0x3c00; 0xfcc1; 0xfd81; 0x3d40; 0xff01; 0x3fc0; 0x3e80; 0xfe41;
  0xfa01; 0x3ac0; 0x3b80; 0xfb41; 0x3900; 0xf9c1; 0xf881; 0x3840;
  0x2800; 0xe8c1; 0xe981; 0x2940; 0xeb01; 0x2bc0; 0x2a80; 0xea41;
  0xee01; 0x2ec0; 0x2f80; 0xef41; 0x2d00; 0xedc1; 0xec81; 0x2c40;
  0xe401; 0x24c0; 0x2580; 0xe541; 0x2700; 0xe7c1; 0xe681; 0x2640;
  0x2200; 0xe2c1; 0xe381; 0x2340; 0xe101; 0x21c0; 0x2080; 0xe041;
  0xa001; 0x60c0; 0x6180; 0xa141; 0x6300; 0xa3c1; 0xa281; 0x6240;
  0x6600; 0xa6c1; 0xa781; 0x6740; 0xa501; 0x65c0; 0x6480; 0xa441;
  0x6c00; 0xacc1; 0xad81; 0x6d40; 0xaf01; 0x6fc0; 0x6e80; 0xae41;
  0xaa01; 0x6ac0; 0x6b80; 0xab41; 0x6900; 0xa9c1; 0xa881; 0x6840;
  0x7800; 0xb8c1; 0xb981; 0x7940; 0xbb01; 0x7bc0; 0x7a80; 0xba41;
  0xbe01; 0x7ec0; 0x7f80; 0xbf41; 0x7d00; 0xbdc1; 0xbc81; 0x7c40;
  0xb401; 0x74c0; 0x7580; 0xb541; 0x7700; 0xb7c1; 0xb681; 0x7640;
  0x7200; 0xb2c1; 0xb381; 0x7340; 0xb101; 0x71c0; 0x7080; 0xb041;
  0x5000; 0x90c1; 0x9181; 0x5140; 0x9301; 0x53c0; 0x5280; 0x9241;
  0x9601; 0x56c0; 0x5780; 0x9741; 0x5500; 0x95c1; 0x9481; 0x5440;
  0x9c01; 0x5cc0; 0x5d80; 0x9d41; 0x5f00; 0x9fc1; 0x9e81; 0x5e40;
  0x5a00; 0x9ac1; 0x9b81; 0x5b40; 0x9901; 0x59c0; 0x5880; 0x9841;
  0x8801; 0x48c0; 0x4980; 0x8941; 0x4b00; 0x8bc1; 0x8a81; 0x4a40;
  0x4e00; 0x8ec1; 0x8f81; 0x4f40; 0x8d01; 0x4dc0; 0x4c80; 0x8c41;
  0x4400; 0x84c1; 0x8581; 0x4540; 0x8701; 0x47c0; 0x4680; 0x8641;
  0x8201; 0x42c0; 0x4380; 0x8341; 0x4100; 0x81c1; 0x8081; 0x4040].
(** One turn of [while (len--)]: [xor] is the low byte of [b ^ crc]. *)
Definition crc16_step (crc b : Z) : Z :=
  let xor := u8 (Z.lxor b crc) in Z.lxor (Z.shiftr crc 8) (zget crc_table xor).
Definition crc16_function (buf : list Z) : Z := fold_left crc16_step buf 0xffff.

(** ** The structure (device_config.h)

    [device_conf_t] is packed: a field is a range of its 39 bytes. *)
Record field := { f_off : Z; f_size : Z }.
Definition f_crc := {| f_off := 0; f_size := 2 |}.
Definition f_dhcp_enabled := {| f_off := 2; f_size := 1 |}.
Definition f_ip := {| f_off := 3; f_size := 4 |}.
Definition f_nm := {| f_off := 7; f_size := 4 |}.
Definition f_gw := {| f_off := 11; f_size := 4 |}.
Definition f_leds_enabled := {| f_off := 15; f_size := 4 |}.
Definition f_interface_config (i : Z) := {| f_off := 19 + 3 * i; f_size := 3 |}.
Definition f_interface_type (i : Z) := {| f_off := 19 + 3 * i; f_size := 1 |}.
Definition f_port (i : Z) := {| f_off := 19 + 3 * i + 1; f_size := 2 |}.
Definition f_target_interface_conf (i : Z) := {| f_off := 25 + 4 * i; f_size := 4 |}.
Definition f_frequency (i : Z) := {| f_off := 25 + 4 * i; f_size := 4 |}.
Definition f_mac := {| f_off := 33; f_size := 6 |}.
Definition sizeof_conf : Z := 39.
Definition DEVICE_CONF_CRC : Z := 0.
Definition DEVICE_CONF_MAX_ID : Z := 16.

Definition default_ip : list Z := [192; 168; 0; 2].
Definition default_nm : list Z := [255; 255; 255; 0].
Definition default_gw : list Z := [192; 168; 0; 1].
(** TARGET_INTERFACE_n_DEFAULT_FREQUENCY *)
Definition default_frequency : Z := 1000000.

(** [device_config_get_setting_pointer]: where the setting is. *)
Definition device_config_get_setting_pointer (id : Z) : option field :=
  match id with
  | 0 => Some f_crc
  | 1 => Some f_dhcp_enabled
  | 2 => Some f_ip
  | 3 => Some f_nm
  | 4 => Some f_gw
  | 5 => Some f_mac
  | 6 => Some f_leds_enabled
  | 7 => Some (f_interface_config 0)
  | 8 => Some (f_interface_type 0)
  | 9 => Some (f_port 0)
  | 10 => Some (f_interface_config 1)
  | 11 => Some (f_interface_type 1)
  | 12 => Some (f_port 1)
  | 13 => Some (f_target_interface_conf 0)
  | 14 => Some (f_frequency 0)
  | 15 => Some (f_target_interface_conf 1)
  | 16 => Some (f_frequency 1)
  | _ => None
  end.

(** The state: the structure, the recursive mutex with its depth ([None]
    before it is created), and the EEPROM's world. *)
Record dconf (E : Type) := { conf : list Z; mutex : option Z; ee : E }.
Arguments conf {E}. Arguments mutex {E}. Arguments ee {E}. Arguments Build_dconf {E}.

Section Config.
Context {E : Type} `{EepromIf E}.
Notation ME := (M (dconf E)).
Implicit Types s : dconf E.
Definition set_conf c s : dconf E := {| conf := c; mutex := mutex s; ee := ee s |}.
Definition set_mutex m s : dconf E := {| conf := conf s; mutex := m; ee := ee s |}.
Definition on_ee {A} (m : M E A) : ME A := fun s =>
  let put e := {| conf := conf s; mutex := mutex s; ee := e |} in
  match m (ee s) with
  | Ok a e => Ok a (put e)
  | Raise ty msg e => Raise ty msg (put e)
  | Fault why e => Fault why (put e)
  | Hang => Hang
  end.

(** xSemaphoreTakeRecursive and xSemaphoreGiveRecursive, seen from the only
    task that holds the mutex. *)
Definition device_config_lock : ME unit :=
  let! s := get in
  match mutex s with None => crash NullDeref | Some d => put (set_mutex (Some (d + 1)) s) end.
Definition device_config_unlock : ME unit :=
  let! s := get in
  match mutex s with None => crash NullDeref | Some d => put (set_mutex (Some (if 0 <? d then d - 1 else d)) s) end.

Definition get_field (f : field) (c : list Z) : list Z := ztake (f_size f) (zdrop (f_off f) c).
Definition set_field (f : field) (v : list Z) (c : list Z) : list Z := splice c (f_off f) v.

(** The CRC of everything between the CRC and the MAC address. *)
Definition crc_of (c : list Z) : Z :=
  crc16_function (ztake (sizeof_conf - f_size f_mac - f_size f_crc) (zdrop (f_off f_dhcp_enabled) c)).
Definition device_config_calculate_crc : ME Z :=
  do! device_config_lock in
  let! s := get in
  let crc := crc_of (conf s) in
  do! device_config_unlock in
  ret crc.

Definition defaults (c : list Z) : list Z :=
  let c := set_field f_dhcp_enabled [0] c in
  let c := set_field f_ip default_ip c in
  let c := set_field f_nm default_nm c in
  let c := set_field f_gw default_gw c in
  let c := set_field f_leds_enabled (memset 4 255) c in
  let c := set_field {| f_off := f_off (f_interface_config 0); f_size := 6 |} (memset 6 0) c in
  let c := set_field (f_frequency 0) (le_bytes 4 default_frequency) c in
  set_field (f_frequency 1) (le_bytes 4 default_frequency) c.
Definition device_config_reset_to_default : ME unit :=
  do! device_config_lock in
  do! modify (fun s => set_conf (defaults (conf s)) s) in
  device_config_unlock.

(** Reading stores what came, even when the read then failed. *)
Definition read_into (off addr len : Z) : ME Z :=
  let! (r, bytes) := on_ee (eeprom_read addr len) in
  do! modify (fun s => set_conf (splice (conf s) off bytes) s) in
  ret r.
Definition device_config_read_all_settings : ME Z :=
  do! device_config_lock in
  let! r := read_into 0 EEPROM_ADDR_START (sizeof_conf - f_size f_mac) in
  if r <? 0 then do! device_config_unlock in ret (-1) else
  let! r := read_into (f_off f_mac) EEPROM_ADDR_MAC (f_size f_mac) in
  if r <? 0 then do! device_config_unlock in ret (-1) else
  do! device_config_unlock in
  ret 0.

Definition device_config_write_all_settings : ME Z :=
  do! device_config_lock in
  let! crc := device_config_calculate_crc in
  do! modify (fun s => set_conf (set_field f_crc (le_bytes 2 crc) (conf s)) s) in
  let! s := get in
  let! write_result := on_ee (eeprom_write EEPROM_ADDR_START (conf s) (sizeof_conf - f_size f_mac)) in
  do! device_config_unlock in
  ret write_result.

(** The result, and the bytes copied to the caller. *)
Definition device_config_get_value (id size : Z) : ME (Z * list Z) :=
  if (size =? 0) || (DEVICE_CONF_MAX_ID <? id) then ret (-1, []) else
  do! device_config_lock in
  let! s := get in
  let r := match device_config_get_setting_pointer id with
           | Some f => if f_size f =? size then (size, get_field f (conf s)) else (-1, [])
           | None => (-1, [])
           end in
  do! device_config_unlock in
  ret r.

Definition device_config_set_value (id : Z) (pValue : list Z) (size : Z) : ME Z :=
  if (size =? 0) || (DEVICE_CONF_MAX_ID <? id) then ret (-1) else
  do! device_config_lock in
  let! retVal :=
    match device_config_get_setting_pointer id with
    | Some f =>
        if f_size f =? size then
          let! v := load_n pValue 0 size in
          let! s := get in
          if eqb_str (get_field f (conf s)) v then ret 0
          else do! put (set_conf (set_field f v (conf s)) s) in ret size
        else ret (-1)
    | None => ret (-1)
    end in
  let! retVal :=
    if 0 <? retVal then do! device_config_write_all_settings in ret retVal
    else if retVal =? 0 then ret size
    else ret retVal in
  do! device_config_unlock in
  ret retVal.

Definition device_config_init : ME unit :=
  do! on_ee eeprom_init in
  do! modify (set_mutex (Some 0)) in
  do! device_config_lock in
  do! device_config_read_all_settings in
  let! (_, crc) := device_config_get_value DEVICE_CONF_CRC 2 in
  let! calc := device_config_calculate_crc in
  do! (if negb (le_val crc =? calc) then
         do! device_config_reset_to_default in
         do! device_config_write_all_settings in ret tt
       else ret tt) in
  device_config_unlock.
End Config.

(** ** The CRC, bit by bit *)
Definition crc16_shift (x : Z) : Z :=
  if Z.testbit x 0 then Z.lxor (Z.shiftr x 1) 0xa001 else Z.shiftr x 1.
Definition crc16_bits (crc b : Z) : Z := Nat.iter 8 crc16_shift (Z.lxor crc b).

Lemma crc16_shift_lxor a b : crc16_shift (Z.lxor a b) = Z.lxor (crc16_shift a) (crc16_shift b).
Proof.
  unfold crc16_shift. rewrite Z.lxor_spec, Z.shiftr_lxor. set (p := 0xa001). set (x := Z.shiftr a 1). set (y := Z.shiftr b 1).
  destruct (Z.testbit a 0), (Z.testbit b 0); cbn [xorb]; try done.
  - by rewrite Z.lxor_assoc, (Z.lxor_comm y), <- (Z.lxor_assoc p p), Z.lxor_nilpotent, Z.lxor_0_l.
  - by rewrite !Z.lxor_assoc, (Z.lxor_comm y).
  - by rewrite Z.lxor_assoc.
Qed.
Lemma crc16_shifts_lxor n a b : Nat.iter n crc16_shift (Z.lxor a b) = Z.lxor (Nat.iter n crc16_shift a) (Nat.iter n crc16_shift b).
Proof. induction n as [|n IH]; [done|]. by rewrite !Nat.iter_succ, IH, crc16_shift_lxor. Qed.
Lemma crc16_shifts_high n y : Nat.iter n crc16_shift (Z.shiftl y (Z.of_nat n)) = y.
Proof.
  induction n as [|n IH]; [apply Z.shiftl_0_r|]. rewrite Nat.iter_succ_r. unfold crc16_shift at 2.
  rewrite Z.shiftl_spec_low by lia. rewrite Z.shiftr_shiftl_l by lia.
  replace (Z.of_nat (S n) - 1) with (Z.of_nat n) by lia. apply IH.
Qed.
Lemma crc16_table_spec b : is_byte b -> zget crc_table b = Nat.iter 8 crc16_shift b.
Proof.
  intros Hb. apply Z.eqb_eq. apply (all_bytes_spec (fun b => zget crc_table b =? Nat.iter 8 crc16_shift b)); [|done].
  vm_compute. reflexivity.
Qed.
Lemma crc16_step_bits crc b : is_byte b -> crc16_step crc b = crc16_bits crc b.
Proof.
  intros Hb. unfold crc16_step, crc16_bits. rewrite (Z.lxor_comm b). set (x := Z.lxor crc b).
  assert (E : x = Z.lxor (Z.shiftl (Z.shiftr crc 8) 8) (u8 x)).
  { unfold u8, wrap. rewrite <- Z.land_ones by lia. apply Z.bits_inj'. intros n Hn. unfold x.
    rewrite !Z.lxor_spec, Z.land_spec, Z.lxor_spec, Z.shiftl_spec by lia. destruct (Z.lt_ge_cases n 8).
    - rewrite (Z.testbit_neg_r _ (n - 8)), Z.ones_spec_low, andb_true_r by lia. by rewrite xorb_false_l.
    - rewrite Z.shiftr_spec, Z.ones_spec_high, andb_false_r, xorb_false_r by lia. replace (n - 8 + 8) with n by lia.
      rewrite (Z.bits_above_log2 b n), xorb_false_r; [done|unfold in_width in Hb; lia|].
      destruct (Z.eq_dec b 0) as [->|]; [cbn; lia|]. apply Z.log2_lt_pow2; [unfold in_width in Hb; lia|].
      apply Z.lt_le_trans with (2 ^ 8); [apply Hb|]. apply Z.pow_le_mono_r; lia. }
  rewrite E at 2. rewrite crc16_shifts_lxor, (crc16_shifts_high 8), crc16_table_spec by apply u8_range. done.
Qed.

(** The table-driven CRC-16 is the bit-by-bit one with the reflected
    polynomial 0xA001. *)
Theorem crc16_function_bits buf : is_bytes buf -> crc16_function buf = fold_left crc16_bits buf 0xffff.
Proof.
  unfold crc16_function. intros Hb. generalize 0xffff. induction Hb as [|b l Hb _ IH]; intros crc; [done|].
  cbn [fold_left]. rewrite <- crc16_step_bits by done. apply IH.
Qed.
Lemma crc16_function_bits_witness : crc16_function [1; 2; 3] = fold_left crc16_bits [1; 2; 3] 0xffff.
Proof. apply crc16_function_bits. repeat constructor; discriminate. Defined.

Lemma crc16_range buf : is_bytes buf -> is_u16 (crc16_function buf).
Proof.
  unfold crc16_function. intros Hb.
  assert (H : forall crc, is_u16 crc -> is_u16 (fold_left crc16_step buf crc)).
  { induction Hb as [|b l Hb _ IH]; intros crc Hc; [done|]. cbn. apply IH. unfold crc16_step. apply in_width_lxor; [lia| |].
    - unfold in_width in *. rewrite Z.shiftr_div_pow2 by lia. split; [apply Z.div_pos; lia|]. apply Z.div_lt_upper_bound; lia.
    - set (i := u8 _). assert (Hi : is_byte i) by apply u8_range.
      assert (F : forallb (fun b => (0 <=? zget crc_table b) && (zget crc_table b <? 2 ^ 16)) all_bytes = true) by (vm_compute; reflexivity).
      pose proof (all_bytes_spec (fun b => (0 <=? zget crc_table b) && (zget crc_table b <? 2 ^ 16)) i F Hi) as Hr.
      apply andb_true_iff in Hr as [? ?]. split; lia. }
  apply H. split; lia.
Qed.

(** ** Fields *)
Definition in_conf (f : field) (c : list Z) : Prop := 0 <= f_off f /\ 0 < f_size f /\ f_off f + f_size f <= zlen c.
Definition apart (f g : field) : Prop := f_off f + f_size f <= f_off g \/ f_off g + f_size g <= f_off f.

Lemma zlen_get f c : in_conf f c -> zlen (get_field f c) = f_size f.
Proof. intros (? & ? & ?). unfold get_field. rewrite zlen_ztake; [done|]. rewrite zlen_zdrop; lia. Qed.
Lemma zget_get f c i : in_conf f c -> 0 <= i < f_size f -> zget (get_field f c) i = zget c (f_off f + i).
Proof. intros (? & ? & ?) Hi. unfold get_field. rewrite zget_ztake, zget_zdrop by lia. done. Qed.
Lemma zlen_set f v c : in_conf f c -> zlen v = f_size f -> zlen (set_field f v c) = zlen c.
Proof. intros (? & ? & ?) Hv. apply zlen_splice; lia. Qed.
Lemma get_set_same f v c : in_conf f c -> zlen v = f_size f -> get_field f (set_field f v c) = v.
Proof.
  intros Hf Hv. pose proof (zlen_set f v c Hf Hv) as Hz. assert (Hf' : in_conf f (set_field f v c)) by (unfold in_conf in *; lia).
  apply zget_ext; [by rewrite zlen_get|]. rewrite zlen_get by done. intros i Hi. rewrite zget_get by done.
  destruct Hf as (? & ? & ?). unfold set_field. rewrite zget_splice by lia.
  destruct (_ && _) eqn:E; [f_equal; lia|lia].
Qed.
Lemma get_set_apart f g v c : in_conf f c -> in_conf g c -> zlen v = f_size f -> apart f g ->
  get_field g (set_field f v c) = get_field g c.
Proof.
  intros Hf Hg Hv Ha. pose proof (zlen_set f v c Hf Hv) as Hz. assert (Hg' : in_conf g (set_field f v c)) by (unfold in_conf in *; lia).
  apply zget_ext; [by rewrite !zlen_get|]. rewrite zlen_get by done. intros i Hi. rewrite !zget_get by done.
  destruct Hf as (? & ? & ?). destruct Hg as (? & ? & ?). unfold set_field, apart in *. rewrite zget_splice by lia.
  destruct (_ && _) eqn:E; [lia|done].
Qed.
Lemma set_field_bytes f v c : is_bytes c -> is_bytes v -> is_bytes (set_field f v c).
Proof.
  intros Hc Hv. unfold set_field, splice. rewrite !Forall_app. split_and!; [by apply Forall_take|done|by apply Forall_drop].
Qed.
Lemma crc_of_set_crc v c : zlen c = sizeof_conf -> zlen v = 2 -> crc_of (set_field f_crc v c) = crc_of c.
Proof.
  intros Hc Hv. unfold crc_of, sizeof_conf in *. f_equal.
  apply (get_set_apart f_crc {| f_off := 2; f_size := 31 |} v c); unfold in_conf, apart; cbn; lia.
Qed.
Lemma crc_of_range c : is_bytes c -> is_u16 (crc_of c).
Proof. intros Hc. apply crc16_range, Forall_take, Forall_drop, Hc. Qed.

(** The stored CRC is that of the rest. *)
Definition valid (c : list Z) : Prop := le_val (get_field f_crc c) = crc_of c.
(** [c] with its CRC brought up to date. *)
Definition sealed (c : list Z) : list Z := set_field f_crc (le_bytes 2 (crc_of c)) c.
Lemma crc_in_conf c : zlen c = sizeof_conf -> in_conf f_crc c.
Proof. unfold in_conf, sizeof_conf. cbn. lia. Qed.
Lemma sealed_valid c : zlen c = sizeof_conf -> is_bytes c -> valid (sealed c) /\ zlen (sealed c) = sizeof_conf /\ is_bytes (sealed c).
Proof.
  intros Hc Hb. pose proof (crc_in_conf c Hc) as Hin. assert (H2 : zlen (le_bytes 2 (crc_of c)) = 2) by done.
  unfold valid, sealed. split; [|split].
  - rewrite get_set_same, crc_of_set_crc, le_val_bytes by done. apply Z.mod_small, (crc_of_range c Hb).
  - by rewrite zlen_set.
  - apply set_field_bytes; [done|apply le_bytes_is_bytes].
Qed.

(** ** The operations, over an EEPROM that works *)

(** [rom e]: the 256 bytes of the device. *)
Class EepromSpec (E : Type) `{EepromIf E} := {
  rom : E -> list Z;
  rom_init_ok e : exists e', eeprom_init e = Ok tt e' /\ rom e' = rom e;
  rom_read_ok e a n : 0 <= a -> 0 <= n -> a + n <= 256 ->
    exists e', eeprom_read a n e = Ok (n, ztake n (zdrop a (rom e))) e' /\ rom e' = rom e;
  rom_write_ok e a data n : 0 <= a -> 0 <= n <= zlen data -> a + n <= EEPROM_LAST_ADDR ->
    exists e', eeprom_write a data n e = Ok n e' /\ rom e' = splice (rom e) a (ztake n data);
}.

Section Operations.
Context {E : Type} `{EepromSpec E}.
Implicit Types s : dconf E.

(** The structure is whole, and the mutex is held [d] times. *)
Record wf (d : Z) s : Prop := {
  wf_len : zlen (conf s) = sizeof_conf;
  wf_bytes : is_bytes (conf s);
  wf_mutex : mutex s = Some d;
  wf_depth : 0 <= d;
  wf_rom : zlen (rom (ee s)) = 256;
}.
Definition with_depth d s : dconf E := set_mutex (Some d) s.

Lemma lock_Ok d s : wf d s -> device_config_lock s = Ok tt (with_depth (d + 1) s) /\ wf (d + 1) (with_depth (d + 1) s).
Proof.
  intros [? ? Hm ? ?]. split; [|constructor; cbn; try done; lia].
  unfold device_config_lock, bind, get, put. by rewrite Hm.
Qed.
Lemma unlock_Ok d s : wf (d + 1) s -> 0 <= d -> device_config_unlock s = Ok tt (with_depth d s) /\ wf d (with_depth d s).
Proof.
  intros [? ? Hm ? ?] Hd. split; [|by constructor].
  unfold device_config_unlock, bind, get, put. rewrite Hm, (proj2 (Z.ltb_lt 0 (d + 1))) by lia.
  unfold with_depth. do 3 f_equal. lia.
Qed.
Lemma with_depth_id d s : mutex s = Some d -> with_depth d s = s.
Proof. destruct s. cbn. by intros ->. Qed.
Lemma with_depth_back d d' s : wf d s -> with_depth d (with_depth d' s) = s.
Proof. intros Hs. change (with_depth d (with_depth d' s)) with (with_depth d s). apply with_depth_id, Hs. Qed.

Lemma calculate_crc_Ok d s : wf d s -> device_config_calculate_crc s = Ok (crc_of (conf s)) s.
Proof.
  intros Hs. destruct (lock_Ok d s Hs) as [Hl Hw]. unfold device_config_calculate_crc.
  rewrite (bind_Ok _ _ _ _ _ Hl). unfold bind at 1, get. cbv zeta.
  destruct (unlock_Ok d _ Hw (wf_depth _ _ Hs)) as [Hu _]. rewrite (bind_Ok _ _ _ _ _ Hu).
  unfold ret. f_equal. by apply with_depth_back.
Qed.

(** Writing everything seals the structure and stores it. *)
Lemma write_all_Ok d s : wf d s ->
  exists s', device_config_write_all_settings s = Ok 33 s' /\ wf d s' /\ conf s' = sealed (conf s) /\
    rom (ee s') = splice (rom (ee s)) 0 (ztake 33 (sealed (conf s))).
Proof.
  intros Hs. pose proof Hs as [Hl Hb Hm Hd Hr]. destruct (lock_Ok d s Hs) as [Hlk Hw].
  unfold device_config_write_all_settings. rewrite (bind_Ok _ _ _ _ _ Hlk), (bind_Ok _ _ _ _ _ (calculate_crc_Ok _ _ Hw)).
  unfold bind at 1, modify. unfold bind at 1, get. set (s1 := set_conf _ _).
  change (conf s1) with (sealed (conf s)). destruct (sealed_valid (conf s) Hl Hb) as (_ & Hsl & Hsb).
  change (sizeof_conf - f_size f_mac) with 33.
  destruct (rom_write_ok (ee s1) EEPROM_ADDR_START (sealed (conf s)) 33) as (e' & He & Hrom);
    [done|rewrite Hsl; unfold sizeof_conf; lia|done|].
  assert (Hon : on_ee (eeprom_write EEPROM_ADDR_START (sealed (conf s)) 33) s1
    = Ok 33 {| conf := conf s1; mutex := mutex s1; ee := e' |}) by (unfold on_ee; by rewrite He).
  rewrite (bind_Ok _ _ _ _ _ Hon).
  assert (Hw2 : wf (d + 1) {| conf := conf s1; mutex := mutex s1; ee := e' |}).
  { constructor; cbn; try done; [lia|]. rewrite Hrom. rewrite zlen_splice; [done|done|].
    rewrite zlen_ztake by (rewrite Hsl; unfold sizeof_conf; lia). cbn. unfold EEPROM_ADDR_START. lia. }
  destruct (unlock_Ok d _ Hw2 Hd) as [Hu Hw3]. rewrite (bind_Ok _ _ _ _ _ Hu). by eexists.
Qed.

Lemma setting_in_conf id f c : zlen c = sizeof_conf -> device_config_get_setting_pointer id = Some f -> in_conf f c.
Proof.
  unfold sizeof_conf. intros Hc Hf.
  assert (Hr : 0 <= id <= 16).
  { destruct (Z.lt_ge_cases id 0); [by destruct id|]. destruct (Z.le_gt_cases id 16); [done|].
    exfalso. destruct id as [|p|]; [lia| |lia]. do 5 (destruct p as [p|p|]; try discriminate; try lia). }
  assert (id ∈ seqZ 0 17) as Hin by (apply elem_of_seqZ; lia).
  assert (F : forallb (fun i => match device_config_get_setting_pointer i with
     Some f => (0 <=? f_off f) && (0 <? f_size f) && (f_off f + f_size f <=? 39) | None => false end) (seqZ 0 17) = true) by reflexivity.
  pose proof (proj1 (forallb_forall _ _) F id (proj1 (list_elem_of_In _ _) Hin)) as Hb. cbn beta in Hb. rewrite Hf in Hb.
  unfold in_conf. lia.
Qed.
Lemma setting_apart_crc id f : 1 <= id -> device_config_get_setting_pointer id = Some f -> apart f_crc f.
Proof.
  intros Hid Hf. assert (Hr : id <= 16).
  { destruct (Z.le_gt_cases id 16); [done|].
    exfalso. destruct id as [|p|]; [lia| |lia]. do 5 (destruct p as [p|p|]; try discriminate; try lia). }
  assert (id ∈ seqZ 1 16) as Hin by (apply elem_of_seqZ; lia).
  assert (F : forallb (fun i => match device_config_get_setting_pointer i with
     Some f => 2 <=? f_off f | None => false end) (seqZ 1 16) = true) by reflexivity.
  pose proof (proj1 (forallb_forall _ _) F id (proj1 (list_elem_of_In _ _) Hin)) as Hb. cbn beta in Hb. rewrite Hf in Hb.
  left. cbn. lia.
Qed.
Lemma setting_max id f : device_config_get_setting_pointer id = Some f -> id <= 16.
Proof.
  intros Hf. destruct (Z.le_gt_cases id 16); [done|].
  exfalso. destruct id as [|p|]; [lia| |lia]. do 5 (destruct p as [p|p|]; try discriminate; try lia).
Qed.

(** [device_config_get_value] with the setting's size returns its bytes;
    any other size, and any unknown setting, is refused with -1; nothing
    changes and the mutex is released either way. *)
Theorem get_value_correct d s id size : wf d s ->
  device_config_get_value id size s =
    Ok (match device_config_get_setting_pointer id with
        | Some f => if f_size f =? size then (size, get_field f (conf s)) else (-1, [])
        | None => (-1, [])
        end) s.
Proof.
  intros Hs. unfold device_config_get_value, DEVICE_CONF_MAX_ID.
  destruct ((size =? 0) || (16 <? id)) eqn:Eb.
  - unfold ret. f_equal. destruct (device_config_get_setting_pointer id) as [f|] eqn:Ef; [|done].
    pose proof (setting_max id f Ef). destruct (setting_in_conf id f (conf s) (wf_len _ _ Hs) Ef) as (? & ? & ?).
    destruct (f_size f =? size) eqn:Es; [lia|done].
  - destruct (lock_Ok d s Hs) as [Hl Hw]. rewrite (bind_Ok _ _ _ _ _ Hl). unfold bind at 1, get. cbv zeta.
    destruct (unlock_Ok d _ Hw (wf_depth _ _ Hs)) as [Hu _]. rewrite (bind_Ok _ _ _ _ _ Hu). unfold ret. f_equal. by apply with_depth_back.
Qed.

(** [device_config_set_value] of a setting other than the CRC stores the
    value, leaves every other setting alone, and, when the value is new, seals
    the structure with its CRC and writes it to the EEPROM; when it is not new
    nothing is written.  The mutex is released. *)
Theorem set_value_stored d s id f v :
  wf d s -> 1 <= id -> device_config_get_setting_pointer id = Some f -> zlen v = f_size f -> is_bytes v ->
  exists s', device_config_set_value id v (zlen v) s = Ok (zlen v) s' /\ wf d s' /\
    get_field f (conf s') = v /\
    (forall g, in_conf g (conf s) -> apart f g -> apart f_crc g -> get_field g (conf s') = get_field g (conf s)) /\
    (get_field f (conf s) = v -> s' = s) /\
    (get_field f (conf s) <> v -> valid (conf s') /\ rom (ee s') = splice (rom (ee s)) 0 (ztake 33 (conf s'))).
Proof.
  intros Hs Hid Hf Hv Hb. pose proof Hs as [Hl Hcb Hm Hd Hr]. pose proof (setting_in_conf id f (conf s) Hl Hf) as Hin.
  pose proof (setting_max id f Hf) as Hmax. destruct (lock_Ok d s Hs) as [Hlk Hw].
  unfold device_config_set_value, DEVICE_CONF_MAX_ID.
  destruct ((zlen v =? 0) || (16 <? id)) eqn:Eb; [destruct Hin as (? & ? & ?); lia|].
  rewrite (bind_Ok _ _ _ _ _ Hlk), Hf. rewrite (proj2 (Z.eqb_eq (f_size f) (zlen v))) by done.
  assert (Hload : load_n (W := dconf E) v 0 (zlen v) = ret v).
  { unfold load_n. rewrite (proj2 (Z.leb_le 0 (zlen v))), (proj2 (Z.leb_le (0 + zlen v) (zlen v))) by (pose proof (zlen_nonneg v); lia).
    cbn [Z.leb Z.compare andb]. change (zdrop 0 v) with v. unfold ztake, zlen. rewrite Nat2Z.id. by rewrite firstn_all. }
  rewrite Hload, bind_bind, bind_ret, bind_bind. unfold bind at 1, get. change (conf (with_depth (d + 1) s)) with (conf s).
  destruct (eqb_str (get_field f (conf s)) v) eqn:Eq.
  - apply eqb_str_eq in Eq. rewrite bind_ret. cbn [Z.ltb Z.compare Z.eqb]. rewrite bind_ret.
    destruct (unlock_Ok d _ Hw Hd) as [Hu _]. rewrite (bind_Ok _ _ _ _ _ Hu). exists s. split; [|by split_and!].
    unfold ret. f_equal. by apply with_depth_back.
  - assert (Hne : get_field f (conf s) <> v) by (intros E1; apply eqb_str_eq in E1; congruence).
    rewrite bind_bind. unfold bind at 1, put. set (s1 := set_conf _ _). rewrite bind_ret.
    rewrite (proj2 (Z.ltb_lt 0 (zlen v))) by (destruct Hin as (? & ? & ?); lia).
    assert (Hw1 : wf (d + 1) s1).
    { destruct Hw. constructor; cbn; try done; [by rewrite zlen_set|by apply set_field_bytes]. }
    destruct (write_all_Ok (d + 1) s1 Hw1) as (s2 & Hr2 & Hw2 & Hc2 & Hrom2).
    rewrite bind_bind, (bind_Ok _ _ _ _ _ Hr2), bind_ret.
    destruct (unlock_Ok d _ Hw2 Hd) as [Hu Hw3]. rewrite (bind_Ok _ _ _ _ _ Hu).
    eexists. split; [done|]. split; [done|]. cbn. rewrite Hc2.
    change (conf s1) with (set_field f v (conf s)) in *. set (c1 := set_field f v (conf s)) in *.
    assert (Hl1 : zlen c1 = sizeof_conf) by apply Hw1.
    destruct (sealed_valid c1 Hl1 (wf_bytes _ _ Hw1)) as (Hval & Hsl & _). unfold sealed.
    assert (Hin1 : forall g, in_conf g (conf s) -> in_conf g c1) by (unfold in_conf; rewrite Hl1, Hl; done).
    split_and!.
    + rewrite get_set_apart; [by apply get_set_same|by apply crc_in_conf|by apply Hin1|done|by eapply setting_apart_crc].
    + intros g Hg Ha Hac. rewrite get_set_apart; [|by apply crc_in_conf|by apply Hin1|done|done].
      by apply get_set_apart.
    + done.
    + intros _. split; [exact Hval|]. rewrite Hrom2. done.
Qed.

(** What the EEPROM holds: the settings, and the MAC address at its end. *)
Definition stored (r : list Z) : list Z := ztake 33 r ++ ztake 6 (zdrop EEPROM_ADDR_MAC r).

Lemma stored_ok r : zlen r = 256 -> is_bytes r -> zlen (stored r) = sizeof_conf /\ is_bytes (stored r).
Proof.
  intros Hr Hb. unfold stored, EEPROM_ADDR_MAC. split.
  - rewrite zlen_app, !zlen_ztake; [done| |lia]. rewrite zlen_zdrop; lia.
  - apply Forall_app. split; [by apply Forall_take|by apply Forall_take, Forall_drop].
Qed.
Lemma splice_stored c r : zlen c = sizeof_conf -> zlen r = 256 ->
  splice (splice c 0 (ztake 33 r)) 33 (ztake 6 (zdrop EEPROM_ADDR_MAC r)) = stored r.
Proof.
  unfold sizeof_conf, EEPROM_ADDR_MAC, stored. intros Hc Hr.
  assert (H33 : zlen (ztake 33 r) = 33) by (apply zlen_ztake; lia).
  assert (H6 : zlen (ztake 6 (zdrop 250 r)) = 6) by (apply zlen_ztake; rewrite zlen_zdrop; lia).
  assert (E1 : splice c 0 (ztake 33 r) = ztake 33 r ++ zdrop 33 c).
  { unfold splice. by rewrite H33. }
  rewrite E1. unfold splice. rewrite H6.
  assert (H1 : ztake 33 (ztake 33 r ++ zdrop 33 c) = ztake 33 r).
  { unfold ztake at 1. rewrite <- H33 at 1. unfold zlen. rewrite Nat2Z.id. apply take_app_length. }
  assert (H2 : zdrop (33 + 6) (ztake 33 r ++ zdrop 33 c) = []).
  { apply length_zero_iff_nil. unfold zdrop. rewrite length_drop, length_app, length_drop. unfold zlen in *. lia. }
  by rewrite H1, H2, app_nil_r.
Qed.
Lemma defaults_ok c : zlen c = sizeof_conf -> is_bytes c -> zlen (defaults c) = sizeof_conf /\ is_bytes (defaults c).
Proof.
  unfold sizeof_conf, defaults. intros Hc Hb.
  assert (Hset : forall f v c, zlen c = 39 /\ is_bytes c -> 0 <= f_off f -> 0 < f_size f -> f_off f + f_size f <= 39 ->
    zlen v = f_size f -> is_bytes v -> zlen (set_field f v c) = 39 /\ is_bytes (set_field f v c)).
  { intros f v c' [Hl Hb'] ? ? ? ? ?. split; [rewrite zlen_set; [done|unfold in_conf; lia|done]|by apply set_field_bytes]. }
  repeat apply Hset; cbn; try done; try lia; repeat constructor; discriminate.
Qed.

Lemma read_into_Ok d s off addr n : wf d s -> is_bytes (rom (ee s)) -> 0 <= addr -> 0 <= n -> addr + n <= 256 ->
  0 <= off -> off + n <= sizeof_conf ->
  exists s', read_into off addr n s = Ok n s' /\ wf d s' /\ rom (ee s') = rom (ee s) /\
    conf s' = splice (conf s) off (ztake n (zdrop addr (rom (ee s)))).
Proof.
  intros [Hl Hb Hm Hd Hr] Hrb Ha Hn Han Ho Hon. unfold read_into.
  destruct (rom_read_ok (ee s) addr n Ha Hn Han) as (e' & He & Hrom).
  assert (H1 : on_ee (eeprom_read addr n) s = Ok (n, ztake n (zdrop addr (rom (ee s)))) {| conf := conf s; mutex := mutex s; ee := e' |})
    by (unfold on_ee; by rewrite He).
  rewrite (bind_Ok _ _ _ _ _ H1). unfold bind, modify, ret. eexists. split; [done|]. cbn. split; [|split; done].
  assert (Hlen : zlen (ztake n (zdrop addr (rom (ee s)))) = n) by (apply zlen_ztake; rewrite zlen_zdrop; lia).
  constructor; cbn; try done; [rewrite zlen_splice; lia| |by rewrite Hrom].
  apply (set_field_bytes {| f_off := off; f_size := 0 |}); [done|]. by apply Forall_take, Forall_drop.
Qed.
Lemma read_all_Ok d s : wf d s -> is_bytes (rom (ee s)) ->
  exists s', device_config_read_all_settings s = Ok 0 s' /\ wf d s' /\ conf s' = stored (rom (ee s)) /\ rom (ee s') = rom (ee s).
Proof.
  intros Hs Hb. pose proof Hs as [Hl _ _ Hd Hr]. destruct (lock_Ok d s Hs) as [Hlk Hw]. unfold device_config_read_all_settings.
  rewrite (bind_Ok _ _ _ _ _ Hlk). change (sizeof_conf - f_size f_mac) with 33.
  destruct (read_into_Ok (d + 1) _ 0 EEPROM_ADDR_START 33 Hw Hb) as (s1 & H1 & Hw1 & Hr1 & Hc1); [done..|].
  rewrite (bind_Ok _ _ _ _ _ H1). cbn [Z.ltb Z.compare].
  destruct (read_into_Ok (d + 1) s1 33 EEPROM_ADDR_MAC 6 Hw1) as (s2 & H2 & Hw2 & Hr2 & Hc2); try done; [by rewrite Hr1|].
  change (f_off f_mac) with 33. change (f_size f_mac) with 6. rewrite (bind_Ok _ _ _ _ _ H2). cbn [Z.ltb Z.compare].
  destruct (unlock_Ok d _ Hw2 Hd) as [Hu Hw3]. rewrite (bind_Ok _ _ _ _ _ Hu).
  eexists. split; [done|]. split; [done|]. cbn. rewrite Hr2, Hr1. split; [|done].
  rewrite Hc2, Hc1, Hr1. by apply splice_stored.
Qed.

Lemma init_run s :
  zlen (conf s) = sizeof_conf -> is_bytes (conf s) -> zlen (rom (ee s)) = 256 -> is_bytes (rom (ee s)) ->
  exists s', device_config_init s = Ok tt s' /\ wf 0 s' /\ valid (conf s') /\
    (valid (stored (rom (ee s))) -> conf s' = stored (rom (ee s)) /\ rom (ee s') = rom (ee s)) /\
    (~ valid (stored (rom (ee s))) -> conf s' = sealed (defaults (stored (rom (ee s)))) /\
       rom (ee s') = splice (rom (ee s)) 0 (ztake 33 (conf s'))).
Proof.
  intros Hl Hb Hr Hrb. destruct (rom_init_ok (ee s)) as (e1 & He & Hre). unfold device_config_init.
  assert (H1 : on_ee eeprom_init s = Ok tt {| conf := conf s; mutex := mutex s; ee := e1 |}) by (unfold on_ee; by rewrite He).
  rewrite (bind_Ok _ _ _ _ _ H1). unfold bind at 1, modify. set (s1 := set_mutex (Some 0) _).
  assert (Hw1 : wf 0 s1) by (constructor; cbn; try done; by rewrite Hre).
  destruct (lock_Ok 0 s1 Hw1) as [Hlk Hw2]. rewrite (bind_Ok _ _ _ _ _ Hlk).
  destruct (read_all_Ok _ _ Hw2) as (s3 & H3 & Hw3 & Hc3 & Hr3); [cbn; by rewrite Hre|].
  cbn in Hc3, Hr3. rewrite Hre in Hc3, Hr3. rewrite (bind_Ok _ _ _ _ _ H3).
  destruct (stored_ok (rom (ee s)) Hr Hrb) as [Hsl Hsb].
  assert (Hget : device_config_get_value DEVICE_CONF_CRC 2 s3 = Ok (2, get_field f_crc (conf s3)) s3).
  { unfold device_config_get_value. cbn [Z.eqb orb Z.ltb Z.compare DEVICE_CONF_CRC DEVICE_CONF_MAX_ID].
    change (DEVICE_CONF_MAX_ID <? DEVICE_CONF_CRC) with false. cbv iota.
    destruct (lock_Ok _ _ Hw3) as [Hl3 Hw3']. rewrite (bind_Ok _ _ _ _ _ Hl3). unfold bind at 1, get. cbv zeta.
    destruct (unlock_Ok _ _ Hw3' (wf_depth _ _ Hw3)) as [Hu _]. rewrite (bind_Ok _ _ _ _ _ Hu). unfold ret. f_equal.
    by apply with_depth_back. }
  rewrite (bind_Ok _ _ _ _ _ Hget), (bind_Ok _ _ _ _ _ (calculate_crc_Ok _ _ Hw3)), Hc3.
  destruct (le_val (get_field f_crc (stored (rom (ee s)))) =? crc_of (stored (rom (ee s)))) eqn:Ev.
  - apply Z.eqb_eq in Ev. cbn [negb]. rewrite bind_ret. destruct (unlock_Ok 0 _ Hw3 ltac:(lia)) as [Hu Hw4]. rewrite Hu.
    eexists. split; [done|]. split; [done|]. cbn. rewrite Hc3, Hr3. split; [done|]. split; [done|]. intros Hn. by destruct Hn.
  - apply Z.eqb_neq in Ev. cbn [negb]. unfold device_config_reset_to_default. rewrite !bind_bind.
    destruct (lock_Ok _ _ Hw3) as [Hl4 Hw4]. rewrite (bind_Ok _ _ _ _ _ Hl4), bind_bind. unfold bind at 1, modify.
    set (s5 := set_conf _ _). destruct (defaults_ok (conf s3)) as [Hdl Hdb]; [by rewrite Hc3..|].
    assert (Hw5 : wf (0 + 1 + 1) s5) by (destruct Hw4; by constructor).
    destruct (unlock_Ok (0 + 1) s5 Hw5 ltac:(lia)) as [Hu5 Hw6]. rewrite (bind_Ok _ _ _ _ _ Hu5), bind_bind.
    destruct (write_all_Ok _ _ Hw6) as (s7 & H7 & Hw7 & Hc7 & Hr7). rewrite (bind_Ok _ _ _ _ _ H7), bind_ret.
    destruct (unlock_Ok 0 _ Hw7 ltac:(lia)) as [Hu Hw8]. rewrite Hu. eexists. split; [done|]. split; [done|]. cbn.
    change (conf (with_depth (0 + 1) s5)) with (defaults (conf s3)) in *. rewrite Hc7, Hc3.
    split; [apply sealed_valid; by rewrite <- Hc3|]. split; [done|]. intros _. split; [done|].
    rewrite Hr7. cbn. by rewrite Hr3, Hc3.
Qed.
End Operations.

(** ** A device the theorems can be tried on *)
Module RomSim.
#[global] Instance rom_if : EepromIf (list Z) := {
  eeprom_init := ret tt;
  eeprom_read a n := let! r := get in ret (n, ztake n (zdrop a r));
  eeprom_write a data n := let! r := get in do! put (splice r a (ztake n data)) in ret n;
}.
#[global] Instance rom_spec : EepromSpec (list Z).
Proof.
  refine {| rom r := r |}.
  - intros e. by exists e.
  - intros e a n _ _ _. by exists e.
  - intros e a data n _ _ _. eexists. split; reflexivity.
Defined.
Definition s0 : dconf (list Z) := {| conf := memset 39 0; mutex := Some 0; ee := memset 256 255 |}.
End RomSim.

Lemma s0_wf : wf 0 RomSim.s0.
Proof. constructor; try reflexivity. apply Forall_replicate. split; lia. Qed.
Lemma get_value_correct_witness :
  device_config_get_value 2 4 RomSim.s0 =
    Ok (match device_config_get_setting_pointer 2 with
        | Some f => if f_size f =? 4 then (4, get_field f (conf RomSim.s0)) else (-1, [])
        | None => (-1, []) end) RomSim.s0.
Proof. apply (get_value_correct 0). exact s0_wf. Defined.
Lemma set_value_stored_witness : exists s',
  device_config_set_value 2 [10; 0; 0; 7] 4 RomSim.s0 = Ok 4 s' /\ wf 0 s' /\ get_field f_ip (conf s') = [10; 0; 0; 7] /\
    (forall g, in_conf g (conf RomSim.s0) -> apart f_ip g -> apart f_crc g -> get_field g (conf s') = get_field g (conf RomSim.s0)) /\
    (get_field f_ip (conf RomSim.s0) = [10; 0; 0; 7] -> s' = RomSim.s0) /\
    (get_field f_ip (conf RomSim.s0) <> [10; 0; 0; 7] -> valid (conf s') /\
       rom (ee s') = splice (rom (ee RomSim.s0)) 0 (ztake 33 (conf s'))).
Proof.
  apply (set_value_stored 0 RomSim.s0 2 f_ip [10; 0; 0; 7] s0_wf); [lia|reflexivity|reflexivity|].
  repeat constructor; discriminate.
Defined.
