(* ===== verification/General.v ===== *)
(** general.c: which debugger task is running, and which target interface it
    owns.  The tables are indexed by the order the tasks registered in. *)

From Stdlib Require Import ZArith Lia.
From stdpp Require Import base list numbers option.
From S2P Require Import Prelude CLib.

(** MAX_GDB_NUMBER = INTERFACE_NUMBER (platform.h). *)
Definition INTERFACE_NUMBER : Z := 2.

Record tables := {
  pid_list : list (option positive);      (* task handles, NULL when free *)
  interface_number_list : list Z;
  interface_busy_list : list bool;
}.
(** The tables as the program starts: static storage is zero. *)
Definition tables0 : tables :=
  {| pid_list := [None; None]; interface_number_list := [0; 0]; interface_busy_list := [false; false] |}.

Notation MG := (M tables).
Definition set_pids l s := {| pid_list := l; interface_number_list := interface_number_list s; interface_busy_list := interface_busy_list s |}.
Definition set_ifaces l b s := {| pid_list := pid_list s; interface_number_list := l; interface_busy_list := b |}.

(** The loop of [add_pid_to_list] from some slot on: a free slot is taken and
    the search goes on; [insertIndex] is never assigned. *)
Fixpoint add_from (pid : positive) (l : list (option positive)) : list (option positive) :=
  match l with
  | [] => []
  | None :: l' => Some pid :: add_from pid l'
  | Some q :: l' => if decide (q = pid) then l else Some q :: add_from pid l'
  end.
(** [pid]: what xTaskGetCurrentTaskHandle returns. *)
Definition add_pid_to_list (pid : option positive) : MG unit :=
  match pid with
  | None => ret tt
  | Some p => modify (fun s => set_pids (add_from p (pid_list s)) s)
  end.

Fixpoint index_of (pid : option positive) (l : list (option positive)) (i : Z) : Z :=
  match l with
  | [] => -1
  | q :: l' => if decide (q = pid) then i else index_of pid l' (i + 1)
  end.
Definition get_thread_number (pid : option positive) : MG Z :=
  let! s := get in ret (index_of pid (pid_list s) 0).

Definition interface_numbers_init : MG unit :=
  modify (fun s => set_ifaces (replicate (Z.to_nat INTERFACE_NUMBER) (-1)) (interface_busy_list s) s).

(** An access to one of the tables; an index outside it is undefined. *)
Definition at_ {A} (l : list A) (i : Z) : MG A :=
  if i <? 0 then crash OutOfBounds else
  match l !! Z.to_nat i with Some x => ret x | None => crash OutOfBounds end.

Definition get_interface_number (pid : option positive) : MG Z :=
  let! thread_number := get_thread_number pid in
  if thread_number <? 0 then ret (-1) else
  let! s := get in at_ (interface_number_list s) thread_number.

(** The result of a function declared [bool] that returns -1 is true. *)
Definition set_interface_number (pid : option positive) (number : Z) : MG bool :=
  let! thread_number := get_thread_number pid in
  if thread_number <? 0 then ret true else
  let! s := get in
  let! busy := at_ (interface_busy_list s) number in
  if busy : bool then ret false else
  do! put (set_ifaces (<[Z.to_nat thread_number := number]> (interface_number_list s))
                      (<[Z.to_nat number := true]> (interface_busy_list s)) s) in
  ret true.

Definition free_interface (pid : option positive) (number : Z) : MG bool :=
  let! thread_number := get_thread_number pid in
  if thread_number <? 0 then ret true else
  let! s := get in
  let! busy := at_ (interface_busy_list s) number in
  if negb busy then ret false else
  do! put (set_ifaces (<[Z.to_nat thread_number := -1]> (interface_number_list s))
                      (<[Z.to_nat number := false]> (interface_busy_list s)) s) in
  ret true.

(** ** Properties *)

Lemma index_of_range pid l i : index_of pid l i = -1 \/ i <= index_of pid l i < i + zlen l.
Proof.
  revert i. induction l as [|q l IH]; intros i; cbn; [by left|]. rewrite zlen_cons. pose proof (zlen_nonneg l).
  case_decide; [right; lia|]. destruct (IH (i + 1)) as [->|?]; [by left|right; lia].
Qed.

(** Sizes of the tables. *)
Definition tables_ok (s : tables) : Prop :=
  zlen (pid_list s) = INTERFACE_NUMBER /\ zlen (interface_number_list s) = INTERFACE_NUMBER /\
  zlen (interface_busy_list s) = INTERFACE_NUMBER.

Lemma at_Ok {A} (l : list A) i s : 0 <= i < zlen l -> exists x, l !! Z.to_nat i = Some x /\ at_ l i s = Ok x s.
Proof.
  unfold zlen. intros Hi. destruct (lookup_lt_is_Some_2 l (Z.to_nat i)) as [x Hx]; [lia|]. exists x. split; [done|].
  unfold at_. rewrite (proj2 (Z.ltb_ge i 0)) by lia. by rewrite Hx.
Qed.

(** The first task to register takes every free slot, so that a second
    task is never found: its thread number is -1, the index with which the
    per-thread resources are then accessed. *)
Theorem second_task_unregistered (p q : positive) : p <> q ->
  exists s, (do! add_pid_to_list (Some p) in add_pid_to_list (Some q)) tables0 = Ok tt s /\
    pid_list s = [Some p; Some p] /\ get_thread_number (Some p) s = Ok 0 s /\ get_thread_number (Some q) s = Ok (-1) s.
Proof.
  intros Hne. eexists. split; [reflexivity|]. cbn. rewrite (decide_False (P := p = q)) by done. cbn.
  rewrite (decide_False (P := p = q)) by done. split; [done|].
  unfold get_thread_number, bind, get, ret. cbn. rewrite !decide_True by done.
  rewrite !(decide_False (P := Some p = Some q)) by congruence. done.
Qed.

Lemma at_run {A} (l : list A) i x s : 0 <= i -> l !! Z.to_nat i = Some x -> at_ l i s = Ok x s.
Proof. intros Hi Hx. unfold at_. rewrite (proj2 (Z.ltb_ge i 0)) by lia. by rewrite Hx. Qed.
Lemma set_interface_run pid n s (b : bool) :
  0 <= index_of pid (pid_list s) 0 -> 0 <= n -> interface_busy_list s !! Z.to_nat n = Some b ->
  set_interface_number pid n s = if b then Ok false s else
    Ok true (set_ifaces (<[Z.to_nat (index_of pid (pid_list s) 0) := n]> (interface_number_list s))
                        (<[Z.to_nat n := true]> (interface_busy_list s)) s).
Proof.
  intros Hk Hn Hb. unfold set_interface_number, get_thread_number. rewrite bind_bind. unfold bind at 1, get. rewrite bind_ret.
  rewrite (proj2 (Z.ltb_ge _ 0)) by lia. unfold bind at 1. rewrite (bind_Ok _ _ _ _ _ (at_run _ _ _ _ Hn Hb)). by destruct b.
Qed.
Lemma free_interface_run pid n s (b : bool) :
  0 <= index_of pid (pid_list s) 0 -> 0 <= n -> interface_busy_list s !! Z.to_nat n = Some b ->
  free_interface pid n s = if b then
    Ok true (set_ifaces (<[Z.to_nat (index_of pid (pid_list s) 0) := -1]> (interface_number_list s))
                        (<[Z.to_nat n := false]> (interface_busy_list s)) s) else Ok false s.
Proof.
  intros Hk Hn Hb. unfold free_interface, get_thread_number. rewrite bind_bind. unfold bind at 1, get. rewrite bind_ret.
  rewrite (proj2 (Z.ltb_ge _ 0)) by lia. unfold bind at 1. rewrite (bind_Ok _ _ _ _ _ (at_run _ _ _ _ Hn Hb)). by destruct b.
Qed.
Lemma get_interface_run pid s x : 0 <= index_of pid (pid_list s) 0 ->
  interface_number_list s !! Z.to_nat (index_of pid (pid_list s) 0) = Some x -> get_interface_number pid s = Ok x s.
Proof.
  intros Hk Hx. unfold get_interface_number, get_thread_number. rewrite bind_bind. unfold bind at 1, get. rewrite bind_ret.
  rewrite (proj2 (Z.ltb_ge _ 0)) by lia. unfold bind at 1. by apply at_run.
Qed.

(** An interface is owned by one task at a time: a registered task gets a
    free interface, which is then refused to everybody until it is freed, and
    freeing gives it back. *)
Theorem interface_exclusive pid pid' number s :
  tables_ok s -> 0 <= number < INTERFACE_NUMBER -> interface_busy_list s !! Z.to_nat number = Some false ->
  0 <= index_of pid (pid_list s) 0 -> 0 <= index_of pid' (pid_list s) 0 ->
  exists s1, set_interface_number pid number s = Ok true s1 /\ tables_ok s1 /\
    get_interface_number pid s1 = Ok number s1 /\
    set_interface_number pid' number s1 = Ok false s1 /\
    exists s2, free_interface pid number s1 = Ok true s2 /\ tables_ok s2 /\
      interface_busy_list s2 = interface_busy_list s /\ get_interface_number pid s2 = Ok (-1) s2.
Proof.
  unfold tables_ok. intros (Hp & Hi & Hb) Hn Hfree Hpid Hpid'. unfold INTERFACE_NUMBER in *.
  destruct (index_of_range pid (pid_list s) 0) as [?|Hr]; [lia|]. destruct (index_of_range pid' (pid_list s) 0) as [?|Hr']; [lia|].
  set (k := index_of pid (pid_list s) 0) in *. set (k' := index_of pid' (pid_list s) 0) in *.
  assert (Hk : (Z.to_nat k < length (interface_number_list s))%nat) by (unfold zlen in *; lia).
  assert (Hnb : (Z.to_nat number < length (interface_busy_list s))%nat) by (unfold zlen in *; lia).
  rewrite (set_interface_run pid number s false Hpid ltac:(lia) Hfree). eexists. split; [done|]. fold k. set (s1 := set_ifaces _ _ s).
  assert (Hb1 : interface_busy_list s1 !! Z.to_nat number = Some true) by (cbn; by apply list_lookup_insert_eq).
  split; [split_and!; cbn; unfold zlen in *; rewrite ?length_insert; lia|].
  split; [apply get_interface_run; [done|cbn; by apply list_lookup_insert_eq]|].
  split; [by rewrite (set_interface_run pid' number s1 true Hpid' ltac:(lia) Hb1)|].
  rewrite (free_interface_run pid number s1 true Hpid ltac:(lia) Hb1). eexists. split; [done|]. cbn. fold k.
  rewrite !list_insert_insert_eq, (list_insert_id (interface_busy_list s)) by done.
  split; [split_and!; unfold zlen in *; rewrite ?length_insert; lia|]. split; [done|].
  apply (get_interface_run pid (set_ifaces _ _ s1)); [done|]. cbn. by apply list_lookup_insert_eq.
Qed.

(** From a task that is not registered, claiming or freeing an interface
    is reported as a success and does nothing. *)
Theorem interface_unregistered pid number s :
  index_of pid (pid_list s) 0 = -1 ->
  set_interface_number pid number s = Ok true s /\ free_interface pid number s = Ok true s.
Proof.
  intros Hk. unfold set_interface_number, free_interface, get_thread_number, bind, get, ret. by rewrite Hk.
Qed.

Lemma second_task_unregistered_witness :
  exists s, (do! add_pid_to_list (Some 1%positive) in add_pid_to_list (Some 2%positive)) tables0 = Ok tt s /\
    pid_list s = [Some 1%positive; Some 1%positive] /\ get_thread_number (Some 1%positive) s = Ok 0 s /\
    get_thread_number (Some 2%positive) s = Ok (-1) s.
Proof. apply second_task_unregistered. discriminate. Defined.
(** Two registered tasks. *)
Definition tables2 : tables :=
  {| pid_list := [Some 1%positive; Some 2%positive]; interface_number_list := [-1; -1]; interface_busy_list := [false; false] |}.
Lemma interface_exclusive_witness :
  exists s1, set_interface_number (Some 2%positive) 1 tables2 = Ok true s1 /\ tables_ok s1 /\
    get_interface_number (Some 2%positive) s1 = Ok 1 s1 /\
    set_interface_number (Some 1%positive) 1 s1 = Ok false s1 /\
    exists s2, free_interface (Some 2%positive) 1 s1 = Ok true s2 /\ tables_ok s2 /\
      interface_busy_list s2 = interface_busy_list tables2 /\ get_interface_number (Some 2%positive) s2 = Ok (-1) s2.
Proof.
  apply interface_exclusive; [split_and!; reflexivity|unfold INTERFACE_NUMBER; lia|reflexivity|discriminate|discriminate].
Defined.
Lemma interface_unregistered_witness :
  set_interface_number (Some 3%positive) 1 tables2 = Ok true tables2 /\ free_interface (Some 3%positive) 1 tables2 = Ok true tables2.
Proof. apply interface_unregistered. reflexivity. Defined.
