(* ===== verification/Exception.v ===== *)
(** exception.c and exception.h: TRY_CATCH frames and [raise_exception].  The
    monad's [Raise] is a jump to the innermost frame whose mask accepts the
    exception; [try_catch] is the frame. *)

From Stdlib Require Import ZArith Lia.
From stdpp Require Import base list numbers option.
From S2P Require Import Prelude CLib.

Definition EXCEPTION_ERROR : Z := 1.
Definition EXCEPTION_TIMEOUT : Z := 2.
(** -1, as the [uint32_t] a mask is. *)
Definition EXCEPTION_ALL : Z := 4294967295.

(** ** The frames as the code keeps them *)

(** A [struct exception]: its jump buffer is its identity. *)
Record exception := { e_type : Z; e_msg : list Z; e_mask : Z; e_jmpbuf : nat }.
(** The list from [innermost_exception] along [outer]. *)
Notation frames := (list exception).
(** Where a raise goes: [longjmp(e->jmpbuf, type)] with the frames left, or
    [abort()]. *)
Inductive jump : Type := Longjmp (e : exception) (innermost : frames) | Abort_.

Definition frame_accepts (type mask : Z) : bool := negb (Z.land mask type =? 0).
Fixpoint raise_exception (type : Z) (msg : list Z) (innermost : frames) : jump :=
  match innermost with
  | [] => Abort_
  | e :: outer =>
      if frame_accepts type (e_mask e) then
        Longjmp {| e_type := type; e_msg := msg; e_mask := e_mask e; e_jmpbuf := e_jmpbuf e |} outer
      else raise_exception type msg outer
  end.

(** ** The frame as a combinator

    [TRY_CATCH (e, mask) m], then [e.type] and [e.msg]: [inl] when [m] ran to
    its end, [inr] when it was left by an exception. *)
Definition try_catch {W A} (mask : Z) (m : M W A) : M W (A + Z * list Z) := fun w =>
  match m w with
  | Ok a w' => Ok (inl a) w'
  | Raise type msg w' => if frame_accepts type mask then Ok (inr (type, msg)) w' else Raise type msg w'
  | Fault why w' => Fault why w'
  | Hang => Hang
  end.

(** [m] inside the frames [fs], the innermost first; the result says which
    frame the run ended in and how. *)
Fixpoint within {W A} (fs : frames) (m : M W A) : M W (A + nat * Z * list Z) :=
  match fs with
  | [] => let! a := m in ret (inl a)
  | e :: outer =>
      let! r := within outer (let! r := try_catch (e_mask e) m in ret r) in
      match r with
      | inl (inl a) => ret (inl a)
      | inl (inr (type, msg)) => ret (inr (e_jmpbuf e, type, msg))
      | inr x => ret (inr x)
      end
  end.

Lemma within_raise {W A} (fs : frames) type msg : forall (m : M W A) (w w' : W),
  m w = Raise type msg w' ->
  within fs m w = match raise_exception type msg fs with
                  | Longjmp e _ => Ok (inr (e_jmpbuf e, type, msg)) w'
                  | Abort_ => Raise type msg w'
                  end.
Proof.
  revert A. induction fs as [|e fs IH]; intros A m w w' Hm.
  - cbn. unfold bind. by rewrite Hm.
  - cbn [within raise_exception]. destruct (frame_accepts type (e_mask e)) eqn:Ea.
    + assert (Hin : forall gs B (n : M W B) b v v', n v = Ok b v' -> within gs n v = Ok (inl b) v').
      { clear. induction gs as [|g gs IH]; intros B n b v v' Hn; cbn [within].
        - unfold bind, ret. by rewrite Hn.
        - assert (Hr : within gs (let! r := try_catch (e_mask g) n in ret r) v = Ok (inl (inl b)) v').
          { apply IH. unfold bind, try_catch, ret. by rewrite Hn. }
          by rewrite (bind_Ok _ _ _ _ _ Hr). }
      assert (Hr : within fs (let! r := try_catch (e_mask e) m in ret r) w = Ok (inl (inr (type, msg))) w').
      { apply Hin. unfold bind, try_catch, ret. by rewrite Hm, Ea. }
      by rewrite (bind_Ok _ _ _ _ _ Hr).
    + assert (Hr := IH _ (let! r := try_catch (e_mask e) m in ret r) w w').
      unfold bind at 1. rewrite Hr; [|unfold bind, try_catch; by rewrite Hm, Ea].
      by destruct (raise_exception type msg fs).
Qed.


(** [raise_exception] goes to the innermost frame that accepts the type:
    every frame inside it refuses it, it is told type and message, and exactly
    the frames outside it are left. *)
Theorem raise_innermost type msg fs :
  match raise_exception type msg fs with
  | Longjmp e rest => exists inner e0, fs = inner ++ e0 :: rest /\
      Forall (fun f => frame_accepts type (e_mask f) = false) inner /\
      frame_accepts type (e_mask e0) = true /\
      e = {| e_type := type; e_msg := msg; e_mask := e_mask e0; e_jmpbuf := e_jmpbuf e0 |}
  | Abort_ => Forall (fun f => frame_accepts type (e_mask f) = false) fs
  end.
Proof.
  induction fs as [|e fs IH]; cbn; [constructor|]. destruct (frame_accepts type (e_mask e)) eqn:Ea.
  - exists [], e. by repeat constructor.
  - destruct (raise_exception type msg fs) as [e1 rest|]; [|by constructor].
    destruct IH as (inner & e0 & -> & Hin & Hacc & ->). exists (e :: inner), e0. split_and!; try done. by constructor.
Qed.

(** A TRY_CATCH with EXCEPTION_ALL ends normally or with the exception. *)
Lemma try_catch_all {W A} (m : M W A) w :
  match m w with
  | Ok a w' => try_catch EXCEPTION_ALL m w = Ok (inl a) w'
  | Raise type msg w' => 0 < type < 2 ^ 32 -> try_catch EXCEPTION_ALL m w = Ok (inr (type, msg)) w'
  | Fault why w' => try_catch EXCEPTION_ALL m w = Fault why w'
  | Hang => try_catch EXCEPTION_ALL m w = Hang
  end.
Proof.
  unfold try_catch. destruct (m w) as [a w'|type msg w'|why w'|]; try done. intros Ht.
  unfold frame_accepts, EXCEPTION_ALL. change 4294967295 with (Z.ones 32).
  rewrite Z.land_comm, Z.land_ones, Z.mod_small by lia. by rewrite (proj2 (Z.eqb_neq type 0)) by lia.
Qed.
