(* ===== verification/Morse.v ===== *)
(** morse.c: the error message blinked in morse code, one message per target
    interface. *)

From Stdlib Require Import ZArith Lia String.
From stdpp Require Import base list numbers option.
From S2P Require Import Prelude CLib.

(** [morse_letter]: the bits of each letter, the first one lowest, and their
    number. *)
Definition morse_letter : list (Z * Z) := [
  (29, 8); (343, 12); (1495, 14); (87, 10); (1, 4); (373, 12); (375, 12); (85, 10); (5, 6); (7645, 16);
  (471, 12); (349, 12); (119, 10); (23, 8); (1911, 14); (1501, 14); (7543, 16); (93, 10); (21, 8); (7, 6);
  (117, 10); (469, 12); (477, 12); (1879, 14); (7639, 16); (1399, 14)].

(** What morse.c keeps for one interface.  [m_ptr] is a position in a string. *)
Record morse_state := {
  m_msg : option (list Z);
  m_ptr : option (list Z * Z);
  m_repeat : bool;
  m_code : Z;
  m_bits : Z;
}.
Definition morse0 : morse_state := {| m_msg := None; m_ptr := None; m_repeat := false; m_code := 0; m_bits := 0 |}.
Notation MM := (M morse_state).
Definition set_ptr p s := {| m_msg := m_msg s; m_ptr := p; m_repeat := m_repeat s; m_code := m_code s; m_bits := m_bits s |}.
Definition set_bits c b s := {| m_msg := m_msg s; m_ptr := m_ptr s; m_repeat := m_repeat s; m_code := c; m_bits := b |}.

(** What command.c and gdb_main.c use of morse.c. *)
Class MorseIf (W : Type) := {
  morse : option (list Z) -> bool -> M W unit;
  get_morse_msg : M W (option (list Z));
}.

Definition do_get_morse_msg : MM (option (list Z)) := let! s := get in ret (m_msg s).
Definition do_morse (msg : option (list Z)) (repeat : bool) : MM unit :=
  modify (fun s => {| m_msg := msg; m_ptr := option_map (fun m => (m, 0)) msg; m_repeat := repeat;
                      m_code := m_code s; m_bits := m_bits s |}).
#[global] Instance morse_if : MorseIf morse_state := { morse := do_morse; get_morse_msg := do_get_morse_msg }.

(** The character at a position of a string; the NUL follows the last one. *)
Definition char_at (p : list Z * Z) : MM Z :=
  let '(s, i) := p in
  if (0 <=? i) && (i <=? zlen s) then ret (zget s i) else crash OutOfBounds.

Definition next_letter (c : Z) : Z * Z :=
  if (65 <=? c) && (c <=? 90) then nth (Z.to_nat (c - 65)) morse_letter (0, 4) else (0, 4).
(** The part after a letter has been chosen: emit one bit. *)
Definition emit (code bits : Z) : MM bool :=
  do! modify (set_bits (Z.shiftr code 1) (u8 (bits - 1))) in
  ret (flag code 1).
(** [morse_update], on an interface that exists. *)
Definition morse_update : MM bool :=
  let! s := get in
  match m_ptr s with
  | None => ret false
  | Some (str, i) =>
      if negb (m_bits s =? 0) then emit (m_code s) (m_bits s) else
      let! c := char_at (str, i) in
      do! modify (set_ptr (Some (str, i + 1))) in
      if negb (c =? 0) then let '(code, bits) := next_letter c in emit code bits else
      if m_repeat s then
        match m_msg s with
        | None => crash NullDeref
        | Some m =>
            let! c := char_at (m, 0) in
            do! modify (set_ptr (Some (m, 1))) in
            let '(code, bits) := next_letter c in emit code bits
        end
      else do! modify (set_ptr None) in ret false
  end.

(** ** Playing a message *)

(** The outputs of [n] updates. *)
Fixpoint play (n : nat) : MM (list bool) :=
  match n with
  | O => ret []
  | S n' => let! b := morse_update in let! bs := play n' in ret (b :: bs)
  end.
Lemma play_app n m s : play (n + m) s = (let! a := play n in let! b := play m in ret (a ++ b)) s.
Proof.
  revert s. induction n as [|n IH]; intros s; cbn [play Nat.add].
  - rewrite bind_ret. cbn. symmetry. apply bind_ret_r.
  - rewrite bind_bind. unfold bind at 1 3. destruct (morse_update s) as [b s'| | |]; [|done..].
    rewrite bind_bind. unfold bind at 1. rewrite IH. unfold bind, ret.
    destruct (play n s') as [a s2| | |]; [|done..]. by destruct (play m s2).
Qed.

(** The light and dark of [bits] units, the lowest bit of [code] first. *)
Fixpoint units (n : nat) (code : Z) : list bool :=
  match n with O => [] | S n' => flag code 1 :: units n' (Z.shiftr code 1) end.
Definition pattern (c : Z) : list bool := let '(code, bits) := next_letter c in units (Z.to_nat bits) code.

Lemma next_letter_bits c : 1 <= snd (next_letter c) < 256.
Proof.
  unfold next_letter. destruct ((65 <=? c) && (c <=? 90)) eqn:E; [|cbn; lia].
  apply andb_true_iff in E as [? ?].
  assert (F : Forall (fun p => 1 <= snd p < 256) morse_letter) by (repeat constructor; cbn; lia).
  rewrite Forall_forall in F. apply F. apply nth_In. cbn. lia.
Qed.
Lemma play_units n code s p : m_ptr s = Some p -> (n < 256)%nat -> m_code s = code -> m_bits s = Z.of_nat n ->
  play n s = Ok (units n code) (set_bits (Z.shiftr code (Z.of_nat n)) 0 s).
Proof.
  revert code s. induction n as [|n IH]; intros code s Hp Hn Hc Hb.
  { cbn. unfold ret. f_equal. rewrite Z.shiftr_0_r. unfold set_bits. destruct s; cbn in *. by subst. }
  cbn [play units].
  assert (Hu : morse_update s = Ok (flag code 1) (set_bits (Z.shiftr code 1) (Z.of_nat n) s)).
  { unfold morse_update, bind at 1, get. rewrite Hp. destruct p as [str i]. rewrite (proj2 (Z.eqb_neq _ 0)) by lia. cbn [negb].
    unfold emit, bind, modify, ret. rewrite Hc, Hb. rewrite u8_small by lia. do 2 f_equal. lia. }
  rewrite (bind_Ok _ _ _ _ _ Hu).
  assert (Hr : play n (set_bits (Z.shiftr code 1) (Z.of_nat n) s)
    = Ok (units n (Z.shiftr code 1)) (set_bits (Z.shiftr (Z.shiftr code 1) (Z.of_nat n)) 0 (set_bits (Z.shiftr code 1) (Z.of_nat n) s)))
    by (apply IH; [done|lia|done|done]).
  rewrite (bind_Ok _ _ _ _ _ Hr). unfold ret. f_equal. unfold set_bits. cbn. f_equal. rewrite Z.shiftr_shiftr by lia. f_equal. lia.
Qed.

(** One character of the message. *)
Lemma play_char s str i c : m_ptr s = Some (str, i) -> m_bits s = 0 -> 0 <= i < zlen str -> zget str i = c -> c <> 0 ->
  exists k code, play (Z.to_nat (snd (next_letter c))) s = Ok (pattern c) (set_bits code 0 (set_ptr (Some (str, i + 1)) s)) /\
    Z.to_nat (snd (next_letter c)) = S k.
Proof.
  intros Hp Hb Hi Hc Hnz. pose proof (next_letter_bits c) as Hbits. unfold pattern. destruct (next_letter c) as [code bits] eqn:El.
  cbn [snd] in *. destruct (Z.to_nat bits) as [|k] eqn:Ek; [lia|]. exists k. cbn [play units].
  assert (Hu : morse_update s = Ok (flag code 1) (set_bits (Z.shiftr code 1) (Z.of_nat k) (set_ptr (Some (str, i + 1)) s))).
  { unfold morse_update, bind at 1, get. rewrite Hp, Hb. cbn [Z.eqb negb].
    assert (Hch : char_at (str, i) s = Ok c s).
    { unfold char_at. rewrite (proj2 (Z.leb_le 0 i)), (proj2 (Z.leb_le i _)) by lia. cbn. by rewrite Hc. }
    rewrite (bind_Ok _ _ _ _ _ Hch). unfold bind at 1, modify. rewrite (proj2 (Z.eqb_neq c 0)) by done. cbn [negb]. rewrite El.
    unfold emit, bind, modify, ret. rewrite u8_small by lia. do 2 f_equal. lia. }
  rewrite (bind_Ok _ _ _ _ _ Hu).
  assert (Hr := play_units k (Z.shiftr code 1) (set_bits (Z.shiftr code 1) (Z.of_nat k) (set_ptr (Some (str, i + 1)) s))
    (str, i + 1) eq_refl ltac:(lia) eq_refl eq_refl).
  rewrite (bind_Ok _ _ _ _ _ Hr). exists (Z.shiftr (Z.shiftr code 1) (Z.of_nat k)). by split.
Qed.

Fixpoint duration (l : list Z) : nat :=
  match l with [] => O | c :: l' => (Z.to_nat (snd (next_letter c)) + duration l')%nat end.
Lemma play_from str : Forall (fun c => c <> 0) str -> forall rest pre s, str = pre ++ rest ->
  m_ptr s = Some (str, zlen pre) -> m_bits s = 0 ->
  exists code, play (duration rest) s = Ok (concat (List.map pattern rest)) (set_bits code 0 (set_ptr (Some (str, zlen str)) s)).
Proof.
  intros Hnz. induction rest as [|c rest IH]; intros pre s Es Hp Hb.
  { exists (m_code s). cbn. unfold ret. f_equal. rewrite app_nil_r in Es. subst pre. destruct s; cbn in *. by subst. }
  cbn [duration List.map concat].
  assert (Hi : 0 <= zlen pre < zlen str).
  { pose proof (zlen_nonneg pre). pose proof (zlen_nonneg rest). rewrite Es, zlen_app, zlen_cons. lia. }
  assert (Hc : zget str (zlen pre) = c).
  { rewrite Es, zget_app by apply zlen_nonneg. rewrite (proj2 (Z.ltb_ge _ _)) by lia. by rewrite Z.sub_diag. }
  assert (Hcnz : c <> 0) by (rewrite Es in Hnz; by apply Forall_app in Hnz as [_ [? _]%Forall_cons_1]).
  destruct (play_char s str (zlen pre) c Hp Hb Hi Hc Hcnz) as (k & code & Hr & _).
  rewrite play_app, (bind_Ok _ _ _ _ _ Hr).
  destruct (IH (pre ++ [c]) (set_bits code 0 (set_ptr (Some (str, zlen pre + 1)) s))) as (code' & Hr'); [|by cbn; rewrite zlen_app|done|].
  { by rewrite <- app_assoc. }
  rewrite (bind_Ok _ _ _ _ _ Hr'). by exists code'.
Qed.

(** A message set with [morse(msg, false)] between two letters is played
    exactly once: [morse_update] gives the patterns of its characters one after
    the other, then stays dark. *)
Theorem morse_plays_once s msg n :
  m_bits s = 0 -> Forall (fun c => c <> 0) msg ->
  exists s', (do! do_morse (Some msg) false in play (duration msg + n)) s
    = Ok (concat (List.map pattern msg) ++ replicate n false) s'.
Proof.
  intros Hb Hnz. unfold bind at 1, do_morse, modify. set (s0 := {| m_msg := Some msg |}).
  destruct (play_from msg Hnz msg [] s0 eq_refl eq_refl Hb) as (code & Hr).
  rewrite play_app, (bind_Ok _ _ _ _ _ Hr).
  assert (Hdark : forall m s, m_ptr s = None -> play m s = Ok (replicate m false) s).
  { clear. induction m as [|m IH]; intros s Hp; [done|]. cbn [play replicate].
    assert (Hu : morse_update s = Ok false s) by (unfold morse_update, bind, get; by rewrite Hp).
    by rewrite (bind_Ok _ _ _ _ _ Hu), (bind_Ok _ _ _ _ _ (IH s Hp)). }
  set (s1 := set_bits _ _ _). destruct n as [|n]; [by exists s1|]. cbn [play replicate].
  assert (Hu : morse_update s1 = Ok false (set_ptr None (set_ptr (Some (msg, zlen msg + 1)) s1))).
  { unfold morse_update, bind at 1, get. cbn [m_ptr s1 set_bits set_ptr m_bits Z.eqb negb].
    assert (Hch : char_at (msg, zlen msg) s1 = Ok 0 s1).
    { unfold char_at. pose proof (zlen_nonneg msg). rewrite (proj2 (Z.leb_le 0 _)), (proj2 (Z.leb_le (zlen msg) _)) by lia. cbn.
      unfold ret. f_equal. unfold zget. rewrite (proj2 (Z.ltb_ge _ 0)) by lia. apply nth_overflow. unfold zlen. lia. }
    rewrite (bind_Ok _ _ _ _ _ Hch). done. }
  rewrite !bind_bind, (bind_Ok _ _ _ _ _ Hu). rewrite bind_bind, (bind_Ok _ _ _ _ _ (Hdark n (set_ptr None (set_ptr (Some (msg, zlen msg + 1)) s1)) eq_refl)). by eexists.
Qed.
Lemma morse_plays_once_witness : exists s',
  (do! do_morse (Some (str "SOS")) false in play (duration (str "SOS") + 5)) morse0
    = Ok (concat (List.map pattern (str "SOS")) ++ replicate 5 false) s'.
Proof. apply (morse_plays_once morse0 (str "SOS") 5); [reflexivity|]. repeat constructor; discriminate. Defined.
