(* ===== verification/Frame.v ===== *)
(** Framing: the operations that only talk to the debugger or the platform
    leave targets, controllers and buffers alone. *)

From Stdlib Require Import ZArith Lia String.
From stdpp Require Import base list numbers option gmap.
From S2P Require Import Prelude CLib HexUtils GdbIf MemManager GdbPacket TargetState Target Platform.

Section Keeps.
Context {D : Type}.
Implicit Types w : world D.

(** The same memory: everything but the outside world. *)
Definition same w w' : Prop :=
  heap w' = heap w /\ ctls w' = ctls w /\ pbuf w' = pbuf w /\ debug_bmp w' = debug_bmp w.
Lemma same_refl w : same w w.
Proof. by split_and!. Qed.
Lemma same_trans w1 w2 w3 : same w1 w2 -> same w2 w3 -> same w1 w3.
Proof. unfold same. intros (-> & -> & -> & ->) (-> & -> & -> & ->). done. Qed.

(** However [m] ends (other than by undefined behaviour), memory is as before. *)
Definition keeps {A} (m : M (world D) A) : Prop := forall w,
  match m w with
  | Ok _ w' | Raise _ _ w' => same w w'
  | Fault _ _ | Hang => True
  end.
Lemma keeps_Ok {A} (m : M (world D) A) w a w' : keeps m -> m w = Ok a w' -> same w w'.
Proof. intros Hk Hm. specialize (Hk w). by rewrite Hm in Hk. Qed.

Lemma keeps_ret {A} (a : A) : keeps (ret a).
Proof. intros w. apply same_refl. Qed.
Lemma keeps_bind {A B} (m : M (world D) A) (f : A -> M (world D) B) : keeps m -> (forall a, keeps (f a)) -> keeps (bind m f).
Proof.
  intros Hm Hf w. specialize (Hm w). unfold bind. destruct (m w) as [a w1|ty msg w1|why w1|]; try done.
  specialize (Hf a w1). destruct (f a w1); try done; by eapply same_trans.
Qed.
Lemma keeps_get : keeps get.
Proof. intros w. apply same_refl. Qed.
Lemma keeps_crash {A} why : keeps (A := A) (crash why).
Proof. by intros w. Qed.
Lemma keeps_raise {A} ty msg : keeps (A := A) (raise ty msg).
Proof. intros w. apply same_refl. Qed.
Lemma keeps_hang {A} : keeps (A := A) hang.
Proof. by intros w. Qed.
Lemma keeps_lift {A} (m : M D A) : keeps (lift m).
Proof. intros w. unfold lift. destruct (m (dev w)); try done; apply same_refl. Qed.
Lemma keeps_deref {A} (p : option A) : keeps (deref p).
Proof. destruct p; [apply keeps_ret|apply keeps_crash]. Qed.
Lemma keeps_when b (m : M (world D) unit) : keeps m -> keeps (when b m).
Proof. destruct b; [done|intros _; apply keeps_ret]. Qed.
Lemma keeps_iter {S A} n (body : S -> M (world D) (S + A)) s : (forall s, keeps (body s)) -> keeps (iter n body s).
Proof.
  intros Hb. revert s. induction n as [|n IH]; intros s; [apply keeps_hang|]. cbn [iter].
  apply keeps_bind; [apply Hb|]. intros [s'|a]; [apply IH|apply keeps_ret].
Qed.
Lemma keeps_for_each {A} (l : list A) (body : A -> M (world D) unit) : (forall x, keeps (body x)) -> keeps (for_each l body).
Proof.
  intros Hb. induction l as [|x l IH]; [apply keeps_ret|]. cbn. apply keeps_bind; [apply Hb|done].
Qed.
Lemma keeps_if {A} (b : bool) (m n : M (world D) A) : keeps m -> keeps n -> keeps (if b then m else n).
Proof. by destruct b. Qed.
Lemma keeps_load_n buf off n : keeps (load_n buf off n).
Proof. unfold load_n. apply keeps_if; [apply keeps_ret|apply keeps_crash]. Qed.
Lemma keeps_store_n buf off src : keeps (store_n buf off src).
Proof. unfold store_n. apply keeps_if; [apply keeps_ret|apply keeps_crash]. Qed.
Lemma keeps_load_ctl c : keeps (load_ctl c).
Proof. apply keeps_bind; [apply keeps_get|]. intros w. destruct (ctls w !! c); [apply keeps_ret|apply keeps_crash]. Qed.
Lemma keeps_deref_target t : keeps (deref_target t).
Proof.
  apply keeps_bind; [apply keeps_get|]. intros w. destruct t as [p|]; [|apply keeps_crash].
  destruct (heap w !! p); [apply keeps_ret|apply keeps_crash].
Qed.
End Keeps.

Create HintDb keeps.
#[export] Hint Resolve keeps_ret keeps_get keeps_crash keeps_raise keeps_hang keeps_lift keeps_deref
  keeps_load_n keeps_store_n keeps_load_ctl keeps_deref_target : keeps.
(** Goes through the structure of an operation. *)
Ltac solve_keeps :=
  repeat first
    [ solve [eauto with keeps]
    | apply keeps_bind; [|intros ?]
    | apply keeps_when | apply keeps_iter; intros ? | apply keeps_for_each; intros ? | apply keeps_if
    | progress cbn beta iota
    | match goal with |- keeps (match ?x with _ => _ end) => destruct x end
    | progress cbv zeta ].

Section Packets.
Context {D : Type} `{GdbIf D} `{MemIf D} `{ClockIf D}.

Lemma keeps_putchar c f : keeps (D := D) (gdb_if_putchar c f).
Proof. apply keeps_lift. Qed.
Lemma keeps_getchar : keeps (D := D) gdb_if_getchar.
Proof. apply keeps_lift. Qed.
Lemma keeps_getchar_to t : keeps (D := D) (gdb_if_getchar_to t).
Proof. apply keeps_lift. Qed.
Lemma keeps_alloc n : keeps (D := D) (MemManager_Alloc n).
Proof. apply keeps_lift. Qed.
Lemma keeps_free p : keeps (D := D) (MemManager_Free p).
Proof. apply keeps_lift. Qed.
Lemma keeps_time : keeps (D := D) platform_time_ms.
Proof. apply keeps_lift. Qed.
#[local] Hint Resolve keeps_putchar keeps_getchar keeps_getchar_to keeps_alloc keeps_free : keeps.
Lemma keeps_put_body p : forall n, keeps (D := D) (put_body p n).
Proof. induction p as [|c p IH]; intros n; cbn [put_body]; solve_keeps. Qed.
#[local] Hint Resolve keeps_put_body : keeps.
Lemma keeps_putpacket p : keeps (D := D) (gdb_putpacket p).
Proof. unfold gdb_putpacket, putpacket_body, put_frame. solve_keeps. Qed.
#[local] Hint Resolve keeps_putpacket : keeps.
Lemma keeps_putpacketz p : keeps (D := D) (gdb_putpacketz p).
Proof. apply keeps_putpacket. Qed.
Lemma keeps_putpacket_f p : keeps (D := D) (gdb_putpacket_f p).
Proof. unfold gdb_putpacket_f. solve_keeps. Qed.
Lemma keeps_gdb_out p : keeps (D := D) (gdb_out p).
Proof. unfold gdb_out. solve_keeps. Qed.
#[local] Hint Resolve keeps_gdb_out : keeps.
Lemma keeps_gdb_outf p : keeps (D := D) (gdb_outf p).
Proof. unfold gdb_outf, gdb_voutf. solve_keeps. Qed.
End Packets.
#[export] Hint Resolve keeps_putchar keeps_getchar keeps_getchar_to keeps_alloc keeps_free keeps_time keeps_putpacket
  keeps_putpacketz keeps_putpacket_f keeps_gdb_out keeps_gdb_outf : keeps.
