(* ===== verification/Command.v ===== *)
(** command.c: the monitor commands. *)

From Stdlib Require Import ZArith Lia String.
From stdpp Require Import base list numbers option gmap.
From S2P Require Import Prelude CLib HexUtils GdbIf MemManager GdbPacket TargetState Target Platform Exception Morse.

(** The functions the platform puts into a controller. *)
Class ProbeIf (D : Type) := {
  get_voltage : nat -> M D (list Z);
  srst_set_val : nat -> bool -> M D unit;
  srst_get_val : nat -> M D bool;
  target_set_power : nat -> bool -> M D unit;
  target_get_power : nat -> M D bool;
  voltage_sense : nat -> M D Z;
  max_frequency_set : nat -> Z -> M D unit;
  max_frequency_get : nat -> M D Z;
  set_idle_state : nat -> bool -> M D unit;
}.
(** The scans: they build the target list of the controller and return the
    number of devices, or raise. *)
Class ScanIf (D : Type) := {
  jtag_scan : nat -> option (list Z) -> M (world D) Z;
  adiv5_swdp_scan : nat -> Z -> M (world D) Z;
}.
#[global] Instance world_morse {D} `{MorseIf D} : MorseIf (world D) := {
  morse m r := lift (morse m r);
  get_morse_msg := lift get_morse_msg;
}.

Definition FIRMWARE_VERSION : list Z := str "v1.6.1-409-g7a595ea".
Definition POWER_CONFLICT_THRESHOLD : Z := 5.
Definition FREQ_FIXED : Z := 4294967295.

(** [%2d] and the like: blanks on the left. *)
Definition padl (n : nat) (s : list Z) : list Z := replicate (n - length s) 32 ++ s.
Definition nl : list Z := [10].

(** [strtol(s, NULL, 0)]: the prefix tells the base. *)
Definition strtol0 (s : list Z) : Z :=
  let u := skip_space s in
  let v := match u with c :: r => if (c =? 45) || (c =? 43) then r else u | [] => u end in
  match v with
  | z :: x :: d :: _ =>
      if (z =? 48) && ((x =? 120) || (x =? 88)) && (digit_val d <? 16) then strtol 16 s
      else if z =? 48 then strtol 8 s else strtol 10 s
  | z :: _ => if z =? 48 then strtol 8 s else strtol 10 s
  | [] => 0
  end.

(** [strtok(cmd, blanks)], blanks being space and tab, until it returns NULL. *)
Definition is_sep (c : Z) : bool := (c =? 32) || (c =? 9).
Fixpoint tokens_from (cur : list Z) (s : list Z) : list (list Z) :=
  match s with
  | [] => match cur with [] => [] | _ => [cur] end
  | c :: s' =>
      if is_sep c then match cur with [] => tokens_from [] s' | _ => cur :: tokens_from [] s' end
      else tokens_from (cur ++ [c]) s'
  end.
Definition tokens (s : list Z) : list (list Z) := tokens_from [] s.
Definition count_seps (s : list Z) : Z := zlen (List.filter is_sep s).

Inductive handler : Set :=
| H_version | H_help | H_jtag_scan | H_swdp_scan | H_frequency | H_targets | H_morse | H_halt_timeout
| H_connect_srst | H_hard_srst | H_target_power | H_heapinfo | H_debug_bmp.
Definition cmd_list : list (list Z * handler * list Z) := [
  (str "version", H_version, str "Display firmware version info");
  (str "help", H_help, str "Display help for monitor commands");
  (str "jtag_scan", H_jtag_scan, str "Scan JTAG chain for devices");
  (str "swdp_scan", H_swdp_scan, str "Scan SW-DP for devices");
  (str "frequency", H_frequency, str "set minimum high and low times");
  (str "targets", H_targets, str "Display list of available targets");
  (str "morse", H_morse, str "Display morse error message");
  (str "halt_timeout", H_halt_timeout, str "Timeout (ms) to wait until Cortex-M is halted: (Default 2000)");
  (str "connect_srst", H_connect_srst, str "Configure connect under SRST: (enable|disable)");
  (str "hard_srst", H_hard_srst, str "Force a pulse on the hard SRST line - disconnects target");
  (str "tpwr", H_target_power, str "Supplies power to the target: (enable|disable)");
  (str "heapinfo", H_heapinfo, str "Set semihosting heapinfo");
  (str "debug_bmp", H_debug_bmp,
   str "Output BMP " ++ [34] ++ str "debug" ++ [34] ++ str " strings to the second vcom: (enable|disable)")].

Section Command.
Context {D : Type} `{GdbIf D} `{MemIf D} `{Driver D} `{HostIf D} `{MorseIf D} `{ProbeIf D} `{ScanIf D}.
Notation MW := (M (world D)).
Variable ctl_bytes : nat -> list Z.
(** [%.2f] of a frequency divided in single precision. *)
Variable fmt_2f : Z -> Z -> list Z.

(** A platform function of controller [c]: NULL until the platform's
    initialisation has set them all. *)
Definition platform_call {A} (c : nat) (m : M D A) : MW A :=
  let! tc := load_ctl c in
  if has_platform tc then lift m else crash NullDeref.

Definition argv_at (argv : list arg) (i : nat) : MW arg := deref (argv !! i).
Definition argv_str (argv : list arg) (i : nat) : MW (list Z) :=
  let! a := argv_at argv i in ret (arg_str ctl_bytes a).
(** [(target_controller_t* )argv[0]]. *)
Definition argv_ctl (argv : list arg) : MW nat :=
  let! a := argv_at argv 0 in
  match a with ACtl c => ret c | AStr _ => crash OutOfBounds end.

Definition cmd_version : MW bool :=
  do! gdb_out (str "Black Magic Probe" ++ str "(RubyLink) " ++ FIRMWARE_VERSION) in
  do! gdb_outf (str ", Hardware Version " ++ fmt_d 0 ++ nl) in
  do! gdb_out (str "Copyright (C) 2015  Black Sphere Technologies Ltd." ++ nl) in
  do! gdb_out (str "License GPLv3+: GNU GPL version 3 or later <http://gnu.org/licenses/gpl.html>" ++ nl ++ nl) in
  ret true.

(** With no target the result is -1, true as a [bool]. *)
Definition cmd_help (t : option positive) : MW bool :=
  let! general :=
    match t with
    | None => ret true
    | Some _ => let! (_, x) := deref_target t in
                let! c := deref (t_tc x) in
                let! tc := load_ctl c in ret (has_destroy_callback tc)
    end in
  do! when general (
    do! gdb_out (str "General commands:" ++ nl) in
    for_each cmd_list (fun '(cmd, _, help) => gdb_outf ([9] ++ cmd ++ str " -- " ++ help ++ nl))) in
  match t with
  | None => ret true
  | Some _ => do! target_command_help t in ret true
  end.

Definition display_target (i : Z) (p : positive) : MW unit :=
  let! x := load_target p in
  let! name := deref (driver x) in
  let cname := default [] (core x) in
  if eqb_str name (str "ARM Cortex-M") then
    gdb_outf (str "***" ++ padl 2 (fmt_d i) ++ (if attached x then str " * " else str " ") ++ str "Unknown " ++ name
      ++ str " Designer " ++ padl 3 (fmt_x 1 (t_designer x)) ++ str " Partno " ++ padl 3 (fmt_x 1 (idcode x))
      ++ [32] ++ cname ++ nl)
  else
    gdb_outf (padl 2 (fmt_d i) ++ str "   " ++ (if attached x then str "*" else str " ") ++ str "  " ++ name ++ [32] ++ cname ++ nl).
Definition cmd_targets (argv : list arg) : MW bool :=
  let! c := argv_ctl argv in
  do! gdb_out (str "Available Targets:" ++ nl) in
  do! gdb_out (str "No. Att Driver" ++ nl) in
  let! tc := load_ctl c in
  let! n := target_foreach (target_list tc) display_target in
  if n =? 0 then do! gdb_out (str "No usable targets found." ++ nl) in ret false
  else ret true.

(** The parts the two scans share: the voltage and reset lines before, the
    reports after. *)
Definition scan_prepare (c : nat) : MW unit :=
  let! tc := load_ctl c in
  do! when (has_platform tc) (let! v := platform_call c (get_voltage c) in gdb_outf (str "Target voltage: " ++ v ++ nl)) in
  let! tc := load_ctl c in
  when (connect_assert_srst tc) (platform_call c (srst_set_val c true)).
Definition scan_report (c : nat) (argv : list arg) (failed : list Z) (r : Z + Z * list Z) : MW bool :=
  let! devs :=
    match r with
    | inl devs => ret devs
    | inr (type, msg) =>
        do! if type =? EXCEPTION_TIMEOUT then gdb_outf (str "Timeout during scan. Is target stuck in WFI?" ++ nl)
            else if type =? EXCEPTION_ERROR then gdb_outf (str "Exception: " ++ msg ++ nl)
            else ret tt in
        ret (-1)
    end in
  if devs <=? 0 then
    do! platform_call c (srst_set_val c false) in
    do! gdb_out (failed ++ nl) in
    ret false
  else
    do! cmd_targets argv in
    do! morse None false in
    ret true.

Definition cmd_jtag_scan (argv : list arg) : MW bool :=
  let! c := argv_ctl argv in
  let args := List.tl argv in
  do! scan_prepare c in
  let irlens := List.map (fun a => u8 (strtol 10 (arg_str ctl_bytes a))) (List.tl args) ++ [0] in
  let! r := try_catch EXCEPTION_ALL (jtag_scan c (if 1 <? zlen args then Some irlens else None)) in
  scan_report c argv (str "JTAG device scan failed!") r.
Definition cmd_swdp_scan (argv : list arg) : MW bool :=
  let! c := argv_ctl argv in
  let args := List.tl argv in
  let! targetid := if 1 <? zlen args then let! s := argv_str args 1 in ret (u32 (strtol0 s)) else ret 0 in
  do! scan_prepare c in
  let! r := try_catch EXCEPTION_ALL (adiv5_swdp_scan c targetid) in
  scan_report c argv (str "SW-DP scan failed!") r.

Definition cmd_frequency (argv : list arg) : MW bool :=
  let! c := argv_ctl argv in
  let args := List.tl argv in
  do! when (zlen args =? 2) (
    let! s := argv_str args 1 in
    let '(v, rest) := strtol_end 10 s in
    let frequency := u32 v in
    let frequency := match rest with
                     | p :: _ => if p =? chr "k" then u32 (frequency * 1000)
                                 else if p =? chr "M" then u32 (frequency * 1000000) else frequency
                     | [] => frequency
                     end in
    platform_call c (max_frequency_set c frequency)) in
  let! freq := platform_call c (max_frequency_get c) in
  do! if freq =? FREQ_FIXED then gdb_outf (str "SWJ frequency is fixed" ++ nl)
      else if 1000000 <=? freq then gdb_outf (str "Max SWJ frequency is " ++ fmt_2f freq 1000000 ++ str " MHz" ++ nl)
      else if 1000 <=? freq then gdb_outf (str "Max SWJ frequency is " ++ fmt_2f freq 1000 ++ str " kHz" ++ nl)
      else gdb_outf (str "Max SWJ frequency is " ++ fmt_2f freq 1 ++ str " Hz" ++ nl) in
  ret true.

Definition cmd_morse : MW bool :=
  let! msg := get_morse_msg in
  do! match msg with Some m => gdb_outf (m ++ nl) | None => ret tt end in
  ret true.

(** The value parsed, if any; otherwise a warning has been printed. *)
Definition parse_enable_or_disable (s : list Z) : MW (option bool) :=
  if zlen s =? 0 then do! gdb_outf (str "'enable' or 'disable' argument must be provided" ++ nl) in ret None
  else if prefixb s (str "enable") then ret (Some true)
  else if prefixb s (str "disable") then ret (Some false)
  else do! gdb_outf (str "Argument '" ++ s ++ str "' not recognized as 'enable' or 'disable'" ++ nl) in ret None.
Definition enabled (b : bool) : list Z := if b then str "enabled" else str "disabled".
Definition unrecognized : MW unit := gdb_outf (str "Unrecognized command format" ++ nl).

Definition cmd_connect_srst (argv : list arg) : MW bool :=
  let! c := argv_ctl argv in
  let args := List.tl argv in
  let! print_status :=
    if zlen args =? 1 then ret true
    else if zlen args =? 2 then
      let! s := argv_str args 1 in
      let! v := parse_enable_or_disable s in
      match v with Some b => do! upd_ctl c (set_connect_srst b) in ret true | None => ret false end
    else do! unrecognized in ret false in
  do! when print_status (
    let! tc := load_ctl c in
    gdb_outf (str "Assert SRST during connect: " ++ enabled (connect_assert_srst tc) ++ nl)) in
  ret true.

Definition cmd_halt_timeout (t : option positive) (argv : list arg) : MW bool :=
  do! when (1 <? zlen argv) (
    let! s := argv_str argv 1 in
    let! (_, x) := deref_target t in
    let! c := deref (t_tc x) in
    upd_ctl c (set_halt_timeout (u32 (strtol 10 s)))) in
  let! (_, x) := deref_target t in
  let! c := deref (t_tc x) in
  let! tc := load_ctl c in
  do! gdb_outf (str "Cortex-M timeout to wait for device haltes: " ++ fmt_d (i32 (cortexm_wait_timeout tc)) ++ nl) in
  ret true.

Definition cmd_hard_srst (argv : list arg) : MW bool :=
  let! c := argv_ctl argv in
  do! target_list_free c in
  do! platform_call c (srst_set_val c true) in
  do! platform_call c (srst_set_val c false) in
  ret true.

Definition cmd_target_power (argv : list arg) : MW bool :=
  let! c := argv_ctl argv in
  let args := List.tl argv in
  do! if zlen args =? 1 then
        let! p := platform_call c (target_get_power c) in
        gdb_outf (str "Target Power: " ++ enabled p ++ nl)
      else if zlen args =? 2 then
        let! s := argv_str args 1 in
        let! v := parse_enable_or_disable s in
        match v with
        | None => ret tt
        | Some want_enable =>
            let! conflict :=
              if want_enable then
                let! on := platform_call c (target_get_power c) in
                if on : bool then ret false else
                let! v := platform_call c (voltage_sense c) in ret (POWER_CONFLICT_THRESHOLD <? v)
              else ret false in
            if conflict : bool then
              let! v := platform_call c (get_voltage c) in
              gdb_outf (str "Target already powered (" ++ v ++ str ")" ++ nl)
            else
              do! platform_call c (target_set_power c want_enable) in
              gdb_outf ((if want_enable then str "Enabling" else str "Disabling") ++ str " target power" ++ nl)
        end
      else unrecognized in
  ret true.

(** [argc] still counts the controller pointer here. *)
Definition cmd_debug_bmp (argv : list arg) : MW bool :=
  let! print_status :=
    if zlen argv =? 1 then ret true
    else if zlen argv =? 2 then
      let! s := argv_str argv 1 in
      let! v := parse_enable_or_disable s in
      match v with Some b => do! modify (set_debug_bmp b) in ret true | None => ret false end
    else do! unrecognized in ret false in
  do! when print_status (
    let! w := get in gdb_outf (str "Debug mode is " ++ enabled (debug_bmp w) ++ nl)) in
  ret true.

Definition fmt_p (x : Z) : list Z := str "0x" ++ fmt_x 1 x.
Definition cmd_heapinfo (t : option positive) (argv : list arg) : MW bool :=
  do! match t with
      | None => gdb_out (str "not attached" ++ nl)
      | Some _ =>
          if zlen argv =? 5 then
            let! a1 := argv_str argv 1 in let! a2 := argv_str argv 2 in
            let! a3 := argv_str argv 3 in let! a4 := argv_str argv 4 in
            let heap_base := strtoul 16 a1 in let heap_limit := strtoul 16 a2 in
            let stack_base := strtoul 16 a3 in let stack_limit := strtoul 16 a4 in
            do! gdb_outf (str "heapinfo heap_base: " ++ fmt_p heap_base ++ str " heap_limit: " ++ fmt_p heap_limit
              ++ str " stack_base: " ++ fmt_p stack_base ++ str " stack_limit: " ++ fmt_p stack_limit ++ nl) in
            target_set_heapinfo t heap_base heap_limit stack_base stack_limit
          else gdb_outf (str "heapinfo heap_base heap_limit stack_base stack_limit" ++ nl)
      end in
  ret true.

Definition run_handler (h : handler) (t : option positive) (argv : list arg) : MW bool :=
  match h with
  | H_version => cmd_version
  | H_help => cmd_help t
  | H_jtag_scan => cmd_jtag_scan argv
  | H_swdp_scan => cmd_swdp_scan argv
  | H_frequency => cmd_frequency argv
  | H_targets => cmd_targets argv
  | H_morse => cmd_morse
  | H_halt_timeout => cmd_halt_timeout t argv
  | H_connect_srst => cmd_connect_srst argv
  | H_hard_srst => cmd_hard_srst argv
  | H_target_power => cmd_target_power argv
  | H_heapinfo => cmd_heapinfo t argv
  | H_debug_bmp => cmd_debug_bmp argv
  end.

(** The first command the word is a prefix of. *)
Fixpoint find_builtin (word : list Z) (l : list (list Z * handler * list Z)) : option handler :=
  match l with
  | [] => None
  | (name, h, _) :: l' => if prefixb word name then Some h else find_builtin word l'
  end.

(** [cmd] is the text up to its NUL.  argv has room for two entries and one
    more per blank; the entries the tokens do not fill are NULL, as
    [MemManager_Alloc] clears the block. *)
Definition command_process (c : nat) (cmd : list Z) : MW Z :=
  let argc := 2 + count_seps cmd in
  let! block := MemManager_Alloc (4 * argc) in
  let! h := deref block in
  let argv := ACtl c :: List.map AStr (tokens cmd) in
  let! word := argv_str argv 1 in
  let! tc := load_ctl c in
  match find_builtin word cmd_list with
  | Some b =>
      let! ok := run_handler b (cur_target tc) argv in
      do! MemManager_Free (Some h) in
      ret (if ok : bool then 0 else 1)
  | None =>
      match cur_target tc with
      | None => ret (-1)
      | Some _ =>
          let! retVal := target_command ctl_bytes (cur_target tc) argv in
          do! MemManager_Free (Some h) in
          ret retVal
      end
  end.
End Command.
