(* ===== verification/CommandProps.v ===== *)
(** Theorems about the monitor commands of Command.v. *)

From Stdlib Require Import ZArith Lia String.
From stdpp Require Import base list numbers option gmap.
From S2P Require Import Prelude CLib HexUtils GdbIf MemManager GdbPacket TargetState Target TargetProps Platform Exception Morse Frame Command Crc32.

(** ** Splitting the command *)

Lemma tokens_from_spec s : forall cur, Forall (fun c => is_sep c = false) cur ->
  Forall (fun t => t <> [] /\ Forall (fun c => is_sep c = false) t) (tokens_from cur s) /\
  concat (tokens_from cur s) = cur ++ List.filter (fun c => negb (is_sep c)) s /\
  zlen (tokens_from cur s) <= count_seps s + 1.
Proof.
  unfold count_seps. induction s as [|c s IH]; intros cur Hcur; cbn [tokens_from List.filter].
  - destruct cur as [|a cur]; cbn; [split_and!; [done|done|unfold zlen; cbn; lia]|].
    split_and!; [by repeat constructor; inversion Hcur|by rewrite app_nil_r|unfold zlen; cbn; lia].
  - destruct (is_sep c) eqn:Ec; cbn [negb].
    + destruct (IH [] (Forall_nil_2 _)) as (H1 & H2 & H3). destruct cur as [|a cur].
      * split_and!; [done|done|]. rewrite zlen_cons. lia.
      * cbn [concat]. rewrite H2. split_and!; [by constructor|done|]. rewrite !zlen_cons. lia.
    + assert (Hc : Forall (fun c => is_sep c = false) (cur ++ [c])) by (apply Forall_app; split; [done|by constructor]).
      destruct (IH _ Hc) as (H1 & H2 & H3). split_and!; [done| |done]. rewrite H2. by rewrite <- app_assoc.
Qed.

(** The tokens [command_process] stores are the non-empty runs of
    characters between blanks, in order and complete, and with the controller
    pointer in front they never exceed the entries allocated for argv. *)
Theorem tokens_fit cmd :
  Forall (fun t => t <> [] /\ Forall (fun c => is_sep c = false) t) (tokens cmd) /\
  concat (tokens cmd) = List.filter (fun c => negb (is_sep c)) cmd /\
  1 + zlen (tokens cmd) <= 2 + count_seps cmd.
Proof. destruct (tokens_from_spec cmd [] (Forall_nil_2 _)) as (H1 & H2 & H3). split_and!; [done|done|unfold tokens; lia]. Qed.

Section Props.
Context {D : Type} `{GdbIf D} `{MemIf D} `{Driver D} `{HostIf D} `{MorseIf D} `{ProbeIf D} `{ScanIf D}.
Variable ctl_bytes : nat -> list Z.
Variable fmt_2f : Z -> Z -> list Z.
Implicit Types w : world D.

(** The allocation of argv succeeded. *)
Definition argv_block (cmd : list Z) w h w' : Prop := MemManager_Alloc (4 * (2 + count_seps cmd)) w = Ok (Some h) w'.

(** An empty monitor command dereferences a null pointer: argv[1] was
    never set. *)
Theorem empty_command_null c cmd w h w' :
  tokens cmd = [] -> argv_block cmd w h w' ->
  command_process ctl_bytes fmt_2f c cmd w = Fault NullDeref w'.
Proof. intros Ht Ha. unfold command_process. rewrite (bind_Ok _ _ _ _ _ Ha), Ht. done. Qed.

Lemma find_command_none (word : list Z) cmds : (forall c, In c cmds -> prefixb word (c_cmd c) = false) -> find_command word cmds = None.
Proof.
  induction cmds as [|c cmds IH]; intros Hn; [done|]. cbn. rewrite (Hn c) by (by left). apply IH. intros c' Hc'. apply Hn. by right.
Qed.

(** A command that is none of the probe's own is never found among the
    commands of the target: argv[0], which [target_command] compares, is the
    controller pointer, so unless its bytes happen to spell a command the
    result is -1 whatever was typed. *)
Theorem target_commands_unreachable c cmd w h w1 tc p t word rest :
  tokens cmd = word :: rest -> find_builtin word cmd_list = None ->
  argv_block cmd w h w1 -> ctls w1 !! c = Some tc -> cur_target tc = Some p -> heap w1 !! p = Some t ->
  (forall k, In k (concat (List.map tc_cmds (commands t))) -> prefixb (ctl_bytes c) (c_cmd k) = false) ->
  (exists d, MemManager_Free (Some h) (dev w1) = Ok tt d) ->
  exists w', command_process ctl_bytes fmt_2f c cmd w = Ok (-1) w' /\ same w1 w'.
Proof.
  intros Ht Hf Ha Hc Hcur Hp Hk [d Hd]. unfold command_process. rewrite (bind_Ok _ _ _ _ _ Ha). unfold deref at 1. rewrite bind_ret, Ht.
  unfold argv_str, argv_at. cbn [lookup list_lookup List.map deref]. rewrite bind_bind, bind_ret, bind_ret.
  rewrite (bind_Ok _ _ _ _ _ (load_ctl_Ok _ _ _ Hc)). cbn [arg_str]. rewrite Hf, Hcur.
  assert (Hr : target_command ctl_bytes (Some p) (ACtl c :: List.map AStr (word :: rest)) w1 = Ok (-1) w1).
  { unfold target_command. rewrite (bind_Ok _ _ _ _ _ (deref_target_Ok _ _ _ Hp)). cbn [lookup list_lookup deref].
    rewrite bind_ret. cbn [arg_str]. by rewrite find_command_none. }
  change (List.map AStr (word :: rest)) with (AStr word :: List.map AStr rest) in *.
  rewrite (bind_Ok _ _ _ _ _ Hr). exists (set_dev d w1). split; [|apply same_refl || by split_and!].
  cbn. unfold bind, lift. by rewrite Hd.
Qed.

(** [heapinfo] with the four addresses its help asks for only prints its
    usage: the count it tests includes the controller pointer and its own
    name. *)
Theorem heapinfo_ignores_arguments p c name a1 a2 a3 a4 w :
  match cmd_heapinfo ctl_bytes (Some p) [ACtl c; AStr name; AStr a1; AStr a2; AStr a3; AStr a4] w with
  | Ok r w' => r = true /\ same w w'
  | Raise _ _ w' => same w w'
  | Fault _ _ | Hang => True
  end.
Proof.
  unfold cmd_heapinfo. cbn [zlen length]. change (zlen _ =? 5) with false. cbv iota.
  pose proof (keeps_gdb_outf (D := D) (str "heapinfo heap_base heap_limit stack_base stack_limit" ++ nl) w) as Hk.
  unfold bind, ret. destruct (gdb_outf _ w); done.
Qed.

(** [halt_timeout] on an attached target always sets the timeout to 0: the
    number it reads is its own name. *)
Theorem halt_timeout_zero p t c tc name args w w' :
  prefixb name (str "halt_timeout") = true -> name <> [] ->
  heap w !! p = Some t -> t_tc t = Some c -> ctls w !! c = Some tc ->
  cmd_halt_timeout ctl_bytes (Some p) (ACtl c :: AStr name :: args) w = Ok true w' ->
  option_map cortexm_wait_timeout (ctls w' !! c) = Some 0.
Proof.
  intros Hn Hne Hp Htc Hc. unfold cmd_halt_timeout.
  assert (Hac : 1 <? zlen (ACtl c :: AStr name :: args) = true).
  { apply Z.ltb_lt. rewrite !zlen_cons. pose proof (zlen_nonneg args). lia. }
  assert (Hz : strtol 10 name = 0).
  { apply prefixb_spec in Hn as [r Hr]. destruct name as [|x name]; [done|]. cbn in Hr. injection Hr as Hx _. subst x.
    destruct name as [|y [|z name]]; vm_compute; reflexivity. }
  assert (Hset : (let! s := argv_str ctl_bytes (ACtl c :: AStr name :: args) 1 in
    let! (_, x) := deref_target (Some p) in let! c := deref (t_tc x) in
    upd_ctl c (set_halt_timeout (u32 (strtol 10 s)))) w = Ok tt (set_ctls (<[c := set_halt_timeout (u32 0) tc]> (ctls w)) w)).
  { unfold argv_str, argv_at. cbn [lookup list_lookup deref]. rewrite bind_bind, bind_ret, bind_ret.
    rewrite (bind_Ok _ _ _ _ _ (deref_target_Ok _ _ _ Hp)), Htc. unfold deref. rewrite bind_ret.
    rewrite (upd_ctl_Ok _ _ _ _ Hc). cbn [arg_str]. by rewrite Hz. }
  rewrite Hac. cbn [when]. rewrite (bind_Ok _ _ _ _ _ Hset).
  set (w1 := set_ctls _ w). assert (Hp1 : heap w1 !! p = Some t) by done.
  rewrite (bind_Ok _ _ _ _ _ (deref_target_Ok _ _ _ Hp1)), Htc. unfold deref at 1. rewrite bind_ret.
  assert (Hc1 : ctls w1 !! c = Some (set_halt_timeout (u32 0) tc)) by (cbn; apply lookup_insert_eq).
  rewrite (bind_Ok _ _ _ _ _ (load_ctl_Ok _ _ _ Hc1)). intros Hrun. apply bind_inv in Hrun as (u & w2 & Hr2 & Hret).
  unfold ret in Hret. injection Hret as <-. destruct (keeps_Ok _ _ _ _ (keeps_gdb_outf _) Hr2) as (_ & -> & _). by rewrite Hc1.
Qed.

Lemma keeps_platform_call {A} c (m : M D A) : keeps (platform_call c m).
Proof. unfold platform_call. solve_keeps. Qed.
#[local] Hint Resolve keeps_platform_call : keeps.
Lemma keeps_scan_prepare c : keeps (scan_prepare c).
Proof. unfold scan_prepare. solve_keeps. Qed.

(** A scan that raises does not escape its command: [swdp_scan] reports it
    and fails, and targets and controllers are as the scan left them. *)
Theorem swdp_scan_catches c name w b w' :
  (forall v, exists type msg v', adiv5_swdp_scan c 0 v = Raise type msg v' /\ same v v' /\ 0 < type < 2 ^ 32) ->
  cmd_swdp_scan ctl_bytes [ACtl c; AStr name] w = Ok b w' -> b = false /\ same w w'.
Proof.
  intros Hscan. unfold cmd_swdp_scan, argv_ctl, argv_at. cbn [lookup list_lookup deref List.tl]. rewrite bind_bind, !bind_ret.
  change (1 <? zlen [AStr name]) with false. cbv iota. rewrite bind_ret. intros Hrun.
  apply bind_inv in Hrun as ([] & w1 & Hp & Hrun). pose proof (keeps_Ok _ _ _ _ (keeps_scan_prepare c) Hp) as S1.
  apply bind_inv in Hrun as (r & w2 & Ht & Hrun). destruct (Hscan w1) as (type & msg & w3 & Hs & S2 & Hty).
  pose proof (try_catch_all (adiv5_swdp_scan c 0) w1) as Hall. rewrite Hs in Hall. rewrite (Hall Hty) in Ht. injection Ht as <- <-.
  unfold scan_report in Hrun. apply bind_inv in Hrun as (devs & w4 & Hd & Hrun).
  apply bind_inv in Hd as ([] & w5 & Hmsg & Hd). unfold ret in Hd. injection Hd as <- <-.
  assert (S3 : same w3 w5) by (eapply keeps_Ok; [|exact Hmsg]; solve_keeps).
  cbn [Z.leb Z.compare] in Hrun. apply bind_inv in Hrun as ([] & w6 & Hsr & Hrun).
  assert (S4 : same w5 w6) by (eapply keeps_Ok; [|exact Hsr]; solve_keeps).
  apply bind_inv in Hrun as ([] & w7 & Ho & Hrun). unfold ret in Hrun. injection Hrun as <- <-.
  assert (S5 : same w6 w7) by (eapply keeps_Ok; [|exact Ho]; solve_keeps).
  split; [done|]. eauto using same_trans.
Qed.
End Props.

(** ** Concrete commands *)
Module CommandSim.
Import CrcSim.
#[global] Instance sim_mem : MemIf unit := { MemManager_Alloc _ := ret (Some 9%positive); MemManager_Free _ := ret tt }.
#[global] Instance sim_host : HostIf unit := { host_call _ _ := ret 0 }.
#[global] Instance sim_morse : MorseIf unit := { morse _ _ := ret tt; get_morse_msg := ret None }.
#[global] Instance sim_probe : ProbeIf unit := {
  get_voltage _ := ret (str "not supported"); srst_set_val _ _ := ret tt; srst_get_val _ := ret false;
  target_set_power _ _ := ret tt; target_get_power _ := ret false; voltage_sense _ := ret 0;
  max_frequency_set _ _ := ret tt; max_frequency_get _ := ret 1000000; set_idle_state _ _ := ret tt;
}.
(** Nothing answers. *)
#[global] Instance sim_scan : ScanIf unit := {
  jtag_scan _ _ := raise EXCEPTION_ERROR (str "jtag");
  adiv5_swdp_scan _ _ := raise EXCEPTION_TIMEOUT (str "no answer");
}.
(** The bytes of a function pointer of the image. *)
Definition ctl_bytes (_ : nat) : list Z := [0x41; 0x12; 0x00; 0x10].
Definition fmt_2f (_ _ : Z) : list Z := str "1.00".
Definition with_command : target := set_commands [{| tc_handle := 3; specific_name := str "STM32F1";
  tc_cmds := [cmd_entry "erase_mass" "erase_mass" "Erase entire flash memory"] |}] (set_conn true (Some 0%nat) readable).
Definition ctl : controller := TargetSim.ctl.
Definition w0 : world unit :=
  {| heap := {[ 5%positive := with_command ]}; ctls := {[ 0%nat := ctl ]}; pbuf := []; debug_bmp := false; dev := tt |}.
(** A frame is acknowledged when the channel answers '+'. *)
End CommandSim.

Lemma empty_command_null_witness :
  command_process CommandSim.ctl_bytes CommandSim.fmt_2f 0 [] CommandSim.w0 = Fault NullDeref CommandSim.w0.
Proof. apply (empty_command_null _ _ 0 [] CommandSim.w0 9); reflexivity. Defined.
Lemma target_commands_unreachable_witness : exists w',
  command_process CommandSim.ctl_bytes CommandSim.fmt_2f 0 (str "erase_mass") CommandSim.w0 = Ok (-1) w' /\ same CommandSim.w0 w'.
Proof.
  apply (target_commands_unreachable _ _ 0 (str "erase_mass") CommandSim.w0 9 CommandSim.w0 CommandSim.ctl 5
    CommandSim.with_command (str "erase_mass") []); try reflexivity.
  - intros k [<-|[]]. reflexivity.
  - exists tt. reflexivity.
Defined.
Lemma halt_timeout_zero_witness : exists w',
  cmd_halt_timeout CommandSim.ctl_bytes (Some 5%positive) [ACtl 0%nat; AStr (str "halt_timeout"); AStr (str "500")] CommandSim.w0 = Ok true w' /\
  option_map cortexm_wait_timeout (ctls w' !! 0%nat) = Some 0.
Proof.
  eexists. split; [vm_compute; reflexivity|].
  eapply (halt_timeout_zero CommandSim.ctl_bytes 5 CommandSim.with_command 0 CommandSim.ctl (str "halt_timeout") [AStr (str "500")]
    CommandSim.w0); [reflexivity|discriminate|reflexivity|reflexivity|reflexivity|vm_compute; reflexivity].
Defined.
Lemma swdp_scan_catches_witness : exists b w',
  cmd_swdp_scan CommandSim.ctl_bytes [ACtl 0%nat; AStr (str "swdp_scan")] CommandSim.w0 = Ok b w' /\ (b = false /\ same CommandSim.w0 w').
Proof.
  eexists _, _. split; [vm_compute; reflexivity|].
  eapply (swdp_scan_catches CommandSim.ctl_bytes 0 (str "swdp_scan") CommandSim.w0); [|vm_compute; reflexivity].
  intros v. eexists _, _, v. split; [reflexivity|]. split; [apply same_refl|unfold EXCEPTION_TIMEOUT; lia].
Defined.
