(* ===== verification/GdbMain.v ===== *)
(** gdb_main.c and gdb_hostio.c: the GDB remote protocol server. *)

From Stdlib Require Import ZArith Lia String.
From stdpp Require Import base list numbers option gmap.
From S2P Require Import Prelude CLib HexUtils GdbIf MemManager GdbPacket TargetState Target TargetFlash Platform Crc32 Exception Morse Command.

Definition GDB_SIGINT : Z := 2.
Definition GDB_SIGTRAP : Z := 5.
Definition GDB_SIGSEGV : Z := 11.
Definition GDB_SIGLOST : Z := 29.
Definition BUF_SIZE : Z := 1024.

(** The file's own [gdb_controller], which the handlers attach targets to;
    main.c runs the loop on another one. *)
Definition gdb_controller : nat := 0%nat.

(** What [gdb_main_init_target_controller] makes of a controller. *)
Definition init_controller : controller :=
  {| has_destroy_callback := true; has_printf := true;
     h_open := true; h_close := true; h_read := true; h_write := true; h_lseek := true; h_rename := true;
     h_unlink := true; h_stat := true; h_fstat := true; h_gettimeofday := true; h_isatty := true; h_system := true;
     errno_ := 0; interrupted := false; cur_target := None; last_target := None; target_list := [];
     flash_mode := false; connect_assert_srst := false; cortexm_wait_timeout := 2000;
     running_status := false; has_platform := false |}.

(** [",%x,%d"] and the like *)
Definition comma : conv := CLit 44.
Definition colon : conv := CLit 58.

Section GdbMain.
Context {D : Type} `{GdbIf D} `{MemIf D} `{Driver D} `{HostIf D} `{MorseIf D} `{ProbeIf D} `{ScanIf D} `{ClockIf D}.
Notation MW := (M (world D)).
Variable ctl_bytes : nat -> list Z.
Variable fmt_2f : Z -> Z -> list Z.
(** remote.c *)
Variable remotePacketProcess : Z -> list Z -> MW (list Z).
(** A bound on the turns of the loops that wait. *)
Variable fuel : nat.

Definition gdb_main_init_target_controller (c : nat) : MW unit := store_ctl c init_controller.

(** [hexify(pbuf, bytes, len)]: what is then sent from pbuf. *)
Definition hexify_pbuf (bytes : list Z) : MW (list Z) :=
  let! w := get in
  let! b := store_n (pbuf w) 0 (hexify bytes) in
  do! modify (set_pbuf b) in
  ret (hexify_digits bytes).
(** A local that [sscanf] may have left alone. *)
Definition scanned (vals : list Z) (i : nat) : MW Z :=
  match vals !! i with Some v => ret v | None => crash UninitRead end.
Definition cur (c : nat) : MW (option positive) := let! tc := load_ctl c in ret (cur_target tc).
Definition set_run (c : nat) (b : bool) : MW unit := upd_ctl c (set_running b).
Definition reply_error (e : bool) : MW unit := gdb_putpacketz (if e then str "E01" else str "OK").
(** ERROR_IF_NO_TARGET *)
Definition with_target (c : nat) (m : option positive -> MW unit) : MW unit :=
  let! t := cur c in
  match t with None => gdb_putpacketz (str "EFF") | Some _ => m t end.

(** ** Memory and registers *)
Definition handle_g (t : option positive) : MW unit :=
  let! n := target_regs_size t in
  let! regs := target_regs_read fuel t in
  let! regs := load_n regs 0 n in
  let! hex := hexify_pbuf regs in gdb_putpacket hex.
Definition handle_m (t : option positive) : MW unit :=
  let! w := get in
  let '(vals, _) := scan (lits "m" ++ [CHex nowidth; comma; CHex nowidth]) (pbuf w) in
  let! len := scanned vals 1 in
  if 512 <? len then gdb_putpacketz (str "E02") else
  let! addr := scanned vals 0 in
  let! (mem, e) := target_mem_read t addr len in
  if e : bool then gdb_putpacketz (str "E01") else
  let! mem := load_n mem 0 len in
  let! hex := hexify_pbuf mem in gdb_putpacket hex.
Definition handle_G (t : option positive) : MW unit :=
  let! n := target_regs_size t in
  let! w := get in
  let! hex := load_n (pbuf w) 1 (2 * n) in
  do! target_regs_write fuel t (unhexify hex (Z.to_nat n)) in
  gdb_putpacketz (str "OK").
Definition handle_M (t : option positive) (size : Z) : MW unit :=
  let! w := get in
  let '(vals, _) := scan (lits "M" ++ [CHex nowidth; comma; CHex nowidth; colon; CPos]) (pbuf w) in
  let! len := scanned vals 1 in
  let! hex := scanned vals 2 in
  if u32 (size - hex) / 2 <? len then gdb_putpacketz (str "E02") else
  let! addr := scanned vals 0 in
  let! digits := load_n (pbuf w) hex (2 * len) in
  let! e := target_mem_write t addr (unhexify digits (Z.to_nat len)) in
  reply_error e.
Definition handle_X (t : option positive) (size : Z) : MW unit :=
  let! w := get in
  let '(vals, _) := scan (lits "X" ++ [CHex nowidth; comma; CHex nowidth; colon; CPos]) (pbuf w) in
  let! len := scanned vals 1 in
  let! bin := scanned vals 2 in
  if u32 (size - bin) <? len then gdb_putpacketz (str "E02") else
  let! addr := scanned vals 0 in
  let! data := load_n (pbuf w) bin len in
  let! e := target_mem_write t addr data in
  reply_error e.
(** The result of the register access is a [ssize_t] stored in a [size_t]. *)
Definition handle_p (t : option positive) : MW unit :=
  let! w := get in
  let '(vals, _) := scan (lits "p" ++ [CHex nowidth]) (pbuf w) in
  let! reg := scanned vals 0 in
  let! (r, val) := target_reg_read t reg 8 in
  let s := u32 r in
  if 0 <? s then
    let! val := load_n val 0 s in
    let! hex := hexify_pbuf val in gdb_putpacket hex
  else gdb_putpacketz (str "EFF").
Definition handle_P (t : option positive) : MW unit :=
  let! w := get in
  let '(vals, _) := scan (lits "P" ++ [CHex nowidth; CLit 61; CPos]) (pbuf w) in
  let! n := scanned vals 1 in
  let digits := cstr (zdrop n (pbuf w)) in
  let size := zlen digits / 2 in
  let! reg := scanned vals 0 in
  let! r := target_reg_write t reg (unhexify digits (Z.to_nat size)) in
  gdb_putpacketz (if 0 <? r then str "OK" else str "EFF").

(** ** Running *)
Definition poll_body (c : nat) (_ : unit) : MW (unit + target_halt_reason * Z) :=
  let! t := cur c in
  let! (reason, watch) := target_halt_poll t in
  match reason with
  | TARGET_HALT_RUNNING =>
      let! ch := gdb_if_getchar_to 0 in
      let ch := u8 ch in
      do! when ((ch =? 3) || (ch =? 4)) (let! t := cur c in target_halt_request t) in
      ret (inl tt)
  | _ => ret (inr (reason, watch))
  end.
(** The '?' packet, and the end of 's' and 'c'. *)
Definition report_halt (c : nat) : MW unit :=
  let! t := cur c in
  match t with
  | None => gdb_putpacketz (str "W00")
  | Some _ =>
      let! (reason, watch) := iter fuel (poll_body c) tt in
      do! set_run c false in
      match reason with
      | TARGET_HALT_ERROR =>
          do! gdb_putpacket_f (str "X" ++ fmt_X 2 GDB_SIGLOST) in morse (Some (str "TARGET LOST.")) true
      | TARGET_HALT_REQUEST => gdb_putpacket_f (str "T" ++ fmt_X 2 GDB_SIGINT)
      | TARGET_HALT_WATCHPOINT =>
          gdb_putpacket_f (str "T" ++ fmt_X 2 GDB_SIGTRAP ++ str "watch:" ++ fmt_X 8 watch ++ str ";")
      | TARGET_HALT_FAULT => gdb_putpacket_f (str "T" ++ fmt_X 2 GDB_SIGSEGV)
      | _ => gdb_putpacket_f (str "T" ++ fmt_X 2 GDB_SIGTRAP)
      end
  end.
(** 's' and 'c': the flag for the next resumption is returned. *)
Definition handle_resume (c : nat) (single_step : bool) : MW bool :=
  let! t := cur c in
  match t with
  | None => do! gdb_putpacketz (str "X1D") in ret single_step
  | Some _ =>
      do! target_halt_resume t single_step in
      do! set_run c true in
      do! report_halt c in
      ret false
  end.

Definition handle_detach (c : nat) : MW unit :=
  let! t := cur c in
  do! match t with Some _ => do! set_run c true in target_detach t | None => ret tt end in
  let! t := cur c in
  do! upd_ctl c (set_last t) in
  do! upd_ctl c (set_cur None) in
  gdb_putpacketz (str "OK").
Definition handle_kill (c : nat) : MW unit :=
  let! t := cur c in
  match t with
  | None => ret tt
  | Some _ =>
      do! target_reset t in
      let! t := cur c in
      do! target_detach t in
      let! t := cur c in
      do! upd_ctl c (set_last t) in
      upd_ctl c (set_cur None)
  end.
(** [tc->cur_target = target_attach(tc->last_target, &gdb_controller)]. *)
Definition attach_last (c : nat) : MW (option positive) :=
  let! tc := load_ctl c in
  let! t := target_attach (last_target tc) gdb_controller in
  do! upd_ctl c (set_cur t) in ret t.
Definition handle_reset (c : nat) : MW unit :=
  let! tc := load_ctl c in
  match cur_target tc, last_target tc with
  | Some _, _ => target_reset (cur_target tc)
  | None, Some _ =>
      let! t := attach_last c in
      do! match t with Some _ => morse None false | None => ret tt end in
      target_reset t
  | None, None => ret tt
  end.

(** ** Queries *)
Definition handle_q_string_reply (s param : list Z) : MW unit :=
  match scan [CHex 8; comma; CHex 8] param with
  | ([addr; len], _) =>
      if addr <? zlen s then
        (* char reply[len+2]; strncpy writes len bytes behind the 'm' *)
        if u32 (len + 2) <? 1 + len then crash OutOfBounds
        else gdb_putpacket (chr "m" :: ztake len (zdrop addr s))
      else if addr =? zlen s then gdb_putpacketz (str "l")
      else gdb_putpacketz (str "E01")
  | _ => gdb_putpacketz (str "E01")
  end.
(** Attach to the last target if there is no current one. *)
Definition ensure_target (c : nat) : MW (option positive) :=
  let! tc := load_ctl c in
  match cur_target tc, last_target tc with
  | None, Some _ => attach_last c
  | t, _ => ret t
  end.
Definition handle_qRcmd (c : nat) (len : Z) : MW unit :=
  let! w := get in
  let datalen := (len - 6) / 2 in
  let! block := MemManager_Alloc (datalen + 1) in
  let! h := deref block in
  let! digits := load_n (pbuf w) 6 (2 * datalen) in
  let! r := command_process ctl_bytes fmt_2f c (cstr (unhexify digits (Z.to_nat datalen) ++ [0])) in
  do! if r <? 0 then gdb_putpacketz []
      else if r =? 0 then gdb_putpacketz (str "OK")
      else let! hex := hexify_pbuf (str "Failed" ++ [10]) in gdb_putpacket hex in
  MemManager_Free (Some h).
Definition handle_q_packet (c : nat) (len : Z) : MW unit :=
  let! w := get in
  let packet := pbuf w in
  if prefixb (str "qRcmd,") packet then handle_qRcmd c len
  else if prefixb (str "qSupported") packet then
    gdb_putpacket_f (str "PacketSize=" ++ fmt_X 1 BUF_SIZE ++ str ";qXfer:memory-map:read+;qXfer:features:read+")
  else if prefixb (str "qXfer:memory-map:read::") packet then
    let! t := ensure_target c in
    match t with
    | None => gdb_putpacketz (str "E01")
    | Some _ =>
        let! (buf, _) := target_mem_map t (memset 1024 0) 1024 in
        handle_q_string_reply (cstr buf) (zdrop 23 packet)
    end
  else if prefixb (str "qXfer:features:read:target.xml:") packet then
    let! t := ensure_target c in
    match t with
    | None => gdb_putpacketz (str "E01")
    | Some _ => let! s := target_tdesc t in handle_q_string_reply s (zdrop 31 packet)
    end
  else
    match scan (lits "qCRC:" ++ [CHex nowidth; comma; CHex nowidth]) packet with
    | ([addr; alen], _) =>
        let! t := cur c in
        match t with
        | None => gdb_putpacketz (str "E01")
        | Some _ =>
            let! (res, crc) := generic_crc32 t addr alen in
            if negb (res =? 0) then gdb_putpacketz (str "E03") else
            let! crc := deref crc in gdb_putpacket_f (str "C" ++ fmt_x 1 crc)
        end
    | _ => gdb_putpacket []
    end.

(** ** vRun's command line

    The state is (tok, cmdline, pcmdline - cmdline). *)
Definition cmdline_body (st : list Z * list Z * Z) : MW (list Z * list Z * Z + list Z) :=
  let '(tok, cmdline, k) := st in
  let c0 := zget tok 0 in
  if c0 =? 0 then ret (inr cmdline) else
  if 83 <=? zlen (cstr cmdline) + 3 then ret (inr cmdline) else
  if c0 =? chr ";" then
    let! cmdline := store cmdline k 32 in
    let! cmdline := store cmdline (k + 1) 0 in
    ret (inl (zdrop 1 tok, cmdline, k + 1))
  else if isxdigit c0 && isxdigit (zget tok 1) then
    let! cmdline := store_n cmdline k (unhexify tok 2) in
    let ch := zget cmdline k in
    let! (cmdline, k) :=
      if (ch =? 32) || (ch =? 92) then
        let! cmdline := store cmdline (k + 1) ch in
        let! cmdline := store cmdline k 92 in
        ret (cmdline, k + 1)
      else ret (cmdline, k) in
    let k := k + 1 in
    let! cmdline := store cmdline k 0 in
    ret (inl (zdrop 2 tok, cmdline, k))
  else ret (inr cmdline).
Definition parse_cmdline (packet : list Z) : MW (list Z) :=
  let tok := zdrop 4 packet in
  let tok := if zget tok 0 =? chr ";" then zdrop 1 tok else tok in
  iter (S (length tok)) cmdline_body (tok, memset 83 0, 0).

Definition start_target (t : option positive) (cmdline : list Z) : MW unit :=
  do! target_set_cmdline t cmdline in target_reset t.
Definition handle_vRun (c : nat) (packet : list Z) : MW unit :=
  let! cmdline := parse_cmdline packet in
  let! tc := load_ctl c in
  match cur_target tc, last_target tc with
  | Some _, _ => do! start_target (cur_target tc) cmdline in gdb_putpacketz (str "T05")
  | None, Some _ =>
      let! t := attach_last c in
      match t with
      | Some _ => do! start_target t cmdline in do! morse None false in gdb_putpacketz (str "T05")
      | None => gdb_putpacketz (str "E01")
      end
  | None, None => gdb_putpacketz (str "E01")
  end.

(** ** Flash *)
Definition handle_flash_erase (c : nat) (addr len : Z) : MW unit :=
  let! tc := load_ctl c in
  match cur_target tc with
  | None => gdb_putpacketz (str "EFF")
  | Some _ =>
      do! when (negb (flash_mode tc)) (
        do! target_reset (cur_target tc) in upd_ctl c (set_flash_mode true)) in
      let! t := cur c in
      let! r := target_flash_erase fuel t addr len in
      if r =? 0 then gdb_putpacketz (str "OK")
      else do! upd_ctl c (set_flash_mode false) in gdb_putpacketz (str "EFF")
  end.
Definition handle_flash_write (c : nat) (addr bin plen : Z) : MW unit :=
  let! w := get in
  let! t := cur c in
  let! ok :=
    match t with
    | None => ret false
    | Some _ =>
        let! data := load_n (pbuf w) bin (u32 (plen - bin)) in
        let! r := target_flash_write t addr data in ret (r =? 0)
    end in
  if ok : bool then gdb_putpacketz (str "OK")
  else do! upd_ctl c (set_flash_mode false) in gdb_putpacketz (str "EFF").
Definition handle_flash_done (c : nat) : MW unit :=
  let! t := cur c in
  let! r := target_flash_done t in
  do! gdb_putpacketz (if negb (r =? 0) then str "EFF" else str "OK") in
  upd_ctl c (set_flash_mode false).

Definition handle_attach (c : nat) (addr : Z) : MW unit :=
  let! t := target_attach_n (i32 addr) gdb_controller in
  do! upd_ctl c (set_cur t) in
  match t with
  | Some _ => do! morse None false in gdb_putpacketz (str "T05")
  | None => gdb_putpacketz (str "E01")
  end.
Definition handle_v_packet (c : nat) (plen : Z) : MW unit :=
  let! w := get in
  let packet := pbuf w in
  match scan (lits "vAttach;" ++ [CHex 8]) packet with
  | ([addr], _) => handle_attach c addr
  | _ =>
  if prefixb (str "vRun") packet then handle_vRun c packet else
  match scan (lits "vFlashErase:" ++ [CHex 8; comma; CHex 8]) packet with
  | ([addr; len], _) => handle_flash_erase c addr len
  | _ =>
  match scan (lits "vFlashWrite:" ++ [CHex 8; colon; CPos]) packet with
  | (vals, 1) =>
      let! addr := scanned vals 0 in
      let! bin := scanned vals 1 in
      handle_flash_write c addr bin plen
  | _ =>
  if eqb_str (cstr packet) (str "vFlashDone") then handle_flash_done c
  else gdb_putpacket []
  end end end.

(** ** Breakpoints *)
Definition handle_z_packet (c : nat) : MW unit :=
  let! w := get in
  let packet := pbuf w in
  let type := zget packet 1 - 48 in
  let '(vals, _) := scan [comma; CHex nowidth; comma; CDec] (zdrop 2 packet) in
  let! addr := scanned vals 0 in
  let! len := scanned vals 1 in
  let! t := cur c in
  let! r := if zget packet 0 =? chr "Z" then target_breakwatch_set t type addr (u32 len)
            else target_breakwatch_clear t type addr (u32 len) in
  if r <? 0 then gdb_putpacketz (str "E01")
  else if 0 <? r then gdb_putpacketz []
  else gdb_putpacketz (str "OK").

(** ** Host I/O *)
Definition hostio_reply (c : nat) : MW Z :=
  let! w := get in
  let minus := zget (pbuf w) 1 =? 45 in
  let p := if minus then zdrop 2 (pbuf w) else zdrop 1 (pbuf w) in
  let '(vals, items) := scan [CHex nowidth; comma; CHex nowidth; comma; CChr] p in
  let! retcode := scanned vals 0 in
  let retcode := i32 retcode in
  let retcode := if minus then i32 (- retcode) else retcode in
  let brk := (items =? 3) && match vals with [_; _; ch] => ch =? chr "C" | _ => false end in
  do! upd_ctl c (set_interrupted brk) in
  let! e := scanned vals 1 in
  do! upd_ctl c (set_errno (i32 e)) in
  ret retcode.

(** ** The loop

    One packet.  The state is [single_step]; a result ends the loop. *)
Definition loop_body (c : nat) (in_syscall single_step : bool) : MW (bool + Z) :=
  do! platform_call c (set_idle_state c true) in
  let! w := get in
  let! (size, buf) := gdb_getpacket remotePacketProcess fuel (pbuf w) BUF_SIZE in
  do! modify (set_pbuf buf) in
  do! platform_call c (set_idle_state c false) in
  let again (m : MW unit) : MW (bool + Z) := do! m in ret (inl single_step) in
  let ch := zget buf 0 in
  if ch =? chr "g" then again (with_target c handle_g)
  else if ch =? chr "m" then again (with_target c handle_m)
  else if ch =? chr "G" then again (with_target c handle_G)
  else if ch =? chr "M" then again (with_target c (fun t => handle_M t size))
  else if ch =? chr "s" then let! s := handle_resume c true in ret (inl s)
  else if ch =? chr "c" then let! s := handle_resume c single_step in ret (inl s)
  else if ch =? chr "?" then again (report_halt c)
  else if ch =? chr "p" then again (with_target c handle_p)
  else if ch =? chr "P" then again (with_target c handle_P)
  else if ch =? chr "F" then
    if in_syscall then let! r := hostio_reply c in ret (inr r) else again (gdb_putpacketz [])
  else if ch =? chr "!" then again (gdb_putpacketz (str "OK"))
  else if (ch =? 4) || (ch =? chr "D") then again (handle_detach c)
  else if ch =? chr "k" then again (handle_kill c)
  else if (ch =? chr "r") || (ch =? chr "R") then again (handle_reset c)
  else if ch =? chr "X" then again (with_target c (fun t => handle_X t size))
  else if ch =? chr "q" then again (handle_q_packet c size)
  else if ch =? chr "v" then again (handle_v_packet c size)
  else if (ch =? chr "Z") || (ch =? chr "z") then again (with_target c (fun _ => handle_z_packet c))
  else again (gdb_putpacketz []).
Definition gdb_main_loop (c : nat) (in_syscall : bool) : MW Z :=
  iter fuel (loop_body c in_syscall) false.

(** The text of a host call's request; the reply is read by a nested loop. *)
Definition request (h : hostcall) : list Z :=
  let X8 x := fmt_X 8 (u32 x) in
  let X x := fmt_X 1 (u32 x) in
  match h with
  | HOpen path len flags mode => str "Fopen," ++ X8 path ++ str "/" ++ X len ++ str "," ++ X8 flags ++ str "," ++ X8 mode
  | HClose fd => str "Fclose," ++ X8 fd
  | HRead fd buf count => str "Fread," ++ X8 fd ++ str "," ++ X8 buf ++ str "," ++ X8 count
  | HWrite fd buf count => str "Fwrite," ++ X8 fd ++ str "," ++ X8 buf ++ str "," ++ X8 count
  | HLseek fd offset flag => str "Flseek," ++ X8 fd ++ str "," ++ X8 offset ++ str "," ++ X8 flag
  | HRename old oldlen new newlen =>
      str "Frename," ++ X8 old ++ str "/" ++ X oldlen ++ str "," ++ X8 new ++ str "/" ++ X newlen
  | HUnlink path len => str "Funlink," ++ X8 path ++ str "/" ++ X len
  | HStat path len buf => str "Fstat," ++ X8 path ++ str "/" ++ X len ++ str "," ++ X8 buf
  | HFstat fd buf => str "Ffstat," ++ X fd ++ str "," ++ X8 buf
  | HGettimeofday tv tz => str "Fgettimeofday," ++ X8 tv ++ str "," ++ X8 tz
  | HIsatty fd => str "Fisatty," ++ X8 fd
  | HSystem cmd len => str "Fsystem," ++ X8 cmd ++ str "/" ++ X len
  end.
(** [hostio_open] and its siblings. *)
Definition hostio (c : nat) (h : hostcall) : MW Z :=
  do! gdb_putpacket_f (request h) in gdb_main_loop c true.

(** One turn of main.c's gdb_main_1: the loop under a frame that catches
    everything; after an exception the targets are dropped. *)
Definition gdb_main_1_body (c : nat) : MW unit :=
  let! r := try_catch EXCEPTION_ALL (gdb_main_loop c false) in
  match r with
  | inl _ => ret tt
  | inr _ => do! gdb_putpacketz (str "EFF") in target_list_free c
  end.
End GdbMain.
