(* ===== verification/GdbMainProps.v ===== *)
(** Theorems about the GDB server of GdbMain.v. *)

From Stdlib Require Import ZArith Lia String.
From stdpp Require Import base list numbers option gmap.
From S2P Require Import Prelude CLib HexUtils GdbIf MemManager GdbPacket TargetState Target TargetProps TargetFlash Platform Crc32 Exception Morse Frame Command CommandProps GdbMain.

(** ** Reading packets *)

(** The digits of an address or a length, as a debugger writes them. *)
Definition hex (n : nat) (x : Z) : list Z := hex_fixed false (S n) x.
Lemma hex_nonzero n x : Forall (fun c => c <> 0) (hex n x).
Proof.
  unfold hex. revert x. induction (S n) as [|k IH]; intros x; [constructor|]. cbn [hex_fixed].
  apply Forall_app. split; [apply IH|]. constructor; [|constructor].
  destruct (digit_char_hex false (x mod 16)) as (_ & _ & ?); [apply Z.mod_pos_bound; lia|lia].
Qed.
Lemma skip_space_hex n x r : skip_space (hex n x ++ r) = hex n x ++ r.
Proof.
  unfold hex. destruct (hex_fixed_head false n x) as (d & Hd & l & -> & _). cbn.
  destruct (digit_char_hex false d Hd) as (_ & _ & Hr). unfold isspace.
  rewrite (proj2 (Z.eqb_neq _ 32)), (proj2 (Z.leb_gt _ 13)) by lia. by rewrite andb_false_r.
Qed.
Lemma sscanf_hex n w x c r fmt t : 0 <= x < 16 ^ Z.of_nat (S n) -> x < 2 ^ 32 -> (S n <= w)%nat -> 16 <= digit_val c -> c <> 120 -> c <> 88 ->
  sscanf (CHex w :: fmt) (hex n x ++ c :: r) t =
    let '(l, k) := sscanf fmt (c :: r) t in (x :: l, k + 1).
Proof.
  intros Hx Hx32 Hw Hc H1 H2. cbn [sscanf]. rewrite skip_space_hex. unfold hex. rewrite scan_int_hex by done.
  unfold to_ulong. rewrite (proj2 (Z.ltb_ge _ _)) by lia. done.
Qed.
(** The last field: the string ends behind it. *)
Lemma scan_digits_hex_end n w x : 0 <= x < 16 ^ Z.of_nat (S n) -> x < 2 ^ 32 -> (S n < w)%nat ->
  forall fmt t, sscanf (CHex w :: fmt) (hex n x) t = let '(l, k) := sscanf fmt [] t in (x :: l, k + 1).
Proof.
  intros Hx Hx32 Hw fmt t. cbn [sscanf]. pose proof (skip_space_hex n x []) as Hs. rewrite app_nil_r in Hs. rewrite Hs.
  assert (E : scan_int 16 w (hex n x) = Some (false, x, [])).
  { destruct w as [|w]; [lia|]. unfold hex. destruct (hex_fixed_head false n x) as (d & Hd & l & El & Hl).
    destruct (digit_char_hex false d Hd) as (_ & _ & Hr).
    pose proof (scan_digits_hex_fixed false (S n) (S w) x Hx ltac:(lia)) as Hsd. unfold scan_int. rewrite El in *.
    rewrite !(proj2 (Z.eqb_neq (digit_char false d) _)) by lia.
    destruct w as [|[|w]]; destruct l as [|x0 [|d0 t0]]; cbn -[scan_digits digit_char digit_val Z.eqb] in *; try by rewrite Hsd.
    destruct Hl as [[? _]|(d2 & l2 & Hd2 & Hl2)]; [done|]. injection Hl2 as -> <-.
    destruct (digit_char_hex false d2 Hd2) as (_ & Hx2 & Hr2).
    assert (digit_char false d2 <> 88) by (intros E; by rewrite E in Hx2).
    rewrite (proj2 (Z.eqb_neq (digit_char false d2) 120)), (proj2 (Z.eqb_neq (digit_char false d2) 88)) by lia.
    rewrite andb_false_r. cbn -[scan_digits digit_char digit_val Z.eqb]. by rewrite Hsd. }
  rewrite E. unfold to_ulong. rewrite (proj2 (Z.ltb_ge _ _)) by lia. done.
Qed.

(** A number of at most eight digits. *)
Definition fits (n : nat) (x : Z) : Prop := (n < 8)%nat /\ 0 <= x < 16 ^ Z.of_nat (S n).
Lemma fits_u32 n x : fits n x -> 0 <= x < 2 ^ 32.
Proof.
  intros [Hn Hx]. change (2 ^ 32) with (16 ^ 8). split; [lia|]. apply Z.lt_le_trans with (16 ^ Z.of_nat (S n)); [lia|].
  apply Z.pow_le_mono_r; lia.
Qed.
Lemma scan_two n1 n2 w addr len t : fits n1 addr -> fits n2 len -> (8 <= w)%nat -> (w = 8%nat -> (n2 < 7)%nat) ->
  sscanf [CHex w; comma; CHex w] (hex n1 addr ++ 44 :: hex n2 len) t = ([addr; len], 2).
Proof.
  intros H1 H2 Hw Hw8. pose proof (fits_u32 _ _ H1). pose proof (fits_u32 _ _ H2). destruct H1, H2.
  rewrite sscanf_hex by (try done; cbn; lia).
  change (sscanf [comma; CHex w] (44 :: hex n2 len) t) with (sscanf [CHex w] (hex n2 len) t).
  rewrite scan_digits_hex_end by lia. done.
Qed.

(** The fields in front of binary data. *)
Lemma cstr_app s t : Forall (fun c => c <> 0) s -> cstr (s ++ t) = s ++ cstr t.
Proof.
  induction 1 as [|c s Hc _ IH]; [done|]. cbn. by rewrite (proj2 (Z.eqb_neq c 0) Hc), IH.
Qed.
Lemma scan_data head n1 n2 addr len rest : head <> 0 -> fits n1 addr -> fits n2 len ->
  scan [CLit head; CHex nowidth; comma; CHex nowidth; colon; CPos] (head :: hex n1 addr ++ 44 :: hex n2 len ++ 58 :: rest) =
    ([addr; len; zlen (hex n1 addr) + zlen (hex n2 len) + 3], 2).
Proof.
  intros Hh Hf1 Hf2. unfold scan.
  assert (Hc : cstr (head :: hex n1 addr ++ 44 :: hex n2 len ++ 58 :: rest) = head :: hex n1 addr ++ 44 :: hex n2 len ++ 58 :: cstr rest).
  { cbn [cstr]. rewrite (proj2 (Z.eqb_neq head 0)) by done. f_equal.
    rewrite (cstr_app (hex n1 addr)) by apply hex_nonzero. f_equal. cbn [cstr Z.eqb]. f_equal.
    rewrite (cstr_app (hex n2 len)) by apply hex_nonzero. done. }
  rewrite Hc. set (t := zlen _). assert (Ht : t = zlen (hex n1 addr) + zlen (hex n2 len) + 3 + zlen (cstr rest)).
  { unfold t. rewrite zlen_cons, zlen_app, zlen_cons, zlen_app, zlen_cons. lia. }
  clearbody t. pose proof (fits_u32 _ _ Hf1). pose proof (fits_u32 _ _ Hf2). destruct Hf1, Hf2.
  set (s := hex n1 addr ++ _). set (fmt := [CHex nowidth; comma; CHex nowidth; colon; CPos]).
  change (sscanf (CLit head :: fmt) (head :: s) t) with (if head =? head then sscanf fmt s t else ([], 0)). unfold fmt.
  rewrite Z.eqb_refl. unfold s. rewrite sscanf_hex by (try done; unfold nowidth; lia).
  change (sscanf [comma; CHex nowidth; colon; CPos] (44 :: hex n2 len ++ 58 :: cstr rest) t)
    with (sscanf [CHex nowidth; colon; CPos] (hex n2 len ++ 58 :: cstr rest) t).
  rewrite sscanf_hex by (try done; unfold nowidth; lia).
  change (sscanf [colon; CPos] (58 :: cstr rest) t) with ([t - zlen (cstr rest)], 0).
  cbv beta iota zeta. rewrite Ht. repeat f_equal. lia.
Qed.

Section Props.
Context {D : Type} `{GdbIf D} `{MemIf D} `{Driver D} `{HostIf D} `{MorseIf D} `{ProbeIf D} `{ScanIf D} `{ClockIf D}.
Variable ctl_bytes : nat -> list Z.
Variable fmt_2f : Z -> Z -> list Z.
Variable remote : Z -> list Z -> M (world D) (list Z).
Variable fuel : nat.
Implicit Types w : world D.

Lemma hexify_pbuf_Ok bytes w : 2 * zlen bytes + 1 <= zlen (pbuf w) ->
  exists b, hexify_pbuf bytes w = Ok (hexify_digits bytes) (set_pbuf b w) /\ zlen b = zlen (pbuf w).
Proof.
  intros Hl. unfold hexify_pbuf, bind at 1, get, store_n. pose proof (zlen_nonneg bytes).
  rewrite (proj2 (Z.leb_le _ (zlen (pbuf w)))) by (rewrite zlen_hexify; lia). cbn [Z.leb Z.compare andb]. rewrite bind_ret.
  eexists. split; [reflexivity|]. apply zlen_splice; [lia|]. rewrite zlen_hexify. lia.
Qed.

Lemma handle_m_run p n1 n2 addr len w w1 mem stale :
  fits n1 addr -> fits n2 len ->
  pbuf w = str "m" ++ hex n1 addr ++ 44 :: hex n2 len ++ 0 :: stale ->
  target_mem_read (Some p) addr len w = Ok (mem, false) w1 -> zlen mem = len -> zlen (pbuf w1) = BUF_SIZE + 1 ->
  if 512 <? len then handle_m (Some p) w = gdb_putpacketz (str "E02") w
  else exists b, zlen b = BUF_SIZE + 1 /\ handle_m (Some p) w = gdb_putpacket (hexify_digits mem) (set_pbuf b w1).
Proof.
  intros Hf1 Hf2 Hpb Hread Hlen Hb.
  assert (Hscan : scan (lits "m" ++ [CHex nowidth; comma; CHex nowidth]) (pbuf w) = ([addr; len], 2)).
  { unfold scan. rewrite Hpb. change (str "m" ++ hex n1 addr ++ 44 :: hex n2 len ++ 0 :: stale)
      with (109 :: (hex n1 addr ++ (44 :: hex n2 len) ++ 0 :: stale)). rewrite app_assoc.
    change (109 :: (hex n1 addr ++ 44 :: hex n2 len) ++ 0 :: stale) with ((109 :: hex n1 addr ++ 44 :: hex n2 len) ++ 0 :: stale).
    rewrite cstr_app_nul.
    - set (t := zlen _). change (sscanf (lits "m" ++ [CHex nowidth; comma; CHex nowidth]) (109 :: hex n1 addr ++ 44 :: hex n2 len) t)
        with (sscanf [CHex nowidth; comma; CHex nowidth] (hex n1 addr ++ 44 :: hex n2 len) t).
      apply scan_two; try done; unfold nowidth; lia.
    - constructor; [done|]. apply Forall_app. split; [apply hex_nonzero|]. constructor; [done|apply hex_nonzero]. }
  assert (Hrun : handle_m (Some p) w = (if 512 <? len then gdb_putpacketz (str "E02") else
    let! (mem, e) := target_mem_read (Some p) addr len in
    if e : bool then gdb_putpacketz (str "E01") else
    let! mem := load_n mem 0 len in let! hex := hexify_pbuf mem in gdb_putpacket hex) w).
  { unfold handle_m, bind at 1, get. rewrite Hscan. unfold scanned. cbn [lookup list_lookup]. rewrite bind_ret.
    destruct (512 <? len); [done|]. by rewrite bind_ret. }
  rewrite Hrun. destruct (512 <? len) eqn:E; [done|]. apply Z.ltb_ge in E. rewrite (bind_Ok _ _ _ _ _ Hread).
  assert (Hload : load_n (W := world D) mem 0 len = ret mem).
  { unfold load_n. pose proof (zlen_nonneg mem). rewrite (proj2 (Z.leb_le 0 len)), (proj2 (Z.leb_le (0 + len) _)) by lia.
    cbn [Z.leb Z.compare andb]. change (zdrop 0 mem) with mem. rewrite <- Hlen. unfold ztake, zlen. rewrite Nat2Z.id. by rewrite firstn_all. }
  rewrite Hload, bind_ret. destruct (hexify_pbuf_Ok mem w1) as (b & Hh & Hzb); [unfold BUF_SIZE in *; lia|].
  rewrite (bind_Ok _ _ _ _ _ Hh). exists b. split; [lia|done].
Qed.
(** An 'm' packet for at most 512 bytes is answered with exactly the
    bytes the target's memory holds there, two digits each; the digits and
    their NUL never leave the packet buffer.  A longer one is refused with E02
    and reads nothing. *)
Theorem m_packet_reads p n1 n2 addr len w w1 mem stale :
  fits n1 addr -> fits n2 len ->
  pbuf w = str "m" ++ hex n1 addr ++ 44 :: hex n2 len ++ 0 :: stale ->
  target_mem_read (Some p) addr len w = Ok (mem, false) w1 -> zlen mem = len -> zlen (pbuf w1) = BUF_SIZE + 1 ->
  if 512 <? len then handle_m (Some p) w = gdb_putpacketz (str "E02") w
  else exists b, zlen b = BUF_SIZE + 1 /\ handle_m (Some p) w = gdb_putpacket (hexify_digits mem) (set_pbuf b w1).
Proof. apply handle_m_run. Qed.

(** A qXfer read returns the slice asked for: 'm' and the bytes from the
    offset on, at most as many as asked; 'l' at the end; E01 beyond it.  The
    slices at consecutive offsets make up the whole document. *)
Theorem qxfer_slice s n1 n2 addr len w :
  fits n1 addr -> fits n2 len -> (n2 < 7)%nat ->
  handle_q_string_reply s (hex n1 addr ++ 44 :: hex n2 len) w =
    (if addr <? zlen s then gdb_putpacket (109 :: ztake len (zdrop addr s))
     else if addr =? zlen s then gdb_putpacketz (str "l") else gdb_putpacketz (str "E01")) w /\
  forall k, concat (List.map (fun i => ztake len (zdrop (Z.of_nat i * len) s)) (seq 0 k)) = ztake (Z.of_nat k * len) s.
Proof.
  intros Hf1 Hf2 Hn. pose proof (fits_u32 _ _ Hf2) as Hl32. split.
  - unfold handle_q_string_reply, scan. rewrite cstr_id.
    2: { apply Forall_app. split; [apply hex_nonzero|]. constructor; [done|apply hex_nonzero]. }
    rewrite (scan_two n1 n2 8) by (done || lia). destruct (addr <? zlen s) eqn:E; [|done].
    assert (Hlen : len < 16 ^ 7).
    { destruct Hf2 as [_ Hf2]. apply Z.lt_le_trans with (16 ^ Z.of_nat (S n2)); [lia|]. apply Z.pow_le_mono_r; lia. }
    change (16 ^ 7) with 268435456 in Hlen. rewrite u32_small by lia. rewrite (proj2 (Z.ltb_ge _ _)) by lia. done.
  - induction k as [|k IH]; [done|]. rewrite seq_S, map_app, concat_app, IH. cbn. rewrite app_nil_r.
    unfold ztake, zdrop. replace (Z.to_nat (Z.of_nat (S k) * len)) with (Z.to_nat (Z.of_nat k * len) + Z.to_nat len)%nat by lia.
    apply take_take_drop.
Qed.

(** ** Attaching *)

(** The handlers attach from the file's own controller, whose target list
    nobody fills: on the controller main.c serves, vAttach always answers E01
    and leaves it without a current target, whatever its own list holds. *)
Theorem vattach_never_attaches c tc tc0 addr w :
  ctls w !! gdb_controller = Some tc0 -> target_list tc0 = [] -> ctls w !! c = Some tc ->
  handle_attach c addr w = gdb_putpacketz (str "E01") (set_ctls (<[c := set_cur None tc]> (ctls w)) w).
Proof.
  intros H0c Hl Hc. unfold handle_attach.
  assert (Ha : target_attach_n (i32 addr) gdb_controller w = Ok None w).
  { unfold target_attach_n. rewrite (bind_Ok _ _ _ _ _ (load_ctl_Ok _ _ _ H0c)), Hl. by destruct (1 <=? i32 addr). }
  rewrite (bind_Ok _ _ _ _ _ Ha), (bind_Ok _ _ _ _ _ (upd_ctl_Ok _ _ _ _ Hc)). done.
Qed.

(** Without a target, vFlashDone dereferences a null pointer. *)
Theorem flash_done_null c tc w : ctls w !! c = Some tc -> cur_target tc = None -> handle_flash_done c w = Fault NullDeref w.
Proof.
  intros Hc Hcur. unfold handle_flash_done, cur. rewrite bind_bind, (bind_Ok _ _ _ _ _ (load_ctl_Ok _ _ _ Hc)), bind_ret, Hcur. done.
Qed.

(** A single step refused for want of a target is not forgotten: the flag
    the loop keeps stays set, so that the next continue is a single step. *)
Theorem stale_single_step c tc w w' :
  ctls w !! c = Some tc -> cur_target tc = None -> gdb_putpacketz (str "X1D") w = Ok tt w' ->
  handle_resume fuel c true w = Ok true w'.
Proof.
  intros Hc Hcur Hput. unfold handle_resume, cur. rewrite bind_bind, (bind_Ok _ _ _ _ _ (load_ctl_Ok _ _ _ Hc)), bind_ret, Hcur.
  by rewrite (bind_Ok _ _ _ _ _ Hput).
Qed.

(** ** vRun *)

(** [n] NUL bytes, in hex. *)
Fixpoint nul_pairs (n : nat) : list Z := match n with O => [] | S k => 48 :: 48 :: nul_pairs k end.
Lemma nul_pairs_overrun rest : forall n k w, 0 <= k <= 82 -> (82 - k < Z.of_nat n) ->
  forall f, (n <= f)%nat -> iter f cmdline_body (nul_pairs n ++ rest, memset 83 0, k) w = Fault OutOfBounds w.
Proof.
  induction n as [|n IH]; intros k w Hk Hn f Hf; [lia|]. destruct f as [|f]; [lia|]. rewrite iter_S.
  change (nul_pairs (S n) ++ rest) with (48 :: 48 :: nul_pairs n ++ rest). unfold cmdline_body at 1.
  change (zget (48 :: 48 :: nul_pairs n ++ rest) 0) with 48. change (zget (48 :: 48 :: nul_pairs n ++ rest) 1) with 48.
  change (48 =? 0) with false. change (48 =? chr ";") with false. cbv iota zeta.
  change (83 <=? zlen (cstr (memset 83 0)) + 3) with false. change (isxdigit 48 && isxdigit 48) with true. cbv iota.
  assert (Hu : exists v, unhexify (48 :: 48 :: nul_pairs n ++ rest) 2 = [0; v]) by (eexists; reflexivity).
  destruct Hu as [v Hu]. rewrite Hu. unfold store_n. change (zlen (memset 83 0)) with 83. change (zlen [0; v]) with 2.
  rewrite (proj2 (Z.leb_le 0 k)) by lia. cbn [andb]. destruct (k + 2 <=? 83) eqn:E; [|by rewrite !bind_bind].
  apply Z.leb_le in E. rewrite bind_bind, bind_ret.
  assert (Hg : zget (splice (memset 83 0) k [0; v]) k = 0).
  { rewrite zget_splice by (change (zlen (memset 83 0)) with 83; change (zlen [0; v]) with 2; lia).
    change (zlen [0; v]) with 2. rewrite (proj2 (Z.leb_le k k)), (proj2 (Z.ltb_lt k _)) by lia. by rewrite Z.sub_diag. }
  rewrite Hg. change (0 =? 32) with false. change (0 =? 92) with false. cbn [orb]. rewrite bind_bind, bind_ret.
  unfold store. assert (Hz : zlen (splice (memset 83 0) k [0; v]) = 83).
  { apply zlen_splice; [lia|]. change (zlen (memset 83 0)) with 83. change (zlen [0; v]) with 2. lia. }
  rewrite Hz, (proj2 (Z.leb_le 0 (k + 1))), (proj2 (Z.ltb_lt (k + 1) 83)) by lia. cbn [andb]. rewrite bind_bind, !bind_ret.
  assert (Hm : <[Z.to_nat (k + 1) := 0]> (splice (memset 83 0) k [0; v]) = memset 83 0).
  { apply zget_ext; [rewrite zlen_insert; by rewrite Hz|]. rewrite zlen_insert, Hz. intros i Hi. rewrite zget_memset by lia.
    assert (E2 : <[Z.to_nat (k + 1) := 0]> (splice (memset 83 0) k [0; v]) = splice (splice (memset 83 0) k [0; v]) (k + 1) [0]).
    { rewrite <- (splice_insert _ (k + 1) 0 []) by lia. by rewrite splice_nil. }
    rewrite E2, zget_splice by (rewrite ?Hz; change (zlen [0]) with 1; lia). change (zlen [0]) with 1.
    destruct ((k + 1 <=? i) && (i <? k + 1 + 1)) eqn:E3.
    - apply andb_true_iff in E3 as [? ?]. by replace (i - (k + 1)) with 0 by lia.
    - rewrite zget_splice by (change (zlen (memset 83 0)) with 83; change (zlen [0; v]) with 2; lia).
      change (zlen [0; v]) with 2. destruct ((k <=? i) && (i <? k + 2)) eqn:E4; [|by apply zget_memset].
      apply andb_true_iff in E4 as [? ?]. apply andb_false_iff in E3. by replace (i - k) with 0 by lia. }
  rewrite Hm. change (zdrop 2 (48 :: 48 :: nul_pairs n ++ rest)) with (nul_pairs n ++ rest). apply IH; lia.
Qed.

(** A vRun command line of 83 NUL bytes or more, sent as "00" pairs,
    overruns its 83-byte local: the length check counts characters before the
    first NUL and so never sees the bytes written. *)
Theorem vrun_overrun n rest w : (83 <= n)%nat ->
  parse_cmdline (str "vRun;" ++ nul_pairs n ++ rest) w = Fault OutOfBounds w.
Proof.
  intros Hn. unfold parse_cmdline. change (zdrop 4 (str "vRun;" ++ nul_pairs n ++ rest)) with (59 :: nul_pairs n ++ rest).
  change (zget (59 :: nul_pairs n ++ rest) 0 =? chr ";") with true. cbv iota zeta.
  change (zdrop 1 (59 :: nul_pairs n ++ rest)) with (nul_pairs n ++ rest). apply nul_pairs_overrun; [lia|lia|].
  assert (Hl : forall k, length (nul_pairs k) = (2 * k)%nat) by (induction k; cbn; lia). rewrite length_app, Hl. lia.
Qed.

(** ** Host calls *)

(** C37: The reply to a host call is read back as it was meant: the return code
    with its sign, the error number for the controller, and the interruption
    exactly when the debugger's 'C' is there. *)
Theorem hostio_reply_read c tc n1 n2 r e (minus brk : bool) w stale :
  fits n1 r -> fits n2 e -> r < 2 ^ 31 -> e < 2 ^ 31 -> ctls w !! c = Some tc ->
  pbuf w = str "F" ++ (if minus then [45] else []) ++ hex n1 r ++ 44 :: hex n2 e ++ (if brk then [44; 67] else []) ++ 0 :: stale ->
  hostio_reply c w = Ok (if minus then - r else r)
    (set_ctls (<[c := set_errno e (set_interrupted brk tc)]> (ctls w)) w).
Proof.
  intros Hf1 Hf2 Hr31 He31 Hc Hpb. pose proof (fits_u32 _ _ Hf1) as Hr. pose proof (fits_u32 _ _ Hf2) as He.
  set (body := hex n1 r ++ 44 :: hex n2 e ++ (if brk then [44; 67] else [])).
  assert (Hpb2 : pbuf w = 70 :: (if minus then [45] else []) ++ body ++ 0 :: stale).
  { rewrite Hpb. unfold body. rewrite <- !app_assoc. cbn [app]. by rewrite <- !app_assoc. }
  assert (Hm : (zget (pbuf w) 1 =? 45) = minus).
  { rewrite Hpb2. unfold body, hex. destruct minus; [done|]. destruct (hex_fixed_head false n1 r) as (d & Hd & l & -> & _).
    cbn [app]. change (zget (70 :: digit_char false d :: _) 1) with (digit_char false d).
    destruct (digit_char_hex false d Hd) as (_ & _ & ?). apply Z.eqb_neq. lia. }
  assert (Hnz : Forall (fun c => c <> 0) body).
  { unfold body. apply Forall_app. split; [apply hex_nonzero|]. constructor; [done|]. apply Forall_app. split; [apply hex_nonzero|].
    destruct brk; repeat constructor; done. }
  assert (Hp : (if zget (pbuf w) 1 =? 45 then zdrop 2 (pbuf w) else zdrop 1 (pbuf w)) = body ++ 0 :: stale).
  { rewrite Hm, Hpb2. by destruct minus. }
  assert (Hscan : scan [CHex nowidth; comma; CHex nowidth; comma; CChr] (body ++ 0 :: stale)
    = if brk then ([r; e; 67], 3) else ([r; e], 2)).
  { unfold scan. rewrite cstr_app_nul by done. set (t := zlen body). unfold body. destruct Hf1, Hf2.
    rewrite sscanf_hex by (try done; unfold nowidth; cbn; lia).
    destruct brk.
    - change (sscanf [comma; CHex nowidth; comma; CChr] (44 :: hex n2 e ++ [44; 67]) t)
        with (sscanf [CHex nowidth; comma; CChr] (hex n2 e ++ [44; 67]) t).
      rewrite sscanf_hex by (try done; unfold nowidth; cbn; lia). done.
    - rewrite app_nil_r. change (sscanf [comma; CHex nowidth; comma; CChr] (44 :: hex n2 e) t)
        with (sscanf [CHex nowidth; comma; CChr] (hex n2 e) t).
      rewrite scan_digits_hex_end by (unfold nowidth; lia). done. }
  unfold hostio_reply, bind at 1, get. rewrite Hp, Hscan, Hm.
  assert (Hi : forall x, 0 <= x < 2 ^ 31 -> i32 x = x).
  { intros x Hx. unfold i32, swrap. rewrite wrap_small by lia. by rewrite (proj2 (Z.ltb_lt x _)) by lia. }
  assert (Hneg : i32 (- r) = - r).
  { unfold i32, swrap, wrap. destruct (Z.eq_dec r 0) as [->|Hnz0]; [done|].
    rewrite <- (Z.mod_unique (- r) (2 ^ 32) (-1) (2 ^ 32 - r)) by lia.
    rewrite (proj2 (Z.ltb_ge _ _)) by lia. lia. }
  destruct brk; cbv iota beta; unfold scanned; cbn [lookup list_lookup]; rewrite bind_ret, (Hi r) by lia; cbv zeta.
  - change ((3 =? 3) && (67 =? chr "C")) with true.
    rewrite (bind_Ok _ _ _ _ _ (upd_ctl_Ok _ _ _ _ Hc)), bind_ret, (Hi e) by lia.
    erewrite bind_Ok by (eapply upd_ctl_Ok; cbn; apply lookup_insert_eq).
    unfold ret, set_ctls. cbn. rewrite insert_insert_eq. f_equal. destruct minus; [apply Hneg|done].
  - change ((2 =? 3) && false) with false.
    rewrite (bind_Ok _ _ _ _ _ (upd_ctl_Ok _ _ _ _ Hc)), bind_ret, (Hi e) by lia.
    erewrite bind_Ok by (eapply upd_ctl_Ok; cbn; apply lookup_insert_eq).
    unfold ret, set_ctls. cbn. rewrite insert_insert_eq. f_equal. destruct minus; [apply Hneg|done].
Qed.
End Props.

(** ** Concrete packets *)
Module GdbSim.
Import CrcSim CommandSim.
(** A controller the firmware serves, and the file's own with no targets. *)
Definition served : controller := set_target_lists CommandSim.ctl [5%positive] (Some 5%positive) None.
Definition detached : controller := set_target_lists CommandSim.ctl [5%positive] None None.
Definition unused : controller := set_target_lists CommandSim.ctl [] None None.
Definition readable1 : target := set_conn true (Some 1%nat) readable.
Definition packet (s : list Z) : list Z := s ++ memset (1025 - zlen s) 0.
Definition w_with (c : controller) (s : list Z) : world unit :=
  {| heap := {[ 5%positive := readable1 ]}; ctls := <[1%nat := c]> {[ 0%nat := unused ]}; pbuf := packet s; debug_bmp := false; dev := tt |}.
End GdbSim.

Lemma m_packet_reads_witness :
  let w := GdbSim.w_with GdbSim.served (str "m20000000,10") in
  if 512 <? 16 then handle_m (Some 5%positive) w = gdb_putpacketz (str "E02") w
  else exists b, zlen b = 1025 /\ handle_m (Some 5%positive) w
    = gdb_putpacket (hexify_digits (mem_range CrcSim.mem 536870912 16)) (set_pbuf b w).
Proof.
  apply (m_packet_reads 5 7 1 536870912 16 _ (GdbSim.w_with GdbSim.served (str "m20000000,10"))
    (mem_range CrcSim.mem 536870912 16) (memset (1025 - 13) 0)); try reflexivity; split; try lia; cbn; lia.
Defined.
Lemma qxfer_slice_witness :
  handle_q_string_reply (str "<memory-map></memory-map>") (str "0,3fb") (GdbSim.w_with GdbSim.served []) =
    (if 0 <? 25 then gdb_putpacket (109 :: ztake 1019 (zdrop 0 (str "<memory-map></memory-map>")))
     else if 0 =? 25 then gdb_putpacketz (str "l") else gdb_putpacketz (str "E01")) (GdbSim.w_with GdbSim.served []) /\
  forall k, concat (List.map (fun i => ztake 1019 (zdrop (Z.of_nat i * 1019) (str "<memory-map></memory-map>"))) (seq 0 k))
    = ztake (Z.of_nat k * 1019) (str "<memory-map></memory-map>").
Proof.
  apply (qxfer_slice (str "<memory-map></memory-map>") 0 2 0 1019); [split; [lia|cbn; lia]|split; [lia|cbn; lia]|lia].
Defined.
Lemma vattach_never_attaches_witness :
  handle_attach 1 1 (GdbSim.w_with GdbSim.detached []) = gdb_putpacketz (str "E01")
    (set_ctls (<[1%nat := set_cur None GdbSim.detached]> (ctls (GdbSim.w_with GdbSim.detached []))) (GdbSim.w_with GdbSim.detached [])).
Proof. apply (vattach_never_attaches 1 GdbSim.detached GdbSim.unused); reflexivity. Defined.
Lemma flash_done_null_witness :
  handle_flash_done 1 (GdbSim.w_with GdbSim.detached []) = Fault NullDeref (GdbSim.w_with GdbSim.detached []).
Proof. apply (flash_done_null 1 GdbSim.detached); reflexivity. Defined.
Lemma stale_single_step_witness : exists w',
  handle_resume 9 1 true (GdbSim.w_with GdbSim.detached []) = Ok true w'.
Proof. eexists. apply (stale_single_step 9 1 GdbSim.detached); [reflexivity|reflexivity|vm_compute; reflexivity]. Defined.
Lemma vrun_overrun_witness :
  parse_cmdline (str "vRun;" ++ nul_pairs 90 ++ [0]) (GdbSim.w_with GdbSim.served []) = Fault OutOfBounds (GdbSim.w_with GdbSim.served []).
Proof. apply (vrun_overrun 90 [0]). lia. Defined.
Lemma hostio_reply_read_witness :
  hostio_reply 1 (GdbSim.w_with GdbSim.served (str "F-1,4,C")) = Ok (-1)
    (set_ctls (<[1%nat := set_errno 4 (set_interrupted true GdbSim.served)]> (ctls (GdbSim.w_with GdbSim.served (str "F-1,4,C"))))
      (GdbSim.w_with GdbSim.served (str "F-1,4,C"))).
Proof.
  apply (hostio_reply_read 1 GdbSim.served 0 0 1 4 true true _ (memset (1025 - 8) 0)); try reflexivity; split; try lia; cbn; lia.
Defined.
