(* ===== verification/Dap.v ===== *)
(** What the firmware relies on of an ADIv5 debug port: a step relation for the
    registers of one memory access port as the ADIv5 specification describes
    them, and the interface [DpIf] by which adiv5.c reaches a debug port,
    with its laws. *)

From Stdlib Require Import ZArith Lia.
From stdpp Require Import base list numbers option.
From S2P Require Import Prelude.

(** ** adiv5.h: constants *)
Definition ADIV5_APnDP : Z := 0x100.
Definition ADIV5_LOW_WRITE : Z := 0.
Definition ADIV5_LOW_READ : Z := 1.
Definition ADIV5_DP_IDCODE : Z := 0x0.
Definition ADIV5_DP_ABORT : Z := 0x0.
Definition ADIV5_DP_CTRLSTAT : Z := 0x4.
Definition ADIV5_DP_SELECT : Z := 0x8.
Definition ADIV5_DP_RDBUFF : Z := 0xC.
Definition ADIV5_DP_TARGETSEL : Z := 0xC.
Definition ADIV5_AP_CSW : Z := 0x100.
Definition ADIV5_AP_TAR : Z := 0x104.
Definition ADIV5_AP_DRW : Z := 0x10C.
Definition ADIV5_AP_BASE : Z := 0x1F8.
Definition ADIV5_AP_IDR : Z := 0x1FC.
Definition ADIV5_AP_CSW_ADDRINC_SINGLE : Z := 0x10.
Definition ADIV5_AP_CSW_ADDRINC_MASK : Z := 0x30.
Definition ADIV5_AP_CSW_SIZE_MASK : Z := 0x7.
Definition ADIV5_AP_CSW_TRINPROG : Z := 0x80.

(** ** A debug port as adiv5.c sees it: the method pointers of [ADIv5_DP_t] *)
Class DpIf (W : Type) := {
  dp_low_access : positive -> Z -> Z -> Z -> M W Z;   (* dp, RnW, addr, value *)
  dp_read : positive -> Z -> M W Z;
}.

(** ** The registers of a memory access port

    [d_posted]: the result of the last access port read, which the next access
    port read or RDBUFF delivers.  [d_mem]: the memory behind the port, a byte
    per address. *)
Record dap := { d_select : Z; d_csw : Z; d_tar : Z; d_posted : Z; d_mem : Z -> Z }.

Inductive dap_reg : Set := SELECT | RDBUFF | CSW | TAR | DRW.

(** The register an access reaches: the debug port decodes A[3:2], an access
    port the bank in SELECT as well, and only when SELECT names it. *)
Definition decode (apsel select RnW addr : Z) : option dap_reg :=
  if flag addr ADIV5_APnDP then
    if Z.shiftr select 24 =? apsel then
      match Z.land select 0xF0 + Z.land addr 0xC with
      | 0x0 => Some CSW
      | 0x4 => Some TAR
      | 0xC => Some DRW
      | _ => None
      end
    else None
  else
    match Z.land addr 0xC with
    | 0x8 => if RnW =? ADIV5_LOW_WRITE then Some SELECT else None
    | 0xC => if RnW =? ADIV5_LOW_WRITE then None else Some RDBUFF
    | _ => None
    end.

(** The width of a transfer, as bytes, and the byte lane of an address. *)
Definition width (csw : Z) : Z := 2 ^ Z.land csw ADIV5_AP_CSW_SIZE_MASK.
Definition lane (v a : Z) : Z := u8 (Z.shiftr v (8 * Z.land a 3)).

(** [v] has memory in the byte lanes of a read of [n] bytes at [a]; the other
    lanes may hold anything. *)
Definition lanes_of (mem : Z -> Z) (a n v : Z) : Prop :=
  forall i, 0 <= i < n -> lane v (a + i) = mem (a + i).
(** Memory after a write of [n] bytes at [a]. *)
Definition write_lanes (mem : Z -> Z) (a n v : Z) : Z -> Z := fun b =>
  if (a <=? b) && (b <? a + n) then lane v b else mem b.

Definition page (a : Z) : Z := Z.shiftr a 10.
(** Auto-increment is only specified for the low ten bits of TAR; when it
    leaves them the port may hold any aligned address. *)
Definition tar_next (tar n tar' : Z) : Prop :=
  is_u32 tar' /\ tar' mod n = 0 /\ (page (tar + n) = page tar -> tar' = tar + n).

(** A transfer the port accepts: single increment, at most a word, aligned. *)
Definition drw_ready (d : dap) : Prop :=
  Z.land (d_csw d) ADIV5_AP_CSW_ADDRINC_MASK = ADIV5_AP_CSW_ADDRINC_SINGLE /\
  Z.land (d_csw d) ADIV5_AP_CSW_SIZE_MASK <= 2 /\ d_tar d mod width (d_csw d) = 0.

(** What an access leaves for the next one to deliver is only known of a read
    of memory: on JTAG every request, RDBUFF's too, replaces it. *)
Inductive dap_step (d : dap) : Z -> dap_reg -> Z -> Z -> dap -> Prop :=
| step_select v r posted : dap_step d ADIV5_LOW_WRITE SELECT v r
    {| d_select := v; d_csw := d_csw d; d_tar := d_tar d; d_posted := posted; d_mem := d_mem d |}
| step_csw v r posted : dap_step d ADIV5_LOW_WRITE CSW v r
    {| d_select := d_select d; d_csw := v; d_tar := d_tar d; d_posted := posted; d_mem := d_mem d |}
| step_tar v r posted : dap_step d ADIV5_LOW_WRITE TAR v r
    {| d_select := d_select d; d_csw := d_csw d; d_tar := v; d_posted := posted; d_mem := d_mem d |}
| step_drw_read v posted tar : lanes_of (d_mem d) (d_tar d) (width (d_csw d)) posted ->
    tar_next (d_tar d) (width (d_csw d)) tar ->
    dap_step d ADIV5_LOW_READ DRW v (d_posted d)
      {| d_select := d_select d; d_csw := d_csw d; d_tar := tar; d_posted := posted; d_mem := d_mem d |}
| step_drw_write v r posted tar : tar_next (d_tar d) (width (d_csw d)) tar ->
    dap_step d ADIV5_LOW_WRITE DRW v r
      {| d_select := d_select d; d_csw := d_csw d; d_tar := tar; d_posted := posted;
         d_mem := write_lanes (d_mem d) (d_tar d) (width (d_csw d)) v |}
| step_rdbuff v posted : dap_step d ADIV5_LOW_READ RDBUFF v (d_posted d)
    {| d_select := d_select d; d_csw := d_csw d; d_tar := d_tar d; d_posted := posted; d_mem := d_mem d |}.

(** The accesses of the relation. *)
Definition dap_access_ok (d : dap) (RnW : Z) (reg : dap_reg) : Prop :=
  match reg with
  | SELECT | CSW | TAR => RnW = ADIV5_LOW_WRITE
  | RDBUFF => RnW = ADIV5_LOW_READ
  | DRW => (RnW = ADIV5_LOW_WRITE \/ RnW = ADIV5_LOW_READ) /\ drw_ready d
  end.

(** [dp] is a debug port whose access port [apsel] is a memory access port:
    an access is a step of the relation. *)
Class DapSpec (W : Type) `{DpIf W} (dp : positive) (apsel : Z) := {
  dap_wf : W -> Prop;
  dap_of : W -> dap;
  apsel_byte : is_byte apsel;
  low_access_step w RnW addr v reg :
    dap_wf w -> is_u32 v -> decode apsel (d_select (dap_of w)) RnW addr = Some reg ->
    dap_access_ok (dap_of w) RnW reg ->
    exists r w', dp_low_access dp RnW addr v w = Ok r w' /\ dap_wf w' /\
      dap_step (dap_of w) RnW reg v r (dap_of w');
}.

Lemma page_spec a b : is_u32 a -> is_u32 b ->
  flag (Z.lxor a b) 0xfffffc00 = negb (page a =? page b).
Proof.
  intros Ha Hb. unfold flag, page. f_equal.
  assert (Hr : forall x, is_u32 x -> Z.land (Z.shiftr x 10) (Z.ones 22) = Z.shiftr x 10).
  { intros x Hx. rewrite Z.land_ones by lia. apply Z.mod_small. unfold in_width in Hx.
    rewrite Z.shiftr_div_pow2 by lia. split; [apply Z.div_pos; lia|apply Z.div_lt_upper_bound; lia]. }
  assert (Hm : Z.land (Z.lxor a b) 0xfffffc00 = Z.shiftl (Z.lxor (Z.shiftr a 10) (Z.shiftr b 10)) 10).
  { change 0xfffffc00 with (Z.shiftl (Z.ones 22) 10). rewrite <- (Hr a Ha), <- (Hr b Hb).
    apply Z.bits_inj'. intros n Hn. rewrite Z.land_spec, !Z.lxor_spec, !Z.shiftl_spec by lia.
    destruct (Z.ltb_spec n 10).
    - rewrite !(Z.testbit_neg_r _ (n - 10)) by lia. by rewrite andb_false_r.
    - rewrite !Z.lxor_spec, !Z.land_spec, !Z.shiftr_spec by lia. replace (n - 10 + 10) with n by lia.
      by destruct (Z.testbit (Z.ones 22) (n - 10)), (Z.testbit a n), (Z.testbit b n). }
  rewrite Hm, Z.shiftl_mul_pow2 by lia. apply Bool.eq_iff_eq_true. rewrite !Z.eqb_eq. split.
  - intros Hz. apply Z.lxor_eq_0_iff. lia.
  - intros ->. by rewrite Z.lxor_nilpotent.
Qed.

(** ** A debug port that satisfies the interface

    Auto-increment wraps within 1 KiB and every lane of a read carries memory,
    as on a Cortex-M's AHB access port. *)
Module DapSim.
Definition word_at (mem : Z -> Z) (a : Z) : Z :=
  let b := a - a mod 4 in le_val (mem <$> [b; b + 1; b + 2; b + 3]).
Definition bump (tar n : Z) : Z :=
  if page (tar + n) =? page tar then tar + n else tar - tar mod 1024.
Definition access (RnW addr v : Z) (d : dap) : Z * dap :=
  let n := width (d_csw d) in
  match decode 0 (d_select d) RnW addr with
  | Some SELECT => (0, {| d_select := v; d_csw := d_csw d; d_tar := d_tar d; d_posted := d_posted d; d_mem := d_mem d |})
  | Some CSW => (0, {| d_select := d_select d; d_csw := v; d_tar := d_tar d; d_posted := d_posted d; d_mem := d_mem d |})
  | Some TAR => (0, {| d_select := d_select d; d_csw := d_csw d; d_tar := v; d_posted := d_posted d; d_mem := d_mem d |})
  | Some RDBUFF => (d_posted d, d)
  | Some DRW =>
      if RnW =? ADIV5_LOW_WRITE then
        (0, {| d_select := d_select d; d_csw := d_csw d; d_tar := bump (d_tar d) n; d_posted := d_posted d;
               d_mem := write_lanes (d_mem d) (d_tar d) n v |})
      else
        (d_posted d, {| d_select := d_select d; d_csw := d_csw d; d_tar := bump (d_tar d) n;
                        d_posted := word_at (d_mem d) (d_tar d); d_mem := d_mem d |})
  | None => (0, d)
  end.
#[export] Instance sim_if : DpIf dap := {
  dp_low_access _ RnW addr v d := let '(r, d') := access RnW addr v d in Ok r d';
  dp_read _ addr d := Ok 0 d;
}.
Definition wf (d : dap) : Prop := is_u32 (d_tar d) /\ forall a, is_byte (d_mem d a).

Lemma word_lane mem a : (forall a, is_byte (mem a)) -> lane (word_at mem a) a = mem a.
Proof.
  intros Hm. unfold lane, word_at. change (Z.land a 3) with (Z.land a (Z.ones 2)). rewrite Z.land_ones by lia. change (2 ^ 2) with 4.
  pose proof (Z.mod_pos_bound a 4 ltac:(lia)). set (b := a - a mod 4).
  assert (a = b + a mod 4) by lia. set (r := a mod 4) in *. clearbody r b. subst a. cbn [fmap list_fmap].
  assert (H0 := Hm b). assert (H1 := Hm (b + 1)). assert (H2 := Hm (b + 2)). assert (H3 := Hm (b + 3)).
  unfold in_width in *. change (2 ^ 8) with 256 in *. cbn [le_val].
  set (m0 := mem b) in *. set (m1 := mem (b + 1)) in *. set (m2 := mem (b + 2)) in *. set (m3 := mem (b + 3)) in *.
  assert (Hr : r = 0 \/ r = 1 \/ r = 2 \/ r = 3) by lia. unfold u8, wrap. rewrite Z.shiftr_div_pow2 by lia. change (2 ^ 8) with 256.
  destruct Hr as [-> | [-> | [-> | ->]]].
  - change (2 ^ (8 * 0)) with 1. rewrite Z.div_1_r, !Z.add_0_r. fold m0. symmetry.
    apply (Z.mod_unique_pos _ _ (m1 + 256 * (m2 + 256 * (m3 + 256 * 0)))); lia.
  - change (2 ^ (8 * 1)) with 256. fold m1. symmetry. apply (Z.mod_unique_pos _ _ (m2 + 256 * (m3 + 256 * 0))); [lia|].
    symmetry. apply (Z.div_unique_pos _ _ _ m0); lia.
  - change (2 ^ (8 * 2)) with 65536. fold m2. symmetry. apply (Z.mod_unique_pos _ _ (m3 + 256 * 0)); [lia|].
    symmetry. apply (Z.div_unique_pos _ _ _ (m0 + 256 * m1)); lia.
  - change (2 ^ (8 * 3)) with 16777216. fold m3. symmetry. apply (Z.mod_unique_pos _ _ 0); [lia|].
    symmetry. apply (Z.div_unique_pos _ _ _ (m0 + 256 * (m1 + 256 * m2))); lia.
Qed.

Lemma width_cases d : drw_ready d -> width (d_csw d) = 1 \/ width (d_csw d) = 2 \/ width (d_csw d) = 4.
Proof.
  intros (_ & Hz & _). unfold width. assert (0 <= Z.land (d_csw d) ADIV5_AP_CSW_SIZE_MASK) by (apply Z.land_nonneg; right; done).
  assert (Hc : Z.land (d_csw d) ADIV5_AP_CSW_SIZE_MASK = 0 \/ Z.land (d_csw d) ADIV5_AP_CSW_SIZE_MASK = 1 \/
    Z.land (d_csw d) ADIV5_AP_CSW_SIZE_MASK = 2) by lia.
  destruct Hc as [-> | [-> | ->]]; auto.
Qed.
Lemma page_div a : page a = a / 1024.
Proof. unfold page. by rewrite Z.shiftr_div_pow2 by lia. Qed.
Lemma bump_next tar n : is_u32 tar -> n = 1 \/ n = 2 \/ n = 4 -> tar mod n = 0 -> tar_next tar n (bump tar n).
Proof.
  intros Ht Hn Ha. unfold in_width in Ht. pose proof (Z.mod_pos_bound tar 1024 ltac:(lia)).
  pose proof (Z.mod_le tar 1024 ltac:(lia) ltac:(lia)).
  unfold tar_next, bump. destruct (Z.eqb_spec (page (tar + n)) (page tar)) as [Hp|Hp].
  - split_and!; [|by rewrite <- (Z.mul_1_l n) at 1; rewrite Z.mod_add by lia|done].
    rewrite !page_div in Hp. pose proof (Z.div_mod (tar + n) 1024 ltac:(lia)).
    pose proof (Z.div_mod tar 1024 ltac:(lia)). pose proof (Z.mod_pos_bound (tar + n) 1024 ltac:(lia)).
    assert (tar / 1024 < 4194304) by (apply Z.div_lt_upper_bound; lia). unfold in_width. lia.
  - split_and!; [unfold in_width; lia| |done].
    pose proof (Z.div_mod tar 1024 ltac:(lia)). replace (tar - tar mod 1024) with (1024 * (tar / 1024)) by lia.
    destruct Hn as [-> | [-> | ->]]; apply Z.mod_divide; try lia.
    + by apply Z.divide_1_l.
    + apply Z.divide_mul_l. by exists 512.
    + apply Z.divide_mul_l. by exists 256.
Qed.
Lemma word_lanes mem a n : (forall a, is_byte (mem a)) -> n = 1 \/ n = 2 \/ n = 4 -> a mod n = 0 ->
  lanes_of mem a n (word_at mem a).
Proof.
  intros Hm Hn Ha i Hi. rewrite <- (word_lane mem (a + i) Hm). f_equal. unfold word_at.
  assert (a + i - (a + i) mod 4 = a - a mod 4) as ->; [|done].
  pose proof (Z.div_mod a 4 ltac:(lia)). pose proof (Z.mod_pos_bound a 4 ltac:(lia)).
  pose proof (Z.div_mod a 2 ltac:(lia)). pose proof (Z.div_mod (a / 2) 2 ltac:(lia)).
  rewrite <- (Z.mod_unique_pos (a + i) 4 (a / 4) (a mod 4 + i)); [lia| |lia].
  destruct Hn as [-> | [-> | ->]]; [lia| |lia].
  assert (a mod 4 = 2 * ((a / 2) mod 2)); [|pose proof (Z.mod_pos_bound (a / 2) 2 ltac:(lia)); lia].
  symmetry. apply (Z.mod_unique_pos _ _ (a / 2 / 2)); [pose proof (Z.mod_pos_bound (a / 2) 2 ltac:(lia))|]; lia.
Qed.

Lemma sim_step dp d RnW addr v reg : wf d -> is_u32 v -> decode 0 (d_select d) RnW addr = Some reg ->
  dap_access_ok d RnW reg ->
  exists r d', dp_low_access dp RnW addr v d = Ok r d' /\ wf d' /\ dap_step d RnW reg v r d'.
Proof.
  intros [Ht Hm] Hv Hd Hacc. cbn [dp_low_access sim_if]. unfold access. rewrite Hd.
  destruct reg; cbn in Hacc; try subst RnW; cbn [ADIV5_LOW_WRITE Z.eqb].
  - eexists _, _. split; [reflexivity|]. split; [done|]. constructor.
  - eexists _, _. split; [reflexivity|]. split; [done|]. destruct d. constructor.
  - eexists _, _. split; [reflexivity|]. split; [done|]. constructor.
  - eexists _, _. split; [reflexivity|]. split; [done|]. constructor.
  - destruct Hacc as [Hdir Hr]. pose proof (width_cases d Hr) as Hw. pose proof (proj2 (proj2 Hr)) as Ha.
    pose proof (bump_next _ _ Ht Hw Ha) as Hb.
    destruct Hdir as [-> | ->]; cbn [ADIV5_LOW_WRITE ADIV5_LOW_READ Z.eqb];
      eexists _, _; (split; [reflexivity|]); (split; [|by constructor; try apply word_lanes]).
    + split; [apply Hb|]. cbn. intros a. unfold write_lanes. destruct (_ && _); [apply u8_range|apply Hm].
    + split; [apply Hb|done].
Qed.
Lemma zero_byte : is_byte 0.
Proof. done. Qed.
#[export] Instance sim_spec dp : DapSpec dap dp 0 :=
  {| dap_wf := wf; dap_of := fun d => d; apsel_byte := zero_byte; low_access_step := sim_step dp |}.
End DapSim.
