(* ===== verification/Adiv5Props.v ===== *)
(** The memory transfers of adiv5.c over any debug port that satisfies
    [DapSpec]: what they read and write is exactly the target's memory. *)

From Stdlib Require Import ZArith Lia ZifyBool.
From stdpp Require Import base list numbers option.
From S2P Require Import Prelude CLib Dap Adiv5.

(** The bytes of memory from [a] on. *)
Definition mem_bytes (mem : Z -> Z) (a n : Z) : list Z := (fun i => mem (a + i)) <$> seqZ 0 n.

Lemma zlen_mem_bytes mem a n : 0 <= n -> zlen (mem_bytes mem a n) = n.
Proof. intros. unfold zlen, mem_bytes. rewrite length_fmap, length_seqZ. lia. Qed.
Lemma mem_bytes_app mem a n m : 0 <= n -> 0 <= m ->
  mem_bytes mem a (n + m) = mem_bytes mem a n ++ mem_bytes mem (a + n) m.
Proof.
  intros. unfold mem_bytes. rewrite seqZ_app, fmap_app by lia. f_equal.
  apply list_eq. intros i. rewrite !list_lookup_fmap.
  destruct (decide (i < Z.to_nat m)%nat).
  - rewrite !lookup_seqZ_lt by lia. cbn. do 2 f_equal. lia.
  - rewrite !lookup_seqZ_ge by lia. done.
Qed.

(** ** Byte lanes *)
Lemma lane_range v a : is_byte (lane v a).
Proof. apply u8_range. Qed.
Lemma u8_land_ff x : u8 (Z.land x 0xff) = u8 x.
Proof.
  unfold u8, wrap. change 0xff with (Z.ones 8). rewrite Z.land_ones by lia. apply Z.mod_mod. lia.
Qed.
Lemma u8_testbit x i : 0 <= i < 8 -> Z.testbit (u8 x) i = Z.testbit x i.
Proof. intros. unfold u8, wrap. rewrite Z.mod_pow2_bits_low; [done|lia]. Qed.
Lemma bytes_eq a b : is_byte a -> is_byte b ->
  (forall i, 0 <= i < 8 -> Z.testbit a i = Z.testbit b i) -> a = b.
Proof.
  intros Ha Hb Hi. rewrite <- (u8_small a Ha), <- (u8_small b Hb). apply Z.bits_inj'. intros i Hi0.
  unfold u8, wrap. destruct (Z.ltb_spec i 8).
  - rewrite !Z.mod_pow2_bits_low by lia. apply Hi. lia.
  - rewrite !Z.mod_pow2_bits_high by lia. done.
Qed.
Lemma u8_shift_land x k m : 0 <= k -> k + 8 <= m ->
  u8 (Z.shiftr (Z.land x (Z.ones m)) k) = u8 (Z.shiftr x k).
Proof.
  intros Hk Hm. apply bytes_eq; try apply u8_range. intros i Hi. rewrite !u8_testbit by lia.
  rewrite !Z.shiftr_spec, Z.land_spec by lia. rewrite (Z.ones_spec_low m) by lia. apply andb_true_r.
Qed.

Lemma aligned_lane a n i : (n = 2 \/ n = 4) -> a mod n = 0 -> 0 <= i < n ->
  Z.land (a + i) 3 = Z.land a 3 + i.
Proof.
  intros Hn Ha Hi. change 3 with (Z.ones 2). rewrite !Z.land_ones by lia. change (2 ^ 2) with 4.
  assert (Hq := Z.div_mod a n ltac:(lia)). destruct Hn as [-> | ->].
  - assert (Hr := Z.div_mod (a / 2) 2 ltac:(lia)). pose proof (Z.mod_pos_bound (a / 2) 2 ltac:(lia)).
    rewrite <- (Z.mod_unique_pos (a + i) 4 (a / 2 / 2) (2 * ((a / 2) mod 2) + i)) by lia.
    rewrite <- (Z.mod_unique_pos a 4 (a / 2 / 2) (2 * ((a / 2) mod 2))) by lia. lia.
  - rewrite <- (Z.mod_unique_pos (a + i) 4 (a / 4) i) by lia. rewrite Ha. lia.
Qed.
Lemma even_land a : a mod 2 = 0 -> Z.land a 2 = Z.land a 3.
Proof.
  intros Ha. apply Z.bits_inj'. intros i Hi. rewrite !Z.land_spec.
  destruct (Z.eq_dec i 0) as [->|]; [|destruct (Z.eq_dec i 1) as [->|]; [done|]].
  - assert (Hodd : Z.odd a = false) by (rewrite Zodd_mod, Ha; done).
    rewrite !Z.bit0_odd, Hodd. done.
  - change 2 with (2 ^ 1) at 1. rewrite Z.pow2_bits_false by lia. change 3 with (Z.ones 2).
    rewrite Z.ones_spec_high by lia. done.
Qed.

(** The transfer widths. *)
Definition good_align (n : Z) : Prop := n = 0 \/ n = 1 \/ n = 2.

(** What [extract] stores for a word with memory in its lanes. *)
Lemma extracted_lanes mem a al v : good_align al -> a mod 2 ^ al = 0 ->
  lanes_of mem a (2 ^ al) v -> extracted a v al = mem_bytes mem a (2 ^ al).
Proof.
  intros Hal Ha Hv. unfold extracted, mem_bytes.
  destruct Hal as [-> | [-> | ->]]; cbn [Z.eqb ALIGN_BYTE ALIGN_HALFWORD ALIGN_WORD ALIGN_DWORD orb Pos.eqb].
  - change (seqZ 0 (2 ^ 0)) with [0]. cbn [fmap list_fmap le_bytes]. rewrite u8_land_ff.
    specialize (Hv 0 ltac:(lia)). unfold lane in Hv. rewrite <- Hv, Z.add_0_r, Z.shiftl_mul_pow2 by lia.
    by rewrite Z.mul_comm.
  - change (seqZ 0 (2 ^ 1)) with [0; 1]. cbn [fmap list_fmap le_bytes].
    change (2 ^ 1) with 2 in *. rewrite even_land by done. rewrite !Z.shiftl_mul_pow2 by lia.
    rewrite (Z.mul_comm (Z.land a 3)). change (2 ^ 3) with 8. change 0xFFFF with (Z.ones 16).
    assert (0 <= Z.land a 3) by (apply Z.land_nonneg; lia).
    rewrite <- (Hv 0), <- (Hv 1) by lia. unfold lane. rewrite Z.add_0_r, (aligned_lane a 2 1) by lia.
    f_equal; [|f_equal].
    + rewrite <- (Z.shiftr_0_r (Z.land (Z.shiftr v (8 * Z.land a 3)) (Z.ones 16))).
      rewrite u8_shift_land by lia. by rewrite Z.shiftr_0_r.
    + rewrite u8_shift_land by lia. rewrite Z.shiftr_shiftr by lia. do 2 f_equal. lia.
  - change (seqZ 0 (2 ^ 2)) with [0; 1; 2; 3]. cbn [fmap list_fmap le_bytes].
    change (2 ^ 2) with 4 in *.
    rewrite <- (Hv 0), <- (Hv 1), <- (Hv 2), <- (Hv 3) by lia. unfold lane.
    rewrite !(aligned_lane a 4) by lia. assert (Z.land a 3 = 0) as ->.
    { change 3 with (Z.ones 2). by rewrite Z.land_ones by lia. }
    rewrite !Z.shiftr_shiftr by lia. done.
Qed.

(** A word packed from [2 ^ al] bytes has them in its lanes. *)
Lemma lane_le_val l i : is_bytes l -> 0 <= i < zlen l -> u8 (Z.shiftr (le_val l) (8 * i)) = zget l i.
Proof.
  intros Hl. revert i. induction Hl as [|b l Hb Hl IH]; intros i Hi; [unfold zlen in Hi; cbn in Hi; lia|].
  cbn [le_val]. rewrite zlen_cons in Hi. unfold in_width in Hb. change (2 ^ 8) with 256 in Hb.
  destruct (Z.eq_dec i 0) as [->|Hne].
  - rewrite Z.mul_0_r, Z.shiftr_0_r. unfold u8, wrap. change (2 ^ 8) with 256.
    rewrite Z.mul_comm, Z.mod_add, Z.mod_small by lia. done.
  - replace (8 * i) with (8 + 8 * (i - 1)) by lia. rewrite <- Z.shiftr_shiftr by lia.
    rewrite (Z.shiftr_div_pow2 _ 8) by lia. change (2 ^ 8) with 256.
    rewrite Z.mul_comm, Z.div_add, (Z.div_small b) by lia. rewrite Z.add_0_l, IH by lia.
    unfold zget. rewrite (proj2 (Z.ltb_ge i 0)), (proj2 (Z.ltb_ge (i - 1) 0)) by lia.
    replace (Z.to_nat i) with (S (Z.to_nat (i - 1))) by lia. done.
Qed.

Lemma lane_shifted x a k i n : 0 <= k -> 0 <= i < n -> 8 * (k + n) <= 32 -> Z.land (a + i) 3 = k + i ->
  lane (u32 (Z.shiftl x (8 * k))) (a + i) = u8 (Z.shiftr x (8 * i)).
Proof.
  intros Hk Hi Hn Ha. unfold lane. rewrite Ha. apply bytes_eq; try apply u8_range. intros j Hj.
  rewrite !u8_testbit, !Z.shiftr_spec by lia. unfold u32, wrap.
  rewrite Z.mod_pow2_bits_low, Z.shiftl_spec by lia. f_equal. lia.
Qed.

Lemma land3_range a : 0 <= Z.land a 3 < 4.
Proof. change 3 with (Z.ones 2). rewrite Z.land_ones by lia. apply Z.mod_pos_bound. lia. Qed.

Lemma packed_lanes {W} (src : list Z) off a al (w : W) : good_align al -> a mod 2 ^ al = 0 ->
  is_bytes src -> 0 <= off -> off + 2 ^ al <= zlen src ->
  exists v, packed src off a al w = Ok v w /\ is_u32 v /\
    forall i, 0 <= i < 2 ^ al -> lane v (a + i) = zget src (off + i).
Proof.
  intros Hal Ha Hs Ho Hl.
  assert (Hb : forall n, 0 <= n -> off + n <= zlen src ->
    let b := ztake n (zdrop off src) in
    is_bytes b /\ zlen b = n /\ forall i, 0 <= i < n -> zget b i = zget src (off + i)).
  { intros n Hn Hle b. split_and!.
    - apply Forall_take, Forall_drop, Hs.
    - unfold b. rewrite zlen_ztake; [done|]. rewrite zlen_zdrop; lia.
    - intros i Hi. unfold b. assert (Hl2 := zget_lookup src (off + i) ltac:(lia)).
      unfold zget at 1. rewrite (proj2 (Z.ltb_ge i 0)) by lia.
      apply nth_lookup_Some. unfold ztake, zdrop. rewrite lookup_take_lt, lookup_drop by lia.
      replace (Z.to_nat off + Z.to_nat i)%nat with (Z.to_nat (off + i)) by lia. done. }
  pose proof (land3_range a) as H3.
  assert (Hload : forall n, 0 <= n -> off + n <= zlen src -> load_n (W := W) src off n w = Ok (ztake n (zdrop off src)) w).
  { intros n Hn Hle. unfold load_n. by rewrite !(proj2 (Z.leb_le _ _)) by lia. }
  unfold packed. destruct Hal as [-> | [-> | ->]]; cbn [Z.eqb ALIGN_BYTE ALIGN_HALFWORD ALIGN_WORD ALIGN_DWORD orb Pos.eqb];
    change (2 ^ 0) with 1 in *; change (2 ^ 1) with 2 in *; change (2 ^ 2) with 4 in *;
    match type of Hl with off + ?n <= _ =>
      assert (Hn : 0 <= n) by lia; rewrite (bind_Ok _ _ _ _ _ (Hload n Hn Hl));
      destruct (Hb n Hn Hl) as (Hbb & Hbl & Hbg) end;
    eexists; (split; [reflexivity|]).
  - split; [apply u32_range|]. intros i Hi. assert (i = 0) as -> by lia.
    rewrite (Z.shiftl_mul_pow2 (Z.land a 3)), Z.mul_comm by lia.
    rewrite (lane_shifted _ _ _ _ 1) by (rewrite ?Z.add_0_r; lia). rewrite lane_le_val by (done || lia). apply Hbg. lia.
  - split; [apply u32_range|]. intros i Hi.
    rewrite even_land by done. assert (Z.land a 3 + 1 < 4).
    { rewrite <- (aligned_lane a 2 1) by lia. apply land3_range. }
    rewrite (Z.shiftl_mul_pow2 (Z.land a 3)), Z.mul_comm by lia.
    rewrite (lane_shifted _ _ _ _ 2) by (lia || (rewrite (aligned_lane a 2 i) by lia; done)).
    rewrite lane_le_val by (done || lia). apply Hbg. lia.
  - assert (Hr := le_val_range _ Hbb). unfold zlen in Hbl. rewrite Hbl in Hr. split; [exact Hr|]. intros i Hi.
    unfold lane. rewrite (aligned_lane a 4 i) by lia. assert (Z.land a 3 = 0) as ->.
    { change 3 with (Z.ones 2). by rewrite Z.land_ones by lia. }
    rewrite Z.add_0_l, lane_le_val by (done || (unfold zlen; lia)). apply Hbg. lia.
Qed.

Lemma splice_app buf off a b : 0 <= off -> off + zlen a + zlen b <= zlen buf ->
  splice (splice buf off a) (off + zlen a) b = splice buf off (a ++ b).
Proof.
  intros Ho Hl. pose proof (zlen_nonneg a). pose proof (zlen_nonneg b).
  assert (H1 : zlen (splice buf off a) = zlen buf) by (apply zlen_splice; lia).
  assert (H2 : zlen (a ++ b) = zlen a + zlen b) by apply zlen_app.
  assert (H3 : zlen (splice (splice buf off a) (off + zlen a) b) = zlen buf).
  { rewrite <- H1. apply zlen_splice; lia. }
  assert (H4 : zlen (splice buf off (a ++ b)) = zlen buf) by (apply zlen_splice; lia).
  apply zget_ext; [lia|]. intros i Hi.
  rewrite (zget_splice (splice buf off a)), !zget_splice, H2 by lia.
  destruct (Z.leb_spec (off + zlen a) i), (Z.ltb_spec i (off + zlen a + zlen b)), (Z.leb_spec off i),
    (Z.ltb_spec i (off + zlen a)), (Z.ltb_spec i (off + (zlen a + zlen b))); cbn; try lia; try done;
    rewrite zget_app by lia.
  - rewrite (proj2 (Z.ltb_ge _ _)) by lia. f_equal. lia.
  - rewrite (proj2 (Z.ltb_lt _ _)) by lia. done.
Qed.

Lemma pow_align al : good_align al -> 2 ^ al = Z.shiftl 1 al /\ 1 <= 2 ^ al <= 4 /\ (2 ^ al | 2 ^ 32).
Proof.
  intros [-> | [-> | ->]]; (split_and!; [done|done|done|]).
  - exists (2 ^ 32). done.
  - exists (2 ^ 31). done.
  - exists (2 ^ 30). done.
Qed.

Lemma extract_ok {W} (buf : list Z) off src v al m (w : W) : good_align al -> src mod 2 ^ al = 0 ->
  lanes_of m src (2 ^ al) v -> 0 <= off -> off + 2 ^ al <= zlen buf ->
  extract buf off src v al w = Ok (splice buf off (mem_bytes m src (2 ^ al)), off + 2 ^ al) w.
Proof.
  intros Hal Ha Hv Ho Hl. destruct (pow_align al Hal) as (Hp & Hr & _).
  unfold extract, store_n. rewrite (extracted_lanes m) by done. rewrite zlen_mem_bytes by lia.
  rewrite (proj2 (Z.leb_le 0 off) Ho), (proj2 (Z.leb_le _ _) Hl). cbn [andb]. rewrite <- Hp. done.
Qed.

Lemma land_pow x : Z.land x 3 = x mod 4 /\ Z.land x 1 = x mod 2.
Proof. split; [change 3 with (Z.ones 2)|change 1 with (Z.ones 1)]; by rewrite Z.land_ones by lia. Qed.

Lemma ALIGNOF_spec x : good_align (ALIGNOF x) /\ forall al, 0 <= al <= ALIGNOF x -> x mod 2 ^ al = 0.
Proof.
  unfold ALIGNOF, good_align, ALIGN_WORD, ALIGN_HALFWORD, ALIGN_BYTE. destruct (land_pow x) as [-> ->].
  pose proof (Z.div_mod x 4 ltac:(lia)). pose proof (Z.div_mod x 2 ltac:(lia)).
  pose proof (Z.mod_pos_bound x 4 ltac:(lia)). pose proof (Z.mod_pos_bound x 2 ltac:(lia)).
  assert (Hx : forall al, al = 0 \/ al = 1 \/ al = 2 -> (al = 1 -> x mod 2 = 0) -> (al = 2 -> x mod 4 = 0) -> x mod 2 ^ al = 0).
  { intros al [-> | [-> | ->]] Hx2 Hx4; [apply Z.mod_1_r|auto|auto]. }
  destruct (Z.eqb_spec (x mod 4) 0); [|destruct (Z.eqb_spec (x mod 2) 0)];
    (split; [lia|]); intros al Hal; apply Hx; lia.
Qed.

Lemma align_of_both a n : let al := Z.min (ALIGNOF a) (ALIGNOF n) in
  good_align al /\ a mod 2 ^ al = 0 /\ n = 2 ^ al * Z.shiftr n al.
Proof.
  intros al. destruct (ALIGNOF_spec a) as [Ga Ha], (ALIGNOF_spec n) as [Gn Hn]. unfold good_align in *.
  assert (Hg : al = 0 \/ al = 1 \/ al = 2) by lia. split; [done|].
  split; [apply Ha; lia|]. rewrite Z.shiftr_div_pow2 by lia. specialize (Hn al ltac:(lia)).
  pose proof (Z.div_mod n (2 ^ al) ltac:(destruct Hg as [-> | [-> | ->]]; lia)). lia.
Qed.

Lemma le_val_low b l : is_byte b -> Z.land (le_val (b :: l)) 0xff = b.
Proof.
  intros Hb. unfold in_width in Hb. cbn [le_val]. change 0xff with (Z.ones 8). rewrite Z.land_ones by lia.
  change (2 ^ 8) with 256 in *. rewrite Z.mul_comm, Z.mod_add by lia. by apply Z.mod_small.
Qed.

Lemma lor_shift a b k : 0 <= k -> 0 <= a < 2 ^ k -> Z.lor a (Z.shiftl b k) = a + Z.shiftl b k.
Proof.
  intros Hk Ha. assert (Hz : Z.land a (Z.shiftl b k) = 0).
  { destruct (Z.eq_dec a 0) as [->|Hnz]; [apply Z.land_0_l|].
    apply Z.bits_inj'. intros i Hi. rewrite Z.land_spec, Z.bits_0. destruct (Z.ltb_spec i k).
    - by rewrite Z.shiftl_spec_low, andb_false_r by lia.
    - rewrite (Z.bits_above_log2 a i); [done|lia|].
      assert (Z.log2 a < k) by (apply Z.log2_lt_pow2; lia). lia. }
  by rewrite <- Z.lxor_lor, Z.add_nocarry_lxor.
Qed.

(** Memory with [src] stored at [dest]. *)
Definition stored (m : Z -> Z) (dest : Z) (src : list Z) : Z -> Z := fun b =>
  if (dest <=? b) && (b <? dest + zlen src) then zget src (b - dest) else m b.

Lemma mem_bytes_stored m m' dest src : (forall b, m' b = stored m dest src b) ->
  mem_bytes m' dest (zlen src) = src.
Proof.
  intros Hm. apply zget_ext; rewrite zlen_mem_bytes by apply zlen_nonneg; [done|]. intros i Hi.
  assert (Hl : mem_bytes m' dest (zlen src) !! Z.to_nat i = Some (m' (dest + i))).
  { unfold mem_bytes. rewrite list_lookup_fmap, lookup_seqZ_lt by lia. cbn. do 2 f_equal. lia. }
  rewrite zget_lookup in Hl by (rewrite zlen_mem_bytes; lia). injection Hl as ->.
  rewrite Hm. unfold stored. rewrite (proj2 (Z.leb_le _ _)), (proj2 (Z.ltb_lt _ _)) by lia. cbn. f_equal. lia.
Qed.

(** ** Single accesses *)
(** The fields of the value [ap_mem_access_setup] puts in CSW. *)
Lemma csw_for_fields ap al : is_u32 (csw ap) /\ Z.land (csw ap) 0x37 = 0 -> good_align al ->
  Z.land (csw_for ap al) ADIV5_AP_CSW_ADDRINC_MASK = ADIV5_AP_CSW_ADDRINC_SINGLE /\
  Z.land (csw_for ap al) ADIV5_AP_CSW_SIZE_MASK = al /\ is_u32 (csw_for ap al).
Proof.
  intros [Hu Hc] Hal.
  assert (H30 : Z.land (csw ap) 0x30 = 0).
  { change 0x30 with (Z.land 0x37 0x30). by rewrite Z.land_assoc, Hc. }
  assert (H7 : Z.land (csw ap) 0x7 = 0).
  { change 0x7 with (Z.land 0x37 0x7) at 1. by rewrite Z.land_assoc, Hc. }
  assert (Hform : csw_for ap al = Z.lor (csw ap) (Z.lor 0x10 al)).
  { unfold csw_for. destruct Hal as [-> | [-> | ->]]; cbn [Z.eqb ALIGN_BYTE ALIGN_HALFWORD ALIGN_WORD ALIGN_DWORD orb Pos.eqb];
      rewrite <- Z.lor_assoc; reflexivity. }
  rewrite Hform. split_and!.
  - unfold ADIV5_AP_CSW_ADDRINC_MASK. rewrite Z.land_lor_distr_l, H30. by destruct Hal as [-> | [-> | ->]].
  - unfold ADIV5_AP_CSW_SIZE_MASK. rewrite Z.land_lor_distr_l, H7. by destruct Hal as [-> | [-> | ->]].
  - apply in_width_lor; [lia|done|]. by destruct Hal as [-> | [-> | ->]].
Qed.
(** The fields of the value [firmware_ap_write] puts in SELECT. *)
Lemma select_value_fields ap addr : is_byte (apsel ap) ->
  is_u32 (select_value ap addr) /\ Z.shiftr (select_value ap addr) 24 = apsel ap /\
  Z.land (select_value ap addr) 0xF0 = Z.land addr 0xF0.
Proof.
  intros Hsel. unfold in_width in Hsel. unfold select_value. set (sel := apsel ap) in *.
  assert (Hlo : in_width 8 (Z.land addr 0xF0)).
  { change 0xF0 with (Z.land 0xF0 (Z.ones 8)). rewrite Z.land_assoc, Z.land_ones by lia. apply (wrap_range 8). lia. }
  assert (Hu : u32 (Z.shiftl sel 24) = Z.shiftl sel 24).
  { apply u32_small. rewrite Z.shiftl_mul_pow2 by lia. lia. }
  rewrite Hu. split; [|split].
  - apply in_width_lor; [lia| |unfold in_width in *; lia].
    unfold in_width. rewrite Z.shiftl_mul_pow2 by lia. lia.
  - rewrite Z.shiftr_lor, Z.shiftr_shiftl_l by lia. rewrite Z.sub_diag, Z.shiftl_0_r.
    assert (Z.shiftr (Z.land addr 0xF0) 24 = 0) as ->; [|apply Z.lor_0_r].
    rewrite Z.shiftr_div_pow2 by lia. apply Z.div_small. unfold in_width in Hlo. lia.
  - rewrite Z.land_lor_distr_l.
    assert (Z.land (Z.shiftl sel 24) 0xF0 = 0) as ->.
    { apply Z.bits_inj'. intros n Hn. rewrite Z.land_spec, Z.bits_0. destruct (Z.ltb_spec n 24).
      - by rewrite Z.shiftl_spec_low.
      - rewrite (Z.bits_above_log2 0xF0 n); [apply andb_false_r|done|cbn; lia]. }
    rewrite Z.lor_0_l, <- Z.land_assoc. done.
Qed.
Section Transfers.
Context {W : Type} `{DapSpec W dp sel}.
Variable ap : ADIv5_AP.
Hypothesis ap_is : ap_dp ap = dp /\ apsel ap = sel.
(** [adiv5_new_ap] clears the size and increment fields of [csw]. *)
Hypothesis csw_clear : is_u32 (csw ap) /\ Z.land (csw ap) 0x37 = 0.

(** The port is set up for transfers of [2 ^ al] bytes. *)
Definition tuned (al : Z) (w : W) : Prop :=
  dap_wf w /\ Z.shiftr (d_select (dap_of w)) 24 = sel /\ Z.land (d_select (dap_of w)) 0xF0 = 0 /\
  Z.land (d_csw (dap_of w)) ADIV5_AP_CSW_ADDRINC_MASK = ADIV5_AP_CSW_ADDRINC_SINGLE /\
  Z.land (d_csw (dap_of w)) ADIV5_AP_CSW_SIZE_MASK = al.
Notation mem w := (d_mem (dap_of w)).
Notation tar w := (d_tar (dap_of w)).

Lemma tar_write_ok al w v : tuned al w -> is_u32 v ->
  exists r w', adiv5_dp_low_access (ap_dp ap) ADIV5_LOW_WRITE ADIV5_AP_TAR v w = Ok r w' /\
    tuned al w' /\ tar w' = v /\ mem w' = mem w.
Proof.
  intros (Hwf & Hs & Hb & Hi & Hz) Hv. unfold adiv5_dp_low_access. rewrite (proj1 ap_is).
  destruct (low_access_step w ADIV5_LOW_WRITE ADIV5_AP_TAR v TAR Hwf Hv) as (r & w' & Hr & Hwf' & Hstep).
  - unfold decode. cbn [flag]. rewrite Hs, Z.eqb_refl, Hb. reflexivity.
  - reflexivity.
  - exists r, w'. split; [done|]. inversion Hstep as [| |v0 r0 pd E1 E2| | |]; subst. unfold tuned.
    match goal with E : _ = dap_of w' |- _ => rewrite <- E end. by cbn.
Qed.

Lemma drw_read_ok al w : tuned al w -> good_align al -> tar w mod 2 ^ al = 0 ->
  exists w', adiv5_dp_low_access (ap_dp ap) ADIV5_LOW_READ ADIV5_AP_DRW 0 w = Ok (d_posted (dap_of w)) w' /\
    tuned al w' /\ lanes_of (mem w) (tar w) (2 ^ al) (d_posted (dap_of w')) /\
    tar_next (tar w) (2 ^ al) (tar w') /\ mem w' = mem w.
Proof.
  intros (Hwf & Hs & Hb & Hi & Hz) Hal Ht. unfold adiv5_dp_low_access. rewrite (proj1 ap_is).
  assert (Hw : width (d_csw (dap_of w)) = 2 ^ al) by (unfold width; by rewrite Hz).
  destruct (low_access_step w ADIV5_LOW_READ ADIV5_AP_DRW 0 DRW Hwf) as (r & w' & Hr & Hwf' & Hstep).
  - done.
  - unfold decode. cbn [flag]. rewrite Hs, Z.eqb_refl, Hb. reflexivity.
  - split; [by right|]. split_and!; [done| |].
    + rewrite Hz. unfold good_align in Hal. lia.
    + by rewrite Hw.
  - inversion Hstep as [| | |v0 posted tr Hl Hn| |]; subst; rewrite Hw in *. exists w'. split; [done|].
    unfold tuned. match goal with E : _ = dap_of w' |- _ => rewrite <- E end. by cbn.
Qed.

Lemma drw_write_ok al w v : tuned al w -> good_align al -> tar w mod 2 ^ al = 0 -> is_u32 v ->
  exists r w', adiv5_dp_low_access (ap_dp ap) ADIV5_LOW_WRITE ADIV5_AP_DRW v w = Ok r w' /\
    tuned al w' /\ tar_next (tar w) (2 ^ al) (tar w') /\ mem w' = write_lanes (mem w) (tar w) (2 ^ al) v.
Proof.
  intros (Hwf & Hs & Hb & Hi & Hz) Hal Ht Hv. unfold adiv5_dp_low_access. rewrite (proj1 ap_is).
  assert (Hw : width (d_csw (dap_of w)) = 2 ^ al) by (unfold width; by rewrite Hz).
  destruct (low_access_step w ADIV5_LOW_WRITE ADIV5_AP_DRW v DRW Hwf Hv) as (r & w' & Hr & Hwf' & Hstep).
  - unfold decode. cbn [flag]. rewrite Hs, Z.eqb_refl, Hb. reflexivity.
  - split; [by left|]. split_and!; [done| |].
    + rewrite Hz. unfold good_align in Hal. lia.
    + by rewrite Hw.
  - inversion Hstep as [| | | |v0 r0 pd tr Hn|]; subst; rewrite Hw in *. exists r, w'. split; [done|].
    unfold tuned. match goal with E : _ = dap_of w' |- _ => rewrite <- E end. by cbn.
Qed.

Lemma rdbuff_ok al w : tuned al w ->
  exists w', adiv5_dp_low_access (ap_dp ap) ADIV5_LOW_READ ADIV5_DP_RDBUFF 0 w = Ok (d_posted (dap_of w)) w' /\
    tuned al w' /\ mem w' = mem w.
Proof.
  intros (Hwf & Hs & Hb & Hi & Hz). unfold adiv5_dp_low_access. rewrite (proj1 ap_is).
  destruct (low_access_step w ADIV5_LOW_READ ADIV5_DP_RDBUFF 0 RDBUFF Hwf) as (r & w' & Hr & Hwf' & Hstep); try done.
  inversion Hstep as [| | | | |v0 pd]; subst. exists w'. split; [done|]. unfold tuned.
  match goal with E : _ = dap_of w' |- _ => rewrite <- E end. done.
Qed.

(** Writing SELECT for register [addr] of our port. *)
Lemma select_ok addr w : dap_wf w ->
  exists w', adiv5_dp_write (ap_dp ap) ADIV5_DP_SELECT (select_value ap addr) w = Ok tt w' /\ dap_wf w' /\
    Z.shiftr (d_select (dap_of w')) 24 = sel /\ Z.land (d_select (dap_of w')) 0xF0 = Z.land addr 0xF0 /\
    mem w' = mem w.
Proof.
  intros Hwf. pose proof apsel_byte as Hsel. rewrite <- (proj2 ap_is) in Hsel.
  destruct (select_value_fields ap addr Hsel) as (Hv & Hs & Hb). rewrite (proj2 ap_is) in Hs.
  unfold adiv5_dp_write. rewrite (proj1 ap_is).
  destruct (low_access_step w ADIV5_LOW_WRITE ADIV5_DP_SELECT _ SELECT Hwf Hv) as (r & w' & Hr & Hwf' & Hstep); try done.
  inversion Hstep as [v0 r0 pd E1 E2| | | | |]. exists w'. rewrite (bind_Ok _ _ _ _ _ Hr).
  match goal with E : _ = dap_of w' |- _ => rewrite <- E end. by cbn.
Qed.

Lemma setup_ok addr al w : dap_wf w -> is_u32 addr -> good_align al ->
  exists w', ap_mem_access_setup ap addr al w = Ok tt w' /\ tuned al w' /\ tar w' = addr /\ mem w' = mem w.
Proof.
  intros Hwf Haddr Hal. destruct (csw_for_fields ap al csw_clear Hal) as (Hi & Hz & Hu).
  destruct (select_ok ADIV5_AP_CSW w Hwf) as (w1 & Hw1 & Hwf1 & Hs1 & Hb1 & Hm1).
  destruct (low_access_step w1 ADIV5_LOW_WRITE ADIV5_AP_CSW (csw_for ap al) CSW Hwf1 Hu) as (r & w2 & Hr & Hwf2 & Hstep).
  { unfold decode. cbn [flag]. rewrite Hs1, Z.eqb_refl, Hb1. reflexivity. }
  { reflexivity. }
  assert (Ht : tuned al w2 /\ mem w2 = mem w1).
  { inversion Hstep as [|v0 r0 pd E1 E2| | | |]; subst. unfold tuned.
    match goal with E : _ = dap_of w2 |- _ => rewrite <- E end. by cbn. }
  destruct Ht as [Ht2 Hm2]. destruct (tar_write_ok al w2 addr Ht2 Haddr) as (r3 & w3 & Hr3 & Ht3 & Ha3 & Hm3).
  exists w3. split; [|split_and!; [done|done|congruence]].
  unfold ap_mem_access_setup, adiv5_ap_write, firmware_ap_write. rewrite bind_bind, (bind_Ok _ _ _ _ _ Hw1).
  unfold adiv5_dp_write. rewrite <- (proj1 ap_is) in Hr.
  rewrite bind_bind, (bind_Ok _ _ _ _ _ Hr), bind_ret, (bind_Ok _ _ _ _ _ Hr3). done.
Qed.

(** ** The loops *)


Lemma mem_read_loop al m k : good_align al -> forall buf off src osrc w n, let N := 2 ^ al in
  tuned al w -> mem w = m -> src mod N = 0 -> 0 <= src -> src + N * (Z.of_nat k + 1) <= 2 ^ 32 ->
  is_u32 osrc -> page src = page osrc -> lanes_of m src N (d_posted (dap_of w)) ->
  tar_next src N (tar w) -> 0 <= off -> off + N * Z.of_nat k <= zlen buf -> (k < n)%nat ->
  exists w', iter n (mem_read_body ap al) (buf, off, src, osrc, Z.of_nat k + 1) w =
      Ok (splice buf off (mem_bytes m src (N * Z.of_nat k)), off + N * Z.of_nat k, src + N * Z.of_nat k) w' /\
    tuned al w' /\ mem w' = m /\ lanes_of m (src + N * Z.of_nat k) N (d_posted (dap_of w')).
Proof.
  intros Hal. destruct (pow_align al Hal) as (Hp & HN & Hdiv).
  induction k as [|k IH]; intros buf off src osrc w n N Ht Hm Ha Hs Hb Hou Hpg Hl Hn Ho Hlen Hfuel;
    (destruct n as [|n]; [lia|]); cbn [iter]; unfold mem_read_body at 1; fold N in HN, Hp.
  - exists w. replace (u32 (Z.of_nat 0 + 1 - 1)) with 0 by done. cbn [Z.eqb].
    rewrite !Z.mul_0_r, !Z.add_0_r. unfold mem_bytes. cbn [seqZ fmap list_fmap Z.to_nat seq]. rewrite splice_nil. done.
  - assert (Hk : u32 (Z.of_nat (S k) + 1 - 1) = Z.of_nat k + 1).
    { rewrite u32_small by nia. lia. }
    rewrite Hk, (proj2 (Z.eqb_neq (Z.of_nat k + 1) 0)) by lia.
    destruct Hn as (Htu & Hta & Htn). subst m.
    destruct (drw_read_ok al w Ht Hal Hta) as (w1 & Hr1 & Ht1 & Hl1 & Hn1 & Hm1).
    rewrite bind_bind, (bind_Ok _ _ _ _ _ Hr1).
    rewrite bind_bind, (bind_Ok _ _ _ _ _ (extract_ok buf off src _ al (mem w) w1 Hal Ha Hl Ho ltac:(nia))).
    rewrite <- Hp. fold N. rewrite (u32_small (src + N)) by nia.
    assert (Hsu : is_u32 (src + N)) by (unfold in_width; nia).
    assert (Hal2 : (src + N) mod N = 0) by (rewrite <- (Z.mul_1_l N) at 1; by rewrite Z.mod_add by lia).
    assert (Hspl : forall b, b = splice buf off (mem_bytes (mem w) src N) ->
      splice b (off + N) (mem_bytes (mem w) (src + N) (N * Z.of_nat k)) = splice buf off (mem_bytes (mem w) src (N * Z.of_nat (S k)))).
    { intros b ->. replace (N * Z.of_nat (S k)) with (N + N * Z.of_nat k) by lia.
      rewrite (mem_bytes_app _ _ N) by lia.
      assert (Hsa := splice_app buf off (mem_bytes (mem w) src N) (mem_bytes (mem w) (src + N) (N * Z.of_nat k)) Ho).
      rewrite !zlen_mem_bytes in Hsa by lia. apply Hsa. lia. }
    replace (off + N * Z.of_nat (S k)) with (off + N + N * Z.of_nat k) by lia.
    replace (src + N * Z.of_nat (S k)) with (src + N + N * Z.of_nat k) by lia.
    rewrite <- (Hspl _ eq_refl).
    assert (Hbl : zlen (splice buf off (mem_bytes (mem w) src N)) = zlen buf).
    { apply zlen_splice; [lia|]. rewrite zlen_mem_bytes; nia. }
    rewrite page_spec by done. destruct (Z.eqb_spec (page (src + N)) (page osrc)) as [Heq|Hne]; cbn [negb].
    + assert (Htar : tar w = src + N) by (apply Htn; congruence). rewrite Htar in *.
      rewrite bind_ret. apply IH; try done; try nia.
    + destruct (tar_write_ok al w1 (src + N) Ht1 Hsu) as (r2 & w2 & Hr2 & Ht2 & Htar2 & Hm2).
      destruct (drw_read_ok al w2 Ht2 Hal) as (w3 & Hr3 & Ht3 & Hl3 & Hn3 & Hm3); [by rewrite Htar2|].
      rewrite bind_bind, (bind_Ok _ _ _ _ _ Hr2), bind_bind, (bind_Ok _ _ _ _ _ Hr3), bind_ret.
      rewrite Htar2, Hm2, Hm1 in *. apply IH; try done; try nia.
Qed.

Lemma mem_write_loop al src k : good_align al -> is_bytes src -> forall off dest odest w n, let N := 2 ^ al in
  tuned al w -> dest mod N = 0 -> 0 <= dest -> dest + N * Z.of_nat k <= 2 ^ 32 ->
  is_u32 odest -> ((0 < k)%nat -> tar w = dest /\ page dest = page odest) ->
  0 <= off -> off + N * Z.of_nat k <= zlen src -> (k < n)%nat ->
  exists w', iter n (mem_write_body ap src al) (off, dest, odest, Z.of_nat k) w = Ok tt w' /\ tuned al w' /\
    forall b, mem w' b =
      if (dest <=? b) && (b <? dest + N * Z.of_nat k) then zget src (off + (b - dest)) else mem w b.
Proof.
  intros Hal Hsrc. destruct (pow_align al Hal) as (Hp & HN & Hdiv).
  induction k as [|k IH]; intros off dest odest w n N Ht Ha Hd Hb Hou Htar Ho Hlen Hfuel;
    (destruct n as [|n]; [lia|]); cbn [iter]; unfold mem_write_body at 1; fold N in HN, Hp.
  - exists w. cbn [Z.of_nat Z.eqb]. split; [done|]. split; [done|]. intros b.
    rewrite Z.mul_0_r, Z.add_0_r. by destruct (Z.leb_spec dest b), (Z.ltb_spec b dest); cbn; try lia.
  - destruct (Htar ltac:(lia)) as [Htw Hpg]. rewrite (proj2 (Z.eqb_neq (Z.of_nat (S k)) 0)) by lia.
    rewrite (u32_small (Z.of_nat (S k) - 1)) by nia. replace (Z.of_nat (S k) - 1) with (Z.of_nat k) by lia.
    destruct (packed_lanes src off dest al w Hal Ha Hsrc Ho ltac:(fold N; nia)) as (v & Hpk & Hv & Hlanes).
    rewrite bind_bind, (bind_Ok _ _ _ _ _ Hpk).
    destruct (drw_write_ok al w v Ht Hal ltac:(by rewrite Htw) Hv) as (r1 & w1 & Hr1 & Ht1 & (_ & _ & Hn1) & Hm1).
    rewrite bind_bind, (bind_Ok _ _ _ _ _ Hr1). rewrite <- Hp. rewrite Htw in Hn1, Hm1. fold N in Hn1, Hm1, Hlanes.
    assert (Hal2 : (dest + N) mod N = 0) by (rewrite <- (Z.mul_1_l N) at 1; by rewrite Z.mod_add by lia).
    (* the memory after the rest of the loop *)
    assert (Hmem : forall m', (forall b, m' b = if (dest + N <=? b) && (b <? dest + N + N * Z.of_nat k)
                 then zget src (off + N + (b - (dest + N))) else mem w1 b) ->
      forall b, m' b = if (dest <=? b) && (b <? dest + N * Z.of_nat (S k)) then zget src (off + (b - dest)) else mem w b).
    { intros m' Hm' b. rewrite Hm', Hm1. unfold write_lanes.
      destruct (Z.leb_spec (dest + N) b), (Z.ltb_spec b (dest + N + N * Z.of_nat k)), (Z.leb_spec dest b),
        (Z.ltb_spec b (dest + N * Z.of_nat (S k))), (Z.ltb_spec b (dest + N)); cbn; try lia; try done.
      - f_equal. lia.
      - specialize (Hlanes (b - dest) ltac:(lia)). by replace (dest + (b - dest)) with b in Hlanes by lia. }
    assert (Hsu : is_u32 (u32 (dest + N))) by apply u32_range.
    assert (Hrest : forall w2 od, tuned al w2 -> mem w2 = mem w1 -> is_u32 od ->
        ((0 < k)%nat -> tar w2 = dest + N /\ page (dest + N) = page od) ->
        exists w', iter n (mem_write_body ap src al) (off + N, u32 (dest + N), od, Z.of_nat k) w2 = Ok tt w' /\ tuned al w' /\
          forall b, mem w' b = if (dest <=? b) && (b <? dest + N * Z.of_nat (S k)) then zget src (off + (b - dest)) else mem w b).
    { intros w2 od Ht2 Hm2 Hod Htr. destruct k as [|k].
      - destruct n as [|n]; [lia|]. cbn [iter]. unfold mem_write_body. cbn [Z.of_nat Z.eqb]. exists w2.
        split; [done|]. split; [done|]. apply Hmem. intros b. rewrite Hm2, Z.mul_0_r, Z.add_0_r.
        by destruct (Z.leb_spec (dest + N) b), (Z.ltb_spec b (dest + N)); cbn; try lia.
      - rewrite (u32_small (dest + N)) by nia.
        destruct (IH (off + N) (dest + N) od w2 n) as (w' & Hw' & Htw' & Hmw'); try done; try (fold N; nia).
        exists w'. split; [done|]. split; [done|]. apply Hmem. intros b. by rewrite Hmw', Hm2. }
    rewrite page_spec by done. destruct (Z.eqb_spec (page (u32 (dest + N))) (page odest)) as [Heq|Hne]; cbn [negb].
    + rewrite bind_ret. apply Hrest; try done. intros Hk. rewrite u32_small in Heq by nia.
      split; [|done]. apply Hn1. congruence.
    + destruct (tar_write_ok al w1 _ Ht1 Hsu) as (r2 & w2 & Hr2 & Ht2 & Htar2 & Hm2).
      rewrite bind_bind, (bind_Ok _ _ _ _ _ Hr2), bind_ret. apply Hrest; try done.
      intros Hk. rewrite Htar2, u32_small by nia. done.
Qed.


(** ** The transfers *)

(** A read of [len] bytes at any address delivers exactly those bytes of
    memory, at the start of [dest], and changes no memory. *)
Lemma mem_read_ok dest src len w :
  dap_wf w -> 0 <= src -> 0 <= len -> src + len <= 2 ^ 32 -> len < 2 ^ 32 -> len <= zlen dest ->
  exists w', firmware_mem_read ap dest src len w = Ok (splice dest 0 (mem_bytes (mem w) src len)) w' /\
    dap_wf w' /\ mem w' = mem w.
Proof.
  intros Hwf Hs Hl Hsl Hl32 Hd. unfold firmware_mem_read.
  destruct (Z.eqb_spec len 0) as [->|Hne].
  { exists w. unfold mem_bytes. cbn [seqZ Z.to_nat seq fmap list_fmap]. by rewrite splice_nil. }
  destruct (align_of_both src len) as (Hal & Ha & Hlen).
  set (al := Z.min (ALIGNOF src) (ALIGNOF len)) in *. set (N := 2 ^ al) in *. set (k := Z.shiftr len al) in *.
  destruct (pow_align al Hal) as (Hp & HN & _). fold N in Hp, HN.
  assert (Hk : 1 <= k) by nia. assert (Hsu : is_u32 src) by (unfold in_width; nia).
  destruct (setup_ok src al w Hwf Hsu Hal) as (w1 & Hw1 & Ht1 & Htar1 & Hm1).
  destruct (drw_read_ok al w1 Ht1 Hal ltac:(by rewrite Htar1)) as (w2 & Hw2 & Ht2 & Hl2 & Hn2 & Hm2).
  rewrite Htar1 in Hl2, Hn2. rewrite Hm1 in Hl2, Hm2. set (j := Z.to_nat (k - 1)). assert (Hj : k = Z.of_nat j + 1) by lia.
  destruct (mem_read_loop al (mem w) j Hal dest 0 src src w2 (S (Z.to_nat k)) Ht2 Hm2 Ha Hs) as
    (w3 & Hw3 & Ht3 & Hm3 & Hl3); try (fold N); try done; try nia.
  rewrite <- Hj in Hw3. fold N in Hw3, Hl3.
  destruct (rdbuff_ok al w3 Ht3) as (w4 & Hw4 & Ht4 & Hm4).
  exists w4. split; [|split; [apply Ht4|congruence]].
  rewrite (bind_Ok _ _ _ _ _ Hw1), (bind_Ok _ _ _ _ _ Hw2), (bind_Ok _ _ _ _ _ Hw3), (bind_Ok _ _ _ _ _ Hw4).
  assert (Hal3 : (src + N * Z.of_nat j) mod N = 0) by (rewrite Z.mul_comm; by rewrite Z.mod_add by lia).
  assert (Hzl : zlen (splice dest 0 (mem_bytes (mem w) src (N * Z.of_nat j))) = zlen dest).
  { apply zlen_splice; [lia|]. rewrite zlen_mem_bytes; nia. }
  assert (Hoff : 0 <= 0 + N * Z.of_nat j) by nia.
  assert (Hroom : 0 + N * Z.of_nat j + 2 ^ al <= zlen (splice dest 0 (mem_bytes (mem w) src (N * Z.of_nat j))))
    by (rewrite Hzl; fold N; nia).
  rewrite (bind_Ok _ _ _ _ _ (extract_ok _ _ _ _ al (mem w) w4 Hal Hal3 Hl3 Hoff Hroom)).
  unfold ret. f_equal. fold N. replace len with (N * Z.of_nat j + N) by nia.
  rewrite mem_bytes_app by nia.
  assert (Hsa := splice_app dest 0 (mem_bytes (mem w) src (N * Z.of_nat j)) (mem_bytes (mem w) (src + N * Z.of_nat j) N)).
  rewrite !zlen_mem_bytes in Hsa by nia. apply Hsa; nia.
Qed.

Lemma mem_write_sized_ok dest src al w : good_align al -> is_bytes src ->
  dap_wf w -> 0 <= dest -> dest mod 2 ^ al = 0 -> zlen src mod 2 ^ al = 0 -> dest + zlen src <= 2 ^ 32 ->
  is_u32 dest -> zlen src < 2 ^ 32 ->
  exists w', firmware_mem_write_sized ap dest src (zlen src) al w = Ok tt w' /\ dap_wf w' /\
    forall b, mem w' b = stored (mem w) dest src b.
Proof.
  intros Hal Hb Hwf Hd Ha Hn Hdl Hdu Hl32. unfold firmware_mem_write_sized, stored.
  destruct (pow_align al Hal) as (Hp & HN & _). set (N := 2 ^ al) in *.
  pose proof (zlen_nonneg src) as Hz. set (k := Z.shiftr (zlen src) al).
  assert (Hk : zlen src = N * k).
  { unfold k. rewrite Z.shiftr_div_pow2 by (unfold good_align in Hal; lia). fold N.
    pose proof (Z.div_mod (zlen src) N ltac:(lia)). lia. }
  assert (Hk0 : 0 <= k) by nia. set (j := Z.to_nat k). assert (Hj : k = Z.of_nat j) by lia.
  destruct (setup_ok dest al w Hwf Hdu Hal) as (w1 & Hw1 & Ht1 & Htar1 & Hm1).
  destruct (mem_write_loop al src j Hal Hb 0 dest dest w1 (S (Z.to_nat k)) Ht1 Ha Hd) as (w2 & Hw2 & Ht2 & Hm2);
    try (fold N); try done; try nia.
  exists w2. split; [|split; [apply Ht2|]].
  - rewrite (bind_Ok _ _ _ _ _ Hw1). rewrite <- Hj in Hw2. exact Hw2.
  - intros b. rewrite Hm2, Hm1. fold N. rewrite <- Hj, <- Hk. done.
Qed.
Lemma mem_write_ok dest src w : is_bytes src ->
  dap_wf w -> is_u32 dest -> dest + zlen src <= 2 ^ 32 -> zlen src < 2 ^ 32 ->
  exists w', adiv5_mem_write ap dest src (zlen src) w = Ok tt w' /\ dap_wf w' /\
    forall b, mem w' b = stored (mem w) dest src b.
Proof.
  intros Hb Hwf Hd Hdl Hl32. unfold adiv5_mem_write, adiv5_mem_write_sized.
  destruct (align_of_both dest (zlen src)) as (Hal & Ha & Hlen).
  apply mem_write_sized_ok; try done; [apply Hd|].
  rewrite Hlen at 1. rewrite Z.mul_comm. apply Z.mod_mul. destruct (pow_align _ Hal) as (_ & HN & _). lia.
Qed.


Lemma read32_ok addr w : dap_wf w -> 0 <= addr -> addr + 4 <= 2 ^ 32 ->
  exists w', adiv5_mem_read32 ap addr w = Ok (le_val (mem_bytes (mem w) addr 4)) w' /\ dap_wf w' /\ mem w' = mem w.
Proof.
  intros Hwf Ha Hl. destruct (mem_read_ok (memset 4 0) addr 4 w Hwf Ha) as (w' & Hr & Hwf' & Hm); try done.
  exists w'. split; [|done]. unfold adiv5_mem_read32, adiv5_mem_read. rewrite (bind_Ok _ _ _ _ _ Hr).
  done.
Qed.

(** The identification bytes: the low byte of each of four words. *)
Definition id_bytes (m : Z -> Z) (addr : Z) : list Z := [m addr; m (addr + 4); m (addr + 8); m (addr + 12)].
Lemma read_id_ok addr w : dap_wf w -> (forall a, is_byte (mem w a)) -> 0 <= addr -> addr + 16 <= 2 ^ 32 ->
  exists w', adiv5_ap_read_id ap addr w = Ok (le_val (id_bytes (mem w) addr)) w' /\ dap_wf w' /\ mem w' = mem w.
Proof.
  intros Hwf Hby Ha Hl.
  assert (Hstep : forall res i w1, dap_wf w1 -> mem w1 = mem w -> 0 <= i < 4 -> 0 <= res < 2 ^ (i * 8) ->
    exists w2, (let! x := adiv5_mem_read32 ap (u32 (addr + 4 * i)) in
                ret (Z.lor res (u32 (Z.shiftl (Z.land x 0xff) (i * 8))))) w1
      = Ok (res + Z.shiftl (mem w (addr + 4 * i)) (i * 8)) w2 /\ dap_wf w2 /\ mem w2 = mem w).
  { intros res i w1 Hwf1 Hm1 Hi Hres. rewrite u32_small by lia.
    destruct (read32_ok (addr + 4 * i) w1 Hwf1) as (w2 & Hr & Hwf2 & Hm2); [lia|lia|].
    exists w2. rewrite (bind_Ok _ _ _ _ _ Hr), Hm1. split; [|split; [done|congruence]]. unfold ret. f_equal.
    unfold mem_bytes. change (seqZ 0 4) with [0; 1; 2; 3]. cbn [fmap list_fmap].
    rewrite le_val_low by apply Hby. rewrite Z.add_0_r.
    assert (Hb := Hby (addr + 4 * i)). unfold in_width in Hb.
    rewrite u32_small; [apply lor_shift; lia|].
    rewrite Z.shiftl_mul_pow2 by lia.
    assert (2 ^ (i * 8) <= 2 ^ 24) by (apply Z.pow_le_mono_r; lia). assert (0 < 2 ^ (i * 8)) by (apply Z.pow_pos_nonneg; lia).
    change (2 ^ 32) with (2 ^ 8 * 2 ^ 24). nia. }
  assert (B0 := Hby addr). assert (B1 := Hby (addr + 4)). assert (B2 := Hby (addr + 8)). unfold in_width in *.
  unfold adiv5_ap_read_id.
  destruct (Hstep 0 0 w Hwf eq_refl) as (w1 & Hw1 & Hwf1 & Hm1); [lia|cbn; lia|]. rewrite (bind_Ok _ _ _ _ _ Hw1).
  rewrite Z.shiftl_0_r, !Z.mul_0_r, Z.add_0_r, Z.add_0_l.
  destruct (Hstep (mem w addr) 1 w1 Hwf1 Hm1) as (w2 & Hw2 & Hwf2 & Hm2); [lia|cbn; lia|]. rewrite (bind_Ok _ _ _ _ _ Hw2).
  change (4 * 1) with 4 in *. change (1 * 8) with 8. rewrite (Z.shiftl_mul_pow2 (mem w (addr + 4))) by lia.
  destruct (Hstep (mem w addr + mem w (addr + 4) * 2 ^ 8) 2 w2 Hwf2 Hm2) as (w3 & Hw3 & Hwf3 & Hm3); [lia|cbn; lia|].
  rewrite (bind_Ok _ _ _ _ _ Hw3). change (4 * 2) with 8 in *. change (2 * 8) with 16.
  rewrite (Z.shiftl_mul_pow2 (mem w (addr + 8))) by lia.
  destruct (Hstep (mem w addr + mem w (addr + 4) * 2 ^ 8 + mem w (addr + 8) * 2 ^ 16) 3 w3 Hwf3 Hm3)
    as (w4 & Hw4 & Hwf4 & Hm4); [lia|cbn; lia|].
  rewrite Hw4. exists w4. split; [|done]. f_equal. unfold id_bytes. cbn [le_val].
  change (4 * 3) with 12. change (3 * 8) with 24. rewrite Z.shiftl_mul_pow2 by lia. lia.
Qed.
End Transfers.

(** ** What the transfers do *)
Section Theorems.
Context {W : Type} `{DapSpec W dp sel}.
Variable ap : ADIv5_AP.
Hypothesis ap_is : ap_dp ap = dp /\ apsel ap = sel.
Hypothesis csw_clear : is_u32 (csw ap) /\ Z.land (csw ap) 0x37 = 0.
Notation mem w := (d_mem (dap_of w)).

(** C7: [firmware_mem_read] delivers exactly the [len] bytes of target memory
    from [src] on, whatever the alignment of both and however many
    auto-increment windows are crossed; it changes no memory and nothing else
    of the caller's buffer. *)
Theorem mem_read_correct dest src len w :
  dap_wf w -> 0 <= src -> 0 <= len < 2 ^ 32 -> src + len <= 2 ^ 32 -> len <= zlen dest ->
  exists w', firmware_mem_read ap dest src len w = Ok (splice dest 0 (mem_bytes (mem w) src len)) w' /\
    dap_wf w' /\ mem w' = mem w.
Proof. intros Hwf Hs [Hl Hl2] Hsl Hd. by apply mem_read_ok. Qed.

(** C8: [adiv5_mem_write] stores exactly the bytes given at [dest], whatever
    the alignment, and no other byte of target memory changes. *)
Theorem mem_write_correct dest src w :
  dap_wf w -> is_u32 dest -> is_bytes src -> dest + zlen src <= 2 ^ 32 -> zlen src < 2 ^ 32 ->
  exists w', adiv5_mem_write ap dest src (zlen src) w = Ok tt w' /\ dap_wf w' /\
    forall b, mem w' b = stored (mem w) dest src b.
Proof. intros Hwf Hd Hb Hl Hl2. by apply mem_write_ok. Qed.

(** What is written is read back, with any other alignment of the
    caller's buffer. *)
Theorem mem_write_read dest src buf w :
  dap_wf w -> is_u32 dest -> is_bytes src -> dest + zlen src <= 2 ^ 32 -> zlen src < 2 ^ 32 -> zlen src <= zlen buf ->
  exists w1, adiv5_mem_write ap dest src (zlen src) w = Ok tt w1 /\
    exists w2, adiv5_mem_read ap buf dest (zlen src) w1 = Ok (splice buf 0 src) w2.
Proof.
  intros Hwf Hd Hb Hl Hl2 Hbuf.
  destruct (mem_write_ok ap ap_is csw_clear dest src w Hb Hwf Hd Hl Hl2) as (w1 & Hw1 & Hwf1 & Hm1).
  exists w1. split; [done|].
  destruct (mem_read_ok ap ap_is csw_clear buf dest (zlen src) w1 Hwf1) as (w2 & Hw2 & _); try done; [apply Hd|apply zlen_nonneg|].
  exists w2. unfold adiv5_mem_read. by rewrite Hw2, (mem_bytes_stored (mem w)).
Qed.

(** The peripheral id of a component is the low bytes of PIDR0 to PIDR3
    and then PIDR4 to PIDR7. *)
Theorem pidr_correct addr w :
  dap_wf w -> (forall a, is_byte (mem w a)) -> 0 <= addr -> addr + 4096 <= 2 ^ 32 ->
  exists w', adiv5_ap_read_pidr ap addr w =
    Ok (le_val (id_bytes (mem w) (addr + PIDR0_OFFSET) ++ id_bytes (mem w) (addr + PIDR4_OFFSET))) w' /\
    dap_wf w' /\ mem w' = mem w.
Proof.
  intros Hwf Hby Ha Hl. unfold adiv5_ap_read_pidr, PIDR0_OFFSET, PIDR4_OFFSET in *.
  rewrite !u32_small by lia.
  destruct (read_id_ok ap ap_is csw_clear (addr + 0xFD0) w Hwf Hby) as (w1 & Hr1 & Hwf1 & Hm1); [lia|lia|].
  rewrite (bind_Ok _ _ _ _ _ Hr1).
  destruct (read_id_ok ap ap_is csw_clear (addr + 0xFE0) w1 Hwf1) as (w2 & Hr2 & Hwf2 & Hm2); [by rewrite Hm1|lia|lia|].
  rewrite (bind_Ok _ _ _ _ _ Hr2), Hm1. exists w2. split; [|split; [done|congruence]].
  unfold ret. f_equal.
  assert (Hrange : forall a, 0 <= le_val (id_bytes (mem w) a) < 2 ^ 32).
  { intros a. apply (le_val_range (id_bytes (mem w) a)). unfold id_bytes. repeat constructor; apply Hby. }
  pose proof (Hrange (addr + 0xFD0)) as HA. pose proof (Hrange (addr + 0xFE0)) as HB.
  set (A := le_val (id_bytes (mem w) (addr + 0xFD0))) in *.
  assert (Hu : u64 (Z.shiftl A 32) = Z.shiftl A 32).
  { apply (wrap_small 64). rewrite Z.shiftl_mul_pow2 by lia. change (2 ^ 64) with (2 ^ 32 * 2 ^ 32). nia. }
  rewrite Hu, Z.lor_comm, lor_shift by lia. rewrite Z.shiftl_mul_pow2 by lia.
  unfold id_bytes at 1 2. cbn [app le_val]. fold A. lia.
Qed.
End Theorems.

(** ** Witnesses, on the simulated port *)
Module Adiv5Sim.
Import DapSim.
Definition ram (a : Z) : Z := u8 (a / 7).
Definition start : dap := {| d_select := 0; d_csw := 0; d_tar := 0; d_posted := 0; d_mem := ram |}.
Definition ap0 : ADIv5_AP := {| ap_refcnt := 1; ap_dp := 1%positive; apsel := 0; idr := 0x24770011; base := 0xe00ff003;
  csw := 0x23000040; ap_cortexm_demcr := 0; ap_storage := 0; ap_designer := 0; ap_partno := 0 |}.
Lemma start_wf : wf start.
Proof. split; [done|]. intros a. apply u8_range. Qed.
Lemma ap0_is : ap_dp ap0 = 1%positive /\ apsel ap0 = 0.
Proof. done. Qed.
Lemma ap0_csw : is_u32 (csw ap0) /\ Z.land (csw ap0) 0x37 = 0.
Proof. done. Qed.
End Adiv5Sim.
Import DapSim.

(** Twelve bytes across a 1 KiB boundary, halfword by halfword. *)
Lemma mem_read_correct_witness : exists w',
  firmware_mem_read Adiv5Sim.ap0 (memset 16 0) 0x200003fa 12 Adiv5Sim.start =
    Ok (splice (memset 16 0) 0 (mem_bytes Adiv5Sim.ram 0x200003fa 12)) w'.
Proof.
  destruct (@mem_read_correct dap _ 1%positive 0 (sim_spec 1) Adiv5Sim.ap0 Adiv5Sim.ap0_is Adiv5Sim.ap0_csw (memset 16 0) 0x200003fa 12
    Adiv5Sim.start Adiv5Sim.start_wf) as (w' & Hr & _); [done|done|done|done|]. by exists w'.
Defined.

Lemma mem_write_correct_witness : exists w',
  adiv5_mem_write Adiv5Sim.ap0 0x200003ff [1; 2; 3] 3 Adiv5Sim.start = Ok tt w' /\ d_mem w' 0x20000400 = 2.
Proof.
  destruct (@mem_write_correct dap _ 1%positive 0 (sim_spec 1) Adiv5Sim.ap0 Adiv5Sim.ap0_is Adiv5Sim.ap0_csw 0x200003ff [1; 2; 3]
    Adiv5Sim.start Adiv5Sim.start_wf) as (w' & Hr & _ & Hm); [done|by repeat constructor|done|done|].
  exists w'. split; [exact Hr|]. exact (Hm 0x20000400).
Defined.

Lemma mem_write_read_witness : exists w1,
  adiv5_mem_write Adiv5Sim.ap0 0x200003fc [1; 2; 3; 4; 5; 6; 7; 8] 8 Adiv5Sim.start = Ok tt w1 /\
  exists w2, adiv5_mem_read Adiv5Sim.ap0 (memset 8 0) 0x200003fc 8 w1 = Ok [1; 2; 3; 4; 5; 6; 7; 8] w2.
Proof.
  apply (@mem_write_read dap _ 1%positive 0 (sim_spec 1) Adiv5Sim.ap0 Adiv5Sim.ap0_is Adiv5Sim.ap0_csw 0x200003fc
    [1; 2; 3; 4; 5; 6; 7; 8] (memset 8 0) Adiv5Sim.start Adiv5Sim.start_wf); [done|by repeat constructor|done|done|done].
Defined.

Lemma pidr_correct_witness : exists w' v, adiv5_ap_read_pidr Adiv5Sim.ap0 0xe000e000 Adiv5Sim.start = Ok v w'.
Proof.
  destruct (@pidr_correct dap _ 1%positive 0 (sim_spec 1) Adiv5Sim.ap0 Adiv5Sim.ap0_is Adiv5Sim.ap0_csw 0xe000e000
    Adiv5Sim.start Adiv5Sim.start_wf) as (w' & Hr & _); [apply (proj2 Adiv5Sim.start_wf)|done|done|]. by eexists w', _.
Defined.
