(* ===== verification/Swd.v ===== *)
(** SWD on the RP2040: platform_target_interface_non_iso.c's access functions
    over the PIO of the SDK, and adiv5_swdp.c's debug port over them.

    The SDK's functions are calls to an environment ([PioIf]); the two state
    machines they drive are PIO assembly, not C. *)

From Stdlib Require Import ZArith Lia String.
From stdpp Require Import base list numbers option gmap.
From S2P Require Import Prelude CLib Platform Exception Dap.

(** ** The PIO functions of the SDK, on [pio0] and state machine 0 *)
(** [target_interface_pio_program_t]. *)
Inductive pio_program : Set :=
| PIO_PROGRAM_NOT_SET
| PIO_PROGRAM_SWD_DP_LOW_ACCESS_READ | PIO_PROGRAM_SWD_DP_LOW_ACCESS_WRITE
| PIO_PROGRAM_SWD_DP_LOW_SEQ_OUT | PIO_PROGRAM_SWD_DP_LOW_SEQ_IN | PIO_PROGRAM_SWD_DP_LOW_WRITE
| PIO_PROGRAM_JTAG_DP_TDI_TDO_SEQ | PIO_PROGRAM_JTAG_DP_TDI_SEQ | PIO_PROGRAM_JTAG_DP_TMS_SEQ
| PIO_PROGRAM_JTAG_DP_NEXT.
#[export] Instance pio_program_eq_dec : EqDecision pio_program.
Proof. solve_decision. Defined.

(** The configurations [platorm_pio_non_iso_*_prog_config] build; a clock
    divider is a float the code only hands on. *)
Inductive pio_config : Set :=
| SwdConfig (clkdiv : Z)
| JtagConfig (out_pin set_pin clkdiv : Z).

Inductive pio_call : Set :=
| pio_sm_set_enabled (enabled : bool)
| pio_clear_instruction_memory
| pio_add_program (p : pio_program)            (* the offset *)
| pio_sm_init (offset : Z) (c : pio_config)
| pio_sm_set_clkdiv (clkdiv : Z)
| pio_sm_clkdiv_restart
| pio_sm_clear_fifos
| pio_sm_set_pins_with_mask (values mask : Z)
| pio_sm_set_pindirs_with_mask (dirs mask : Z)
| pio_gpio_init (pin : Z)
| pio_sm_put_blocking (data : Z)
| pio_sm_get_blocking
| pio_sm_set_out_pins (base count : Z)
| pio_sm_set_set_pins (base count : Z).

Class PioIf (E : Type) := { pio : pio_call -> M E Z }.

(** ** State *)
Inductive tms_dir : Set :=
| TARGET_INTERFACE_TMS_DIR_NOT_INITIALIZED | TARGET_INTERFACE_TMS_DIR_IN | TARGET_INTERFACE_TMS_DIR_OUT.
#[export] Instance tms_dir_eq_dec : EqDecision tms_dir.
Proof. solve_decision. Defined.

(** The fields of [target_interface_param_t] these functions use. *)
Record target_interface_param := {
  current_program : pio_program;
  clkdiv : Z;
  update_clkdiv : bool;
  tms_direction : tms_dir;
}.

(** What a debug port's [low_access] and [dp_low_write] point to. *)
Inductive swd_access : Set := FirmwareAccess | PlatformAccess.

(** The fields of [ADIv5_DP_t] for an SWD port; its other methods are
    [firmware_swdp_read], [_error] and [_abort], and the [seq] functions of the
    controller, which [swdptap_init] copies. *)
Record ADIv5_DP := {
  dp_refcnt : Z;
  dp_idcode : Z;
  dp_targetid : Z;
  dp_low_write : option swd_access;
  low_access : swd_access;
  fault : Z;
}.
Definition set_fault (f : Z) (d : ADIv5_DP) : ADIv5_DP :=
  {| dp_refcnt := dp_refcnt d; dp_idcode := dp_idcode d; dp_targetid := dp_targetid d;
     dp_low_write := dp_low_write d; low_access := low_access d; fault := f |}.

Record swd_state (E : Type) := {
  tip : target_interface_param;
  dps : gmap positive ADIv5_DP;
  env : E;
}.
Arguments Build_swd_state {E}. Arguments tip {E}. Arguments dps {E}. Arguments env {E}.

(** ** adiv5.h *)
Definition SWDP_ACK_OK : Z := 1.
Definition SWDP_ACK_WAIT : Z := 2.
Definition SWDP_ACK_FAULT : Z := 4.
Definition ADIV5_DP_ABORT_DAPABORT : Z := 1.
Definition ADIV5_DP_VERSION_MASK : Z := 0xf000.
Definition ADIV5_DPv2 : Z := 0x2000.
Definition PIN_TARGET1_TMS : Z := 17.
Definition PIN_TARGET1_TMS_DIR_PIN : Z := 16.
Definition PIN_TARGET1_TCK : Z := 18.
Definition PIN_TARGET1_TDI : Z := 19.
Definition PIN_TARGET1_TDO : Z := 14.

(** [__builtin_popcount]. *)
Fixpoint pos_popcount (p : positive) : Z :=
  match p with xH => 1 | xO p => pos_popcount p | xI p => 1 + pos_popcount p end.
Definition popcount (x : Z) : Z := match x with Zpos p => pos_popcount p | _ => 0 end.

Definition make_packet_request (RnW addr : Z) : Z :=
  let APnDP := flag addr ADIV5_APnDP in
  let addr := Z.land addr 0xff in
  let request := 0x81 in
  let request := if APnDP then Z.lxor request 0x22 else request in
  let request := if negb (RnW =? 0) then Z.lxor request 0x24 else request in
  let addr := Z.land addr 0xC in
  let request := Z.lor request (Z.land (Z.shiftl addr 1) 0x18) in
  if (addr =? 4) || (addr =? 8) then Z.lxor request 0x20 else request.

Section Swd.
Context {E : Type} `{PioIf E} `{ClockIf E}.
Implicit Types s : swd_state E.

(** ** Access to the state *)
Definition set_tip (t : target_interface_param) s : swd_state E := {| tip := t; dps := dps s; env := env s |}.
Definition set_dps d s : swd_state E := {| tip := tip s; dps := d; env := env s |}.
Definition in_env {A} (m : M E A) : M (swd_state E) A := fun s =>
  match m (env s) with
  | Ok a e => Ok a {| tip := tip s; dps := dps s; env := e |}
  | Raise ty msg e => Raise ty msg {| tip := tip s; dps := dps s; env := e |}
  | Fault why e => Fault why {| tip := tip s; dps := dps s; env := e |}
  | Hang => Hang
  end.
Definition pio_ (c : pio_call) : M (swd_state E) Z := in_env (pio c).
Definition pio_do (c : pio_call) : M (swd_state E) unit := do! pio_ c in ret tt.
Definition load_dp (dp : positive) : M (swd_state E) ADIv5_DP :=
  let! s := get in match dps s !! dp with Some d => ret d | None => crash OutOfBounds end.
Definition set_dp_fault (dp : positive) (f : Z) : M (swd_state E) unit :=
  let! d := load_dp dp in modify (fun s => set_dps (<[dp := set_fault f d]> (dps s)) s).
Definition upd_tip (f : target_interface_param -> target_interface_param) : M (swd_state E) unit :=
  modify (fun s => set_tip (f (tip s)) s).
Definition set_program p (t : target_interface_param) : target_interface_param :=
  {| current_program := p; clkdiv := clkdiv t; update_clkdiv := update_clkdiv t; tms_direction := tms_direction t |}.
Definition set_update b (t : target_interface_param) : target_interface_param :=
  {| current_program := current_program t; clkdiv := clkdiv t; update_clkdiv := b; tms_direction := tms_direction t |}.
Definition set_dir d (t : target_interface_param) : target_interface_param :=
  {| current_program := current_program t; clkdiv := clkdiv t; update_clkdiv := update_clkdiv t; tms_direction := d |}.

(** ** platform_target_interface_non_iso.c: the SWD functions *)
Definition platorm_pio_non_iso_swd_pins_config : M (swd_state E) unit :=
  let swd_all_pins := Z.lor (Z.lor (Z.shiftl 1 PIN_TARGET1_TMS) (Z.shiftl 1 PIN_TARGET1_TMS_DIR_PIN)) (Z.shiftl 1 PIN_TARGET1_TCK) in
  do! pio_do (pio_sm_set_pins_with_mask 0 swd_all_pins) in
  do! pio_do (pio_sm_set_pindirs_with_mask (Z.lor (Z.shiftl 1 PIN_TARGET1_TMS_DIR_PIN) (Z.shiftl 1 PIN_TARGET1_TCK)) swd_all_pins) in
  do! pio_do (pio_gpio_init PIN_TARGET1_TMS_DIR_PIN) in
  do! pio_do (pio_gpio_init PIN_TARGET1_TCK) in
  pio_do (pio_gpio_init PIN_TARGET1_TMS).

(** The part common to the five functions: load the program unless it is the
    one loaded, then bring the clock divider up to date. *)
Definition load_program (p : pio_program) : M (swd_state E) unit :=
  let! s := get in
  do! when (negb (bool_decide (current_program (tip s) = p)))
    (do! upd_tip (set_program p) in
     do! pio_do pio_clear_instruction_memory in
     let! prog_offset := pio_ (pio_add_program p) in
     do! upd_tip (set_update false) in
     do! when (bool_decide (tms_direction (tip s) = TARGET_INTERFACE_TMS_DIR_NOT_INITIALIZED))
       platorm_pio_non_iso_swd_pins_config in
     pio_do (pio_sm_init prog_offset (SwdConfig (clkdiv (tip s))))) in
  let! s := get in
  when (update_clkdiv (tip s))
    (do! pio_do (pio_sm_set_clkdiv (clkdiv (tip s))) in
     do! pio_do pio_sm_clkdiv_restart in
     upd_tip (set_update false)).

Definition platform_pio_non_iso_seq_out (MS ticks : Z) (isParity : bool) (parity : Z) : M (swd_state E) unit :=
  if ticks =? 0 then ret tt else
  let! s := get in
  let olddir := tms_direction (tip s) in
  do! pio_do (pio_sm_set_enabled false) in
  do! load_program PIO_PROGRAM_SWD_DP_LOW_SEQ_OUT in
  do! upd_tip (set_dir TARGET_INTERFACE_TMS_DIR_OUT) in
  do! pio_do pio_sm_clear_fifos in
  do! pio_do (pio_sm_put_blocking (if bool_decide (olddir = TARGET_INTERFACE_TMS_DIR_OUT) then 0 else 1)) in
  do! pio_do (pio_sm_put_blocking (if 32 <? ticks then 32 - 1 else u32 (ticks - 1))) in
  do! pio_do (pio_sm_put_blocking MS) in
  do! pio_do (pio_sm_put_blocking (if isParity then Z.lor (u32 (Z.shiftl parity 1)) 1 else 0)) in
  do! pio_do (pio_sm_set_enabled true) in
  do! pio_do pio_sm_get_blocking in
  pio_do (pio_sm_set_enabled false).

(** [*pData] and, when [pParity] is not NULL, [*pParity]; both are as before
    when [ticks] is 0. *)
Definition platform_pio_non_iso_seq_in (ticks : Z) (pData : Z) (pParity : option Z) : M (swd_state E) (Z * option Z) :=
  if ticks =? 0 then ret (pData, pParity) else
  let! s := get in
  let olddir := tms_direction (tip s) in
  do! pio_do (pio_sm_set_enabled false) in
  do! load_program PIO_PROGRAM_SWD_DP_LOW_SEQ_IN in
  do! upd_tip (set_dir TARGET_INTERFACE_TMS_DIR_IN) in
  do! pio_do pio_sm_clear_fifos in
  do! pio_do (pio_sm_put_blocking (if bool_decide (olddir = TARGET_INTERFACE_TMS_DIR_OUT) then 1 else 0)) in
  do! pio_do (pio_sm_put_blocking (if 32 <? ticks then 32 - 1 else u32 (ticks - 1))) in
  do! pio_do (pio_sm_put_blocking (match pParity with Some _ => 3 | None => 0 end)) in
  do! pio_do (pio_sm_set_enabled true) in
  let! data := pio_ pio_sm_get_blocking in
  let! parity := match pParity with Some _ => let! p := pio_ pio_sm_get_blocking in ret (Some p) | None => ret None end in
  do! pio_do pio_sm_get_blocking in
  do! match pParity with Some _ => upd_tip (set_dir TARGET_INTERFACE_TMS_DIR_OUT) | None => ret tt end in
  do! pio_do (pio_sm_set_enabled false) in
  ret (data, parity).

Definition seq_out (MS ticks : Z) : M (swd_state E) unit := platform_pio_non_iso_seq_out MS ticks false 0.
Definition seq_out_parity (MS ticks : Z) : M (swd_state E) unit :=
  platform_pio_non_iso_seq_out MS ticks true (Z.land (popcount MS) 1).
Definition seq_in (ticks : Z) : M (swd_state E) Z :=
  let! (r, _) := platform_pio_non_iso_seq_in ticks 0 None in ret r.
(** [*ret] and the result: whether the parity is wrong. *)
Definition seq_in_parity (ret0 ticks : Z) : M (swd_state E) (Z * bool) :=
  let! (r, p) := platform_pio_non_iso_seq_in ticks ret0 (Some 0) in
  let parity := if negb (default 0 p =? 0) then popcount r + 1 else popcount r in
  ret (r, negb (Z.land parity 1 =? 0)).

Definition platform_swd_low_write (addr data : Z) : M (swd_state E) bool :=
  let request := Z.lor (make_packet_request ADIV5_LOW_WRITE (Z.land addr 0xf)) (Z.shiftl 1 9) in
  let! s := get in
  let olddir := tms_direction (tip s) in
  do! pio_do (pio_sm_set_enabled false) in
  do! load_program PIO_PROGRAM_SWD_DP_LOW_WRITE in
  do! upd_tip (set_dir TARGET_INTERFACE_TMS_DIR_OUT) in
  do! pio_do pio_sm_clear_fifos in
  do! pio_do (pio_sm_put_blocking (if bool_decide (olddir = TARGET_INTERFACE_TMS_DIR_OUT) then 0 else 1)) in
  do! pio_do (pio_sm_put_blocking request) in
  do! pio_do (pio_sm_put_blocking data) in
  do! pio_do (pio_sm_put_blocking (Z.land (popcount data) 1)) in
  do! pio_do (pio_sm_set_enabled true) in
  let! w := pio_ pio_sm_get_blocking in
  let res := Z.shiftr w 29 in
  do! pio_do (pio_sm_set_enabled false) in
  ret (negb (res =? SWDP_ACK_OK)).

(** [dp->abort(dp, v)]: [firmware_swdp_abort], a write of ABORT through
    [dp->low_access] ([access]), whose result is dropped. *)
Section Access.
Variable access : positive -> Z -> Z -> Z -> M (swd_state E) Z.
Variable polls : nat.            (* the rounds of the WAIT loop *)

Definition firmware_swdp_abort (dp : positive) (abort : Z) : M (swd_state E) unit :=
  do! access dp ADIV5_LOW_WRITE ADIV5_DP_ABORT abort in ret tt.

(** The rounds of an access: [inr ack] when it is over, [inl] on a WAIT before
    the timeout; a FAULT returns from the function (ack 4). *)
Definition platform_round (RnW request value timeout : Z) (_ : unit) : M (swd_state E) (unit + Z) :=
  do! pio_do pio_sm_clear_fifos in
  do! pio_do (pio_sm_put_blocking 0x20000000) in
  do! pio_do (pio_sm_put_blocking request) in
  do! when (RnW =? 0)
    (do! pio_do (pio_sm_put_blocking value) in pio_do (pio_sm_put_blocking (Z.land (popcount value) 1))) in
  let! w := pio_ pio_sm_get_blocking in
  let ack := Z.shiftr w 29 in
  if ack =? SWDP_ACK_WAIT then
    let! expired := in_env (platform_timeout_is_expired timeout) in
    ret (if expired then inr ack else inl tt)
  else ret (inr ack).

(** After [dp->fault], [return 0]. *)
Definition fault_return (dp : positive) : M (swd_state E) Z := do! set_dp_fault dp 1 in ret 0.

Definition platform_low_access (dp : positive) (RnW addr value : Z) : M (swd_state E) Z :=
  let request := Z.lor (make_packet_request RnW addr) (Z.shiftl 1 9) in
  let! s := get in
  let olddir := tms_direction (tip s) in
  let! d := load_dp dp in
  if flag addr ADIV5_APnDP && negb (fault d =? 0) then ret 0 else
  do! pio_do (pio_sm_set_enabled false) in
  do! load_program (if RnW =? 0 then PIO_PROGRAM_SWD_DP_LOW_ACCESS_WRITE else PIO_PROGRAM_SWD_DP_LOW_ACCESS_READ) in
  do! upd_tip (set_dir TARGET_INTERFACE_TMS_DIR_OUT) in
  do! pio_do pio_sm_clear_fifos in
  do! pio_do (pio_sm_set_enabled true) in
  do! when (negb (bool_decide (olddir = TARGET_INTERFACE_TMS_DIR_OUT)))
    (do! pio_do (pio_sm_set_pins_with_mask (Z.shiftl 1 PIN_TARGET1_TMS_DIR_PIN) (Z.shiftl 1 PIN_TARGET1_TMS_DIR_PIN)) in
     pio_do (pio_sm_set_pindirs_with_mask (Z.shiftl 1 PIN_TARGET1_TMS) (Z.shiftl 1 PIN_TARGET1_TMS))) in
  let! timeout := in_env (platform_timeout_set 20) in
  let! ack := iter polls (platform_round RnW request value timeout) tt in
  if ack =? SWDP_ACK_FAULT then
    do! pio_do (pio_sm_set_enabled false) in fault_return dp
  else if ack =? SWDP_ACK_WAIT then
    do! pio_do (pio_sm_set_enabled false) in
    do! firmware_swdp_abort dp ADIV5_DP_ABORT_DAPABORT in fault_return dp
  else if negb (ack =? SWDP_ACK_OK) then raise EXCEPTION_ERROR (str "SWDP invalid ACK")
  else if negb (RnW =? 0) then
    let! response := pio_ pio_sm_get_blocking in
    let! p := pio_ pio_sm_get_blocking in
    let parity := popcount response + (if p =? 0 then 0 else 1) in
    do! pio_do (pio_sm_set_enabled false) in
    if negb (Z.land parity 1 =? 0) then
      do! set_dp_fault dp 1 in raise EXCEPTION_ERROR (str "SWDP Parity error")
    else ret response
  else do! pio_do (pio_sm_set_enabled false) in ret 0.

(** ** adiv5_swdp.c *)
Definition dp_line_reset : M (swd_state E) unit :=
  do! seq_out 0xFFFFFFFF 32 in seq_out 0x0FFFFFFF 32.

Definition firmware_dp_low_write (addr data : Z) : M (swd_state E) bool :=
  let request := make_packet_request ADIV5_LOW_WRITE (Z.land addr 0xf) in
  do! seq_out request 8 in
  let! res := seq_in 3 in
  do! seq_out_parity data 32 in
  ret (negb (res =? SWDP_ACK_OK)).

Definition firmware_round (request timeout : Z) (_ : unit) : M (swd_state E) (unit + Z) :=
  do! seq_out request 8 in
  let! w := seq_in 3 in
  let ack := Z.shiftr w 29 in
  if ack =? SWDP_ACK_WAIT then
    let! expired := in_env (platform_timeout_is_expired timeout) in
    ret (if expired then inr ack else inl tt)
  else ret (inr ack).

Definition firmware_swdp_low_access (dp : positive) (RnW addr value : Z) : M (swd_state E) Z :=
  let request := make_packet_request RnW addr in
  let! d := load_dp dp in
  if flag addr ADIV5_APnDP && negb (fault d =? 0) then ret 0 else
  let! timeout := in_env (platform_timeout_set 20) in
  let! ack := iter polls (firmware_round request timeout) tt in
  if ack =? SWDP_ACK_FAULT then fault_return dp
  else if ack =? SWDP_ACK_WAIT then
    do! firmware_swdp_abort dp ADIV5_DP_ABORT_DAPABORT in fault_return dp
  else if negb (ack =? SWDP_ACK_OK) then raise EXCEPTION_ERROR (str "SWDP invalid ACK")
  else if negb (RnW =? 0) then
    let! (response, bad) := seq_in_parity 0 32 in
    if bad then do! set_dp_fault dp 1 in raise EXCEPTION_ERROR (str "SWDP Parity error")
    else ret response
  else
    do! seq_out_parity value 32 in
    do! seq_out 0 8 in
    ret 0.
End Access.

(** [dp->low_access]; an access aborts through itself, [depth] deep. *)
Fixpoint swd_low_access (depth polls : nat) (dp : positive) (RnW addr value : Z) : M (swd_state E) Z :=
  match depth with
  | O => hang
  | S depth =>
      let! d := load_dp dp in
      match low_access d with
      | PlatformAccess => platform_low_access (swd_low_access depth polls) polls dp RnW addr value
      | FirmwareAccess => firmware_swdp_low_access (swd_low_access depth polls) polls dp RnW addr value
      end
  end.

Section Dp.
Variables depth polls : nat.
Notation low_access_ := (swd_low_access depth polls).

Definition firmware_swdp_read (dp : positive) (addr : Z) : M (swd_state E) Z :=
  if flag addr ADIV5_APnDP then
    do! low_access_ dp ADIV5_LOW_READ addr 0 in
    low_access_ dp ADIV5_LOW_READ ADIV5_DP_RDBUFF 0
  else low_access_ dp ADIV5_LOW_READ addr 0.

(** [dp->dp_low_write(dp, addr, data)], when it is set. *)
Definition call_low_write (f : swd_access) (addr data : Z) : M (swd_state E) bool :=
  match f with
  | PlatformAccess => platform_swd_low_write addr data
  | FirmwareAccess => firmware_dp_low_write addr data
  end.

Definition ADIV5_DP_CTRLSTAT_WDATAERR : Z := 0x80.
Definition ADIV5_DP_CTRLSTAT_STICKYERR : Z := 0x20.
Definition ADIV5_DP_CTRLSTAT_STICKYCMP : Z := 0x10.
Definition ADIV5_DP_CTRLSTAT_STICKYORUN : Z := 0x02.
Definition ADIV5_DP_ABORT_ORUNERRCLR : Z := 0x10.
Definition ADIV5_DP_ABORT_WDERRCLR : Z := 0x08.
Definition ADIV5_DP_ABORT_STKERRCLR : Z := 0x04.
Definition ADIV5_DP_ABORT_STKCMPCLR : Z := 0x02.

(** The bits of ABORT that clear the sticky errors [err]. *)
Definition clear_bits (err : Z) : Z :=
  let clr := 0 in
  let clr := if flag err ADIV5_DP_CTRLSTAT_STICKYORUN then Z.lor clr ADIV5_DP_ABORT_ORUNERRCLR else clr in
  let clr := if flag err ADIV5_DP_CTRLSTAT_STICKYCMP then Z.lor clr ADIV5_DP_ABORT_STKCMPCLR else clr in
  let clr := if flag err ADIV5_DP_CTRLSTAT_STICKYERR then Z.lor clr ADIV5_DP_ABORT_STKERRCLR else clr in
  if flag err ADIV5_DP_CTRLSTAT_WDATAERR then Z.lor clr ADIV5_DP_ABORT_WDERRCLR else clr.
Definition sticky_errors : Z :=
  Z.lor (Z.lor (Z.lor ADIV5_DP_CTRLSTAT_STICKYORUN ADIV5_DP_CTRLSTAT_STICKYCMP) ADIV5_DP_CTRLSTAT_STICKYERR)
    ADIV5_DP_CTRLSTAT_WDATAERR.

Definition firmware_swdp_error (dp : positive) : M (swd_state E) Z :=
  let! d := load_dp dp in
  do! match dp_low_write d with
      | Some f =>
          if negb (fault d =? 0) && (Z.land (dp_idcode d) ADIV5_DP_VERSION_MASK =? ADIV5_DPv2) then
            do! dp_line_reset in
            do! call_low_write f ADIV5_DP_TARGETSEL (dp_targetid d) in
            do! firmware_swdp_read dp ADIV5_DP_IDCODE in ret tt
          else ret tt
      | None => ret tt
      end in
  let! r := firmware_swdp_read dp ADIV5_DP_CTRLSTAT in
  let err := Z.land r sticky_errors in
  do! low_access_ dp ADIV5_LOW_WRITE ADIV5_DP_ABORT (clear_bits err) in
  do! set_dp_fault dp 0 in
  ret err.
End Dp.
End Swd.

(** An SWD debug port is a debug port for adiv5.c. *)
#[export] Instance swd_dp {E} `{PioIf E} `{ClockIf E} (depth polls : nat) : DpIf (swd_state E) | 100 := {
  dp_low_access := swd_low_access depth polls;
  dp_read := firmware_swdp_read depth polls;
}.
