(* ===== verification/SwdProps.v ===== *)
(** The SWD debug port over the PIO state machines: what the access functions
    put on the wire, how they answer each acknowledgement, and that the port
    they make satisfies the interface adiv5.c relies on. *)

From Stdlib Require Import ZArith Lia ZifyBool String.
From stdpp Require Import base list numbers option gmap.
From S2P Require Import Prelude CLib Platform Exception Dap Adiv5 Adiv5Props Swd.

(** ** Requests

    The packet request of the SWD protocol, sent from bit 0 on: start, APnDP,
    RnW, A[2], A[3], even parity over those four, stop, park. *)
Definition b2z (b : bool) : Z := if b then 1 else 0.
Definition swd_request (APnDP RnW a2 a3 : bool) : Z :=
  b2z true + 2 * (b2z APnDP + 2 * (b2z RnW + 2 * (b2z a2 + 2 * (b2z a3 +
    2 * (b2z (xorb (xorb APnDP RnW) (xorb a2 a3)) + 2 * (b2z false + 2 * b2z true)))))).
Definition decode_request (r : Z) : option (bool * bool * bool * bool) :=
  let t i := Z.testbit r i in
  if t 0 && negb (t 6) && t 7 && Bool.eqb (t 5) (xorb (xorb (t 1) (t 2)) (xorb (t 3) (t 4)))
  then Some (t 1, t 2, t 3, t 4) else None.

Lemma land_C addr : Z.land addr 0xC = 4 * b2z (Z.testbit addr 2) + 8 * b2z (Z.testbit addr 3).
Proof.
  apply Z.bits_inj'. intros i Hi. rewrite Z.land_spec.
  assert (Hs : i = 0 \/ i = 1 \/ i = 2 \/ i = 3 \/ 4 <= i) by lia.
  destruct Hs as [-> | [-> | [-> | [-> | Hi4]]]].
  - rewrite andb_false_r. by destruct (Z.testbit addr 2), (Z.testbit addr 3).
  - rewrite andb_false_r. by destruct (Z.testbit addr 2), (Z.testbit addr 3).
  - rewrite andb_true_r. by destruct (Z.testbit addr 2), (Z.testbit addr 3).
  - rewrite andb_true_r. by destruct (Z.testbit addr 2), (Z.testbit addr 3).
  - assert (Hh : forall x, 0 <= x -> Z.log2 x < 4 -> Z.testbit x i = false)
      by (intros; apply Z.bits_above_log2; lia).
    rewrite (Hh 0xC), andb_false_r by done. symmetry. apply Hh; by destruct (Z.testbit addr 2), (Z.testbit addr 3).
Qed.

(** [make_packet_request] builds the request of the SWD protocol for the
    register: the port from bit 8 of the address, the register from its bits 2
    and 3, even parity over the four; every other bit of the address is
    ignored. *)
Theorem make_packet_request_correct RnW addr :
  make_packet_request RnW addr =
  swd_request (flag addr ADIV5_APnDP) (negb (RnW =? 0)) (Z.testbit addr 2) (Z.testbit addr 3).
Proof.
  unfold make_packet_request. rewrite <- Z.land_assoc. change (Z.land 0xff 0xC) with 0xC. rewrite land_C.
  by destruct (flag addr ADIV5_APnDP), (negb (RnW =? 0)), (Z.testbit addr 2), (Z.testbit addr 3).
Qed.

Lemma decode_swd_request p r a b : decode_request (swd_request p r a b) = Some (p, r, a, b).
Proof. by destruct p, r, a, b. Qed.

(** The address of a register, as far as the port decodes it. *)
Definition reg_addr (p a2 a3 : bool) : Z := 0x100 * b2z p + (4 * b2z a2 + 8 * b2z a3).
Lemma decode_reg_addr sel select RnW addr :
  decode sel select RnW addr =
  decode sel select RnW (reg_addr (flag addr ADIV5_APnDP) (Z.testbit addr 2) (Z.testbit addr 3)).
Proof.
  unfold decode. rewrite land_C. set (p := flag addr ADIV5_APnDP).
  by destruct p, (Z.testbit addr 2), (Z.testbit addr 3).
Qed.

(** ** The state machines

    What the code relies on of the RP2040's PIO running the two access
    programs, with an SWD target on the pins: the FIFOs, the program loaded,
    and, once the words of a transaction are there, one transaction on the
    wire.  [v_acks] is what the target will answer before it says OK. *)
Record pio_view := {
  v_loaded : option pio_program;
  v_running : bool;
  v_tx : list Z;
  v_rx : list Z;
  v_acks : list Z;
  v_port : dap;
}.

(** The transaction the words in the FIFO ask for: direction, register address
    and value.  The first word is the acknowledgement to go on at, bit 9 of the
    request turns the pin around at the end. *)
Definition transaction (v : pio_view) : option (Z * Z * Z) :=
  match v_loaded v, v_tx v with
  | Some PIO_PROGRAM_SWD_DP_LOW_ACCESS_READ, [0x20000000; req] =>
      match decode_request (u8 req) with
      | Some (p, true, a2, a3) => if Z.testbit req 9 then Some (ADIV5_LOW_READ, reg_addr p a2 a3, 0) else None
      | _ => None
      end
  | Some PIO_PROGRAM_SWD_DP_LOW_ACCESS_WRITE, [0x20000000; req; value; parity] =>
      match decode_request (u8 req) with
      | Some (p, false, a2, a3) =>
          if Z.testbit req 9 && (parity =? Z.land (popcount value) 1)
          then Some (ADIV5_LOW_WRITE, reg_addr p a2 a3, value) else None
      | _ => None
      end
  | _, _ => None
  end.

Definition set_fifos (tx rx : list Z) (v : pio_view) : pio_view :=
  {| v_loaded := v_loaded v; v_running := v_running v; v_tx := tx; v_rx := rx; v_acks := v_acks v; v_port := v_port v |}.
Definition set_control (l : option pio_program) (r : bool) (v : pio_view) : pio_view :=
  {| v_loaded := l; v_running := r; v_tx := v_tx v; v_rx := v_rx v; v_acks := v_acks v; v_port := v_port v |}.
Definition set_wire (acks : list Z) (d : dap) (v : pio_view) : pio_view :=
  {| v_loaded := v_loaded v; v_running := v_running v; v_tx := []; v_rx := v_rx v; v_acks := acks; v_port := d |}.

Inductive pio_step (sel : Z) (v : pio_view) : pio_call -> Z -> pio_view -> Prop :=
| ps_enabled b r : pio_step sel v (pio_sm_set_enabled b) r (set_control (v_loaded v) b v)
| ps_clear_memory r : pio_step sel v pio_clear_instruction_memory r (set_control None (v_running v) v)
| ps_add_program p r : pio_step sel v (pio_add_program p) r (set_control (Some p) (v_running v) v)
| ps_init o c r : pio_step sel v (pio_sm_init o c) r v
| ps_clkdiv c r : pio_step sel v (pio_sm_set_clkdiv c) r v
| ps_restart r : pio_step sel v pio_sm_clkdiv_restart r v
| ps_clear_fifos r : pio_step sel v pio_sm_clear_fifos r (set_fifos [] [] v)
| ps_pins x m r : pio_step sel v (pio_sm_set_pins_with_mask x m) r v
| ps_pindirs x m r : pio_step sel v (pio_sm_set_pindirs_with_mask x m) r v
| ps_gpio p r : pio_step sel v (pio_gpio_init p) r v
| ps_put x r : pio_step sel v (pio_sm_put_blocking x) r (set_fifos (v_tx v ++ [x]) (v_rx v) v)
| ps_get x rx : v_rx v = x :: rx -> pio_step sel v pio_sm_get_blocking x (set_fifos (v_tx v) rx v)
| ps_answer RnW addr value a acks : v_rx v = [] -> v_running v = true ->
    transaction v = Some (RnW, addr, value) -> v_acks v = a :: acks ->
    pio_step sel v pio_sm_get_blocking (Z.shiftl a 29) (set_wire acks (v_port v) v)
| ps_write addr value reg r d : v_rx v = [] -> v_running v = true ->
    transaction v = Some (ADIV5_LOW_WRITE, addr, value) -> v_acks v = [] ->
    decode sel (d_select (v_port v)) ADIV5_LOW_WRITE addr = Some reg ->
    dap_step (v_port v) ADIV5_LOW_WRITE reg value r d ->
    pio_step sel v pio_sm_get_blocking (Z.shiftl SWDP_ACK_OK 29) (set_wire [] d v)
| ps_read addr value reg data parity d : v_rx v = [] -> v_running v = true ->
    transaction v = Some (ADIV5_LOW_READ, addr, value) -> v_acks v = [] ->
    decode sel (d_select (v_port v)) ADIV5_LOW_READ addr = Some reg ->
    dap_step (v_port v) ADIV5_LOW_READ reg value data d ->
    (parity =? 0) = (Z.land (popcount data) 1 =? 0) ->
    pio_step sel v pio_sm_get_blocking (Z.shiftl SWDP_ACK_OK 29) (set_fifos [] [data; parity] (set_wire [] d v))
| ps_out_pins b n r : pio_step sel v (pio_sm_set_out_pins b n) r v
| ps_set_pins b n r : pio_step sel v (pio_sm_set_set_pins b n) r v.

(** The calls that return: all but a read of an empty FIFO nothing will fill. *)
Definition pio_ready (sel : Z) (v : pio_view) (c : pio_call) : Prop :=
  match c with
  | pio_sm_get_blocking =>
      v_rx v <> [] \/
      v_running v = true /\ exists RnW addr value, transaction v = Some (RnW, addr, value) /\
        (v_acks v <> [] \/ is_u32 value /\ exists reg,
           decode sel (d_select (v_port v)) RnW addr = Some reg /\ dap_access_ok (v_port v) RnW reg)
  | _ => True
  end.

Class SwdPioSpec (E : Type) `{PioIf E} `{ClockIf E} (sel : Z) := {
  pio_wf : E -> Prop;
  view : E -> pio_view;
  sel_byte : is_byte sel;
  pio_law e c : pio_wf e -> pio_ready sel (view e) c ->
    exists r e', pio c e = Ok r e' /\ pio_wf e' /\ pio_step sel (view e) c r (view e');
  clock_law e : pio_wf e ->
    exists t e', platform_time_ms e = Ok t e' /\ pio_wf e' /\ view e' = view e;
}.

(** ** Runs of the access functions *)
Section Runs.
Context {E : Type} `{SwdPioSpec E sel}.
Implicit Types s : swd_state E.

(** The program the code thinks is loaded is. *)
Definition consistent s : Prop :=
  pio_wf (env s) /\
  (current_program (tip s) <> PIO_PROGRAM_NOT_SET -> v_loaded (view (env s)) = Some (current_program (tip s))).

(** What is known of a state: its parameters, its ports and its view. *)
Definition at_ t d v s : Prop := tip s = t /\ dps s = d /\ pio_wf (env s) /\ view (env s) = v.

(** The view after a call that is not a read of the FIFO. *)
Definition quiet_view (c : pio_call) (v : pio_view) : option pio_view :=
  match c with
  | pio_sm_set_enabled b => Some (set_control (v_loaded v) b v)
  | pio_clear_instruction_memory => Some (set_control None (v_running v) v)
  | pio_add_program p => Some (set_control (Some p) (v_running v) v)
  | pio_sm_clear_fifos => Some (set_fifos [] [] v)
  | pio_sm_put_blocking x => Some (set_fifos (v_tx v ++ [x]) (v_rx v) v)
  | pio_sm_get_blocking => None
  | _ => Some v
  end.
Lemma quiet_step v c r v' v1 : pio_step sel v c r v' -> quiet_view c v = Some v1 -> v' = v1.
Proof. by destruct 1; cbn; intros [= <-]. Qed.

(** Rules to run an operation step by step; [P] is what is to hold of the
    outcome. *)
Lemma run_quiet {A} c (f : unit -> M (swd_state E) A) t d v v' s (P : outcome (swd_state E) A -> Prop) :
  at_ t d v s -> quiet_view c v = Some v' ->
  (forall s', at_ t d v' s' -> P (f tt s')) -> P (bind (pio_do c) f s).
Proof.
  intros (<- & <- & Hwf & <-) Hq HP.
  destruct (pio_law (env s) c Hwf) as (r & e & He & Hwf' & Hs); [by destruct c|].
  unfold bind, pio_do, pio_, in_env, bind. rewrite He. unfold ret. apply HP.
  split_and!; try done. cbn. by eapply quiet_step.
Qed.
Lemma run_quiet_last c t d v v' s (P : outcome (swd_state E) unit -> Prop) :
  at_ t d v s -> quiet_view c v = Some v' ->
  (forall s', at_ t d v' s' -> P (Ok tt s')) -> P (pio_do c s).
Proof.
  intros Hat Hq HP. rewrite <- bind_ret_r. by eapply (run_quiet c ret).
Qed.
Lemma run_add_program {A} p (f : Z -> M (swd_state E) A) t d v s (P : outcome (swd_state E) A -> Prop) :
  at_ t d v s ->
  (forall o s', at_ t d (set_control (Some p) (v_running v) v) s' -> P (f o s')) -> P (bind (pio_ (pio_add_program p)) f s).
Proof.
  intros (<- & <- & Hwf & <-) HP.
  destruct (pio_law (env s) (pio_add_program p) Hwf I) as (r & e & He & Hwf' & Hs).
  unfold bind, pio_, in_env. rewrite He. apply HP. split_and!; try done. cbn. by inversion Hs.
Qed.
Lemma run_get {A} (f : Z -> M (swd_state E) A) t d v s (P : outcome (swd_state E) A -> Prop) :
  at_ t d v s -> pio_ready sel v pio_sm_get_blocking ->
  (forall w v' s', pio_step sel v pio_sm_get_blocking w v' -> at_ t d v' s' -> P (f w s')) ->
  P (bind (pio_ pio_sm_get_blocking) f s).
Proof.
  intros (<- & <- & Hwf & <-) Hr HP.
  destruct (pio_law (env s) pio_sm_get_blocking Hwf Hr) as (r & e & He & Hwf' & Hs).
  unfold bind, pio_, in_env. rewrite He. eapply HP; [exact Hs|]. by split_and!.
Qed.
Lemma run_clock {A} ms (f : Z -> M (swd_state E) A) t d v s (P : outcome (swd_state E) A -> Prop) :
  at_ t d v s -> (forall x s', at_ t d v s' -> P (f x s')) -> P (bind (in_env (platform_timeout_set ms)) f s).
Proof.
  intros (<- & <- & Hwf & <-) HP. destruct (clock_law (env s) Hwf) as (x & e & He & Hwf' & Hv).
  unfold bind, in_env, platform_timeout_set, bind. rewrite He. unfold ret. apply HP. by split_and!.
Qed.
Lemma run_tip {A} g (f : unit -> M (swd_state E) A) t d v s (P : outcome (swd_state E) A -> Prop) :
  at_ t d v s -> (forall s', at_ (g t) d v s' -> P (f tt s')) -> P (bind (upd_tip g) f s).
Proof. intros (<- & <- & Hwf & <-) HP. apply HP. by split_and!. Qed.
Lemma run_tip_last g t d v s (P : outcome (swd_state E) unit -> Prop) :
  at_ t d v s -> (forall s', at_ (g t) d v s' -> P (Ok tt s')) -> P (upd_tip g s).
Proof. intros (<- & <- & Hwf & <-) HP. apply HP. by split_and!. Qed.
Lemma run_bind {A B} (m : M (swd_state E) A) (f : A -> M (swd_state E) B) s (P : outcome (swd_state E) B -> Prop) :
  (fun o => match o with Ok a s' => P (f a s') | Raise ty msg s' => P (Raise ty msg s') | Fault why s' => P (Fault why s') | Hang => P Hang end) (m s) ->
  P (bind m f s).
Proof. unfold bind. by destruct (m s). Qed.

Lemma run_load_dp {A} dp D (f : ADIv5_DP -> M (swd_state E) A) s (P : outcome (swd_state E) A -> Prop) :
  dps s !! dp = Some D -> P (f D s) -> P (bind (load_dp dp) f s).
Proof. intros HD HP. unfold bind, load_dp, bind, get. by rewrite HD. Qed.

(** The control part of a view. *)
Definition with_program p v : pio_view := set_control (Some p) (v_running v) v.

Lemma run_load_program {A} p (f : unit -> M (swd_state E) A) t d v s (P : outcome (swd_state E) A -> Prop) :
  at_ t d v s -> p <> PIO_PROGRAM_NOT_SET ->
  (current_program t <> PIO_PROGRAM_NOT_SET -> v_loaded v = Some (current_program t)) ->
  (forall t' s', at_ t' d (with_program p v) s' -> current_program t' = p -> tms_direction t' = tms_direction t ->
    P (f tt s')) ->
  P (bind (load_program p) f s).
Proof.
  intros Hat Hp Hcons HP. unfold load_program. rewrite bind_bind. unfold bind at 1, get.
  pose proof Hat as (Htip & _ & _ & _). rewrite Htip.
  assert (Hrest : forall t1 s1, at_ t1 d (with_program p v) s1 -> current_program t1 = p -> tms_direction t1 = tms_direction t ->
    P (bind (let! s := get in when (update_clkdiv (tip s))
      (do! pio_do (pio_sm_set_clkdiv (clkdiv (tip s))) in do! pio_do pio_sm_clkdiv_restart in upd_tip (set_update false))) f s1)).
  { intros t1 s1 Hat1 Hc1 Hd1. rewrite bind_bind. unfold bind at 1, get.
    destruct (update_clkdiv (tip s1)); cbn [when].
    - rewrite bind_bind. eapply run_quiet; [done|reflexivity|]. intros s2 Hat2.
      rewrite bind_bind. eapply run_quiet; [done|reflexivity|]. intros s3 Hat3.
      eapply run_tip; [done|]. intros s4 Hat4. by eapply HP.
    - rewrite bind_ret. by eapply HP. }
  rewrite bind_bind. case_bool_decide as Hcur; cbn [negb when].
  - rewrite bind_ret. eapply (Hrest t); try done.
    assert (with_program p v = v) as ->; [|done].
    unfold with_program, set_control. rewrite <- Hcur, <- (Hcons ltac:(congruence)). by destruct v.
  - rewrite bind_bind. eapply run_tip; [done|]. intros s1 Hat1.
    rewrite bind_bind. eapply run_quiet; [done|reflexivity|]. intros s2 Hat2.
    rewrite bind_bind. eapply run_add_program; [done|]. intros o s3 Hat3.
    rewrite bind_bind. eapply run_tip; [done|]. intros s4 Hat4. rewrite bind_bind.
    assert (Hfin : forall s5, at_ (set_update false (set_program p t)) d (with_program p v) s5 ->
      P (bind (pio_do (pio_sm_init o (SwdConfig (clkdiv t)))) (fun _ => bind (let! s := get in when (update_clkdiv (tip s))
      (do! pio_do (pio_sm_set_clkdiv (clkdiv (tip s))) in do! pio_do pio_sm_clkdiv_restart in upd_tip (set_update false))) f) s5)).
    { intros s5 Hat5. eapply run_quiet; [done|reflexivity|]. intros s6 Hat6. by eapply Hrest. }
    destruct (bool_decide _); cbn [when].
    + unfold platorm_pio_non_iso_swd_pins_config.
      repeat (rewrite bind_bind; eapply run_quiet; [done|reflexivity|]; clear s4 Hat4; intros s4 Hat4).
      eapply run_quiet; [done|reflexivity|]. intros s5 Hat5. by apply Hfin.
    + rewrite bind_ret. by apply Hfin.
Qed.

(** The request word of an access is the transaction meant. *)
Lemma request_word RnW addr : let req := Z.lor (make_packet_request RnW addr) (Z.shiftl 1 9) in
  decode_request (u8 req) =
    Some (flag addr ADIV5_APnDP, negb (RnW =? 0), Z.testbit addr 2, Z.testbit addr 3) /\ Z.testbit req 9 = true.
Proof.
  intros req. unfold req. rewrite make_packet_request_correct.
  by destruct (flag addr ADIV5_APnDP), (negb (RnW =? 0)), (Z.testbit addr 2), (Z.testbit addr 3).
Qed.

Definition access_program (RnW : Z) : pio_program :=
  if RnW =? 0 then PIO_PROGRAM_SWD_DP_LOW_ACCESS_WRITE else PIO_PROGRAM_SWD_DP_LOW_ACCESS_READ.
(** The FIFO words of an access. *)
Definition access_words (RnW addr value : Z) : list Z :=
  [0x20000000; Z.lor (make_packet_request RnW addr) (Z.shiftl 1 9)] ++
  (if RnW =? 0 then [value; Z.land (popcount value) 1] else []).

Lemma access_transaction RnW addr value v : v_loaded v = Some (access_program RnW) ->
  RnW = ADIV5_LOW_WRITE \/ RnW = ADIV5_LOW_READ ->
  transaction (set_fifos (access_words RnW addr value) [] v) =
    Some (RnW, reg_addr (flag addr ADIV5_APnDP) (Z.testbit addr 2) (Z.testbit addr 3),
          if RnW =? 0 then value else 0).
Proof.
  intros Hl Hdir. unfold transaction, set_fifos, access_words. cbn [v_loaded v_tx]. rewrite Hl.
  destruct (request_word RnW addr) as [Hdec Hbit].
  destruct Hdir as [-> | ->]; cbn [access_program ADIV5_LOW_WRITE ADIV5_LOW_READ Z.eqb app] in *; rewrite Hdec;
    cbn [negb]; rewrite Hbit; [|done]. by rewrite Z.eqb_refl.
Qed.

(** A round puts the words in the FIFO and reads the answer. *)
Lemma run_round {A} RnW addr value timeout (f : unit + Z -> M (swd_state E) A) t d v s (P : outcome (swd_state E) A -> Prop) :
  at_ t d v s -> RnW = ADIV5_LOW_WRITE \/ RnW = ADIV5_LOW_READ ->
  pio_ready sel (set_fifos (access_words RnW addr value) [] v) pio_sm_get_blocking ->
  (forall w v' s', pio_step sel (set_fifos (access_words RnW addr value) [] v) pio_sm_get_blocking w v' ->
    at_ t d v' s' -> Z.shiftr w 29 <> SWDP_ACK_WAIT /\ P (f (inr (Z.shiftr w 29)) s')) ->
  P (bind (platform_round RnW (Z.lor (make_packet_request RnW addr) (Z.shiftl 1 9)) value timeout tt) f s).
Proof.
  intros Hat Hdir Hready HP. unfold platform_round.
  repeat (rewrite bind_bind; eapply run_quiet; [done|reflexivity|]; clear s Hat; intros s Hat). cbn [v_tx v_rx set_fifos app] in Hat.
  assert (Hget : forall s1, at_ t d (set_fifos (access_words RnW addr value) [] v) s1 ->
    P (bind (let! w := pio_ pio_sm_get_blocking in let ack := Z.shiftr w 29 in
      if ack =? SWDP_ACK_WAIT then let! expired := in_env (platform_timeout_is_expired timeout) in ret (if expired then inr ack else inl tt)
      else ret (inr ack)) f s1)).
  { intros s1 Hat1. rewrite bind_bind. eapply run_get; [done|done|]. intros w v' s2 Hstep Hat2.
    destruct (HP w v' s2 Hstep Hat2) as [Hne HPf]. cbn zeta.
    rewrite (proj2 (Z.eqb_neq _ _) Hne). by rewrite bind_ret. }
  rewrite bind_bind. destruct Hdir as [-> | ->]; cbn [ADIV5_LOW_WRITE ADIV5_LOW_READ Z.eqb when].
  - rewrite bind_bind.
    eapply run_quiet; [done|reflexivity|]; clear s Hat; intros s Hat.
    eapply run_quiet; [done|reflexivity|]; clear s Hat; intros s Hat. by apply Hget.
  - rewrite bind_ret. by apply Hget.
Qed.

(** What an access does with an acknowledgement other than WAIT. *)
Definition after_ack (dp : positive) (RnW ack : Z) : M (swd_state E) Z :=
  if ack =? SWDP_ACK_FAULT then
    do! pio_do (pio_sm_set_enabled false) in fault_return dp
  else if negb (ack =? SWDP_ACK_OK) then raise EXCEPTION_ERROR (str "SWDP invalid ACK")
  else if negb (RnW =? 0) then
    let! response := pio_ pio_sm_get_blocking in
    let! p := pio_ pio_sm_get_blocking in
    let parity := popcount response + (if p =? 0 then 0 else 1) in
    do! pio_do (pio_sm_set_enabled false) in
    if negb (Z.land parity 1 =? 0) then
      do! set_dp_fault dp 1 in raise EXCEPTION_ERROR (str "SWDP Parity error")
    else ret response
  else do! pio_do (pio_sm_set_enabled false) in ret 0.

(** The view in which the transaction of an access runs. *)
Definition access_view (RnW addr value : Z) (v : pio_view) : pio_view :=
  set_fifos (access_words RnW addr value) [] (set_control (Some (access_program RnW)) true v).

Lemma run_access access polls dp D RnW addr value s (P : outcome (swd_state E) Z -> Prop) :
  consistent s -> dps s !! dp = Some D -> flag addr ADIV5_APnDP && negb (fault D =? 0) = false ->
  RnW = ADIV5_LOW_WRITE \/ RnW = ADIV5_LOW_READ -> (0 < polls)%nat ->
  pio_ready sel (access_view RnW addr value (view (env s))) pio_sm_get_blocking ->
  (forall t w v' s', pio_step sel (access_view RnW addr value (view (env s))) pio_sm_get_blocking w v' ->
    current_program t = access_program RnW -> at_ t (dps s) v' s' ->
    Z.shiftr w 29 <> SWDP_ACK_WAIT /\ P (after_ack dp RnW (Z.shiftr w 29) s')) ->
  P (platform_low_access access polls dp RnW addr value s).
Proof.
  intros [Hwf Hcons] HD Hnf Hdir Hpolls Hready HP. unfold platform_low_access.
  assert (Hat : at_ (tip s) (dps s) (view (env s)) s) by done. revert Hat Hcons Hready HP.
  generalize (view (env s)) as v0. generalize (tip s) at 1 2 3 as t0. intros t0 v0 Hat Hcons Hready HP.
  unfold bind at 1, get. eapply run_load_dp; [done|]. rewrite Hnf.
  pose proof Hat as (Htip & _). rewrite Htip.
  eapply run_quiet; [done|reflexivity|]. intros s1 Hat1.
  assert (Hprog : (if RnW =? 0 then PIO_PROGRAM_SWD_DP_LOW_ACCESS_WRITE else PIO_PROGRAM_SWD_DP_LOW_ACCESS_READ) = access_program RnW) by done.
  rewrite Hprog. eapply run_load_program; [done| |done|].
  { unfold access_program. by destruct (RnW =? 0). }
  intros t2 s2 Hat2 Hprog2 _.
  eapply run_tip; [done|]. intros s3 Hat3.
  eapply run_quiet; [done|reflexivity|]. intros s4 Hat4.
  eapply run_quiet; [done|reflexivity|]. intros s5 Hat5.
  set (vr := set_control _ true _) in Hat5.
  assert (Hvr : set_fifos (access_words RnW addr value) [] vr = access_view RnW addr value v0) by done.
  assert (Hrest : forall s6, at_ (set_dir TARGET_INTERFACE_TMS_DIR_OUT t2) (dps s) vr s6 ->
    P (bind (in_env (platform_timeout_set 20)) (fun timeout =>
       let! ack := iter polls (platform_round RnW (Z.lor (make_packet_request RnW addr) (Z.shiftl 1 9)) value timeout) tt in
       if ack =? SWDP_ACK_FAULT then
         do! pio_do (pio_sm_set_enabled false) in fault_return dp
       else if ack =? SWDP_ACK_WAIT then
         do! pio_do (pio_sm_set_enabled false) in
         do! firmware_swdp_abort access dp ADIV5_DP_ABORT_DAPABORT in fault_return dp
       else if negb (ack =? SWDP_ACK_OK) then raise EXCEPTION_ERROR (str "SWDP invalid ACK")
       else if negb (RnW =? 0) then
         let! response := pio_ pio_sm_get_blocking in
         let! p := pio_ pio_sm_get_blocking in
         let parity := popcount response + (if p =? 0 then 0 else 1) in
         do! pio_do (pio_sm_set_enabled false) in
         if negb (Z.land parity 1 =? 0) then
           do! set_dp_fault dp 1 in raise EXCEPTION_ERROR (str "SWDP Parity error")
         else ret response
       else do! pio_do (pio_sm_set_enabled false) in ret 0) s6)).
  { intros s6 Hat6. eapply run_clock; [done|]. intros timeout s7 Hat7.
    destruct polls as [|polls]; [lia|]. cbn [iter]. rewrite bind_bind.
    eapply run_round; [done|done|by rewrite Hvr|].
    rewrite Hvr. intros w v' s8 Hstep Hat8. destruct (HP (set_dir TARGET_INTERFACE_TMS_DIR_OUT t2) w v' s8 Hstep Hprog2 Hat8) as [Hnw HPk].
    split; [done|]. rewrite bind_ret. unfold after_ack in HPk.
    destruct (Z.shiftr w 29 =? SWDP_ACK_FAULT); [done|]. by rewrite (proj2 (Z.eqb_neq _ _) Hnw). }
  destruct (bool_decide _); cbn [when negb].
  - rewrite bind_ret. by apply Hrest.
  - rewrite bind_bind. eapply run_quiet; [done|reflexivity|]. intros s6 Hat6.
    eapply run_quiet; [done|reflexivity|]. intros s7 Hat7. by apply Hrest.
Qed.

Notation port s := (v_port (view (env s))).

Lemma access_ready RnW addr value v : v_acks v <> [] \/
    (is_u32 value /\ exists reg, decode sel (d_select (v_port v)) RnW addr = Some reg /\ dap_access_ok (v_port v) RnW reg) ->
  RnW = ADIV5_LOW_WRITE \/ RnW = ADIV5_LOW_READ ->
  pio_ready sel (access_view RnW addr value v) pio_sm_get_blocking.
Proof.
  intros Hr Hdir. right. split; [done|]. eexists _, _, _. split; [by apply access_transaction|]. cbn.
  destruct Hr as [Ha|(Hv & reg & Hd & Hok)]; [by left|]. right. split; [by destruct (RnW =? 0)|].
  exists reg. split; [|done]. by rewrite <- decode_reg_addr.
Qed.

Lemma step_write_any d reg v r1 r2 d' : dap_step d ADIV5_LOW_WRITE reg v r1 d' -> dap_step d ADIV5_LOW_WRITE reg v r2 d'.
Proof. inversion 1; subst; by constructor. Qed.
Lemma step_read_any d reg v1 v2 r d' : dap_step d ADIV5_LOW_READ reg v1 r d' -> dap_step d ADIV5_LOW_READ reg v2 r d'.
Proof. inversion 1; subst; by constructor. Qed.
Lemma access_dir d RnW reg : dap_access_ok d RnW reg -> RnW = ADIV5_LOW_WRITE \/ RnW = ADIV5_LOW_READ.
Proof. destruct reg; cbn; tauto. Qed.

(** The wire answers OK: the access is a step of the port. *)
Lemma platform_access_ok access polls dp D RnW addr value reg s :
  is_u32 value -> consistent s -> dps s !! dp = Some D -> fault D = 0 -> v_acks (view (env s)) = [] -> (0 < polls)%nat ->
  decode sel (d_select (port s)) RnW addr = Some reg -> dap_access_ok (port s) RnW reg ->
  exists r s', platform_low_access access polls dp RnW addr value s = Ok r s' /\
    consistent s' /\ dps s' = dps s /\ v_acks (view (env s')) = [] /\
    dap_step (port s) RnW reg value r (port s').
Proof.
  intros Hv Hc HD Hf Ha Hp Hd Hok. assert (Hdir := access_dir _ _ _ Hok).
  apply (run_access access polls dp D RnW addr value s (fun o => exists r s', o = Ok r s' /\ consistent s' /\
    dps s' = dps s /\ v_acks (view (env s')) = [] /\ dap_step (port s) RnW reg value r (port s'))); try done.
  { by rewrite Hf, andb_false_r. }
  { apply access_ready; [|done]. right. eauto. }
  assert (Htr := access_transaction RnW addr value (set_control (Some (access_program RnW)) true (view (env s))) eq_refl Hdir).
  change (set_fifos (access_words RnW addr value) [] _) with (access_view RnW addr value (view (env s))) in Htr.
  intros t w v' s1 Hstep Hpr Hat1.
  assert (Hfin : forall v2 s2, at_ t (dps s) v2 s2 -> v_loaded v2 = Some (access_program RnW) -> consistent s2).
  { intros v2 s2 (Ht2 & _ & Hw2 & Hv2) Hl. split; [done|]. intros _. by rewrite Hv2, Ht2, Hpr. }
  inversion Hstep as [| | | | | | | | | | |x rx Hrx| ? ? ? a acks Hrx Hrun Htr2 Hacks
    |addr2 value2 reg2 r d Hrx Hrun Htr2 Hacks Hdec Hds|addr2 value2 reg2 data parity d Hrx Hrun Htr2 Hacks Hdec Hds Hpar| |]; subst.
  - done.
  - cbn in Hacks. congruence.
  - rewrite Htr in Htr2. injection Htr2 as -> <- <-. cbn [v_port access_view set_fifos set_control] in *.
    rewrite <- decode_reg_addr, Hd in Hdec. injection Hdec as <-.
    change (Z.shiftr (Z.shiftl SWDP_ACK_OK 29) 29) with 1. split; [done|].
    unfold after_ack. cbn [Z.eqb SWDP_ACK_FAULT SWDP_ACK_OK ADIV5_LOW_WRITE negb Pos.eqb].
    eapply run_quiet; [done|reflexivity|]. intros s2 Hat2. exists 0, s2. split; [done|].
    split; [eapply Hfin; [done|reflexivity]|]. destruct Hat2 as (_ & -> & _ & ->). split; [done|]. split; [done|].
    by eapply step_write_any.
  - rewrite Htr in Htr2. injection Htr2 as -> <- Hval. cbn [v_port access_view set_fifos set_control] in *.
    rewrite <- decode_reg_addr, Hd in Hdec. injection Hdec as <-.
    change (Z.shiftr (Z.shiftl SWDP_ACK_OK 29) 29) with 1. split; [done|].
    unfold after_ack. cbn [Z.eqb SWDP_ACK_FAULT SWDP_ACK_OK ADIV5_LOW_READ negb Pos.eqb].
    eapply run_get; [done|by left|]. intros w2 v2 s2 Hst2 Hat2.
    inversion Hst2 as [| | | | | | | | | | |x rx Hrx2| |? ? ? ? ? Hrx2|? ? ? ? ? ? Hrx2| |]; subst; try done.
    cbn in Hrx2. injection Hrx2 as <- <-.
    eapply run_get; [done|by left|]. intros w3 v3 s3 Hst3 Hat3.
    inversion Hst3 as [| | | | | | | | | | |x rx Hrx3| |? ? ? ? ? Hrx3|? ? ? ? ? ? Hrx3| |]; subst; try done.
    cbn in Hrx3. injection Hrx3 as <- <-.
    eapply run_quiet; [done|reflexivity|]. intros s4 Hat4.
    assert (Hev : negb (Z.land (popcount data + (if parity =? 0 then 0 else 1)) 1 =? 0) = false).
    { destruct (parity =? 0).
      - by rewrite Z.add_0_r, <- Hpar.
      - change (Z.land (popcount data + 1) 1) with (Z.land (popcount data + 1) (Z.ones 1)). rewrite Z.land_ones by lia.
        change 1 with (Z.ones 1) in Hpar at 1. rewrite Z.land_ones in Hpar by lia. change (2 ^ 1) with 2 in *.
        assert (Ho : popcount data mod 2 = 1) by (pose proof (Z.mod_pos_bound (popcount data) 2); lia).
        rewrite Z.add_mod, Ho by lia. done. }
    rewrite Hev. exists data, s4. split; [done|].
    split; [eapply Hfin; [done|reflexivity]|]. destruct Hat4 as (_ & -> & _ & ->). split; [done|]. split; [done|].
    by eapply step_read_any.
Qed.

(** An acknowledgement other than OK and WAIT. *)
Lemma platform_access_nack access polls dp D RnW addr value a acks s :
  consistent s -> dps s !! dp = Some D -> flag addr ADIV5_APnDP && negb (fault D =? 0) = false ->
  RnW = ADIV5_LOW_WRITE \/ RnW = ADIV5_LOW_READ -> v_acks (view (env s)) = a :: acks ->
  0 <= a -> a <> SWDP_ACK_OK -> a <> SWDP_ACK_WAIT -> (0 < polls)%nat ->
  exists s', platform_low_access access polls dp RnW addr value s =
      (if a =? SWDP_ACK_FAULT then Ok 0 s' else Raise EXCEPTION_ERROR (str "SWDP invalid ACK") s') /\
    consistent s' /\ port s' = port s /\ v_acks (view (env s')) = acks /\
    dps s' = (if a =? SWDP_ACK_FAULT then <[dp := set_fault 1 D]> (dps s) else dps s).
Proof.
  intros Hc HD Hnf Hdir Ha Ha0 Hok Hwt Hp.
  apply (run_access access polls dp D RnW addr value s (fun o => exists s', o =
      (if a =? SWDP_ACK_FAULT then Ok 0 s' else Raise EXCEPTION_ERROR (str "SWDP invalid ACK") s') /\
    consistent s' /\ port s' = port s /\ v_acks (view (env s')) = acks /\
    dps s' = (if a =? SWDP_ACK_FAULT then <[dp := set_fault 1 D]> (dps s) else dps s))); try done.
  { apply access_ready; [|done]. left. by rewrite Ha. }
  intros t w v' s1 Hstep Hpr Hat1.
  inversion Hstep as [| | | | | | | | | | |x rx Hrx| ? ? ? a2 acks2 Hrx Hrun Htr2 Hacks
    |addr2 value2 reg2 r d Hrx Hrun Htr2 Hacks Hdec Hds|addr2 value2 reg2 data parity d Hrx Hrun Htr2 Hacks Hdec Hds Hpar| |]; subst.
  - done.
  - cbn in Hacks. rewrite Ha in Hacks. injection Hacks as <- <-.
    rewrite Z.shiftr_shiftl_l, Z.sub_diag, Z.shiftl_0_r by lia. split; [done|]. unfold after_ack.
    rewrite (proj2 (Z.eqb_neq _ _) Hok). cbn [negb].
    assert (Hfin : forall v2 s2, at_ t (dps s) v2 s2 -> v_loaded v2 = Some (access_program RnW) -> consistent s2).
    { intros v2 s2 (Ht2 & _ & Hw2 & Hv2) Hl. split; [done|]. intros _. by rewrite Hv2, Ht2, Hpr. }
    destruct (Z.eqb_spec a SWDP_ACK_FAULT) as [Ef|Ef].
    + eapply run_quiet; [done|reflexivity|]. intros s2 Hat2.
      exists (set_dps (<[dp := set_fault 1 D]> (dps s2)) s2).
      assert (Hd2 : dps s2 = dps s) by apply Hat2. split.
      { unfold fault_return, set_dp_fault. rewrite bind_bind. eapply run_load_dp; [by rewrite Hd2|]. done. }
      split; [eapply (Hfin _ s2); [done|reflexivity]|]. destruct Hat2 as (_ & _ & _ & Hv2). cbn. by rewrite Hv2, Hd2.
    + exists s1. split; [done|]. split; [eapply Hfin; [done|reflexivity]|]. by destruct Hat1 as (_ & -> & _ & ->).
  - cbn in Hacks. congruence.
  - cbn in Hacks. congruence.
Qed.
End Runs.

(** ** The port of the specification *)
Section Refinement.
Context {E : Type} `{SwdPioSpec E sel}.
Variables depth polls : nat.
Variable dp : positive.

(** A port in order: no fault pending, and the target answers OK. *)
Definition swd_wf (s : swd_state E) : Prop :=
  consistent s /\ v_acks (view (env s)) = [] /\
  exists D, dps s !! dp = Some D /\ fault D = 0 /\ low_access D = PlatformAccess.

Lemma swd_run s RnW addr value reg :
  swd_wf s -> is_u32 value -> decode sel (d_select (v_port (view (env s)))) RnW addr = Some reg ->
  dap_access_ok (v_port (view (env s))) RnW reg ->
  exists r s', swd_low_access (S depth) (S polls) dp RnW addr value s = Ok r s' /\ swd_wf s' /\
    dap_step (v_port (view (env s))) RnW reg value r (v_port (view (env s'))).
Proof.
  intros (Hc & Ha & D & HD & Hf & Hl) Hv Hd Hok. cbn [swd_low_access].
  destruct (platform_access_ok (swd_low_access depth (S polls)) (S polls) dp D RnW addr value reg s) as
    (r & s' & Hr & Hc' & Hdp & Ha' & Hst); try done; [lia|].
  exists r, s'. split; [|split; [|done]].
  - eapply run_load_dp; [done|]. by rewrite Hl.
  - split; [done|]. split; [done|]. exists D. by rewrite Hdp.
Qed.

Lemma swd_law s RnW addr value reg :
  swd_wf s -> is_u32 value -> decode sel (d_select (v_port (view (env s)))) RnW addr = Some reg ->
  dap_access_ok (v_port (view (env s))) RnW reg ->
  exists r s', @dp_low_access _ (swd_dp (S depth) (S polls)) dp RnW addr value s = Ok r s' /\ swd_wf s' /\
    dap_step (v_port (view (env s))) RnW reg value r (v_port (view (env s'))).
Proof. intros Hwf Hv Hd Hok. by apply swd_run. Qed.
#[export] Instance swd_dap : @DapSpec (swd_state E) (swd_dp (S depth) (S polls)) dp sel :=
  @Build_DapSpec _ (swd_dp (S depth) (S polls)) dp sel swd_wf (fun s => v_port (view (env s))) sel_byte swd_law.

(** C5: Memory over SWD, end to end: a read of any bytes by way of the access
    port, the SWD packets and the state machines delivers exactly the target's
    memory. *)
Theorem swd_mem_read_correct ap dest src len s :
  ap_dp ap = dp /\ apsel ap = sel -> is_u32 (csw ap) /\ Z.land (csw ap) 0x37 = 0 ->
  swd_wf s -> 0 <= src -> 0 <= len < 2 ^ 32 -> src + len <= 2 ^ 32 -> len <= zlen dest ->
  exists s', @firmware_mem_read _ (swd_dp (S depth) (S polls)) ap dest src len s =
      Ok (splice dest 0 (mem_bytes (d_mem (v_port (view (env s)))) src len)) s' /\ swd_wf s'.
Proof.
  intros Hap Hcsw Hwf Hs Hl Hsl Hd.
  destruct (mem_read_ok (H0 := swd_dap) ap Hap Hcsw dest src len s Hwf Hs) as (s' & Hr & Hwf' & _); try done; try lia.
  by exists s'.
Qed.

(** A FAULT answer ends the access with 0, marks the port and touches
    nothing else; until the mark is cleared every access port access returns 0
    without a bit on the wire. *)
Theorem swd_fault_sticks s D RnW addr value acks addr2 RnW2 value2 :
  consistent s -> dps s !! dp = Some D -> low_access D = PlatformAccess -> fault D = 0 ->
  RnW = ADIV5_LOW_WRITE \/ RnW = ADIV5_LOW_READ -> v_acks (view (env s)) = SWDP_ACK_FAULT :: acks ->
  flag addr2 ADIV5_APnDP = true ->
  exists s', swd_low_access (S depth) (S polls) dp RnW addr value s = Ok 0 s' /\
    dps s' = <[dp := set_fault 1 D]> (dps s) /\ v_port (view (env s')) = v_port (view (env s)) /\
    swd_low_access (S depth) (S polls) dp RnW2 addr2 value2 s' = Ok 0 s'.
Proof.
  intros Hc HD Hl Hf Hdir Ha Hap.
  destruct (platform_access_nack (swd_low_access depth (S polls)) (S polls) dp D RnW addr value SWDP_ACK_FAULT acks s)
    as (s' & Hr & Hc' & Hport & Hacks & Hdps); try done; [by rewrite Hf, andb_false_r|lia|].
  exists s'. split_and!; try done.
  - cbn [swd_low_access]. eapply run_load_dp; [done|]. by rewrite Hl.
  - assert (HD' : dps s' !! dp = Some (set_fault 1 D)) by (rewrite Hdps; apply lookup_insert_eq).
    cbn [swd_low_access]. eapply run_load_dp; [done|]. cbn [low_access set_fault]. rewrite Hl.
    unfold platform_low_access, bind at 1, get. eapply run_load_dp; [done|]. by rewrite Hap.
Qed.

(** An acknowledgement that is none of OK, WAIT and FAULT raises an
    exception; the port is not marked. *)
Theorem swd_bad_ack_raises s D RnW addr value a acks :
  consistent s -> dps s !! dp = Some D -> low_access D = PlatformAccess -> fault D = 0 ->
  RnW = ADIV5_LOW_WRITE \/ RnW = ADIV5_LOW_READ -> v_acks (view (env s)) = a :: acks ->
  0 <= a -> a <> SWDP_ACK_OK -> a <> SWDP_ACK_WAIT -> a <> SWDP_ACK_FAULT ->
  exists s', swd_low_access (S depth) (S polls) dp RnW addr value s =
      Raise EXCEPTION_ERROR (str "SWDP invalid ACK") s' /\ dps s' = dps s.
Proof.
  intros Hc HD Hl Hf Hdir Ha Ha0 Hok Hwt Hfl.
  destruct (platform_access_nack (swd_low_access depth (S polls)) (S polls) dp D RnW addr value a acks s)
    as (s' & Hr & Hc' & Hport & Hacks & Hdps); try done; [by rewrite Hf, andb_false_r|lia|].
  exists s'. rewrite (proj2 (Z.eqb_neq _ _) Hfl) in *. split; [|done].
  cbn [swd_low_access]. eapply run_load_dp; [done|]. by rewrite Hl.
Qed.
End Refinement.

(** ** A probe with a simulated target *)
Module SwdSim.
Definition run_call (c : pio_call) (v : pio_view) : outcome pio_view Z :=
  match quiet_view c v with
  | Some v' => Ok 0 v'
  | None =>
      match v_rx v with
      | x :: rx => Ok x (set_fifos (v_tx v) rx v)
      | [] =>
          match v_running v, transaction v with
          | true, Some (RnW, addr, value) =>
              match v_acks v with
              | a :: acks => Ok (Z.shiftl a 29) (set_wire acks (v_port v) v)
              | [] =>
                  let '(r, d) := DapSim.access RnW addr value (v_port v) in
                  let v' := set_wire [] d v in
                  Ok (Z.shiftl SWDP_ACK_OK 29)
                    (if RnW =? ADIV5_LOW_WRITE then v' else set_fifos [] [r; Z.land (popcount r) 1] v')
              end
          | _, _ => Hang
          end
      end
  end.
#[export] Instance sim_pio : PioIf pio_view := { pio := run_call }.
#[export] Instance sim_clock : ClockIf pio_view := { platform_time_ms := ret 0; platform_delay _ := ret tt }.

Definition port0 : dap := {| d_select := 0; d_csw := 0; d_tar := 0; d_posted := 0; d_mem := fun a => u8 (a / 3) |}.
Definition start_env (acks : list Z) : pio_view :=
  {| v_loaded := None; v_running := false; v_tx := []; v_rx := []; v_acks := acks; v_port := port0 |}.
Definition dp0 : ADIv5_DP :=
  {| dp_refcnt := 1; dp_idcode := 0x2ba01477; dp_targetid := 0; dp_low_write := Some PlatformAccess;
     low_access := PlatformAccess; fault := 0 |}.
Definition start (acks : list Z) : swd_state pio_view :=
  {| tip := {| current_program := PIO_PROGRAM_NOT_SET; clkdiv := 0; update_clkdiv := true;
               tms_direction := TARGET_INTERFACE_TMS_DIR_NOT_INITIALIZED |};
     dps := {[ 1%positive := dp0 ]}; env := start_env acks |}.
Definition wf (v : pio_view) : Prop := DapSim.wf (v_port v).

Lemma sim_law v c : wf v -> pio_ready 0 v c ->
  exists r v', pio c v = Ok r v' /\ wf v' /\ pio_step 0 v c r v'.
Proof.
  intros Hwf Hready. cbn [pio sim_pio]. unfold run_call.
  destruct (quiet_view c v) as [v'|] eqn:Hq.
  { exists 0, v'. split; [done|]. destruct c; cbn in Hq; try discriminate Hq; injection Hq as <-; (split; [done|constructor]). }
  destruct c; try discriminate Hq. destruct (v_rx v) as [|x rx] eqn:Hrx.
  2: { exists x. eexists. split; [done|]. split; [done|]. by constructor. }
  destruct Hready as [|(Hrun & RnW & addr & value & Ht & Hr)]; [done|]. rewrite Hrun, Ht.
  destruct (v_acks v) as [|a acks] eqn:Ha.
  2: { eexists _, _. split; [done|]. split; [done|]. by eapply ps_answer. }
  destruct Hr as [|(Hu & reg & Hd & Hok)]; [done|].
  destruct (DapSim.sim_step 1 (v_port v) RnW addr value reg Hwf Hu Hd Hok) as (r & d & Hr & Hw & Hs).
  assert (Hacc : DapSim.access RnW addr value (v_port v) = (r, d)).
  { unfold dp_low_access, DapSim.sim_if in Hr. destruct (DapSim.access RnW addr value (v_port v)). congruence. }
  rewrite Hacc.
  eexists _, _. split; [done|]. destruct (access_dir _ _ _ Hok) as [-> | ->]; cbn [ADIV5_LOW_WRITE ADIV5_LOW_READ Z.eqb].
  - split; [done|]. by eapply ps_write.
  - split; [done|]. by eapply ps_read.
Qed.
Lemma sim_clock_law (e : pio_view) : wf e -> exists t e', platform_time_ms e = Ok t e' /\ wf e' /\ e' = e.
Proof. intros Hwf. by exists 0, e. Qed.
#[export] Instance sim_spec : SwdPioSpec pio_view 0 :=
  {| pio_wf := wf; view := fun v => v; sel_byte := DapSim.zero_byte; pio_law := sim_law; clock_law := sim_clock_law |}.

Lemma start_consistent acks : consistent (start acks).
Proof. split; [|by intros []]. split; [done|]. intros a. apply u8_range. Qed.
Lemma swd_start_wf : swd_wf 1 (start []).
Proof. split; [apply start_consistent|]. split; [done|]. by exists dp0. Qed.
End SwdSim.
Import SwdSim.


Lemma swd_mem_read_correct_witness : exists s',
  @firmware_mem_read _ (swd_dp 1 1) Adiv5Sim.ap0 (memset 6 0) 0x200003fe 6 (start []) =
    Ok (mem_bytes (d_mem port0) 0x200003fe 6) s'.
Proof.
  destruct (@swd_mem_read_correct pio_view _ _ 0 sim_spec 0 0 1 Adiv5Sim.ap0 (memset 6 0) 0x200003fe 6 (start [])
    Adiv5Sim.ap0_is Adiv5Sim.ap0_csw swd_start_wf) as (s' & Hr & _); [done|done|done|done|]. exists s'. exact Hr.
Defined.

Lemma swd_fault_sticks_witness : exists s',
  swd_low_access 1 1 1 ADIV5_LOW_READ ADIV5_AP_DRW 0 (start [SWDP_ACK_FAULT]) = Ok 0 s' /\
  swd_low_access 1 1 1 ADIV5_LOW_READ ADIV5_AP_DRW 0 s' = Ok 0 s'.
Proof.
  destruct (@swd_fault_sticks pio_view _ _ 0 sim_spec 0 0 1 (start [SWDP_ACK_FAULT]) dp0 ADIV5_LOW_READ ADIV5_AP_DRW 0 []
    ADIV5_AP_DRW ADIV5_LOW_READ 0 (start_consistent _)) as (s' & Hr & _ & _ & Hr2); [done|done|done|by right|done|done|].
  exists s'. split; [exact Hr|exact Hr2].
Defined.

Lemma swd_bad_ack_raises_witness : exists s',
  swd_low_access 1 1 1 ADIV5_LOW_READ ADIV5_AP_DRW 0 (start [7]) = Raise EXCEPTION_ERROR (str "SWDP invalid ACK") s'.
Proof.
  destruct (@swd_bad_ack_raises pio_view _ _ 0 sim_spec 0 0 1 (start [7]) dp0 ADIV5_LOW_READ ADIV5_AP_DRW 0 7 []
    (start_consistent _)) as (s' & Hr & _); [done|done|done|by right|done|done|done|done|done|].
  exists s'. exact Hr.
Defined.
