(* ===== verification/Jtag.v ===== *)
(** JTAG: the chain scan and register shifts of jtag_scan.c, the test access
    port set-up of jtagtap.c and the JTAG debug port of adiv5_jtagdp.c, over
    the wire functions the method pointers of [jtag_proc_t] lead to
    ([TapIf]). *)

From Stdlib Require Import ZArith Lia String.
From stdpp Require Import base list numbers option gmap.
From S2P Require Import Prelude CLib Platform Exception Dap.

(** ** jtag_dev.h, jtagtap.h *)
Definition JTAG_MAX_DEVS : Z := 32.

(** [struct jtag_dev_s]; [jd_dev] and [dr_prescan] are one field. *)
Record jtag_dev := {
  jd_dev : Z;
  dr_postscan : Z;
  ir_len : Z;
  ir_prescan : Z;
  ir_postscan : Z;
  jd_idcode : Z;
  jd_descr : option (list Z);
  current_ir : Z;
}.
Definition blank_dev : jtag_dev :=
  {| jd_dev := 0; dr_postscan := 0; ir_len := 0; ir_prescan := 0; ir_postscan := 0; jd_idcode := 0;
     jd_descr := None; current_ir := 0 |}.
(** -1, as the [uint32_t] it is stored in. *)
Definition no_ir : Z := 4294967295.

(** The wire: the four functions of the interface.  Buffers are the bytes that
    hold the bits, bit 0 of the first byte first. *)
Class TapIf (W : Type) := {
  jtagtap_next : bool -> bool -> M W bool;                       (* TMS, TDI *)
  jtagtap_tms_seq : Z -> Z -> M W unit;                          (* MS, ticks *)
  jtagtap_tdi_tdo_seq : bool -> list Z -> Z -> M W (list Z);     (* final_tms, DI, ticks: DO *)
  jtagtap_tdi_seq : bool -> list Z -> Z -> M W unit;
}.

(** [jtag_proc_t]: its devices ([jtag_devs], 33 of them) and how many count. *)
Record jtag_state (W : Type) := { jtag_devs : list jtag_dev; jtag_dev_count : Z; wire : W }.
Arguments Build_jtag_state {W}. Arguments jtag_devs {W}. Arguments jtag_dev_count {W}. Arguments wire {W}.

Section Jtag.
Context {W : Type} `{TapIf W} `{ClockIf W}.
Notation MJ := (M (jtag_state W)).
Implicit Types s : jtag_state W.

Definition set_devs l s : jtag_state W := {| jtag_devs := l; jtag_dev_count := jtag_dev_count s; wire := wire s |}.
Definition set_count n s : jtag_state W := {| jtag_devs := jtag_devs s; jtag_dev_count := n; wire := wire s |}.
Definition on_wire {A} (m : M W A) : MJ A := fun s =>
  match m (wire s) with
  | Ok a w => Ok a {| jtag_devs := jtag_devs s; jtag_dev_count := jtag_dev_count s; wire := w |}
  | Raise ty msg w => Raise ty msg {| jtag_devs := jtag_devs s; jtag_dev_count := jtag_dev_count s; wire := w |}
  | Fault why w => Fault why {| jtag_devs := jtag_devs s; jtag_dev_count := jtag_dev_count s; wire := w |}
  | Hang => Hang
  end.
Definition load_dev (i : Z) : MJ jtag_dev :=
  let! s := get in
  if i <? 0 then crash OutOfBounds else
  match jtag_devs s !! Z.to_nat i with Some d => ret d | None => crash OutOfBounds end.
Definition upd_dev (i : Z) (f : jtag_dev -> jtag_dev) : MJ unit :=
  let! d := load_dev i in
  modify (fun s => set_devs (<[Z.to_nat i := f d]> (jtag_devs s)) s).
Definition set_current_ir (ir : Z) (d : jtag_dev) : jtag_dev :=
  {| jd_dev := jd_dev d; dr_postscan := dr_postscan d; ir_len := ir_len d; ir_prescan := ir_prescan d;
     ir_postscan := ir_postscan d; jd_idcode := jd_idcode d; jd_descr := jd_descr d; current_ir := ir |}.
Definition set_ir_postscan (n : Z) (d : jtag_dev) : jtag_dev :=
  {| jd_dev := jd_dev d; dr_postscan := dr_postscan d; ir_len := ir_len d; ir_prescan := ir_prescan d;
     ir_postscan := n; jd_idcode := jd_idcode d; jd_descr := jd_descr d; current_ir := current_ir d |}.
Definition set_descr (s : list Z) (d : jtag_dev) : jtag_dev :=
  {| jd_dev := jd_dev d; dr_postscan := dr_postscan d; ir_len := ir_len d; ir_prescan := ir_prescan d;
     ir_postscan := ir_postscan d; jd_idcode := jd_idcode d; jd_descr := Some s; current_ir := current_ir d |}.

(** The bytes that hold [ticks] bits. *)
Definition nbytes (ticks : Z) : Z := (ticks + 7) / 8.

Definition tms_seq (MS ticks : Z) : MJ unit := on_wire (jtagtap_tms_seq MS ticks).
Definition tdi_seq (final_tms : bool) (DI : list Z) (ticks : Z) : MJ unit :=
  let! b := load_n DI 0 (nbytes ticks) in on_wire (jtagtap_tdi_seq final_tms b ticks).
Definition tdi_tdo_seq (final_tms : bool) (DI : list Z) (ticks : Z) : MJ (list Z) :=
  let! b := load_n DI 0 (nbytes ticks) in on_wire (jtagtap_tdi_tdo_seq final_tms b ticks).

(** The macros of jtagtap.h. *)
Definition jtagtap_soft_reset : MJ unit := tms_seq 0x1F 6.
Definition jtagtap_shift_ir : MJ unit := tms_seq 0x03 4.
Definition jtagtap_shift_dr : MJ unit := tms_seq 0x01 3.
Definition jtagtap_return_idle : MJ unit := tms_seq 0x01 2.

(** ** jtagtap.c *)
Definition jtagtap_reset : MJ unit := jtagtap_soft_reset.
Definition jtagtap_init : MJ unit :=
  do! for_each (seqZ 0 51) (fun _ => do! on_wire (jtagtap_next true false) in ret tt) in
  do! tms_seq 0xE73C 16 in
  jtagtap_soft_reset.

(** ** jtag_scan.c *)
Definition ones : list Z := [0xff; 0xff; 0xff; 0xff].

Definition jtag_dev_write_ir (jd_index ir : Z) : MJ unit :=
  let! d := load_dev jd_index in
  if ir =? current_ir d then ret tt else
  let! s := get in
  do! for_each (seqZ 0 (jtag_dev_count s)) (fun i => upd_dev i (set_current_ir no_ir)) in
  do! upd_dev jd_index (set_current_ir ir) in
  do! jtagtap_shift_ir in
  do! tdi_seq false ones (ir_prescan d) in
  do! tdi_seq (ir_postscan d =? 0) (le_bytes 4 ir) (ir_len d) in
  do! tdi_seq true ones (ir_postscan d) in
  jtagtap_return_idle.

(** [dout]: whether the caller wants the bits captured. *)
Definition jtag_dev_shift_dr (jd_index : Z) (dout : bool) (din : list Z) (ticks : Z) : MJ (list Z) :=
  let! d := load_dev jd_index in
  do! jtagtap_shift_dr in
  do! tdi_seq false ones (jd_dev d) in
  let! out := (if dout then tdi_tdo_seq (dr_postscan d =? 0) din ticks
               else do! tdi_seq (dr_postscan d =? 0) din ticks in ret []) in
  do! tdi_seq true ones (dr_postscan d) in
  do! jtagtap_return_idle in
  ret out.

(** *** The scan *)
Definition AP_DESIGNER_STM : Z := 0x020.
Definition AP_DESIGNER_ATMEL : Z := 0x01f.
Definition DESIGNER_XILINX : Z := 0x049.
Definition AP_DESIGNER_ARM : Z := 0x43b.
Definition DESIGNER_XAMBALA : Z := 0x61e.
Definition AP_DESIGNER_GIGADEVICE : Z := 0x751.

(** What an IDCODE says of a device: handled by adiv5_jtag_dp_handler?, the IR
    length expected, the description.  [None]: XILINX without [irlens]. *)
Definition classify (designer product : Z) (irlens : bool) : option (bool * Z * option (list Z)) :=
  if designer =? AP_DESIGNER_ARM then
    if product =? 0xba0 then Some (true, 4, Some (str "ADIv5 JTAG-DP port"))
    else Some (false, 0, Some (str "ARM"))
  else if designer =? AP_DESIGNER_STM then Some (false, 5, Some (str "STM32 BSD"))
  else if designer =? AP_DESIGNER_ATMEL then
    if (0x940 <=? product) && (product <? 0x990) then Some (false, 4, Some (str "ATMEL AVR8"))
    else Some (false, 0, Some (str "ATMEL"))
  else if designer =? DESIGNER_XILINX then
    if irlens then Some (false, 0, Some (str "XILINX")) else None
  else if designer =? DESIGNER_XAMBALA then Some (false, 5, Some (str "RVDBG013"))
  else if designer =? AP_DESIGNER_GIGADEVICE then Some (false, 5, Some (str "GIGADEVICE BSD"))
  else Some (false, 0, None).

(** The IR length guessed from the bits captured: up to the next 1. *)
Definition guess_body (ir_chain : list Z) (st : Z * Z) : MJ (Z * Z + Z) :=
  let '(guessed_irlen, advance) := st in
  let! b := load ir_chain (advance / 8) in
  let bit := Z.testbit b (Z.land advance 7) in
  let guessed_irlen := guessed_irlen + 1 in
  let advance := advance + 1 in
  ret (if negb bit && (advance <? JTAG_MAX_DEVS * 16) then inl (guessed_irlen, advance) else inr guessed_irlen).

(** Device [i]: [irbit], [j], what is left of [irlens] and the handlers so far;
    [None] when the scan gives up. *)
Definition scan_device (ir_chain : list Z) (num_devices i : Z) (st : Z * Z * option (list Z) * list bool)
    : MJ (option (Z * Z * option (list Z) * list bool)) :=
  let '(irbit, j, irlens, handlers) := st in
  let! id := tdi_tdo_seq false ones 32 in
  if negb (Z.testbit (zget id 0) 0) then ret None else
  let idcode := u32 (Z.lor (Z.lor (Z.lor (Z.shiftl (zget id 3) 24) (Z.shiftl (zget id 2) 16)) (Z.shiftl (zget id 1) 8)) (zget id 0)) in
  let designer := Z.lor (Z.shiftl (Z.land (zget id 1) 0xf) 8) (Z.shiftr (zget id 0) 1) in
  let product := Z.lor (zget id 2) (Z.shiftl (Z.land (zget id 3) 0xf) 8) in
  match classify designer product (match irlens with Some _ => true | None => false end) with
  | None => ret None
  | Some (handled, expected_irlen, descr) =>
      do! match descr with Some s => upd_dev i (set_descr s) | None => ret tt end in
      let! d := load_dev i in
      do! match jd_descr d with None => upd_dev i (set_descr (str "Unknown")) | Some _ => ret tt end in
      let! guessed_irlen := iter 512 (guess_body ir_chain) (0, irbit) in
      let! (expected_irlen, irlens) :=
        match irlens with
        | Some (l :: rest) => ret (l, Some rest)
        | Some [] => crash OutOfBounds
        | None => ret (expected_irlen, None)
        end in
      let expected_irlen := if expected_irlen =? 0 then guessed_irlen else expected_irlen in
      let! s := get in
      do! upd_dev i (fun d =>
        {| jd_dev := u8 i; dr_postscan := u8 (jtag_dev_count s - i - 1); ir_len := u8 expected_irlen;
           ir_prescan := u8 j; ir_postscan := ir_postscan d; jd_idcode := idcode; jd_descr := jd_descr d;
           current_ir := no_ir |}) in
      ret (Some (irbit + expected_irlen, j + expected_irlen, irlens, handlers ++ [handled]))
  end.

(** The devices from [i] on. *)
Fixpoint scan_devices (ir_chain : list Z) (num_devices : Z) (n : nat) (i : Z) (st : Z * Z * option (list Z) * list bool)
    : MJ (option (list bool)) :=
  match n with
  | O => let '(_, _, _, handlers) := st in ret (Some handlers)
  | S n =>
      let! r := scan_device ir_chain num_devices i st in
      match r with
      | Some st => scan_devices ir_chain num_devices n (i + 1) st
      | None => ret None
      end
  end.

(** [jtagtap_next] until a 1 comes out: [i] runs from -1 up. *)
Definition count_body (st : Z * Z) : MJ (Z * Z + Z) :=
  let '(i, num_devices) := st in
  let! out := on_wire (jtagtap_next false true) in
  ret (if negb out && (i <? 6) then inl (i + 1, num_devices + 1) else inr num_devices).

Definition LOOPS : Z := 16.
Definition ir_loop : MJ (list Z) :=
  let step (acc : MJ (list Z)) (i : Z) : MJ (list Z) :=
    let! l := acc in
    let! o := tdi_tdo_seq (i =? 0) ones 32 in ret (l ++ o) in
  fold_left step (rev (seqZ 0 LOOPS)) (ret []).

(** The [ir_postscan] fields, from the last device down. *)
Definition fill_postscan (count : Z) : MJ unit :=
  for_each (rev (seqZ 1 (count - 1))) (fun i =>
    let! d := load_dev i in
    upd_dev (i - 1) (set_ir_postscan (u8 (ir_postscan d + ir_len d)))).

(** The scan is given [target_list_free] on its controller's list and
    [adiv5_jtag_dp_handler], which goes on to adiv5_dp_init. *)
Variable target_list_free : MJ unit.
Variable adiv5_jtag_dp_handler : jtag_dev -> MJ unit.

Definition jtag_scan (irlens : option (list Z)) : MJ Z :=
  do! target_list_free in
  do! jtagtap_init in
  do! jtagtap_reset in
  do! jtagtap_shift_ir in
  let! ir_chain := ir_loop in
  if negb (Z.testbit (zget ir_chain 0) 0) then ret 0 else
  do! jtagtap_return_idle in
  do! jtagtap_shift_dr in
  do! for_each (seqZ 0 LOOPS) (fun _ => tdi_seq false [0; 0; 0; 0] 32) in
  let! num_devices := iter 9 count_body (-1, 0) in
  do! jtagtap_reset in
  do! jtagtap_shift_dr in
  do! modify (set_count num_devices) in
  if num_devices =? 0 then ret 0 else
  let! r := scan_devices ir_chain num_devices (Z.to_nat num_devices) 0 (1, 0, irlens, []) in
  match r with
  | None => ret 0
  | Some handlers =>
      do! jtagtap_reset in
      do! fill_postscan num_devices in
      do! for_each (zip (seqZ 0 num_devices) handlers) (fun '(i, handled) =>
        if handled : bool then let! d := load_dev i in adiv5_jtag_dp_handler d else ret tt) in
      let! s := get in ret (jtag_dev_count s)
  end.
End Jtag.

(** ** adiv5_jtagdp.c *)
Definition JTAGDP_ACK_OK : Z := 0x02.
Definition JTAGDP_ACK_WAIT : Z := 0x01.
Definition IR_ABORT : Z := 0x8.
Definition IR_DPACC : Z := 0xA.
Definition IR_APACC : Z := 0xB.

(** The fields of [ADIv5_DP_t] a JTAG port uses. *)
Record jtag_dp := { dp_jd_index : Z; dp_fault : Z }.
Record jdp_state (W : Type) := { chain : jtag_state W; jdps : gmap positive jtag_dp }.
Arguments Build_jdp_state {W}. Arguments chain {W}. Arguments jdps {W}.

Section JtagDp.
Context {W : Type} `{TapIf W} `{ClockIf W}.
Notation MD := (M (jdp_state W)).

Definition on_chain {A} (m : M (jtag_state W) A) : MD A := fun s =>
  match m (chain s) with
  | Ok a c => Ok a {| chain := c; jdps := jdps s |}
  | Raise ty msg c => Raise ty msg {| chain := c; jdps := jdps s |}
  | Fault why c => Fault why {| chain := c; jdps := jdps s |}
  | Hang => Hang
  end.
Definition load_jdp (dp : positive) : MD jtag_dp :=
  let! s := get in match jdps s !! dp with Some d => ret d | None => crash OutOfBounds end.
Definition set_jdp_fault (dp : positive) : MD unit :=
  let! d := load_jdp dp in
  modify (fun s => {| chain := chain s; jdps := <[dp := {| dp_jd_index := dp_jd_index d; dp_fault := 1 |}]> (jdps s) |}).

Definition adiv5_jtagdp_abort (dp : positive) (abort : Z) : MD unit :=
  let! d := load_jdp dp in
  let request := u64 (Z.shiftl abort 3) in
  do! on_chain (jtag_dev_write_ir (dp_jd_index d) IR_ABORT) in
  do! on_chain (jtag_dev_shift_dr (dp_jd_index d) false (le_bytes 8 request) 35) in
  ret tt.

(** The 35 bits of an access: value, A[3:2], RnW. *)
Definition dpacc_request (RnW addr value : Z) : Z :=
  let addr := Z.land addr 0xff in
  u64 (Z.lor (Z.lor (Z.shiftl value 3) (Z.land (Z.shiftr addr 1) 0x06)) (if RnW =? 0 then 0 else 1)).

(** One exchange: the acknowledgement and the data captured. *)
Definition dpacc_round (d : jtag_dp) (request timeout : Z) (_ : unit) : MD (unit + Z) :=
  let! out := on_chain (jtag_dev_shift_dr (dp_jd_index d) true (le_bytes 8 request) 35) in
  let response := le_val out in
  let ack := Z.land response 7 in
  let! expired := on_chain (on_wire (platform_timeout_is_expired timeout)) in
  ret (if negb expired && (ack =? JTAGDP_ACK_WAIT) then inl tt else inr response).

Variable polls : nat.
Definition fw_adiv5_jtagdp_low_access (dp : positive) (RnW addr value : Z) : MD Z :=
  let APnDP := flag addr ADIV5_APnDP in
  let request := dpacc_request RnW addr value in
  let! d := load_jdp dp in
  do! on_chain (jtag_dev_write_ir (dp_jd_index d) (if APnDP then IR_APACC else IR_DPACC)) in
  let! timeout := on_chain (on_wire (platform_timeout_set 20)) in
  let! response := iter polls (dpacc_round d request timeout) tt in
  let ack := Z.land response 7 in
  if ack =? JTAGDP_ACK_WAIT then
    do! adiv5_jtagdp_abort dp 1 in
    do! set_jdp_fault dp in
    ret 0
  else if negb (ack =? JTAGDP_ACK_OK) then raise EXCEPTION_ERROR (str "JTAG-DP invalid ACK")
  else ret (u32 (Z.shiftr response 3)).

Definition fw_adiv5_jtagdp_read (dp : positive) (addr : Z) : MD Z :=
  do! fw_adiv5_jtagdp_low_access dp ADIV5_LOW_READ addr 0 in
  fw_adiv5_jtagdp_low_access dp ADIV5_LOW_READ ADIV5_DP_RDBUFF 0.
Definition adiv5_jtagdp_error (dp : positive) : MD Z :=
  do! fw_adiv5_jtagdp_low_access dp ADIV5_LOW_READ ADIV5_DP_CTRLSTAT 0 in
  let! r := fw_adiv5_jtagdp_low_access dp ADIV5_LOW_WRITE ADIV5_DP_CTRLSTAT 0xF0000032 in
  ret (Z.land r 0x32).
End JtagDp.

(** A JTAG debug port is a debug port for adiv5.c. *)
#[export] Instance jtag_dp_if {W} `{TapIf W} `{ClockIf W} (polls : nat) : DpIf (jdp_state W) | 100 := {
  dp_low_access := fw_adiv5_jtagdp_low_access polls;
  dp_read := fw_adiv5_jtagdp_read polls;
}.
