(* ===== verification/JtagProps.v ===== *)
(** The register shifts of jtag_scan.c on a chain of IEEE 1149.1 test access
    ports: which instruction ends up in which device, and what a data shift
    reads and writes. *)

From Stdlib Require Import ZArith Lia ZifyBool String.
From stdpp Require Import base list numbers option gmap.
From S2P Require Import Prelude CLib Platform Dap Jtag.

(** ** The test access port

    The sixteen controller states of the standard. *)
Inductive tap_state : Set :=
| TestLogicReset | RunTestIdle
| SelectDR | CaptureDR | ShiftDR | Exit1DR | PauseDR | Exit2DR | UpdateDR
| SelectIR | CaptureIR | ShiftIR | Exit1IR | PauseIR | Exit2IR | UpdateIR.

Definition next_state (s : tap_state) (tms : bool) : tap_state :=
  match s, tms with
  | TestLogicReset, true => TestLogicReset | TestLogicReset, false => RunTestIdle
  | RunTestIdle, true => SelectDR | RunTestIdle, false => RunTestIdle
  | SelectDR, true => SelectIR | SelectDR, false => CaptureDR
  | CaptureDR, true => Exit1DR | CaptureDR, false => ShiftDR
  | ShiftDR, true => Exit1DR | ShiftDR, false => ShiftDR
  | Exit1DR, true => UpdateDR | Exit1DR, false => PauseDR
  | PauseDR, true => Exit2DR | PauseDR, false => PauseDR
  | Exit2DR, true => UpdateDR | Exit2DR, false => ShiftDR
  | UpdateDR, true => SelectDR | UpdateDR, false => RunTestIdle
  | SelectIR, true => TestLogicReset | SelectIR, false => CaptureIR
  | CaptureIR, true => Exit1IR | CaptureIR, false => ShiftIR
  | ShiftIR, true => Exit1IR | ShiftIR, false => ShiftIR
  | Exit1IR, true => UpdateIR | Exit1IR, false => PauseIR
  | PauseIR, true => Exit2IR | PauseIR, false => PauseIR
  | Exit2IR, true => UpdateIR | Exit2IR, false => ShiftIR
  | UpdateIR, true => SelectDR | UpdateIR, false => RunTestIdle
  end.

(** A chain: [shift] is the path from TDO (its head) to TDI, [segs] how much of
    it each device has, the devices from TDO on; [irs] their instructions,
    least significant bit first; [state] what is behind their data registers. *)
Record tap_chain (D : Type) := {
  tap : tap_state;
  shift : list bool;
  segs : list nat;
  irs : list (list bool);
  state : D;
}.
Arguments Build_tap_chain {D}. Arguments tap {D}. Arguments shift {D}. Arguments segs {D}.
Arguments irs {D}. Arguments state {D}.

(** The data registers of the devices: what device [i] captures and what an
    update does, under its instruction.  An instruction of all ones is BYPASS,
    whose register is one bit. *)
Class Registers (D : Type) := {
  dr_capture : D -> nat -> list bool -> list bool;
  dr_update : D -> nat -> list bool -> list bool -> D;
  ir_capture : D -> nat -> list bool -> list bool;
  ir_reset : D -> nat -> list bool -> list bool;          (* IDCODE, or BYPASS *)
}.
Definition is_bypass (ir : list bool) : bool := forallb (fun b => b) ir.

Fixpoint split_at (ns : list nat) (l : list bool) : list (list bool) :=
  match ns with
  | [] => []
  | n :: ns' => take n l :: split_at ns' (drop n l)
  end.

Section Chain.
Context {D : Type} `{Registers D}.
Implicit Types c : tap_chain D.

Definition capture_dr c : list (list bool) :=
  imap (fun i ir => if is_bypass ir then [false] else dr_capture (state c) i ir) (irs c).
(** An instruction register captures as many bits as it has. *)
Definition capture_ir c : list (list bool) :=
  imap (fun i ir => take (length ir) (ir_capture (state c) i ir ++ replicate (length ir) false)) (irs c).
Fixpoint update_dr (d : D) (i : nat) (rs vs : list (list bool)) : D :=
  match rs, vs with
  | ir :: rs', v :: vs' => update_dr (if is_bypass ir then d else dr_update d i ir v) (S i) rs' vs'
  | _, _ => d
  end.

(** What the clock does in a state, then the move to the next one; TDO. *)
Definition clock_in c (tdi : bool) : bool * tap_chain D :=
  match tap c with
  | CaptureDR => (false, {| tap := tap c; shift := concat (capture_dr c); segs := length <$> capture_dr c;
                            irs := irs c; state := state c |})
  | CaptureIR => (false, {| tap := tap c; shift := concat (capture_ir c); segs := length <$> capture_ir c;
                            irs := irs c; state := state c |})
  | ShiftDR | ShiftIR =>
      match shift c ++ [tdi] with
      | o :: l => (o, {| tap := tap c; shift := l; segs := segs c; irs := irs c; state := state c |})
      | [] => (tdi, c)
      end
  | _ => (false, c)
  end.
Definition move_to c (t : tap_state) : tap_chain D :=
  match t with
  | UpdateDR => {| tap := t; shift := shift c; segs := segs c; irs := irs c;
                   state := update_dr (state c) 0 (irs c) (split_at (segs c) (shift c)) |}
  | UpdateIR => {| tap := t; shift := shift c; segs := segs c; irs := split_at (segs c) (shift c); state := state c |}
  | TestLogicReset => {| tap := t; shift := shift c; segs := segs c;
                         irs := imap (ir_reset (state c)) (irs c); state := state c |}
  | _ => {| tap := t; shift := shift c; segs := segs c; irs := irs c; state := state c |}
  end.
Definition clock c (tms tdi : bool) : bool * tap_chain D :=
  let '(o, c1) := clock_in c tdi in (o, move_to c1 (next_state (tap c) tms)).
Fixpoint clocks (l : list (bool * bool)) c : list bool * tap_chain D :=
  match l with
  | [] => ([], c)
  | (tms, tdi) :: l' => let '(o, c1) := clock c tms tdi in let '(os, c2) := clocks l' c1 in (o :: os, c2)
  end.
End Chain.

(** The [n] low bits of [x], lowest first. *)
Definition zbits (n x : Z) : list bool := Z.testbit x <$> seqZ 0 n.
(** The clocks of a TMS sequence, and of a data sequence whose last TMS is
    [final]. *)
Definition tms_clocks (l : list bool) : list (bool * bool) := (fun b => (b, true)) <$> l.
Fixpoint tdi_clocks (final : bool) (l : list bool) : list (bool * bool) :=
  match l with
  | [] => []
  | [b] => [(final, b)]
  | b :: l' => (false, b) :: tdi_clocks final l'
  end.

(** The wire functions clock a chain. *)
Class TapSpec (W D : Type) `{TapIf W} `{Registers D} := {
  tap_wf : W -> Prop;
  tap_of : W -> tap_chain D;
  tms_law w MS n : tap_wf w -> 0 < n <= 32 ->
    exists w', jtagtap_tms_seq MS n w = Ok tt w' /\ tap_wf w' /\ tap_of w' = snd (clocks (tms_clocks (zbits n MS)) (tap_of w));
  tdi_law w f DI n : tap_wf w -> 0 <= n -> zlen DI = nbytes n -> is_bytes DI ->
    exists w', jtagtap_tdi_seq f DI n w = Ok tt w' /\ tap_wf w' /\
      tap_of w' = snd (clocks (tdi_clocks f (zbits n (le_val DI))) (tap_of w));
  tdi_tdo_law w f DI n : tap_wf w -> 0 <= n -> zlen DI = nbytes n -> is_bytes DI ->
    exists DO w', jtagtap_tdi_tdo_seq f DI n w = Ok DO w' /\ tap_wf w' /\ zlen DO = nbytes n /\ is_bytes DO /\
      (zbits n (le_val DO), tap_of w') = clocks (tdi_clocks f (zbits n (le_val DI))) (tap_of w);
}.

(** ** Shifting *)
Lemma length_zbits n x : length (zbits n x) = Z.to_nat n.
Proof. unfold zbits. by rewrite length_fmap, length_seqZ. Qed.
Lemma split_concat ls : split_at (length <$> ls) (concat ls) = ls.
Proof.
  induction ls as [|l ls IH]; [done|]. cbn [fmap list_fmap split_at concat].
  by rewrite take_app_length, drop_app_length, IH.
Qed.

Section Shifts.
Context {D : Type} `{Registers D}.
Implicit Types c : tap_chain D.

Definition shifting c : Prop := tap c = ShiftDR \/ tap c = ShiftIR.
Definition shifted c (t : tap_state) (l : list bool) : tap_chain D :=
  {| tap := t; shift := l; segs := segs c; irs := irs c; state := state c |}.
Definition exit_of (t : tap_state) : tap_state := match t with ShiftDR => Exit1DR | _ => Exit1IR end.

Lemma clock_shift c tms tdi : shifting c ->
  clock c tms tdi = (nth 0 (shift c ++ [tdi]) false,
    shifted c (if tms then exit_of (tap c) else tap c) (drop 1 (shift c ++ [tdi]))).
Proof.
  intros Hs. unfold clock, clock_in, exit_of, shifted. destruct (shift c) as [|o l]; cbn;
    by destruct Hs as [-> | ->]; destruct tms.
Qed.

(** A data sequence shifts its bits in behind the path and the head of the
    path out. *)
Lemma clocks_shift f l c : shifting c ->
  clocks (tdi_clocks f l) c = (take (length l) (shift c ++ l),
    shifted c (if f && negb (bool_decide (l = [])) then exit_of (tap c) else tap c) (drop (length l) (shift c ++ l))).
Proof.
  revert c. induction l as [|b l IH]; intros c Hs.
  - cbn. rewrite andb_false_r, app_nil_r. by destruct c.
  - destruct l as [|b2 l].
    + cbn [tdi_clocks clocks length]. rewrite clock_shift by done. cbn. rewrite andb_true_r.
      destruct (shift c); cbn; by destruct f.
    + change (tdi_clocks f (b :: b2 :: l)) with ((false, b) :: tdi_clocks f (b2 :: l)). cbn [clocks].
      rewrite clock_shift by done. rewrite IH by done. cbn [shift shifted tap].
      assert (Hn : forall b l, (b :: l : list bool) <> []) by done.
      rewrite !(bool_decide_eq_false_2 (_ :: _ = [])) by done. destruct (shift c) as [|o sh]; cbn; [done|].
      rewrite !drop_0, <- app_assoc. done.
Qed.
End Shifts.

(** ** Bits of the buffers *)
Lemma le_val_take k l : is_bytes l -> le_val (take k l) = le_val l mod 256 ^ Z.of_nat k.
Proof.
  intros Hl. revert k. induction Hl as [|b l Hb Hl IH]; intros k.
  - rewrite take_nil. cbn [le_val]. by rewrite Z.mod_0_l by (apply Z.pow_nonzero; lia).
  - destruct k as [|k]; [by rewrite Z.mod_1_r|]. cbn [take le_val]. rewrite IH. unfold in_width in Hb.
    rewrite Nat2Z.inj_succ, Z.pow_succ_r by lia. change (2 ^ 8) with 256 in Hb.
    rewrite Z.rem_mul_r by (try apply Z.pow_pos_nonneg; lia).
    rewrite (Z.mul_comm 256 (le_val l)), Z.mod_add, Z.div_add, (Z.mod_small b), (Z.div_small b) by lia. done.
Qed.
Lemma zbits_take n k l : is_bytes l -> n <= 8 * k -> 0 <= k -> zbits n (le_val (ztake k l)) = zbits n (le_val l).
Proof.
  intros Hl Hn Hk. unfold zbits. apply list_fmap_ext. intros i x Hx. apply lookup_seqZ in Hx as [-> Hi].
  unfold ztake. rewrite le_val_take, Z2Nat.id by done. change 256 with (2 ^ 8). rewrite <- Z.pow_mul_r by lia.
  apply Z.mod_pow2_bits_low. lia.
Qed.
Lemma nbytes_enough n : 0 <= n -> n <= 8 * nbytes n /\ 0 <= nbytes n.
Proof. intros. unfold nbytes. pose proof (Z.div_mod (n + 7) 8 ltac:(lia)). pose proof (Z.mod_pos_bound (n + 7) 8 ltac:(lia)). lia. Qed.
Lemma nbytes_le n k : n <= 8 * k -> nbytes n <= k.
Proof. intros. unfold nbytes. apply Z.lt_succ_r, Z.div_lt_upper_bound; lia. Qed.

Lemma zbits_ones n : 0 <= n <= 32 -> zbits n (le_val ones) = replicate (Z.to_nat n) true.
Proof.
  intros Hn. unfold zbits. change (le_val ones) with (Z.ones 32). apply list_eq. intros i. rewrite list_lookup_fmap.
  destruct (decide (i < Z.to_nat n)%nat).
  - rewrite lookup_seqZ_lt by lia. cbn [fmap option_fmap option_map]. rewrite Z.ones_spec_low by lia.
    by rewrite lookup_replicate_2 by lia.
  - rewrite lookup_seqZ_ge by lia. symmetry. cbn. apply lookup_ge_None. rewrite length_replicate. lia.
Qed.
Lemma zbits_le_bytes n k x : n <= 8 * Z.of_nat k -> zbits n (le_val (le_bytes k x)) = zbits n x.
Proof.
  intros Hn. unfold zbits. apply list_fmap_ext. intros i y Hy. apply lookup_seqZ in Hy as [-> Hi].
  rewrite le_val_bytes. change 256 with (2 ^ 8). rewrite <- Z.pow_mul_r by lia. apply Z.mod_pow2_bits_low. lia.
Qed.

(** ** Runs *)
Section Ops.
Context {W D : Type} `{TapSpec W D}.
Implicit Types s : jtag_state W.
Implicit Types c : tap_chain D.

Definition at_j dv n c s : Prop :=
  jtag_devs s = dv /\ jtag_dev_count s = n /\ tap_wf (wire s) /\ tap_of (wire s) = c.

Lemma run_tms {A} MS k (f : unit -> M (jtag_state W) A) dv n c s (P : outcome (jtag_state W) A -> Prop) :
  at_j dv n c s -> 0 < k <= 32 ->
  (forall s', at_j dv n (snd (clocks (tms_clocks (zbits k MS)) c)) s' -> P (f tt s')) -> P (bind (tms_seq MS k) f s).
Proof.
  intros (<- & <- & Hwf & <-) Hk HP. destruct (tms_law (wire s) MS k Hwf Hk) as (w & Hw & Hwf' & Hc).
  unfold bind, tms_seq, on_wire. rewrite Hw. apply HP. by split_and!.
Qed.
Lemma load_bits {B} (DI : list Z) k (w : B) : 0 <= k -> nbytes k <= zlen DI ->
  load_n DI 0 (nbytes k) w = Ok (ztake (nbytes k) DI) w /\ zlen (ztake (nbytes k) DI) = nbytes k.
Proof.
  intros Hk Hl. destruct (nbytes_enough k Hk) as [_ Hn]. unfold load_n.
  rewrite !(proj2 (Z.leb_le _ _)) by lia. split; [done|]. apply zlen_ztake. lia.
Qed.
Lemma run_tdi {A} fin DI k (f : unit -> M (jtag_state W) A) dv n c s (P : outcome (jtag_state W) A -> Prop) :
  at_j dv n c s -> is_bytes DI -> 0 <= k -> nbytes k <= zlen DI ->
  (forall s', at_j dv n (snd (clocks (tdi_clocks fin (zbits k (le_val DI))) c)) s' -> P (f tt s')) ->
  P (bind (tdi_seq fin DI k) f s).
Proof.
  intros (<- & <- & Hwf & <-) HDI Hk Hl HP. destruct (load_bits DI k s Hk Hl) as [Hload Hlen].
  destruct (tdi_law (wire s) fin _ k Hwf Hk Hlen (Forall_take _ _ _ HDI)) as (w & Hw & Hwf' & Hc).
  destruct (nbytes_enough k Hk) as [Hn1 Hn2]. rewrite zbits_take in Hc by done.
  unfold bind at 1, tdi_seq. rewrite (bind_Ok _ _ _ _ _ Hload). unfold on_wire. rewrite Hw. apply HP. by split_and!.
Qed.
Lemma run_tdi_tdo {A} fin DI k (f : list Z -> M (jtag_state W) A) dv n c s (P : outcome (jtag_state W) A -> Prop) :
  at_j dv n c s -> is_bytes DI -> 0 <= k -> nbytes k <= zlen DI ->
  (forall DO s', zlen DO = nbytes k -> is_bytes DO ->
     zbits k (le_val DO) = fst (clocks (tdi_clocks fin (zbits k (le_val DI))) c) ->
     at_j dv n (snd (clocks (tdi_clocks fin (zbits k (le_val DI))) c)) s' -> P (f DO s')) ->
  P (bind (tdi_tdo_seq fin DI k) f s).
Proof.
  intros (<- & <- & Hwf & <-) HDI Hk Hl HP. destruct (load_bits DI k s Hk Hl) as [Hload Hlen].
  destruct (tdi_tdo_law (wire s) fin _ k Hwf Hk Hlen (Forall_take _ _ _ HDI)) as (DO & w & Hw & Hwf' & Hd & Hdb & Hc).
  destruct (nbytes_enough k Hk) as [Hn1 Hn2]. rewrite zbits_take in Hc by done.
  unfold bind at 1, tdi_tdo_seq. rewrite (bind_Ok _ _ _ _ _ Hload). unfold on_wire. rewrite Hw.
  apply HP; [done|done|by rewrite <- Hc|]. split_and!; try done. cbn. by rewrite <- Hc.
Qed.
(** The bits of the device, captured or not. *)
Lemma run_dout {A} (dout : bool) fin DI k (f : list Z -> M (jtag_state W) A) dv n c s (P : outcome (jtag_state W) A -> Prop) :
  at_j dv n c s -> is_bytes DI -> 0 <= k -> nbytes k <= zlen DI ->
  (forall DO s', (dout = true -> zbits k (le_val DO) = fst (clocks (tdi_clocks fin (zbits k (le_val DI))) c)) ->
     at_j dv n (snd (clocks (tdi_clocks fin (zbits k (le_val DI))) c)) s' -> P (f DO s')) ->
  P (bind (if dout then tdi_tdo_seq fin DI k else do! tdi_seq fin DI k in ret []) f s).
Proof.
  intros Hat HDI Hk Hl HP. destruct dout.
  - eapply run_tdi_tdo; [done|done|done|done|]. intros DO s' _ _ HDO. by apply HP.
  - rewrite bind_bind. eapply run_tdi; [done|done|done|done|]. intros s' Hat'. rewrite bind_ret. by apply HP.
Qed.
Lemma run_load_dev {A} i d (f : jtag_dev -> M (jtag_state W) A) s (P : outcome (jtag_state W) A -> Prop) :
  jtag_devs s !! i = Some d -> P (f d s) -> P (bind (load_dev (Z.of_nat i)) f s).
Proof.
  intros Hd HP. unfold bind, load_dev, bind, get. rewrite (proj2 (Z.ltb_ge _ _)) by lia. by rewrite Nat2Z.id, Hd.
Qed.
Lemma run_upd_dev {A} i d g (f : unit -> M (jtag_state W) A) dv n c s (P : outcome (jtag_state W) A -> Prop) :
  at_j dv n c s -> dv !! i = Some d ->
  (forall s', at_j (<[i := g d]> dv) n c s' -> P (f tt s')) -> P (bind (upd_dev (Z.of_nat i) g) f s).
Proof.
  intros (<- & <- & Hwf & <-) Hd HP. unfold upd_dev. rewrite bind_bind. eapply run_load_dev; [done|].
  unfold bind, modify. apply HP. rewrite Nat2Z.id. by split_and!.
Qed.
End Ops.

(** ** Three sequences in one path *)
Section Path.
Context {D : Type} `{Registers D}.
Implicit Types c : tap_chain D.

Lemma drop_drop_app (sh l1 l2 : list bool) :
  drop (length l2) (drop (length l1) (sh ++ l1) ++ l2) = drop (length (l1 ++ l2)) (sh ++ l1 ++ l2).
Proof.
  rewrite app_assoc, length_app, <- drop_drop. f_equal. symmetry. apply drop_app_le. rewrite length_app. lia.
Qed.

(** Bits before, in and behind a device, the last clock leaving the shift
    state. *)
Lemma three_sequences c pre mid post : shifting c -> mid <> [] ->
  length (shift c) = length (pre ++ mid ++ post) ->
  let c1 := snd (clocks (tdi_clocks false pre) c) in
  let r2 := clocks (tdi_clocks (bool_decide (post = [])) mid) c1 in
  let c3 := snd (clocks (tdi_clocks true post) (snd r2)) in
  fst r2 = take (length mid) (drop (length pre) (shift c)) /\
  c3 = shifted c (exit_of (tap c)) (pre ++ mid ++ post).
Proof.
  intros Hs Hm Hl c1 r2 c3.
  assert (Hc1 : c1 = shifted c (tap c) (drop (length pre) (shift c ++ pre))) by (unfold c1; by rewrite clocks_shift).
  assert (Hs1 : shifting c1) by (by rewrite Hc1).
  assert (Hr2 : r2 = (take (length mid) (shift c1 ++ mid),
    shifted c1 (if bool_decide (post = []) then exit_of (tap c) else tap c) (drop (length mid) (shift c1 ++ mid)))).
  { unfold r2. rewrite clocks_shift by done. rewrite (bool_decide_eq_false_2 _ Hm), andb_true_r. by rewrite Hc1. }
  rewrite !length_app in Hl. split.
  - rewrite Hr2, Hc1. cbn [fst shift shifted]. rewrite drop_app_le by lia. rewrite <- app_assoc.
    rewrite take_app_le; [done|]. rewrite length_drop. lia.
  - unfold c3. rewrite Hr2. cbn [snd].
    assert (Hfin : forall t, shifted (shifted c1 t (drop (length mid) (shift c1 ++ mid))) (exit_of (tap c))
        (drop (length post) (drop (length mid) (shift c1 ++ mid) ++ post)) = shifted c (exit_of (tap c)) (pre ++ mid ++ post)).
    { intros t. rewrite Hc1. cbn [shift shifted]. unfold shifted. cbn. f_equal.
      rewrite drop_drop_app, drop_drop_app. rewrite drop_app_length'; [done|]. rewrite !length_app. lia. }
    destruct (decide (post = [])) as [->|Hp].
    + rewrite bool_decide_eq_true_2 by done. cbn [tdi_clocks clocks snd].
      rewrite <- (Hfin Exit1IR). cbn [length drop]. by rewrite app_nil_r.
    + rewrite bool_decide_eq_false_2 by done. rewrite clocks_shift by done. cbn [snd].
      rewrite (bool_decide_eq_false_2 _ Hp). cbn [andb negb tap shifted]. apply Hfin.
Qed.
End Path.

(** ** The devices of the probe and the chain *)
Section Selection.
Context {W D : Type} `{TapSpec W D}.
Implicit Types s : jtag_state W.
Implicit Types c : tap_chain D.

(** Device [d] describes place [i] of a chain whose instruction registers have
    the lengths [lens]. *)
Definition describes (lens : list nat) (i : nat) (d : jtag_dev) : Prop :=
  exists n, lens !! i = Some n /\ (0 < n <= 32)%nat /\ ir_len d = Z.of_nat n /\
    ir_prescan d = Z.of_nat (sum_list (take i lens)) /\ ir_postscan d = Z.of_nat (sum_list (drop (S i) lens)) /\
    jd_dev d = Z.of_nat i /\ dr_postscan d = Z.of_nat (length (drop (S i) lens)).

Definition bypass_all (ns : list nat) : list (list bool) := (fun n => replicate n true) <$> ns.
(** Instruction [ir] in device [i], BYPASS in all others. *)
Definition selection (lens : list nat) (i : nat) (ir : list bool) : list (list bool) :=
  bypass_all (take i lens) ++ ir :: bypass_all (drop (S i) lens).

(** The probe's view of the chain: every device is described, and a recorded
    instruction is the one selected. *)
Definition chain_ok (lens : list nat) s : Prop :=
  tap_wf (wire s) /\ tap (tap_of (wire s)) = RunTestIdle /\ length <$> irs (tap_of (wire s)) = lens /\
  jtag_dev_count s = Z.of_nat (length lens) /\
  forall i, (i < length lens)%nat -> exists d, jtag_devs s !! i = Some d /\ describes lens i d /\
    (current_ir d = no_ir \/ irs (tap_of (wire s)) = selection lens i (zbits (ir_len d) (current_ir d))).

Lemma concat_bypass ns : concat (bypass_all ns) = replicate (sum_list ns) true.
Proof.
  induction ns as [|n ns IH]; [done|]. cbn [bypass_all fmap list_fmap concat]. change ((fun n => replicate n true) <$> ns) with (bypass_all ns).
  rewrite IH. change (sum_list (n :: ns)) with (n + sum_list ns)%nat. by rewrite replicate_add.
Qed.
Lemma concat_selection lens i ir :
  concat (selection lens i ir) = replicate (sum_list (take i lens)) true ++ ir ++ replicate (sum_list (drop (S i) lens)) true.
Proof. unfold selection. rewrite concat_app. cbn [concat]. by rewrite !concat_bypass. Qed.
Lemma lengths_bypass ns : length <$> bypass_all ns = ns.
Proof.
  unfold bypass_all. induction ns as [|n ns IH]; [done|]. cbn. rewrite length_replicate. f_equal. apply IH.
Qed.
Lemma lengths_selection lens i n ir : lens !! i = Some n -> length ir = n -> length <$> selection lens i ir = lens.
Proof.
  intros Hi Hn. unfold selection. rewrite fmap_app. cbn [fmap list_fmap]. rewrite Hn.
  change (list_fmap _ _ length (bypass_all (drop (S i) lens))) with (length <$> bypass_all (drop (S i) lens)).
  rewrite !lengths_bypass. by apply take_drop_middle.
Qed.

Lemma lengths_capture_ir c : length <$> capture_ir c = length <$> irs c.
Proof.
  unfold capture_ir. apply list_eq. intros i. rewrite !list_lookup_fmap, list_lookup_imap.
  destruct (irs c !! i) as [ir|]; [|done]. cbn. f_equal. rewrite length_take, length_app, length_replicate. lia.
Qed.
Lemma length_concat_lengths (ls : list (list bool)) : length (concat ls) = sum_list (length <$> ls).
Proof. induction ls as [|l ls IH]; [done|]. cbn. rewrite length_app, IH. done. Qed.

Lemma to_shift_ir c : tap c = RunTestIdle ->
  snd (clocks (tms_clocks (zbits 4 0x03)) c) =
    {| tap := ShiftIR; shift := concat (capture_ir c); segs := length <$> irs c; irs := irs c; state := state c |}.
Proof. intros Ht. rewrite <- lengths_capture_ir. destruct c as [t sh sg ir st]; cbn in Ht. by subst t. Qed.
Lemma to_shift_dr c : tap c = RunTestIdle ->
  snd (clocks (tms_clocks (zbits 3 0x01)) c) =
    {| tap := ShiftDR; shift := concat (capture_dr c); segs := length <$> capture_dr c; irs := irs c; state := state c |}.
Proof. intros Ht. destruct c as [t sh sg ir st]; cbn in Ht. by subst t. Qed.
Lemma idle_from_ir c : tap c = Exit1IR ->
  snd (clocks (tms_clocks (zbits 2 0x01)) c) =
    {| tap := RunTestIdle; shift := shift c; segs := segs c; irs := split_at (segs c) (shift c); state := state c |}.
Proof. intros Ht. destruct c as [t sh sg ir st]; cbn in Ht. by subst t. Qed.
Lemma idle_from_dr c : tap c = Exit1DR ->
  snd (clocks (tms_clocks (zbits 2 0x01)) c) =
    {| tap := RunTestIdle; shift := shift c; segs := segs c; irs := irs c;
       state := update_dr (state c) 0 (irs c) (split_at (segs c) (shift c)) |}.
Proof. intros Ht. destruct c as [t sh sg ir st]; cbn in Ht. by subst t. Qed.

(** Forgetting the recorded instructions. *)
Definition forgets (dv dv' : list jtag_dev) (l : list nat) : Prop :=
  length dv' = length dv /\
  forall k d, dv !! k = Some d -> exists r, dv' !! k = Some (set_current_ir r d) /\
    (k ∈ l -> r = no_ir) /\ (k ∉ l -> r = current_ir d).
Lemma run_forget {A} (l : list nat) (f : unit -> M (jtag_state W) A) dv n c s (P : outcome (jtag_state W) A -> Prop) :
  at_j dv n c s -> Forall (fun k => (k < length dv)%nat) l ->
  (forall dv' s', at_j dv' n c s' -> forgets dv dv' l -> P (f tt s')) ->
  P (bind (for_each (Z.of_nat <$> l) (fun i => upd_dev i (set_current_ir no_ir))) f s).
Proof.
  revert dv s. induction l as [|k l IH]; intros dv s Hat Hl HP.
  - eapply HP; [done|]. split; [done|]. intros j d Hd. exists (current_ir d). split; [by destruct d|]. split; [by intros ?%elem_of_nil|done].
  - apply Forall_cons in Hl as [Hk Hl]. cbn [fmap list_fmap for_each]. rewrite bind_bind.
    destruct (lookup_lt_is_Some_2 dv k Hk) as [d Hd].
    eapply run_upd_dev; [done|done|]. intros s1 Hat1.
    eapply IH; [done|by rewrite length_insert|]. intros dv' s2 Hat2 (Hlen & Hf).
    eapply HP; [done|]. split; [by rewrite Hlen, length_insert|]. intros j dj Hj.
    destruct (decide (j = k)) as [->|Hne].
    + assert (d = dj) as -> by congruence.
      destruct (Hf k (set_current_ir no_ir dj)) as (r & Hr & Hin & Hout); [by apply list_lookup_insert_eq|].
      exists r. split; [by rewrite Hr|]. split; [intros _|set_solver].
      destruct (decide (k ∈ l)) as [Hkl|Hkl]; [by apply Hin|by rewrite (Hout Hkl)].
    + destruct (Hf j dj) as (r & Hr & Hin & Hout); [by rewrite list_lookup_insert_ne|].
      exists r. split; [done|]. split; [intros Hjl; apply Hin; set_solver|intros Hjl; apply Hout; set_solver].
Qed.

Lemma chain_lookup lens s i n : chain_ok lens s -> lens !! i = Some n -> exists d, jtag_devs s !! i = Some d /\ describes lens i d /\
    ir_len d = Z.of_nat n /\ (current_ir d = no_ir \/ irs (tap_of (wire s)) = selection lens i (zbits (ir_len d) (current_ir d))).
Proof.
  intros (_ & _ & _ & _ & Hd) Hn. destruct (Hd i) as (d & Hd1 & Hdesc & Hir); [by eapply lookup_lt_Some|].
  exists d. split_and!; try done. destruct Hdesc as (m & Hm & _ & Hl & _). congruence.
Qed.

Lemma ones_bytes : is_bytes ones.
Proof. by repeat constructor. Qed.

(** The clocks of an instruction shift, from Idle to Idle. *)
Lemma ir_shift_chain c lens i n l : tap c = RunTestIdle -> length <$> irs c = lens -> lens !! i = Some n ->
  length l = n -> (0 < n)%nat ->
  let pre := replicate (sum_list (take i lens)) true in
  let post := replicate (sum_list (drop (S i) lens)) true in
  let c1 := snd (clocks (tdi_clocks false pre) (snd (clocks (tms_clocks (zbits 4 0x03)) c))) in
  let c2 := snd (clocks (tdi_clocks (bool_decide (post = [])) l) c1) in
  let c3 := snd (clocks (tdi_clocks true post) c2) in
  let c4 := snd (clocks (tms_clocks (zbits 2 0x01)) c3) in
  tap c4 = RunTestIdle /\ irs c4 = selection lens i l /\ state c4 = state c.
Proof.
  intros Ht Hlens Hn Hl Hpos pre post. rewrite to_shift_ir by done. set (c0 := Build_tap_chain _ _ _ _ _). cbv zeta.
  assert (Hcat : pre ++ l ++ post = concat (selection lens i l)) by (symmetry; apply concat_selection).
  assert (Hlen : length (shift c0) = length (pre ++ l ++ post)).
  { rewrite Hcat, length_concat_lengths, (lengths_selection lens i n) by done.
    unfold c0. cbn [shift]. by rewrite length_concat_lengths, lengths_capture_ir, Hlens. }
  destruct (three_sequences c0 pre l post) as [_ Hc3]; [by right|by destruct l; [cbn in *; lia|]|done|].
  rewrite Hc3. rewrite idle_from_ir by done. cbn [tap irs state shift segs shifted]. split; [done|]. split; [|done].
  rewrite Hcat. unfold c0. cbn [segs]. rewrite Hlens. rewrite <- (lengths_selection lens i n l Hn Hl) at 1. apply split_concat.
Qed.

Lemma post_empty lens i d : describes lens i d ->
  (ir_postscan d =? 0) = bool_decide (replicate (sum_list (drop (S i) lens)) true = []).
Proof.
  intros (n & _ & _ & _ & _ & Hp & _). rewrite Hp. destruct (sum_list (drop (S i) lens)) as [|k]; [done|].
  rewrite bool_decide_eq_false_2 by done. lia.
Qed.

Lemma write_ir_ok lens i n ir s :
  chain_ok lens s -> lens !! i = Some n -> 0 <= ir < no_ir ->
  (sum_list (take i lens) <= 32)%nat -> (sum_list (drop (S i) lens) <= 32)%nat ->
  exists s', jtag_dev_write_ir (Z.of_nat i) ir s = Ok tt s' /\ chain_ok lens s' /\
    irs (tap_of (wire s')) = selection lens i (zbits (Z.of_nat n) ir) /\
    state (tap_of (wire s')) = state (tap_of (wire s)).
Proof.
  intros Hok Hn Hir Hpre Hpost. destruct (chain_lookup lens s i n Hok Hn) as (d & Hd & Hdesc & Hdl & Hcur).
  pose proof Hok as (Hwf & Htap & Hlens & Hcount & Hall).
  pose proof Hdesc as (n' & Hn' & Hpos & Hlen & Hip & Hiq & _). assert (n' = n) as -> by congruence.
  apply (fun HP => run_load_dev i d _ s (fun o => exists s', o = Ok tt s' /\ _) Hd HP).
  destruct (Z.eqb_spec ir (current_ir d)) as [->|Hne].
  { exists s. split; [done|]. destruct Hcur as [Hno|Hsel]; [lia|]. by rewrite Hdl in Hsel. }
  assert (Hat : at_j (jtag_devs s) (jtag_dev_count s) (tap_of (wire s)) s) by done.
  unfold bind at 1, get. rewrite Hcount.
  assert (Hseq : seqZ 0 (Z.of_nat (length lens)) = Z.of_nat <$> seq 0 (length lens)).
  { unfold seqZ. rewrite Nat2Z.id. apply list_fmap_ext. intros. lia. }
  rewrite Hseq.
  eapply run_forget; [exact Hat| |].
  { apply Forall_forall. intros k Hk. apply elem_of_seq in Hk. destruct (Hall k) as (dk & Hdk & _); [lia|]. by eapply lookup_lt_Some. }
  intros dv1 s1 Hat1 [_ Hforget].
  destruct (Hforget i d Hd) as (r & Hr & _).
  eapply run_upd_dev; [exact Hat1|exact Hr|]. intros s2 Hat2. unfold jtagtap_shift_ir, jtagtap_return_idle.
  eapply run_tms; [exact Hat2|lia|]. intros s3 Hat3.
  eapply run_tdi; [exact Hat3|apply ones_bytes|lia|apply nbytes_le; change (zlen ones) with 4; lia|]. intros s4 Hat4.
  assert (Hl32 : ir_len d <= 32) by lia.
  eapply run_tdi; [exact Hat4|apply le_bytes_is_bytes|lia|apply nbytes_le; unfold zlen; rewrite length_le_bytes; lia|]. intros s5 Hat5.
  eapply run_tdi; [exact Hat5|apply ones_bytes|lia|apply nbytes_le; change (zlen ones) with 4; lia|]. intros s6 Hat6.
  rewrite <- bind_ret_r. eapply run_tms; [exact Hat6|lia|]. intros s7 Hat7. clear Hat1 Hat2 Hat3 Hat4 Hat5 Hat6.
  rewrite (zbits_le_bytes (ir_len d) 4), !zbits_ones, Hip, Hiq, !Nat2Z.id in Hat7 by lia.
  rewrite <- Hiq, (post_empty lens i d Hdesc) in Hat7.
  destruct (ir_shift_chain (tap_of (wire s)) lens i n (zbits (ir_len d) ir) Htap Hlens Hn) as (Ht7 & Hi7 & Hs7);
    [rewrite length_zbits; lia|lia|].
  destruct Hat7 as (Hdv & Hc7 & Hwf7 & Hchain). exists s7. split; [done|]. rewrite Hchain.
  assert (Hsel : irs (tap_of (wire s7)) = selection lens i (zbits (Z.of_nat n) ir)) by (by rewrite Hchain, <- Hdl).
  split; [|split; [by rewrite <- Hchain|done]].
  split; [done|]. rewrite Hchain. split; [done|]. split.
  { rewrite Hi7. apply (lengths_selection lens i n); [done|]. rewrite length_zbits. lia. }
  split; [congruence|]. intros k Hk. destruct (Hall k Hk) as (dk & Hdk & Hdesck & _).
  destruct (Hforget k dk Hdk) as (rk & Hrk & Hin & _). rewrite Hdv.
  destruct (decide (k = i)) as [->|Hki].
  - exists (set_current_ir ir (set_current_ir r d)). split; [apply list_lookup_insert_eq; by eapply lookup_lt_Some|].
    split; [exact Hdesc|]. right. by rewrite Hi7.
  - exists (set_current_ir rk dk). split; [by rewrite list_lookup_insert_ne|]. split; [exact Hdesck|]. left.
    apply Hin, elem_of_seq. lia.
Qed.
(** [jtag_dev_write_ir] leaves the chain with the instruction in the
    device, BYPASS in every other, and the probe's record of it true; no data
    register is touched. *)
Theorem write_ir_selects lens i n ir s :
  chain_ok lens s -> lens !! i = Some n -> 0 <= ir < no_ir ->
  (sum_list (take i lens) <= 32)%nat -> (sum_list (drop (S i) lens) <= 32)%nat ->
  exists s', jtag_dev_write_ir (Z.of_nat i) ir s = Ok tt s' /\ chain_ok lens s' /\
    irs (tap_of (wire s')) = selection lens i (zbits (Z.of_nat n) ir) /\
    state (tap_of (wire s')) = state (tap_of (wire s)).
Proof. by apply write_ir_ok. Qed.

(** *** Data shifts *)
Definition units (b : bool) (ns : list nat) : list (list bool) := (fun _ => [b]) <$> ns.

Lemma bypass_is n : is_bypass (replicate n true) = true.
Proof. unfold is_bypass. induction n; cbn; auto. Qed.
Lemma imap_bypass (g : nat -> list bool -> list bool) ns :
  imap (fun k ir => if is_bypass ir then [false] else g k ir) (bypass_all ns) = units false ns.
Proof.
  revert g. induction ns as [|n ns IH]; intros g; [done|].
  cbn [bypass_all fmap list_fmap]. rewrite imap_cons, bypass_is. unfold units. cbn [fmap list_fmap]. f_equal.
  apply (IH (fun k => g (S k))).
Qed.
Lemma capture_selected c lens i ir : irs c = selection lens i ir -> is_bypass ir = false -> (i <= length lens)%nat ->
  capture_dr c = units false (take i lens) ++ dr_capture (state c) i ir :: units false (drop (S i) lens).
Proof.
  intros Hir Hb Hi. unfold capture_dr. rewrite Hir. unfold selection. rewrite imap_app, imap_cons, imap_bypass, Hb.
  f_equal. assert (Hl : length (bypass_all (take i lens)) = i).
  { unfold bypass_all. rewrite length_fmap, length_take. lia. }
  rewrite Hl, Nat.add_0_r. f_equal.
  rewrite <- (imap_bypass (fun k => dr_capture (state c) (i + S k)%nat)). apply imap_ext. done.
Qed.
Lemma update_bypass (d : D) k ns vs1 rs vs2 : length vs1 = length ns ->
  update_dr d k (bypass_all ns ++ rs) (vs1 ++ vs2) = update_dr d (k + length ns) rs vs2.
Proof.
  revert k vs1. induction ns as [|n ns IH]; intros k [|v vs1] Hl; cbn in Hl; try lia.
  - by rewrite Nat.add_0_r.
  - cbn [bypass_all fmap list_fmap app update_dr]. rewrite bypass_is.
    change ((fun n => replicate n true) <$> ns) with (bypass_all ns). rewrite IH by lia. f_equal. cbn. lia.
Qed.
Lemma update_selected (d : D) lens i ir v a b : is_bypass ir = false -> (i < length lens)%nat ->
  length a = length (take i lens) -> length b = length (drop (S i) lens) ->
  update_dr d 0 (selection lens i ir) (a ++ v :: b) = dr_update d i ir v.
Proof.
  intros Hb Hi Ha Hbl. unfold selection. rewrite update_bypass by done. cbn [update_dr]. rewrite Hb, length_take.
  rewrite Nat.min_l by lia. cbn [Nat.add].
  rewrite <- (app_nil_r (bypass_all (drop (S i) lens))), <- (app_nil_r b). by rewrite update_bypass.
Qed.
Lemma concat_units b ns : concat (units b ns) = replicate (length ns) b.
Proof. unfold units. induction ns as [|n ns IH]; [done|]. cbn. f_equal. apply IH. Qed.
Lemma lengths_units b1 b2 ns : length <$> units b1 ns = length <$> units b2 ns.
Proof. unfold units. induction ns as [|n ns IH]; [done|]. cbn. f_equal. apply IH. Qed.

(** The clocks of a data shift, from Idle to Idle: the bits that come out with
    the device's, and what is left. *)
Lemma dr_shift_chain c lens i ir l : tap c = RunTestIdle -> irs c = selection lens i ir -> is_bypass ir = false ->
  (i < length lens)%nat -> length l = length (dr_capture (state c) i ir) -> l <> [] ->
  let pre := replicate (length (take i lens)) true in
  let post := replicate (length (drop (S i) lens)) true in
  let c1 := snd (clocks (tdi_clocks false pre) (snd (clocks (tms_clocks (zbits 3 0x01)) c))) in
  let r2 := clocks (tdi_clocks (bool_decide (post = [])) l) c1 in
  let c3 := snd (clocks (tdi_clocks true post) (snd r2)) in
  let c4 := snd (clocks (tms_clocks (zbits 2 0x01)) c3) in
  fst r2 = dr_capture (state c) i ir /\ tap c4 = RunTestIdle /\ irs c4 = irs c /\
    state c4 = dr_update (state c) i ir l.
Proof.
  intros Ht Hir Hb Hi Hl Hne pre post. rewrite to_shift_dr by done.
  assert (Hcap := capture_selected c lens i ir Hir Hb ltac:(lia)).
  set (c0 := Build_tap_chain _ _ _ _ _). cbv zeta.
  assert (Hsh : shift c0 = replicate (length (take i lens)) false ++ dr_capture (state c) i ir ++ replicate (length (drop (S i) lens)) false).
  { unfold c0. cbn [shift]. rewrite Hcap, concat_app. cbn [concat]. by rewrite !concat_units. }
  assert (Hlen : length (shift c0) = length (pre ++ l ++ post)).
  { rewrite Hsh. unfold pre, post. rewrite !length_app, !length_replicate, Hl. done. }
  destruct (three_sequences c0 pre l post) as [Hout Hc3]; [by left|done|done|].
  split.
  { rewrite Hout, Hsh, Hl. unfold pre. rewrite length_replicate.
    rewrite drop_app_length' by (by rewrite length_replicate). by rewrite take_app_length. }
  rewrite Hc3, idle_from_dr by done. cbn [tap irs state shift segs shifted]. unfold c0. cbn [irs state segs].
  split; [done|]. split; [done|].
  assert (Hcat : pre ++ l ++ post = concat (units true (take i lens) ++ l :: units true (drop (S i) lens))).
  { rewrite concat_app. cbn [concat]. by rewrite !concat_units. }
  assert (Hseg : length <$> capture_dr c = length <$> (units true (take i lens) ++ l :: units true (drop (S i) lens))).
  { rewrite Hcap, !fmap_app, !fmap_cons, (lengths_units false true), (lengths_units false true (drop (S i) lens)), Hl. done. }
  rewrite Hcat, Hseg, split_concat, Hir. apply update_selected; try done; unfold units; by rewrite length_fmap.
Qed.

(** With a device selected, [jtag_dev_shift_dr] returns exactly the bits
    its data register captures, if they are wanted, and leaves in it exactly the
    bits given, whatever is before and behind it in the chain. *)
Lemma shift_dr_ok lens i n ir dout din ticks s :
  chain_ok lens s -> lens !! i = Some n -> irs (tap_of (wire s)) = selection lens i ir -> is_bypass ir = false ->
  0 < ticks -> Z.to_nat ticks = length (dr_capture (state (tap_of (wire s))) i ir) ->
  is_bytes din -> nbytes ticks <= zlen din -> (length lens <= 32)%nat ->
  exists out s', jtag_dev_shift_dr (Z.of_nat i) dout din ticks s = Ok out s' /\ chain_ok lens s' /\
    (dout = true -> zbits ticks (le_val out) = dr_capture (state (tap_of (wire s))) i ir) /\
    irs (tap_of (wire s')) = selection lens i ir /\
    state (tap_of (wire s')) = dr_update (state (tap_of (wire s))) i ir (zbits ticks (le_val din)).
Proof.
  intros Hok Hn Hir Hb Hpos Htk Hdin Hdl H32. destruct (chain_lookup lens s i n Hok Hn) as (d & Hd & Hdesc & _).
  pose proof Hok as (Hwf & Htap & Hlens & Hcount & Hall). assert (Hi := lookup_lt_Some _ _ _ Hn).
  pose proof Hdesc as (n' & _ & _ & _ & _ & _ & Hjd & Hdp).
  assert (Hpre : jd_dev d = Z.of_nat (length (take i lens))) by (rewrite length_take; lia).
  assert (Hpost : (dr_postscan d =? 0) = bool_decide (replicate (length (drop (S i) lens)) true = [])).
  { rewrite Hdp. destruct (length (drop (S i) lens)); [done|]. rewrite bool_decide_eq_false_2 by done. lia. }
  assert (Hdrop : (length (drop (S i) lens) <= 32)%nat) by (rewrite length_drop; lia).
  apply (fun HP => run_load_dev i d _ s (fun o => exists out s', o = Ok out s' /\ _) Hd HP).
  assert (Hat : at_j (jtag_devs s) (jtag_dev_count s) (tap_of (wire s)) s) by done.
  unfold jtagtap_shift_dr, jtagtap_return_idle.
  eapply run_tms; [exact Hat|lia|]. intros s1 Hat1.
  eapply run_tdi; [exact Hat1|apply ones_bytes|lia|apply nbytes_le; change (zlen ones) with 4; lia|]. intros s2 Hat2.
  eapply run_dout; [exact Hat2|done|lia|done|]. intros DO s3 HDO Hat3.
  eapply run_tdi; [exact Hat3|apply ones_bytes|lia|apply nbytes_le; change (zlen ones) with 4; lia|]. intros s4 Hat4.
  eapply run_tms; [exact Hat4|lia|]. intros s5 Hat5. clear Hat1 Hat2 Hat3 Hat4.
  destruct (dr_shift_chain (tap_of (wire s)) lens i ir (zbits ticks (le_val din)) Htap Hir Hb Hi) as (Ho & Ht5 & Hi5 & Hs5);
    [by rewrite length_zbits| |].
  { intros Hnil. apply (f_equal length) in Hnil. rewrite length_zbits in Hnil. cbn in Hnil. lia. }
  rewrite !zbits_ones, Hpost, Hpre, ?Hdp, !Nat2Z.id in Hat5 by lia.
  rewrite zbits_ones, Hpost, Hpre, Nat2Z.id in HDO by lia.
  destruct Hat5 as (Hdv & Hc5 & Hwf5 & Hchain). exists DO, s5. split; [done|]. rewrite Hchain.
  split; [|split; [intros Hd1; rewrite (HDO Hd1); exact Ho|split; [congruence|done]]].
  split; [done|]. rewrite Hchain. split; [done|]. rewrite Hi5, Hdv. split; [done|]. split; [congruence|done].
Qed.

(** A device behind more than 32 bits of other devices' instruction
    registers cannot be selected: the bits shifted for them are read beyond
    the array they come from. *)
Theorem write_ir_overrun lens i n ir s :
  chain_ok lens s -> lens !! i = Some n -> 0 <= ir < no_ir ->
  (32 < sum_list (take i lens))%nat -> irs (tap_of (wire s)) <> selection lens i (zbits (Z.of_nat n) ir) ->
  exists s', jtag_dev_write_ir (Z.of_nat i) ir s = Fault OutOfBounds s'.
Proof.
  intros Hok Hn Hir Hpre Hsel. destruct (chain_lookup lens s i n Hok Hn) as (d & Hd & Hdesc & Hdl & Hcur).
  pose proof Hok as (Hwf & Htap & Hlens & Hcount & Hall).
  pose proof Hdesc as (n' & Hn' & Hpos & Hlen & Hip & Hiq & _).
  apply (fun HP => run_load_dev i d _ s (fun o => exists s', o = Fault OutOfBounds s') Hd HP).
  destruct (Z.eqb_spec ir (current_ir d)) as [->|Hne].
  { destruct Hcur as [Hno|Hcs]; [lia|]. rewrite Hdl in Hcs. done. }
  assert (Hat : at_j (jtag_devs s) (jtag_dev_count s) (tap_of (wire s)) s) by done.
  unfold bind at 1, get. rewrite Hcount.
  assert (Hseq : seqZ 0 (Z.of_nat (length lens)) = Z.of_nat <$> seq 0 (length lens)).
  { unfold seqZ. rewrite Nat2Z.id. apply list_fmap_ext. intros. lia. }
  rewrite Hseq.
  eapply run_forget; [exact Hat| |].
  { apply Forall_forall. intros k Hk. apply elem_of_seq in Hk. destruct (Hall k) as (dk & Hdk & _); [lia|]. by eapply lookup_lt_Some. }
  intros dv1 s1 Hat1 [_ Hforget].
  destruct (Hforget i d Hd) as (r & Hr & _).
  eapply run_upd_dev; [exact Hat1|exact Hr|]. intros s2 Hat2. unfold jtagtap_shift_ir, jtagtap_return_idle.
  eapply run_tms; [exact Hat2|lia|]. intros s3 Hat3. exists s3.
  unfold tdi_seq at 1, load_n. change (zlen ones) with 4.
  assert (Hnb : 4 < nbytes (ir_prescan d)).
  { destruct (nbytes_enough (ir_prescan d)); lia. }
  rewrite (proj2 (Z.leb_gt (0 + nbytes (ir_prescan d)) 4)) by lia. by rewrite andb_false_r.
Qed.
End Selection.

(** ** A simulated chain *)
Module JtagSim.
(** A device: its IR length and IDCODE, and the 35 bits behind its other
    registers. *)
Record sim_dev := { irlen : nat; idcode : Z; reg : Z }.
Fixpoint of_bits (l : list bool) : Z :=
  match l with [] => 0 | b :: l' => (if b then 1 else 0) + 2 * of_bits l' end.
Definition idcode_ir (n : nat) : list bool := false :: replicate (n - 1) true.
Definition sim_capture (d : list sim_dev) (i : nat) (ir : list bool) : list bool :=
  match d !! i with
  | Some x => if bool_decide (ir = idcode_ir (irlen x)) then zbits 32 (idcode x) else zbits 35 (reg x)
  | None => []
  end.
Definition sim_update (d : list sim_dev) (i : nat) (ir v : list bool) : list sim_dev :=
  match d !! i with
  | Some x => if bool_decide (ir = idcode_ir (irlen x)) then d
              else <[i := {| irlen := irlen x; idcode := idcode x; reg := of_bits v |}]> d
  | None => d
  end.
#[export] Instance sim_regs : Registers (list sim_dev) := {
  dr_capture := sim_capture; dr_update := sim_update;
  ir_capture _ _ ir := [true]; ir_reset _ _ ir := idcode_ir (length ir);
}.
#[export] Instance sim_tap : TapIf (tap_chain (list sim_dev)) := {
  jtagtap_next tms tdi c := let '(o, c') := clock c tms tdi in Ok o c';
  jtagtap_tms_seq MS n c := Ok tt (snd (clocks (tms_clocks (zbits n MS)) c));
  jtagtap_tdi_seq f DI n c := Ok tt (snd (clocks (tdi_clocks f (zbits n (le_val DI))) c));
  jtagtap_tdi_tdo_seq f DI n c :=
    let '(o, c') := clocks (tdi_clocks f (zbits n (le_val DI))) c in
    Ok (le_bytes (Z.to_nat (nbytes n)) (of_bits o)) c';
}.
#[export] Instance sim_clock : ClockIf (tap_chain (list sim_dev)) :=
  { platform_time_ms := ret 0; platform_delay _ := ret tt }.

Lemma zbits_of_bits l : zbits (Z.of_nat (length l)) (of_bits l) = l.
Proof.
  induction l as [|b l IH]; [done|]. cbn [length of_bits]. unfold zbits in *.
  rewrite Nat2Z.inj_succ, seqZ_cons, fmap_cons by lia. rewrite Z.pred_succ.
  set (h := if b then 1 else 0). assert (Hh : h = Z.b2z b) by (by destruct b). rewrite Hh. f_equal.
  - rewrite Z.add_comm. by rewrite Z.testbit_0_r.
  - etransitivity; [|exact IH]. apply list_eq. intros i. rewrite !list_lookup_fmap.
    destruct (decide (i < length l)%nat).
    + rewrite !lookup_seqZ_lt by lia. cbn. f_equal. rewrite (Z.add_comm (Z.b2z b)).
      replace (Z.succ 0 + Z.of_nat i) with (Z.succ (Z.of_nat i)) by lia. by rewrite Z.testbit_succ_r by lia.
    + by rewrite !lookup_seqZ_ge by lia.
Qed.
Lemma length_clocks {D} `{Registers D} l (c : tap_chain D) : length (fst (clocks l c)) = length l.
Proof.
  revert c. induction l as [|[tms tdi] l IH]; intros c; [done|]. cbn [clocks]. destruct (clock c tms tdi) as [o c1].
  specialize (IH c1). destruct (clocks l c1). cbn in *. lia.
Qed.
Lemma length_tdi_clocks f l : length (tdi_clocks f l) = length l.
Proof. induction l as [|b [|b2 l] IH]; [done|done|]. cbn in *. lia. Qed.
Lemma sim_tdi_tdo (c : tap_chain (list sim_dev)) f DI n : True -> 0 <= n -> zlen DI = nbytes n -> is_bytes DI ->
  exists DO c', jtagtap_tdi_tdo_seq f DI n c = Ok DO c' /\ True /\ zlen DO = nbytes n /\ is_bytes DO /\
    (zbits n (le_val DO), c') = clocks (tdi_clocks f (zbits n (le_val DI))) c.
Proof.
  intros _ Hn HDI _. cbn [jtagtap_tdi_tdo_seq sim_tap].
  pose proof (length_clocks (tdi_clocks f (zbits n (le_val DI))) c) as Hl. rewrite length_tdi_clocks, length_zbits in Hl.
  destruct (clocks _ c) as [o c'] eqn:Ec. cbn [fst] in Hl. destruct (nbytes_enough n Hn) as [Hn8 Hn0].
  eexists _, c'. split; [done|]. split; [done|].
  split; [unfold zlen; rewrite length_le_bytes; lia|]. split; [apply le_bytes_is_bytes|].
  rewrite zbits_le_bytes by lia. f_equal. rewrite <- (zbits_of_bits o) at 2. rewrite Hl. by rewrite Z2Nat.id.
Qed.
Lemma sim_tms (c : tap_chain (list sim_dev)) MS n : True -> 0 < n <= 32 ->
  exists c', jtagtap_tms_seq MS n c = Ok tt c' /\ True /\ c' = snd (clocks (tms_clocks (zbits n MS)) c).
Proof. intros. by eexists. Qed.
Lemma sim_tdi (c : tap_chain (list sim_dev)) f DI n : True -> 0 <= n -> zlen DI = nbytes n -> is_bytes DI ->
  exists c', jtagtap_tdi_seq f DI n c = Ok tt c' /\ True /\ c' = snd (clocks (tdi_clocks f (zbits n (le_val DI))) c).
Proof. intros. by eexists. Qed.
#[export] Instance sim_spec : TapSpec (tap_chain (list sim_dev)) (list sim_dev) :=
  {| tap_wf := fun _ => True; tap_of := fun c => c; tms_law := sim_tms; tdi_law := sim_tdi; tdi_tdo_law := sim_tdi_tdo |}.

(** Three devices and two. *)
Definition arm : sim_dev := {| irlen := 4; idcode := 0x4ba00477; reg := 0x123456789 |}.
Definition stm : sim_dev := {| irlen := 5; idcode := 0x06410041; reg := 0 |}.
Definition chain_of (l : list sim_dev) : tap_chain (list sim_dev) :=
  {| tap := RunTestIdle; shift := []; segs := []; irs := (fun d => idcode_ir (irlen d)) <$> l; state := l |}.
Definition probe (l : list sim_dev) : jtag_state (tap_chain (list sim_dev)) :=
  {| jtag_devs := replicate 33 blank_dev; jtag_dev_count := 0; wire := chain_of l |}.
Definition scan : M (jtag_state (tap_chain (list sim_dev))) Z := jtag_scan (ret tt) (fun _ => ret tt) None.
(** The probe after a scan, put on another chain. *)
Definition replug (l : list sim_dev) (s : jtag_state (tap_chain (list sim_dev))) : jtag_state (tap_chain (list sim_dev)) :=
  {| jtag_devs := jtag_devs s; jtag_dev_count := jtag_dev_count s; wire := chain_of l |}.
Definition postscans (o : outcome (jtag_state (tap_chain (list sim_dev))) Z) : option (Z * list Z) :=
  match o with
  | Ok n s => Some (n, ir_postscan <$> take (Z.to_nat n) (jtag_devs s))
  | _ => None
  end.
End JtagSim.
Import JtagSim.

(** A scan does not clear what an earlier one left: on a chain of two
    devices after a chain of three, the last device keeps the instruction bits
    that were behind it, which a first scan of the same chain sets to 0. *)
Theorem rescan_stale_postscan : exists s,
  scan (probe [arm; stm; arm]) = Ok 3 s /\ postscans (scan (replug [arm; stm] s)) = Some (2, [9; 4]) /\
  postscans (scan (probe [arm; stm])) = Some (2, [5; 0]).
Proof. eexists. split; [vm_compute; reflexivity|]. split; vm_compute; reflexivity. Qed.

Module JtagWitness.
(** The probe after its first scan of two devices. *)
Definition scanned2 : jtag_state (tap_chain (list sim_dev)) :=
  match scan (probe [arm; stm]) with Ok _ s => s | _ => probe [] end.
Definition selected2 : jtag_state (tap_chain (list sim_dev)) :=
  match jtag_dev_write_ir 0 IR_APACC scanned2 with Ok _ s => s | _ => probe [] end.
(** Nine devices, 36 instruction bits before the last. *)
Definition long : list sim_dev := replicate 9 arm ++ [stm].
Definition long_dev (i : nat) : jtag_dev :=
  {| jd_dev := Z.of_nat i; dr_postscan := 9 - Z.of_nat i; ir_len := (if Nat.eqb i 9 then 5 else 4); ir_prescan := 4 * Z.of_nat i;
     ir_postscan := (if Nat.eqb i 9 then 0 else 5 + 4 * (8 - Z.of_nat i)); jd_idcode := 0; jd_descr := None; current_ir := no_ir |}.
Definition probe_long : jtag_state (tap_chain (list sim_dev)) :=
  {| jtag_devs := long_dev <$> seq 0 10; jtag_dev_count := 10; wire := chain_of long |}.

(** [chain_ok] of a concrete probe: each device in turn. *)
Ltac solve_chain_ok :=
  split; [exact I|]; split; [vm_compute; reflexivity|]; split; [vm_compute; reflexivity|];
  split; [vm_compute; reflexivity|];
  let i := fresh "i" in let Hi := fresh "Hi" in intros i Hi; cbn in Hi;
  repeat (destruct i as [|i];
    [eexists; split; [vm_compute; reflexivity|]; split;
      [eexists; split; [reflexivity|]; split; [lia|]; split_and!; vm_compute; reflexivity
      |first [left; vm_compute; reflexivity|right; vm_compute; reflexivity]]|]); lia.
Lemma scanned2_ok : chain_ok [4; 5]%nat scanned2.
Proof. solve_chain_ok. Qed.
Lemma selected2_ok : chain_ok [4; 5]%nat selected2.
Proof. solve_chain_ok. Qed.
Lemma long_ok : chain_ok [4; 4; 4; 4; 4; 4; 4; 4; 4; 5]%nat probe_long.
Proof. solve_chain_ok. Qed.
End JtagWitness.
Import JtagWitness.

Lemma write_ir_selects_witness : exists s', jtag_dev_write_ir 0 IR_APACC scanned2 = Ok tt s' /\
  irs (tap_of (wire s')) = [[true; true; false; true]; [true; true; true; true; true]].
Proof.
  destruct (write_ir_selects [4; 5]%nat 0 4 IR_APACC scanned2 scanned2_ok) as (s' & Hr & _ & Hi & _);
    [reflexivity|done|cbn; lia|cbn; lia|].
  exists s'. split; [exact Hr|]. rewrite Hi. reflexivity.
Defined.
Lemma write_ir_overrun_witness : exists s', jtag_dev_write_ir 9 5 probe_long = Fault OutOfBounds s'.
Proof.
  apply (write_ir_overrun [4; 4; 4; 4; 4; 4; 4; 4; 4; 5]%nat 9 5 5 probe_long long_ok);
    [reflexivity|done|cbn; lia|vm_compute; intros Hc; discriminate Hc].
Defined.
