(* ===== verification/JtagWire.v ===== *)
(** platform_target_interface_non_iso.c's JTAG functions over the PIO calls of
    the SDK, with [PIO_JTAG] set.  What they do on the wire is proved in
    JtagWireProps. *)

From Stdlib Require Import ZArith Lia ZifyBool String.
From stdpp Require Import base list numbers option gmap.
From S2P Require Import Prelude CLib Platform Dap Swd Jtag.

(** [TARGET_INTERFACE_PROGRAM_IS_JTAG]. *)
Definition is_jtag_program (p : pio_program) : bool :=
  match p with
  | PIO_PROGRAM_JTAG_DP_TDI_TDO_SEQ | PIO_PROGRAM_JTAG_DP_TDI_SEQ | PIO_PROGRAM_JTAG_DP_TMS_SEQ
  | PIO_PROGRAM_JTAG_DP_NEXT => true
  | _ => false
  end.

Section Wire.
Context {E : Type} `{PioIf E}.
Notation MW := (M (swd_state E)).

Definition bit_of (pin : Z) : Z := Z.shiftl 1 pin.
Definition platorm_pio_non_iso_jtag_pins_config : MW unit :=
  let jtag_out_pins := Z.lor (Z.lor (Z.lor (bit_of PIN_TARGET1_TDI) (bit_of PIN_TARGET1_TMS)) (bit_of PIN_TARGET1_TMS_DIR_PIN)) (bit_of PIN_TARGET1_TCK) in
  let jtag_all_pins := Z.lor jtag_out_pins (bit_of PIN_TARGET1_TDO) in
  do! pio_do (pio_sm_set_pins_with_mask (bit_of PIN_TARGET1_TMS_DIR_PIN) jtag_all_pins) in
  do! pio_do (pio_sm_set_pindirs_with_mask jtag_out_pins jtag_all_pins) in
  do! pio_do (pio_gpio_init PIN_TARGET1_TDI) in
  do! pio_do (pio_gpio_init PIN_TARGET1_TDO) in
  do! pio_do (pio_gpio_init PIN_TARGET1_TMS_DIR_PIN) in
  do! pio_do (pio_gpio_init PIN_TARGET1_TMS) in
  pio_do (pio_gpio_init PIN_TARGET1_TCK).

(** All four functions run one program; what differs is which of TDI and TMS
    it shifts out and which it sets. *)
Definition load_jtag (out_pin set_pin : Z) : MW unit :=
  let! s := get in
  do! pio_do pio_clear_instruction_memory in
  let! prog_offset := pio_ (pio_add_program PIO_PROGRAM_JTAG_DP_TDI_TDO_SEQ) in
  do! upd_tip (set_update false) in
  do! platorm_pio_non_iso_jtag_pins_config in
  pio_do (pio_sm_init prog_offset (JtagConfig out_pin set_pin (clkdiv (tip s)))).
Definition switch_pins (out_pin set_pin : Z) : MW unit :=
  do! pio_do (pio_sm_set_out_pins out_pin 1) in pio_do (pio_sm_set_set_pins set_pin 1).
Definition update_clock : MW unit :=
  let! s := get in
  when (update_clkdiv (tip s))
    (do! pio_do (pio_sm_set_clkdiv (clkdiv (tip s))) in
     do! pio_do pio_sm_clkdiv_restart in
     upd_tip (set_update false)).

(** The start of [jtag_next], [jtag_tdi_tdo_seq] and [jtag_tdi_seq]. *)
Definition prepare_tdi (target_program : pio_program) : MW unit :=
  do! pio_do (pio_sm_set_enabled false) in
  let! s := get in
  let cur := current_program (tip s) in
  do! (if bool_decide (cur = target_program) then ret tt
       else if bool_decide (cur = PIO_PROGRAM_JTAG_DP_TMS_SEQ) then switch_pins PIN_TARGET1_TDI PIN_TARGET1_TMS
       else if is_jtag_program cur then ret tt
       else load_jtag PIN_TARGET1_TDI PIN_TARGET1_TMS) in
  do! upd_tip (set_program target_program) in
  update_clock.
(** The start of [jtag_tms_seq]. *)
Definition prepare_tms : MW unit :=
  do! pio_do (pio_sm_set_enabled false) in
  let! s := get in
  let cur := current_program (tip s) in
  do! (if bool_decide (cur = PIO_PROGRAM_JTAG_DP_TMS_SEQ) then ret tt
       else if is_jtag_program cur then switch_pins PIN_TARGET1_TMS PIN_TARGET1_TDI
       else load_jtag PIN_TARGET1_TMS PIN_TARGET1_TDI) in
  do! upd_tip (set_program PIO_PROGRAM_JTAG_DP_TMS_SEQ) in
  update_clock.

Definition jtag_next (dTMS dTDI : bool) : MW bool :=
  do! prepare_tdi PIO_PROGRAM_JTAG_DP_NEXT in
  do! pio_do pio_sm_clear_fifos in
  do! pio_do (pio_sm_put_blocking (if dTMS then 1 else 0)) in
  do! pio_do (pio_sm_put_blocking (if dTMS then 1 else 0)) in
  do! pio_do (pio_sm_put_blocking 0) in
  do! pio_do (pio_sm_put_blocking (if dTDI then 1 else 0)) in
  do! pio_do (pio_sm_set_enabled true) in
  let! r := pio_ pio_sm_get_blocking in
  do! pio_do (pio_sm_set_enabled false) in
  ret (negb (r =? 0)).

Definition jtag_tms_seq (MS ticks : Z) : MW unit :=
  do! prepare_tms in
  do! pio_do pio_sm_clear_fifos in
  do! pio_do (pio_sm_put_blocking 1) in
  do! pio_do (pio_sm_put_blocking 1) in
  do! pio_do (pio_sm_put_blocking (u32 (ticks - 1))) in
  do! pio_do (pio_sm_put_blocking MS) in
  do! pio_do (pio_sm_set_pins_with_mask (bit_of PIN_TARGET1_TDI) (bit_of PIN_TARGET1_TDI)) in
  do! pio_do (pio_sm_set_enabled true) in
  do! pio_do pio_sm_get_blocking in
  pio_do (pio_sm_set_enabled false).

Definition byte_count (i : Z) : Z :=
  if 32 <? i then 4 else if Z.rem i 8 =? 0 then Z.quot i 8 else Z.quot i 8 + 1.
(** One round: [i] ticks left, the rest of DI; the word read. *)
Definition seq_round (final_tms : bool) (i : Z) (DI : list Z) : MW Z :=
  let! b := load_n DI 0 (byte_count i) in
  do! pio_do (pio_sm_put_blocking 0) in
  let out_count := if 32 <? i then 32 - 1 else i - 1 in
  do! pio_do (pio_sm_put_blocking (if 32 <? i then 0 else if final_tms then 1 else 0)) in
  do! pio_do (pio_sm_put_blocking out_count) in
  do! pio_do (pio_sm_put_blocking (le_val b)) in
  pio_ pio_sm_get_blocking.
(** The bytes stored from the word read. *)
Definition stored_bytes (i in_data : Z) : list Z :=
  let out_count := if 32 <? i then 32 - 1 else i - 1 in
  le_bytes (Z.to_nat (byte_count i))
    (if out_count =? 32 - 1 then in_data else Z.shiftr in_data ((32 - 1) - out_count)).

Definition tdi_tdo_round (final_tms : bool) (st : Z * list Z * list Z) : MW (Z * list Z * list Z + list Z) :=
  let '(i, DI, DO) := st in
  if i <=? 0 then ret (inr DO) else
  let! in_data := seq_round final_tms i DI in
  ret (inl (i - 32, zdrop (byte_count i) DI, DO ++ stored_bytes i in_data)).
Definition jtag_tdi_tdo_seq (final_tms : bool) (DI : list Z) (ticks : Z) : MW (list Z) :=
  do! prepare_tdi PIO_PROGRAM_JTAG_DP_TDI_TDO_SEQ in
  do! pio_do pio_sm_clear_fifos in
  do! pio_do (pio_sm_set_enabled true) in
  let! DO := iter (S (S (Z.to_nat (ticks / 32)))) (tdi_tdo_round final_tms) (ticks, DI, []) in
  do! pio_do (pio_sm_set_enabled false) in
  ret DO.

Definition tdi_round (final_tms : bool) (st : Z * list Z) : MW (Z * list Z + unit) :=
  let '(i, DI) := st in
  if i <=? 0 then ret (inr tt) else
  do! seq_round final_tms i DI in
  ret (inl (i - 32, zdrop (byte_count i) DI)).
Definition jtag_tdi_seq (final_tms : bool) (DI : list Z) (ticks : Z) : MW unit :=
  do! prepare_tdi PIO_PROGRAM_JTAG_DP_TDI_SEQ in
  do! pio_do pio_sm_clear_fifos in
  do! pio_do (pio_sm_set_enabled true) in
  do! iter (S (S (Z.to_nat (ticks / 32)))) (tdi_round final_tms) (ticks, DI) in
  pio_do (pio_sm_set_enabled false).
End Wire.

(** The functions [platform_target_interface_non_iso_init] puts in the
    controller. *)
#[export] Instance wire_tap {E} `{PioIf E} : TapIf (swd_state E) := {
  jtagtap_next := jtag_next;
  jtagtap_tms_seq := jtag_tms_seq;
  jtagtap_tdi_tdo_seq := jtag_tdi_tdo_seq;
  jtagtap_tdi_seq := jtag_tdi_seq;
}.
(** Its clock is the probe's. *)
#[export] Instance wire_clock {E} `{ClockIf E} : ClockIf (swd_state E) := {
  platform_time_ms := in_env platform_time_ms;
  platform_delay ms := in_env (platform_delay ms);
}.
