(* ===== verification/JtagWireProps.v ===== *)
(** The JTAG functions over the PIO clock the chain: what the code relies on of
    the state machine, that whatever program was loaded before it ends up with
    the right one on the right pins, the division of a shift into words, and
    register shifts of jtag_scan.c down to the PIO calls. *)

From Stdlib Require Import ZArith Lia ZifyBool String.
From stdpp Require Import base list numbers option gmap.
From S2P Require Import Prelude CLib Platform Dap Swd Jtag JtagProps JtagWire.

(** ** The state machine

    The program sets one pin and shifts a word out on another, a bit per clock;
    the set pin is [a] up to the last clock and [f] at it. *)
Fixpoint set_line (a f : bool) (l : list bool) : list (bool * bool) :=
  match l with
  | [] => []
  | [b] => [(f, b)]
  | b :: l' => (a, b) :: set_line a f l'
  end.
Definition swapped (p : bool * bool) : bool * bool := (p.2, p.1).

(** The instruction memory, the pins (out, set), the FIFOs and the chain on
    the pins. *)
Record jtag_view (D : Type) := {
  jv_loaded : option pio_program;
  jv_pins : option (Z * Z);
  jv_running : bool;
  jv_tx : list Z;
  jv_rx : list Z;
  jv_chain : tap_chain D;
}.
Arguments Build_jtag_view {D}. Arguments jv_loaded {D}. Arguments jv_pins {D}. Arguments jv_running {D}.
Arguments jv_tx {D}. Arguments jv_rx {D}. Arguments jv_chain {D}.

Section View.
Context {D : Type} `{Registers D}.
Implicit Types v : jtag_view D.

Definition set_jfifos tx rx v : jtag_view D :=
  {| jv_loaded := jv_loaded v; jv_pins := jv_pins v; jv_running := jv_running v; jv_tx := tx; jv_rx := rx; jv_chain := jv_chain v |}.
Definition set_jcontrol l p r v : jtag_view D :=
  {| jv_loaded := l; jv_pins := p; jv_running := r; jv_tx := jv_tx v; jv_rx := jv_rx v; jv_chain := jv_chain v |}.
Definition set_jchain c v : jtag_view D :=
  {| jv_loaded := jv_loaded v; jv_pins := jv_pins v; jv_running := jv_running v; jv_tx := []; jv_rx := jv_rx v; jv_chain := c |}.

(** The clocks the words in the FIFO ask for: [cnt + 1] of them. *)
Definition exchange v : option (Z * list (bool * bool)) :=
  match jv_loaded v, jv_pins v, jv_tx v with
  | Some PIO_PROGRAM_JTAG_DP_TDI_TDO_SEQ, Some (out, set), [a; f; cnt; data] =>
      let l := set_line (negb (a =? 0)) (negb (f =? 0)) (zbits (cnt + 1) data) in
      if negb ((0 <=? cnt) && (cnt <=? 31)) then None
      else if (out =? PIN_TARGET1_TDI) && (set =? PIN_TARGET1_TMS) then Some (cnt, l)
      else if (out =? PIN_TARGET1_TMS) && (set =? PIN_TARGET1_TDI) then Some (cnt, swapped <$> l)
      else None
  | _, _, _ => None
  end.

Definition jquiet (c : pio_call) v : option (jtag_view D) :=
  match c with
  | pio_sm_set_enabled b => Some (set_jcontrol (jv_loaded v) (jv_pins v) b v)
  | pio_clear_instruction_memory => Some (set_jcontrol None (jv_pins v) (jv_running v) v)
  | pio_add_program p => Some (set_jcontrol (Some p) (jv_pins v) (jv_running v) v)
  | pio_sm_init _ (JtagConfig out set _) => Some (set_jcontrol (jv_loaded v) (Some (out, set)) false v)
  | pio_sm_init _ (SwdConfig _) => Some (set_jcontrol (jv_loaded v) None false v)
  | pio_sm_set_out_pins b _ => Some (set_jcontrol (jv_loaded v) ((fun p => (b, p.2)) <$> jv_pins v) (jv_running v) v)
  | pio_sm_set_set_pins b _ => Some (set_jcontrol (jv_loaded v) ((fun p => (p.1, b)) <$> jv_pins v) (jv_running v) v)
  | pio_sm_clear_fifos => Some (set_jfifos [] [] v)
  | pio_sm_put_blocking x => Some (set_jfifos (jv_tx v ++ [x]) (jv_rx v) v)
  | pio_sm_get_blocking => None
  | _ => Some v
  end.

(** A word read is one that was waiting, or that of the exchange asked for,
    whose bits are shifted in from the top of a cleared register. *)
Inductive jstep v : pio_call -> Z -> jtag_view D -> Prop :=
| js_quiet c r v' : jquiet c v = Some v' -> jstep v c r v'
| js_get x rx : jv_rx v = x :: rx -> jstep v pio_sm_get_blocking x (set_jfifos (jv_tx v) rx v)
| js_exchange cnt l w o c : jv_rx v = [] -> jv_running v = true -> exchange v = Some (cnt, l) ->
    clocks l (jv_chain v) = (o, c) -> is_u32 w ->
    w mod 2 ^ (31 - cnt) = 0 -> zbits (cnt + 1) (Z.shiftr w (31 - cnt)) = o ->
    jstep v pio_sm_get_blocking w (set_jchain c v).
Definition jready v (c : pio_call) : Prop :=
  match c with
  | pio_sm_get_blocking => jv_rx v <> [] \/ jv_running v = true /\ is_Some (exchange v)
  | _ => True
  end.
End View.

Class JtagPioSpec (E D : Type) `{PioIf E} `{Registers D} := {
  jpio_wf : E -> Prop;
  jview : E -> jtag_view D;
  jpio_law e c : jpio_wf e -> jready (jview e) c ->
    exists r e', pio c e = Ok r e' /\ jpio_wf e' /\ jstep (jview e) c r (jview e');
}.

(** ** Sequences of clocks *)
Lemma set_line_tdi f l : set_line false f l = tdi_clocks f l.
Proof. induction l as [|b [|b2 l] IH]; [done|done|]. cbn in *. by rewrite IH. Qed.
Lemma set_line_tms l : swapped <$> set_line true true l = tms_clocks l.
Proof. unfold tms_clocks. induction l as [|b [|b2 l] IH]; [done|done|]. cbn in *. by rewrite IH. Qed.
Lemma tdi_clocks_app f l1 l2 : l2 <> [] -> tdi_clocks f (l1 ++ l2) = tdi_clocks false l1 ++ tdi_clocks f l2.
Proof.
  intros Hl. induction l1 as [|b [|b2 l1] IH]; [done| |].
  - cbn. by destruct l2.
  - cbn in *. by rewrite IH.
Qed.
Lemma clocks_app {D} `{Registers D} l1 l2 (c : tap_chain D) :
  clocks (l1 ++ l2) c = let '(o1, c1) := clocks l1 c in let '(o2, c2) := clocks l2 c1 in (o1 ++ o2, c2).
Proof.
  revert c. induction l1 as [|[tms tdi] l1 IH]; intros c; cbn [clocks app].
  - by destruct (clocks l2 c).
  - destruct (clock c tms tdi) as [o c1]. rewrite IH. destruct (clocks l1 c1) as [o1 c2]. by destruct (clocks l2 c2).
Qed.
Lemma zbits_split n x : 32 < n -> zbits n x = zbits 32 x ++ zbits (n - 32) (Z.shiftr x 32).
Proof.
  intros Hn. unfold zbits. rewrite <- (Zplus_minus 32 n) at 1. rewrite seqZ_app, fmap_app by lia. f_equal.
  apply list_eq. intros i. rewrite !list_lookup_fmap. destruct (decide (i < Z.to_nat (n - 32))%nat).
  - rewrite !lookup_seqZ_lt by lia. cbn. f_equal. rewrite Z.shiftr_spec by lia. f_equal. lia.
  - by rewrite !lookup_seqZ_ge by lia.
Qed.
Lemma le_val_app l1 l2 : is_bytes l1 -> le_val (l1 ++ l2) = le_val l1 + Z.shiftl (le_val l2) (8 * zlen l1).
Proof.
  intros Hl. rewrite Z.shiftl_mul_pow2 by (pose proof (zlen_nonneg l1); lia).
  induction Hl as [|b l1 Hb Hl IH]; [cbn [app le_val]; change (2 ^ (8 * zlen [])) with 1; lia|].
  cbn [app le_val]. rewrite IH, zlen_cons.
  pose proof (zlen_nonneg l1). replace (8 * (zlen l1 + 1)) with (8 + 8 * zlen l1) by lia.
  rewrite Z.pow_add_r by lia. change (2 ^ 8) with 256. lia.
Qed.
Lemma shiftr_le_val l1 l2 : is_bytes l1 -> zlen l1 = 4 -> Z.shiftr (le_val (l1 ++ l2)) 32 = le_val l2.
Proof.
  intros Hl H4. rewrite le_val_app, H4 by done. pose proof (le_val_range l1 Hl) as Hr.
  unfold zlen in H4. rewrite H4 in Hr. change (256 ^ 4) with 4294967296 in Hr.
  rewrite Z.shiftl_mul_pow2, Z.shiftr_div_pow2 by lia. change (2 ^ 32) with 4294967296. change (2 ^ (8 * 4)) with 4294967296.
  rewrite Z.div_add, Z.div_small by lia. lia.
Qed.

(** ** Runs *)
Section Runs.
Context {E D : Type} `{JtagPioSpec E D}.
Implicit Types s : swd_state E.
Implicit Types v : jtag_view D.

(** What is known of a state: the program recorded and the view. *)
Definition at_w (p : pio_program) v s : Prop :=
  current_program (tip s) = p /\ jpio_wf (env s) /\ jview (env s) = v.

Lemma run_jquiet {A} c (f : unit -> M (swd_state E) A) p v v' s (P : outcome (swd_state E) A -> Prop) :
  at_w p v s -> jquiet c v = Some v' ->
  (forall s', at_w p v' s' -> P (f tt s')) -> P (bind (pio_do c) f s).
Proof.
  intros (<- & Hwf & <-) Hq HP. assert (Hr : jready (jview (env s)) c) by (by destruct c).
  destruct (jpio_law (env s) c Hwf Hr) as (r & e & He & Hwf' & Hs).
  unfold bind, pio_do, pio_, in_env, bind. rewrite He. unfold ret. apply HP.
  split_and!; try done. cbn. inversion Hs; subst; try done. congruence.
Qed.
Lemma run_add {A} q (f : Z -> M (swd_state E) A) p v s (P : outcome (swd_state E) A -> Prop) :
  at_w p v s -> (forall o s', at_w p (set_jcontrol (Some q) (jv_pins v) (jv_running v) v) s' -> P (f o s')) ->
  P (bind (pio_ (pio_add_program q)) f s).
Proof.
  intros (<- & Hwf & <-) HP. destruct (jpio_law (env s) (pio_add_program q) Hwf I) as (r & e & He & Hwf' & Hs).
  unfold bind, pio_, in_env. rewrite He. apply HP. split_and!; try done. cbn. inversion Hs; subst. by cbn in *; simplify_eq.
Qed.
Lemma run_update {A} b (f : unit -> M (swd_state E) A) p v s (P : outcome (swd_state E) A -> Prop) :
  at_w p v s -> (forall s', at_w p v s' -> P (f tt s')) -> P (bind (upd_tip (set_update b)) f s).
Proof. intros (<- & Hwf & <-) HP. apply HP. by split_and!. Qed.
Lemma run_program {A} q (f : unit -> M (swd_state E) A) p v s (P : outcome (swd_state E) A -> Prop) :
  at_w p v s -> (forall s', at_w q v s' -> P (f tt s')) -> P (bind (upd_tip (set_program q)) f s).
Proof. intros (<- & Hwf & <-) HP. apply HP. by split_and!. Qed.

(** The exchange a read of the FIFO completes. *)
Lemma run_exchange {A} (f : Z -> M (swd_state E) A) p v cnt l s (P : outcome (swd_state E) A -> Prop) :
  at_w p v s -> jv_rx v = [] -> jv_running v = true -> exchange v = Some (cnt, l) ->
  (forall w s', is_u32 w -> w mod 2 ^ (31 - cnt) = 0 -> zbits (cnt + 1) (Z.shiftr w (31 - cnt)) = fst (clocks l (jv_chain v)) ->
     at_w p (set_jchain (snd (clocks l (jv_chain v))) v) s' -> P (f w s')) ->
  P (bind (pio_ pio_sm_get_blocking) f s).
Proof.
  intros (<- & Hwf & <-) Hrx Hrun Hex HP.
  destruct (jpio_law (env s) pio_sm_get_blocking Hwf) as (r & e & He & Hwf' & Hs); [right; by eauto|].
  unfold bind, pio_, in_env. rewrite He.
  inversion Hs as [? ? ? Hq|x rx Hx|cnt' l' w o c Hrx' Hrun' Hex' Hc Hw Hz Hb]; subst; [done|congruence|].
  rewrite Hex in Hex'. injection Hex' as <- <-. apply HP; [done|done|by rewrite Hc|]. rewrite Hc. by split_and!.
Qed.

(** *** Which program is loaded, on which pins *)
Definition jpins (p : pio_program) : Z * Z :=
  match p with
  | PIO_PROGRAM_JTAG_DP_TMS_SEQ => (PIN_TARGET1_TMS, PIN_TARGET1_TDI)
  | _ => (PIN_TARGET1_TDI, PIN_TARGET1_TMS)
  end.
(** What the code thinks of the state machine is so. *)
Definition recorded p v : Prop :=
  is_jtag_program p = true -> jv_loaded v = Some PIO_PROGRAM_JTAG_DP_TDI_TDO_SEQ /\ jv_pins v = Some (jpins p).
Definition wire_wf s : Prop :=
  jpio_wf (env s) /\ recorded (current_program (tip s)) (jview (env s)).
(** A view with the program of [p], stopped, its FIFOs cleared. *)
Definition ready_for p v : jtag_view D :=
  {| jv_loaded := Some PIO_PROGRAM_JTAG_DP_TDI_TDO_SEQ; jv_pins := Some (jpins p); jv_running := false;
     jv_tx := []; jv_rx := []; jv_chain := jv_chain v |}.
(** The words of the exchange under way. *)
Definition with_tx p r tx c : jtag_view D :=
  {| jv_loaded := Some PIO_PROGRAM_JTAG_DP_TDI_TDO_SEQ; jv_pins := Some (jpins p); jv_running := r;
     jv_tx := tx; jv_rx := []; jv_chain := c |}.

Ltac jquiet_step := eapply run_jquiet; [eassumption|reflexivity|]; let s' := fresh "s" in let Hat := fresh "Hat" in intros s' Hat.

Lemma run_load_jtag {A} out set (f : unit -> M (swd_state E) A) p v s (P : outcome (swd_state E) A -> Prop) :
  at_w p v s ->
  (forall s', at_w p {| jv_loaded := Some PIO_PROGRAM_JTAG_DP_TDI_TDO_SEQ; jv_pins := Some (out, set); jv_running := false;
                        jv_tx := jv_tx v; jv_rx := jv_rx v; jv_chain := jv_chain v |} s' -> P (f tt s')) ->
  P (bind (load_jtag out set) f s).
Proof.
  intros Hat HP. unfold load_jtag. rewrite bind_bind. unfold bind at 1, get. rewrite bind_bind. jquiet_step.
  rewrite bind_bind. eapply run_add; [eassumption|]. intros o s1 Hat1.
  rewrite bind_bind. eapply run_update; [eassumption|]. intros s2 Hat2.
  rewrite bind_bind. unfold platorm_pio_non_iso_jtag_pins_config. do 6 (rewrite bind_bind; jquiet_step).
  jquiet_step. jquiet_step. by apply HP.
Qed.
Lemma run_switch {A} out set (f : unit -> M (swd_state E) A) p v q s (P : outcome (swd_state E) A -> Prop) :
  at_w p v s -> jv_pins v = Some q ->
  (forall s', at_w p (set_jcontrol (jv_loaded v) (Some (out, set)) (jv_running v) v) s' -> P (f tt s')) ->
  P (bind (switch_pins out set) f s).
Proof.
  intros Hat Hp HP. unfold switch_pins. rewrite bind_bind. jquiet_step. jquiet_step. rewrite Hp in *. by apply HP.
Qed.
Lemma run_clock_update {A} (f : unit -> M (swd_state E) A) p v s (P : outcome (swd_state E) A -> Prop) :
  at_w p v s -> (forall s', at_w p v s' -> P (f tt s')) -> P (bind update_clock f s).
Proof.
  intros Hat HP. unfold update_clock. rewrite bind_bind. unfold bind at 1, get. destruct (update_clkdiv (tip s)); cbn [when].
  - rewrite bind_bind. jquiet_step. rewrite bind_bind. jquiet_step. eapply run_update; [eassumption|]. done.
  - rewrite bind_ret. by apply HP.
Qed.

(** The start of each function: whatever was loaded, it ends with the program
    of [q] stopped. *)
Definition loaded_for q v : jtag_view D :=
  {| jv_loaded := Some PIO_PROGRAM_JTAG_DP_TDI_TDO_SEQ; jv_pins := Some (jpins q); jv_running := false;
     jv_tx := jv_tx v; jv_rx := jv_rx v; jv_chain := jv_chain v |}.
Lemma run_prepare_tdi {A} q (f : unit -> M (swd_state E) A) p v s (P : outcome (swd_state E) A -> Prop) :
  at_w p v s -> recorded p v -> is_jtag_program q = true -> q <> PIO_PROGRAM_JTAG_DP_TMS_SEQ ->
  (forall s', at_w q (loaded_for q v) s' -> P (f tt s')) -> P (bind (prepare_tdi q) f s).
Proof.
  intros Hat Hrec Hj Hq HP. unfold prepare_tdi. rewrite bind_bind. jquiet_step.
  rewrite bind_bind. unfold bind at 1, get. pose proof Hat0 as (Hcur & _). rewrite Hcur. rewrite bind_bind.
  assert (Hfin : forall s1, at_w p (loaded_for q v) s1 ->
    P (bind (let! _ := upd_tip (set_program q) in update_clock) f s1)).
  { intros s1 Hat1. rewrite bind_bind. eapply run_program; [exact Hat1|]. intros s2 Hat2. eapply run_clock_update; [exact Hat2|done]. }
  assert (Hpq : jpins q = (PIN_TARGET1_TDI, PIN_TARGET1_TMS)) by (by destruct q).
  assert (Hkeep : is_jtag_program p = true -> p <> PIO_PROGRAM_JTAG_DP_TMS_SEQ ->
    P (bind (ret tt) (fun _ => bind (let! _ := upd_tip (set_program q) in update_clock) f) s0)).
  { intros Hp Hne. destruct (Hrec Hp) as [Hl Hpins]. rewrite bind_ret. apply Hfin.
    assert (Heq : set_jcontrol (jv_loaded v) (jv_pins v) false v = loaded_for q v); [|by rewrite <- Heq].
    unfold set_jcontrol, loaded_for. rewrite Hl, Hpins, Hpq. by destruct p. }
  case_bool_decide as Hb1; [by apply Hkeep; congruence|]. case_bool_decide as Hb2.
  - destruct Hrec as [Hl Hpins]; [by rewrite Hb2|]. eapply run_switch; [exact Hat0|exact Hpins|]. intros s1 Hat1. apply Hfin.
    cbn in Hat1. unfold set_jcontrol in Hat1. cbn in Hat1. unfold loaded_for. rewrite Hpq, <- Hl. exact Hat1.
  - destruct (is_jtag_program p) eqn:Hp; [by apply Hkeep|]. eapply run_load_jtag; [exact Hat0|]. intros s1 Hat1. apply Hfin.
    unfold loaded_for. rewrite Hpq. exact Hat1.
Qed.
Lemma run_prepare_tms {A} (f : unit -> M (swd_state E) A) p v s (P : outcome (swd_state E) A -> Prop) :
  at_w p v s -> recorded p v ->
  (forall s', at_w PIO_PROGRAM_JTAG_DP_TMS_SEQ (loaded_for PIO_PROGRAM_JTAG_DP_TMS_SEQ v) s' -> P (f tt s')) ->
  P (bind prepare_tms f s).
Proof.
  intros Hat Hrec HP. unfold prepare_tms. rewrite bind_bind. jquiet_step.
  rewrite bind_bind. unfold bind at 1, get. pose proof Hat0 as (Hcur & _). rewrite Hcur. rewrite bind_bind.
  assert (Hfin : forall s1, at_w p (loaded_for PIO_PROGRAM_JTAG_DP_TMS_SEQ v) s1 ->
    P (bind (let! _ := upd_tip (set_program PIO_PROGRAM_JTAG_DP_TMS_SEQ) in update_clock) f s1)).
  { intros s1 Hat1. rewrite bind_bind. eapply run_program; [exact Hat1|]. intros s2 Hat2. eapply run_clock_update; [exact Hat2|done]. }
  case_bool_decide as Hb1.
  - destruct Hrec as [Hl Hpins]; [by rewrite Hb1|]. rewrite bind_ret. apply Hfin. rewrite Hb1 in Hpins.
    unfold set_jcontrol in Hat0. rewrite Hl, Hpins in Hat0. exact Hat0.
  - destruct (is_jtag_program p) eqn:Hp.
    + destruct (Hrec Hp) as [Hl Hpins]. eapply run_switch; [exact Hat0|exact Hpins|]. intros s1 Hat1. apply Hfin.
      unfold set_jcontrol in Hat1. cbn in Hat1. rewrite Hl in Hat1. exact Hat1.
    + eapply run_load_jtag; [exact Hat0|]. intros s1 Hat1. apply Hfin. exact Hat1.
Qed.

(** *** The words of an exchange *)
Lemma exchange_tdi q a f cnt data r c : q <> PIO_PROGRAM_JTAG_DP_TMS_SEQ -> 0 <= cnt <= 31 ->
  exchange (with_tx q r [a; f; cnt; data] c) =
    Some (cnt, set_line (negb (a =? 0)) (negb (f =? 0)) (zbits (cnt + 1) data)).
Proof.
  intros Hq Hc. unfold exchange, with_tx. cbn [jv_loaded jv_pins jv_tx].
  assert (Hpq : jpins q = (PIN_TARGET1_TDI, PIN_TARGET1_TMS)) by (by destruct q). rewrite Hpq.
  by rewrite !(proj2 (Z.leb_le _ _)) by lia.
Qed.
Lemma exchange_tms a f cnt data r c : 0 <= cnt <= 31 ->
  exchange (with_tx PIO_PROGRAM_JTAG_DP_TMS_SEQ r [a; f; cnt; data] c) =
    Some (cnt, swapped <$> set_line (negb (a =? 0)) (negb (f =? 0)) (zbits (cnt + 1) data)).
Proof. intros Hc. unfold exchange, with_tx. cbn [jv_loaded jv_pins jv_tx]. by rewrite !(proj2 (Z.leb_le _ _)) by lia. Qed.

(** The outcome of a function that returns. *)
Definition returns {A} (R : A -> swd_state E -> Prop) (o : outcome (swd_state E) A) : Prop :=
  exists a s', o = Ok a s' /\ R a s'.
Definition chain_of_wire s : tap_chain D := jv_chain (jview (env s)).

Lemma tms_seq_clocks s MS n : wire_wf s -> 0 < n <= 32 ->
  returns (fun _ s' => wire_wf s' /\ chain_of_wire s' = snd (clocks (tms_clocks (zbits n MS)) (chain_of_wire s)))
    (jtag_tms_seq MS n s).
Proof.
  intros [Hwf Hrec] Hn. unfold jtag_tms_seq. eapply run_prepare_tms; [by split_and!|exact Hrec|]. intros s1 Hat1.
  do 5 jquiet_step. rewrite u32_small in * by lia. do 2 jquiet_step.
  unfold pio_do at 1. rewrite bind_bind. eapply run_exchange; [eassumption|done|done|exact (exchange_tms 1 1 (n - 1) MS true _ ltac:(lia))|].
  intros w s9 _ _ _ Hat9. rewrite bind_ret. rewrite <- bind_ret_r.
  eapply run_jquiet; [exact Hat9|reflexivity|]. intros s10 Hat10.
  eexists _, _. split; [reflexivity|]. destruct Hat10 as (Hp & Hwf' & Hv).
  split; [split; [done|]|].
  - rewrite Hp, Hv. by intros _.
  - unfold chain_of_wire. rewrite Hv. cbn [jv_chain set_jcontrol set_jchain]. rewrite set_line_tms.
    by replace (n - 1 + 1) with n by lia.
Qed.

(** A round shifts the low bits of the data, at most 32. *)
Lemma byte_count_nbytes i : 0 < i -> byte_count i = nbytes (Z.min i 32).
Proof.
  intros Hi. unfold byte_count, nbytes. destruct (Z.ltb_spec 32 i) as [Hl|Hl]; [by rewrite Z.min_r by lia|].
  rewrite Z.min_l by lia. rewrite Z.rem_mod_nonneg, Z.quot_div_nonneg by lia.
  destruct (Z.eqb_spec (i mod 8) 0); Z.to_euclidean_division_equations; lia.
Qed.
Lemma run_seq_round {A} q final i DI c (f : Z -> M (swd_state E) A) s (P : outcome (swd_state E) A -> Prop) :
  at_w q (with_tx q true [] c) s -> q <> PIO_PROGRAM_JTAG_DP_TMS_SEQ -> 0 < i -> is_bytes DI -> nbytes i <= zlen DI ->
  let k := Z.min i 32 in
  let r := clocks (tdi_clocks (final && (i <=? 32)) (zbits k (le_val DI))) c in
  (forall w s', is_u32 w -> zbits k (Z.shiftr w (32 - k)) = fst r -> at_w q (with_tx q true [] (snd r)) s' -> P (f w s')) ->
  P (bind (seq_round final i DI) f s).
Proof.
  intros Hat Hq Hi HDI Hl k r HP. unfold seq_round. rewrite byte_count_nbytes by done. fold k.
  destruct (nbytes_enough k) as [Hk8 Hk0]; [lia|].
  assert (Hkn : nbytes k <= zlen DI).
  { etransitivity; [|exact Hl]. unfold nbytes. apply Z.div_le_mono; lia. }
  destruct (load_bits DI k s ltac:(lia) Hkn) as [Hload _]. rewrite bind_bind, (bind_Ok _ _ _ _ _ Hload).
  rewrite bind_bind. jquiet_step. rewrite bind_bind. jquiet_step. rewrite bind_bind. jquiet_step. rewrite bind_bind. jquiet_step.
  cbn in Hat3. assert (Hcnt : (if 32 <? i then 32 - 1 else i - 1) = k - 1) by (destruct (Z.ltb_spec 32 i); lia).
  rewrite Hcnt in *. change (set_jfifos _ _ _) with (with_tx q true [0; if 32 <? i then 0 else if final then 1 else 0; k - 1; le_val (ztake (nbytes k) DI)] c) in Hat3.
  assert (Hex := exchange_tdi q 0 (if 32 <? i then 0 else if final then 1 else 0) (k - 1) (le_val (ztake (nbytes k) DI)) true c Hq ltac:(lia)).
  change (negb (0 =? 0)) with false in Hex. rewrite set_line_tdi in Hex. replace (k - 1 + 1) with k in Hex by lia.
  rewrite zbits_take in Hex by (done || lia).
  assert (Hf : negb ((if 32 <? i then 0 else if final then 1 else 0) =? 0) = final && (i <=? 32)).
  { rewrite Z.leb_antisym. destruct (32 <? i), final; done. }
  rewrite Hf in Hex. eapply run_exchange; [exact Hat3|done|done|exact Hex|].
  intros w s5 Hw _ Hb Hat5. apply HP; [done| |exact Hat5]. replace (31 - (k - 1)) with (32 - k) in Hb by lia.
  by replace (k - 1 + 1) with k in Hb by lia.
Qed.

(** The bytes stored hold the bits of the exchange. *)
Lemma stored_is i w : 0 < i -> let k := Z.min i 32 in
  zlen (stored_bytes i w) = nbytes k /\ is_bytes (stored_bytes i w) /\
  zbits k (le_val (stored_bytes i w)) = zbits k (Z.shiftr w (32 - k)).
Proof.
  intros Hi k. unfold stored_bytes. rewrite byte_count_nbytes by done. fold k.
  destruct (nbytes_enough k) as [Hk8 Hk0]; [lia|].
  assert (Hw : (if (if 32 <? i then 32 - 1 else i - 1) =? 32 - 1 then w
    else Z.shiftr w (32 - 1 - (if 32 <? i then 32 - 1 else i - 1))) = Z.shiftr w (32 - k)).
  { destruct (Z.ltb_spec 32 i) as [Hl|Hl]; [by replace (32 - k) with 0 by lia|].
    destruct (Z.eqb_spec (i - 1) (32 - 1)); [by replace (32 - k) with 0 by lia|].
    f_equal. lia. }
  rewrite Hw. split; [unfold zlen; rewrite length_le_bytes; lia|]. split; [apply le_bytes_is_bytes|].
  apply zbits_le_bytes. lia.
Qed.
(** A sequence of more than a word: the first word, then the rest. *)
Lemma words_split i l : 32 < i -> is_bytes l -> nbytes i <= zlen l ->
  zbits i (le_val l) = zbits 32 (le_val l) ++ zbits (i - 32) (le_val (zdrop 4 l)).
Proof.
  intros Hi Hl Hn. assert (H4 : 4 <= zlen l).
  { etransitivity; [|exact Hn]. unfold nbytes. apply Z.div_le_lower_bound; lia. }
  rewrite zbits_split by done. f_equal. f_equal. rewrite <- (ztake_zdrop 4 l) at 1.
  apply shiftr_le_val; [by apply Forall_take|]. apply zlen_ztake. lia.
Qed.
Lemma nbytes_32 i : nbytes i = 4 + nbytes (i - 32).
Proof. unfold nbytes. replace (i + 7) with (i - 32 + 7 + 4 * 8) by lia. rewrite Z.div_add by lia. lia. Qed.

Lemma tdi_tdo_rounds q final fuel i DI DO c s : q <> PIO_PROGRAM_JTAG_DP_TMS_SEQ ->
  at_w q (with_tx q true [] c) s -> i <= 32 * (Z.of_nat fuel - 1) -> (0 < fuel)%nat ->
  is_bytes DI -> nbytes (Z.max 0 i) <= zlen DI ->
  let r := clocks (tdi_clocks final (zbits i (le_val DI))) c in
  returns (fun out s' => at_w q (with_tx q true [] (snd r)) s' /\
      exists O, out = DO ++ O /\ zlen O = nbytes (Z.max 0 i) /\ is_bytes O /\ zbits i (le_val O) = fst r)
    (iter fuel (tdi_tdo_round final) (i, DI, DO) s).
Proof.
  intros Hq. revert i DI DO c s. induction fuel as [|fuel IH]; intros i DI DO c s Hat Hfuel Hpos HDI Hl r; [lia|].
  rewrite iter_S. unfold tdi_tdo_round at 1. destruct (Z.leb_spec i 0) as [Hi|Hi].
  { rewrite !bind_ret. eexists _, _. split; [reflexivity|]. unfold r.
    assert (Hz : forall x, zbits i x = []) by (intros x; unfold zbits; by rewrite seqZ_nil by lia).
    rewrite !Hz. split; [exact Hat|]. exists []. rewrite app_nil_r, Z.max_l by lia. by rewrite Hz. }
  rewrite Z.max_r in * by lia. rewrite bind_bind.
  eapply run_seq_round; [exact Hat|exact Hq|exact Hi|exact HDI|exact Hl|]. intros w s1 Hw Hb Hat1. rewrite bind_ret.
  destruct (stored_is i w Hi) as (Hbl & Hbb & Hbits). rewrite Hb in Hbits. rewrite byte_count_nbytes by done.
  destruct (Z.leb_spec i 32) as [H32|H32].
  - rewrite Z.min_l in * by lia. rewrite andb_true_r in Hbits, Hat1.
    destruct (IH (i - 32) (zdrop (nbytes i) DI) (DO ++ stored_bytes i w) _ s1 Hat1) as (out & s' & Hrun & Hat' & O & HO & HOl & _);
      [lia|lia|by apply Forall_drop|rewrite Z.max_l by lia; apply zlen_nonneg|].
    rewrite Z.max_l in HOl by lia. change (nbytes 0) with 0 in HOl. destruct O; [|unfold zlen in HOl; cbn in HOl; lia].
    exists out, s'. split; [exact Hrun|]. split.
    + assert (Hz : zbits (i - 32) (le_val (zdrop (nbytes i) DI)) = []) by (unfold zbits; by rewrite seqZ_nil by lia).
      rewrite Hz in Hat'. exact Hat'.
    + exists (stored_bytes i w). by rewrite HO, app_nil_r.
  - rewrite Z.min_r in * by lia. rewrite andb_false_r in Hbits, Hat1. change (nbytes 32) with 4 in *.
    assert (Hn4 := nbytes_32 i). assert (Hn0 : 0 <= nbytes (i - 32)) by (apply nbytes_enough; lia).
    destruct (IH (i - 32) (zdrop 4 DI) (DO ++ stored_bytes i w) _ s1 Hat1) as (out & s' & Hrun & Hat' & O & HO & HOl & HOb & HOv);
      [lia|lia|by apply Forall_drop|rewrite Z.max_r, zlen_zdrop by lia; lia|].
    rewrite Z.max_r in HOl by lia.
    assert (Hr : r = (fst (clocks (tdi_clocks false (zbits 32 (le_val DI))) c) ++ zbits (i - 32) (le_val O),
      snd (clocks (tdi_clocks final (zbits (i - 32) (le_val (zdrop 4 DI)))) (snd (clocks (tdi_clocks false (zbits 32 (le_val DI))) c))))).
    { unfold r. rewrite words_split by (done || lia). rewrite tdi_clocks_app.
      - rewrite clocks_app, HOv. clear. set (l1 := tdi_clocks false _). destruct (clocks l1 c) as [o1 c1]. cbn [fst snd].
        set (l2 := tdi_clocks final _). by destruct (clocks l2 c1).
      - intros Hnil. apply (f_equal length) in Hnil. rewrite length_zbits in Hnil. cbn in Hnil. lia. }
    rewrite Hr. cbn [fst snd]. exists out, s'. split; [exact Hrun|]. split; [exact Hat'|].
    exists (stored_bytes i w ++ O). split; [by rewrite HO, app_assoc|]. split; [rewrite zlen_app; lia|].
    split; [by apply Forall_app|]. rewrite words_split; [|done|by apply Forall_app|rewrite zlen_app; lia].
    f_equal.
    + rewrite <- Hbits. rewrite <- (zbits_take 32 4 (stored_bytes i w ++ O)) by (try apply Forall_app; done || lia).
      f_equal. f_equal. unfold ztake. rewrite take_app_length'; [done|]. unfold zlen in Hbl. lia.
    + f_equal. f_equal. unfold zdrop. apply drop_app_length'. unfold zlen in Hbl. lia.
Qed.

(** [jtag_tdi_seq] does what [jtag_tdi_tdo_seq] does. *)
Lemma tdi_rounds final fuel i DI DO s :
  iter fuel (tdi_round final) (i, DI) s = bind (iter fuel (tdi_tdo_round final) (i, DI, DO)) (fun _ => ret tt) s.
Proof.
  revert i DI DO s. induction fuel as [|fuel IH]; intros i DI DO s; [done|].
  unfold bind at 1. rewrite !iter_S. unfold tdi_round at 1, tdi_tdo_round at 1. destruct (i <=? 0); [done|].
  rewrite !bind_bind. unfold bind. destruct (seq_round final i DI s) as [w s1| | |]; try done. unfold ret at 1 2. apply (IH _ _ (DO ++ stored_bytes i w)).
Qed.

(** What the wire functions leave behind. *)
Lemma stopped_wf q s c : is_jtag_program q = true -> at_w q (with_tx q false [] c) s -> wire_wf s /\ chain_of_wire s = c.
Proof. intros Hq (Hp & Hwf & Hv). unfold wire_wf, chain_of_wire, recorded. rewrite Hp, Hv. by split_and!. Qed.

Lemma tdi_tdo_seq_clocks final DI n s : wire_wf s -> 0 <= n -> zlen DI = nbytes n -> is_bytes DI ->
  let r := clocks (tdi_clocks final (zbits n (le_val DI))) (chain_of_wire s) in
  returns (fun DO s' => wire_wf s' /\ zlen DO = nbytes n /\ is_bytes DO /\ (zbits n (le_val DO), chain_of_wire s') = r)
    (jtag_tdi_tdo_seq final DI n s).
Proof.
  intros [Hwf Hrec] Hn Hl HDI r. unfold jtag_tdi_tdo_seq.
  eapply (run_prepare_tdi PIO_PROGRAM_JTAG_DP_TDI_TDO_SEQ); [by split_and!|exact Hrec|done|done|]. intros s1 Hat1.
  do 2 jquiet_step.
  destruct (tdi_tdo_rounds PIO_PROGRAM_JTAG_DP_TDI_TDO_SEQ final (S (S (Z.to_nat (n / 32)))) n DI [] (chain_of_wire s) s2)
    as (DO & s3 & Hrun & Hat3 & O & -> & HOl & HOb & HOv); [done|exact Hat0| |lia|done|rewrite Z.max_r by lia; lia|].
  { pose proof (Z.div_mod n 32 ltac:(lia)). pose proof (Z.mod_pos_bound n 32 ltac:(lia)). lia. }
  rewrite (bind_Ok _ _ _ _ _ Hrun). jquiet_step. cbn [app] in *. rewrite Z.max_r in HOl by lia.
  eexists _, _. split; [reflexivity|]. destruct (stopped_wf PIO_PROGRAM_JTAG_DP_TDI_TDO_SEQ _ _ eq_refl Hat2) as [Hwf' Hc].
  split; [done|]. split; [done|]. split; [done|]. rewrite Hc, HOv. unfold r. by destruct (clocks _ _).
Qed.
Lemma tdi_seq_clocks final DI n s : wire_wf s -> 0 <= n -> zlen DI = nbytes n -> is_bytes DI ->
  returns (fun _ s' => wire_wf s' /\ chain_of_wire s' = snd (clocks (tdi_clocks final (zbits n (le_val DI))) (chain_of_wire s)))
    (jtag_tdi_seq final DI n s).
Proof.
  intros [Hwf Hrec] Hn Hl HDI. unfold jtag_tdi_seq.
  eapply (run_prepare_tdi PIO_PROGRAM_JTAG_DP_TDI_SEQ); [by split_and!|exact Hrec|done|done|]. intros s1 Hat1.
  do 2 jquiet_step.
  destruct (tdi_tdo_rounds PIO_PROGRAM_JTAG_DP_TDI_SEQ final (S (S (Z.to_nat (n / 32)))) n DI [] (chain_of_wire s) s2)
    as (DO & s3 & Hrun & Hat3 & _); [done|exact Hat0| |lia|done|rewrite Z.max_r by lia; lia|].
  { pose proof (Z.div_mod n 32 ltac:(lia)). pose proof (Z.mod_pos_bound n 32 ltac:(lia)). lia. }
  assert (Hrun' : iter (S (S (Z.to_nat (n / 32)))) (tdi_round final) (n, DI) s2 = Ok tt s3).
  { rewrite (tdi_rounds _ _ _ _ []). by rewrite (bind_Ok _ _ _ _ _ Hrun). }
  rewrite (bind_Ok _ _ _ _ _ Hrun'). rewrite <- bind_ret_r. jquiet_step.
  eexists _, _. split; [reflexivity|]. exact (stopped_wf PIO_PROGRAM_JTAG_DP_TDI_SEQ _ _ eq_refl Hat2).
Qed.

(** [jtag_next] is one clock, with the bit that comes out. *)
Lemma next_clocks tms tdi s : wire_wf s ->
  returns (fun o s' => wire_wf s' /\ (o, chain_of_wire s') = clock (chain_of_wire s) tms tdi) (jtag_next tms tdi s).
Proof.
  intros [Hwf Hrec]. unfold jtag_next.
  eapply (run_prepare_tdi PIO_PROGRAM_JTAG_DP_NEXT); [by split_and!|exact Hrec|done|done|]. intros s1 Hat1.
  do 6 jquiet_step.
  assert (Hex := exchange_tdi PIO_PROGRAM_JTAG_DP_NEXT (if tms then 1 else 0) (if tms then 1 else 0) 0 (if tdi then 1 else 0)
    true (chain_of_wire s) ltac:(done) ltac:(lia)).
  eapply run_exchange; [eassumption|done|done|exact Hex|]. intros w s8 Hw Hz8 Hb Hat8.
  jquiet_step. eexists _, _. split; [reflexivity|].
  set (l := set_line (negb ((if tms then 1 else 0) =? 0)) (negb ((if tms then 1 else 0) =? 0)) (zbits (0 + 1) (if tdi then 1 else 0))) in *.
  assert (Hl : l = [(tms, tdi)]) by (unfold l; by destruct tms, tdi).
  assert (Hat' : at_w PIO_PROGRAM_JTAG_DP_NEXT (with_tx PIO_PROGRAM_JTAG_DP_NEXT false [] (snd (clocks l (chain_of_wire s)))) s7)
    by exact Hat6.
  assert (Hb' : zbits 1 (Z.shiftr w 31) = fst (clocks l (chain_of_wire s))) by exact Hb. rewrite Hl in Hb', Hat'.
  cbn [clocks] in Hb', Hat'. destruct (clock (chain_of_wire s) tms tdi) as [o c1]. cbn [fst snd] in Hb', Hat'.
  destruct (stopped_wf PIO_PROGRAM_JTAG_DP_NEXT s7 c1 eq_refl Hat') as [Hwf' Hc]. split; [done|]. rewrite Hc. f_equal.
  change (31 - 0) with 31 in Hz8. unfold in_width in Hw.
  assert (Hq : Z.shiftr w 31 = 0 /\ w = 0 \/ Z.shiftr w 31 = 1 /\ w = 2 ^ 31).
  { rewrite Z.shiftr_div_pow2 by lia. pose proof (Z.div_mod w (2 ^ 31) ltac:(lia)). lia. }
  destruct Hq as [[Hs ->] | [Hs ->]]; rewrite Hs in Hb'; injection Hb' as <-; reflexivity.
Qed.
End Runs.

(** The wire functions are what jtag_scan.c relies on. *)
#[export] Instance wire_spec {E D} `{JtagPioSpec E D} : TapSpec (swd_state E) D.
Proof.
  refine {| tap_wf := wire_wf; tap_of := chain_of_wire |}.
  - intros w MS n Hwf Hn. destruct (tms_seq_clocks w MS n Hwf Hn) as ([] & w' & Hr & Hwf' & Hc). by exists w'.
  - intros w f DI n Hwf Hn Hl Hb. destruct (tdi_seq_clocks f DI n w Hwf Hn Hl Hb) as ([] & w' & Hr & Hwf' & Hc). by exists w'.
  - intros w f DI n Hwf Hn Hl Hb. destruct (tdi_tdo_seq_clocks f DI n w Hwf Hn Hl Hb) as (DO & w' & Hr & Hwf' & HDO & HDb & Hc).
    by exists DO, w'.
Defined.

(** With a device selected, [jtag_dev_shift_dr] on the PIO returns exactly
    the bits the device's data register captures and leaves in it exactly the
    bits given, whatever is before and behind it in the chain, whatever program
    the state machine ran before, and however many words the shift takes. *)
Theorem wire_shift_dr {E D} `{JtagPioSpec E D} lens i n ir din ticks (s : jtag_state (swd_state E)) :
  chain_ok lens s -> lens !! i = Some n -> irs (chain_of_wire (wire s)) = selection lens i ir -> is_bypass ir = false ->
  0 < ticks -> Z.to_nat ticks = length (dr_capture (state (chain_of_wire (wire s))) i ir) ->
  is_bytes din -> nbytes ticks <= zlen din -> (length lens <= 32)%nat ->
  exists out s', jtag_dev_shift_dr (Z.of_nat i) true din ticks s = Ok out s' /\ chain_ok lens s' /\
    zbits ticks (le_val out) = dr_capture (state (chain_of_wire (wire s))) i ir /\
    irs (chain_of_wire (wire s')) = selection lens i ir /\
    state (chain_of_wire (wire s')) = dr_update (state (chain_of_wire (wire s))) i ir (zbits ticks (le_val din)).
Proof.
  intros. destruct (shift_dr_ok (D := D) lens i n ir true din ticks s) as (out & s' & Hr & Hok & Ho & Hi & Hs); try done.
  exists out, s'. split; [done|]. split; [done|]. split; [by apply Ho|done].
Qed.

(** [jtag_next] makes one clock with the TMS and TDI given and returns the
    bit the chain puts out, whatever program the state machine ran before. *)
Theorem wire_next {E D} `{JtagPioSpec E D} tms tdi (s : swd_state E) : wire_wf s ->
  exists o s', jtag_next tms tdi s = Ok o s' /\ wire_wf s' /\ (o, chain_of_wire s') = clock (chain_of_wire s) tms tdi.
Proof. apply next_clocks. Qed.

(** ** A simulated state machine with a chain *)
Module WireSim.
Import JtagSim.
Section Sim.
Context {D : Type} `{Registers D}.
Notation view_ := (jtag_view D).
Definition run_call (c : pio_call) (v : view_) : outcome view_ Z :=
  match jquiet c v with
  | Some v' => Ok 0 v'
  | None =>
      match jv_rx v with
      | x :: rx => Ok x (set_jfifos (jv_tx v) rx v)
      | [] =>
          match jv_running v, exchange v with
          | true, Some (cnt, l) =>
              let '(o, c) := clocks l (jv_chain v) in Ok (Z.shiftl (of_bits o) (31 - cnt)) (set_jchain c v)
          | _, _ => Hang
          end
      end
  end.
#[export] Instance sim_pio : PioIf view_ := { pio := run_call }.

Lemma of_bits_range l : 0 <= of_bits l < 2 ^ Z.of_nat (length l).
Proof.
  induction l as [|b l IH]; [done|]. cbn [of_bits length]. rewrite Nat2Z.inj_succ, Z.pow_succ_r by lia. destruct b; lia.
Qed.
Lemma exchange_length (v : view_) cnt l : exchange v = Some (cnt, l) -> 0 <= cnt <= 31 /\ Z.of_nat (length l) = cnt + 1.
Proof.
  unfold exchange. intros Hex. repeat case_match; simplify_eq; split; try lia.
  all: rewrite ?length_fmap. all: assert (Hlen : forall a f x, length (set_line a f x) = length x)
    by (intros a f x; induction x as [|b [|b2 x] IH]; [done|done|cbn in *; lia]).
  all: rewrite Hlen, length_zbits; lia.
Qed.
Lemma wire_sim_law (v : view_) c : True -> jready v c -> exists r v', pio c v = Ok r v' /\ True /\ jstep v c r v'.
Proof.
  intros _ Hready. cbn [pio sim_pio]. unfold run_call. destruct (jquiet c v) as [v'|] eqn:Hq.
  { exists 0, v'. split_and!; [done|done|]. by constructor. }
  destruct c; try discriminate Hq. { by destruct c. }
  destruct (jv_rx v) as [|x rx] eqn:Hrx.
  2: { eexists _, _. split_and!; [done|done|]. by constructor. }
  destruct Hready as [|[Hrun [[cnt l] Hex]]]; [done|]. rewrite Hrun, Hex.
  destruct (exchange_length v cnt l Hex) as [Hc Hl]. destruct (clocks l (jv_chain v)) as [o c] eqn:Hclk.
  assert (Ho : Z.of_nat (length o) = cnt + 1) by (rewrite <- Hl, <- (length_clocks l (jv_chain v)), Hclk; done).
  pose proof (of_bits_range o) as Hr. rewrite Ho in Hr.
  eexists _, _. split; [done|]. split; [done|]. rewrite Z.shiftl_mul_pow2 by lia.
  assert (Hp : 2 ^ 32 = 2 ^ (cnt + 1) * 2 ^ (31 - cnt)) by (rewrite <- Z.pow_add_r by lia; f_equal; lia).
  assert (0 < 2 ^ (31 - cnt)) by (apply Z.pow_pos_nonneg; lia).
  eapply js_exchange; try done; [unfold in_width; nia|by apply Z.mod_mul; lia|].
  rewrite Z.shiftr_div_pow2, Z.div_mul by lia. rewrite <- Ho. apply zbits_of_bits.
Qed.
#[export] Instance sim_spec : JtagPioSpec view_ D :=
  {| jpio_wf := fun _ => True; jview := fun v => v; jpio_law := wire_sim_law |}.
End Sim.

(** The probe of JtagWitness, its chain behind a state machine an SWD program
    was left on. *)
Definition on_pio (s : jtag_state (tap_chain (list sim_dev))) : jtag_state (swd_state (jtag_view (list sim_dev))) :=
  {| jtag_devs := jtag_devs s; jtag_dev_count := jtag_dev_count s;
     wire := {| tip := {| current_program := PIO_PROGRAM_SWD_DP_LOW_WRITE; clkdiv := 0; update_clkdiv := true;
                          tms_direction := TARGET_INTERFACE_TMS_DIR_OUT |};
                dps := ∅;
                env := {| jv_loaded := Some PIO_PROGRAM_SWD_DP_LOW_WRITE; jv_pins := None; jv_running := true;
                          jv_tx := [1]; jv_rx := []; jv_chain := wire s |} |} |}.
Lemma on_pio_ok lens s : chain_ok lens s -> chain_ok lens (on_pio s).
Proof. by intros (_ & Hc). Qed.
End WireSim.
Import JtagSim WireSim JtagWitness.

Lemma wire_shift_dr_witness : exists out s',
  jtag_dev_shift_dr 0 true (le_bytes 8 0x55) 35 (on_pio selected2) = Ok out s' /\ zbits 35 (le_val out) = zbits 35 0x123456789.
Proof.
  destruct (wire_shift_dr [4; 5]%nat 0 4 [true; true; false; true] (le_bytes 8 0x55) 35 (on_pio selected2) (on_pio_ok _ _ selected2_ok))
    as (out & s' & Hr & _ & Ho & _); try reflexivity; [apply le_bytes_is_bytes|vm_compute; intros Hc; discriminate Hc|cbn; lia|].
  exists out, s'. split; [exact Hr|]. rewrite Ho. vm_compute. reflexivity.
Defined.
Lemma wire_next_witness : exists o s', jtag_next false true (wire (on_pio selected2)) = Ok o s' /\
  tap (chain_of_wire (D := list sim_dev) s') = RunTestIdle.
Proof.
  assert (Hwf : wire_wf (wire (on_pio selected2))) by (split; [exact I|intros Hf; discriminate Hf]).
  destruct (wire_next false true (wire (on_pio selected2)) Hwf) as (o & s' & Hr & _ & Hc). exists o, s'.
  split; [exact Hr|]. apply (f_equal snd) in Hc. cbn [snd] in Hc. rewrite Hc. vm_compute. reflexivity.
Defined.
