(* ===== verification/JtagDpProps.v ===== *)
(** The JTAG debug port of adiv5_jtagdp.c over a chain with an ARM debug port
    on it: what its accesses shift, how they answer a port that stalls, that
    the port they make satisfies the interface adiv5.c relies on, and memory
    over JTAG from the access port down to the PIO. *)

From Stdlib Require Import ZArith Lia ZifyBool String.
From stdpp Require Import base list numbers option gmap.
From S2P Require Import Prelude CLib Platform Exception Dap Adiv5 Adiv5Props Swd SwdProps Jtag JtagProps JtagWire JtagWireProps.

(** ** Requests and answers

    The 35 bits of an access, lowest first: RnW, A[2], A[3] and the value; and
    of an answer: the acknowledgement and the result of the access before. *)
Definition request_bits (RnW addr value : Z) : list bool :=
  [negb (RnW =? 0); Z.testbit addr 2; Z.testbit addr 3] ++ zbits 32 value.
Definition answer_bits (ack result : Z) : list bool := zbits 35 (ack + 8 * result).
Definition access_ir (APnDP : bool) : list bool := zbits 4 (if APnDP then IR_APACC else IR_DPACC).
Definition abort_ir : list bool := zbits 4 IR_ABORT.

Lemma zbits_inj n x y : 0 <= n -> zbits n x = zbits n y -> x mod 2 ^ n = y mod 2 ^ n.
Proof.
  intros Hn Hb. apply Z.bits_inj'. intros i Hi. destruct (Z.ltb_spec i n) as [Hl|Hl].
  - rewrite !Z.mod_pow2_bits_low by done. apply (f_equal (fun l => l !! Z.to_nat i)) in Hb. unfold zbits in Hb.
    rewrite !list_lookup_fmap, lookup_seqZ_lt in Hb by lia. cbn in Hb. injection Hb as Hb.
    by replace (Z.of_nat (Z.to_nat i)) with i in Hb by lia.
  - by rewrite !Z.mod_pow2_bits_high.
Qed.
Lemma testbit_land3 addr k : 0 <= k < 8 -> Z.testbit (Z.land addr 0xff) k = Z.testbit addr k.
Proof. intros Hk. change 0xff with (Z.ones 8). rewrite Z.land_ones by lia. apply Z.mod_pow2_bits_low. lia. Qed.

(** [fw_adiv5_jtagdp_low_access] makes the request of the JTAG debug port:
    every other bit of the address is ignored. *)
Lemma dpacc_request_bits RnW addr value : is_u32 value ->
  zbits 35 (le_val (le_bytes 8 (dpacc_request RnW addr value))) = request_bits RnW addr value.
Proof.
  intros Hv. rewrite zbits_le_bytes by lia. unfold dpacc_request, request_bits, zbits.
  set (low := if RnW =? 0 then 0 else 1).
  assert (Hbit : forall i, 0 <= i < 35 -> Z.testbit (u64 (Z.lor (Z.lor (Z.shiftl value 3)
      (Z.land (Z.shiftr (Z.land addr 0xff) 1) 6)) low)) i =
    if i =? 0 then negb (RnW =? 0) else if i <? 3 then Z.testbit addr (i + 1) else Z.testbit value (i - 3)).
  { intros i Hi. unfold u64, wrap. rewrite Z.mod_pow2_bits_low by lia. rewrite !Z.lor_spec, Z.land_spec, Z.shiftl_spec, Z.shiftr_spec by lia.
    assert (Hlow : Z.testbit low i = (i =? 0) && negb (RnW =? 0)).
    { unfold low. destruct (RnW =? 0); [by rewrite Z.bits_0, andb_false_r|]. rewrite andb_true_r.
      destruct (Z.eqb_spec i 0) as [->|]; [done|]. apply Z.bits_above_log2; cbn; lia. }
    rewrite Hlow. destruct (Z.ltb_spec i 3) as [H3|H3].
    - rewrite (Z.testbit_neg_r value) by lia. rewrite testbit_land3 by lia.
      assert (Hc : i = 0 \/ i = 1 \/ i = 2) by lia. destruct Hc as [-> | [-> | ->]]; cbn [Z.eqb Z.ltb orb andb].
      + by rewrite andb_false_r.
      + change (Z.testbit 6 1) with true. by rewrite andb_true_r, orb_false_r.
      + change (Z.testbit 6 2) with true. by rewrite andb_true_r, orb_false_r.
    - assert (Z.testbit 6 i = false) as -> by (apply Z.bits_above_log2; cbn; lia).
      rewrite andb_false_r, orb_false_r. destruct (Z.eqb_spec i 0); [lia|]. by rewrite orb_false_r. }
  change (seqZ 0 35) with (seqZ 0 (3 + 32)). rewrite seqZ_app, fmap_app by lia. f_equal.
  - change (seqZ 0 3) with [0; 1; 2]. cbn [fmap list_fmap]. by rewrite !Hbit by lia.
  - apply list_eq. intros i. rewrite !list_lookup_fmap. destruct (decide (i < 32)%nat).
    + rewrite !lookup_seqZ_lt by lia. cbn [fmap option_fmap option_map]. f_equal. rewrite Hbit by lia.
      rewrite (proj2 (Z.eqb_neq _ _)), (proj2 (Z.ltb_ge _ _)) by lia. f_equal. lia.
    + by rewrite !lookup_seqZ_ge by lia.
Qed.

(** What the code makes of the bits it captured. *)
Lemma response_fields x ack r : 0 <= ack < 8 -> is_u32 r -> zbits 35 x = answer_bits ack r ->
  Z.land x 7 = ack /\ u32 (Z.shiftr x 3) = r.
Proof.
  intros Ha Hr Hb. apply zbits_inj in Hb; [|lia]. unfold in_width in Hr.
  change 7 with (Z.ones 3). rewrite Z.land_ones, Z.shiftr_div_pow2 by lia. unfold u32, wrap.
  change (2 ^ 35) with 34359738368 in Hb. change (2 ^ 32) with 4294967296 in *. change (2 ^ 3) with 8.
  rewrite (Z.mod_small (ack + 8 * r)) in Hb by lia. split; Z.to_euclidean_division_equations; lia.
Qed.

(** ** The debug port on the chain

    What the code relies on of device [i]'s data registers, after the ADIv5
    specification: an exchange delivers the result of the access before it and
    asks for the next one, unless the port is still at work ([stall] more
    exchanges): then the acknowledgement is WAIT and the request is dropped.
    [latency] bounds how long an access keeps it at work.  An abort ends the
    work; nothing is said of what becomes of the access under way. *)
Class JtagPort (D : Type) `{Registers D} (i : nat) (sel : Z) := {
  port_wf : D -> Prop;
  port_of : D -> dap;
  stall : D -> nat;
  latency : nat;
  port_sel_byte : is_byte sel;
  ready_law d b : port_wf d -> stall d = 0%nat ->
    is_u32 (d_posted (port_of d)) /\ dr_capture d i (access_ir b) = answer_bits JTAGDP_ACK_OK (d_posted (port_of d));
  stall_law d b : port_wf d -> stall d <> 0%nat ->
    exists r, is_u32 r /\ dr_capture d i (access_ir b) = answer_bits JTAGDP_ACK_WAIT r;
  discard_law d b v n : port_wf d -> stall d = S n -> length v = 35%nat ->
    let d' := dr_update d i (access_ir b) v in port_wf d' /\ stall d' = n /\ port_of d' = port_of d;
  request_law d RnW addr value reg : port_wf d -> stall d = 0%nat -> is_u32 value ->
    decode sel (d_select (port_of d)) RnW addr = Some reg -> dap_access_ok (port_of d) RnW reg ->
    let d' := dr_update d i (access_ir (flag addr ADIV5_APnDP)) (request_bits RnW addr value) in
    port_wf d' /\ (stall d' <= latency)%nat /\ dap_step (port_of d) RnW reg value (d_posted (port_of d)) (port_of d');
  abort_law d : port_wf d -> length (dr_capture d i abort_ir) = 35%nat /\
    let d' := dr_update d i abort_ir (request_bits 0 0 1) in port_wf d' /\ stall d' = 0%nat;
}.
(** Reading the clock leaves the wire alone. *)
Class TapClock (W D : Type) `{TapSpec W D} `{ClockIf W} := {
  tap_clock_law w : tap_wf w ->
    exists t w', platform_time_ms w = Ok t w' /\ tap_wf w' /\ tap_of w' = tap_of w;
}.

Section Access.
Context {W D : Type} `{TapClock W D} {i : nat} {sel : Z} `{!JtagPort D i sel}.
Implicit Types s : jdp_state W.

(** The chain's instruction register lengths, and the port's object. *)
Variables (lens : list nat) (dp : positive) (polls : nat).
(** The port's place in the chain, with at most 32 bits on either side. *)
Definition placed : Prop :=
  lens !! i = Some 4%nat /\ (length lens <= 32)%nat /\
  (sum_list (take i lens) <= 32)%nat /\ (sum_list (drop (S i) lens) <= 32)%nat.
Hypothesis Hplaced : placed.

Definition dp_device s : D := state (tap_of (wire (chain s))).
Definition jdp_wf s : Prop :=
  chain_ok lens (chain s) /\ port_wf (dp_device s) /\
  exists d, jdps s !! dp = Some d /\ dp_jd_index d = Z.of_nat i.
Definition with_chain s c : jdp_state W := {| chain := c; jdps := jdps s |}.

Lemma run_on_chain {A B} (m : M (jtag_state W) A) (f : A -> M (jdp_state W) B) a c s :
  m (chain s) = Ok a c -> bind (on_chain m) f s = f a (with_chain s c).
Proof. intros Hm. unfold bind, on_chain. by rewrite Hm. Qed.
Lemma run_load_jdp {B} (f : jtag_dp -> M (jdp_state W) B) d s : jdps s !! dp = Some d -> bind (load_jdp dp) f s = f d s.
Proof. intros Hd. unfold bind, load_jdp, bind, get. by rewrite Hd. Qed.

Lemma chain_clock {A} (m : M W A) c : chain_ok lens c ->
  (tap_wf (wire c) -> exists a w, m (wire c) = Ok a w /\ tap_wf w /\ tap_of w = tap_of (wire c)) ->
  exists a c', on_wire m c = Ok a c' /\ chain_ok lens c' /\ tap_of (wire c') = tap_of (wire c).
Proof.
  intros Hok Hm. pose proof Hok as (Hwf & Hrest). destruct (Hm Hwf) as (a & w & Hr & Hw & Hc).
  unfold on_wire. rewrite Hr. eexists a, _. split; [done|]. split; [|exact Hc].
  split; [exact Hw|]. cbn [wire jtag_devs jtag_dev_count]. rewrite Hc. exact Hrest.
Qed.
Lemma timeout_set_ok ms c : chain_ok lens c ->
  exists t c', on_wire (platform_timeout_set ms) c = Ok t c' /\ chain_ok lens c' /\ tap_of (wire c') = tap_of (wire c).
Proof.
  intros Hok. apply chain_clock; [done|]. intros Hwf. destruct (tap_clock_law _ Hwf) as (t & w & Hr & Hw & Hc).
  unfold platform_timeout_set. rewrite (bind_Ok _ _ _ _ _ Hr). by eexists _, w.
Qed.
Lemma expired_ok t c : chain_ok lens c ->
  exists b c', on_wire (platform_timeout_is_expired t) c = Ok b c' /\ chain_ok lens c' /\ tap_of (wire c') = tap_of (wire c).
Proof.
  intros Hok. apply chain_clock; [done|]. intros Hwf. destruct (tap_clock_law _ Hwf) as (x & w & Hr & Hw & Hc).
  unfold platform_timeout_is_expired. rewrite (bind_Ok _ _ _ _ _ Hr). by eexists _, w.
Qed.

(** One of the port's 35-bit registers selected, one exchange with it. *)
Lemma select_ir_ok ir c : chain_ok lens c -> 0 <= ir < no_ir ->
  exists c', jtag_dev_write_ir (Z.of_nat i) ir c = Ok tt c' /\ chain_ok lens c' /\
    irs (tap_of (wire c')) = selection lens i (zbits 4 ir) /\ state (tap_of (wire c')) = state (tap_of (wire c)).
Proof. intros Hok Hir. destruct Hplaced as (Hi & _ & Hpre & Hpost). exact (write_ir_ok lens i 4 ir c Hok Hi Hir Hpre Hpost). Qed.
Lemma exchange_ok ir dout request c : chain_ok lens c -> irs (tap_of (wire c)) = selection lens i ir ->
  is_bypass ir = false -> length (dr_capture (state (tap_of (wire c))) i ir) = 35%nat ->
  exists out c', jtag_dev_shift_dr (Z.of_nat i) dout (le_bytes 8 request) 35 c = Ok out c' /\ chain_ok lens c' /\
    (dout = true -> zbits 35 (le_val out) = dr_capture (state (tap_of (wire c))) i ir) /\
    irs (tap_of (wire c')) = selection lens i ir /\
    state (tap_of (wire c')) = dr_update (state (tap_of (wire c))) i ir (zbits 35 (le_val (le_bytes 8 request))).
Proof.
  intros Hok Hir Hb Hl. destruct Hplaced as (Hi & H32 & _).
  apply (shift_dr_ok lens i 4 ir dout); try done. apply le_bytes_is_bytes.
Qed.
Lemma access_ir_selects b : is_bypass (access_ir b) = false.
Proof. by destruct b. Qed.
Lemma length_answer ack r : length (answer_bits ack r) = 35%nat.
Proof. unfold answer_bits. by rewrite length_zbits. Qed.

(** What an access comes to: the step of the port asked for, or, of a port that
    stalls, an abort and the mark of a fault. *)
Definition stepped s RnW reg value r s' : Prop :=
  jdp_wf s' /\ jdps s' = jdps s /\ (stall (dp_device s') <= latency)%nat /\
  dap_step (port_of (dp_device s)) RnW reg value r (port_of (dp_device s')).

Lemma rounds d RnW addr value reg timeout n : dp_jd_index d = Z.of_nat i -> is_u32 value ->
  forall fuel s, chain_ok lens (chain s) -> port_wf (dp_device s) ->
  irs (tap_of (wire (chain s))) = selection lens i (access_ir (flag addr ADIV5_APnDP)) ->
  stall (dp_device s) = n -> (n < fuel)%nat ->
  decode sel (d_select (port_of (dp_device s))) RnW addr = Some reg -> dap_access_ok (port_of (dp_device s)) RnW reg ->
  exists x s', iter fuel (dpacc_round d (dpacc_request RnW addr value) timeout) tt s = Ok x s' /\
    chain_ok lens (chain s') /\ port_wf (dp_device s') /\ jdps s' = jdps s /\
    (Z.land x 7 = JTAGDP_ACK_OK /\ (stall (dp_device s') <= latency)%nat /\
       dap_step (port_of (dp_device s)) RnW reg value (u32 (Z.shiftr x 3)) (port_of (dp_device s')) \/
     (0 < n)%nat /\ Z.land x 7 = JTAGDP_ACK_WAIT).
Proof.
  intros Hd Hv. induction n as [|n IH]; intros fuel s Hok Hp Hir Hst Hf Hdec Hacc; (destruct fuel as [|fuel]; [lia|]).
  - destruct (ready_law (dp_device s) (flag addr ADIV5_APnDP) Hp Hst) as [Hpo Hcap].
    destruct (exchange_ok _ true (dpacc_request RnW addr value) (chain s) Hok Hir (access_ir_selects _)) as
      (out & c1 & Hr & Hok1 & Ho & Hir1 & Hs1); [unfold dp_device in Hcap; rewrite Hcap; apply length_answer|].
    specialize (Ho eq_refl). unfold dp_device in Hcap. rewrite Hcap in Ho. rewrite dpacc_request_bits in Hs1 by done.
    destruct (request_law (dp_device s) RnW addr value reg Hp Hst Hv Hdec Hacc) as (Hp1 & Hl1 & Hstep).
    apply response_fields in Ho as [Hack Hres]; [|done|done].
    destruct (expired_ok timeout c1 Hok1) as (e & c2 & He & Hok2 & Hc2).
    exists (le_val out), (with_chain (with_chain s c1) c2). rewrite iter_S. unfold dpacc_round at 1. rewrite Hd.
    rewrite bind_bind, (run_on_chain _ _ _ _ _ Hr), bind_bind, (run_on_chain _ _ _ _ (with_chain s c1) He), bind_ret, Hack.
    rewrite andb_false_r. unfold dp_device in *. cbn [chain with_chain jdps]. rewrite Hc2, Hs1, Hres.
    split_and!; try done. by left.
  - destruct (stall_law (dp_device s) (flag addr ADIV5_APnDP) Hp ltac:(by rewrite Hst)) as (r & Hr32 & Hcap).
    destruct (exchange_ok _ true (dpacc_request RnW addr value) (chain s) Hok Hir (access_ir_selects _)) as
      (out & c1 & Hr & Hok1 & Ho & Hir1 & Hs1); [unfold dp_device in Hcap; rewrite Hcap; apply length_answer|].
    specialize (Ho eq_refl). unfold dp_device in Hcap. rewrite Hcap in Ho.
    apply response_fields in Ho as [Hack _]; [|done|done].
    destruct (discard_law (dp_device s) (flag addr ADIV5_APnDP) (zbits 35 (le_val (le_bytes 8 (dpacc_request RnW addr value)))) n Hp Hst)
      as (Hp1 & Hst1 & Hpo1); [by rewrite length_zbits|].
    destruct (expired_ok timeout c1 Hok1) as (e & c2 & He & Hok2 & Hc2).
    set (s2 := with_chain (with_chain s c1) c2).
    assert (Hdev : dp_device s2 = dr_update (dp_device s) i (access_ir (flag addr ADIV5_APnDP))
        (zbits 35 (le_val (le_bytes 8 (dpacc_request RnW addr value))))).
    { unfold dp_device, s2. cbn [chain with_chain]. by rewrite Hc2, Hs1. }
    rewrite iter_S. unfold dpacc_round at 1. rewrite Hd.
    rewrite bind_bind, (run_on_chain _ _ _ _ _ Hr), bind_bind, (run_on_chain _ _ _ _ (with_chain s c1) He), bind_ret, Hack.
    change (negb e && (JTAGDP_ACK_WAIT =? JTAGDP_ACK_WAIT)) with (negb e && true). rewrite andb_true_r.
    fold s2. destruct e; cbn [negb].
    + exists (le_val out), s2. split; [done|]. rewrite Hdev. split_and!; try done. right. split; [lia|done].
    + destruct (IH fuel s2) as (x & s' & Hit & Hok' & Hp' & Hj' & Hout); try done.
      * by rewrite Hdev.
      * unfold s2. cbn [chain with_chain]. by rewrite Hc2.
      * by rewrite Hdev.
      * lia.
      * by rewrite Hdev, Hpo1.
      * by rewrite Hdev, Hpo1.
      * exists x, s'. split; [exact Hit|]. split_and!; try done. rewrite Hdev, Hpo1 in Hout.
        destruct Hout as [Hl|[Hn0 Hw]]; [by left|right; split; [lia|done]].
Qed.

(** [adiv5_jtagdp_abort] ends what the port is at. *)
Lemma abort_ok d s : jdps s !! dp = Some d -> dp_jd_index d = Z.of_nat i -> chain_ok lens (chain s) -> port_wf (dp_device s) ->
  exists s', adiv5_jtagdp_abort dp 1 s = Ok tt s' /\ chain_ok lens (chain s') /\ port_wf (dp_device s') /\
    stall (dp_device s') = 0%nat /\ jdps s' = jdps s.
Proof.
  intros Hd Hi Hok Hp. destruct (select_ir_ok IR_ABORT (chain s) Hok) as (c1 & Hw & Hok1 & Hir1 & Hs1); [done|].
  destruct (abort_law (dp_device s) Hp) as (Hlen & Hp2 & Hst2).
  destruct (exchange_ok abort_ir false (u64 (Z.shiftl 1 3)) c1 Hok1 Hir1) as (out & c2 & Hr & Hok2 & _ & _ & Hs2);
    [done|by rewrite Hs1|].
  exists (with_chain (with_chain s c1) c2). unfold adiv5_jtagdp_abort. rewrite (run_load_jdp _ _ _ Hd). cbv zeta. rewrite Hi.
  rewrite (run_on_chain _ _ _ _ s Hw), (run_on_chain _ _ _ _ (with_chain s c1) Hr).
  split; [done|]. split; [done|]. unfold dp_device. cbn [chain with_chain jdps]. rewrite Hs2, Hs1.
  change (zbits 35 (le_val (le_bytes 8 (u64 (Z.shiftl 1 3))))) with (request_bits 0 0 1). by split_and!.
Qed.

Lemma access_outcome s RnW addr value reg :
  jdp_wf s -> is_u32 value -> (stall (dp_device s) < polls)%nat ->
  decode sel (d_select (port_of (dp_device s))) RnW addr = Some reg -> dap_access_ok (port_of (dp_device s)) RnW reg ->
  exists r s', fw_adiv5_jtagdp_low_access polls dp RnW addr value s = Ok r s' /\
    (stepped s RnW reg value r s' \/
     (0 < stall (dp_device s))%nat /\ r = 0 /\ jdp_wf s' /\ stall (dp_device s') = 0%nat /\
       exists d, jdps s' !! dp = Some d /\ dp_fault d = 1).
Proof.
  intros (Hok & Hp & d & Hd & Hi) Hv Hst Hdec Hacc.
  set (ir := if flag addr ADIV5_APnDP then IR_APACC else IR_DPACC).
  destruct (select_ir_ok ir (chain s) Hok) as (c1 & Hw & Hok1 & Hir1 & Hs1); [unfold ir; by destruct (flag _ _)|].
  destruct (timeout_set_ok 20 c1 Hok1) as (t & c2 & Ht & Hok2 & Hc2).
  set (s2 := with_chain (with_chain s c1) c2).
  assert (Hdev : dp_device s2 = dp_device s) by (unfold dp_device, s2; cbn [chain with_chain]; by rewrite Hc2, Hs1).
  destruct (rounds d RnW addr value reg t (stall (dp_device s)) Hi Hv polls s2) as (x & s3 & Hit & Hok3 & Hp3 & Hj3 & Hout).
  { done. }
  { by rewrite Hdev. }
  { unfold s2. cbn [chain with_chain]. rewrite Hc2, Hir1. unfold ir, access_ir. done. }
  { by rewrite Hdev. }
  { done. }
  { by rewrite Hdev. }
  { by rewrite Hdev. }
  rewrite Hdev in Hout. unfold fw_adiv5_jtagdp_low_access. cbv zeta. rewrite (run_load_jdp _ _ _ Hd), Hi.
  rewrite (run_on_chain _ _ _ _ s Hw), (run_on_chain _ _ _ _ (with_chain s c1) Ht). fold s2. rewrite (bind_Ok _ _ _ _ _ Hit).
  assert (Hd3 : jdps s3 !! dp = Some d) by (by rewrite Hj3).
  destruct Hout as [(Hack & Hl & Hstep)|[Hn Hack]]; rewrite Hack.
  - exists (u32 (Z.shiftr x 3)), s3. split; [done|]. left. split; [|by split_and!]. split; [done|]. split; [done|]. by exists d.
  - destruct (abort_ok d s3 Hd3 Hi Hok3 Hp3) as (s4 & Ha & Hok4 & Hp4 & Hst4 & Hj4).
    assert (Hd4 : jdps s4 !! dp = Some d) by (by rewrite Hj4).
    eexists 0, _. split.
    { rewrite Z.eqb_refl, (bind_Ok _ _ _ _ _ Ha). unfold set_jdp_fault. rewrite bind_bind, (run_load_jdp _ _ _ Hd4). reflexivity. }
    right. split_and!; try done.
    + split; [exact Hok4|]. split; [exact Hp4|]. eexists. split; [apply lookup_insert_eq|done].
    + eexists. split; [apply lookup_insert_eq|done].
Qed.
End Access.

Section Refinement.
Context {W D : Type} `{TapClock W D} {i : nat} {sel : Z} `{!JtagPort D i sel}.
Implicit Types s : jdp_state W.


(** *** The port of the specification

    A port that is done with an access before the next exchange. *)
Section Prompt.
Variables (lens : list nat) (dp : positive) (polls : nat).
Hypothesis Hplaced : placed (i := i) lens.
Hypothesis prompt : latency = 0%nat.

Definition jtag_wf s : Prop := jdp_wf lens dp s /\ stall (dp_device s) = 0%nat.
Lemma jtag_law s RnW addr value reg :
  jtag_wf s -> is_u32 value -> decode sel (d_select (port_of (dp_device s))) RnW addr = Some reg ->
  dap_access_ok (port_of (dp_device s)) RnW reg ->
  exists r s', @dp_low_access _ (jtag_dp_if (S polls)) dp RnW addr value s = Ok r s' /\ jtag_wf s' /\
    dap_step (port_of (dp_device s)) RnW reg value r (port_of (dp_device s')).
Proof.
  intros [Hwf Hst] Hv Hdec Hacc.
  destruct (access_outcome lens dp (S polls) Hplaced s RnW addr value reg Hwf Hv ltac:(lia) Hdec Hacc)
    as (r & s' & Hr & [(Hwf' & _ & Hl & Hstep)|[Hn _]]); [|lia].
  exists r, s'. split; [exact Hr|]. split; [|done]. split; [done|]. lia.
Qed.
Definition jtag_dap : @DapSpec (jdp_state W) (jtag_dp_if (S polls)) dp sel :=
  @Build_DapSpec _ (jtag_dp_if (S polls)) dp sel jtag_wf (fun s => port_of (dp_device s)) port_sel_byte jtag_law.
End Prompt.
End Refinement.

(** ** The mark of a fault

    Of an operation of the debug port: a mark that is there stays. *)
Section Mark.
Context {W : Type} `{TapIf W} `{ClockIf W}.
Variable dp : positive.
Implicit Types s : jdp_state W.
Definition marked s : Prop := exists d, jdps s !! dp = Some d /\ dp_fault d = 1.
Definition stays {A} (m : M (jdp_state W) A) : Prop := forall s a s', marked s -> m s = Ok a s' -> marked s'.

Lemma stays_ret {A} (a : A) : stays (ret a).
Proof. by intros s b s' Hm [= _ <-]. Qed.
Lemma stays_raise {A} ty msg : stays (A := A) (raise ty msg).
Proof. by intros s b s' Hm [=]. Qed.
Lemma stays_bind {A B} (m : M (jdp_state W) A) (f : A -> M (jdp_state W) B) : stays m -> (forall a, stays (f a)) -> stays (bind m f).
Proof.
  intros Hm Hf s b s' Hs. unfold bind. destruct (m s) as [a s1| | |] eqn:Hr; try done. apply (Hf a s1), (Hm s a s1 Hs Hr).
Qed.
Lemma stays_on_chain {A} (m : M (jtag_state W) A) : stays (on_chain m).
Proof. intros s a s' Hs. unfold on_chain. destruct (m (chain s)); intros [=]; subst. exact Hs. Qed.
Lemma stays_load : stays (load_jdp dp).
Proof. intros s a s' Hs. unfold load_jdp, bind, get. destruct (jdps s !! dp); [by intros [= _ <-]|done]. Qed.
Lemma stays_set : stays (set_jdp_fault dp).
Proof.
  intros s a s' Hs. unfold set_jdp_fault. destruct Hs as (d & Hd & _). rewrite (run_load_jdp dp _ d s Hd). intros [= _ <-].
  eexists. split; [apply lookup_insert_eq|done].
Qed.
Lemma stays_iter {A B} (body : B -> M (jdp_state W) (B + A)) fuel b : (forall b, stays (body b)) -> stays (iter fuel body b).
Proof.
  intros Hb. revert b. induction fuel as [|fuel IH]; intros b; [by intros s a s' Hs [=]|].
  intros s a s'. rewrite iter_S. apply (stays_bind _ _ (Hb b)). intros [b'|a']; [apply IH|apply stays_ret].
Qed.
Ltac solve_stays :=
  repeat first
    [ apply stays_ret | apply stays_raise | apply stays_on_chain | apply stays_load | apply stays_set
    | apply stays_iter; intros [] | apply stays_bind; [|intros ?] | case_match ].

Lemma access_stays polls RnW addr value : stays (fw_adiv5_jtagdp_low_access polls dp RnW addr value).
Proof. unfold fw_adiv5_jtagdp_low_access, adiv5_jtagdp_abort, dpacc_round. cbv zeta. solve_stays. Qed.
(** A JTAG port that has stalled once stays marked: no access clears the
    fault, and neither does [adiv5_jtagdp_error], which clears the port's own
    sticky errors. *)
Theorem jtag_fault_stays polls s r s' RnW addr value : marked s ->
  (fw_adiv5_jtagdp_low_access polls dp RnW addr value s = Ok r s' -> marked s') /\
  (adiv5_jtagdp_error polls dp s = Ok r s' -> marked s').
Proof.
  intros Hs. split; [by apply access_stays|]. revert Hs. unfold adiv5_jtagdp_error.
  apply (stays_bind _ _ (access_stays _ _ _ _)). intros _. apply (stays_bind _ _ (access_stays _ _ _ _)). intros x. apply stays_ret.
Qed.
End Mark.

(** ** Memory over JTAG

    The wire is the PIO's; reading the clock leaves it alone. *)
Class JtagPioClock (E D : Type) `{JtagPioSpec E D} `{ClockIf E} := {
  pio_clock_law e : jpio_wf e ->
    exists t e', platform_time_ms e = Ok t e' /\ jpio_wf e' /\ jview e' = jview e;
}.
#[export] Instance wire_tap_clock {E D} `{JtagPioClock E D} : TapClock (swd_state E) D.
Proof.
  constructor. intros w [Hwf Hrec]. destruct (pio_clock_law (env w) Hwf) as (t & e & Hr & Hwf' & Hv).
  unfold platform_time_ms, wire_clock, in_env. rewrite Hr. eexists t, _. split; [done|].
  split; [|unfold tap_of; cbn; unfold chain_of_wire; cbn; by rewrite Hv].
  split; [done|]. cbn [env tip]. by rewrite Hv.
Defined.

Section Memory.
Context {E D : Type} `{JtagPioClock E D} {i : nat} {sel : Z} `{!JtagPort D i sel}.
Implicit Types s : jdp_state (swd_state E).
Notation memory s := (d_mem (port_of (dp_device s))).


(** What is written to memory over JTAG is there, and no other byte of it
    changes. *)
Theorem jtag_mem_write_correct lens dp polls ap dest src s :
  placed (i := i) lens -> latency = 0%nat -> ap_dp ap = dp /\ apsel ap = sel -> is_u32 (csw ap) /\ Z.land (csw ap) 0x37 = 0 ->
  jtag_wf lens dp s -> is_u32 dest -> is_bytes src -> dest + zlen src <= 2 ^ 32 -> zlen src < 2 ^ 32 ->
  exists s', @adiv5_mem_write _ (jtag_dp_if (S polls)) ap dest src (zlen src) s = Ok tt s' /\
    jtag_wf lens dp s' /\ forall b, memory s' b = stored (memory s) dest src b.
Proof.
  intros Hpl Hpr Hap Hcsw Hwf Hd Hb Hdl Hl.
  exact (mem_write_ok (H0 := jtag_dap lens dp polls Hpl Hpr) ap Hap Hcsw dest src s Hb Hwf Hd Hdl Hl).
Qed.
End Memory.

(** ** A chain with a simulated port

    The second of two devices is a debug port over the access port of DapSim,
    at work for [sp_stall] exchanges; as on a real one RDBUFF reads as zero
    itself. *)
Module JtagDpSim.
Import JtagSim WireSim.
Record sim_port := { sp_dap : dap; sp_stall : nat }.
Definition set_posted (p : Z) (d : dap) : dap :=
  {| d_select := d_select d; d_csw := d_csw d; d_tar := d_tar d; d_posted := p; d_mem := d_mem d |}.
Definition perform (APnDP : bool) (v : list bool) (d : sim_port) : sim_port :=
  match sp_stall d with
  | S n => {| sp_dap := sp_dap d; sp_stall := n |}
  | O =>
      let '(_, d') := DapSim.access (b2z (nth 0 v false)) (reg_addr APnDP (nth 1 v false) (nth 2 v false)) (of_bits (drop 3 v)) (sp_dap d) in
      {| sp_dap := if APnDP then d' else set_posted 0 d'; sp_stall := 0 |}
  end.
Definition port_capture (d : sim_port) (i : nat) (ir : list bool) : list bool :=
  if Nat.eqb i 1 then
    if bool_decide (ir = access_ir true) || bool_decide (ir = access_ir false) then
      match sp_stall d with
      | O => answer_bits JTAGDP_ACK_OK (d_posted (sp_dap d))
      | S _ => answer_bits JTAGDP_ACK_WAIT 0
      end
    else replicate 35 false
  else replicate 32 false.
Definition port_update (d : sim_port) (i : nat) (ir v : list bool) : sim_port :=
  if negb (Nat.eqb i 1) then d
  else if bool_decide (ir = access_ir true) then perform true v d
  else if bool_decide (ir = access_ir false) then perform false v d
  else if bool_decide (ir = abort_ir) then {| sp_dap := sp_dap d; sp_stall := 0 |}
  else d.
#[export] Instance port_regs : Registers sim_port := {
  dr_capture := port_capture; dr_update := port_update;
  ir_capture _ _ ir := [true]; ir_reset _ _ ir := idcode_ir (length ir);
}.
Definition wf (d : sim_port) : Prop := DapSim.wf (sp_dap d) /\ is_u32 (d_posted (sp_dap d)).

Lemma capture_access d b : port_capture d 1 (access_ir b) =
  match sp_stall d with O => answer_bits JTAGDP_ACK_OK (d_posted (sp_dap d)) | S _ => answer_bits JTAGDP_ACK_WAIT 0 end.
Proof. by destruct b. Qed.
Lemma update_access d b v : port_update d 1 (access_ir b) v = perform b v d.
Proof. by destruct b. Qed.
Lemma of_bits_zbits v : is_u32 v -> of_bits (zbits 32 v) = v.
Proof.
  intros Hv. pose proof (WireSim.of_bits_range (zbits 32 v)) as Hr. rewrite length_zbits in Hr.
  pose proof (zbits_of_bits (zbits 32 v)) as Hb. rewrite length_zbits in Hb. apply zbits_inj in Hb; [|lia].
  change (Z.of_nat (Z.to_nat 32)) with 32 in *. unfold in_width in Hv. by rewrite !Z.mod_small in Hb by lia.
Qed.
Lemma word_at_u32 mem a : (forall a, is_byte (mem a)) -> is_u32 (DapSim.word_at mem a).
Proof.
  intros Hm. unfold DapSim.word_at. cbv zeta.
  assert (Hb : is_bytes (mem <$> [a - a mod 4; a - a mod 4 + 1; a - a mod 4 + 2; a - a mod 4 + 3])) by (cbn; by repeat (apply Forall_cons; split; [apply Hm|])).
  exact (le_val_range _ Hb).
Qed.
Lemma access_posted RnW addr v d : (forall a, is_byte (d_mem d a)) -> is_u32 (d_posted d) ->
  is_u32 (d_posted (snd (DapSim.access RnW addr v d))).
Proof.
  intros Hm Hp. unfold DapSim.access. destruct (decode _ _ _ _) as [[]|]; try done.
  destruct (_ =? _); [done|]. by apply word_at_u32.
Qed.
(** What a step leaves to be delivered is only fixed by a read of memory. *)
Lemma step_result d RnW reg v r d' : dap_step d RnW reg v r d' -> dap_step d RnW reg v (d_posted d) d'.
Proof. destruct 1; by constructor. Qed.
Lemma step_posted d RnW reg v r d' p : dap_step d RnW reg v r d' -> reg <> DRW -> dap_step d RnW reg v r (set_posted p d').
Proof. destruct 1; intros Hne; try done; unfold set_posted; cbn; constructor. Qed.
Lemma decode_dp sel select RnW addr reg : decode sel select RnW addr = Some reg -> flag addr ADIV5_APnDP = false -> reg <> DRW.
Proof. unfold decode. intros Hd Hf. rewrite Hf in Hd. repeat case_match; congruence. Qed.

Lemma sim_request d RnW addr value reg : wf d -> sp_stall d = 0%nat -> is_u32 value ->
  decode 0 (d_select (sp_dap d)) RnW addr = Some reg -> dap_access_ok (sp_dap d) RnW reg ->
  let d' := dr_update d 1 (access_ir (flag addr ADIV5_APnDP)) (request_bits RnW addr value) in
  wf d' /\ (sp_stall d' <= 0)%nat /\ dap_step (sp_dap d) RnW reg value (d_posted (sp_dap d)) (sp_dap d').
Proof.
  intros [Hwf Hp] Hst Hv Hdec Hacc. cbn [dr_update port_regs]. cbv zeta. rewrite update_access. unfold perform. rewrite Hst.
  change (drop 3 (request_bits RnW addr value)) with (zbits 32 value).
  change (nth 0 (request_bits RnW addr value) false) with (negb (RnW =? 0)). rewrite of_bits_zbits by done.
  assert (HRnW : b2z (negb (RnW =? 0)) = RnW) by (by destruct (access_dir _ _ _ Hacc) as [-> | ->]). rewrite HRnW.
  set (addr' := reg_addr _ _ _).
  assert (Hdec' : decode 0 (d_select (sp_dap d)) RnW addr' = Some reg) by (rewrite <- Hdec; symmetry; apply decode_reg_addr).
  destruct (DapSim.sim_step 1 (sp_dap d) RnW addr' value reg Hwf Hv Hdec' Hacc) as (r & d1 & Hr & Hw1 & Hs1).
  pose proof (access_posted RnW addr' value (sp_dap d) (proj2 Hwf) Hp) as Hp1.
  assert (Ha : DapSim.access RnW addr' value (sp_dap d) = (r, d1)).
  { unfold dp_low_access, DapSim.sim_if in Hr. destruct (DapSim.access RnW addr' value (sp_dap d)). congruence. }
  rewrite Ha in *. cbn [snd sp_dap sp_stall] in *. apply step_result in Hs1.
  destruct (flag addr ADIV5_APnDP) eqn:Hf; (split; [|split; [done|]]); try done.
  apply step_posted; [done|]. by apply (decode_dp _ _ _ _ _ Hdec).
Qed.

Lemma sim_ready d b : wf d -> sp_stall d = 0%nat ->
  is_u32 (d_posted (sp_dap d)) /\ dr_capture d 1 (access_ir b) = answer_bits JTAGDP_ACK_OK (d_posted (sp_dap d)).
Proof. intros [_ Hp] Hst. split; [done|]. cbn [dr_capture port_regs]. by rewrite capture_access, Hst. Qed.
Lemma sim_stall d b : wf d -> sp_stall d <> 0%nat ->
  exists r, is_u32 r /\ dr_capture d 1 (access_ir b) = answer_bits JTAGDP_ACK_WAIT r.
Proof. intros _ Hst. exists 0. split; [done|]. cbn [dr_capture port_regs]. rewrite capture_access. by destruct (sp_stall d). Qed.
Lemma sim_discard d b v n : wf d -> sp_stall d = S n -> length v = 35%nat ->
  let d' := dr_update d 1 (access_ir b) v in wf d' /\ sp_stall d' = n /\ sp_dap d' = sp_dap d.
Proof. intros Hwf Hst _. cbn [dr_update port_regs]. cbv zeta. rewrite update_access. unfold perform. by rewrite Hst. Qed.
Lemma sim_abort d : wf d -> length (dr_capture d 1 abort_ir) = 35%nat /\
  let d' := dr_update d 1 abort_ir (request_bits 0 0 1) in wf d' /\ sp_stall d' = 0%nat.
Proof. by intros Hwf. Qed.
#[export] Instance sim_jtag_port : JtagPort sim_port 1 0 :=
  {| port_wf := wf; port_of := sp_dap; stall := sp_stall; latency := 0; port_sel_byte := DapSim.zero_byte;
     ready_law := sim_ready; stall_law := sim_stall; discard_law := sim_discard; request_law := sim_request;
     abort_law := sim_abort |}.
#[export] Instance sim_clock : ClockIf (jtag_view sim_port) := { platform_time_ms := ret 0; platform_delay _ := ret tt }.
Lemma jtag_clock_law (e : jtag_view sim_port) : True -> exists t e', platform_time_ms e = Ok t e' /\ True /\ e' = e.
Proof. intros _. by exists 0, e. Qed.
#[export] Instance sim_pio_clock : JtagPioClock (jtag_view sim_port) sim_port := {| pio_clock_law := jtag_clock_law |}.

(** A probe in front of it that has just scanned the chain, its state machine
    left with an SWD program. *)
Definition dev (i : nat) (ir pre post : Z) : jtag_dev :=
  {| jd_dev := Z.of_nat i; dr_postscan := 1 - Z.of_nat i; ir_len := ir; ir_prescan := pre; ir_postscan := post;
     jd_idcode := 0; jd_descr := None; current_ir := no_ir |}.
Definition start_at (fault : Z) (n : nat) : jdp_state (swd_state (jtag_view sim_port)) :=
  {| chain := {| jtag_devs := [dev 0 5 0 4; dev 1 4 5 0]; jtag_dev_count := 2;
       wire := {| tip := {| current_program := PIO_PROGRAM_SWD_DP_LOW_WRITE; clkdiv := 0; update_clkdiv := true;
                            tms_direction := TARGET_INTERFACE_TMS_DIR_OUT |};
                  dps := ∅;
                  env := {| jv_loaded := Some PIO_PROGRAM_SWD_DP_LOW_WRITE; jv_pins := None; jv_running := true;
                            jv_tx := [1]; jv_rx := [];
                            jv_chain := {| tap := RunTestIdle; shift := []; segs := []; irs := [idcode_ir 5; idcode_ir 4];
                                           state := {| sp_dap := SwdSim.port0; sp_stall := n |} |} |} |} |};
     jdps := {[ 1%positive := {| dp_jd_index := 1; dp_fault := fault |} ]} |}.
Notation start := (start_at 0).
Definition lens : list nat := [5; 4]%nat.
Lemma sim_placed : placed (i := 1) lens.
Proof. unfold placed. cbn. split_and!; [done|lia|lia|lia]. Qed.
Lemma sim_prompt : latency (D := sim_port) = 0%nat.
Proof. done. Qed.
Lemma port0_wf : DapSim.wf SwdSim.port0.
Proof. split; [done|]. intros a. apply u8_range. Qed.
Lemma jtag_start_wf f n : jdp_wf lens 1 (start_at f n).
Proof.
  split; [|split].
  - split; [split; [exact I|intros Hf; discriminate Hf]|]. split; [done|]. split; [done|]. split; [done|].
    intros k Hk. cbn in Hk. destruct k as [|[|k]]; [| |lia].
    + exists (dev 0 5 0 4). split; [done|]. split; [|by left]. exists 5%nat. split; [done|]. split; [lia|]. by split_and!.
    + exists (dev 1 4 5 0). split; [done|]. split; [|by left]. exists 4%nat. split; [done|]. split; [lia|]. by split_and!.
  - split; [apply port0_wf|done].
  - by eexists.
Qed.
End JtagDpSim.
Import WireSim JtagDpSim.

Lemma jtag_mem_write_correct_witness : exists s',
  @adiv5_mem_write _ (jtag_dp_if 1) Adiv5Sim.ap0 0x200003fe [1; 2; 3] 3 (start 0) = Ok tt s' /\
  d_mem (port_of (dp_device s')) 0x200003ff = 2.
Proof.
  destruct (jtag_mem_write_correct lens 1 0 Adiv5Sim.ap0 0x200003fe [1; 2; 3] (start 0) sim_placed sim_prompt
    Adiv5Sim.ap0_is Adiv5Sim.ap0_csw (conj (jtag_start_wf 0 0) eq_refl)) as (s' & Hr & _ & Hm);
    [done|by repeat constructor|done|done|].
  exists s'. split; [exact Hr|]. rewrite Hm. reflexivity.
Defined.

(** A port that works again, with the mark of a stall before. *)
Lemma jtag_fault_stays_witness : exists r s',
  fw_adiv5_jtagdp_low_access 4 1 ADIV5_LOW_WRITE ADIV5_AP_TAR 0x20000000 (start_at 1 0) = Ok r s' /\ marked 1 s'.
Proof.
  assert (Hm : marked 1 (start_at 1 0)) by (by eexists).
  destruct (access_outcome lens 1 4 sim_placed (start_at 1 0) ADIV5_LOW_WRITE ADIV5_AP_TAR 0x20000000 TAR (jtag_start_wf 1 0))
    as (r & s' & Hr & _); [done|cbn; lia|done|done|].
  exists r, s'. split; [exact Hr|].
  exact (proj1 (jtag_fault_stays 1 4 (start_at 1 0) r s' ADIV5_LOW_WRITE ADIV5_AP_TAR 0x20000000 Hm) Hr).
Defined.
