(* ===== verification/Objects.v ===== *)
(** The objects behind a target: the access ports and debug ports of adiv5.c
    with their reference counts, the private data of cortexm.c, and the
    access of all the code above to the outside world. *)

From Stdlib Require Import ZArith Lia String.
From stdpp Require Import base list numbers option gmap.
From S2P Require Import Prelude CLib GdbIf MemManager TargetState Platform Morse Command Dap Adiv5.

(** ** Debug ports

    What of a debug port the code above adiv5_swdp.c and adiv5_jtagdp.c uses:
    the plain members, and the two methods [DpIf] leaves out. *)
Record dp_obj := {
  o_refcnt : Z;
  o_idcode : Z;
  o_targetid : Z;
  o_fault : Z;
  o_tc : nat;
}.
Definition set_o_refcnt n d : dp_obj :=
  {| o_refcnt := n; o_idcode := o_idcode d; o_targetid := o_targetid d; o_fault := o_fault d; o_tc := o_tc d |}.
Definition set_o_fault n d : dp_obj :=
  {| o_refcnt := o_refcnt d; o_idcode := o_idcode d; o_targetid := o_targetid d; o_fault := n; o_tc := o_tc d |}.
Class DpObj (E : Type) := {
  load_dpo : positive -> M E dp_obj;
  store_dpo : positive -> dp_obj -> M E unit;
  drop_dpo : positive -> M E unit;                 (* its memory is freed *)
  dp_error : positive -> M E Z;
  dp_abort : positive -> Z -> M E unit;
}.

(** ** cortexm.c: [struct cortexm_priv] *)
Record cortexm_priv := {
  cp_ap : positive;
  stepping : bool;
  on_bkpt : bool;
  hw_watchpoint : list bool;          (* CORTEXM_MAX_WATCHPOINTS *)
  flash_patch_revision : Z;
  hw_watchpoint_max : Z;
  hw_breakpoint : list bool;          (* CORTEXM_MAX_BREAKPOINTS *)
  hw_breakpoint_max : Z;
  demcr : Z;
  has_cache : bool;
  dcache_minline : Z;
}.
Definition set_run st ob (p : cortexm_priv) : cortexm_priv :=
  {| cp_ap := cp_ap p; stepping := st; on_bkpt := ob; hw_watchpoint := hw_watchpoint p;
     flash_patch_revision := flash_patch_revision p; hw_watchpoint_max := hw_watchpoint_max p;
     hw_breakpoint := hw_breakpoint p; hw_breakpoint_max := hw_breakpoint_max p; demcr := demcr p;
     has_cache := has_cache p; dcache_minline := dcache_minline p |}.
Definition set_units wp rev wmax bp bmax (p : cortexm_priv) : cortexm_priv :=
  {| cp_ap := cp_ap p; stepping := stepping p; on_bkpt := on_bkpt p; hw_watchpoint := wp;
     flash_patch_revision := rev; hw_watchpoint_max := wmax; hw_breakpoint := bp; hw_breakpoint_max := bmax;
     demcr := demcr p; has_cache := has_cache p; dcache_minline := dcache_minline p |}.
Definition set_hw_watchpoint l p := set_units l (flash_patch_revision p) (hw_watchpoint_max p) (hw_breakpoint p) (hw_breakpoint_max p) p.
Definition set_hw_breakpoint l p := set_units (hw_watchpoint p) (flash_patch_revision p) (hw_watchpoint_max p) l (hw_breakpoint_max p) p.
Definition set_demcr_cache d c m (p : cortexm_priv) : cortexm_priv :=
  {| cp_ap := cp_ap p; stepping := stepping p; on_bkpt := on_bkpt p; hw_watchpoint := hw_watchpoint p;
     flash_patch_revision := flash_patch_revision p; hw_watchpoint_max := hw_watchpoint_max p;
     hw_breakpoint := hw_breakpoint p; hw_breakpoint_max := hw_breakpoint_max p; demcr := d;
     has_cache := c; dcache_minline := m |}.
Definition set_demcr d p := set_demcr_cache d (has_cache p) (dcache_minline p) p.

(** ** The state of the drivers

    [local]: a local variable of cortexm.c whose address a host call is given;
    its bytes until they are written are indeterminate. *)
Record cm_dev (E : Type) := {
  aps : gmap positive ADIv5_AP;
  privs : gmap positive cortexm_priv;
  time0_sec : Z;
  local : list (option Z);
  outside : E;
}.
Arguments Build_cm_dev {E}. Arguments aps {E}. Arguments privs {E}. Arguments time0_sec {E}.
Arguments local {E}. Arguments outside {E}.

Section State.
Context {E : Type}.
Definition set_aps a (d : cm_dev E) : cm_dev E := {| aps := a; privs := privs d; time0_sec := time0_sec d; local := local d; outside := outside d |}.
Definition set_privs a (d : cm_dev E) : cm_dev E := {| aps := aps d; privs := a; time0_sec := time0_sec d; local := local d; outside := outside d |}.
Definition set_time0 a (d : cm_dev E) : cm_dev E := {| aps := aps d; privs := privs d; time0_sec := a; local := local d; outside := outside d |}.
Definition set_local a (d : cm_dev E) : cm_dev E := {| aps := aps d; privs := privs d; time0_sec := time0_sec d; local := a; outside := outside d |}.
Definition set_outside a (d : cm_dev E) : cm_dev E := {| aps := aps d; privs := privs d; time0_sec := time0_sec d; local := local d; outside := a |}.
Definition beyond {A} (m : M E A) : M (cm_dev E) A := fun d =>
  match m (outside d) with
  | Ok a e => Ok a (set_outside e d)
  | Raise ty msg e => Raise ty msg (set_outside e d)
  | Fault why e => Fault why (set_outside e d)
  | Hang => Hang
  end.
#[export] Instance cm_gdb `{GdbIf E} : GdbIf (cm_dev E) := {
  gdb_if_getchar := beyond gdb_if_getchar;
  gdb_if_getchar_to t := beyond (gdb_if_getchar_to t);
  gdb_if_putchar c f := beyond (gdb_if_putchar c f);
}.
#[export] Instance cm_mem `{MemIf E} : MemIf (cm_dev E) := {
  MemManager_Alloc n := beyond (MemManager_Alloc n);
  MemManager_Free p := beyond (MemManager_Free p);
}.
#[export] Instance cm_clock `{ClockIf E} : ClockIf (cm_dev E) := {
  platform_time_ms := beyond platform_time_ms;
  platform_delay n := beyond (platform_delay n);
}.
#[export] Instance cm_dp `{DpIf E} : DpIf (cm_dev E) := {
  dp_low_access dp RnW addr v := beyond (dp_low_access dp RnW addr v);
  dp_read dp addr := beyond (dp_read dp addr);
}.
End State.

(** A debug port of the whole world. *)
#[export] Instance world_dp {D} `{DpIf D} : DpIf (world D) := {
  dp_low_access dp RnW addr v := lift (dp_low_access dp RnW addr v);
  dp_read dp addr := lift (dp_read dp addr);
}.

Section Objects.
Context {E : Type} `{MemIf E} `{DpIf E} `{DpObj E}.
Notation MW := (M (world (cm_dev E))).

(** ** Access through the pointers *)
Definition load_ap (a : positive) : MW ADIv5_AP :=
  let! w := get in match aps (dev w) !! a with Some x => ret x | None => crash OutOfBounds end.
Definition store_ap (a : positive) (x : ADIv5_AP) : MW unit :=
  modify (fun w => set_dev (set_aps (<[a := x]> (aps (dev w))) (dev w)) w).
Definition drop_ap (a : positive) : MW unit :=
  modify (fun w => set_dev (set_aps (delete a (aps (dev w))) (dev w)) w).
Definition upd_ap (a : positive) (f : ADIv5_AP -> ADIv5_AP) : MW unit := let! x := load_ap a in store_ap a (f x).
Definition on_dp {A} (m : M E A) : MW A := lift (beyond m).
Definition upd_dpo (dp : positive) (f : dp_obj -> dp_obj) : MW unit :=
  let! d := on_dp (load_dpo dp) in on_dp (store_dpo dp (f d)).

(** [t->priv]. *)
Definition priv_of (p : positive) : MW positive :=
  let! t := load_target p in deref (priv t).
Definition load_priv (p : positive) : MW cortexm_priv :=
  let! h := priv_of p in
  let! w := get in match privs (dev w) !! h with Some x => ret x | None => crash OutOfBounds end.
Definition upd_priv (p : positive) (f : cortexm_priv -> cortexm_priv) : MW unit :=
  let! h := priv_of p in
  let! x := load_priv p in
  modify (fun w => set_dev (set_privs (<[h := f x]> (privs (dev w))) (dev w)) w).

(** [a[i] = v] of an array of bool. *)
Definition store_flag (l : list bool) (i : Z) (v : bool) : MW (list bool) :=
  if (0 <=? i) && (i <? zlen l) then ret (<[Z.to_nat i := v]> l) else crash OutOfBounds.
Definition load_flag (l : list bool) (i : Z) : MW bool :=
  if i <? 0 then crash OutOfBounds else
  match l !! Z.to_nat i with Some b => ret b | None => crash OutOfBounds end.

(** ** adiv5.c: reference counts *)
Definition set_refcnt n (a : ADIv5_AP) : ADIv5_AP :=
  {| ap_refcnt := n; ap_dp := ap_dp a; apsel := apsel a; idr := idr a; base := base a; csw := csw a;
     ap_cortexm_demcr := ap_cortexm_demcr a; ap_storage := ap_storage a; ap_designer := ap_designer a; ap_partno := ap_partno a |}.
Definition adiv5_ap_ref (ap : positive) : MW unit :=
  let! a := load_ap ap in
  do! when (ap_refcnt a =? 0) (upd_dpo (ap_dp a) (fun d => set_o_refcnt (o_refcnt d + 1) d)) in
  upd_ap ap (fun a => set_refcnt (ap_refcnt a + 1) a).
Definition adiv5_dp_unref (dp : positive) : MW unit :=
  do! upd_dpo dp (fun d => set_o_refcnt (o_refcnt d - 1) d) in
  let! d := on_dp (load_dpo dp) in
  when (o_refcnt d =? 0) (do! MemManager_Free (Some dp) in on_dp (drop_dpo dp)).
Definition adiv5_ap_unref (ap : positive) : MW unit :=
  do! upd_ap ap (fun a => set_refcnt (ap_refcnt a - 1) a) in
  let! a := load_ap ap in
  when (ap_refcnt a =? 0)
    (do! adiv5_dp_unref (ap_dp a) in
     do! MemManager_Free (Some ap) in
     drop_ap ap).
End Objects.
