(* ===== verification/Cortexm.v ===== *)
(** cortexm.c: the driver of Cortex-M cores.  A core is reached through its
    access port (memory) and, for all else, through its debug registers in
    memory; the functions here are the methods [cortexm_probe] puts in a
    target, and the ones device drivers call. *)

From Stdlib Require Import ZArith Lia String.
From stdpp Require Import base list numbers option gmap.
From S2P Require Import Prelude CLib GdbIf MemManager GdbPacket TargetState Target Platform Exception Morse Command Dap Adiv5 Objects.

(** ** cortexm.h *)
Definition CORTEXM_CPUID : Z := 0xE000ED00.
Definition CORTEXM_AIRCR : Z := 0xE000ED0C.
Definition CORTEXM_CFSR : Z := 0xE000ED28.
Definition CORTEXM_HFSR : Z := 0xE000ED2C.
Definition CORTEXM_DFSR : Z := 0xE000ED30.
Definition CORTEXM_CTR : Z := 0xE000ED7C.
Definition CORTEXM_CPACR : Z := 0xE000ED88.
Definition CORTEXM_DHCSR : Z := 0xE000EDF0.
Definition CORTEXM_DCRSR : Z := 0xE000EDF4.
Definition CORTEXM_DCRDR : Z := 0xE000EDF8.
Definition CORTEXM_DEMCR : Z := 0xE000EDFC.
Definition CORTEXM_ICIALLU : Z := 0xE000EF50.
Definition CORTEXM_DCCMVAC : Z := 0xE000EF68.
Definition CORTEXM_DCCIMVAC : Z := 0xE000EF70.
Definition CORTEXM_FPB_CTRL : Z := 0xE0002000.
Definition CORTEXM_FPB_COMP (i : Z) : Z := 0xE0002008 + 4 * i.
Definition CORTEXM_DWT_CTRL : Z := 0xE0001000.
Definition CORTEXM_DWT_COMP (i : Z) : Z := 0xE0001020 + 0x10 * i.
Definition CORTEXM_DWT_MASK (i : Z) : Z := 0xE0001024 + 0x10 * i.
Definition CORTEXM_DWT_FUNC (i : Z) : Z := 0xE0001028 + 0x10 * i.

Definition CORTEXM_AIRCR_VECTKEY : Z := 0x05FA0000.
Definition CORTEXM_AIRCR_SYSRESETREQ : Z := 4.
Definition CORTEXM_AIRCR_VECTCLRACTIVE : Z := 2.
Definition CORTEXM_HFSR_FORCED : Z := 0x40000000.
Definition CORTEXM_DFSR_RESETALL : Z := 0x1F.
Definition CORTEXM_DFSR_VCATCH : Z := 8.
Definition CORTEXM_DFSR_DWTTRAP : Z := 4.
Definition CORTEXM_DFSR_BKPT : Z := 2.
Definition CORTEXM_DFSR_HALTED : Z := 1.
Definition CORTEXM_DHCSR_DBGKEY : Z := 0xA05F0000.
Definition CORTEXM_DHCSR_S_RESET_ST : Z := 0x2000000.
Definition CORTEXM_DHCSR_S_HALT : Z := 0x20000.
Definition CORTEXM_DHCSR_C_MASKINTS : Z := 8.
Definition CORTEXM_DHCSR_C_STEP : Z := 4.
Definition CORTEXM_DHCSR_C_HALT : Z := 2.
Definition CORTEXM_DHCSR_C_DEBUGEN : Z := 1.
Definition CORTEXM_DCRSR_REGWnR : Z := 0x10000.
Definition CORTEXM_DEMCR_TRCENA : Z := 0x1000000.
Definition CORTEXM_DEMCR_VC_HARDERR : Z := 0x400.
Definition CORTEXM_DEMCR_VC_CORERESET : Z := 1.
Definition CORTEXM_FPB_CTRL_KEY : Z := 2.
Definition CORTEXM_FPB_CTRL_ENABLE : Z := 1.
Definition CORTEXM_DWT_MASK_BYTE : Z := 0.
Definition CORTEXM_DWT_MASK_HALFWORD : Z := 1.
Definition CORTEXM_DWT_MASK_WORD : Z := 2.
Definition CORTEXM_DWT_FUNC_MATCHED : Z := 0x1000000.
Definition CORTEXM_DWT_FUNC_DATAVSIZE_WORD : Z := 0x800.
Definition CORTEXM_DWT_FUNC_FUNC_READ : Z := 5.
Definition CORTEXM_DWT_FUNC_FUNC_WRITE : Z := 6.
Definition CORTEXM_DWT_FUNC_FUNC_ACCESS : Z := 7.
Definition REG_SP : Z := 13.
Definition REG_LR : Z := 14.
Definition REG_PC : Z := 15.
Definition REG_XPSR : Z := 16.
Definition REG_MSP : Z := 17.
Definition REG_PSP : Z := 18.
Definition REG_SPECIAL : Z := 19.
Definition CORTEXM_XPSR_THUMB : Z := 0x1000000.
Definition CORTEXM_TOPT_INHIBIT_SRST : Z := 4.
Definition CPUID_PARTNO_MASK : Z := 0xfff0.
Definition CORTEX_M0 : Z := 0xc200.
Definition CORTEX_M0P : Z := 0xc600.
Definition CORTEX_M3 : Z := 0xc230.
Definition CORTEX_M4 : Z := 0xc240.
Definition CORTEX_M7 : Z := 0xc270.
Definition CORTEX_M23 : Z := 0xd200.
Definition CORTEX_M33 : Z := 0xd210.

Definition TOPT_FLAVOUR_V6M : Z := 1.
Definition TOPT_FLAVOUR_V7MF : Z := 2.
Definition CORTEXM_MAX_WATCHPOINTS : Z := 4.
Definition CORTEXM_MAX_BREAKPOINTS : Z := 8.
Definition sizeof_cortexm_priv : Z := 44.

Definition ADIV5_AP_CSW_SIZE_WORD : Z := 2.
Definition ADIV5_AP_DB (x : Z) : Z := Z.lor ADIV5_APnDP (0x10 + 4 * x).
Definition DB_DCRSR : Z := 1.
Definition DB_DCRDR : Z := 2.

(** ** Registers *)
Definition regnum_cortex_m : list Z :=
  [0; 1; 2; 3; 4; 5; 6; 7; 8; 9; 10; 11; 12; 13; 14; 15; 0x10; 0x11; 0x12; 0x14].
Definition regnum_cortex_mf : list Z := 0x21 :: seqZ 0x40 32.

Definition bits_attr (n : list Z) : list Z := str " bitsize=" ++ quoted n.
Definition tdesc_reg (name bits rest : list Z) : list Z :=
  str "    <reg name=" ++ quoted name ++ bits_attr bits ++ rest ++ str "/>".
Definition data_ptr : list Z := str " type=" ++ quoted (str "data_ptr").
Definition code_ptr : list Z := str " type=" ++ quoted (str "code_ptr").
Definition no_save : list Z := str " save-restore=" ++ quoted (str "no").
Definition tdesc_head : list Z :=
  str "<?xml version=" ++ quoted (str "1.0") ++ str "?>"
  ++ str "<!DOCTYPE target SYSTEM " ++ quoted (str "gdb-target.dtd") ++ str ">"
  ++ str "<target>"
  ++ str "  <architecture>arm</architecture>"
  ++ str "  <feature name=" ++ quoted (str "org.gnu.gdb.arm.m-profile") ++ str ">"
  ++ concat ((fun i => tdesc_reg (str "r" ++ fmt_d i) (str "32") []) <$> seqZ 0 13)
  ++ tdesc_reg (str "sp") (str "32") data_ptr
  ++ tdesc_reg (str "lr") (str "32") code_ptr
  ++ tdesc_reg (str "pc") (str "32") code_ptr
  ++ tdesc_reg (str "xpsr") (str "32") []
  ++ tdesc_reg (str "msp") (str "32") (no_save ++ data_ptr)
  ++ tdesc_reg (str "psp") (str "32") (no_save ++ data_ptr)
  ++ concat ((fun n => tdesc_reg n (str "8") no_save) <$>
       [str "primask"; str "basepri"; str "faultmask"; str "control"])
  ++ str "  </feature>".
Definition tdesc_cortex_m : list Z := tdesc_head ++ str "</target>".
Definition tdesc_cortex_mf : list Z :=
  tdesc_head
  ++ str "  <feature name=" ++ quoted (str "org.gnu.gdb.arm.vfp") ++ str ">"
  ++ tdesc_reg (str "fpscr") (str "32") []
  ++ concat ((fun i => tdesc_reg (str "d" ++ fmt_d i) (str "64") (str " type=" ++ quoted (str "float"))) <$> seqZ 0 16)
  ++ str "  </feature>"
  ++ str "</target>".

(** Words as the bytes they are in memory. *)
Definition words_bytes (l : list Z) : list Z := concat (le_bytes 4 <$> l).
Definition byte_word (l : list Z) (i : Z) : Z := le_val (ztake 4 (zdrop (4 * i) l)).
Definition bytes_words (l : list Z) : list Z := byte_word l <$> seqZ 0 (zlen l / 4).

(** [l[i]] of an array of words. *)
Definition word_get {W} (l : list Z) (i : Z) : M W Z :=
  if i <? 0 then crash OutOfBounds else
  match l !! Z.to_nat i with Some v => ret v | None => crash OutOfBounds end.
Definition word_set {W} (l : list Z) (i v : Z) : M W (list Z) :=
  if (0 <=? i) && (i <? zlen l) then ret (<[Z.to_nat i := v]> l) else crash OutOfBounds.

(** What cortexm.c calls of the device drivers: their probes, in the order of
    [cortexm_probe], and the [extended_reset] one may have set. *)
Class DeviceIf (D : Type) := {
  device_probe : string -> positive -> M (world D) bool;
  extended_reset : positive -> M (world D) unit;
}.

(** ** Memory: the methods that go straight to the access port *)
Section Memory.
Context {E : Type} `{MemIf E} `{DpIf E} `{DpObj E}.
Notation MW := (M (world (cm_dev E))).

(** The pointer and what it points to. *)
Definition cortexm_ap (p : positive) : MW (positive * ADIv5_AP) :=
  let! pr := load_priv p in
  let! ap := load_ap (cp_ap pr) in ret (cp_ap pr, ap).

(** The loop over the cache lines of [ram, ram_end). *)
Definition cache_line_body (ap : ADIv5_AP) (cache_reg minline ram_end ram : Z) : MW (Z + unit) :=
  if ram <? ram_end then
    do! adiv5_mem_write ap cache_reg (le_bytes 4 ram) 4 in
    ret (inl (u32 (ram + minline)))
  else ret (inr tt).
Definition cache_rounds (minline ram ram_end : Z) : nat := S (S (Z.to_nat ((ram_end - ram) / minline))).
(** A region's part of the request: [ram] and [ram_end] after the two ifs. *)
Definition cache_range (addr mem_end : Z) (r : target_ram) : Z * Z :=
  let ram := ram_start r in
  let ram_end := u32 (ram_start r + ram_length r) in
  (if ram <? addr then addr else ram, if mem_end <? ram_end then mem_end else ram_end).
Definition line_down (minline ram : Z) : Z := Z.land ram (u32 (Z.lnot (minline - 1))).
Definition cortexm_cache_clean (p : positive) (addr len : Z) (invalidate : bool) : MW unit :=
  let! pr := load_priv p in
  if negb (has_cache pr) || (dcache_minline pr =? 0) then ret tt else
  let cache_reg := if invalidate then CORTEXM_DCCIMVAC else CORTEXM_DCCMVAC in
  let minline := dcache_minline pr in
  let mem_end := u32 (addr + len) in
  let! t := load_target p in
  let! (_, ap) := cortexm_ap p in
  for_each (ram t) (fun '(_, r) =>
    let '(lo, ram_end) := cache_range addr mem_end r in
    let ram := line_down minline lo in
    iter (cache_rounds minline ram ram_end) (cache_line_body ap cache_reg minline ram_end) ram).

Definition cortexm_mem_read (p : positive) (src len : Z) : MW (list Z) :=
  do! cortexm_cache_clean p src len false in
  let! (_, ap) := cortexm_ap p in
  adiv5_mem_read ap (memset len 0) src len.
Definition cortexm_mem_write (p : positive) (dest : Z) (src : list Z) : MW unit :=
  do! cortexm_cache_clean p dest (zlen src) true in
  let! (_, ap) := cortexm_ap p in
  adiv5_mem_write ap dest src (zlen src).
Definition cortexm_check_error (p : positive) : MW bool :=
  let! (_, ap) := cortexm_ap p in
  let! e := on_dp (dp_error (ap_dp ap)) in ret (negb (e =? 0)).

Definition cortexm_priv_free (p : positive) : MW unit :=
  let! pr := load_priv p in
  let! h := priv_of p in
  do! adiv5_ap_unref (cp_ap pr) in
  do! MemManager_Free (Some h) in
  modify (fun w => set_dev (set_privs (delete h (privs (dev w))) (dev w)) w).

(** *** All registers, through the banked data registers of the access port *)
Definition ap_is_vfp (t : target) : bool := flag (target_options t) TOPT_FLAVOUR_V7MF.
Definition reg_nums (t : target) : list Z :=
  regnum_cortex_m ++ (if ap_is_vfp t then regnum_cortex_mf else []).
Definition bank_debug_regs (ap : ADIv5_AP) : MW unit :=
  do! adiv5_ap_write ap ADIV5_AP_CSW (Z.lor (csw ap) ADIV5_AP_CSW_SIZE_WORD) in
  do! adiv5_dp_low_access (ap_dp ap) ADIV5_LOW_WRITE ADIV5_AP_TAR CORTEXM_DHCSR in ret tt.
(** The registers after the first one. *)
Fixpoint read_banked (ap : ADIv5_AP) (nums : list Z) : MW (list Z) :=
  match nums with
  | [] => ret []
  | n :: nums' =>
      do! adiv5_dp_low_access (ap_dp ap) ADIV5_LOW_WRITE (ADIV5_AP_DB DB_DCRSR) n in
      let! v := adiv5_dp_read (ap_dp ap) (ADIV5_AP_DB DB_DCRDR) in
      let! vs := read_banked ap nums' in
      ret (v :: vs)
  end.
Definition cortexm_regs_read (p : positive) : MW (list Z) :=
  let! (_, ap) := cortexm_ap p in
  do! bank_debug_regs ap in
  do! adiv5_ap_write ap (ADIV5_AP_DB DB_DCRSR) 0 in
  let! v := adiv5_dp_read (ap_dp ap) (ADIV5_AP_DB DB_DCRDR) in
  let! t := load_target p in
  let! vs := read_banked ap (List.tl (reg_nums t)) in
  ret (words_bytes (v :: vs)).
Fixpoint write_banked (ap : ADIv5_AP) (nums data : list Z) (i : Z) : MW unit :=
  match nums with
  | [] => ret tt
  | n :: nums' =>
      let! v := word_get data i in
      do! adiv5_dp_low_access (ap_dp ap) ADIV5_LOW_WRITE (ADIV5_AP_DB DB_DCRDR) v in
      do! adiv5_dp_low_access (ap_dp ap) ADIV5_LOW_WRITE (ADIV5_AP_DB DB_DCRSR) (Z.lor 0x10000 n) in
      write_banked ap nums' data (i + 1)
  end.
Definition cortexm_regs_write (p : positive) (data : list Z) : MW unit :=
  let regs := bytes_words data in
  let! (_, ap) := cortexm_ap p in
  do! bank_debug_regs ap in
  let! v := word_get regs 0 in
  do! adiv5_ap_write ap (ADIV5_AP_DB DB_DCRDR) v in
  do! adiv5_dp_low_access (ap_dp ap) ADIV5_LOW_WRITE (ADIV5_AP_DB DB_DCRSR) (Z.lor 0x10000 0) in
  let! t := load_target p in
  write_banked ap (List.tl (reg_nums t)) regs 1.
End Memory.

(** ** The core, through the methods of its target *)
Section Core.
Context {E : Type} `{GdbIf E} `{MemIf E} `{ClockIf E} `{DpIf E} `{DpObj E}
        `{ProbeIf (cm_dev E)} `{HostIf (cm_dev E)} `{DRV : Driver (cm_dev E)} `{DeviceIf (cm_dev E)}.
Notation MW := (M (world (cm_dev E))).
(** Rounds of the loops that wait for the core, or for the end of a string of
    it: only they bound themselves, by time. *)
Variable polls : nat.

Definition read32 (p : positive) (addr : Z) : MW Z := target_mem_read32 (Some p) addr.
Definition write32 (p : positive) (addr v : Z) : MW unit := target_mem_write32 (Some p) addr v.
Definition tc_of (p : positive) : MW nat := let! t := load_target p in deref (t_tc t).
Definition srst (p : positive) (b : bool) : MW unit := let! c := tc_of p in platform_call c (srst_set_val c b).

(** *** Attaching *)
Fixpoint clear_units (p : positive) (reg : Z -> Z) (n : nat) (i : Z) (l : list bool) : MW (list bool) :=
  match n with
  | O => ret l
  | S n' => do! write32 p (reg i) 0 in
            let! l := store_flag l i false in
            clear_units p reg n' (i + 1) l
  end.
Definition reset_wait_body (p : positive) (timeout : Z) (_ : unit) : MW (unit + bool) :=
  let! dhcsr := read32 p CORTEXM_DHCSR in
  if negb (flag dhcsr CORTEXM_DHCSR_S_RESET_ST) then ret (inr true) else
  let! e := platform_timeout_is_expired timeout in
  if e : bool then ret (inr false) else ret (inl tt).
(** The comparators the FPB and the DWT say they have. *)
Definition size_units (p : positive) : MW unit :=
  let! r := read32 p CORTEXM_FPB_CTRL in
  let num := Z.land (Z.shiftr r 4) 0xf in
  let bmax := if num <? CORTEXM_MAX_BREAKPOINTS then num else CORTEXM_MAX_BREAKPOINTS in
  let rev := Z.shiftr r 28 in
  let! r := read32 p CORTEXM_DWT_CTRL in
  let wmax := if CORTEXM_MAX_WATCHPOINTS <? Z.shiftr r 28 then Z.shiftr r 28 else CORTEXM_MAX_WATCHPOINTS in
  upd_priv p (fun pr => set_units (hw_watchpoint pr) rev wmax (hw_breakpoint pr) bmax pr).
Definition clear_stale (p : positive) : MW unit :=
  let! pr := load_priv p in
  let! l := clear_units p CORTEXM_FPB_COMP (Z.to_nat (hw_breakpoint_max pr)) 0 (hw_breakpoint pr) in
  do! upd_priv p (set_hw_breakpoint l) in
  let! l := clear_units p CORTEXM_DWT_FUNC (Z.to_nat (hw_watchpoint_max pr)) 0 (hw_watchpoint pr) in
  upd_priv p (set_hw_watchpoint l).
Definition cortexm_attach (p : positive) : MW bool :=
  let! (_, ap) := cortexm_ap p in
  do! upd_dpo (ap_dp ap) (set_o_fault 1) in
  do! target_check_error (Some p) in
  do! target_check_error (Some p) in
  do! target_halt_request (Some p) in
  let! pr := load_priv p in
  do! write32 p CORTEXM_DEMCR (demcr pr) in
  do! write32 p CORTEXM_DFSR CORTEXM_DFSR_RESETALL in
  do! size_units p in
  do! clear_stale p in
  do! write32 p CORTEXM_FPB_CTRL (Z.lor CORTEXM_FPB_CTRL_KEY CORTEXM_FPB_CTRL_ENABLE) in
  do! read32 p CORTEXM_DHCSR in
  let! dhcsr := read32 p CORTEXM_DHCSR in
  if flag dhcsr CORTEXM_DHCSR_S_RESET_ST then
    do! srst p false in
    let! timeout := platform_timeout_set 1000 in
    iter polls (reset_wait_body p timeout) tt
  else ret true.

Fixpoint zero_regs (p : positive) (reg : Z -> Z) (n : nat) (i : Z) : MW unit :=
  match n with
  | O => ret tt
  | S n' => do! write32 p (reg i) 0 in zero_regs p reg n' (i + 1)
  end.
Definition cortexm_detach (p : positive) : MW unit :=
  let! pr := load_priv p in
  do! zero_regs p CORTEXM_FPB_COMP (Z.to_nat (hw_breakpoint_max pr)) 0 in
  do! zero_regs p CORTEXM_DWT_FUNC (Z.to_nat (hw_watchpoint_max pr)) 0 in
  let! (_, ap) := cortexm_ap p in
  do! write32 p CORTEXM_DEMCR (ap_cortexm_demcr ap) in
  write32 p CORTEXM_DHCSR CORTEXM_DHCSR_DBGKEY.

(** *** Registers *)
Definition cortexm_mem_write_sized (p : positive) (dest : Z) (src : list Z) (len align : Z) : MW bool :=
  do! cortexm_cache_clean p dest len true in
  let! (_, ap) := cortexm_ap p in
  do! adiv5_mem_write_sized ap dest src len align in
  target_check_error (Some p).
(** The bound of the second range adds the bytes of the first table to the
    entries of the second. *)
Definition dcrsr_regnum (t : target) (reg : Z) : MW Z :=
  if reg <? zlen regnum_cortex_m then word_get regnum_cortex_m reg
  else if ap_is_vfp t && (reg <? 4 * zlen regnum_cortex_m + zlen regnum_cortex_mf) then
    word_get regnum_cortex_mf (reg - zlen regnum_cortex_m)
  else ret (-1).
(** The result and the bytes stored. *)
Definition cortexm_reg_read (p : positive) (reg max : Z) : MW (Z * list Z) :=
  if max <? 4 then ret (-1, []) else
  let! t := load_target p in
  let! n := dcrsr_regnum t (u32 reg) in
  do! write32 p CORTEXM_DCRSR (u32 n) in
  let! v := read32 p CORTEXM_DCRDR in
  ret (4, le_bytes 4 v).
Definition cortexm_reg_write (p : positive) (reg : Z) (data : list Z) : MW Z :=
  if zlen data <? 4 then ret (-1) else
  do! write32 p CORTEXM_DCRDR (byte_word data 0) in
  let! t := load_target p in
  let! n := dcrsr_regnum t (u32 reg) in
  do! write32 p CORTEXM_DCRSR (u32 (Z.lor CORTEXM_DCRSR_REGWnR n)) in
  ret 4.
Definition cortexm_pc_read (p : positive) : MW Z :=
  do! write32 p CORTEXM_DCRSR 0x0F in read32 p CORTEXM_DCRDR.
Definition cortexm_pc_write (p : positive) (val : Z) : MW unit :=
  do! write32 p CORTEXM_DCRDR val in
  write32 p CORTEXM_DCRSR (Z.lor CORTEXM_DCRSR_REGWnR 0x0F).

(** *** Reset, halt, resume *)
Definition reset_poll_body (p : positive) (timeout : Z) (_ : unit) : MW (unit + unit) :=
  let! dhcsr := read32 p CORTEXM_DHCSR in
  if negb (flag dhcsr CORTEXM_DHCSR_S_RESET_ST) then ret (inr tt) else
  let! e := platform_timeout_is_expired timeout in
  if e : bool then ret (inr tt) else ret (inl tt).
Definition cortexm_reset (p : positive) : MW unit :=
  do! read32 p CORTEXM_DHCSR in
  let! t := load_target p in
  do! when (negb (flag (target_options t) CORTEXM_TOPT_INHIBIT_SRST))
    (do! srst p true in do! srst p false in platform_delay 10) in
  let! dhcsr := read32 p CORTEXM_DHCSR in
  do! when (negb (flag dhcsr CORTEXM_DHCSR_S_RESET_ST))
    (write32 p CORTEXM_AIRCR (Z.lor CORTEXM_AIRCR_VECTKEY CORTEXM_AIRCR_SYSRESETREQ)) in
  let! t := load_target p in
  do! match m_extended_reset t with FNULL => ret tt | _ => extended_reset p end in
  let! timeout := platform_timeout_set 1000 in
  do! iter polls (reset_poll_body p timeout) tt in
  do! platform_timeout_is_expired timeout in
  do! platform_delay 10 in
  do! write32 p CORTEXM_DFSR CORTEXM_DFSR_RESETALL in
  do! target_check_error (Some p) in ret tt.

Definition cortexm_halt_request (p : positive) : MW unit :=
  let! r := try_catch EXCEPTION_TIMEOUT
    (write32 p CORTEXM_DHCSR (Z.lor (Z.lor CORTEXM_DHCSR_DBGKEY CORTEXM_DHCSR_C_HALT) CORTEXM_DHCSR_C_DEBUGEN)) in
  match r with
  | inl _ => ret tt
  | inr _ => tc_printf (Some p) (str "Timeout sending interrupt, is target in WFI?" ++ nl)
  end.
Definition cortexm_halt_resume (p : positive) (step : bool) : MW unit :=
  let! pr := load_priv p in
  let dhcsr := Z.lor CORTEXM_DHCSR_DBGKEY CORTEXM_DHCSR_C_DEBUGEN in
  let dhcsr := if step then Z.lor dhcsr (Z.lor CORTEXM_DHCSR_C_STEP CORTEXM_DHCSR_C_MASKINTS) else dhcsr in
  do! when (negb (eqb step (stepping pr)))
    (do! write32 p CORTEXM_DHCSR (Z.lor dhcsr CORTEXM_DHCSR_C_HALT) in
     upd_priv p (fun pr => set_run step (on_bkpt pr) pr)) in
  do! when (on_bkpt pr)
    (let! pc := cortexm_pc_read p in
     let! instr := target_mem_read16 (Some p) pc in
     when (Z.land instr 0xFF00 =? 0xBE00) (cortexm_pc_write p (u32 (pc + 2)))) in
  do! when (has_cache pr) (write32 p CORTEXM_ICIALLU 0) in
  write32 p CORTEXM_DHCSR dhcsr.

(** The registers as they were before the exception, from those in it and the
    frame on its stack. *)
Definition unwound (regs stack : list Z) : MW (list Z) :=
  let! retcode := word_get regs REG_LR in
  let spsel := flag retcode 4 in
  let fpca := negb (flag retcode 16) in
  let! s5 := word_get stack 5 in let! regs := word_set regs REG_LR s5 in
  let! s6 := word_get stack 6 in let! regs := word_set regs REG_PC s6 in
  let! s7 := word_get stack 7 in
  let framesize := (if fpca then 0x68 else 0x20) + (if flag s7 512 then 4 else 0) in
  let! special := word_get regs REG_SPECIAL in
  let! regs := if spsel then word_set regs REG_SPECIAL (Z.lor special 0x4000000) else ret regs in
  let reg_sp := if spsel then REG_PSP else REG_MSP in
  let! sp := word_get regs reg_sp in
  let sp := u32 (sp + framesize) in
  let! regs := word_set regs reg_sp sp in
  let! regs := word_set regs REG_SP sp in
  let! special := word_get regs REG_SPECIAL in
  if fpca then word_set regs REG_SPECIAL (Z.lor special 0x2000000) else ret regs.
Definition cortexm_fault_unwind (p : positive) : MW bool :=
  let! hfsr := read32 p CORTEXM_HFSR in
  let! cfsr := read32 p CORTEXM_CFSR in
  do! write32 p CORTEXM_HFSR hfsr in
  do! write32 p CORTEXM_CFSR cfsr in
  if flag hfsr CORTEXM_HFSR_FORCED || negb (cfsr =? 0) then
    let! t := load_target p in
    let! data := target_regs_read polls (Some p) in
    do! when (4 * (regs_size t / 4) <? zlen data) (crash OutOfBounds) in
    let regs := bytes_words data in
    let! retcode := word_get regs REG_LR in
    let! sp := word_get regs (if flag retcode 4 then REG_PSP else REG_MSP) in
    let! (frame, _) := target_mem_read (Some p) sp 32 in
    let! e := target_check_error (Some p) in
    if e : bool then ret false else
    let! regs := unwound regs (bytes_words frame) in
    do! write32 p CORTEXM_AIRCR (Z.lor CORTEXM_AIRCR_VECTKEY CORTEXM_AIRCR_VECTCLRACTIVE) in
    do! target_regs_write polls (Some p) (words_bytes regs) in
    ret true
  else ret false.

(** *** Breakpoints and watchpoints *)
Definition dwt_mask (len : Z) : Z :=
  if len =? 1 then CORTEXM_DWT_MASK_BYTE
  else if len =? 2 then CORTEXM_DWT_MASK_HALFWORD
  else if len =? 4 then CORTEXM_DWT_MASK_WORD
  else u32 (-1).
Definition dwt_func (t : target) (type : Z) : Z :=
  let x := if Z.land (target_options t) TOPT_FLAVOUR_V6M =? 0 then CORTEXM_DWT_FUNC_DATAVSIZE_WORD else 0 in
  if type =? TARGET_WATCH_WRITE then Z.lor CORTEXM_DWT_FUNC_FUNC_WRITE x
  else if type =? TARGET_WATCH_READ then Z.lor CORTEXM_DWT_FUNC_FUNC_READ x
  else if type =? TARGET_WATCH_ACCESS then Z.lor CORTEXM_DWT_FUNC_FUNC_ACCESS x
  else u32 (-1).
Definition is_watch (type : Z) : bool :=
  (type =? TARGET_WATCH_WRITE) || (type =? TARGET_WATCH_READ) || (type =? TARGET_WATCH_ACCESS).
(** [for (i = 0; i < max; i++) if (!l[i]) break;] from [i], [n] entries to go. *)
Fixpoint first_free (n : nat) (i : Z) (l : list bool) : MW Z :=
  match n with
  | O => ret i
  | S n' => let! used := load_flag l i in
            if used then first_free n' (i + 1) l else ret i
  end.
(** A comparator value of the flash patch unit. *)
Definition fpb_value (rev addr : Z) : Z :=
  Z.lor (if rev =? 0 then Z.lor (Z.land addr 0x1FFFFFFC) (if flag addr 2 then 0x80000000 else 0x40000000)
         else addr) 1.
Definition set_reserved (i : Z) (bw : breakwatch) : breakwatch :=
  {| bw_type := bw_type bw; bw_addr := bw_addr bw; bw_size := bw_size bw;
     bw_reserved := <[0%nat := i]> (bw_reserved bw) |}.
Definition cortexm_breakwatch_set (p : positive) (bw : breakwatch) : MW (Z * breakwatch) :=
  let! pr := load_priv p in
  if bw_type bw =? TARGET_BREAK_HARD then
    let! i := first_free (Z.to_nat (hw_breakpoint_max pr)) 0 (hw_breakpoint pr) in
    if i =? hw_breakpoint_max pr then ret (-1, bw) else
    let! l := store_flag (hw_breakpoint pr) i true in
    do! upd_priv p (set_hw_breakpoint l) in
    do! write32 p (CORTEXM_FPB_COMP i) (fpb_value (flash_patch_revision pr) (bw_addr bw)) in
    ret (0, set_reserved i bw)
  else if is_watch (bw_type bw) then
    let! i := first_free (Z.to_nat (hw_watchpoint_max pr)) 0 (hw_watchpoint pr) in
    if i =? hw_watchpoint_max pr then ret (-1, bw) else
    let! l := store_flag (hw_watchpoint pr) i true in
    do! upd_priv p (set_hw_watchpoint l) in
    do! write32 p (CORTEXM_DWT_COMP i) (bw_addr bw) in
    do! write32 p (CORTEXM_DWT_MASK i) (dwt_mask (bw_size bw)) in
    let! t := load_target p in
    do! write32 p (CORTEXM_DWT_FUNC i) (dwt_func t (bw_type bw)) in
    ret (0, set_reserved i bw)
  else ret (1, bw).
Definition cortexm_breakwatch_clear (p : positive) (bw : breakwatch) : MW Z :=
  let! pr := load_priv p in
  let! i := word_get (bw_reserved bw) 0 in
  if bw_type bw =? TARGET_BREAK_HARD then
    let! l := store_flag (hw_breakpoint pr) i false in
    do! upd_priv p (set_hw_breakpoint l) in
    do! write32 p (CORTEXM_FPB_COMP i) 0 in
    ret 0
  else if is_watch (bw_type bw) then
    let! l := store_flag (hw_watchpoint pr) i false in
    do! upd_priv p (set_hw_watchpoint l) in
    do! write32 p (CORTEXM_DWT_FUNC i) 0 in
    ret 0
  else ret 1.
Fixpoint matched_unit (p : positive) (n : nat) (i : Z) (l : list bool) : MW Z :=
  match n with
  | O => ret i
  | S n' =>
      let! used := load_flag l i in
      let! hit := if used then let! f := read32 p (CORTEXM_DWT_FUNC i) in ret (flag f CORTEXM_DWT_FUNC_MATCHED)
                  else ret false in
      if hit : bool then ret i else matched_unit p n' (i + 1) l
  end.
Definition cortexm_check_watch (p : positive) : MW Z :=
  let! pr := load_priv p in
  let! i := matched_unit p (Z.to_nat (hw_watchpoint_max pr)) 0 (hw_watchpoint pr) in
  if i =? hw_watchpoint_max pr then ret 0 else read32 p (CORTEXM_DWT_COMP i).

(** *** monitor vector_catch *)
Definition vectors : list (Z * list Z) :=
  [(0, str "reset"); (4, str "mm"); (5, str "nocp"); (6, str "chk"); (7, str "stat"); (8, str "bus");
   (9, str "int"); (10, str "hard")].
Definition vector_bits (argv : list (list Z)) : Z :=
  foldl (fun tmp a => foldl (fun tmp '(i, v) => if eqb_str v a then Z.lor tmp (Z.shiftl 1 i) else tmp) tmp vectors)
    0 argv.
Definition cortexm_vector_catch (p : positive) (argv : list (list Z)) : MW bool :=
  do! if zlen argv <? 3 then
        tc_printf (Some p) (str "usage: monitor vector_catch (enable|disable) "
                            ++ str "(hard|int|bus|stat|chk|nocp|mm|reset)" ++ nl)
      else
        let tmp := vector_bits argv in
        let! a1 := deref (argv !! 1%nat) in
        let! e := parse_enable_or_disable a1 in
        match e with
        | None => ret tt
        | Some enable =>
            do! upd_priv p (fun pr => set_demcr (if enable : bool then Z.lor (demcr pr) tmp
                                                 else Z.land (demcr pr) (u32 (Z.lnot tmp))) pr) in
            let! pr := load_priv p in write32 p CORTEXM_DEMCR (demcr pr)
        end in
  do! tc_printf (Some p) (str "Catching vectors: ") in
  do! for_each vectors (fun '(i, v) =>
    let! pr := load_priv p in
    when (flag (demcr pr) (Z.shiftl 1 i)) (tc_printf (Some p) (v ++ [32]))) in
  do! tc_printf (Some p) nl in
  ret true.

(** *** Semihosting *)
Definition SYS_OPEN : Z := 0x01.
Definition SYS_CLOSE : Z := 0x02.
Definition SYS_WRITEC : Z := 0x03.
Definition SYS_WRITE0 : Z := 0x04.
Definition SYS_WRITE : Z := 0x05.
Definition SYS_READ : Z := 0x06.
Definition SYS_READC : Z := 0x07.
Definition SYS_ISERROR : Z := 0x08.
Definition SYS_ISTTY : Z := 0x09.
Definition SYS_SEEK : Z := 0x0A.
Definition SYS_FLEN : Z := 0x0C.
Definition SYS_TMPNAM : Z := 0x0D.
Definition SYS_REMOVE : Z := 0x0E.
Definition SYS_RENAME : Z := 0x0F.
Definition SYS_CLOCK : Z := 0x10.
Definition SYS_TIME : Z := 0x11.
Definition SYS_SYSTEM : Z := 0x12.
Definition SYS_ERRNO : Z := 0x13.
Definition SYS_GET_CMDLINE : Z := 0x15.
Definition SYS_HEAPINFO : Z := 0x16.
Definition SYS_EXIT : Z := 0x18.
Definition SYS_EXIT_EXTENDED : Z := 0x20.
Definition SYS_ELAPSED : Z := 0x30.
Definition SYS_TICKFREQ : Z := 0x31.
Definition TARGET_O_RDONLY : Z := 0.
Definition TARGET_O_WRONLY : Z := 1.
Definition TARGET_O_RDWR : Z := 2.
Definition TARGET_O_APPEND : Z := 0x008.
Definition TARGET_O_CREAT : Z := 0x200.
Definition TARGET_O_TRUNC : Z := 0x400.
Definition TARGET_SEEK_SET : Z := 0.
Definition STDIN_FILENO : Z := 0.
Definition STDOUT_FILENO : Z := 1.
Definition STDERR_FILENO : Z := 2.
Definition open_flags : list Z :=
  [TARGET_O_RDONLY; TARGET_O_RDWR;
   Z.lor (Z.lor TARGET_O_WRONLY TARGET_O_CREAT) TARGET_O_TRUNC; Z.lor (Z.lor TARGET_O_RDWR TARGET_O_CREAT) TARGET_O_TRUNC;
   Z.lor (Z.lor TARGET_O_WRONLY TARGET_O_CREAT) TARGET_O_APPEND; Z.lor (Z.lor TARGET_O_RDWR TARGET_O_CREAT) TARGET_O_APPEND].
Definition target_errnos : list Z :=
  [1; 2; 4; 5; 9; 13; 14; 16; 17; 19; 20; 21; 22; 23; 24; 27; 28; 29; 30; 88; 91; 9999].

(** Where the local variable is: an address of the probe. *)
Variable local_addr : Z.
Definition probe_mem_read (_ : positive) (src len : Z) : MW (list Z) :=
  let! w := get in
  let off := src - local_addr in
  if (0 <=? off) && (off + len <=? zlen (local (dev w))) then
    match mapM id (ztake len (zdrop off (local (dev w)))) with
    | Some l => ret l
    | None => crash UninitRead
    end
  else crash OutOfBounds.
Definition probe_mem_write (_ : positive) (dest : Z) (src : list Z) : MW unit :=
  let! w := get in
  let off := dest - local_addr in
  let l := local (dev w) in
  if (0 <=? off) && (off + zlen src <=? zlen l) then
    modify (fun w => set_dev (set_local (ztake off l ++ (Some <$> src) ++ zdrop (off + zlen src) l) (dev w)) w)
  else crash OutOfBounds.
(** A host call that fills a local variable: for its time the memory of the
    target is the probe's.  The result and the variable's bytes. *)
Definition on_local (p : positive) (init : list (option Z)) (m : MW Z) : MW (Z * list (option Z)) :=
  let! t := load_target p in
  let '(rd, wr) := (m_mem_read t, m_mem_write t) in
  do! modify (fun w => set_dev (set_local init (dev w)) w) in
  do! upd_target p (set_memory_methods (Fdev "probe_mem_read") (Fdev "probe_mem_write")) in
  let! rc := m in
  do! upd_target p (set_memory_methods rd wr) in
  let! w := get in
  ret (rc, local (dev w)).
(** A big-endian integer of [n] bytes at [off]. *)
Definition be_at (l : list (option Z)) (off n : Z) : MW Z :=
  match mapM id (ztake n (zdrop off l)) with
  | Some b => ret (le_val (rev b))
  | None => crash UninitRead
  end.

Definition host_open (p : positive) (params : list Z) : MW Z :=
  let! mode := word_get params 1 in
  let! path := word_get params 0 in
  let! len := word_get params 2 in
  let! pflag := word_get open_flags (Z.shiftr mode 1) in
  let! (filename, _) := target_mem_read (Some p) path 4 in
  if eqb_str (cstr filename) (str ":tt") then
    ret ((if pflag =? TARGET_O_RDONLY then STDIN_FILENO
          else if flag pflag TARGET_O_TRUNC then STDOUT_FILENO else STDERR_FILENO) + 1)
  else
    let! r := tc_open (Some p) path (u32 (len + 1)) pflag 420 in
    ret (if r =? -1 then r else i32 (r + 1)).
Definition write0_body (p : positive) (str_end : Z) : MW (Z + Z) :=
  let! c := target_mem_read8 (Some p) str_end in
  if c =? 0 then ret (inr str_end) else
  let! e := target_check_error (Some p) in
  if e : bool then ret (inr str_end) else ret (inl (u32 (str_end + 1))).
Definition host_write0 (p : positive) (str_begin : Z) : MW Z :=
  let! str_end := iter polls (write0_body p) str_begin in
  let len := i32 (str_end - str_begin) in
  if len =? 0 then ret 0 else
  let! rc := tc_write (Some p) STDERR_FILENO str_begin (u32 len) in
  ret (if rc =? len then 0 else -1).
Definition host_flen (p : positive) (fd : Z) : MW Z :=
  let! (rc, stat) := on_local p (replicate 64 None) (tc_fstat (Some p) (i32 (fd - 1)) local_addr) in
  if negb (rc =? 0) then ret (-1) else
  let! msw := be_at stat 28 4 in
  if negb (msw =? 0) then ret (-1) else
  let! size := be_at stat 32 4 in
  let r := i32 size in ret (if r <? 0 then -1 else r).
Definition host_time (p : positive) (syscall : Z) : MW Z :=
  let! (rc, tv) := on_local p (replicate 12 None) (tc_gettimeofday (Some p) local_addr 0) in
  if negb (rc =? 0) then ret (-1) else
  let! sec := be_at tv 0 4 in
  let! usec := be_at tv 4 8 in
  if syscall =? SYS_TIME then ret (i32 sec) else
  let! w := get in
  let t0 := if sec <? time0_sec (dev w) then sec else time0_sec (dev w) in
  do! modify (fun w => set_dev (set_time0 t0 (dev w)) w) in
  let csec64 := u64 (u64 (u32 (sec - t0) * 1000000) + usec) / 10000 in
  ret (Z.land csec64 0x7fffffff).
Definition host_readc (p : positive) : MW Z :=
  let! (rc, ch) := on_local p [Some 63] (tc_read (Some p) STDIN_FILENO local_addr 1) in
  if rc =? 1 then be_at ch 0 1 else ret (-1).
Definition host_get_cmdline (p : positive) (block buf_ptr buf_len : Z) : MW Z :=
  let! t := load_target p in
  let s := cstr (cmdline t) ++ [0] in
  if buf_len <? zlen s then ret (-1) else
  let! e := target_mem_write (Some p) buf_ptr s in
  if e : bool then ret (-1) else
  let! e := target_mem_write (Some p) block (words_bytes [buf_ptr; zlen s]) in
  ret (if e : bool then -1 else 0).
Definition host_tmpnam (p : positive) (buf_ptr target_id buf_size : Z) : MW Z :=
  if buf_ptr =? 0 then ret (-1) else
  if buf_size <=? 0 then ret (-1) else
  if (target_id <? 0) || (255 <? target_id) then ret (-1) else
  let fnam := str "temp" ++ [65 + Z.land (Z.shiftr target_id 4) 0xF; 65 + Z.land target_id 0xF] ++ str ".tmp" ++ [0] in
  if u32 buf_size <? zlen fnam then ret (-1) else
  let! e := target_mem_write (Some p) buf_ptr fnam in
  ret (if e : bool then -1 else 0).
Definition exit_text (n : list Z) : list Z := str "_exit(0x" ++ n ++ str ")" ++ nl.

(** The system call's result; [r1] the register that holds its block. *)
Definition semihost (p : positive) (syscall r1 : Z) (params : list Z) : MW Z :=
  let arg i := word_get params i in
  let fd := let! x := arg 0 in ret (i32 (x - 1)) in
  let transfer (call : Z -> Z -> Z -> MW Z) :=
    let! f := fd in let! buf := arg 1 in let! n := arg 2 in
    let! r := call f buf n in ret (if 0 <=? r then i32 (n - r) else r) in
  if syscall =? SYS_OPEN then host_open p params
  else if syscall =? SYS_CLOSE then let! f := fd in tc_close (Some p) f
  else if syscall =? SYS_READ then transfer (tc_read (Some p))
  else if syscall =? SYS_WRITE then transfer (tc_write (Some p))
  else if syscall =? SYS_WRITEC then tc_write (Some p) STDERR_FILENO r1 1
  else if syscall =? SYS_WRITE0 then host_write0 p r1
  else if syscall =? SYS_ISTTY then let! f := fd in tc_isatty (Some p) f
  else if syscall =? SYS_SEEK then
    let! f := fd in let! off := arg 1 in
    let! r := tc_lseek (Some p) f (i32 off) TARGET_SEEK_SET in ret (if r =? i32 off then 0 else -1)
  else if syscall =? SYS_RENAME then
    let! a := arg 0 in let! b := arg 1 in let! c := arg 2 in let! d := arg 3 in
    tc_rename (Some p) a (u32 (b + 1)) c (u32 (d + 1))
  else if syscall =? SYS_REMOVE then let! a := arg 0 in let! b := arg 1 in tc_unlink (Some p) a (u32 (b + 1))
  else if syscall =? SYS_SYSTEM then let! a := arg 0 in let! b := arg 1 in tc_system (Some p) a (u32 (b + 1))
  else if syscall =? SYS_FLEN then let! a := arg 0 in host_flen p a
  else if (syscall =? SYS_CLOCK) || (syscall =? SYS_TIME) then host_time p syscall
  else if syscall =? SYS_READC then host_readc p
  else if syscall =? SYS_ERRNO then let! c := tc_of p in let! tc := load_ctl c in ret (errno_ tc)
  else if syscall =? SYS_EXIT then
    do! tc_printf (Some p) (exit_text (fmt_x 1 r1)) in do! target_halt_resume (Some p) true in ret 0
  else if syscall =? SYS_EXIT_EXTENDED then
    let! a := arg 0 in let! b := arg 1 in
    do! tc_printf (Some p) (exit_text (fmt_x 1 b ++ fmt_x 8 a)) in do! target_halt_resume (Some p) true in ret 0
  else if syscall =? SYS_GET_CMDLINE then
    let! a := arg 0 in let! b := arg 1 in host_get_cmdline p r1 a b
  else if syscall =? SYS_ISERROR then let! a := arg 0 in ret (if bool_decide (i32 a ∈ target_errnos) then 1 else 0)
  else if syscall =? SYS_HEAPINFO then
    let! t := load_target p in do! target_mem_write (Some p) r1 (words_bytes (heapinfo t)) in ret 0
  else if syscall =? SYS_TMPNAM then
    let! a := arg 0 in let! b := arg 1 in let! c := arg 2 in host_tmpnam p a (i32 b) (i32 c)
  else if (syscall =? SYS_ELAPSED) || (syscall =? SYS_TICKFREQ) then ret (-1)
  else ret 0.
(** [params] stays indeterminate for SYS_EXIT: the empty array here. *)
Definition cortexm_hostio_request (p : positive) : MW bool :=
  let! c := tc_of p in
  do! upd_ctl c (set_interrupted false) in
  let! data := target_regs_read polls (Some p) in
  let arm_regs := bytes_words data in
  let! syscall := word_get arm_regs 0 in
  let! r1 := word_get arm_regs 1 in
  let! params := if syscall =? SYS_EXIT then ret []
                 else let! (b, _) := target_mem_read (Some p) r1 16 in ret (bytes_words b) in
  let! r := semihost p syscall r1 params in
  let! arm_regs := word_set arm_regs 0 (u32 r) in
  do! target_regs_write polls (Some p) (words_bytes arm_regs) in
  let! c := tc_of p in
  let! tc := load_ctl c in
  ret (interrupted tc).

(** *** Halted, and why

    The reason, and what was stored at [watch]: 0 stands for nothing, which
    only a watchpoint stores. *)
Definition halt_reason (p : positive) (want_watch : bool) : MW (target_halt_reason * Z) :=
  let! dfsr := read32 p CORTEXM_DFSR in
  do! write32 p CORTEXM_DFSR dfsr in
  let! fault := if flag dfsr CORTEXM_DFSR_VCATCH then cortexm_fault_unwind p else ret false in
  if fault : bool then ret (TARGET_HALT_FAULT, 0) else
  let bkpt := flag dfsr CORTEXM_DFSR_BKPT in
  do! upd_priv p (fun pr => set_run (stepping pr) bkpt pr) in
  let! host :=
    if bkpt then
      let! pc := cortexm_pc_read p in
      let! instr := target_mem_read16 (Some p) pc in
      ret (instr =? 0xBEAB)
    else ret false in
  if host : bool then
    let! stop := cortexm_hostio_request p in
    if stop : bool then ret (TARGET_HALT_REQUEST, 0)
    else let! pr := load_priv p in
         do! target_halt_resume (Some p) (stepping pr) in
         ret (TARGET_HALT_RUNNING, 0)
  else if flag dfsr CORTEXM_DFSR_DWTTRAP then
    let! a := if want_watch then cortexm_check_watch p else ret 0 in
    ret (TARGET_HALT_WATCHPOINT, a)
  else if bkpt then ret (TARGET_HALT_BREAKPOINT, 0)
  else if flag dfsr CORTEXM_DFSR_HALTED then
    let! pr := load_priv p in
    ret (if stepping pr then TARGET_HALT_STEPPING else TARGET_HALT_REQUEST, 0)
  else ret (TARGET_HALT_BREAKPOINT, 0).
Definition cortexm_halt_poll (p : positive) (want_watch : bool) : MW (target_halt_reason * Z) :=
  let! r := try_catch EXCEPTION_ALL (read32 p CORTEXM_DHCSR) in
  let poll dhcsr := if flag dhcsr CORTEXM_DHCSR_S_HALT then halt_reason p want_watch else ret (TARGET_HALT_RUNNING, 0) in
  match r with
  | inl dhcsr => poll dhcsr
  | inr (type, _) =>
      if type =? EXCEPTION_ERROR then
        let! c := tc_of p in do! target_list_free c in ret (TARGET_HALT_ERROR, 0)
      else if type =? EXCEPTION_TIMEOUT then ret (TARGET_HALT_RUNNING, 0)
      else poll 0
  end.

(** *** Running code on the core *)
Definition stub_regs (n : Z) (loadaddr r0 r1 r2 r3 : Z) : MW (list Z) :=
  let! regs := word_set (memset n 0) 0 r0 in
  let! regs := word_set regs 1 r1 in
  let! regs := word_set regs 2 r2 in
  let! regs := word_set regs 3 r3 in
  let! regs := word_set regs 15 loadaddr in
  let! regs := word_set regs REG_XPSR CORTEXM_XPSR_THUMB in
  word_set regs 19 0.
(** A round of the wait: None when the time is up. *)
Definition stub_wait_body (p : positive) (timeout : Z) (_ : unit) : MW (unit + option target_halt_reason) :=
  let! e := platform_timeout_is_expired timeout in
  if e : bool then
    do! cortexm_halt_request p in
    do! target_regs_read polls (Some p) in ret (inr None)
  else let! (reason, _) := cortexm_halt_poll p false in
       if bool_decide (reason = TARGET_HALT_RUNNING) then ret (inl tt) else ret (inr (Some reason)).
Definition stub_result (p : positive) (reason : option target_halt_reason) : MW Z :=
  match reason with
  | None => ret (-3)
  | Some TARGET_HALT_ERROR => raise EXCEPTION_ERROR (str "Target lost in stub")
  | Some TARGET_HALT_BREAKPOINT =>
      let! pc := cortexm_pc_read p in
      let! instr := target_mem_read16 (Some p) pc in
      ret (if Z.shiftr instr 8 =? 0xbe then Z.land instr 0xff else -2)
  | Some _ => ret (-2)
  end.
Definition cortexm_run_stub (p : positive) (loadaddr r0 r1 r2 r3 : Z) : MW Z :=
  let! t := load_target p in
  let! regs := stub_regs (regs_size t / 4) loadaddr r0 r1 r2 r3 in
  do! cortexm_regs_write p (words_bytes regs) in
  let! e := target_check_error (Some p) in
  if e : bool then ret (-1) else
  do! target_regs_read polls (Some p) in
  do! cortexm_halt_resume p false in
  let! timeout := platform_timeout_set 5000 in
  let! reason := iter polls (stub_wait_body p timeout) tt in
  stub_result p reason.

(** *** Probing *)
Definition AP_DESIGNER_FREESCALE : Z := 0x00e.
Definition AP_DESIGNER_TEXAS : Z := 0x017.
Definition AP_DESIGNER_ATMEL : Z := 0x01f.
Definition AP_DESIGNER_STM : Z := 0x020.
Definition AP_DESIGNER_CYPRESS : Z := 0x034.
Definition AP_DESIGNER_INFINEON : Z := 0x041.
Definition AP_DESIGNER_NORDIC : Z := 0x244.
Definition AP_DESIGNER_ARM : Z := 0x43b.
Definition AP_DESIGNER_SPECULAR : Z := 0x501.
Definition AP_DESIGNER_CS : Z := 0x555.
Definition AP_DESIGNER_ENERGY_MICRO : Z := 0x673.
Definition AP_DESIGNER_GIGADEVICE : Z := 0x751.
Definition AP_DESIGNER_RASPBERRY : Z := 0x927.
Definition cortexm_driver_str : list Z := str "ARM Cortex-M".
Definition cortexm_cmd_list : list command :=
  [cmd_entry "vector_catch" "cortexm_vector_catch" "Catch exception vectors"].
Definition blank_priv (ap : positive) : cortexm_priv :=
  {| cp_ap := ap; stepping := false; on_bkpt := false; hw_watchpoint := replicate (Z.to_nat CORTEXM_MAX_WATCHPOINTS) false;
     flash_patch_revision := 0; hw_watchpoint_max := 0;
     hw_breakpoint := replicate (Z.to_nat CORTEXM_MAX_BREAKPOINTS) false; hw_breakpoint_max := 0; demcr := 0;
     has_cache := false; dcache_minline := 0 |}.
Definition core_name (cpuid : Z) : option (list Z) :=
  let partno := Z.land cpuid CPUID_PARTNO_MASK in
  if partno =? CORTEX_M33 then Some (str "M33")
  else if partno =? CORTEX_M23 then Some (str "M23")
  else if partno =? CORTEX_M3 then Some (str "M3")
  else if partno =? CORTEX_M4 then Some (str "M4")
  else if partno =? CORTEX_M7 then Some (str "M7")
  else if partno =? CORTEX_M0P then Some (str "M0+")
  else if partno =? CORTEX_M0 then Some (str "M0")
  else None.

(** What the switch over the designer does, in order: a [PROBE], or the two
    special cases. *)
Inductive probe_step : Type :=
| PROBE (x : string)
| Imxrt              (* an MIMXRT10xx is named and resumed *)
| Report.            (* an unexpected designer is reported *)
Definition probe_list (designer partno targetid : Z) : list probe_step :=
  if designer =? AP_DESIGNER_FREESCALE then PROBE "kinetis" :: (if partno =? 0x88c then [Imxrt] else [])
  else if designer =? AP_DESIGNER_CS then [PROBE "stm32f1"]
  else if designer =? AP_DESIGNER_GIGADEVICE then [PROBE "gd32f1"]
  else if designer =? AP_DESIGNER_STM then
    [PROBE "stm32f1"; PROBE "stm32f4"; PROBE "stm32h7"; PROBE "stm32l0"; PROBE "stm32l4"; PROBE "stm32g0"]
  else if (designer =? AP_DESIGNER_CYPRESS) || (designer =? AP_DESIGNER_INFINEON) then []
  else if designer =? AP_DESIGNER_NORDIC then [PROBE "nrf51"]
  else if designer =? AP_DESIGNER_ATMEL then [PROBE "sam4l"; PROBE "samd"; PROBE "samx5x"]
  else if designer =? AP_DESIGNER_ENERGY_MICRO then [PROBE "efm32"]
  else if designer =? AP_DESIGNER_TEXAS then [PROBE "msp432"]
  else if designer =? AP_DESIGNER_SPECULAR then [PROBE "lpc11xx"]
  else
    (if designer =? AP_DESIGNER_ARM then [] else [Report])
    ++ (if partno =? 0x4c0 then
          (if Z.land targetid 0xfff =? AP_DESIGNER_RASPBERRY then [PROBE "rp"] else []) ++ [PROBE "lpc11xx"]
        else if partno =? 0x4c3 then [PROBE "stm32f1"; PROBE "lpc15xx"]
        else if partno =? 0x471 then [PROBE "lpc11xx"; PROBE "lpc43xx"]
        else if partno =? 0x4c4 then [PROBE "lpc546xx"; PROBE "lpc43xx"; PROBE "kinetis"]
        else if partno =? 0x4cb then [PROBE "gd32f1"]
        else [])
    ++ [PROBE "sam3x"; PROBE "lmi"; PROBE "ke04"; PROBE "lpc17xx"].
(** Whether a probe took the device. *)
Fixpoint run_probes (p : positive) (ap : ADIv5_AP) (l : list probe_step) : MW bool :=
  match l with
  | [] => ret false
  | PROBE x :: l' =>
      let! ok := device_probe x p in
      if ok : bool then ret true
      else do! target_check_error (Some p) in run_probes p ap l'
  | Imxrt :: l' =>
      do! upd_target p (set_driver (str "MIMXRT10xx(no flash)")) in
      do! target_halt_resume (Some p) false in
      run_probes p ap l'
  | Report :: l' =>
      do! gdb_outf (str "Please report Designer " ++ padl 3 (fmt_x 1 (ap_designer ap)) ++ str " and Partno "
                    ++ padl 3 (fmt_x 1 (ap_partno ap)) ++ str " and the probed device" ++ nl) in
      run_probes p ap l'
  end.

(** The methods and the properties of the core. *)
Definition probe_fp (p : positive) : MW unit :=
  let! cpacr := read32 p CORTEXM_CPACR in
  let cpacr := Z.lor cpacr 0x00F00000 in
  do! write32 p CORTEXM_CPACR cpacr in
  let! again := read32 p CORTEXM_CPACR in
  when (again =? cpacr)
    (upd_target p (fun t => set_options (Z.lor (target_options t) TOPT_FLAVOUR_V7MF)
                     (set_regs (regs_size t + 4 * zlen regnum_cortex_mf) (Some tdesc_cortex_mf) t))).
Definition probe_cache (p : positive) : MW unit :=
  let! ctr := read32 p CORTEXM_CTR in
  if Z.shiftr ctr 29 =? 4 then
    upd_priv p (fun pr => set_demcr_cache (demcr pr) true (Z.shiftl 4 (Z.land ctr 0xf)) pr)
  else do! target_check_error (Some p) in ret tt.
Definition core_setup (p : positive) (c : nat) : MW unit :=
  let! cpuid := read32 p CORTEXM_CPUID in
  do! upd_target p (set_cpuid cpuid) in
  do! match core_name cpuid with Some n => upd_target p (set_core n) | None => ret tt end in
  do! upd_target p (fun t => set_regs (4 * zlen regnum_cortex_m) (Some tdesc_cortex_m)
                      (set_core_methods (set_conn (attached t) (Some c) t))) in
  do! target_add_commands p cortexm_cmd_list cortexm_driver_str in
  do! probe_fp p in
  do! upd_priv p (set_demcr (Z.lor (Z.lor CORTEXM_DEMCR_TRCENA CORTEXM_DEMCR_VC_HARDERR) CORTEXM_DEMCR_VC_CORERESET)) in
  probe_cache p.
Definition cortexm_probe (h : positive) : MW bool :=
  let! ap := load_ap h in
  let! d := on_dp (load_dpo (ap_dp ap)) in
  let! t := target_new (o_tc d) in
  match t with
  | None => ret false
  | Some p =>
      do! adiv5_ap_ref h in
      do! upd_target p (fun t => set_idcode (ap_partno ap) (set_designer (ap_designer ap) t)) in
      let! pr := MemManager_Alloc sizeof_cortexm_priv in
      match pr with
      | None => ret false
      | Some k =>
          do! upd_target p (set_priv (Some k)) in
          do! modify (fun w => set_dev (set_privs (<[k := blank_priv h]> (privs (dev w))) (dev w)) w) in
          do! upd_target p (fun t => set_driver cortexm_driver_str (set_probe_methods t)) in
          do! core_setup p (o_tc d) in
          let! d := on_dp (load_dpo (ap_dp ap)) in
          let! taken := run_probes p ap (probe_list (ap_designer ap) (ap_partno ap) (o_targetid d)) in
          if taken : bool then ret true
          else do! target_halt_resume (Some p) false in ret true
      end
  end.
End Core.

(** ** The driver

    A method pointer that holds a device driver's function leads to [other];
    the others to the functions above.  They call each other only through the
    target, and only downwards: memory and registers, then halting and
    resuming, then the rest; each layer is the driver the next one calls. *)
Section CortexmDriver.
Context {E : Type} `{GdbIf E} `{MemIf E} `{ClockIf E} `{DpIf E} `{DpObj E}
        `{ProbeIf (cm_dev E)} `{HostIf (cm_dev E)} `{DeviceIf (cm_dev E)}.
Variable polls : nat.
Variable local_addr : Z.
Variable other : Driver (cm_dev E).
Notation MW := (M (world (cm_dev E))).

Definition via {A} (p : positive) (m : target -> fptr) (core : MW A) (device : string -> MW A) : MW A :=
  let! t := load_target p in
  match m t with Fdev name => device name | _ => core end.
Definition memory_method {A} (p : positive) (m : target -> fptr) (core probe device : MW A) : MW A :=
  via p m core (fun name => if String.eqb name "probe_mem_read" || String.eqb name "probe_mem_write" then probe else device).

Definition memory_layer : Driver (cm_dev E) := {|
  drv_attach := drv_attach; drv_detach := drv_detach;
  drv_check_error p := via p m_check_error (cortexm_check_error p) (fun _ => drv_check_error p);
  drv_mem_read p src len :=
    memory_method p m_mem_read (cortexm_mem_read p src len) (probe_mem_read local_addr p src len) (drv_mem_read p src len);
  drv_mem_write p dest src :=
    memory_method p m_mem_write (cortexm_mem_write p dest src) (probe_mem_write local_addr p dest src) (drv_mem_write p dest src);
  drv_regs_read p := via p m_regs_read (cortexm_regs_read p) (fun _ => drv_regs_read p);
  drv_regs_write p data := via p m_regs_write (cortexm_regs_write p data) (fun _ => drv_regs_write p data);
  drv_reg_read := drv_reg_read; drv_reg_write := drv_reg_write; drv_reset := drv_reset;
  drv_halt_request := drv_halt_request; drv_halt_poll := drv_halt_poll; drv_halt_resume := drv_halt_resume;
  drv_breakwatch_set := drv_breakwatch_set; drv_breakwatch_clear := drv_breakwatch_clear;
  drv_priv_free := cortexm_priv_free; drv_command := drv_command;
  drv_flash_erase := drv_flash_erase; drv_flash_write := drv_flash_write; drv_flash_done := drv_flash_done |}.
Definition run_layer : Driver (cm_dev E) :=
  let D0 := memory_layer in {|
  drv_attach := drv_attach; drv_detach := drv_detach; drv_check_error := drv_check_error;
  drv_mem_read := drv_mem_read; drv_mem_write := drv_mem_write;
  drv_regs_read := drv_regs_read; drv_regs_write := drv_regs_write;
  drv_reg_read p reg max := via p m_reg_read (cortexm_reg_read (DRV := D0) p reg max) (fun _ => drv_reg_read p reg max);
  drv_reg_write p reg data := via p m_reg_write (cortexm_reg_write (DRV := D0) p reg data) (fun _ => drv_reg_write p reg data);
  drv_reset := drv_reset;
  drv_halt_request p := via p m_halt_request (cortexm_halt_request (DRV := D0) p) (fun _ => drv_halt_request p);
  drv_halt_poll := drv_halt_poll;
  drv_halt_resume p step := via p m_halt_resume (cortexm_halt_resume (DRV := D0) p step) (fun _ => drv_halt_resume p step);
  drv_breakwatch_set p bw := via p m_breakwatch_set (cortexm_breakwatch_set (DRV := D0) p bw) (fun _ => drv_breakwatch_set p bw);
  drv_breakwatch_clear p bw := via p m_breakwatch_clear (cortexm_breakwatch_clear (DRV := D0) p bw) (fun _ => drv_breakwatch_clear p bw);
  drv_priv_free := drv_priv_free; drv_command := drv_command;
  drv_flash_erase := drv_flash_erase; drv_flash_write := drv_flash_write; drv_flash_done := drv_flash_done |}.
Definition cortexm_driver : Driver (cm_dev E) :=
  let D1 := run_layer in {|
  drv_attach p := via p m_attach (cortexm_attach (DRV := D1) polls p) (fun _ => drv_attach p);
  drv_detach p := via p m_detach (cortexm_detach (DRV := D1) p) (fun _ => drv_detach p);
  drv_check_error := drv_check_error;
  drv_mem_read := drv_mem_read; drv_mem_write := drv_mem_write;
  drv_regs_read := drv_regs_read; drv_regs_write := drv_regs_write;
  drv_reg_read := drv_reg_read; drv_reg_write := drv_reg_write;
  drv_reset p := via p m_reset (cortexm_reset (DRV := D1) polls p) (fun _ => drv_reset p);
  drv_halt_request := drv_halt_request;
  drv_halt_poll p := via p m_halt_poll (cortexm_halt_poll (DRV := D1) polls local_addr p true) (fun _ => drv_halt_poll p);
  drv_halt_resume := drv_halt_resume;
  drv_breakwatch_set := drv_breakwatch_set; drv_breakwatch_clear := drv_breakwatch_clear;
  drv_priv_free := drv_priv_free;
  drv_command p c argv :=
    if String.eqb (c_handler c) "cortexm_vector_catch" then cortexm_vector_catch (DRV := D1) p argv else drv_command p c argv;
  drv_flash_erase := drv_flash_erase; drv_flash_write := drv_flash_write; drv_flash_done := drv_flash_done |}.
End CortexmDriver.
