(* ===== verification/CoreSpec.v ===== *)
(** What cortexm.c relies on of a Cortex-M core: the debug registers of the
    ARMv7-M architecture as a reference machine, the interface [CoreSpec] by
    which the methods of a target reach them, and the runs of the accessors. *)

From Stdlib Require Import ZArith Lia String.
From stdpp Require Import base list numbers option gmap.
From S2P Require Import Prelude CLib GdbIf MemManager GdbPacket TargetState Target TargetProps Platform Exception Morse Command Dap Adiv5 Objects Cortexm.

(** ** The reference machine

    The registers by their DCRSR number, DCRDR, the halted state and the
    control bits of DHCSR, DFSR and DEMCR, the comparators of the flash patch
    unit and of the watchpoint unit, and memory by byte.  What the core executes
    is a function too: [k_prog], from the registers it is resumed with to the
    registers and the DFSR it stops with, if it does; and [k_cut], the registers
    a halt request finds. *)
Record core := {
  k_reg : Z -> Z;
  k_dcrdr : Z;
  k_halted : bool;
  k_ctrl : Z;
  k_dfsr : Z;
  k_demcr : Z;
  k_fpb : Z -> Z;
  k_dwt_comp : Z -> Z;
  k_dwt_mask : Z -> Z;
  k_dwt_func : Z -> Z;
  k_mem : Z -> Z;
  k_prog : (Z -> Z) -> (Z -> Z) * Z;
  k_cut : Z -> Z;
}.
Definition upd (f : Z -> Z) (i v : Z) : Z -> Z := fun j => if j =? i then v else f j.
Definition with_regs r d k : core :=
  {| k_reg := r; k_dcrdr := d; k_halted := k_halted k; k_ctrl := k_ctrl k; k_dfsr := k_dfsr k; k_demcr := k_demcr k;
     k_fpb := k_fpb k; k_dwt_comp := k_dwt_comp k; k_dwt_mask := k_dwt_mask k; k_dwt_func := k_dwt_func k; k_mem := k_mem k;
     k_prog := k_prog k; k_cut := k_cut k |}.
Definition with_status h c f m k : core :=
  {| k_reg := k_reg k; k_dcrdr := k_dcrdr k; k_halted := h; k_ctrl := c; k_dfsr := f; k_demcr := m;
     k_fpb := k_fpb k; k_dwt_comp := k_dwt_comp k; k_dwt_mask := k_dwt_mask k; k_dwt_func := k_dwt_func k; k_mem := k_mem k;
     k_prog := k_prog k; k_cut := k_cut k |}.
Definition with_units f c m u k : core :=
  {| k_reg := k_reg k; k_dcrdr := k_dcrdr k; k_halted := k_halted k; k_ctrl := k_ctrl k; k_dfsr := k_dfsr k; k_demcr := k_demcr k;
     k_fpb := f; k_dwt_comp := c; k_dwt_mask := m; k_dwt_func := u; k_mem := k_mem k;
     k_prog := k_prog k; k_cut := k_cut k |}.
Definition set_fpb f k := with_units f (k_dwt_comp k) (k_dwt_mask k) (k_dwt_func k) k.

(** Transfers between DCRDR and a core register need a halted core; the
    selector is REGSEL. *)
Definition regsel (v : Z) : Z := Z.land v 0x7F.
Definition dcrsr_write (v : Z) (k : core) : option core :=
  if k_halted k then
    Some (if flag v CORTEXM_DCRSR_REGWnR then with_regs (upd (k_reg k) (regsel v) (k_dcrdr k)) (k_dcrdr k) k
          else with_regs (k_reg k) (k_reg k (regsel v)) k)
  else None.
(** Without C_HALT a halted core goes on, with it a running core halts; what a
    write with the wrong key or without C_DEBUGEN does is left open, and so is
    changing the control bits of a running core. *)
Definition dhcsr_write (v : Z) (k : core) : option core :=
  if (Z.shiftr v 16 =? 0xA05F) && flag v CORTEXM_DHCSR_C_DEBUGEN then
    if k_halted k then
      Some (with_status (flag v CORTEXM_DHCSR_C_HALT) (Z.land v 0xFFFF) (k_dfsr k) (k_demcr k) k)
    else if flag v CORTEXM_DHCSR_C_HALT then
      Some (with_regs (k_cut k) (k_dcrdr k)
              (with_status true (Z.land v 0xFFFF) (Z.lor (k_dfsr k) CORTEXM_DFSR_HALTED) (k_demcr k) k))
    else None
  else None.
(** The core when its program has stopped. *)
Definition stopped (k : core) : core :=
  with_regs (fst (k_prog k (k_reg k))) (k_dcrdr k) (with_status true (k_ctrl k) (snd (k_prog k (k_reg k))) (k_demcr k) k).
(** The index of [a] among [n] registers [stride] apart. *)
Definition unit_at (base stride n a : Z) : option Z :=
  let i := (a - base) / stride in
  if (0 <=? i) && (i <? n) && (base + stride * i =? a) then Some i else None.
Definition core_write (a v : Z) (k : core) : option core :=
  if a =? CORTEXM_DCRSR then dcrsr_write v k
  else if a =? CORTEXM_DCRDR then Some (with_regs (k_reg k) v k)
  else if a =? CORTEXM_DHCSR then dhcsr_write v k
  else if a =? CORTEXM_DFSR then Some (with_status (k_halted k) (k_ctrl k) (Z.land (k_dfsr k) (Z.lnot v)) (k_demcr k) k)
  else if a =? CORTEXM_DEMCR then Some (with_status (k_halted k) (k_ctrl k) (k_dfsr k) v k)
  else if (a =? CORTEXM_ICIALLU) || (a =? CORTEXM_DCCMVAC) || (a =? CORTEXM_DCCIMVAC) then Some k
  else match unit_at (CORTEXM_FPB_COMP 0) 4 8 a, unit_at (CORTEXM_DWT_COMP 0) 16 16 a,
             unit_at (CORTEXM_DWT_MASK 0) 16 16 a, unit_at (CORTEXM_DWT_FUNC 0) 16 16 a with
       | Some i, _, _, _ => Some (set_fpb (upd (k_fpb k) i v) k)
       | _, Some i, _, _ => Some (with_units (k_fpb k) (upd (k_dwt_comp k) i v) (k_dwt_mask k) (k_dwt_func k) k)
       | _, _, Some i, _ => Some (with_units (k_fpb k) (k_dwt_comp k) (upd (k_dwt_mask k) i v) (k_dwt_func k) k)
       | _, _, _, Some i => Some (with_units (k_fpb k) (k_dwt_comp k) (k_dwt_mask k) (upd (k_dwt_func k) i v) k)
       | _, _, _, _ => None
       end.
(** The debug units of a core stay what they are while it runs. *)
Definition same_units (k k' : core) : Prop :=
  k_fpb k' = k_fpb k /\ k_dwt_comp k' = k_dwt_comp k /\ k_dwt_mask k' = k_dwt_mask k /\ k_dwt_func k' = k_dwt_func k.
(** A read of [a] that gives [v]: DHCSR shows whether the core has halted, and
    a running core may have since. *)
Definition readable (a : Z) : Prop := a = CORTEXM_DCRDR \/ a = CORTEXM_DFSR \/ a = CORTEXM_DHCSR.
Definition core_read (k : core) (a v : Z) (k' : core) : Prop :=
  if a =? CORTEXM_DHCSR then
    flag v CORTEXM_DHCSR_S_HALT = k_halted k' /\ (k' = k \/ k_halted k = false /\ k' = stopped k)
  else k' = k /\ v = (if a =? CORTEXM_DCRDR then k_dcrdr k else k_dfsr k).
Definition halfword (k : core) (a : Z) : Z := k_mem k a + 256 * k_mem k (a + 1).

(** ** The interface

    [drv_mem_read] and [drv_mem_write] of target [p] reach a responsive core:
    they change nothing but the outside.  [left e t] bounds the readings of the
    clock that are still at most [t]. *)
Section Interface.
Context {E : Type}.
Notation W := (world (cm_dev E)).
Definition out (w : W) : E := outside (dev w).
Definition set_out (e : E) (w : W) : W := set_dev (set_outside e (dev w)) w.

(** A cache that is cleaned line by line: a RAM region that reached the end of
    the address space would be cleaned for ever. *)
Definition cache_ok (t : target) (pr : cortexm_priv) : Prop :=
  has_cache pr = false \/ dcache_minline pr = 0 \/
  (0 < dcache_minline pr /\
   Forall (fun '(_, r) => 0 <= ram_start r /\ 0 <= ram_length r /\
             ram_start r + ram_length r + dcache_minline pr <= 2 ^ 32) (ram t)).
(** The target [p] is [t], its private data [pr]; its memory is reached through
    an access port that satisfies [A]. *)
Definition ready (A : ADIv5_AP -> Prop) (p : positive) (t : target) (pr : cortexm_priv) (w : W) : Prop :=
  heap w !! p = Some t /\ m_mem_read t = Fdriver /\ m_mem_write t = Fdriver /\
  (exists h, priv t = Some h /\ privs (dev w) !! h = Some pr) /\
  (exists ap, aps (dev w) !! cp_ap pr = Some ap /\ A ap) /\ cache_ok t pr.
(** What [ready] depends on. *)
Definition same_bus (pr pr' : cortexm_priv) : Prop :=
  cp_ap pr' = cp_ap pr /\ has_cache pr' = has_cache pr /\ dcache_minline pr' = dcache_minline pr.
Definition same_access (t t' : target) : Prop :=
  m_mem_read t' = m_mem_read t /\ m_mem_write t' = m_mem_write t /\ priv t' = priv t /\ ram t' = ram t.

Class CoreSpec (DRV : Driver (cm_dev E)) (CLK : ClockIf E) (p : positive) (A : ADIv5_AP -> Prop) := {
  core_wf : E -> Prop;
  core_of : E -> core;
  left : E -> Z -> nat;
  core_write_ok : forall w t pr a v k', ready A p t pr w -> core_wf (out w) -> is_u32 v ->
    core_write a v (core_of (out w)) = Some k' ->
    exists e, drv_mem_write p a (le_bytes 4 v) w = Ok tt (set_out e w) /\ core_wf e /\ core_of e = k' /\
      forall u, (left e u <= left (out w) u)%nat;
  core_read_ok : forall w t pr a, ready A p t pr w -> core_wf (out w) -> readable a ->
    exists v e, drv_mem_read p a 4 w = Ok (le_bytes 4 v) (set_out e w) /\ core_wf e /\ is_u32 v /\
      core_read (core_of (out w)) a v (core_of e) /\ forall u, (left e u <= left (out w) u)%nat;
  core_instr_ok : forall w t pr a, ready A p t pr w -> core_wf (out w) -> is_u32 a -> a mod 2 = 0 ->
    k_halted (core_of (out w)) = true ->
    exists e, drv_mem_read p a 2 w = Ok (le_bytes 2 (halfword (core_of (out w)) a)) (set_out e w) /\ core_wf e /\
      core_of e = core_of (out w) /\ forall u, (left e u <= left (out w) u)%nat;
  core_regs_u32 : forall e, core_wf e -> is_u32 (k_dcrdr (core_of e)) /\ (forall n, is_u32 (k_reg (core_of e) n)) /\
    forall a, is_byte (k_mem (core_of e) a);
  core_clock : forall e, core_wf e -> exists now e', platform_time_ms e = Ok now e' /\ core_wf e' /\ core_of e' = core_of e /\
    forall u, (left e' u <= left e u)%nat /\ (now <= u -> (left e' u < left e u)%nat);
}.

(** A heap that has room and does not touch the core. *)
Class CoreHeap (MI : MemIf E) {DRV CLK p A} (CS : CoreSpec DRV CLK p A) := {
  heap_alloc : forall (e : E) n, core_wf e -> exists h e', MemManager_Alloc n e = Ok (Some h) e' /\ core_wf e' /\ core_of e' = core_of e;
  heap_free : forall (e : E) h, core_wf e -> exists e', MemManager_Free h e = Ok tt e' /\ core_wf e' /\ core_of e' = core_of e;
}.
End Interface.

(** ** Runs over the interface *)
Section Runs.
Context {E : Type} {DRV : Driver (cm_dev E)} {CLK : ClockIf E} (p : positive) {A : ADIv5_AP -> Prop}
        {CS : CoreSpec DRV CLK p A}.
Notation W := (world (cm_dev E)).

(** Target [p] is [t] with private data [pr], and its core is [k]. *)
Definition at_core (t : target) (pr : cortexm_priv) (k : core) (w : W) : Prop :=
  ready A p t pr w /\ core_wf (out w) /\ core_of (out w) = k.
(** What happened between [w] and [w'] only concerns the core and the private
    data of [t]. *)
Definition elapsed (t : target) (w w' : W) : Prop :=
  heap w' = heap w /\ ctls w' = ctls w /\ pbuf w' = pbuf w /\ debug_bmp w' = debug_bmp w /\
  aps (dev w') = aps (dev w) /\ time0_sec (dev w') = time0_sec (dev w) /\ local (dev w') = local (dev w) /\
  (forall h, priv t <> Some h -> privs (dev w') !! h = privs (dev w) !! h) /\
  forall u, (left (out w') u <= left (out w) u)%nat.

Lemma elapsed_refl t w : elapsed t w w.
Proof. by repeat split. Qed.
Lemma elapsed_trans t w1 w2 w3 : elapsed t w1 w2 -> elapsed t w2 w3 -> elapsed t w1 w3.
Proof.
  intros (?&?&?&?&?&?&?&Hp1&Hl1) (?&?&?&?&?&?&?&Hp2&Hl2). repeat split; try congruence.
  - intros h Hh. rewrite Hp2, Hp1; done.
  - intros u. etrans; [apply Hl2|apply Hl1].
Qed.
Lemma elapsed_out t e w : (forall u, (left e u <= left (out w) u)%nat) -> elapsed t w (set_out e w).
Proof. by repeat split. Qed.

Lemma at_core_out t pr k k' w e : at_core t pr k w -> core_wf e -> core_of e = k' -> at_core t pr k' (set_out e w).
Proof. intros (Hr & _) Hwf Hk. by split. Qed.

Lemma run_write32 t pr k a v k' w : at_core t pr k w -> is_u32 v -> core_write a v k = Some k' ->
  exists w', write32 p a v w = Ok tt w' /\ at_core t pr k' w' /\ elapsed t w w'.
Proof.
  intros Hat Hv Hcw. destruct Hat as (Hr & Hwf & <-).
  destruct (core_write_ok w t pr a v k' Hr Hwf Hv Hcw) as (e & Hrun & Hwf' & Hk' & Hl).
  exists (set_out e w). split; [|split; [by split|by apply elapsed_out]].
  unfold write32, target_mem_write32, target_write_n. destruct Hr as (Hp & _ & Hmw & _).
  rewrite (bind_Ok _ _ _ _ _ (deref_target_Ok _ _ _ Hp)). by rewrite Hmw.
Qed.
Lemma run_read32 t pr k a w : at_core t pr k w -> readable a ->
  exists v k' w', read32 p a w = Ok v w' /\ is_u32 v /\ core_read k a v k' /\ at_core t pr k' w' /\ elapsed t w w'.
Proof.
  intros Hat Ha. destruct Hat as (Hr & Hwf & <-).
  destruct (core_read_ok w t pr a Hr Hwf Ha) as (v & e & Hrun & Hwf' & Hv & Hk' & Hl).
  exists v, (core_of e), (set_out e w). split; [|split; [done|split; [done|split; [by split|by apply elapsed_out]]]].
  unfold read32, target_mem_read32, target_read_n. destruct Hr as (Hp & Hm & _).
  rewrite (bind_Ok _ _ _ _ _ (deref_target_Ok _ _ _ Hp)), Hm. cbn [call]. change (Z.of_nat 4) with 4.
  rewrite (bind_Ok _ _ _ _ _ Hrun). unfold ret. f_equal. rewrite le_val_bytes. by apply Z.mod_small.
Qed.
Lemma run_dcrdr t pr k w : at_core t pr k w ->
  exists w', read32 p CORTEXM_DCRDR w = Ok (k_dcrdr k) w' /\ at_core t pr k w' /\ elapsed t w w'.
Proof.
  intros Hat. destruct (run_read32 t pr k CORTEXM_DCRDR w Hat) as (v & k' & w' & Hrun & _ & [-> ->] & Hat' & He); [by left|].
  by exists w'.
Qed.
Lemma run_dfsr t pr k w : at_core t pr k w ->
  exists w', read32 p CORTEXM_DFSR w = Ok (k_dfsr k) w' /\ at_core t pr k w' /\ elapsed t w w' /\ is_u32 (k_dfsr k).
Proof.
  intros Hat. destruct (run_read32 t pr k CORTEXM_DFSR w Hat) as (v & k' & w' & Hrun & Hv & [-> ->] & Hat' & He); [by right; left|].
  by exists w'.
Qed.
Lemma run_dhcsr t pr k w : at_core t pr k w ->
  exists v k' w', read32 p CORTEXM_DHCSR w = Ok v w' /\ flag v CORTEXM_DHCSR_S_HALT = k_halted k' /\
    (k' = k \/ k_halted k = false /\ k' = stopped k) /\ at_core t pr k' w' /\ elapsed t w w'.
Proof.
  intros Hat. destruct (run_read32 t pr k CORTEXM_DHCSR w Hat) as (v & k' & w' & Hrun & Hv & (Hf & Hk) & Hat' & He); [by right; right|].
  by exists v, k', w'.
Qed.
Lemma run_instr t pr k a w : at_core t pr k w -> is_u32 a -> a mod 2 = 0 -> k_halted k = true ->
  exists w', target_mem_read16 (Some p) a w = Ok (halfword k a) w' /\ at_core t pr k w' /\ elapsed t w w'.
Proof.
  intros Hat Ha Ha2 Hh. destruct Hat as (Hr & Hwf & <-).
  destruct (core_instr_ok w t pr a Hr Hwf Ha Ha2 Hh) as (e & Hrun & Hwf' & Hk' & Hl).
  exists (set_out e w). split; [|split; [by split|by apply elapsed_out]].
  unfold target_mem_read16, target_read_n. destruct Hr as (Hp & Hm & _).
  rewrite (bind_Ok _ _ _ _ _ (deref_target_Ok _ _ _ Hp)), Hm. cbn [call]. change (Z.of_nat 2) with 2.
  rewrite (bind_Ok _ _ _ _ _ Hrun). unfold ret. f_equal. rewrite le_val_bytes. apply Z.mod_small.
  destruct (core_regs_u32 _ Hwf) as (_ & _ & Hm8). pose proof (Hm8 a). pose proof (Hm8 (a + 1)).
  unfold halfword, in_width in *. change (256 ^ Z.of_nat 2) with 65536. lia.
Qed.
Lemma clock_run t pr k w : at_core t pr k w ->
  exists now w', platform_time_ms w = Ok now w' /\ at_core t pr k w' /\ elapsed t w w' /\
    forall u, now <= u -> (left (out w') u < left (out w) u)%nat.
Proof.
  intros (Hr & Hwf & <-). destruct (core_clock _ Hwf) as (now & e & Hrun & Hwf' & Hk & Hl).
  exists now, (set_out e w). split; [|split; [by split|split]].
  - cbn [platform_time_ms world_clock cm_clock]. unfold lift, beyond. unfold out in Hrun. by rewrite Hrun.
  - apply elapsed_out. intros u. apply Hl.
  - intros u. apply (Hl u).
Qed.
Lemma run_load_priv t pr k w : at_core t pr k w -> load_priv p w = Ok pr w.
Proof.
  intros ((Hp & _ & _ & (h & Hh & Hpr) & _) & _). unfold load_priv, priv_of.
  rewrite bind_bind, (bind_Ok _ _ _ _ _ (load_target_Ok _ _ _ Hp)), Hh. unfold deref. rewrite bind_ret.
  unfold bind, get. by rewrite Hpr.
Qed.
Lemma run_upd_priv t pr k f w : at_core t pr k w -> same_bus pr (f pr) ->
  exists w', upd_priv p f w = Ok tt w' /\ at_core t (f pr) k w' /\ elapsed t w w'.
Proof.
  intros Hat (Hap & Hc & Hm). pose proof (run_load_priv _ _ _ _ Hat) as Hl.
  destruct Hat as ((Hp & Hmr & Hmw & (h & Hh & Hpr) & Hx & Hco) & Hwf & Hk).
  exists (set_dev (set_privs (<[h := f pr]> (privs (dev w))) (dev w)) w). split; [|split].
  - unfold upd_priv, priv_of. rewrite bind_bind, (bind_Ok _ _ _ _ _ (load_target_Ok _ _ _ Hp)), Hh. unfold deref.
    rewrite bind_ret. by rewrite (bind_Ok _ _ _ _ _ Hl).
  - split; [|done]. split; [done|]. split; [done|]. split; [done|]. split; [|split].
    + exists h. split; [done|]. cbn. apply lookup_insert_eq.
    + by rewrite Hap.
    + unfold cache_ok. by rewrite Hc, Hm.
  - repeat split; try done. intros h' Hne. cbn. apply lookup_insert_ne. congruence.
Qed.
Lemma at_core_heap t t' pr k w : at_core t pr k w -> same_access t t' -> at_core t' pr k (set_heap (<[p := t']> (heap w)) w).
Proof.
  intros ((Hp & Hmr & Hmw & Hpr & Hx & Hco) & Hrest) (Ha & Hb & Hc & Hd). split; [|done].
  split; [apply lookup_insert_eq|]. rewrite Ha, Hb, Hc. unfold cache_ok. rewrite Hd. done.
Qed.
Lemma run_load_target t pr k w : at_core t pr k w -> load_target p w = Ok t w.
Proof. intros ((Hp & _) & _). by apply load_target_Ok. Qed.
Lemma at_core_dcrdr t pr k w : at_core t pr k w -> is_u32 (k_dcrdr k).
Proof. intros (_ & Hwf & <-). by apply core_regs_u32. Qed.
Lemma at_core_reg t pr k w n : at_core t pr k w -> is_u32 (k_reg k n).
Proof. intros (_ & Hwf & <-). by apply core_regs_u32. Qed.
End Runs.

(** [core_run H] goes over a step whose outcome is [H]; [core_write_step Hat Hw]
    over a write that [Hw] says what it does to the core of [Hat]. *)
Ltac core_run H := rewrite (bind_Ok _ _ _ _ _ H).
Ltac solve_u32 := first [assumption | apply u32_range | split; [lia | reflexivity] | unfold in_width; lia].
Ltac core_write_step Hat Hw :=
  match goal with
  | |- context [bind (write32 ?p ?a ?v) _ ?w] =>
      let w' := fresh "w" in let Hr := fresh "Hr" in let Ha := fresh "Hat" in let He := fresh "He" in
      let Hv := fresh in
      assert (Hv : is_u32 v) by solve_u32;
      destruct (run_write32 p _ _ _ a v _ w Hat Hv Hw) as (w' & Hr & Ha & He); core_run Hr; clear Hv
  end.
