(* ===== verification/CortexmCache.v ===== *)
(** Cache maintenance before a memory access: [cortexm_cache_clean] writes the
    address of every cache line that overlaps the request and a RAM region, and
    of no other line. *)

From Stdlib Require Import ZArith Lia String.
From stdpp Require Import base list numbers option gmap.
From S2P Require Import Prelude CLib GdbIf MemManager GdbPacket TargetState Target TargetProps Platform Exception Morse Command Dap Adiv5 Objects Cortexm CoreSpec.

(** The lines from [lo] up to [hi], [m] bytes each. *)
Definition cache_lines (m lo hi : Z) : list Z := (fun i => lo + m * i) <$> seqZ 0 ((hi - lo + m - 1) / m).
Lemma cache_lines_nil m lo hi : 0 < m -> hi <= lo -> cache_lines m lo hi = [].
Proof.
  intros Hm Hh. unfold cache_lines. rewrite seqZ_nil; [done|].
  assert ((hi - lo + m - 1) / m < 1) by (apply Z.div_lt_upper_bound; lia). lia.
Qed.
Lemma cache_lines_cons m lo hi : 0 < m -> lo < hi -> cache_lines m lo hi = lo :: cache_lines m (lo + m) hi.
Proof.
  intros Hm Hh. unfold cache_lines. assert (Hd : (hi - lo + m - 1) / m = (hi - (lo + m) + m - 1) / m + 1).
  { replace (hi - lo + m - 1) with (hi - (lo + m) + m - 1 + 1 * m) by lia. by rewrite Z.div_add by lia. }
  set (n := (hi - (lo + m) + m - 1) / m) in *. assert (0 <= n).
  { assert (0 < (hi - lo + m - 1) / m) by (apply Z.div_str_pos; lia). lia. }
  rewrite Hd, seqZ_cons by lia. rewrite fmap_cons. f_equal; [lia|]. replace (Z.pred (n + 1)) with n by lia.
  change (Z.succ 0) with (1 + 0). rewrite <- fmap_add_seqZ, <- list_fmap_compose. apply list_fmap_ext. intros i x _. cbn. lia.
Qed.
Lemma elem_cache_lines m lo hi l : 0 < m -> l ∈ cache_lines m lo hi <-> lo <= l < hi /\ (l - lo) mod m = 0.
Proof.
  intros Hm. unfold cache_lines. rewrite list_elem_of_fmap. split.
  - intros (i & -> & Hi%elem_of_seqZ). assert (Hlt : i < (hi - lo + m - 1) / m) by lia.
    assert (m * (i + 1) <= hi - lo + m - 1).
    { etrans; [|apply (Z.mul_div_le (hi - lo + m - 1) m)]; [|lia]. apply Z.mul_le_mono_nonneg_l; lia. }
    split; [nia|]. replace (lo + m * i - lo) with (i * m) by lia. apply Z.mod_mul. lia.
  - intros [Hl Hmod]. apply Z.mod_divide in Hmod as [i Hi]; [|lia]. exists i. split; [lia|]. apply elem_of_seqZ.
    split; [nia|]. assert (i + 1 <= (hi - lo + m - 1) / m) by (apply Z.div_le_lower_bound; nia). lia.
Qed.

Section Cache.
Context {E : Type} `{MI : MemIf E} `{DP : DpIf E} `{DO : DpObj E}.
Notation W := (world (cm_dev E)).
Definition line_write (ap : ADIv5_AP) (reg a : Z) : M W unit := adiv5_mem_write ap reg (le_bytes 4 a) 4.

Lemma cache_loop ap reg m hi : 0 < m -> hi + m <= 2 ^ 32 -> forall n fuel lo (w : W), 0 <= lo ->
  Z.to_nat ((hi - lo + m - 1) / m) = n -> (n < fuel)%nat ->
  iter fuel (cache_line_body ap reg m hi) lo w = for_each (cache_lines m lo hi) (line_write ap reg) w.
Proof.
  intros Hm Hhi. induction n as [|n IH]; intros [|fuel] lo w Hlo Hn Hf; try lia; rewrite iter_S; unfold cache_line_body at 1.
  - destruct (Z.ltb_spec lo hi) as [Hlt|Hge]; [|by rewrite cache_lines_nil].
    assert (0 < (hi - lo + m - 1) / m) by (apply Z.div_str_pos; lia). lia.
  - destruct (Z.ltb_spec lo hi) as [Hlt|Hge].
    + rewrite cache_lines_cons by done. cbn [for_each]. rewrite bind_bind. apply bind_ext. intros [] w1. rewrite bind_ret.
      rewrite u32_small by lia. apply IH; [lia| |lia].
      replace (hi - lo + m - 1) with (hi - (lo + m) + m - 1 + 1 * m) in Hn by lia. rewrite Z.div_add in Hn by lia. lia.
    + assert ((hi - lo + m - 1) / m < 1) by (apply Z.div_lt_upper_bound; lia). lia.
Qed.
Lemma cache_rounds_enough m lo hi : 0 < m -> (Z.to_nat ((hi - lo + m - 1) / m) < cache_rounds m lo hi)%nat.
Proof.
  intros Hm. unfold cache_rounds. assert ((hi - lo + m - 1) / m <= (hi - lo) / m + 1); [|lia].
  rewrite <- Z.div_add by lia. apply Z.div_le_mono; lia.
Qed.

(** The lines of a request, region by region. *)
Definition region_lines (m addr mem_end : Z) (r : target_ram) : list Z :=
  let '(lo, hi) := cache_range addr mem_end r in cache_lines m (line_down m lo) hi.
Definition request_lines (t : target) (pr : cortexm_priv) (addr len : Z) : list Z :=
  if negb (has_cache pr) || (dcache_minline pr =? 0) then []
  else concat ((fun '(_, r) => region_lines (dcache_minline pr) addr (u32 (addr + len)) r) <$> ram t).
Lemma line_down_nonneg m a : 0 <= a -> 0 <= line_down m a.
Proof. intros Ha. unfold line_down. apply Z.land_nonneg. by left. Qed.
Definition region_fits (m : Z) (r : target_ram) : Prop :=
  0 <= ram_start r /\ 0 <= ram_length r /\ ram_start r + ram_length r + m <= 2 ^ 32.
Lemma cache_range_bounds m addr mem_end r lo hi : 0 < m -> region_fits m r -> 0 <= addr -> 
  cache_range addr mem_end r = (lo, hi) ->
  lo = Z.max addr (ram_start r) /\ hi = Z.min mem_end (ram_start r + ram_length r) /\ 0 <= lo /\ hi + m <= 2 ^ 32.
Proof.
  intros Hm (Hs & Hl & Hfit) Ha. unfold cache_range. rewrite u32_small by lia. intros [= <- <-].
  destruct (Z.ltb_spec (ram_start r) addr), (Z.ltb_spec mem_end (ram_start r + ram_length r)); lia.
Qed.
Lemma cache_clean_lines p t pr ap addr len inv (w : W) :
  load_priv p w = Ok pr w -> load_target p w = Ok t w -> cortexm_ap p w = Ok (cp_ap pr, ap) w -> cache_ok t pr -> 0 <= addr ->
  cortexm_cache_clean p addr len inv w =
    for_each (request_lines t pr addr len) (line_write ap (if inv : bool then CORTEXM_DCCIMVAC else CORTEXM_DCCMVAC)) w.
Proof.
  intros Hp Ht Hap Hok Ha. unfold cortexm_cache_clean, request_lines. rewrite (bind_Ok _ _ _ _ _ Hp).
  destruct (negb (has_cache pr) || (dcache_minline pr =? 0)) eqn:Hc; [done|]. apply orb_false_iff in Hc as [Hc1 Hc2].
  destruct Hok as [Hx|[Hx|[Hm Hall]]]; [by rewrite Hx in Hc1|by rewrite Hx in Hc2|].
  rewrite (bind_Ok _ _ _ _ _ Ht), (bind_Ok _ _ _ _ _ Hap). clear Hp Ht Hap. revert w.
  induction (ram t) as [|[h r] rs IH]; intros w; [done|]. apply Forall_cons in Hall as [Hr Hall].
  cbn [for_each fmap list_fmap concat]. rewrite for_each_app. unfold region_lines at 1.
  destruct (cache_range addr (u32 (addr + len)) r) as [lo hi] eqn:Hcr.
  destruct (cache_range_bounds _ _ _ _ _ _ Hm Hr Ha Hcr) as (_ & _ & Hlo & Hhi).
  unfold bind. rewrite (cache_loop ap _ _ _ Hm Hhi _ (cache_rounds (dcache_minline pr) (line_down (dcache_minline pr) lo) hi) _ w
    (line_down_nonneg _ _ Hlo) eq_refl (cache_rounds_enough _ _ _ Hm)).
  destruct (for_each _ _ w) as [[] w'| | |]; try done. by apply IH.
Qed.

Lemma line_down_pow j a : 0 <= j <= 31 -> is_u32 a -> line_down (2 ^ j) a = a - a mod 2 ^ j.
Proof.
  intros Hj Ha. assert (Hl : line_down (2 ^ j) a = Z.ldiff a (Z.ones j)).
  { unfold line_down. apply Z.bits_inj'. intros n Hn. rewrite Z.land_spec, Z.ldiff_spec.
    replace (2 ^ j - 1) with (Z.ones j) by (rewrite Z.ones_equiv; lia).
    destruct (Z.ltb_spec n 32).
    - unfold u32, wrap. rewrite Z.mod_pow2_bits_low by lia. by rewrite Z.lnot_spec by lia.
    - rewrite <- (Z.mod_small a (2 ^ 32)) by done. rewrite (Z.mod_pow2_bits_high a) by lia. done. }
  rewrite Hl, Z.ldiff_ones_r, Z.shiftl_mul_pow2, Z.shiftr_div_pow2 by lia.
  pose proof (Z.div_mod a (2 ^ j)). assert (0 < 2 ^ j) by (apply Z.pow_pos_nonneg; lia). lia.
Qed.
(** The line at [l] overlaps the [n] bytes at [a]. *)
Definition overlaps (m l a n : Z) : Prop := l < a + n /\ a < l + m.
Lemma region_lines_spec j addr len r l : 0 <= j <= 31 -> region_fits (2 ^ j) r -> is_u32 addr -> 0 <= len -> addr + len < 2 ^ 32 ->
  l ∈ region_lines (2 ^ j) addr (u32 (addr + len)) r <->
  l mod 2 ^ j = 0 /\ overlaps (2 ^ j) l addr len /\ overlaps (2 ^ j) l (ram_start r) (ram_length r).
Proof.
  intros Hj Hr Ha Hlen Hend. assert (Hm : 0 < 2 ^ j) by (apply Z.pow_pos_nonneg; lia).
  unfold region_lines. destruct (cache_range addr (u32 (addr + len)) r) as [lo hi] eqn:Hcr.
  pose proof Hr as (Hs & Hl & Hfit). unfold in_width in Ha.
  destruct (cache_range_bounds _ _ _ _ _ _ Hm Hr (proj1 Ha) Hcr) as (Elo & Ehi & Hlo & Hhi).
  rewrite u32_small in Ehi by lia. rewrite elem_cache_lines, line_down_pow by (unfold in_width; lia).
  pose proof (Z.mod_pos_bound lo (2 ^ j) Hm) as Hb. pose proof (Z.div_mod lo (2 ^ j) ltac:(lia)) as Hdm.
  assert (Hal : (l - (lo - lo mod 2 ^ j)) mod 2 ^ j = l mod 2 ^ j).
  { replace (l - (lo - lo mod 2 ^ j)) with (l + (- (lo / 2 ^ j)) * 2 ^ j) by lia. apply Z.mod_add. lia. }
  rewrite Hal. pose proof (Z.div_mod l (2 ^ j) ltac:(lia)) as Hlm. unfold overlaps. split.
  - intros [Hin Hmod]. split; [done|]. lia.
  - intros [Hmod (Hb1 & Hb2)]. split; [|done]. rewrite Hmod in Hlm. split; [|lia].
    assert (lo / 2 ^ j <= l / 2 ^ j); [|nia]. assert (lo / 2 ^ j < l / 2 ^ j + 1); [|lia]. apply Z.div_lt_upper_bound; lia.
Qed.
Lemma elem_concat {X Y} (f : X -> list Y) (l : list X) y : y ∈ concat (f <$> l) <-> exists x, x ∈ l /\ y ∈ f x.
Proof.
  induction l as [|x l IH]; cbn [fmap list_fmap concat].
  - split; [by intros ?%elem_of_nil|]. by intros (x & ?%elem_of_nil & _).
  - rewrite elem_of_app. setoid_rewrite elem_of_cons. split.
    + intros [H1|(z & Hz & Hy)%IH]; [by exists x; auto|exists z; auto].
    + intros (z & [->|Hz] & Hy); [by left|right; apply IH; by exists z].
Qed.

End Cache.

(** ** At work: a Cortex-M7 with lines of 32 bytes *)
Module CacheSim.
#[export] Instance sim_dp : DpIf unit := { dp_low_access _ _ _ _ := ret 0; dp_read _ _ := ret 0 }.
Definition ap0 : ADIv5_AP := {| ap_refcnt := 1; ap_dp := 1; apsel := 0; idr := 0; base := 0; csw := 0x23000040;
  ap_cortexm_demcr := 0; ap_storage := 0; ap_designer := 0; ap_partno := 0 |}.
Definition t0 : target := set_priv (Some 7%positive) (set_core_methods
  (set_ram [(8%positive, {| ram_start := 0x20000000; ram_length := 0x20000 |})] blank_target)).
Definition pr0 : cortexm_priv := set_demcr_cache 0 true 32 (blank_priv 3).
Definition w0 : world (cm_dev unit) :=
  {| heap := {[ 5%positive := t0 ]}; ctls := ∅; pbuf := []; debug_bmp := false;
     dev := {| aps := {[ 3%positive := ap0 ]}; privs := {[ 7%positive := pr0 ]}; time0_sec := 0; local := []; outside := tt |} |}.
End CacheSim.
Import CacheSim.
