(* ===== verification/CortexmAp.v ===== *)
(** A Cortex-M behind a memory access port: what a word access through the
    port does to the core ([ApCore]), the theorem that the memory methods of
    cortexm.c over it are the interface [CoreSpec], cache maintenance included,
    and the transfer of all registers through the banked data registers. *)

From Stdlib Require Import ZArith Lia String.
From stdpp Require Import base list numbers option gmap.
From S2P Require Import Prelude CLib GdbIf MemManager GdbPacket TargetState Target TargetProps Platform Exception Morse Command Dap Adiv5 Adiv5Props Objects Cortexm CoreSpec CortexmCache.

(** ** The port and the core *)
Record ap_state := { a_select : Z; a_csw : Z; a_tar : Z; a_posted : Z }.
Definition with_select v x : ap_state := {| a_select := v; a_csw := a_csw x; a_tar := a_tar x; a_posted := a_posted x |}.
Definition with_csw v x : ap_state := {| a_select := a_select x; a_csw := v; a_tar := a_tar x; a_posted := a_posted x |}.
Definition with_tar v x : ap_state := {| a_select := a_select x; a_csw := a_csw x; a_tar := v; a_posted := a_posted x |}.
Definition with_posted t v x : ap_state := {| a_select := a_select x; a_csw := a_csw x; a_tar := t; a_posted := v |}.
Inductive ap_reg := R_select | R_rdbuff | R_csw | R_tar | R_drw | R_db (i : Z).
(** The registers of bank 0, and the four banked data registers. *)
Definition ap_decode (s select RnW addr : Z) : option ap_reg :=
  match decode s select RnW addr with
  | Some SELECT => Some R_select
  | Some RDBUFF => Some R_rdbuff
  | Some CSW => Some R_csw
  | Some TAR => Some R_tar
  | Some DRW => Some R_drw
  | None => if flag addr ADIV5_APnDP && (Z.shiftr select 24 =? s) && (Z.land select 0xF0 =? 0x10)
            then Some (R_db (Z.shiftr (Z.land addr 0xC) 2)) else None
  end.
(** The address banked data register [i] stands for. *)
Definition db_addr (tar i : Z) : Z := tar - tar mod 16 + 4 * i.
Definition tuned_to (al : Z) (x : ap_state) : Prop :=
  Z.land (a_csw x) ADIV5_AP_CSW_ADDRINC_MASK = ADIV5_AP_CSW_ADDRINC_SINGLE /\ Z.land (a_csw x) ADIV5_AP_CSW_SIZE_MASK = al /\
  a_tar x mod 2 ^ al = 0.
(** An access to the port: direction, register, value written, value returned. *)
Inductive ap_step (x : ap_state) (k : core) : Z -> ap_reg -> Z -> Z -> ap_state -> core -> Prop :=
| ap_select v r : ap_step x k ADIV5_LOW_WRITE R_select v r (with_select v x) k
| ap_csw v r : ap_step x k ADIV5_LOW_WRITE R_csw v r (with_csw v x) k
| ap_tar v r : ap_step x k ADIV5_LOW_WRITE R_tar v r (with_tar v x) k
| ap_drw_write v r tar k' : core_write (a_tar x) v k = Some k' ->
    ap_step x k ADIV5_LOW_WRITE R_drw v r (with_tar tar x) k'
| ap_drw_read v tar w k' : tuned_to 2 x -> readable (a_tar x) -> core_read k (a_tar x) w k' -> is_u32 w ->
    ap_step x k ADIV5_LOW_READ R_drw v (a_posted x) (with_posted tar w x) k'
| ap_drw_half v tar w : tuned_to 1 x -> lanes_of (k_mem k) (a_tar x) 2 w ->
    ap_step x k ADIV5_LOW_READ R_drw v (a_posted x) (with_posted tar w x) k
| ap_rdbuff v : ap_step x k ADIV5_LOW_READ R_rdbuff v (a_posted x) x k
| ap_db_write v r i k' : core_write (db_addr (a_tar x) i) v k = Some k' ->
    ap_step x k ADIV5_LOW_WRITE (R_db i) v r x k'.
(** The accesses the port is specified for: words to the registers of the
    core, halfwords of the memory of a halted core. *)
Definition ap_ok (x : ap_state) (k : core) (RnW : Z) (reg : ap_reg) (v : Z) : Prop :=
  match reg with
  | R_select | R_csw | R_tar => RnW = ADIV5_LOW_WRITE
  | R_rdbuff => RnW = ADIV5_LOW_READ
  | R_drw => (RnW = ADIV5_LOW_WRITE /\ tuned_to 2 x /\ is_Some (core_write (a_tar x) v k)) \/
             (RnW = ADIV5_LOW_READ /\ tuned_to 2 x /\ readable (a_tar x)) \/
             (RnW = ADIV5_LOW_READ /\ tuned_to 1 x /\ k_halted k = true /\ is_u32 (a_tar x))
  | R_db i => RnW = ADIV5_LOW_WRITE /\ is_Some (core_write (db_addr (a_tar x) i) v k)
  end.

Class ApCore {E} (DP : DpIf E) (CLK : ClockIf E) (dp : positive) (s : Z) := {
  ac_wf : E -> Prop;
  ac_ap : E -> ap_state;
  ac_core : E -> core;
  ac_left : E -> Z -> nat;
  ac_sel : is_byte s;
  ac_step : forall e RnW addr v reg, ac_wf e -> is_u32 v -> ap_decode s (a_select (ac_ap e)) RnW addr = Some reg ->
    ap_ok (ac_ap e) (ac_core e) RnW reg v ->
    exists r e', dp_low_access dp RnW addr v e = Ok r e' /\ ac_wf e' /\
      ap_step (ac_ap e) (ac_core e) RnW reg v r (ac_ap e') (ac_core e') /\
      forall u, (ac_left e' u <= ac_left e u)%nat;
  (* a register of the access port read through the debug port's own method *)
  ac_db_read : forall e addr i, ac_wf e -> ap_decode s (a_select (ac_ap e)) ADIV5_LOW_READ addr = Some (R_db i) ->
    readable (db_addr (a_tar (ac_ap e)) i) ->
    exists v e', dp_read dp addr e = Ok v e' /\ ac_wf e' /\ is_u32 v /\
      a_select (ac_ap e') = a_select (ac_ap e) /\ a_tar (ac_ap e') = a_tar (ac_ap e) /\
      core_read (ac_core e) (db_addr (a_tar (ac_ap e)) i) v (ac_core e') /\ forall u, (ac_left e' u <= ac_left e u)%nat;
  ac_regs_u32 : forall e, ac_wf e -> is_u32 (k_dcrdr (ac_core e)) /\ (forall n, is_u32 (k_reg (ac_core e) n)) /\
    forall a, is_byte (k_mem (ac_core e) a);
  ac_clock : forall e, ac_wf e -> exists now e', platform_time_ms e = Ok now e' /\ ac_wf e' /\ ac_core e' = ac_core e /\
    forall u, (ac_left e' u <= ac_left e u)%nat /\ (now <= u -> (ac_left e' u < ac_left e u)%nat);
}.

Section Port.
Context {E : Type} {DP : DpIf E} {CLK : ClockIf E} {dp : positive} {s : Z} {AC : ApCore DP CLK dp s}.
Notation W := (world (cm_dev E)).
Notation MW := (M W).

(** The port is [x] and the core [k]; [moved] leaves all but the outside alone. *)
Definition at_port (x : ap_state) (k : core) (w : W) : Prop :=
  ac_wf (out w) /\ ac_ap (out w) = x /\ ac_core (out w) = k.
Definition moved (w w' : W) : Prop :=
  w' = set_out (out w') w /\ forall u, (ac_left (out w') u <= ac_left (out w) u)%nat.
Lemma moved_refl w : moved w w.
Proof. split; [|done]. by destruct w as [? ? ? ? []]. Qed.
Lemma moved_trans w1 w2 w3 : moved w1 w2 -> moved w2 w3 -> moved w1 w3.
Proof.
  intros [H1 L1] [H2 L2]. split; [|intros u; etrans; [apply L2|apply L1]]. rewrite H2 at 1. rewrite H1. done.
Qed.

Lemma low_run x k RnW addr v reg w : at_port x k w -> is_u32 v -> ap_decode s (a_select x) RnW addr = Some reg -> ap_ok x k RnW reg v ->
  exists r w' x' k', adiv5_dp_low_access dp RnW addr v w = Ok r w' /\ at_port x' k' w' /\ ap_step x k RnW reg v r x' k' /\ moved w w'.
Proof.
  intros (Hwf & <- & <-) Hv Hd Hok. destruct (ac_step _ _ _ _ _ Hwf Hv Hd Hok) as (r & e & Hrun & Hwf' & Hst & Hl).
  exists r, (set_out e w), (ac_ap e), (ac_core e). split; [|split; [done|split; [done|by split]]].
  unfold adiv5_dp_low_access. cbn [dp_low_access world_dp cm_dp]. unfold lift, beyond. unfold out in Hrun. by rewrite Hrun.
Qed.
Lemma db_run x k addr i w : at_port x k w -> ap_decode s (a_select x) ADIV5_LOW_READ addr = Some (R_db i) -> readable (db_addr (a_tar x) i) ->
  exists v w' x' k', adiv5_dp_read dp addr w = Ok v w' /\ at_port x' k' w' /\ is_u32 v /\ a_select x' = a_select x /\ a_tar x' = a_tar x /\
    core_read k (db_addr (a_tar x) i) v k' /\ moved w w'.
Proof.
  intros (Hwf & <- & <-) Hd Hr. destruct (ac_db_read _ _ _ Hwf Hd Hr) as (v & e & Hrun & Hwf' & Hu & Hs & Ht & Hc & Hl).
  exists v, (set_out e w), (ac_ap e), (ac_core e). split; [|split; [done|split; [done|split; [done|split; [done|split; [done|by split]]]]]].
  unfold adiv5_dp_read. cbn [dp_read world_dp cm_dp]. unfold lift, beyond. unfold out in Hrun. by rewrite Hrun.
Qed.

(** The access ports this debug port's core is behind. *)
Definition core_ap (ap : ADIv5_AP) : Prop :=
  ap_dp ap = dp /\ apsel ap = s /\ is_u32 (csw ap) /\ Z.land (csw ap) 0x37 = 0.
Variable ap : ADIv5_AP.
Hypothesis ap_is : core_ap ap.

Lemma select_run x k addr w : at_port x k w ->
  exists w' x', adiv5_dp_write (ap_dp ap) ADIV5_DP_SELECT (select_value ap addr) w = Ok tt w' /\ at_port x' k w' /\ moved w w' /\
    Z.shiftr (a_select x') 24 = s /\ Z.land (a_select x') 0xF0 = Z.land addr 0xF0 /\ a_tar x' = a_tar x.
Proof.
  intros Hat. destruct ap_is as (Hdp & Hs & _). pose proof ac_sel as Hsel. rewrite <- Hs in Hsel.
  destruct (select_value_fields ap addr Hsel) as (Hv & H24 & Hbank).
  destruct (low_run x k ADIV5_LOW_WRITE ADIV5_DP_SELECT _ R_select w Hat Hv) as (r & w' & x' & k' & Hrun & Hat' & Hst & Hm); [done|done|].
  inversion Hst; subst. exists w', (with_select (select_value ap addr) x). unfold adiv5_dp_write. rewrite Hdp.
  rewrite (bind_Ok _ _ _ _ _ Hrun). rewrite Hs in H24. by split_and!.
Qed.
(** The register an address of the access port decodes to. *)
Lemma decode_ap x RnW addr : flag addr ADIV5_APnDP = true -> Z.shiftr (a_select x) 24 = s -> Z.land (a_select x) 0xF0 = Z.land addr 0xF0 ->
  ap_decode s (a_select x) RnW addr = ap_decode s (select_value ap addr) RnW addr.
Proof.
  intros Hf Hs Hb. destruct ap_is as (_ & Hsel & _). pose proof ac_sel as Hby. rewrite <- Hsel in Hby.
  destruct (select_value_fields ap addr Hby) as (_ & H24 & Hbank). rewrite Hsel in H24.
  unfold ap_decode, decode. by rewrite Hf, Hs, Hb, H24, Hbank.
Qed.
Lemma decode_reg addr RnW : flag addr ADIV5_APnDP = true ->
  ap_decode s (select_value ap addr) RnW addr =
    match Z.land addr 0xF0 + Z.land addr 0xC with
    | 0x0 => Some R_csw | 0x4 => Some R_tar | 0xC => Some R_drw
    | _ => if Z.land addr 0xF0 =? 0x10 then Some (R_db (Z.shiftr (Z.land addr 0xC) 2)) else None
    end.
Proof.
  intros Hf. destruct ap_is as (_ & Hsel & _). pose proof ac_sel as Hby. rewrite <- Hsel in Hby.
  destruct (select_value_fields ap addr Hby) as (_ & H24 & Hbank). rewrite Hsel in H24.
  unfold ap_decode, decode. rewrite Hf, H24, Z.eqb_refl, Hbank. cbn [andb].
  destruct (Z.land addr 240 + Z.land addr 12) as [|q|q]; [done| |done].
  do 4 (destruct q as [q|q|]; try done).
Qed.

Definition bank0 (x : ap_state) : Prop := Z.shiftr (a_select x) 24 = s /\ Z.land (a_select x) 0xF0 = 0.
Lemma bank0_decode x RnW addr : bank0 x -> flag addr ADIV5_APnDP = true -> Z.land addr 0xF0 = 0 ->
  ap_decode s (a_select x) RnW addr = ap_decode s (select_value ap addr) RnW addr.
Proof. intros [Hs Hb] Hf Ha. by apply decode_ap; rewrite ?Ha. Qed.

(** The write of an access port's register, for [reg] of bank 0. *)
Lemma reg_write_run x k addr v reg w : at_port x k w -> bank0 x -> is_u32 v -> flag addr ADIV5_APnDP = true -> Z.land addr 0xF0 = 0 ->
  ap_decode s (select_value ap addr) ADIV5_LOW_WRITE addr = Some reg -> ap_ok x k ADIV5_LOW_WRITE reg v ->
  exists r w' x' k', adiv5_dp_low_access (ap_dp ap) ADIV5_LOW_WRITE addr v w = Ok r w' /\ at_port x' k' w' /\
    ap_step x k ADIV5_LOW_WRITE reg v r x' k' /\ moved w w'.
Proof.
  intros Hat Hb Hv Hf Ha Hd Hok. rewrite (proj1 ap_is). eapply low_run; [done..| |done]. rewrite <- Hd. by apply bank0_decode.
Qed.
Lemma tar_run x k v w : at_port x k w -> bank0 x -> is_u32 v ->
  exists r w', adiv5_dp_low_access (ap_dp ap) ADIV5_LOW_WRITE ADIV5_AP_TAR v w = Ok r w' /\ at_port (with_tar v x) k w' /\ moved w w'.
Proof.
  intros Hat Hb Hv. destruct (reg_write_run x k ADIV5_AP_TAR v R_tar w Hat Hb Hv) as (r & w' & x' & k' & Hrun & Hat' & Hst & Hm);
    [done|done|by rewrite decode_reg|done|]. inversion Hst; subst. by exists r, w'.
Qed.
Lemma csw_run x k v w : at_port x k w -> is_u32 v ->
  exists w' x', adiv5_ap_write ap ADIV5_AP_CSW v w = Ok tt w' /\ at_port x' k w' /\ moved w w' /\ bank0 x' /\ a_csw x' = v.
Proof.
  intros Hat Hv. destruct (select_run x k ADIV5_AP_CSW w Hat) as (w1 & x1 & Hr1 & Hat1 & Hm1 & Hs1 & Hb1 & Ht1).
  destruct (reg_write_run x1 k ADIV5_AP_CSW v R_csw w1 Hat1) as (r & w2 & x2 & k2 & Hr2 & Hat2 & Hst & Hm2);
    [by split|done|done|done|by rewrite decode_reg|done|]. inversion Hst; subst.
  exists w2, (with_csw v x1). split; [|split; [done|split; [by eapply moved_trans|split; [by split|done]]]].
  unfold adiv5_ap_write, firmware_ap_write. rewrite (bind_Ok _ _ _ _ _ Hr1). unfold adiv5_dp_write at 1.
  unfold adiv5_dp_low_access in Hr2. by rewrite (bind_Ok _ _ _ _ _ Hr2).
Qed.
Lemma setup_run x k addr al w : at_port x k w -> is_u32 addr -> good_align al -> addr mod 2 ^ al = 0 ->
  exists w' x', ap_mem_access_setup ap addr al w = Ok tt w' /\ at_port x' k w' /\ moved w w' /\ bank0 x' /\ tuned_to al x' /\ a_tar x' = addr.
Proof.
  intros Hat Ha Hal Hm. destruct (csw_for_fields ap al (proj2 (proj2 ap_is)) Hal) as (Hi & Hz & Hu).
  destruct (csw_run x k (csw_for ap al) w Hat Hu) as (w1 & x1 & Hr1 & Hat1 & Hm1 & Hb1 & Hc1).
  destruct (tar_run x1 k addr w1 Hat1 Hb1 Ha) as (r & w2 & Hr2 & Hat2 & Hm2).
  exists w2, (with_tar addr x1). split; [|split; [done|split; [by eapply moved_trans|split; [done|split; [|done]]]]].
  - unfold ap_mem_access_setup. by rewrite (bind_Ok _ _ _ _ _ Hr1), (bind_Ok _ _ _ _ _ Hr2).
  - unfold tuned_to. cbn. by rewrite Hc1.
Qed.

(** *** Words *)
Lemma le4_val v : is_u32 v -> le_val (le_bytes 4 v) = v.
Proof. intros Hv. rewrite le_val_bytes. by apply Z.mod_small. Qed.
Lemma ALIGNOF_word a : a mod 4 = 0 -> Z.min (ALIGNOF a) (ALIGNOF 4) = ALIGN_WORD.
Proof. intros Ha. unfold ALIGNOF at 1. rewrite (proj1 (land_pow a)), Ha. done. Qed.
Lemma packed_word v a (w : W) : is_u32 v -> packed (le_bytes 4 v) 0 a ALIGN_WORD w = Ok v w.
Proof.
  intros Hv. assert (Hp : packed (le_bytes 4 v) 0 a ALIGN_WORD w = Ok (le_val (le_bytes 4 v)) w) by done.
  by rewrite Hp, le4_val.
Qed.
Lemma mem_write_run x k a v k' w : at_port x k w -> is_u32 a -> a mod 4 = 0 -> is_u32 v -> core_write a v k = Some k' ->
  exists w' x', adiv5_mem_write ap a (le_bytes 4 v) 4 w = Ok tt w' /\ at_port x' k' w' /\ moved w w'.
Proof.
  intros Hat Ha Ha4 Hv Hcw. unfold adiv5_mem_write. rewrite ALIGNOF_word by done. unfold adiv5_mem_write_sized, firmware_mem_write_sized.
  change (Z.shiftr 4 ALIGN_WORD) with 1.
  destruct (setup_run x k a 2 w Hat Ha) as (w1 & x1 & Hr1 & Hat1 & Hm1 & Hb1 & Ht1 & Hta); [by right; right|done|].
  rewrite (bind_Ok _ _ _ _ _ Hr1). change (S (Z.to_nat 1)) with 2%nat.
  destruct (reg_write_run x1 k ADIV5_AP_DRW v R_drw w1 Hat1 Hb1 Hv) as (r & w2 & x2 & k2 & Hr2 & Hat2 & Hst & Hm2);
    [done|done|by rewrite decode_reg|left; rewrite Hta; by eauto|].
  inversion Hst; subst. assert (k2 = k') as -> by congruence.
  assert (Hbody : exists s0 w3 x3, mem_write_body ap (le_bytes 4 v) ALIGN_WORD (0, a_tar x1, a_tar x1, 1) w1 = Ok (inl (s0, 0)) w3 /\
    at_port x3 k' w3 /\ moved w2 w3).
  { unfold mem_write_body. cbn [Z.eqb]. change (u32 (1 - 1)) with 0. rewrite (bind_Ok _ _ _ _ _ (packed_word v _ w1 Hv)), (bind_Ok _ _ _ _ _ Hr2).
    destruct (flag _ _); [|by eexists _, w2, _; split; [done|split; [done|apply moved_refl]]].
    destruct (tar_run (with_tar tar x1) k' (u32 (a_tar x1 + Z.shiftl 1 ALIGN_WORD)) w2 Hat2 Hb1 (u32_range _)) as (r3 & w3 & Hr3 & Hat3 & Hm3).
    rewrite (bind_Ok _ _ _ _ _ Hr3). by eexists _, w3, _. }
  destruct Hbody as (s0 & w3 & x3 & Hbody & Hat3 & Hm3). exists w3, x3. split; [|split; [done|]].
  - rewrite iter_S, (bind_Ok _ _ _ _ _ Hbody), iter_S. by destruct s0 as [[? ?] ?].
  - eapply moved_trans; [exact Hm1|]. by eapply moved_trans.
Qed.

(** A read of one unit: the port is set up, DRW read and its result fetched. *)
Lemma read_one_run x k a al w : at_port x k w -> is_u32 a -> good_align al -> a mod 2 ^ al = 0 ->
  Z.min (ALIGNOF a) (ALIGNOF (2 ^ al)) = al ->
  (forall x1, tuned_to al x1 -> a_tar x1 = a -> ap_ok x1 k ADIV5_LOW_READ R_drw 0) ->
  exists x1 x2 k' w', tuned_to al x1 /\ a_tar x1 = a /\ ap_step x1 k ADIV5_LOW_READ R_drw 0 (a_posted x1) x2 k' /\
    at_port x2 k' w' /\ moved w w' /\
    adiv5_mem_read ap (memset (2 ^ al) 0) a (2 ^ al) w =
      bind (extract (memset (2 ^ al) 0) 0 a (a_posted x2) al) (fun '(dest, _) => ret dest) w'.
Proof.
  intros Hat Ha Hal Hm Hmin Hok. destruct (setup_run x k a al w Hat Ha Hal Hm) as (w1 & x1 & Hr1 & Hat1 & Hm1 & Hb1 & Ht1 & Hta).
  destruct (low_run x1 k ADIV5_LOW_READ ADIV5_AP_DRW 0 R_drw w1 Hat1) as (r & w2 & x2 & k2 & Hr2 & Hat2 & Hst & Hm2);
    [done|rewrite bank0_decode by done; by rewrite decode_reg|by apply Hok|].
  destruct (low_run x2 k2 ADIV5_LOW_READ ADIV5_DP_RDBUFF 0 R_rdbuff w2 Hat2) as (r3 & w3 & x3 & k3 & Hr3 & Hat3 & Hst3 & Hm3);
    [done|done|done|]. inversion Hst3; subst.
  assert (Hr : r = a_posted x1) by (by inversion Hst). subst r. exists x1, x3, k3, w3. split; [done|]. split; [done|]. split; [done|]. split; [done|].
  split; [eapply moved_trans; [exact Hm1|by eapply moved_trans]|].
  unfold adiv5_mem_read, firmware_mem_read. rewrite Hmin. destruct (pow_align al Hal) as (Hp & Hr & _).
  rewrite (proj2 (Z.eqb_neq (2 ^ al) 0)) by lia. rewrite (bind_Ok _ _ _ _ _ Hr1), (proj1 ap_is), (bind_Ok _ _ _ _ _ Hr2).
  assert (Hs : Z.shiftr (2 ^ al) al = 1).
  { rewrite Z.shiftr_div_pow2 by (destruct Hal as [-> | [-> | ->]]; lia). apply Z.div_same. lia. }
  rewrite Hs. change (S (Z.to_nat 1)) with 2%nat.
  assert (Hit : iter 2 (mem_read_body ap al) (memset (2 ^ al) 0, 0, a_tar x1, a_tar x1, 1) w2 = Ok (memset (2 ^ al) 0, 0, a_tar x1) w2) by done.
  by rewrite (bind_Ok _ _ _ _ _ Hit), (bind_Ok _ _ _ _ _ Hr3).
Qed.
Lemma mem_read_word_run x k a w : at_port x k w -> is_u32 a -> a mod 4 = 0 -> readable a ->
  exists v x' k' w', adiv5_mem_read ap (memset 4 0) a 4 w = Ok (le_bytes 4 v) w' /\ is_u32 v /\ core_read k a v k' /\
    at_port x' k' w' /\ moved w w'.
Proof.
  intros Hat Ha Ha4 Hr. destruct (read_one_run x k a 2 w Hat Ha) as (x1 & x2 & k' & w' & Ht1 & Hta & Hst & Hat' & Hm & Hrun);
    [by right; right|done|by apply ALIGNOF_word|intros y Hy Hya; right; left; by rewrite Hya|].
  inversion Hst as [| | | |? ? v k2 ? Hrd Hcr Hu|? ? ? Ht2| |]; subst.
  - exists v, (with_posted tar v x1), k', w'. change (2 ^ 2) with 4 in Hrun. split; [by rewrite Hrun|done].
  - destruct Ht1 as (_ & Hc1 & _), Ht2 as (_ & Hc2 & _). congruence.
Qed.
Lemma halfword_bytes k a : (forall b, is_byte (k_mem k b)) -> mem_bytes (k_mem k) a 2 = le_bytes 2 (halfword k a).
Proof.
  intros Hb. pose proof (le_bytes_val [k_mem k a; k_mem k (a + 1)]) as Hv. change (length _) with 2%nat in Hv.
  unfold mem_bytes. change (seqZ 0 2) with [0; 1]. cbn [fmap list_fmap]. rewrite Z.add_0_r.
  rewrite <- Hv by (apply Forall_cons; split; [done|]; apply Forall_cons; split; [done|constructor]). f_equal. unfold halfword. cbn [le_val]. lia.
Qed.
Lemma mem_read_half_run x k a w : at_port x k w -> is_u32 a -> a mod 2 = 0 -> k_halted k = true ->
  exists x' w', adiv5_mem_read ap (memset 2 0) a 2 w = Ok (le_bytes 2 (halfword k a)) w' /\ at_port x' k w' /\ moved w w'.
Proof.
  intros Hat Ha Ha2 Hh. assert (Hmin : Z.min (ALIGNOF a) (ALIGNOF 2) = 1).
  { change (ALIGNOF 2) with 1. unfold ALIGNOF. destruct (land_pow a) as [-> ->]. rewrite Ha2. by destruct (a mod 4 =? 0). }
  destruct (read_one_run x k a 1 w Hat Ha) as (x1 & x2 & k' & w' & Ht1 & Hta & Hst & Hat' & Hm & Hrun);
    [by right; left|done|done|intros y Hy Hya; right; right; by rewrite Hya|].
  inversion Hst as [| | | |? ? ? ? Ht2|? ? v Ht2 Hl| |]; subst.
  - destruct Ht1 as (_ & Hc1 & _), Ht2 as (_ & Hc2 & _). congruence.
  - exists (with_posted tar v x1), w'. split; [|done]. change (2 ^ 1) with 2 in Hrun. rewrite Hrun.
    rewrite (bind_Ok _ _ _ _ _ (extract_ok (memset 2 0) 0 (a_tar x1) v 1 (k_mem k') w' ltac:(by right; left) Ha2 Hl ltac:(lia) ltac:(done))).
    unfold ret. f_equal. change (2 ^ 1) with 2. rewrite halfword_bytes; [done|].
    destruct Hat as (Hwf & _ & Hk). rewrite <- Hk. apply ac_regs_u32, Hwf.
Qed.

(** *** With cache maintenance *)
Lemma moved_priv p t pr (w w' : W) : ready core_ap p t pr w -> moved w w' -> ready core_ap p t pr w'.
Proof. intros Hr [-> _]. exact Hr. Qed.
Lemma run_cortexm_ap (MI : MemIf E) (DO : DpObj E) p t pr (w : W) : ready core_ap p t pr w -> aps (dev w) !! cp_ap pr = Some ap ->
  load_priv p w = Ok pr w /\ load_target p w = Ok t w /\ cortexm_ap p w = Ok (cp_ap pr, ap) w.
Proof.
  intros (Hp & _ & _ & (h & Hh & Hpr) & _) Hap. assert (Hl : load_priv p w = Ok pr w).
  { unfold load_priv, priv_of. rewrite bind_bind, (bind_Ok _ _ _ _ _ (load_target_Ok _ _ _ Hp)), Hh. unfold deref. rewrite bind_ret.
    unfold bind, get. by rewrite Hpr. }
  split; [done|]. split; [by apply load_target_Ok|]. unfold cortexm_ap. rewrite (bind_Ok _ _ _ _ _ Hl).
  assert (Ha : load_ap (cp_ap pr) w = Ok ap w) by (unfold load_ap, bind, get; by rewrite Hap). by rewrite (bind_Ok _ _ _ _ _ Ha).
Qed.
Lemma lines_run x k reg ls w : at_port x k w -> reg = CORTEXM_DCCMVAC \/ reg = CORTEXM_DCCIMVAC -> Forall (in_width 32) ls ->
  exists w' x', for_each ls (line_write ap reg) w = Ok tt w' /\ at_port x' k w' /\ moved w w'.
Proof.
  intros Hat Hreg Hls. revert x w Hat. induction ls as [|a ls IH]; intros x w Hat.
  - exists w, x. split; [done|]. split; [done|apply moved_refl].
  - apply Forall_cons in Hls as [Ha Hls]. cbn [for_each]. unfold line_write at 1.
    destruct (mem_write_run x k reg a k w Hat) as (w1 & x1 & Hr1 & Hat1 & Hm1); [by destruct Hreg as [-> | ->]|by destruct Hreg as [-> | ->]|done|by destruct Hreg as [-> | ->]|].
    destruct (IH Hls x1 w1 Hat1) as (w2 & x2 & Hr2 & Hat2 & Hm2). exists w2, x2. rewrite (bind_Ok _ _ _ _ _ Hr1).
    split; [done|]. split; [done|]. by eapply moved_trans.
Qed.
Lemma request_lines_u32 t pr addr len : cache_ok t pr -> is_u32 addr -> Forall (in_width 32) (request_lines t pr addr len).
Proof.
  intros Hok Ha. unfold request_lines. destruct (negb (has_cache pr) || (dcache_minline pr =? 0)) eqn:Hc; [constructor|].
  apply orb_false_iff in Hc as [Hc1 Hc2]. destruct Hok as [Hx|[Hx|[Hm Hall]]]; [by rewrite Hx in Hc1|by rewrite Hx in Hc2|].
  apply Forall_forall. intros l (y & Hy & Hl)%elem_concat. destruct y as [h r]. rewrite Forall_forall in Hall. pose proof (Hall _ Hy) as Hr.
  unfold region_lines in Hl. destruct (cache_range addr (u32 (addr + len)) r) as [lo hi] eqn:Hcr.
  destruct (cache_range_bounds _ _ _ _ _ _ Hm Hr (proj1 Ha) Hcr) as (_ & _ & Hlo & Hhi).
  apply elem_cache_lines in Hl as [Hl _]; [|done]. pose proof (line_down_nonneg (dcache_minline pr) lo Hlo). unfold in_width. lia.
Qed.
Lemma clean_run (MI : MemIf E) (DO : DpObj E) p t pr x k addr len inv (w : W) : ready core_ap p t pr w -> aps (dev w) !! cp_ap pr = Some ap ->
  at_port x k w -> is_u32 addr ->
  exists w' x', cortexm_cache_clean p addr len inv w = Ok tt w' /\ at_port x' k w' /\ moved w w'.
Proof.
  intros Hr Hap Hat Ha. destruct (run_cortexm_ap MI DO p t pr w Hr Hap) as (Hp & Ht & Hc).
  pose proof (proj2 (proj2 (proj2 (proj2 (proj2 Hr))))) as Hok.
  rewrite (cache_clean_lines p t pr ap addr len inv w Hp Ht Hc Hok (proj1 Ha)).
  eapply lines_run; [exact Hat|by destruct inv; [right|left]|by apply request_lines_u32].
Qed.
End Port.

(** ** The interface

    The methods of [memory_layer], on a target whose access port leads to the
    core, are what [CoreSpec] says. *)
Section Instance.
Context {E : Type} {GI : GdbIf E} {MI : MemIf E} {CLK : ClockIf E} {DP : DpIf E} {DO : DpObj E} {PI : ProbeIf (cm_dev E)}
        {HI : HostIf (cm_dev E)} {DI : DeviceIf (cm_dev E)} {dp : positive} {s : Z} {AC : ApCore DP CLK dp s}.
Variable local_addr : Z.
Variable other : Driver (cm_dev E).
Variable p : positive.
Notation L0 := (memory_layer local_addr other).
Notation A := (core_ap (dp := dp) (s := s)).
Notation W := (world (cm_dev E)).

Lemma via_driver {B} t m (c probe d : M W B) w : heap w !! p = Some t -> m t = Fdriver -> memory_method p m c probe d w = c w.
Proof. intros Hp Hm. unfold memory_method, via. rewrite (bind_Ok _ _ _ _ _ (load_target_Ok _ _ _ Hp)). by rewrite Hm. Qed.
Lemma unit_at_Some base stride n a i : unit_at base stride n a = Some i -> a = base + stride * i /\ 0 <= i < n.
Proof.
  unfold unit_at. destruct (_ && _) eqn:Hc; [|done]. intros [= <-]. rewrite !andb_true_iff, Z.eqb_eq, Z.leb_le, Z.ltb_lt in Hc. lia.
Qed.
Lemma core_write_aligned a v k k' : core_write a v k = Some k' -> is_u32 a /\ a mod 4 = 0.
Proof.
  unfold core_write. intros Hc.
  repeat match type of Hc with
  | context [if (?a0 =? ?c) then _ else _] => destruct (Z.eqb_spec a0 c) as [->|_]; [done|]
  end.
  destruct (_ || _) eqn:Ho; [rewrite !orb_true_iff, !Z.eqb_eq in Ho; by destruct Ho as [[-> | ->] | ->]|].
  assert (Hu : exists base stride n i, unit_at base stride n a = Some i /\ 0 <= base /\ base + stride * n < 2 ^ 32 /\
    0 <= stride /\ base mod 4 = 0 /\ stride mod 4 = 0).
  { destruct (unit_at (CORTEXM_FPB_COMP 0) 4 8 a) as [i|] eqn:H1; [by eexists _, _, _, i; split; [exact H1|]|].
    destruct (unit_at (CORTEXM_DWT_COMP 0) 16 16 a) as [i|] eqn:H2; [by eexists _, _, _, i; split; [exact H2|]|].
    destruct (unit_at (CORTEXM_DWT_MASK 0) 16 16 a) as [i|] eqn:H3; [by eexists _, _, _, i; split; [exact H3|]|].
    destruct (unit_at (CORTEXM_DWT_FUNC 0) 16 16 a) as [i|] eqn:H4; [by eexists _, _, _, i; split; [exact H4|]|done]. }
  destruct Hu as (base & stride & n & i & [-> Hi]%unit_at_Some & Hb & Hn & Hs & Hb4 & Hs4). split; [unfold in_width; nia|].
  rewrite Z.add_mod, Z.mul_mod, Hb4, Hs4 by lia. done.
Qed.

Lemma port_of (w : W) : ac_wf (out w) -> at_port (ac_ap (out w)) (ac_core (out w)) w.
Proof. done. Qed.
Lemma moved_left w w' u : moved w w' -> (ac_left (out w') u <= ac_left (out w) u)%nat.
Proof. by intros [_ Hl]. Qed.
Lemma write_ok w t pr a v k' : ready A p t pr w -> ac_wf (out w) -> is_u32 v -> core_write a v (ac_core (out w)) = Some k' ->
  exists e, @drv_mem_write _ L0 p a (le_bytes 4 v) w = Ok tt (set_out e w) /\ ac_wf e /\ ac_core e = k' /\
    forall u, (ac_left e u <= ac_left (out w) u)%nat.
Proof.
  intros Hr Hwf Hv Hcw. destruct (core_write_aligned _ _ _ _ Hcw) as [Ha Ha4].
  pose proof Hr as (Hp & _ & Hmw & _ & (ap & Hap & HA) & Hco).
  destruct (clean_run ap HA MI DO p t pr _ _ a 4 true w Hr Hap (port_of w Hwf) Ha) as (w1 & x1 & Hr1 & Hat1 & Hm1).
  pose proof (moved_priv p t pr w w1 Hr Hm1) as Hrd1. assert (Hap1 : aps (dev w1) !! cp_ap pr = Some ap) by (by rewrite (proj1 Hm1)).
  destruct (mem_write_run ap HA x1 _ a v k' w1 Hat1 Ha Ha4 Hv Hcw) as (w2 & x2 & Hr2 & (Hwf2 & _ & Hk2) & Hm2).
  pose proof (moved_trans w w1 w2 Hm1 Hm2) as Hm. exists (out w2). rewrite <- (proj1 Hm).
  split; [|split; [done|split; [done|by apply Hm]]].
  cbn [drv_mem_write memory_layer]. rewrite (via_driver t) by done. unfold cortexm_mem_write. unfold zlen. rewrite length_le_bytes.
  rewrite (bind_Ok _ _ _ _ _ Hr1). destruct (run_cortexm_ap ap MI DO p t pr w1 Hrd1 Hap1) as (_ & _ & Hc). by rewrite (bind_Ok _ _ _ _ _ Hc).
Qed.
Lemma read_any w t pr a n : ready A p t pr w -> ac_wf (out w) -> is_u32 a ->
  exists ap w1 x1, A ap /\ at_port x1 (ac_core (out w)) w1 /\ moved w w1 /\
    @drv_mem_read _ L0 p a n w = adiv5_mem_read ap (memset n 0) a n w1.
Proof.
  intros Hr Hwf Ha. pose proof Hr as (Hp & Hmr & _ & _ & (ap & Hap & HA) & Hco).
  destruct (clean_run ap HA MI DO p t pr _ _ a n false w Hr Hap (port_of w Hwf) Ha) as (w1 & x1 & Hr1 & Hat1 & Hm1).
  pose proof (moved_priv p t pr w w1 Hr Hm1) as Hrd1. assert (Hap1 : aps (dev w1) !! cp_ap pr = Some ap) by (by rewrite (proj1 Hm1)).
  exists ap, w1, x1. split; [done|]. split; [done|]. split; [done|].
  cbn [drv_mem_read memory_layer]. rewrite (via_driver t) by done. unfold cortexm_mem_read. rewrite (bind_Ok _ _ _ _ _ Hr1).
  destruct (run_cortexm_ap ap MI DO p t pr w1 Hrd1 Hap1) as (_ & _ & Hc). by rewrite (bind_Ok _ _ _ _ _ Hc).
Qed.
Lemma read_ok w t pr a : ready A p t pr w -> ac_wf (out w) -> readable a ->
  exists v e, @drv_mem_read _ L0 p a 4 w = Ok (le_bytes 4 v) (set_out e w) /\ ac_wf e /\ is_u32 v /\
    core_read (ac_core (out w)) a v (ac_core e) /\ forall u, (ac_left e u <= ac_left (out w) u)%nat.
Proof.
  intros Hr Hwf Ha. assert (Hu : is_u32 a /\ a mod 4 = 0) by (by destruct Ha as [-> | [-> | ->]]).
  destruct (read_any w t pr a 4 Hr Hwf (proj1 Hu)) as (ap & w1 & x1 & HA & Hat1 & Hm1 & Hrun).
  destruct (mem_read_word_run ap HA x1 _ a w1 Hat1 (proj1 Hu) (proj2 Hu) Ha) as (v & x2 & k2 & w2 & Hr2 & Hv & Hc & (Hwf2 & _ & Hk2) & Hm2).
  pose proof (moved_trans w w1 w2 Hm1 Hm2) as Hm. exists v, (out w2). rewrite <- (proj1 Hm), Hk2.
  split; [by rewrite Hrun|]. split; [done|]. split; [done|]. split; [done|]. by apply Hm.
Qed.
Lemma instr_ok w t pr a : ready A p t pr w -> ac_wf (out w) -> is_u32 a -> a mod 2 = 0 -> k_halted (ac_core (out w)) = true ->
  exists e, @drv_mem_read _ L0 p a 2 w = Ok (le_bytes 2 (halfword (ac_core (out w)) a)) (set_out e w) /\ ac_wf e /\
    ac_core e = ac_core (out w) /\ forall u, (ac_left e u <= ac_left (out w) u)%nat.
Proof.
  intros Hr Hwf Ha Ha2 Hh. destruct (read_any w t pr a 2 Hr Hwf Ha) as (ap & w1 & x1 & HA & Hat1 & Hm1 & Hrun).
  destruct (mem_read_half_run ap HA x1 _ a w1 Hat1 Ha Ha2 Hh) as (x2 & w2 & Hr2 & (Hwf2 & _ & Hk2) & Hm2).
  pose proof (moved_trans w w1 w2 Hm1 Hm2) as Hm. exists (out w2). rewrite <- (proj1 Hm).
  split; [by rewrite Hrun|]. split; [done|]. split; [done|]. by apply Hm.
Qed.
#[export] Instance ap_core_spec : CoreSpec L0 CLK p A := {|
  core_wf := ac_wf; core_of := ac_core; left := ac_left;
  core_write_ok := write_ok; core_read_ok := read_ok; core_instr_ok := instr_ok;
  core_regs_u32 := ac_regs_u32; core_clock := ac_clock |}.
End Instance.
