(* ===== verification/CortexmSim.v ===== *)
(** A concrete core behind a concrete access port: an instance of [ApCore] on
    which the theorems about cortexm.c are applied.  Every access takes a
    millisecond; a running core stops at a breakpoint instruction after
    [s_run] readings of DHCSR. *)

From Stdlib Require Import ZArith Lia String.
From stdpp Require Import base list numbers option gmap.
From S2P Require Import Prelude CLib GdbIf MemManager GdbPacket TargetState Target TargetProps Platform Exception Morse Command Dap Adiv5 Adiv5Props Objects Cortexm CoreSpec CortexmCache CortexmAp.

Module CoreSim.
Record sim := { s_ap : ap_state; s_core : core; s_run : nat; s_time : Z; s_next : positive }.
Definition tick x k r e : sim := {| s_ap := x; s_core := k; s_run := r; s_time := s_time e + 1; s_next := s_next e |}.
Definition default_write a v k : core := default k (core_write a v k).
Definition dhcsr_value (k : core) : Z := Z.lor (k_ctrl k) (if k_halted k then CORTEXM_DHCSR_S_HALT else 0).
(** What a read of DHCSR finds, and how many more find the core running. *)
Definition observe (k : core) (r : nat) : core * nat :=
  if k_halted k then (k, r) else
  match r with
  | O => (stopped k, O)
  | S r' => (k, r')
  end.
Definition word_at_core (a : Z) (k : core) : Z :=
  if a =? CORTEXM_DHCSR then dhcsr_value k else if a =? CORTEXM_DCRDR then k_dcrdr k else k_dfsr k.
Definition half_lanes (k : core) (a : Z) : Z := Z.shiftl (halfword k a) (8 * Z.land a 3).
Definition access (RnW : Z) (reg : ap_reg) (v : Z) (e : sim) : Z * sim :=
  let x := s_ap e in let k := s_core e in let r := s_run e in
  match reg with
  | R_select => (0, tick (with_select v x) k r e)
  | R_csw => (0, tick (with_csw v x) k r e)
  | R_tar => (0, tick (with_tar v x) k r e)
  | R_rdbuff => (a_posted x, tick x k r e)
  | R_db i => (0, tick x (default_write (db_addr (a_tar x) i) v k) r e)
  | R_drw =>
      if RnW =? ADIV5_LOW_WRITE then (0, tick (with_tar (a_tar x) x) (default_write (a_tar x) v k) r e)
      else if Z.land (a_csw x) ADIV5_AP_CSW_SIZE_MASK =? 1 then
        (a_posted x, tick (with_posted (a_tar x) (half_lanes k (a_tar x)) x) k r e)
      else
        let '(k', r') := if a_tar x =? CORTEXM_DHCSR then observe k r else (k, r) in
        (a_posted x, tick (with_posted (a_tar x) (word_at_core (a_tar x) k') x) k' r' e)
  end.
#[export] Instance sim_dp : DpIf sim := {
  dp_low_access _ RnW addr v e :=
    match ap_decode 0 (a_select (s_ap e)) RnW addr with
    | Some reg => let '(r, e') := access RnW reg v e in Ok r e'
    | None => Ok 0 e
    end;
  dp_read _ addr e :=
    match ap_decode 0 (a_select (s_ap e)) ADIV5_LOW_READ addr with
    | Some (R_db i) =>
        let a := db_addr (a_tar (s_ap e)) i in
        let '(k', r') := if a =? CORTEXM_DHCSR then observe (s_core e) (s_run e) else (s_core e, s_run e) in
        Ok (word_at_core a k') (tick (s_ap e) k' r' e)
    | _ => Ok 0 e
    end;
}.
#[export] Instance sim_clock : ClockIf sim := {
  platform_time_ms e := Ok (s_time e) (tick (s_ap e) (s_core e) (s_run e) e);
  platform_delay n e := Ok tt (tick (s_ap e) (s_core e) (s_run e) e);
}.
#[export] Instance sim_mem : MemIf sim := {
  MemManager_Alloc n e := Ok (Some (s_next e)) {| s_ap := s_ap e; s_core := s_core e; s_run := s_run e; s_time := s_time e;
                                                 s_next := Pos.succ (s_next e) |};
  MemManager_Free h e := Ok tt e;
}.
#[export] Instance sim_obj : DpObj sim := {
  load_dpo _ := ret {| o_refcnt := 1; o_idcode := 0x2ba01477; o_targetid := 0; o_fault := 0; o_tc := 0 |};
  store_dpo _ _ := ret tt; drop_dpo _ := ret tt; dp_error _ := ret 0; dp_abort _ _ := ret tt;
}.
#[export] Instance sim_gdb : GdbIf sim := { gdb_if_getchar := ret 0; gdb_if_getchar_to _ := ret 0; gdb_if_putchar _ _ := ret tt }.
#[export] Instance sim_host : HostIf (cm_dev sim) := { host_call _ _ := ret 0 }.
#[export] Instance sim_probe : ProbeIf (cm_dev sim) := {
  get_voltage _ := ret (str "3.3V"); srst_set_val _ _ := ret tt; srst_get_val _ := ret false; target_set_power _ _ := ret tt;
  target_get_power _ := ret false; voltage_sense _ := ret 0; max_frequency_set _ _ := ret tt; max_frequency_get _ := ret 0;
  set_idle_state _ _ := ret tt }.
#[export] Instance sim_device : DeviceIf (cm_dev sim) := { device_probe _ _ := ret false; extended_reset _ := ret tt }.

Definition regs_fit (k : core) : Prop :=
  is_u32 (k_dcrdr k) /\ (forall n, is_u32 (k_reg k n)) /\ (forall a, is_byte (k_mem k a)).
(** What the core executes keeps its registers words. *)
Definition prog_fits (k : core) : Prop :=
  (forall r, (forall n, is_u32 (r n)) -> (forall n, is_u32 (fst (k_prog k r) n)) /\ is_u32 (snd (k_prog k r))) /\ forall n, is_u32 (k_cut k n).
Record kfit (k : core) : Prop := {
  kf_regs : regs_fit k; kf_prog : prog_fits k; kf_dfsr : is_u32 (k_dfsr k); kf_ctrl : in_width 16 (k_ctrl k) }.
Definition fit (e : sim) : Prop := kfit (s_core e).
Definition until (e : sim) (u : Z) : nat := Z.to_nat (u + 1 - s_time e).

Lemma until_tick x k r e u : (until (tick x k r e) u <= until e u)%nat.
Proof. unfold until. cbn. lia. Qed.
Lemma dfsr_u32 (a b : Z) : is_u32 a -> is_u32 (Z.land a (Z.lnot b)).
Proof.
  intros Ha. assert (Ho : Z.land a (Z.ones 32) = a) by (rewrite Z.land_ones by lia; by apply Z.mod_small).
  rewrite <- Ho, <- Z.land_assoc. apply in_width_land; [lia| |done]. apply Z.land_nonneg. by left.
Qed.
Lemma low_half v : in_width 16 (Z.land v 0xFFFF).
Proof. change 0xFFFF with (Z.ones 16). rewrite Z.land_ones by lia. apply (wrap_range 16). lia. Qed.
Lemma kfit_write a v k k' : kfit k -> is_u32 v -> core_write a v k = Some k' -> kfit k'.
Proof.
  intros [(Hd & Hr & Hm) Hp Hf Hc] Hv. unfold core_write.
  repeat match goal with |- (if ?b then _ else _) = _ -> _ => destruct b end.
  - unfold dcrsr_write. destruct (k_halted k); [|done]. intros [= <-]. destruct (flag v _); constructor; try done.
    + split; [done|]. split; [|done]. intros n. cbn. unfold upd. by destruct (n =? _).
    + by split; [apply Hr|].
  - intros [= <-]. by constructor.
  - unfold dhcsr_write. destruct (_ && _); [|done]. destruct (k_halted k).
    + intros [= <-]. constructor; try done. apply low_half.
    + destruct (flag v CORTEXM_DHCSR_C_HALT); [|done]. intros [= <-]. constructor; try done; [|by apply in_width_lor|apply low_half].
      split; [done|]. split; [apply Hp|done].
  - intros [= <-]. constructor; try done. by apply dfsr_u32.
  - intros [= <-]. by constructor.
  - intros [= <-]. by constructor.
  - repeat match goal with |- context [match unit_at ?b ?s ?n a with _ => _ end] => destruct (unit_at b s n a) end; intros [= <-]; by constructor.
Qed.
Lemma dhcsr_value_ok k : in_width 16 (k_ctrl k) -> is_u32 (dhcsr_value k) /\ flag (dhcsr_value k) CORTEXM_DHCSR_S_HALT = k_halted k.
Proof.
  intros Hc. unfold dhcsr_value. assert (Hu : is_u32 (k_ctrl k)) by (unfold in_width in *; lia). split.
  - apply in_width_lor; [lia|done|by destruct (k_halted k)].
  - assert (H17 : Z.land (k_ctrl k) CORTEXM_DHCSR_S_HALT = 0).
    { apply Z.bits_inj'. intros n Hn. rewrite Z.land_spec, Z.bits_0. destruct (Z.ltb_spec n 16).
      - change CORTEXM_DHCSR_S_HALT with (Z.shiftl 1 17). rewrite Z.shiftl_spec_low by lia. apply andb_false_r.
      - rewrite <- (Z.mod_small (k_ctrl k) (2 ^ 16)) by done. by rewrite Z.mod_pow2_bits_high by lia. }
    unfold flag. rewrite Z.land_lor_distr_l, H17. by destruct (k_halted k).
Qed.
Lemma observe_ok k r : kfit k -> kfit (observe k r).1 /\ is_u32 (dhcsr_value (observe k r).1) /\
  core_read k CORTEXM_DHCSR (dhcsr_value (observe k r).1) (observe k r).1.
Proof.
  intros Hk. assert (Hs : kfit (stopped k)).
  { destruct Hk as [(Hd & Hr & Hm) Hp Hf Hc]. destruct (proj1 Hp _ Hr) as [Hr' Hf']. constructor; try done. }
  assert (Hk' : kfit (observe k r).1) by (unfold observe; destruct (k_halted k); [done|by destruct r]).
  destruct (dhcsr_value_ok _ (kf_ctrl _ Hk')) as [Hu Hf]. split; [done|]. split; [done|]. split; [done|]. unfold observe.
  destruct (k_halted k) eqn:Hh; [by left|]. destruct r; [right|left]; done.
Qed.
Lemma half_lanes_ok k a : (forall b, is_byte (k_mem k b)) -> a mod 2 = 0 -> lanes_of (k_mem k) a 2 (half_lanes k a).
Proof.
  intros Hm Ha i Hi. unfold lane, half_lanes, halfword. pose proof (Hm a) as H0. pose proof (Hm (a + 1)) as H1. unfold in_width in H0, H1.
  assert (Hl : Z.land (a + i) 3 = Z.land a 3 + i).
  { change 3 with (Z.ones 2). rewrite !Z.land_ones by lia. change (2 ^ 2) with 4.
    pose proof (Z.div_mod a 4 ltac:(lia)). pose proof (Z.mod_pos_bound a 4 ltac:(lia)). pose proof (Z.div_mod a 2 ltac:(lia)).
    symmetry. apply (Z.mod_unique_pos _ _ (a / 4)); lia. }
  pose proof (land3_range a). rewrite Hl, Z.shiftr_shiftl_r by lia. replace (8 * (Z.land a 3 + i) - 8 * Z.land a 3) with (8 * i) by lia.
  rewrite Z.shiftr_div_pow2 by lia. assert (i = 0 \/ i = 1) as [-> | ->] by lia.
  - change (2 ^ (8 * 0)) with 1. rewrite Z.div_1_r, Z.add_0_r. unfold u8, wrap. rewrite (Z.mul_comm 256), Z.mod_add by lia. by apply Z.mod_small.
  - change (2 ^ (8 * 1)) with 256. rewrite (Z.mul_comm 256), Z.div_add by lia. rewrite Z.div_small by lia. apply u8_small. lia.
Qed.
Lemma default_write_ok a v k : is_Some (core_write a v k) -> core_write a v k = Some (default_write a v k).
Proof. unfold default_write. by intros [k' ->]. Qed.
Lemma fit_write a v e k x r : fit e -> k = s_core e -> is_u32 v -> is_Some (core_write a v k) -> fit (tick x (default_write a v k) r e).
Proof. intros He -> Hv Hs. exact (kfit_write _ _ _ _ He Hv (default_write_ok _ _ _ Hs)). Qed.

Definition seen (a : Z) (k : core) (r : nat) : core := if a =? CORTEXM_DHCSR then (observe k r).1 else k.
Lemma word_read_ok e a : fit e -> readable a ->
  is_u32 (word_at_core a (seen a (s_core e) (s_run e))) /\
  core_read (s_core e) a (word_at_core a (seen a (s_core e) (s_run e))) (seen a (s_core e) (s_run e)) /\
  forall x r, fit (tick x (seen a (s_core e) (s_run e)) r e).
Proof.
  intros Hfit Hrd. destruct Hrd as [-> | [-> | ->]]; [split; [apply Hfit|by split]|split; [apply Hfit|by split]|].
  destruct (observe_ok (s_core e) (s_run e) Hfit) as (Hk & Hu & Hc). by split.
Qed.
Lemma sim_clock_ok e : fit e -> exists now e', platform_time_ms e = Ok now e' /\ fit e' /\ s_core e' = s_core e /\
  forall u, (until e' u <= until e u)%nat /\ (now <= u -> (until e' u < until e u)%nat).
Proof.
  intros He. eexists _, _. split; [reflexivity|]. split; [done|]. split; [done|]. intros u. split; [apply until_tick|].
  unfold until. cbn. lia.
Qed.
Lemma sim_access dp e RnW addr v reg : fit e -> is_u32 v -> ap_decode 0 (a_select (s_ap e)) RnW addr = Some reg ->
  ap_ok (s_ap e) (s_core e) RnW reg v ->
  exists r e', dp_low_access dp RnW addr v e = Ok r e' /\ fit e' /\
    ap_step (s_ap e) (s_core e) RnW reg v r (s_ap e') (s_core e') /\ forall u, (until e' u <= until e u)%nat.
Proof.
  intros Hfit Hv Hd Hok. cbn [dp_low_access sim_dp]. rewrite Hd.
  destruct reg as [| | | | |i]; cbn [ap_ok] in Hok; cbn [access].
  - subst RnW. eexists _, _. split; [reflexivity|]. split; [done|]. split; [constructor|intros; apply until_tick].
  - subst RnW. eexists _, _. split; [reflexivity|]. split; [done|]. split; [constructor|intros; apply until_tick].
  - subst RnW. eexists _, _. split; [reflexivity|]. split; [done|]. split; [constructor|intros; apply until_tick].
  - subst RnW. eexists _, _. split; [reflexivity|]. split; [done|]. split; [constructor|intros; apply until_tick].
  - destruct Hok as [(-> & Ht & Hs)|[(-> & Ht & Hrd)|(-> & Ht & Hh & Hu)]].
    + eexists _, _. split; [reflexivity|]. split; [by apply fit_write|]. split; [|intros; apply until_tick].
      apply ap_drw_write. by apply default_write_ok.
    + change (ADIV5_LOW_READ =? ADIV5_LOW_WRITE) with false. cbv iota. pose proof (proj1 (proj2 Ht)) as Hz. rewrite Hz. change (2 =? 1) with false. cbv iota.
      destruct (word_read_ok e (a_tar (s_ap e)) Hfit Hrd) as (Hu & Hcr & Hfit'). unfold seen in *. destruct (a_tar (s_ap e) =? CORTEXM_DHCSR);
        [destruct (observe (s_core e) (s_run e)) as [k' r']|]; cbn [fst] in *;
        (eexists _, _; split; [reflexivity|]; split; [apply Hfit'|]; split; [by apply ap_drw_read|intros; apply until_tick]).
    + change (ADIV5_LOW_READ =? ADIV5_LOW_WRITE) with false. cbv iota. pose proof (proj1 (proj2 Ht)) as Hz. rewrite Hz. change (1 =? 1) with true. cbv iota.
      eexists _, _. split; [reflexivity|]. split; [done|]. split; [|intros; apply until_tick].
      apply ap_drw_half; [done|]. apply half_lanes_ok; [apply Hfit|]. by destruct Ht as (_ & _ & Ht).
  - destruct Hok as [-> Hs]. eexists _, _. split; [reflexivity|]. split; [by apply fit_write|]. split; [|intros; apply until_tick].
    apply ap_db_write. by apply default_write_ok.
Qed.
Lemma sim_db_read dp e addr i : fit e -> ap_decode 0 (a_select (s_ap e)) ADIV5_LOW_READ addr = Some (R_db i) ->
  readable (db_addr (a_tar (s_ap e)) i) ->
  exists v e', dp_read dp addr e = Ok v e' /\ fit e' /\ is_u32 v /\ a_select (s_ap e') = a_select (s_ap e) /\
    a_tar (s_ap e') = a_tar (s_ap e) /\ core_read (s_core e) (db_addr (a_tar (s_ap e)) i) v (s_core e') /\
    forall u, (until e' u <= until e u)%nat.
Proof.
  intros Hfit Hd Hrd. cbn [dp_read sim_dp]. rewrite Hd.
  destruct (word_read_ok e (db_addr (a_tar (s_ap e)) i) Hfit Hrd) as (Hu & Hcr & Hfit'). unfold seen in *. destruct (db_addr (a_tar (s_ap e)) i =? CORTEXM_DHCSR);
    [destruct (observe (s_core e) (s_run e)) as [k' r']|]; cbn [fst] in *;
    (eexists _, _; split; [reflexivity|]; split; [apply Hfit'|]; split; [done|]; split; [done|]; split; [done|]; split; [done|intros; apply until_tick]).
Qed.
Lemma sel_zero : is_byte 0.
Proof. done. Qed.
#[export] Instance sim_core dp : ApCore sim_dp sim_clock dp 0 := {|
  ac_wf := fit; ac_ap := s_ap; ac_core := s_core; ac_left := until; ac_sel := sel_zero;
  ac_step := sim_access dp; ac_db_read := sim_db_read dp; ac_regs_u32 e He := kf_regs _ He;
  ac_clock := sim_clock_ok |}.

(** ** A target *)
Definition other : Driver (cm_dev sim) := {|
  drv_attach _ := ret true; drv_detach _ := ret tt; drv_check_error _ := ret false; drv_mem_read _ _ n := ret (memset n 0);
  drv_mem_write _ _ _ := ret tt; drv_regs_read _ := ret []; drv_regs_write _ _ := ret tt; drv_reg_read _ _ _ := ret (0, []);
  drv_reg_write _ _ _ := ret 0; drv_reset _ := ret tt; drv_halt_request _ := ret tt; drv_halt_poll _ := ret (TARGET_HALT_RUNNING, 0);
  drv_halt_resume _ _ := ret tt; drv_breakwatch_set _ bw := ret (1, bw); drv_breakwatch_clear _ _ := ret 1;
  drv_priv_free _ := ret tt; drv_command _ _ _ := ret false; drv_flash_erase _ _ _ _ := ret 0; drv_flash_write _ _ _ _ := ret 0;
  drv_flash_done _ _ := ret 0 |}.
Definition ap0 : ADIv5_AP := {| ap_refcnt := 1; ap_dp := 1; apsel := 0; idr := 0x24770011; base := 0xe00ff003; csw := 0x23000040;
  ap_cortexm_demcr := 0; ap_storage := 0; ap_designer := 0x20; ap_partno := 0x411 |}.
Lemma ap0_core : core_ap (dp := 1) (s := 0) ap0.
Proof. done. Qed.
(** A Cortex-M4F with 128 KiB of RAM; its RAM starts with BKPT 0x42. *)
Definition t0 : target := set_conn true (Some 0%nat) (set_options TOPT_FLAVOUR_V7MF (set_priv (Some 7%positive)
  (set_regs 212 (Some tdesc_cortex_mf) (set_core_methods (set_ram [(8%positive, {| ram_start := 0x20000000; ram_length := 0x20000 |})] blank_target))))).
Definition pr0 : cortexm_priv := set_hw_breakpoint (replicate 8 false) (set_units (replicate 4 false) 0 4 (replicate 8 false) 6 (blank_priv 3)).
Definition mem0 (a : Z) : Z := if a =? 0x20000000 then 0x42 else if a =? 0x20000001 then 0xBE else 0.
Definition k0 : core := {| k_reg := fun n => u32 (0x1000 * n); k_dcrdr := 0; k_halted := true; k_ctrl := 3; k_dfsr := 0; k_demcr := 0;
  k_fpb := fun _ => 0; k_dwt_comp := fun _ => 0; k_dwt_mask := fun _ => 0; k_dwt_func := fun _ => 0; k_mem := mem0;
  k_prog := fun r => (r, CORTEXM_DFSR_BKPT); k_cut := fun _ => 0 |}.
Definition e0 : sim := {| s_ap := {| a_select := 0; a_csw := 0; a_tar := 0; a_posted := 0 |}; s_core := k0; s_run := 3; s_time := 0; s_next := 20 |}.
Definition ctl0 : controller := {| has_destroy_callback := true; has_printf := true; h_open := false; h_close := false; h_read := false;
  h_write := false; h_lseek := false; h_rename := false; h_unlink := false; h_stat := false; h_fstat := false; h_gettimeofday := false;
  h_isatty := false; h_system := false; errno_ := 0; interrupted := false; cur_target := Some 5%positive; last_target := None;
  target_list := [5%positive]; flash_mode := false; connect_assert_srst := false; cortexm_wait_timeout := 2000; running_status := false;
  has_platform := true |}.
Definition with_priv (pr : cortexm_priv) (t : target) (e : sim) : world (cm_dev sim) :=
  {| heap := {[ 5%positive := t ]}; ctls := {[ 0%nat := ctl0 ]}; pbuf := []; debug_bmp := false;
     dev := {| aps := {[ 3%positive := ap0 ]}; privs := {[ 7%positive := pr ]}; time0_sec := 4294967295; local := []; outside := e |} |}.
Definition w0 := with_priv pr0 t0 e0.
Lemma mem0_bytes a : is_byte (mem0 a).
Proof. unfold mem0. destruct (a =? 536870912); [done|]. by destruct (a =? 536870913). Qed.
Lemma fit0 : fit e0.
Proof.
  constructor; try done.
  - split; [done|]. split; [intros n; apply u32_range|]. apply mem0_bytes.
Qed.
Lemma ready0 : ready (core_ap (dp := 1) (s := 0)) 5 t0 pr0 w0.
Proof.
  split; [done|]. split; [done|]. split; [done|]. split; [by exists 7%positive|]. split; [by exists ap0|]. by left.
Qed.
#[export] Instance sim_spec : CoreSpec (memory_layer 0 other) sim_clock 5 (core_ap (dp := 1) (s := 0)) := ap_core_spec (AC := sim_core 1) 0 other 5.
Lemma at0 : at_core (CS := sim_spec) 5 t0 pr0 k0 w0.
Proof. split; [exact ready0|]. split; [exact fit0|done]. Qed.
End CoreSim.
