(* ===== verification/CortexmProps.v ===== *)
(** The theorems about cortexm.c: registers, breakpoints, halting and running
    code, over the interface of CoreSpec; and what needs no core: the cache
    lines, the exception frame, the register numbers. *)

From Stdlib Require Import ZArith Lia String.
From stdpp Require Import base list numbers option gmap.
From S2P Require Import Prelude CLib GdbIf MemManager GdbPacket TargetState Target TargetProps Platform Exception Morse Command Dap Adiv5 Objects Cortexm CoreSpec CortexmCache CortexmAp CortexmSim.

(** ** Register numbers *)
Lemma word_get_lookup {W} (l : list Z) i n (w : W) : 0 <= i -> l !! Z.to_nat i = Some n -> word_get l i w = Ok n w.
Proof. intros Hi Hl. unfold word_get. rewrite (proj2 (Z.ltb_ge i 0)) by lia. by rewrite Hl. Qed.
Lemma word_get_beyond {W} (l : list Z) i (w : W) : zlen l <= i -> word_get l i w = Fault OutOfBounds w.
Proof.
  intros Hi. pose proof (zlen_nonneg l). unfold word_get. rewrite (proj2 (Z.ltb_ge i 0)) by lia.
  rewrite lookup_ge_None_2; [done|]. unfold zlen in *. lia.
Qed.

(** [dcrsr_regnum] gives the selector of each register GDB knows and -1 for
    the ones after them; but with floating point its bound is 60 too large, and
    the register numbers 53 to 112 read beyond the table. *)
Theorem dcrsr_regnum_spec (E : Type) t reg (w : world (cm_dev E)) : 0 <= reg ->
  dcrsr_regnum t reg w =
    match reg_nums t !! Z.to_nat reg with
    | Some n => Ok n w
    | None => if ap_is_vfp t && (reg <? 113) then Fault OutOfBounds w else Ok (-1) w
    end.
Proof.
  intros Hr. unfold dcrsr_regnum, reg_nums. change (zlen regnum_cortex_m) with 20. change (zlen regnum_cortex_mf) with 33.
  change (4 * 20 + 33) with 113. destruct (Z.ltb_spec reg 20) as [Hlt|Hge].
  - destruct (regnum_cortex_m !! Z.to_nat reg) as [n|] eqn:Hn.
    + rewrite (lookup_app_l_Some _ _ _ _ Hn). by apply word_get_lookup.
    + apply lookup_ge_None in Hn. change (length regnum_cortex_m) with 20%nat in Hn. lia.
  - rewrite lookup_app_r by (change (length regnum_cortex_m) with 20%nat; lia).
    change (length regnum_cortex_m) with 20%nat. destruct (ap_is_vfp t); cbn [andb]; [|done].
    replace (Z.to_nat reg - 20)%nat with (Z.to_nat (reg - 20)) by lia.
    destruct (regnum_cortex_mf !! Z.to_nat (reg - 20)) as [n|] eqn:Hn.
    + rewrite (proj2 (Z.ltb_lt reg 113)); [apply word_get_lookup; [lia|done]|].
      apply lookup_lt_Some in Hn. change (length regnum_cortex_mf) with 33%nat in Hn. lia.
    + destruct (Z.ltb_spec reg 113); [|done]. apply word_get_beyond. apply lookup_ge_None in Hn. unfold zlen. lia.
Qed.

Definition selector_ok (n : Z) : bool :=
  (regsel n =? n) && negb (flag n CORTEXM_DCRSR_REGWnR) && (u32 n =? n)
  && (regsel (u32 (Z.lor CORTEXM_DCRSR_REGWnR n)) =? n) && flag (u32 (Z.lor CORTEXM_DCRSR_REGWnR n)) CORTEXM_DCRSR_REGWnR
  && (u32 (Z.lor CORTEXM_DCRSR_REGWnR n) =? Z.lor CORTEXM_DCRSR_REGWnR n).
Lemma selectors_ok t n i : reg_nums t !! i = Some n -> selector_ok n = true.
Proof.
  intros Hi. assert (Hall : forallb selector_ok (reg_nums t) = true) by (unfold reg_nums; by destruct (ap_is_vfp t)).
  apply forallb_forall with (x := n) in Hall; [done|]. apply list_elem_of_In. by eapply list_elem_of_lookup_2.
Qed.
Lemma selector_facts n : selector_ok n = true ->
  regsel n = n /\ flag n CORTEXM_DCRSR_REGWnR = false /\ u32 n = n /\ regsel (u32 (Z.lor CORTEXM_DCRSR_REGWnR n)) = n /\
  flag (u32 (Z.lor CORTEXM_DCRSR_REGWnR n)) CORTEXM_DCRSR_REGWnR = true /\
  u32 (Z.lor CORTEXM_DCRSR_REGWnR n) = Z.lor CORTEXM_DCRSR_REGWnR n.
Proof.
  unfold selector_ok. intros Hs. rewrite !andb_true_iff, !Z.eqb_eq, negb_true_iff in Hs.
  destruct Hs as (((((Ha & Hb) & Hc) & Hd) & He) & Hf). by split_and!.
Qed.
Lemma reg_nums_NoDup t : NoDup (reg_nums t).
Proof. unfold reg_nums. apply (bool_decide_unpack _). by destruct (ap_is_vfp t). Qed.

Lemma write_dcrsr k n : selector_ok n = true -> k_halted k = true ->
  core_write CORTEXM_DCRSR (u32 n) k = Some (with_regs (k_reg k) (k_reg k n) k) /\
  core_write CORTEXM_DCRSR (u32 (Z.lor CORTEXM_DCRSR_REGWnR n)) k = Some (with_regs (upd (k_reg k) n (k_dcrdr k)) (k_dcrdr k) k).
Proof.
  intros (Hn & Hf & Hu & Hn' & Hf' & _)%selector_facts Hh. unfold core_write. rewrite Z.eqb_refl. unfold dcrsr_write.
  rewrite Hh, Hu, Hf, Hn, Hf', Hn'. done.
Qed.

Section Core.
Context {E : Type} `{GdbIf E} `{MemIf E} `{CLK : ClockIf E} `{DpIf E} `{DpObj E}
        `{ProbeIf (cm_dev E)} `{HostIf (cm_dev E)} `{DRV : Driver (cm_dev E)} `{DeviceIf (cm_dev E)}
        (p : positive) {A : ADIv5_AP -> Prop} {CS : CoreSpec DRV CLK p A}.
Notation W := (world (cm_dev E)).
Notation at_core := (at_core p).

(** ** Single registers *)
Lemma reg_read_ok t pr k n reg max (w : W) : at_core t pr k w -> k_halted k = true -> 0 <= reg < 2 ^ 32 -> 4 <= max ->
  reg_nums t !! Z.to_nat reg = Some n ->
  exists w', cortexm_reg_read p reg max w = Ok (4, le_bytes 4 (k_reg k n)) w' /\
    at_core t pr (with_regs (k_reg k) (k_reg k n) k) w' /\ elapsed p t w w'.
Proof.
  intros Hat Hh Hreg Hmax Hn. unfold cortexm_reg_read. rewrite (proj2 (Z.ltb_ge max 4)) by lia.
  rewrite (bind_Ok _ _ _ _ _ (run_load_target _ _ _ _ _ Hat)), u32_small by done.
  assert (Hd : dcrsr_regnum t reg w = Ok n w) by (rewrite dcrsr_regnum_spec by lia; by rewrite Hn).
  rewrite (bind_Ok _ _ _ _ _ Hd). destruct (write_dcrsr k n (selectors_ok _ _ _ Hn) Hh) as [Hw _].
  core_write_step Hat Hw.
  destruct (run_dcrdr p _ _ _ _ Hat0) as (w2 & Hr2 & Hat2 & He2).
  rewrite (bind_Ok _ _ _ _ _ Hr2). exists w2. split; [done|]. split; [done|]. by eapply elapsed_trans.
Qed.
Lemma byte_word_le data : zlen data = 4 -> is_bytes data -> byte_word data 0 = le_val data /\ is_u32 (le_val data).
Proof.
  intros Hl Hb. unfold byte_word, zdrop, ztake. change (Z.to_nat (4 * 0)) with 0%nat.
  assert (Hlen : length data = 4%nat) by (unfold zlen in Hl; lia).
  rewrite drop_0, (take_ge data) by (rewrite Hlen; done). split; [done|]. pose proof (le_val_range _ Hb) as Hr.
  rewrite Hlen in Hr. exact Hr.
Qed.
Lemma reg_write_ok t pr k n reg data (w : W) : at_core t pr k w -> k_halted k = true -> 0 <= reg < 2 ^ 32 ->
  zlen data = 4 -> is_bytes data -> reg_nums t !! Z.to_nat reg = Some n ->
  exists w' d, cortexm_reg_write p reg data w = Ok 4 w' /\
    at_core t pr (with_regs (upd (k_reg k) n (le_val data)) d k) w' /\ elapsed p t w w'.
Proof.
  intros Hat Hh Hreg Hlen Hb Hn. destruct (byte_word_le data Hlen Hb) as [Hbw Hu]. unfold cortexm_reg_write.
  rewrite Hlen. cbn [Z.ltb Z.compare Pos.compare Pos.compare_cont]. rewrite Hbw.
  core_write_step Hat (eq_refl : core_write CORTEXM_DCRDR (le_val data) k = Some (with_regs (k_reg k) (le_val data) k)).
  rewrite (bind_Ok _ _ _ _ _ (run_load_target _ _ _ _ _ Hat0)), u32_small by done.
  assert (Hd : dcrsr_regnum t reg w0 = Ok n w0) by (rewrite dcrsr_regnum_spec by lia; by rewrite Hn).
  core_run Hd. destruct (write_dcrsr (with_regs (k_reg k) (le_val data) k) n (selectors_ok _ _ _ Hn) Hh) as [_ Hw].
  core_write_step Hat0 Hw. eexists _, _. split; [done|]. split; [exact Hat1|]. by eapply elapsed_trans.
Qed.

(** The data last written to register [reg], if any. *)
Fixpoint last_written (ws : list (Z * list Z)) (reg : Z) : option (list Z) :=
  match ws with
  | [] => None
  | (r, d) :: ws' => match last_written ws' reg with Some x => Some x | None => if r =? reg then Some d else None end
  end.
Definition reg_ok (t : target) (reg : Z) : Prop := 0 <= reg < zlen (reg_nums t).
Definition write_all (ws : list (Z * list Z)) : M W unit :=
  for_each ws (fun '(r, d) => let! _ := cortexm_reg_write p r d in ret tt).
Lemma reg_num t reg : reg_ok t reg -> 0 <= reg < 2 ^ 32 /\ exists n, reg_nums t !! Z.to_nat reg = Some n.
Proof.
  intros Hr. unfold reg_ok in Hr. split.
  - assert (zlen (reg_nums t) <= 53) by (unfold reg_nums; by destruct (ap_is_vfp t)). lia.
  - apply lookup_lt_is_Some. unfold zlen in Hr. lia.
Qed.
Lemma write_all_ok t pr ws : forall k (w : W), at_core t pr k w -> k_halted k = true ->
  Forall (fun '(r, d) => reg_ok t r /\ zlen d = 4 /\ is_bytes d) ws ->
  exists k' w', write_all ws w = Ok tt w' /\ at_core t pr k' w' /\ k_halted k' = true /\ elapsed p t w w' /\
    forall r n, 0 <= r -> reg_nums t !! Z.to_nat r = Some n ->
      k_reg k' n = match last_written ws r with Some d => le_val d | None => k_reg k n end.
Proof.
  induction ws as [|[r d] ws IH]; intros k w Hat Hh Hws.
  - exists k, w. split; [done|]. split; [done|]. split; [done|]. split; [apply elapsed_refl|done].
  - apply Forall_cons in Hws as [(Hr & Hd & Hb) Hws]. destruct (reg_num t r Hr) as [Hr32 [n Hn]].
    destruct (reg_write_ok t pr k n r d w Hat Hh Hr32 Hd Hb Hn) as (w1 & x & Hrun & Hat1 & He1).
    destruct (IH _ w1 Hat1 Hh Hws) as (k' & w' & Hrun' & Hat' & Hh' & He' & Hval).
    exists k', w'. split; [|split; [done|split; [done|split; [by eapply elapsed_trans|]]]].
    + unfold write_all. cbn [for_each]. rewrite bind_bind. core_run Hrun. by rewrite bind_ret.
    + intros r' n' Hr0 Hn'. rewrite (Hval _ _ Hr0 Hn'). cbn [last_written]. destruct (last_written ws r'); [done|].
      cbn [with_regs k_reg]. unfold upd. destruct (Z.eqb_spec r r') as [->|Hne].
      * by rewrite Hn in Hn'; injection Hn' as ->; rewrite Z.eqb_refl.
      * rewrite (proj2 (Z.eqb_neq n' n)); [done|]. intros ->.
        pose proof (NoDup_lookup _ _ _ _ (reg_nums_NoDup t) Hn Hn'). lia.
Qed.

(** Writing registers of a halted core one by one and reading any of them
    afterwards gives the data last written to it, or what the core had in it. *)
Theorem reg_writes_then_read t pr k ws reg (w : W) : at_core t pr k w -> k_halted k = true ->
  Forall (fun '(r, d) => reg_ok t r /\ zlen d = 4 /\ is_bytes d) ws -> reg_ok t reg ->
  exists n w1 w2, reg_nums t !! Z.to_nat reg = Some n /\ write_all ws w = Ok tt w1 /\
    cortexm_reg_read p reg 4 w1 =
      Ok (4, match last_written ws reg with Some d => d | None => le_bytes 4 (k_reg k n) end) w2.
Proof.
  intros Hat Hh Hws Hreg. destruct (reg_num t reg Hreg) as [H32 [n Hn]].
  destruct (write_all_ok t pr ws k w Hat Hh Hws) as (k' & w1 & Hrun & Hat1 & Hh1 & _ & Hval).
  destruct (reg_read_ok t pr k' n reg 4 w1 Hat1 Hh1 H32 ltac:(lia) Hn) as (w2 & Hread & _).
  exists n, w1, w2. split; [done|]. split; [done|]. rewrite Hread, (Hval reg n ltac:(lia) Hn).
  destruct (last_written ws reg) as [d|] eqn:Hl; [|done].
  assert (Hd : zlen d = 4 /\ is_bytes d).
  { clear -Hws Hl. induction ws as [|[r x] ws IH]; [done|]. apply Forall_cons in Hws as [(_ & Hx) Hws]. cbn in Hl.
    destruct (last_written ws reg); [injection Hl as ->; by apply IH|]. destruct (r =? reg); [by injection Hl as <-|done]. }
  destruct Hd as [Hlen Hb]. replace 4%nat with (length d) by (unfold zlen in Hlen; lia). by rewrite le_bytes_val.
Qed.
End Core.

(** ** At work *)
Import CoreSim.
Lemma dcrsr_regnum_spec_witness : 0 <= 60 /\ dcrsr_regnum CoreSim.t0 60 CoreSim.w0 = Fault OutOfBounds CoreSim.w0.
Proof. split; [lia|]. etrans; [apply (dcrsr_regnum_spec sim CoreSim.t0 60 CoreSim.w0); lia|reflexivity]. Defined.
Lemma reg_writes_then_read_witness : exists n w1 w2, reg_nums CoreSim.t0 !! Z.to_nat 3 = Some n /\
  write_all (DRV := memory_layer 0 other) 5 [(3, [1; 2; 3; 4]); (21, [9; 9; 9; 9]); (3, [5; 6; 7; 8])] CoreSim.w0 = Ok tt w1 /\
  cortexm_reg_read (DRV := memory_layer 0 other) 5 3 4 w1 = Ok (4, [5; 6; 7; 8]) w2.
Proof.
  apply (reg_writes_then_read (CS := CoreSim.sim_spec) 5 CoreSim.t0 CoreSim.pr0 CoreSim.k0
    [(3, [1; 2; 3; 4]); (21, [9; 9; 9; 9]); (3, [5; 6; 7; 8])] 3 CoreSim.w0 CoreSim.at0).
  - reflexivity.
  - repeat (apply Forall_cons; split; [|]); [..|constructor]; (split; [split; [discriminate|reflexivity]|split; [reflexivity|]]);
      repeat (apply Forall_cons; split; [split; [discriminate|reflexivity]|]); constructor.
  - split; [discriminate|reflexivity].
Defined.
