(* ===== verification/CortexmRegs.v ===== *)
(** All the registers of a core at once: [cortexm_regs_read] and
    [cortexm_regs_write] through the banked data registers of the access port
    transfer exactly the registers of the core, and undo each other. *)

From Stdlib Require Import ZArith Lia String.
From stdpp Require Import base list numbers option gmap.
From S2P Require Import Prelude CLib GdbIf MemManager GdbPacket TargetState Target TargetProps Platform Exception Morse Command Dap Adiv5 Adiv5Props Objects Cortexm CoreSpec CortexmCache CortexmAp CortexmSim CortexmProps.

(** ** Words and bytes *)
Lemma byte_word_cons c l i : length c = 4%nat -> 0 <= i -> byte_word (c ++ l) (i + 1) = byte_word l i.
Proof.
  intros Hc Hi. unfold byte_word, zdrop. replace (Z.to_nat (4 * (i + 1))) with (length c + Z.to_nat (4 * i))%nat by lia.
  by rewrite drop_app_add.
Qed.
Lemma bytes_words_cons c l : length c = 4%nat -> bytes_words (c ++ l) = le_val c :: bytes_words l.
Proof.
  intros Hc. unfold bytes_words. rewrite zlen_app. unfold zlen at 1. rewrite Hc. change (Z.of_nat 4) with 4.
  replace (4 + zlen l) with (zlen l + 1 * 4) by lia. rewrite Z.div_add by lia. pose proof (Z.div_pos (zlen l) 4 (zlen_nonneg l) ltac:(lia)).
  rewrite seqZ_cons by lia. rewrite fmap_cons. f_equal.
  - unfold byte_word, ztake, zdrop. cbn [Z.mul Z.to_nat]. rewrite drop_0. rewrite take_app_le by (rewrite Hc; done). by rewrite take_ge by (rewrite Hc; done).
  - replace (Z.pred (zlen l / 4 + 1)) with (zlen l / 4) by lia. change (Z.succ 0) with (1 + 0).
    rewrite <- fmap_add_seqZ, <- list_fmap_compose. apply list_fmap_ext. intros j x Hx. cbn.
    apply list_elem_of_lookup_2 in Hx. apply elem_of_seqZ in Hx. rewrite Z.add_comm. apply byte_word_cons; lia.
Qed.
Lemma words_bytes_words n : forall data, length data = (4 * n)%nat -> is_bytes data -> words_bytes (bytes_words data) = data.
Proof.
  induction n as [|n IH]; intros data Hl Hb; [by destruct data|].
  rewrite <- (take_drop 4 data). assert (Ht : length (take 4 data) = 4%nat) by (rewrite length_take; lia).
  rewrite bytes_words_cons by done. unfold words_bytes. cbn [fmap list_fmap concat]. fold (words_bytes (bytes_words (drop 4 data))).
  rewrite IH; [|rewrite length_drop; lia|by apply Forall_drop]. f_equal. rewrite <- Ht at 1. apply le_bytes_val. by apply Forall_take.
Qed.
Lemma length_bytes_words n : forall data, length data = (4 * n)%nat -> length (bytes_words data) = n.
Proof.
  intros data Hl. unfold bytes_words. rewrite length_fmap, length_seqZ. unfold zlen. rewrite Hl.
  replace (Z.of_nat (4 * n)) with (Z.of_nat n * 4) by lia. rewrite Z.div_mul by lia. lia.
Qed.
Lemma bytes_words_u32 n : forall data, length data = (4 * n)%nat -> is_bytes data -> Forall (in_width 32) (bytes_words data).
Proof.
  induction n as [|n IH]; intros data Hl Hb; [by destruct data|].
  rewrite <- (take_drop 4 data). assert (Ht : length (take 4 data) = 4%nat) by (rewrite length_take; lia).
  rewrite bytes_words_cons by done. constructor; [|apply IH; [rewrite length_drop; lia|by apply Forall_drop]].
  pose proof (le_val_range (take 4 data) (Forall_take _ _ _ Hb)) as Hr. rewrite Ht in Hr. exact Hr.
Qed.

(** ** The banked transfers *)
Section Banked.
Context {E : Type} {MI : MemIf E} {CLK : ClockIf E} {DP : DpIf E} {DO : DpObj E} {dp : positive} {s : Z} {AC : ApCore DP CLK dp s}.
Notation W := (world (cm_dev E)).
Notation A := (core_ap (dp := dp) (s := s)).
Variable ap : ADIv5_AP.
Hypothesis ap_is : A ap.

(** The port gives the debug registers as banked data registers. *)
Definition banked (x : ap_state) : Prop :=
  Z.shiftr (a_select x) 24 = s /\ Z.land (a_select x) 0xF0 = 0x10 /\ a_tar x = CORTEXM_DHCSR.
Lemma db_decode x RnW i : banked x -> i = 1 \/ i = 2 -> ap_decode s (a_select x) RnW (ADIV5_AP_DB i) = Some (R_db i).
Proof.
  intros (Hs & Hb & _) Hi. rewrite (decode_ap ap ap_is) by (by destruct Hi as [-> | ->]). rewrite (decode_reg ap ap_is) by (by destruct Hi as [-> | ->]).
  by destruct Hi as [-> | ->].
Qed.
Lemma db_write_run x k i v k' w : at_port x k w -> banked x -> i = 1 \/ i = 2 -> is_u32 v -> core_write (CORTEXM_DHCSR + 4 * i) v k = Some k' ->
  exists r w', adiv5_dp_low_access (ap_dp ap) ADIV5_LOW_WRITE (ADIV5_AP_DB i) v w = Ok r w' /\ at_port x k' w' /\ moved w w'.
Proof.
  intros Hat Hbk Hi Hv Hc. pose proof Hbk as (_ & _ & Ht). assert (Ha : db_addr (a_tar x) i = CORTEXM_DHCSR + 4 * i) by (by rewrite Ht).
  rewrite (proj1 ap_is). destruct (low_run x k ADIV5_LOW_WRITE (ADIV5_AP_DB i) v (R_db i) w Hat Hv) as (r & w' & x' & k2 & Hr & Hat' & Hst & Hm);
    [by apply db_decode|split; [done|rewrite Ha; by eauto]|].
  inversion Hst as [| | | | | | |? ? ? k3 Hc3]; subst. rewrite Ha in Hc3. rewrite Hc in Hc3. injection Hc3 as <-. by exists r, w'.
Qed.
Lemma dcrdr_run x k w : at_port x k w -> banked x ->
  exists w' x', adiv5_dp_read (ap_dp ap) (ADIV5_AP_DB DB_DCRDR) w = Ok (k_dcrdr k) w' /\ at_port x' k w' /\ banked x' /\ moved w w'.
Proof.
  intros Hat Hbk. pose proof Hbk as (Hs & Hb & Ht). assert (Ha : db_addr (a_tar x) 2 = CORTEXM_DCRDR) by (by rewrite Ht).
  rewrite (proj1 ap_is). destruct (db_run x k (ADIV5_AP_DB DB_DCRDR) 2 w Hat) as (v & w' & x' & k' & Hr & Hat' & Hv & Hs' & Ht' & Hc & Hm);
    [apply db_decode; [done|by right]|rewrite Ha; by left|].
  rewrite Ha in Hc. destruct Hc as [-> ->]. exists w', x'. split; [done|]. split; [done|]. split; [|done].
  unfold banked. by rewrite Hs', Ht'.
Qed.
(** The first access of a transfer switches the bank. *)
Lemma bank_run x k i v k' w : at_port x k w -> bank0 (s := s) x -> a_tar x = CORTEXM_DHCSR -> i = 1 \/ i = 2 -> is_u32 v ->
  core_write (CORTEXM_DHCSR + 4 * i) v k = Some k' ->
  exists w' x', adiv5_ap_write ap (ADIV5_AP_DB i) v w = Ok tt w' /\ at_port x' k' w' /\ banked x' /\ moved w w'.
Proof.
  intros Hat Hb Ht Hi Hv Hc. destruct (select_run ap ap_is x k (ADIV5_AP_DB i) w Hat) as (w1 & x1 & Hr1 & Hat1 & Hm1 & Hs1 & Hb1 & Ht1).
  assert (Hbk : banked x1) by (split; [done|split; [rewrite Hb1; by destruct Hi as [-> | ->]|congruence]]).
  destruct (db_write_run x1 k i v k' w1 Hat1 Hbk Hi Hv Hc) as (r & w2 & Hr2 & Hat2 & Hm2). exists w2, x1.
  split; [|split; [done|split; [done|by eapply moved_trans]]]. unfold adiv5_ap_write, firmware_ap_write. rewrite (bind_Ok _ _ _ _ _ Hr1).
  unfold adiv5_dp_write. unfold adiv5_dp_low_access in Hr2. by rewrite (bind_Ok _ _ _ _ _ Hr2).
Qed.
Lemma bank_setup_run x k w : at_port x k w ->
  exists w' x', bank_debug_regs ap w = Ok tt w' /\ at_port x' k w' /\ moved w w' /\ bank0 (s := s) x' /\ a_tar x' = CORTEXM_DHCSR.
Proof.
  intros Hat. assert (Hu : is_u32 (Z.lor (csw ap) ADIV5_AP_CSW_SIZE_WORD)).
  { apply in_width_lor; [lia|by apply ap_is|done]. }
  destruct (csw_run ap ap_is x k _ w Hat Hu) as (w1 & x1 & Hr1 & Hat1 & Hm1 & Hb1 & _).
  destruct (tar_run ap ap_is x1 k CORTEXM_DHCSR w1 Hat1 Hb1) as (r & w2 & Hr2 & Hat2 & Hm2); [done|].
  exists w2, (with_tar CORTEXM_DHCSR x1). unfold bank_debug_regs. rewrite (bind_Ok _ _ _ _ _ Hr1), (bind_Ok _ _ _ _ _ Hr2).
  split; [done|]. split; [done|]. split; [by eapply moved_trans|done].
Qed.

Definition selectors (nums : list Z) : Prop := Forall (fun n => selector_ok n = true) nums.
Lemma read_banked_run nums : forall x k w, at_port x k w -> banked x -> k_halted k = true -> selectors nums ->
  exists w' x' d, read_banked ap nums w = Ok (k_reg k <$> nums) w' /\ at_port x' (with_regs (k_reg k) d k) w' /\ moved w w'.
Proof.
  induction nums as [|n nums IH]; intros x k w Hat Hbk Hh Hn.
  - exists w, x, (k_dcrdr k). split; [done|]. split; [by destruct k|apply moved_refl].
  - apply Forall_cons in Hn as [Hn Hns]. destruct (write_dcrsr k n Hn Hh) as [Hc _]. pose proof (selector_facts n Hn) as (_ & _ & Hu & _).
    rewrite Hu in Hc. destruct (db_write_run x k 1 n _ w Hat Hbk (or_introl eq_refl) ltac:(rewrite <- Hu; apply u32_range) Hc) as (r & w1 & Hr1 & Hat1 & Hm1).
    destruct (dcrdr_run x _ w1 Hat1 Hbk) as (w2 & x2 & Hr2 & Hat2 & Hbk2 & Hm2).
    destruct (IH x2 _ w2 Hat2 Hbk2 Hh Hns) as (w3 & x3 & d & Hr3 & Hat3 & Hm3). exists w3, x3, d. cbn [read_banked].
    rewrite (bind_Ok _ _ _ _ _ Hr1), (bind_Ok _ _ _ _ _ Hr2), (bind_Ok _ _ _ _ _ Hr3).
    split; [done|]. split; [done|]. eapply moved_trans; [exact Hm1|by eapply moved_trans].
Qed.
(** The registers after [nums] have been given the words [vals]. *)
Fixpoint given (r : Z -> Z) (nums vals : list Z) : Z -> Z :=
  match nums, vals with
  | n :: nums', v :: vals' => given (upd r n v) nums' vals'
  | _, _ => r
  end.
Lemma given_other nums : forall r vals n, n ∉ nums -> given r nums vals n = r n.
Proof.
  induction nums as [|m nums IH]; intros r vals n Hn; [done|]. apply not_elem_of_cons in Hn as [Hne Hn]. destruct vals as [|v vals]; [done|].
  cbn [given]. rewrite IH by done. unfold upd. by rewrite (proj2 (Z.eqb_neq n m)).
Qed.
Lemma given_fmap nums : forall r vals, NoDup nums -> length vals = length nums -> given r nums vals <$> nums = vals.
Proof.
  induction nums as [|n nums IH]; intros r [|v vals] Hnd Hl; try done. apply NoDup_cons in Hnd as [Hn Hnd]. cbn [given fmap list_fmap].
  f_equal; [|apply IH; [done|by injection Hl]]. rewrite given_other by done. unfold upd. by rewrite Z.eqb_refl.
Qed.
Lemma transfer_run x k n v w : at_port x k w -> banked x -> k_halted k = true -> selector_ok n = true -> is_u32 v ->
  exists r1 r2 w1 w', adiv5_dp_low_access (ap_dp ap) ADIV5_LOW_WRITE (ADIV5_AP_DB DB_DCRDR) v w = Ok r1 w1 /\
    adiv5_dp_low_access (ap_dp ap) ADIV5_LOW_WRITE (ADIV5_AP_DB DB_DCRSR) (Z.lor 0x10000 n) w1 = Ok r2 w' /\
    at_port x (with_regs (upd (k_reg k) n v) v k) w' /\ moved w w'.
Proof.
  intros Hat Hbk Hh Hn Hv. destruct (db_write_run x k 2 v (with_regs (k_reg k) v k) w Hat Hbk (or_intror eq_refl) Hv eq_refl) as (r1 & w1 & Hr1 & Hat1 & Hm1).
  destruct (write_dcrsr (with_regs (k_reg k) v k) n Hn Hh) as [_ Hc]. pose proof (selector_facts n Hn) as (_ & _ & _ & _ & _ & Hu).
  change (Z.lor 0x10000 n) with (Z.lor CORTEXM_DCRSR_REGWnR n). rewrite <- Hu.
  destruct (db_write_run x _ 1 _ _ w1 Hat1 Hbk (or_introl eq_refl) (u32_range _) Hc) as (r2 & w2 & Hr2 & Hat2 & Hm2).
  exists r1, r2, w1, w2. split; [done|]. split; [done|]. split; [done|]. by eapply moved_trans.
Qed.
Lemma write_banked_run nums : forall x k data vals i w, at_port x k w -> banked x -> k_halted k = true -> selectors nums ->
  0 <= i -> drop (Z.to_nat i) data = vals -> length vals = length nums -> Forall (in_width 32) vals ->
  exists w' x' d, write_banked ap nums data i w = Ok tt w' /\ at_port x' (with_regs (given (k_reg k) nums vals) d k) w' /\ moved w w'.
Proof.
  induction nums as [|n nums IH]; intros x k data vals i w Hat Hbk Hh Hn Hi Hd Hl Hv.
  - destruct vals; [|done]. exists w, x, (k_dcrdr k). split; [done|]. split; [by destruct k|apply moved_refl].
  - destruct vals as [|v vals]; [done|]. apply Forall_cons in Hn as [Hn Hns]. apply Forall_cons in Hv as [Hv Hvs].
    assert (Hg : word_get data i w = Ok v w).
    { apply word_get_lookup; [done|]. rewrite <- (Nat.add_0_r (Z.to_nat i)), <- lookup_drop, Hd. done. }
    destruct (transfer_run x k n v w Hat Hbk Hh Hn Hv) as (r1 & r2 & w1 & w2 & Hr1 & Hr2 & Hat2 & Hm2).
    destruct (IH x _ data vals (i + 1) w2 Hat2 Hbk Hh Hns) as (w3 & x3 & d & Hr3 & Hat3 & Hm3); [lia| |by injection Hl|done|].
    { replace (Z.to_nat (i + 1)) with (Z.to_nat i + 1)%nat by lia. by rewrite <- drop_drop, Hd. }
    exists w3, x3, d. cbn [write_banked]. rewrite (bind_Ok _ _ _ _ _ Hg), (bind_Ok _ _ _ _ _ Hr1), (bind_Ok _ _ _ _ _ Hr2).
    split; [done|]. split; [done|]. by eapply moved_trans.
Qed.
End Banked.

(** ** The driver's transfers *)
Section Registers.
Context {E : Type} {MI : MemIf E} {CLK : ClockIf E} {DP : DpIf E} {DO : DpObj E} {dp : positive} {s : Z} {AC : ApCore DP CLK dp s}.
Notation W := (world (cm_dev E)).
Notation A := (core_ap (dp := dp) (s := s)).
Variable p : positive.

(** Target [p] is [t]; its core is [k] and halted. *)
Definition halted_core (t : target) (pr : cortexm_priv) (k : core) (w : W) : Prop :=
  ready A p t pr w /\ ac_wf (out w) /\ ac_core (out w) = k /\ k_halted k = true.
Lemma reg_nums_selectors t : selectors (reg_nums t).
Proof. apply Forall_forall. intros n Hn. apply list_elem_of_lookup in Hn as [i Hi]. by eapply selectors_ok. Qed.
Lemma reg_nums_cons t : reg_nums t = 0 :: List.tl (reg_nums t).
Proof. done. Qed.
Lemma moved_core t pr k k' x w w' : halted_core t pr k w -> moved w w' -> at_port x k' w' -> k_halted k' = true -> halted_core t pr k' w'.
Proof. intros (Hr & _) Hm (Hwf & _ & Hk) Hh. split; [by eapply moved_priv|done]. Qed.

Lemma regs_read_ok t pr k w : halted_core t pr k w ->
  exists w' d, cortexm_regs_read p w = Ok (words_bytes (k_reg k <$> reg_nums t)) w' /\ halted_core t pr (with_regs (k_reg k) d k) w' /\ moved w w'.
Proof.
  intros Hc. pose proof Hc as (Hr & Hwf & Hk & Hh). pose proof Hr as (_ & _ & _ & _ & (ap & Hap & HA) & _).
  destruct (run_cortexm_ap ap MI DO p t pr w Hr Hap) as (_ & _ & Hca). assert (Hat : at_port (ac_ap (out w)) k w) by done.
  destruct (bank_setup_run ap HA _ k w Hat) as (w1 & x1 & Hr1 & Hat1 & Hm1 & Hb1 & Ht1).
  pose proof (reg_nums_selectors t) as Hsel. rewrite reg_nums_cons in Hsel. apply Forall_cons in Hsel as [Hs0 Hsel].
  destruct (write_dcrsr k 0 Hs0 Hh) as [Hw0 _]. change (u32 0) with 0 in Hw0.
  destruct (bank_run ap HA x1 k 1 0 _ w1 Hat1 Hb1 Ht1 (or_introl eq_refl) ltac:(done) Hw0) as (w2 & x2 & Hr2 & Hat2 & Hbk2 & Hm2).
  destruct (dcrdr_run ap HA x2 _ w2 Hat2 Hbk2) as (w3 & x3 & Hr3 & Hat3 & Hbk3 & Hm3).
  destruct (read_banked_run ap HA (List.tl (reg_nums t)) x3 _ w3 Hat3 Hbk3 Hh Hsel) as (w4 & x4 & d & Hr4 & Hat4 & Hm4).
  assert (Hm : moved w w3) by (eapply moved_trans; [exact Hm1|by eapply moved_trans]).
  exists w4, d. split; [|split; [|by eapply moved_trans]].
  - unfold cortexm_regs_read. rewrite (bind_Ok _ _ _ _ _ Hca), (bind_Ok _ _ _ _ _ Hr1), (bind_Ok _ _ _ _ _ Hr2), (bind_Ok _ _ _ _ _ Hr3).
    assert (Hl : load_target p w3 = Ok t w3) by (apply load_target_Ok; rewrite (proj1 Hm); apply Hr).
    rewrite (bind_Ok _ _ _ _ _ Hl), (bind_Ok _ _ _ _ _ Hr4). by rewrite (reg_nums_cons t).
  - eapply moved_core; [exact Hc|by eapply moved_trans|exact Hat4|done].
Qed.
Lemma regs_write_ok t pr k data w : halted_core t pr k w -> zlen data = 4 * zlen (reg_nums t) -> is_bytes data ->
  exists w' d, cortexm_regs_write p data w = Ok tt w' /\
    halted_core t pr (with_regs (given (k_reg k) (reg_nums t) (bytes_words data)) d k) w' /\ moved w w'.
Proof.
  intros Hc Hlen Hby. pose proof Hc as (Hr & Hwf & Hk & Hh). pose proof Hr as (_ & _ & _ & _ & (ap & Hap & HA) & _).
  destruct (run_cortexm_ap ap MI DO p t pr w Hr Hap) as (_ & _ & Hca). assert (Hat : at_port (ac_ap (out w)) k w) by done.
  destruct (bank_setup_run ap HA _ k w Hat) as (w1 & x1 & Hr1 & Hat1 & Hm1 & Hb1 & Ht1).
  assert (Hdl : length data = (4 * length (reg_nums t))%nat) by (unfold zlen in Hlen; lia).
  pose proof (length_bytes_words _ data Hdl) as Hwl. pose proof (bytes_words_u32 _ data Hdl Hby) as Hwu.
  pose proof (reg_nums_selectors t) as Hsel. rewrite reg_nums_cons in Hsel, Hwl |- *. apply Forall_cons in Hsel as [Hs0 Hsel].
  destruct (bytes_words data) as [|v vals] eqn:Hbw; [done|]. apply Forall_cons in Hwu as [Hv Hvs]. injection Hwl as Hwl.
  destruct (bank_run ap HA x1 k 2 v (with_regs (k_reg k) v k) w1 Hat1 Hb1 Ht1 (or_intror eq_refl) Hv eq_refl) as (w2 & x2 & Hr2 & Hat2 & Hbk2 & Hm2).
  destruct (write_dcrsr (with_regs (k_reg k) v k) 0 Hs0 Hh) as [_ Hw0].
  destruct (db_write_run ap HA x2 _ 1 _ _ w2 Hat2 Hbk2 (or_introl eq_refl) (u32_range _) Hw0) as (r3 & w3 & Hr3 & Hat3 & Hm3).
  destruct (write_banked_run ap HA (List.tl (reg_nums t)) x2 _ (v :: vals) vals 1 w3 Hat3 Hbk2 Hh Hsel) as (w4 & x4 & d & Hr4 & Hat4 & Hm4);
    [lia|done|done|done|].
  assert (Hm : moved w w3) by (eapply moved_trans; [exact Hm1|by eapply moved_trans]).
  exists w4, d. split; [|split; [|by eapply moved_trans]].
  - unfold cortexm_regs_write. rewrite Hbw, (bind_Ok _ _ _ _ _ Hca), (bind_Ok _ _ _ _ _ Hr1). change (word_get (v :: vals) 0) with (@ret W Z v).
    rewrite bind_ret, (bind_Ok _ _ _ _ _ Hr2). change (u32 (Z.lor CORTEXM_DCRSR_REGWnR 0)) with (Z.lor 0x10000 0) in Hr3. rewrite (bind_Ok _ _ _ _ _ Hr3).
    assert (Hl : load_target p w3 = Ok t w3) by (apply load_target_Ok; rewrite (proj1 Hm); apply Hr).
    rewrite (bind_Ok _ _ _ _ _ Hl). exact Hr4.
  - eapply moved_core; [exact Hc|by eapply moved_trans|exact Hat4|done].
Qed.

(** Reading all registers of a halted core gives its registers, in GDB's order
    and as little-endian words, and leaves them as they are. *)
Theorem regs_read_correct t pr k w : halted_core t pr k w ->
  exists w', cortexm_regs_read p w = Ok (words_bytes (k_reg k <$> reg_nums t)) w' /\ k_reg (ac_core (out w')) = k_reg k.
Proof.
  intros Hc. destruct (regs_read_ok t pr k w Hc) as (w' & d & Hrun & (_ & _ & Hk & _) & _). exists w'. split; [done|]. by rewrite Hk.
Qed.
(** C21: Writing all registers and reading them back gives the bytes written, and
    no register outside GDB's set changes. *)
Theorem regs_write_read t pr k data w : halted_core t pr k w -> zlen data = 4 * zlen (reg_nums t) -> is_bytes data ->
  exists w1 w2, cortexm_regs_write p data w = Ok tt w1 /\ cortexm_regs_read p w1 = Ok data w2 /\
    forall n, n ∉ reg_nums t -> k_reg (ac_core (out w2)) n = k_reg k n.
Proof.
  intros Hc Hlen Hby. destruct (regs_write_ok t pr k data w Hc Hlen Hby) as (w1 & d & Hr1 & Hc1 & _).
  destruct (regs_read_ok t pr _ w1 Hc1) as (w2 & d2 & Hr2 & (_ & _ & Hk2 & _) & _). exists w1, w2.
  assert (Hdl : length data = (4 * length (reg_nums t))%nat) by (unfold zlen in Hlen; lia).
  cbn [with_regs k_reg] in Hr2, Hk2. rewrite given_fmap in Hr2 by (try apply reg_nums_NoDup; by apply length_bytes_words).
  rewrite (words_bytes_words _ data Hdl Hby) in Hr2. split; [done|]. split; [done|]. intros n Hn. rewrite Hk2. cbn [with_regs k_reg]. by apply given_other.
Qed.
End Registers.

(** ** At work *)
Import CoreSim.
Lemma halted0 : halted_core (AC := sim_core 1) 5 CoreSim.t0 CoreSim.pr0 CoreSim.k0 CoreSim.w0.
Proof. split; [exact CoreSim.ready0|]. split; [exact CoreSim.fit0|]. by split. Qed.
Lemma regs_read_correct_witness : exists w',
  cortexm_regs_read 5 CoreSim.w0 = Ok (words_bytes (k_reg CoreSim.k0 <$> reg_nums CoreSim.t0)) w' /\
  k_reg (s_core (out w')) = k_reg CoreSim.k0.
Proof. apply (regs_read_correct (AC := sim_core 1) 5 CoreSim.t0 CoreSim.pr0 CoreSim.k0 CoreSim.w0 halted0). Defined.
Lemma regs_write_read_witness : exists w1 w2, cortexm_regs_write 5 (memset 212 0x5A) CoreSim.w0 = Ok tt w1 /\
  cortexm_regs_read 5 w1 = Ok (memset 212 0x5A) w2 /\
  forall n, n ∉ reg_nums CoreSim.t0 -> k_reg (s_core (out w2)) n = k_reg CoreSim.k0 n.
Proof.
  apply (regs_write_read (AC := sim_core 1) 5 CoreSim.t0 CoreSim.pr0 CoreSim.k0 (memset 212 0x5A) CoreSim.w0 halted0).
  - reflexivity.
  - apply Forall_replicate. split; [discriminate|reflexivity].
Defined.
