(* ===== verification/CortexmBreak.v ===== *)
(** Hardware breakpoints of a Cortex-M: the comparators of the flash patch unit
    as cortexm.c programs them, and the refinement of the list of breakpoints of
    a target to what its core stops at. *)

From Stdlib Require Import ZArith Lia String.
From stdpp Require Import base list numbers option gmap.
From S2P Require Import Prelude CLib GdbIf MemManager GdbPacket TargetState Target TargetProps Platform Exception Morse Command Dap Adiv5 Objects Cortexm CoreSpec CortexmCache CortexmAp CortexmSim.

(** ** The comparator as the architecture describes it

    Revision 0 matches bits 28 to 2 of an address below 0x20000000, REPLACE
    (bits 31 and 30) choosing the halfword; later revisions compare the whole
    address. *)
Definition bits27 (x : Z) : Z := Z.land (Z.shiftr x 2) (Z.ones 27).
Definition fpb_matches (rev v pc : Z) : bool :=
  Z.testbit v 0 &&
  (if rev =? 0 then (pc <? 0x20000000) && (bits27 v =? bits27 pc) && Z.testbit v (if Z.testbit pc 1 then 31 else 30)
   else Z.shiftr v 1 =? Z.shiftr pc 1).
(** The address a breakpoint for [addr] stops at. *)
Definition fpb_addr (rev addr : Z) : Z := if rev =? 0 then addr mod 0x20000000 else addr.

Lemma even_shift x y : Z.even x = true -> Z.even y = true -> Z.shiftr x 1 = Z.shiftr y 1 <-> x = y.
Proof.
  intros Hx Hy. rewrite !Z.shiftr_div_pow2 by lia. change (2 ^ 1) with 2.
  apply Z.even_spec in Hx as [a ->], Hy as [b ->]. rewrite !(Z.mul_comm 2), !Z.div_mul by lia. lia.
Qed.
(** Of an address below 2^29: the word, the halfword in it, and bit 0. *)
Lemma word_half x : 0 <= x < 0x20000000 -> Z.even x = true -> x = 4 * bits27 x + 2 * Z.b2z (Z.testbit x 1).
Proof.
  intros Hx He. unfold bits27. rewrite Z.land_ones, Z.shiftr_div_pow2 by lia. change (2 ^ 2) with 4.
  rewrite Z.mod_small by (split; [apply Z.div_pos; lia|apply Z.div_lt_upper_bound; lia]).
  rewrite Z.testbit_spec' by lia. apply Z.even_spec in He as [a ->]. change (2 ^ 1) with 2.
  rewrite (Z.mul_comm 2 a), Z.div_mul by lia. pose proof (Z.div_mod (a * 2) 4 ltac:(lia)).
  replace (a * 2) with (2 * a) in * by lia. change 4 with (2 * 2) in *. rewrite Z.div_mul_cancel_l in * by lia.
  pose proof (Z.div_mod a 2 ltac:(lia)). lia.
Qed.
Lemma bits27_mod x : bits27 (x mod 0x20000000) = bits27 x.
Proof.
  unfold bits27. apply Z.bits_inj'. intros n Hn. rewrite !Z.land_spec, Z.testbit_ones_nonneg by lia.
  destruct (Z.ltb_spec n 27); [|by rewrite !andb_false_r]. rewrite !andb_true_r, !Z.shiftr_spec by lia.
  change 0x20000000 with (2 ^ 29). by rewrite Z.mod_pow2_bits_low by lia.
Qed.
Lemma testbit_mod x : Z.testbit (x mod 0x20000000) 1 = Z.testbit x 1.
Proof. change 0x20000000 with (2 ^ 29). by rewrite Z.mod_pow2_bits_low by lia. Qed.
Lemma even_mod x : Z.even (x mod 0x20000000) = Z.even x.
Proof. rewrite <- !Z.negb_odd, <- !Z.bit0_odd. change 0x20000000 with (2 ^ 29). by rewrite Z.mod_pow2_bits_low by lia. Qed.

Lemma fpb_value_bits addr : is_u32 addr ->
  Z.testbit (fpb_value 0 addr) 0 = true /\ bits27 (fpb_value 0 addr) = bits27 addr /\
  forall b, Z.testbit (fpb_value 0 addr) (if b : bool then 31 else 30) = eqb b (Z.testbit addr 1).
Proof.
  intros Ha. unfold fpb_value. cbn [Z.eqb]. change (flag addr 2) with (flag addr (2 ^ 1)). rewrite flag_testbit by lia. split; [|split].
  - rewrite Z.lor_spec. apply orb_true_r.
  - unfold bits27. apply Z.bits_inj'. intros n Hn. rewrite !Z.land_spec, Z.testbit_ones_nonneg by lia.
    destruct (Z.ltb_spec n 27); [|by rewrite !andb_false_r]. rewrite !andb_true_r, !Z.shiftr_spec by lia.
    rewrite !Z.lor_spec, Z.land_spec. assert (H1 : Z.testbit 1 (n + 2) = false) by (apply (Z.pow2_bits_false 0); lia). rewrite H1.
    change 0x1FFFFFFC with (Z.shiftl (Z.ones 27) 2). rewrite Z.shiftl_spec, Z.testbit_ones_nonneg by lia.
    rewrite (proj2 (Z.ltb_lt _ _)), andb_true_r, orb_false_r by lia.
    destruct (Z.testbit addr 1); [change 0x80000000 with (2 ^ 31)|change 0x40000000 with (2 ^ 30)];
      by rewrite Z.pow2_bits_false, orb_false_r by lia.
  - intros b. rewrite !Z.lor_spec, Z.land_spec. by destruct b, (Z.testbit addr 1); cbn; rewrite ?andb_false_r.
Qed.
(** The comparator value [cortexm_breakwatch_set] computes stops the core at
    the address asked for and nowhere else; with revision 0 only the low 29
    bits of the address count, so that a breakpoint in RAM stops a core in
    flash. *)
Theorem fpb_value_matches rev addr pc : is_u32 addr -> is_u32 pc -> Z.even addr = true -> Z.even pc = true ->
  fpb_matches rev (fpb_value rev addr) pc = true <-> pc = fpb_addr rev addr.
Proof.
  intros Ha Hpc Hea Hepc. unfold fpb_addr. destruct (Z.eqb_spec rev 0) as [->|Hr].
  - destruct (fpb_value_bits addr Ha) as (H0 & H27 & Hrep). unfold fpb_matches. rewrite H0, H27, Hrep. cbn [andb Z.eqb].
    pose proof (Z.mod_pos_bound addr 0x20000000 ltac:(lia)) as Hm. unfold in_width in Hpc.
    rewrite !andb_true_iff, Z.ltb_lt, Z.eqb_eq, eqb_true_iff. split.
    + intros [[Hlt H2] H1]. rewrite (word_half pc), (word_half (addr mod 0x20000000)) by (by rewrite ?even_mod; auto with lia).
      by rewrite bits27_mod, testbit_mod, H2, H1.
    + intros ->. rewrite bits27_mod, testbit_mod. by split_and!; try lia.
  - unfold fpb_matches, fpb_value. rewrite (proj2 (Z.eqb_neq rev 0) Hr), Z.lor_spec, orb_true_r. cbn [andb].
    rewrite Z.shiftr_lor. change (Z.shiftr 1 1) with 0. rewrite Z.lor_0_r, Z.eqb_eq.
    rewrite (even_shift addr pc) by done. split; congruence.
Qed.

(** ** The units of a target and its list *)
Definition is_hard (bw : breakwatch) : bool := bw_type bw =? TARGET_BREAK_HARD.
Definition hards (l : list (positive * breakwatch)) : list breakwatch := List.filter is_hard (snd <$> l).
Definition hard (t : target) : list breakwatch := hards (bw_list t).
Definition slot (bw : breakwatch) : Z := nth 0 (bw_reserved bw) (-1).
Lemma hards_app l l' : hards (l ++ l') = hards l ++ hards l'.
Proof. unfold hards. by rewrite fmap_app, List.filter_app. Qed.
(** Every hardware breakpoint of the list has a comparator of its own that is
    marked as used and holds its address; the others are free and disabled. *)
Record installed (t : target) (pr : cortexm_priv) (k : core) : Prop := {
  in_len : length (hw_breakpoint pr) = 8%nat;
  in_max : 0 <= hw_breakpoint_max pr <= 8;
  in_nodup : NoDup (slot <$> hard t);
  in_used : forall i, 0 <= i < hw_breakpoint_max pr ->
    hw_breakpoint pr !! Z.to_nat i = Some (bool_decide (i ∈ slot <$> hard t));
  in_value : forall bw, bw ∈ hard t -> 0 <= slot bw < hw_breakpoint_max pr /\
    k_fpb k (slot bw) = fpb_value (flash_patch_revision pr) (bw_addr bw);
  in_free : forall i, 0 <= i < hw_breakpoint_max pr -> i ∉ slot <$> hard t -> Z.testbit (k_fpb k i) 0 = false;
  in_reserved : forall bw, bw ∈ hard t -> bw_reserved bw <> [];
}.
(** The core stops when it executes [pc]. *)
Definition stops (pr : cortexm_priv) (k : core) (pc : Z) : Prop :=
  exists i, 0 <= i < hw_breakpoint_max pr /\ fpb_matches (flash_patch_revision pr) (k_fpb k i) pc = true.
Definition code_addr (a : Z) : Prop := is_u32 a /\ Z.even a = true.
Lemma installed_stops t pr k pc : installed t pr k -> code_addr pc -> Forall (fun bw => code_addr (bw_addr bw)) (hard t) ->
  stops pr k pc <-> exists bw, bw ∈ hard t /\ pc = fpb_addr (flash_patch_revision pr) (bw_addr bw).
Proof.
  intros Hin [Hpc Hepc] Hall. rewrite Forall_forall in Hall. split.
  - intros (i & Hi & Hm). destruct (decide (i ∈ slot <$> hard t)) as [(bw & -> & Hbw)%list_elem_of_fmap|Hn].
    + exists bw. split; [done|]. destruct (in_value _ _ _ Hin bw Hbw) as [_ Hv]. rewrite Hv in Hm. destruct (Hall bw Hbw).
      by apply fpb_value_matches in Hm.
    + apply (in_free _ _ _ Hin) in Hn; [|done]. unfold fpb_matches in Hm. by rewrite Hn in Hm.
  - intros (bw & Hbw & ->). destruct (in_value _ _ _ Hin bw Hbw) as [Hs Hv]. exists (slot bw). split; [done|]. rewrite Hv.
    destruct (Hall bw Hbw). by apply fpb_value_matches.
Qed.

Lemma zlen_fmap {X Y} (f : X -> Y) l : zlen (f <$> l) = zlen l.
Proof. unfold zlen. by rewrite length_fmap. Qed.
Lemma elem_seqZ i n : i ∈ seqZ 0 n <-> 0 <= i < n.
Proof. rewrite elem_of_seqZ. lia. Qed.
(** All the comparators are taken when there are as many breakpoints. *)
Lemma installed_count t pr k : installed t pr k ->
  zlen (hard t) <= hw_breakpoint_max pr /\
  (zlen (hard t) < hw_breakpoint_max pr -> exists i, 0 <= i < hw_breakpoint_max pr /\ i ∉ slot <$> hard t) /\
  (forall i, 0 <= i < hw_breakpoint_max pr -> i ∉ slot <$> hard t -> zlen (hard t) < hw_breakpoint_max pr).
Proof.
  intros Hin. destruct Hin as [_ Hmax Hnd _ Hv _ _]. set (n := hw_breakpoint_max pr) in *.
  assert (Hsub : slot <$> hard t ⊆+ seqZ 0 n).
  { apply NoDup_submseteq; [done|]. intros i (bw & -> & Hbw)%list_elem_of_fmap. by apply elem_seqZ, Hv. }
  pose proof (submseteq_length _ _ Hsub) as Hl. rewrite length_seqZ, length_fmap in Hl. unfold zlen. split; [lia|split].
  - intros Hlt. destruct (decide (Forall (fun i => i ∈ slot <$> hard t) (seqZ 0 n))) as [Hall|Hno].
    + exfalso. rewrite Forall_forall in Hall.
      assert (Hs : seqZ 0 n ⊆+ slot <$> hard t) by (apply NoDup_submseteq; [apply NoDup_seqZ|done]).
      apply submseteq_length in Hs. rewrite length_seqZ, length_fmap in Hs. lia.
    + apply not_Forall_Exists in Hno; [|apply _]. apply Exists_exists in Hno as (i & Hi & Hni). exists i. by rewrite <- elem_seqZ.
  - intros i Hi Hni. assert (Hs : i :: (slot <$> hard t) ⊆+ seqZ 0 n).
    { apply NoDup_submseteq; [by constructor|]. intros j [->|Hj]%elem_of_cons; [by apply elem_seqZ|].
      apply list_elem_of_fmap in Hj as (bw & -> & Hbw). by apply elem_seqZ, Hv. }
    apply submseteq_length in Hs. cbn in Hs. rewrite length_seqZ, length_fmap in Hs. lia.
Qed.

Definition hard_bw (addr len : Z) (res : list Z) : breakwatch :=
  {| bw_type := TARGET_BREAK_HARD; bw_addr := addr; bw_size := len; bw_reserved := res |}.
Lemma upd_eq f i v : upd f i v i = v.
Proof. unfold upd. by rewrite Z.eqb_refl. Qed.
Lemma upd_ne f i j v : j <> i -> upd f i v j = f j.
Proof. intros Hne. unfold upd. by rewrite (proj2 (Z.eqb_neq j i)). Qed.
Lemma lookup_insert_Z {A} (l : list A) i j b : 0 <= i < zlen l -> 0 <= j ->
  <[Z.to_nat i := b]> l !! Z.to_nat j = if decide (i = j) then Some b else l !! Z.to_nat j.
Proof.
  intros Hi Hj. destruct (decide (i = j)) as [->|Hne].
  - apply list_lookup_insert_eq. unfold zlen in Hi. lia.
  - apply list_lookup_insert_ne. lia.
Qed.
Lemma installed_insert t pr k j h addr len : installed t pr k -> 0 <= j < hw_breakpoint_max pr -> j ∉ slot <$> hard t ->
  installed (set_bw_list ((h, set_reserved j (hard_bw addr len [0; 0; 0; 0])) :: bw_list t) t)
    (set_hw_breakpoint (<[Z.to_nat j := true]> (hw_breakpoint pr)) pr)
    (set_fpb (upd (k_fpb k) j (fpb_value (flash_patch_revision pr) addr)) k).
Proof.
  intros [Hlen Hmax Hnd Hused Hval Hfree Hres] Hj Hni.
  assert (Hh : forall l, hard (set_bw_list ((h, set_reserved j (hard_bw addr len [0; 0; 0; 0])) :: l) t) =
    set_reserved j (hard_bw addr len [0; 0; 0; 0]) :: hards l) by done.
  constructor; rewrite ?Hh; cbn [fmap list_fmap slot bw_reserved set_reserved hard_bw nth insert list_insert set_hw_breakpoint set_units
    hw_breakpoint hw_breakpoint_max flash_patch_revision set_fpb with_units k_fpb]; fold (hard t).
  - by rewrite length_insert.
  - done.
  - by constructor.
  - intros i Hi. rewrite lookup_insert_Z by (unfold zlen; lia). destruct (decide (j = i)) as [<-|Hne].
    + f_equal. symmetry. apply bool_decide_eq_true_2. by left.
    + rewrite (Hused i Hi). f_equal. apply bool_decide_ext. rewrite elem_of_cons. naive_solver.
  - intros bw [->|Hbw]%elem_of_cons; cbn; [by rewrite upd_eq|]. destruct (Hval bw Hbw) as [Hs Hv]. split; [done|].
    rewrite upd_ne; [done|]. intros Heq. apply Hni. rewrite <- Heq. by apply list_elem_of_fmap_2.
  - intros i Hi Hn. rewrite not_elem_of_cons in Hn. rewrite upd_ne by naive_solver. apply Hfree; naive_solver.
  - intros bw [->|Hbw]%elem_of_cons; [done|by apply Hres].
Qed.
Lemma installed_remove t pr k l1 h bw l2 : installed t pr k -> bw_list t = l1 ++ (h, bw) :: l2 -> is_hard bw = true ->
  installed (set_bw_list (l1 ++ l2) t) (set_hw_breakpoint (<[Z.to_nat (slot bw) := false]> (hw_breakpoint pr)) pr)
    (set_fpb (upd (k_fpb k) (slot bw) 0) k).
Proof.
  intros [Hlen Hmax Hnd Hused Hval Hfree Hres] Hl Hb. pose proof hards_app as Happ.
  assert (Ht : hard t = hards l1 ++ bw :: hards l2).
  { unfold hard. rewrite Hl, Happ. unfold hards at 2. cbn [fmap list_fmap List.filter snd]. by rewrite Hb. }
  assert (Hnew : hard (set_bw_list (l1 ++ l2) t) = hards l1 ++ hards l2) by (unfold hard; cbn [bw_list set_bw_list set_parts]; apply Happ). rewrite Ht in *.
  assert (Hbin : bw ∈ hards l1 ++ bw :: hards l2) by (apply elem_of_app; right; by left).
  rewrite fmap_app, fmap_cons in Hnd. apply NoDup_app in Hnd as (Hn1 & Hd & Hn2). apply NoDup_cons in Hn2 as [Hnb Hn2].
  assert (Hmem : forall i, i ∈ slot <$> hards l1 ++ bw :: hards l2 <-> i = slot bw \/ i ∈ slot <$> hards l1 ++ hards l2).
  { intros i. rewrite !fmap_app, fmap_cons, !elem_of_app, elem_of_cons. naive_solver. }
  assert (Hout : slot bw ∉ slot <$> hards l1 ++ hards l2).
  { rewrite fmap_app, elem_of_app. intros [Hx|Hx]; [|done]. apply (Hd _ Hx). by left. }
  constructor; rewrite ?Hnew; cbn [set_hw_breakpoint set_units hw_breakpoint hw_breakpoint_max flash_patch_revision set_fpb with_units k_fpb].
  - by rewrite length_insert.
  - done.
  - rewrite fmap_app. apply NoDup_app. split; [done|]. split; [|done]. intros x Hx Hx2. apply (Hd _ Hx). by right.
  - destruct (Hval bw Hbin) as [Hs _]. intros i Hi. rewrite lookup_insert_Z by (unfold zlen; lia). destruct (decide (slot bw = i)) as [<-|Hne].
    + f_equal. symmetry. by apply bool_decide_eq_false_2.
    + rewrite (Hused i Hi). f_equal. apply bool_decide_ext. rewrite Hmem. naive_solver.
  - intros b Hbb. assert (Hold : b ∈ hards l1 ++ bw :: hards l2) by (rewrite elem_of_app, elem_of_cons; apply elem_of_app in Hbb; naive_solver).
    destruct (Hval b Hold) as [Hs Hv]. split; [done|]. rewrite upd_ne; [done|]. intros Heq. apply Hout. rewrite <- Heq. by apply list_elem_of_fmap_2.
  - intros i Hi Hn. destruct (decide (i = slot bw)) as [->|Hne]; [by rewrite upd_eq|]. rewrite upd_ne by done.
    apply Hfree; [done|]. rewrite Hmem. naive_solver.
  - intros b Hbb. apply Hres. rewrite elem_of_app, elem_of_cons. apply elem_of_app in Hbb. naive_solver.
Qed.

Section Units.
Context {E : Type} {DRV : Driver (cm_dev E)} {CLK : ClockIf E} (p : positive) {A : ADIv5_AP -> Prop}
        {CS : CoreSpec DRV CLK p A}.
Notation W := (world (cm_dev E)).
Notation at_core := (at_core p).

Lemma load_flag_Ok (l : list bool) i b (w : W) : 0 <= i -> l !! Z.to_nat i = Some b -> load_flag l i w = Ok b w.
Proof. intros Hi Hl. unfold load_flag. rewrite (proj2 (Z.ltb_ge i 0)) by lia. by rewrite Hl. Qed.
Lemma store_flag_Ok (l : list bool) i b (w : W) : 0 <= i < zlen l -> store_flag l i b w = Ok (<[Z.to_nat i := b]> l) w.
Proof.
  intros Hi. unfold store_flag. rewrite (proj2 (Z.leb_le 0 i)), (proj2 (Z.ltb_lt i (zlen l))) by lia. done.
Qed.
(** [first_free] finds the first free entry of [i, i + n), or ends at [i + n]. *)
Lemma first_free_Ok (l : list bool) n : forall i (w : W), 0 <= i -> i + Z.of_nat n <= zlen l ->
  exists j, first_free n i l w = Ok j w /\ i <= j <= i + Z.of_nat n /\
    (j < i + Z.of_nat n -> l !! Z.to_nat j = Some false) /\ forall m, i <= m < j -> l !! Z.to_nat m = Some true.
Proof.
  induction n as [|n IH]; intros i w Hi Hl; cbn [first_free].
  - exists i. split; [done|]. split; [lia|]. split; intros; lia.
  - destruct (lookup_lt_is_Some_2 l (Z.to_nat i)) as [b Hb]; [unfold zlen in Hl; lia|].
    rewrite (bind_Ok _ _ _ _ _ (load_flag_Ok l i b w Hi Hb)). destruct b.
    + destruct (IH (i + 1) w) as (j & Hrun & Hj & Hfree & Hused); [lia|lia|]. exists j. split; [done|]. split; [lia|].
      split; [intros; apply Hfree; lia|]. intros m Hm. destruct (Z.eq_dec m i) as [->|]; [done|]. apply Hused. lia.
    + exists i. split; [done|]. split; [lia|]. split; [done|]. lia.
Qed.

Lemma write_fpb k i v : 0 <= i < 8 -> core_write (CORTEXM_FPB_COMP i) v k = Some (set_fpb (upd (k_fpb k) i v) k).
Proof.
  intros Hi. assert (i = 0 \/ i = 1 \/ i = 2 \/ i = 3 \/ i = 4 \/ i = 5 \/ i = 6 \/ i = 7) as Hc by lia.
  by destruct Hc as [-> | [-> | [-> | [-> | [-> | [-> | [-> | ->]]]]]]].
Qed.
Lemma fpb_value_u32 rev addr : is_u32 addr -> is_u32 (fpb_value rev addr).
Proof.
  intros Ha. unfold fpb_value. apply in_width_lor; [lia| |done]. destruct (rev =? 0); [|done].
  apply in_width_lor; [lia| |by destruct (flag addr 2)]. by apply in_width_land; [lia|lia|].
Qed.

Lemma breakwatch_set_hard t pr k addr len (w : W) : at_core t pr k w -> installed t pr k -> is_u32 addr ->
  exists r bw pr' k' w', cortexm_breakwatch_set p (hard_bw addr len [0; 0; 0; 0]) w = Ok (r, bw) w' /\
    at_core t pr' k' w' /\ elapsed p t w w' /\ hw_breakpoint_max pr' = hw_breakpoint_max pr /\
    flash_patch_revision pr' = flash_patch_revision pr /\
    if zlen (hard t) <? hw_breakpoint_max pr then
      r = 0 /\ bw_addr bw = addr /\ bw_size bw = len /\ is_hard bw = true /\ k_reg k' = k_reg k /\ k_halted k' = k_halted k /\
      forall h, installed (set_bw_list ((h, bw) :: bw_list t) t) pr' k'
    else r = -1 /\ pr' = pr /\ k' = k /\ w' = w.
Proof.
  intros Hat Hin Ha. destruct (installed_count _ _ _ Hin) as (Hle & Hex & Hlt). pose proof Hin as [Hlen Hmax Hnd Hused Hval Hfree Hres].
  unfold cortexm_breakwatch_set. rewrite (bind_Ok _ _ _ _ _ (run_load_priv _ _ _ _ _ Hat)). cbn [bw_type hard_bw Z.eqb TARGET_BREAK_HARD Pos.eqb].
  set (n := hw_breakpoint_max pr) in *. assert (Hz : zlen (hw_breakpoint pr) = 8) by (unfold zlen; lia).
  destruct (first_free_Ok (hw_breakpoint pr) (Z.to_nat n) 0 w) as (j & Hrun & Hj & Hjf & Hju); [lia|lia|].
  rewrite (bind_Ok _ _ _ _ _ Hrun). rewrite Z2Nat.id in * by lia. rewrite Z.add_0_l in *.
  destruct (Z.eqb_spec j n) as [->|Hne].
  { destruct (Z.ltb_spec (zlen (hard t)) n) as [Hc|Hc]; [|by exists (-1), (hard_bw addr len [0; 0; 0; 0]), pr, k, w; split_and!; try done; apply elapsed_refl].
    destruct (Hex Hc) as (i & Hi & Hni). specialize (Hused i Hi). rewrite (Hju i Hi) in Hused.
    injection Hused as Hb. symmetry in Hb. by apply bool_decide_eq_true in Hb. }
  assert (Hjn : 0 <= j < n) by lia. specialize (Hjf ltac:(lia)).
  assert (Hfr : j ∉ slot <$> hard t).
  { specialize (Hused j Hjn). rewrite Hjf in Hused. injection Hused as Hb. symmetry in Hb. by apply bool_decide_eq_false in Hb. }
  rewrite (proj2 (Z.ltb_lt _ _) (Hlt j Hjn Hfr)).
  rewrite (bind_Ok _ _ _ _ _ (store_flag_Ok (hw_breakpoint pr) j true w ltac:(lia))).
  set (l' := <[Z.to_nat j := true]> (hw_breakpoint pr)).
  destruct (run_upd_priv p t pr k (set_hw_breakpoint l') w Hat) as (w1 & Hr1 & Hat1 & He1); [done|].
  rewrite (bind_Ok _ _ _ _ _ Hr1). cbn [bw_addr hard_bw].
  assert (Hv := fpb_value_u32 (flash_patch_revision pr) addr Ha).
  core_write_step Hat1 (write_fpb k j (fpb_value (flash_patch_revision pr) addr) ltac:(lia)).
  exists 0, (set_reserved j (hard_bw addr len [0; 0; 0; 0])). eexists _, _, _. split; [done|]. split; [exact Hat0|].
  split; [by eapply elapsed_trans|]. split_and!; try done. intros h. by apply installed_insert.
Qed.
Lemma breakwatch_clear_hard t pr k l1 h bw l2 (w : W) : at_core t pr k w -> installed t pr k ->
  bw_list t = l1 ++ (h, bw) :: l2 -> is_hard bw = true ->
  exists pr' k' w', cortexm_breakwatch_clear p bw w = Ok 0 w' /\ at_core t pr' k' w' /\ elapsed p t w w' /\
    hw_breakpoint_max pr' = hw_breakpoint_max pr /\ flash_patch_revision pr' = flash_patch_revision pr /\
    k_reg k' = k_reg k /\ k_halted k' = k_halted k /\ installed (set_bw_list (l1 ++ l2) t) pr' k'.
Proof.
  intros Hat Hin Hl Hb. assert (Hbw : bw ∈ hard t).
  { unfold hard, hards. rewrite Hl. apply list_elem_of_In, filter_In. split; [|done]. apply list_elem_of_In.
    rewrite fmap_app, fmap_cons. apply elem_of_app. right. by left. }
  destruct (in_value _ _ _ Hin bw Hbw) as [Hs _]. pose proof (in_max _ _ _ Hin) as Hmax. pose proof (in_len _ _ _ Hin) as Hlen.
  unfold cortexm_breakwatch_clear. rewrite (bind_Ok _ _ _ _ _ (run_load_priv _ _ _ _ _ Hat)).
  assert (Hw : word_get (bw_reserved bw) 0 w = Ok (slot bw) w).
  { pose proof (in_reserved _ _ _ Hin bw Hbw). unfold slot. by destruct (bw_reserved bw). }
  rewrite (bind_Ok _ _ _ _ _ Hw). unfold is_hard in Hb. rewrite Hb.
  rewrite (bind_Ok _ _ _ _ _ (store_flag_Ok (hw_breakpoint pr) (slot bw) false w ltac:(unfold zlen; lia))).
  destruct (run_upd_priv p t pr k (set_hw_breakpoint (<[Z.to_nat (slot bw) := false]> (hw_breakpoint pr))) w Hat) as (w1 & Hr1 & Hat1 & He1); [done|].
  rewrite (bind_Ok _ _ _ _ _ Hr1).
  core_write_step Hat1 (write_fpb k (slot bw) 0 ltac:(lia)).
  eexists _, _, _. split; [done|]. split; [exact Hat0|]. split; [by eapply elapsed_trans|]. split_and!; try done.
  by eapply installed_remove.
Qed.
End Units.

(** ** The refinement

    What the host sets and clears, and what it should be answered: a list of
    addresses and lengths, the newest first, of at most [max] entries. *)
Inductive bp_op : Type := BSet (addr len : Z) | BClear (addr len : Z).
Definition bp_addr (op : bp_op) : Z := match op with BSet a _ | BClear a _ => a end.
Definition bp_eqb (x y : Z * Z) : bool := (x.1 =? y.1) && (x.2 =? y.2).
Fixpoint remove_first (x : Z * Z) (s : list (Z * Z)) : option (list (Z * Z)) :=
  match s with
  | [] => None
  | y :: s' => if bp_eqb y x then Some s' else (fun r => y :: r) <$> remove_first x s'
  end.
Definition spec_op (max : Z) (s : list (Z * Z)) (op : bp_op) : Z * list (Z * Z) :=
  match op with
  | BSet a l => if zlen s <? max then (0, (a, l) :: s) else (-1, s)
  | BClear a l => match remove_first (a, l) s with Some s' => (0, s') | None => (-1, s) end
  end.
Fixpoint spec_ops (max : Z) (s : list (Z * Z)) (ops : list bp_op) : list Z * list (Z * Z) :=
  match ops with
  | [] => ([], s)
  | op :: ops' => let '(r, s') := spec_op max s op in let '(rs, s2) := spec_ops max s' ops' in (r :: rs, s2)
  end.

Section Refinement.
Context {E : Type} `{GI : GdbIf E} `{MI : MemIf E} `{CLK : ClockIf E} `{DP : DpIf E} `{DO : DpObj E}
        `{PI : ProbeIf (cm_dev E)} `{HI : HostIf (cm_dev E)} `{DI : DeviceIf (cm_dev E)}.
Variable polls : nat.
Variable local_addr : Z.
Variable other : Driver (cm_dev E).
Notation W := (world (cm_dev E)).
Notation MW := (M W).
Notation L0 := (memory_layer local_addr other).
Notation DRV := (cortexm_driver polls local_addr other).
Context (p : positive) {A : ADIv5_AP -> Prop} {CS : CoreSpec L0 CLK p A}.
Context {CH : CoreHeap MI CS}.

Definition run_op (op : bp_op) : MW Z :=
  match op with
  | BSet a l => target_breakwatch_set (H1 := DRV) (Some p) TARGET_BREAK_HARD a l
  | BClear a l => target_breakwatch_clear (H1 := DRV) (Some p) TARGET_BREAK_HARD a l
  end.

(** The list the target keeps and the comparators of its core stand for [s]. *)
Definition refines (max rev : Z) (s : list (Z * Z)) (w : W) : Prop := exists t pr k,
  at_core (DRV := L0) p t pr k w /\ installed t pr k /\ m_breakwatch_set t = Fdriver /\ m_breakwatch_clear t = Fdriver /\
  hw_breakpoint_max pr = max /\ flash_patch_revision pr = rev /\ (fun bw => (bw_addr bw, bw_size bw)) <$> hard t = s.

Lemma run_via {B} t pr k m (c : MW B) d (w : W) : at_core (DRV := L0) p t pr k w -> m t = Fdriver -> via p m c d w = c w.
Proof. intros Hat Hm. unfold via. rewrite (bind_Ok _ _ _ _ _ (run_load_target _ _ _ _ _ Hat)). by rewrite Hm. Qed.
Lemma run_alloc t pr k n (w : W) : at_core (DRV := L0) p t pr k w ->
  exists h w', MemManager_Alloc n w = Ok (Some h) w' /\ at_core (DRV := L0) p t pr k w' /\ heap w' = heap w.
Proof.
  intros (Hr & Hwf & <-). destruct (heap_alloc (out w) n Hwf) as (h & e & Hrun & Hwf' & Hk).
  exists h, (set_out e w). split; [|split; [by split|done]]. cbn [MemManager_Alloc world_mem cm_mem]. unfold lift, beyond.
  unfold out in Hrun. by rewrite Hrun.
Qed.
Lemma run_free t pr k h (w : W) : at_core (DRV := L0) p t pr k w ->
  exists w', MemManager_Free h w = Ok tt w' /\ at_core (DRV := L0) p t pr k w' /\ heap w' = heap w.
Proof.
  intros (Hr & Hwf & <-). destruct (heap_free (out w) h Hwf) as (e & Hrun & Hwf' & Hk).
  exists (set_out e w). split; [|split; [by split|done]]. cbn [MemManager_Free world_mem cm_mem]. unfold lift, beyond.
  unfold out in Hrun. by rewrite Hrun.
Qed.
Lemma run_set_list t pr k l (w : W) : at_core (DRV := L0) p t pr k w ->
  exists w', upd_target p (set_bw_list l) w = Ok tt w' /\ at_core (DRV := L0) p (set_bw_list l t) pr k w'.
Proof.
  intros Hat. eexists. split; [apply upd_target_Ok; apply Hat|]. by apply (at_core_heap p t).
Qed.

Lemma set_refines max rev s a l (w : W) : refines max rev s w -> code_addr a ->
  exists w', run_op (BSet a l) w = Ok (spec_op max s (BSet a l)).1 w' /\ refines max rev (spec_op max s (BSet a l)).2 w'.
Proof.
  intros (t & pr & k & Hat & Hin & Hms & Hmc & <- & <- & <-) [Ha _]. cbn [run_op spec_op]. rewrite zlen_fmap.
  unfold target_breakwatch_set.
  rewrite (bind_Ok _ _ _ _ _ (deref_target_Ok _ _ _ (proj1 (proj1 Hat)))), Hms. cbn [call].
  fold (hard_bw a l [0; 0; 0; 0]).
  destruct (breakwatch_set_hard p t pr k a l w Hat Hin Ha) as (r & bw & pr1 & k1 & w1 & Hrun & Hat1 & He1 & Hmax & Hrev & Hres).
  assert (Hd : @drv_breakwatch_set _ DRV p (hard_bw a l [0; 0; 0; 0]) w = Ok (r, bw) w1) by (rewrite <- Hrun; by eapply run_via).
  rewrite (bind_Ok _ _ _ _ _ Hd). destruct (zlen (hard t) <? hw_breakpoint_max pr).
  - destruct Hres as (-> & Hba & Hbs & Hh & _ & _ & Hnew). cbn [Z.eqb fst snd].
    destruct (run_alloc t pr1 k1 sizeof_breakwatch w1 Hat1) as (h & w2 & Hal & Hat2 & Hheap). rewrite (bind_Ok _ _ _ _ _ Hal).
    assert (Hu : upd_target p (fun x => set_bw_list ((h, bw) :: bw_list x) x) w2 = upd_target p (set_bw_list ((h, bw) :: bw_list t)) w2).
    { unfold upd_target. by rewrite !(bind_Ok _ _ _ _ _ (run_load_target _ _ _ _ _ Hat2)). }
    destruct (run_set_list t pr1 k1 ((h, bw) :: bw_list t) w2 Hat2) as (w3 & Hset & Hat3).
    unfold bind at 1. rewrite Hu, Hset. exists w3. split; [done|]. exists (set_bw_list ((h, bw) :: bw_list t) t), pr1, k1.
    split; [done|]. split; [done|]. split_and!; try done. unfold hard, hards. cbn [bw_list set_bw_list set_parts fmap list_fmap snd List.filter].
    rewrite Hh. cbn [fmap list_fmap]. by rewrite Hba, Hbs.
  - destruct Hres as (-> & -> & -> & ->). cbn [Z.eqb fst snd]. exists w. split; [done|]. by exists t, pr, k.
Qed.

(** The entry found is the first of that address and length. *)
Lemma bw_find_hard a l bws :
  match bw_find TARGET_BREAK_HARD a l bws with
  | Some (h, bw, rest) => exists l1 l2, bws = l1 ++ (h, bw) :: l2 /\ rest = l1 ++ l2 /\ is_hard bw = true /\
      remove_first (a, l) ((fun bw => (bw_addr bw, bw_size bw)) <$> hards bws) =
        Some ((fun bw => (bw_addr bw, bw_size bw)) <$> hards rest)
  | None => remove_first (a, l) ((fun bw => (bw_addr bw, bw_size bw)) <$> hards bws) = None
  end.
Proof.
  induction bws as [|[h bw] bws IH]; cbn [bw_find]; [done|]. unfold bw_matches.
  assert (Hh : hards ((h, bw) :: bws) = if is_hard bw then bw :: hards bws else hards bws) by done. rewrite Hh.
  unfold is_hard in *. destruct (bw_type bw =? TARGET_BREAK_HARD) eqn:Hty; cbn [andb].
  - cbn [fmap list_fmap remove_first]. unfold bp_eqb. cbn [fst snd].
    destruct ((bw_addr bw =? a) && (bw_size bw =? l)).
    + exists [], bws. by rewrite Hty.
    + destruct (bw_find TARGET_BREAK_HARD a l bws) as [[[h' bw'] r]|]; [|by rewrite IH].
      destruct IH as (l1 & l2 & -> & -> & Hb & ->). exists ((h, bw) :: l1), l2. split; [done|]. split; [done|]. split; [done|].
      cbn [fmap option_fmap option_map]. f_equal. unfold hards. cbn [app fmap list_fmap snd List.filter]. unfold is_hard. by rewrite Hty.
  - destruct (bw_find TARGET_BREAK_HARD a l bws) as [[[h' bw'] r]|]; [|done].
    destruct IH as (l1 & l2 & -> & -> & Hb & ->). exists ((h, bw) :: l1), l2. split; [done|]. split; [done|]. split; [done|].
    f_equal. unfold hards. cbn [app fmap list_fmap snd List.filter]. unfold is_hard. by rewrite Hty.
Qed.
Lemma clear_refines max rev s a l (w : W) : refines max rev s w ->
  exists w', run_op (BClear a l) w = Ok (spec_op max s (BClear a l)).1 w' /\ refines max rev (spec_op max s (BClear a l)).2 w'.
Proof.
  intros (t & pr & k & Hat & Hin & Hms & Hmc & <- & <- & <-). cbn [run_op spec_op]. unfold target_breakwatch_clear.
  rewrite (bind_Ok _ _ _ _ _ (deref_target_Ok _ _ _ (proj1 (proj1 Hat)))).
  pose proof (bw_find_hard a l (bw_list t)) as Hf. fold (hard t) in Hf.
  destruct (bw_find TARGET_BREAK_HARD a l (bw_list t)) as [[[h bw] rest]|].
  - destruct Hf as (l1 & l2 & Hl & -> & Hb & Hrm). rewrite Hmc. cbn [call].
    destruct (breakwatch_clear_hard p t pr k l1 h bw l2 w Hat Hin Hl Hb) as (pr1 & k1 & w1 & Hrun & Hat1 & He1 & Hmax & Hrev & _ & _ & Hnew).
    assert (Hd : @drv_breakwatch_clear _ DRV p bw w = Ok 0 w1) by (rewrite <- Hrun; by eapply run_via).
    rewrite (bind_Ok _ _ _ _ _ Hd). cbn [Z.eqb].
    destruct (run_set_list t pr1 k1 (l1 ++ l2) w1 Hat1) as (w2 & Hset & Hat2). rewrite (bind_Ok _ _ _ _ _ Hset).
    destruct (run_free _ pr1 k1 (Some h) w2 Hat2) as (w3 & Hfree & Hat3 & _). rewrite (bind_Ok _ _ _ _ _ Hfree).
    rewrite Hrm. exists w3. split; [done|]. by exists (set_bw_list (l1 ++ l2) t), pr1, k1.
  - rewrite Hf. exists w. split; [done|]. by exists t, pr, k.
Qed.

Fixpoint run_ops (ops : list bp_op) : MW (list Z) :=
  match ops with
  | [] => ret []
  | op :: ops' => let! r := run_op op in let! rs := run_ops ops' in ret (r :: rs)
  end.
Lemma ops_refine max rev ops : forall s (w : W), refines max rev s w -> Forall (fun op => code_addr (bp_addr op)) ops ->
  exists w', run_ops ops w = Ok (spec_ops max s ops).1 w' /\ refines max rev (spec_ops max s ops).2 w'.
Proof.
  induction ops as [|op ops IH]; intros s w Hr Hops; [by exists w|]. apply Forall_cons in Hops as [Hop Hops].
  assert (Hstep : exists w1, run_op op w = Ok (spec_op max s op).1 w1 /\ refines max rev (spec_op max s op).2 w1).
  { destruct op; [by apply set_refines|by apply clear_refines]. }
  destruct Hstep as (w1 & Hrun & Hr1). destruct (IH _ w1 Hr1 Hops) as (w2 & Hrun2 & Hr2). exists w2.
  cbn [run_ops spec_ops]. rewrite (bind_Ok _ _ _ _ _ Hrun), (bind_Ok _ _ _ _ _ Hrun2).
  destruct (spec_op max s op) as [r s1]. cbn [fst snd] in *. by destruct (spec_ops max s1 ops).
Qed.

Lemma remove_first_incl x s s' : remove_first x s = Some s' -> forall y, y ∈ s' -> y ∈ s.
Proof.
  revert s'. induction s as [|z s IH]; intros s' Hr y Hy; [done|]. cbn in Hr. destruct (bp_eqb z x).
  - injection Hr as <-. by right.
  - destruct (remove_first x s) as [r|]; [|done]. injection Hr as <-. apply elem_of_cons in Hy as [->|Hy]; [by left|].
    right. by eapply IH.
Qed.
Lemma spec_ops_addrs max ops : forall s, Forall (fun x => code_addr x.1) s -> Forall (fun op => code_addr (bp_addr op)) ops ->
  Forall (fun x => code_addr x.1) (spec_ops max s ops).2.
Proof.
  induction ops as [|op ops IH]; intros s Hs Hops; [done|]. apply Forall_cons in Hops as [Hop Hops]. cbn [spec_ops].
  assert (H1 : Forall (fun x => code_addr x.1) (spec_op max s op).2).
  { destruct op as [a l|a l]; cbn [spec_op]; [destruct (zlen s <? max); [by constructor|done]|].
    destruct (remove_first (a, l) s) as [s'|] eqn:Hr; [|done]. rewrite Forall_forall in *. intros y Hy.
    apply Hs. by eapply remove_first_incl. }
  destruct (spec_op max s op) as [r s1]. specialize (IH s1 H1 Hops). by destruct (spec_ops max s1 ops).
Qed.

End Refinement.

(** ** At work *)
Import CoreSim.
Lemma fpb_value_matches_witness : fpb_matches 0 (fpb_value 0 0x20000100) 0x100 = true <-> 0x100 = fpb_addr 0 0x20000100.
Proof. apply (fpb_value_matches 0 0x20000100 0x100); first [split; [discriminate|reflexivity]|reflexivity]. Defined.
#[export] Instance sim_heap : CoreHeap sim_mem CoreSim.sim_spec.
Proof.
  constructor.
  - intros e n He. eexists _, _. split; [reflexivity|]. split; [exact He|done].
  - intros e h He. eexists. split; [reflexivity|]. by split.
Qed.
Lemma installed0 : installed CoreSim.t0 CoreSim.pr0 CoreSim.k0.
Proof.
  constructor; try done.
  - constructor.
  - cbn. intros i Hi. assert (Hc : i = 0 \/ i = 1 \/ i = 2 \/ i = 3 \/ i = 4 \/ i = 5) by lia. by destruct Hc as [-> | [-> | [-> | [-> | [-> | ->]]]]].
  - intros bw Hbw. by apply elem_of_nil in Hbw.
  - intros bw Hbw. by apply elem_of_nil in Hbw.
Qed.
Lemma refines0 : refines (CS := CoreSim.sim_spec) 0 CoreSim.other 5 6 0 [] CoreSim.w0.
Proof. exists CoreSim.t0, CoreSim.pr0, CoreSim.k0. split; [exact CoreSim.at0|]. split; [exact installed0|]. by split_and!. Qed.
(** Three breakpoints are set, one of them cleared, and one cleared that is
    not there. *)
Definition ops0 : list bp_op := [BSet 0x100 2; BSet 0x202 2; BSet 0x300 2; BClear 0x202 2; BClear 0x400 2].
