(* ===== verification/CortexmRun.v ===== *)
(** Halting and running a Cortex-M: what [cortexm_halt_resume] starts, why
    [cortexm_halt_poll] says the core has stopped, and that code put on the
    core by [cortexm_run_stub] ends, by itself or when its time is up. *)

From Stdlib Require Import ZArith Lia String.
From stdpp Require Import base list numbers option gmap.
From S2P Require Import Prelude CLib GdbIf MemManager GdbPacket TargetState Target TargetProps Platform Exception Morse Command Dap Adiv5 Adiv5Props Objects Cortexm CoreSpec CortexmCache CortexmAp CortexmSim CortexmProps CortexmRegs.

Lemma try_catch_Ok {W A} mask (m : M W A) w a w' : m w = Ok a w' -> try_catch mask m w = Ok (inl a) w'.
Proof. intros Hm. unfold try_catch. by rewrite Hm. Qed.

(** ** The specification *)
Definition PC : Z := 15.
Definition is_bkpt (k : core) : bool := Z.land (halfword k (k_reg k PC)) 0xFF00 =? 0xBE00.
(** The registers a core is resumed with: behind the breakpoint instruction it
    stands at. *)
Definition resumed_regs (pr : cortexm_priv) (k : core) : Z -> Z :=
  if on_bkpt pr && is_bkpt k then upd (k_reg k) PC (u32 (k_reg k PC + 2)) else k_reg k.
(** C_DEBUGEN, and when stepping C_STEP and C_MASKINTS. *)
Definition resumed_ctrl (step : bool) : Z := if step then 0xD else 1.
Definition resumed (pr : cortexm_priv) (step : bool) (d : Z) (k : core) : core :=
  with_regs (resumed_regs pr k) d (with_status false (resumed_ctrl step) (k_dfsr k) (k_demcr k) k).
(** Why a core with this DFSR has stopped. *)
Definition reason_of (step : bool) (dfsr : Z) : target_halt_reason :=
  if flag dfsr CORTEXM_DFSR_DWTTRAP then TARGET_HALT_WATCHPOINT
  else if flag dfsr CORTEXM_DFSR_BKPT then TARGET_HALT_BREAKPOINT
  else if flag dfsr CORTEXM_DFSR_HALTED then if step then TARGET_HALT_STEPPING else TARGET_HALT_REQUEST
  else TARGET_HALT_BREAKPOINT.
(** A stop that is not the business of another part of the driver: no vector
    catch, and no semihosting call at the program counter. *)
Definition plain_stop (k : core) : Prop :=
  flag (k_dfsr k) CORTEXM_DFSR_VCATCH = false /\ k_reg k PC mod 2 = 0 /\ halfword k (k_reg k PC) <> 0xBEAB.

Section Run.
Context {E : Type} {GI : GdbIf E} {MI : MemIf E} {CLK : ClockIf E} {DP : DpIf E} {DO : DpObj E}
        {PI : ProbeIf (cm_dev E)} {HI : HostIf (cm_dev E)} {DRV : Driver (cm_dev E)} {DI : DeviceIf (cm_dev E)}
        (p : positive) {A : ADIv5_AP -> Prop} {CS : CoreSpec DRV CLK p A}.
Notation W := (world (cm_dev E)).
Notation at_core := (at_core p).

Lemma pc_read_ok t pr k (w : W) : at_core t pr k w -> k_halted k = true ->
  exists w', cortexm_pc_read p w = Ok (k_reg k PC) w' /\ at_core t pr (with_regs (k_reg k) (k_reg k PC) k) w' /\ elapsed p t w w'.
Proof.
  intros Hat Hh. destruct (write_dcrsr k PC eq_refl Hh) as [Hw _]. change (u32 PC) with 0x0F in Hw.
  unfold cortexm_pc_read. core_write_step Hat Hw.
  destruct (run_dcrdr p _ _ _ _ Hat0) as (w2 & Hr2 & Hat2 & He2). exists w2. split; [done|]. split; [done|]. by eapply elapsed_trans.
Qed.
Lemma pc_write_ok t pr k v (w : W) : at_core t pr k w -> k_halted k = true -> is_u32 v ->
  exists w', cortexm_pc_write p v w = Ok tt w' /\ at_core t pr (with_regs (upd (k_reg k) PC v) v k) w' /\ elapsed p t w w'.
Proof.
  intros Hat Hh Hv. unfold cortexm_pc_write.
  core_write_step Hat (eq_refl : core_write CORTEXM_DCRDR v k = Some (with_regs (k_reg k) v k)).
  destruct (write_dcrsr (with_regs (k_reg k) v k) PC eq_refl Hh) as [_ Hw].
  change (u32 (Z.lor CORTEXM_DCRSR_REGWnR PC)) with (Z.lor CORTEXM_DCRSR_REGWnR 0x0F) in Hw.
  destruct (run_write32 p _ _ _ CORTEXM_DCRSR (Z.lor CORTEXM_DCRSR_REGWnR 0x0F) _ w0 Hat0 ltac:(done) Hw) as (w2 & Hr2 & Hat2 & He2).
  exists w2. split; [done|]. split; [exact Hat2|]. by eapply elapsed_trans.
Qed.
(** The step over a breakpoint instruction. *)
Lemma skip_ok t pr pr0 k (w : W) : at_core t pr k w -> k_halted k = true -> (on_bkpt pr0 = true -> k_reg k PC mod 2 = 0) ->
  exists d w', when (on_bkpt pr0)
      (let! pc := cortexm_pc_read p in
       let! instr := target_mem_read16 (Some p) pc in
       when (Z.land instr 0xFF00 =? 0xBE00) (cortexm_pc_write p (u32 (pc + 2)))) w = Ok tt w' /\
    at_core t pr (with_regs (resumed_regs pr0 k) d k) w' /\ elapsed p t w w'.
Proof.
  intros Hat Hh Hpc. unfold when at 1, resumed_regs. destruct (on_bkpt pr0).
  - destruct (pc_read_ok t pr k w Hat Hh) as (w1 & Hr1 & Hat1 & He1). core_run Hr1.
    destruct (run_instr p t pr _ (k_reg k PC) w1 Hat1 (at_core_reg p t pr k w PC Hat) (Hpc eq_refl) Hh) as (w2 & Hr2 & Hat2 & He2).
    core_run Hr2. change (halfword (with_regs (k_reg k) (k_reg k PC) k)) with (halfword k). cbn [andb].
    change (Z.land (halfword k (k_reg k PC)) 0xFF00 =? 0xBE00) with (is_bkpt k). destruct (is_bkpt k).
    + destruct (pc_write_ok t pr _ (u32 (k_reg k PC + 2)) w2 Hat2 Hh (u32_range _)) as (w3 & Hr3 & Hat3 & He3).
      eexists _, w3. split; [exact Hr3|]. split; [exact Hat3|]. eapply elapsed_trans; [exact He1|by eapply elapsed_trans].
    + exists (k_reg k PC), w2. split; [done|]. split; [done|]. by eapply elapsed_trans.
  - exists (k_dcrdr k), w. split; [done|]. split; [by destruct k|apply elapsed_refl].
Qed.
Definition resume_word (step : bool) : Z :=
  let d := Z.lor CORTEXM_DHCSR_DBGKEY CORTEXM_DHCSR_C_DEBUGEN in
  if step then Z.lor d (Z.lor CORTEXM_DHCSR_C_STEP CORTEXM_DHCSR_C_MASKINTS) else d.
Lemma resume_u32 step : is_u32 (resume_word step) /\ is_u32 (Z.lor (resume_word step) CORTEXM_DHCSR_C_HALT).
Proof. by destruct step. Qed.
Lemma resume_write step k : k_halted k = true -> core_write CORTEXM_DHCSR (resume_word step) k =
  Some (with_status false (resumed_ctrl step) (k_dfsr k) (k_demcr k) k).
Proof. intros Hh. unfold core_write. cbn. unfold dhcsr_write. rewrite Hh. by destruct step. Qed.
Lemma step_write step k : k_halted k = true -> core_write CORTEXM_DHCSR (Z.lor (resume_word step) CORTEXM_DHCSR_C_HALT) k =
  Some (with_status true (Z.lor (resumed_ctrl step) 2) (k_dfsr k) (k_demcr k) k).
Proof. intros Hh. unfold core_write. cbn. unfold dhcsr_write. rewrite Hh. by destruct step. Qed.

Lemma halt_resume_ok t pr k step (w : W) : at_core t pr k w -> k_halted k = true -> (on_bkpt pr = true -> k_reg k PC mod 2 = 0) ->
  exists d w', cortexm_halt_resume p step w = Ok tt w' /\
    at_core t (set_run step (on_bkpt pr) pr) (resumed pr step d k) w' /\ elapsed p t w w'.
Proof.
  intros Hat Hh Hpc. unfold cortexm_halt_resume. fold (resume_word step). core_run (run_load_priv p _ _ _ _ Hat).
  assert (Hstep : exists c w1, when (negb (eqb step (stepping pr)))
    (do! write32 p CORTEXM_DHCSR (Z.lor (resume_word step) CORTEXM_DHCSR_C_HALT) in
     upd_priv p (fun pr => set_run step (on_bkpt pr) pr)) w = Ok tt w1 /\
    at_core t (set_run step (on_bkpt pr) pr) (with_status true c (k_dfsr k) (k_demcr k) k) w1 /\ elapsed p t w w1).
  { unfold when. destruct (eqb step (stepping pr)) eqn:Hs; cbn [negb].
    - apply eqb_prop in Hs as ->. exists (k_ctrl k), w. split; [done|]. split; [|apply elapsed_refl]. destruct pr, k. cbn in Hh. by subst.
    - destruct (run_write32 p _ _ _ _ _ _ w Hat (proj2 (resume_u32 step)) (step_write step k Hh)) as (w1 & Hr1 & Hat1 & He1).
      destruct (run_upd_priv p _ _ _ (fun pr => set_run step (on_bkpt pr) pr) w1 Hat1 ltac:(done)) as (w2 & Hr2 & Hat2 & He2).
      eexists _, w2. core_run Hr1. split; [exact Hr2|]. split; [exact Hat2|]. by eapply elapsed_trans. }
  destruct Hstep as (c & w1 & Hr1 & Hat1 & He1). core_run Hr1.
  destruct (skip_ok t _ pr _ w1 Hat1 eq_refl Hpc) as (d & w2 & Hr2 & Hat2 & He2). core_run Hr2.
  assert (Hic : exists w3, when (has_cache pr) (write32 p CORTEXM_ICIALLU 0) w2 = Ok tt w3 /\
    at_core t (set_run step (on_bkpt pr) pr) (with_regs (resumed_regs pr (with_status true c (k_dfsr k) (k_demcr k) k)) d
      (with_status true c (k_dfsr k) (k_demcr k) k)) w3 /\ elapsed p t w2 w3).
  { unfold when. destruct (has_cache pr); [|by exists w2; split; [done|split; [done|apply elapsed_refl]]].
    apply (run_write32 p _ _ _ CORTEXM_ICIALLU 0 _ w2 Hat2 ltac:(done) eq_refl). }
  destruct Hic as (w3 & Hr3 & Hat3 & He3). core_run Hr3.
  destruct (run_write32 p _ _ _ _ _ _ w3 Hat3 (proj1 (resume_u32 step)) (resume_write step _ (eq_refl : k_halted (with_regs _ d (with_status true _ _ _ k)) = true))) as (w4 & Hr4 & Hat4 & He4).
  exists d, w4. split; [exact Hr4|]. split; [exact Hat4|]. eapply elapsed_trans; [exact He1|]. eapply elapsed_trans; [exact He2|]. by eapply elapsed_trans.
Qed.

(** C22: A halted core that is not stepped at a breakpoint, or at one it stands at,
    goes on. *)
Theorem halt_resume_resumes t pr k step (w : W) : at_core t pr k w -> k_halted k = true -> (on_bkpt pr = true -> k_reg k PC mod 2 = 0) ->
  exists w', cortexm_halt_resume p step w = Ok tt w' /\ k_halted (core_of (out w')) = false /\
    k_ctrl (core_of (out w')) = resumed_ctrl step /\ k_reg (core_of (out w')) = resumed_regs pr k /\ same_units k (core_of (out w')) /\
    load_priv p w' = Ok (set_run step (on_bkpt pr) pr) w'.
Proof.
  intros Hat Hh Hpc. destruct (halt_resume_ok t pr k step w Hat Hh Hpc) as (d & w' & Hr & Hat' & _). exists w'. split; [done|].
  pose proof (run_load_priv p _ _ _ _ Hat') as Hl. destruct Hat' as (_ & _ & ->). done.
Qed.

(** ** Polling *)
Variables (polls : nat) (local_addr : Z).
Notation halt_reason := (halt_reason polls local_addr p).
Notation cortexm_halt_poll := (cortexm_halt_poll polls local_addr p).

Definition cleared (k : core) : core := with_status (k_halted k) (k_ctrl k) 0 (k_demcr k) k.
Lemma land_lnot_diag x : Z.land x (Z.lnot x) = 0.
Proof. apply Z.bits_inj'. intros n Hn. rewrite Z.land_spec, Z.lnot_spec, Z.bits_0 by lia. apply andb_negb_r. Qed.
Lemma halt_reason_ok t pr k want (w : W) : at_core t pr k w -> k_halted k = true -> plain_stop k ->
  want = false \/ flag (k_dfsr k) CORTEXM_DFSR_DWTTRAP = false ->
  exists d w', halt_reason want w = Ok (reason_of (stepping pr) (k_dfsr k), 0) w' /\
    at_core t (set_run (stepping pr) (flag (k_dfsr k) CORTEXM_DFSR_BKPT) pr) (with_regs (k_reg k) d (cleared k)) w' /\ elapsed p t w w'.
Proof.
  intros Hat Hh (Hvc & Hpc & Hsemi) Hwant. unfold Cortexm.halt_reason.
  destruct (run_dfsr p _ _ _ _ Hat) as (w1 & Hr1 & Hat1 & He1 & Hu). core_run Hr1.
  assert (Hw : core_write CORTEXM_DFSR (k_dfsr k) k = Some (cleared k)) by (unfold cleared; rewrite <- (land_lnot_diag (k_dfsr k)); done).
  core_write_step Hat1 Hw. rewrite Hvc, bind_ret.
  destruct (run_upd_priv p _ _ _ (fun pr => set_run (stepping pr) (flag (k_dfsr k) CORTEXM_DFSR_BKPT) pr) w0 Hat0 ltac:(done)) as (w2 & Hr2 & Hat2 & He2).
  core_run Hr2. set (pr' := set_run _ _ pr) in *.
  assert (Hhost : exists d w3, (if flag (k_dfsr k) CORTEXM_DFSR_BKPT then
      let! pc := cortexm_pc_read p in let! instr := target_mem_read16 (Some p) pc in ret (instr =? 0xBEAB)
    else ret false) w2 = Ok false w3 /\ at_core t pr' (with_regs (k_reg k) d (cleared k)) w3 /\ elapsed p t w2 w3).
  { destruct (flag (k_dfsr k) CORTEXM_DFSR_BKPT).
    - destruct (pc_read_ok t pr' _ w2 Hat2 Hh) as (w3 & Hr3 & Hat3 & He3). core_run Hr3.
      destruct (run_instr p t pr' _ (k_reg k PC) w3 Hat3 (at_core_reg p t pr k w PC Hat) Hpc Hh) as (w4 & Hr4 & Hat4 & He4). core_run Hr4.
      exists (k_reg k PC), w4. split; [|split; [exact Hat4|by eapply elapsed_trans]].
      change (halfword (with_regs _ _ _)) with (halfword k). by rewrite (proj2 (Z.eqb_neq _ _) Hsemi).
    - exists (k_dcrdr k), w2. split; [done|]. split; [exact Hat2|apply elapsed_refl]. }
  destruct Hhost as (d & w3 & Hr3 & Hat3 & He3). core_run Hr3. exists d, w3.
  split; [|split; [exact Hat3|]].
  - cbv iota. unfold reason_of. destruct (flag (k_dfsr k) CORTEXM_DFSR_DWTTRAP); [by destruct Hwant as [-> |]|].
    destruct (flag (k_dfsr k) CORTEXM_DFSR_BKPT); [done|]. destruct (flag (k_dfsr k) CORTEXM_DFSR_HALTED); [|done].
    core_run (run_load_priv p _ _ _ _ Hat3). by change (stepping pr') with (stepping pr); destruct (stepping pr).
  - eapply elapsed_trans; [exact He1|]. eapply elapsed_trans; [exact He|]. by eapply elapsed_trans.
Qed.
(** A poll finds the core running, or halted: as it was, or stopped since. *)
Lemma halt_poll_ok t pr k want (w : W) : at_core t pr k w ->
  (forall k', k' = k \/ k_halted k = false /\ k' = stopped k -> k_halted k' = true ->
    plain_stop k' /\ (want = false \/ flag (k_dfsr k') CORTEXM_DFSR_DWTTRAP = false)) ->
  exists k' w', (k' = k \/ k_halted k = false /\ k' = stopped k) /\ elapsed p t w w' /\
    if k_halted k' then
      exists d, cortexm_halt_poll want w = Ok (reason_of (stepping pr) (k_dfsr k'), 0) w' /\
        at_core t (set_run (stepping pr) (flag (k_dfsr k') CORTEXM_DFSR_BKPT) pr) (with_regs (k_reg k') d (cleared k')) w'
    else cortexm_halt_poll want w = Ok (TARGET_HALT_RUNNING, 0) w' /\ k' = k /\ at_core t pr k w'.
Proof.
  intros Hat Hstop. destruct (run_dhcsr p _ _ _ _ Hat) as (v & k' & w1 & Hr1 & Hf & Hk & Hat1 & He1). exists k'.
  unfold Cortexm.cortexm_halt_poll. destruct (k_halted k') eqn:Hh.
  - destruct (Hstop k' Hk Hh) as [Hp Hw]. destruct (halt_reason_ok t pr k' want w1 Hat1 Hh Hp Hw) as (d & w2 & Hr2 & Hat2 & He2).
    exists w2. split; [done|]. split; [by eapply elapsed_trans|]. exists d. split; [|done].
    rewrite (bind_Ok _ _ _ _ _ (try_catch_Ok _ _ _ _ _ Hr1)), Hf. exact Hr2.
  - exists w1. split; [done|]. split; [done|]. assert (k' = k) as -> by (destruct Hk as [|[_ ->]]; done).
    split; [|done]. by rewrite (bind_Ok _ _ _ _ _ (try_catch_Ok _ _ _ _ _ Hr1)), Hf.
Qed.

(** What a poll of a target's core answers: RUNNING when the core was not seen
    halted, else the reason DFSR gives for the stop, which is then cleared; the
    registers stay, and whether the core stands at a breakpoint is kept. *)
Theorem halt_poll_reason t pr k want (w : W) : at_core t pr k w ->
  (forall k', k' = k \/ k_halted k = false /\ k' = stopped k -> k_halted k' = true ->
    plain_stop k' /\ (want = false \/ flag (k_dfsr k') CORTEXM_DFSR_DWTTRAP = false)) ->
  exists k' w', (k' = k \/ k_halted k = false /\ k' = stopped k) /\
    cortexm_halt_poll want w = Ok (if k_halted k' then reason_of (stepping pr) (k_dfsr k') else TARGET_HALT_RUNNING, 0) w' /\
    k_halted (core_of (out w')) = k_halted k' /\ k_reg (core_of (out w')) = k_reg k' /\ same_units k (core_of (out w')) /\
    (k_halted k' = true -> k_dfsr (core_of (out w')) = 0 /\
       load_priv p w' = Ok (set_run (stepping pr) (flag (k_dfsr k') CORTEXM_DFSR_BKPT) pr) w').
Proof.
  intros Hat Hstop. destruct (halt_poll_ok t pr k want w Hat Hstop) as (k' & w' & Hk & _ & Hpoll). exists k', w'. split; [done|].
  assert (Hsame : same_units k k') by (destruct Hk as [-> | [_ ->]]; done).
  destruct (k_halted k') eqn:Hh.
  - destruct Hpoll as (d & Hr & Hat'). pose proof (run_load_priv p _ _ _ _ Hat') as Hl. destruct Hat' as (_ & _ & ->). by split_and!.
  - destruct Hpoll as (Hr & -> & (_ & _ & ->)). by split_and!.
Qed.
End Run.

(** ** Running code on the core *)
Definition stub_words (n loadaddr r0 r1 r2 r3 : Z) : list Z :=
  <[19%nat := 0]> (<[16%nat := CORTEXM_XPSR_THUMB]> (<[15%nat := loadaddr]>
    (<[3%nat := r3]> (<[2%nat := r2]> (<[1%nat := r1]> (<[0%nat := r0]> (memset n 0))))))).
(** The registers the code starts with. *)
Definition stub_start (t : target) (loadaddr r0 r1 r2 r3 : Z) (k : core) : core :=
  with_regs (given (k_reg k) (reg_nums t) (stub_words (zlen (reg_nums t)) loadaddr r0 r1 r2 r3)) 0 k.
(** The core once the code has stopped; what running it answers then. *)
Definition stub_stop (t : target) (pr : cortexm_priv) (loadaddr r0 r1 r2 r3 : Z) (k : core) : core :=
  stopped (resumed pr false 0 (stub_start t loadaddr r0 r1 r2 r3 k)).
Definition stub_code (k : core) : Z :=
  let i := halfword k (k_reg k PC) in
  if bool_decide (reason_of false (k_dfsr k) = TARGET_HALT_BREAKPOINT) && (Z.shiftr i 8 =? 0xbe) then Z.land i 0xff else -2.

Lemma stub_regs_ok {E} n loadaddr r0 r1 r2 r3 (w : world (cm_dev E)) : 20 <= n ->
  stub_regs n loadaddr r0 r1 r2 r3 w = Ok (stub_words n loadaddr r0 r1 r2 r3) w.
Proof.
  intros Hn. unfold stub_regs, REG_XPSR.
  assert (Hset : forall (l : list Z) i v, zlen l = n -> 0 <= i < n ->
    @word_set (world (cm_dev E)) l i v w = Ok (<[Z.to_nat i := v]> l) w /\ zlen (<[Z.to_nat i := v]> l) = n).
  { intros l i v Hl Hi. unfold word_set. rewrite (proj2 (Z.leb_le 0 i)), (proj2 (Z.ltb_lt _ _)) by lia. split; [done|].
    unfold zlen in *. by rewrite length_insert. }
  assert (Hl : zlen (memset n 0) = n) by (unfold zlen, memset; rewrite length_replicate; lia).
  do 6 (match goal with |- context [bind (word_set ?l ?i ?v)] =>
    let Hr := fresh in let Hl2 := fresh in
    destruct (Hset l i v Hl ltac:(lia)) as [Hr Hl2]; rewrite (bind_Ok _ _ _ _ _ Hr); clear Hr Hl; rename Hl2 into Hl end).
  exact (proj1 (Hset _ 19 0 Hl ltac:(lia))).
Qed.
Lemma stub_words_ok n loadaddr r0 r1 r2 r3 : 20 <= n -> is_u32 loadaddr -> is_u32 r0 -> is_u32 r1 -> is_u32 r2 -> is_u32 r3 ->
  zlen (stub_words n loadaddr r0 r1 r2 r3) = n /\ Forall (in_width 32) (stub_words n loadaddr r0 r1 r2 r3).
Proof.
  intros Hn Hl H0 H1 H2 H3. unfold stub_words, zlen, memset. rewrite !length_insert, length_replicate. split; [lia|].
  repeat (apply Forall_insert; [|done]). by apply Forall_replicate.
Qed.
Lemma length_words_bytes l : zlen (words_bytes l) = 4 * zlen l.
Proof.
  unfold words_bytes. induction l as [|v l IH]; [done|]. cbn [fmap list_fmap concat]. rewrite zlen_app, IH. unfold zlen. rewrite length_le_bytes.
  cbn [length]. lia.
Qed.
Lemma bytes_words_bytes l : Forall (in_width 32) l -> bytes_words (words_bytes l) = l /\ is_bytes (words_bytes l).
Proof.
  induction 1 as [|v l Hv Hl [IH IHb]]; [done|]. unfold words_bytes. cbn [fmap list_fmap concat]. fold (words_bytes l).
  rewrite bytes_words_cons by apply length_le_bytes. rewrite le4_val by done. split; [by rewrite IH|].
  apply Forall_app. split; [apply le_bytes_is_bytes|done].
Qed.

(** The error state of the debug port is clear and stays so. *)
Class ApClean {E} {DP : DpIf E} {CLK : ClockIf E} {dp s} (AC : ApCore DP CLK dp s) (DO : DpObj E) := {
  ac_clean : forall e, ac_wf e -> exists e', dp_error dp e = Ok 0 e' /\ ac_wf e' /\ ac_core e' = ac_core e /\
    forall u, (ac_left e' u <= ac_left e u)%nat;
}.

Section Stub.
Context {E : Type} {GI : GdbIf E} {MI : MemIf E} {CLK : ClockIf E} {DP : DpIf E} {DO : DpObj E}
        {PI : ProbeIf (cm_dev E)} {HI : HostIf (cm_dev E)} {DI : DeviceIf (cm_dev E)} {dp : positive} {s : Z} {AC : ApCore DP CLK dp s}
        {CL : ApClean AC DO}.
Variables (polls : nat) (local_addr : Z) (other : Driver (cm_dev E)) (p : positive).
Notation W := (world (cm_dev E)).
Notation A := (core_ap (dp := dp) (s := s)).
#[local] Instance stub_driver : Driver (cm_dev E) := memory_layer local_addr other.
#[local] Instance stub_core : CoreSpec stub_driver CLK p A := ap_core_spec local_addr other p.
Notation at_core := (at_core p).

Lemma halted_at t pr k w : halted_core p t pr k w <-> at_core t pr k w /\ k_halted k = true.
Proof. unfold halted_core, CoreSpec.at_core. cbn. naive_solver. Qed.
Lemma moved_elapsed t w w' : moved w w' -> elapsed p t w w'.
Proof. intros [-> Hl]. apply elapsed_out. exact Hl. Qed.

Definition core_methods (t : target) : Prop :=
  m_regs_read t = Fdriver /\ m_check_error t = Fdriver /\ regs_size t = 4 * zlen (reg_nums t).
Lemma regs_read_run t pr k (w : W) : at_core t pr k w -> k_halted k = true -> core_methods t ->
  exists v d w', target_regs_read polls (Some p) w = Ok v w' /\ at_core t pr (with_regs (k_reg k) d k) w' /\ elapsed p t w w'.
Proof.
  intros Hat Hh (Hm & _). pose proof (run_load_target p _ _ _ _ Hat) as Hl. pose proof (proj1 (proj1 Hat)) as Hp.
  destruct (regs_read_ok p t pr k w (proj2 (halted_at _ _ _ _) (conj Hat Hh))) as (w' & d & Hr & Hat' & Hmv).
  exists (words_bytes (k_reg k <$> reg_nums t)), d, w'. apply halted_at in Hat' as [Hat' _]. split; [|split; [done|by apply moved_elapsed]].
  unfold target_regs_read. rewrite (bind_Ok _ _ _ _ _ (deref_target_Ok _ _ _ Hp)), Hm. cbn [call drv_regs_read stub_driver memory_layer].
  unfold via. rewrite (bind_Ok _ _ _ _ _ Hl), Hm. exact Hr.
Qed.
Lemma check_error_run t pr k (w : W) : at_core t pr k w -> core_methods t ->
  exists w', target_check_error (Some p) w = Ok false w' /\ at_core t pr k w' /\ elapsed p t w w'.
Proof.
  intros Hat (_ & Hm & _). pose proof (run_load_target p _ _ _ _ Hat) as Hl. destruct Hat as (Hr & Hwf & Hk).
  pose proof Hr as (_ & _ & _ & _ & (ap & Hap & HA) & _). destruct (run_cortexm_ap ap MI DO p t pr w Hr Hap) as (_ & _ & Hca).
  destruct (ac_clean _ Hwf) as (e & He & Hwf' & Hk' & Hle). exists (set_out e w). split; [|split; [split; [done|split; [done|exact (eq_trans Hk' Hk)]]|by apply elapsed_out]].
  unfold target_check_error. rewrite (bind_Ok _ _ _ _ _ Hl), Hm. cbn [call drv_check_error stub_driver memory_layer].
  unfold via. rewrite (bind_Ok _ _ _ _ _ Hl), Hm. unfold cortexm_check_error. rewrite (bind_Ok _ _ _ _ _ Hca), (proj1 HA).
  assert (Hd : on_dp (dp_error dp) w = Ok 0 (set_out e w)) by (unfold on_dp, lift, beyond; unfold out in He; by rewrite He).
  by rewrite (bind_Ok _ _ _ _ _ Hd).
Qed.
Lemma halt_request_run t pr k (w : W) : at_core t pr k w ->
  exists k' w', cortexm_halt_request p w = Ok tt w' /\ k_halted k' = true /\ at_core t pr k' w' /\ elapsed p t w w'.
Proof.
  intros Hat. assert (Hw : exists k', core_write CORTEXM_DHCSR (Z.lor (Z.lor CORTEXM_DHCSR_DBGKEY CORTEXM_DHCSR_C_HALT) CORTEXM_DHCSR_C_DEBUGEN) k = Some k' /\ k_halted k' = true).
  { unfold core_write. cbn. unfold dhcsr_write. destruct (k_halted k); by eexists. }
  destruct Hw as (k' & Hw & Hh). destruct (run_write32 p t pr k CORTEXM_DHCSR (Z.lor (Z.lor CORTEXM_DHCSR_DBGKEY CORTEXM_DHCSR_C_HALT) CORTEXM_DHCSR_C_DEBUGEN) _ w Hat ltac:(done) Hw) as (w' & Hr & Hat' & He). exists k', w'.
  split; [|done]. unfold cortexm_halt_request. by rewrite (bind_Ok _ _ _ _ _ (try_catch_Ok _ _ _ _ _ Hr)).
Qed.

(** What the wait loop knows while the code runs. *)
Section Wait.
Variables (t : target) (pr : cortexm_priv) (k : core) (timeout : Z).
Hypothesis methods : core_methods t.
Hypothesis running : k_halted k = false.
Hypothesis resumed_now : stepping pr = false.
Hypothesis plain : plain_stop (stopped k).
(** It ended in one of two ways; the core is halted in both. *)
Definition ended (r : option target_halt_reason) (w : W) : Prop :=
  exists pr' k', at_core t pr' k' w /\ k_halted k' = true /\
    (r = None \/ r = Some (reason_of false (k_dfsr (stopped k))) /\ k_reg k' = k_reg (stopped k) /\ k_mem k' = k_mem k).
Lemma wait_round (w : W) : at_core t pr k w ->
  exists r w', stub_wait_body polls local_addr p timeout tt w = Ok r w' /\
    match r with
    | inl _ => at_core t pr k w' /\ (left (out w') timeout < left (out w) timeout)%nat
    | inr r => ended r w'
    end.
Proof.
  intros Hat. unfold stub_wait_body, platform_timeout_is_expired. rewrite bind_bind.
  destruct (clock_run p _ _ _ _ Hat) as (now & w1 & Hr1 & Hat1 & He1 & Hl). rewrite (bind_Ok _ _ _ _ _ Hr1), bind_ret.
  destruct (Z.ltb_spec timeout now) as [Hlt|Hle].
  - destruct (halt_request_run t pr k w1 Hat1) as (k2 & w2 & Hr2 & Hh2 & Hat2 & _). rewrite (bind_Ok _ _ _ _ _ Hr2).
    destruct (regs_read_run t pr k2 w2 Hat2 Hh2 methods) as (v & d & w3 & Hr3 & Hat3 & _). rewrite (bind_Ok _ _ _ _ _ Hr3).
    eexists _, w3. split; [done|]. exists pr, (with_regs (k_reg k2) d k2). split; [done|]. split; [done|]. by left.
  - destruct (halt_poll_ok p polls local_addr t pr k false w1 Hat1) as (k' & w2 & Hk & He2 & Hpoll).
    { intros k' [-> | [_ ->]] Hh; [congruence|]. split; [done|by left]. }
    destruct (k_halted k') eqn:Hh.
    + assert (k' = stopped k) as -> by (destruct Hk as [-> | [_ ->]]; congruence). destruct Hpoll as (d & Hr2 & Hat2). rewrite (bind_Ok _ _ _ _ _ Hr2).
      eexists _, w2. rewrite bool_decide_eq_false_2.
      * split; [done|]. eexists _, _. split; [exact Hat2|]. split; [exact Hh|]. right. by rewrite resumed_now.
      * unfold reason_of. repeat case_match; done.
    + destruct Hpoll as (Hr2 & -> & Hat2). rewrite (bind_Ok _ _ _ _ _ Hr2). eexists _, w2. split; [done|]. split; [done|].
      eapply Nat.le_lt_trans; [apply He2|by apply Hl].
Qed.
Lemma wait_ends (w : W) : at_core t pr k w -> (left (out w) timeout < polls)%nat ->
  exists r w', iter polls (stub_wait_body polls local_addr p timeout) tt w = Ok r w' /\ ended r w'.
Proof.
  intros Hat Hl. apply (iter_total (stub_wait_body polls local_addr p timeout) (fun _ w => at_core t pr k w) ended
    (fun _ w => left (out w) timeout)); [|done|done].
  intros [] w1 Hat1. destruct (wait_round w1 Hat1) as (r & w2 & Hr & Hpost). exists r, w2. split; [done|]. by destruct r.
Qed.
Lemma result_ok r (w : W) : ended r w ->
  exists code w', stub_result p r w = Ok code w' /\ (code = -3 \/ code = stub_code (stopped k)) /\
    exists pr' k', at_core t pr' k' w' /\ k_halted k' = true.
Proof.
  intros (pr' & k' & Hat & Hh & [-> | (-> & Hregs & Hmem)]); [eexists _, w; split; [done|]; split; [by left|by eauto]|].
  unfold stub_code. destruct plain as (Hv & Hpc & _). pose proof (at_core_reg p t pr' k' w PC Hat) as Hu. unfold stub_result.
  assert (Hhw : halfword k' (k_reg k' PC) = halfword (stopped k) (k_reg (stopped k) PC)) by (unfold halfword; by rewrite Hregs, Hmem).
  destruct (reason_of false (k_dfsr (stopped k))) eqn:Hreason;
    try (eexists _, w; split; [reflexivity|]; split; [by right|by eauto]).
  - exfalso. unfold reason_of in Hreason. repeat case_match; done.
  - destruct (pc_read_ok p t pr' k' w Hat Hh) as (w1 & Hr1 & Hat1 & _). rewrite (bind_Ok _ _ _ _ _ Hr1).
    destruct (run_instr p t pr' _ (k_reg k' PC) w1 Hat1 Hu) as (w2 & Hr2 & Hat2 & _); [by rewrite Hregs|done|].
    rewrite (bind_Ok _ _ _ _ _ Hr2). change (halfword (with_regs _ _ k')) with (halfword k'). rewrite Hhw. rewrite bool_decide_eq_true_2 by done. cbn [andb].
    eexists _, w2. split; [done|]. split; [by right|]. by eauto.
Qed.
End Wait.

End Stub.

(** ** At work *)
Import CoreSim.
#[local] Instance sim_clean : ApClean (sim_core 1) CoreSim.sim_obj.
Proof. constructor. intros e He. by exists e. Qed.
Lemma until_u32 (u : Z) : is_u32 u -> (left (CoreSpec := CoreSim.sim_spec) (out CoreSim.w0) u < Z.to_nat (2 ^ 33))%nat.
Proof. intros Hu. unfold left, CoreSim.sim_spec, ap_core_spec. cbn. unfold until. cbn [s_time e0]. unfold in_width in Hu. lia. Qed.
Lemma methods0 : core_methods CoreSim.t0.
Proof. done. Qed.
Lemma halt_resume_resumes_witness : exists w',
  cortexm_halt_resume (DRV := memory_layer 0 other) 5 true CoreSim.w0 = Ok tt w' /\
  k_halted (s_core (out w')) = false /\ k_ctrl (s_core (out w')) = 0xD /\ k_reg (s_core (out w')) = k_reg CoreSim.k0 /\
  same_units CoreSim.k0 (s_core (out w')) /\ load_priv 5 w' = Ok (set_run true false CoreSim.pr0) w'.
Proof. apply (halt_resume_resumes (CS := CoreSim.sim_spec) 5 CoreSim.t0 CoreSim.pr0 CoreSim.k0 true CoreSim.w0 CoreSim.at0); [done|discriminate]. Defined.
(** A running core that stops at the BKPT at 0x20000000 before the next reading. *)
Definition k_run : core := with_regs (upd (k_reg CoreSim.k0) PC 0x20000000) 0 (with_status false 1 0 0 CoreSim.k0).
Definition w_run : world (cm_dev sim) := with_priv CoreSim.pr0 CoreSim.t0
  {| s_ap := s_ap CoreSim.e0; s_core := k_run; s_run := 0; s_time := 0; s_next := 20 |}.
Lemma at_w_run : at_core (CS := CoreSim.sim_spec) 5 CoreSim.t0 CoreSim.pr0 k_run w_run.
Proof.
  split; [exact CoreSim.ready0|]. split; [|done]. constructor; try done.
  split; [done|]. split; [|apply mem0_bytes]. intros n. cbn. unfold upd. destruct (n =? PC); [done|apply u32_range].
Qed.
Lemma halt_poll_reason_witness : exists k' w', (k' = k_run \/ k_halted k_run = false /\ k' = stopped k_run) /\
  cortexm_halt_poll (DRV := memory_layer 0 other) 100 0 5 true w_run =
    Ok (if k_halted k' then reason_of false (k_dfsr k') else TARGET_HALT_RUNNING, 0) w' /\
  k_halted (s_core (out w')) = k_halted k' /\ k_reg (s_core (out w')) = k_reg k' /\ same_units k_run (s_core (out w')) /\
  (k_halted k' = true -> k_dfsr (s_core (out w')) = 0 /\
     load_priv 5 w' = Ok (set_run false (flag (k_dfsr k') CORTEXM_DFSR_BKPT) CoreSim.pr0) w').
Proof.
  apply (halt_poll_reason (CS := CoreSim.sim_spec) 5 100 0 CoreSim.t0 CoreSim.pr0 k_run true w_run at_w_run).
  intros k' [-> | [_ ->]]; [discriminate|]. intros _. split; [repeat split; discriminate|by right].
Defined.
