(* ===== verification/Recovery.v ===== *)
(** The recovery access ports: the fake targets kinetis.c, nrf51.c, efm32.c and
    rp.c put in the list for an access port by which a locked device can be
    erased or reset, and the operations on them.  The private data of such a
    target is the access port itself. *)

From Stdlib Require Import ZArith Lia String.
From stdpp Require Import base list numbers option gmap.
From S2P Require Import Prelude CLib GdbIf MemManager GdbPacket TargetState Target Platform Exception Morse Command Dap Adiv5 Objects Cortexm.

Definition ADIV5_AP_REG (x : Z) : Z := Z.lor x ADIV5_APnDP.
Definition ADIV5_DP_REG (x : Z) : Z := x.
Definition ADIV5_DP_CTRLSTAT_CDBGPWRUPREQ : Z := 0x10000000.

Definition KINETIS_MDM_IDR_K22F : Z := 0x1c0000.
Definition KINETIS_MDM_IDR_KZ03 : Z := 0x1c0020.
Definition KINETIS_MDM_STATUS : Z := ADIV5_AP_REG 0x00.
Definition KINETIS_MDM_CONTROL : Z := ADIV5_AP_REG 0x04.
Definition MDM_STATUS_MASS_ERASE_ACK : Z := 1.
Definition MDM_STATUS_FLASH_READY : Z := 2.
Definition MDM_STATUS_MASS_ERASE_ENABLED : Z := 0x20.
Definition MDM_CONTROL_MASS_ERASE : Z := 1.
Definition MDM_CONTROL_SYS_RESET : Z := 8.
Definition kinetis_mdm_cmd_list : list command :=
  [cmd_entry "erase_mass" "kinetis_mdm_cmd_erase_mass" "Erase entire flash memory";
             cmd_entry "ke04_mode" "kinetis_mdm_cmd_ke04_mode" "Allow erase for KE04"].

Definition NRF52_MDM_IDR : Z := 0x02880000.
Definition MDM_POWER_EN : Z := ADIV5_DP_REG 0x01.
Definition MDM_SELECT_AP : Z := ADIV5_DP_REG 0x02.
Definition NRF_MDM_STATUS : Z := ADIV5_AP_REG 0x08.
Definition NRF_MDM_CONTROL : Z := ADIV5_AP_REG 0x04.
Definition MDM_PROT_EN : Z := ADIV5_AP_REG 0x0C.
Definition nrf51_mdm_cmd_list : list command :=
  [cmd_entry "erase_mass" "nrf51_mdm_cmd_erase_mass" "Erase entire flash memory"].

Definition EFM32_AAP_IDR : Z := 0x06E60001.
Definition EFM32_APP_IDR_MASK : Z := 0x0FFFFF0F.
Definition AAP_CMD : Z := ADIV5_AP_REG 0x00.
Definition AAP_CMDKEY : Z := ADIV5_AP_REG 0x04.
Definition AAP_STATUS : Z := ADIV5_AP_REG 0x08.
Definition AAP_STATUS_ERASEBUSY : Z := 1.
Definition CMDKEY : Z := 0xCFACC118.
Definition efm32_aap_cmd_list : list command :=
  [cmd_entry "erase_mass" "efm32_aap_cmd_device_erase" "Erase entire flash memory"].
Definition sizeof_efm32_aap_priv : Z := 42.

Section Recovery.
Context {E : Type} `{GdbIf E} `{MemIf E} `{DpIf E} `{DpObj E}.
Notation MW := (M (world (cm_dev E))).
Variable polls : nat.

(** [t->priv = ap] and the reference to it. *)
Definition hold_ap (p h : positive) : MW unit :=
  do! adiv5_ap_ref h in
  upd_target p (set_priv (Some h)).
Definition set_recovery (driver : list Z) (c : nat) (t : target) : target :=
  set_conn (attached t) (Some c) (set_regs 4 (tdesc t) (set_driver driver t)).
Definition ap_of (p : positive) : MW ADIv5_AP := let! h := priv_of p in load_ap h.
Definition tc_of_ap (ap : ADIv5_AP) : MW nat := let! d := on_dp (load_dpo (ap_dp ap)) in ret (o_tc d).

(** ** kinetis.c *)
Definition kinetis_mdm_probe (h : positive) : MW unit :=
  let! ap := load_ap h in
  if (idr ap =? KINETIS_MDM_IDR_KZ03) || (idr ap =? KINETIS_MDM_IDR_K22F) then
    let! c := tc_of_ap ap in
    let! t := target_new c in
    match t with
    | None => ret tt
    | Some p =>
        do! hold_ap p h in
        do! upd_target p (set_recovery (str "Kinetis Recovery (MDM-AP)") c) in
        target_add_commands p kinetis_mdm_cmd_list (str "Kinetis Recovery (MDM-AP)")
    end
  else ret tt.
Definition kinetis_mdm_cmd_ke04_mode (p : positive) : MW bool :=
  do! upd_target p (set_unsafe true) in
  do! tc_printf (Some p) (str "Mass erase for KE04 now allowed" ++ nl) in ret true.
(** The value of [reg] once a bit of [mask] is set. *)
Definition wait_set (ap : ADIv5_AP) (reg mask : Z) : MW unit :=
  iter polls (fun _ => let! v := adiv5_ap_read ap reg in ret (if flag v mask then inr tt else inl tt)) tt.
Definition kinetis_mdm_cmd_erase_mass (p : positive) : MW bool :=
  let! ap := ap_of p in
  let! t := load_target p in
  do! when (unsafe_enabled t) (adiv5_ap_write ap KINETIS_MDM_CONTROL MDM_CONTROL_SYS_RESET) in
  let! status := adiv5_ap_read ap KINETIS_MDM_STATUS in
  do! adiv5_ap_read ap KINETIS_MDM_CONTROL in
  do! tc_printf (Some p) (str "Requesting mass erase (status = 0x" ++ fmt_x 1 status ++ str ")" ++ nl) in
  if negb (flag status MDM_STATUS_MASS_ERASE_ENABLED) && negb (unsafe_enabled t) then
    do! tc_printf (Some p) (str "ERROR: Mass erase disabled!" ++ nl) in ret false
  else
  do! upd_target p (set_unsafe false) in
  if negb (flag status MDM_STATUS_FLASH_READY) then
    do! tc_printf (Some p) (str "ERROR: Flash not ready!" ++ nl) in ret false
  else if flag status MDM_STATUS_MASS_ERASE_ACK then
    do! tc_printf (Some p) (str "ERROR: Mass erase already in progress!" ++ nl) in ret false
  else
  do! adiv5_ap_write ap KINETIS_MDM_CONTROL MDM_CONTROL_MASS_ERASE in
  do! wait_set ap KINETIS_MDM_STATUS MDM_STATUS_MASS_ERASE_ACK in
  do! tc_printf (Some p) (str "Mass erase acknowledged" ++ nl) in
  do! wait_set ap KINETIS_MDM_CONTROL MDM_CONTROL_MASS_ERASE in
  do! tc_printf (Some p) (str "Mass erase complete" ++ nl) in
  ret true.

(** ** nrf51.c *)
Definition nrf51_mdm_probe (h : positive) : MW unit :=
  let! ap := load_ap h in
  if idr ap =? NRF52_MDM_IDR then
    let! c := tc_of_ap ap in
    let! t := target_new c in
    match t with
    | None => ret tt
    | Some p =>
        do! hold_ap p h in
        let! ap := load_ap h in
        do! adiv5_ap_read ap MDM_PROT_EN in
        let! status := adiv5_ap_read ap MDM_PROT_EN in
        let name := if status =? 0 then str "Nordic nRF52 Access Port (protected)" else str "Nordic nRF52 Access Port" in
        do! upd_target p (set_recovery name c) in
        target_add_commands p nrf51_mdm_cmd_list name
    end
  else ret tt.
Definition nrf51_mdm_cmd_erase_mass (p : positive) : MW bool :=
  let! ap := ap_of p in
  do! adiv5_ap_read ap NRF_MDM_STATUS in
  do! adiv5_dp_write (ap_dp ap) MDM_POWER_EN 0x50000000 in
  do! adiv5_dp_write (ap_dp ap) MDM_SELECT_AP 0x01000000 in
  do! adiv5_ap_write ap NRF_MDM_CONTROL 1 in
  do! iter polls (fun _ => let! status := adiv5_ap_read ap NRF_MDM_STATUS in
                           ret (if status =? 0 then inr tt else inl tt)) tt in
  do! adiv5_ap_read ap MDM_PROT_EN in
  do! adiv5_ap_read ap MDM_PROT_EN in
  ret true.

(** ** efm32.c: neither allocation is checked *)
Definition efm32_aap_probe (h : positive) : MW unit :=
  let! ap := load_ap h in
  if Z.land (idr ap) EFM32_APP_IDR_MASK =? EFM32_AAP_IDR then
    let aap_revision := Z.shiftr (Z.land (idr ap) 0xF0000000) 28 in
    let! c := tc_of_ap ap in
    let! t := target_new c in
    do! adiv5_ap_ref h in
    let! p := deref t in
    do! upd_target p (set_priv (Some h)) in
    let! ap := load_ap h in
    do! adiv5_ap_read ap AAP_STATUS in
    let! s := MemManager_Alloc sizeof_efm32_aap_priv in
    do! deref s in
    let name := str "EFM32 Authentication Access Port rev." ++ fmt_d aap_revision in
    do! upd_target p (set_recovery name c) in
    target_add_commands p efm32_aap_cmd_list name
  else ret tt.
Definition efm32_aap_cmd_device_erase (p : positive) : MW bool :=
  let! ap := ap_of p in
  let! status := adiv5_ap_read ap AAP_STATUS in
  if flag status AAP_STATUS_ERASEBUSY then ret false else
  do! adiv5_ap_write ap AAP_CMDKEY CMDKEY in
  do! adiv5_ap_write ap AAP_CMD 1 in
  do! iter polls (fun _ => let! status := adiv5_ap_read ap AAP_STATUS in
                           ret (if flag status AAP_STATUS_ERASEBUSY then inl tt else inr tt)) tt in
  do! adiv5_ap_read ap AAP_STATUS in
  ret true.

(** ** rp.c: attaching to the rescue port resets the device, and fails *)
Definition rp_rescue_do_reset (p : positive) : MW bool :=
  let! ap := ap_of p in
  do! adiv5_dp_low_access (ap_dp ap) ADIV5_LOW_WRITE ADIV5_DP_CTRLSTAT ADIV5_DP_CTRLSTAT_CDBGPWRUPREQ in
  do! adiv5_dp_low_access (ap_dp ap) ADIV5_LOW_WRITE ADIV5_DP_CTRLSTAT 0 in
  ret false.
Definition rp_rescue_probe (h : positive) : MW unit :=
  let! ap := load_ap h in
  let! c := tc_of_ap ap in
  let! t := target_new c in
  match t with
  | None => ret tt
  | Some p =>
      do! adiv5_ap_ref h in
      do! upd_target p (fun t => set_attach_methods (Fdev "rp_rescue_do_reset") (m_detach t) t) in
      do! upd_target p (fun t => set_driver (str "Raspberry RP2040 Rescue(Attach to reset!)") (set_priv (Some h) t)) in
      upd_target p (fun t => set_conn (attached t) (Some c) t)
  end.

(** ** The targets' driver

    [t->priv_free] is [adiv5_ap_unref] for them. *)
Definition recovery_command (p : positive) (c : command) (other : MW bool) : MW bool :=
  let calls (n : string) := String.eqb (c_handler c) n in
  if calls "kinetis_mdm_cmd_ke04_mode"%string then kinetis_mdm_cmd_ke04_mode p
  else if calls "kinetis_mdm_cmd_erase_mass"%string then kinetis_mdm_cmd_erase_mass p
  else if calls "nrf51_mdm_cmd_erase_mass"%string then nrf51_mdm_cmd_erase_mass p
  else if calls "efm32_aap_cmd_device_erase"%string then efm32_aap_cmd_device_erase p
  else other.
Definition recovery_priv_free (p : positive) (other : MW unit) : MW unit :=
  let! h := priv_of p in
  let! w := get in
  match aps (dev w) !! h with
  | Some _ => adiv5_ap_unref h
  | None => other
  end.
Definition recovery_driver (other : Driver (cm_dev E)) : Driver (cm_dev E) := {|
  drv_attach p := let! t := load_target p in
    match m_attach t with
    | Fdev name => if String.eqb name "rp_rescue_do_reset" then rp_rescue_do_reset p else drv_attach p
    | _ => drv_attach p
    end;
  drv_detach := drv_detach; drv_check_error := drv_check_error; drv_mem_read := drv_mem_read; drv_mem_write := drv_mem_write;
  drv_regs_read := drv_regs_read; drv_regs_write := drv_regs_write; drv_reg_read := drv_reg_read; drv_reg_write := drv_reg_write;
  drv_reset := drv_reset; drv_halt_request := drv_halt_request; drv_halt_poll := drv_halt_poll; drv_halt_resume := drv_halt_resume;
  drv_breakwatch_set := drv_breakwatch_set; drv_breakwatch_clear := drv_breakwatch_clear;
  drv_priv_free p := recovery_priv_free p (drv_priv_free p);
  drv_command p c argv := recovery_command p c (drv_command p c argv);
  drv_flash_erase := drv_flash_erase; drv_flash_write := drv_flash_write; drv_flash_done := drv_flash_done |}.
End Recovery.
