(* ===== verification/Scan.v ===== *)
(** The search for targets: access ports and ROM tables of adiv5.c, the SWD
    scan of adiv5_swdp.c, and the entry from the JTAG chain of adiv5_jtagdp.c. *)

From Stdlib Require Import ZArith Lia String.
From stdpp Require Import base list numbers option gmap.
From S2P Require Import Prelude CLib GdbIf MemManager GdbPacket TargetState Target Platform Exception Morse Command Dap Adiv5 Swd Objects Cortexm Recovery.

(** ** adiv5.h, adiv5.c *)
Definition ADIV5_MINDP : Z := 0x10000.
Definition ADIV5_DP_CTRLSTAT_TRNCNT : Z := 0x1000.
Definition ADIV5_DP_CTRLSTAT_CSYSPWRUPACK : Z := 0x80000000.
Definition ADIV5_DP_CTRLSTAT_CSYSPWRUPREQ : Z := 0x40000000.
Definition ADIV5_DP_CTRLSTAT_CDBGPWRUPACK : Z := 0x20000000.
Definition ADIV5_DP_CTRLSTAT_CDBGRSTACK : Z := 0x08000000.
Definition ADIV5_DP_CTRLSTAT_CDBGRSTREQ : Z := 0x04000000.
Definition ADIV5_AP_CFG : Z := 0x1F4.
Definition ADIV5_ROM_MEMTYPE : Z := 0xFCC.
Definition ADIV5_ROM_ROMENTRY_PRESENT : Z := 1.
Definition ADIV5_ROM_ROMENTRY_OFFSET : Z := 0xFFFFF000.
Definition ARM_AP_TYPE_AHB : Z := 1.
Definition CIDR0_OFFSET : Z := 0xFF0.
Definition CID_PREAMBLE : Z := 0xB105000D.
Definition CID_CLASS_MASK : Z := 0x0000F000.
Definition cidc_romtab : Z := 0x1.
Definition cidc_dc : Z := 0x9.
Definition cidc_gipc : Z := 0xE.
Definition cidc_unknown : Z := 0x10.
Definition PIDR_REV_MASK : Z := 0x0FFF00000.
Definition PIDR_PN_MASK : Z := 0x000000FFF.
Definition PIDR_ARM_BITS : Z := 0x4000BB000.
Definition DEVTYPE_OFFSET : Z := 0xFCC.
Definition DEVARCH_OFFSET : Z := 0xFBC.
Definition DEVTYPE_MASK : Z := 0x000000FF.
Definition DEVARCH_PRESENT : Z := 0x100000.
Definition DEVARCH_ARCHID_MASK : Z := 0x0000FFFF.
Definition SAMX5X_DSU_CTRLSTAT : Z := 0x41002100.
Definition SAMX5X_STATUSB_PROT : Z := 0x10000.
Definition DPIDR_PARTNO_MASK : Z := 0x0ff00000.
Definition sizeof_AP : Z := 36.
Definition sizeof_DP : Z := 72.

(** The table of known parts; its texts are for the log only. *)
Inductive arm_arch : Set := aa_nosupport | aa_cortexm | aa_cortexa.
Record part := { part_number : Z; dev_type : Z; arch_id : Z; arch : arm_arch; cidc : Z }.
Definition part_row (x : Z * Z * Z * arm_arch * Z) : part :=
  let '(n, d, i, a, c) := x in {| part_number := n; dev_type := d; arch_id := i; arch := a; cidc := c |}.
Definition pidr_pn_bits : list part := part_row <$> [
  (0x000, 0x00, 0, aa_cortexm, cidc_gipc); (0x001, 0x00, 0, aa_nosupport, cidc_unknown); (0x002, 0x00, 0, aa_nosupport, cidc_unknown);
  (0x003, 0x00, 0, aa_nosupport, cidc_unknown); (0x008, 0x00, 0, aa_cortexm, cidc_gipc); (0x00a, 0x00, 0, aa_nosupport, cidc_unknown);
  (0x00b, 0x00, 0, aa_nosupport, cidc_unknown); (0x00c, 0x00, 0, aa_cortexm, cidc_gipc); (0x00d, 0x00, 0, aa_nosupport, cidc_unknown);
  (0x00e, 0x00, 0, aa_nosupport, cidc_unknown); (0x101, 0x00, 0, aa_nosupport, cidc_unknown); (0x471, 0x00, 0, aa_nosupport, cidc_unknown);
  (0x490, 0x00, 0, aa_nosupport, cidc_unknown); (0x4c0, 0x00, 0, aa_nosupport, cidc_unknown); (0x4c3, 0x00, 0, aa_nosupport, cidc_unknown);
  (0x4c4, 0x00, 0, aa_nosupport, cidc_unknown); (0x4c7, 0x00, 0, aa_nosupport, cidc_unknown); (0x4c8, 0x00, 0, aa_nosupport, cidc_unknown);
  (0x906, 0x14, 0, aa_nosupport, cidc_unknown); (0x907, 0x21, 0, aa_nosupport, cidc_unknown); (0x908, 0x12, 0, aa_nosupport, cidc_unknown);
  (0x910, 0x00, 0, aa_nosupport, cidc_unknown); (0x912, 0x11, 0, aa_nosupport, cidc_unknown); (0x913, 0x00, 0, aa_nosupport, cidc_unknown);
  (0x914, 0x11, 0, aa_nosupport, cidc_unknown); (0x917, 0x00, 0, aa_nosupport, cidc_unknown); (0x920, 0x00, 0, aa_nosupport, cidc_unknown);
  (0x921, 0x00, 0, aa_nosupport, cidc_unknown); (0x922, 0x00, 0, aa_nosupport, cidc_unknown); (0x923, 0x11, 0, aa_nosupport, cidc_unknown);
  (0x924, 0x13, 0, aa_nosupport, cidc_unknown); (0x925, 0x13, 0, aa_nosupport, cidc_unknown); (0x930, 0x00, 0, aa_nosupport, cidc_unknown);
  (0x932, 0x31, 0x0a31, aa_nosupport, cidc_unknown); (0x941, 0x00, 0, aa_nosupport, cidc_unknown); (0x950, 0x00, 0, aa_nosupport, cidc_unknown);
  (0x955, 0x00, 0, aa_nosupport, cidc_unknown); (0x956, 0x13, 0, aa_nosupport, cidc_unknown); (0x95f, 0x00, 0, aa_nosupport, cidc_unknown);
  (0x961, 0x32, 0, aa_nosupport, cidc_unknown); (0x962, 0x00, 0, aa_nosupport, cidc_unknown); (0x963, 0x63, 0x0a63, aa_nosupport, cidc_unknown);
  (0x975, 0x13, 0x4a13, aa_nosupport, cidc_unknown); (0x9a0, 0x00, 0, aa_nosupport, cidc_unknown); (0x9a1, 0x11, 0, aa_nosupport, cidc_unknown);
  (0x9a9, 0x11, 0, aa_nosupport, cidc_unknown); (0x9a5, 0x00, 0, aa_nosupport, cidc_unknown); (0x9a7, 0x16, 0, aa_nosupport, cidc_unknown);
  (0x9af, 0x00, 0, aa_nosupport, cidc_unknown); (0xc05, 0x00, 0, aa_cortexa, cidc_dc); (0xc07, 0x15, 0, aa_cortexa, cidc_dc);
  (0xc08, 0x00, 0, aa_cortexa, cidc_dc); (0xc09, 0x00, 0, aa_cortexa, cidc_dc); (0xc0f, 0x00, 0, aa_nosupport, cidc_unknown);
  (0xc14, 0x00, 0, aa_nosupport, cidc_unknown); (0xcd0, 0x00, 0, aa_nosupport, cidc_unknown); (0xd20, 0x00, 0x2a04, aa_cortexm, cidc_dc);
  (0xd20, 0x11, 0, aa_nosupport, cidc_dc); (0xd20, 0x13, 0, aa_nosupport, cidc_dc); (0xd20, 0x31, 0x0a31, aa_nosupport, cidc_dc);
  (0xd20, 0x00, 0x1a02, aa_nosupport, cidc_dc); (0xd20, 0x00, 0x1a03, aa_nosupport, cidc_dc); (0xd20, 0x14, 0x1a14, aa_nosupport, cidc_dc);
  (0xd21, 0x00, 0x2a04, aa_cortexm, cidc_dc); (0xd21, 0x31, 0x0a31, aa_nosupport, cidc_dc); (0xd21, 0x43, 0x1a01, aa_nosupport, cidc_dc);
  (0xd21, 0x00, 0x1a02, aa_nosupport, cidc_dc); (0xd21, 0x00, 0x1a03, aa_nosupport, cidc_dc); (0xd21, 0x14, 0x1a14, aa_nosupport, cidc_dc);
  (0xd21, 0x13, 0x4a13, aa_nosupport, cidc_dc); (0xd21, 0x11, 0, aa_nosupport, cidc_dc)].
(** The first row for a part, and what is to be probed for it. *)
Definition find_part (n d i : Z) : option part :=
  List.find (fun r => (part_number r =? n) && (dev_type r =? d) && (arch_id r =? i)) pidr_pn_bits.

(** ** Updates of an access port *)
Definition set_ap_found (demcr storage designer partno : Z) (a : ADIv5_AP) : ADIv5_AP :=
  {| ap_refcnt := ap_refcnt a; ap_dp := ap_dp a; apsel := apsel a; idr := idr a; base := base a; csw := csw a;
     ap_cortexm_demcr := demcr; ap_storage := storage; ap_designer := designer; ap_partno := partno |}.
Definition set_ap_demcr d a := set_ap_found d (ap_storage a) (ap_designer a) (ap_partno a) a.
Definition set_ap_storage s a := set_ap_found (ap_cortexm_demcr a) s (ap_designer a) (ap_partno a) a.
Definition set_ap_ids d n a := set_ap_found (ap_cortexm_demcr a) (ap_storage a) d n a.
Definition new_ap (dp : positive) (sel idr_ base_ csw_ : Z) : ADIv5_AP :=
  {| ap_refcnt := 0; ap_dp := dp; apsel := sel; idr := idr_; base := base_; csw := csw_;
     ap_cortexm_demcr := 0; ap_storage := 0; ap_designer := 0; ap_partno := 0 |}.

(** [cortexa_probe], of cortexa.c. *)
Class CortexaIf (D : Type) := { cortexa_probe : positive -> Z -> M (world D) bool }.
(** The wire under an SWD port: the controller's [seq_out] and [low_write]. *)
Class SwdPort (E : Type) := {
  port_seq_out : Z -> Z -> M E unit;
  port_low_write : positive -> Z -> Z -> M E bool;
}.

Section Scan.
Context {E : Type} `{GdbIf E} `{MemIf E} `{ClockIf E} `{DpIf E} `{DpObj E}
        `{ProbeIf (cm_dev E)} `{HostIf (cm_dev E)} `{DRV : Driver (cm_dev E)} `{DeviceIf (cm_dev E)} `{CortexaIf (cm_dev E)}.
Notation MW := (M (world (cm_dev E))).
Variable polls : nat.

(** ** Halting the core before its tables are read *)
Definition mem_write32 (ap : ADIv5_AP) (addr v : Z) : MW unit := adiv5_mem_write ap addr (le_bytes 4 v) 4.
(** The count of transactions, growing with the time since the start. *)
Definition next_trncnt (start trncnt : Z) : MW Z :=
  if trncnt <? 0xfff then
    let! now := platform_time_ms in ret (i32 (trncnt + u32 (u32 (now - start) * 8)))
  else ret 0xfff.
Definition dhcsr_ctl : Z := Z.lor (Z.lor CORTEXM_DHCSR_DBGKEY CORTEXM_DHCSR_C_DEBUGEN) CORTEXM_DHCSR_C_HALT.
Definition dhcsr_valid : Z := Z.lor CORTEXM_DHCSR_S_HALT CORTEXM_DHCSR_C_DEBUGEN.
Definition halt_round (ap : ADIv5_AP) (c : nat) (use_low_access : bool) (ctrlstat timeout start : Z) (st : Z * bool) : MW ((Z * bool) + Z) :=
  let '(trncnt, reset_seen) := st in
  let! e := platform_timeout_is_expired timeout in
  if e : bool then ret (inr 0) else
  let! (dhcsr, trncnt) :=
    if use_low_access then
      do! adiv5_dp_low_access (ap_dp ap) ADIV5_LOW_WRITE ADIV5_DP_CTRLSTAT (Z.lor ctrlstat (u32 (trncnt * ADIV5_DP_CTRLSTAT_TRNCNT))) in
      do! adiv5_dp_low_access (ap_dp ap) ADIV5_LOW_WRITE ADIV5_AP_DRW dhcsr_ctl in
      let! trncnt := next_trncnt start trncnt in
      let! dhcsr := adiv5_dp_low_access (ap_dp ap) ADIV5_LOW_READ ADIV5_AP_DRW 0 in
      ret (dhcsr, trncnt)
    else
      do! mem_write32 ap CORTEXM_DHCSR dhcsr_ctl in
      let! dhcsr := adiv5_mem_read32 ap CORTEXM_DHCSR in
      ret (dhcsr, trncnt) in
  if negb (dhcsr =? 0xffffffff) && (Z.land dhcsr 0xf000fff0 =? 0) then
    if flag dhcsr CORTEXM_DHCSR_S_RESET_ST && negb reset_seen then
      let! tc := load_ctl c in
      ret (if connect_assert_srst tc then inr dhcsr else inl (trncnt, true))
    else ret (if Z.land dhcsr dhcsr_valid =? dhcsr_valid then inr dhcsr else inl (trncnt, reset_seen))
  else ret (inl (trncnt, reset_seen)).
(** DHCSR of the halted core, or 0. *)
Definition cortexm_initial_halt (h : positive) : MW Z :=
  let! ap := load_ap h in
  let! ctrlstat := adiv5_dp_read (ap_dp ap) ADIV5_DP_CTRLSTAT in
  let! d := on_dp (load_dpo (ap_dp ap)) in
  let! tc := load_ctl (o_tc d) in
  let! timeout := platform_timeout_set (cortexm_wait_timeout tc) in
  let use_low_access := negb (flag (o_idcode d) ADIV5_MINDP) in
  do! when use_low_access
    (do! adiv5_ap_write ap ADIV5_AP_CSW (Z.lor (csw ap) ADIV5_AP_CSW_SIZE_WORD) in
     do! adiv5_dp_low_access (ap_dp ap) ADIV5_LOW_WRITE ADIV5_AP_TAR CORTEXM_DHCSR in ret tt) in
  let! start := platform_time_ms in
  iter polls (halt_round ap (o_tc d) use_low_access ctrlstat timeout start) (0x80, false).

Definition release_body (ap : ADIv5_AP) (timeout : Z) (_ : unit) : MW (unit + bool) :=
  let! dhcsr := adiv5_mem_read32 ap CORTEXM_DHCSR in
  if negb (flag dhcsr CORTEXM_DHCSR_S_RESET_ST) then ret (inr true) else
  let! e := platform_timeout_is_expired timeout in
  ret (if e : bool then inr false else inl tt).
(** The settings an STM32F7 needs for its tables to be readable. *)
Definition stm32f7_dbgmcu (h : positive) (ap : ADIv5_AP) (targetid : Z) : MW unit :=
  let part := Z.land (Z.shiftr targetid 16) 0xfff in
  when ((Z.land (Z.shiftr targetid 1) 0x7ff =? 0x20) && ((part =? 0x449) || (part =? 0x451) || (part =? 0x452)))
    (let! v := adiv5_mem_read32 ap 0xE0042004 in
     do! upd_ap h (set_ap_storage v) in
     mem_write32 ap 0xE0042004 (Z.lor v 7)).
(** The log statements read the clock, and DHCSR after a failure. *)
Definition cortexm_prepare (h : positive) : MW bool :=
  let! _ := platform_time_ms in
  let! dhcsr := cortexm_initial_halt h in
  let! ap := load_ap h in
  if dhcsr =? 0 then
    do! adiv5_mem_read32 ap CORTEXM_DHCSR in
    do! platform_time_ms in ret false
  else
  do! platform_time_ms in
  let! demcr := adiv5_mem_read32 ap CORTEXM_DEMCR in
  do! upd_ap h (set_ap_demcr demcr) in
  do! mem_write32 ap CORTEXM_DEMCR (Z.lor (Z.lor CORTEXM_DEMCR_TRCENA CORTEXM_DEMCR_VC_HARDERR) CORTEXM_DEMCR_VC_CORERESET) in
  let! d := on_dp (load_dpo (ap_dp ap)) in
  let! tc := load_ctl (o_tc d) in
  let! timeout := platform_timeout_set (cortexm_wait_timeout tc) in
  do! platform_call (o_tc d) (srst_set_val (o_tc d) false) in
  let! ok := iter polls (release_body ap timeout) tt in
  if negb ok then ret false else
  do! stm32f7_dbgmcu h ap (o_targetid d) in
  ret true.

(** ** ROM tables *)
Definition CID_class (cidr : Z) : Z := Z.shiftr (Z.land cidr CID_CLASS_MASK) 12.
Definition preamble_ok (cidr : Z) : bool := Z.land cidr (u32 (Z.lnot CID_CLASS_MASK)) =? CID_PREAMBLE.
Definition designer_of (pidr : Z) : Z := u16 (Z.lor (Z.land (Z.shiftr pidr 24) 0xf00) (Z.land (Z.shiftr pidr 12) 0x7f)).
Definition by_arm (pidr : Z) : bool := Z.land pidr (u64 (Z.lnot (Z.lor PIDR_REV_MASK PIDR_PN_MASK))) =? PIDR_ARM_BITS.
(** A loop over the entries of a table; [probe] is given the component's address. *)
Fixpoint rom_entries (probe : Z -> MW unit) (ap : ADIv5_AP) (addr : Z) (n : nat) (i : Z) : MW unit :=
  match n with
  | O => ret tt
  | S n' =>
      do! on_dp (dp_error (ap_dp ap)) in
      let! entry := adiv5_mem_read32 ap (u32 (addr + i * 4)) in
      let! e := on_dp (dp_error (ap_dp ap)) in
      if negb (e =? 0) then ret tt
      else if entry =? 0 then ret tt
      else if negb (flag entry ADIV5_ROM_ROMENTRY_PRESENT) then rom_entries probe ap addr n' (i + 1)
      else do! probe (u32 (addr + Z.land entry ADIV5_ROM_ROMENTRY_OFFSET)) in rom_entries probe ap addr n' (i + 1)
  end.
(** The table of the whole device names it; a protected SAMx5x is probed at
    once, and the result is whether it is one. *)
Definition name_device (h : positive) (ap : ADIv5_AP) (pidr : Z) : MW bool :=
  let designer := designer_of pidr in
  let partno := Z.land pidr 0xfff in
  do! upd_ap h (set_ap_ids designer partno) in
  if (designer =? AP_DESIGNER_ATMEL) && (partno =? 0xcd0) then
    let! ctrlstat := adiv5_mem_read32 ap SAMX5X_DSU_CTRLSTAT in
    if flag ctrlstat SAMX5X_STATUSB_PROT then do! cortexm_probe h in ret true else ret false
  else ret false.
(** DEVTYPE and ARCHID of a debug component, 0 for the others. *)
Definition component_ids (ap : ADIv5_AP) (addr cid_class : Z) : MW (Z * Z) :=
  if cid_class =? cidc_dc then
    let! ty := adiv5_mem_read32 ap (u32 (addr + DEVTYPE_OFFSET)) in
    let! devarch := adiv5_mem_read32 ap (u32 (addr + DEVARCH_OFFSET)) in
    ret (Z.land ty DEVTYPE_MASK, if flag devarch DEVARCH_PRESENT then Z.land devarch DEVARCH_ARCHID_MASK else 0)
  else ret (0, 0).
Definition probe_part (h : positive) (addr : Z) (r : option part) : MW unit :=
  match r with
  | Some r => match arch r with
              | aa_cortexm => do! cortexm_probe h in ret tt
              | aa_cortexa => do! cortexa_probe h addr in ret tt
              | aa_nosupport => ret tt
              end
  | None => ret tt
  end.
(** [depth]: the tables that may be nested; the code has no limit. *)
Fixpoint adiv5_component_probe (depth : nat) (h : positive) (addr recursion : Z) : MW unit :=
  match depth with
  | O => hang
  | S depth' =>
      let! ap := load_ap h in
      let addr := Z.land addr 0xfffff000 in
      if addr =? 0 then ret tt else
      let! cidr := adiv5_ap_read_id ap (u32 (addr + CIDR0_OFFSET)) in
      let! d := on_dp (load_dpo (ap_dp ap)) in
      if negb (o_fault d =? 0) then ret tt else
      if negb (preamble_ok cidr) then ret tt else
      let! e := on_dp (dp_error (ap_dp ap)) in
      if negb (e =? 0) then ret tt else
      let! pidr := adiv5_ap_read_pidr ap addr in
      let cid_class := CID_class cidr in
      if cid_class =? cidc_romtab then
        do! adiv5_mem_read32 ap (Z.lor addr ADIV5_ROM_MEMTYPE) in
        do! on_dp (dp_error (ap_dp ap)) in
        let! done := if recursion =? 0 then name_device h ap pidr else ret false in
        if done : bool then ret tt else
        rom_entries (fun a => adiv5_component_probe depth' h a (recursion + 1)) ap addr 960 0
      else if negb (by_arm pidr) then ret tt
      else
        let! (dev_type, arch_id) := component_ids ap addr cid_class in
        probe_part h addr (find_part (Z.land pidr PIDR_PN_MASK) dev_type arch_id)
  end.

(** ** Access ports *)
Definition adiv5_new_ap (dp : positive) (sel : Z) : MW (option positive) :=
  let tmpap := new_ap dp sel 0 0 0 in
  let! idr_ := adiv5_ap_read tmpap ADIV5_AP_IDR in
  let! base_ := adiv5_ap_read tmpap ADIV5_AP_BASE in
  if base_ =? 0xffffffff then ret None else
  if idr_ =? 0 then ret None else
  let! v := adiv5_ap_read tmpap ADIV5_AP_CSW in
  let csw_ := Z.land v (u32 (Z.lnot (Z.lor ADIV5_AP_CSW_SIZE_MASK ADIV5_AP_CSW_ADDRINC_MASK))) in
  if flag csw_ ADIV5_AP_CSW_TRINPROG then ret None else
  let! ap := MemManager_Alloc sizeof_AP in
  match ap with
  | None => ret None
  | Some h =>
      do! store_ap h (new_ap dp sel idr_ base_ csw_) in
      let! ap := load_ap h in
      do! adiv5_ap_read ap ADIV5_AP_CFG in
      do! adiv5_ap_ref h in
      ret (Some h)
  end.
(** The RP2040's rescue port has no access port: a blank one stands for it. *)
Definition rp_rescue_setup (dp : positive) : MW unit :=
  let! ap := MemManager_Alloc sizeof_AP in
  match ap with
  | None => ret tt
  | Some h => do! store_ap h (new_ap dp 0 0 0 0) in rp_rescue_probe h
  end.
Variable rom_depth : nat.
(** What is looked for behind an access port. *)
Definition probe_ap (h : positive) : MW unit :=
  do! kinetis_mdm_probe h in
  do! nrf51_mdm_probe h in
  do! efm32_aap_probe h in
  let! ap := load_ap h in
  do! when ((apsel ap =? 0) && (Z.land (idr ap) 0xf =? ARM_AP_TYPE_AHB)) (do! cortexm_prepare h in ret tt) in
  do! adiv5_component_probe rom_depth h (base ap) 0 in
  adiv5_ap_unref h.
(** The result: whether the search went through all ports; otherwise the
    function has returned, the reference to the debug port given back. *)
Fixpoint search_aps (dp : positive) (n : nat) (i void_aps last_base : Z) : MW bool :=
  match n with
  | O => ret true
  | S n' =>
      if negb (void_aps <? 8) then ret true else
      let! ap := adiv5_new_ap dp i in
      match ap with
      | None => if i =? 0 then do! adiv5_dp_unref dp in ret false
                else search_aps dp n' (i + 1) (void_aps + 1) last_base
      | Some h =>
          let! ap := load_ap h in
          if base ap =? last_base then
            do! adiv5_ap_unref h in do! adiv5_dp_unref dp in ret false
          else
            do! probe_ap h in search_aps dp n' (i + 1) void_aps (base ap)
      end
  end.

(** ** Debug ports *)
Definition free_dp (dp : positive) : MW unit := do! MemManager_Free (Some dp) in on_dp (drop_dpo dp).
Definition powerup_body (dp : positive) (timeout : Z) (_ : unit) : MW (unit + bool) :=
  let! ctrlstat := adiv5_dp_read dp ADIV5_DP_CTRLSTAT in
  let acks := Z.lor ADIV5_DP_CTRLSTAT_CSYSPWRUPACK ADIV5_DP_CTRLSTAT_CDBGPWRUPACK in
  if Z.land ctrlstat acks =? acks then ret (inr true) else
  let! e := platform_timeout_is_expired timeout in
  ret (if e : bool then inr false else inl tt).
Definition reset_body (dp : positive) (timeout : Z) (_ : unit) : MW (unit + unit) :=
  do! platform_delay 20 in
  let! ctrlstat := adiv5_dp_read dp ADIV5_DP_CTRLSTAT in
  if flag ctrlstat ADIV5_DP_CTRLSTAT_CDBGRSTACK then ret (inr tt) else
  let! e := platform_timeout_is_expired timeout in
  ret (if e : bool then inr tt else inl tt).
(** CTRLSTAT, after an abort when the port does not answer. *)
Definition first_ctrlstat (dp : positive) : MW Z :=
  let! r := try_catch EXCEPTION_TIMEOUT (adiv5_dp_read dp ADIV5_DP_CTRLSTAT) in
  match r with
  | inl v => ret v
  | inr _ =>
      do! on_dp (dp_abort dp ADIV5_DP_ABORT_DAPABORT) in adiv5_dp_read dp ADIV5_DP_CTRLSTAT
  end.
(** Power-up, and the debug reset; whether the port is powered. *)
Definition dp_power_up (dp : positive) : MW bool :=
  let! ctrlstat := first_ctrlstat dp in
  let! timeout := platform_timeout_set 201 in
  do! adiv5_dp_write dp ADIV5_DP_CTRLSTAT
    (Z.lor ctrlstat (Z.lor ADIV5_DP_CTRLSTAT_CSYSPWRUPREQ ADIV5_DP_CTRLSTAT_CDBGPWRUPREQ)) in
  let! ok := iter polls (powerup_body dp timeout) tt in
  if negb ok then do! MemManager_Free (Some dp) in do! on_dp (drop_dpo dp) in ret false else
  let! ctrlstat := adiv5_dp_read dp ADIV5_DP_CTRLSTAT in
  do! adiv5_dp_write dp ADIV5_DP_CTRLSTAT (Z.lor ctrlstat ADIV5_DP_CTRLSTAT_CDBGRSTREQ) in
  let! ctrlstat := adiv5_dp_read dp ADIV5_DP_CTRLSTAT in
  do! adiv5_dp_write dp ADIV5_DP_CTRLSTAT (Z.land ctrlstat (u32 (Z.lnot ADIV5_DP_CTRLSTAT_CDBGRSTREQ))) in
  do! adiv5_dp_read dp ADIV5_DP_CTRLSTAT in
  do! iter polls (reset_body dp timeout) tt in
  ret true.
Definition adiv5_dp_init (dp : positive) : MW unit :=
  let! d := on_dp (load_dpo dp) in
  if (Z.land (o_idcode d) 0xfff =? 0) || (Z.land (o_idcode d) DPIDR_PARTNO_MASK =? DPIDR_PARTNO_MASK) then free_dp dp
  else if o_idcode d =? 0x10212927 then rp_rescue_setup dp
  else
  let! powered := dp_power_up dp in
  if negb powered then ret tt else
  do! upd_dpo dp (fun d => set_o_refcnt (o_refcnt d + 1) d) in
  let! all := search_aps dp 256 0 0 0 in
  if negb all then ret tt else
  let! tc := load_ctl (o_tc d) in
  do! for_each (target_list tc) (fun p => target_halt_resume (Some p) false) in
  adiv5_dp_unref dp.

(** ** adiv5_jtagdp.c: a debug port of the chain

    The block is not cleared: [left_over] is what was in it. *)
Definition adiv5_jtag_dp_handler (left_over : dp_obj) (c : nat) (bind_device : positive -> M E unit) (idcode : Z) : MW unit :=
  let! dp := MemManager_Alloc sizeof_DP in
  match dp with
  | None => ret tt
  | Some h =>
      do! on_dp (store_dpo h {| o_refcnt := o_refcnt left_over; o_idcode := idcode; o_targetid := o_targetid left_over;
                                 o_fault := o_fault left_over; o_tc := c |}) in
      do! on_dp (bind_device h) in
      adiv5_dp_init h
  end.

(** ** adiv5_swdp.c

    The port of the scan is a local object, at [idp]. *)
Context `{SwdPort E}.
Variable idp : positive.
Definition out_bits (v ticks : Z) : MW unit := on_dp (port_seq_out v ticks).
Definition line_reset : MW unit := do! out_bits 0xFFFFFFFF 32 in out_bits 0x0FFFFFFF 32.
Definition dormant_to_swd : MW unit :=
  do! out_bits 0xFFFFFFFF 32 in do! out_bits 0xFFFFFFFF 32 in
  do! out_bits 0x6209f392 32 in do! out_bits 0x86852d95 32 in
  do! out_bits 0xe3ddafe9 32 in do! out_bits 0x19bc0ea2 32 in
  out_bits 0x1a0 12.
Definition jtag_to_swd : MW unit :=
  do! out_bits 0xFFFFFFFF 32 in do! out_bits 0xFFFFFFFF 32 in out_bits 0xE79E 16.
(** IDCODE read from the port, None when that fails: an exception that is caught
    has a type, which is not 0. *)
Definition try_idcode : MW (option Z) :=
  let! r := try_catch EXCEPTION_ALL (adiv5_dp_read idp ADIV5_DP_IDCODE) in
  let! d := on_dp (load_dpo idp) in
  ret match r with
      | inl v => if o_fault d =? 0 then Some v else None
      | inr _ => None
      end.
(** IDCODE, target identity and whether to go through 16 ports; None when no
    port answers.  This probe's ports have a [dp_low_write]. *)
Definition find_first (targetid : Z) : MW (option (Z * Z * bool)) :=
  if negb (targetid =? 0) then ret (Some (0, targetid, true)) else
  do! line_reset in
  let! first := try_idcode in
  let! found :=
    match first with
    | Some idcode => ret (Some idcode)
    | None =>
        do! jtag_to_swd in
        do! line_reset in
        do! upd_dpo idp (set_o_fault 0) in
        try_idcode
    end in
  match found with
  | None => ret None
  | Some idcode =>
      if Z.land idcode ADIV5_DP_VERSION_MASK =? ADIV5_DPv2 then
        do! adiv5_dp_write idp ADIV5_DP_SELECT 2 in
        let! target_id := adiv5_dp_read idp ADIV5_DP_CTRLSTAT in
        do! adiv5_dp_write idp ADIV5_DP_SELECT 0 in
        do! when (target_id =? 0x01002927) (adiv5_dp_write idp ADIV5_DP_CTRLSTAT 0) in
        ret (Some (idcode, target_id, true))
      else ret (Some (idcode, 0, false))
  end.
Definition init_port (c : nat) (idcode targetid : Z) : MW unit :=
  let! dp := MemManager_Alloc sizeof_DP in
  match dp with
  | None => ret tt
  | Some h =>
      let! i := on_dp (load_dpo idp) in
      do! on_dp (store_dpo h {| o_refcnt := o_refcnt i; o_idcode := idcode; o_targetid := targetid; o_fault := o_fault i; o_tc := c |}) in
      adiv5_dp_init h
  end.
(** The ports of a multi-drop target. *)
Fixpoint multidrop (c : nat) (target_id : Z) (n : nat) (i : Z) : MW unit :=
  match n with
  | O => ret tt
  | S n' =>
      do! line_reset in
      let dp_targetid := Z.lor (u32 (Z.shiftl i 28)) (Z.land target_id 0x0fffffff) in
      do! on_dp (port_low_write idp ADIV5_DP_TARGETSEL dp_targetid) in
      let! r := try_idcode in
      do! match r with
          | None => ret tt
          | Some idcode => init_port c idcode dp_targetid
          end in
      multidrop c target_id n' (i + 1)
  end.
Definition adiv5_swdp_scan (c : nat) (targetid : Z) : MW Z :=
  do! target_list_free c in
  do! on_dp (store_dpo idp {| o_refcnt := 0; o_idcode := 0; o_targetid := 0; o_fault := 0; o_tc := c |}) in
  do! dormant_to_swd in
  let! found := find_first targetid in
  match found with
  | None => ret 0
  | Some (idcode, target_id, scan_multidrop) =>
      do! if scan_multidrop : bool then multidrop c target_id 16 0 else init_port c idcode target_id in
      let! tc := load_ctl c in
      ret (match target_list tc with [] => 0 | _ => 1 end)
  end.

(** The scans command.c calls; the search of the JTAG chain is Jtag's. *)
#[export] Instance scan_if (chain : nat -> option (list Z) -> MW Z) : ScanIf (cm_dev E) | 100 := {
  jtag_scan := chain;
  Command.adiv5_swdp_scan := adiv5_swdp_scan;
}.
End Scan.

(** ** The scan over this probe's SWD

    Its debug ports are Swd's, of one controller; a port that is stored has the
    controller's methods. *)
Section SwdScan.
Context {E : Type} `{PioIf E} `{ClockIf E}.
Variables (depth polls : nat) (c : nat).
Definition dpo_of (d : ADIv5_DP) : dp_obj :=
  {| o_refcnt := dp_refcnt d; o_idcode := dp_idcode d; o_targetid := dp_targetid d; o_fault := fault d; o_tc := c |}.
Definition swd_dp_of (o : dp_obj) : ADIv5_DP :=
  {| dp_refcnt := o_refcnt o; dp_idcode := o_idcode o; dp_targetid := o_targetid o; dp_low_write := Some PlatformAccess;
     low_access := PlatformAccess; fault := o_fault o |}.
#[export] Instance swd_obj : DpObj (swd_state E) | 100 := {
  load_dpo dp := let! d := load_dp dp in ret (dpo_of d);
  store_dpo dp o := modify (fun s => set_dps (<[dp := swd_dp_of o]> (dps s)) s);
  drop_dpo dp := modify (fun s => set_dps (delete dp (dps s)) s);
  dp_error := firmware_swdp_error depth polls;
  dp_abort := firmware_swdp_abort (swd_low_access depth polls);
}.
#[export] Instance swd_port : SwdPort (swd_state E) | 100 := {
  port_seq_out := seq_out;
  port_low_write _ := platform_swd_low_write;
}.
End SwdScan.
