(* ===== verification/ScanProps.v ===== *)
(** The theorems about the search for targets: what a scan of an access port's
    ROM tables probes, as a function of the memory image, and that a table that
    leads back to itself is never left. *)

From Stdlib Require Import ZArith Lia String.
From stdpp Require Import base list numbers option gmap.
From S2P Require Import Prelude CLib GdbIf MemManager GdbPacket TargetState Target TargetProps Platform Exception Morse Command Dap Adiv5 Adiv5Props Objects Cortexm CoreSpec Recovery Scan.

(** ** The reference: the components of a memory image

    What a scan finds, in order: the name of the device, a Cortex-M, or a
    Cortex-A whose registers are at an address. *)
Inductive found : Set := Named (designer partno : Z) | Mcore | Acore (addr : Z).
Definition word (mem : Z -> Z) (a : Z) : Z := le_val (mem_bytes mem a 4).
Definition cidr_of (mem : Z -> Z) (a : Z) : Z := le_val (id_bytes mem (a + CIDR0_OFFSET)).
Definition pidr_of (mem : Z -> Z) (a : Z) : Z :=
  le_val (id_bytes mem (a + PIDR0_OFFSET) ++ id_bytes mem (a + PIDR4_OFFSET)).

Section Reference.
(** The blocks of 4 KiB, by their address, that hold tables and identities. *)
Variable rom : Z -> bool.
Variable mem : Z -> Z.
Definition part_found (a : Z) (r : option part) : list found :=
  match r with
  | Some r => match arch r with aa_cortexm => [Mcore] | aa_cortexa => [Acore a] | aa_nosupport => [] end
  | None => []
  end.
Definition ids_of (a cls : Z) : Z * Z :=
  if cls =? cidc_dc then
    (Z.land (word mem (a + DEVTYPE_OFFSET)) DEVTYPE_MASK,
     if flag (word mem (a + DEVARCH_OFFSET)) DEVARCH_PRESENT then Z.land (word mem (a + DEVARCH_OFFSET)) DEVARCH_ARCHID_MASK else 0)
  else (0, 0).
(** The entries of a table from [i] on, up to the first 0; None when one of
    them is not a component of the image. *)
Fixpoint table (sub : Z -> option (list found)) (a : Z) (n : nat) (i : Z) : option (list found) :=
  match n with
  | O => Some []
  | S n' =>
      let entry := word mem (a + i * 4) in
      if entry =? 0 then Some []
      else if negb (flag entry ADIV5_ROM_ROMENTRY_PRESENT) then table sub a n' (i + 1)
      else l ← sub (u32 (a + Z.land entry ADIV5_ROM_ROMENTRY_OFFSET)); l' ← table sub a n' (i + 1); Some (l ++ l')
  end.
(** At the top the device is named, and a protected SAMx5x probed at once. *)
Definition device_found (pidr : Z) : option (list found * bool) :=
  let designer := designer_of pidr in let partno := Z.land pidr 0xfff in
  if (designer =? AP_DESIGNER_ATMEL) && (partno =? 0xcd0) then
    if rom 0x41002000 then
      if flag (word mem SAMX5X_DSU_CTRLSTAT) SAMX5X_STATUSB_PROT then Some ([Named designer partno; Mcore], true)
      else Some ([Named designer partno], false)
    else None
  else Some ([Named designer partno], false).
Fixpoint components (depth : nat) (a : Z) (top : bool) : option (list found) :=
  match depth with
  | O => None
  | S depth' =>
      let a := Z.land a 0xfffff000 in
      if a =? 0 then Some [] else
      if negb (rom a) then None else
      if negb (preamble_ok (cidr_of mem a)) then Some [] else
      let cls := CID_class (cidr_of mem a) in
      if cls =? cidc_romtab then
        if top then
          '(l, protected) ← device_found (pidr_of mem a);
          if protected : bool then Some l else l' ← table (fun x => components depth' x false) a 960 0; Some (l ++ l')
        else table (fun x => components depth' x false) a 960 0
      else if negb (by_arm (pidr_of mem a)) then Some []
      else let '(ty, id) := ids_of a cls in Some (part_found a (find_part (Z.land (pidr_of mem a) PIDR_PN_MASK) ty id))
  end.
End Reference.

(** ** The port *)
Class RomPort (E : Type) (DP : DpIf E) (DO : DpObj E) (dp : positive) (s : Z) := {
  rp_dap :: DapSpec E dp s;
  rp_bytes : forall e : E, dap_wf e -> forall a, is_byte (d_mem (dap_of e) a);
  rp_error : forall e : E, dap_wf e -> exists e', dp_error dp e = Ok 0 e' /\ dap_wf e' /\ d_mem (dap_of e') = d_mem (dap_of e);
  rp_obj : forall e : E, dap_wf e -> exists d, load_dpo dp e = Ok d e /\ o_fault d = 0;
}.

Section Scanning.
Context {E : Type} {GI : GdbIf E} {MI : MemIf E} {CLK : ClockIf E} {DP : DpIf E} {DO : DpObj E}
        {PI : ProbeIf (cm_dev E)} {HI : HostIf (cm_dev E)} {DRV : Driver (cm_dev E)} {DI : DeviceIf (cm_dev E)} {CA : CortexaIf (cm_dev E)}
        {dp : positive} {s : Z} {RP : RomPort E DP DO dp s}.
Notation W := (world (cm_dev E)).
Notation MW := (M W).
Notation memory w := (d_mem (dap_of (out w))).

(** The registers of the port may have changed, nothing else. *)
Definition quiet (w w' : W) : Prop := w' = set_out (out w') w /\ dap_wf (out w') /\ memory w' = memory w.
Lemma quiet_refl w : dap_wf (out w) -> quiet w w.
Proof. intros Hwf. split; [by destruct w as [? ? ? ? []]|done]. Qed.
Lemma quiet_trans w1 w2 w3 : quiet w1 w2 -> quiet w2 w3 -> quiet w1 w3.
Proof.
  intros (H1 & _ & M1) (H2 & Hwf & M2). split; [|split; [done|congruence]]. rewrite H2 at 1. rewrite H1. done.
Qed.
(** The port as one of the whole world, of which it leaves the rest alone. *)
Definition world_dap (w0 : W) : DapSpec W dp s.
Proof.
  refine {| dap_wf w := dap_wf (out w) /\ w = set_out (out w) w0; dap_of w := dap_of (out w); apsel_byte := apsel_byte |}.
  intros w RnW addr v reg [Hwf Hw] Hv Hd Hok. destruct (low_access_step (out w) RnW addr v reg Hwf Hv Hd Hok) as (r & e & Hr & Hwf' & Hst).
  exists r, (set_out e w). split; [|split; [split; [done|by rewrite Hw]|done]].
  cbn [dp_low_access world_dp cm_dp]. unfold lift, beyond. unfold out in Hr. by rewrite Hr.
Defined.

Variable h : positive.
(** The access port [h] leads to the memory. *)
Definition rom_port (w : W) (ap : ADIv5_AP) : Prop :=
  aps (dev w) !! h = Some ap /\ ap_dp ap = dp /\ apsel ap = s /\ is_u32 (csw ap) /\ Z.land (csw ap) 0x37 = 0.
Lemma quiet_port w w' ap : quiet w w' -> rom_port w ap -> rom_port w' ap.
Proof. intros (-> & _) Hp. exact Hp. Qed.
Lemma load_port w ap : rom_port w ap -> load_ap h w = Ok ap w.
Proof. intros (Hap & _). unfold load_ap, bind, get. by rewrite Hap. Qed.

Section Reads.
Variable ap : ADIv5_AP.
Hypothesis port : ap_dp ap = dp /\ apsel ap = s.
Hypothesis clear : is_u32 (csw ap) /\ Z.land (csw ap) 0x37 = 0.
Lemma word_run a (w : W) : dap_wf (out w) -> 0 <= a -> a + 4 <= 2 ^ 32 ->
  exists w', adiv5_mem_read32 ap a w = Ok (word (memory w) a) w' /\ quiet w w'.
Proof.
  intros Hwf Ha Hl. destruct (@read32_ok _ _ _ _ (world_dap w) ap port clear a w) as (w' & Hr & (Hwf' & Hw) & Hm);
    [split; [done|by destruct w as [? ? ? ? []]]|done|done|]. by exists w'.
Qed.
Lemma id_run a (w : W) : dap_wf (out w) -> 0 <= a -> a + 16 <= 2 ^ 32 ->
  exists w', adiv5_ap_read_id ap a w = Ok (le_val (id_bytes (memory w) a)) w' /\ quiet w w'.
Proof.
  intros Hwf Ha Hl. destruct (@read_id_ok _ _ _ _ (world_dap w) ap port clear a w) as (w' & Hr & (Hwf' & Hw) & Hm);
    [split; [done|by destruct w as [? ? ? ? []]]|by apply rp_bytes|done|done|]. by exists w'.
Qed.
Lemma pidr_run a (w : W) : dap_wf (out w) -> 0 <= a -> a + 4096 <= 2 ^ 32 ->
  exists w', adiv5_ap_read_pidr ap a w = Ok (pidr_of (memory w) a) w' /\ quiet w w'.
Proof.
  intros Hwf Ha Hl. destruct (@pidr_correct _ _ _ _ (world_dap w) ap port clear a w) as (w' & Hr & (Hwf' & Hw) & Hm);
    [split; [done|by destruct w as [? ? ? ? []]]|by apply rp_bytes|done|done|]. by exists w'.
Qed.
Lemma error_run (w : W) : dap_wf (out w) -> exists w', on_dp (dp_error (ap_dp ap)) w = Ok 0 w' /\ quiet w w'.
Proof.
  intros Hwf. destruct (rp_error (out w) Hwf) as (e & Hr & Hwf' & Hm). exists (set_out e w). rewrite (proj1 port).
  split; [|by split]. unfold on_dp, lift, beyond. unfold out in Hr. by rewrite Hr.
Qed.
Lemma obj_run (w : W) : dap_wf (out w) -> exists d, on_dp (load_dpo (ap_dp ap)) w = Ok d w /\ o_fault d = 0.
Proof.
  intros Hwf. destruct (rp_obj (out w) Hwf) as (d & Hr & Hf). exists d. rewrite (proj1 port). split; [|done].
  unfold on_dp, lift, beyond. unfold out in Hr. rewrite Hr. by destruct w as [? ? ? ? []].
Qed.
End Reads.

(** ** A scan as a sequence of probes

    [scans l w o]: from [w] on, the things of [l] are probed in order, each in a
    state that differs from the one before only in the port's registers, and
    [o] is the outcome: the first that does not return, or the end.  What
    happens after a probe that has overwritten the tables is left open. *)
Section Sequence.
Variable rom : Z -> bool.
Variable mem : Z -> Z.
Definition probe_found (f : found) : MW unit :=
  match f with
  | Named d n => upd_ap h (set_ap_ids d n)
  | Mcore => do! cortexm_probe h in ret tt
  | Acore a => do! cortexa_probe h a in ret tt
  end.
Definition intact (w : W) : Prop :=
  dap_wf (out w) /\ (exists ap, rom_port w ap) /\
  forall a i, rom a = true -> 0 <= i < 4096 -> memory w (a + i) = mem (a + i).
Fixpoint scans (l : list found) (w : W) (o : outcome W unit) : Prop :=
  match l with
  | [] => exists w', o = Ok tt w' /\ quiet w w'
  | f :: l' => exists w1, quiet w w1 /\
      match probe_found f w1 with
      | Ok _ w2 => intact w2 -> scans l' w2 o
      | stop => o = stop
      end
  end.
Lemma quiet_intact w w' : quiet w w' -> intact w -> intact w'.
Proof.
  intros Hq (Hwf & (ap & Hp) & Hm). pose proof Hq as (_ & Hwf' & Hm'). split; [done|]. split; [exists ap; by eapply quiet_port|].
  rewrite Hm'. exact Hm.
Qed.
Lemma quiet_scans l w w' o : quiet w w' -> scans l w' o -> scans l w o.
Proof.
  intros Hq Hs. destruct l as [|f l]; cbn [scans] in *.
  - destruct Hs as (w2 & -> & Hq2). exists w2. split; [done|by eapply quiet_trans].
  - destruct Hs as (w1 & Hq1 & Ho). exists w1. split; [by eapply quiet_trans|done].
Qed.
(** One part of a scan after another. *)
Lemma scans_bind l1 l2 (k : MW unit) : (forall w', intact w' -> scans l2 w' (k w')) -> forall w (m : MW unit), intact w ->
  scans l1 w (m w) -> scans (l1 ++ l2) w (bind m (fun _ => k) w).
Proof.
  intros Hk. assert (Ho : forall w o, intact w -> scans l1 w o ->
    scans (l1 ++ l2) w (match o with Ok _ w' => k w' | Raise ty msg w' => Raise ty msg w' | Fault why w' => Fault why w' | Hang => Hang end)).
  { induction l1 as [|f l1 IH]; intros w o Hi; cbn [scans app].
    - intros (w' & -> & Hq). eapply quiet_scans; [exact Hq|]. apply Hk. by eapply quiet_intact.
    - intros (w1 & Hq & Hp). exists w1. split; [done|]. destruct (probe_found f w1) as [u w2|ty msg w2|why w2|]; try by subst.
      intros Hi2. apply IH; [done|by apply Hp]. }
  intros w m Hi Hs. exact (Ho w (m w) Hi Hs).
Qed.
Lemma scans_one f w : dap_wf (out w) -> scans [f] w (probe_found f w).
Proof.
  intros Hwf. cbn [scans]. exists w. split; [by apply quiet_refl|]. destruct (probe_found f w) as [[] w2| | |]; try done.
  intros Hi. exists w2. split; [done|]. apply quiet_refl, Hi.
Qed.
Lemma scans_none w w' : quiet w w' -> scans [] w (Ok tt w').
Proof. intros Hq. by exists w'. Qed.

(** The memory read is the image's. *)
Lemma word_intact w a i : intact w -> rom a = true -> 0 <= i -> i + 4 <= 4096 -> word (memory w) (a + i) = word mem (a + i).
Proof.
  intros (_ & _ & Hm) Hr Hi Hl. unfold word, mem_bytes. f_equal. apply list_fmap_ext. intros j x Hx. apply list_elem_of_lookup_2, elem_of_seqZ in Hx.
  rewrite <- !Z.add_assoc. apply Hm; [done|lia].
Qed.
Lemma id_intact w a i : intact w -> rom a = true -> 0 <= i -> i + 16 <= 4096 -> id_bytes (memory w) (a + i) = id_bytes mem (a + i).
Proof. intros (_ & _ & Hm) Hr Hi Hl. unfold id_bytes. rewrite <- !Z.add_assoc, !Hm by (done || lia). done. Qed.
Lemma pidr_intact w a : intact w -> rom a = true -> pidr_of (memory w) a = pidr_of mem a.
Proof. intros Hi Hr. unfold pidr_of. by rewrite !id_intact by (done || unfold PIDR0_OFFSET, PIDR4_OFFSET; lia). Qed.
(** A block's address. *)
Definition block (a : Z) : Prop := 0 <= a /\ a + 4096 <= 2 ^ 32.
Lemma block_land a : block (Z.land a 0xfffff000).
Proof.
  unfold block. assert (H0 : 0 <= Z.land a 0xfffff000) by (apply Z.land_nonneg; by right). split; [done|].
  assert (Hs : Z.land a 0xfffff000 = Z.shiftl (Z.land (Z.shiftr a 12) (Z.ones 20)) 12).
  { change 0xfffff000 with (Z.shiftl (Z.ones 20) 12). apply Z.bits_inj'. intros n Hn. rewrite Z.land_spec, !Z.shiftl_spec by lia.
    destruct (Z.ltb_spec n 12); [rewrite !(Z.testbit_neg_r _ (n - 12)) by lia; by rewrite andb_false_r|].
    rewrite Z.land_spec, Z.shiftr_spec by lia. by replace (n - 12 + 12) with n by lia. }
  rewrite Hs, Z.shiftl_mul_pow2, Z.land_ones by lia. pose proof (Z.mod_pos_bound (Z.shiftr a 12) (2 ^ 20) ltac:(lia)). lia.
Qed.

Section Component.
Variable ap : ADIv5_AP.
Hypothesis port : ap_dp ap = dp /\ apsel ap = s.
Hypothesis clear : is_u32 (csw ap) /\ Z.land (csw ap) 0x37 = 0.
Lemma read_rom w a i : intact w -> rom a = true -> block a -> 0 <= i -> i + 4 <= 4096 ->
  exists w', adiv5_mem_read32 ap (u32 (a + i)) w = Ok (word mem (a + i)) w' /\ quiet w w' /\ intact w'.
Proof.
  intros Hi Hr [Ha Hal] H0 Hl. rewrite u32_small by lia.
  destruct (word_run ap port clear (a + i) w) as (w' & Hrun & Hq); [apply Hi|lia|lia|]. rewrite (word_intact w a i) in Hrun by done.
  exists w'. split; [done|]. split; [done|by eapply quiet_intact].
Qed.
Lemma memtype_run a w : block a -> intact w ->
  exists v w', adiv5_mem_read32 ap (Z.lor a ADIV5_ROM_MEMTYPE) w = Ok v w' /\ quiet w w' /\ intact w'.
Proof.
  intros [Ha Hal] Hi. assert (H0 : 0 <= Z.lor a ADIV5_ROM_MEMTYPE) by (by apply Z.lor_nonneg).
  pose proof (Z.add_lor_land a ADIV5_ROM_MEMTYPE). assert (0 <= Z.land a ADIV5_ROM_MEMTYPE) by (apply Z.land_nonneg; by left).
  destruct (word_run ap port clear (Z.lor a ADIV5_ROM_MEMTYPE) w) as (w' & Hrun & Hq); [apply Hi|done|unfold ADIV5_ROM_MEMTYPE in *; lia|].
  eexists _, w'. split; [done|]. split; [done|by eapply quiet_intact].
Qed.
Lemma error_rom w : intact w -> exists w', on_dp (dp_error (ap_dp ap)) w = Ok 0 w' /\ quiet w w' /\ intact w'.
Proof.
  intros Hi. destruct (error_run ap port w) as (w' & Hr & Hq); [apply Hi|]. exists w'. split; [done|]. split; [done|by eapply quiet_intact].
Qed.
Lemma entries_scans (probe : Z -> MW unit) sub a : rom a = true -> block a ->
  (forall x l w, sub x = Some l -> intact w -> scans l w (probe x w)) ->
  forall n i l w, 0 <= i -> i + Z.of_nat n <= 960 -> intact w -> table mem sub a n i = Some l ->
  scans l w (rom_entries probe ap a n i w).
Proof.
  intros Hrom Hblk Hsub n. induction n as [|n IH]; intros i l w Hi Hn Hin; cbn [table rom_entries].
  - intros [= <-]. apply scans_none, quiet_refl, Hin.
  - destruct (error_rom w Hin) as (w1 & Hr1 & Hq1 & Hin1). rewrite (bind_Ok _ _ _ _ _ Hr1).
    destruct (read_rom w1 a (i * 4) Hin1 Hrom Hblk) as (w2 & Hr2 & Hq2 & Hin2); [lia|lia|]. rewrite (bind_Ok _ _ _ _ _ Hr2).
    destruct (error_rom w2 Hin2) as (w3 & Hr3 & Hq3 & Hin3). rewrite (bind_Ok _ _ _ _ _ Hr3).
    assert (Hq : quiet w w3) by (eapply quiet_trans; [exact Hq1|by eapply quiet_trans]).
    cbn [Z.eqb negb]. intros Hl. apply (quiet_scans _ _ _ _ Hq). destruct (word mem (a + i * 4) =? 0).
    + injection Hl as <-. apply scans_none, quiet_refl, Hin3.
    + destruct (negb (flag (word mem (a + i * 4)) ADIV5_ROM_ROMENTRY_PRESENT)); [apply IH; (done || lia)|].
      apply bind_Some in Hl as (l1 & Hl1 & Hl). apply bind_Some in Hl as (l2 & Hl2 & [= <-]).
      apply scans_bind; [|done|by apply Hsub]. intros w' Hin'. apply IH; (done || lia).
Qed.
Lemma ids_run w a cls : intact w -> rom a = true -> block a ->
  exists w', component_ids ap a cls w = Ok (ids_of mem a cls) w' /\ quiet w w' /\ intact w'.
Proof.
  intros Hin Hrom Hblk. unfold component_ids, ids_of. destruct (cls =? cidc_dc).
  - destruct (read_rom w a DEVTYPE_OFFSET Hin Hrom Hblk) as (w1 & Hr1 & Hq1 & Hin1); [by cbv|by cbv|]. rewrite (bind_Ok _ _ _ _ _ Hr1).
    destruct (read_rom w1 a DEVARCH_OFFSET Hin1 Hrom Hblk) as (w2 & Hr2 & Hq2 & Hin2); [by cbv|by cbv|]. rewrite (bind_Ok _ _ _ _ _ Hr2).
    exists w2. split; [done|]. split; [by eapply quiet_trans|done].
  - exists w. split; [done|]. split; [apply quiet_refl, Hin|done].
Qed.
Lemma part_scans w a r : dap_wf (out w) -> scans (part_found a r) w (probe_part h a r w).
Proof.
  intros Hwf. destruct r as [r|]; [|by apply scans_none, quiet_refl]. unfold part_found, probe_part.
  destruct (arch r); [by apply scans_none, quiet_refl|by apply (scans_one Mcore)|by apply (scans_one (Acore a))].
Qed.
Lemma device_scans pidr l (protected : bool) l' (k : MW unit) w : intact w -> device_found rom mem pidr = Some (l, protected) ->
  (protected = false -> forall w', intact w' -> scans l' w' (k w')) ->
  scans (if protected then l else l ++ l') w
    ((let! done := name_device h ap pidr in if done : bool then ret tt else k) w).
Proof.
  intros Hin Hd Hk. unfold device_found in Hd. unfold name_device. rewrite bind_bind.
  set (d := designer_of pidr) in *. set (n := Z.land pidr 0xfff) in *. change (upd_ap h (set_ap_ids d n)) with (probe_found (Named d n)).
  assert (Hn : scans [Named d n] w (probe_found (Named d n) w)) by apply scans_one, Hin.
  destruct ((d =? AP_DESIGNER_ATMEL) && (n =? 0xcd0)).
  - destruct (rom 0x41002000) eqn:Hrom; [|done].
    assert (Hread : forall w', intact w' -> exists w2, adiv5_mem_read32 ap SAMX5X_DSU_CTRLSTAT w' = Ok (word mem SAMX5X_DSU_CTRLSTAT) w2 /\ quiet w' w2 /\ intact w2).
    { intros w' Hin'. exact (read_rom w' 0x41002000 0x100 Hin' Hrom ltac:(by cbv) ltac:(by cbv) ltac:(by cbv)). }
    destruct (flag (word mem SAMX5X_DSU_CTRLSTAT) SAMX5X_STATUSB_PROT) eqn:Hp; injection Hd as <- <-.
    + apply (scans_bind [Named d n] [Mcore]); [|done|done]. intros w' Hin'. destruct (Hread w' Hin') as (w2 & Hr & Hq & Hin2).
      rewrite bind_bind, (bind_Ok _ _ _ _ _ Hr), Hp. apply (quiet_scans _ _ _ _ Hq). rewrite bind_bind.
      exact (scans_one Mcore w2 (proj1 Hin2)).
    + apply (scans_bind [Named d n] l'); [|done|done]. intros w' Hin'. destruct (Hread w' Hin') as (w2 & Hr & Hq & Hin2).
      rewrite bind_bind, (bind_Ok _ _ _ _ _ Hr), Hp, bind_ret. apply (quiet_scans _ _ _ _ Hq). by apply Hk.
  - injection Hd as <- <-. apply (scans_bind [Named d n] l'); [|done|done]. intros w' Hin'. rewrite bind_ret. by apply Hk.
Qed.
End Component.

Lemma intact_port w : intact w -> exists ap, load_ap h w = Ok ap w /\ (ap_dp ap = dp /\ apsel ap = s) /\ (is_u32 (csw ap) /\ Z.land (csw ap) 0x37 = 0).
Proof. intros (_ & (ap & Hp) & _). exists ap. pose proof (load_port w ap Hp) as Hl. destruct Hp as (_ & ? & ? & ? & ?). done. Qed.
(** What is done with a component once it is identified. *)
Definition identified (depth : nat) (ap : ADIv5_AP) (b recursion cls pidr : Z) : MW unit :=
  if cls =? cidc_romtab then
    do! adiv5_mem_read32 ap (Z.lor b ADIV5_ROM_MEMTYPE) in
    do! on_dp (dp_error (ap_dp ap)) in
    let! done := if recursion =? 0 then name_device h ap pidr else ret false in
    if done : bool then ret tt else
    rom_entries (fun x => adiv5_component_probe depth h x (recursion + 1)) ap b 960 0
  else if negb (by_arm pidr) then ret tt
  else
    let! (dev_type, arch_id) := component_ids ap b cls in
    probe_part h b (find_part (Z.land pidr PIDR_PN_MASK) dev_type arch_id).
Lemma component_head depth a recursion w (b := Z.land a 0xfffff000) : intact w -> b <> 0 -> rom b = true ->
  exists ap w', (ap_dp ap = dp /\ apsel ap = s) /\ (is_u32 (csw ap) /\ Z.land (csw ap) 0x37 = 0) /\ quiet w w' /\ intact w' /\
    adiv5_component_probe (S depth) h a recursion w =
      (if preamble_ok (cidr_of mem b) then identified depth ap b recursion (CID_class (cidr_of mem b)) (pidr_of mem b) else ret tt) w'.
Proof.
  intros Hin Hb Hrom. cbn [adiv5_component_probe]. destruct (intact_port w Hin) as (ap & Hl & port & clear). rewrite (bind_Ok _ _ _ _ _ Hl).
  pose proof (block_land a) as Hblk. fold b in Hblk |- *. rewrite (proj2 (Z.eqb_neq b 0)) by done. pose proof Hblk as [Hb0 Hb1].
  destruct (id_run ap port clear (u32 (b + CIDR0_OFFSET)) w) as (w1 & Hr1 & Hq1); [apply Hin|apply u32_range|unfold CIDR0_OFFSET; rewrite u32_small; lia|].
  rewrite u32_small in Hr1 by (unfold CIDR0_OFFSET; lia). rewrite (id_intact w) in Hr1 by (done || unfold CIDR0_OFFSET; lia). fold (cidr_of mem b) in Hr1.
  rewrite u32_small by (unfold CIDR0_OFFSET; lia). rewrite (bind_Ok _ _ _ _ _ Hr1). pose proof (quiet_intact _ _ Hq1 Hin) as Hin1.
  destruct (obj_run ap port w1) as (d & Hr2 & Hf); [apply Hin1|]. rewrite (bind_Ok _ _ _ _ _ Hr2), Hf. cbn [Z.eqb negb]. exists ap.
  destruct (preamble_ok (cidr_of mem b)); cbn [negb]; [|by exists w1].
  destruct (error_rom ap port w1 Hin1) as (w2 & Hr3 & Hq2 & Hin2). rewrite (bind_Ok _ _ _ _ _ Hr3). cbn [Z.eqb negb].
  destruct (pidr_run ap port clear b w2) as (w3 & Hr4 & Hq3); [apply Hin2|done|done|]. rewrite (pidr_intact w2) in Hr4 by done.
  exists w3. rewrite (bind_Ok _ _ _ _ _ Hr4). split; [done|]. split; [done|]. split; [|split; [by eapply quiet_intact|done]].
  eapply quiet_trans; [exact Hq1|by eapply quiet_trans].
Qed.
(** A table, up to its entries. *)
Lemma table_head depth ap b recursion pidr w : (ap_dp ap = dp /\ apsel ap = s) -> (is_u32 (csw ap) /\ Z.land (csw ap) 0x37 = 0) ->
  intact w -> block b ->
  exists w', quiet w w' /\ intact w' /\ identified depth ap b recursion cidc_romtab pidr w =
    (let! done := if recursion =? 0 then name_device h ap pidr else ret false in
     if done : bool then ret tt else rom_entries (fun x => adiv5_component_probe depth h x (recursion + 1)) ap b 960 0) w'.
Proof.
  intros port clear Hin Hblk. destruct (memtype_run ap port clear b w Hblk Hin) as (v & w1 & Hr1 & Hq1 & Hin1).
  destruct (error_rom ap port w1 Hin1) as (w2 & Hr2 & Hq2 & Hin2). exists w2. split; [by eapply quiet_trans|]. split; [done|].
  unfold identified. rewrite Z.eqb_refl. by rewrite (bind_Ok _ _ _ _ _ Hr1), (bind_Ok _ _ _ _ _ Hr2).
Qed.

(** C24: What the tables of a memory image say is what [adiv5_component_probe]
    does: it names the device, then probes the components found, each once and
    in the order of the tables; it needs no more depth than the tables have. *)
Theorem component_probe_scans depth : forall a recursion l w, 0 <= recursion -> intact w ->
  components rom mem depth a (recursion =? 0) = Some l ->
  scans l w (adiv5_component_probe depth h a recursion w).
Proof.
  induction depth as [|depth IH]; intros a recursion l w Hrec Hin; [done|]. cbn [components].
  pose proof (block_land a) as Hblk. destruct (Z.eqb_spec (Z.land a 0xfffff000) 0) as [Hz|Hz].
  - intros [= <-]. cbn [adiv5_component_probe]. destruct (intact_port w Hin) as (ap & Hl & _). rewrite (bind_Ok _ _ _ _ _ Hl), Hz.
    apply scans_none, quiet_refl, Hin.
  - destruct (rom (Z.land a 0xfffff000)) eqn:Hrom; [|done].
    destruct (component_head depth a recursion w Hin Hz Hrom) as (ap & w1 & port & clear & Hq1 & Hin1 & ->).
    set (b := Z.land a 0xfffff000) in *. cbn [negb]. intros Hc. apply (quiet_scans _ _ _ _ Hq1).
    destruct (preamble_ok (cidr_of mem b)); cbn [negb] in Hc; [|injection Hc as <-; apply scans_none, quiet_refl, Hin1].
    destruct (Z.eqb_spec (CID_class (cidr_of mem b)) cidc_romtab) as [->|Hcls].
    + destruct (table_head depth ap b recursion (pidr_of mem b) w1 port clear Hin1 Hblk) as (w2 & Hq2 & Hin2 & ->). apply (quiet_scans _ _ _ _ Hq2).
      assert (Hsub : forall x l w, components rom mem depth x false = Some l -> intact w ->
        scans l w (adiv5_component_probe depth h x (recursion + 1) w)).
      { intros x l0 w0 Hx Hw0. apply IH; [lia|done|]. by rewrite (proj2 (Z.eqb_neq (recursion + 1) 0)) by lia. }
      destruct (recursion =? 0); [|rewrite bind_ret; by apply (entries_scans ap port clear _ (fun x => components rom mem depth x false) b)].
      apply bind_Some in Hc as ([l1 [|]] & Hd & Hc).
      * injection Hc as <-. apply (device_scans ap port clear _ l1 true [] _ w2 Hin2 Hd). discriminate.
      * apply bind_Some in Hc as (l2 & Ht & [= <-]). apply (device_scans ap port clear _ l1 false l2 _ w2 Hin2 Hd). intros _ w' Hin'.
        by apply (entries_scans ap port clear _ (fun x => components rom mem depth x false) b).
    + unfold identified. rewrite (proj2 (Z.eqb_neq _ _) Hcls). destruct (by_arm (pidr_of mem b)); cbn [negb] in Hc |- *;
        [|injection Hc as <-; apply scans_none, quiet_refl, Hin1].
      destruct (ids_run ap port clear w1 b (CID_class (cidr_of mem b)) Hin1 Hrom Hblk) as (w4 & Hr5 & Hq4 & Hin4).
      rewrite (bind_Ok _ _ _ _ _ Hr5). destruct (ids_of mem b (CID_class (cidr_of mem b))) as [ty id].
      injection Hc as <-. apply (quiet_scans _ _ _ _ Hq4), part_scans, Hin4.
Qed.

(** A table whose first entry is the table itself. *)
Section Loop.
Variables b entry : Z.
Hypothesis here : block b /\ Z.land b 0xfffff000 = b /\ b <> 0 /\ rom b = true.
Hypothesis is_table : preamble_ok (cidr_of mem b) = true /\ CID_class (cidr_of mem b) = cidc_romtab.
Hypothesis first_entry : word mem b = entry /\ flag entry ADIV5_ROM_ROMENTRY_PRESENT = true /\
  Z.land (u32 (b + Z.land entry ADIV5_ROM_ROMENTRY_OFFSET)) 0xfffff000 = b.
Lemma entries_hang ap (probe : Z -> MW unit) w : (ap_dp ap = dp /\ apsel ap = s) -> (is_u32 (csw ap) /\ Z.land (csw ap) 0x37 = 0) -> intact w ->
  (forall w', intact w' -> probe (u32 (b + Z.land entry ADIV5_ROM_ROMENTRY_OFFSET)) w' = Hang) ->
  rom_entries probe ap b 960 0 w = Hang.
Proof.
  intros port clear Hin Hp. destruct here as (Hblk & _ & _ & Hrom). destruct first_entry as (He & Hpres & _). change 960%nat with (S 959). generalize 959%nat. intros n. cbn [rom_entries].
  destruct (error_rom ap port w Hin) as (w1 & Hr1 & Hq1 & Hin1). rewrite (bind_Ok _ _ _ _ _ Hr1).
  destruct (read_rom ap port clear w1 b (0 * 4) Hin1 Hrom Hblk) as (w2 & Hr2 & Hq2 & Hin2); [lia|lia|].
  rewrite Z.mul_0_l, Z.add_0_r in Hr2 |- *. rewrite (bind_Ok _ _ _ _ _ Hr2), He.
  destruct (error_rom ap port w2 Hin2) as (w3 & Hr3 & Hq3 & Hin3). rewrite (bind_Ok _ _ _ _ _ Hr3). cbn [Z.eqb negb].
  destruct (Z.eqb_spec entry 0) as [H0|_]; [by rewrite H0 in Hpres|]. rewrite Hpres. cbn [negb]. by rewrite (bind_Hang _ _ _ (Hp w3 Hin3)).
Qed.
Lemma inner_hang depth : forall a recursion w, Z.land a 0xfffff000 = b -> 0 < recursion -> intact w ->
  adiv5_component_probe depth h a recursion w = Hang.
Proof.
  induction depth as [|depth IH]; intros a recursion w Ha Hrec Hin; [done|]. destruct here as (Hblk & _ & Hb & Hrom). destruct is_table as [Hpre Hcls].
  destruct (component_head depth a recursion w Hin) as (ap & w1 & port & clear & _ & Hin1 & ->); [by rewrite Ha..|]. rewrite Ha, Hpre, Hcls.
  destruct (table_head depth ap b recursion (pidr_of mem b) w1 port clear Hin1 Hblk) as (w2 & _ & Hin2 & ->).
  rewrite (proj2 (Z.eqb_neq recursion 0)), bind_ret by lia. apply entries_hang; [done|done|done|]. intros w' Hin'. apply IH; [apply first_entry|lia|done].
Qed.
(** The scan of a device whose table leads back to itself never ends: there is
    no limit to the recursion, whatever the stack. *)
Theorem rom_loop_hangs depth w : intact w -> designer_of (pidr_of mem b) <> AP_DESIGNER_ATMEL ->
  adiv5_component_probe depth h b 0 w = Hang.
Proof.
  intros Hin Hd. destruct depth as [|depth]; [done|]. destruct here as (Hblk & Hland & Hb & Hrom). destruct is_table as [Hpre Hcls].
  destruct (component_head depth b 0 w Hin) as (ap & w1 & port & clear & _ & Hin1 & ->); [by rewrite Hland..|]. rewrite Hland, Hpre, Hcls.
  destruct (table_head depth ap b 0 (pidr_of mem b) w1 port clear Hin1 Hblk) as (w2 & _ & Hin2 & ->). cbn [Z.eqb].
  unfold name_device. rewrite (proj2 (Z.eqb_neq _ _) Hd). cbn [andb]. rewrite bind_bind.
  destruct Hin2 as (Hwf & (ap' & Hp) & Hm). unfold upd_ap. rewrite bind_bind, (bind_Ok _ _ _ _ _ (load_port _ _ Hp)).
  set (w3 := set_dev (set_aps (<[h := set_ap_ids (designer_of (pidr_of mem b)) (Z.land (pidr_of mem b) 0xfff) ap']> (aps (dev w2))) (dev w2)) w2). assert (Hin3 : intact w3).
  { split; [done|]. split; [|done]. eexists. split; [apply lookup_insert_eq|]. exact (proj2 Hp). }
  assert (Hst : store_ap h (set_ap_ids (designer_of (pidr_of mem b)) (Z.land (pidr_of mem b) 0xfff) ap') w2 = Ok tt w3) by done.
  rewrite (bind_Ok _ _ _ _ _ Hst), bind_ret. apply entries_hang; [done|done|done|]. intros w' Hin'. apply inner_hang; [apply first_entry|lia|done].
Qed.
End Loop.
End Sequence.
End Scanning.

(** ** At work

    The tables of a Cortex-M3: its system control space, a watchpoint unit, an
    entry that is not present; and a table whose first entry is itself. *)
Module RomSim.
Import DapSim.
#[export] Instance rom_obj : DpObj dap := {
  load_dpo _ := ret {| o_refcnt := 1; o_idcode := 0x2ba01477; o_targetid := 0; o_fault := 0; o_tc := 0 |};
  store_dpo _ _ := ret tt; drop_dpo _ := ret tt; dp_error _ := ret 0; dp_abort _ _ := ret tt }.
#[export] Instance rom_gdb : GdbIf dap := { gdb_if_getchar := ret 0; gdb_if_getchar_to _ := ret 0; gdb_if_putchar _ _ := ret tt }.
#[export] Instance rom_heap : MemIf dap := { MemManager_Alloc _ := ret None; MemManager_Free _ := ret tt }.
#[export] Instance rom_clock : ClockIf dap := { platform_time_ms := ret 0; platform_delay _ := ret tt }.
#[export] Instance rom_host : HostIf (cm_dev dap) := { host_call _ _ := ret 0 }.
#[export] Instance rom_probe : ProbeIf (cm_dev dap) := {
  get_voltage _ := ret (str "3.3V"); srst_set_val _ _ := ret tt; srst_get_val _ := ret false; target_set_power _ _ := ret tt;
  target_get_power _ := ret false; voltage_sense _ := ret 0; max_frequency_set _ _ := ret tt; max_frequency_get _ := ret 0;
  set_idle_state _ _ := ret tt }.
#[export] Instance rom_device : DeviceIf (cm_dev dap) := { device_probe _ _ := ret false; extended_reset _ := ret tt }.
#[export] Instance rom_cortexa : CortexaIf (cm_dev dap) := { cortexa_probe _ _ := ret false }.
#[export] Instance rom_driver : Driver (cm_dev dap) := {|
  drv_attach _ := ret true; drv_detach _ := ret tt; drv_check_error _ := ret false; drv_mem_read _ _ n := ret (memset n 0);
  drv_mem_write _ _ _ := ret tt; drv_regs_read _ := ret []; drv_regs_write _ _ := ret tt; drv_reg_read _ _ _ := ret (0, []);
  drv_reg_write _ _ _ := ret 0; drv_reset _ := ret tt; drv_halt_request _ := ret tt; drv_halt_poll _ := ret (TARGET_HALT_RUNNING, 0);
  drv_halt_resume _ _ := ret tt; drv_breakwatch_set _ bw := ret (1, bw); drv_breakwatch_clear _ _ := ret 1;
  drv_priv_free _ := ret tt; drv_command _ _ _ := ret false; drv_flash_erase _ _ _ _ := ret 0; drv_flash_write _ _ _ _ := ret 0;
  drv_flash_done _ _ := ret 0 |}.
#[export] Instance rom_port_of dp : RomPort dap sim_if rom_obj dp 0.
Proof.
  refine {| rp_dap := sim_spec dp |}.
  - intros e [_ Hb]. exact Hb.
  - intros e Hwf. by exists e.
  - intros e _. by eexists.
Defined.
(** A word of the image, and the four identity words at an offset. *)
Definition word_bytes (a v : Z) : list (Z * Z) := zip (seqZ a 4) (le_bytes 4 v).
Definition identity (a : Z) (l : list Z) : list (Z * Z) := concat ((fun '(i, v) => word_bytes (a + 4 * i) v) <$> zip (seqZ 0 4) l).
Definition component (a cls : Z) (pidr : list Z) (p4 : Z) : list (Z * Z) :=
  identity (a + 0xFF0) [0x0D; cls; 0x05; 0xB1] ++ identity (a + 0xFE0) pidr ++ identity (a + 0xFD0) [p4; 0; 0; 0].
Definition image : list (Z * Z) :=
  component 0xE00FF000 0x10 [0x11; 0x04; 0x0A; 0] 0 ++
  word_bytes 0xE00FF000 0xFFF0F003 ++ word_bytes 0xE00FF004 0xFFF02003 ++ word_bytes 0xE00FF008 0xFFF42002 ++
  component 0xE000E000 0xE0 [0x00; 0xB0; 0x0B; 0] 4 ++ component 0xE0001000 0xE0 [0x02; 0xB0; 0x0B; 0] 4.
Definition loop_image : list (Z * Z) := component 0xE00FF000 0x10 [0x11; 0x04; 0x0A; 0] 0 ++ word_bytes 0xE00FF000 0x00000003.
Definition image_mem (l : list (Z * Z)) (a : Z) : Z :=
  match List.find (fun x => fst x =? a) l with Some x => snd x | None => 0 end.
Lemma image_bytes l : forallb (fun x => (0 <=? snd x) && (snd x <? 256)) l = true -> forall a, is_byte (image_mem l a).
Proof.
  intros Hl a. unfold image_mem. destruct (List.find _ l) as [x|] eqn:Hf; [|done]. apply List.find_some in Hf as [Hin _].
  rewrite List.forallb_forall in Hl. specialize (Hl x Hin). apply andb_true_iff in Hl as [H0 H1]. rewrite Z.leb_le in H0. rewrite Z.ltb_lt in H1.
  by split.
Qed.
Definition blocks (a : Z) : bool := (a =? 0xE00FF000) || (a =? 0xE000E000) || (a =? 0xE0001000).
Definition rom_ap : ADIv5_AP := new_ap 1 0 0x24770011 0xE00FF003 0x23000040.
Definition rom_world (l : list (Z * Z)) : world (cm_dev dap) :=
  {| heap := ∅; ctls := ∅; pbuf := []; debug_bmp := false;
     dev := {| aps := {[ 3%positive := rom_ap ]}; privs := ∅; time0_sec := 0; local := [];
               outside := {| d_select := 0; d_csw := 0; d_tar := 0; d_posted := 0; d_mem := image_mem l |} |} |}.
Lemma rom_intact l : forallb (fun x => (0 <=? snd x) && (snd x <? 256)) l = true ->
  intact (RP := rom_port_of 1) 3 blocks (image_mem l) (rom_world l).
Proof. intros Hl. split; [split; [done|by apply image_bytes]|]. split; [exists rom_ap; by split|done]. Qed.
End RomSim.
Import DapSim RomSim.
Lemma component_probe_scans_witness :
  scans (RP := rom_port_of 1) 3 blocks (image_mem image) [Named 0x20 0x411; Mcore] (rom_world image)
    (adiv5_component_probe 3 3 0xE00FF003 0 (rom_world image)).
Proof.
  apply (component_probe_scans (RP := rom_port_of 1) 3 blocks (image_mem image) 3 0xE00FF003 0); [done|by apply rom_intact|].
  vm_compute. reflexivity.
Defined.
Lemma rom_loop_hangs_witness : adiv5_component_probe 1000 3 0xE00FF000 0 (rom_world loop_image) = Hang.
Proof.
  apply (rom_loop_hangs (RP := rom_port_of 1) 3 blocks (image_mem loop_image) 0xE00FF000 0x00000003);
    [by vm_compute|by vm_compute|by vm_compute|by apply rom_intact|by vm_compute].
Defined.

(** ** New access ports *)
Section NewAp.
Context {E : Type} {MI : MemIf E} {DP : DpIf E} {DO : DpObj E}.
Notation W := (world (cm_dev E)).
(** What an operation of the outside leaves alone. *)
Lemma beyond_aps {A} (m : M E A) a (w w' : W) : lift (beyond m) w = Ok a w' -> aps (dev w') = aps (dev w).
Proof. unfold lift, beyond. destruct (m (outside (dev w))); try done. by intros [= _ <-]. Qed.
Lemma ap_read_aps ap addr v (w w' : W) : adiv5_ap_read ap addr w = Ok v w' -> aps (dev w') = aps (dev w).
Proof.
  intros (u & w1 & Hw & Hr)%bind_inv. apply bind_inv in Hw as (x & w2 & Hl & Hret). injection Hret as _ <-.
  apply beyond_aps in Hl. apply beyond_aps in Hr. congruence.
Qed.
Lemma alloc_aps n r (w w' : W) : MemManager_Alloc n w = Ok r w' -> aps (dev w') = aps (dev w).
Proof. apply beyond_aps. Qed.
Lemma load_ap_inv h ap (w w' : W) : load_ap h w = Ok ap w' -> w' = w /\ aps (dev w) !! h = Some ap.
Proof. unfold load_ap, bind, get. destruct (aps (dev w) !! h); [|done]. by intros [= <- <-]. Qed.
Lemma store_ap_inv h x u (w w' : W) : store_ap h x w = Ok u w' -> aps (dev w') = <[h := x]> (aps (dev w)).
Proof. by intros [= _ <-]. Qed.
Lemma upd_ap_inv h f u (w w' : W) : upd_ap h f w = Ok u w' ->
  exists x, aps (dev w) !! h = Some x /\ aps (dev w') = <[h := f x]> (aps (dev w)).
Proof. intros (x & w1 & [-> Hx]%load_ap_inv & Hst%store_ap_inv)%bind_inv. by exists x. Qed.
Lemma ap_ref_inv h u (w w' : W) : adiv5_ap_ref h w = Ok u w' ->
  exists x, aps (dev w) !! h = Some x /\ aps (dev w') = <[h := set_refcnt (ap_refcnt x + 1) x]> (aps (dev w)).
Proof.
  intros (x & w1 & [-> Hx]%load_ap_inv & Hr)%bind_inv. apply bind_inv in Hr as (y & w2 & Hw & (x2 & Hx2 & Hst)%upd_ap_inv).
  assert (Ha : aps (dev w2) = aps (dev w)).
  { unfold when in Hw. destruct (ap_refcnt x =? 0); [|by injection Hw as _ <-].
    apply bind_inv in Hw as (d & w3 & Hl%beyond_aps & Hs%beyond_aps). congruence. }
  rewrite Ha in *. rewrite Hx in Hx2. injection Hx2 as <-. by exists x.
Qed.

(** C25: The port [adiv5_new_ap] puts on the heap is what the memory transfers ask
    of one: bound to its debug port, with a word in CSW whose size and increment
    fields are clear; it exists and has one reference, and no other port
    changes. *)
Theorem new_ap_wellformed dp sel h (w w' : W) : adiv5_new_ap dp sel w = Ok (Some h) w' ->
  (exists ap, aps (dev w') !! h = Some ap /\ ap_dp ap = dp /\ apsel ap = sel /\ is_u32 (csw ap) /\ Z.land (csw ap) 0x37 = 0 /\
     ap_refcnt ap = 1 /\ idr ap <> 0 /\ base ap <> 0xffffffff) /\
  forall h', h' <> h -> aps (dev w') !! h' = aps (dev w) !! h'.
Proof.
  unfold adiv5_new_ap. intros (i & w1 & H1%ap_read_aps & Hrun)%bind_inv. apply bind_inv in Hrun as (b & w2 & H2%ap_read_aps & Hrun).
  destruct (Z.eqb_spec b 0xffffffff); [done|]. destruct (Z.eqb_spec i 0); [done|].
  apply bind_inv in Hrun as (v & w3 & H3%ap_read_aps & Hrun). destruct (flag _ _); [done|].
  apply bind_inv in Hrun as ([k|] & w4 & H4%alloc_aps & Hrun); [|done].
  apply bind_inv in Hrun as (u & w5 & H5%store_ap_inv & Hrun). apply bind_inv in Hrun as (ap & w6 & [-> Hap]%load_ap_inv & Hrun).
  apply bind_inv in Hrun as (cfg & w7 & H7%ap_read_aps & Hrun). apply bind_inv in Hrun as (u2 & w8 & (x & Hx & H8)%ap_ref_inv & Hret).
  injection Hret as <- <-. rewrite H7, H5, lookup_insert_eq in Hx. injection Hx as <-. rewrite H8, H7, H5. split.
  - eexists. split; [apply lookup_insert_eq|]. change (u32 (Z.lnot (Z.lor ADIV5_AP_CSW_SIZE_MASK ADIV5_AP_CSW_ADDRINC_MASK))) with 0xFFFFFFC8.
    split; [done|]. split; [done|]. cbn [csw set_refcnt new_ap idr base ap_refcnt]. split; [|split; [by rewrite <- Z.land_assoc, Z.land_0_r|done]].
    split; [apply Z.land_nonneg; by right|]. pose proof (Z.add_lor_land v 0xFFFFFFC8) as _.
    assert (Hm : Z.land v 0xFFFFFFC8 = Z.land (Z.land v 0xFFFFFFC8) (Z.ones 32)) by (by rewrite <- Z.land_assoc). rewrite Hm, Z.land_ones by lia.
    by apply Z.mod_pos_bound.
  - intros h' Hne. rewrite !lookup_insert_ne by done. by rewrite H4, H3, H2, H1.
Qed.
End NewAp.
Module ApSim.
#[export] Instance ap_heap : MemIf unit := { MemManager_Alloc _ := ret (Some 9%positive); MemManager_Free _ := ret tt }.
#[export] Instance ap_if : DpIf unit := {
  dp_low_access _ _ _ _ := ret 0;
  dp_read _ addr := ret (if addr =? ADIV5_AP_IDR then 0x24770011 else if addr =? ADIV5_AP_BASE then 0xE00FF003
                         else if addr =? ADIV5_AP_CSW then 0x23000052 else 0) }.
#[export] Instance ap_obj : DpObj unit := {
  load_dpo _ := ret {| o_refcnt := 1; o_idcode := 0x2ba01477; o_targetid := 0; o_fault := 0; o_tc := 0 |};
  store_dpo _ _ := ret tt; drop_dpo _ := ret tt; dp_error _ := ret 0; dp_abort _ _ := ret tt }.
Definition before : world (cm_dev unit) :=
  {| heap := ∅; ctls := ∅; pbuf := []; debug_bmp := false; dev := {| aps := ∅; privs := ∅; time0_sec := 0; local := []; outside := tt |} |}.
Definition after : world (cm_dev unit) :=
  set_dev (set_aps {[ 9%positive := set_refcnt 1 (new_ap 1 0 0x24770011 0xE00FF003 0x23000040) ]} (dev before)) before.
End ApSim.
Import ApSim.
Lemma new_ap_wellformed_witness : adiv5_new_ap 1 0 before = Ok (Some 9%positive) after /\
  exists ap, aps (dev after) !! 9%positive = Some ap /\ ap_dp ap = 1%positive /\ apsel ap = 0 /\ is_u32 (csw ap) /\ Z.land (csw ap) 0x37 = 0 /\
    ap_refcnt ap = 1 /\ idr ap <> 0 /\ base ap <> 0xffffffff.
Proof. split; [reflexivity|]. apply (new_ap_wellformed 1 0 9 before after). reflexivity. Defined.
