(* ===== verification/FlashDev.v ===== *)
(** What the device drivers share: the parts of cortexm.c they call beside the
    target's own interface, their polling loops, and the registration of a
    flash region.  Then what a theorem about such a driver relies on: a device
    on the target's bus as a machine with reads and writes of 1, 2 and 4
    bytes, and the interface [BusSpec] by which a target reaches it, with an
    instance (Module BusSim). *)

From Stdlib Require Import ZArith Lia String.
From stdpp Require Import base list numbers option gmap.
From S2P Require Import Prelude CLib GdbIf MemManager GdbPacket TargetState Target TargetProps Platform Command Dap Adiv5 Objects Cortexm.

(** ** What the drivers call of cortexm.c *)
Class CortexmIf (D : Type) := {
  ci_mem_write_sized : positive -> Z -> list Z -> Z -> M (world D) bool;    (* dest, src, align *)
  ci_run_stub : positive -> Z -> Z -> Z -> Z -> Z -> M (world D) Z;         (* loadaddr, r0 .. r3 *)
  ci_ap : positive -> M (world D) ADIv5_AP;
  ci_dp : positive -> M (world D) dp_obj;                                   (* cortexm_ap(t)->dp *)
  ci_attach : positive -> M (world D) bool;
  ci_detach : positive -> M (world D) unit;
}.

Definition sizeof_target_flash : Z := 48.
Definition flash_fns (erase write : string) : flash_ops := {| fo_erase := erase; fo_write := write |}.

Section Drivers.
Context {D : Type} `{GdbIf D} `{MemIf D} `{ClockIf D} `{Driver D}.
Notation MW := (M (world D)).
Variable polls : nat.
Implicit Types (busy : Z -> bool) (p : positive).

(** [while (target_mem_read32(t, addr) & mask) if (target_check_error(t)) return ..;]
    The last value read, or None when the link failed. *)
Definition while_busy_body p (addr : Z) busy (_ : unit) : MW (unit + option Z) :=
  let! v := target_mem_read32 (Some p) addr in
  if busy v then
    let! e := target_check_error (Some p) in
    ret (if e : bool then inr None else inl tt)
  else ret (inr (Some v)).
Definition while_busy p addr busy : MW (option Z) := iter polls (while_busy_body p addr busy) tt.

(** [while (target_mem_read32(t, addr) & mask);], whatever the link does. *)
Definition spin_body p (addr : Z) busy (_ : unit) : MW (unit + Z) :=
  let! v := target_mem_read32 (Some p) addr in
  ret (if busy v : bool then inl tt else inr v).
Definition spin p addr busy : MW Z := iter polls (spin_body p addr busy) tt.

(** [do { sr = target_mem_read32(t, addr); if (target_check_error(t)) return ..; } while (sr & mask);] *)
Definition do_while_busy_body p (addr : Z) busy (_ : unit) : MW (unit + option Z) :=
  let! v := target_mem_read32 (Some p) addr in
  let! e := target_check_error (Some p) in
  ret (if e : bool then inr None else if busy v then inl tt else inr (Some v)).
Definition do_while_busy p addr busy : MW (option Z) := iter polls (do_while_busy_body p addr busy) tt.

(** The same with a sign of life on the console at every round; false, after
    [failed] is printed, when the link failed. *)
Definition spinner (i : Z) : list Z := [8; nth (Z.to_nat (i mod 4)) [124; 47; 45; 92] 0].
Definition spin_busy_body p (addr : Z) busy (pause : MW unit) (failed : list Z) (i : Z) : MW (Z + bool) :=
  let! v := target_mem_read32 (Some p) addr in
  if busy v then
    do! pause in
    do! tc_printf (Some p) (spinner i) in
    let! e := target_check_error (Some p) in
    if e : bool then do! tc_printf (Some p) failed in ret (inr false) else ret (inl (i + 1))
  else ret (inr true).
Definition spin_busy p addr busy pause failed : MW bool := iter polls (spin_busy_body p addr busy pause failed) 0.

(** A flash region: allocated, zeroed, filled in and put in the list; [size]
    is that of the structure it starts. *)
Definition new_flash_of (size : Z) (p : positive) (f : target_flash) : MW unit :=
  let! h := MemManager_Alloc size in
  match h with
  | None => ret tt
  | Some h => target_add_flash p h f
  end.
Definition new_flash := new_flash_of sizeof_target_flash.

(** [t->target_storage]: allocated and filled, used, and updated; a NULL
    pointer is not checked for. *)
Definition new_storage (size : Z) (p : positive) (words : list Z) : MW unit :=
  let! h := MemManager_Alloc size in
  let! h := deref h in
  upd_target p (set_storage (Some (h, words))).
Definition storage_of p : MW (list Z) := let! t := load_target p in let! (_, l) := deref (target_storage t) in ret l.
Definition store_storage p (words : list Z) : MW unit :=
  let! t := load_target p in
  let! (h, _) := deref (target_storage t) in
  upd_target p (set_storage (Some (h, words))).
(** One word of it; a word that has not been written is not there. *)
Definition stored p (i : nat) : MW Z :=
  let! l := storage_of p in
  match l !! i with Some v => ret v | None => crash UninitRead end.
Definition store_word p (i : nat) (v : Z) : MW unit :=
  let! l := storage_of p in store_storage p (take i l ++ v :: drop (S i) l).
(** The region allocated as [h] is changed. *)
Definition upd_region p (h : positive) (g : target_flash -> target_flash) : MW unit :=
  upd_target p (fun t => set_flash ((fun '(k, f) => (k, if bool_decide (k = h) then g f else f)) <$> flash t) t).
(** [while (!target_halt_poll(t, NULL));] *)
Definition halt_body p (_ : unit) : MW (unit + unit) :=
  let! (r, _) := target_halt_poll (Some p) in
  ret (if bool_decide (r = TARGET_HALT_RUNNING) then inl tt else inr tt).
Definition wait_halt p : MW unit := iter polls (halt_body p) tt.
(** [f->write == fn] *)
Definition written_by (fn : string) (f : target_flash) : bool := String.eqb (fo_write (f_ops f)) fn.
End Drivers.
(** A member of the larger structure around a region. *)
Definition extra (i : nat) (f : target_flash) : Z := nth i (f_extra f) 0.
Definition with_extra (l : list Z) (f : target_flash) : target_flash :=
  {| f_start := f_start f; f_length := f_length f; blocksize := blocksize f; has_done := has_done f; erased := erased f;
     buf_size := buf_size f; buf_addr := buf_addr f; buf := buf f; f_ops := f_ops f; f_extra := l |}.
(** The write parallelism, where a driver has it first of its extra members. *)
Definition psize_of (f : target_flash) : Z := extra 0 f.
Definition set_psize (v : Z) (f : target_flash) : target_flash := with_extra (v :: drop 1 (f_extra f)) f.
(** That of the last region of the list that is the driver's. *)
Definition last_psize (fn : string) (dflt : Z) (t : target) : Z :=
  foldl (fun ps '(_, f) => if written_by fn f then psize_of f else ps) dflt (flash t).
Definition psize_name (psize : Z) : list Z :=
  if psize =? ALIGN_DWORD then str "x64" else if psize =? ALIGN_WORD then str "x32"
  else if psize =? ALIGN_HALFWORD then str "x16" else str "x8".
Definition psize_value (s : list Z) : option Z :=
  if eqb_str s (str "x8") then Some ALIGN_BYTE else if eqb_str s (str "x16") then Some ALIGN_HALFWORD
  else if eqb_str s (str "x32") then Some ALIGN_WORD else if eqb_str s (str "x64") then Some ALIGN_DWORD else None.
Definition psize_all (fn : string) (v : Z) (t : target) : target :=
  set_flash ((fun '(h, f) => (h, if written_by fn f then set_psize v f else f)) <$> flash t) t.
Definition psize_command {D} `{GdbIf D} `{MemIf D} `{Driver D} (fn : string) (dflt : Z) (usage : list Z) (p : positive) (argv : list (list Z)) :
    M (world D) bool :=
  match argv with
  | [_] => let! t := load_target p in
           do! tc_printf (Some p) (str "Flash write parallelism: " ++ psize_name (last_psize fn dflt t) ++ nl) in ret true
  | _ => let! a := deref (argv !! 1%nat) in
         match psize_value a with
         | None => do! tc_printf (Some p) usage in ret false
         | Some v => do! upd_target p (psize_all fn v) in ret true
         end
  end.

Definition tolower (c : Z) : Z := if (65 <=? c) && (c <=? 90) then c + 32 else c.
(** [strncasecmp(s, word, 1) == 0], [c] being the first letter of [word]. *)
Definition starts_like (c : Z) (s : list Z) : bool :=
  match s with x :: _ => tolower x =? c | [] => false end.
(** [strtoul(s, NULL, 0)]: the base the prefix asks for. *)
Definition base_of (s : list Z) : Z :=
  let u := skip_space s in
  let v := match u with c :: r => if (c =? 45) || (c =? 43) then r else u | [] => u end in
  match v with
  | z :: x :: d :: _ =>
      if (z =? 48) && ((x =? 120) || (x =? 88)) && (digit_val d <? 16) then 16
      else if z =? 48 then 8 else 10
  | z :: _ => if z =? 48 then 8 else 10
  | [] => 10
  end.
Definition strtoul0 (s : list Z) : Z := strtoul (base_of s) s.
(** [strtoul(s, &end, 0)], with [end]. *)
Definition strtoul0_end (s : list Z) : Z * list Z :=
  match scan_int (base_of s) (length s) (skip_space s) with
  | Some (neg, v, r) => (to_ulong neg v, r)
  | None => (0, s)
  end.
(** The rounds, at most, of a loop that takes [step] from a 32-bit length until
    it is 0. *)
Definition wrap_rounds (step len : Z) : nat :=
  if len mod step =? 0 then S (S (Z.to_nat (len / step))) else S (Z.to_nat (2 ^ 32)).
Definition flash_region (start len bs : Z) (fns : flash_ops) (bufsz er : Z) : target_flash :=
  {| f_start := start; f_length := len; blocksize := bs; has_done := false; erased := er; buf_size := bufsz;
     buf_addr := 0; buf := None; f_ops := fns; f_extra := [] |}.


(** ** A device driver's functions, by the names the structures hold

    [device_layer] puts a driver on top of the one below it. *)
Record device (D : Type) := {
  dv_attach : string -> option (positive -> M (world D) bool);
  dv_detach : string -> option (positive -> M (world D) unit);
  dv_command : string -> option (positive -> list (list Z) -> M (world D) bool);
  dv_erase : string -> option (positive -> target_flash -> Z -> Z -> M (world D) Z);
  dv_write : string -> option (positive -> target_flash -> Z -> list Z -> M (world D) Z);
  dv_done : string -> option (positive -> target_flash -> M (world D) Z);
}.
Arguments dv_attach {D}. Arguments dv_detach {D}. Arguments dv_command {D}.
Arguments dv_erase {D}. Arguments dv_write {D}. Arguments dv_done {D}.
(** The function called [n] of a table. *)
Definition fn_table {A} (l : list (string * A)) (n : string) : option A :=
  snd <$> List.find (fun '(k, _) => String.eqb k n) l.
Definition by_name {W A} (m : fptr) (f : string -> option (M W A)) (other : M W A) : M W A :=
  match m with Fdev n => default other (f n) | _ => other end.
Definition device_layer {D} (dv : device D) (other : Driver D) : Driver D := {|
  drv_attach p := let! t := load_target p in by_name (m_attach t) (fun n => (fun g => g p) <$> dv_attach dv n) (drv_attach p);
  drv_detach p := let! t := load_target p in by_name (m_detach t) (fun n => (fun g => g p) <$> dv_detach dv n) (drv_detach p);
  drv_check_error := drv_check_error; drv_mem_read := drv_mem_read; drv_mem_write := drv_mem_write;
  drv_regs_read := drv_regs_read; drv_regs_write := drv_regs_write; drv_reg_read := drv_reg_read; drv_reg_write := drv_reg_write;
  drv_reset := drv_reset; drv_halt_request := drv_halt_request; drv_halt_poll := drv_halt_poll; drv_halt_resume := drv_halt_resume;
  drv_breakwatch_set := drv_breakwatch_set; drv_breakwatch_clear := drv_breakwatch_clear; drv_priv_free := drv_priv_free;
  drv_command p c argv := match dv_command dv (c_handler c) with Some g => g p argv | None => drv_command p c argv end;
  drv_flash_erase p f a n := match dv_erase dv (fo_erase (f_ops f)) with Some g => g p f a n | None => drv_flash_erase p f a n end;
  drv_flash_write p f a d := match dv_write dv (fo_write (f_ops f)) with Some g => g p f a d | None => drv_flash_write p f a d end;
  drv_flash_done p f := match dv_done dv (fo_write (f_ops f)) with Some g => g p f | None => drv_flash_done p f end |}.

(** Two methods of the core itself some drivers replace. *)
Record methods (D : Type) := {
  mt_reset : string -> option (positive -> M (world D) unit);
  mt_halt_resume : string -> option (positive -> bool -> M (world D) unit);
}.
Arguments mt_reset {D}. Arguments mt_halt_resume {D}.
Definition method_layer {D} (mt : methods D) (other : Driver D) : Driver D := {|
  drv_attach := drv_attach; drv_detach := drv_detach;
  drv_check_error := drv_check_error; drv_mem_read := drv_mem_read; drv_mem_write := drv_mem_write;
  drv_regs_read := drv_regs_read; drv_regs_write := drv_regs_write; drv_reg_read := drv_reg_read; drv_reg_write := drv_reg_write;
  drv_reset p := let! t := load_target p in by_name (m_reset t) (fun n => (fun g => g p) <$> mt_reset mt n) (drv_reset p);
  drv_halt_request := drv_halt_request; drv_halt_poll := drv_halt_poll;
  drv_halt_resume p step := let! t := load_target p in
    by_name (m_halt_resume t) (fun n => (fun g => g p step) <$> mt_halt_resume mt n) (drv_halt_resume p step);
  drv_breakwatch_set := drv_breakwatch_set; drv_breakwatch_clear := drv_breakwatch_clear; drv_priv_free := drv_priv_free;
  drv_command := drv_command; drv_flash_erase := drv_flash_erase; drv_flash_write := drv_flash_write; drv_flash_done := drv_flash_done |}.
(** What a driver's call of a method it has replaced itself leads to. *)
Definition own_method {D A} (m : target -> fptr) (n : string) (own other : M (world D) A) (p : positive) : M (world D) A :=
  let! t := load_target p in
  match m t with Fdev k => if String.eqb k n then own else other | _ => other end.
(** A CoreSight identity, read through the target's access port:
    [adiv5_ap_read_pidr(cortexm_ap(t), addr)]. *)
Class CoreSightIf (D : Type) := { ap_read_pidr : positive -> Z -> M (world D) Z }.

(** ** A device on the bus

    [b_read n a] and [b_write n a v]: an access of [n] bytes; None is an access
    the device's manual leaves open. *)
Class Machine (B : Type) := {
  b_read : nat -> Z -> B -> option (Z * B);
  b_write : nat -> Z -> Z -> B -> option B;
}.
(** The writes of [data], [n] bytes at a time. *)
Fixpoint b_writes {B} `{Machine B} (k n : nat) (a : Z) (data : list Z) (b : B) : option B :=
  match k with
  | O => Some b
  | S k' => b' ← b_write n a (le_val (take n data)) b; b_writes k' n (a + Z.of_nat n) (drop n data) b'
  end.

(** The methods of target [p] reach the device, [bus_of] its state; [bus_ok t]
    says that they do while [p] is [t]. *)
Class BusSpec {D : Type} (DRV : Driver D) (CI : CortexmIf D) (p : positive) (B : Type) `{Machine B} := {
  bus_ok : target -> world D -> Prop;
  bus_of : D -> B;
  bus_target t w : bus_ok t w -> heap w !! p = Some t /\ m_mem_read t = Fdriver /\ m_mem_write t = Fdriver /\
    m_check_error t = Fdriver;
  bus_read t w n a v b' : bus_ok t w -> (n = 1 \/ n = 2 \/ n = 4)%nat -> in_width (8 * Z.of_nat n) v ->
    b_read n a (bus_of (dev w)) = Some (v, b') ->
    exists d, drv_mem_read p a (Z.of_nat n) w = Ok (le_bytes n v) (set_dev d w) /\ bus_ok t (set_dev d w) /\ bus_of d = b';
  bus_write t w n a v b' : bus_ok t w -> (n = 1 \/ n = 2 \/ n = 4)%nat -> in_width (8 * Z.of_nat n) v ->
    b_write n a v (bus_of (dev w)) = Some b' ->
    exists d, drv_mem_write p a (le_bytes n v) w = Ok tt (set_dev d w) /\ bus_ok t (set_dev d w) /\ bus_of d = b';
  bus_words t w k a data b' : bus_ok t w -> a mod 4 = 0 -> 0 <= a -> a + zlen data <= 2 ^ 32 -> is_bytes data ->
    zlen data = 4 * Z.of_nat k -> b_writes k 4 a data (bus_of (dev w)) = Some b' ->
    exists d, drv_mem_write p a data w = Ok tt (set_dev d w) /\ bus_ok t (set_dev d w) /\ bus_of d = b';
  bus_check t w : bus_ok t w ->
    exists d, drv_check_error p w = Ok false (set_dev d w) /\ bus_ok t (set_dev d w) /\ bus_of d = bus_of (dev w);
  bus_sized t w al k a data b' : bus_ok t w -> 0 <= al <= 2 -> a mod 2 ^ al = 0 -> 0 <= a -> a + zlen data <= 2 ^ 32 ->
    is_bytes data -> zlen data = 2 ^ al * Z.of_nat k ->
    b_writes k (Z.to_nat (2 ^ al)) a data (bus_of (dev w)) = Some b' ->
    exists d, ci_mem_write_sized p a data al w = Ok false (set_dev d w) /\ bus_ok t (set_dev d w) /\ bus_of d = b';
  bus_heap t t' w : bus_ok t w -> m_mem_read t' = m_mem_read t -> m_mem_write t' = m_mem_write t ->
    m_check_error t' = m_check_error t -> priv t' = priv t -> ram t' = ram t ->
    bus_ok t' (set_heap (<[p := t']> (heap w)) w);
}.
(** The pools of the probe are not the target's. *)
Class BusPools {D : Type} (MI : MemIf D) {DRV CI p B} `{Machine B} (BS : BusSpec DRV CI p B) := {
  bus_alloc t (w : world D) n : bus_ok t w ->
    exists h d, MemManager_Alloc n w = Ok h (set_dev d w) /\ bus_ok t (set_dev d w) /\ bus_of d = bus_of (dev w);
  bus_free t (w : world D) h : bus_ok t w ->
    exists d, MemManager_Free h w = Ok tt (set_dev d w) /\ bus_ok t (set_dev d w) /\ bus_of d = bus_of (dev w);
}.

Section Runs.
Context {D : Type} {DRV : Driver D} {CI : CortexmIf D} (p : positive) {B : Type} {MB : Machine B} {BS : BusSpec DRV CI p B}.
Notation W := (world D).
Implicit Types (w : W) (t : target) (b : B).

Definition at_bus (t : target) (b : B) (w : W) : Prop := bus_ok t w /\ bus_of (dev w) = b.

(** What a step of a driver leaves alone: everything but the outside. *)
Definition outside_only (w w' : W) : Prop := exists d, w' = set_dev d w.
Lemma outside_refl w : outside_only w w.
Proof. exists (dev w). by destruct w. Qed.
Lemma outside_trans w1 w2 w3 : outside_only w1 w2 -> outside_only w2 w3 -> outside_only w1 w3.
Proof. intros [d ->] [d' ->]. by exists d'. Qed.
Lemma outside_dev d w : outside_only w (set_dev d w).
Proof. by exists d. Qed.

(** A run from bus state [b] that returns [v] and leaves the bus in [b']. *)
Definition bus_run {A} (t : target) (b : B) (m : M W A) (v : A) (b' : B) : Prop :=
  forall w, at_bus t b w -> exists w', m w = Ok v w' /\ at_bus t b' w' /\ outside_only w w'.

Lemma br_ret {A} t b (v : A) : bus_run t b (ret v) v b.
Proof. intros w Hw. exists w. split; [done|]. split; [done|]. apply outside_refl. Qed.
Lemma br_bind {A C} t b b1 b2 (m : M W A) (k : A -> M W C) v r :
  bus_run t b m v b1 -> bus_run t b1 (k v) r b2 -> bus_run t b (bind m k) r b2.
Proof.
  intros H1 H2 w Hw. destruct (H1 w Hw) as (w1 & Hr1 & Hw1 & Ho1). destruct (H2 w1 Hw1) as (w2 & Hr2 & Hw2 & Ho2).
  exists w2. rewrite (bind_Ok _ _ _ _ _ Hr1). split; [done|]. split; [done|]. by eapply outside_trans.
Qed.
Lemma br_read_n t b n a v b' : (n = 1 \/ n = 2 \/ n = 4)%nat -> in_width (8 * Z.of_nat n) v -> b_read n a b = Some (v, b') ->
  bus_run t b (target_read_n n (Some p) a) v b'.
Proof.
  intros Hn Hv Hb w [Hw <-]. destruct (bus_target t w Hw) as (Hp & Hm & _). destruct (bus_read t w n a v b' Hw Hn Hv Hb) as (d & Hr & Hw').
  exists (set_dev d w). split; [|split; [done|apply outside_dev]]. unfold target_read_n.
  rewrite (bind_Ok _ _ _ _ _ (deref_target_Ok _ _ _ Hp)), Hm. cbn [call]. rewrite (bind_Ok _ _ _ _ _ Hr). unfold ret. f_equal.
  rewrite le_val_bytes. apply Z.mod_small. unfold in_width in Hv. by replace (256 ^ Z.of_nat n) with (2 ^ (8 * Z.of_nat n)) by (rewrite Z.pow_mul_r by lia; done).
Qed.
Lemma br_write_n t b n a v b' : (n = 1 \/ n = 2 \/ n = 4)%nat -> in_width (8 * Z.of_nat n) v -> b_write n a v b = Some b' ->
  bus_run t b (target_write_n n (Some p) a v) tt b'.
Proof.
  intros Hn Hv Hb w [Hw <-]. destruct (bus_target t w Hw) as (Hp & _ & Hm & _). destruct (bus_write t w n a v b' Hw Hn Hv Hb) as (d & Hr & Hw').
  exists (set_dev d w). split; [|split; [done|apply outside_dev]]. unfold target_write_n.
  rewrite (bind_Ok _ _ _ _ _ (deref_target_Ok _ _ _ Hp)), Hm. done.
Qed.
Lemma br_read32 t b a v b' : is_u32 v -> b_read 4 a b = Some (v, b') -> bus_run t b (target_mem_read32 (Some p) a) v b'.
Proof. intros Hv Hb. by apply br_read_n; [auto| |]. Qed.
Lemma br_write32 t b a v b' : is_u32 v -> b_write 4 a v b = Some b' -> bus_run t b (target_mem_write32 (Some p) a v) tt b'.
Proof. intros Hv Hb. by apply br_write_n; [auto| |]. Qed.
Lemma br_check t b : bus_run t b (target_check_error (Some p)) false b.
Proof.
  intros w [Hw <-]. destruct (bus_target t w Hw) as (Hp & _ & _ & Hm). destruct (bus_check t w Hw) as (d & Hr & Hw').
  exists (set_dev d w). split; [|split; [done|apply outside_dev]]. unfold target_check_error.
  rewrite (bind_Ok _ _ _ _ _ (load_target_Ok _ _ _ Hp)), Hm. done.
Qed.
Lemma br_load t b : bus_run t b (load_target p) t b.
Proof.
  intros w Hw. destruct (bus_target t w (proj1 Hw)) as (Hp & _). exists w. split; [by apply load_target_Ok|].
  split; [done|]. apply outside_refl.
Qed.
Lemma br_sized t b al k a data b' : 0 <= al <= 2 -> a mod 2 ^ al = 0 -> 0 <= a -> a + zlen data <= 2 ^ 32 ->
  is_bytes data -> zlen data = 2 ^ al * Z.of_nat k -> b_writes k (Z.to_nat (2 ^ al)) a data b = Some b' ->
  bus_run t b (ci_mem_write_sized p a data al) false b'.
Proof.
  intros H1 H2 H3 H4 H5 H6 H7 w [Hw <-]. destruct (bus_sized t w al k a data b' Hw H1 H2 H3 H4 H5 H6 H7) as (d & Hr & Hw').
  exists (set_dev d w). split; [done|]. split; [done|]. apply outside_dev.
Qed.

(** Whole words are written as words. *)
Lemma br_words t b k a data b' : a mod 4 = 0 -> 0 <= a -> a + zlen data <= 2 ^ 32 -> is_bytes data ->
  zlen data = 4 * Z.of_nat k -> b_writes k 4 a data b = Some b' ->
  bus_run t b (target_mem_write (Some p) a data) false b'.
Proof.
  intros H1 H2 H3 H4 H5 H6 w [Hw <-]. destruct (bus_target t w Hw) as (Hp & _ & Hm & _).
  destruct (bus_words t w k a data b' Hw H1 H2 H3 H4 H5 H6) as (d & Hr & Hw' & Hb).
  destruct (br_check t b' (set_dev d w) (conj Hw' Hb)) as (w2 & Hr2 & Hw2 & Ho2).
  exists w2. split; [|split; [done|]].
  - unfold target_mem_write. rewrite (bind_Ok _ _ _ _ _ (deref_target_Ok _ _ _ Hp)), Hm. cbn [call]. by rewrite (bind_Ok _ _ _ _ _ Hr).
  - eapply outside_trans; [apply outside_dev|exact Ho2].
Qed.

(** ** Polling

    A status register that is busy for [n] reads and then shows [v]. *)
Inductive settles (addr : Z) (busy : Z -> bool) : nat -> B -> Z -> B -> Prop :=
| settled b v b' : is_u32 v -> b_read 4 addr b = Some (v, b') -> busy v = false -> settles addr busy 0 b v b'
| settling n b u b1 v b' : is_u32 u -> b_read 4 addr b = Some (u, b1) -> busy u = true ->
    settles addr busy n b1 v b' -> settles addr busy (S n) b v b'.
Lemma br_while_busy polls t addr busy n b v b' : settles addr busy n b v b' -> (n < polls)%nat ->
  bus_run t b (while_busy polls p addr busy) (Some v) b'.
Proof.
  intros Hs. revert polls. induction Hs as [b v b' Hv Hr Hb|n b u b1 v b' Hu Hr Hb Hs IH]; intros [|polls] Hlt; try lia.
  - intros w Hw. unfold while_busy. rewrite iter_S. destruct (br_read32 t b addr v b' Hv Hr w Hw) as (w1 & Hr1 & Hw1 & Ho1).
    exists w1. unfold while_busy_body at 1. rewrite bind_bind, (bind_Ok _ _ _ _ _ Hr1), Hb. done.
  - intros w Hw. unfold while_busy. rewrite iter_S. destruct (br_read32 t b addr u b1 Hu Hr w Hw) as (w1 & Hr1 & Hw1 & Ho1).
    destruct (br_check t b1 w1 Hw1) as (w2 & Hr2 & Hw2 & Ho2). destruct (IH polls ltac:(lia) w2 Hw2) as (w3 & Hr3 & Hw3 & Ho3).
    exists w3. unfold while_busy_body at 1. rewrite bind_bind, (bind_Ok _ _ _ _ _ Hr1), Hb, bind_bind, (bind_Ok _ _ _ _ _ Hr2), bind_ret.
    split; [exact Hr3|]. split; [done|]. eapply outside_trans; [exact Ho1|]. by eapply outside_trans.
Qed.
Lemma br_do_while_busy polls t addr busy n b v b' : settles addr busy n b v b' -> (n < polls)%nat ->
  bus_run t b (do_while_busy polls p addr busy) (Some v) b'.
Proof.
  intros Hs. revert polls. induction Hs as [b v b' Hv Hr Hb|n b u b1 v b' Hu Hr Hb Hs IH]; intros [|polls] Hlt; try lia.
  - intros w Hw. unfold do_while_busy. rewrite iter_S. destruct (br_read32 t b addr v b' Hv Hr w Hw) as (w1 & Hr1 & Hw1 & Ho1).
    destruct (br_check t b' w1 Hw1) as (w2 & Hr2 & Hw2 & Ho2).
    exists w2. unfold do_while_busy_body at 1. rewrite bind_bind, (bind_Ok _ _ _ _ _ Hr1), bind_bind, (bind_Ok _ _ _ _ _ Hr2), bind_ret, Hb.
    split; [done|]. split; [done|]. by eapply outside_trans.
  - intros w Hw. unfold do_while_busy. rewrite iter_S. destruct (br_read32 t b addr u b1 Hu Hr w Hw) as (w1 & Hr1 & Hw1 & Ho1).
    destruct (br_check t b1 w1 Hw1) as (w2 & Hr2 & Hw2 & Ho2). destruct (IH polls ltac:(lia) w2 Hw2) as (w3 & Hr3 & Hw3 & Ho3).
    exists w3. unfold do_while_busy_body at 1. rewrite bind_bind, (bind_Ok _ _ _ _ _ Hr1), bind_bind, (bind_Ok _ _ _ _ _ Hr2), bind_ret, Hb.
    split; [exact Hr3|]. split; [done|]. eapply outside_trans; [exact Ho1|]. by eapply outside_trans.
Qed.
End Runs.

(** ** A concrete bus

    A target whose bus is any machine of FlashDev: every method of the target
    reaches it directly.  The instance of [BusSpec] the witnesses use. *)
Module BusSim.
Section Sim.
Context {B : Type} {MB : Machine B}.
Notation W := (world B).

#[export] Instance sim_gdb : GdbIf B := { gdb_if_getchar := ret 0; gdb_if_getchar_to _ := ret 0; gdb_if_putchar _ _ := ret tt }.
#[export] Instance sim_mem : MemIf B := { MemManager_Alloc n := ret (Some 9%positive); MemManager_Free _ := ret tt }.
Definition on_bus {A} (f : B -> option (A * B)) : M W A :=
  let! w := get in
  match f (dev w) with
  | Some (a, b) => do! modify (set_dev b) in ret a
  | None => crash OutOfBounds
  end.
Definition unit_of (r : option B) : option (unit * B) := (fun b => (tt, b)) <$> r.
#[export] Instance sim_driver : Driver B := {
  drv_attach _ := ret true; drv_detach _ := ret tt; drv_check_error _ := ret false;
  drv_mem_read _ a n :=
    let! v := on_bus (b_read (Z.to_nat n) a) in ret (le_bytes (Z.to_nat n) v);
  drv_mem_write _ a data := on_bus (fun b => unit_of (
    if Nat.eqb (length data mod 4) 0 then b_writes (length data / 4) 4 a data b else b_write (length data) a (le_val data) b));
  drv_regs_read _ := ret []; drv_regs_write _ _ := ret tt; drv_reg_read _ _ _ := ret (0, []); drv_reg_write _ _ _ := ret 0;
  drv_reset _ := ret tt; drv_halt_request _ := ret tt; drv_halt_poll _ := ret (TARGET_HALT_RUNNING, 0);
  drv_halt_resume _ _ := ret tt; drv_breakwatch_set _ bw := ret (0, bw); drv_breakwatch_clear _ _ := ret 0;
  drv_priv_free _ := ret tt; drv_command _ _ _ := ret false;
  drv_flash_erase _ _ _ _ := ret 0; drv_flash_write _ _ _ _ := ret 0; drv_flash_done _ _ := ret 0;
}.
#[export] Instance sim_cortexm : CortexmIf B := {
  ci_mem_write_sized _ a data al :=
    let n := Z.to_nat (2 ^ al) in do! on_bus (fun b => unit_of (b_writes (length data / n) n a data b)) in ret false;
  ci_run_stub _ _ _ _ _ _ := ret 0;
  ci_ap _ := ret {| ap_refcnt := 1; ap_dp := 1; apsel := 0; idr := 0x24770011; base := 0; csw := 0x23000040;
                    ap_cortexm_demcr := 0; ap_storage := 0; ap_designer := 0x20; ap_partno := 0x410 |};
  ci_dp _ := ret {| o_refcnt := 1; o_idcode := 0x2ba01477; o_targetid := 0; o_fault := 0; o_tc := 0 |};
  ci_attach _ := ret true; ci_detach _ := ret tt;
}.
Definition reaches (p : positive) (t : target) (w : W) : Prop :=
  heap w !! p = Some t /\ m_mem_read t = Fdriver /\ m_mem_write t = Fdriver /\ m_check_error t = Fdriver.
Lemma on_bus_Ok {A} (f : B -> option (A * B)) w a b : f (dev w) = Some (a, b) -> on_bus f w = Ok a (set_dev b w).
Proof. intros Hf. unfold on_bus, bind, get. by rewrite Hf. Qed.
Lemma reaches_dev p t w b : reaches p t w -> reaches p t (set_dev b w).
Proof. done. Qed.
#[export] Instance sim_bus p : BusSpec sim_driver sim_cortexm p B.
Proof.
  refine {| bus_ok := reaches p; bus_of b := b |}.
  - done.
  - intros t w n a v b' Hr _ _ Hb. exists b'. split; [|done]. cbn [drv_mem_read sim_driver]. rewrite Nat2Z.id.
    by rewrite (bind_Ok _ _ _ _ _ (on_bus_Ok _ _ _ _ Hb)).
  - intros t w n a v b' Hr Hn Hv Hb. exists b'. split; [|done]. cbn [drv_mem_write sim_driver]. apply on_bus_Ok.
    assert (Hle : le_val (le_bytes n v) = v).
    { rewrite le_val_bytes. unfold in_width in Hv. apply Z.mod_small.
      by replace (256 ^ Z.of_nat n) with (2 ^ (8 * Z.of_nat n)) by (rewrite Z.pow_mul_r by lia; done). }
    rewrite length_le_bytes, Hle. destruct Hn as [-> | [-> | ->]]; cbn [Nat.modulo Nat.divmod Nat.sub Nat.eqb fst snd]; [by rewrite Hb|by rewrite Hb|].
    change (4 / 4)%nat with 1%nat. cbn [b_writes]. rewrite take_ge by (by rewrite length_le_bytes). by rewrite Hle, Hb.
  - intros t w k a data b' Hr _ _ _ _ Hlen Hb. exists b'. split; [|done]. cbn [drv_mem_write sim_driver]. apply on_bus_Ok.
    assert (Hd : length data = (k * 4)%nat) by (unfold zlen in Hlen; lia).
    rewrite Hd, Nat.Div0.mod_mul, Nat.div_mul by done. cbn [Nat.eqb]. by rewrite Hb.
  - intros t w Hr. exists (dev w). by destruct w.
  - intros t w al k a data b' Hr Hal _ _ _ _ Hlen Hb. exists b'. split; [|done]. cbn [ci_mem_write_sized sim_cortexm].
    assert (Hrun : on_bus (fun b => unit_of (b_writes (length data / Z.to_nat (2 ^ al)) (Z.to_nat (2 ^ al)) a data b)) w = Ok tt (set_dev b' w));
      [apply on_bus_Ok|by rewrite (bind_Ok _ _ _ _ _ Hrun)].
    assert (0 < 2 ^ al) by (apply Z.pow_pos_nonneg; lia).
    replace (length data / Z.to_nat (2 ^ al))%nat with k; [by rewrite Hb|]. unfold zlen in Hlen.
    replace (length data) with (k * Z.to_nat (2 ^ al))%nat by lia. rewrite Nat.div_mul; lia.
  - intros t t' w (Hp & H1 & H2 & H3) E1 E2 E3 _ _. unfold reaches. cbn [heap set_heap]. rewrite lookup_insert_eq. rewrite E1, E2, E3. done.
Defined.
#[export] Instance sim_pools p : BusPools sim_mem (sim_bus p).
Proof.
  split; intros t w n Hr; [exists (Some 9%positive)|]; exists (dev w); by destruct w.
Defined.

(** Target 5 with the regions [l], on a bus in state [b]. *)
Definition sim_target (id : Z) (l : list (positive * target_flash)) : target :=
  set_idcode id (set_flash l (set_core_methods blank_target)).
Definition sim_world (t : target) (b : B) : W :=
  {| heap := {[ 5%positive := t ]}; ctls := empty; pbuf := []; debug_bmp := false; dev := b |}.
End Sim.
End BusSim.
