(* ===== verification/Stm32f1.v ===== *)
(** target/stm32f1.c: the STM32 F0, F1 and F3 and the GD32 parts, with their
    flash program and erase controller and their option bytes. *)

From Stdlib Require Import ZArith Lia String.
From stdpp Require Import base list numbers option gmap.
From S2P Require Import Prelude CLib GdbIf MemManager GdbPacket TargetState Target Command Dap Adiv5 Cortexm FlashDev.

Definition stm32f1_cmd_list : list command :=
  [cmd_entry "erase_mass" "stm32f1_cmd_erase_mass" "Erase entire flash memory";
             cmd_entry "option" "stm32f1_cmd_option" "Manipulate option bytes"].

Definition FPEC_BASE : Z := 0x40022000.
Definition FLASH_KEYR : Z := FPEC_BASE + 0x04.
Definition FLASH_OPTKEYR : Z := FPEC_BASE + 0x08.
Definition FLASH_SR : Z := FPEC_BASE + 0x0C.
Definition FLASH_CR : Z := FPEC_BASE + 0x10.
Definition FLASH_AR : Z := FPEC_BASE + 0x14.
Definition FLASH_OBR : Z := FPEC_BASE + 0x1C.
Definition FLASH_BANK2_OFFSET : Z := 0x40.
Definition FLASH_BANK_SPLIT : Z := 0x08080000.
Definition FLASH_CR_OPTWRE : Z := 0x200.
Definition FLASH_CR_LOCK : Z := 0x80.
Definition FLASH_CR_STRT : Z := 0x40.
Definition FLASH_CR_OPTER : Z := 0x20.
Definition FLASH_CR_OPTPG : Z := 0x10.
Definition FLASH_CR_MER : Z := 4.
Definition FLASH_CR_PER : Z := 2.
Definition FLASH_CR_PG : Z := 1.
Definition FLASH_OBR_RDPRT : Z := 2.
Definition FLASH_SR_BSY : Z := 1.
Definition FLASH_OBP_RDP : Z := 0x1FFFF800.
Definition FLASH_OBP_RDP_KEY : Z := 0x5aa5.
Definition FLASH_OBP_RDP_KEY_F3 : Z := 0x55AA.
Definition KEY1 : Z := 0x45670123.
Definition KEY2 : Z := 0xCDEF89AB.
Definition SR_ERROR_MASK : Z := 0x14.
Definition SR_EOP : Z := 0x20.
Definition DBGMCU_IDCODE : Z := 0xE0042000.
Definition DBGMCU_IDCODE_F0 : Z := 0x40015800.
Definition FLASHSIZE : Z := 0x1FFFF7E0.

Section Stm32f1.
Context {D : Type} `{GdbIf D} `{MemIf D} `{Driver D} `{CortexmIf D}.
Notation MW := (M (world D)).
Variable polls : nat.
Implicit Type p : positive.
Local Notation rd32 p a := (target_mem_read32 (Some p) a).
Local Notation wr32 p a v := (target_mem_write32 (Some p) a v).

(** ** Probing *)
Definition stm32f1_add_flash p (addr length erasesize : Z) : MW unit :=
  new_flash p (flash_region addr length erasesize (flash_fns "stm32f1_flash_erase" "stm32f1_flash_write") erasesize 0xff).

(** The device identity is read from where the core has it. *)
Definition read_idcode p (low_core : Z) : MW unit :=
  let! t := load_target p in
  let! v := rd32 p (if Z.land (cpuid t) CPUID_PARTNO_MASK =? low_core then DBGMCU_IDCODE_F0 else DBGMCU_IDCODE) in
  upd_target p (set_idcode (Z.land v 0xfff)).
Definition gd32f1_name (id : Z) (m23 : bool) : option (list Z) :=
  if id =? 0x414 then Some (str "GD32F3")
  else if id =? 0x410 then Some (if m23 then str "GD32E230" else str "GD32F1")
  else None.
Definition gd32f1_probe p : MW bool :=
  let! t := load_target p in
  let stored_idcode := idcode t in
  do! read_idcode p CORTEX_M23 in
  let! signature := rd32 p FLASHSIZE in
  let flashSize := Z.land signature 0xFFFF in
  let ramSize := Z.shiftr signature 16 in
  let! t := load_target p in
  match gd32f1_name (idcode t) (Z.land (cpuid t) CPUID_PARTNO_MASK =? CORTEX_M23) with
  | None => do! upd_target p (set_idcode stored_idcode) in ret false
  | Some name =>
      do! upd_target p (set_driver name) in
      do! target_add_ram p 0x20000000 (ramSize * 1024) in
      do! stm32f1_add_flash p 0x8000000 (flashSize * 1024) 0x400 in
      do! target_add_commands p stm32f1_cmd_list name in
      ret true
  end.

(** The F0 parts: name, flash size and page size. *)
Definition stm32f0_part (id : Z) : option (list Z * Z * Z) :=
  if id =? 0x444 then Some (str "STM32F03", 0x8000, 0x400)
  else if id =? 0x445 then Some (str "STM32F04/F070x6", 0x8000, 0x400)
  else if id =? 0x440 then Some (str "STM32F05/F030x8", 0x10000, 0x400)
  else if id =? 0x448 then Some (str "STM32F07", 0x20000, 0x800)
  else if id =? 0x442 then Some (str "STM32F09/F030xC", 0x40000, 0x800)
  else None.
Definition is_one_of (id : Z) (l : list Z) : bool := existsb (Z.eqb id) l.
Definition stm32f1_probe p : MW bool :=
  let! t := load_target p in
  let stored_idcode := idcode t in
  do! read_idcode p CORTEX_M0 in
  let! t := load_target p in
  let id := idcode t in
  if is_one_of id [0x29b; 0x410; 0x412; 0x420] then
    do! target_add_ram p 0x20000000 0x5000 in
    do! stm32f1_add_flash p 0x8000000 0x20000 0x400 in
    do! target_add_commands p stm32f1_cmd_list (str "STM32 LD/MD/VL-LD/VL-MD") in
    let! ap := ci_ap p in
    do! upd_target p (set_driver (if 1 <? Z.shiftr (idr ap) 28 then str "STM32F1 (clone) medium density"
                                  else str "STM32F1 medium density")) in
    ret true
  else if is_one_of id [0x414; 0x418; 0x428] then
    do! upd_target p (set_driver (str "STM32F1  VL density")) in
    do! target_add_ram p 0x20000000 0x10000 in
    do! stm32f1_add_flash p 0x8000000 0x80000 0x800 in
    do! target_add_commands p stm32f1_cmd_list (str "STM32 HF/CL/VL-HD") in
    ret true
  else if id =? 0x430 then
    do! upd_target p (set_driver (str "STM32F1  XL density")) in
    do! target_add_ram p 0x20000000 0x18000 in
    do! stm32f1_add_flash p 0x8000000 0x80000 0x800 in
    do! stm32f1_add_flash p 0x8080000 0x80000 0x800 in
    do! target_add_commands p stm32f1_cmd_list (str "STM32 XL/VL-XL") in
    ret true
  else if is_one_of id [0x438; 0x422; 0x446; 0x432; 0x439] then
    do! when (is_one_of id [0x438; 0x422; 0x446]) (target_add_ram p 0x10000000 0x4000) in
    do! upd_target p (set_driver (str "STM32F3")) in
    do! target_add_ram p 0x20000000 0x10000 in
    do! stm32f1_add_flash p 0x8000000 0x80000 0x800 in
    do! target_add_commands p stm32f1_cmd_list (str "STM32F3") in
    ret true
  else match stm32f0_part id with
  | None => do! upd_target p (set_idcode stored_idcode) in ret false
  | Some (name, flash_size, block_size) =>
      do! upd_target p (set_driver name) in
      do! target_add_ram p 0x20000000 0x5000 in
      do! stm32f1_add_flash p 0x8000000 flash_size block_size in
      do! target_add_commands p stm32f1_cmd_list (str "STM32F0") in
      ret true
  end.

(** ** Flash *)
Definition stm32f1_flash_unlock p (bank_offset : Z) : MW Z :=
  do! wr32 p (FLASH_KEYR + bank_offset) KEY1 in
  do! wr32 p (FLASH_KEYR + bank_offset) KEY2 in
  let! cr := rd32 p FLASH_CR in
  ret (if flag cr FLASH_CR_LOCK then -1 else 0).

Definition busy (sr : Z) : bool := flag sr FLASH_SR_BSY.
Definition sr_bad (sr : Z) : bool := flag sr SR_ERROR_MASK || negb (flag sr SR_EOP).
Definition bank_of (addr : Z) : Z := if FLASH_BANK_SPLIT <=? addr then FLASH_BANK2_OFFSET else 0.
(** One page: Some error code or the next address and length. *)
Definition erase_page_body p (f : target_flash) (st : Z * Z) : MW (Z * Z + Z) :=
  let '(addr, len) := st in
  if len =? 0 then ret (inr 0) else
  let bank_offset := bank_of addr in
  do! wr32 p (FLASH_CR + bank_offset) FLASH_CR_PER in
  do! wr32 p (FLASH_AR + bank_offset) addr in
  do! wr32 p (FLASH_CR + bank_offset) (Z.lor FLASH_CR_STRT FLASH_CR_PER) in
  let! sr := while_busy polls p (FLASH_SR + bank_offset) busy in
  match sr with
  | None => ret (inr (-1))
  | Some _ => ret (inl (u32 (addr + blocksize f), if blocksize f <? len then len - blocksize f else 0))
  end.
(** One round for each page, one for the rest and one for the end. *)
Definition page_rounds (f : target_flash) (len : Z) : nat := S (S (Z.to_nat (len / blocksize f))).
Definition bank_error p (bank_offset : Z) : MW bool :=
  let! sr := rd32 p (FLASH_SR + bank_offset) in ret (sr_bad sr).
Definition when_bank (c : bool) (m : MW bool) : MW bool := if c then m else ret false.
Definition stm32f1_flash_erase p (f : target_flash) (addr len : Z) : MW Z :=
  let end_ := u32 (addr + len - 1) in
  let! t := load_target p in
  let bank2 := (idcode t =? 0x430) && (FLASH_BANK_SPLIT <=? end_) in
  let! locked := when_bank bank2 (let! r := stm32f1_flash_unlock p FLASH_BANK2_OFFSET in ret (negb (r =? 0))) in
  if locked : bool then ret (-1) else
  let! locked := when_bank (addr <? FLASH_BANK_SPLIT) (let! r := stm32f1_flash_unlock p 0 in ret (negb (r =? 0))) in
  if locked : bool then ret (-1) else
  let! r := iter (page_rounds f len) (erase_page_body p f) (addr, len) in
  if negb (r =? 0) then ret r else
  let! bad := when_bank (addr <? FLASH_BANK_SPLIT) (bank_error p 0) in
  if bad : bool then ret (-1) else
  let! t := load_target p in
  let! bad := when_bank ((idcode t =? 0x430) && (FLASH_BANK_SPLIT <=? end_)) (bank_error p FLASH_BANK2_OFFSET) in
  ret (if bad : bool then -1 else 0).

(** Programming in one bank: 0, or -1 when the link or the flash failed. *)
Definition write_bank p (bank_offset dest : Z) (src : list Z) : MW Z :=
  do! wr32 p (FLASH_CR + bank_offset) FLASH_CR_PG in
  do! ci_mem_write_sized p dest src ALIGN_HALFWORD in
  let! sr := do_while_busy polls p (FLASH_SR + bank_offset) busy in
  ret (match sr with
       | None => -1
       | Some sr => if flag sr SR_ERROR_MASK then -1 else 0
       end).
Definition stm32f1_flash_write p (f : target_flash) (dest : Z) (src : list Z) : MW Z :=
  let len := zlen src in
  let length :=
    if dest <? FLASH_BANK_SPLIT then
      if FLASH_BANK_SPLIT <=? u32 (dest + len - 1) then FLASH_BANK_SPLIT - dest else len
    else 0 in
  let! r := if dest <? FLASH_BANK_SPLIT then write_bank p 0 dest (ztake length src) else ret 0 in
  if negb (r =? 0) then ret r else
  let! t := load_target p in
  if (idcode t =? 0x430) && negb (len - length =? 0) then
    write_bank p FLASH_BANK2_OFFSET (dest + length) (zdrop length src)
  else ret 0.

Definition mass_erase_bank p (bank_offset : Z) : MW bool :=
  let! r := stm32f1_flash_unlock p bank_offset in
  if negb (r =? 0) then ret false else
  do! wr32 p (FLASH_CR + bank_offset) FLASH_CR_MER in
  do! wr32 p (FLASH_CR + bank_offset) (Z.lor FLASH_CR_STRT FLASH_CR_MER) in
  let! sr := while_busy polls p (FLASH_SR + bank_offset) busy in
  match sr with
  | None => ret false
  | Some _ => let! sr := rd32 p (FLASH_SR + bank_offset) in ret (negb (sr_bad (u16 sr)))
  end.
Definition stm32f1_cmd_erase_mass p (argv : list (list Z)) : MW bool :=
  let! ok := mass_erase_bank p 0 in
  if negb ok then ret false else
  let! t := load_target p in
  if idcode t =? 0x430 then mass_erase_bank p FLASH_BANK2_OFFSET else ret true.

(** ** Option bytes *)
Definition stm32f1_option_erase p : MW bool :=
  do! wr32 p FLASH_CR (Z.lor FLASH_CR_OPTER FLASH_CR_OPTWRE) in
  do! wr32 p FLASH_CR (Z.lor (Z.lor FLASH_CR_STRT FLASH_CR_OPTER) FLASH_CR_OPTWRE) in
  let! sr := while_busy polls p FLASH_SR busy in
  ret (if sr then true else false).
Definition stm32f1_option_write_erased p (addr value : Z) : MW bool :=
  if value =? 0xffff then ret true else
  do! wr32 p FLASH_CR (Z.lor FLASH_CR_OPTPG FLASH_CR_OPTWRE) in
  do! target_mem_write16 (Some p) addr value in
  let! sr := while_busy polls p FLASH_SR busy in
  ret (if sr then true else false).
(** The eight halfwords, and then each of them written while that works. *)
Fixpoint read_options p (n : nat) (addr : Z) : MW (list Z) :=
  match n with
  | O => ret []
  | S n' =>
      let! val := rd32 p addr in
      let! rest := read_options p n' (addr + 4) in
      ret (Z.land val 0xffff :: Z.shiftr val 16 :: rest)
  end.
Fixpoint write_options p (addr : Z) (vals : list Z) : MW bool :=
  match vals with
  | [] => ret true
  | v :: vals' =>
      let! ok := stm32f1_option_write_erased p addr v in
      if ok : bool then write_options p (addr + 2) vals' else ret false
  end.
Definition stm32f1_option_write p (addr value : Z) : MW bool :=
  let index := u32 (addr - FLASH_OBP_RDP) / 2 in
  if 7 <? index then ret false else
  let! opt_val := read_options p 4 FLASH_OBP_RDP in
  let! old := word_get opt_val index in
  if old =? value then ret true else
  let! erased_ := if negb (old =? 0xffff) then stm32f1_option_erase p else ret true in
  if negb erased_ then ret false else
  let! opt_val := word_set opt_val index value in
  write_options p FLASH_OBP_RDP opt_val.

Definition option_line (addr v : Z) : list Z := str "0x" ++ fmt_X 8 addr ++ str ": 0x" ++ fmt_X 4 v ++ nl.
Definition show_option p (i : Z) : MW unit :=
  let addr := 0x1ffff800 + i in
  let! val := rd32 p addr in
  do! tc_printf (Some p) (option_line addr (Z.land val 0xFFFF)) in
  tc_printf (Some p) (option_line (addr + 2) (Z.shiftr val 16)).
Definition obp_rdp_key (id : Z) : Z :=
  if is_one_of id [0x422; 0x432; 0x438; 0x440; 0x446; 0x445; 0x448; 0x442] then FLASH_OBP_RDP_KEY_F3 else FLASH_OBP_RDP_KEY.
(** What the arguments ask for; whether the option bytes are to be shown. *)
Definition is_erase (argv : list (list Z)) : bool :=
  match argv with [_; a] => eqb_str a (str "erase") | _ => false end.
Definition option_action p (argv : list (list Z)) (key : Z) (rdprt : bool) : MW bool :=
  if is_erase argv then
    do! stm32f1_option_erase p in
    do! stm32f1_option_write_erased p FLASH_OBP_RDP key in
    ret true
  else if rdprt then
    do! tc_printf (Some p) (str "Device is Read Protected" ++ nl) in
    do! tc_printf (Some p) (str "Use " ++ quoted (str "monitor option erase") ++ str " to unprotect, erasing device" ++ nl) in
    ret false
  else
    do! match argv with
        | [_; a1; a2] => do! stm32f1_option_write p (u32 (strtol0 a1)) (u16 (strtol0 a2)) in ret tt
        | _ => do! tc_printf (Some p) (str "usage: monitor option erase" ++ nl) in
               tc_printf (Some p) (str "usage: monitor option <addr> <value>" ++ nl)
        end in
    ret true.
Definition stm32f1_cmd_option p (argv : list (list Z)) : MW bool :=
  let! t := load_target p in
  let flash_obp_rdp_key := obp_rdp_key (idcode t) in
  let! obr := rd32 p FLASH_OBR in
  let! r := stm32f1_flash_unlock p 0 in
  if negb (r =? 0) then ret false else
  do! wr32 p FLASH_OPTKEYR KEY1 in
  do! wr32 p FLASH_OPTKEYR KEY2 in
  let! show := option_action p argv flash_obp_rdp_key (flag obr FLASH_OBR_RDPRT) in
  do! when show (for_each [0; 4; 8; 12] (show_option p)) in
  ret true.

Definition stm32f1_device : device D := {|
  dv_attach _ := None; dv_detach _ := None;
  dv_command := fn_table [("stm32f1_cmd_erase_mass"%string, stm32f1_cmd_erase_mass); ("stm32f1_cmd_option"%string, stm32f1_cmd_option)];
  dv_erase := fn_table [("stm32f1_flash_erase"%string, stm32f1_flash_erase)];
  dv_write := fn_table [("stm32f1_flash_write"%string, stm32f1_flash_write)];
  dv_done _ := None |}.
End Stm32f1.
