(* ===== verification/Stm32f1Props.v ===== *)
(** What stm32f1.c's flash functions do to the flash program and erase
    controller of an STM32F1, as its programming manual (PM0075) describes it:
    the controller and the flash behind it as a machine on the bus, and the
    theorems about erasing and programming over any target that reaches it. *)

From Stdlib Require Import ZArith Lia ZifyBool String.
From stdpp Require Import base list numbers option gmap.
From S2P Require Import Prelude CLib GdbIf MemManager GdbPacket TargetState Target TargetFlash TargetProps Command Dap Adiv5 Objects Cortexm FlashDev Stm32f1.

(** ** The controller

    One set of registers per bank.  [sr]: the status without BSY; [wait]: how
    many more reads of the status show BSY.  A second bank exists on the parts
    with more than 512 KiB; [fp_page] is the page size, [fp_end] the end of the
    flash, [fp_delay] how long an operation takes. *)
Module Fpec.
Record bank := { locked : bool; half_key : bool; cr : Z; ar : Z; sr : Z; wait : nat }.
Record fpec := { fp_1 : bank; fp_2 : bank; fp_mem : Z -> Z; fp_page : Z; fp_end : Z; fp_delay : nat }.
Definition bank_at (bk : bool) (b : fpec) : bank := if bk then fp_2 b else fp_1 b.
Definition with_bank (bk : bool) (k : bank) (m : Z -> Z) (b : fpec) : fpec :=
  {| fp_1 := if bk then fp_1 b else k; fp_2 := if bk then k else fp_2 b; fp_mem := m;
     fp_page := fp_page b; fp_end := fp_end b; fp_delay := fp_delay b |}.
Definition set_lock l h k : bank := {| locked := l; half_key := h; cr := cr k; ar := ar k; sr := sr k; wait := wait k |}.
Definition set_cr v k : bank := {| locked := locked k; half_key := half_key k; cr := v; ar := ar k; sr := sr k; wait := wait k |}.
Definition set_ar v k : bank := {| locked := locked k; half_key := half_key k; cr := cr k; ar := v; sr := sr k; wait := wait k |}.
Definition set_sr v n k : bank := {| locked := locked k; half_key := half_key k; cr := cr k; ar := ar k; sr := v; wait := n |}.

(** Bank 1 is what of the flash is below the split. *)
Definition in_bank (bk : bool) (b : fpec) (a : Z) : bool :=
  (if bk then FLASH_BANK_SPLIT <=? a else (0x8000000 <=? a) && (a <? FLASH_BANK_SPLIT)) && (a <? fp_end b).
Definition page_of (b : fpec) (a : Z) : Z := a - a mod fp_page b.

Inductive reg : Set := KEYR | SR | CR | AR.
Definition offset (bk : bool) : Z := if bk then FLASH_BANK2_OFFSET else 0.
Definition reg_addr (r : reg) : Z :=
  match r with KEYR => FLASH_KEYR | SR => FLASH_SR | CR => FLASH_CR | AR => FLASH_AR end.
Definition decode_reg (a : Z) : option (bool * reg) :=
  let f l := List.find (fun '(bk, r) => a =? reg_addr r + offset bk) l in
  f [(false, KEYR); (false, SR); (false, CR); (false, AR); (true, KEYR); (true, SR); (true, CR); (true, AR)].

(** Keys unlock in their order, and do nothing to an unlocked bank; a wrong key
    is left open, and so are commands while the bank is locked or busy. *)
Definition key_write (v : Z) (k : bank) : option bank :=
  if negb (locked k) then Some k
  else if (v =? KEY1) && negb (half_key k) then Some (set_lock true true k)
  else if (v =? KEY2) && half_key k then Some (set_lock false false k)
  else None.
Definition done_sr (k : bank) (n : nat) : bank := set_sr (Z.lor (sr k) SR_EOP) n k.
Definition cr_write (bk : bool) (v : Z) (b : fpec) : option fpec :=
  let k := bank_at bk b in
  if (v =? FLASH_CR_PER) || (v =? FLASH_CR_PG) then Some (with_bank bk (set_cr v k) (fp_mem b) b)
  else if (v =? Z.lor FLASH_CR_STRT FLASH_CR_PER) && (cr k =? FLASH_CR_PER) && in_bank bk b (ar k) then
    Some (with_bank bk (done_sr k (fp_delay b)) (erase_from (fp_mem b) (page_of b (ar k)) (fp_page b)) b)
  else None.
Definition reg_write (bk : bool) (r : reg) (v : Z) (b : fpec) : option fpec :=
  let k := bank_at bk b in
  match r with
  | KEYR => k' ← key_write v k; Some (with_bank bk k' (fp_mem b) b)
  | SR => None
  | CR | AR =>
      if locked k || negb (Nat.eqb (wait k) 0) then None
      else match r with AR => Some (with_bank bk (set_ar v k) (fp_mem b) b) | _ => cr_write bk v b end
  end.
(** A halfword of flash while PG is set: an erased one takes the value, any
    other only zero; the bus waits for the operation before it. *)
Definition half_at (m : Z -> Z) (a : Z) : Z := m a + 256 * m (a + 1).
Definition program (a v : Z) (b : fpec) : option fpec :=
  let bk := FLASH_BANK_SPLIT <=? a in
  let k := bank_at bk b in
  if (a mod 2 =? 0) && in_bank bk b a && negb (locked k) && (cr k =? FLASH_CR_PG) then
    Some (if (half_at (fp_mem b) a =? 0xffff) || (v =? 0)
          then with_bank bk (done_sr k (fp_delay b))
                 (fun x => if x =? a then v mod 256 else if x =? a + 1 then v / 256 else fp_mem b x) b
          else with_bank bk (set_sr (Z.lor (sr k) 4) (fp_delay b) k) (fp_mem b) b)
  else None.
Definition reg_read (bk : bool) (r : reg) (b : fpec) : option (Z * fpec) :=
  let k := bank_at bk b in
  match r with
  | SR => match wait k with
          | O => Some (sr k, b)
          | S n => Some (Z.lor (sr k) FLASH_SR_BSY, with_bank bk (set_sr (sr k) n k) (fp_mem b) b)
          end
  | CR => Some (if locked k then FLASH_CR_LOCK else cr k, b)
  | _ => None
  end.
#[export] Instance machine : Machine fpec := {
  b_read n a b := if Nat.eqb n 4 then '(bk, r) ← decode_reg a; reg_read bk r b else None;
  b_write n a v b := if Nat.eqb n 4 then '(bk, r) ← decode_reg a; reg_write bk r v b
                     else if Nat.eqb n 2 then program a v b else None;
}.

Lemma decode_addr bk r : decode_reg (reg_addr r + offset bk) = Some (bk, r).
Proof. by destruct bk, r. Qed.
Lemma bank_with bk k m b : bank_at bk (with_bank bk k m b) = k.
Proof. by destruct bk. Qed.
Lemma bank_other bk k m b : bank_at (negb bk) (with_bank bk k m b) = bank_at (negb bk) b.
Proof. by destruct bk. Qed.
Lemma with_with bk k m k' m' b : with_bank bk k' m' (with_bank bk k m b) = with_bank bk k' m' b.
Proof. by destruct bk. Qed.
Lemma in_bank_with bk bk' k m b a : in_bank bk' (with_bank bk k m b) a = in_bank bk' b a.
Proof. by destruct bk. Qed.

(** A bank between operations: nothing failed since the last reset. *)
Definition idle (k : bank) : Prop := wait k = 0%nat /\ Z.land (sr k) (Z.lor SR_ERROR_MASK FLASH_SR_BSY) = 0 /\ is_u32 (sr k).
Definition fresh (k : bank) : Prop := idle k /\ (locked k = true -> half_key k = false).
Lemma idle_flags k : idle k -> flag (sr k) FLASH_SR_BSY = false /\ flag (sr k) SR_ERROR_MASK = false.
Proof.
  intros (_ & Hz & _). unfold flag. split; apply negb_false_iff, Z.eqb_eq; apply Z.bits_inj'; intros n Hn;
    pose proof (f_equal (fun x => Z.testbit x n) Hz) as Hb; cbv beta in Hb; rewrite Z.land_spec, Z.lor_spec, Z.bits_0 in Hb; rewrite Z.land_spec, Z.bits_0;
    destruct (Z.testbit (sr k) n); [|done| |done]; apply orb_false_iff in Hb as [Hb1 Hb2]; by rewrite ?Hb1, ?Hb2.
Qed.
Lemma busy_done_idle k : idle k -> idle (done_sr k 0) /\ flag (Z.lor (sr k) SR_EOP) SR_EOP = true.
Proof.
  intros (Hw & Hz & Hu). split; [split; [done|split]|].
  - cbn [sr done_sr set_sr]. by rewrite Z.land_lor_distr_l, Hz.
  - by apply in_width_lor.
  - unfold flag. rewrite Z.land_lor_distr_l. apply negb_true_iff, Z.eqb_neq. intros Hc%Z.lor_eq_0_iff. by destruct Hc.
Qed.
End Fpec.

Section Runs.
Import Fpec.
Context {D : Type} {GI : GdbIf D} {DRV : Driver D} {CI : CortexmIf D} (p : positive) {BS : BusSpec DRV CI p fpec}.
Notation W := (world D).
Implicit Types (b : fpec) (bk : bool) (t : target).
Variable polls : nat.

Lemma reg_offset r bk : reg_addr r + offset bk = reg_addr r + (if bk then FLASH_BANK2_OFFSET else 0).
Proof. done. Qed.
Lemma run_reg_write t b bk r v b' : is_u32 v -> reg_write bk r v b = Some b' ->
  bus_run p t b (target_mem_write32 (Some p) (reg_addr r + offset bk) v) tt b'.
Proof. intros Hv Hw. apply br_write32; [done|]. cbn [b_write machine Nat.eqb]. rewrite decode_addr. exact Hw. Qed.
Lemma run_reg_read t b bk r v b' : is_u32 v -> reg_read bk r b = Some (v, b') ->
  bus_run p t b (target_mem_read32 (Some p) (reg_addr r + offset bk)) v b'.
Proof. intros Hv Hw. apply br_read32; [done|]. cbn [b_read machine Nat.eqb]. rewrite decode_addr. exact Hw. Qed.

(** Unlocking a bank; what it reports is the state of bank 1. *)
Definition unlocked (k : bank) : bank := if locked k then set_lock false false k else k.
Lemma run_unlock t b bk : fresh (bank_at bk b) -> is_u32 (cr (fp_1 b)) ->
  Z.land (cr (fp_1 b)) FLASH_CR_LOCK = 0 ->
  let b' := with_bank bk (unlocked (bank_at bk b)) (fp_mem b) b in
  bus_run p t b (stm32f1_flash_unlock p (offset bk)) (if locked (fp_1 b') then -1 else 0) b'.
Proof.
  intros [_ Hh] Hu Hl b'. unfold stm32f1_flash_unlock. change FLASH_KEYR with (reg_addr KEYR).
  assert (Hcr : cr (fp_1 b') = cr (fp_1 b)) by (unfold b', unlocked; destruct bk; cbn; [done|by destruct (locked (fp_1 b))]).
  set (k := bank_at bk b) in *.
  set (b1 := with_bank bk (if locked k then set_lock true true k else k) (fp_mem b) b).
  eapply (br_bind p t b b1); [|eapply (br_bind p t b1 b')]; [| |eapply (br_bind p t b' b')].
  - apply run_reg_write; [done|]. cbn [reg_write]. fold k. unfold key_write, b1. destruct (locked k) eqn:E; [|done].
    by rewrite (Hh eq_refl).
  - apply run_reg_write; [done|]. cbn [reg_write]. unfold b1. rewrite bank_with. unfold key_write, b', unlocked. fold k.
    destruct (locked k) eqn:E; cbn [locked set_lock negb]; [|rewrite E; cbn [negb mbind option_bind]; by rewrite with_with].
    change (KEY2 =? KEY1) with false. change (KEY2 =? KEY2) with true. cbn [half_key andb set_lock mbind option_bind cr ar sr wait].
    by rewrite with_with.
  - change FLASH_CR with (reg_addr CR + offset false). apply (run_reg_read t b' false CR (if locked (fp_1 b') then FLASH_CR_LOCK else cr (fp_1 b')) b').
    + destruct (locked (fp_1 b')); [done|by rewrite Hcr].
    + done.
  - destruct (locked (fp_1 b')); [apply br_ret|]. rewrite Hcr. unfold flag. rewrite Hl. apply br_ret.
Qed.

(** The status once the bank is no longer busy. *)
Definition waited (k : bank) : bank := set_sr (sr k) 0 k.
Lemma settles_sr n bk b : is_u32 (sr (bank_at bk b)) -> flag (sr (bank_at bk b)) FLASH_SR_BSY = false -> wait (bank_at bk b) = n ->
  settles (FLASH_SR + offset bk) busy n b (sr (bank_at bk b)) (with_bank bk (waited (bank_at bk b)) (fp_mem b) b).
Proof.
  change FLASH_SR with (reg_addr SR). revert b. induction n as [|n IH]; intros b Hu Hf Hn.
  - assert (Hb : with_bank bk (waited (bank_at bk b)) (fp_mem b) b = b).
    { unfold waited. rewrite <- Hn. by destruct b as [[] [] ? ? ? ?], bk. }
    rewrite Hb. apply settled; [done| |done]. cbn [b_read machine Nat.eqb]. rewrite decode_addr. cbn [mbind option_bind reg_read].
    by rewrite Hn.
  - set (b1 := with_bank bk (set_sr (sr (bank_at bk b)) n (bank_at bk b)) (fp_mem b) b).
    assert (Hb1 : bank_at bk b1 = set_sr (sr (bank_at bk b)) n (bank_at bk b)) by apply bank_with.
    specialize (IH b1). rewrite Hb1 in IH. specialize (IH Hu Hf eq_refl). cbn [sr set_sr] in IH.
    replace (with_bank bk (waited (bank_at bk b)) (fp_mem b) b)
      with (with_bank bk (waited (set_sr (sr (bank_at bk b)) n (bank_at bk b))) (fp_mem b1) b1)
      by (unfold b1; rewrite with_with; by destruct bk).
    eapply settling; [|cbn [b_read machine Nat.eqb]; rewrite decode_addr; cbn [mbind option_bind reg_read]; rewrite Hn; reflexivity| |exact IH].
    + by apply in_width_lor.
    + unfold busy, flag. rewrite Z.land_lor_distr_l. apply negb_true_iff, Z.eqb_neq. intros Hc%Z.lor_eq_0_iff. by destruct Hc.
Qed.

(** One page. *)
Definition erased_bank (a : Z) (k : bank) : bank := done_sr (set_ar a (set_cr FLASH_CR_PER k)) 0.
Definition page_erased bk (a : Z) b : fpec :=
  with_bank bk (erased_bank a (bank_at bk b)) (erase_from (fp_mem b) (page_of b a) (fp_page b)) b.
Lemma run_erase_page t b f bk addr len : (fp_delay b < polls)%nat -> idle (bank_at bk b) -> locked (bank_at bk b) = false ->
  is_u32 addr -> bank_of addr = offset bk -> in_bank bk b addr = true -> 0 < len ->
  bus_run p t b (erase_page_body polls p f (addr, len)) (inl (u32 (addr + blocksize f), if blocksize f <? len then len - blocksize f else 0))
    (page_erased bk addr b).
Proof.
  intros Hd Hi Hl Ha Hbk Hin Hlen. unfold erase_page_body. rewrite (proj2 (Z.eqb_neq _ _)) by lia. rewrite Hbk.
  set (k := bank_at bk b) in *. pose proof (proj1 Hi) as Hw0.
  set (b1 := with_bank bk (set_cr FLASH_CR_PER k) (fp_mem b) b).
  set (b2 := with_bank bk (set_ar addr (set_cr FLASH_CR_PER k)) (fp_mem b) b).
  set (k3 := done_sr (set_ar addr (set_cr FLASH_CR_PER k)) (fp_delay b)).
  set (b3 := with_bank bk k3 (erase_from (fp_mem b) (page_of b addr) (fp_page b)) b).
  change FLASH_CR with (reg_addr CR). change FLASH_AR with (reg_addr AR).
  eapply (br_bind p t b b1); [|eapply (br_bind p t b1 b2)]; [| |eapply (br_bind p t b2 b3)]; [| | |eapply (br_bind p t b3 (page_erased bk addr b))].
  - apply run_reg_write; [done|]. cbn [reg_write]. fold k. rewrite Hl, Hw0. done.
  - apply run_reg_write; [done|]. cbn [reg_write]. unfold b1. rewrite bank_with. cbn [locked wait set_cr]. rewrite Hl, Hw0. cbn [Nat.eqb negb orb].
    unfold b2. rewrite with_with. by destruct bk.
  - apply run_reg_write; [done|]. cbn [reg_write]. unfold cr_write, b2. rewrite bank_with. cbn [locked wait set_cr set_ar cr ar]. rewrite Hl, Hw0.
    rewrite in_bank_with, Hin. cbn [Nat.eqb negb orb andb]. unfold b3, k3. rewrite with_with. by destruct bk.
  - destruct (busy_done_idle k Hi) as [(_ & Hz & Hu) _].
    assert (Hs : page_erased bk addr b = with_bank bk (waited (bank_at bk b3)) (fp_mem b3) b3).
    { unfold b3. rewrite bank_with, with_with. unfold page_erased, erased_bank, waited, k3. fold k. by destruct bk. }
    rewrite Hs. eapply br_while_busy; [apply settles_sr; [| |reflexivity]|]; unfold b3; rewrite ?bank_with.
    + exact Hu.
    + apply (idle_flags (done_sr k 0)). by apply busy_done_idle.
    + exact Hd.
  - apply br_ret.
Qed.

(** What the functions rely on of the controller, for operations in bank [bk]. *)
Record fit bk b : Prop := {
  ft_fresh : fresh (bank_at bk b);
  ft_cr : is_u32 (cr (fp_1 b)) /\ Z.land (cr (fp_1 b)) FLASH_CR_LOCK = 0;
  ft_page : 0 < fp_page b;
  ft_end : fp_end b < 2 ^ 32 - 1;
  ft_delay : (fp_delay b < polls)%nat;
}.
(** What erasing or programming [n] bytes at [a] leaves of [b]. *)
Record after bk (m : Z -> Z) b b' : Prop := {
  af_mem : forall x, fp_mem b' x = m x;
  af_fit : fit bk b';
  af_unlocked : locked (bank_at bk b') = false;
  af_other : bank_at (negb bk) b' = bank_at (negb bk) b;
  af_same : fp_page b' = fp_page b /\ fp_end b' = fp_end b /\ fp_delay b' = fp_delay b;
}.
Lemma fit_with bk k m b : fit bk b -> fresh k -> (bk = false -> is_u32 (cr k) /\ Z.land (cr k) FLASH_CR_LOCK = 0) -> fit bk (with_bank bk k m b).
Proof.
  intros [Hf Hc Hp He Hd] Hk Hcr. constructor; try done.
  - by rewrite bank_with.
  - destruct bk; [exact Hc|by apply Hcr].
Qed.
Lemma in_bank_between bk b a x c : in_bank bk b a = true -> in_bank bk b c = true -> a <= x <= c -> in_bank bk b x = true.
Proof. unfold in_bank. destruct bk; lia. Qed.
Lemma in_bank_of bk b a : in_bank bk b a = true -> bank_of a = offset bk /\ 0x8000000 <= a.
Proof. unfold in_bank, bank_of, FLASH_BANK_SPLIT. destruct bk, (134742016 <=? a) eqn:E; cbn [offset]; lia. Qed.

Lemma page_erased_after bk a b : fit bk b -> locked (bank_at bk b) = false -> a mod fp_page b = 0 ->
  after bk (erase_from (fp_mem b) a (fp_page b)) b (page_erased bk a b) /\ flag (sr (bank_at bk (page_erased bk a b))) SR_EOP = true.
Proof.
  intros Hfit Hl Ha. pose proof (proj1 (ft_fresh _ _ Hfit)) as Hi. destruct (busy_done_idle _ Hi) as [Hd He].
  unfold page_erased. rewrite bank_with. split; [|exact He]. constructor.
  - intros x. destruct bk; cbn [with_bank fp_mem]; unfold page_of; by rewrite Ha, Z.sub_0_r.
  - apply fit_with; [done|split; [exact Hd|cbn; by rewrite Hl]|done].
  - by rewrite bank_with.
  - apply bank_other.
  - done.
Qed.
Lemma after_trans bk m m' b b1 b' : after bk m b b1 -> (forall x, m' x = m' x) -> after bk m' b1 b' -> after bk m' b b'.
Proof.
  intros [_ _ _ Ho1 (Hs1 & Hs2 & Hs3)] _ [Hm Hf Hl Ho (Hs1' & Hs2' & Hs3')]. constructor; try done; [congruence|].
  by rewrite Hs1', Hs2', Hs3'.
Qed.
Lemma after_ext bk m m' b b' : (forall x, m x = m' x) -> after bk m b b' -> after bk m' b b'.
Proof. intros He [Hm Hf Hl Ho Hs]. constructor; try done. intros x. by rewrite Hm. Qed.

(** The loop over [S n] pages. *)
Lemma run_erase_pages t f bk n : forall b addr len k, fit bk b -> locked (bank_at bk b) = false -> blocksize f = fp_page b ->
  addr mod fp_page b = 0 -> fp_page b * Z.of_nat n < len <= fp_page b * Z.of_nat (S n) -> (S n < k)%nat ->
  in_bank bk b addr = true -> in_bank bk b (addr + fp_page b * Z.of_nat (S n) - 1) = true ->
  exists b', bus_run p t b (iter k (erase_page_body polls p f) (addr, len)) 0 b' /\
    after bk (erase_from (fp_mem b) addr (fp_page b * Z.of_nat (S n))) b b' /\ flag (sr (bank_at bk b')) SR_EOP = true.
Proof.
  induction n as [|n IH]; intros b addr len [|[|k]] Hfit Hl Hbs Ha Hlen Hk Hin Hin2; try lia; pose proof (ft_page _ _ Hfit) as Hps;
    pose proof (ft_end _ _ Hfit) as Hend; destruct (in_bank_of _ _ _ Hin) as [Hbk H8]; set (ps := fp_page b) in *;
    assert (Hu : is_u32 addr) by (unfold in_bank, in_width in *; lia);
    pose proof (fun Hp => run_erase_page t b f bk addr len (ft_delay _ _ Hfit) (proj1 (ft_fresh _ _ Hfit)) Hl Hu Hbk Hin Hp) as Hrun;
    specialize (Hrun ltac:(lia)); destruct (page_erased_after bk addr b Hfit Hl Ha) as [Haf Heop]; set (b1 := page_erased bk addr b) in *.
  - exists b1. split; [|split; [|done]].
    + intros w Hw. rewrite iter_S. destruct (Hrun w Hw) as (w1 & Hr1 & Hw1 & Ho1). rewrite (bind_Ok _ _ _ _ _ Hr1).
      rewrite Hbs. fold ps. replace (ps <? len) with false by lia. exists w1. rewrite iter_S. done.
    + eapply after_ext; [|exact Haf]. intros x. by replace (ps * Z.of_nat 1) with ps by lia.
  - destruct Haf as [Hm Hf1 Hl1 Hot (Hs1 & Hs2 & Hs3)].
    assert (Hub : u32 (addr + blocksize f) = addr + ps).
    { rewrite Hbs. apply u32_small. unfold in_bank in *. nia. }
    destruct (IH b1 (addr + ps) (len - ps) (S k)) as (b' & Hr & Haf' & He'); rewrite ?Hs1; fold ps; try done; try lia.
    + rewrite <- (Z.mul_1_l ps) at 1. by rewrite Z.mod_add by lia.
    + unfold b1, page_erased. rewrite in_bank_with. eapply in_bank_between; [exact Hin|exact Hin2|nia].
    + unfold b1, page_erased. rewrite in_bank_with. rewrite <- Hin2. f_equal. lia.
    + exists b'. split; [|split; [|done]].
      * intros w Hw. rewrite iter_S. destruct (Hrun w Hw) as (w1 & Hr1 & Hw1 & Ho1). rewrite (bind_Ok _ _ _ _ _ Hr1).
        rewrite Hub, Hbs. fold ps. replace (ps <? len) with true by nia. destruct (Hr w1 Hw1) as (w2 & Hr2 & Hw2 & Ho2).
        exists w2. split; [exact Hr2|]. split; [done|]. by eapply outside_trans.
      * rewrite Hs1 in Haf'. fold ps in Haf'. destruct Haf' as [Hm' Hf' Hl' Hot' (Ht1 & Ht2 & Ht3)].
        constructor; [|done|done|by rewrite Hot'|by rewrite Ht1, Ht2, Ht3].
        intros x. rewrite Hm'. unfold erase_from. rewrite Hm. unfold erase_from.
        replace (ps * Z.of_nat (S (S n))) with (ps + ps * Z.of_nat (S n)) by lia.
        assert (Hq : 0 < ps * Z.of_nat (S n)) by lia. set (q := ps * Z.of_nat (S n)) in *. clearbody q.
        fold ps. repeat match goal with |- context [if ?c then _ else _] => destruct c eqn:? end; lia.
Qed.

(** The status after the last page. *)
Lemma run_bank_error t b bk : fit bk b -> flag (sr (bank_at bk b)) SR_EOP = true ->
  bus_run p t b (bank_error p (offset bk)) false b.
Proof.
  intros Hfit He. destruct (ft_fresh _ _ Hfit) as [Hi _]. pose proof Hi as (Hw & _ & Hu).
  unfold bank_error. change FLASH_SR with (reg_addr SR). eapply br_bind.
  - apply (run_reg_read t b bk SR (sr (bank_at bk b)) b); [done|]. cbn [reg_read]. by rewrite Hw.
  - unfold sr_bad. rewrite (proj2 (idle_flags _ Hi)), He. apply br_ret.
Qed.
(** Unlocking the bank that is about to be erased. *)
Lemma run_unlock_fit t b bk : fit bk b -> (bk = true -> locked (fp_1 b) = false) ->
  exists b1, bus_run p t b (stm32f1_flash_unlock p (offset bk)) 0 b1 /\ after bk (fp_mem b) b b1.
Proof.
  intros Hfit Hb1. pose proof (run_unlock t b bk (ft_fresh _ _ Hfit) (proj1 (ft_cr _ _ Hfit)) (proj2 (ft_cr _ _ Hfit))) as Hr.
  cbv zeta in Hr. set (b1 := with_bank bk (unlocked (bank_at bk b)) (fp_mem b) b) in *. exists b1. split.
  - replace (locked (fp_1 b1)) with false in Hr; [exact Hr|]. unfold b1, unlocked. destruct bk; cbn; [by rewrite Hb1|].
    by destruct (locked (fp_1 b)) eqn:E; cbn; rewrite ?E.
  - assert (Hk : locked (unlocked (bank_at bk b)) = false /\ fresh (unlocked (bank_at bk b)) /\ cr (unlocked (bank_at bk b)) = cr (bank_at bk b)).
    { unfold unlocked. destruct (ft_fresh _ _ Hfit) as [Hi Hh]. destruct (locked (bank_at bk b)) eqn:E; [done|]. split; [done|]. split; [|done].
      split; [done|]. by rewrite E. }
    destruct Hk as (Hk1 & Hk2 & Hk3). constructor.
    + by destruct bk.
    + apply fit_with; [done|done|]. intros ->. rewrite Hk3. apply (ft_cr _ _ Hfit).
    + unfold b1. by rewrite bank_with.
    + apply bank_other.
    + done.
Qed.
Lemma run_erase t b f bk addr len : fit bk b -> blocksize f = fp_page b -> addr mod fp_page b = 0 -> 0 < len ->
  in_bank bk b addr = true -> in_bank bk b (addr + erase_size (fp_page b) len - 1) = true ->
  (bk = true -> idcode t = 0x430 /\ locked (fp_1 b) = false) ->
  exists b', bus_run p t b (stm32f1_flash_erase polls p f addr len) 0 b' /\
    after bk (erase_from (fp_mem b) addr (erase_size (fp_page b) len)) b b'.
Proof.
  intros Hfit Hbs Ha Hlen Hin Hin2 Hxl. destruct (run_unlock_fit t b bk Hfit (fun H => proj2 (Hxl H))) as (b1 & Hr1 & [Hm1 Hf1 Hl1 Ho1 (Hp1 & He1 & Hd1)]).
  pose proof (ft_page _ _ Hfit) as Hps. pose proof (ft_end _ _ Hfit) as Hend. set (ps := fp_page b) in *.
  assert (Hq : 0 <= (len - 1) / ps) by (apply Z.div_pos; lia). pose proof (Z.div_mod (len - 1) ps ltac:(lia)) as Hdm.
  pose proof (Z.mod_pos_bound (len - 1) ps Hps) as Hmb. set (n := Z.to_nat ((len - 1) / ps)).
  assert (Hsz : erase_size ps len = ps * Z.of_nat (S n)) by (unfold erase_size, n; f_equal; lia).
  assert (Hn : Z.of_nat n = (len - 1) / ps) by (unfold n; lia).
  assert (Hll : ps * Z.of_nat n < len <= ps * Z.of_nat (S n)) by lia.
  destruct (run_erase_pages t f bk n b1 addr len (page_rounds f len)) as (b2 & Hr2 & Haf2 & Heop); rewrite ?Hp1; fold ps; try done.
  { unfold page_rounds. rewrite Hbs. pose proof (Z.div_le_mono (len - 1) len ps Hps ltac:(lia)). lia. }
  { rewrite <- Hin. unfold in_bank. by rewrite He1. }
  { rewrite <- Hin2, Hsz. unfold in_bank. by rewrite He1. }
  rewrite Hp1 in Haf2. fold ps in Haf2. rewrite <- Hsz in Haf2. pose proof Haf2 as [Hm2 Hf2 Hl2 Ho2 (Hp2 & He2 & Hd2)].
  exists b2. split.
  - assert (Hrange : addr <= u32 (addr + len - 1) <= addr + erase_size ps len - 1).
    { rewrite Hsz in Hin2 |- *. rewrite u32_small; [lia|]. destruct (in_bank_of _ _ _ Hin). unfold in_bank in *. lia. }
    assert (Hend' : in_bank bk b (u32 (addr + len - 1)) = true) by (eapply in_bank_between; [exact Hin|exact Hin2|done]).
    unfold stm32f1_flash_erase. eapply br_bind; [apply br_load|].
    assert (Hb2 : (idcode t =? 0x430) && (FLASH_BANK_SPLIT <=? u32 (addr + len - 1)) = bk).
    { unfold in_bank in Hend'. destruct bk; [rewrite (proj1 (Hxl eq_refl)); cbn [Z.eqb]; lia|]. apply andb_false_iff. lia. }
    assert (Hb1 : (addr <? FLASH_BANK_SPLIT) = negb bk) by (unfold in_bank in Hin; destruct bk; lia).
    cbv zeta. rewrite Hb2, Hb1. pose proof (run_bank_error t b2 bk Hf2 Heop) as Hbe.
    destruct bk; cbn [negb when_bank].
    + eapply br_bind; [eapply br_bind; [exact Hr1|apply br_ret]|]. cbn [negb Z.eqb]. eapply br_bind; [apply br_ret|]. cbv iota.
      eapply br_bind; [exact Hr2|]. cbn [negb Z.eqb]. eapply br_bind; [apply br_ret|]. cbv iota.
      eapply br_bind; [apply br_load|]. rewrite Hb2. cbn [when_bank]. eapply br_bind; [exact Hbe|]. apply br_ret.
    + eapply br_bind; [apply br_ret|]. cbv iota. eapply br_bind; [eapply br_bind; [exact Hr1|apply br_ret]|]. cbn [negb Z.eqb].
      eapply br_bind; [exact Hr2|]. cbn [negb Z.eqb]. eapply br_bind; [exact Hbe|]. cbv iota.
      eapply br_bind; [apply br_load|]. rewrite Hb2. cbn [when_bank]. eapply br_bind; [apply br_ret|]. apply br_ret.
  - constructor; try done; [|by rewrite Ho2|by rewrite Hp2, He2, Hd2].
    intros x. rewrite Hm2. unfold erase_from. by rewrite Hm1.
Qed.

(** On a part with two banks, erasing in bank 2 alone fails while bank 1 is
    locked, whatever the state of bank 2: its unlocking is checked in bank 1's
    control register.  Nothing is erased. *)
Theorem bank2_needs_bank1 t b f addr len w : at_bus p t b w -> idcode t = 0x430 -> locked (fp_1 b) = true ->
  fresh (fp_2 b) -> is_u32 (cr (fp_1 b)) -> Z.land (cr (fp_1 b)) FLASH_CR_LOCK = 0 ->
  FLASH_BANK_SPLIT <= addr -> 0 < len -> addr + len <= 2 ^ 32 ->
  exists b' w', stm32f1_flash_erase polls p f addr len w = Ok (-1) w' /\ at_bus p t b' w' /\ fp_mem b' = fp_mem b /\
    locked (fp_1 b') = true.
Proof.
  intros Hw Hid Hl Hf Hu Hz Ha Hlen Hend. unfold FLASH_BANK_SPLIT in Ha.
  pose proof (run_unlock t b true Hf Hu Hz) as Hr. cbv zeta in Hr. cbn [bank_at with_bank fp_1] in Hr. rewrite Hl in Hr.
  assert (Hrun : bus_run p t b (stm32f1_flash_erase polls p f addr len) (-1) (with_bank true (unlocked (fp_2 b)) (fp_mem b) b)).
  { unfold stm32f1_flash_erase. cbv zeta. eapply br_bind; [apply br_load|]. rewrite Hid, u32_small by lia.
    replace (FLASH_BANK_SPLIT <=? addr + len - 1) with true by (unfold FLASH_BANK_SPLIT; lia). rewrite Z.eqb_refl. cbn [andb when_bank].
    eapply br_bind; [eapply br_bind; [exact Hr|apply br_ret]|]. cbn [negb Z.eqb]. apply br_ret. }
  destruct (Hrun w Hw) as (w' & Hr' & Hw' & _). eexists _, w'. split; [exact Hr'|]. split; [exact Hw'|]. by split.
Qed.

(** ** Programming *)

(** A bank that programs: PG is set, nothing failed. *)
Definition programming bk b : Prop :=
  locked (bank_at bk b) = false /\ cr (bank_at bk b) = FLASH_CR_PG /\ idle (waited (bank_at bk b)) /\
  (wait (bank_at bk b) <= fp_delay b)%nat.
Lemma program_half bk b a x0 x1 : programming bk b -> is_byte x0 -> is_byte x1 -> a mod 2 = 0 -> in_bank bk b a = true ->
  fp_mem b a = 0xff -> fp_mem b (a + 1) = 0xff ->
  exists b', program a (x0 + 256 * x1) b = Some b' /\ (forall x, fp_mem b' x = programmed (fp_mem b) a [x0; x1] x) /\ programming bk b' /\
    bank_at (negb bk) b' = bank_at (negb bk) b /\ fp_page b' = fp_page b /\ fp_end b' = fp_end b /\ fp_delay b' = fp_delay b.
Proof.
  intros (Hl & Hc & Hi & Hw) H0 H1 Ha Hin Hm0 Hm1. unfold program. unfold in_width in H0, H1. change (2 ^ 8) with 256 in *.
  assert (Hbk : (FLASH_BANK_SPLIT <=? a) = bk) by (unfold in_bank in Hin; destruct bk; lia).
  rewrite Hbk, Ha, Hin, Hl, Hc. change (0 =? 0) with true. rewrite Z.eqb_refl. cbn [negb andb].
  unfold half_at. rewrite Hm0, Hm1. change (255 + 256 * 255 =? 65535) with true. cbn [orb]. eexists. split; [reflexivity|]. split; [|split; [|split; [apply bank_other|done]]].
  - intros x. cbn [with_bank fp_mem]. unfold programmed. change (zlen [x0; x1]) with 2.
    rewrite (Z.mul_comm 256), Z.mod_add, Z.div_add, Z.mod_small, Z.div_small by lia.
    destruct (Z.eqb_spec x a) as [->|Hx]; [|destruct (Z.eqb_spec x (a + 1)) as [->|Hx1]].
    + rewrite Z.sub_diag. replace ((a <=? a) && _) with true by lia. done.
    + replace (a + 1 - a) with 1 by lia. replace ((a <=? a + 1) && _) with true by lia. change (zget [x0; x1] 1) with x1. lia.
    + replace ((a <=? x) && _) with false by lia. done.
  - unfold programming. rewrite bank_with. split; [done|]. split; [done|]. split; [exact (proj1 (busy_done_idle _ Hi))|done].
Qed.
Lemma program_all bk k : forall b a data, programming bk b -> is_bytes data -> zlen data = 2 * Z.of_nat k -> a mod 2 = 0 ->
  (0 < k -> in_bank bk b a = true /\ in_bank bk b (a + 2 * Z.of_nat k - 1) = true)%nat ->
  (forall x, a <= x < a + zlen data -> fp_mem b x = 0xff) ->
  exists b', b_writes k 2 a data b = Some b' /\ (forall x, fp_mem b' x = programmed (fp_mem b) a data x) /\ programming bk b' /\
    bank_at (negb bk) b' = bank_at (negb bk) b /\ fp_page b' = fp_page b /\ fp_end b' = fp_end b /\ fp_delay b' = fp_delay b.
Proof.
  induction k as [|k IH]; intros b a data Hp Hby Hlen Ha Hin Her.
  - exists b. split; [done|]. split; [|done]. intros x. unfold programmed. replace (_ && _) with false by lia. done.
  - destruct data as [|x0 [|x1 data]]; [done|unfold zlen in Hlen; cbn in Hlen; lia|]. apply Forall_cons in Hby as [H0 Hby]. apply Forall_cons in Hby as [H1 Hby].
    destruct (Hin ltac:(lia)) as [Hin1 Hin2]. rewrite !zlen_cons in Hlen. pose proof (zlen_nonneg data).
    destruct (program_half bk b a x0 x1 Hp H0 H1 Ha Hin1) as (b1 & Hr1 & Hm1 & Hp1 & Ho1 & Hc1 & Hc2 & Hc3).
    { apply Her. rewrite !zlen_cons. lia. }
    { apply Her. rewrite !zlen_cons. lia. }
    assert (Hib : forall c, in_bank bk b1 c = in_bank bk b c) by (intros c; unfold in_bank; by rewrite Hc2).
    destruct (IH b1 (a + 2) data Hp1 Hby) as (b' & Hr' & Hm' & Hp' & Ho' & Hc1' & Hc2' & Hc3').
    + lia.
    + rewrite <- (Z.mul_1_l 2) at 1. by rewrite Z.mod_add by lia.
    + intros Hk. rewrite !Hib. split; [eapply in_bank_between; [exact Hin1|exact Hin2|lia]|]. rewrite <- Hin2. f_equal. lia.
    + intros x Hx. rewrite Hm1. unfold programmed. change (zlen [x0; x1]) with 2. replace (_ && _) with false by lia. apply Her. rewrite !zlen_cons. lia.
    + exists b'. split; [|split; [|split; [done|]]].
      * change (b_writes (S k) 2 a (x0 :: x1 :: data) b) with (b1 ← program a (le_val [x0; x1]) b; b_writes k 2 (a + 2) data b1).
        replace (le_val [x0; x1]) with (x0 + 256 * x1) by (cbn [le_val]; lia). by rewrite Hr1.
      * intros x. rewrite Hm'. unfold programmed. rewrite Hm1. unfold programmed. change (zlen [x0; x1]) with 2. rewrite !zlen_cons.
        destruct ((a + 2 <=? x) && (x <? a + 2 + zlen data)) eqn:E1.
        -- replace ((a <=? x) && _) with true by lia. replace (x - a) with (2 + (x - (a + 2))) by lia.
           change (x0 :: x1 :: data) with ([x0; x1] ++ data). rewrite zget_app by lia. change (zlen [x0; x1]) with 2.
           replace (2 + _ <? 2) with false by lia. f_equal. lia.
        -- destruct ((a <=? x) && (x <? a + 2)) eqn:E2.
           ++ replace ((a <=? x) && (x <? a + (zlen data + 1 + 1))) with true by lia. assert (x = a \/ x = a + 1) as [-> | ->] by lia.
              ** by rewrite Z.sub_diag.
              ** by replace (a + 1 - a) with 1 by lia.
           ++ replace ((a <=? x) && (x <? a + (zlen data + 1 + 1))) with false by lia. done.
      * split; [by rewrite Ho'|]. by rewrite Hc1', Hc2', Hc3'.
Qed.

Lemma run_write_bank t b bk dest src : fit bk b -> locked (bank_at bk b) = false -> is_bytes src -> src <> [] ->
  zlen src mod 2 = 0 -> dest mod 2 = 0 -> in_bank bk b dest = true -> in_bank bk b (dest + zlen src - 1) = true ->
  (forall x, dest <= x < dest + zlen src -> fp_mem b x = 0xff) ->
  exists b', bus_run p t b (write_bank polls p (offset bk) dest src) 0 b' /\ after bk (programmed (fp_mem b) dest src) b b'.
Proof.
  intros Hfit Hl Hby Hne Hev Hde Hin Hin2 Her. pose proof (proj1 (ft_fresh _ _ Hfit)) as Hi. pose proof (proj1 Hi) as Hw0.
  assert (Hlen : 0 < zlen src) by (destruct src; [done|rewrite zlen_cons; pose proof (zlen_nonneg src); lia]).
  set (k := Z.to_nat (zlen src / 2)). pose proof (Z.div_mod (zlen src) 2 ltac:(lia)) as Hdm.
  assert (Hk : zlen src = 2 * Z.of_nat k) by (unfold k; lia).
  set (b1 := with_bank bk (set_cr FLASH_CR_PG (bank_at bk b)) (fp_mem b) b).
  assert (Hmem1 : fp_mem b1 = fp_mem b) by (unfold b1; by destruct bk).
  destruct (program_all bk k b1 dest src) as (b2 & Hr2 & Hm2 & Hp2 & Ho2 & Hc1 & Hc2 & Hc3).
  { unfold programming, b1. rewrite bank_with. split; [done|]. split; [done|]. cbn [wait set_cr]. rewrite Hw0. split; [|lia].
    destruct Hi as (? & ? & ?). by split. }
  { done. } { done. } { done. }
  { intros _. unfold b1. rewrite !in_bank_with. by rewrite <- Hk. }
  { intros x Hx. rewrite Hmem1. by apply Her. }
  rewrite Hmem1 in Hm2. destruct Hp2 as (Hl2 & Hcr2 & Hi2 & Hw2). pose proof (idle_flags _ Hi2) as [Hf1 Hf2].
  pose proof (proj2 (proj2 Hi2)) as Hu2. cbn [waited sr set_sr] in Hf1, Hf2, Hu2. pose proof (ft_delay _ _ Hfit) as Hdl.
  set (b3 := with_bank bk (waited (bank_at bk b2)) (fp_mem b2) b2).
  assert (Hc3' : fp_delay b2 = fp_delay b) by done. exists b3. split.
  - unfold write_bank. change FLASH_CR with (reg_addr CR). eapply (br_bind p t b b1).
    { apply run_reg_write; [done|]. cbn [reg_write]. rewrite Hl, Hw0. done. }
    destruct (in_bank_of _ _ _ Hin) as [_ H8]. pose proof (ft_end _ _ Hfit).
    eapply (br_bind p t b1 b2).
    { apply (br_sized p t b1 1 k); try done; [lia|unfold in_bank in *; destruct bk; lia]. }
    eapply (br_bind p t b2 b3).
    { eapply br_do_while_busy; [by apply (settles_sr (wait (bank_at bk b2)))|]. rewrite Hc3' in Hw2. lia. }
    cbv beta iota. rewrite Hf2. apply br_ret.
  - unfold b3. constructor.
    + intros x. destruct bk; cbn [with_bank fp_mem]; apply Hm2.
    + destruct (ft_cr _ _ Hfit) as [Hu Hz]. constructor; rewrite ?bank_with; try done.
      * split; [done|]. cbn [locked waited set_sr]. by rewrite Hl2.
      * destruct bk; [|by rewrite (bank_with false); cbn [waited set_sr cr]; rewrite Hcr2].
        cbn [with_bank fp_1]. cbn [negb bank_at] in Ho2. rewrite Ho2. done.
      * destruct bk; cbn [with_bank fp_page]; rewrite Hc1; apply Hfit.
      * destruct bk; cbn [with_bank fp_end]; rewrite Hc2; apply Hfit.
      * destruct bk; cbn [with_bank fp_delay]; rewrite Hc3; apply Hfit.
    + rewrite bank_with. exact Hl2.
    + rewrite bank_other. rewrite Ho2. apply bank_other.
    + done.
Qed.
Lemma run_write t b f bk dest src : fit bk b -> locked (bank_at bk b) = false -> is_bytes src -> src <> [] ->
  zlen src mod 2 = 0 -> dest mod 2 = 0 -> in_bank bk b dest = true -> in_bank bk b (dest + zlen src - 1) = true ->
  (bk = true -> idcode t = 0x430) -> (forall x, dest <= x < dest + zlen src -> fp_mem b x = 0xff) ->
  exists b', bus_run p t b (stm32f1_flash_write polls p f dest src) 0 b' /\ after bk (programmed (fp_mem b) dest src) b b'.
Proof.
  intros Hfit Hl Hby Hne Hev Hde Hin Hin2 Hxl Her. pose proof (run_write_bank t b bk dest src Hfit Hl Hby Hne Hev Hde Hin Hin2 Her) as (b' & Hr & Haf).
  exists b'. split; [|done]. destruct (in_bank_of _ _ _ Hin) as [_ H8]. pose proof (ft_end _ _ Hfit).
  assert (Hlen : 0 < zlen src) by (destruct src; [done|rewrite zlen_cons; pose proof (zlen_nonneg src); lia]).
  unfold stm32f1_flash_write. cbv zeta.
  assert (Hb1 : (dest <? FLASH_BANK_SPLIT) = negb bk) by (unfold in_bank in Hin; destruct bk; lia). rewrite Hb1.
  destruct bk; cbn [negb].
  - eapply br_bind; [apply br_ret|]. cbn [negb Z.eqb]. eapply br_bind; [apply br_load|]. rewrite (Hxl eq_refl), Z.sub_0_r, Z.add_0_r.
    replace (zlen src =? 0) with false by lia. exact Hr.
  - rewrite u32_small by (unfold in_bank in *; lia).
    assert (He : (FLASH_BANK_SPLIT <=? dest + zlen src - 1) = false) by (unfold in_bank in Hin2; lia). rewrite He.
    eapply br_bind; [unfold ztake, zlen; rewrite take_ge by lia; exact Hr|]. cbn [negb Z.eqb]. eapply br_bind; [apply br_load|]. rewrite Z.sub_diag. cbn [Z.eqb negb].
    rewrite andb_false_r. apply br_ret.
Qed.
End Runs.

(** ** The flash of an STM32F1 as a [FlashMemory] *)
Section Memory.
Import Fpec.
Context {D : Type} {GI : GdbIf D} {MI : MemIf D} {DRV : Driver D} {CI : CortexmIf D} (p : positive)
        {BS : BusSpec DRV CI p fpec} {BP : BusPools MI BS}.
Variables (polls : nat) (bk : bool) (fend : Z).
Notation W := (world D).
Definition f1_driver : Driver D := device_layer (stm32f1_device polls) DRV.

(** Bank [bk] of target [p] is unlocked and nothing failed. *)
Definition f1_ok (q : positive) (w : W) : Prop :=
  q = p /\ exists t, bus_ok t w /\ fit polls bk (bus_of (dev w)) /\ locked (bank_at bk (bus_of (dev w))) = false /\
    fp_end (bus_of (dev w)) = fend /\ (bk = true -> idcode t = 0x430).
Definition bank_lo : Z := if bk then FLASH_BANK_SPLIT else 0x8000000.
Definition bank_hi : Z := if bk then fend else Z.min FLASH_BANK_SPLIT fend.
Definition f1_region (f : target_flash) : Prop :=
  f_ops f = flash_fns "stm32f1_flash_erase" "stm32f1_flash_write" /\ erased f = 0xff /\ has_done f = false /\
  buf_size f mod 2 = 0 /\ bank_lo <= f_start f /\ f_start f + f_length f <= bank_hi.
Lemma in_bank_region b f a : f1_region f -> fp_end b = fend -> f_start f <= a < f_start f + f_length f -> in_bank bk b a = true.
Proof.
  intros (_ & _ & _ & _ & Hlo & Hhi) He Ha. revert Hlo Hhi. unfold in_bank, bank_lo, bank_hi. rewrite He. destruct bk; lia.
Qed.
Lemma f1_write_ok q f a data w : f1_ok q w -> f1_region f -> is_bytes data -> 0 < zlen data -> zlen data = buf_size f ->
  a mod buf_size f = 0 -> f_start f <= a -> a + zlen data <= f_start f + f_length f ->
  (forall x, a <= x < a + zlen data -> fp_mem (bus_of (dev w)) x = erased f) ->
  exists w', @drv_flash_write D f1_driver q f a data w = Ok 0 w' /\ heap w' = heap w /\ f1_ok q w' /\
    (forall x, fp_mem (bus_of (dev w')) x = if (a <=? x) && (x <? a + zlen data) then zget data (x - a) else fp_mem (bus_of (dev w)) x).
Proof.
  intros (-> & t & Hok & Hfit & Hl & Hend & Hxl) Hreg Hby Hlen Hsz Ha Hlo Hhi Her. pose proof Hreg as (Hops & Hff & _ & Hev & _).
  assert (Hlen2 : zlen data mod 2 = 0) by (by rewrite Hsz).
  assert (Ha2 : a mod 2 = 0).
  { rewrite <- Hsz in Ha, Hev. pose proof (Z.div_mod a (zlen data) ltac:(lia)) as Hd1. pose proof (Z.div_mod (zlen data) 2 ltac:(lia)) as Hd2.
    rewrite Ha in Hd1. rewrite Hev in Hd2. apply Z.mod_divide; [lia|]. exists (zlen data / 2 * (a / zlen data)). lia. }
  assert (Hne : data <> []) by (by intros ->).
  destruct (run_write p polls t _ f bk a data Hfit Hl Hby Hne Hlen2 Ha2
    ltac:(apply (in_bank_region _ f); [done|done|lia]) ltac:(apply (in_bank_region _ f); [done|done|lia]) Hxl
    ltac:(intros x Hx; rewrite Her by done; exact Hff)) as (b' & Hrun & [Hm Hf' Hl' _ (_ & He' & _)]).
  destruct (Hrun w (conj Hok eq_refl)) as (w' & Hr & (Hok' & Hb') & (d & ->)). subst b'.
  exists (set_dev d w). split; [|split; [done|split; [|done]]].
  - cbn [drv_flash_write f1_driver device_layer]. rewrite Hops. exact Hr.
  - split; [done|]. exists t. by rewrite He'.
Qed.
#[export] Instance f1_memory : @FlashMemory D MI f1_driver.
Proof.
  refine {| img w := fp_mem (bus_of (dev w)); fm_ok := f1_ok; fm_region := f1_region |}.
  - intros b a f H. exact H.
  - exact f1_write_ok.
  - intros q f w _ (_ & _ & Hd & _) Hd'. congruence.
  - by intros w w' ->.
  - intros q t l w (-> & t' & Hok & Hrest) Hp. split; [done|]. destruct (bus_target t' w Hok) as (Hp' & _).
    assert (t' = t) as -> by congruence. exists (set_flash l t). split; [|exact Hrest]. by apply (bus_heap t).
  - intros q n w (-> & t & Hok & Hrest). destruct (bus_alloc t w n Hok) as (h & d & Hr & Hok' & Hb).
    exists h, (set_dev d w). split; [done|]. split; [done|]. cbn [dev set_dev]. rewrite Hb. split; [|done].
    split; [done|]. exists t. cbn [dev set_dev]. by rewrite Hb.
  - intros q h w (-> & t & Hok & Hrest). destruct (bus_free t w h Hok) as (d & Hr & Hok' & Hb).
    exists (set_dev d w). split; [done|]. split; [done|]. cbn [dev set_dev]. rewrite Hb. split; [|done].
    split; [done|]. exists t. cbn [dev set_dev]. by rewrite Hb.
Defined.

(** Target [p] is [t], whose only region is [f]: in bank [bk], of pages of the
    controller, with nothing buffered. *)
Record f1_target (t : target) (h : positive) (f : target_flash) (w : W) : Prop := {
  tg_bus : bus_ok t w;
  tg_fit : fit polls bk (bus_of (dev w));
  tg_end : fp_end (bus_of (dev w)) = fend;
  tg_flash : flash t = [(h, f)];
  tg_region : f1_region f;
  tg_page : blocksize f = fp_page (bus_of (dev w)) /\ buf_size f = fp_page (bus_of (dev w));
  tg_sectors : 0 <= f_start f /\ f_start f mod buf_size f = 0 /\ f_length f mod buf_size f = 0;
  tg_buf : buf f = None;
  tg_bank : bk = true -> idcode t = 0x430 /\ locked (fp_1 (bus_of (dev w))) = false;
}.
Lemma region_end f : f1_region f -> f_start f + f_length f <= fend.
Proof. intros (_ & _ & _ & _ & _ & Hhi). revert Hhi. unfold bank_hi. destruct bk; lia. Qed.
Lemma f1_erase_run t h f addr len w : f1_target t h f w -> 0 < len -> addr mod blocksize f = 0 -> f_start f <= addr ->
  addr + erase_size (blocksize f) len <= f_start f + f_length f ->
  exists w1, @target_flash_erase D f1_driver (S (Z.to_nat len)) (Some p) addr len w = Ok 0 w1 /\ f1_ok p w1 /\ heap w1 = heap w /\
    forall x, fp_mem (bus_of (dev w1)) x = erase_from (fp_mem (bus_of (dev w))) addr (erase_size (blocksize f) len) x.
Proof.
  intros [Hok Hfit Hend Hfl Hreg [Hbs Hbz] _ _ Hbank] Hlen Ha Hlo Hhi. destruct (bus_target t w Hok) as (Hp & _).
  pose proof (ft_page _ _ _ Hfit) as Hps. pose proof (ft_end _ _ _ Hfit) as Hns. pose proof (region_end f Hreg) as Hre.
  pose proof Hreg as (Hops & _ & _ & _ & Hblo & _). rewrite Hbs in *. set (ps := fp_page (bus_of (dev w))) in *.
  assert (Hsz : len <= erase_size ps len).
  { unfold erase_size. pose proof (Z.div_mod (len - 1) ps ltac:(lia)). pose proof (Z.mod_pos_bound (len - 1) ps Hps). lia. }
  assert (H8 : 0 <= f_start f) by (revert Hblo; unfold bank_lo, FLASH_BANK_SPLIT; destruct bk; lia).
  assert (Hff : flash_for_addr t addr = Some (0%nat, f)).
  { unfold flash_for_addr. rewrite Hfl. cbn [find_flash]. rewrite u32_small by lia. by replace (_ && _) with true by lia. }
  destruct (run_erase p polls t _ f bk addr len Hfit Hbs Ha Hlen) as (b' & Hrun & [Hm Hf' Hl' _ (_ & He' & _)]); try done;
    [apply (in_bank_region _ f); [done|done|lia]|apply (in_bank_region _ f); [done|done|fold ps; lia]|].
  destruct (Hrun w (conj Hok eq_refl)) as (w' & Hr & (Hok' & Hb') & (d & ->)). subst b'. exists (set_dev d w).
  split; [|split; [|split; [done|exact Hm]]].
  - eapply erase_one; [exact Hp|done|exact Hff|done|lia|lia|done|lia|].
    cbn [drv_flash_erase f1_driver device_layer]. rewrite Hops. exact Hr.
  - split; [done|]. exists t. split; [done|]. split; [done|]. split; [done|]. split; [by rewrite He'|]. intros H. by apply Hbank.
Qed.
End Memory.

(** ** Witnesses *)
Module F1Sim.
Import Fpec BusSim.
Definition bank0 : bank := {| locked := true; half_key := false; cr := 0; ar := 0; sr := 0; Fpec.wait := 0 |}.
Definition flash0 (fend : Z) : fpec :=
  {| fp_1 := bank0; fp_2 := bank0; fp_mem := fun _ => 0x5a; fp_page := 0x400; fp_end := fend; fp_delay := 3 |}.
Definition region0 : target_flash :=
  flash_region 0x8000000 0x20000 0x400 (flash_fns "stm32f1_flash_erase" "stm32f1_flash_write") 0x400 0xff.
Definition t0 : target := sim_target 0x410 [(3%positive, region0)].
Definition w0 : world fpec := sim_world t0 (flash0 0x8020000).
Lemma fresh0 : fresh bank0.
Proof. done. Qed.
Lemma target0 : f1_target (BS := sim_bus 5) 5 10 false 0x8020000 t0 3 region0 w0.
Proof.
  constructor; try done. constructor; try done. cbn. lia.
Qed.
(** An XL part: two banks, both locked. *)
Definition t1 : target := sim_target 0x430 [].
Definition w1 : world fpec := sim_world t1 (flash0 0x8100000).
Lemma at_w1 : at_bus (BS := sim_bus 5) 5 t1 (flash0 0x8100000) w1.
Proof. done. Qed.
End F1Sim.

Import BusSim Fpec.
Lemma bank2_needs_bank1_witness : exists b' w',
  stm32f1_flash_erase (H1 := sim_driver) 10 5 F1Sim.region0 0x8080000 0x800 F1Sim.w1 = Ok (-1) w' /\
  at_bus (BS := sim_bus 5) 5 F1Sim.t1 b' w' /\ Fpec.fp_mem b' = Fpec.fp_mem (F1Sim.flash0 0x8100000) /\ Fpec.locked (Fpec.fp_1 b') = true.
Proof.
  apply (bank2_needs_bank1 (BS := sim_bus 5) 5 10 F1Sim.t1 (F1Sim.flash0 0x8100000));
    [exact F1Sim.at_w1|reflexivity|reflexivity|exact F1Sim.fresh0|done|reflexivity|discriminate|reflexivity|discriminate].
Defined.
