(* ===== verification/Stm32f4.v ===== *)
(** target/stm32f4.c: the STM32 F2, F4 and F7 parts.  A region's extra members
    are the write parallelism, the number of its first sector, and the sector
    behind which the second bank starts. *)

From Stdlib Require Import ZArith Lia String.
From stdpp Require Import base list numbers option gmap.
From S2P Require Import Prelude CLib GdbIf MemManager GdbPacket TargetState Target Platform Command Dap Adiv5 Cortexm FlashDev.

Definition stm32f4_cmd_list : list command :=
  [cmd_entry "erase_mass" "stm32f4_cmd_erase_mass" "Erase entire flash memory";
   cmd_entry "option" "stm32f4_cmd_option" "Manipulate option bytes";
   cmd_entry "psize" "stm32f4_cmd_psize" "Configure flash write parallelism: (x8|x16|x32(default)|x64)"].

Definition FPEC_BASE : Z := 0x40023C00.
Definition FLASH_KEYR : Z := FPEC_BASE + 0x04.
Definition FLASH_OPTKEYR : Z := FPEC_BASE + 0x08.
Definition FLASH_SR : Z := FPEC_BASE + 0x0C.
Definition FLASH_CR : Z := FPEC_BASE + 0x10.
Definition FLASH_OPTCR : Z := FPEC_BASE + 0x14.
Definition FLASH_CR_PG : Z := 1.
Definition FLASH_CR_SER : Z := 2.
Definition FLASH_CR_MER : Z := 4.
Definition FLASH_CR_PSIZE16 : Z := 0x100.
Definition FLASH_CR_MER1 : Z := 0x8000.
Definition FLASH_CR_STRT : Z := 0x10000.
Definition FLASH_CR_EOPIE : Z := 0x1000000.
Definition FLASH_CR_ERRIE : Z := 0x2000000.
Definition FLASH_CR_LOCK : Z := 0x80000000.
Definition FLASH_SR_BSY : Z := 0x10000.
Definition FLASH_OPTCR_OPTLOCK : Z := 1.
Definition FLASH_OPTCR_OPTSTRT : Z := 2.
Definition FLASH_OPTCR_WDG_SW : Z := 0x20.
Definition FLASH_OPTCR_nDBANK : Z := 0x20000000.
Definition FLASH_OPTCR_DB1M : Z := 0x40000000.
Definition FLASH_OPTCR_PROT_MASK : Z := 0xff00.
Definition FLASH_OPTCR_PROT_L0 : Z := 0xaa00.
Definition FLASH_OPTCR_PROT_L1 : Z := 0xbb00.
Definition KEY1 : Z := 0x45670123.
Definition KEY2 : Z := 0xCDEF89AB.
Definition OPTKEY1 : Z := 0x08192A3B.
Definition OPTKEY2 : Z := 0x4C5D6E7F.
Definition SR_ERROR_MASK : Z := 0xF2.
Definition SR_EOP : Z := 1.
Definition DBGMCU_CR : Z := 0xE0042004.
Definition AXIM_BASE : Z := 0x8000000.
Definition ITCM_BASE : Z := 0x0200000.
Definition ID_STM32F20X : Z := 0x411.
Definition ID_STM32F40X : Z := 0x413.
Definition ID_STM32F42X : Z := 0x419.
Definition ID_STM32F446 : Z := 0x421.
Definition ID_STM32F401C : Z := 0x423.
Definition ID_STM32F411 : Z := 0x431.
Definition ID_STM32F401E : Z := 0x433.
Definition ID_STM32F46X : Z := 0x434.
Definition ID_STM32F412 : Z := 0x441.
Definition ID_STM32F74X : Z := 0x449.
Definition ID_STM32F76X : Z := 0x451.
Definition ID_STM32F72X : Z := 0x452.
Definition ID_STM32F410 : Z := 0x458.
Definition ID_STM32F413 : Z := 0x463.
Definition sizeof_stm32f4_flash : Z := 52.
Definition base_sector (f : target_flash) : Z := extra 1 f.
Definition bank_split (f : target_flash) : Z := extra 2 f.

Definition stm32f4_get_chip_name (idcode : Z) : option (list Z) :=
  if idcode =? ID_STM32F40X then Some (str "STM32F40x")
  else if idcode =? ID_STM32F42X then Some (str "STM32F42x")
  else if idcode =? ID_STM32F46X then Some (str "STM32F47x")
  else if idcode =? ID_STM32F20X then Some (str "STM32F2")
  else if idcode =? ID_STM32F446 then Some (str "STM32F446")
  else if idcode =? ID_STM32F401C then Some (str "STM32F401C")
  else if idcode =? ID_STM32F411 then Some (str "STM32F411")
  else if idcode =? ID_STM32F412 then Some (str "STM32F412")
  else if idcode =? ID_STM32F401E then Some (str "STM32F401E")
  else if idcode =? ID_STM32F413 then Some (str "STM32F413")
  else if idcode =? ID_STM32F74X then Some (str "STM32F74x")
  else if idcode =? ID_STM32F76X then Some (str "STM32F76x")
  else if idcode =? ID_STM32F72X then Some (str "STM32F72x")
  else None.

(** What [stm32f4_attach] knows of a device. *)
Record geometry := { has_ccmram : bool; is_f7 : bool; dual_bank : bool; large_sectors : bool; max_flashsize : Z }.
Definition geometry_of (id : Z) : option geometry :=
  let g c f d l n := Some {| has_ccmram := c; is_f7 := f; dual_bank := d; large_sectors := l; max_flashsize := n |} in
  if id =? ID_STM32F40X then g true false false false 1024
  else if id =? ID_STM32F42X then g true false true false 2048
  else if id =? ID_STM32F46X then g true false true false 512
  else if id =? ID_STM32F401C then g false false false false 256
  else if (id =? ID_STM32F401E) || (id =? ID_STM32F411) || (id =? ID_STM32F446) then g false false false false 512
  else if (id =? ID_STM32F20X) || (id =? ID_STM32F412) then g false false false false 1024
  else if id =? ID_STM32F413 then g false false false false 1536
  else if id =? ID_STM32F74X then g false true false true 1024
  else if id =? ID_STM32F76X then g false true true true 2048
  else if id =? ID_STM32F72X then g false true false false 512
  else None.
(** Bank size and split. *)
Definition bank_layout (g : geometry) (use_dual_bank : bool) : Z * Z :=
  if use_dual_bank then (Z.shiftl (max_flashsize g) 9, if max_flashsize g =? 0x400 then 8 else 12)
  else (Z.shiftl (max_flashsize g) 10, 0).
(** The regions in the order they are added: start, length, sector size, first
    sector. *)
Definition flash_layout (g : geometry) (use_dual_bank : bool) : list (Z * Z * Z * Z) :=
  let '(banksize, _) := bank_layout g use_dual_bank in
  if large_sectors g then
    let remains := u32 (banksize - 0x40000) in
    [(ITCM_BASE, 0x20000, 0x8000, 0); (0x0220000, 0x20000, 0x20000, 4); (0x0240000, remains, 0x40000, 5);
     (AXIM_BASE, 0x20000, 0x8000, 0); (0x8020000, 0x20000, 0x20000, 4); (0x8040000, remains, 0x40000, 5)]
  else
    let remains := if 0x20000 <? banksize then banksize - 0x20000 else 0 in
    (if is_f7 g then [(ITCM_BASE, 0x10000, 0x4000, 0)] else [])
    ++ [(0x8000000, 0x10000, 0x4000, 0)]
    ++ (if 0x10000 <? banksize then [(0x8010000, 0x10000, 0x10000, 4); (0x8020000, remains, 0x20000, 5)] else [])
    ++ (if use_dual_bank then
          let bank a n := [(a, 0x10000, 0x4000, n); (a + 0x10000, 0x10000, 0x10000, n + 4); (a + 0x20000, remains, 0x20000, n + 5)] in
          (if is_f7 g then bank (ITCM_BASE + banksize) 0 else []) ++ bank (0x8000000 + banksize) 16
        else []).

(** [val &= mask] of an option word that may not have been set. *)
Definition and_at (i : nat) (mask : Z) (val : list (option Z)) : list (option Z) := alter (fmap (Z.land mask)) i val.
Definition not32 (m : Z) : Z := u32 (Z.lnot m).
Definition optcr_mask (id : Z) (val : list (option Z)) : option (list (option Z)) :=
  if (id =? ID_STM32F20X) || (id =? ID_STM32F40X) then Some (and_at 0 (not32 0xF0000010) val)
  else if (id =? ID_STM32F46X) || (id =? ID_STM32F42X) then Some (and_at 1 0x0fff0000 (and_at 0 (not32 0x30000000) val))
  else if id =? ID_STM32F401C then Some (and_at 0 (not32 0x7FC00010) val)
  else if (id =? ID_STM32F446) || (id =? ID_STM32F411) || (id =? ID_STM32F401E) then Some (and_at 0 (not32 0x7F000010) val)
  else if id =? ID_STM32F410 then Some (and_at 0 (not32 0x7FE00010) val)
  else if id =? ID_STM32F412 then Some (and_at 0 (not32 0x70000010) val)
  else if id =? ID_STM32F413 then Some (and_at 0 (not32 0x00000010) val)
  else if id =? ID_STM32F72X then Some (and_at 0 (not32 0x3F000000) (and_at 2 (not32 0x800000ff) val))
  else if id =? ID_STM32F74X then Some (and_at 0 (not32 0x3F000000) val)
  else if id =? ID_STM32F76X then Some val
  else None.

Section Stm32f4.
Context {D : Type} `{GdbIf D} `{MemIf D} `{ClockIf D} `{Driver D} `{CortexmIf D}.
Notation MW := (M (world D)).
Variable polls : nat.
Implicit Type p : positive.
Local Notation rd32 p a := (target_mem_read32 (Some p) a).
Local Notation wr32 p a v := (target_mem_write32 (Some p) a v).

(** ** Probing and attaching *)
Definition stm32f4_add_flash p (addr length blocksize base split : Z) : MW unit :=
  if length =? 0 then ret tt else
  new_flash_of sizeof_stm32f4_flash p
    (with_extra [ALIGN_WORD; u8 base; u8 split]
       (flash_region addr length blocksize (flash_fns "stm32f4_flash_erase" "stm32f4_flash_write") 1024 0xff)).
Definition stm32f7_detach p : MW unit :=
  let! ap := ci_ap p in
  do! wr32 p DBGMCU_CR (ap_storage ap) in
  ci_detach p.
Definition stm32f4_probe p : MW bool :=
  let! t := load_target p in
  do! when ((idcode t =? ID_STM32F20X) && (Z.land (cpuid t) 0xFFF0 =? CORTEX_M4)) (upd_target p (set_idcode ID_STM32F40X)) in
  let! t := load_target p in
  let id := idcode t in
  match stm32f4_get_chip_name id with
  | None => ret false
  | Some name =>
      do! when ((id =? ID_STM32F74X) || (id =? ID_STM32F76X) || (id =? ID_STM32F72X))
        (upd_target p (fun t => set_attach_methods (m_attach t) (Fdev "stm32f7_detach") t)) in
      do! upd_target p (set_driver name) in
      do! upd_target p (fun t => set_attach_methods (Fdev "stm32f4_attach") (m_detach t) t) in
      do! target_add_commands p stm32f4_cmd_list name in
      ret true
  end.
(** Whether two banks are in use. *)
Definition uses_dual_bank p (g : geometry) : MW bool :=
  if negb (dual_bank g) then ret false
  else if is_f7 g then let! optcr := rd32 p FLASH_OPTCR in ret (negb (flag optcr FLASH_OPTCR_nDBANK))
  else if max_flashsize g <? 0x800 then let! optcr := rd32 p FLASH_OPTCR in ret (negb (flag optcr FLASH_OPTCR_DB1M))
  else ret true.
Definition add_rams p (g : geometry) : MW unit :=
  if is_f7 g then
    do! target_add_ram p 0x00000000 0x4000 in
    do! target_add_ram p 0x20000000 0x20000 in
    target_add_ram p 0x20020000 0x60000
  else
    do! when (has_ccmram g) (target_add_ram p 0x10000000 0x10000) in
    target_add_ram p 0x20000000 0x50000.
Definition stm32f4_attach p : MW bool :=
  let! ok := ci_attach p in
  if negb ok then ret false else
  let! t := load_target p in
  match geometry_of (idcode t) with
  | None => ret false
  | Some g =>
      do! target_mem_map_free p in
      do! add_rams p g in
      let! use_dual_bank := uses_dual_bank p g in
      let '(_, split) := bank_layout g use_dual_bank in
      do! for_each (flash_layout g use_dual_bank) (fun '(addr, len, bs, base) => stm32f4_add_flash p addr len bs base split) in
      ret true
  end.

(** ** Flash *)
Definition stm32f4_flash_unlock p : MW unit :=
  let! cr := rd32 p FLASH_CR in
  if flag cr FLASH_CR_LOCK then do! wr32 p FLASH_KEYR KEY1 in wr32 p FLASH_KEYR KEY2 else ret tt.
Definition target_psize (t : target) : Z := last_psize "stm32f4_flash_write" ALIGN_WORD t.
Definition busy (sr : Z) : bool := flag sr FLASH_SR_BSY.
Definition sector_cr (psize sector : Z) : Z :=
  Z.lor (Z.lor (Z.lor (Z.lor FLASH_CR_EOPIE FLASH_CR_ERRIE) FLASH_CR_SER) (psize * FLASH_CR_PSIZE16)) (Z.shiftl sector 3).
Definition next_sector (split sector : Z) : Z :=
  let sector := u8 (sector + 1) in
  if negb (split =? 0) && (sector =? split) then 16 else sector.
Definition erase_sector_body p (f : target_flash) (psize : Z) (st : Z * Z) : MW (Z * Z + Z) :=
  let '(sector, len) := st in
  if len =? 0 then ret (inr 0) else
  let cr := sector_cr psize sector in
  do! wr32 p FLASH_CR cr in
  do! wr32 p FLASH_CR (Z.lor cr FLASH_CR_STRT) in
  let! sr := while_busy polls p FLASH_SR busy in
  match sr with
  | None => ret (inr (-1))
  | Some _ => ret (inl (next_sector (bank_split f) sector, if blocksize f <? len then len - blocksize f else 0))
  end.
Definition sector_rounds (f : target_flash) (len : Z) : nat := S (S (Z.to_nat (len / blocksize f))).
Definition stm32f4_flash_erase p (f : target_flash) (addr len : Z) : MW Z :=
  if blocksize f =? 0 then crash DivByZero else
  let sector := u8 (base_sector f + u32 (addr - f_start f) / blocksize f) in
  do! stm32f4_flash_unlock p in
  let! t := load_target p in
  let psize := target_psize t in
  let! r := iter (sector_rounds f len) (erase_sector_body p f psize) (sector, len) in
  if negb (r =? 0) then ret r else
  let! sr := rd32 p FLASH_SR in
  ret (if flag sr SR_ERROR_MASK then -1 else 0).
(** ITCM addresses are the AXIM ones seen from elsewhere. *)
Definition axim_addr (dest : Z) : Z :=
  if (ITCM_BASE <=? dest) && (dest <? AXIM_BASE) then AXIM_BASE + (dest - ITCM_BASE) else dest.
Definition stm32f4_flash_write p (f : target_flash) (dest : Z) (src : list Z) : MW Z :=
  let psize := psize_of f in
  do! wr32 p FLASH_CR (Z.lor (psize * FLASH_CR_PSIZE16) FLASH_CR_PG) in
  do! ci_mem_write_sized p (axim_addr dest) src psize in
  let! sr := do_while_busy polls p FLASH_SR busy in
  ret (match sr with
       | None => -1
       | Some sr => if flag sr SR_ERROR_MASK then -1 else 0
       end).
Definition erasing_text : list Z := str "Erasing flash... This may take a few seconds.  ".
Definition stm32f4_cmd_erase_mass p (argv : list (list Z)) : MW bool :=
  let! t := load_target p in
  do! tc_printf (Some p) erasing_text in
  do! stm32f4_flash_unlock p in
  let! (_, f) := deref (flash t !! 0%nat) in
  let cr := Z.lor FLASH_CR_MER (if bank_split f =? 0 then 0 else FLASH_CR_MER1) in
  do! wr32 p FLASH_CR cr in
  do! wr32 p FLASH_CR (Z.lor cr FLASH_CR_STRT) in
  let! ok := spin_busy polls p FLASH_SR busy (ret tt) nl in
  if negb ok then ret false else
  do! tc_printf (Some p) nl in
  let! sr := rd32 p FLASH_SR in
  ret (negb (flag sr SR_ERROR_MASK || negb (flag sr SR_EOP))).

(** ** Option bytes *)

(** A word of the array that has been set. *)
Definition known (val : list (option Z)) (i : nat) : MW Z :=
  match val !! i with Some (Some v) => ret v | Some None => crash UninitRead | None => crash OutOfBounds end.
Definition has_optcr1 (id : Z) : bool :=
  (id =? ID_STM32F42X) || (id =? ID_STM32F46X) || (id =? ID_STM32F72X) || (id =? ID_STM32F74X) || (id =? ID_STM32F76X).
(** The first option word, kept at protection level 1 while the hardware
    watchdog would interrupt the erase that level 0 takes. *)
Definition keep_l1 (optcr v : Z) : bool :=
  negb (flag optcr FLASH_OPTCR_WDG_SW)
  && negb (Z.land optcr FLASH_OPTCR_PROT_MASK =? FLASH_OPTCR_PROT_L0)
  && negb (Z.land v FLASH_OPTCR_PROT_MASK =? FLASH_OPTCR_PROT_L1).
(** A link failure while the flash is busy returns -1, which is true. *)
Definition stm32f4_option_write p (val : list (option Z)) (count : Z) : MW bool :=
  let! v := known val 0 in
  let v := Z.land v (not32 (Z.lor FLASH_OPTCR_OPTSTRT FLASH_OPTCR_OPTLOCK)) in
  let! optcr := rd32 p FLASH_OPTCR in
  let l1 := keep_l1 optcr v in
  let v := if l1 then Z.lor (Z.land v (not32 FLASH_OPTCR_PROT_MASK)) FLASH_OPTCR_PROT_L1 else v in
  do! when l1 (tc_printf (Some p) (str "Keeping L1 protection while HW Watchdog fuse is set!" ++ nl)) in
  do! wr32 p FLASH_OPTKEYR OPTKEY1 in
  do! wr32 p FLASH_OPTKEYR OPTKEY2 in
  let! sr := while_busy polls p FLASH_SR busy in
  match sr with
  | None => ret true
  | Some _ =>
      let! t := load_target p in
      do! when (has_optcr1 (idcode t) && (1 <? count)) (let! v1 := known val 1 in wr32 p (FLASH_OPTCR + 4) v1) in
      do! when ((idcode t =? ID_STM32F72X) && (2 <? count)) (let! v2 := known val 2 in wr32 p (FLASH_OPTCR + 8) v2) in
      do! wr32 p FLASH_OPTCR v in
      do! wr32 p FLASH_OPTCR (Z.lor v FLASH_OPTCR_OPTSTRT) in
      do! tc_printf (Some p) erasing_text in
      let! ok := spin_busy polls p FLASH_SR busy (platform_delay 100) (str " failed" ++ nl) in
      if negb ok then ret false else
      do! tc_printf (Some p) nl in
      do! wr32 p FLASH_OPTCR FLASH_OPTCR_OPTLOCK in
      do! target_reset (Some p) in
      ret true
  end.
Definition option_defaults (id : Z) : list Z :=
  if (id =? ID_STM32F42X) || (id =? ID_STM32F46X) then [0x0FFFAAED; 0x0FFF0000]
  else if id =? ID_STM32F72X then [0xC0FFAAFD; 0x00400080; 0]
  else if id =? ID_STM32F74X then [0xC0FFAAFD; 0x00400080]
  else if id =? ID_STM32F76X then [0xFFFFAAFD; 0x00400080]
  else if id =? ID_STM32F413 then [0x7FFFAAFD]
  else [0x0FFFAAED].
(** Three words, the first of them set. *)
Definition words3 (l : list Z) : list (option Z) := take 3 ((Some <$> l) ++ [None; None; None]).
Definition stm32f4_option_write_default p : MW bool :=
  let! t := load_target p in
  let l := option_defaults (idcode t) in
  stm32f4_option_write p (words3 l) (zlen l).

Definition option_readcount (id : Z) : Z :=
  if id =? ID_STM32F72X then 3
  else if (id =? ID_STM32F74X) || (id =? ID_STM32F76X) || (id =? ID_STM32F42X) || (id =? ID_STM32F46X) then 2
  else 1.
Definition option_usage p (id : Z) : MW unit :=
  do! tc_printf (Some p) (str "usage: monitor option erase" ++ nl) in
  do! tc_printf (Some p) (str "usage: monitor option write <OPTCR>") in
  do! when (1 <? option_readcount id) (tc_printf (Some p) (str " <OPTCR1>")) in
  do! when (2 <? option_readcount id) (tc_printf (Some p) (str " <OPTCR2>")) in
  tc_printf (Some p) nl.
Definition option_request p (id : Z) (argv : list (list Z)) : MW unit :=
  match argv with
  | _ :: a1 :: rest =>
      match rest with
      | [] => if starts_like (chr "e") a1 then do! stm32f4_option_write_default p in ret tt else option_usage p id
      | _ => if starts_like (chr "w") a1 then
               let vals := take 3 (strtoul0 <$> rest) in
               match optcr_mask id (words3 vals) with
               | Some val => do! stm32f4_option_write p val (zlen vals) in ret tt
               | None => tc_printf (Some p) (str "error" ++ nl)
               end
             else option_usage p id
      end
  | _ => option_usage p id
  end.
(** The option words of the device, the others unset. *)
Definition read_optcr p (n : Z) : MW (list (option Z)) :=
  let! v0 := rd32 p FLASH_OPTCR in
  let! v1 := if 1 <? n then let! v := rd32 p (FLASH_OPTCR + 4) in ret [v] else ret [] in
  let! v2 := if 2 <? n then let! v := rd32 p (FLASH_OPTCR + 8) in ret [v] else ret [] in
  ret (words3 (v0 :: v1 ++ v2)).
Definition stm32f4_cmd_option p (argv : list (list Z)) : MW bool :=
  let! t := load_target p in
  let id := idcode t in
  let readcount := option_readcount id in
  do! option_request p id argv in
  let! val := read_optcr p readcount in
  let val := default val (optcr_mask id val) in
  let! v0 := known val 0 in
  do! tc_printf (Some p) (str "OPTCR: 0x" ++ fmt_X 8 v0 ++ str " ") in
  do! when (1 <? readcount) (let! v := known val 1 in tc_printf (Some p) (str "OPTCR1: 0x" ++ fmt_x 8 v ++ str " ")) in
  do! when (2 <? readcount) (let! v := known val 2 in tc_printf (Some p) (str "OPTCR2: 0x" ++ fmt_x 8 v)) in
  do! tc_printf (Some p) nl in
  ret true.

(** ** The write parallelism *)
Definition stm32f4_cmd_psize p (argv : list (list Z)) : MW bool :=
  psize_command "stm32f4_flash_write" ALIGN_WORD (str "usage: monitor psize (x8|x16|x32|x32)" ++ nl) p argv.

Definition stm32f4_device : device D := {|
  dv_attach := fn_table [("stm32f4_attach"%string, stm32f4_attach)];
  dv_detach := fn_table [("stm32f7_detach"%string, stm32f7_detach)];
  dv_command := fn_table [("stm32f4_cmd_erase_mass"%string, stm32f4_cmd_erase_mass); ("stm32f4_cmd_option"%string, stm32f4_cmd_option);
                          ("stm32f4_cmd_psize"%string, stm32f4_cmd_psize)];
  dv_erase := fn_table [("stm32f4_flash_erase"%string, stm32f4_flash_erase)];
  dv_write := fn_table [("stm32f4_flash_write"%string, stm32f4_flash_write)];
  dv_done _ := None |}.
End Stm32f4.
