(* ===== verification/Stm32l4.v ===== *)
(** target/stm32l4.c: the STM32 L4, L5, G4, WB and WL parts.  A region's extra
    member is where the second bank starts. *)

From Stdlib Require Import ZArith Lia String.
From stdpp Require Import base list numbers option gmap.
From S2P Require Import Prelude CLib GdbIf MemManager GdbPacket TargetState Target Platform Command Dap Adiv5 Objects Cortexm FlashDev.

Definition stm32l4_cmd_list : list command :=
  [cmd_entry "erase_mass" "stm32l4_cmd_erase_mass" "Erase entire flash memory";
   cmd_entry "erase_bank1" "stm32l4_cmd_erase_bank1" "Erase entire bank1 flash memory";
   cmd_entry "erase_bank2" "stm32l4_cmd_erase_bank2" "Erase entire bank2 flash memory";
   cmd_entry "option" "stm32l4_cmd_option" "Manipulate option bytes"].
Definition L4_FPEC_BASE : Z := 0x40022000.
Definition L5_FPEC_BASE : Z := 0x40022000.
Definition WL_FPEC_BASE : Z := 0x58004000.
Definition WB_FPEC_BASE : Z := 0x58004000.
Definition L5_FLASH_OPTR_TZEN : Z := 0x80000000.
Definition FLASH_CR_PG : Z := 1.
Definition FLASH_CR_PER : Z := 2.
Definition FLASH_CR_MER1 : Z := 4.
Definition FLASH_CR_PAGE_SHIFT : Z := 3.
Definition FLASH_CR_BKER : Z := 0x800.
Definition FLASH_CR_MER2 : Z := 0x8000.
Definition FLASH_CR_STRT : Z := 0x10000.
Definition FLASH_CR_OPTSTRT : Z := 0x20000.
Definition FLASH_CR_OBL_LAUNCH : Z := 0x8000000.
Definition FLASH_CR_LOCK : Z := 0x80000000.
Definition FLASH_SR_ERROR_MASK : Z := 0xC3FA.
Definition FLASH_SR_BSY : Z := 0x10000.
Definition FLASH_SIZE_MAX_G4_CAT4 : Z := 512 * 1024.
Definition KEY1 : Z := 0x45670123.
Definition KEY2 : Z := 0xCDEF89AB.
Definition OPTKEY1 : Z := 0x08192A3B.
Definition OPTKEY2 : Z := 0x4C5D6E7F.
Definition OR_DUALBANK : Z := 0x200000.
Definition OR_DBANK : Z := 0x400000.
Definition DBGMCU_CR (dbgmcureg : Z) : Z := dbgmcureg + 4.
Definition DBGMCU_CR_DBG_SLEEP : Z := 1.
Definition DBGMCU_CR_DBG_STOP : Z := 2.
Definition DBGMCU_CR_DBG_STANDBY : Z := 4.
Definition STM32L4_DBGMCU_IDCODE_PHYS : Z := 0xe0042000.
Definition STM32L5_DBGMCU_IDCODE_PHYS : Z := 0xe0044000.
Definition L4_FLASH_SIZE_REG : Z := 0x1FFF75E0.
Definition L5_FLASH_SIZE_REG : Z := 0x0bfa05e0.
Definition ID_STM32L41 : Z := 0x464.
Definition ID_STM32L43 : Z := 0x435.
Definition ID_STM32L45 : Z := 0x462.
Definition ID_STM32L47 : Z := 0x415.
Definition ID_STM32L49 : Z := 0x461.
Definition ID_STM32L4R : Z := 0x470.
Definition ID_STM32G43 : Z := 0x468.
Definition ID_STM32G47 : Z := 0x469.
Definition ID_STM32G49 : Z := 0x479.
Definition ID_STM32L55 : Z := 0x472.
Definition ID_STM32WLXX : Z := 0x497.
Definition ID_STM32WBXX : Z := 0x495.
Definition DUAL_BANK : Z := 0x80.
Inductive family : Set := FAM_STM32L4xx | FAM_STM32L4Rx | FAM_STM32WBxx | FAM_STM32G4xx | FAM_STM32L55x | FAM_STM32WLxx.
#[export] Instance family_eq_dec : EqDecision family.
Proof. solve_decision. Defined.
(** [flash_regs_map]: KEYR, OPTKEYR, SR, CR, OPTR, FLASHSIZE. *)
Definition stm32l4_flash_regs_map : list Z :=
  [L4_FPEC_BASE + 0x08; L4_FPEC_BASE + 0x0c; L4_FPEC_BASE + 0x10; L4_FPEC_BASE + 0x14; L4_FPEC_BASE + 0x20; L4_FLASH_SIZE_REG].
Definition stm32l5_flash_regs_map : list Z :=
  [L5_FPEC_BASE + 0x08; L5_FPEC_BASE + 0x10; L5_FPEC_BASE + 0x20; L5_FPEC_BASE + 0x28; L5_FPEC_BASE + 0x40; L5_FLASH_SIZE_REG].
Definition stm32wl_flash_regs_map : list Z :=
  [WL_FPEC_BASE + 0x08; WL_FPEC_BASE + 0x0c; WL_FPEC_BASE + 0x10; WL_FPEC_BASE + 0x14; WL_FPEC_BASE + 0x20; L4_FLASH_SIZE_REG].
Definition stm32wb_flash_regs_map : list Z :=
  [WB_FPEC_BASE + 0x08; WB_FPEC_BASE + 0x0c; WB_FPEC_BASE + 0x10; WB_FPEC_BASE + 0x14; WB_FPEC_BASE + 0x20; L4_FLASH_SIZE_REG].
Definition FLASH_KEYR : nat := 0.
Definition FLASH_OPTKEYR : nat := 1.
Definition FLASH_SR : nat := 2.
Definition FLASH_CR : nat := 3.
Definition FLASH_OPTR : nat := 4.
Definition FLASHSIZE : nat := 5.
Record stm32l4_info := {
  designator : list Z; sram1 : Z; sram2 : Z; sram3 : Z; i_idcode : Z; i_family : family; i_flags : Z; flash_regs_map : list Z }.
Definition info_row (x : Z * family * list Z * Z * Z * Z * Z * list Z) : stm32l4_info :=
  let '(id, fam, d, s1, s2, s3, fl, m) := x in
  {| designator := d; sram1 := s1; sram2 := s2; sram3 := s3; i_idcode := id; i_family := fam; i_flags := fl; flash_regs_map := m |}.
Definition L4info : list stm32l4_info := info_row <$> [
  (ID_STM32L41, FAM_STM32L4xx, str "STM32L41x", 32, 8, 0, 2, stm32l4_flash_regs_map);
  (ID_STM32L43, FAM_STM32L4xx, str "STM32L43x", 48, 16, 0, 2, stm32l4_flash_regs_map);
  (ID_STM32L45, FAM_STM32L4xx, str "STM32L45x", 128, 32, 0, 2, stm32l4_flash_regs_map);
  (ID_STM32L47, FAM_STM32L4xx, str "STM32L47x", 96, 32, 0, Z.lor 2 DUAL_BANK, stm32l4_flash_regs_map);
  (ID_STM32L49, FAM_STM32L4xx, str "STM32L49x", 256, 64, 0, Z.lor 2 DUAL_BANK, stm32l4_flash_regs_map);
  (ID_STM32L4R, FAM_STM32L4Rx, str "STM32L4Rx", 192, 64, 384, Z.lor 3 DUAL_BANK, stm32l4_flash_regs_map);
  (ID_STM32G43, FAM_STM32G4xx, str "STM32G43", 22, 10, 0, 0, stm32l4_flash_regs_map);
  (ID_STM32G47, FAM_STM32G4xx, str "STM32G47", 96, 32, 0, 2, stm32l4_flash_regs_map);
  (ID_STM32G49, FAM_STM32G4xx, str "STM32G49", 96, 16, 0, 2, stm32l4_flash_regs_map);
  (ID_STM32L55, FAM_STM32L55x, str "STM32L55", 192, 64, 0, 2, stm32l5_flash_regs_map);
  (ID_STM32WLXX, FAM_STM32WLxx, str "STM32WLxx", 64, 32, 0, 2, stm32wl_flash_regs_map);
  (ID_STM32WBXX, FAM_STM32WBxx, str "STM32WBxx", 192, 64, 0, 2, stm32wb_flash_regs_map)].
(** None is the terminator, whose [flash_regs_map] is NULL. *)
Definition stm32l4_get_chip_info (idcode : Z) : option stm32l4_info := List.find (fun c => i_idcode c =? idcode) L4info.

(** A bank start of -1: there is one bank only. *)
Definition no_bank2 : Z := 0xffffffff.
(** The regions an attach adds: start, length, page size and the start of bank 2. *)
Definition flash_layout (chip : stm32l4_info) (size options : Z) : list (Z * Z * Z * Z) :=
  let two banksize bs := [(0x08000000, banksize, bs, 0x08000000 + banksize); (0x08000000 + banksize, banksize, bs, 0x08000000 + banksize)] in
  let one len bs := [(0x08000000, len, bs, no_bank2)] in
  match i_family chip with
  | FAM_STM32WBxx => one (Z.shiftl size 10) 0x1000
  | FAM_STM32L4Rx => if flag options OR_DBANK then two 0x100000 0x1000 else one 0x200000 0x2000
  | FAM_STM32L55x => if flag options OR_DBANK then two 0x40000 0x800 else one 0x80000 0x800
  | FAM_STM32G4xx =>
      if i_idcode chip =? ID_STM32G43 then one (Z.shiftl size 10) 0x800
      else if i_idcode chip =? ID_STM32G49 then one FLASH_SIZE_MAX_G4_CAT4 0x800
      else if flag options OR_DBANK then two (Z.shiftl size 9) 0x800 else one (Z.shiftl size 10) 0x1000
  | _ =>
      if flag (i_flags chip) DUAL_BANK then
        if flag options OR_DUALBANK then two (Z.shiftl size 9) 0x800 else one (Z.shiftl size 10) 0x800
      else one (Z.shiftl size 10) 0x800
  end.
Definition sizeof_stm32l4_flash : Z := 52.
Definition bank1_start (f : target_flash) : Z := extra 0 f.

Definition l4_i2offset : list Z := [0x20; 0x24; 0x28; 0x2c; 0x30; 0x44; 0x48; 0x4c; 0x50].
Definition g4_i2offset : list Z := [0x20; 0x24; 0x28; 0x2c; 0x30; 0x70; 0x44; 0x48; 0x4c; 0x50; 0x74].
Definition g4_values : list Z :=
  [0xFFEFF8AA; 0xFFFFFFFF; 0x00FF0000; 0xFF00FFFF; 0xFF00FFFF; 0xFF00FE00; 0xFFFFFFFF; 0xFFFFFFFF; 0xFF00FFFF; 0xFF00FFFF; 0xFF00FF00].
Definition l4_values : list Z := [0xFFEFF8AA; 0xFFFFFFFF; 0; 0x000000ff; 0x000000ff; 0xffffffff; 0; 0x000000ff; 0x000000ff; 0; 0].

Section Stm32l4.
Context {D : Type} `{GdbIf D} `{MemIf D} `{ClockIf D} `{Driver D} `{CortexmIf D}.
Notation MW := (M (world D)).
Variable polls : nat.
Implicit Type p : positive.
Local Notation rd32 p a := (target_mem_read32 (Some p) a).
Local Notation wr32 p a v := (target_mem_write32 (Some p) a v).

(** ** The registers of the controller, found by the device's identity *)
Definition flash_reg p (reg : nat) : MW Z :=
  let! t := load_target p in
  let! chip := deref (stm32l4_get_chip_info (idcode t)) in
  deref (flash_regs_map chip !! reg).
Definition stm32l4_flash_read16 p (reg : nat) : MW Z := let! a := flash_reg p reg in target_mem_read16 (Some p) a.
Definition stm32l4_flash_read32 p (reg : nat) : MW Z := let! a := flash_reg p reg in rd32 p a.
Definition stm32l4_flash_write32 p (reg : nat) (value : Z) : MW unit := let! a := flash_reg p reg in wr32 p a value.
(** [while (stm32l4_flash_read32(t, reg) & mask) if (target_check_error(t)) return ..;] *)
Definition reg_busy p (reg : nat) (mask : Z) : MW (option Z) :=
  let! a := flash_reg p reg in while_busy polls p a (fun v => flag v mask).

(** ** Attaching *)
Definition stm32l4_add_flash p (addr length blocksize bank1 : Z) : MW unit :=
  new_flash_of sizeof_stm32l4_flash p
    (with_extra [bank1] (flash_region addr length blocksize (flash_fns "stm32l4_flash_erase" "stm32l4_flash_write") 2048 0xff)).
Definition L5_RCC_APB1ENR1 : Z := 0x50021058.
Definition L5_RCC_APB1ENR1_PWREN : Z := 0x10000000.
Definition L5_PWR_CR1 : Z := 0x50007000.
Definition L5_PWR_CR1_VOS : Z := 0x600.
Definition stm32l5_flash_enable p : MW unit :=
  do! wr32 p L5_RCC_APB1ENR1 L5_RCC_APB1ENR1_PWREN in
  let! v := rd32 p L5_PWR_CR1 in
  wr32 p L5_PWR_CR1 (Z.land v (u32 (Z.lnot L5_PWR_CR1_VOS))).
Definition is_family (f : family) (chip : option stm32l4_info) : bool :=
  match chip with Some c => bool_decide (i_family c = f) | None => false end.
(** The terminator's sizes are zero. *)
Definition sram_of (get : stm32l4_info -> Z) (chip : option stm32l4_info) : Z := match chip with Some c => get c | None => 0 end.
Definition add_rams p (chip : option stm32l4_info) : MW unit :=
  let s1 := sram_of sram1 chip in let s2 := sram_of sram2 chip in let s3 := sram_of sram3 chip in
  do! (if is_family FAM_STM32L55x chip then target_add_ram p 0x0A000000 (Z.shiftl (s1 + s2) 10)
       else target_add_ram p 0x10000000 (Z.shiftl s2 10)) in
  let! t := load_target p in
  target_add_ram p 0x20000000 (Z.shiftl (if idcode t =? ID_STM32L47 then s1 else s1 + s2 + s3) 10).
Definition stm32l4_attach p : MW bool :=
  let! ok := ci_attach p in
  if negb ok then ret false else
  let! t := load_target p in
  let chip := stm32l4_get_chip_info (idcode t) in
  let l5 := is_family FAM_STM32L55x chip in
  let idcodereg := if l5 then STM32L5_DBGMCU_IDCODE_PHYS else STM32L4_DBGMCU_IDCODE_PHYS in
  do! when l5 (stm32l5_flash_enable p) in
  let! h := MemManager_Alloc 4 in
  let! cr := rd32 p (DBGMCU_CR idcodereg) in
  let! h := deref h in
  do! upd_target p (set_storage (Some (h, [cr]))) in
  do! wr32 p (DBGMCU_CR idcodereg) (Z.lor (Z.lor DBGMCU_CR_DBG_SLEEP DBGMCU_CR_DBG_STANDBY) DBGMCU_CR_DBG_STOP) in
  do! target_mem_map_free p in
  do! add_rams p chip in
  let! size := stm32l4_flash_read16 p FLASHSIZE in
  let! options := stm32l4_flash_read32 p FLASH_OPTR in
  let! c := deref chip in
  do! for_each (flash_layout c size options) (fun '(addr, len, bs, b1) => stm32l4_add_flash p addr len bs b1) in
  let! sr := stm32l4_flash_read32 p FLASH_SR in
  do! stm32l4_flash_write32 p FLASH_SR sr in
  ret true.
Definition stm32l4_detach p : MW unit :=
  let! ps := storage_of p in
  let! cr := word_get ps 0 in
  do! wr32 p (DBGMCU_CR STM32L4_DBGMCU_IDCODE_PHYS) cr in
  ci_detach p.
Definition stm32l4_probe p : MW bool :=
  let! dp := ci_dp p in
  let! idcode_ :=
    if 1 <? o_targetid dp then ret (Z.land (Z.shiftr (o_targetid dp) 16) 0xfff)
    else
      let reg := if o_idcode dp =? 0x0be12477 then STM32L5_DBGMCU_IDCODE_PHYS else STM32L4_DBGMCU_IDCODE_PHYS in
      let! v := rd32 p reg in ret (Z.land v 0xfff) in
  match stm32l4_get_chip_info idcode_ with
  | None => ret false
  | Some chip =>
      do! when (idcode_ =? ID_STM32L55)
        (let! o := stm32l4_flash_read32 p FLASH_OPTR in
         when (flag o L5_FLASH_OPTR_TZEN) (upd_target p (set_core (str "M33(TZ)")))) in
      do! upd_target p (fun t => set_attach_methods (Fdev "stm32l4_attach") (Fdev "stm32l4_detach") (set_driver (designator chip) t)) in
      do! target_add_commands p stm32l4_cmd_list (designator chip) in
      ret true
  end.

(** ** Flash *)
Definition stm32l4_flash_unlock p : MW unit :=
  let! cr := stm32l4_flash_read32 p FLASH_CR in
  if flag cr FLASH_CR_LOCK then do! stm32l4_flash_write32 p FLASH_KEYR KEY1 in stm32l4_flash_write32 p FLASH_KEYR KEY2 else ret tt.
Definition page_cr (f : target_flash) (addr page : Z) : Z :=
  Z.lor (Z.lor FLASH_CR_PER (u32 (Z.shiftl page FLASH_CR_PAGE_SHIFT))) (if bank1_start f <=? addr then FLASH_CR_BKER else 0).
Definition erase_page_body p (f : target_flash) (st : Z * Z * Z) : MW (Z * Z * Z + Z) :=
  let '(addr, page, len) := st in
  if len =? 0 then ret (inr 0) else
  let cr := page_cr f addr page in
  do! stm32l4_flash_write32 p FLASH_CR cr in
  do! stm32l4_flash_write32 p FLASH_CR (Z.lor cr FLASH_CR_STRT) in
  let! sr := reg_busy p FLASH_SR FLASH_SR_BSY in
  match sr with
  | None => ret (inr (-1))
  | Some _ => ret (inl (u32 (addr + blocksize f), u32 (page + 1), if blocksize f <? len then len - blocksize f else 0))
  end.
Definition page_rounds (f : target_flash) (len : Z) : nat := S (S (Z.to_nat (len / blocksize f))).
Definition stm32l4_flash_erase p (f : target_flash) (addr len : Z) : MW Z :=
  do! stm32l4_flash_unlock p in
  let! sr := reg_busy p FLASH_SR FLASH_SR_BSY in
  match sr with
  | None => ret (-1)
  | Some _ =>
      let! sr := stm32l4_flash_read32 p FLASH_SR in
      do! stm32l4_flash_write32 p FLASH_SR sr in
      if blocksize f =? 0 then crash DivByZero else
      let! r := iter (page_rounds f len) (erase_page_body p f) (addr, u32 (addr - 0x08000000) / blocksize f, len) in
      if negb (r =? 0) then ret r else
      let! sr := stm32l4_flash_read32 p FLASH_SR in
      ret (if flag (u16 sr) FLASH_SR_ERROR_MASK then -1 else 0)
  end.
Definition stm32l4_flash_write p (f : target_flash) (dest : Z) (src : list Z) : MW Z :=
  do! stm32l4_flash_write32 p FLASH_CR FLASH_CR_PG in
  do! target_mem_write (Some p) dest src in
  let! a := flash_reg p FLASH_SR in
  let! sr := do_while_busy polls p a (fun v => flag v FLASH_SR_BSY) in
  ret (match sr with
       | None => -1
       | Some sr => if flag sr FLASH_SR_ERROR_MASK then -1 else 0
       end).
Definition stm32l4_cmd_erase p (action : Z) : MW bool :=
  do! stm32l4_flash_unlock p in
  do! stm32l4_flash_write32 p FLASH_CR action in
  do! stm32l4_flash_write32 p FLASH_CR (Z.lor action FLASH_CR_STRT) in
  let! sr := reg_busy p FLASH_SR FLASH_SR_BSY in
  match sr with
  | None => ret false
  | Some _ => let! sr := stm32l4_flash_read32 p FLASH_SR in ret (negb (flag (u16 sr) FLASH_SR_ERROR_MASK))
  end.
Definition stm32l4_cmd_erase_mass p (argv : list (list Z)) : MW bool := stm32l4_cmd_erase p (Z.lor FLASH_CR_MER1 FLASH_CR_MER2).
Definition stm32l4_cmd_erase_bank1 p (argv : list (list Z)) : MW bool := stm32l4_cmd_erase p FLASH_CR_MER1.
Definition stm32l4_cmd_erase_bank2 p (argv : list (list Z)) : MW bool := stm32l4_cmd_erase p FLASH_CR_MER2.

(** ** Option bytes *)

(** Whether it failed. *)
Definition stm32l4_option_write p (values : list Z) (len : nat) (i2offset : list Z) : MW bool :=
  do! tc_printf (Some p) (str "Device will lose connection. Rescan!" ++ nl) in
  do! stm32l4_flash_unlock p in
  do! stm32l4_flash_write32 p FLASH_OPTKEYR OPTKEY1 in
  do! stm32l4_flash_write32 p FLASH_OPTKEYR OPTKEY2 in
  let! sr := reg_busy p FLASH_SR FLASH_SR_BSY in
  if sr then
    do! for_each (take len (zip i2offset values)) (fun '(off, v) => wr32 p (L4_FPEC_BASE + off) v) in
    do! stm32l4_flash_write32 p FLASH_CR FLASH_CR_OPTSTRT in
    let! sr := reg_busy p FLASH_SR FLASH_SR_BSY in
    if sr then
      do! stm32l4_flash_write32 p FLASH_CR FLASH_CR_OBL_LAUNCH in
      let! cr := reg_busy p FLASH_CR FLASH_CR_OBL_LAUNCH in
      if cr then do! stm32l4_flash_write32 p FLASH_CR FLASH_CR_LOCK in ret false
      else ret true
    else ret true
  else ret true.
(** How many words, their offsets, and their defaults. *)
Definition option_words (id : Z) : nat * list Z * list Z :=
  if id =? ID_STM32L43 then (5%nat, l4_i2offset, l4_values)
  else if id =? ID_STM32G47 then (11%nat, g4_i2offset, g4_values)
  else if (id =? ID_STM32G43) || (id =? ID_STM32G49) then (6%nat, g4_i2offset, take 6 g4_values ++ drop 6 l4_values)
  else (9%nat, l4_i2offset, l4_values).
(** [values[i] = strtoul(..)] for each argument, then the device's words for
    the rest: an array of eleven. *)
Fixpoint store_args (values : list Z) (i : Z) (args : list (list Z)) : MW (list Z) :=
  match args with
  | [] => ret values
  | a :: args' => let! values := word_set values i (strtoul0 a) in store_args values (i + 1) args'
  end.
Fixpoint read_words p (values offsets : list Z) (i : nat) (n : nat) : MW (list Z) :=
  match n with
  | O => ret values
  | S n' =>
      let! off := word_get offsets (Z.of_nat i) in
      let! v := rd32 p (L4_FPEC_BASE + off) in
      let! values := word_set values (Z.of_nat i) v in
      read_words p values offsets (S i) n'
  end.
Definition options_unsupported (id : Z) : option (list Z) :=
  if id =? ID_STM32L55 then Some (str "STM32L5 options not implemented!")
  else if id =? ID_STM32WLXX then Some (str "STM32WLxx options not implemented!")
  else if id =? ID_STM32WBXX then Some (str "STM32WBxx options not implemented!")
  else None.
Definition option_usage p : MW bool :=
  do! tc_printf (Some p) (str "usage: monitor option erase" ++ nl) in
  do! tc_printf (Some p) (str "usage: monitor option write <value> ..." ++ nl) in
  ret false.
Definition option_request p (len : nat) (offsets values : list Z) (argv : list (list Z)) : MW bool :=
  match argv with
  | [_; a1] => if eqb_str a1 (str "erase") then stm32l4_option_write p values len offsets else option_usage p
  | _ :: a1 :: args =>
      if eqb_str a1 (str "write") then
        let! values := store_args values 0 args in
        let! values := read_words p values offsets (length args) (len - length args) in
        let! v0 := word_get values 0 in
        let! values := if Z.land v0 0xff =? 0xCC then
                         do! tc_printf (Some p) (str "Changing Level 2 request to Level 1!") in
                         word_set values 0 (u32 (v0 + 1))
                       else ret values in
        stm32l4_option_write p values len offsets
      else option_usage p
  | _ => option_usage p
  end.
Definition stm32l4_cmd_option p (argv : list (list Z)) : MW bool :=
  let! t := load_target p in
  match options_unsupported (idcode t) with
  | Some text => do! tc_printf (Some p) (text ++ nl) in ret false
  | None =>
      let '(len, offsets, values) := option_words (idcode t) in
      let! failed := option_request p len offsets values argv in
      if failed : bool then do! tc_printf (Some p) (str "Writing options failed!" ++ nl) in ret false else
      do! for_each (take len offsets) (fun off =>
        let addr := L4_FPEC_BASE + off in
        let! val := rd32 p addr in
        tc_printf (Some p) (str "0x" ++ fmt_X 8 addr ++ str ": 0x" ++ fmt_X 8 val ++ nl)) in
      ret true
  end.

Definition stm32l4_device : device D := {|
  dv_attach := fn_table [("stm32l4_attach"%string, stm32l4_attach)];
  dv_detach := fn_table [("stm32l4_detach"%string, stm32l4_detach)];
  dv_command := fn_table [("stm32l4_cmd_erase_mass"%string, stm32l4_cmd_erase_mass); ("stm32l4_cmd_erase_bank1"%string, stm32l4_cmd_erase_bank1);
                          ("stm32l4_cmd_erase_bank2"%string, stm32l4_cmd_erase_bank2); ("stm32l4_cmd_option"%string, stm32l4_cmd_option)];
  dv_erase := fn_table [("stm32l4_flash_erase"%string, stm32l4_flash_erase)];
  dv_write := fn_table [("stm32l4_flash_write"%string, stm32l4_flash_write)];
  dv_done _ := None |}.
End Stm32l4.
