(* ===== verification/Stm32g0.v ===== *)
(** target/stm32g0.c: the STM32 G0 parts, with their one-time programmable
    area.  [target_storage] holds whether irreversible operations are allowed
    and then, once attached, the three registers a detach restores. *)

From Stdlib Require Import ZArith Lia String.
From stdpp Require Import base list numbers option gmap.
From S2P Require Import Prelude CLib GdbIf MemManager GdbPacket TargetState Target Platform Command Dap Adiv5 Cortexm FlashDev.

Definition stm32g0_cmd_list : list command :=
  [cmd_entry "erase_mass [1|2]" "stm32g0_cmd_erase_mass" "Erase entire flash memory or specified bank";
   cmd_entry "option" "stm32g0_cmd_option" "Manipulate option bytes";
   cmd_entry "irreversible" "stm32g0_cmd_irreversible" "Allow irreversible operations: (enable|disable)"].

Definition FLASH_START : Z := 0x08000000.
Definition FLASH_MEMORY_SIZE : Z := 0x1FFF75E0.
Definition FLASH_PAGE_SIZE : Z := 0x800.
Definition FLASH_BANK2_START_PAGE_NB : Z := 256.
Definition FLASH_OTP_START : Z := 0x1FFF7000.
Definition FLASH_OTP_SIZE : Z := 0x400.
Definition FLASH_OTP_BLOCKSIZE : Z := 0x8.
Definition FLASH_SIZE_MAX_G03_4 : Z := 64 * 1024.
Definition FLASH_SIZE_MAX_G05_6 : Z := 64 * 1024.
Definition FLASH_SIZE_MAX_G07_8 : Z := 128 * 1024.
Definition G0_FLASH_BASE : Z := 0x40022000.
Definition FLASH_ACR : Z := G0_FLASH_BASE + 0x000.
Definition FLASH_ACR_EMPTY : Z := 0x10000.
Definition FLASH_KEYR : Z := G0_FLASH_BASE + 0x008.
Definition FLASH_KEYR_KEY1 : Z := 0x45670123.
Definition FLASH_KEYR_KEY2 : Z := 0xCDEF89AB.
Definition FLASH_CR : Z := G0_FLASH_BASE + 0x014.
Definition FLASH_CR_LOCK : Z := 0x80000000.
Definition FLASH_CR_OBL_LAUNCH : Z := 0x8000000.
Definition FLASH_CR_OPTSTRT : Z := 0x20000.
Definition FLASH_CR_STRT : Z := 0x10000.
Definition FLASH_CR_MER2 : Z := 0x8000.
Definition FLASH_CR_MER1 : Z := 4.
Definition FLASH_CR_BKER : Z := 0x2000.
Definition FLASH_CR_PNB_SHIFT : Z := 3.
Definition FLASH_CR_PER : Z := 2.
Definition FLASH_CR_PG : Z := 1.
Definition FLASH_SR : Z := G0_FLASH_BASE + 0x010.
Definition FLASH_SR_EOP : Z := 1.
Definition FLASH_SR_ERROR_MASK : Z := 0xC3FA.
Definition FLASH_SR_BSY_MASK : Z := 0x30000.
Definition FLASH_OPTKEYR : Z := G0_FLASH_BASE + 0x00C.
Definition FLASH_OPTKEYR_KEY1 : Z := 0x08192A3B.
Definition FLASH_OPTKEYR_KEY2 : Z := 0x4C5D6E7F.
Definition FLASH_OPTR : Z := G0_FLASH_BASE + 0x020.
Definition FLASH_OPTR_RDP_MASK : Z := 0xFF.
Definition FLASH_SECR : Z := G0_FLASH_BASE + 0x080.
Definition RAM_START : Z := 0x20000000.
Definition RAM_SIZE_G03_4 : Z := 8 * 1024.
Definition RAM_SIZE_G05_6 : Z := 18 * 1024.
Definition RAM_SIZE_G07_8 : Z := 36 * 1024.
Definition RAM_SIZE_G0B_C : Z := 144 * 1024.
Definition G0_RCC_BASE : Z := 0x40021000.
Definition RCC_APBENR1 : Z := G0_RCC_BASE + 0x3C.
Definition RCC_APBENR1_DBGEN : Z := 0x8000000.
Definition DBG_BASE : Z := 0x40015800.
Definition DBG_CR : Z := DBG_BASE + 0x04.
Definition DBG_CR_DBG_STANDBY : Z := 4.
Definition DBG_CR_DBG_STOP : Z := 2.
Definition DBG_APB_FZ1 : Z := DBG_BASE + 0x08.
Definition DBG_APB_FZ1_DBG_IWDG_STOP : Z := 0x1000.
Definition DBG_APB_FZ1_DBG_WWDG_STOP : Z := 0x800.
Definition STM32G03_4 : Z := 0x466.
Definition STM32G05_6 : Z := 0x456.
Definition STM32G07_8 : Z := 0x460.
Definition STM32G0B_C : Z := 0x467.
Definition sizeof_stm32g0_priv_s : Z := 16.

(** The option registers and what an erase writes to them. *)
Definition options_def : list (Z * Z) :=
  [(FLASH_OPTR, 0xFFFFFEAA);
   (G0_FLASH_BASE + 0x024, 0xFFFFFFFF); (G0_FLASH_BASE + 0x028, 0);
   (G0_FLASH_BASE + 0x02C, 0xFF); (G0_FLASH_BASE + 0x030, 0xFF);
   (G0_FLASH_BASE + 0x034, 0xFFFFFFFF); (G0_FLASH_BASE + 0x038, 0);
   (G0_FLASH_BASE + 0x044, 0xFFFFFFFF); (G0_FLASH_BASE + 0x048, 0);
   (G0_FLASH_BASE + 0x04C, 0xFF); (G0_FLASH_BASE + 0x050, 0xFF);
   (G0_FLASH_BASE + 0x054, 0xFFFFFFFF); (G0_FLASH_BASE + 0x058, 0);
   (FLASH_SECR, 0)].
Definition NB_REG_OPT : nat := 14.

Section Stm32g0.
Context {D : Type} `{GdbIf D} `{MemIf D} `{ClockIf D} `{Driver D} `{CortexmIf D}.
Notation MW := (M (world D)).
Variable polls : nat.
Implicit Type p : positive.
Local Notation rd32 p a := (target_mem_read32 (Some p) a).
Local Notation wr32 p a v := (target_mem_write32 (Some p) a v).

(** ** Private storage *)
Definition IRREVERSIBLE : nat := 0.
Definition SAVED_RCC_APBENR1 : nat := 1.
Definition SAVED_DBG_CR : nat := 2.
Definition SAVED_DBG_APB_FZ1 : nat := 3.
Definition irreversible_enabled p : MW bool := let! v := stored p IRREVERSIBLE in ret (negb (v =? 0)).

(** ** Probing and attaching *)
Definition stm32g0_add_flash p (addr length bs : Z) : MW unit :=
  new_flash p (flash_region addr length bs (flash_fns "stm32g0_flash_erase" "stm32g0_flash_write") bs 0xff).
(** RAM, flash and name; the flash of the larger parts is what the part says. *)
Definition g0_part (id : Z) : option (Z * option Z * list Z) :=
  if id =? STM32G03_4 then Some (RAM_SIZE_G03_4, Some FLASH_SIZE_MAX_G03_4, str "STM32G03/4")
  else if id =? STM32G05_6 then Some (RAM_SIZE_G05_6, Some FLASH_SIZE_MAX_G05_6, str "STM32G05/6")
  else if id =? STM32G07_8 then Some (RAM_SIZE_G07_8, Some FLASH_SIZE_MAX_G07_8, str "STM32G07/8")
  else if id =? STM32G0B_C then Some (RAM_SIZE_G0B_C, None, str "STM32G0B/C")
  else None.
Definition stm32g0_probe p : MW bool :=
  do! target_mem_map_free p in
  let! t := load_target p in
  match g0_part (idcode t) with
  | None => ret false
  | Some (ram_size, size, name) =>
      let! flash_size := match size with
                         | Some s => ret s
                         | None => let! v := target_mem_read16 (Some p) FLASH_MEMORY_SIZE in ret (v * 1024)
                         end in
      do! upd_target p (set_driver name) in
      do! target_add_ram p RAM_START ram_size in
      do! stm32g0_add_flash p FLASH_START flash_size FLASH_PAGE_SIZE in
      do! upd_target p (set_attach_methods (Fdev "stm32g0_attach") (Fdev "stm32g0_detach")) in
      do! target_add_commands p stm32g0_cmd_list name in
      do! new_storage sizeof_stm32g0_priv_s p [0] in
      do! stm32g0_add_flash p FLASH_OTP_START FLASH_OTP_SIZE FLASH_OTP_BLOCKSIZE in
      ret true
  end.
(** A register saved and some of its bits set. *)
Definition save_and_set p (i : nat) (addr bits : Z) : MW unit :=
  let! v := rd32 p addr in
  do! store_word p i v in
  wr32 p addr (Z.lor v bits).
Definition stm32g0_attach p : MW bool :=
  let! ok := ci_attach p in
  if negb ok then ret false else
  do! save_and_set p SAVED_RCC_APBENR1 RCC_APBENR1 RCC_APBENR1_DBGEN in
  do! save_and_set p SAVED_DBG_CR DBG_CR (Z.lor DBG_CR_DBG_STANDBY DBG_CR_DBG_STOP) in
  do! save_and_set p SAVED_DBG_APB_FZ1 DBG_APB_FZ1 (Z.lor DBG_APB_FZ1_DBG_IWDG_STOP DBG_APB_FZ1_DBG_WWDG_STOP) in
  ret true.
Definition restore p (i : nat) (addr : Z) : MW unit := let! v := stored p i in wr32 p addr v.
Definition stm32g0_detach p : MW unit :=
  do! restore p SAVED_DBG_APB_FZ1 DBG_APB_FZ1 in
  do! restore p SAVED_DBG_CR DBG_CR in
  do! restore p SAVED_RCC_APBENR1 RCC_APBENR1 in
  ci_detach p.

(** ** Flash *)
Definition stm32g0_flash_unlock p : MW unit :=
  do! wr32 p FLASH_KEYR FLASH_KEYR_KEY1 in
  wr32 p FLASH_KEYR FLASH_KEYR_KEY2.
Definition stm32g0_flash_lock p : MW unit :=
  let! flash_cr := rd32 p FLASH_CR in
  wr32 p FLASH_CR (Z.lor flash_cr FLASH_CR_LOCK).
Definition busy (sr : Z) : bool := flag sr FLASH_SR_BSY_MASK.
Definition exit_cleanup p (r : Z) : MW Z :=
  do! wr32 p FLASH_SR FLASH_SR_EOP in
  do! stm32g0_flash_lock p in
  ret r.
(** The page to erase and whether it is in bank 2. *)
Definition enter_bank2 (bank1_end page : Z) (on_bank2 : bool) : Z * bool :=
  if negb on_bank2 && (bank1_end <? page) then (FLASH_BANK2_START_PAGE_NB, true) else (page, on_bank2).
Definition page_cr (page : Z) (on_bank2 : bool) : Z :=
  Z.lor (Z.lor (Z.shiftl page FLASH_CR_PNB_SHIFT) FLASH_CR_PER) (if on_bank2 then FLASH_CR_BKER else 0).
Definition erase_page_body p (bank1_end : Z) (st : Z * Z * bool) : MW (Z * Z * bool + Z) :=
  let '(page_nb, nb_pages_to_erase, on_bank2) := st in
  let '(page_nb, on_bank2) := enter_bank2 bank1_end page_nb on_bank2 in
  let flash_cr := page_cr page_nb on_bank2 in
  do! wr32 p FLASH_CR flash_cr in
  do! wr32 p FLASH_CR (Z.lor flash_cr FLASH_CR_STRT) in
  let! sr := while_busy polls p FLASH_SR busy in
  match sr with
  | None => ret (inr (-1))
  | Some _ =>
      let n := u16 (nb_pages_to_erase - 1) in
      ret (if 0 <? n then inl (u16 (page_nb + 1), n, on_bank2) else inr 0)
  end.
(** A counter that starts at 0 wraps. *)
Definition page_rounds (nb_pages_to_erase : Z) : nat := S (Z.to_nat (u16 (nb_pages_to_erase - 1))).
Definition last_page_bank1 (id : Z) (f : target_flash) : Z :=
  if id =? STM32G0B_C then u16 (u32 (f_length f / 2 - 1) / blocksize f) else FLASH_BANK2_START_PAGE_NB - 1.
Definition stm32g0_flash_erase p (f : target_flash) (addr len : Z) : MW Z :=
  let end_ := u32 (addr + len - 1) in
  if u32 (f_start f + f_length f - 1) <? end_ then exit_cleanup p (-1)
  else if len =? 0 then exit_cleanup p 0
  else
    let! sr := while_busy polls p FLASH_SR busy in
    match sr with
    | None => exit_cleanup p (-1)
    | Some _ =>
        let! sr := rd32 p FLASH_SR in
        do! wr32 p FLASH_SR sr in
        if FLASH_OTP_START <=? addr then exit_cleanup p 0 else
        if blocksize f =? 0 then crash DivByZero else
        let! t := load_target p in
        let nb_pages_to_erase := u16 (u16 ((len - 1) / blocksize f) + 1) in
        let page_nb := u16 (u32 (addr - f_start f) / blocksize f) in
        do! stm32g0_flash_unlock p in
        let! r := iter (page_rounds nb_pages_to_erase) (erase_page_body p (last_page_bank1 (idcode t) f)) (page_nb, nb_pages_to_erase, false) in
        if negb (r =? 0) then exit_cleanup p (-1) else
        let! flash_sr := rd32 p FLASH_SR in
        exit_cleanup p (if flag flash_sr FLASH_SR_ERROR_MASK then -1 else 0)
    end.

Definition write_cleanup p (r : Z) : MW Z :=
  do! wr32 p FLASH_SR FLASH_SR_EOP in
  do! target_mem_write16 (Some p) FLASH_CR 0 in
  do! stm32g0_flash_lock p in
  ret r.
(** A first word in flash makes the part start from there. *)
Definition clear_empty p (dest : Z) : MW unit :=
  if dest =? FLASH_START then
    let! w := rd32 p FLASH_START in
    if negb (w =? 0xFFFFFFFF) then
      let! flash_acr := rd32 p FLASH_ACR in
      wr32 p FLASH_ACR (Z.land flash_acr (u32 (Z.lnot FLASH_ACR_EMPTY)))
    else ret tt
  else ret tt.
Definition stm32g0_flash_write p (f : target_flash) (dest : Z) (src : list Z) : MW Z :=
  let! refused := if FLASH_OTP_START <=? dest then let! b := irreversible_enabled p in ret (negb b) else ret false in
  if refused : bool then
    do! tc_printf (Some p) (str "Irreversible operations disabled" ++ nl) in
    write_cleanup p (-1)
  else
    do! stm32g0_flash_unlock p in
    do! wr32 p FLASH_CR FLASH_CR_PG in
    do! target_mem_write (Some p) dest src in
    let! sr := do_while_busy polls p FLASH_SR busy in
    match sr with
    | None => write_cleanup p (-1)
    | Some flash_sr =>
        if flag flash_sr FLASH_SR_ERROR_MASK then write_cleanup p (-1) else
        do! clear_empty p dest in
        write_cleanup p 0
    end.

(** ** Commands *)
Definition lock_and p (r : bool) : MW bool := do! stm32g0_flash_lock p in ret r.
Definition mass_erase_cr (argv : list (list Z)) : option Z :=
  match argv with
  | [_; a] =>
      let c := nth 0 a 0 in
      if c =? chr "1" then Some (Z.lor FLASH_CR_MER1 FLASH_CR_STRT)
      else if c =? chr "2" then Some (Z.lor FLASH_CR_MER2 FLASH_CR_STRT)
      else None
  | _ => Some (Z.lor (Z.lor FLASH_CR_MER1 FLASH_CR_MER2) FLASH_CR_STRT)
  end.
Definition stm32g0_cmd_erase_mass p (argv : list (list Z)) : MW bool :=
  match mass_erase_cr argv with
  | None => lock_and p false
  | Some flash_cr =>
      do! stm32g0_flash_unlock p in
      do! wr32 p FLASH_CR flash_cr in
      let! sr := while_busy polls p FLASH_SR busy in
      match sr with
      | None => lock_and p false
      | Some _ =>
          let! flash_sr := rd32 p FLASH_SR in
          lock_and p (negb (flag (u16 flash_sr) FLASH_SR_ERROR_MASK))
      end
  end.

Definition stm32g0_flash_option_unlock p : MW unit :=
  do! wr32 p FLASH_OPTKEYR FLASH_OPTKEYR_KEY1 in
  wr32 p FLASH_OPTKEYR FLASH_OPTKEYR_KEY2.
Definition write_registers p (regs : list (Z * Z)) : MW unit :=
  for_each regs (fun '(addr, val) => when (0 <? addr) (wr32 p addr val)).
Definition stm32g0_option_write p (options_req : list (Z * Z)) : MW bool :=
  do! stm32g0_flash_unlock p in
  do! stm32g0_flash_option_unlock p in
  let! sr := while_busy polls p FLASH_SR busy in
  match sr with
  | None => lock_and p false
  | Some _ =>
      do! write_registers p options_req in
      do! wr32 p FLASH_CR FLASH_CR_OPTSTRT in
      let! sr := while_busy polls p FLASH_SR busy in
      match sr with
      | None => lock_and p false
      | Some _ =>
          do! wr32 p FLASH_CR FLASH_CR_OBL_LAUNCH in
          do! tc_printf (Some p) (str "Scan and attach again" ++ nl) in
          ret true
      end
  end.
(** The table with the register at [addr] asked for; None when there is none. *)
Fixpoint add_reg_value (reg_req reg_def : list (Z * Z)) (addr val : Z) : option (list (Z * Z)) :=
  match reg_req, reg_def with
  | r :: reg_req', (a, _) :: reg_def' =>
      if addr =? a then Some ((addr, val) :: reg_req') else cons r <$> add_reg_value reg_req' reg_def' addr val
  | _, _ => None
  end.
(** The loop counter has eight bits. *)
Definition parse_registers_body (reg_str : list (list Z)) (reg_def : list (Z * Z)) (st : Z * list (Z * Z) * Z) :
    MW (Z * list (Z * Z) * Z + list (Z * Z) * Z) :=
  let '(i, reg_req, valid_regs_nb) := st in
  if i <? zlen reg_str then
    let! addr := deref (reg_str !! Z.to_nat i) in
    let! val := deref (reg_str !! Z.to_nat (i + 1)) in
    ret (inl (match add_reg_value reg_req reg_def (strtoul0 addr) (strtoul0 val) with
              | Some req => (u8 (i + 2), req, u8 (valid_regs_nb + 1))
              | None => (u8 (i + 2), reg_req, valid_regs_nb)
              end))
  else ret (inr (reg_req, valid_regs_nb)).
Definition parse_cmdline_registers (reg_str : list (list Z)) (reg_req reg_def : list (Z * Z)) : MW (option (list (Z * Z))) :=
  let! (req, valid_regs_nb) := iter 129 (parse_registers_body reg_str reg_def) (0, reg_req, 0) in
  ret (if 0 <? valid_regs_nb then Some req else None).
Definition validate_options p (options_req : list (Z * Z)) : MW bool :=
  let! refused := if Z.land (snd (nth 0 options_req (0, 0))) FLASH_OPTR_RDP_MASK =? 0xCC
                  then let! b := irreversible_enabled p in ret (negb b) else ret false in
  if refused : bool then
    do! tc_printf (Some p) (str "Irreversible operations disabled" ++ nl) in ret false
  else ret true.
Definition display_registers p (reg_def : list (Z * Z)) : MW unit :=
  for_each reg_def (fun '(addr, _) =>
    let! val := rd32 p addr in
    tc_printf (Some p) (str "0x" ++ fmt_X 8 addr ++ str ": 0x" ++ fmt_X 8 val ++ nl)).
Definition requested_options p (args : list (list Z)) : MW bool :=
  let! req := parse_cmdline_registers args (replicate NB_REG_OPT (0, 0)) options_def in
  match req with
  | None => ret false
  | Some options_req =>
      let! ok := validate_options p options_req in
      if negb ok then ret false else stm32g0_option_write p options_req
  end.
Definition option_result p (ok : bool) : MW bool :=
  if ok then ret true else do! tc_printf (Some p) (str "Writing options failed!" ++ nl) in ret false.
Definition stm32g0_cmd_option p (argv : list (list Z)) : MW bool :=
  let asked (w : list Z) := eqb_str (nth 1 argv []) w in
  if (zlen argv =? 2) && asked (str "erase") then
    let! ok := stm32g0_option_write p options_def in option_result p ok
  else if (2 <? zlen argv) && Z.even (zlen argv) && asked (str "write") then
    let! ok := requested_options p (drop 2 argv) in option_result p ok
  else
    do! tc_printf (Some p) (str "usage: monitor option erase" ++ nl) in
    do! tc_printf (Some p) (str "usage: monitor option write <addr> <val> [<addr> <val>]..." ++ nl) in
    do! display_registers p options_def in
    ret true.
Definition stm32g0_cmd_irreversible p (argv : list (list Z)) : MW bool :=
  let! r := match argv with
            | [_; a1] =>
                let! e := parse_enable_or_disable a1 in
                match e with
                | Some b => do! store_word p IRREVERSIBLE (Z.b2z b) in ret true
                | None => ret false
                end
            | _ => ret true
            end in
  let! b := irreversible_enabled p in
  do! tc_printf (Some p) (str "Irreversible operations: " ++ (if b : bool then str "enabled" else str "disabled") ++ nl) in
  ret r.

Definition stm32g0_device : device D := {|
  dv_attach := fn_table [("stm32g0_attach"%string, stm32g0_attach)];
  dv_detach := fn_table [("stm32g0_detach"%string, stm32g0_detach)];
  dv_command := fn_table [("stm32g0_cmd_erase_mass"%string, stm32g0_cmd_erase_mass); ("stm32g0_cmd_option"%string, stm32g0_cmd_option);
                          ("stm32g0_cmd_irreversible"%string, stm32g0_cmd_irreversible)];
  dv_erase := fn_table [("stm32g0_flash_erase"%string, stm32g0_flash_erase)];
  dv_write := fn_table [("stm32g0_flash_write"%string, stm32g0_flash_write)];
  dv_done _ := None |}.
End Stm32g0.
