(* ===== verification/LpcCommon.v ===== *)
(** target/lpc_common.c: the NXP LPC parts, whose flash is erased and written
    by routines in their boot ROM (IAP).  A call puts its arguments in the
    target's RAM, runs the core from the ROM's entry until it stops, and puts
    RAM and registers back.  The extra members of a region are those of
    [struct lpc_flash]. *)

From Stdlib Require Import ZArith Lia String.
From stdpp Require Import base list numbers option gmap.
From S2P Require Import Prelude CLib GdbIf MemManager GdbPacket TargetState Target Command Cortexm FlashDev.

Definition IAP_CMD_INIT : Z := 49.
Definition IAP_CMD_PREPARE : Z := 50.
Definition IAP_CMD_PROGRAM : Z := 51.
Definition IAP_CMD_ERASE : Z := 52.
Definition IAP_CMD_BLANKCHECK : Z := 53.
Definition IAP_CMD_PARTID : Z := 54.
Definition IAP_CMD_READUID : Z := 58.
Definition IAP_CMD_ERASE_PAGE : Z := 59.
Definition IAP_CMD_SET_ACTIVE_BANK : Z := 60.
Definition CPU_CLK_KHZ : Z := 12000.
Definition ARM_THUMB_BREAKPOINT : Z := 0xBE00.
Definition LPX80X_SECTOR_SIZE : Z := 0x400.
Definition LPX80X_PAGE_SIZE : Z := 0x40.

(** ** [struct lpc_flash] *)
Definition sizeof_lpc_flash : Z := 68.
Definition base_sector (f : target_flash) : Z := extra 0 f.
Definition bank (f : target_flash) : Z := extra 1 f.
Definition reserved_pages (f : target_flash) : Z := extra 2 f.
Definition wdt_kick (f : target_flash) : Z := extra 3 f.     (* NULL or one of the functions below *)
Definition iap_entry (f : target_flash) : Z := extra 4 f.
Definition iap_ram (f : target_flash) : Z := extra 5 f.
Definition iap_msp (f : target_flash) : Z := extra 6 f.
Definition WDT_NULL : Z := 0.
Definition WDT_LPC43XX : Z := 1.
Definition WDT_LPC546XX : Z := 2.
Definition lpc_extra (base_sector bank reserved_pages wdt_kick iap_entry iap_ram iap_msp : Z) : list Z :=
  [base_sector; bank; reserved_pages; wdt_kick; iap_entry; iap_ram; iap_msp].
(** What a driver fills in after [lpc_add_flash]. *)
Definition lpc_fill (write : string) (bs bufsz : Z) (ex : list Z) (f : target_flash) : target_flash :=
  {| f_start := f_start f; f_length := f_length f; blocksize := bs; has_done := has_done f; erased := erased f;
     buf_size := bufsz; buf_addr := buf_addr f; buf := buf f; f_ops := {| fo_erase := fo_erase (f_ops f); fo_write := write |};
     f_extra := ex |}.
Definition with_erase (erase : string) (f : target_flash) : target_flash :=
  {| f_start := f_start f; f_length := f_length f; blocksize := blocksize f; has_done := has_done f; erased := erased f;
     buf_size := buf_size f; buf_addr := buf_addr f; buf := buf f; f_ops := {| fo_erase := erase; fo_write := fo_write (f_ops f) |};
     f_extra := f_extra f |}.

(** ** [struct flash_param] *)
Definition sizeof_flash_param : Z := 44.
Definition offsetof_command : Z := 4.
Definition offsetof_status : Z := 24.
Definition offsetof_result : Z := 28.
(** [pad0] and [tail], the members behind the argument words, as bytes. *)
Definition flash_param (pad0 : list Z) (command : Z) (args : list Z) (tail : list Z) : list Z :=
  le_bytes 2 ARM_THUMB_BREAKPOINT ++ pad0 ++ le_bytes 4 command ++ words_bytes args ++ tail.

Section Lpc.
Context {D : Type} `{GdbIf D} `{MemIf D} `{Driver D} `{CortexmIf D}.
Notation MW := (M (world D)).
(** [stack]: what [va_arg] finds where a call has fewer than four arguments. *)
Variables (polls : nat) (stack : list Z).
Implicit Type p : positive.
Local Notation rd32 p a := (target_mem_read32 (Some p) a).
Local Notation wr32 p a v := (target_mem_write32 (Some p) a v).

(** NULL is not checked for by the callers, which fill the region in. *)
Definition lpc_add_flash p (addr length : Z) (fill : target_flash -> target_flash) : MW unit :=
  let! h := MemManager_Alloc sizeof_lpc_flash in
  let! h := deref h in
  do! target_add_flash p h (flash_region addr length 0 (flash_fns "lpc_flash_erase" "lpc_flash_write") 0 0xff) in
  upd_target p (fun t => set_flash ((fun '(k, f) => (k, if bool_decide (k = h) then fill f else f)) <$> flash t) t).
(** The first region of the list, as [struct lpc_flash]. *)
Definition first_flash p : MW target_flash := let! t := load_target p in let! (_, f) := deref (flash t !! 0%nat) in ret f.

(** ** Watchdogs *)
Definition LPC43XX_WDT_MODE : Z := 0x40080000.
Definition LPC43XX_WDT_CNT : Z := 0x40080004.
Definition LPC43XX_WDT_FEED : Z := 0x40080008.
Definition LPC546XX_WDT_MODE : Z := 0x4000C000.
Definition LPC546XX_WDT_CNT : Z := 0x4000C004.
Definition LPC546XX_WDT_FEED : Z := 0x4000C008.
Definition WDT_PERIOD_MAX : Z := 0xFFFFFF.
Definition WDT_PROTECT : Z := 0x10.
Definition pet (mode feed : Z) p : MW unit :=
  let! wdt_mode := rd32 p mode in
  if negb (wdt_mode =? 0) then do! wr32 p feed 0xAA in wr32 p feed 0xFF else ret tt.
Definition set_period (mode cnt : Z) p : MW unit :=
  let! wdt_mode := rd32 p mode in
  if negb (wdt_mode =? 0) && negb (flag wdt_mode WDT_PROTECT) then wr32 p cnt WDT_PERIOD_MAX else ret tt.
Definition lpc43xx_wdt_pet := pet LPC43XX_WDT_MODE LPC43XX_WDT_FEED.
Definition lpc43xx_wdt_set_period := set_period LPC43XX_WDT_MODE LPC43XX_WDT_CNT.
Definition lpc546xx_wdt_pet := pet LPC546XX_WDT_MODE LPC546XX_WDT_FEED.
Definition lpc546xx_wdt_set_period := set_period LPC546XX_WDT_MODE LPC546XX_WDT_CNT.
Definition kick p (f : target_flash) : MW unit :=
  if wdt_kick f =? WDT_LPC43XX then lpc43xx_wdt_pet p
  else if wdt_kick f =? WDT_LPC546XX then lpc546xx_wdt_pet p
  else ret tt.

(** ** Calling the boot ROM *)

(** The registers of the call: its two structures, a stack and where to return. *)
Definition iap_regs (regs : list Z) (command result msp ram entry : Z) : MW (list Z) :=
  let! regs := word_set regs 0 command in
  let! regs := word_set regs 1 result in
  let! regs := word_set regs REG_MSP msp in
  let! regs := word_set regs REG_LR (Z.lor ram 1) in
  word_set regs REG_PC entry.
Definition run_iap p (result msp ram entry : Z) : MW unit :=
  let! regs := target_regs_read polls (Some p) in
  let! regs := iap_regs (bytes_words regs) (u32 (ram + offsetof_command)) (u32 (ram + result)) msp ram entry in
  do! target_regs_write polls (Some p) (words_bytes regs) in
  do! target_halt_resume (Some p) false in
  wait_halt polls p.
Definition iap_args (args : list Z) : list Z := take 4 (args ++ stack).
(** The status and the result words; [f] is the region. *)
Definition lpc_iap_call p (f : target_flash) (cmd : Z) (args : list Z) : MW (Z * list Z) :=
  do! kick p f in
  let! (backup_param, _) := target_mem_read (Some p) (iap_ram f) sizeof_flash_param in
  let! backup_regs := target_regs_read polls (Some p) in
  do! target_mem_write (Some p) (iap_ram f) (flash_param [0; 0] cmd (iap_args args) (replicate 20 0)) in
  do! run_iap p offsetof_status (iap_msp f) (iap_ram f) (iap_entry f) in
  let! (param, _) := target_mem_read (Some p) (iap_ram f) sizeof_flash_param in
  do! target_mem_write (Some p) (iap_ram f) backup_param in
  do! target_regs_write polls (Some p) backup_regs in
  ret (byte_word param (offsetof_status / 4), zdrop offsetof_result param).
Definition iap_ok p f cmd args : MW bool := let! (status, _) := lpc_iap_call p f cmd args in ret (status =? 0).

(** ** Flash *)
Definition lpc_sector_for_addr (f : target_flash) (addr : Z) : MW Z :=
  if blocksize f =? 0 then crash DivByZero else ret (u8 (base_sector f + u32 (addr - f_start f) / blocksize f)).
Definition erase_sectors p (f : target_flash) (start last : Z) : MW Z :=
  if last <? start then ret 0 else
  let! ok := iap_ok p f IAP_CMD_ERASE [start; last; CPU_CLK_KHZ; bank f] in
  if negb ok then ret (-2) else
  let! ok := iap_ok p f IAP_CMD_BLANKCHECK [start; last; bank f] in
  ret (if ok : bool then 0 else -3).
(** The pages below those of the top sector that are reserved. *)
Definition erase_top_pages p (f : target_flash) (addr len end_ : Z) : MW Z :=
  let page_start := u32 (addr + len - LPX80X_SECTOR_SIZE) / LPX80X_PAGE_SIZE in
  let page_end := u32 (page_start + LPX80X_SECTOR_SIZE / LPX80X_PAGE_SIZE - 1 - reserved_pages f) in
  let! ok := iap_ok p f IAP_CMD_PREPARE [end_; end_; bank f] in
  if negb ok then ret (-1) else
  let! ok := iap_ok p f IAP_CMD_ERASE_PAGE [page_start; page_end; CPU_CLK_KHZ; bank f] in
  ret (if ok : bool then 0 else -2).
Definition reaches_top (f : target_flash) (addr len : Z) : bool :=
  negb (reserved_pages f =? 0) && (u32 (f_length f - 0x400) <=? u32 (addr + len)).
Definition lpc_flash_erase p (f : target_flash) (addr len : Z) : MW Z :=
  let! start := lpc_sector_for_addr f addr in
  let! end_ := lpc_sector_for_addr f (u32 (addr + len - 1)) in
  let! ok := iap_ok p f IAP_CMD_PREPARE [start; end_; bank f] in
  if negb ok then ret (-1) else
  let last_full_sector := if reaches_top f addr len then u32 (end_ - 1) else end_ in
  let! r := erase_sectors p f start last_full_sector in
  if negb (r =? 0) then ret r else
  if negb (last_full_sector =? end_) then erase_top_pages p f addr len end_ else ret 0.

(** The top sector a page at a time, without the reserved ones. *)
Definition write_page_body p (f : target_flash) (sector : Z) (st : Z * Z * Z) : MW (Z * Z * Z + Z) :=
  let '(dest, bufaddr, len) := st in
  if len =? 0 then ret (inr 0) else
  let! ok := iap_ok p f IAP_CMD_PREPARE [sector; sector; bank f] in
  if negb ok then ret (inr (-1)) else
  let! ok := iap_ok p f IAP_CMD_PROGRAM [dest; bufaddr; LPX80X_PAGE_SIZE; CPU_CLK_KHZ] in
  if negb ok then ret (inr (-2)) else
  ret (inl (u32 (dest + LPX80X_PAGE_SIZE), u32 (bufaddr + LPX80X_PAGE_SIZE), u32 (len - LPX80X_PAGE_SIZE))).
Definition page_rounds (len : Z) : nat := S (Z.to_nat (len / LPX80X_PAGE_SIZE)).
(** Where the data is put: behind the parameters, at a word. *)
Definition iap_buffer (f : target_flash) : Z := Z.land (u32 (iap_ram f + sizeof_flash_param + 3)) 0xfffffffc.
Definition lpc_flash_write p (f : target_flash) (dest : Z) (src : list Z) : MW Z :=
  let len := zlen src in
  let! sector := lpc_sector_for_addr f dest in
  let! ok := iap_ok p f IAP_CMD_PREPARE [sector; sector; bank f] in
  if negb ok then ret (-1) else
  do! target_mem_write (Some p) (iap_buffer f) src in
  if (reserved_pages f =? 0) || (u32 (dest + len) <=? u32 (f_length f - len)) then
    let! ok := iap_ok p f IAP_CMD_PROGRAM [dest; iap_buffer f; len; CPU_CLK_KHZ] in
    ret (if ok : bool then 0 else -2)
  else
    let len := u32 (len - 0x40 * reserved_pages f) in
    iter (page_rounds len) (write_page_body p f sector) (dest, iap_buffer f, len).

(** The eighth vector makes the sum of the first eight zero, by which the boot
    ROM knows a valid image; the code writes it into the sector buffer. *)
Definition magic_word (w : list Z) : Z := u32 (Z.lnot (u32 (foldr Z.add 0 (take 7 w))) + 1).
Definition magic_vect (src : list Z) : MW (list Z) :=
  if zlen src <? 32 then crash OutOfBounds else
  ret (take 28 src ++ le_bytes 4 (magic_word (bytes_words (take 32 src))) ++ drop 32 src).
Definition lpc_flash_write_magic_vect p (f : target_flash) (dest : Z) (src : list Z) : MW Z :=
  let! src := if dest =? 0 then magic_vect src else ret src in
  lpc_flash_write p f dest src.

(** [readuid], which three drivers have. *)
Definition print_uid p (result : list Z) : MW unit :=
  do! tc_printf (Some p) (str "UID: 0x") in
  do! for_each result (fun b => tc_printf (Some p) (fmt_x 2 b)) in
  tc_printf (Some p) nl.
Definition read_uid p : MW bool :=
  let! f := first_flash p in
  let! (status, uid) := lpc_iap_call p f IAP_CMD_READUID [] in
  if negb (status =? 0) then ret false else do! print_uid p uid in ret true.

Definition lpc_device : device D := {|
  dv_attach _ := None; dv_detach _ := None; dv_command _ := None;
  dv_erase := fn_table [("lpc_flash_erase"%string, lpc_flash_erase)];
  dv_write := fn_table [("lpc_flash_write"%string, lpc_flash_write); ("lpc_flash_write_magic_vect"%string, lpc_flash_write_magic_vect)];
  dv_done _ := None |}.
End Lpc.
