(* ===== verification/Lpc11xx.v ===== *)
(** target/lpc11xx.c: the LPC8xx, LPC11xx and LPC13xx. *)

From Stdlib Require Import ZArith Lia String.
From stdpp Require Import base list numbers option gmap.
From S2P Require Import Prelude CLib GdbIf MemManager GdbPacket TargetState Target Command Cortexm FlashDev LpcCommon.

Definition IAP_PGM_CHUNKSIZE : Z := 512.
Definition MIN_RAM_SIZE : Z := 1024.
Definition RAM_USAGE_FOR_IAP_ROUTINES : Z := 32.
Definition IAP_ENTRY_MOST : Z := 0x1fff1ff1.
Definition IAP_ENTRY_84x : Z := 0x0f001ff1.
Definition IAP_RAM_BASE : Z := 0x10000000.
Definition LPC11XX_DEVICE_ID : Z := 0x400483F4.
Definition LPC8XX_DEVICE_ID : Z := 0x400483F8.
Definition lpc11xx_cmd_list : list command := [cmd_entry "readuid" "lpc11xx_read_uid" "Read out the 16-byte UID."].

(** A row of the two switches: name, RAM, flash, sector size, ROM entry,
    reserved pages, and whether it has the commands. *)
Record part := { pt_name : list Z; pt_ram : Z; pt_flash : Z; pt_sector : Z; pt_entry : Z; pt_reserved : Z; pt_cmds : bool }.
Definition mk (name : string) (ram fl sector entry reserved : Z) (cmds : bool) : part :=
  {| pt_name := str name; pt_ram := ram; pt_flash := fl; pt_sector := sector; pt_entry := entry; pt_reserved := reserved; pt_cmds := cmds |}.
Definition parts := list (list Z * part).
Definition find_part (id : Z) (l : parts) : option part := snd <$> List.find (fun '(ids, _) => existsb (Z.eqb id) ids) l.
Definition lpc11_parts : parts := [
  ([0x0A07102B; 0x1A07102B; 0x0A16D02B; 0x1A16D02B; 0x041E502B; 0x2516D02B; 0x0416502B; 0x2516902B; 0x0A23902B; 0x1A23902B;
    0x042D502B; 0x2524D02B; 0x0425502B; 0x2524902B; 0x0434502B; 0x2532902B; 0x0434102B; 0x2532102B; 0x0A40902B; 0x1A40902B;
    0x0444502B; 0x2540902B; 0x0444102B; 0x2540102B; 0x00050080; 0x1421102B; 0x1440102B; 0x1431102B; 0x1430102B; 0x095C802B;
    0x295C802B; 0x097A802B; 0x297A802B; 0x0998802B; 0x2998802B; 0x2954402B; 0x2972402B; 0x2988402B; 0x2980002B],
   mk "LPC11xx" 0x2000 0x20000 0x1000 IAP_ENTRY_MOST 0 true);
  ([0x0A24902B; 0x1A24902B], mk "LPC1112" 0x1000 0x10000 0x1000 IAP_ENTRY_MOST 0 false);
  ([0x1000002b], mk "LPC11U6" 0x8000 0x40000 0x1000 IAP_ENTRY_MOST 0 false);
  ([0x3000002B; 0x3D00002B], mk "LPC1343" 0x2000 0x8000 0x1000 IAP_ENTRY_MOST 0 false);
  ([0x00008A04], mk "LPC8N04" 0x2000 0x7800 0x400 IAP_ENTRY_MOST 0 true)].
Definition lpc8_parts : parts := [
  ([0x8021; 0x8022; 0x8023; 0x8024], mk "LPC802" 0x800 0x4000 0x400 IAP_ENTRY_84x 2 true);
  ([0x8040; 0x8041; 0x8042; 0x8043; 0x8044], mk "LPC804" 0x1000 0x8000 0x400 IAP_ENTRY_84x 2 true);
  ([0x8100; 0x8110; 0x8120; 0x8121; 0x8122], mk "LPC81x" 0x1000 0x4000 0x400 IAP_ENTRY_MOST 0 true);
  ([0x8221; 0x8222; 0x8241; 0x8242], mk "LPC82x" 0x2000 0x8000 0x400 IAP_ENTRY_MOST 0 true);
  ([0x8322], mk "LPC832" 0x1000 0x4000 0x400 IAP_ENTRY_MOST 0 true);
  ([0x8341], mk "LPC834" 0x1000 0x8000 0x400 IAP_ENTRY_MOST 0 true);
  ([0x8441; 0x8442; 0x8443; 0x8444], mk "LPC844" 0x2000 0x10000 0x400 IAP_ENTRY_84x 0 true);
  ([0x8451; 0x8452; 0x8453; 0x8454], mk "LPC845" 0x4000 0x10000 0x400 IAP_ENTRY_84x 0 true);
  ([0x0003D440; 0x0001cc40; 0x0001BC40; 0x0000BC40; 0x00019C40; 0x00017C40; 0x00007C44; 0x00007C40],
   mk "LPC11U3x" 0x2000 0x20000 0x1000 IAP_ENTRY_MOST 0 true);
  ([0x00010013; 0x00010012; 0x00020023; 0x00020022; 0x00030030; 0x00030032; 0x00040040; 0x00040042; 0x00040060; 0x00040070; 0x00050080],
   mk "LPC11xx-XL" 0x2000 0x20000 0x1000 IAP_ENTRY_MOST 0 true)].

Section Lpc11xx.
Context {D : Type} `{GdbIf D} `{MemIf D} `{Driver D} `{CortexmIf D}.
Notation MW := (M (world D)).
Variables (polls : nat) (stack : list Z).
Implicit Type p : positive.

Definition lpc11xx_read_uid p (argv : list (list Z)) : MW bool := read_uid polls stack p.
Definition lpc11xx_add_flash p (addr len erasesize entry reserved : Z) : MW unit :=
  lpc_add_flash p addr len (lpc_fill "lpc_flash_write_magic_vect" erasesize IAP_PGM_CHUNKSIZE
    (lpc_extra 0 0 reserved WDT_NULL entry IAP_RAM_BASE (IAP_RAM_BASE + MIN_RAM_SIZE - RAM_USAGE_FOR_IAP_ROUTINES))).
Definition add_part p (x : part) : MW unit :=
  do! upd_target p (set_driver (pt_name x)) in
  do! target_add_ram p 0x10000000 (pt_ram x) in
  do! lpc11xx_add_flash p 0 (pt_flash x) (pt_sector x) (pt_entry x) (pt_reserved x) in
  when (pt_cmds x) (target_add_commands p lpc11xx_cmd_list (pt_name x)).
Definition lpc11xx_probe p : MW bool :=
  let! id := target_mem_read32 (Some p) LPC11XX_DEVICE_ID in
  match find_part id lpc11_parts with
  | Some x => do! add_part p x in ret true
  | None =>
      let! id := target_mem_read32 (Some p) LPC8XX_DEVICE_ID in
      match find_part id lpc8_parts with
      | Some x => do! add_part p x in ret true
      | None => ret false
      end
  end.

Definition lpc11xx_device : device D := {|
  dv_attach _ := None; dv_detach _ := None;
  dv_command := fn_table [("lpc11xx_read_uid"%string, lpc11xx_read_uid)];
  dv_erase := fn_table [];
  dv_write := fn_table [];
  dv_done _ := None |}.
End Lpc11xx.
