(* ===== verification/Lpc15xx.v ===== *)
(** target/lpc15xx.c: the LPC15xx. *)

From Stdlib Require Import ZArith Lia String.
From stdpp Require Import base list numbers option gmap.
From S2P Require Import Prelude CLib GdbIf MemManager GdbPacket TargetState Target Command Cortexm FlashDev LpcCommon.

Definition IAP_PGM_CHUNKSIZE : Z := 512.
Definition MIN_RAM_SIZE : Z := 1024.
Definition RAM_USAGE_FOR_IAP_ROUTINES : Z := 32.
Definition IAP_ENTRYPOINT : Z := 0x03000205.
Definition IAP_RAM_BASE : Z := 0x02000000.
Definition LPC15XX_DEVICE_ID : Z := 0x400743F8.
Definition lpc15xx_cmd_list : list command := [cmd_entry "readuid" "lpc15xx_read_uid" "Read out the 16-byte UID."].
(** 0 is a part that is not known. *)
Definition ram_size_of (idcode : Z) : Z :=
  if (idcode =? 0x1549) || (idcode =? 0x1519) then 0x9000
  else if (idcode =? 0x1548) || (idcode =? 0x1518) then 0x5000
  else if (idcode =? 0x1547) || (idcode =? 0x1517) then 0x3000
  else 0.

Section Lpc15xx.
Context {D : Type} `{GdbIf D} `{MemIf D} `{Driver D} `{CortexmIf D}.
Notation MW := (M (world D)).
Variables (polls : nat) (stack : list Z).
Implicit Type p : positive.

Definition lpc15xx_read_uid p (argv : list (list Z)) : MW bool := read_uid polls stack p.
Definition lpc15xx_add_flash p (addr len erasesize : Z) : MW unit :=
  lpc_add_flash p addr len (lpc_fill "lpc_flash_write_magic_vect" erasesize IAP_PGM_CHUNKSIZE
    (lpc_extra 0 0 0 WDT_NULL IAP_ENTRYPOINT IAP_RAM_BASE (IAP_RAM_BASE + MIN_RAM_SIZE - RAM_USAGE_FOR_IAP_ROUTINES))).
Definition lpc15xx_probe p : MW bool :=
  let! idcode := target_mem_read32 (Some p) LPC15XX_DEVICE_ID in
  let ram_size := ram_size_of idcode in
  if ram_size =? 0 then ret false else
  do! upd_target p (set_driver (str "LPC15xx")) in
  do! target_add_ram p 0x02000000 ram_size in
  do! lpc15xx_add_flash p 0 0x40000 0x1000 in
  do! target_add_commands p lpc15xx_cmd_list (str "LPC15xx") in
  ret true.

Definition lpc15xx_device : device D := {|
  dv_attach _ := None; dv_detach _ := None;
  dv_command := fn_table [("lpc15xx_read_uid"%string, lpc15xx_read_uid)];
  dv_erase := fn_table [];
  dv_write := fn_table [];
  dv_done _ := None |}.
End Lpc15xx.
