(* ===== verification/Lpc17xx.v ===== *)
(** target/lpc17xx.c: the LPC175x and LPC176x, which tell their part number
    only to code that runs on them. *)

From Stdlib Require Import ZArith Lia String.
From stdpp Require Import base list numbers option gmap.
From S2P Require Import Prelude CLib GdbIf MemManager GdbPacket TargetState Target Command Dap Adiv5 Objects Cortexm FlashDev LpcCommon.

Definition IAP_PGM_CHUNKSIZE : Z := 4096.
Definition MIN_RAM_SIZE : Z := 8192.
Definition RAM_USAGE_FOR_IAP_ROUTINES : Z := 32.
Definition IAP_ENTRYPOINT : Z := 0x1FFF1FF1.
Definition IAP_RAM_BASE : Z := 0x10000000.
Definition MEMMAP : Z := 0x400FC040.
Definition LPC17xx_JTAG_IDCODE : Z := 0x4BA00477.
Definition LPC17xx_SWDP_IDCODE : Z := 0x2BA01477.
Definition FLASH_NUM_SECTOR : Z := 30.
Definition lpc17xx_cmd_list : list command := [cmd_entry "erase_mass" "lpc17xx_cmd_erase" "Erase entire flash memory"].
Definition lpc17xx_parts : list Z :=
  [0x26113F37; 0x26013F37; 0x26012837; 0x26013F33; 0x26013733; 0x26011922; 0x25113737; 0x25013F37; 0x25011723; 0x25011722;
   0x25001121; 0x25001118; 0x25001110].

Section Lpc17xx.
Context {D : Type} `{GdbIf D} `{MemIf D} `{Driver D} `{CortexmIf D}.
Notation MW := (M (world D)).
(** [junk]: the bytes of a [struct flash_param] on the stack before it is
    filled in, its padding and its result words. *)
Variables (polls : nat) (stack junk : list Z).
Implicit Type p : positive.

(** The result words. *)
Definition lpc17xx_iap_call p (cmd : Z) (args : list Z) : MW (list Z) :=
  do! target_mem_write (Some p) IAP_RAM_BASE (flash_param (take 2 junk) cmd (iap_args stack args) (take 20 (drop 2 junk))) in
  do! run_iap polls p offsetof_status (IAP_RAM_BASE + MIN_RAM_SIZE - RAM_USAGE_FOR_IAP_ROUTINES) IAP_RAM_BASE IAP_ENTRYPOINT in
  let! (param, _) := target_mem_read (Some p) IAP_RAM_BASE sizeof_flash_param in
  ret (bytes_words (zdrop offsetof_status param)).
Definition iap17_ok p cmd args : MW bool :=
  let! result := lpc17xx_iap_call p cmd args in let! r := word_get result 0 in ret (r =? 0).

Definition lpc17xx_add_flash p (addr len erasesize base : Z) : MW unit :=
  lpc_add_flash p addr len (lpc_fill "lpc_flash_write_magic_vect" erasesize IAP_PGM_CHUNKSIZE
    (lpc_extra (u8 base) 0 0 WDT_NULL IAP_ENTRYPOINT IAP_RAM_BASE (IAP_RAM_BASE + MIN_RAM_SIZE - RAM_USAGE_FOR_IAP_ROUTINES))).
Definition lpc17xx_extended_reset p : MW unit := target_mem_write32 (Some p) MEMMAP 1.
Definition add_lpc17xx p : MW unit :=
  do! upd_target p (set_driver (str "LPC17xx")) in
  do! upd_target p (fun t => set_reset_methods (m_reset t) (Fdev "lpc17xx_extended_reset") (m_halt_resume t) t) in
  do! target_add_ram p 0x10000000 0x8000 in
  do! target_add_ram p 0x2007C000 0x4000 in
  do! target_add_ram p 0x20080000 0x4000 in
  do! lpc17xx_add_flash p 0x00000000 0x10000 0x1000 0 in
  do! lpc17xx_add_flash p 0x00010000 0x70000 0x8000 16 in
  target_add_commands p lpc17xx_cmd_list (str "LPC17xx").
Definition lpc17xx_probe p : MW bool :=
  let! dp := ci_dp p in
  if negb ((o_idcode dp =? LPC17xx_JTAG_IDCODE) || (o_idcode dp =? LPC17xx_SWDP_IDCODE)) then ret false else
  let! t := load_target p in
  if negb (Z.land (cpuid t) CPUID_PARTNO_MASK =? CORTEX_M3) then ret false else
  do! target_halt_request (Some p) in
  let! result := lpc17xx_iap_call p IAP_CMD_PARTID [] in
  do! target_halt_resume (Some p) false in
  let! status := word_get result 0 in
  let! partid := word_get result 1 in
  if negb (status =? 0) then ret false
  else if existsb (Z.eqb partid) lpc17xx_parts then do! add_lpc17xx p in ret true
  else ret false.
Definition lpc17xx_cmd_erase p (argv : list (list Z)) : MW bool :=
  let! ok := iap17_ok p IAP_CMD_PREPARE [0; FLASH_NUM_SECTOR - 1] in
  if negb ok then ret false else
  let! ok := iap17_ok p IAP_CMD_ERASE [0; FLASH_NUM_SECTOR - 1; CPU_CLK_KHZ] in
  if negb ok then ret false else
  let! ok := iap17_ok p IAP_CMD_BLANKCHECK [0; FLASH_NUM_SECTOR - 1] in
  if negb ok then ret false else
  do! tc_printf (Some p) (str "Erase OK." ++ nl) in
  ret true.

Definition lpc17xx_device : device D := {|
  dv_attach _ := None; dv_detach _ := None;
  dv_command := fn_table [("lpc17xx_cmd_erase"%string, lpc17xx_cmd_erase)];
  dv_erase := fn_table [];
  dv_write := fn_table [];
  dv_done _ := None |}.
End Lpc17xx.
