(* ===== verification/Lpc43xx.v ===== *)
(** target/lpc43xx.c: the LPC43xx with their two flash banks. *)

From Stdlib Require Import ZArith Lia String.
From stdpp Require Import base list numbers option gmap.
From S2P Require Import Prelude CLib GdbIf MemManager GdbPacket TargetState Target Command Cortexm FlashDev LpcCommon.

Definition LPC43XX_CHIPID : Z := 0x40043200.
Definition IAP_ENTRYPOINT_LOCATION : Z := 0x10400100.
Definition IAP_RAM_SIZE : Z := 16 * 1024.
Definition IAP_RAM_BASE : Z := 0x2000C000.
Definition IAP_PGM_CHUNKSIZE : Z := 4096.
Definition FLASH_NUM_BANK : Z := 2.
Definition FLASH_NUM_SECTOR : Z := 15.
Definition AIRCR : Z := 0xE000ED0C.
Definition reset_val : Z := 0x05FA0004.
Definition lpc43xx_cmd_list : list command :=
  [cmd_entry "erase_mass" "lpc43xx_cmd_erase" "Erase entire flash memory"; cmd_entry "reset" "lpc43xx_cmd_reset" "Reset target";
   cmd_entry "mkboot" "lpc43xx_cmd_mkboot" "Make flash bank bootable"].
Definition core_kind (cpuid : Z) : Z := Z.land cpuid 0xFF00FFF0.
Definition lpc43xx_name (cpuid : Z) : list Z :=
  if core_kind cpuid =? 0x4100C240 then str "LPC43xx Cortex-M4"
  else if core_kind cpuid =? 0x4100C200 then str "LPC43xx Cortex-M0"
  else str "LPC43xx <Unknown>".

Section Lpc43xx.
Context {D : Type} `{GdbIf D} `{MemIf D} `{Driver D} `{CortexmIf D}.
Notation MW := (M (world D)).
Variables (polls : nat) (stack : list Z).
Implicit Type p : positive.

Definition lpc43xx_add_flash p (entry bank base addr len erasesize : Z) : MW unit :=
  lpc_add_flash p addr len (fun f => with_erase "lpc43xx_flash_erase" (lpc_fill (fo_write (f_ops f)) erasesize IAP_PGM_CHUNKSIZE
    (lpc_extra base bank 0 WDT_LPC43XX entry IAP_RAM_BASE (IAP_RAM_BASE + IAP_RAM_SIZE)) f)).
Definition add_lpc4337 p : MW unit :=
  let! entry := target_mem_read32 (Some p) IAP_ENTRYPOINT_LOCATION in
  do! target_add_ram p 0 0x1A000000 in
  do! lpc43xx_add_flash p entry 0 0 0x1A000000 0x10000 0x2000 in
  do! lpc43xx_add_flash p entry 0 8 0x1A010000 0x70000 0x10000 in
  do! target_add_ram p 0x1A080000 0xF80000 in
  do! lpc43xx_add_flash p entry 1 0 0x1B000000 0x10000 0x2000 in
  do! lpc43xx_add_flash p entry 1 8 0x1B010000 0x70000 0x10000 in
  do! target_add_commands p lpc43xx_cmd_list (str "LPC43xx") in
  do! target_add_ram p 0x1B080000 0xE4F80000 in
  upd_target p (fun t => set_options (Z.lor (target_options t) CORTEXM_TOPT_INHIBIT_SRST) t).
Definition lpc43xx_probe p : MW bool :=
  let! chipid := target_mem_read32 (Some p) LPC43XX_CHIPID in
  let! t := load_target p in
  let with_flash := (chipid =? 0x4906002B) || (chipid =? 0x7906002B) in
  if with_flash || (chipid =? 0x5906002B) || (chipid =? 0x6906002B) then
    do! upd_target p (set_driver (lpc43xx_name (cpuid t))) in
    do! when (with_flash && (core_kind (cpuid t) =? 0x4100C240) && (cpuid t =? 0x410FC241)) (add_lpc4337 p) in
    ret true
  else ret false.

Definition lpc43xx_cmd_reset p (argv : list (list Z)) : MW bool :=
  do! target_mem_write (Some p) AIRCR (le_bytes 4 reset_val) in
  ret true.
Definition lpc43xx_set_internal_clock p : MW unit := target_mem_write32 (Some p) (0x40050000 + 0x06C) (Z.lor 0x800 0x1000000).
Definition lpc43xx_flash_init p : MW Z :=
  do! lpc43xx_wdt_set_period p in
  do! lpc43xx_set_internal_clock p in
  let! f := first_flash p in
  let! ok := iap_ok polls stack p f IAP_CMD_INIT [] in
  ret (if ok : bool then 0 else -1).
Definition lpc43xx_flash_erase p (f : target_flash) (addr len : Z) : MW Z :=
  let! r := lpc43xx_flash_init p in
  if negb (r =? 0) then ret (-1) else lpc_flash_erase polls stack p f addr len.
Definition erase_bank p (bank : Z) : MW bool :=
  let! f := first_flash p in
  let! ok := iap_ok polls stack p f IAP_CMD_PREPARE [0; FLASH_NUM_SECTOR - 1; bank] in
  if negb ok then ret false else
  iap_ok polls stack p f IAP_CMD_ERASE [0; FLASH_NUM_SECTOR - 1; CPU_CLK_KHZ; bank].
Definition lpc43xx_cmd_erase p (argv : list (list Z)) : MW bool :=
  do! lpc43xx_flash_init p in
  let! ok := erase_bank p 0 in
  if negb ok then ret false else
  let! ok := erase_bank p 1 in
  if negb ok then ret false else
  do! tc_printf (Some p) (str "Erase OK." ++ nl) in
  ret true.
Definition lpc43xx_cmd_mkboot p (argv : list (list Z)) : MW bool :=
  let say s := do! tc_printf (Some p) (s ++ nl) in ret false in
  match argv with
  | [_; a1] =>
      let bank := strtol0 a1 in
      if negb (bank =? 0) && negb (bank =? 1) then say (str "Unexpected bank number, should be 0 or 1.") else
      do! lpc43xx_flash_init p in
      let! f := first_flash p in
      let! ok := iap_ok polls stack p f IAP_CMD_SET_ACTIVE_BANK [bank; CPU_CLK_KHZ] in
      if negb ok then say (str "Set bootable failed.") else
      do! tc_printf (Some p) (str "Set bootable OK." ++ nl) in
      ret true
  | _ => say (str "Expected bank argument 0 or 1.")
  end.

Definition lpc43xx_device : device D := {|
  dv_attach _ := None; dv_detach _ := None;
  dv_command := fn_table [("lpc43xx_cmd_erase"%string, lpc43xx_cmd_erase);
                          ("lpc43xx_cmd_reset"%string, lpc43xx_cmd_reset);
                          ("lpc43xx_cmd_mkboot"%string, lpc43xx_cmd_mkboot)];
  dv_erase := fn_table [("lpc43xx_flash_erase"%string, lpc43xx_flash_erase)];
  dv_write := fn_table [];
  dv_done _ := None |}.
End Lpc43xx.
