(* ===== verification/Lpc546xx.v ===== *)
(** target/lpc546xx.c: the LPC546xx. *)

From Stdlib Require Import ZArith Lia String.
From stdpp Require Import base list numbers option gmap.
From S2P Require Import Prelude CLib GdbIf MemManager GdbPacket TargetState Target Command Cortexm FlashDev LpcCommon.

Definition LPC546XX_CHIPID : Z := 0x40000FF8.
Definition IAP_ENTRYPOINT_LOCATION : Z := 0x03000204.
Definition IAP_RAM_SIZE : Z := 64 * 1024.
Definition IAP_RAM_BASE : Z := 0x20000000.
Definition IAP_PGM_CHUNKSIZE : Z := 4096.
Definition AIRCR : Z := 0xE000ED0C.
Definition reset_val : Z := 0x05FA0004.
Definition lpc546xx_cmd_list : list command :=
  [cmd_entry "erase_mass" "lpc546xx_cmd_erase_mass" "Erase entire flash memory";
   cmd_entry "erase_sector" "lpc546xx_cmd_erase_sector" "Erase a sector by number";
   cmd_entry "read_partid" "lpc546xx_cmd_read_partid" "Read out the 32-bit part ID using IAP.";
   cmd_entry "read_uid" "lpc546xx_cmd_read_uid" "Read out the 16-byte UID.";
   cmd_entry "reset_attach" "lpc546xx_cmd_reset_attach"
     "Reset target. Reset debug registers. Re-attach debugger. This restores the chip to the very start of program execution, after the ROM bootloader.";
   cmd_entry "reset" "lpc546xx_cmd_reset" "Reset target";
   cmd_entry "write_sector" "lpc546xx_cmd_write_sector" "Write incrementing data 8-bit values across a previously erased sector"].
Definition chips : list (Z * (string * Z)) :=
  [(0x7F954605, ("LPC54605J256"%string, 0x40000)); (0x7F954606, ("LPC54606J256"%string, 0x40000));
   (0x7F954607, ("LPC54607J256"%string, 0x40000)); (0x7F954616, ("LPC54616J256"%string, 0x40000));
   (0xFFF54605, ("LPC54605J512"%string, 0x80000)); (0xFFF54606, ("LPC54606J512"%string, 0x80000));
   (0xFFF54607, ("LPC54607J512"%string, 0x80000)); (0xFFF54608, ("LPC54608J512"%string, 0x80000));
   (0xFFF54616, ("LPC54616J512"%string, 0x80000)); (0xFFF54618, ("LPC54618J512"%string, 0x80000));
   (0xFFF54628, ("LPC54628J512"%string, 0x80000))].

Section Lpc546xx.
Context {D : Type} `{GdbIf D} `{MemIf D} `{Driver D} `{CortexmIf D}.
Notation MW := (M (world D)).
Variables (polls : nat) (stack : list Z).
Implicit Type p : positive.

Definition lpc546xx_add_flash p (entry base addr len erasesize : Z) : MW unit :=
  lpc_add_flash p addr len (fun f => with_erase "lpc546xx_flash_erase" (lpc_fill "lpc_flash_write_magic_vect" erasesize IAP_PGM_CHUNKSIZE
    (lpc_extra base 0 0 WDT_LPC546XX entry IAP_RAM_BASE (IAP_RAM_BASE + IAP_RAM_SIZE)) f)).
Definition lpc546xx_probe p : MW bool :=
  let! chipid := target_mem_read32 (Some p) LPC546XX_CHIPID in
  match snd <$> List.find (fun '(id, _) => chipid =? id) chips with
  | None => ret false
  | Some (name, flash_size) =>
      do! upd_target p (set_driver (str name)) in
      do! lpc546xx_add_flash p IAP_ENTRYPOINT_LOCATION 0 0x0 flash_size 0x8000 in
      do! target_add_ram p 0x20000000 0x28000 in
      do! target_add_commands p lpc546xx_cmd_list (str "Lpc546xx") in
      do! upd_target p (fun t => set_options (Z.lor (target_options t) CORTEXM_TOPT_INHIBIT_SRST) t) in
      ret true
  end.

(** Behind the boot loader, which hides sector 0 after a reset. *)
Definition lpc546xx_reset_attach p : MW unit :=
  do! target_reset (Some p) in
  do! target_halt_resume (Some p) false in
  do! ci_attach p in
  ret tt.
Definition lpc546xx_flash_init p : MW Z :=
  do! lpc546xx_reset_attach p in
  do! lpc546xx_wdt_set_period p in
  ret 0.
Definition lpc546xx_flash_erase p (f : target_flash) (addr len : Z) : MW Z :=
  let! r := lpc546xx_flash_init p in
  if negb (r =? 0) then ret (-1) else lpc_flash_erase polls stack p f addr len.

(** ** Commands *)
Definition lpc546xx_cmd_erase_mass p (argv : list (list Z)) : MW bool :=
  let! f := first_flash p in
  let! result := lpc546xx_flash_erase p f (f_start f) (f_length f) in
  if negb (result =? 0) then
    do! tc_printf (Some p) (str "Error erasing flash: " ++ fmt_d result ++ nl) in ret false
  else do! tc_printf (Some p) (str "Erase OK." ++ nl) in ret true.
Definition sector_arg p (a : list Z) : MW (target_flash * Z) :=
  let! f := first_flash p in ret (f, u32 (strtoul0 a * blocksize f)).
(** Without an argument -1, which is true. *)
Definition lpc546xx_cmd_erase_sector p (argv : list (list Z)) : MW bool :=
  match argv with
  | _ :: a1 :: _ =>
      let! (f, sector_addr) := sector_arg p a1 in
      let! retval := lpc546xx_flash_erase p f sector_addr 1 in
      ret (retval =? 0)
  | _ => ret true
  end.
Definition lpc546xx_cmd_read_partid p (argv : list (list Z)) : MW bool :=
  let! f := first_flash p in
  let! (status, partid) := lpc_iap_call polls stack p f IAP_CMD_PARTID [] in
  if negb (status =? 0) then ret false else
  do! tc_printf (Some p) (str "PART ID: 0x" ++ fmt_x 8 (byte_word partid 0) ++ nl) in
  ret true.
Definition lpc546xx_cmd_read_uid p (argv : list (list Z)) : MW bool := read_uid polls stack p.
Definition lpc546xx_cmd_reset_attach p (argv : list (list Z)) : MW bool :=
  do! lpc546xx_reset_attach p in ret true.
Definition lpc546xx_cmd_reset p (argv : list (list Z)) : MW bool :=
  do! target_mem_write (Some p) AIRCR (le_bytes 4 reset_val) in
  ret true.
Definition counting (n : Z) : list Z := (fun i => Z.land i 0xff) <$> seqZ 0 n.
(** An error code returned as a bool is true. *)
Definition lpc546xx_cmd_write_sector p (argv : list (list Z)) : MW bool :=
  match argv with
  | _ :: a1 :: _ =>
      let! (f, sector_addr) := sector_arg p a1 in
      let sector_size := blocksize f in
      let! retval := lpc546xx_flash_erase p f sector_addr 1 in
      if negb (retval =? 0) then ret true else
      let! h := MemManager_Alloc sector_size in
      do! when (0 <? sector_size) (let! _ := deref h in ret tt) in
      let! f := first_flash p in
      let! retval := lpc_flash_write_magic_vect polls stack p f sector_addr (counting sector_size) in
      do! MemManager_Free h in
      ret (retval =? 0)
  | _ => ret true
  end.

Definition lpc546xx_device : device D := {|
  dv_attach _ := None; dv_detach _ := None;
  dv_command := fn_table [("lpc546xx_cmd_erase_mass"%string, lpc546xx_cmd_erase_mass);
                          ("lpc546xx_cmd_erase_sector"%string, lpc546xx_cmd_erase_sector);
                          ("lpc546xx_cmd_read_partid"%string, lpc546xx_cmd_read_partid);
                          ("lpc546xx_cmd_read_uid"%string, lpc546xx_cmd_read_uid);
                          ("lpc546xx_cmd_reset_attach"%string, lpc546xx_cmd_reset_attach);
                          ("lpc546xx_cmd_reset"%string, lpc546xx_cmd_reset);
                          ("lpc546xx_cmd_write_sector"%string, lpc546xx_cmd_write_sector)];
  dv_erase := fn_table [("lpc546xx_flash_erase"%string, lpc546xx_flash_erase)];
  dv_write := fn_table [];
  dv_done _ := None |}.
End Lpc546xx.
