(* ===== verification/Lmi.v ===== *)
(** target/lmi.c: the TI Stellaris and Tiva parts.  Flash is written by a
    routine that is put in the target's RAM and run there. *)

From Stdlib Require Import ZArith Lia String.
From stdpp Require Import base list numbers option gmap.
From S2P Require Import Prelude CLib GdbIf MemManager GdbPacket TargetState Target Cortexm FlashDev.

Definition TARGET_SRAM_BASE : Z := 0x20000000.
Definition BLOCK_SIZE : Z := 0x400.
Definition LMI_SCB_BASE : Z := 0x400FE000.
Definition LMI_SCB_DID1 : Z := LMI_SCB_BASE + 0x004.
Definition LMI_FLASH_BASE : Z := 0x400FD000.
Definition LMI_FLASH_FMA : Z := LMI_FLASH_BASE + 0x000.
Definition LMI_FLASH_FMC : Z := LMI_FLASH_BASE + 0x008.
Definition LMI_FLASH_FMC_ERASE : Z := 2.
Definition LMI_FLASH_FMC_WRKEY : Z := 0xA4420000.
Definition lmi_driver_str : list Z := str "TI Stellaris/Tiva".
(** flashstub/lmi.stub. *)
Definition lmi_flash_write_stub : list Z :=
  [0x2300; 0x009C; 0x1909; 0x1C1C; 0x0892; 0x4293; 0xD20E; 0x4E08; 0x1905; 0x6035; 0x590E; 0x4D07; 0x602E; 0x4D07; 0x4E07; 0x602E;
   0x682E; 0x07F6; 0xD4FC; 0x3301; 0x3404; 0xE7EE; 0xBE00; 0x46C0; 0xD000; 0x400F; 0xD004; 0x400F; 0xD008; 0x400F; 0x0001; 0xA442].
Definition stub_bytes (l : list Z) : list Z := concat (le_bytes 2 <$> l).
Definition STUB_BUFFER_BASE : Z := TARGET_SRAM_BASE + 64.

(** RAM, flash and whether the reset line must be left alone. *)
Definition lmi_part (id : Z) : option (Z * Z * bool) :=
  if id =? 0x1049 then Some (0x8000, 0x40000, false)
  else if id =? 0x10A1 then Some (0x10000, 0x80000, true)
  else if id =? 0x1022 then Some (0x6000, 0x10000, true)
  else if id =? 0x101F then Some (0x40000, 0x100000, true)
  else None.

Section Lmi.
Context {D : Type} `{GdbIf D} `{MemIf D} `{Driver D} `{CortexmIf D}.
Notation MW := (M (world D)).
Variable polls : nat.
Implicit Type p : positive.

Definition lmi_add_flash p (length : Z) : MW unit :=
  new_flash p (flash_region 0 length 0x400 (flash_fns "lmi_flash_erase" "lmi_flash_write") 0 0xff).
Definition lmi_probe p : MW bool :=
  let! did1 := target_mem_read32 (Some p) LMI_SCB_DID1 in
  match lmi_part (Z.shiftr did1 16) with
  | None => ret false
  | Some (ram, fl, srst) =>
      do! upd_target p (set_driver lmi_driver_str) in
      do! target_add_ram p 0x20000000 ram in
      do! lmi_add_flash p fl in
      do! when srst (upd_target p (fun t => set_options (Z.lor (target_options t) CORTEXM_TOPT_INHIBIT_SRST) t)) in
      ret true
  end.
Definition erase_block_body p (st : Z * Z) : MW (Z * Z + Z) :=
  let '(addr, len) := st in
  if len =? 0 then ret (inr 0) else
  do! target_mem_write32 (Some p) LMI_FLASH_FMA addr in
  do! target_mem_write32 (Some p) LMI_FLASH_FMC (Z.lor LMI_FLASH_FMC_WRKEY LMI_FLASH_FMC_ERASE) in
  do! spin polls p LMI_FLASH_FMC (fun v => flag v LMI_FLASH_FMC_ERASE) in
  let! e := target_check_error (Some p) in
  if e : bool then ret (inr (-1)) else
  ret (inl (u32 (addr + BLOCK_SIZE), if BLOCK_SIZE <? len then len - BLOCK_SIZE else 0)).
Definition block_rounds (len : Z) : nat := S (S (Z.to_nat (len / BLOCK_SIZE))).
Definition lmi_flash_erase p (f : target_flash) (addr len : Z) : MW Z :=
  do! target_check_error (Some p) in
  iter (block_rounds len) (erase_block_body p) (addr, len).
Definition lmi_flash_write p (f : target_flash) (dest : Z) (src : list Z) : MW Z :=
  do! target_check_error (Some p) in
  do! target_mem_write (Some p) TARGET_SRAM_BASE (stub_bytes lmi_flash_write_stub) in
  do! target_mem_write (Some p) STUB_BUFFER_BASE src in
  let! e := target_check_error (Some p) in
  if e : bool then ret (-1) else
  ci_run_stub p TARGET_SRAM_BASE dest STUB_BUFFER_BASE (zlen src) 0.
Definition lmi_device : device D := {|
  dv_attach _ := None; dv_detach _ := None; dv_command _ := None;
  dv_erase := fn_table [("lmi_flash_erase"%string, lmi_flash_erase)];
  dv_write := fn_table [("lmi_flash_write"%string, lmi_flash_write)];
  dv_done _ := None |}.
End Lmi.
