(* ===== verification/Nrf51.v ===== *)
(** target/nrf51.c: the Nordic nRF51 and nRF52 parts (their recovery access
    port is in Recovery); their flash controller as a machine, and what the
    driver's erasing and programming do to it. *)

From Stdlib Require Import ZArith Lia ZifyBool String.
From stdpp Require Import base list numbers option gmap.
From S2P Require Import Prelude CLib GdbIf MemManager GdbPacket TargetState Target TargetFlash Command Cortexm FlashDev.

Definition nrf51_cmd_list : list command :=
  [cmd_entry "erase_mass" "nrf51_cmd_erase_all" "Erase entire flash memory";
   cmd_entry "erase_uicr" "nrf51_cmd_erase_uicr" "Erase UICR registers";
   cmd_entry "read" "nrf51_cmd_read" "Read device parameters"].
Definition nrf51_read_cmd_list : list command :=
  [cmd_entry "help" "nrf51_cmd_read_help" "Display help for read commands";
   cmd_entry "hwid" "nrf51_cmd_read_hwid" "Read hardware identification number";
   cmd_entry "fwid" "nrf51_cmd_read_fwid" "Read pre-loaded firmware ID";
   cmd_entry "deviceid" "nrf51_cmd_read_deviceid" "Read unique device ID";
   cmd_entry "deviceaddr" "nrf51_cmd_read_deviceaddr" "Read device address";
   cmd_entry "deviceinfo" "nrf51_cmd_read_deviceinfo" "Read device information"].
Definition NRF51_NVMC : Z := 0x4001E000.
Definition NRF51_NVMC_READY : Z := NRF51_NVMC + 0x400.
Definition NRF51_NVMC_CONFIG : Z := NRF51_NVMC + 0x504.
Definition NRF51_NVMC_ERASEPAGE : Z := NRF51_NVMC + 0x508.
Definition NRF51_NVMC_ERASEALL : Z := NRF51_NVMC + 0x50C.
Definition NRF51_NVMC_ERASEUICR : Z := NRF51_NVMC + 0x514.
Definition NRF51_NVMC_CONFIG_REN : Z := 0.
Definition NRF51_NVMC_CONFIG_WEN : Z := 1.
Definition NRF51_NVMC_CONFIG_EEN : Z := 2.
Definition NRF51_FICR : Z := 0x10000000.
Definition NRF51_FICR_CODEPAGESIZE : Z := NRF51_FICR + 0x010.
Definition NRF51_FICR_CODESIZE : Z := NRF51_FICR + 0x014.
Definition NRF51_FICR_CONFIGID : Z := NRF51_FICR + 0x05C.
Definition NRF51_FICR_DEVICEID_LOW : Z := NRF51_FICR + 0x060.
Definition NRF51_FICR_DEVICEID_HIGH : Z := NRF51_FICR + 0x064.
Definition NRF51_FICR_DEVICEADDRTYPE : Z := NRF51_FICR + 0x0A0.
Definition NRF51_FICR_DEVICEADDR_LOW : Z := NRF51_FICR + 0x0A4.
Definition NRF51_FICR_DEVICEADDR_HIGH : Z := NRF51_FICR + 0x0A8.
Definition NRF52_PART_INFO : Z := NRF51_FICR + 0x100.
Definition NRF52_INFO_RAM : Z := NRF51_FICR + 0x10C.
Definition NRF51_FICR_DEVICE_INFO_BASE : Z := NRF51_FICR + 0x100.
Definition NRF51_FICR_DEVICE_INFO_PART : Z := NRF51_FICR_DEVICE_INFO_BASE.
Definition NRF51_FICR_DEVICE_INFO_VARIANT : Z := NRF51_FICR_DEVICE_INFO_BASE + 4.
Definition NRF51_FICR_DEVICE_INFO_PACKAGE : Z := NRF51_FICR_DEVICE_INFO_BASE + 8.
Definition NRF51_FICR_DEVICE_INFO_RAM : Z := NRF51_FICR_DEVICE_INFO_BASE + 12.
Definition NRF51_FICR_DEVICE_INFO_FLASH : Z := NRF51_FICR_DEVICE_INFO_BASE + 16.
Definition NRF51_FIELD_UNSPECIFIED : Z := 0xFFFFFFFF.
Definition NRF51_UICR : Z := 0x10001000.

Section Nrf51.
Context {D : Type} `{GdbIf D} `{MemIf D} `{Driver D} `{CortexmIf D}.
Notation MW := (M (world D)).
Variable polls : nat.
Implicit Type p : positive.
Local Notation rd32 p a := (target_mem_read32 (Some p) a).
Local Notation wr32 p a v := (target_mem_write32 (Some p) a v).

(** ** Probing *)
Definition nrf51_add_flash p (addr length erasesize : Z) : MW unit :=
  new_flash p (flash_region addr length erasesize (flash_fns "nrf51_flash_erase" "nrf51_flash_write") 0 0xff).
Definition blank_word (v : Z) : bool := (v =? 0xffffffff) || (v =? 0).
Definition sensible_size (v : Z) : bool := negb (blank_word v) && (v <=? 0x10000).
Definition is_nrf52 (info_part : Z) : bool := negb (blank_word info_part) && (Z.land info_part 0x00ff000 =? 0x52000).
Definition add_regions p (page_size code_size : Z) : MW unit :=
  do! nrf51_add_flash p 0 (u32 (page_size * code_size)) page_size in
  nrf51_add_flash p NRF51_UICR page_size page_size.
Definition inhibit_srst p : MW unit := upd_target p (fun t => set_options (Z.lor (target_options t) CORTEXM_TOPT_INHIBIT_SRST) t).
Definition nrf51_probe p : MW bool :=
  let! page_size := rd32 p NRF51_FICR_CODEPAGESIZE in
  let! code_size := rd32 p NRF51_FICR_CODESIZE in
  if negb (sensible_size page_size && sensible_size code_size) then ret false else
  let! uid0 := rd32 p NRF51_FICR_DEVICEID_LOW in
  let! uid1 := rd32 p NRF51_FICR_DEVICEID_HIGH in
  if blank_word uid0 || blank_word uid1 then ret false else
  let! info_part := rd32 p NRF52_PART_INFO in
  if is_nrf52 info_part then
    let! ram_size := rd32 p NRF52_INFO_RAM in
    do! upd_target p (set_driver (str "Nordic nRF52")) in
    do! inhibit_srst p in
    do! target_add_ram p 0x20000000 (u32 (ram_size * 1024)) in
    do! add_regions p page_size code_size in
    do! target_add_commands p nrf51_cmd_list (str "nRF52") in
    ret true
  else
    do! upd_target p (set_driver (str "Nordic nRF51")) in
    do! target_add_ram p 0x20000000 0x8000 in
    do! inhibit_srst p in
    do! add_regions p page_size code_size in
    do! target_add_commands p nrf51_cmd_list (str "nRF51") in
    ret true.

(** ** Flash *)

(** Whether the controller got ready before the link failed. *)
Definition ready p : MW bool :=
  let! v := while_busy polls p NRF51_NVMC_READY (fun v => v =? 0) in ret (if v then true else false).
Definition erase_page_body p (f : target_flash) (st : Z * Z) : MW (Z * Z + Z) :=
  let '(addr, len) := st in
  if len =? 0 then ret (inr 0) else
  do! (if addr =? NRF51_UICR then wr32 p NRF51_NVMC_ERASEUICR 1 else wr32 p NRF51_NVMC_ERASEPAGE addr) in
  let! ok := ready p in
  ret (if ok : bool then inl (u32 (addr + blocksize f), if blocksize f <? len then len - blocksize f else 0) else inr (-1)).
Definition page_rounds (f : target_flash) (len : Z) : nat := S (S (Z.to_nat (len / blocksize f))).
Definition nrf51_flash_erase p (f : target_flash) (addr len : Z) : MW Z :=
  do! wr32 p NRF51_NVMC_CONFIG NRF51_NVMC_CONFIG_EEN in
  let! ok := ready p in
  if negb ok then ret (-1) else
  let! r := iter (page_rounds f len) (erase_page_body p f) (addr, len) in
  if negb (r =? 0) then ret r else
  do! wr32 p NRF51_NVMC_CONFIG NRF51_NVMC_CONFIG_REN in
  let! ok := ready p in
  ret (if ok : bool then 0 else -1).
Definition nrf51_flash_write p (f : target_flash) (dest : Z) (src : list Z) : MW Z :=
  do! wr32 p NRF51_NVMC_CONFIG NRF51_NVMC_CONFIG_WEN in
  let! ok := ready p in
  if negb ok then ret (-1) else
  do! target_mem_write (Some p) dest src in
  let! ok := ready p in
  if negb ok then ret (-1) else
  do! wr32 p NRF51_NVMC_CONFIG NRF51_NVMC_CONFIG_REN in
  ret 0.

(** ** Commands *)
Definition erase_by p (reg : Z) : MW bool :=
  do! tc_printf (Some p) (str "erase.." ++ nl) in
  do! wr32 p NRF51_NVMC_CONFIG NRF51_NVMC_CONFIG_EEN in
  let! ok := ready p in
  if negb ok then ret false else
  do! wr32 p reg 1 in
  ready p.
Definition nrf51_cmd_erase_all p (argv : list (list Z)) : MW bool := erase_by p NRF51_NVMC_ERASEALL.
Definition nrf51_cmd_erase_uicr p (argv : list (list Z)) : MW bool := erase_by p NRF51_NVMC_ERASEUICR.
Definition nrf51_cmd_read_hwid p : MW bool :=
  let! v := rd32 p NRF51_FICR_CONFIGID in
  do! tc_printf (Some p) (str "Hardware ID: 0x" ++ fmt_X 4 (Z.land v 0xFFFF) ++ nl) in
  ret true.
Definition nrf51_cmd_read_fwid p : MW bool :=
  let! v := rd32 p NRF51_FICR_CONFIGID in
  do! tc_printf (Some p) (str "Firmware ID: 0x" ++ fmt_X 4 (Z.land (Z.shiftr v 16) 0xFFFF) ++ nl) in
  ret true.
Definition nrf51_cmd_read_deviceid p : MW bool :=
  let! low := rd32 p NRF51_FICR_DEVICEID_LOW in
  let! high := rd32 p NRF51_FICR_DEVICEID_HIGH in
  do! tc_printf (Some p) (str "Device ID: 0x" ++ fmt_X 8 high ++ fmt_X 8 low ++ nl) in
  ret true.
Definition tab : list Z := [9].
Definition package_name (package : Z) : list Z :=
  if package =? NRF51_FIELD_UNSPECIFIED then str "Unspecified" ++ nl
  else if package =? 0x2000 then str "QF" ++ nl
  else if package =? 0x2001 then str "CI" ++ nl
  else if package =? 0x2004 then str "QIxx" ++ nl
  else str "Unknown (Code " ++ fmt_X 1 package ++ str ")" ++ nl.
Definition nrf51_cmd_read_deviceinfo p : MW bool :=
  let! package := rd32 p NRF51_FICR_DEVICE_INFO_PACKAGE in
  let! part := rd32 p NRF51_FICR_DEVICE_INFO_PART in
  let! ram_ := rd32 p NRF51_FICR_DEVICE_INFO_RAM in
  let! flash_ := rd32 p NRF51_FICR_DEVICE_INFO_FLASH in
  let! variant := rd32 p NRF51_FICR_DEVICE_INFO_VARIANT in
  do! tc_printf (Some p) (str "Part:" ++ tab ++ tab ++ str "NRF" ++ fmt_X 1 part ++ nl) in
  do! tc_printf (Some p) (str "Variant:" ++ tab ++ rev (le_bytes 4 variant) ++ nl) in
  do! tc_printf (Some p) (str "Package:" ++ tab) in
  do! tc_printf (Some p) (package_name package) in
  do! tc_printf (Some p) (str "Ram:" ++ tab ++ tab ++ fmt_d ram_ ++ str "K" ++ nl) in
  do! tc_printf (Some p) (str "Flash:" ++ tab ++ tab ++ fmt_d flash_ ++ str "K" ++ nl) in
  ret true.
Definition nrf51_cmd_read_deviceaddr p : MW bool :=
  let! addr_type := rd32 p NRF51_FICR_DEVICEADDRTYPE in
  let! addr_low := rd32 p NRF51_FICR_DEVICEADDR_LOW in
  let! high := rd32 p NRF51_FICR_DEVICEADDR_HIGH in
  let kind := if Z.land addr_type 1 =? 0 then str "Publicly Listed" else str "Randomly Assigned" in
  do! tc_printf (Some p) (kind ++ str " Address: 0x" ++ fmt_X 4 (Z.land high 0xFFFF) ++ fmt_X 8 addr_low ++ nl) in
  ret true.
Definition nrf51_cmd_read_help p : MW bool :=
  do! tc_printf (Some p) (str "Read commands:" ++ nl) in
  do! for_each nrf51_read_cmd_list (fun c => tc_printf (Some p) (tab ++ c_cmd c ++ str " -- " ++ c_help c ++ nl)) in
  ret true.
Definition read_handler p (handler : string) : MW bool :=
  default (ret false) (fn_table
    [("nrf51_cmd_read_help"%string, nrf51_cmd_read_help p); ("nrf51_cmd_read_hwid"%string, nrf51_cmd_read_hwid p);
     ("nrf51_cmd_read_fwid"%string, nrf51_cmd_read_fwid p); ("nrf51_cmd_read_deviceid"%string, nrf51_cmd_read_deviceid p);
     ("nrf51_cmd_read_deviceaddr"%string, nrf51_cmd_read_deviceaddr p); ("nrf51_cmd_read_deviceinfo"%string, nrf51_cmd_read_deviceinfo p)] handler).
(** The first command the argument is a prefix of; the result is negated. *)
Definition nrf51_cmd_read p (argv : list (list Z)) : MW bool :=
  match argv with
  | _ :: a1 :: _ =>
      match List.find (fun c => prefixb a1 (c_cmd c)) nrf51_read_cmd_list with
      | Some c => let! r := read_handler p (c_handler c) in ret (negb r)
      | None => nrf51_cmd_read_help p
      end
  | _ => nrf51_cmd_read_help p
  end.

Definition nrf51_device : device D := {|
  dv_attach _ := None; dv_detach _ := None;
  dv_command := fn_table [("nrf51_cmd_erase_all"%string, nrf51_cmd_erase_all); ("nrf51_cmd_erase_uicr"%string, nrf51_cmd_erase_uicr);
                          ("nrf51_cmd_read"%string, nrf51_cmd_read)];
  dv_erase := fn_table [("nrf51_flash_erase"%string, nrf51_flash_erase)];
  dv_write := fn_table [("nrf51_flash_write"%string, nrf51_flash_write)];
  dv_done _ := None |}.
End Nrf51.

(** ** The controller

    The NVMC as the nRF51 reference manual describes it: [nv_wait] more reads of
    READY show it busy; a write to flash clears bits, and the bus waits for the
    operation before it.  [nv_page] is the page size, [nv_code] the size of the
    code flash, [nv_delay] how long an operation takes.  A write the manual
    leaves open is None. *)
Module Nvmc.
Record nvmc := { nv_config : Z; nv_wait : nat; nv_mem : Z -> Z; nv_page : Z; nv_code : Z; nv_delay : nat }.
Definition set_nv (c : Z) (n : nat) (m : Z -> Z) (b : nvmc) : nvmc :=
  {| nv_config := c; nv_wait := n; nv_mem := m; nv_page := nv_page b; nv_code := nv_code b; nv_delay := nv_delay b |}.
(** [n] bytes of flash at [a], in the code or in the UICR. *)
Definition inside (b : nvmc) (a n : Z) : bool :=
  (0 <=? a) && (a + n <=? nv_code b) || (NRF51_UICR <=? a) && (a + n <=? NRF51_UICR + nv_page b).
Definition erasing (b : nvmc) : bool := (nv_config b =? NRF51_NVMC_CONFIG_EEN) && Nat.eqb (nv_wait b) 0.
Definition range_erased (a n : Z) (b : nvmc) : nvmc := set_nv (nv_config b) (nv_delay b) (erase_from (nv_mem b) a n) b.
Definition word_write (a v : Z) (b : nvmc) : nvmc :=
  set_nv (nv_config b) (nv_delay b)
    (fun x => if (a <=? x) && (x <? a + 4) then Z.land (nv_mem b x) (zget (le_bytes 4 v) (x - a)) else nv_mem b x) b.
Definition nv_read (n : nat) (a : Z) (b : nvmc) : option (Z * nvmc) :=
  if Nat.eqb n 4 && (a =? NRF51_NVMC_READY) then
    match nv_wait b with
    | O => Some (1, b)
    | S n => Some (0, set_nv (nv_config b) n (nv_mem b) b)
    end
  else None.
Definition nv_write (n : nat) (a v : Z) (b : nvmc) : option nvmc :=
  if negb (Nat.eqb n 4) then None
  else if a =? NRF51_NVMC_CONFIG then
    if Nat.eqb (nv_wait b) 0 && (0 <=? v) && (v <=? 2) then Some (set_nv v 0 (nv_mem b) b) else None
  else if a =? NRF51_NVMC_ERASEPAGE then
    if erasing b && (v mod nv_page b =? 0) && (0 <=? v) && (v + nv_page b <=? nv_code b) then Some (range_erased v (nv_page b) b) else None
  else if a =? NRF51_NVMC_ERASEUICR then
    if erasing b && (v =? 1) then Some (range_erased NRF51_UICR (nv_page b) b) else None
  else if a =? NRF51_NVMC_ERASEALL then
    if erasing b && (v =? 1) then Some (range_erased NRF51_UICR (nv_page b) (range_erased 0 (nv_code b) b)) else None
  else if (a mod 4 =? 0) && inside b a 4 && (nv_config b =? NRF51_NVMC_CONFIG_WEN) then Some (word_write a v b)
  else None.
Lemma write_config v b : nv_write 4 NRF51_NVMC_CONFIG v b =
  if Nat.eqb (nv_wait b) 0 && (0 <=? v) && (v <=? 2) then Some (set_nv v 0 (nv_mem b) b) else None.
Proof. done. Qed.
Lemma write_erasepage v b : nv_write 4 NRF51_NVMC_ERASEPAGE v b =
  if erasing b && (v mod nv_page b =? 0) && (0 <=? v) && (v + nv_page b <=? nv_code b) then Some (range_erased v (nv_page b) b) else None.
Proof. done. Qed.
Lemma write_eraseuicr v b : nv_write 4 NRF51_NVMC_ERASEUICR v b =
  if erasing b && (v =? 1) then Some (range_erased NRF51_UICR (nv_page b) b) else None.
Proof. done. Qed.
#[export] Instance machine : Machine nvmc := { b_read := nv_read; b_write := nv_write }.
End Nvmc.

Section Runs.
Import Nvmc.
Context {D : Type} {GI : GdbIf D} {MI : MemIf D} {DRV : Driver D} {CI : CortexmIf D} (p : positive) {BS : BusSpec DRV CI p nvmc}.
Implicit Types (b : nvmc) (t : target).
Variable polls : nat.

(** A controller between operations, and how long it may take for one. *)
Record fit b : Prop := {
  ft_wait : nv_wait b = 0%nat;
  ft_delay : (nv_delay b < polls)%nat;
  ft_page : 0 < nv_page b <= 0x10000 /\ NRF51_UICR mod nv_page b = 0;
  ft_code : 0 <= nv_code b <= NRF51_UICR;
}.
Lemma fit_set c m b : fit b -> fit (set_nv c 0 m b).
Proof. by intros [? ? ? ?]. Qed.

Lemma run_ready t b : (nv_wait b < polls)%nat -> bus_run p t b (ready polls p) true (set_nv (nv_config b) 0 (nv_mem b) b).
Proof.
  intros Hw. unfold ready. eapply br_bind; [eapply (br_while_busy p polls t _ _ (nv_wait b) b 1)|apply br_ret]; [|done].
  clear Hw. remember (nv_wait b) as n eqn:Hn. revert b Hn. induction n as [|n IH]; intros b Hn.
  - replace (set_nv (nv_config b) 0 (nv_mem b) b) with b by (by destruct b; cbn in Hn; subst).
    apply settled; [done| |done]. cbn. unfold nv_read. cbn. by rewrite <- Hn.
  - eapply settling; [done| |done|exact (IH (set_nv (nv_config b) n (nv_mem b) b) eq_refl)].
    cbn. unfold nv_read. cbn. by rewrite <- Hn.
Qed.
Lemma run_config t b c : nv_wait b = 0%nat -> 0 <= c <= 2 ->
  bus_run p t b (target_mem_write32 (Some p) NRF51_NVMC_CONFIG c) tt (set_nv c 0 (nv_mem b) b).
Proof.
  intros Hw Hc. apply br_write32; [unfold in_width; lia|]. cbn [b_write machine]. rewrite write_config, Hw. by replace (_ && _ && _) with true by lia.
Qed.

(** One page. *)
Lemma nv_erase_page t b f addr len : fit b -> nv_config b = NRF51_NVMC_CONFIG_EEN -> blocksize f = nv_page b -> 0 < len ->
  addr mod nv_page b = 0 -> inside b addr (nv_page b) = true ->
  bus_run p t b (erase_page_body polls p f (addr, len))
    (inl (u32 (addr + blocksize f), if blocksize f <? len then len - blocksize f else 0))
    (set_nv NRF51_NVMC_CONFIG_EEN 0 (erase_from (nv_mem b) addr (nv_page b)) b).
Proof.
  intros Hf Hc Hbs Hlen Ha Hin. unfold erase_page_body. replace (len =? 0) with false by lia. destruct Hf as [Hw Hd [Hp Hu] Hcd].
  assert (Her : erasing b = true) by (unfold erasing; by rewrite Hc, Hw).
  eapply (br_bind p t b (range_erased addr (nv_page b) b)).
  - unfold inside in Hin. destruct (Z.eqb_spec addr NRF51_UICR) as [->|Hne].
    + apply br_write32; [done|]. cbn [b_write machine]. by rewrite write_eraseuicr, Her.
    + apply br_write32; [unfold in_width; revert Hcd Hin Hne Hp; unfold NRF51_UICR; lia|]. cbn [b_write machine].
      rewrite write_erasepage, Her, Ha. by replace (_ && _ && _ && _) with true by (revert Hcd Hin Hne; lia).
  - pose proof (run_ready t (range_erased addr (nv_page b) b) Hd) as Hr. cbn [nv_config nv_mem range_erased set_nv] in Hr. rewrite Hc in Hr.
    eapply br_bind; [exact Hr|]. cbv iota. apply br_ret.
Qed.

Lemma inside_part b a n a' n' : inside b a n = true -> a <= a' -> a' + n' <= a + n -> inside b a' n' = true.
Proof. unfold inside. intros. lia. Qed.
Lemma inside_set c m b a n : inside (set_nv c 0 m b) a n = inside b a n.
Proof. done. Qed.
Lemma inside_bounds b a n : fit b -> inside b a n = true -> 0 <= a /\ a + n < 2 ^ 31.
Proof. intros [_ _ [Hp _] Hcd] Hin. revert Hin Hp Hcd. unfold inside, NRF51_UICR. lia. Qed.

(** The loop over [S n] pages. *)
Lemma nv_erase_pages t f n : forall b addr len k, fit b -> nv_config b = NRF51_NVMC_CONFIG_EEN -> blocksize f = nv_page b ->
  addr mod nv_page b = 0 -> nv_page b * Z.of_nat n < len <= nv_page b * Z.of_nat (S n) -> (S n < k)%nat ->
  inside b addr (nv_page b * Z.of_nat (S n)) = true ->
  exists m, bus_run p t b (iter k (erase_page_body polls p f) (addr, len)) 0 (set_nv NRF51_NVMC_CONFIG_EEN 0 m b) /\
    forall x, m x = erase_from (nv_mem b) addr (nv_page b * Z.of_nat (S n)) x.
Proof.
  induction n as [|n IH]; intros b addr len [|[|k]] Hfit Hc Hbs Ha Hlen Hk Hin; try lia; pose proof (ft_page _ Hfit) as [Hps _];
    destruct (inside_bounds _ _ _ Hfit Hin) as [Ha0 Ha31].
  - exists (erase_from (nv_mem b) addr (nv_page b)). replace (nv_page b * Z.of_nat 1) with (nv_page b) in * by lia. split; [|done].
    intros w Hw. rewrite iter_S. destruct (nv_erase_page t b f addr len Hfit Hc Hbs ltac:(lia) Ha Hin w Hw) as (w1 & Hr1 & Hw1 & Ho1).
    rewrite (bind_Ok _ _ _ _ _ Hr1), Hbs. replace (nv_page b <? len) with false by lia. exists w1. by rewrite iter_S.
  - set (ps := nv_page b) in *. set (b1 := set_nv NRF51_NVMC_CONFIG_EEN 0 (erase_from (nv_mem b) addr ps) b).
    assert (Hin1 : inside b addr ps = true) by (apply (inside_part _ _ _ _ _ Hin); nia).
    assert (Hub : u32 (addr + blocksize f) = addr + ps) by (rewrite Hbs; apply u32_small; fold ps; nia).
    destruct (IH b1 (addr + ps) (len - ps) (S k)) as (m & Hr & Hm).
    + by apply fit_set.
    + done.
    + done.
    + change (nv_page b1) with ps. rewrite <- (Z.mul_1_l ps) at 1. by rewrite Z.mod_add by lia.
    + change (nv_page b1) with ps. lia.
    + lia.
    + unfold b1. rewrite inside_set. apply (inside_part _ _ _ _ _ Hin); cbn [nv_page set_nv]; fold ps; lia.
    + exists m. split.
      * intros w Hw. rewrite iter_S. destruct (nv_erase_page t b f addr len Hfit Hc Hbs ltac:(lia) Ha Hin1 w Hw) as (w1 & Hr1 & Hw1 & Ho1).
        rewrite (bind_Ok _ _ _ _ _ Hr1), Hub, Hbs. fold ps. replace (ps <? len) with true by nia.
        destruct (Hr w1 Hw1) as (w2 & Hr2 & Hw2 & Ho2). exists w2. split; [exact Hr2|]. split; [done|]. by eapply outside_trans.
      * intros x. rewrite Hm. change (nv_page b1) with ps. change (nv_mem b1) with (erase_from (nv_mem b) addr ps). unfold erase_from.
        replace (ps * Z.of_nat (S (S n))) with (ps + ps * Z.of_nat (S n)) by lia.
        assert (Hq : 0 < ps * Z.of_nat (S n)) by lia. set (q := ps * Z.of_nat (S n)) in *. clearbody q.
        repeat match goal with |- context [if ?c then _ else _] => destruct c eqn:? end; lia.
Qed.

Lemma nv_erase t b f addr len : fit b -> blocksize f = nv_page b -> addr mod nv_page b = 0 -> 0 < len ->
  inside b addr (erase_size (nv_page b) len) = true ->
  exists m, bus_run p t b (nrf51_flash_erase polls p f addr len) 0 (set_nv NRF51_NVMC_CONFIG_REN 0 m b) /\
    forall x, m x = erase_from (nv_mem b) addr (erase_size (nv_page b) len) x.
Proof.
  intros Hfit Hbs Ha Hlen Hin. pose proof (ft_page _ Hfit) as [Hps _]. pose proof (ft_delay _ Hfit) as Hd. set (ps := nv_page b) in *.
  assert (Hq : 0 <= (len - 1) / ps) by (apply Z.div_pos; lia). pose proof (Z.div_mod (len - 1) ps ltac:(lia)) as Hdm.
  pose proof (Z.mod_pos_bound (len - 1) ps ltac:(lia)) as Hmb. set (n := Z.to_nat ((len - 1) / ps)).
  assert (Hsz : erase_size ps len = ps * Z.of_nat (S n)) by (unfold erase_size, n; f_equal; lia).
  assert (Hn : Z.of_nat n = (len - 1) / ps) by (unfold n; lia). rewrite Hsz in *.
  set (b1 := set_nv NRF51_NVMC_CONFIG_EEN 0 (nv_mem b) b).
  destruct (nv_erase_pages t f n b1 addr len (page_rounds f len)) as (m & Hr & Hm).
  - by apply fit_set.
  - done.
  - done.
  - done.
  - change (nv_page b1) with ps. lia.
  - unfold page_rounds. rewrite Hbs. fold ps. pose proof (Z.div_le_mono (len - 1) len ps ltac:(lia) ltac:(lia)). lia.
  - exact Hin.
  - exists m. split; [|exact Hm]. unfold nrf51_flash_erase. eapply br_bind; [apply (run_config t b); [apply Hfit|done]|].
    eapply br_bind; [apply (run_ready t b1); cbn; lia|]. cbn [negb]. eapply br_bind; [exact Hr|]. cbn [negb Z.eqb].
    eapply br_bind; [apply run_config; done|]. eapply br_bind; [apply run_ready; cbn; lia|]. apply br_ret.
Qed.

(** Words into erased flash. *)
Lemma land_ff v : is_byte v -> Z.land 0xff v = v.
Proof. intros Hv. change 0xff with (Z.ones 8). rewrite Z.land_comm, Z.land_ones by lia. by apply Z.mod_small. Qed.
Lemma write_words k : forall b a data, nv_config b = NRF51_NVMC_CONFIG_WEN -> is_bytes data -> zlen data = 4 * Z.of_nat k -> a mod 4 = 0 ->
  inside b a (4 * Z.of_nat k) = true -> (nv_code b <= NRF51_UICR) -> (nv_page b <= 0x10000) ->
  (forall x, a <= x < a + zlen data -> nv_mem b x = 0xff) ->
  exists m n, b_writes k 4 a data b = Some (set_nv NRF51_NVMC_CONFIG_WEN n m b) /\ (n <= Nat.max (nv_wait b) (nv_delay b))%nat /\
    forall x, m x = programmed (nv_mem b) a data x.
Proof.
  induction k as [|k IH]; intros b a data Hc Hby Hlen Ha Hin Hcd Hpg Her.
  - exists (nv_mem b), (nv_wait b). split; [destruct b; cbn in *; by subst|]. split; [lia|].
    intros x. unfold programmed. by replace (_ && _) with false by lia.
  - set (word := take 4 data). set (rest := drop 4 data).
    assert (Hsplit : data = word ++ rest) by (symmetry; apply take_drop).
    assert (Hwl : zlen word = 4) by (unfold zlen in *; unfold word; rewrite length_take; lia).
    assert (Hrl : zlen rest = 4 * Z.of_nat k) by (unfold zlen in *; unfold rest; rewrite length_drop; lia).
    assert (Hwb : is_bytes word) by (by apply Forall_take). assert (Hrb : is_bytes rest) by (by apply Forall_drop).
    set (b1 := word_write a (le_val word) b).
    assert (Hw1 : nv_write 4 a (le_val word) b = Some b1).
    { unfold nv_write. cbn [Nat.eqb negb].
      assert (Hne : forall r, 0x4001E000 <= r -> (a =? r) = false) by (intros r Hr; revert Hin Hcd Hpg; unfold inside, NRF51_UICR; lia).
      rewrite !Hne by (vm_compute; discriminate). rewrite Ha, Hc. replace (inside b a 4) with true; [done|].
      symmetry. apply (inside_part _ _ _ _ _ Hin); lia. }
    assert (Hm1 : forall x, nv_mem b1 x = programmed (nv_mem b) a word x).
    { intros x. cbn [b1 word_write nv_mem set_nv]. unfold programmed. rewrite Hwl. destruct ((a <=? x) && (x <? a + 4)) eqn:E; [|done].
      rewrite Her by lia. replace (le_bytes 4 (le_val word)) with word.
      - apply land_ff. unfold zget. replace (x - a <? 0) with false by lia.
        apply (proj1 (Forall_nth _ 0 word) Hwb). unfold zlen in Hwl. lia.
      - replace 4%nat with (length word) by (unfold zlen in Hwl; lia). symmetry. by apply le_bytes_val. }
    destruct (IH b1 (a + 4) rest) as (m & n & Hr & Hn & Hm).
    + done.
    + done.
    + done.
    + rewrite <- (Z.mul_1_l 4) at 1. by rewrite Z.mod_add by lia.
    + apply (inside_part _ _ _ _ _ Hin); lia.
    + done.
    + done.
    + intros x Hx. rewrite Hm1. unfold programmed. replace (_ && _) with false by lia. apply Her. lia.
    + exists m, n. split; [|split; [cbn in Hn |- *; lia|]].
      * cbn [b_writes]. fold word rest. cbn [b_write machine]. rewrite Hw1. exact Hr.
      * intros x. rewrite Hm. unfold programmed at 1. rewrite Hm1. unfold programmed. rewrite Hsplit, zlen_app, Hwl.
        destruct ((a + 4 <=? x) && (x <? a + 4 + zlen rest)) eqn:E1.
        -- replace ((a <=? x) && _) with true by lia. rewrite zget_app by lia. rewrite Hwl. replace (x - a <? 4) with false by lia. f_equal. lia.
        -- destruct ((a <=? x) && (x <? a + 4)) eqn:E2.
           ++ pose proof (zlen_nonneg rest). replace ((a <=? x) && _) with true by lia. rewrite zget_app by lia. rewrite Hwl. by replace (x - a <? 4) with true by lia.
           ++ replace ((a <=? x) && _) with false by lia. done.
Qed.
Lemma nv_write_ok t b f dest src : fit b -> is_bytes src -> zlen src mod 4 = 0 -> dest mod 4 = 0 ->
  inside b dest (zlen src) = true -> (forall x, dest <= x < dest + zlen src -> nv_mem b x = 0xff) ->
  exists m, bus_run p t b (nrf51_flash_write polls p f dest src) 0 (set_nv NRF51_NVMC_CONFIG_REN 0 m b) /\
    forall x, m x = programmed (nv_mem b) dest src x.
Proof.
  intros Hfit Hby Hl4 Hd4 Hin Her. destruct (inside_bounds _ _ _ Hfit Hin) as [Hd0 Hd31]. pose proof (ft_delay _ Hfit) as Hd.
  set (k := Z.to_nat (zlen src / 4)). pose proof (zlen_nonneg src) as Hnn.
  assert (Hk : zlen src = 4 * Z.of_nat k) by (unfold k; pose proof (Z.div_mod (zlen src) 4 ltac:(lia)); pose proof (Z.div_pos (zlen src) 4); lia).
  set (b1 := set_nv NRF51_NVMC_CONFIG_WEN 0 (nv_mem b) b).
  destruct (write_words k b1 dest src) as (m & n & Hw & Hn & Hm); try done.
  - by rewrite <- Hk.
  - apply (ft_code _ Hfit).
  - apply (ft_page _ Hfit).
  - exists m. split; [|exact Hm]. cbn in Hn. unfold nrf51_flash_write. eapply br_bind; [apply (run_config t b); [apply Hfit|done]|].
    eapply br_bind; [apply (run_ready t b1); cbn; lia|]. cbn [negb].
    eapply br_bind; [apply (br_words p t b1 k dest src _ Hd4 Hd0 ltac:(lia) Hby Hk Hw)|].
    eapply br_bind; [apply run_ready; cbn; lia|]. cbn [negb]. eapply br_bind; [apply run_config; done|]. apply br_ret.
Qed.
End Runs.

(** ** The flash of an nRF51 as a [FlashMemory] *)
Section Memory.
Import Nvmc.
Context {D : Type} {GI : GdbIf D} {MI : MemIf D} {DRV : Driver D} {CI : CortexmIf D} (p : positive)
        {BS : BusSpec DRV CI p nvmc} {BP : BusPools MI BS}.
Variables (polls : nat) (page code : Z).
Notation W := (world D).
Definition nrf_driver : Driver D := device_layer (nrf51_device polls) DRV.

Definition nrf_controller (b : nvmc) : Prop := fit polls b /\ nv_page b = page /\ nv_code b = code.
Definition nrf_ok (q : positive) (w : W) : Prop :=
  q = p /\ exists t, bus_ok t w /\ nrf_controller (bus_of (dev w)).
(** The regions [nrf51_probe] makes: the code, and the UICR. *)
Definition nrf_region (f : target_flash) : Prop :=
  f_ops f = flash_fns "nrf51_flash_erase" "nrf51_flash_write" /\ erased f = 0xff /\ has_done f = false /\ buf_size f mod 4 = 0 /\
  (0 <= f_start f /\ f_start f + f_length f <= code \/ f_start f = NRF51_UICR /\ f_length f <= page).
Lemma region_inside b f a n : nrf_controller b -> nrf_region f -> f_start f <= a -> a + n <= f_start f + f_length f -> inside b a n = true.
Proof. intros (_ & Hp & Hc) (_ & _ & _ & _ & Hr) Ha Hn. unfold inside. rewrite Hp, Hc. destruct Hr as [[? ?]|[? ?]]; lia. Qed.
Lemma controller_set m b : nrf_controller b -> nrf_controller (set_nv NRF51_NVMC_CONFIG_REN 0 m b).
Proof. intros (Hf & Hp & Hc). split; [by apply fit_set|done]. Qed.

Lemma nrf_write_ok q f a data w : nrf_ok q w -> nrf_region f -> is_bytes data -> 0 < zlen data -> zlen data = buf_size f ->
  a mod buf_size f = 0 -> f_start f <= a -> a + zlen data <= f_start f + f_length f ->
  (forall x, a <= x < a + zlen data -> nv_mem (bus_of (dev w)) x = erased f) ->
  exists w', @drv_flash_write D nrf_driver q f a data w = Ok 0 w' /\ heap w' = heap w /\ nrf_ok q w' /\
    (forall x, nv_mem (bus_of (dev w')) x = if (a <=? x) && (x <? a + zlen data) then zget data (x - a) else nv_mem (bus_of (dev w)) x).
Proof.
  intros (-> & t & Hok & Hctl) Hreg Hby Hlen Hsz Ha Hlo Hhi Her. pose proof Hreg as (Hops & Hff & _ & H4 & _).
  assert (Ha4 : a mod 4 = 0).
  { rewrite <- Hsz in Ha, H4. apply Z.mod_divide in Ha; [|lia]. apply Z.mod_divide in H4; [|lia].
    apply Z.mod_divide; [lia|]. by etransitivity. }
  destruct (nv_write_ok p polls t _ f a data (proj1 Hctl) Hby ltac:(by rewrite Hsz) Ha4
    ltac:(by apply (region_inside _ f)) ltac:(intros x Hx; rewrite Her by done; exact Hff)) as (m & Hrun & Hm).
  destruct (Hrun w (conj Hok eq_refl)) as (w' & Hr & (Hok' & Hb') & (d & ->)).
  exists (set_dev d w). split; [|split; [done|split]].
  - cbn [drv_flash_write nrf_driver device_layer]. rewrite Hops. exact Hr.
  - split; [done|]. exists t. split; [done|]. rewrite Hb'. by apply controller_set.
  - intros x. rewrite Hb'. cbn [nv_mem set_nv]. apply Hm.
Qed.
#[export] Instance nrf_memory : @FlashMemory D MI nrf_driver.
Proof.
  refine {| img w := nv_mem (bus_of (dev w)); fm_ok := nrf_ok; fm_region := nrf_region |}.
  - intros b a f H. exact H.
  - exact nrf_write_ok.
  - intros q f w _ (_ & _ & Hd & _) Hd'. congruence.
  - by intros w w' ->.
  - intros q t l w (-> & t' & Hok & Hrest) Hp. split; [done|]. destruct (bus_target t' w Hok) as (Hp' & _).
    assert (t' = t) as -> by congruence. exists (set_flash l t). split; [|exact Hrest]. by apply (bus_heap t).
  - intros q n w (-> & t & Hok & Hrest). destruct (bus_alloc t w n Hok) as (h & d & Hr & Hok' & Hb).
    exists h, (set_dev d w). split; [done|]. split; [done|]. cbn [dev set_dev]. rewrite Hb. split; [|done].
    split; [done|]. exists t. cbn [dev set_dev]. by rewrite Hb.
  - intros q h w (-> & t & Hok & Hrest). destruct (bus_free t w h Hok) as (d & Hr & Hok' & Hb).
    exists (set_dev d w). split; [done|]. split; [done|]. cbn [dev set_dev]. rewrite Hb. split; [|done].
    split; [done|]. exists t. cbn [dev set_dev]. by rewrite Hb.
Defined.

(** Target [p] is [t], whose only region is [f], of pages of the controller,
    with nothing buffered. *)
Record nrf_target (t : target) (h : positive) (f : target_flash) (w : W) : Prop := {
  nt_bus : bus_ok t w;
  nt_controller : nrf_controller (bus_of (dev w));
  nt_flash : flash t = [(h, f)];
  nt_region : nrf_region f;
  nt_page : blocksize f = page /\ buf_size f = page;
  nt_sectors : f_start f mod page = 0 /\ f_length f mod page = 0;
  nt_buf : buf f = None;
}.
End Memory.

(** ** Witness *)
Module NrfSim.
Import Nvmc BusSim.
Definition flash0 : nvmc :=
  {| nv_config := 0; nv_wait := 0; nv_mem := fun _ => 0x5a; nv_page := 0x400; nv_code := 0x40000; nv_delay := 3 |}.
Definition region0 : target_flash :=
  flash_region 0 0x40000 0x400 (flash_fns "nrf51_flash_erase" "nrf51_flash_write") 0x400 0xff.
Definition t0 : target := sim_target 0 [(3%positive, region0)].
Definition w0 : world nvmc := sim_world t0 flash0.
Lemma nrf_target0 : nrf_target (BS := sim_bus 5) 5 10 0x400 0x40000 t0 3 region0 w0.
Proof.
  constructor; try done.
  - split; [|done]. constructor; [done|cbn; lia|done|done].
  - split; [done|]. split; [done|]. split; [done|]. split; [done|]. by left.
Qed.
End NrfSim.
Import Nvmc BusSim.
