(* ===== verification/Rp.v ===== *)
(** target/rp.c: the Raspberry Pi RP2040, whose flash is erased and programmed
    by routines of its boot ROM (its rescue port is in Recovery).
    [target_storage] is [struct rp_priv_s]: nine addresses of the ROM, two
    flags and the registers of a call. *)

From Stdlib Require Import ZArith Lia String.
From stdpp Require Import base list numbers option gmap.
From S2P Require Import Prelude CLib GdbIf MemManager GdbPacket TargetState Target Platform Command Cortexm FlashDev.

Definition RP_ID : list Z := str "Raspberry RP2040".
Definition BOOTROM_MAGIC : Z := 0x01754D.
Definition BOOTROM_MAGIC_ADDR : Z := 0x00000010.
Definition XIP_FLASH_START : Z := 0x10000000.
Definition SRAM_START : Z := 0x20000000.
Definition MAX_FLASH : Z := 2 * 1024 * 1024.
Definition FLASHCMD_SECTOR_ERASE : Z := 0x20.
Definition FLASHCMD_BLOCK32K_ERASE : Z := 0x52.
Definition FLASHCMD_BLOCK64K_ERASE : Z := 0xd8.
Definition FLASHCMD_CHIP_ERASE : Z := 0x72.
Definition MAX_WRITE_CHUNK : Z := 0x1000.
Definition RP_MAX_TABLE_SIZE : Z := 0x80.
Definition sizeof_rp_priv_s : Z := 148.
Definition rp_cmd_list : list command :=
  [cmd_entry "erase_mass" "rp_cmd_erase_mass" "Erase entire flash memory";
   cmd_entry "reset_usb_boot" "rp_cmd_reset_usb_boot" "Reboot the device into BOOTSEL mode"].

(** ** [struct rp_priv_s] *)
Definition DEBUG_TRAMPOLINE : nat := 0.
Definition DEBUG_TRAMPOLINE_END : nat := 1.
Definition CONNECT_INTERNAL_FLASH : nat := 2.
Definition FLASH_EXIT_XIP : nat := 3.
Definition FLASH_RANGE_ERASE : nat := 4.
Definition FLASH_RANGE_PROGRAM : nat := 5.
Definition FLASH_FLUSH_CACHE : nat := 6.
Definition FLASH_ENTER_CMD_XIP : nat := 7.
Definition RESET_USB_BOOT : nat := 8.
Definition IS_PREPARED : nat := 9.
Definition IS_MONITOR : nat := 10.
Definition REGS : nat := 11.
Definition blank_rp_priv : list Z := replicate 43 0.

(** ** The table of the ROM's functions *)
Definition tag2 (s : string) : Z := zget (str s) 0 + 256 * zget (str s) 1.
Definition rp_slot (tag : Z) : option nat :=
  if tag =? tag2 "DT" then Some DEBUG_TRAMPOLINE
  else if tag =? tag2 "DE" then Some DEBUG_TRAMPOLINE_END
  else if tag =? tag2 "IF" then Some CONNECT_INTERNAL_FLASH
  else if tag =? tag2 "EX" then Some FLASH_EXIT_XIP
  else if tag =? tag2 "RE" then Some FLASH_RANGE_ERASE
  else if tag =? tag2 "RP" then Some FLASH_RANGE_PROGRAM
  else if tag =? tag2 "FC" then Some FLASH_FLUSH_CACHE
  else if tag =? tag2 "CX" then Some FLASH_ENTER_CMD_XIP
  else if tag =? tag2 "UB" then Some RESET_USB_BOOT
  else None.
(** [tag] has been read, [i] is the next halfword of the table. *)
Definition fill_entry {W} (table : list Z) (st : Z * Z * Z * Z * list Z) : M W (Z * Z * Z * Z * list Z + Z * list Z) :=
  let '(tag, i, check, max, priv) := st in
  if (tag =? 0) || (max =? 0) then ret (inr (check, priv)) else
  let! data := word_get table i in
  let! next := word_get table (i + 1) in
  ret (inl (match rp_slot tag with
            | Some k => (next, i + 2, check + 1, max - 2, <[k := data]> priv)
            | None => (next, i + 2, check, max - 2, priv)
            end)).
Definition fill_rounds (max : Z) : nat := S (Z.to_nat (max / 2)).
(** Whether an entry is missing, and the addresses found. *)
Definition rp2040_fill_table {W} (priv table : list Z) (max : Z) : M W (bool * list Z) :=
  let! tag := word_get table 0 in
  let! (check, priv) := iter (fill_rounds max) (fill_entry table) (tag, 1, 0, max, priv) in
  ret (negb (check =? 9), priv).
Definition halfwords (l : list Z) : list Z := (fun i => le_val (ztake 2 (zdrop (2 * i) l))) <$> seqZ 0 (zlen l / 2).

(** ** What an erase asks the ROM for *)

(** One call: address, length, block size, block command and the time it may
    take; and what is left. *)
Definition erase_call (addr len : Z) : Z * Z * Z * Z * Z :=
  let chunk k := Z.land len (u32 (Z.lnot (k - 1))) in
  if MAX_FLASH <=? len then (addr, MAX_FLASH, 0xffffffff, FLASHCMD_CHIP_ERASE, 25100)
  else if 64 * 1024 <=? len then (addr, chunk 0x10000, 0xffffffff, FLASHCMD_BLOCK64K_ERASE, 2100)
  else if 32 * 1024 <=? len then (addr, chunk 0x8000, 0xffffffff, FLASHCMD_BLOCK32K_ERASE, 1700)
  else (addr, len, MAX_FLASH, FLASHCMD_SECTOR_ERASE, 410).
Definition round_up (len : Z) : Z := if Z.land len 0xfff =? 0 then len else Z.land (u32 (len + 0xfff)) 0xfffff000.

Section Rp.
Context {D : Type} `{GdbIf D} `{MemIf D} `{ClockIf D} `{Driver D} `{CortexmIf D}.
Notation MW := (M (world D)).
Variable polls : nat.
Implicit Type p : positive.

Definition get_reg p (i : nat) : MW Z := stored p (REGS + i).
Definition put_reg p (i : nat) (v : Z) : MW unit := store_word p (REGS + i) v.
Definition call_regs p : MW (list Z) := let! l := storage_of p in ret (drop REGS l).

(** ** Calling the ROM *)
Definition rom_wait_body p (to : Z) (st : Z * Z) : MW (Z * Z + unit) :=
  let '(to_spinner, spinindex) := st in
  let! late := platform_timeout_is_expired to_spinner in
  let! (to_spinner, spinindex) :=
    if late : bool then
      let! m := stored p IS_MONITOR in
      do! when (negb (m =? 0)) (tc_printf (Some p) (spinner spinindex)) in
      let! t := platform_timeout_set 500 in
      ret (t, if m =? 0 then spinindex else spinindex + 1)
    else ret (to_spinner, spinindex) in
  let! over := platform_timeout_is_expired to in
  if over : bool then ret (inr tt) else
  let! (r, _) := target_halt_poll (Some p) in
  ret (if bool_decide (r = TARGET_HALT_RUNNING) then inl (to_spinner, spinindex) else inr tt).
(** Whether the call failed: the core is not where calls come back to. *)
Definition rp_rom_call p (cmd timeout : Z) : MW bool :=
  do! put_reg p 7 cmd in
  let! e := stored p DEBUG_TRAMPOLINE_END in do! put_reg p (Z.to_nat REG_LR) e in
  let! b := stored p DEBUG_TRAMPOLINE in do! put_reg p (Z.to_nat REG_PC) b in
  do! put_reg p (Z.to_nat REG_MSP) 0x20042000 in
  do! put_reg p (Z.to_nat REG_XPSR) CORTEXM_XPSR_THUMB in
  let! regs := call_regs p in
  do! target_regs_write polls (Some p) (words_bytes regs) in
  do! target_halt_resume (Some p) false in
  if timeout =? 0 then ret false else
  let! to := platform_timeout_set timeout in
  let! to_spinner := platform_timeout_set (if 500 <? timeout then 500 else u32 (timeout + 1)) in
  do! iter polls (rom_wait_body p to) (to_spinner, 0) in
  let! dbg_regs := target_regs_read polls (Some p) in
  let! pc := word_get (bytes_words dbg_regs) REG_PC in
  let! e := stored p DEBUG_TRAMPOLINE_END in
  ret (negb (Z.land pc 0xfffffffe =? Z.land e 0xfffffffe)).
Definition rom_call p (fn : nat) (timeout : Z) : MW bool := let! cmd := stored p fn in rp_rom_call p cmd timeout.
Definition rp_flash_prepare p : MW unit :=
  let! b := stored p IS_PREPARED in
  when (b =? 0)
    (do! rom_call p CONNECT_INTERNAL_FLASH 100 in
     do! rom_call p FLASH_EXIT_XIP 100 in
     store_word p IS_PREPARED 1).
Definition rp_flash_resume p : MW unit :=
  let! b := stored p IS_PREPARED in
  when (negb (b =? 0))
    (do! rom_call p FLASH_FLUSH_CACHE 100 in
     do! rom_call p FLASH_ENTER_CMD_XIP 100 in
     store_word p IS_PREPARED 0).

(** ** Flash *)
Definition erase_chunk_body p (st : Z * Z) : MW (Z * Z + bool) :=
  let '(addr, len) := st in
  if len =? 0 then ret (inr false) else
  let '(a, n, block, cmd, timeout) := erase_call addr len in
  do! put_reg p 0 a in
  do! put_reg p 1 n in
  do! put_reg p 2 block in
  do! put_reg p 3 cmd in
  let! failed := rom_call p FLASH_RANGE_ERASE timeout in
  ret (if failed : bool then inr true else inl (u32 (addr + n), len - n)).
(** At most one call of each kind, and the end. *)
Definition rp_flash_erase p (addr len : Z) : MW Z :=
  if negb (Z.land addr 0xfff =? 0) then ret (-1) else
  let len := round_up len in
  do! rp_flash_prepare p in
  let! failed := iter 4 (erase_chunk_body p) (u32 (addr - XIP_FLASH_START), Z.min len MAX_FLASH) in
  do! rp_flash_resume p in
  ret (Z.b2z failed).
Definition write_chunk_body p (st : Z * list Z) : MW (Z * list Z + bool) :=
  let '(dest, src) := st in
  if zlen src =? 0 then ret (inr false) else
  let chunksize := if zlen src <=? MAX_WRITE_CHUNK then zlen src else MAX_WRITE_CHUNK in
  do! target_mem_write (Some p) SRAM_START (ztake chunksize src) in
  do! put_reg p 0 dest in
  do! put_reg p 1 SRAM_START in
  do! put_reg p 2 chunksize in
  let! failed := rom_call p FLASH_RANGE_PROGRAM (Z.shiftr (u32 (3 * chunksize * 10)) 8) in
  ret (if failed : bool then inr true else inl (u32 (dest + chunksize), zdrop chunksize src)).
Definition write_rounds (len : Z) : nat := S (S (Z.to_nat (len / MAX_WRITE_CHUNK))).
Definition rp_flash_write p (f : target_flash) (dest : Z) (src : list Z) : MW Z :=
  if negb (Z.land dest 0xff =? 0) || negb (Z.land (zlen src) 0xff =? 0) then ret (-1) else
  do! rp_flash_prepare p in
  let! failed := iter (write_rounds (zlen src)) (write_chunk_body p) (u32 (dest - XIP_FLASH_START), src) in
  do! rp_flash_resume p in
  ret (Z.b2z failed).

(** ** Commands *)
Definition atoi_arg (argv : list (list Z)) (i : nat) : MW Z := let! a := deref (argv !! i) in ret (u32 (strtol 10 a)).
Definition rp_cmd_reset_usb_boot p (argv : list (list Z)) : MW bool :=
  do! if 2 <? zlen argv then let! v := atoi_arg argv 2 in put_reg p 1 v
      else let! v := atoi_arg argv 1 in put_reg p 0 v in
  do! rom_call p RESET_USB_BOOT 0 in
  ret true.
Definition rp_cmd_erase_mass p (argv : list (list Z)) : MW bool :=
  do! store_word p IS_MONITOR 1 in
  let! r := rp_flash_erase p XIP_FLASH_START MAX_FLASH in
  do! store_word p IS_MONITOR 0 in
  ret (r =? 0).

(** ** Probing *)

(** [erased] is not set: zero. *)
Definition rp_add_flash p (addr length : Z) : MW unit :=
  new_flash p (flash_region addr length 0x1000 (flash_fns "rp_flash_erase" "rp_flash_write") 2048 0).
(** The first power of two at which flash is not what it is at its start. *)
Definition mirror_body p (bootsec : list Z) (size : Z) : MW (Z + Z) :=
  if size =? 0 then ret (inr size) else
  let! (mirrorsec, _) := target_mem_read (Some p) (XIP_FLASH_START + size) 64 in
  ret (if eqb_str bootsec mirrorsec then inl (Z.shiftr size 1) else inr size).
Definition flash_size p (bootsec : list Z) : MW Z :=
  let size := 8 * 1024 * 1024 in
  if forallb (Z.eqb 0) bootsec then ret size else iter 26 (mirror_body p bootsec) size.
Definition rp_found p (priv : list Z) (h : positive) : MW unit :=
  do! upd_target p (set_storage (Some (h, priv))) in
  let! (bootsec, _) := target_mem_read (Some p) XIP_FLASH_START 64 in
  let! size := flash_size p bootsec in
  do! rp_add_flash p XIP_FLASH_START (u32 (Z.shiftl size 1)) in
  do! upd_target p (set_driver RP_ID) in
  do! target_add_ram p SRAM_START 0x40000 in
  do! target_add_ram p 0x51000000 0x1000 in
  target_add_commands p rp_cmd_list RP_ID.
Definition rp_probe p : MW bool :=
  let! boot_magic := target_mem_read32 (Some p) BOOTROM_MAGIC_ADDR in
  if negb (Z.land boot_magic 0x00ffffff =? BOOTROM_MAGIC) then ret false else
  let! table := MemManager_Alloc RP_MAX_TABLE_SIZE in
  let! table_offset := target_mem_read32 (Some p) (BOOTROM_MAGIC_ADDR + 4) in
  match table with
  | None => ret false
  | Some table =>
      let abandon m := do! m in do! MemManager_Free (Some table) in ret false in
      let! (bytes, failed) := target_mem_read (Some p) (u16 table_offset) RP_MAX_TABLE_SIZE in
      if failed : bool then abandon (ret tt) else
      let! priv_storage := MemManager_Alloc sizeof_rp_priv_s in
      match priv_storage with
      | None => abandon (ret tt)
      | Some h =>
          let! (missing, priv) := rp2040_fill_table blank_rp_priv (halfwords bytes) RP_MAX_TABLE_SIZE in
          if missing : bool then
            do! MemManager_Free (Some table) in do! MemManager_Free (Some h) in ret false
          else
            do! rp_found p priv h in
            do! MemManager_Free (Some table) in
            ret true
      end
  end.

Definition rp_device : device D := {|
  dv_attach _ := None; dv_detach _ := None;
  dv_command := fn_table [("rp_cmd_erase_mass"%string, rp_cmd_erase_mass); ("rp_cmd_reset_usb_boot"%string, rp_cmd_reset_usb_boot)];
  dv_erase := fn_table [("rp_flash_erase"%string, fun p (_ : target_flash) addr len => rp_flash_erase p addr len)];
  dv_write := fn_table [("rp_flash_write"%string, rp_flash_write)];
  dv_done _ := None |}.
End Rp.
