(* ===== verification/Stm32h7.v ===== *)
(** target/stm32h7.c: the STM32 H7 parts, with a flash controller for each of
    their two banks.  A region's extra members are its write parallelism and
    its controller's address. *)

From Stdlib Require Import ZArith Lia String.
From stdpp Require Import base list numbers option gmap.
From S2P Require Import Prelude CLib GdbIf MemManager GdbPacket TargetState Target Platform Command Adiv5 Cortexm FlashDev.

Definition stm32h7_cmd_list : list command :=
  [cmd_entry "erase_mass" "stm32h7_cmd_erase_mass" "Erase entire flash memory";
   cmd_entry "psize" "stm32h7_cmd_psize" "Configure flash write parallelism: (x8|x16|x32|x64(default))";
   cmd_entry "uid" "stm32h7_uid" "Print unique device ID";
   cmd_entry "crc" "stm32h7_crc" "Print CRC of both banks";
   cmd_entry "revision" "stm32h7_cmd_rev" "Returns the Device ID and Revision"].
Definition stm32h7_driver_str : list Z := str "STM32H7".
Definition FLASH_ACR : Z := 0x00.
Definition FLASH_KEYR : Z := 0x04.
Definition FLASH_CR : Z := 0x0c.
Definition FLASH_SR : Z := 0x10.
Definition FLASH_CCR : Z := 0x14.
Definition FLASH_OPTSR : Z := 0x20.
Definition FLASH_CRCCR : Z := 0x50.
Definition FLASH_CRCDATA : Z := 0x5C.
Definition FPEC1_BASE : Z := 0x52002000.
Definition FPEC2_BASE : Z := 0x52002100.
Definition FLASH_SR_BSY : Z := 1.
Definition FLASH_SR_QW : Z := 4.
Definition FLASH_SR_CRC_BUSY : Z := 8.
Definition FLASH_SR_ERROR_READ : Z := 0x7800000.
Definition FLASH_SR_ERROR_MASK : Z := Z.lor 0x6E0000 FLASH_SR_ERROR_READ.
Definition FLASH_CR_LOCK : Z := 1.
Definition FLASH_CR_PG : Z := 2.
Definition FLASH_CR_SER : Z := 4.
Definition FLASH_CR_BER : Z := 8.
Definition FLASH_CR_PSIZE16 : Z := 0x10.
Definition FLASH_CR_START : Z := 0x80.
Definition FLASH_CR_SNB_1 : Z := 0x100.
Definition FLASH_CR_CRC_EN : Z := 0x8000.
Definition FLASH_OPTSR_IWDG1_SW : Z := 0x10.
Definition FLASH_CRCCR_ALL_BANK : Z := 0x80.
Definition FLASH_CRCCR_START_CRC : Z := 0x10000.
Definition FLASH_CRCCR_CLEAN_CRC : Z := 0x20000.
Definition FLASH_CRCCR_CRC_BURST_3 : Z := 0x300000.
Definition KEY1 : Z := 0x45670123.
Definition KEY2 : Z := 0xCDEF89AB.
Definition DBGMCU_IDCODE : Z := 0x5c001000.
Definition DBGMCU_IDC : Z := DBGMCU_IDCODE + 0.
Definition DBGMCU_CR : Z := DBGMCU_IDCODE + 4.
Definition DBGSLEEP_D1 : Z := 1.
Definition D1DBGCKEN : Z := 0x200000.
Definition BANK1_START : Z := 0x08000000.
Definition NUM_SECTOR_PER_BANK : Z := 8.
Definition FLASH_SECTOR_SIZE : Z := 0x20000.
Definition BANK2_START : Z := 0x08100000.
Definition ID_STM32H74x : Z := 0x450.
Definition ID_STM32H7Bx : Z := 0x480.
Definition ID_STM32H72x : Z := 0x483.
Definition sizeof_stm32h7_flash : Z := 56.
Definition regbase (f : target_flash) : Z := extra 1 f.
(** The controller of the bank an address is in. *)
Definition fpec_of (addr : Z) : Z := if BANK2_START <=? addr then FPEC2_BASE else FPEC1_BASE.
Definition stm32h7xx_revisions : list (Z * Z) :=
  [(0x1000, chr "A"); (0x1001, chr "Z"); (0x1003, chr "Y"); (0x2001, chr "X"); (0x2003, chr "V")].
(** The last entry that matches. *)
Definition revision_of (rev_id : Z) : Z := foldl (fun r '(id, c) => if id =? rev_id then c else r) (chr "?") stm32h7xx_revisions.
Definition h7_rams : list (Z * Z) :=
  [(0x00000000, 0x10000); (0x20000000, 0x20000); (0x24000000, 0x80000); (0x30000000, 0x20000); (0x30020000, 0x20000);
   (0x30040000, 0x08000); (0x38000000, 0x10000)].

Section Stm32h7.
Context {D : Type} `{GdbIf D} `{MemIf D} `{ClockIf D} `{Driver D} `{CortexmIf D}.
Notation MW := (M (world D)).
Variable polls : nat.
Implicit Type p : positive.
Local Notation rd32 p a := (target_mem_read32 (Some p) a).
Local Notation wr32 p a v := (target_mem_write32 (Some p) a v).

(** ** Probing and attaching *)
Definition stm32h7_add_flash p (addr length blocksize : Z) : MW unit :=
  new_flash_of sizeof_stm32h7_flash p
    (with_extra [ALIGN_DWORD; fpec_of addr]
       (flash_region addr length blocksize (flash_fns "stm32h7_flash_erase" "stm32h7_flash_write") 2048 0xff)).
Definition stm32h7_attach p : MW bool :=
  let! ok := ci_attach p in
  if negb ok then ret false else
  let! optsr := rd32 p (FPEC1_BASE + FLASH_OPTSR) in
  do! when (negb (flag optsr FLASH_OPTSR_IWDG1_SW)) (tc_printf (Some p) (str "Hardware IWDG running. Expect failure. Set IWDG1_SW!")) in
  do! target_mem_map_free p in
  do! for_each h7_rams (fun '(addr, len) => target_add_ram p addr len) in
  do! stm32h7_add_flash p 0x8000000 0x100000 FLASH_SECTOR_SIZE in
  do! stm32h7_add_flash p 0x8100000 0x100000 FLASH_SECTOR_SIZE in
  ret true.
Definition stm32h7_detach p : MW unit :=
  let! dbg_cr := stored p 0 in
  do! wr32 p DBGMCU_CR dbg_cr in
  ci_detach p.
Definition stm32h7_probe p : MW bool :=
  let! t := load_target p in
  if (idcode t =? ID_STM32H74x) || (idcode t =? ID_STM32H7Bx) || (idcode t =? ID_STM32H72x) then
    do! upd_target p (fun t => set_attach_methods (Fdev "stm32h7_attach") (Fdev "stm32h7_detach") (set_driver stm32h7_driver_str t)) in
    do! target_add_commands p stm32h7_cmd_list stm32h7_driver_str in
    let! h := MemManager_Alloc 4 in
    let! dbg_cr := rd32 p DBGMCU_CR in
    let! h := deref h in
    do! upd_target p (set_storage (Some (h, [dbg_cr]))) in
    do! wr32 p DBGMCU_CR (Z.lor DBGSLEEP_D1 D1DBGCKEN) in
    ret true
  else ret false.

(** ** Flash *)
Definition stm32h7_flash_unlock p (addr : Z) : MW bool :=
  let base := fpec_of addr in
  let! idle := while_busy polls p (base + FLASH_SR) (fun v => flag v FLASH_SR_BSY) in
  match idle with
  | None => ret false
  | Some _ =>
      let! v := rd32 p (base + FLASH_SR) in
      let sr := Z.land v FLASH_SR_ERROR_MASK in
      if negb (sr =? 0) then do! wr32 p (base + FLASH_CCR) sr in ret false else
      let! cr := rd32 p (base + FLASH_CR) in
      do! when (flag cr FLASH_CR_LOCK) (do! wr32 p (base + FLASH_KEYR) KEY1 in wr32 p (base + FLASH_KEYR) KEY2) in
      let! cr := rd32 p (base + FLASH_CR) in
      ret (negb (flag cr FLASH_CR_LOCK))
  end.
Definition sector_cr (psize sector : Z) : Z :=
  Z.lor (Z.lor (psize * FLASH_CR_PSIZE16) FLASH_CR_SER) (u32 (sector * FLASH_CR_SNB_1)).
Definition erase_sector_body p (f : target_flash) (end_sector sector : Z) : MW (Z + Z) :=
  if end_sector <? sector then ret (inr 0) else
  let cr := sector_cr (psize_of f) sector in
  do! wr32 p (regbase f + FLASH_CR) cr in
  do! wr32 p (regbase f + FLASH_CR) (Z.lor cr FLASH_CR_START) in
  do! rd32 p (regbase f + FLASH_CR) in
  do! rd32 p (regbase f + FLASH_SR) in
  let! sr := do_while_busy polls p (regbase f + FLASH_SR) (fun v => flag v (Z.lor FLASH_SR_QW FLASH_SR_BSY)) in
  ret (match sr with
       | None => inr (-1)
       | Some sr => if flag sr FLASH_SR_ERROR_MASK then inr (-1) else inl (sector + 1)
       end).
Definition stm32h7_flash_erase p (f : target_flash) (addr len : Z) : MW Z :=
  let! ok := stm32h7_flash_unlock p addr in
  if negb ok then ret (-1) else
  do! wr32 p (regbase f + FLASH_ACR) 0 in
  let addr := Z.land addr (NUM_SECTOR_PER_BANK * FLASH_SECTOR_SIZE - 1) in
  let start_sector := addr / FLASH_SECTOR_SIZE in
  let end_sector := u32 (addr + len - 1) / FLASH_SECTOR_SIZE in
  iter (S (S (Z.to_nat (end_sector - start_sector)))) (erase_sector_body p f end_sector) start_sector.
Definition stm32h7_flash_write p (f : target_flash) (dest : Z) (src : list Z) : MW Z :=
  let! ok := stm32h7_flash_unlock p dest in
  if negb ok then ret (-1) else
  let cr := psize_of f * FLASH_CR_PSIZE16 in
  do! wr32 p (regbase f + FLASH_CR) cr in
  do! wr32 p (regbase f + FLASH_CR) (Z.lor cr FLASH_CR_PG) in
  do! target_mem_write (Some p) dest src in
  let! sr := while_busy polls p (regbase f + FLASH_SR) (fun v => flag v FLASH_SR_BSY) in
  match sr with
  | None => ret (-1)
  | Some sr =>
      if flag sr FLASH_SR_ERROR_MASK then ret (-1) else
      do! wr32 p (regbase f + FLASH_CR) 0 in
      ret 0
  end.

(** ** Mass erase, both banks at once *)
Definition start_bank p (bank cr : Z) : MW bool :=
  let! ok := stm32h7_flash_unlock p bank in
  if negb ok then ret false else do! wr32 p (fpec_of bank + FLASH_CR) cr in ret true.
(** The spinner goes on from bank to bank; None when the link failed. *)
Definition wait_bank_body p (bank : Z) (spinindex : Z) : MW (Z + option Z) :=
  let! sr := rd32 p (fpec_of bank + FLASH_SR) in
  if flag sr FLASH_SR_QW then
    do! tc_printf (Some p) (spinner spinindex) in
    let! e := target_check_error (Some p) in
    ret (if e : bool then inr None else inl (spinindex + 1))
  else ret (inr (Some spinindex)).
Definition wait_bank p (bank spinindex : Z) : MW (option Z) := iter polls (wait_bank_body p bank) spinindex.
Definition bank_good p (bank : Z) : MW bool :=
  let! sr := rd32 p (fpec_of bank + FLASH_SR) in ret (negb (flag sr FLASH_SR_ERROR_MASK)).
Definition if_bank {A} (c : bool) (dflt : A) (m : MW A) : MW A := if c then m else ret dflt.
Definition erase_banks p (do_bank1 do_bank2 : bool) (cr : Z) : MW bool :=
  let! ok := if_bank do_bank1 true (start_bank p BANK1_START cr) in
  if negb ok then ret false else
  let! ok := if_bank do_bank2 true (start_bank p BANK2_START cr) in
  if negb ok then ret false else
  let! i := if_bank do_bank1 (Some 0) (wait_bank p BANK1_START 0) in
  match i with
  | None => ret false
  | Some i =>
      let! i := if_bank do_bank2 (Some i) (wait_bank p BANK2_START i) in
      match i with
      | None => ret false
      | Some _ =>
          let! ok := if_bank do_bank1 true (bank_good p BANK1_START) in
          if negb ok then ret false else if_bank do_bank2 true (bank_good p BANK2_START)
      end
  end.
Definition stm32h7_cmd_erase p (bank_mask : Z) : MW bool :=
  let! t := load_target p in
  let psize := last_psize "stm32h7_flash_write" ALIGN_DWORD t in
  let cr := Z.lor (Z.lor (psize * FLASH_CR_PSIZE16) FLASH_CR_BER) FLASH_CR_START in
  let! result := erase_banks p (flag bank_mask 1) (flag bank_mask 2) cr in
  do! tc_printf (Some p) nl in
  ret result.
Definition stm32h7_cmd_erase_mass p (argv : list (list Z)) : MW bool :=
  do! tc_printf (Some p) (str "Erasing flash... This may take a few seconds.  ") in
  stm32h7_cmd_erase p 3.

(** ** Other commands *)
Definition stm32h7_uid p (argv : list (list Z)) : MW bool :=
  let! t := load_target p in
  let uid := if idcode t =? ID_STM32H7Bx then 0x08fff800 else 0x1ff1e800 in
  do! tc_printf (Some p) (str "0x") in
  do! for_each [0; 4; 8] (fun i =>
    let! val := rd32 p (uid + i) in
    for_each [24; 16; 8; 0] (fun sh => tc_printf (Some p) (fmt_X 2 (Z.land (Z.shiftr val sh) 0xff)))) in
  do! tc_printf (Some p) nl in
  ret true.
Definition crc_wait_body p (bank : Z) (_ : unit) : MW (unit + Z) :=
  let! sr := rd32 p (fpec_of bank + FLASH_SR) in
  if flag sr FLASH_SR_CRC_BUSY then
    let! e := target_check_error (Some p) in
    ret (if (e : bool) || flag sr FLASH_SR_ERROR_READ then inr (-1) else inl tt)
  else ret (inr 0).
Definition stm32h7_crc_bank p (bank : Z) : MW Z :=
  let! ok := stm32h7_flash_unlock p bank in
  if negb ok then ret (-1) else
  do! wr32 p (fpec_of bank + FLASH_CR) FLASH_CR_CRC_EN in
  let crccr := Z.lor (Z.lor FLASH_CRCCR_CRC_BURST_3 FLASH_CRCCR_CLEAN_CRC) FLASH_CRCCR_ALL_BANK in
  do! wr32 p (fpec_of bank + FLASH_CRCCR) crccr in
  do! wr32 p (fpec_of bank + FLASH_CRCCR) (Z.lor crccr FLASH_CRCCR_START_CRC) in
  iter polls (crc_wait_body p bank) tt.
Definition stm32h7_crc p (argv : list (list Z)) : MW bool :=
  let! r := stm32h7_crc_bank p BANK1_START in
  if negb (r =? 0) then ret false else
  let! crc1 := rd32 p (FPEC1_BASE + FLASH_CRCDATA) in
  let! r := stm32h7_crc_bank p BANK2_START in
  if negb (r =? 0) then ret false else
  let! crc2 := rd32 p (FPEC1_BASE + FLASH_CRCDATA) in
  do! tc_printf (Some p) (str "CRC: bank1 0x" ++ fmt_x 8 crc1 ++ str ", bank2 0x" ++ fmt_x 8 crc2 ++ nl) in
  ret true.
Definition stm32h7_cmd_psize p (argv : list (list Z)) : MW bool :=
  psize_command "stm32h7_flash_write" ALIGN_DWORD (str "usage: monitor psize (x8|x16|x32|x64)" ++ nl) p argv.
Definition device_text (dev_id rev_id : Z) : list (list Z) :=
  if dev_id =? 0x450 then [str "STM32H742/743/753/750" ++ nl; str "Revision " ++ [revision_of rev_id] ++ nl]
  else if dev_id =? 0x480 then [str "STM32H7B3/7A3/7B0" ++ nl]
  else if dev_id =? 0x483 then [str "STM32H723/733/725/735/730" ++ nl]
  else [str "Unknown STM32H7. This driver may not support it!" ++ nl].
Definition stm32h7_cmd_rev p (argv : list (list Z)) : MW bool :=
  let! dbgmcu_idc := rd32 p DBGMCU_IDC in
  do! for_each (device_text (Z.land dbgmcu_idc 0xFFF) (Z.land (Z.shiftr dbgmcu_idc 16) 0xFFFF)) (tc_printf (Some p)) in
  ret true.

Definition stm32h7_device : device D := {|
  dv_attach := fn_table [("stm32h7_attach"%string, stm32h7_attach)];
  dv_detach := fn_table [("stm32h7_detach"%string, stm32h7_detach)];
  dv_command := fn_table [("stm32h7_cmd_erase_mass"%string, stm32h7_cmd_erase_mass); ("stm32h7_cmd_psize"%string, stm32h7_cmd_psize);
                          ("stm32h7_uid"%string, stm32h7_uid); ("stm32h7_crc"%string, stm32h7_crc); ("stm32h7_cmd_rev"%string, stm32h7_cmd_rev)];
  dv_erase := fn_table [("stm32h7_flash_erase"%string, stm32h7_flash_erase)];
  dv_write := fn_table [("stm32h7_flash_write"%string, stm32h7_flash_write)];
  dv_done _ := None |}.
End Stm32h7.
