(* ===== verification/Stm32l0.v ===== *)
(** target/stm32l0.c: the STM32 L0 and L1 parts, with their program memory,
    their data EEPROM and their option bytes. *)

From Stdlib Require Import ZArith Lia String.
From stdpp Require Import base list numbers option gmap.
From S2P Require Import Prelude CLib GdbIf MemManager GdbPacket TargetState Target Command Cortexm FlashDev.

Definition STM32Lx_NVM_PECR (p : Z) : Z := p + 0x04.
Definition STM32Lx_NVM_PEKEYR (p : Z) : Z := p + 0x0C.
Definition STM32Lx_NVM_PRGKEYR (p : Z) : Z := p + 0x10.
Definition STM32Lx_NVM_OPTKEYR (p : Z) : Z := p + 0x14.
Definition STM32Lx_NVM_SR (p : Z) : Z := p + 0x18.
Definition STM32Lx_NVM_OPTR (p : Z) : Z := p + 0x1C.
Definition STM32L0_NVM_PHYS : Z := 0x40022000.
Definition STM32L0_NVM_OPT_SIZE : Z := 12.
Definition STM32L0_NVM_EEPROM_CAT1_SIZE : Z := 512.
Definition STM32L0_NVM_EEPROM_CAT2_SIZE : Z := 1024.
Definition STM32L0_NVM_EEPROM_CAT3_SIZE : Z := 2 * 1024.
Definition STM32L0_NVM_EEPROM_CAT5_SIZE : Z := 6 * 1024.
Definition STM32L1_NVM_PHYS : Z := 0x40023c00.
Definition STM32L1_NVM_OPT_SIZE : Z := 32.
Definition STM32L1_NVM_EEPROM_SIZE : Z := 16 * 1024.
Definition STM32Lx_NVM_OPT_PHYS : Z := 0x1ff80000.
Definition STM32Lx_NVM_EEPROM_PHYS : Z := 0x08080000.
Definition STM32Lx_NVM_PEKEY1 : Z := 0x89abcdef.
Definition STM32Lx_NVM_PEKEY2 : Z := 0x02030405.
Definition STM32Lx_NVM_PRGKEY1 : Z := 0x8c9daebf.
Definition STM32Lx_NVM_PRGKEY2 : Z := 0x13141516.
Definition STM32Lx_NVM_OPTKEY1 : Z := 0xfbead9c8.
Definition STM32Lx_NVM_OPTKEY2 : Z := 0x24252627.
Definition STM32Lx_NVM_PECR_OBL_LAUNCH : Z := 0x40000.
Definition STM32Lx_NVM_PECR_FPRG : Z := 0x400.
Definition STM32Lx_NVM_PECR_ERASE : Z := 0x200.
Definition STM32Lx_NVM_PECR_FIX : Z := 0x100.
Definition STM32Lx_NVM_PECR_DATA : Z := 0x10.
Definition STM32Lx_NVM_PECR_PROG : Z := 8.
Definition STM32Lx_NVM_PECR_OPTLOCK : Z := 4.
Definition STM32Lx_NVM_PECR_PRGLOCK : Z := 2.
Definition STM32Lx_NVM_PECR_PELOCK : Z := 1.
Definition STM32Lx_NVM_SR_EOP : Z := 2.
Definition STM32Lx_NVM_SR_BSY : Z := 1.
Definition STM32Lx_NVM_SR_ERR_M : Z := 0x10700.
Definition STM32L0_NVM_OPTR_BOOT1 : Z := 0x80000000.
Definition STM32Lx_NVM_OPTR_WDG_SW : Z := 0x100000.
Definition STM32L0_NVM_OPTR_WPRMOD : Z := 0x100.
Definition STM32Lx_NVM_OPTR_RDPROT_M : Z := 0xff.
Definition STM32Lx_NVM_OPTR_RDPROT_0 : Z := 0xaa.
Definition STM32Lx_NVM_OPTR_RDPROT_2 : Z := 0xcc.
Definition STM32L1_NVM_OPTR_nBFB2 : Z := 0x800000.
Definition STM32L1_NVM_OPTR_nRST_STDBY : Z := 0x400000.
Definition STM32L1_NVM_OPTR_nRST_STOP : Z := 0x200000.
Definition STM32L1_NVM_OPTR_BOR_LEV_S : Z := 16.
Definition STM32L1_NVM_OPTR_BOR_LEV_M : Z := 0xf.
Definition STM32L1_NVM_OPTR_SPRMOD : Z := 0x100.
Definition stm32lx_cmd_list : list command :=
  [cmd_entry "option" "stm32lx_cmd_option" "Manipulate option bytes";
   cmd_entry "eeprom" "stm32lx_cmd_eeprom" "Manipulate EEPROM(NVM data) memory"].

(** ** What a part has *)
Definition l0_ids : list Z := [0x457; 0x425; 0x417; 0x447].
Definition stm32lx_is_stm32l1 (idcode : Z) : bool := negb (existsb (Z.eqb idcode) l0_ids).
Definition stm32lx_nvm_eeprom_size (idcode : Z) : Z :=
  if idcode =? 0x457 then STM32L0_NVM_EEPROM_CAT1_SIZE
  else if idcode =? 0x425 then STM32L0_NVM_EEPROM_CAT2_SIZE
  else if idcode =? 0x417 then STM32L0_NVM_EEPROM_CAT3_SIZE
  else if idcode =? 0x447 then STM32L0_NVM_EEPROM_CAT5_SIZE
  else STM32L1_NVM_EEPROM_SIZE.
Definition stm32lx_nvm_phys (idcode : Z) : Z := if existsb (Z.eqb idcode) l0_ids then STM32L0_NVM_PHYS else STM32L1_NVM_PHYS.
Definition stm32lx_nvm_option_size (idcode : Z) : Z :=
  if existsb (Z.eqb idcode) l0_ids then STM32L0_NVM_OPT_SIZE else STM32L1_NVM_OPT_SIZE.
Definition has_all (v mask : Z) : bool := Z.land v mask =? mask.
(** A word abbreviated, in either case. *)
Definition abbrev (s : list Z) (word : string) : bool := prefixb (tolower <$> s) (str word).
Definition bit (v mask : Z) : list Z := fmt_d (Z.b2z (flag v mask)).

Section Stm32l0.
Context {D : Type} `{GdbIf D} `{MemIf D} `{Driver D} `{CortexmIf D}.
Notation MW := (M (world D)).
Variable polls : nat.
Implicit Type p : positive.
Local Notation rd32 p a := (target_mem_read32 (Some p) a).
Local Notation wr32 p a v := (target_mem_write32 (Some p) a v).

(** ** Probing *)
Definition stm32l_add_flash p (addr length erasesize : Z) : MW unit :=
  new_flash p (flash_region addr length erasesize (flash_fns "stm32lx_nvm_prog_erase" "stm32lx_nvm_prog_write") (erasesize / 2) 0).
Definition stm32l_add_eeprom p (addr length : Z) : MW unit :=
  new_flash p (flash_region addr length 4 (flash_fns "stm32lx_nvm_data_erase" "stm32lx_nvm_data_write") 0 0).
Definition stm32l0_probe p : MW bool :=
  let! t := load_target p in
  if existsb (Z.eqb (idcode t)) [0x416; 0x429; 0x427; 0x436; 0x437] then
    do! upd_target p (set_driver (str "STM32L1x")) in
    do! target_add_ram p 0x20000000 0x14000 in
    do! stm32l_add_flash p 0x8000000 0x80000 0x100 in
    do! target_add_commands p stm32lx_cmd_list (str "STM32L1x") in
    ret true
  else if existsb (Z.eqb (idcode t)) l0_ids then
    do! upd_target p (set_driver (str "STM32L0x")) in
    do! target_add_ram p 0x20000000 0x5000 in
    do! stm32l_add_flash p 0x8000000 0x10000 0x80 in
    do! stm32l_add_flash p 0x8010000 0x10000 0x80 in
    do! stm32l_add_flash p 0x8020000 0x10000 0x80 in
    do! stm32l_add_eeprom p 0x8080000 0x1800 in
    do! target_add_commands p stm32lx_cmd_list (str "STM32L0x") in
    ret true
  else ret false.

(** ** Locks *)
Definition nvm_of p : MW Z := let! t := load_target p in ret (stm32lx_nvm_phys (idcode t)).
Definition stm32lx_nvm_lock p (nvm : Z) : MW unit := wr32 p (STM32Lx_NVM_PECR nvm) STM32Lx_NVM_PECR_PELOCK.
(** The lock of PECR first, then a second one by its own keys. *)
Definition unlock_with p (nvm keyr key1 key2 lock : Z) : MW bool :=
  do! wr32 p (STM32Lx_NVM_PECR nvm) STM32Lx_NVM_PECR_PELOCK in
  do! wr32 p (STM32Lx_NVM_PEKEYR nvm) STM32Lx_NVM_PEKEY1 in
  do! wr32 p (STM32Lx_NVM_PEKEYR nvm) STM32Lx_NVM_PEKEY2 in
  do! wr32 p keyr key1 in
  do! wr32 p keyr key2 in
  let! pecr := rd32 p (STM32Lx_NVM_PECR nvm) in
  ret (negb (flag pecr lock)).
Definition stm32lx_nvm_prog_data_unlock p (nvm : Z) : MW bool :=
  unlock_with p nvm (STM32Lx_NVM_PRGKEYR nvm) STM32Lx_NVM_PRGKEY1 STM32Lx_NVM_PRGKEY2 STM32Lx_NVM_PECR_PRGLOCK.
Definition stm32lx_nvm_opt_unlock p (nvm : Z) : MW bool :=
  unlock_with p nvm (STM32Lx_NVM_OPTKEYR nvm) STM32Lx_NVM_OPTKEY1 STM32Lx_NVM_OPTKEY2 STM32Lx_NVM_PECR_OPTLOCK.

(** ** Program and data memory *)
Definition wait_idle p (nvm : Z) : MW Z := spin polls p (STM32Lx_NVM_SR nvm) (fun v => flag v STM32Lx_NVM_SR_BSY).
(** The lock, the wait for the last operation, and its result. *)
Definition finish p (nvm : Z) : MW Z :=
  do! stm32lx_nvm_lock p nvm in
  let! sr := wait_idle p nvm in
  if flag sr STM32Lx_NVM_SR_ERR_M || negb (flag sr STM32Lx_NVM_SR_EOP) then ret (-1) else
  let! e := target_check_error (Some p) in
  ret (if e : bool then -1 else 0).
(** A zero is written to the first word of each page. *)
Definition erase_page_body p (page_size : Z) (st : Z * Z) : MW (Z * Z + unit) :=
  let '(addr, len) := st in
  if len =? 0 then ret (inr tt) else
  do! wr32 p addr 0 in
  ret (inl (u32 (addr + page_size), if page_size <? len then len - page_size else 0)).
Definition erase_pages p (f : target_flash) (addr len : Z) : MW unit :=
  iter (S (S (Z.to_nat (len / blocksize f)))) (erase_page_body p (blocksize f)) (addr, len).
Definition stm32lx_nvm_prog_erase p (f : target_flash) (addr len : Z) : MW Z :=
  let! nvm := nvm_of p in
  let! ok := stm32lx_nvm_prog_data_unlock p nvm in
  if negb ok then ret (-1) else
  let mode := Z.lor STM32Lx_NVM_PECR_ERASE STM32Lx_NVM_PECR_PROG in
  do! wr32 p (STM32Lx_NVM_PECR nvm) mode in
  let! pecr := rd32 p (STM32Lx_NVM_PECR nvm) in
  if negb (has_all pecr mode) then ret (-1) else
  do! wr32 p (STM32Lx_NVM_SR nvm) STM32Lx_NVM_SR_ERR_M in
  do! erase_pages p f addr len in
  finish p nvm.
Definition stm32lx_nvm_prog_write p (f : target_flash) (dest : Z) (src : list Z) : MW Z :=
  let! nvm := nvm_of p in
  let! ok := stm32lx_nvm_prog_data_unlock p nvm in
  if negb ok then ret (-1) else
  let! sr := while_busy polls p (STM32Lx_NVM_SR nvm) (fun v => flag v STM32Lx_NVM_SR_BSY) in
  match sr with
  | None => ret (-1)
  | Some _ =>
      do! wr32 p (STM32Lx_NVM_PECR nvm) (Z.lor STM32Lx_NVM_PECR_PROG STM32Lx_NVM_PECR_FPRG) in
      do! target_mem_write (Some p) dest src in
      finish p nvm
  end.
Definition stm32lx_nvm_data_erase p (f : target_flash) (addr len : Z) : MW Z :=
  let! nvm := nvm_of p in
  let len := u32 (len + Z.land addr 3) in
  let addr := Z.land addr 0xfffffffc in
  let! ok := stm32lx_nvm_prog_data_unlock p nvm in
  if negb ok then ret (-1) else
  let mode := Z.lor STM32Lx_NVM_PECR_ERASE STM32Lx_NVM_PECR_DATA in
  do! wr32 p (STM32Lx_NVM_PECR nvm) mode in
  let! pecr := rd32 p (STM32Lx_NVM_PECR nvm) in
  if negb (has_all pecr mode) then ret (-1) else
  do! erase_pages p f addr len in
  finish p nvm.
(** Word by word: Some -1 when the link fails. *)
Fixpoint write_words p (n : nat) (dest : Z) (src : list Z) : MW (option Z) :=
  match n, src with
  | _, [] => ret None
  | O, _ => hang
  | S n', _ =>
      if zlen src <? 4 then crash OutOfBounds else
      do! wr32 p dest (le_val (take 4 src)) in
      let! e := target_check_error (Some p) in
      if e : bool then ret (Some (-1)) else write_words p n' (u32 (dest + 4)) (drop 4 src)
  end.
Definition data_mode (idcode : Z) : Z := if stm32lx_is_stm32l1 idcode then 0 else STM32Lx_NVM_PECR_DATA.
Definition stm32lx_nvm_data_write p (f : target_flash) (destination : Z) (src : list Z) : MW Z :=
  let! t := load_target p in
  let nvm := stm32lx_nvm_phys (idcode t) in
  let! ok := stm32lx_nvm_prog_data_unlock p nvm in
  if negb ok then ret (-1) else
  do! wr32 p (STM32Lx_NVM_PECR nvm) (data_mode (idcode t)) in
  let! r := write_words p (length src) destination src in
  match r with Some r => ret r | None => finish p nvm end.

(** ** Options and EEPROM, a word at a time *)
Definition stm32lx_option_write p (address value : Z) : MW bool :=
  let! nvm := nvm_of p in
  do! wr32 p (STM32Lx_NVM_PECR nvm) STM32Lx_NVM_PECR_FIX in
  do! wr32 p address value in
  let! sr := wait_idle p nvm in
  ret (negb (flag sr STM32Lx_NVM_SR_ERR_M)).
Definition stm32lx_eeprom_write p (address cb value : Z) : MW bool :=
  let! t := load_target p in
  let nvm := stm32lx_nvm_phys (idcode t) in
  do! wr32 p (STM32Lx_NVM_SR nvm) STM32Lx_NVM_SR_ERR_M in
  do! wr32 p (STM32Lx_NVM_PECR nvm) (Z.lor (data_mode (idcode t)) STM32Lx_NVM_PECR_FIX) in
  let done m := do! m in let! sr := wait_idle p nvm in ret (negb (flag sr STM32Lx_NVM_SR_ERR_M)) in
  if cb =? 4 then done (wr32 p address value)
  else if cb =? 2 then done (target_mem_write16 (Some p) address (u16 value))
  else if cb =? 1 then done (target_mem_write8 (Some p) address (u8 value))
  else ret false.

(** ** Commands *)
Definition rdprot_level (optr : Z) : Z :=
  let rdprot := Z.land optr STM32Lx_NVM_OPTR_RDPROT_M in
  if rdprot =? STM32Lx_NVM_OPTR_RDPROT_0 then 0 else if rdprot =? STM32Lx_NVM_OPTR_RDPROT_2 then 2 else 1.
Definition optr_text (l1 : bool) (optr : Z) : list Z :=
  let head := str "OPTR: 0x" ++ fmt_x 8 optr in
  if l1 then
    head ++ str ", RDPRT " ++ fmt_d (rdprot_level optr) ++ str ", SPRMD " ++ bit optr STM32L1_NVM_OPTR_SPRMOD
    ++ str ", BOR " ++ fmt_d (Z.land (Z.shiftr optr STM32L1_NVM_OPTR_BOR_LEV_S) STM32L1_NVM_OPTR_BOR_LEV_M)
    ++ str ", WDG_SW " ++ bit optr STM32Lx_NVM_OPTR_WDG_SW ++ str ", nRST_STP " ++ bit optr STM32L1_NVM_OPTR_nRST_STOP
    ++ str ", nRST_STBY " ++ bit optr STM32L1_NVM_OPTR_nRST_STDBY ++ str ", nBFB2 " ++ bit optr STM32L1_NVM_OPTR_nBFB2 ++ nl
  else
    head ++ str ", RDPROT " ++ fmt_d (rdprot_level optr) ++ str ", WPRMOD " ++ bit optr STM32L0_NVM_OPTR_WPRMOD
    ++ str ", WDG_SW " ++ bit optr STM32Lx_NVM_OPTR_WDG_SW ++ str ", BOOT1 " ++ bit optr STM32L0_NVM_OPTR_BOOT1 ++ nl.
Definition halves_ok (val : Z) : bool := Z.land val 0xffff =? Z.land (Z.shiftr (u32 (Z.lnot val)) 16) 0xffff.
Definition report_options p (nvm opt_size : Z) : MW unit :=
  let! t := load_target p in
  do! for_each (seqZ 0 (opt_size / 4)) (fun i =>
    let addr := STM32Lx_NVM_OPT_PHYS + 4 * i in
    let! val := rd32 p addr in
    tc_printf (Some p) (str "0x" ++ fmt_x 8 addr ++ str ": 0x" ++ fmt_x 4 (Z.land val 0xffff) ++ str " 0x"
      ++ fmt_x 4 (Z.land (Z.shiftr val 16) 0xffff) ++ str " " ++ (if halves_ok val then str "OK" else str "ERR") ++ nl)) in
  let! optr := rd32 p (STM32Lx_NVM_OPTR nvm) in
  tc_printf (Some p) (optr_text (stm32lx_is_stm32l1 (idcode t)) optr).
Definition option_usage p (opt_size : Z) : MW unit :=
  for_each [str "usage: monitor option [ARGS]" ++ nl;
            str "  show                   - Show options in NVM and as loaded" ++ nl;
            str "  obl_launch             - Reload options from NVM" ++ nl;
            str "  write <addr> <value16> - Set option half-word; complement computed" ++ nl;
            str "  raw <addr> <value32>   - Set option word" ++ nl;
            str "The value of <addr> must be word aligned and from 0x" ++ fmt_x 8 STM32Lx_NVM_OPT_PHYS ++ str " to +0x"
              ++ fmt_x 1 (STM32Lx_NVM_OPT_PHYS + opt_size - 4) ++ nl] (tc_printf (Some p)).
Definition option_addr_ok (addr opt_size : Z) : bool :=
  (STM32Lx_NVM_OPT_PHYS <=? addr) && (addr <? STM32Lx_NVM_OPT_PHYS + opt_size) && (Z.land addr 3 =? 0).
(** Whether the usage is to be shown rather than the options. *)
Definition set_option p (opt_size : Z) (what : list Z) (addr val : Z) : MW bool :=
  do! tc_printf (Some p) (what ++ str " " ++ fmt_x 8 addr ++ str " <- " ++ fmt_x 8 val ++ nl) in
  if negb (option_addr_ok addr opt_size) then ret true else
  let! ok := stm32lx_option_write p addr val in
  do! when (negb ok) (tc_printf (Some p) (str "option write failed" ++ nl)) in
  ret false.
Definition with_complement (val : Z) : Z := Z.lor (Z.land val 0xffff) (u32 (Z.shiftl (Z.land (u32 (Z.lnot val)) 0xffff) 16)).
Definition option_action p (nvm opt_size : Z) (argv : list (list Z)) : MW bool :=
  match argv with
  | [_; a1] =>
      do! when (abbrev a1 "obl_launch") (wr32 p (STM32Lx_NVM_PECR nvm) STM32Lx_NVM_PECR_OBL_LAUNCH) in ret false
  | [_; a1; a2; a3] =>
      let addr := strtoul0 a2 in
      let val := strtoul0 a3 in
      if abbrev a1 "raw" then set_option p opt_size (str "raw") addr val
      else if abbrev a1 "write" then set_option p opt_size (str "write") addr (with_complement val)
      else ret false
  | _ :: _ :: _ => ret false
  | _ => ret true
  end.
Definition stm32lx_cmd_option p (argv : list (list Z)) : MW bool :=
  let! t := load_target p in
  let nvm := stm32lx_nvm_phys (idcode t) in
  let opt_size := stm32lx_nvm_option_size (idcode t) in
  let! ok := stm32lx_nvm_opt_unlock p nvm in
  if negb ok then do! tc_printf (Some p) (str "unable to unlock NVM option bytes" ++ nl) in ret true else
  let! usage := option_action p nvm opt_size argv in
  do! (if usage : bool then option_usage p opt_size else report_options p nvm opt_size) in
  do! stm32lx_nvm_lock p nvm in
  ret true.

Definition eeprom_usage p (size : Z) : MW unit :=
  for_each [str "usage: monitor eeprom [ARGS]" ++ nl;
            str "  byte     <addr> <value8>  - Write a byte" ++ nl;
            str "  halfword <addr> <value16> - Write a half-word" ++ nl;
            str "  word     <addr> <value32> - Write a word" ++ nl;
            str "The value of <addr> must in the interval [0x" ++ fmt_x 8 STM32Lx_NVM_EEPROM_PHYS ++ str ", 0x"
              ++ fmt_x 1 (STM32Lx_NVM_EEPROM_PHYS + size) ++ str ")" ++ nl] (tc_printf (Some p)).
(** [n] bytes of the value, at an address that is a multiple of [n]. *)
Definition set_eeprom p (what : list Z) (n digits addr val : Z) : MW bool :=
  do! tc_printf (Some p) (str "write " ++ what ++ str " 0x" ++ fmt_x 8 addr ++ str " <- 0x" ++ fmt_x (Z.to_nat digits) val ++ nl) in
  if negb (Z.land addr (n - 1) =? 0) then ret true else
  let! ok := stm32lx_eeprom_write p addr n val in
  do! when (negb ok) (tc_printf (Some p) (str "eeprom write failed" ++ nl)) in
  ret false.
Definition eeprom_action p (size : Z) (argv : list (list Z)) : MW bool :=
  match argv with
  | [_; a1; a2; a3] =>
      let addr := strtoul0 a2 in
      let val := strtoul0 a3 in
      if (addr <? STM32Lx_NVM_EEPROM_PHYS) || (STM32Lx_NVM_EEPROM_PHYS + size <=? addr) then ret true
      else if abbrev a1 "byte" then set_eeprom p (str "byte") 1 8 addr val
      else if abbrev a1 "halfword" then set_eeprom p (str "halfword") 2 4 addr (Z.land val 0xffff)
      else if abbrev a1 "word" then set_eeprom p (str "word") 4 8 addr val
      else ret true
  | _ => ret true
  end.
Definition stm32lx_cmd_eeprom p (argv : list (list Z)) : MW bool :=
  let! t := load_target p in
  let nvm := stm32lx_nvm_phys (idcode t) in
  let size := stm32lx_nvm_eeprom_size (idcode t) in
  let! ok := stm32lx_nvm_prog_data_unlock p nvm in
  if negb ok then do! tc_printf (Some p) (str "unable to unlock EEPROM" ++ nl) in ret true else
  do! deref (argv !! 1%nat) in
  let! usage := eeprom_action p size argv in
  do! when usage (eeprom_usage p size) in
  do! stm32lx_nvm_lock p nvm in
  ret true.

Definition stm32l0_device : device D := {|
  dv_attach _ := None; dv_detach _ := None;
  dv_command := fn_table [("stm32lx_cmd_option"%string, stm32lx_cmd_option); ("stm32lx_cmd_eeprom"%string, stm32lx_cmd_eeprom)];
  dv_erase := fn_table [("stm32lx_nvm_prog_erase"%string, stm32lx_nvm_prog_erase); ("stm32lx_nvm_data_erase"%string, stm32lx_nvm_data_erase)];
  dv_write := fn_table [("stm32lx_nvm_prog_write"%string, stm32lx_nvm_prog_write); ("stm32lx_nvm_data_write"%string, stm32lx_nvm_data_write)];
  dv_done _ := None |}.
End Stm32l0.
