(* ===== verification/Sam3x.v ===== *)
(** target/sam3x.c: the Atmel SAM3N, SAM3S, SAM3U, SAM3X and SAM4S parts. *)

From Stdlib Require Import ZArith Lia String.
From stdpp Require Import base list numbers option gmap.
From S2P Require Import Prelude CLib GdbIf MemManager GdbPacket TargetState Target Command Cortexm FlashDev.

Definition sam3x_cmd_list : list command :=
  [cmd_entry "gpnvm_get" "sam3x_cmd_gpnvm_get" "Get GPVNM value";
   cmd_entry "gpnvm_set" "sam3x_cmd_gpnvm_set" "Set GPVNM bit"].
Definition SAM3N_EEFC_BASE : Z := 0x400E0A00.
Definition SAM3X_EEFC_BASE (x : Z) : Z := 0x400E0A00 + x * 0x200.
Definition SAM3U_EEFC_BASE (x : Z) : Z := 0x400E0800 + x * 0x200.
Definition SAM4S_EEFC_BASE (x : Z) : Z := 0x400E0A00 + x * 0x200.
Definition EEFC_FCR (base : Z) : Z := base + 0x04.
Definition EEFC_FSR (base : Z) : Z := base + 0x08.
Definition EEFC_FRR (base : Z) : Z := base + 0x0C.
Definition EEFC_FCR_FKEY : Z := 0x5A000000.
Definition EEFC_FCR_FCMD_WP : Z := 0x01.
Definition EEFC_FCR_FCMD_EWP : Z := 0x03.
Definition EEFC_FCR_FCMD_EPA : Z := 0x07.
Definition EEFC_FCR_FCMD_SGPB : Z := 0x0B.
Definition EEFC_FCR_FCMD_CGPB : Z := 0x0C.
Definition EEFC_FCR_FCMD_GGPB : Z := 0x0D.
Definition EEFC_FSR_FRDY : Z := 1.
Definition EEFC_FSR_FCMDE : Z := 2.
Definition EEFC_FSR_FLOCKE : Z := 4.
Definition EEFC_FSR_ERROR : Z := Z.lor EEFC_FSR_FCMDE EEFC_FSR_FLOCKE.
Definition SAM3X_CHIPID_CIDR : Z := 0x400E0940.
Definition SAM34NSU_CHIPID_CIDR : Z := 0x400E0740.
Definition CHIPID_CIDR_EPROC_CM3 : Z := 0x60.
Definition CHIPID_CIDR_EPROC_CM4 : Z := 0xE0.
Definition CHIPID_CIDR_EPROC_MASK : Z := 0xE0.
Definition CHIPID_CIDR_NVPSIZ_MASK : Z := 0xF00.
Definition CHIPID_CIDR_NVPSIZ_8K : Z := 0x100.
Definition CHIPID_CIDR_NVPSIZ_16K : Z := 0x200.
Definition CHIPID_CIDR_NVPSIZ_32K : Z := 0x300.
Definition CHIPID_CIDR_NVPSIZ_64K : Z := 0x500.
Definition CHIPID_CIDR_NVPSIZ_128K : Z := 0x700.
Definition CHIPID_CIDR_NVPSIZ_256K : Z := 0x900.
Definition CHIPID_CIDR_NVPSIZ_512K : Z := 0xA00.
Definition CHIPID_CIDR_NVPSIZ_1024K : Z := 0xC00.
Definition CHIPID_CIDR_NVPSIZ_2048K : Z := 0xE00.
Definition CHIPID_CIDR_ARCH_MASK : Z := 0xFF00000.
Definition CHIPID_CIDR_ARCH_SAM3UxC : Z := 0x8000000.
Definition CHIPID_CIDR_ARCH_SAM3UxE : Z := 0x8100000.
Definition CHIPID_CIDR_ARCH_SAM3XxC : Z := 0x8400000.
Definition CHIPID_CIDR_ARCH_SAM3XxE : Z := 0x8500000.
Definition CHIPID_CIDR_ARCH_SAM3XxG : Z := 0x8600000.
Definition CHIPID_CIDR_ARCH_SAM3NxA : Z := 0x9300000.
Definition CHIPID_CIDR_ARCH_SAM3NxB : Z := 0x9400000.
Definition CHIPID_CIDR_ARCH_SAM3NxC : Z := 0x9500000.
Definition CHIPID_CIDR_ARCH_SAM3SxA : Z := 0x8800000.
Definition CHIPID_CIDR_ARCH_SAM3SxB : Z := 0x8900000.
Definition CHIPID_CIDR_ARCH_SAM3SxC : Z := 0x8A00000.
Definition CHIPID_CIDR_ARCH_SAM4SxA : Z := 0x8800000.
Definition CHIPID_CIDR_ARCH_SAM4SxB : Z := 0x8900000.
Definition CHIPID_CIDR_ARCH_SAM4SxC : Z := 0x8A00000.
Definition CHIPID_CIDR_ARCH_SAM4SDB : Z := 0x9900000.
Definition CHIPID_CIDR_ARCH_SAM4SDC : Z := 0x9A00000.
Definition SAM3_PAGE_SIZE : Z := 256.
Definition SAM4_PAGE_SIZE : Z := 512.

(** A region knows its controller and the command that programs a page. *)
Definition sizeof_sam_flash : Z := sizeof_target_flash + 8.
Definition eefc_base (f : target_flash) : Z := extra 0 f.
Definition write_cmd (f : target_flash) : Z := extra 1 f.

Definition sam_flash_size (cidr : Z) : Z :=
  let n := Z.land cidr CHIPID_CIDR_NVPSIZ_MASK in
  if n =? CHIPID_CIDR_NVPSIZ_8K then 0x2000
  else if n =? CHIPID_CIDR_NVPSIZ_16K then 0x4000
  else if n =? CHIPID_CIDR_NVPSIZ_32K then 0x8000
  else if n =? CHIPID_CIDR_NVPSIZ_64K then 0x10000
  else if n =? CHIPID_CIDR_NVPSIZ_128K then 0x20000
  else if n =? CHIPID_CIDR_NVPSIZ_256K then 0x40000
  else if n =? CHIPID_CIDR_NVPSIZ_512K then 0x80000
  else if n =? CHIPID_CIDR_NVPSIZ_1024K then 0x100000
  else if n =? CHIPID_CIDR_NVPSIZ_2048K then 0x200000
  else 0.
(** The architecture and the processor of a chip identity, against a list. *)
Definition is_arch (cidr proc : Z) (archs : list Z) : bool :=
  existsb (fun a => Z.land cidr (Z.lor CHIPID_CIDR_ARCH_MASK CHIPID_CIDR_EPROC_MASK) =? Z.lor a proc) archs.
Definition sam3x_archs : list Z := [CHIPID_CIDR_ARCH_SAM3XxC; CHIPID_CIDR_ARCH_SAM3XxE; CHIPID_CIDR_ARCH_SAM3XxG].
Definition sam3ns_archs : list Z :=
  [CHIPID_CIDR_ARCH_SAM3NxA; CHIPID_CIDR_ARCH_SAM3NxB; CHIPID_CIDR_ARCH_SAM3NxC;
   CHIPID_CIDR_ARCH_SAM3SxA; CHIPID_CIDR_ARCH_SAM3SxB; CHIPID_CIDR_ARCH_SAM3SxC].
Definition sam3u_archs : list Z := [CHIPID_CIDR_ARCH_SAM3UxC; CHIPID_CIDR_ARCH_SAM3UxE].
Definition sam4s_archs : list Z :=
  [CHIPID_CIDR_ARCH_SAM4SxA; CHIPID_CIDR_ARCH_SAM4SxB; CHIPID_CIDR_ARCH_SAM4SxC; CHIPID_CIDR_ARCH_SAM4SDB; CHIPID_CIDR_ARCH_SAM4SDC].

Section Sam3x.
Context {D : Type} `{GdbIf D} `{MemIf D} `{Driver D}.
Notation MW := (M (world D)).
Variable polls : nat.
Implicit Type p : positive.

(** ** Probing *)
Definition sam3_add_flash p (base addr length : Z) : MW unit :=
  new_flash_of sizeof_sam_flash p
    (with_extra [base; EEFC_FCR_FCMD_EWP]
      (flash_region addr length SAM3_PAGE_SIZE (flash_fns "sam3_flash_erase" "sam3x_flash_write") SAM3_PAGE_SIZE 0)).
Definition sam4_add_flash p (base addr length : Z) : MW unit :=
  new_flash_of sizeof_sam_flash p
    (with_extra [base; EEFC_FCR_FCMD_WP]
      (flash_region addr length (SAM4_PAGE_SIZE * 8) (flash_fns "sam4_flash_erase" "sam3x_flash_write") SAM4_PAGE_SIZE 0)).
Definition sam3x_probe p : MW bool :=
  let! cidr := target_mem_read32 (Some p) SAM3X_CHIPID_CIDR in
  if is_arch cidr CHIPID_CIDR_EPROC_CM3 sam3x_archs then
    let size := sam_flash_size cidr in
    do! upd_target p (set_driver (str "Atmel SAM3X")) in
    do! target_add_ram p 0x20000000 0x200000 in
    do! sam3_add_flash p (SAM3X_EEFC_BASE 0) 0x80000 (size / 2) in
    do! sam3_add_flash p (SAM3X_EEFC_BASE 1) (0x80000 + size / 2) (size / 2) in
    do! target_add_commands p sam3x_cmd_list (str "SAM3X") in
    ret true
  else
  let! cidr := target_mem_read32 (Some p) SAM34NSU_CHIPID_CIDR in
  let size := sam_flash_size cidr in
  if is_arch cidr CHIPID_CIDR_EPROC_CM3 sam3ns_archs then
    do! upd_target p (set_driver (str "Atmel SAM3N/S")) in
    do! target_add_ram p 0x20000000 0x200000 in
    do! sam3_add_flash p SAM3N_EEFC_BASE 0x400000 size in
    do! target_add_commands p sam3x_cmd_list (str "SAM3N/S") in
    ret true
  else if is_arch cidr CHIPID_CIDR_EPROC_CM3 sam3u_archs then
    do! upd_target p (set_driver (str "Atmel SAM3U")) in
    do! target_add_ram p 0x20000000 0x200000 in
    do! sam3_add_flash p (SAM3U_EEFC_BASE 0) 0x80000 (Z.min size 0x80000) in
    do! when (0x80000 <=? size) (sam3_add_flash p (SAM3U_EEFC_BASE 1) 0x100000 0x80000) in
    do! target_add_commands p sam3x_cmd_list (str "SAM3U") in
    ret true
  else if is_arch cidr CHIPID_CIDR_EPROC_CM4 sam4s_archs then
    do! upd_target p (set_driver (str "Atmel SAM4S")) in
    do! target_add_ram p 0x20000000 0x400000 in
    do! (if size <=? 0x80000 then sam4_add_flash p (SAM4S_EEFC_BASE 0) 0x400000 size
         else do! sam4_add_flash p (SAM4S_EEFC_BASE 0) 0x400000 (size / 2) in
              sam4_add_flash p (SAM4S_EEFC_BASE 1) (0x400000 + size / 2) (size / 2)) in
    do! target_add_commands p sam3x_cmd_list (str "SAM4S") in
    ret true
  else ret false.

(** ** Flash *)

(** 0, the error flags of the status, or -1. *)
Definition sam3x_flash_cmd p (base cmd arg : Z) : MW Z :=
  do! target_mem_write32 (Some p) (EEFC_FCR base) (Z.lor (Z.lor EEFC_FCR_FKEY cmd) (Z.shiftl arg 8)) in
  let! v := while_busy polls p (EEFC_FSR base) (fun v => negb (flag v EEFC_FSR_FRDY)) in
  match v with
  | None => ret (-1)
  | Some _ => let! sr := target_mem_read32 (Some p) (EEFC_FSR base) in ret (Z.land sr EEFC_FSR_ERROR)
  end.
Definition sam3x_flash_base p : MW Z :=
  let! t := load_target p in
  ret (if eqb_str (default [] (driver t)) (str "Atmel SAM3X") then SAM3X_EEFC_BASE 0
       else if eqb_str (default [] (driver t)) (str "Atmel SAM3U") then SAM3U_EEFC_BASE 0
       else if eqb_str (default [] (driver t)) (str "Atmel SAM4S") then SAM4S_EEFC_BASE 0
       else SAM3N_EEFC_BASE).
(** The argument of the command is kept in an int16_t and passed as uint16_t. *)
Definition erase_chunk_body p (f : target_flash) (st : Z * Z) : MW (Z * Z + Z) :=
  let '(chunk, len) := st in
  if len =? 0 then ret (inr 0) else
  let! r := sam3x_flash_cmd p (eefc_base f) EEFC_FCR_FCMD_EPA (u16 (Z.lor chunk 1)) in
  ret (if negb (r =? 0) then inr (-1)
       else inl (u32 (chunk + 8), if blocksize f <? len then len - blocksize f else 0)).
Definition chunk_rounds (f : target_flash) (len : Z) : nat := S (S (Z.to_nat (len / blocksize f))).
Definition sam4_flash_erase p (f : target_flash) (addr len : Z) : MW Z :=
  iter (chunk_rounds f len) (erase_chunk_body p f) (u32 (addr - f_start f) / SAM4_PAGE_SIZE, len).
Definition sam3_flash_erase p (f : target_flash) (addr len : Z) : MW Z := ret 0.
Definition sam3x_flash_write p (f : target_flash) (dest : Z) (src : list Z) : MW Z :=
  if buf_size f =? 0 then crash DivByZero else
  let chunk := u32 (dest - f_start f) / buf_size f in
  do! target_mem_write (Some p) dest src in
  let! r := sam3x_flash_cmd p (eefc_base f) (write_cmd f) (u16 chunk) in
  ret (if negb (r =? 0) then -1 else 0).

(** ** Commands *)
Definition sam3x_cmd_gpnvm_get p (argv : list (list Z)) : MW bool :=
  let! base := sam3x_flash_base p in
  do! sam3x_flash_cmd p base EEFC_FCR_FCMD_GGPB 0 in
  let! v := target_mem_read32 (Some p) (EEFC_FRR base) in
  do! tc_printf (Some p) (str "GPNVM: 0x" ++ fmt_X 8 v ++ nl) in
  ret true.
Definition sam3x_cmd_gpnvm_set p (argv : list (list Z)) : MW bool :=
  let! base := sam3x_flash_base p in
  match argv with
  | [_; b; v] =>
      let cmd := if strtol 10 v =? 0 then EEFC_FCR_FCMD_CGPB else EEFC_FCR_FCMD_SGPB in
      do! sam3x_flash_cmd p base cmd (u16 (strtol 10 b)) in
      do! sam3x_cmd_gpnvm_get p [] in
      ret true
  | _ => do! tc_printf (Some p) (str "usage: monitor gpnvm_set <bit> <val>" ++ nl) in ret false
  end.
Definition sam3x_device : device D := {|
  dv_attach _ := None; dv_detach _ := None;
  dv_command := fn_table [("sam3x_cmd_gpnvm_get"%string, sam3x_cmd_gpnvm_get); ("sam3x_cmd_gpnvm_set"%string, sam3x_cmd_gpnvm_set)];
  dv_erase := fn_table [("sam3_flash_erase"%string, sam3_flash_erase); ("sam4_flash_erase"%string, sam4_flash_erase)];
  dv_write := fn_table [("sam3x_flash_write"%string, sam3x_flash_write)];
  dv_done _ := None |}.
End Sam3x.
