(* ===== verification/Sam4l.v ===== *)
(** target/sam4l.c: the Atmel SAM4L parts. *)

From Stdlib Require Import ZArith Lia String.
From stdpp Require Import base list numbers option gmap.
From S2P Require Import Prelude CLib GdbIf MemManager GdbPacket TargetState Target Cortexm FlashDev.

Definition FLASHCALW_BASE : Z := 0x400a0000.
Definition FLASHCALW_FCMD : Z := FLASHCALW_BASE + 0x04.
Definition FLASHCALW_FCMD_CMD_MASK : Z := 0x3f.
Definition FLASHCALW_FCMD_PAGEN_MASK : Z := 0xffff.
Definition FLASHCALW_FCMD_PAGEN_SHIFT : Z := 8.
Definition FLASHCALW_FCMD_KEY_SHIFT : Z := 24.
Definition FLASH_CMD_WP : Z := 1.
Definition FLASH_CMD_EP : Z := 2.
Definition FLASH_CMD_CPB : Z := 3.
Definition FLASHCALW_FSR : Z := FLASHCALW_BASE + 0x08.
Definition FLASHCALW_FSR_FRDY : Z := 1.
Definition SAM4L_PAGE_SIZE : Z := 512.
Definition SAM4L_ARCH : Z := 0xb0.
Definition SAM4L_CHIPID_CIDR : Z := 0x400E0740.
Definition CHIPID_CIDR_ARCH_MASK : Z := 0xff.
Definition CHIPID_CIDR_ARCH_SHIFT : Z := 20.
Definition CHIPID_CIDR_SRAMSIZ_MASK : Z := 0xf.
Definition CHIPID_CIDR_SRAMSIZ_SHIFT : Z := 16.
Definition CHIPID_CIDR_NVPSIZ_MASK : Z := 0xf.
Definition CHIPID_CIDR_NVPSIZ_SHIFT : Z := 8.
Definition FLASH_TIMEOUT : Z := 10000.
Definition SMAP_BASE : Z := 0x400a3000.
Definition SMAP_CR : Z := SMAP_BASE + 0x00.
Definition SMAP_SR : Z := SMAP_BASE + 0x04.
Definition SMAP_SR_HCR : Z := 2.
Definition SMAP_SCR : Z := SMAP_BASE + 0x08.
(** The sizes by their codes, in KiB in the source's comments. *)
Definition __ram_size : list Z :=
  [48 * 1024; 1 * 1024; 2 * 1024; 6 * 1024; 24 * 1024; 4 * 1024; 80 * 1024; 160 * 1024;
   8 * 1024; 16 * 1024; 32 * 1024; 64 * 1024; 128 * 1024; 256 * 1024; 96 * 1024; 512 * 1024].
Definition __nvp_size : list Z :=
  [0; 8 * 1024; 16 * 1024; 32 * 1024; 0; 64 * 1024; 0; 128 * 1024; 0; 256 * 1024; 512 * 1024; 0; 1024 * 1024; 0; 2048 * 1024; 0].
Definition field (v shift mask : Z) : Z := Z.land (Z.shiftr v shift) mask.
Definition sam_ram_size (cidr : Z) : Z :=
  nth (Z.to_nat (field cidr CHIPID_CIDR_SRAMSIZ_SHIFT CHIPID_CIDR_SRAMSIZ_MASK)) __ram_size 0.
Definition sam_nvp_size (cidr : Z) : Z :=
  nth (Z.to_nat (field cidr CHIPID_CIDR_NVPSIZ_SHIFT CHIPID_CIDR_NVPSIZ_MASK)) __nvp_size 0.

Section Sam4l.
Context {D : Type} `{GdbIf D} `{MemIf D} `{Driver D}.
Notation MW := (M (world D)).
Implicit Type p : positive.
Local Notation rd32 p a := (target_mem_read32 (Some p) a).
Local Notation wr32 p a v := (target_mem_write32 (Some p) a v).

Definition sam4l_add_flash p (addr length : Z) : MW unit :=
  new_flash p (flash_region addr length SAM4L_PAGE_SIZE (flash_fns "sam4l_flash_erase" "sam4l_flash_write_buf") SAM4L_PAGE_SIZE 0xff).
(** The core out of reset: the status is read 250 times, whatever it says. *)
Definition sam4l_extended_reset p : MW unit :=
  do! wr32 p SMAP_CR 1 in
  let! reg := rd32 p SMAP_SR in
  do! when (flag reg SMAP_SR_HCR)
        (do! wr32 p SMAP_SCR SMAP_SR_HCR in
         for_each (seq 0 250) (fun _ => do! rd32 p SMAP_SR in ret tt)) in
  do! target_check_error (Some p) in
  ret tt.
Definition sam4l_probe p : MW bool :=
  let! cidr := rd32 p SAM4L_CHIPID_CIDR in
  if field cidr CHIPID_CIDR_ARCH_SHIFT CHIPID_CIDR_ARCH_MASK =? SAM4L_ARCH then
    do! upd_target p (set_driver (str "Atmel SAM4L")) in
    do! upd_target p (fun t => set_reset_methods (m_reset t) (Fdev "sam4l_extended_reset") (m_halt_resume t) t) in
    do! target_add_ram p 0x20000000 (sam_ram_size cidr) in
    do! sam4l_add_flash p 0 (sam_nvp_size cidr) in
    do! sam4l_extended_reset p in
    do! target_check_error (Some p) in
    ret true
  else ret false.

(** ** Flash *)

(** At most [n] reads of the status until the controller is ready. *)
Fixpoint wait_ready p (n : nat) : MW bool :=
  match n with
  | O => ret false
  | S n' => let! status := rd32 p FLASHCALW_FSR in
            if flag status FLASHCALW_FSR_FRDY then ret true else wait_ready p n'
  end.
Definition command_word (page cmd : Z) : Z :=
  Z.lor (Z.lor (Z.land cmd FLASHCALW_FCMD_CMD_MASK) (Z.shiftl (Z.land page FLASHCALW_FCMD_PAGEN_MASK) FLASHCALW_FCMD_PAGEN_SHIFT))
        (Z.shiftl 0xA5 FLASHCALW_FCMD_KEY_SHIFT).
Definition sam4l_flash_command p (page cmd : Z) : MW Z :=
  let! ok := wait_ready p (Z.to_nat FLASH_TIMEOUT) in
  if negb ok then ret (-1) else
  do! wr32 p FLASHCALW_FCMD (command_word page cmd) in
  ret 0.
Definition sam4l_flash_write_buf p (f : target_flash) (addr : Z) (src : list Z) : MW Z :=
  if negb (zlen src =? SAM4L_PAGE_SIZE) then ret (-1) else
  let! r := sam4l_flash_command p 0 FLASH_CMD_CPB in
  if negb (r =? 0) then ret (-1) else
  do! for_each (seq 0 128) (fun i => wr32 p (u32 (addr + 4 * Z.of_nat i)) (le_val (take 4 (drop (4 * i) src)))) in
  let! r := sam4l_flash_command p (u16 (addr / SAM4L_PAGE_SIZE)) FLASH_CMD_WP in
  ret (if negb (r =? 0) then -1 else 0).
Definition erase_page_body p (st : Z * Z) : MW (Z * Z + Z) :=
  let '(addr, len) := st in
  if len =? 0 then ret (inr 0) else
  let! r := sam4l_flash_command p (u16 (addr / SAM4L_PAGE_SIZE)) FLASH_CMD_EP in
  ret (if negb (r =? 0) then inr (-1)
       else inl (u32 (addr + SAM4L_PAGE_SIZE), if SAM4L_PAGE_SIZE <? len then len - SAM4L_PAGE_SIZE else 0)).
Definition page_rounds (len : Z) : nat := S (S (Z.to_nat (len / SAM4L_PAGE_SIZE))).
Definition sam4l_flash_erase p (f : target_flash) (addr len : Z) : MW Z :=
  iter (page_rounds len) (erase_page_body p) (addr, len).
Definition sam4l_device : device D := {|
  dv_attach _ := None; dv_detach _ := None; dv_command _ := None;
  dv_erase := fn_table [("sam4l_flash_erase"%string, sam4l_flash_erase)];
  dv_write := fn_table [("sam4l_flash_write_buf"%string, sam4l_flash_write_buf)];
  dv_done _ := None |}.
End Sam4l.
