(* ===== verification/Samd.v ===== *)
(** target/samd.c: the Atmel SAM D20, D21, D10, D11, L21 and L22 parts.  What
    samx5x.c uses of it is in it too. *)

From Stdlib Require Import ZArith Lia String.
From stdpp Require Import base list numbers option gmap.
From S2P Require Import Prelude CLib GdbIf MemManager GdbPacket TargetState Target Platform Command Cortexm FlashDev.

Definition samd_cmd_list : list command :=
  [cmd_entry "erase_mass" "samd_cmd_erase_all" "Erase entire flash memory";
   cmd_entry "lock_flash" "samd_cmd_lock_flash" "Locks flash against spurious commands";
   cmd_entry "unlock_flash" "samd_cmd_unlock_flash" "Unlocks flash";
   cmd_entry "lock_bootprot" "samd_cmd_lock_bootprot" "Lock the boot protections to maximum";
   cmd_entry "unlock_bootprot" "samd_cmd_unlock_bootprot" "Unlock the boot protections to minimum";
   cmd_entry "user_row" "samd_cmd_read_userrow" "Prints user row from flash";
   cmd_entry "serial" "samd_cmd_serial" "Prints serial number";
   cmd_entry "mbist" "samd_cmd_mbist" "Runs the built-in memory test";
   cmd_entry "set_security_bit" "samd_cmd_ssb" "Sets the Security Bit"].
Definition SAMD_ROW_SIZE : Z := 256.
Definition SAMD_PAGE_SIZE : Z := 64.
Definition SAMD_NVMC : Z := 0x41004000.
Definition SAMD_NVMC_CTRLA : Z := SAMD_NVMC + 0x0.
Definition SAMD_NVMC_INTFLAG : Z := SAMD_NVMC + 0x14.
Definition SAMD_NVMC_ADDRESS : Z := SAMD_NVMC + 0x1C.
Definition SAMD_CTRLA_CMD_KEY : Z := 0xA500.
Definition SAMD_CTRLA_CMD_ERASEROW : Z := 0x0002.
Definition SAMD_CTRLA_CMD_WRITEPAGE : Z := 0x0004.
Definition SAMD_CTRLA_CMD_ERASEAUXROW : Z := 0x0005.
Definition SAMD_CTRLA_CMD_WRITEAUXPAGE : Z := 0x0006.
Definition SAMD_CTRLA_CMD_LOCK : Z := 0x0040.
Definition SAMD_CTRLA_CMD_UNLOCK : Z := 0x0041.
Definition SAMD_CTRLA_CMD_SSB : Z := 0x0045.
Definition SAMD_NVMC_READY : Z := 1.
Definition SAMD_NVM_USER_ROW_LOW : Z := 0x00804000.
Definition SAMD_NVM_USER_ROW_HIGH : Z := 0x00804004.
Definition SAMD_NVM_SERIAL (n : Z) : Z := 0x0080A00C + 0x30 * ((n + 3) / 4) + 0x4 * n.
Definition SAMD_DSU : Z := 0x41002000.
Definition SAMD_DSU_EXT_ACCESS : Z := SAMD_DSU + 0x100.
Definition SAMD_DSU_CTRLSTAT : Z := SAMD_DSU_EXT_ACCESS + 0x0.
Definition SAMD_DSU_ADDRESS : Z := SAMD_DSU_EXT_ACCESS + 0x4.
Definition SAMD_DSU_LENGTH : Z := SAMD_DSU_EXT_ACCESS + 0x8.
Definition SAMD_DSU_DID : Z := SAMD_DSU_EXT_ACCESS + 0x018.
Definition SAMD_DSU_PID : Z := SAMD_DSU + 0x1000.
Definition SAMD_DSU_CID : Z := SAMD_DSU + 0x1010.
Definition SAMD_CTRL_CHIP_ERASE : Z := 0x10.
Definition SAMD_CTRL_MBIST : Z := 8.
Definition SAMD_STATUSA_PERR : Z := 0x1000.
Definition SAMD_STATUSA_FAIL : Z := 0x800.
Definition SAMD_STATUSA_CRSTEXT : Z := 0x200.
Definition SAMD_STATUSA_DONE : Z := 0x100.
Definition SAMD_STATUSB_PROT : Z := 0x10000.
Definition SAMD_DID_MASK : Z := 0xFF3C0000.
Definition SAMD_DID_CONST_VALUE : Z := 0x10000000.
Definition SAMD_DID_DEVSEL_MASK : Z := 0xFF.
Definition SAMD_DID_DEVSEL_POS : Z := 0.
Definition SAMD_DID_REVISION_MASK : Z := 0x0F.
Definition SAMD_DID_REVISION_POS : Z := 8.
Definition SAMD_DID_SERIES_MASK : Z := 0x1F.
Definition SAMD_DID_SERIES_POS : Z := 16.
Definition SAMD_DID_FAMILY_MASK : Z := 0x1F.
Definition SAMD_DID_FAMILY_POS : Z := 23.
Definition SAMD_PID_MASK : Z := 0x00F7FFFF.
Definition SAMD_PID_CONST_VALUE : Z := 0x0001FCD0.
Definition SAMD_CID_VALUE : Z := 0xB105100D.

(** ** What a device identity says *)

(** (device selector, pin letter, memory, variant) *)
Definition samd_part : Type := (Z * Z * Z * Z).
Definition samd_d21_parts : list samd_part :=
  [(0x00, 74, 18, 65); (0x01, 74, 17, 65); (0x02, 74, 16, 65); (0x03, 74, 15, 65);
   (0x05, 71, 18, 65); (0x06, 71, 17, 65); (0x07, 71, 16, 65); (0x08, 71, 15, 65);
   (0x0A, 69, 18, 65); (0x0B, 69, 17, 65); (0x0C, 69, 16, 65); (0x0D, 69, 15, 65);
   (0x0F, 71, 18, 65); (0x10, 71, 17, 65);
   (0x20, 74, 16, 66); (0x21, 74, 15, 66); (0x23, 71, 16, 66); (0x24, 71, 15, 66);
   (0x26, 69, 16, 66); (0x27, 69, 15, 66); (0x55, 69, 16, 66); (0x56, 69, 15, 66);
   (0x62, 69, 16, 67); (0x63, 69, 15, 67)].
Definition samd_l21_parts : list samd_part :=
  [(0x00, 74, 18, 65); (0x01, 74, 17, 65); (0x02, 74, 16, 65); (0x05, 71, 18, 65); (0x06, 71, 17, 65); (0x07, 71, 16, 65);
   (0x0A, 69, 18, 65); (0x0B, 69, 17, 65); (0x0C, 69, 16, 65); (0x0D, 69, 15, 65);
   (0x0F, 74, 18, 66); (0x10, 74, 17, 66); (0x11, 74, 16, 66); (0x14, 71, 18, 66); (0x15, 71, 17, 66); (0x16, 71, 16, 66);
   (0x19, 69, 18, 66); (0x1A, 69, 17, 66); (0x1B, 69, 16, 66); (0x1C, 69, 15, 66)].
Definition samd_l22_parts : list samd_part :=
  [(0x00, 78, 18, 65); (0x01, 78, 17, 65); (0x02, 78, 16, 65); (0x05, 74, 18, 65); (0x06, 74, 17, 65); (0x07, 74, 16, 65);
   (0x0A, 71, 18, 65); (0x0B, 71, 17, 65); (0x0C, 71, 16, 65)].

(** Members that a path of the code leaves indeterminate are options. *)
Record samd_descr := {
  family : option Z; series : Z; revision : Z;
  pin : option Z; mem : option Z; variant : option Z;
  package : list Z;
}.
Definition did_field (did pos mask : Z) : Z := Z.land (Z.shiftr did pos) mask.
Definition family_letter (fam : Z) : option Z :=
  if fam =? 0 then Some 68 else if fam =? 1 then Some 76 else if fam =? 2 then Some 67 else None.
Definition series_number (fam ser : Z) : Z :=
  if ser =? 0 then 20 else if ser =? 1 then 21
  else if ser =? 2 then (if fam =? 1 then 22 else 10)
  else if ser =? 3 then 11 else 0.
Definition parts_of (fam ser : Z) : list samd_part :=
  if fam =? 1 then (if ser =? 2 then samd_l22_parts else samd_l21_parts) else samd_d21_parts.
Definition samd_parse_device_id (did : Z) : samd_descr :=
  let fam := did_field did SAMD_DID_FAMILY_POS SAMD_DID_FAMILY_MASK in
  let ser := did_field did SAMD_DID_SERIES_POS SAMD_DID_SERIES_MASK in
  let rev := did_field did SAMD_DID_REVISION_POS SAMD_DID_REVISION_MASK in
  let devsel := did_field did SAMD_DID_DEVSEL_POS SAMD_DID_DEVSEL_MASK in
  let n := series_number fam ser in
  let mk pin mem variant package :=
    {| family := family_letter fam; series := n; revision := 65 + rev; pin := pin; mem := mem; variant := variant; package := package |} in
  if n =? 20 then
    let k := devsel / 5 in
    mk (Some (if k =? 0 then 74 else if k =? 1 then 71 else if k =? 2 then 69 else 117)) (Some (18 - devsel mod 5)) (Some 65) []
  else if (n =? 21) || (n =? 22) then
    match List.find (fun '(d, _, _, _) => d =? devsel) (parts_of fam ser) with
    | Some (_, pin, mem, variant) => mk (Some pin) (Some mem) (Some variant) []
    | None => mk None None None []
    end
  else if (n =? 10) || (n =? 11) then
    let k := devsel / 3 in
    mk (Some 68) (Some (14 - devsel mod 3)) (Some 65) (if k =? 0 then str "M" else if k =? 1 then str "SS" else [])
  else mk None None None [].
(** The text of a part, when no indeterminate member is printed. *)
Definition samd_variant_string (d : samd_descr) (protected : bool) : option (list Z) :=
  fam ← family d; pn ← pin d; mm ← mem d; vr ← variant d;
  Some (str "Atmel SAM" ++ [fam] ++ fmt_d (series d) ++ [pn] ++ fmt_d mm ++ [vr] ++ package d ++ str " (rev " ++ [revision d] ++ str ")"
        ++ (if protected then str " (PROT=1)" else [])).

Section Samd.
Context {D : Type} `{GdbIf D} `{MemIf D} `{Driver D} `{CortexmIf D} `{CoreSightIf D} `{ProbeIf D}.
Notation MW := (M (world D)).
Variable polls : nat.
Implicit Type p : positive.
Local Notation rd32 p a := (target_mem_read32 (Some p) a).
Local Notation wr32 p a v := (target_mem_write32 (Some p) a v).

(** ** Methods *)
Definition exit_extended_reset p : MW unit :=
  let! s := rd32 p SAMD_DSU_CTRLSTAT in
  when (flag s SAMD_STATUSA_CRSTEXT) (wr32 p SAMD_DSU_CTRLSTAT SAMD_STATUSA_CRSTEXT).
Definition samd_reset p : MW unit :=
  do! rd32 p CORTEXM_DHCSR in
  do! wr32 p CORTEXM_AIRCR (Z.lor CORTEXM_AIRCR_VECTKEY CORTEXM_AIRCR_SYSRESETREQ) in
  do! exit_extended_reset p in
  do! spin polls p CORTEXM_DHCSR (fun v => flag v CORTEXM_DHCSR_S_RESET_ST) in
  do! wr32 p CORTEXM_DFSR CORTEXM_DFSR_RESETALL in
  do! target_check_error (Some p) in
  ret tt.
Definition samd20_revB_detach p : MW unit :=
  do! ci_detach p in exit_extended_reset p.
(** The method it calls through the target is the one that is running. *)
Fixpoint samd20_revB_halt_resume (depth : nat) p (step : bool) : MW unit :=
  match depth with
  | O => hang
  | S d =>
      do! own_method m_halt_resume "samd20_revB_halt_resume" (samd20_revB_halt_resume d p step)
            (target_halt_resume (Some p) step) p in
      exit_extended_reset p
  end.
Definition samd_protected_attach p : MW bool :=
  do! upd_target p (fun t => set_attach_methods Fdriver (m_detach t) t) in
  ret true.

(** ** Probing *)
Definition samd_add_flash p (addr length : Z) : MW unit :=
  new_flash p (flash_region addr length SAMD_ROW_SIZE (flash_fns "samd_flash_erase" "samd_flash_write") SAMD_PAGE_SIZE 0).
(** The identity of a SAM's device service unit. *)
Definition dsu_identity p (cid_addr pid_addr cid_value pid_mask pid_value : Z) : MW bool :=
  let! cid := ap_read_pidr p cid_addr in
  let! pid := ap_read_pidr p pid_addr in
  ret ((u32 cid =? cid_value) && (Z.land (u32 pid) pid_mask =? pid_value)).
(** Out of the extended reset, unless the reset line is held. *)
Definition release_if_running p : MW unit :=
  let! t := load_target p in
  let! c := deref (t_tc t) in
  let! held := platform_call c (srst_get_val c) in
  when (negb held) (exit_extended_reset p).
Definition set_samd_methods (d : samd_descr) (protected : bool) (t : target) : target :=
  let t := set_reset_methods (Fdev "samd_reset") (m_extended_reset t)
             (if (series d =? 20) && (revision d =? 66) then Fdev "samd20_revB_halt_resume" else m_halt_resume t) t in
  set_attach_methods (if protected then Fdev "samd_protected_attach" else m_attach t)
    (if (series d =? 20) && (revision d =? 66) then Fdev "samd20_revB_detach" else m_detach t) t.
Definition samd_probe p : MW bool :=
  let! ok := dsu_identity p SAMD_DSU_CID SAMD_DSU_PID SAMD_CID_VALUE SAMD_PID_MASK SAMD_PID_CONST_VALUE in
  if negb ok then ret false else
  let! did := rd32 p SAMD_DSU_DID in
  if negb (Z.land did SAMD_DID_MASK =? SAMD_DID_CONST_VALUE) then ret false else
  let! h := MemManager_Alloc 60 in
  do! upd_target p (set_storage ((fun h => (h, [])) <$> h)) in
  let! ctrlstat := rd32 p SAMD_DSU_CTRLSTAT in
  let samd := samd_parse_device_id did in
  let protected := flag ctrlstat SAMD_STATUSB_PROT in
  do! deref h in
  match samd_variant_string samd protected with
  | None => crash UninitRead
  | Some name =>
      do! upd_target p (fun t => set_samd_methods samd protected (set_driver name t)) in
      do! target_add_ram p 0x20000000 0x8000 in
      do! samd_add_flash p 0 0x40000 in
      do! target_add_commands p samd_cmd_list (str "SAMD") in
      do! release_if_running p in
      ret true
  end.

(** ** Flash *)
Definition samd_lock_current_address p : MW unit := wr32 p SAMD_NVMC_CTRLA (Z.lor SAMD_CTRLA_CMD_KEY SAMD_CTRLA_CMD_LOCK).
Definition samd_unlock_current_address p : MW unit := wr32 p SAMD_NVMC_CTRLA (Z.lor SAMD_CTRLA_CMD_KEY SAMD_CTRLA_CMD_UNLOCK).
(** Whether the controller got ready before the link failed. *)
Definition nvm_ready p : MW bool :=
  let! v := while_busy polls p SAMD_NVMC_INTFLAG (fun v => negb (flag v SAMD_NVMC_READY)) in ret (if v then true else false).
Definition erase_row_body p (f : target_flash) (st : Z * Z) : MW (Z * Z + Z) :=
  let '(addr, len) := st in
  if len =? 0 then ret (inr 0) else
  do! wr32 p SAMD_NVMC_ADDRESS (Z.shiftr addr 1) in
  do! samd_unlock_current_address p in
  do! wr32 p SAMD_NVMC_CTRLA (Z.lor SAMD_CTRLA_CMD_KEY SAMD_CTRLA_CMD_ERASEROW) in
  let! ok := nvm_ready p in
  if negb ok then ret (inr (-1)) else
  do! samd_lock_current_address p in
  ret (inl (u32 (addr + blocksize f), if blocksize f <? len then len - blocksize f else 0)).
Definition row_rounds (f : target_flash) (len : Z) : nat := S (S (Z.to_nat (len / blocksize f))).
Definition samd_flash_erase p (f : target_flash) (addr len : Z) : MW Z :=
  iter (row_rounds f len) (erase_row_body p f) (addr, len).
Definition samd_flash_write p (f : target_flash) (dest : Z) (src : list Z) : MW Z :=
  do! target_mem_write (Some p) dest src in
  do! samd_unlock_current_address p in
  do! wr32 p SAMD_NVMC_CTRLA (Z.lor SAMD_CTRLA_CMD_KEY SAMD_CTRLA_CMD_WRITEPAGE) in
  let! ok := nvm_ready p in
  if negb ok then ret (-1) else
  do! samd_lock_current_address p in
  ret 0.

(** ** Commands *)
Definition dsu_results : Z := Z.lor (Z.lor SAMD_STATUSA_DONE SAMD_STATUSA_PERR) SAMD_STATUSA_FAIL.
Definition dsu_wait p : MW (option Z) := while_busy polls p SAMD_DSU_CTRLSTAT (fun v => negb (flag v dsu_results)).
Definition say p (text : list Z) : MW bool := do! tc_printf (Some p) (text ++ nl) in ret true.
Definition samd_cmd_erase_all p (argv : list (list Z)) : MW bool :=
  do! wr32 p SAMD_DSU_CTRLSTAT dsu_results in
  do! wr32 p SAMD_DSU_CTRLSTAT SAMD_CTRL_CHIP_ERASE in
  let! status := dsu_wait p in
  match status with
  | None => ret false
  | Some status =>
      if flag status SAMD_STATUSA_PERR then say p (str "Erase failed due to a protection error.")
      else if flag status SAMD_STATUSA_FAIL then say p (str "Erase failed.")
      else say p (str "Erase successful!")
  end.
(** The user row is read, erased and written again, changed. *)
Definition rewrite_user_row p (change : Z * Z -> Z * Z) : MW bool :=
  let! high := rd32 p SAMD_NVM_USER_ROW_HIGH in
  let! low := rd32 p SAMD_NVM_USER_ROW_LOW in
  do! wr32 p SAMD_NVMC_ADDRESS (Z.shiftr SAMD_NVM_USER_ROW_LOW 1) in
  do! wr32 p SAMD_NVMC_CTRLA (Z.lor SAMD_CTRLA_CMD_KEY SAMD_CTRLA_CMD_ERASEAUXROW) in
  let! ok := nvm_ready p in
  if negb ok then ret true else      (* -1, as a bool *)
  let '(high, low) := change (high, low) in
  do! wr32 p SAMD_NVM_USER_ROW_LOW low in
  do! wr32 p SAMD_NVM_USER_ROW_HIGH high in
  do! wr32 p SAMD_NVMC_CTRLA (Z.lor SAMD_CTRLA_CMD_KEY SAMD_CTRLA_CMD_WRITEAUXPAGE) in
  ret true.
Definition samd_set_flashlock p (value : Z) : MW bool :=
  rewrite_user_row p (fun '(high, low) =>
    (Z.lor (Z.land high 0x0000FFFF) (Z.land (Z.shiftl value 16) 0xFFFF0000), low)).
Definition samd_cmd_lock_flash p (argv : list (list Z)) : MW bool := samd_set_flashlock p 0x0000.
Definition samd_cmd_unlock_flash p (argv : list (list Z)) : MW bool := samd_set_flashlock p 0xFFFF.
Definition samd_set_bootprot p (value : Z) : MW bool :=
  rewrite_user_row p (fun '(high, low) => (high, Z.lor (Z.land low 0xFFFFFFF8) (Z.land value 7))).
Definition samd_cmd_lock_bootprot p (argv : list (list Z)) : MW bool := samd_set_bootprot p 0.
Definition samd_cmd_unlock_bootprot p (argv : list (list Z)) : MW bool := samd_set_bootprot p 7.
Definition samd_cmd_read_userrow p (argv : list (list Z)) : MW bool :=
  let! high := rd32 p SAMD_NVM_USER_ROW_HIGH in
  let! low := rd32 p SAMD_NVM_USER_ROW_LOW in
  do! tc_printf (Some p) (str "User Row: 0x" ++ fmt_x 8 high ++ fmt_x 8 low ++ nl) in
  ret true.
Definition samd_cmd_serial p (argv : list (list Z)) : MW bool :=
  do! tc_printf (Some p) (str "Serial Number: 0x") in
  do! for_each [0; 1; 2; 3] (fun i =>
        let! v := rd32 p (SAMD_NVM_SERIAL i) in tc_printf (Some p) (fmt_x 8 v)) in
  do! tc_printf (Some p) nl in
  ret true.
Definition samd_flash_size p : MW Z :=
  let! did := rd32 p SAMD_DSU_DID in
  ret (Z.shiftr 0x40000 (Z.land did SAMD_DID_DEVSEL_MASK mod 5)).
Definition samd_cmd_mbist p (argv : list (list Z)) : MW bool :=
  do! wr32 p SAMD_DSU_ADDRESS 0 in
  let! size := samd_flash_size p in
  do! wr32 p SAMD_DSU_LENGTH size in
  do! wr32 p SAMD_DSU_CTRLSTAT SAMD_STATUSA_FAIL in
  do! wr32 p SAMD_DSU_CTRLSTAT SAMD_CTRL_MBIST in
  let! status := dsu_wait p in
  match status with
  | None => ret false
  | Some status =>
      if flag status SAMD_STATUSA_PERR then say p (str "MBIST not run due to protection error.")
      else if flag status SAMD_STATUSA_FAIL then
        let! a := rd32 p SAMD_DSU_ADDRESS in
        say p (str "MBIST Fail @ 0x" ++ fmt_x 8 a)
      else say p (str "MBIST Passed!")
  end.
Definition samd_cmd_ssb p (argv : list (list Z)) : MW bool :=
  do! wr32 p SAMD_NVMC_CTRLA (Z.lor SAMD_CTRLA_CMD_KEY SAMD_CTRLA_CMD_SSB) in
  let! ok := nvm_ready p in
  if negb ok then ret true else      (* -1, as a bool *)
  do! tc_printf (Some p) (str "Security bit set! Scan again, attach and issue 'monitor erase_mass' to reset." ++ nl) in
  do! own_method m_reset "samd_reset" (samd_reset p) (target_reset (Some p)) p in
  ret true.

Definition samd_methods (depth : nat) : methods D := {|
  mt_reset := fn_table [("samd_reset"%string, samd_reset)];
  mt_halt_resume := fn_table [("samd20_revB_halt_resume"%string, samd20_revB_halt_resume depth)] |}.
Definition samd_device : device D := {|
  dv_attach := fn_table [("samd_protected_attach"%string, samd_protected_attach)];
  dv_detach := fn_table [("samd20_revB_detach"%string, samd20_revB_detach)];
  dv_command := fn_table
    [("samd_cmd_erase_all"%string, samd_cmd_erase_all); ("samd_cmd_lock_flash"%string, samd_cmd_lock_flash);
     ("samd_cmd_unlock_flash"%string, samd_cmd_unlock_flash); ("samd_cmd_lock_bootprot"%string, samd_cmd_lock_bootprot);
     ("samd_cmd_unlock_bootprot"%string, samd_cmd_unlock_bootprot); ("samd_cmd_read_userrow"%string, samd_cmd_read_userrow);
     ("samd_cmd_serial"%string, samd_cmd_serial); ("samd_cmd_mbist"%string, samd_cmd_mbist); ("samd_cmd_ssb"%string, samd_cmd_ssb)];
  dv_erase := fn_table [("samd_flash_erase"%string, samd_flash_erase)];
  dv_write := fn_table [("samd_flash_write"%string, samd_flash_write)];
  dv_done _ := None |}.
End Samd.
