(* ===== verification/Samx5x.v ===== *)
(** target/samx5x.c: the Microchip SAM D51, E51, E53 and E54 parts.  The
    commands it has under SAMX5X_EXTRA_CMDS, which no build defines, are
    modelled too, but are in no list. *)

From Stdlib Require Import ZArith Lia String.
From stdpp Require Import base list numbers option gmap.
From S2P Require Import Prelude CLib GdbIf MemManager GdbPacket TargetState Target Platform Command Cortexm FlashDev Samd.

Definition samx5x_cmd_list : list command :=
  [cmd_entry "erase_mass" "samd_cmd_erase_all" "Erase entire flash memory";
   cmd_entry "lock_flash" "samx5x_cmd_lock_flash" "Locks flash against spurious commands";
   cmd_entry "unlock_flash" "samx5x_cmd_unlock_flash" "Unlocks flash";
   cmd_entry "lock_bootprot" "samx5x_cmd_lock_bootprot" "Lock the boot protections to maximum";
   cmd_entry "unlock_bootprot" "samx5x_cmd_unlock_bootprot" "Unlock the boot protections to minimum";
   cmd_entry "user_page" "samx5x_cmd_read_userpage" "Prints user page from flash";
   cmd_entry "serial" "samx5x_cmd_serial" "Prints serial number";
   cmd_entry "set_security_bit" "samx5x_cmd_ssb" "Sets the security bit";
   cmd_entry "update_user_word" "samx5x_cmd_update_user_word" "Sets 32-bits in the user page: <addr> <value>"].
Definition samx5x_protected_cmd_list : list command :=
  [cmd_entry "erase_mass" "samd_cmd_erase_all" "Erase entire flash memory"].
Definition SAMX5X_RAM_START : Z := 0x20000000.
Definition SAMX5X_PAGE_SIZE : Z := 512.
Definition SAMX5X_BLOCK_SIZE : Z := SAMX5X_PAGE_SIZE * 16.
Definition SAMX5X_NVMC : Z := 0x41004000.
Definition SAMX5X_NVMC_CTRLB : Z := SAMX5X_NVMC + 0x04.
Definition SAMX5X_NVMC_PARAM : Z := SAMX5X_NVMC + 0x08.
Definition SAMX5X_NVMC_INTFLAG : Z := SAMX5X_NVMC + 0x10.
Definition SAMX5X_NVMC_STATUS : Z := SAMX5X_NVMC + 0x12.
Definition SAMX5X_NVMC_ADDRESS : Z := SAMX5X_NVMC + 0x14.
Definition SAMX5X_NVMC_RUNLOCK : Z := SAMX5X_NVMC + 0x18.
Definition SAMX5X_CTRLB_CMD_KEY : Z := 0xA500.
Definition SAMX5X_CTRLB_CMD_ERASEPAGE : Z := 0x0000.
Definition SAMX5X_CTRLB_CMD_ERASEBLOCK : Z := 0x0001.
Definition SAMX5X_CTRLB_CMD_WRITEPAGE : Z := 0x0003.
Definition SAMX5X_CTRLB_CMD_WRITEQUADWORD : Z := 0x0004.
Definition SAMX5X_CTRLB_CMD_LOCK : Z := 0x0011.
Definition SAMX5X_CTRLB_CMD_UNLOCK : Z := 0x0012.
Definition SAMX5X_CTRLB_CMD_SSB : Z := 0x0016.
Definition SAMX5X_INTFLAG_ADDRE : Z := 2.
Definition SAMX5X_INTFLAG_PROGE : Z := 4.
Definition SAMX5X_INTFLAG_LOCKE : Z := 8.
Definition SAMX5X_INTFLAG_NVME : Z := 0x40.
Definition SAMX5X_STATUS_READY : Z := 1.
Definition SAMX5X_NVM_USER_PAGE : Z := 0x00804000.
Definition SAMX5X_NVM_SERIAL (n : Z) : Z := 0x0080600C + (if n =? 0 then 0x1F0 else n * 4).
Definition SAMX5X_USER_PAGE_OFFSET_LOCK : Z := 0x08.
Definition SAMX5X_USER_PAGE_OFFSET_BOOTPROT : Z := 0x03.
Definition SAMX5X_USER_PAGE_MASK_BOOTPROT : Z := 0x3C.
Definition SAMX5X_USER_PAGE_SHIFT_BOOTPROT : Z := 2.
Definition SAMX5X_DSU : Z := 0x41002000.
Definition SAMX5X_DSU_EXT_ACCESS : Z := SAMX5X_DSU + 0x100.
Definition SAMX5X_DSU_CTRLSTAT : Z := SAMX5X_DSU_EXT_ACCESS + 0x00.
Definition SAMX5X_DSU_ADDRESS : Z := SAMX5X_DSU_EXT_ACCESS + 0x04.
Definition SAMX5X_DSU_LENGTH : Z := SAMX5X_DSU_EXT_ACCESS + 0x08.
Definition SAMX5X_DSU_DATA : Z := SAMX5X_DSU_EXT_ACCESS + 0x0C.
Definition SAMX5X_DSU_DID : Z := SAMX5X_DSU_EXT_ACCESS + 0x18.
Definition SAMX5X_DSU_PID : Z := SAMX5X_DSU + 0x1000.
Definition SAMX5X_DSU_CID : Z := SAMX5X_DSU + 0x1010.
Definition SAMX5X_CTRL_MBIST : Z := 8.
Definition SAMX5X_STATUSA_PERR : Z := 0x1000.
Definition SAMX5X_STATUSA_FAIL : Z := 0x800.
Definition SAMX5X_STATUSA_CRSTEXT : Z := 0x200.
Definition SAMX5X_STATUSA_DONE : Z := 0x100.
Definition SAMX5X_STATUSB_PROT : Z := 0x10000.
Definition SAMX5X_DID_MASK : Z := 0xFE780000.
Definition SAMX5X_DID_CONST_VALUE : Z := 0x60000000.
Definition SAMX5X_DID_DEVSEL_MASK : Z := 0xFF.
Definition SAMX5X_DID_DEVSEL_POS : Z := 0.
Definition SAMX5X_DID_REVISION_MASK : Z := 0x0F.
Definition SAMX5X_DID_REVISION_POS : Z := 8.
Definition SAMX5X_DID_SERIES_MASK : Z := 0x3F.
Definition SAMX5X_DID_SERIES_POS : Z := 16.
Definition SAMX5X_PID_MASK : Z := 0x00F7FFFF.
Definition SAMX5X_PID_CONST_VALUE : Z := 0x0001FCD0.
Definition SAMX5X_CID_VALUE : Z := 0xB105100D.

(** ** What a device identity says *)
Record samx5x_descr := {
  series : option (Z * Z);        (* letter and number *)
  revision : Z;
  pin_mem : option (Z * Z);
}.
Definition samx5x_series (n : Z) : option (Z * Z) :=
  if n =? 1 then Some (69, 51) else if n =? 6 then Some (68, 51)
  else if n =? 3 then Some (69, 53) else if n =? 4 then Some (69, 54) else None.
Definition samx5x_devsel (n : Z) : option (Z * Z) :=
  if n =? 0 then Some (80, 20) else if n =? 1 then Some (80, 19)
  else if n =? 2 then Some (78, 20) else if n =? 3 then Some (78, 19)
  else if n =? 4 then Some (74, 20) else if n =? 5 then Some (74, 19) else if n =? 6 then Some (74, 18)
  else if n =? 7 then Some (71, 19) else if n =? 8 then Some (71, 18) else None.
Definition samx5x_parse_device_id (did : Z) : samx5x_descr :=
  {| series := samx5x_series (did_field did SAMX5X_DID_SERIES_POS SAMX5X_DID_SERIES_MASK);
     revision := 65 + did_field did SAMX5X_DID_REVISION_POS SAMX5X_DID_REVISION_MASK;
     pin_mem := samx5x_devsel (did_field did SAMX5X_DID_DEVSEL_POS SAMX5X_DID_DEVSEL_MASK) |}.
Definition samx5x_variant_string (d : samx5x_descr) (protected : bool) : option (list Z) :=
  '(letter, number) ← series d; '(pin, mem) ← pin_mem d;
  Some (str "Microchip SAM" ++ [letter] ++ fmt_d number ++ [pin] ++ fmt_d mem ++ str "A (rev " ++ [revision d] ++ str ")"
        ++ (if protected then str " (PROT=1)" else [])).
(** RAM and flash by the memory number. *)
Definition samx5x_sizes (mem : Z) : Z * Z :=
  if mem =? 19 then (0x30000, 0x80000) else if mem =? 20 then (0x40000, 0x100000) else (0x20000, 0x40000).

(** ** The user page *)
Definition factory_bits : list Z :=
  [0x00; 0x80; 0xFF; 0xC3; 0x00; 0xFF; 0x00; 0x80; 0x00; 0x00; 0x00; 0x00; 0x00; 0x00; 0x00; 0x00; 0xFF; 0xFF; 0xFF; 0xFF].
(** The factory's bits in the word at [addr]: those of its bytes that are in
    the table. *)
Definition factory_word (addr : Z) (force : bool) : Z :=
  if force then 0 else
  foldl (fun acc i => if addr + i <? 20 then Z.lor acc (Z.shiftl (nth (Z.to_nat (addr + i)) factory_bits 0) (8 * i)) else acc)
    0 [0; 1; 2; 3].
Definition new_user_word (current value factory : Z) : Z :=
  Z.lor (Z.land current factory) (Z.land value (u32 (Z.lnot factory))).
Definition page_word (buffer : list Z) (addr : Z) : Z := le_val (ztake 4 (zdrop addr buffer)).
Definition set_page_word (buffer : list Z) (addr v : Z) : list Z :=
  ztake addr buffer ++ le_bytes 4 v ++ zdrop (addr + 4) buffer.
(** A number of the command line; none where strtoul consumed nothing. *)
Definition number (s : list Z) : option Z :=
  match scan_int (base_of s) (length s) (skip_space s) with
  | None => None
  | Some (neg, v, r) =>
      let x := to_ulong neg v in
      if (x =? 0) && negb (nth (length s - length r - 1) s 0 =? 48) then None else Some x
  end.
(** A line of the page is sixteen bytes. *)
Definition page_text (buffer : list Z) (i : Z) : list Z :=
  fmt_x 2 (nth (Z.to_nat i) buffer 0) ++ (if (i + 1) mod 16 =? 0 then nl else [32]).

Section Samx5x.
Context {D : Type} `{GdbIf D} `{MemIf D} `{Driver D} `{CortexmIf D} `{CoreSightIf D} `{ProbeIf D}.
Notation MW := (M (world D)).
Variable polls : nat.
Implicit Type p : positive.
Local Notation rd32 p a := (target_mem_read32 (Some p) a).
Local Notation wr32 p a v := (target_mem_write32 (Some p) a v).

(** ** Probing *)
Definition samx5x_add_flash p (addr length erase_block_size write_page_size : Z) : MW unit :=
  new_flash p (flash_region addr length erase_block_size (flash_fns "samx5x_flash_erase" "samx5x_flash_write") write_page_size 0).
Definition samx5x_probe p : MW bool :=
  let! ok := dsu_identity p SAMX5X_DSU_CID SAMX5X_DSU_PID SAMX5X_CID_VALUE SAMX5X_PID_MASK SAMX5X_PID_CONST_VALUE in
  if negb ok then ret false else
  let! did := rd32 p SAMX5X_DSU_DID in
  if negb (Z.land did SAMX5X_DID_MASK =? SAMX5X_DID_CONST_VALUE) then ret false else
  let! ctrlstat := rd32 p SAMX5X_DSU_CTRLSTAT in
  let samx5x := samx5x_parse_device_id did in
  let protected := flag ctrlstat SAMX5X_STATUSB_PROT in
  let! h := MemManager_Alloc 60 in
  do! upd_target p (set_storage ((fun h => (h, [])) <$> h)) in
  do! deref h in
  match samx5x_variant_string samx5x protected, pin_mem samx5x with
  | Some name, Some (_, mem) =>
      let '(ram, fl) := samx5x_sizes mem in
      do! upd_target p (fun t => set_reset_methods (Fdev "samd_reset") (m_extended_reset t) (m_halt_resume t) (set_driver name t)) in
      do! when protected (upd_target p (fun t => set_attach_methods (Fdev "samd_protected_attach") (m_detach t) t)) in
      do! target_add_ram p 0x20000000 ram in
      do! samx5x_add_flash p 0 fl SAMX5X_BLOCK_SIZE SAMX5X_PAGE_SIZE in
      do! (if protected then target_add_commands p samx5x_protected_cmd_list (str "SAMD5x/E5x (protected)")
           else target_add_commands p samx5x_cmd_list (str "SAMD5x/E5x")) in
      do! release_if_running p in
      ret true
  | _, _ => crash UninitRead
  end.

(** ** Flash *)
Definition samx5x_lock_current_address p : MW unit := wr32 p SAMX5X_NVMC_CTRLB (Z.lor SAMX5X_CTRLB_CMD_KEY SAMX5X_CTRLB_CMD_LOCK).
Definition samx5x_unlock_current_address p : MW unit := wr32 p SAMX5X_NVMC_CTRLB (Z.lor SAMX5X_CTRLB_CMD_KEY SAMX5X_CTRLB_CMD_UNLOCK).
Definition nvm_errors : Z :=
  Z.lor (Z.lor (Z.lor SAMX5X_INTFLAG_ADDRE SAMX5X_INTFLAG_PROGE) SAMX5X_INTFLAG_LOCKE) SAMX5X_INTFLAG_NVME.
Definition samx5x_read_nvm_error p : MW Z :=
  let! intflag := target_mem_read16 (Some p) SAMX5X_NVMC_INTFLAG in ret (Z.land intflag nvm_errors).
Definition samx5x_clear_nvm_error p : MW unit := target_mem_write16 (Some p) SAMX5X_NVMC_INTFLAG nvm_errors.
Definition samx5x_check_nvm_error p : MW bool :=
  let! errs := samx5x_read_nvm_error p in ret (negb (errs =? 0)).
Definition clear_stale_errors p : MW unit :=
  let! errs := samx5x_read_nvm_error p in
  when (negb (errs =? 0)) (samx5x_clear_nvm_error p).
(** [target_check_error(t) || samx5x_check_nvm_error(t)] *)
Definition either_error p : MW bool :=
  let! e := target_check_error (Some p) in
  if e : bool then ret true else samx5x_check_nvm_error p.
(** Whether the controller got ready before an error. *)
Definition nvm_wait_body p (_ : unit) : MW (unit + bool) :=
  let! s := rd32 p SAMX5X_NVMC_STATUS in
  if flag s SAMX5X_STATUS_READY then ret (inr true) else
  let! e := either_error p in
  ret (if e : bool then inr false else inl tt).
Definition nvm_wait p : MW bool := iter polls (nvm_wait_body p) tt.
(** [len] is a size_t from which the block size is taken until it is 0. *)
Definition erase_block_body p (f : target_flash) (st : Z * Z) : MW (Z * Z + Z) :=
  let '(addr, len) := st in
  if len =? 0 then ret (inr 0) else
  do! wr32 p SAMX5X_NVMC_ADDRESS addr in
  do! samx5x_unlock_current_address p in
  do! wr32 p SAMX5X_NVMC_CTRLB (Z.lor SAMX5X_CTRLB_CMD_KEY SAMX5X_CTRLB_CMD_ERASEBLOCK) in
  let! ok := nvm_wait p in
  if negb ok then ret (inr (-1)) else
  let! e := either_error p in
  if e : bool then ret (inr (-1)) else
  do! samx5x_lock_current_address p in
  ret (inl (u32 (addr + blocksize f), u32 (len - blocksize f))).
Definition samx5x_flash_erase p (f : target_flash) (addr len : Z) : MW Z :=
  do! clear_stale_errors p in
  let! status := target_mem_read16 (Some p) SAMX5X_NVMC_STATUS in
  let bootprot := Z.land (Z.shiftr status 8) 0xf in
  let! runlock := rd32 p SAMX5X_NVMC_RUNLOCK in
  let! param := rd32 p SAMX5X_NVMC_PARAM in
  let lock_region_size := Z.shiftr (Z.land param 0xffff * SAMX5X_PAGE_SIZE) 5 in
  if addr <? (15 - bootprot) * 8192 then ret (-1) else
  if lock_region_size =? 0 then crash DivByZero else
  let region := addr / lock_region_size in      (* a shift by 32 or more leaves no bit on the probe *)
  if (region <? 32) && negb (Z.testbit runlock region) then ret (-1) else
  iter (wrap_rounds (blocksize f) len) (erase_block_body p f) (addr, len).
Definition samx5x_flash_write p (f : target_flash) (dest : Z) (src : list Z) : MW Z :=
  do! clear_stale_errors p in
  do! wr32 p SAMX5X_NVMC_ADDRESS dest in
  do! samx5x_unlock_current_address p in
  do! target_mem_write (Some p) dest src in
  do! wr32 p SAMX5X_NVMC_CTRLB (Z.lor SAMX5X_CTRLB_CMD_KEY SAMX5X_CTRLB_CMD_WRITEPAGE) in
  let! ok := nvm_wait p in
  if negb ok then ret (-1) else
  let! e := either_error p in
  if e : bool then ret (-1) else
  do! samx5x_lock_current_address p in
  ret 0.

(** ** The user page *)
Definition read_user_page p : MW (list Z) :=
  let! (buffer, _) := target_mem_read (Some p) SAMX5X_NVM_USER_PAGE SAMX5X_PAGE_SIZE in ret buffer.
Fixpoint write_quads p (buffer : list Z) (n : nat) (offset : Z) : MW Z :=
  match n with
  | O => ret 0
  | S n' =>
      do! target_mem_write (Some p) (SAMX5X_NVM_USER_PAGE + offset) (ztake 16 (zdrop offset buffer)) in
      do! wr32 p SAMX5X_NVMC_CTRLB (Z.lor SAMX5X_CTRLB_CMD_KEY SAMX5X_CTRLB_CMD_WRITEQUADWORD) in
      let! ok := nvm_wait p in
      if negb ok then ret (-2) else write_quads p buffer n' (offset + 16)
  end.
Definition samx5x_write_user_page p (buffer : list Z) : MW Z :=
  do! clear_stale_errors p in
  do! wr32 p SAMX5X_NVMC_ADDRESS SAMX5X_NVM_USER_PAGE in
  do! wr32 p SAMX5X_NVMC_CTRLB (Z.lor SAMX5X_CTRLB_CMD_KEY SAMX5X_CTRLB_CMD_ERASEPAGE) in
  let! ok := nvm_wait p in
  if negb ok then ret (-1) else
  write_quads p buffer 32 0.
(** The result, and the value written. *)
Definition samx5x_update_user_word p (addr value : Z) (force : bool) : MW (Z * Z) :=
  let! buffer := read_user_page p in
  let current_word := page_word buffer addr in
  let new_word := new_user_word current_word value (factory_word addr force) in
  if negb (new_word =? current_word) then
    let! r := samx5x_write_user_page p (set_page_word buffer addr new_word) in
    ret (r, new_word)
  else ret (0, new_word).
Definition samx5x_set_flashlock p (value : Z) : MW Z :=
  let! buffer := read_user_page p in
  let current_value := page_word buffer SAMX5X_USER_PAGE_OFFSET_LOCK in
  if negb (value =? current_value) then
    let! (r, _) := samx5x_update_user_word p SAMX5X_USER_PAGE_OFFSET_LOCK value false in ret r
  else ret 0.
Definition samx5x_set_bootprot p (value : Z) : MW Z :=
  let! buffer := read_user_page p in
  let current_value := page_word buffer SAMX5X_USER_PAGE_OFFSET_BOOTPROT in
  let new_value := Z.lor (Z.land current_value (u32 (Z.lnot SAMX5X_USER_PAGE_MASK_BOOTPROT)))
                     (Z.land (Z.shiftl value SAMX5X_USER_PAGE_SHIFT_BOOTPROT) SAMX5X_USER_PAGE_MASK_BOOTPROT) in
  if negb (new_value =? current_value) then
    let! (r, _) := samx5x_update_user_word p SAMX5X_USER_PAGE_OFFSET_BOOTPROT new_value false in ret r
  else ret 0.

(** ** Commands *)
Definition fail_with p (text : list Z) : MW bool := do! tc_printf (Some p) (text ++ nl) in ret false.
Definition report_page_update p (r : Z) (what : list Z) : MW bool :=
  if negb (r =? 0) then fail_with p (str "Error writing NVM page")
  else say p (what ++ str " The target must be reset for this to take effect.").
Definition samx5x_cmd_lock_flash p (argv : list (list Z)) : MW bool :=
  let! r := samx5x_set_flashlock p 0x00000000 in report_page_update p r (str "Flash locked.").
Definition samx5x_cmd_unlock_flash p (argv : list (list Z)) : MW bool :=
  let! r := samx5x_set_flashlock p 0xFFFFFFFF in report_page_update p r (str "Flash unlocked.").
Definition samx5x_cmd_lock_bootprot p (argv : list (list Z)) : MW bool :=
  let! r := samx5x_set_bootprot p 0 in report_page_update p r (str "Bootprot locked.").
Definition samx5x_cmd_unlock_bootprot p (argv : list (list Z)) : MW bool :=
  let! r := samx5x_set_bootprot p 0xf in report_page_update p r (str "Bootprot unlocked.").
Definition samx5x_cmd_read_userpage p (argv : list (list Z)) : MW bool :=
  let! buffer := read_user_page p in
  do! tc_printf (Some p) (str "User Page:" ++ nl) in
  do! for_each (seqZ 0 SAMX5X_PAGE_SIZE) (fun i => tc_printf (Some p) (page_text buffer i)) in
  ret true.
Definition samx5x_cmd_serial p (argv : list (list Z)) : MW bool :=
  do! tc_printf (Some p) (str "Serial Number: 0x") in
  do! for_each [0; 1; 2; 3] (fun i =>
        let! v := rd32 p (SAMX5X_NVM_SERIAL i) in tc_printf (Some p) (fmt_x 8 v)) in
  do! tc_printf (Some p) nl in
  ret true.
Definition samx5x_cmd_ssb p (argv : list (list Z)) : MW bool :=
  do! wr32 p SAMX5X_NVMC_CTRLB (Z.lor SAMX5X_CTRLB_CMD_KEY SAMX5X_CTRLB_CMD_SSB) in
  let! v := while_busy polls p SAMX5X_NVMC_STATUS (fun v => negb (flag v SAMX5X_STATUS_READY)) in
  match v with
  | None => ret true                 (* -1, as a bool *)
  | Some _ => say p (str "Set the security bit! You will need to issue 'monitor erase_mass' to clear this.")
  end.
Definition FACTORY_BITS_MSG (v : Z) : list Z :=
  str "Warning: the value provided would have modified factory" ++ nl
  ++ str "         setting bits that should not be changed. The" ++ nl
  ++ str "         actual value written was: 0x" ++ fmt_x 8 v ++ nl
  ++ str "To override this protection to write the factory setting" ++ nl
  ++ str "bits, use: update_user_word <addr> <value> force" ++ nl.
(** Address, value and whether factory bits may change. *)
Definition user_word_request (argv : list (list Z)) : option (Z * Z * bool) :=
  match argv with
  | [_; a; v] => addr ← number a; value ← number v; Some (addr, value, false)
  | [_; a; v; f] => addr ← number a; value ← number v; if eqb_str f (str "force") then Some (addr, value, true) else None
  | _ => None
  end.
Definition samx5x_cmd_update_user_word p (argv : list (list Z)) : MW bool :=
  if (zlen argv <? 3) || (4 <? zlen argv) then fail_with p (str "Error: incorrect number of arguments") else
  match user_word_request argv with
  | None => fail_with p (str "Error: unrecognized arguments")
  | Some (addr, value, force) =>
      if 0x1fc <? addr then fail_with p (str "Error: address out of range. User page is 512 bytes.") else
      let! (r, actual_value) := samx5x_update_user_word p addr value force in
      if negb (r =? 0) then fail_with p (str "Error updating NVM page") else
      do! when (negb force && negb (value =? actual_value)) (tc_printf (Some p) (FACTORY_BITS_MSG actual_value)) in
      do! tc_printf (Some p) (str "User page updated.") in
      do! when (addr <? 12) (tc_printf (Some p) (str " The target must be reset for the new config settings" ++ nl
                                                  ++ str "(bootprot, wdt, etc.) to take effect.")) in
      do! tc_printf (Some p) nl in
      ret true
  end.

(** ** Commands no build has *)
Definition samx5x_ram_size p : MW Z :=
  let! did := rd32 p SAMX5X_DSU_DID in
  match pin_mem (samx5x_parse_device_id did) with
  | None => crash UninitRead
  | Some (_, mem) => ret (u32 (0x40000 - 0x10000 * (20 - mem)))
  end.
Definition mbist_result p (status : Z) : MW bool :=
  if flag status SAMX5X_STATUSA_PERR then say p (str "MBIST not run due to protection error.")
  else if flag status SAMX5X_STATUSA_FAIL then
    let! data := rd32 p SAMX5X_DSU_DATA in
    let! a := rd32 p SAMX5X_DSU_ADDRESS in
    say p (str "MBIST Fail @ 0x" ++ fmt_x 8 a ++ str " (bit " ++ fmt_d (Z.land data 0x1f) ++ str " in phase "
           ++ fmt_d (i32 (Z.shiftr data 8)) ++ str ")")
  else say p (str "MBIST Passed!").
Definition samx5x_cmd_mbist p (argv : list (list Z)) : MW bool :=
  do! samx5x_ram_size p in
  do! wr32 p SAMX5X_DSU_ADDRESS SAMX5X_RAM_START in
  let! size := samx5x_ram_size p in
  do! wr32 p SAMX5X_DSU_LENGTH (u32 (Z.shiftl size 2)) in
  do! wr32 p SAMX5X_DSU_CTRLSTAT (Z.lor SAMX5X_STATUSA_FAIL SAMX5X_STATUSA_PERR) in
  do! wr32 p SAMX5X_DSU_CTRLSTAT SAMX5X_CTRL_MBIST in
  let! status := while_busy polls p SAMX5X_DSU_CTRLSTAT
    (fun v => negb (flag v (Z.lor (Z.lor SAMX5X_STATUSA_DONE SAMX5X_STATUSA_PERR) SAMX5X_STATUSA_FAIL))) in
  match status with None => ret false | Some status => mbist_result p status end.
(** The three writes differ in the width only. *)
Definition write_request (argv : list (list Z)) : option (Z * Z) :=
  match argv with [_; a; v] => addr ← number a; value ← number v; Some (addr, value) | _ => None end.
Definition cmd_write p (argv : list (list Z)) (limit : Z) (write : Z -> Z -> MW unit) : MW bool :=
  if negb (zlen argv =? 3) then fail_with p (str "Error: incorrect number of arguments") else
  match write_request argv with
  | None => fail_with p (str "Error: unrecognized arguments")
  | Some (addr, value) =>
      if limit <? value then fail_with p (str "Error: value out of range") else
      do! write addr value in ret true
  end.
Definition samx5x_cmd_write8 p (argv : list (list Z)) : MW bool := cmd_write p argv 0xff (target_mem_write8 (Some p)).
Definition samx5x_cmd_write16 p (argv : list (list Z)) : MW bool := cmd_write p argv 0xffff (target_mem_write16 (Some p)).
Definition samx5x_cmd_write32 p (argv : list (list Z)) : MW bool := cmd_write p argv 0xffffffff (target_mem_write32 (Some p)).

Definition samx5x_device : device D := {|
  dv_attach := fn_table [("samd_protected_attach"%string, samd_protected_attach)];
  dv_detach _ := None;
  dv_command := fn_table
    [("samd_cmd_erase_all"%string, samd_cmd_erase_all polls); ("samx5x_cmd_lock_flash"%string, samx5x_cmd_lock_flash);
     ("samx5x_cmd_unlock_flash"%string, samx5x_cmd_unlock_flash); ("samx5x_cmd_lock_bootprot"%string, samx5x_cmd_lock_bootprot);
     ("samx5x_cmd_unlock_bootprot"%string, samx5x_cmd_unlock_bootprot); ("samx5x_cmd_read_userpage"%string, samx5x_cmd_read_userpage);
     ("samx5x_cmd_serial"%string, samx5x_cmd_serial); ("samx5x_cmd_ssb"%string, samx5x_cmd_ssb);
     ("samx5x_cmd_update_user_word"%string, samx5x_cmd_update_user_word)];
  dv_erase := fn_table [("samx5x_flash_erase"%string, samx5x_flash_erase)];
  dv_write := fn_table [("samx5x_flash_write"%string, samx5x_flash_write)];
  dv_done _ := None |}.
End Samx5x.
