(* ===== verification/Kinetis.v ===== *)
(** target/kinetis.c: the NXP Kinetis K and KL and the S32K1 parts (their
    recovery access port is in Recovery). *)

From Stdlib Require Import ZArith Lia String.
From stdpp Require Import base list numbers option gmap.
From S2P Require Import Prelude CLib GdbIf MemManager GdbPacket TargetState Target Platform Command Cortexm FlashDev.

Definition SIM_SDID : Z := 0x40048024.
Definition SIM_FCFG1 : Z := 0x4004804C.
Definition FTFA_BASE : Z := 0x40020000.
Definition FTFA_FSTAT : Z := FTFA_BASE + 0x00.
Definition FTFA_FCCOB_0 : Z := FTFA_BASE + 0x04.
Definition FTFA_FCCOB_1 : Z := FTFA_BASE + 0x08.
Definition FTFA_FCCOB_2 : Z := FTFA_BASE + 0x0C.
Definition FTFA_FSTAT_CCIF : Z := 0x80.
Definition FTFA_FSTAT_ACCERR : Z := 0x20.
Definition FTFA_FSTAT_FPVIOL : Z := 0x10.
Definition FTFA_CMD_PROGRAM_LONGWORD : Z := 0x06.
Definition FTFE_CMD_PROGRAM_PHRASE : Z := 0x07.
Definition FTFA_CMD_ERASE_SECTOR : Z := 0x09.
Definition KL_WRITE_LEN : Z := 4.
Definition K64_WRITE_LEN : Z := 8.
Definition FLASH_SECURITY_BYTE_ADDRESS : Z := 0x40C.
Definition FLASH_SECURITY_BYTE_UNSECURED : Z := 0xFE.
Definition kinetis_cmd_list : list command :=
  [cmd_entry "unsafe" "kinetis_cmd_unsafe" "Allow programming security byte (enable|disable)"].

(** ** What a part has

    The RAM regions; then, unless the part is unknown, its name and its flash
    regions: start, length, sector, bytes programmed at a time. *)
Definition kpart : Type := (list (Z * Z) * option (string * list (Z * Z * Z * Z)))%type.
Definition unknown_part : kpart := ([], None).
Definition kl (name : string) (rams : list (Z * Z)) (flash_size : Z) : kpart :=
  (rams, Some (name, [(0, flash_size, 0x400, KL_WRITE_LEN)])).
Definition kl16_ram (n : Z) : option (list (Z * Z)) :=
  if n =? 3 then Some [(0x1ffffc00, 0x0400); (0x20000000, 0x0C00)]
  else if n =? 4 then Some [(0x1ffff800, 0x0800); (0x20000000, 0x1800)]
  else if n =? 5 then Some [(0x1ffff000, 0x1000); (0x20000000, 0x3000)]
  else if n =? 6 then Some [(0x1fffe000, 0x2000); (0x20000000, 0x6000)]
  else None.
Definition kl16_flash (n : Z) : option (string * Z) :=
  if n =? 3 then Some ("KL16Z32Vxxx"%string, 0x08000)
  else if n =? 5 then Some ("KL16Z64Vxxx"%string, 0x10000)
  else if n =? 7 then Some ("KL16Z128Vxxx"%string, 0x20000)
  else if n =? 9 then Some ("KL16Z256Vxxx"%string, 0x40000)
  else None.
Definition kl16 (ramsize fsize : Z) : kpart :=
  match kl16_ram ramsize with
  | None => unknown_part
  | Some rams => match kl16_flash fsize with Some (name, size) => kl name rams size | None => (rams, None) end
  end.
Definition kl27 (ramsize : Z) : kpart :=
  if ramsize =? 4 then kl "KL27x32" [(0x1ffff800, 0x0800); (0x20000000, 0x1800)] 0x8000
  else if ramsize =? 5 then kl "KL27x64" [(0x1ffff000, 0x1000); (0x20000000, 0x3000)] 0x10000
  else unknown_part.
Definition kl02 (ramsize : Z) : kpart :=
  if ramsize =? 3 then kl "KL02x32" [(0x1FFFFC00, 0x400); (0x20000000, 0xc00)] 0x7FFF
  else if ramsize =? 2 then kl "KL02x16" [(0x1FFFFE00, 0x200); (0x20000000, 0x600)] 0x3FFF
  else if ramsize =? 1 then kl "KL02x8" [(0x1FFFFF00, 0x100); (0x20000000, 0x300)] 0x1FFF
  else unknown_part.
Definition mk12 (fsize : Z) : kpart :=
  if fsize =? 0x7 then ([(0x1fffc000, 0x4000); (0x20000000, 0x4000)],
    Some ("MK12DX128Vxx5"%string, [(0, 0x20000, 0x800, KL_WRITE_LEN); (0x10000000, 0x10000, 0x800, KL_WRITE_LEN)]))
  else if fsize =? 0x9 then ([(0x1fffc000, 0x4000); (0x20000000, 0x4000)],
    Some ("MK12DX256Vxx5"%string, [(0, 0x40000, 0x800, KL_WRITE_LEN); (0x10000000, 0x10000, 0x800, KL_WRITE_LEN)]))
  else if fsize =? 0xb then ([(0x1fff8000, 0x8000); (0x20000000, 0x8000)],
    Some ("MK12DN512Vxx5"%string, [(0, 0x40000, 0x800, KL_WRITE_LEN); (0x40000, 0x40000, 0x800, KL_WRITE_LEN)]))
  else unknown_part.
Definition s32k14x (sram_l sram_h pflash flexmem : Z) : kpart :=
  ([(sram_l, 0x20000000 - sram_l); (0x20000000, sram_h)],
   Some ("S32K14x"%string, [(0, pflash, 0x1000, K64_WRITE_LEN); (0x10000000, flexmem, 0x1000, K64_WRITE_LEN)])).
Definition kinetis_part (sdid fcfg1 : Z) : kpart :=
  let id := Z.shiftr sdid 20 in
  let ramsize := Z.land (Z.shiftr sdid 16) 0xf in
  let fsize := Z.land (Z.shiftr fcfg1 24) 0xf in
  if id =? 0x161 then kl16 ramsize fsize
  else if id =? 0x251 then kl "KL25" [(0x1ffff000, 0x1000); (0x20000000, 0x3000)] 0x20000
  else if id =? 0x231 then kl "KL27x128" [(0x1fffe000, 0x2000); (0x20000000, 0x6000)] 0x40000
  else if id =? 0x271 then kl27 ramsize
  else if id =? 0x021 then kl02 ramsize
  else if id =? 0x031 then kl "KL03" [(0x1ffffe00, 0x200); (0x20000000, 0x600)] 0x8000
  else if id =? 0x220 then ([(0x1c000000, 0x4000000); (0x20000000, 0x100000)],
    Some ("K22F"%string, [(0, 0x40000, 0x800, KL_WRITE_LEN); (0x40000, 0x40000, 0x800, KL_WRITE_LEN)]))
  else if id =? 0x620 then ([(0x1FFF0000, 0x10000); (0x20000000, 0x30000)],
    Some ("K64"%string, [(0, 0x80000, 0x1000, K64_WRITE_LEN); (0x80000, 0x80000, 0x1000, K64_WRITE_LEN)]))
  else if id =? 0x000 then (if Z.land sdid 0xff0 =? 0x200 then mk12 fsize else unknown_part)
  else if id =? 0x118 then ([(0x1ffffc00, 0x400); (0x20000000, 0x5800)],
    Some ("S32K118"%string, [(0, 0x40000, 0x800, K64_WRITE_LEN); (0x10000000, 0x8000, 0x800, K64_WRITE_LEN)]))
  else if (id =? 0x142) || (id =? 0x143) then s32k14x 0x1FFFC000 0x03000 0x40000 0x10000
  else if (id =? 0x144) || (id =? 0x145) then s32k14x 0x1FFF8000 0x07000 0x80000 0x10000
  else if id =? 0x146 then s32k14x 0x1fff0000 0x0f000 0x100000 0x10000
  else if id =? 0x148 then s32k14x 0x1ffe0000 0x1f000 0x180000 0x80000
  else unknown_part.

Definition sizeof_kinetis_flash : Z := sizeof_target_flash + 4.
Definition write_len (f : target_flash) : Z := extra 0 f.
Definition with_done (f : target_flash) : target_flash :=
  {| f_start := f_start f; f_length := f_length f; blocksize := blocksize f; has_done := true; erased := erased f;
     buf_size := buf_size f; buf_addr := buf_addr f; buf := buf f; f_ops := f_ops f; f_extra := f_extra f |}.
(** The buffer with the security byte in it, where it is covered. *)
Definition keep_unsecured (unsafe : bool) (addr dest : Z) (src : list Z) : list Z :=
  if negb unsafe && (dest <=? addr) && (addr <? u32 (dest + zlen src)) then
    <[Z.to_nat (addr - dest) := FLASH_SECURITY_BYTE_UNSECURED]> src
  else src.

Section Kinetis.
Context {D : Type} `{GdbIf D} `{MemIf D} `{Driver D}.
Notation MW := (M (world D)).
Variable polls : nat.
(** What the memory behind a write buffer holds: the last command of a
    four-byte part reads four bytes of it. *)
Variable behind : list Z.
Implicit Type p : positive.
Local Notation rd8 p a := (target_mem_read8 (Some p) a).
Local Notation wr8 p a v := (target_mem_write8 (Some p) a v).
Local Notation wr32 p a v := (target_mem_write32 (Some p) a v).

Definition kinetis_cmd_unsafe p (argv : list (list Z)) : MW bool :=
  if zlen argv =? 1 then
    let! t := load_target p in
    do! tc_printf (Some p) (str "Allow programming security byte: " ++ enabled (unsafe_enabled t) ++ nl) in
    ret true
  else
    let! a := deref (argv !! 1%nat) in
    let! v := parse_enable_or_disable a in
    do! match v with Some b => upd_target p (set_unsafe b) | None => ret tt end in
    ret true.

(** ** Probing *)
Definition kl_gen_add_flash p (addr length erasesize wlen : Z) : MW unit :=
  new_flash_of sizeof_kinetis_flash p
    (with_extra [wlen] (with_done (flash_region addr length erasesize (flash_fns "kl_gen_flash_erase" "kl_gen_flash_write") 0 0xff))).
Definition kinetis_probe p : MW bool :=
  let! sdid := target_mem_read32 (Some p) SIM_SDID in
  let! fcfg1 := target_mem_read32 (Some p) SIM_FCFG1 in
  let '(rams, rest) := kinetis_part sdid fcfg1 in
  do! for_each rams (fun '(a, n) => target_add_ram p a n) in
  match rest with
  | None => ret false
  | Some (name, regions) =>
      do! upd_target p (set_driver (str name)) in
      do! for_each regions (fun '(a, n, bs, wl) => kl_gen_add_flash p a n bs wl) in
      do! upd_target p (set_unsafe false) in
      do! target_add_commands p kinetis_cmd_list (str name) in
      ret true
  end.

(** ** Flash *)
Definition errors : Z := Z.lor FTFA_FSTAT_ACCERR FTFA_FSTAT_FPVIOL.
Definition ccif_body p (_ : unit) : MW (unit + unit) :=
  let! fstat := rd8 p FTFA_FSTAT in
  ret (if flag fstat FTFA_FSTAT_CCIF then inr tt else inl tt).
Definition run_body p (_ : unit) : MW (unit + bool) :=
  let! fstat := rd8 p FTFA_FSTAT in
  ret (if flag fstat errors then inr false else if flag fstat FTFA_FSTAT_CCIF then inr true else inl tt).
Definition kl_gen_command p (cmd addr : Z) (data : option (Z * Z)) : MW bool :=
  do! wr8 p FTFA_FSTAT errors in
  do! iter polls (ccif_body p) tt in
  do! wr32 p FTFA_FCCOB_0 (Z.lor (Z.land addr 0xffffff) (Z.shiftl cmd 24)) in
  do! match data with
      | Some (d0, d1) => do! wr32 p FTFA_FCCOB_1 d0 in wr32 p FTFA_FCCOB_2 d1
      | None => ret tt
      end in
  do! wr8 p FTFA_FSTAT FTFA_FSTAT_CCIF in
  iter polls (run_body p) tt.
Definition erase_sector_body p (f : target_flash) (st : Z * Z) : MW (Z * Z + Z) :=
  let '(addr, len) := st in
  if len =? 0 then ret (inr 0) else
  let! ok := kl_gen_command p FTFA_CMD_ERASE_SECTOR addr None in
  ret (if ok : bool then inl (u32 (addr + blocksize f), if blocksize f <? len then len - blocksize f else 0) else inr 1).
Definition sector_rounds (f : target_flash) (len : Z) : nat := S (S (Z.to_nat (len / blocksize f))).
Definition kl_gen_flash_erase p (f : target_flash) (addr len : Z) : MW Z :=
  iter (sector_rounds f len) (erase_sector_body p f) (addr, len).
(** The two words at an offset of the buffer. *)
Definition two_words (src : list Z) (off : nat) : Z * Z :=
  let b := drop off (src ++ behind) in (le_val (take 4 b), le_val (take 4 (drop 4 b))).
Definition write_body p (f : target_flash) (cmd : Z) (src : list Z) (st : Z * Z * nat) : MW (Z * Z * nat + Z) :=
  let '(dest, len, off) := st in
  if len =? 0 then ret (inr 0) else
  let! ok := kl_gen_command p cmd dest (Some (two_words src off)) in
  ret (if ok : bool then
         inl (u32 (dest + write_len f), if write_len f <? len then len - write_len f else 0, (off + Z.to_nat (write_len f))%nat)
       else inr 1).
Definition write_rounds (f : target_flash) (len : Z) : nat := S (S (Z.to_nat (len / write_len f))).
Definition kl_gen_flash_write p (f : target_flash) (dest : Z) (src : list Z) : MW Z :=
  let! t := load_target p in
  let src := keep_unsecured (unsafe_enabled t) FLASH_SECURITY_BYTE_ADDRESS dest src in
  let cmd := if write_len f =? K64_WRITE_LEN then FTFE_CMD_PROGRAM_PHRASE else FTFA_CMD_PROGRAM_LONGWORD in
  iter (write_rounds f (zlen src)) (write_body p f cmd src) (dest, zlen src, O).
Definition unsecured (v : Z) : Z := Z.lor (Z.land v 0xffffff00) FLASH_SECURITY_BYTE_UNSECURED.
Definition kl_gen_flash_done p (f : target_flash) : MW Z :=
  let! t := load_target p in
  if unsafe_enabled t then ret 0 else
  let! b := rd8 p FLASH_SECURITY_BYTE_ADDRESS in
  if b =? FLASH_SECURITY_BYTE_UNSECURED then ret 0 else
  do! (if write_len f =? 8 then
         let! v0 := target_mem_read32 (Some p) (FLASH_SECURITY_BYTE_ADDRESS - 4) in
         let! v1 := target_mem_read32 (Some p) FLASH_SECURITY_BYTE_ADDRESS in
         kl_gen_command p FTFE_CMD_PROGRAM_PHRASE (FLASH_SECURITY_BYTE_ADDRESS - 4) (Some (v0, unsecured v1))
       else
         let! v0 := target_mem_read32 (Some p) FLASH_SECURITY_BYTE_ADDRESS in
         kl_gen_command p FTFA_CMD_PROGRAM_LONGWORD FLASH_SECURITY_BYTE_ADDRESS (Some (unsecured v0, 0))) in
  ret 0.
Definition kinetis_device : device D := {|
  dv_attach _ := None; dv_detach _ := None;
  dv_command := fn_table [("kinetis_cmd_unsafe"%string, kinetis_cmd_unsafe)];
  dv_erase := fn_table [("kl_gen_flash_erase"%string, kl_gen_flash_erase)];
  dv_write := fn_table [("kl_gen_flash_write"%string, kl_gen_flash_write)];
  dv_done := fn_table [("kl_gen_flash_write"%string, kl_gen_flash_done)] |}.
End Kinetis.
