(* ===== verification/Nxpke04.v ===== *)
(** target/nxpke04.c: the NXP Kinetis KE04 parts. *)

From Stdlib Require Import ZArith Lia String.
From stdpp Require Import base list numbers option gmap.
From S2P Require Import Prelude CLib GdbIf MemManager GdbPacket TargetState Target Platform Command Cortexm FlashDev Kinetis.

Definition RAM_BASE_ADDR : Z := 0x20000000.
Definition FLASH_BASE_ADDR : Z := 0x00000000.
Definition SIM_SRSID : Z := 0x40048000.
Definition SRSID_KE04_MASK : Z := 0xFF00.
Definition SRSID_KE04_FAMILY : Z := 0x0400.
Definition SRSID_PIN_MASK : Z := 0x000F.
Definition SRSID_PIN_16 : Z := 0x0001.
Definition SRSID_PIN_20 : Z := 0x0002.
Definition SRSID_PIN_24 : Z := 0x0003.
Definition SRSID_PIN_44 : Z := 0x0005.
Definition SRSID_PIN_64 : Z := 0x0007.
Definition SRSID_PIN_80 : Z := 0x0008.
Definition FTMRE_BASE : Z := 0x40020000.
Definition FTMRE_FCCOBIX : Z := FTMRE_BASE + 0x01.
Definition FTMRE_FCLKDIV : Z := FTMRE_BASE + 0x03.
Definition FTMRE_FSTAT : Z := FTMRE_BASE + 0x05.
Definition FTMRE_FCCOB : Z := FTMRE_BASE + 0x08.
Definition FTMRE_FSTAT_CCIF : Z := 0x80.
Definition FTMRE_FSTAT_ACCERR : Z := 0x20.
Definition FTMRE_FSTAT_FPVIOL : Z := 0x10.
Definition CMD_PROGRAM_FLASH_32 : Z := 0x00.
Definition CMD_PROGRAM_FLASH : Z := 0x06.
Definition CMD_ERASE_ALL_BLOCKS : Z := 0x08.
Definition CMD_ERASE_FLASH_SECTOR : Z := 0x0A.
Definition KE04_WRITE_LEN : Z := 8.
Definition KE04_SECTOR_SIZE : Z := 0x200.
Definition FLASH_SECURITY_BYTE_ADDRESS : Z := 0x0000040E.
Definition FLASH_SECURITY_BYTE_UNSECURED : Z := 0xFE.
Definition FLASH_SECURITY_WORD_ADDRESS : Z := 0x0000040C.
(** The 16-bit words of each command. *)
Definition cmdLen : list Z := [4; 1; 2; 3; 6; 0; 6; 6; 1; 2; 2; 1; 5; 3; 3].
Definition ke_cmd_list : list command :=
  [cmd_entry "unsafe" "kinetis_cmd_unsafe" "Allow programming security byte (enable|disable)";
   cmd_entry "sector_erase" "ke04_cmd_sector_erase" "Erase sector containing given address";
   cmd_entry "mass_erase" "ke04_cmd_mass_erase" "Erase the whole flash"].

Section Nxpke04.
Context {D : Type} `{GdbIf D} `{MemIf D} `{Driver D}.
Notation MW := (M (world D)).
Variable polls : nat.
Implicit Type p : positive.
Local Notation rd8 p a := (target_mem_read8 (Some p) a).
Local Notation wr8 p a v := (target_mem_write8 (Some p) a v).
Local Notation wr16 p a v := (target_mem_write16 (Some p) a v).

(** ** The controller *)
Definition ke04_errors : Z := Z.lor FTMRE_FSTAT_ACCERR FTMRE_FSTAT_FPVIOL.
Definition ke04_idle_body p (_ : unit) : MW (unit + unit) :=
  let! fstat := rd8 p FTMRE_FSTAT in
  ret (if flag fstat FTMRE_FSTAT_CCIF then inr tt else inl tt).
Definition ke04_run_body p (_ : unit) : MW (unit + bool) :=
  let! fstat := rd8 p FTMRE_FSTAT in
  ret (if flag fstat ke04_errors then inr false else if flag fstat FTMRE_FSTAT_CCIF then inr true else inl tt).
Definition ke04_wait_idle p : MW unit := iter polls (ke04_idle_body p) tt.
Definition set_clock p : MW unit :=
  let! fclkdiv := rd8 p FTMRE_FCLKDIV in
  when (negb (Z.land fclkdiv 0x1F =? 0x17)) (do! ke04_wait_idle p in wr8 p FTMRE_FCLKDIV 0x17).
Definition fccob p (ix v : Z) : MW unit := do! wr8 p FTMRE_FCCOBIX ix in wr16 p FTMRE_FCCOB v.
(** The halfwords of the data from index [ix] of the command on. *)
Fixpoint send_data p (n : nat) (ix : Z) (data : list Z) : MW unit :=
  match n with
  | O => ret tt
  | S n' => do! fccob p ix (le_val (take 2 data)) in send_data p n' (ix + 1) (drop 2 data)
  end.
(** [data] is NULL for the commands that send none. *)
Definition ke04_command p (cmd addr : Z) (data : option (list Z)) : MW bool :=
  do! set_clock p in
  do! wr8 p FTMRE_FSTAT ke04_errors in
  do! ke04_wait_idle p in
  let addr := Z.land addr 0x00FFFFFF in
  let! n := deref (cmdLen !! Z.to_nat cmd) in
  let cmd := if cmd =? CMD_PROGRAM_FLASH_32 then CMD_PROGRAM_FLASH else cmd in
  do! fccob p 0 (Z.lor (Z.shiftl cmd 8) (Z.shiftr addr 16)) in
  do! when (1 <=? n) (fccob p 1 (Z.land addr 0xFFFF)) in
  let first := if 1 <=? n then 2 else 1 in
  do! match data with
      | Some d => send_data p (Z.to_nat (n - first)) first d
      | None => if first <? n then crash NullDeref else ret tt
      end in
  do! wr8 p FTMRE_FSTAT FTMRE_FSTAT_CCIF in
  iter polls (ke04_run_body p) tt.

(** ** Flash: both loops take whole steps from the length until it is 0 *)
Definition ke04_erase_body p (f : target_flash) (st : Z * Z) : MW (Z * Z + Z) :=
  let '(addr, len) := st in
  if len =? 0 then ret (inr 0) else
  let! ok := ke04_command p CMD_ERASE_FLASH_SECTOR addr None in
  ret (if ok : bool then inl (u32 (addr + blocksize f), u32 (len - blocksize f)) else inr 1).
Definition ke04_flash_erase p (f : target_flash) (addr len : Z) : MW Z :=
  iter (wrap_rounds (blocksize f) len) (ke04_erase_body p f) (addr, len).
Definition ke04_write_body p (st : Z * Z * list Z) : MW (Z * Z * list Z + Z) :=
  let '(dest, len, src) := st in
  if len =? 0 then ret (inr 0) else
  if zlen src <? KE04_WRITE_LEN then crash OutOfBounds else
  let! ok := ke04_command p CMD_PROGRAM_FLASH dest (Some src) in
  ret (if ok : bool then inl (u32 (dest + KE04_WRITE_LEN), u32 (len - KE04_WRITE_LEN), drop 8 src) else inr 1).
Definition ke04_flash_write p (f : target_flash) (dest : Z) (src : list Z) : MW Z :=
  let! t := load_target p in
  let src := keep_unsecured (unsafe_enabled t) FLASH_SECURITY_BYTE_ADDRESS dest src in
  iter (wrap_rounds KE04_WRITE_LEN (zlen src)) (ke04_write_body p) (dest, zlen src, src).
Definition ke04_flash_done p (f : target_flash) : MW Z :=
  let! t := load_target p in
  if unsafe_enabled t then ret 0 else
  let! b := rd8 p FLASH_SECURITY_BYTE_ADDRESS in
  if b =? FLASH_SECURITY_BYTE_UNSECURED then ret 0 else
  let! v := target_mem_read32 (Some p) FLASH_SECURITY_WORD_ADDRESS in
  let v := Z.lor (Z.land v 0xff00ffff) (Z.shiftl FLASH_SECURITY_BYTE_UNSECURED 16) in
  do! ke04_command p CMD_PROGRAM_FLASH_32 FLASH_SECURITY_WORD_ADDRESS (Some (le_bytes 4 v ++ le_bytes 4 0)) in
  ret 0.

(** ** Commands *)
Definition first_region p : MW target_flash := let! t := load_target p in let! (_, f) := deref (head (flash t)) in ret f.
Definition ke04_cmd_sector_erase p (argv : list (list Z)) : MW bool :=
  do! when (zlen argv <? 2) (tc_printf (Some p) (str "usage: monitor sector_erase <addr>" ++ nl)) in
  let! a := deref (argv !! 1%nat) in
  let '(addr, eos) := strtoul0_end a in
  if negb (zlen eos =? 0) then do! tc_printf (Some p) (str "Invalid sector address" ++ nl) in ret false else
  let! f := first_region p in
  if (addr <? f_start f) || (u32 (f_start f + f_length f) <=? addr) then
    do! tc_printf (Some p) (str "Invalid sector address" ++ nl) in ret false
  else
    do! ke04_command p CMD_ERASE_FLASH_SECTOR addr None in
    do! ke04_flash_done p f in
    ret true.
Definition ke04_cmd_mass_erase p (argv : list (list Z)) : MW bool :=
  do! ke04_command p CMD_ERASE_ALL_BLOCKS 0 None in
  let! t := load_target p in
  do! (if unsafe_enabled t then ret 0 else let! f := first_region p in ke04_flash_done p f) in
  ret true.

(** ** Probing *)

(** The name, the flash and the RAM of a part by its pins; the parts with more
    pins differ in whether an address of the larger one can be read. *)
Definition ke04_part p (pins : Z) : MW (option (string * Z * Z)) :=
  if (pins =? SRSID_PIN_16) || (pins =? SRSID_PIN_20) || (pins =? SRSID_PIN_24) then
    ret (Some ("Kinetis KE04Z8Vxxxx"%string, 0x2000, 0x400))
  else if (pins =? SRSID_PIN_44) || (pins =? SRSID_PIN_64) || (pins =? SRSID_PIN_80) then
    do! target_mem_read32 (Some p) 0x00010000 in
    let! e := target_check_error (Some p) in
    ret (Some (if e : bool then ("Kinetis KE04Z64Vxxxx"%string, 0x10000, 0x2000) else ("Kinetis KE04Z128Vxxxx"%string, 0x20000, 0x4000)))
  else ret None.
Definition ke04_region (size : Z) : target_flash :=
  with_done (flash_region FLASH_BASE_ADDR size KE04_SECTOR_SIZE (flash_fns "ke04_flash_erase" "ke04_flash_write") 0 0xff).
Definition ke04_probe p : MW bool :=
  let! v := target_mem_read32 (Some p) SIM_SRSID in
  let srsid := Z.shiftr v 16 in
  if negb (Z.land srsid SRSID_KE04_MASK =? SRSID_KE04_FAMILY) then ret false else
  let! part := ke04_part p (Z.land srsid SRSID_PIN_MASK) in
  match part with
  | None => ret false
  | Some (name, flashsize, ramsize) =>
      do! upd_target p (set_driver (str name)) in
      do! target_add_ram p (RAM_BASE_ADDR - ramsize / 4) (ramsize / 4) in
      do! target_add_ram p RAM_BASE_ADDR (ramsize / 4 * 3) in
      let! h := MemManager_Alloc sizeof_target_flash in
      match h with
      | None => ret false
      | Some h =>
          do! target_add_flash p h (ke04_region flashsize) in
          do! target_add_commands p ke_cmd_list (str name) in
          ret true
      end
  end.
Definition ke04_device : device D := {|
  dv_attach _ := None; dv_detach _ := None;
  dv_command := fn_table [("kinetis_cmd_unsafe"%string, kinetis_cmd_unsafe);
    ("ke04_cmd_sector_erase"%string, ke04_cmd_sector_erase); ("ke04_cmd_mass_erase"%string, ke04_cmd_mass_erase)];
  dv_erase := fn_table [("ke04_flash_erase"%string, ke04_flash_erase)];
  dv_write := fn_table [("ke04_flash_write"%string, ke04_flash_write)];
  dv_done := fn_table [("ke04_flash_write"%string, ke04_flash_done)] |}.
End Nxpke04.
