(* ===== verification/Msp432.v ===== *)
(** target/msp432.c: the TI MSP432P401 parts, whose flash is erased and
    programmed by routines in their ROM. *)

From Stdlib Require Import ZArith Lia String.
From stdpp Require Import base list numbers option gmap.
From S2P Require Import Prelude CLib GdbIf MemManager GdbPacket TargetState Target Command Cortexm FlashDev.

Definition DEVINFO_TAG_ADDR : Z := 0x00201004.
Definition DEVINFO_TAG_VALUE : Z := 0x0000000B.
Definition DEVINFO_LEN_ADDR : Z := 0x00201008.
Definition DEVINFO_LEN_VALUE : Z := 0x00000004.
Definition DEVID_ADDR : Z := 0x0020100C.
Definition DEVID_MSP432P401RIPZ : Z := 0x0000A000.
Definition DEVID_MSP432P401MIPZ : Z := 0x0000A001.
Definition DEVID_MSP432P401RIZXH : Z := 0x0000A002.
Definition DEVID_MSP432P401MIZXH : Z := 0x0000A003.
Definition DEVID_MSP432P401RIRGC : Z := 0x0000A004.
Definition DEVID_MSP432P401MIRGC : Z := 0x0000A005.
Definition HWREV_ADDR : Z := 0x00201010.
Definition HWREV_MIN_VALUE : Z := 0x00000043.
Definition ROM_APITABLE : Z := 0x02000800.
Definition OFS_FLASHCTLTABLE : Z := 28.
Definition OFS_FlashCtl_eraseSector : Z := 36.
Definition OFS_FlashCtl_programMemory : Z := 40.
Definition MAIN_FLASH_BASE : Z := 0x00000000.
Definition INFO_FLASH_BASE : Z := 0x00200000.
Definition INFO_BANK_SIZE : Z := 0x00002000.
Definition SECTOR_SIZE : Z := 0x1000.
Definition INFO_BANK0_WEPROT : Z := 0x400110B0.
Definition MAIN_BANK0_WEPROT : Z := 0x400110B4.
Definition INFO_BANK1_WEPROT : Z := 0x400110C0.
Definition MAIN_BANK1_WEPROT : Z := 0x400110C4.
Definition SYS_SRAM_SIZE : Z := 0xE0043010.
Definition SYS_FLASH_SIZE : Z := 0xE0043020.
Definition TARGET_SRAM_BASE : Z := 0x20000000.
Definition SRAM_CODE_BASE : Z := 0x01000000.
Definition SRAM_STACK_OFFSET : Z := 0x00000200.
Definition SRAM_STACK_PTR : Z := TARGET_SRAM_BASE + SRAM_STACK_OFFSET.
Definition SRAM_WRITE_BUFFER : Z := SRAM_STACK_PTR.
Definition SRAM_WRITE_BUF_SIZE : Z := 0x00000400.
Definition WDT_A_WTDCTL : Z := 0x4000480C.
Definition WDT_A_HOLD : Z := 0x5A88.
Definition ARM_THUMB_BREAKPOINT : Z := 0xbe00.
Definition msp432_cmd_list : list command :=
  [cmd_entry "erase" "msp432_cmd_erase_main" "Erase main flash";
   cmd_entry "sector_erase" "msp432_cmd_sector_erase" "Erase sector containing given address"].

(** A region knows its protection register and the routines in ROM. *)
Definition sizeof_msp432_flash : Z := sizeof_target_flash + 12.
Definition flash_protect_register (f : target_flash) : Z := extra 0 f.
Definition FlashCtl_eraseSector (f : target_flash) : Z := extra 1 f.
Definition FlashCtl_programMemory (f : target_flash) : Z := extra 2 f.
Definition msp432_name (id : Z) : option (list Z) :=
  if existsb (Z.eqb id) [DEVID_MSP432P401RIPZ; DEVID_MSP432P401RIZXH; DEVID_MSP432P401RIRGC] then
    Some (str "MSP432P401R 256KB Flash 64KB RAM")
  else if existsb (Z.eqb id) [DEVID_MSP432P401MIPZ; DEVID_MSP432P401MIZXH; DEVID_MSP432P401MIRGC] then
    Some (str "MSP432P401M 128KB Flash 32KB RAM")
  else None.

Section Msp432.
Context {D : Type} `{GdbIf D} `{MemIf D} `{Driver D}.
Notation MW := (M (world D)).
Variable polls : nat.
Implicit Type p : positive.
Local Notation rd32 p a := (target_mem_read32 (Some p) a).
Local Notation wr32 p a v := (target_mem_write32 (Some p) a v).

(** ** Probing *)
Definition msp432_add_flash p (addr length prot_reg : Z) : MW unit :=
  let! h := MemManager_Alloc sizeof_msp432_flash in
  match h with
  | None => ret tt
  | Some h =>
      do! target_add_flash p h (flash_region addr length SECTOR_SIZE (flash_fns "msp432_flash_erase" "msp432_flash_write")
                                  SRAM_WRITE_BUF_SIZE 0xff) in
      let! flashctltable := rd32 p (ROM_APITABLE + OFS_FLASHCTLTABLE) in
      let! er := rd32 p (u32 (flashctltable + OFS_FlashCtl_eraseSector)) in
      let! pr := rd32 p (u32 (flashctltable + OFS_FlashCtl_programMemory)) in
      upd_region p h (with_extra [prot_reg; er; pr])
  end.
Definition msp432_probe p : MW bool :=
  let! tag := rd32 p DEVINFO_TAG_ADDR in
  if negb (tag =? DEVINFO_TAG_VALUE) then ret false else
  let! len := rd32 p DEVINFO_LEN_ADDR in
  if negb (len =? DEVINFO_LEN_VALUE) then ret false else
  let! rev := rd32 p HWREV_ADDR in
  if rev <? HWREV_MIN_VALUE then ret false else
  let! id := rd32 p DEVID_ADDR in
  match msp432_name id with
  | None => ret false
  | Some name =>
      do! upd_target p (set_driver name) in
      let! ram := rd32 p SYS_SRAM_SIZE in
      do! target_add_ram p TARGET_SRAM_BASE ram in
      let! fsize := rd32 p SYS_FLASH_SIZE in
      let banksize := fsize / 2 in
      do! msp432_add_flash p MAIN_FLASH_BASE banksize MAIN_BANK0_WEPROT in
      do! msp432_add_flash p (MAIN_FLASH_BASE + banksize) banksize MAIN_BANK1_WEPROT in
      do! msp432_add_flash p INFO_FLASH_BASE INFO_BANK_SIZE INFO_BANK0_WEPROT in
      do! msp432_add_flash p (INFO_FLASH_BASE + INFO_BANK_SIZE) INFO_BANK_SIZE INFO_BANK1_WEPROT in
      do! target_add_commands p msp432_cmd_list (str "MSP432P401x") in
      ret true
  end.

(** ** Calls into the ROM *)

(** The registers after the call. *)
Definition msp432_call_ROM p (address : Z) (regs : list Z) : MW (list Z) :=
  do! target_mem_write16 (Some p) WDT_A_WTDCTL WDT_A_HOLD in
  do! target_mem_write16 (Some p) SRAM_CODE_BASE ARM_THUMB_BREAKPOINT in
  let! regs := word_set regs REG_MSP SRAM_STACK_PTR in
  let! regs := word_set regs REG_LR (Z.lor SRAM_CODE_BASE 1) in
  let! regs := word_set regs REG_PC address in
  do! target_regs_write polls (Some p) (words_bytes regs) in
  do! target_halt_resume (Some p) false in
  do! wait_halt polls p in
  let! regs := target_regs_read polls (Some p) in
  ret (bytes_words regs).
Definition read_regs p : MW (list Z) := let! regs := target_regs_read polls (Some p) in ret (bytes_words regs).
Definition msp432_sector_unprotect p (f : target_flash) (addr : Z) : MW Z :=
  let! old_mask := rd32 p (flash_protect_register f) in
  let sector := u32 (addr - f_start f) / SECTOR_SIZE in
  do! wr32 p (flash_protect_register f) (Z.land (u32 (Z.lnot (Z.shiftl 1 sector))) old_mask) in
  ret old_mask.
(** 0 where the routine reports success. *)
Definition msp432_sector_erase p (f : target_flash) (addr : Z) : MW bool :=
  let! old_prot := msp432_sector_unprotect p f addr in
  do! rd32 p (flash_protect_register f) in
  let! regs := read_regs p in
  let! regs := word_set regs 0 addr in
  let! regs := msp432_call_ROM p (FlashCtl_eraseSector f) regs in
  do! wr32 p (flash_protect_register f) old_prot in
  let! r0 := word_get regs 0 in
  ret (r0 =? 0).
(** The address stays what it is, and the length loses a sector twice. *)
Definition erase_sector_body p (f : target_flash) (addr : Z) (st : Z * Z) : MW (Z * Z + Z) :=
  let '(len, r) := st in
  if len =? 0 then ret (inr r) else
  let! bad := msp432_sector_erase p f addr in
  let len := u32 (len - blocksize f) in
  ret (inl (if blocksize f <? len then len - blocksize f else 0, Z.lor r (Z.b2z bad))).
(** The first step may wrap a length that is less than a sector. *)
Definition sector_rounds (f : target_flash) : nat := S (S (Z.to_nat (2 ^ 32 / blocksize f))).
Definition msp432_flash_erase p (f : target_flash) (addr len : Z) : MW Z :=
  iter (sector_rounds f) (erase_sector_body p f addr) (len, 0).
Definition msp432_flash_write p (f : target_flash) (dest : Z) (src : list Z) : MW Z :=
  do! target_mem_write (Some p) SRAM_WRITE_BUFFER src in
  let! old_prot := msp432_sector_unprotect p f dest in
  do! rd32 p (flash_protect_register f) in
  let! regs := read_regs p in
  let! regs := word_set regs 0 SRAM_WRITE_BUFFER in
  let! regs := word_set regs 1 dest in
  let! regs := word_set regs 2 (zlen src) in
  let! regs := msp432_call_ROM p (FlashCtl_programMemory f) regs in
  do! wr32 p (flash_protect_register f) old_prot in
  let! r0 := word_get regs 0 in
  ret (Z.b2z (r0 =? 0)).

(** ** Commands *)
Definition get_target_flash p (addr : Z) : MW (option target_flash) :=
  let! t := load_target p in
  ret (snd <$> List.find (fun '(_, f) => (f_start f <=? addr) && (addr <? u32 (f_start f + f_length f))) (flash t)).
Definition erase_bank p (addr banksize : Z) : MW bool :=
  let! f := get_target_flash p addr in
  let! f := deref f in
  let! r := msp432_flash_erase p f addr banksize in
  ret (negb (r =? 0)).
Definition msp432_cmd_erase_main p (argv : list (list Z)) : MW bool :=
  let! fsize := rd32 p SYS_FLASH_SIZE in
  let banksize := fsize / 2 in
  let! r1 := erase_bank p MAIN_FLASH_BASE banksize in
  let! r2 := erase_bank p (MAIN_FLASH_BASE + banksize) banksize in
  ret (r1 || r2).
Definition msp432_cmd_sector_erase p (argv : list (list Z)) : MW bool :=
  do! when (zlen argv <? 2) (tc_printf (Some p) (str "usage: monitor sector_erase <addr>" ++ nl)) in
  let! a := deref (argv !! 1%nat) in
  let addr := strtoul0 a in
  let! f := get_target_flash p addr in
  match f with
  | Some f => msp432_sector_erase p f addr
  | None => do! tc_printf (Some p) (str "Invalid sector address" ++ nl) in ret false
  end.
Definition msp432_device : device D := {|
  dv_attach _ := None; dv_detach _ := None;
  dv_command := fn_table [("msp432_cmd_erase_main"%string, msp432_cmd_erase_main); ("msp432_cmd_sector_erase"%string, msp432_cmd_sector_erase)];
  dv_erase := fn_table [("msp432_flash_erase"%string, msp432_flash_erase)];
  dv_write := fn_table [("msp432_flash_write"%string, msp432_flash_write)];
  dv_done _ := None |}.
End Msp432.
