(* ===== verification/Efm32.v ===== *)
(** target/efm32.c: the Silicon Labs EFM32, EFR32 and EZR32 parts (their
    recovery access port is in Recovery). *)

From Stdlib Require Import ZArith Lia String.
From stdpp Require Import base list numbers option gmap.
From S2P Require Import Prelude CLib GdbIf MemManager GdbPacket TargetState Target Command Objects Cortexm FlashDev.

Definition TARGET_SRAM_BASE : Z := 0x20000000.
(** flashstub/efm32.stub. *)
Definition efm32_flash_write_stub : list Z :=
  [0x4D11; 0x243C; 0x42AB; 0xD000; 0x3404; 0x4D10; 0x18E4; 0x6025; 0x2401; 0x2500; 0x2608; 0x0892; 0x609C; 0x0092; 0x4295; 0xD100;
   0xBE00; 0x1947; 0x611F; 0x60DC; 0x271C; 0x46BC; 0x69DF; 0x449C; 0x4237; 0xD0F9; 0x594F; 0x619F; 0x60DE; 0x4667; 0x683F; 0x4227;
   0xD1FB; 0x3504; 0xE7EA; 0x46C0; 0x0000; 0x400C; 0x1B71; 0x0000].
Definition stub_bytes : list Z := concat (le_bytes 2 <$> efm32_flash_write_stub).
Definition ALIGN (x n : Z) : Z := Z.land (x + n - 1) (u32 (Z.lnot (n - 1))).
Definition STUB_BUFFER_BASE : Z := ALIGN (TARGET_SRAM_BASE + zlen stub_bytes) 4.
Definition efm32_cmd_list : list command :=
  [cmd_entry "erase_mass" "efm32_cmd_erase_all" "Erase entire flash memory";
   cmd_entry "serial" "efm32_cmd_serial" "Prints unique number";
   cmd_entry "efm_info" "efm32_cmd_efm_info" "Prints information about the device";
   cmd_entry "bootloader" "efm32_cmd_bootloader" "Bootloader status in CLW0"].
Definition EFM32_MSC_WRITECTRL (msc : Z) : Z := msc + 0x008.
Definition EFM32_MSC_WRITECMD (msc : Z) : Z := msc + 0x00c.
Definition EFM32_MSC_ADDRB (msc : Z) : Z := msc + 0x010.
Definition EFM32_MSC_WDATA (msc : Z) : Z := msc + 0x018.
Definition EFM32_MSC_STATUS (msc : Z) : Z := msc + 0x01c.
Definition EFM32_MSC_IF (msc : Z) : Z := msc + 0x030.
Definition EFM32_MSC_LOCK (msc : Z) : Z := msc + (if msc =? 0x400c0000 then 0x3c else 0x40).
Definition EFM32_MSC_MASSLOCK (msc : Z) : Z := msc + 0x054.
Definition EFM32_MSC_LOCK_LOCKKEY : Z := 0x1b71.
Definition EFM32_MSC_MASSLOCK_LOCKKEY : Z := 0x631a.
Definition EFM32_MSC_WRITECMD_LADDRIM : Z := 1.
Definition EFM32_MSC_WRITECMD_ERASEPAGE : Z := 2.
Definition EFM32_MSC_WRITECMD_WRITEONCE : Z := 8.
Definition EFM32_MSC_WRITECMD_ERASEMAIN0 : Z := 0x100.
Definition EFM32_MSC_STATUS_BUSY : Z := 1.
Definition EFM32_INFO : Z := 0x0fe00000.
Definition EFM32_LOCK_BITS : Z := EFM32_INFO + 0x4000.
Definition EFM32_V1_DI : Z := EFM32_INFO + 0x8000.
Definition EFM32_V2_DI : Z := EFM32_INFO + 0x81B0.
Definition EFM32_LOCK_BITS_CLW0 : Z := EFM32_LOCK_BITS + 4 * 122.
Definition EFM32_CLW0_BOOTLOADER_ENABLE : Z := 2.
Definition EFM32_V1_DI_RADIO_OPN : Z := EFM32_V1_DI + 0x1AE.
Definition EFM32_V1_DI_MEM_INFO_PAGE_SIZE : Z := EFM32_V1_DI + 0x1E7.
Definition EFM32_V1_DI_EUI64_0 : Z := EFM32_V1_DI + 0x1F0.
Definition EFM32_V1_DI_EUI64_1 : Z := EFM32_V1_DI + 0x1F4.
Definition EFM32_V1_DI_MEM_INFO_FLASH : Z := EFM32_V1_DI + 0x1F8.
Definition EFM32_V1_DI_MEM_INFO_RAM : Z := EFM32_V1_DI + 0x1FA.
Definition EFM32_V1_DI_PART_NUMBER : Z := EFM32_V1_DI + 0x1FC.
Definition EFM32_V1_DI_PART_FAMILY : Z := EFM32_V1_DI + 0x1FE.
Definition EFM32_V1_DI_EUI_SILABS : Z := 0x000b57.
Definition EFM32_V2_DI_MEMINFO : Z := EFM32_V2_DI + 0x034.
Definition EFM32_V2_DI_UNIQUEL : Z := EFM32_V2_DI + 0x040.
Definition EFM32_V2_DI_UNIQUEH : Z := EFM32_V2_DI + 0x044.
Definition EFM32_V2_DI_MSIZE : Z := EFM32_V2_DI + 0x048.
Definition EFM32_V2_DI_PART : Z := EFM32_V2_DI + 0x04C.
Definition EFM32_V2_DI_EUI_ENERGYMICRO : Z := 0xd0cf5e.

(** ** The families *)
Record efm32_device_t := {
  family_id : Z; has_radio : bool; flash_page_size : Z; name : list Z; msc_addr : Z;
  user_data_size : Z; bootloader_size : Z; description : list Z;
}.
Definition dev (id : Z) (radio : bool) (page : Z) (n : string) (msc ud bl : Z) (d : string) : efm32_device_t :=
  {| family_id := id; has_radio := radio; flash_page_size := page; name := str n; msc_addr := msc;
     user_data_size := ud; bootloader_size := bl; description := str d |}.
Definition efm32_devices : list efm32_device_t :=
  [dev 71 false 512 "EFM32G" 0x400c0000 512 0 "Gecko";
   dev 72 false 2048 "EFM32GG" 0x400c0000 4096 0 "Giant Gecko";
   dev 73 false 512 "EFM32TG" 0x400c0000 512 0 "Tiny Gecko";
   dev 74 false 2048 "EFM32LG" 0x400c0000 2048 0 "Leopard Gecko";
   dev 75 false 2048 "EFM32WG" 0x400c0000 2048 0 "Wonder Gecko";
   dev 76 false 1024 "EFM32ZG" 0x400c0000 1024 0 "Zero Gecko";
   dev 77 false 1024 "EFM32HG" 0x400c0000 1024 0 "Happy Gecko";
   dev 120 true 2048 "EZR32WG" 0x400c0000 2048 0 "EZR Wonder Gecko";
   dev 121 true 2048 "EZR32LG" 0x400c0000 2048 0 "EZR Leopard Gecko";
   dev 122 true 1024 "EZR32HG" 0x400c0000 1024 0 "EZR Happy Gecko";
   dev 81 false 2048 "EFM32PG1B" 0x400e0000 2048 10240 "Pearl Gecko";
   dev 83 false 2048 "EFM32JG1B" 0x400e0000 2048 10240 "Jade Gecko";
   dev 85 false 2048 "EFM32PG12B" 0x400e0000 2048 32768 "Pearl Gecko 12";
   dev 87 false 2048 "EFM32JG12B" 0x400e0000 2048 32768 "Jade Gecko 12";
   dev 100 false 4096 "EFM32GG11B" 0x40000000 4096 32768 "Giant Gecko 11";
   dev 103 false 2048 "EFM32TG11B" 0x40000000 2048 18432 "Tiny Gecko 11";
   dev 106 false 2048 "EFM32GG12B" 0x40000000 2048 32768 "Giant Gecko 12";
   dev 16 true 2048 "EFR32MG1P" 0x400e0000 2048 10240 "Mighty Gecko";
   dev 17 true 2048 "EFR32MG1B" 0x400e0000 2048 10240 "Mighty Gecko";
   dev 18 true 2048 "EFR32MG1V" 0x400e0000 2048 10240 "Mighty Gecko";
   dev 19 true 2048 "EFR32BG1P" 0x400e0000 2048 10240 "Blue Gecko";
   dev 20 true 2048 "EFR32BG1B" 0x400e0000 2048 10240 "Blue Gecko";
   dev 21 true 2048 "EFR32BG1V" 0x400e0000 2048 10240 "Blue Gecko";
   dev 25 true 2048 "EFR32FG1P" 0x400e0000 2048 10240 "Flex Gecko";
   dev 26 true 2048 "EFR32FG1B" 0x400e0000 2048 10240 "Flex Gecko";
   dev 27 true 2048 "EFR32FG1V" 0x400e0000 2048 10240 "Flex Gecko";
   dev 28 true 2048 "EFR32MG12P" 0x400e0000 2048 32768 "Mighty Gecko";
   dev 29 true 2048 "EFR32MG12B" 0x400e0000 2048 32768 "Mighty Gecko";
   dev 30 true 2048 "EFR32MG12V" 0x400e0000 2048 32768 "Mighty Gecko";
   dev 31 true 2048 "EFR32BG12P" 0x400e0000 2048 32768 "Blue Gecko";
   dev 32 true 2048 "EFR32BG12B" 0x400e0000 2048 32768 "Blue Gecko";
   dev 33 true 2048 "EFR32BG12V" 0x400e0000 2048 32768 "Blue Gecko";
   dev 37 true 2048 "EFR32FG12P" 0x400e0000 2048 32768 "Flex Gecko";
   dev 38 true 2048 "EFR32FG12B" 0x400e0000 2048 32768 "Flex Gecko";
   dev 39 true 2048 "EFR32FG12V" 0x400e0000 2048 32768 "Flex Gecko";
   dev 40 true 2048 "EFR32MG13P" 0x400e0000 2048 16384 "Mighty Gecko";
   dev 41 true 2048 "EFR32MG13B" 0x400e0000 2048 16384 "Mighty Gecko";
   dev 42 true 2048 "EFR32MG13V" 0x400e0000 2048 16384 "Mighty Gecko";
   dev 43 true 2048 "EFR32BG13P" 0x400e0000 2048 16384 "Blue Gecko";
   dev 44 true 2048 "EFR32BG13B" 0x400e0000 2048 16384 "Blue Gecko";
   dev 45 true 2048 "EFR32BG13V" 0x400e0000 2048 16384 "Blue Gecko";
   dev 49 true 2048 "EFR32FG13P" 0x400e0000 2048 16384 "Flex Gecko";
   dev 50 true 2048 "EFR32FG13B" 0x400e0000 2048 16384 "Flex Gecko";
   dev 51 true 2048 "EFR32FG13V" 0x400e0000 2048 16384 "Flex Gecko";
   dev 52 true 2048 "EFR32MG14P" 0x400e0000 2048 16384 "Mighty Gecko";
   dev 53 true 2048 "EFR32MG14B" 0x400e0000 2048 16384 "Mighty Gecko";
   dev 54 true 2048 "EFR32MG14V" 0x400e0000 2048 16384 "Mighty Gecko";
   dev 55 true 2048 "EFR32BG14P" 0x400e0000 2048 16384 "Blue Gecko";
   dev 56 true 2048 "EFR32BG14B" 0x400e0000 2048 16384 "Blue Gecko";
   dev 57 true 2048 "EFR32BG14V" 0x400e0000 2048 16384 "Blue Gecko";
   dev 61 true 2048 "EFR32FG14P" 0x400e0000 2048 16384 "Flex Gecko";
   dev 62 true 2048 "EFR32FG14B" 0x400e0000 2048 16384 "Flex Gecko";
   dev 63 true 2048 "EFR32FG14V" 0x400e0000 2048 16384 "Flex Gecko"].
Definition efm32_v2_di_pkgtypes : list (Z * list Z) := [(74, str "WLCSP"); (76, str "BGA"); (77, str "QFN"); (81, str "QFxP")].
Definition efm32_v2_di_tempgrades : list (Z * list Z) :=
  [(0, str "-40 to 85degC"); (1, str "-40 to 125degC"); (2, str "-40 to 105degC"); (3, str "0 to 70degC")].
(** The last entry of a table with a key, as its loop leaves it. *)
Definition last_entry (k : Z) (l : list (Z * list Z)) : option (list Z) :=
  foldl (fun r '(i, n) => if i =? k then Some n else r) None l.
(** The index of the first device of a family. *)
Fixpoint index_of (fam : Z) (i : Z) (l : list efm32_device_t) : option Z :=
  match l with
  | [] => None
  | d :: l' => if family_id d =? fam then Some i else index_of fam (i + 1) l'
  end.
Definition efm32_get_device (index : Z) : option efm32_device_t :=
  if index <? 0 then None else efm32_devices !! Z.to_nat index.
Definition variant_string (di_version index part_number flash_kib : Z) (d : efm32_device_t) : list Z :=
  take 59 ([di_version + 48; 8; u8 index + 32; 8] ++ name d ++ [32] ++ fmt_d part_number ++ str " F" ++ fmt_d flash_kib ++ [32] ++ description d).

Section Efm32.
Context {D : Type} `{GdbIf D} `{MemIf D} `{Driver D} `{CortexmIf D}.
Notation MW := (M (world D)).
Variable polls : nat.
Implicit Type p : positive.
Local Notation rd32 p a := (target_mem_read32 (Some p) a).
Local Notation rd16 p a := (target_mem_read16 (Some p) a).
Local Notation rd8 p a := (target_mem_read8 (Some p) a).
Local Notation wr32 p a v := (target_mem_write32 (Some p) a v).
Local Notation say p t := (tc_printf (Some p) t).

(** ** The device information, of either version *)
Definition by_version (di_version : Z) (v1 v2 : MW Z) : MW Z :=
  if di_version =? 1 then v1 else if di_version =? 2 then v2 else ret 0.
Definition read64 p (high low : Z) : MW Z :=
  let! h := rd32 p high in let! l := rd32 p low in ret (Z.lor (Z.shiftl h 32) l).
Definition efm32_v1_read_eui64 p : MW Z := read64 p EFM32_V1_DI_EUI64_1 EFM32_V1_DI_EUI64_0.
Definition efm32_v2_read_unique p (di_version : Z) : MW Z :=
  if di_version =? 2 then read64 p EFM32_V2_DI_UNIQUEH EFM32_V2_DI_UNIQUEL else ret 0.
Definition efm32_read_flash_size p (di_version : Z) : MW Z :=
  by_version di_version (rd16 p EFM32_V1_DI_MEM_INFO_FLASH) (let! v := rd32 p EFM32_V2_DI_MSIZE in ret (Z.land v 0xFFFF)).
Definition efm32_read_ram_size p (di_version : Z) : MW Z :=
  by_version di_version (rd16 p EFM32_V1_DI_MEM_INFO_RAM) (let! v := rd32 p EFM32_V2_DI_MSIZE in ret (Z.land (Z.shiftr v 16) 0xFFFF)).
(** 1 shifted by the size read and 10; a shift by 32 or more leaves nothing on
    the probe. *)
Definition page_bytes (n : Z) : Z := u32 (Z.shiftl 1 (n + 10)).
Definition efm32_flash_page_size p (di_version : Z) : MW Z :=
  by_version di_version
    (let! v := rd8 p EFM32_V1_DI_MEM_INFO_PAGE_SIZE in ret (page_bytes v))
    (let! v := rd32 p EFM32_V2_DI_MEMINFO in ret (page_bytes (Z.land (Z.shiftr v 24) 0xFF))).
Definition efm32_read_part_number p (di_version : Z) : MW Z :=
  by_version di_version (rd8 p EFM32_V1_DI_PART_NUMBER) (let! v := rd32 p EFM32_V2_DI_PART in ret (Z.land v 0xFFFF)).
Definition efm32_read_part_family p (di_version : Z) : MW Z :=
  by_version di_version (rd8 p EFM32_V1_DI_PART_FAMILY) (let! v := rd32 p EFM32_V2_DI_PART in ret (Z.land (Z.shiftr v 16) 0xFF)).
Definition efm32_read_radio_part_number p (di_version : Z) : MW Z :=
  if di_version =? 1 then rd16 p EFM32_V1_DI_RADIO_OPN else ret 0.
(** Pins, package and temperature grade. *)
Definition efm32_v2_read_miscchip p (di_version : Z) : MW (Z * Z * Z) :=
  if di_version =? 2 then
    let! meminfo := rd32 p EFM32_V2_DI_MEMINFO in
    ret (Z.land (Z.shiftr meminfo 16) 0xFF, Z.land (Z.shiftr meminfo 8) 0xFF, Z.land meminfo 0xFF)
  else ret (0, 0, 0).

(** ** Probing *)
Definition efm32_add_flash p (addr length page_size : Z) : MW unit :=
  new_flash p (flash_region addr length page_size (flash_fns "efm32_flash_erase" "efm32_flash_write") page_size 0).
Definition efm32_lookup_device_index p (di_version : Z) : MW Z :=
  let! fam := efm32_read_part_family p di_version in
  ret (default 9999 (index_of fam 0 efm32_devices)).
(** The regions of a device, the optional ones where it has them. *)
Definition add_regions p (d : efm32_device_t) (flash_size : Z) : MW unit :=
  do! efm32_add_flash p 0 flash_size (flash_page_size d) in
  do! when (negb (user_data_size d =? 0)) (efm32_add_flash p 0x0fe00000 (user_data_size d) (flash_page_size d)) in
  when (negb (bootloader_size d =? 0)) (efm32_add_flash p 0x0fe10000 (bootloader_size d) (flash_page_size d)).
Definition efm32_probe p : MW bool :=
  let! dp := ci_dp p in
  if negb ((o_idcode dp =? 0x2BA01477) || (o_idcode dp =? 0x0BC11477)) then ret false else
  let! eui := efm32_v1_read_eui64 p in
  let oui24 := Z.land (Z.shiftr eui 40) 0xFFFFFF in
  let di_version := if oui24 =? EFM32_V1_DI_EUI_SILABS then 1 else if oui24 =? EFM32_V2_DI_EUI_ENERGYMICRO then 2 else 1 in
  let! index := efm32_lookup_device_index p di_version in
  if 127 - 32 <? index then ret false else
  let! d := deref (efm32_get_device index) in
  let! part_number := efm32_read_part_number p di_version in
  let! flash_kib := efm32_read_flash_size p di_version in
  let! ram_kib := efm32_read_ram_size p di_version in
  do! new_storage 60 p [] in
  do! upd_target p (fun t => set_options (Z.lor (target_options t) CORTEXM_TOPT_INHIBIT_SRST) t) in
  do! upd_target p (set_driver (variant_string di_version index part_number flash_kib d)) in
  do! say p (str "flash size " ++ fmt_d (flash_kib * 0x400) ++ str " page size " ++ fmt_d (flash_page_size d) ++ nl) in
  do! target_add_ram p TARGET_SRAM_BASE (ram_kib * 0x400) in
  do! add_regions p d (flash_kib * 0x400) in
  do! target_add_commands p efm32_cmd_list (str "EFM32") in
  ret true.

(** A character of the driver's name, in which the probe hides the version (0)
    and the index of the device (2). *)
Definition hidden p (i : nat) : MW Z :=
  let! t := load_target p in
  let! s := deref (driver t) in
  match (s ++ [0]) !! i with Some c => ret c | None => crash OutOfBounds end.
Definition device_of p : MW (option efm32_device_t) := let! c := hidden p 2 in ret (efm32_get_device (c - 32)).

(** ** Flash *)
Definition unlock p (msc : Z) : MW unit :=
  do! wr32 p (EFM32_MSC_LOCK msc) EFM32_MSC_LOCK_LOCKKEY in
  wr32 p (EFM32_MSC_WRITECTRL msc) 1.
Definition idle p (msc : Z) : MW bool :=
  let! v := while_busy polls p (EFM32_MSC_STATUS msc) (fun v => flag v EFM32_MSC_STATUS_BUSY) in ret (if v then true else false).
Definition load_address p (msc addr : Z) : MW unit :=
  do! wr32 p (EFM32_MSC_ADDRB msc) addr in
  wr32 p (EFM32_MSC_WRITECMD msc) EFM32_MSC_WRITECMD_LADDRIM.
Definition erase_row_body p (f : target_flash) (msc : Z) (st : Z * Z) : MW (Z * Z + Z) :=
  let '(addr, len) := st in
  if len =? 0 then ret (inr 0) else
  do! load_address p msc addr in
  do! wr32 p (EFM32_MSC_WRITECMD msc) EFM32_MSC_WRITECMD_ERASEPAGE in
  let! ok := idle p msc in
  ret (if ok : bool then inl (u32 (addr + blocksize f), if blocksize f <? len then len - blocksize f else 0) else inr (-1)).
Definition row_rounds (f : target_flash) (len : Z) : nat := S (S (Z.to_nat (len / blocksize f))).
(** 1, true, for a device that is not in the table. *)
Definition efm32_flash_erase p (f : target_flash) (addr len : Z) : MW Z :=
  let! d := device_of p in
  match d with
  | None => ret 1
  | Some d =>
      do! unlock p (msc_addr d) in
      iter (row_rounds f len) (erase_row_body p f (msc_addr d)) (addr, len)
  end.
Definition efm32_flash_write p (f : target_flash) (dest : Z) (src : list Z) : MW Z :=
  let! d := device_of p in
  match d with
  | None => ret 1
  | Some d =>
      do! target_mem_write (Some p) TARGET_SRAM_BASE stub_bytes in
      do! target_mem_write (Some p) STUB_BUFFER_BASE src in
      let! r := ci_run_stub p TARGET_SRAM_BASE dest STUB_BUFFER_BASE (zlen src) (msc_addr d) in
      do! rd32 p (EFM32_MSC_IF (msc_addr d)) in
      ret r
  end.

(** ** Commands *)
Definition with_device p (k : efm32_device_t -> MW bool) : MW bool :=
  let! d := device_of p in match d with None => ret true | Some d => k d end.
Definition efm32_cmd_erase_all p (argv : list (list Z)) : MW bool :=
  with_device p (fun d =>
    let msc := msc_addr d in
    do! wr32 p (EFM32_MSC_WRITECTRL msc) 1 in
    do! wr32 p (EFM32_MSC_MASSLOCK msc) EFM32_MSC_MASSLOCK_LOCKKEY in
    do! wr32 p (EFM32_MSC_WRITECMD msc) EFM32_MSC_WRITECMD_ERASEMAIN0 in
    let! ok := idle p msc in
    if negb ok then ret false else
    do! wr32 p (EFM32_MSC_MASSLOCK msc) 0 in
    do! say p (str "Erase successful!" ++ nl) in
    ret true).
Definition di_of p : MW Z := let! c := hidden p 0 in ret (u8 (c - 48)).
Definition efm32_cmd_serial p (argv : list (list Z)) : MW bool :=
  let! di_version := di_of p in
  let! unique := by_version di_version (efm32_v1_read_eui64 p) (efm32_v2_read_unique p di_version) in
  do! say p (str "Unique Number: 0x" ++ fmt_x 16 unique ++ nl) in
  ret true.
(** A package that is not in the table is a NULL pointer that is followed, a
    temperature grade that is not is a pointer never set. *)
Definition chip_info p (di_version : Z) : MW unit :=
  let! (pins, pkg, grade) := efm32_v2_read_miscchip p di_version in
  let! pkg := deref (last_entry pkg efm32_v2_di_pkgtypes) in
  do! say p (str "Package " ++ pkg ++ [32] ++ fmt_d pins ++ str " pins" ++ nl) in
  match last_entry grade efm32_v2_di_tempgrades with
  | None => crash UninitRead
  | Some grade => do! say p (str "Temperature grade " ++ grade ++ nl) in say p nl
  end.
Definition memory_info p (di_version : Z) (d : efm32_device_t) : MW unit :=
  let! part_number := efm32_read_part_number p di_version in
  let! flash_kib := efm32_read_flash_size p di_version in
  let! ram_kib := efm32_read_ram_size p di_version in
  let! reported := efm32_flash_page_size p di_version in
  do! say p (name d ++ [32] ++ fmt_d part_number ++ str " F" ++ fmt_d flash_kib ++ str " = " ++ description d ++ [32]
             ++ fmt_d flash_kib ++ str "kiB flash, " ++ fmt_d ram_kib ++ str "kiB ram" ++ nl) in
  do! say p (str "Device says flash page size is " ++ fmt_d (i32 reported) ++ str " bytes, we're using " ++ fmt_d (flash_page_size d)
             ++ str " bytes" ++ nl) in
  do! when (reported <? flash_page_size d) (say p (str "This is bad, flash writes may be corrupted" ++ nl)) in
  say p nl.
Definition radio_info p (di_version : Z) : MW unit :=
  let! n := efm32_read_radio_part_number p di_version in
  do! say p (str "Radio si" ++ fmt_d n ++ nl) in say p nl.
Definition di_text (di_version : Z) : option (list Z) :=
  if di_version =? 1 then Some (str "DI version 1 (silabs remix?) base 0x" ++ fmt_x 8 EFM32_V1_DI)
  else if di_version =? 2 then Some (str "DI version 2 (energy micro remix?) base 0x" ++ fmt_x 8 EFM32_V2_DI)
  else None.
Definition efm32_cmd_efm_info p (argv : list (list Z)) : MW bool :=
  let! di_version := di_of p in
  match di_text di_version with
  | None => do! say p (str "Bad DI version " ++ fmt_d di_version ++ str "! This driver doesn't know about this DI version" ++ nl) in ret true
  | Some text =>
      do! say p (text ++ nl ++ nl) in
      with_device p (fun d =>
        do! memory_info p di_version d in
        do! when (di_version =? 2) (chip_info p di_version) in
        do! when ((di_version =? 1) && has_radio d) (radio_info p di_version) in
        ret true)
  end.
Definition efm32_cmd_bootloader p (argv : list (list Z)) : MW bool :=
  with_device p (fun d =>
    let msc := msc_addr d in
    if bootloader_size d =? 0 then do! say p (str "This device has no bootloader." ++ nl) in ret false else
    let! clw0 := rd32 p EFM32_LOCK_BITS_CLW0 in
    if zlen argv =? 1 then
      do! say p (str "Bootloader " ++ (if flag clw0 EFM32_CLW0_BOOTLOADER_ENABLE then str "enabled" else str "disabled") ++ nl) in
      ret true
    else
      let! a := deref (argv !! 1%nat) in
      let clw0 := if nth 0 a 0 =? 101 then clw0 else Z.land clw0 (u32 (Z.lnot EFM32_CLW0_BOOTLOADER_ENABLE)) in
      do! unlock p msc in
      do! load_address p msc EFM32_LOCK_BITS_CLW0 in
      do! wr32 p (EFM32_MSC_WDATA msc) clw0 in
      do! wr32 p (EFM32_MSC_WRITECMD msc) EFM32_MSC_WRITECMD_WRITEONCE in
      idle p msc).
Definition efm32_device : device D := {|
  dv_attach _ := None; dv_detach _ := None;
  dv_command := fn_table [("efm32_cmd_erase_all"%string, efm32_cmd_erase_all); ("efm32_cmd_serial"%string, efm32_cmd_serial);
    ("efm32_cmd_efm_info"%string, efm32_cmd_efm_info); ("efm32_cmd_bootloader"%string, efm32_cmd_bootloader)];
  dv_erase := fn_table [("efm32_flash_erase"%string, efm32_flash_erase)];
  dv_write := fn_table [("efm32_flash_write"%string, efm32_flash_write)];
  dv_done _ := None |}.
End Efm32.
