(* ===== verification/Remote.v ===== *)
(** remote.c: the packets of the remote protocol, by which a debugger on the
    host uses the probe's wires and debug ports.  The functions of the debug
    port it works on, [remote_dp], are pointers that its own commands set; the
    access port functions are those of Adiv5 over it. *)

From Stdlib Require Import ZArith Lia String.
From stdpp Require Import base list numbers option.
From S2P Require Import Prelude CLib HexUtils GdbIf MemManager GdbPacket Command Dap Adiv5.

Definition REMOTE_HL_VERSION : Z := 1.
Definition REMOTE_ERROR_UNRECOGNISED : Z := 1.
Definition REMOTE_ERROR_WRONGLEN : Z := 2.
Definition REMOTE_RESP : Z := chr "&".
Definition REMOTE_START : Z := chr "A".
Definition REMOTE_TDITDO_TMS : Z := chr "D".
Definition REMOTE_TDITDO_NOTMS : Z := chr "d".
Definition REMOTE_IN_PAR : Z := chr "I".
Definition REMOTE_FREQ_SET : Z := chr "F".
Definition REMOTE_FREQ_GET : Z := chr "f".
Definition REMOTE_IN : Z := chr "i".
Definition REMOTE_NEXT : Z := chr "N".
Definition REMOTE_OUT_PAR : Z := chr "O".
Definition REMOTE_OUT : Z := chr "o".
Definition REMOTE_PWR_SET : Z := chr "P".
Definition REMOTE_PWR_GET : Z := chr "p".
Definition REMOTE_RESET : Z := chr "R".
Definition REMOTE_INIT : Z := chr "S".
Definition REMOTE_TMS : Z := chr "T".
Definition REMOTE_VOLTAGE : Z := chr "V".
Definition REMOTE_SRST_SET : Z := chr "Z".
Definition REMOTE_SRST_GET : Z := chr "z".
Definition REMOTE_ADD_JTAG_DEV : Z := chr "J".
Definition REMOTE_RESP_OK : Z := chr "K".
Definition REMOTE_RESP_PARERR : Z := chr "P".
Definition REMOTE_RESP_ERR : Z := chr "E".
Definition REMOTE_HL_CHECK : Z := chr "C".
Definition REMOTE_HL_PACKET : Z := chr "H".
Definition REMOTE_DP_READ : Z := chr "d".
Definition REMOTE_LOW_ACCESS : Z := chr "L".
Definition REMOTE_AP_READ : Z := chr "a".
Definition REMOTE_AP_WRITE : Z := chr "A".
Definition REMOTE_AP_MEM_READ : Z := chr "M".
Definition REMOTE_MEM_READ : Z := chr "h".
Definition REMOTE_MEM_WRITE_SIZED : Z := chr "H".
Definition REMOTE_AP_MEM_WRITE_SIZED : Z := chr "m".
Definition REMOTE_GEN_PACKET : Z := chr "G".
Definition REMOTE_SWDP_PACKET : Z := chr "S".
Definition REMOTE_JTAG_PACKET : Z := chr "J".
Definition PLATFORM_IDENT : list Z := str "(RubyLink) ".

(** ** The debug port

    [remote_dp]: a static variable, of which the initialiser sets only the
    access port functions.  [rd_kind]: whose functions dp_read, low_access and
    abort are; [rd_seq]: whether the four functions on the wires are set. *)
Inductive rdp_kind : Set := RemoteSwd | RemoteJtag.
Record remote_dp_t := {
  rd_tc : option nat;
  rd_kind : option rdp_kind;
  rd_seq : bool;
  rd_jd_index : Z;
  rd_fault : Z;
}.
Definition remote_dp : remote_dp_t := {| rd_tc := None; rd_kind := None; rd_seq := false; rd_jd_index := 0; rd_fault := 0 |}.
Definition set_rd_kind k d : remote_dp_t :=
  {| rd_tc := rd_tc d; rd_kind := k; rd_seq := rd_seq d; rd_jd_index := rd_jd_index d; rd_fault := rd_fault d |}.
Definition set_rd_seq b d : remote_dp_t :=
  {| rd_tc := rd_tc d; rd_kind := rd_kind d; rd_seq := b; rd_jd_index := rd_jd_index d; rd_fault := rd_fault d |}.
Definition set_rd_index n d : remote_dp_t :=
  {| rd_tc := rd_tc d; rd_kind := rd_kind d; rd_seq := rd_seq d; rd_jd_index := n; rd_fault := rd_fault d |}.
Definition set_rd_fault n d : remote_dp_t :=
  {| rd_tc := rd_tc d; rd_kind := rd_kind d; rd_seq := rd_seq d; rd_jd_index := rd_jd_index d; rd_fault := n |}.

(** The variable in the state, and the functions its pointers may lead to. *)
Class RemoteIf (W : Type) := {
  rdp : W -> remote_dp_t;
  put_rdp : remote_dp_t -> W -> W;
  seq_in : nat -> Z -> M W Z;                       (* controller, ticks *)
  seq_in_parity : nat -> Z -> M W (Z * bool);
  seq_out : nat -> Z -> Z -> M W unit;              (* controller, value, ticks *)
  seq_out_parity : nat -> Z -> Z -> M W unit;
  kind_read : rdp_kind -> Z -> M W Z;               (* address *)
  kind_low_access : rdp_kind -> Z -> Z -> Z -> M W Z;   (* RnW, address, value *)
  tc_jtagtap_init : nat -> M W unit;
}.

(** ** Numbers *)

(** [remotehston(limit, &packet[off])]: at most [n] digits are read, and
    nothing beyond the buffer. *)
Fixpoint hston {W} (packet : list Z) (n : nat) (off acc : Z) : M W Z :=
  match n with
  | O => ret acc
  | S n' =>
      let! c := load packet off in
      if negb (isxdigit c) then ret acc
      else hston packet n' (off + 1) (Z.lor (u64 (Z.shiftl acc 4)) (digit_val c))
  end.
Definition remotehston {W} (limit : nat) (packet : list Z) (off : Z) : M W Z := hston packet limit off 0.
(** A limit of -1: more digits than the buffer has. *)
Definition remotehston_all {W} (packet : list Z) (off : Z) : M W Z := remotehston (S (length packet)) packet off.
Definition NTOH (x : Z) : Z := if x <=? 9 then x + 48 else 97 + x - 10.
(** The digits of a number, the lowest first; there are sixteen at most. *)
Fixpoint nibbles (n : nat) (param : Z) : list Z :=
  match n with
  | O => []
  | S n' => NTOH (Z.land param 0x0f) :: (if Z.shiftr param 4 =? 0 then [] else nibbles n' (Z.shiftr param 4))
  end.

Section Remote.
Context {W : Type} `{GdbIf W} `{RemoteIf W}.
Notation MW := (M W).

Definition get_rdp : MW remote_dp_t := let! w := get in ret (rdp w).
Definition upd_rdp (f : remote_dp_t -> remote_dp_t) : MW unit := modify (fun w => put_rdp (f (rdp w)) w).

(** ** Answers *)
Definition putchars (s : list Z) : MW unit := for_each s (fun c => gdb_if_putchar c false).
(** Two digits and a NUL are written to an array of two. *)
Definition send_byte (b : Z) : MW unit :=
  let! h := store_n (memset 2 0) 0 (hexify [b]) in putchars h.
Definition _send_buf (buffer : list Z) : MW unit :=
  match buffer with
  | [] => crash OutOfBounds           (* the first byte is sent before the length is looked at *)
  | _ => for_each buffer send_byte
  end.
Definition _respond_buf (respCode : Z) (buffer : list Z) : MW unit :=
  do! putchars [REMOTE_RESP; respCode] in
  do! _send_buf buffer in
  gdb_if_putchar REMOTE_EOM true.
Definition _respond (respCode param : Z) : MW unit :=
  do! putchars [REMOTE_RESP; respCode] in
  do! putchars (rev (nibbles 16 param)) in
  gdb_if_putchar REMOTE_EOM true.
Definition harmless (c : Z) : Z := if (c =? chr "$") || (c =? REMOTE_SOM) || (c =? REMOTE_EOM) then 32 else c.
Definition _respondS (respCode : Z) (s : list Z) : MW unit :=
  do! putchars [REMOTE_RESP; respCode] in
  do! putchars (harmless <$> cstr s) in
  gdb_if_putchar REMOTE_EOM true.
Definition unrecognised : MW unit := _respond REMOTE_RESP_ERR REMOTE_ERROR_UNRECOGNISED.
Definition wronglen : MW unit := _respond REMOTE_RESP_ERR REMOTE_ERROR_WRONGLEN.
Definition fine : MW unit := _respond REMOTE_RESP_OK 0.

(** ** SWD packets *)

(** A call of one of the wire functions: a NULL pointer until an
    initialisation has set it. *)
Definition wires {A} (f : nat -> MW A) : MW A :=
  let! d := get_rdp in
  if negb (rd_seq d) then crash NullDeref else let! c := deref (rd_tc d) in f c.
Definition swdptap_init : MW unit :=
  let! d := get_rdp in
  do! deref (rd_tc d) in
  upd_rdp (set_rd_seq true).
Definition remotePacketProcessSWD (i : Z) (packet : list Z) : MW unit :=
  let! c := load packet 1 in
  if c =? REMOTE_INIT then
    if i =? 2 then
      do! upd_rdp (set_rd_kind (Some RemoteSwd)) in
      do! swdptap_init in
      fine
    else wronglen
  else if c =? REMOTE_IN_PAR then
    let! ticks := remotehston 2 packet 2 in
    let! (param, bad) := wires (fun c => seq_in_parity c ticks) in
    _respond (if bad : bool then REMOTE_RESP_PARERR else REMOTE_RESP_OK) param
  else if c =? REMOTE_IN then
    let! ticks := remotehston 2 packet 2 in
    let! param := wires (fun c => seq_in c ticks) in
    _respond REMOTE_RESP_OK param
  else if c =? REMOTE_OUT then
    let! ticks := remotehston 2 packet 2 in
    let! param := remotehston_all packet 4 in
    do! wires (fun c => seq_out c (u32 param) ticks) in
    fine
  else if c =? REMOTE_OUT_PAR then
    let! ticks := remotehston 2 packet 2 in
    let! param := remotehston_all packet 4 in
    do! wires (fun c => seq_out_parity c (u32 param) ticks) in
    fine
  else unrecognised.

(** ** JTAG packets

    The functions are called through a local structure nothing is stored in;
    [jtag_add_device] does nothing. *)
Definition no_jtag_proc {A} : MW A := crash UninitRead.
Definition add_jtag_dev (packet : list Z) : MW unit :=
  do! for_each [2; 4; 6; 8; 10; 12] (fun off => do! remotehston 2 packet off in ret tt) in
  do! remotehston 8 packet 14 in
  fine.
Definition remotePacketProcessJTAG (i : Z) (packet : list Z) : MW unit :=
  let! c := load packet 1 in
  if c =? REMOTE_INIT then
    do! upd_rdp (set_rd_kind (Some RemoteJtag)) in
    let! d := get_rdp in
    let! tc := deref (rd_tc d) in
    do! tc_jtagtap_init tc in
    fine
  else if c =? REMOTE_RESET then do! no_jtag_proc (A := unit) in fine
  else if c =? REMOTE_TMS then
    do! remotehston 2 packet 2 in
    do! remotehston 2 packet 4 in
    if i <? 4 then wronglen else do! no_jtag_proc (A := unit) in fine
  else if (c =? REMOTE_TDITDO_TMS) || (c =? REMOTE_TDITDO_NOTMS) then
    if i <? 5 then wronglen else
    do! remotehston 2 packet 2 in
    do! remotehston_all packet 4 in
    let! d := no_jtag_proc in
    _respond REMOTE_RESP_OK d
  else if c =? REMOTE_NEXT then
    if negb (i =? 4) then wronglen else
    let! d := no_jtag_proc in
    _respond REMOTE_RESP_OK d
  else if c =? REMOTE_ADD_JTAG_DEV then
    if i <? 22 then wronglen else add_jtag_dev packet
  else unrecognised.

(** ** General packets: most of them are commented out *)
Definition remotePacketProcessGEN (i : Z) (packet : list Z) : MW unit :=
  let! c := load packet 1 in
  if c =? REMOTE_VOLTAGE then _respondS REMOTE_RESP_OK (str "not supported")
  else if c =? REMOTE_SRST_SET then fine
  else if existsb (Z.eqb c) [REMOTE_SRST_GET; REMOTE_FREQ_SET; REMOTE_FREQ_GET; REMOTE_PWR_SET; REMOTE_PWR_GET] then ret tt
  else if c =? REMOTE_START then _respondS REMOTE_RESP_OK (PLATFORM_IDENT ++ FIRMWARE_VERSION)
  else unrecognised.

(** ** High level packets: accesses to the debug port and to access ports *)

(** [remote_dp] as a debug port for adiv5.c. *)
Instance remote_dpif : DpIf W := {
  dp_low_access _ RnW addr value :=
    let! d := get_rdp in let! k := deref (rd_kind d) in kind_low_access k RnW addr value;
  dp_read _ addr := let! d := get_rdp in let! k := deref (rd_kind d) in kind_read k addr;
}.
(** Of the local access port only the number and the pointer to the port are
    set, and for two of the commands the control word. *)
Definition remote_ap (sel control : Z) : ADIv5_AP :=
  {| ap_refcnt := 0; ap_dp := 1%positive; apsel := sel; idr := 0; base := 0; csw := control;
     ap_cortexm_demcr := 0; ap_storage := 0; ap_designer := 0; ap_partno := 0 |}.
(** Where in the packet buffer its first double word is. *)
Variable pad : Z.
(** What the control word's place on the stack holds. *)
Variable stale : Z.
Definition report_fault (ok : MW unit) : MW unit :=
  let! d := get_rdp in
  if rd_fault d =? 0 then ok else
  do! _respond REMOTE_RESP_ERR 0 in
  upd_rdp (set_rd_fault 0).
(** The target's memory is read into the packet buffer. *)
Definition remote_mem_read (sel control : Z) (packet : list Z) (off : Z) : MW (list Z) :=
  let! address := remotehston 8 packet off in
  let! count := remotehston 8 packet (off + 8) in
  let! data := adiv5_mem_read (remote_ap sel control) (zdrop pad packet) address count in
  let packet := ztake pad packet ++ data in
  do! report_fault (_respond_buf REMOTE_RESP_OK (ztake count data)) in
  ret packet.
Definition remote_mem_write (sel control : Z) (packet : list Z) (off : Z) : MW (list Z) :=
  let! align := remotehston 2 packet off in
  let! dest := remotehston 8 packet (off + 2) in
  let! len := remotehston 8 packet (off + 10) in
  if negb (Z.land len (u32 (u32 (Z.shiftl 1 align) - 1)) =? 0) then do! _respond REMOTE_RESP_ERR 0 in ret packet else
  let! hex := load_n packet (off + 18) (2 * len) in
  let! packet := store_n packet pad (unhexify hex (Z.to_nat len)) in
  do! adiv5_mem_write_sized (remote_ap sel control) dest (zdrop pad packet) len align in
  do! report_fault fine in
  ret packet.
Definition remotePacketProcessHL (i : Z) (packet : list Z) : MW (list Z) :=
  let! index := load packet 1 in
  if index =? REMOTE_HL_CHECK then do! _respond REMOTE_RESP_OK REMOTE_HL_VERSION in ret packet else
  let! jd := remotehston 2 packet 2 in
  do! upd_rdp (set_rd_index jd) in
  let! sel := remotehston 2 packet 4 in
  let answer (m : MW Z) : MW (list Z) := let! data := m in do! _respond_buf REMOTE_RESP_OK (le_bytes 4 data) in ret packet in
  if index =? REMOTE_DP_READ then
    let! addr := remotehston 4 packet 6 in answer (adiv5_dp_read 1%positive addr)
  else if index =? REMOTE_LOW_ACCESS then
    let! addr := remotehston 4 packet 6 in
    let! value := remotehston 8 packet 10 in
    answer (dp_low_access 1%positive sel addr value)
  else if index =? REMOTE_AP_READ then
    let! addr := remotehston 4 packet 6 in answer (adiv5_ap_read (remote_ap sel stale) addr)
  else if index =? REMOTE_AP_WRITE then
    let! addr := remotehston 4 packet 6 in
    let! value := remotehston 8 packet 10 in
    do! adiv5_ap_write (remote_ap sel stale) addr value in
    do! fine in
    ret packet
  else if index =? REMOTE_AP_MEM_READ then
    let! control := remotehston 8 packet 6 in remote_mem_read sel control packet 14
  else if index =? REMOTE_MEM_READ then remote_mem_read sel stale packet 6
  else if index =? REMOTE_AP_MEM_WRITE_SIZED then
    let! control := remotehston 8 packet 6 in remote_mem_write sel control packet 14
  else if index =? REMOTE_MEM_WRITE_SIZED then remote_mem_write sel stale packet 6
  else do! unrecognised in ret packet.

Definition remotePacketProcess (i : Z) (packet : list Z) : MW (list Z) :=
  let! c := load packet 0 in
  if c =? REMOTE_SWDP_PACKET then do! remotePacketProcessSWD i packet in ret packet
  else if c =? REMOTE_JTAG_PACKET then do! remotePacketProcessJTAG i packet in ret packet
  else if c =? REMOTE_GEN_PACKET then do! remotePacketProcessGEN i packet in ret packet
  else if c =? REMOTE_HL_PACKET then remotePacketProcessHL i packet
  else do! unrecognised in ret packet.
End Remote.
