(* ===== verification/RemoteProps.v ===== *)
(** The theorems about remote.c: what a packet can do to the probe, and what
    its answers say. *)

From Stdlib Require Import ZArith Lia String.
From stdpp Require Import base list numbers option.
From S2P Require Import Prelude CLib HexUtils GdbIf MemManager GdbPacket Command Dap Adiv5 Remote.

(** ** The variable is memory of its own, beside the channel to the host *)
Class RemoteSpec (W : Type) `{GdbIfSpec W} `{RemoteIf W} := {
  rdp_put d w : rdp (put_rdp d w) = d;
  put_wf d w : if_wf w -> if_wf (put_rdp d w);
  put_rx d w : rx (put_rdp d w) = rx w;
  put_tx d w : tx (put_rdp d w) = tx w;
  rdp_putchar c f w w' : gdb_if_putchar c f w = Ok tt w' -> rdp w' = rdp w;
  rdp_getchar c w w' : gdb_if_getchar w = Ok c w' -> rdp w' = rdp w;
}.

(** No pointer of the debug port is set. *)
Definition unset (d : remote_dp_t) : Prop := rd_tc d = None /\ rd_kind d = None /\ rd_seq d = false.
(** What is undefined in a packet's handling. *)
Definition debug_fault (e : fault) : Prop := e = NullDeref \/ e = UninitRead \/ e = OutOfBounds.
(** A character that cannot be taken for the start or the end of a frame. *)
Definition inner (c : Z) : Prop := c <> SOP /\ c <> REMOTE_SOM /\ c <> REMOTE_EOM.
(** Nothing, or one frame. *)
Definition is_answer (s : list Z) : Prop :=
  s = [] \/ exists code text, s = REMOTE_RESP :: code :: text ++ [REMOTE_EOM] /\ Forall inner (code :: text).

Section Props.
Context {W : Type} {GI : GdbIf W} {GS : GdbIfSpec W} {RI : RemoteIf W} {RS : RemoteSpec W}.
Variables (pad stale : Z).
Implicit Types (w : W) (packet : list Z).

Definition closed w : Prop := if_wf w /\ unset (rdp w).
(** A run from a state in which no pointer is set ends, with the characters
    sent to the host in [Q] and still no pointer set, or is undefined. *)
Definition emits {A} (m : M W A) (Q : list Z -> A -> Prop) : Prop := forall w, closed w ->
  match m w with
  | Ok a w' => closed w' /\ rx w' = rx w /\ exists s, tx w' = tx w ++ s /\ Q s a
  | Fault e _ => debug_fault e
  | _ => False
  end.

Lemma emits_ret {A} (a : A) (Q : list Z -> A -> Prop) : Q [] a -> emits (ret a) Q.
Proof. intros HQ w Hw. cbn. split; [done|]. split; [done|]. exists []. by rewrite app_nil_r. Qed.
Lemma emits_bind {A B} (m : M W A) (f : A -> M W B) Q R :
  emits m Q -> (forall s a, Q s a -> emits (f a) (fun s' b => R (s ++ s') b)) -> emits (bind m f) R.
Proof.
  intros Hm Hf w Hw. specialize (Hm w Hw). unfold bind. destruct (m w) as [a w1| | |]; try done.
  destruct Hm as (Hc & Hr & s & Ht & HQ). specialize (Hf s a HQ w1 Hc). destruct (f a w1) as [b w2| | |]; try done.
  destruct Hf as (Hc2 & Hr2 & s2 & Ht2 & HR). split; [done|]. split; [congruence|]. exists (s ++ s2).
  split; [by rewrite Ht2, Ht, app_assoc|done].
Qed.
Lemma emits_mono {A} (m : M W A) (Q R : list Z -> A -> Prop) : emits m Q -> (forall s a, Q s a -> R s a) -> emits m R.
Proof.
  intros Hm HQ w Hw. specialize (Hm w Hw). destruct (m w); try done. destruct Hm as (? & ? & s & ? & ?).
  split; [done|]. split; [done|]. exists s. auto.
Qed.
(** What sends nothing may be put in front. *)
Lemma emits_silent {A B} (m : M W A) (f : A -> M W B) R :
  emits m (fun s _ => s = []) -> (forall a, emits (f a) R) -> emits (bind m f) R.
Proof. intros Hm Hf. eapply emits_bind; [exact Hm|]. intros s a ->. apply Hf. Qed.
Lemma emits_crash {A} e (Q : list Z -> A -> Prop) : debug_fault e -> emits (crash e) Q.
Proof. intros He w _. exact He. Qed.
Lemma emits_putchar c f : emits (gdb_if_putchar c f) (fun s _ => s = [u8 c]).
Proof.
  intros w [Hw Hu]. destruct (putchar_spec w c f Hw) as (w' & Hrun & Hw' & Hr & Ht). rewrite Hrun.
  split; [split; [done|by rewrite (rdp_putchar _ _ _ _ Hrun)]|]. split; [done|]. by exists [u8 c].
Qed.
Lemma emits_putchars l : emits (putchars l) (fun s _ => s = u8 <$> l).
Proof.
  induction l as [|c l IH]; [by apply emits_ret|]. eapply emits_bind; [apply emits_putchar|].
  intros s a ->. eapply emits_mono; [apply IH|]. by intros s' [] ->.
Qed.
Lemma emits_load l i : emits (load l i) (fun s _ => s = []).
Proof.
  unfold load. destruct (_ && _); [by apply emits_ret|]. apply emits_crash. by right; right.
Qed.
Lemma emits_load_n l i n : emits (load_n l i n) (fun s _ => s = []).
Proof. unfold load_n. destruct (_ && _); [by apply emits_ret|]. apply emits_crash. by right; right. Qed.
Lemma emits_store_n l i src : emits (store_n l i src) (fun s _ => s = []).
Proof. unfold store_n. destruct (_ && _); [by apply emits_ret|]. apply emits_crash. by right; right. Qed.
Lemma emits_hston packet n off acc : emits (hston packet n off acc) (fun s _ => s = []).
Proof.
  revert off acc. induction n as [|n IH]; intros off acc; [by apply emits_ret|]. cbn.
  apply emits_silent; [apply emits_load|]. intros c. destruct (negb _); [by apply emits_ret|apply IH].
Qed.
Lemma emits_remotehston n packet off : emits (remotehston n packet off) (fun s _ => s = []).
Proof. apply emits_hston. Qed.
Lemma emits_remotehston_all packet off : emits (remotehston_all packet off) (fun s _ => s = []).
Proof. apply emits_hston. Qed.
Lemma emits_upd f : (forall d, unset d -> unset (f d)) -> emits (upd_rdp f) (fun s _ => s = []).
Proof.
  intros Hf w [Hw Hu]. cbn. split; [|split; [by rewrite put_rx|exists []; by rewrite put_tx, app_nil_r]].
  split; [by apply put_wf|]. rewrite rdp_put. by apply Hf.
Qed.
Lemma emits_rdp : emits get_rdp (fun s d => s = [] /\ unset d).
Proof. intros w Hw. cbn. split; [done|]. split; [done|]. exists []. rewrite app_nil_r. split; [done|]. split; [done|apply Hw]. Qed.
Lemma emits_loop {A} (l : list A) (f : A -> M W unit) :
  (forall a, emits (f a) (fun s _ => s = [])) -> emits (for_each l f) (fun s _ => s = []).
Proof. intros Hf. induction l as [|a l IH]; [by apply emits_ret|]. by apply emits_silent. Qed.
(** The pointers are not set, so what goes through one is undefined. *)
Lemma emits_null {A B} (g : remote_dp_t -> option A) (f : A -> M W B) Q :
  (forall d, unset d -> g d = None) -> emits (bind get_rdp (fun d => bind (deref (g d)) f)) Q.
Proof.
  intros Hg. eapply emits_bind; [apply emits_rdp|]. intros s d [-> Hd]. rewrite (Hg d Hd). apply emits_crash. by left.
Qed.

(** ** Answers *)
Lemma inner_nibble x : inner (u8 (NTOH (Z.land x 15))).
Proof.
  assert (0 <= Z.land x 15 < 16) as Hx by (change 15 with (Z.ones 4); rewrite Z.land_ones by lia; apply Z.mod_pos_bound; lia).
  unfold NTOH, u8, wrap. destruct (Z.leb_spec (Z.land x 15) 9); rewrite Z.mod_small by lia;
    unfold inner, SOP, REMOTE_SOM, REMOTE_EOM; lia.
Qed.
Lemma inner_nibbles n x : Forall inner (u8 <$> nibbles n x).
Proof.
  revert x. induction n as [|n IH]; intros x; [by constructor|]. cbn. constructor; [apply inner_nibble|].
  destruct (_ =? 0); [by constructor|apply IH].
Qed.
Lemma inner_harmless s : is_bytes s -> Forall inner (u8 <$> (harmless <$> s)).
Proof.
  induction 1 as [|c s Hc Hs IH]; [by constructor|]. constructor; [|exact IH].
  unfold in_width in Hc. unfold harmless.
  destruct ((c =? chr "$") || (c =? REMOTE_SOM) || (c =? REMOTE_EOM)) eqn:E.
  - cbv. split_and!; discriminate.
  - apply orb_false_iff in E as [E E3]. apply orb_false_iff in E as [E1 E2].
    unfold u8, wrap. rewrite Z.mod_small by lia. unfold inner. change SOP with (chr "$"). lia.
Qed.
Lemma emits_frame code l f : inner (u8 code) -> Forall inner (u8 <$> l) ->
  emits (bind (putchars [REMOTE_RESP; code]) (fun _ => bind (putchars l) (fun _ => gdb_if_putchar REMOTE_EOM f)))
    (fun s _ => s = [REMOTE_RESP; u8 code] ++ (u8 <$> l) ++ [REMOTE_EOM]).
Proof.
  intros Hc Hl. eapply emits_bind; [apply emits_putchars|]. intros s ? ->.
  eapply emits_bind; [apply emits_putchars|]. intros s ? ->.
  eapply emits_mono; [apply emits_putchar|]. by intros s [] ->.
Qed.
Lemma answer_frame code l : inner (u8 code) -> Forall inner (u8 <$> l) ->
  is_answer ([REMOTE_RESP; u8 code] ++ (u8 <$> l) ++ [REMOTE_EOM]).
Proof. intros Hc Hl. right. exists (u8 code), (u8 <$> l). split; [done|by constructor]. Qed.
Definition answers {A} (s : list Z) (_ : A) : Prop := is_answer s.
(** ... and the packet buffer is as it was. *)
Definition answered (packet s packet' : list Z) : Prop := is_answer s /\ packet' = packet.
Lemma emits_respond code v : inner (u8 code) -> emits (_respond code v) answers.
Proof.
  intros Hc. assert (Forall inner (u8 <$> rev (nibbles 16 v))) as Hl.
  { apply Forall_fmap, Forall_rev, Forall_fmap, inner_nibbles. }
  eapply emits_mono; [by apply emits_frame|]. intros s [] ->. by apply answer_frame.
Qed.
Lemma cstr_bytes s : is_bytes s -> is_bytes (cstr s).
Proof. induction 1 as [|c s Hc Hs IH]; [done|]. cbn. destruct (c =? 0); by constructor. Qed.
Lemma emits_respondS code s : inner (u8 code) -> is_bytes s -> emits (_respondS code s) answers.
Proof.
  intros Hc Hs. pose proof (inner_harmless _ (cstr_bytes _ Hs)) as Hl.
  eapply emits_mono; [by apply emits_frame|]. intros r [] ->. by apply answer_frame.
Qed.

(** ** Packets *)
Notation SilentTo m := (emits m (fun s _ => s = [])).
Lemma emits_init k {A} (f : nat -> M W A) Q :
  emits (bind (upd_rdp (set_rd_kind k)) (fun _ => bind get_rdp (fun d => bind (deref (rd_tc d)) f))) Q.
Proof.
  intros w (Hw & Htc & _). cbn. rewrite rdp_put. cbn. rewrite Htc. by left.
Qed.
Lemma emits_swd_init k {A} (f : unit -> M W A) Q :
  emits (bind (upd_rdp (set_rd_kind k)) (fun _ => bind swdptap_init f)) Q.
Proof.
  intros w (Hw & Htc & _). unfold swdptap_init, bind. cbn. rewrite rdp_put. cbn. rewrite Htc. by left.
Qed.
(** What goes through an unset pointer ends there. *)
Lemma emits_dead {A B} (m : M W A) (f : A -> M W B) Q : emits m (fun _ _ => False) -> emits (bind m f) Q.
Proof. intros Hm. eapply emits_bind; [exact Hm|]. by intros s a []. Qed.
Lemma dead_wires {A} (g : nat -> M W A) Q : emits (wires g) Q.
Proof. intros w (Hw & Htc & Hk & Hs). unfold wires, bind. cbn. rewrite Hs. by left. Qed.
Lemma dead_access dp RnW addr v Q : emits (dp_low_access (DpIf := remote_dpif) dp RnW addr v) Q.
Proof. intros w (Hw & Htc & Hk & Hs). cbn. unfold bind. cbn. rewrite Hk. by left. Qed.
Lemma dead_read dp addr Q : emits (dp_read (DpIf := remote_dpif) dp addr) Q.
Proof. intros w (Hw & Htc & Hk & Hs). cbn. unfold bind. cbn. rewrite Hk. by left. Qed.
Lemma dead_no_proc {A} Q : emits (no_jtag_proc (A := A)) Q.
Proof. intros w _. by right; left. Qed.

Lemma emits_then {A} (m : M W A) packet : emits m answers -> emits (bind m (fun _ => ret packet)) (answered packet).
Proof.
  intros Hm. eapply emits_bind; [exact Hm|]. intros s b HQ. apply emits_ret. rewrite app_nil_r. by split.
Qed.
Lemma emits_nothing {A} (a : A) : emits (ret a) answers.
Proof. apply emits_ret. by left. Qed.
Lemma emits_fine : emits fine answers.
Proof. apply emits_respond. by cbv. Qed.
Lemma emits_wronglen : emits wronglen answers.
Proof. apply emits_respond. by cbv. Qed.
Lemma emits_unrecognised : emits unrecognised answers.
Proof. apply emits_respond. by cbv. Qed.
Lemma dead_ap_write ap addr v Q : emits (adiv5_ap_write (H := remote_dpif) ap addr v) Q.
Proof. do 2 apply emits_dead. apply dead_access. Qed.
Lemma dead_ap_read ap addr Q : emits (adiv5_ap_read (H := remote_dpif) ap addr) Q.
Proof. do 2 apply emits_dead. apply dead_access. Qed.
Lemma dead_mem_write ap dest src len align Q : emits (adiv5_mem_write_sized (H := remote_dpif) ap dest src len align) Q.
Proof. do 2 apply emits_dead. apply dead_ap_write. Qed.
Lemma emits_mem_read ap dest src len :
  emits (adiv5_mem_read (H := remote_dpif) ap dest src len) (fun s data => s = [] /\ data = dest).
Proof.
  unfold adiv5_mem_read, firmware_mem_read. destruct (len =? 0); [by apply emits_ret|].
  do 2 apply emits_dead. apply dead_ap_write.
Qed.
Lemma dead_respond_buf code buffer Q : emits (_respond_buf code buffer) Q.
Proof.
  eapply emits_bind; [apply emits_putchars|]. intros s [] _. apply emits_dead.
  destruct buffer as [|b buffer]; [apply emits_crash; by right; right|]. do 2 apply emits_dead.
  apply emits_crash. by right; right.
Qed.
Lemma emits_error : emits (_respond REMOTE_RESP_ERR 0) answers.
Proof. apply emits_respond. by cbv. Qed.
Lemma emits_report_fault ok : emits ok answers -> emits (report_fault ok) answers.
Proof.
  intros Hok. eapply emits_bind; [apply emits_rdp|]. intros s d [-> Hd]. destruct (_ =? 0); [exact Hok|].
  eapply emits_bind; [apply emits_error|]. intros s a Ha. eapply emits_mono; [by apply emits_upd|].
  intros s' b ->. unfold answers. by rewrite app_nil_r.
Qed.
Lemma emits_add_jtag_dev packet : emits (add_jtag_dev packet) answers.
Proof.
  apply emits_silent; [|intros _; apply emits_silent; [apply emits_remotehston|intros _; apply emits_fine]].
  apply emits_loop. intros off. apply emits_silent; [apply emits_remotehston|]. intros _. by apply emits_ret.
Qed.

Ltac packet_step := first
  [ progress cbv beta zeta | match goal with |- emits (if ?b then _ else _) _ => destruct b end
  | apply emits_init | apply emits_swd_init | apply emits_dead; first [apply dead_wires | apply dead_no_proc]
  | apply emits_silent; [first [apply emits_load | apply emits_remotehston | apply emits_remotehston_all]|intros ?]
  | apply emits_then | apply emits_fine | apply emits_wronglen | apply emits_unrecognised | apply emits_nothing
  | apply emits_add_jtag_dev ].
Lemma emits_SWD i packet : emits (remotePacketProcessSWD i packet) answers.
Proof. unfold remotePacketProcessSWD. repeat packet_step. Qed.
Lemma emits_JTAG i packet : emits (remotePacketProcessJTAG i packet) answers.
Proof. unfold remotePacketProcessJTAG. repeat packet_step. Qed.
Lemma emits_GEN i packet : emits (remotePacketProcessGEN i packet) answers.
Proof.
  unfold remotePacketProcessGEN. repeat packet_step; apply emits_respondS; try (by cbv); repeat constructor; by cbv.
Qed.
Ltac hl_step := first
  [ packet_step | apply emits_dead; first
      [ apply dead_access | apply dead_read | apply dead_ap_read | apply dead_ap_write | apply dead_mem_write | apply dead_respond_buf ]
  | apply emits_silent; [first [apply emits_load_n | apply emits_store_n | by apply emits_upd]|intros ?]
  | apply emits_report_fault | apply dead_respond_buf | apply emits_error | apply emits_respond; by cbv ].
Lemma emits_remote_mem_read sel control packet off : emits (remote_mem_read pad sel control packet off) (answered packet).
Proof.
  unfold remote_mem_read. do 2 (apply emits_silent; [apply emits_remotehston|intros ?]).
  eapply emits_bind; [apply emits_mem_read|]. intros s data [-> ->]. cbv zeta.
  assert (ztake pad packet ++ zdrop pad packet = packet) as -> by apply take_drop. repeat hl_step.
Qed.
Lemma emits_remote_mem_write sel control packet off : emits (remote_mem_write pad sel control packet off) (answered packet).
Proof. unfold remote_mem_write. repeat hl_step. Qed.
Lemma emits_HL i packet : emits (remotePacketProcessHL pad stale i packet) (answered packet).
Proof.
  unfold remotePacketProcessHL, adiv5_dp_read.
  repeat first [apply emits_remote_mem_read | apply emits_remote_mem_write | hl_step].
Qed.
(** A packet: an answer or none, and the buffer is as it was. *)
Lemma emits_packet i packet : emits (remotePacketProcess pad stale i packet) (answered packet).
Proof.
  unfold remotePacketProcess.
  repeat first [apply emits_SWD | apply emits_JTAG | apply emits_GEN | apply emits_HL | hl_step].
Qed.
End Props.

(** ** Numbers: what an answer's digits are read back as *)
Definition read_digits (s : list Z) : Z := foldl (fun acc c => Z.lor (u64 (Z.shiftl acc 4)) (digit_val c)) 0 s.

Lemma low_nibble x : 0 <= Z.land x 15 < 16.
Proof. change 15 with (Z.ones 4). rewrite Z.land_ones by lia. apply Z.mod_pos_bound. lia. Qed.
Lemma NTOH_digit x : 0 <= x < 16 -> isxdigit (NTOH x) = true /\ digit_val (NTOH x) = x.
Proof.
  intros Hx. assert (x = 0 \/ x = 1 \/ x = 2 \/ x = 3 \/ x = 4 \/ x = 5 \/ x = 6 \/ x = 7 \/ x = 8 \/ x = 9 \/
    x = 10 \/ x = 11 \/ x = 12 \/ x = 13 \/ x = 14 \/ x = 15) as Hc by lia.
  repeat destruct Hc as [->|Hc]; by subst || done.
Qed.
Lemma nibbles_digits n x : Forall (fun c => isxdigit c = true) (nibbles n x).
Proof.
  revert x. induction n as [|n IH]; intros x; [done|]. cbn. constructor; [apply NTOH_digit, low_nibble|].
  destruct (_ =? 0); [done|apply IH].
Qed.
Lemma length_nibbles n x : (length (nibbles n x) <= n)%nat.
Proof. revert x. induction n as [|n IH]; intros x; cbn; [lia|]. destruct (_ =? 0); cbn; [lia|]. specialize (IH (Z.shiftr x 4)). lia. Qed.
Lemma split_nibble x : Z.lor (Z.shiftl (Z.shiftr x 4) 4) (Z.land x 15) = x.
Proof.
  change 15 with (Z.ones 4). apply Z.bits_inj'. intros m Hm. rewrite Z.lor_spec, Z.land_spec, Z.shiftl_spec by lia.
  destruct (decide (m < 4)).
  - rewrite Z.testbit_neg_r, Z.ones_spec_low by lia. by rewrite andb_true_r.
  - rewrite Z.shiftr_spec, Z.ones_spec_high by lia. rewrite andb_false_r, orb_false_r. f_equal. lia.
Qed.
Lemma read_nibbles n x : 0 <= x < 16 ^ Z.of_nat n -> x < 2 ^ 64 -> read_digits (rev (nibbles n x)) = x.
Proof.
  revert x. induction n as [|n IH]; intros x Hx H64; [cbn in *; lia|]. unfold read_digits. cbn. rewrite foldl_app. cbn.
  rewrite (proj2 (NTOH_digit _ (low_nibble x))).
  assert (0 <= Z.shiftr x 4 < 16 ^ Z.of_nat n /\ 16 * Z.shiftr x 4 <= x) as [Hs Hle].
  { rewrite Z.shiftr_div_pow2 by lia. replace (Z.of_nat (S n)) with (Z.of_nat n + 1) in Hx by lia.
    rewrite Z.pow_add_r in Hx by lia. pose proof (Z.mul_div_le x 16 ltac:(lia)). split; [|done].
    split; [apply Z.div_pos; lia|apply Z.div_lt_upper_bound; lia]. }
  assert (foldl (fun acc c => Z.lor (u64 (Z.shiftl acc 4)) (digit_val c)) 0
    (rev (if Z.shiftr x 4 =? 0 then [] else nibbles n (Z.shiftr x 4))) = Z.shiftr x 4) as ->.
  { destruct (Z.eqb_spec (Z.shiftr x 4) 0) as [E|E]; [by rewrite E|]. apply (IH (Z.shiftr x 4)); lia. }
  rewrite <- (split_nibble x) at 3. f_equal. unfold u64, wrap. rewrite Z.mod_small; [done|].
  rewrite Z.shiftl_mul_pow2 by lia. lia.
Qed.

Lemma bind_load_here {W B} (f : Z -> M W B) pre c rest w : bind (load (pre ++ c :: rest) (zlen pre)) f w = f c w.
Proof.
  pose proof (zlen_nonneg pre). pose proof (zlen_nonneg rest). rewrite bind_load by (rewrite zlen_app, zlen_cons; lia).
  by rewrite zget_app, Z.ltb_irrefl, Z.sub_diag by lia.
Qed.
Lemma bind_load0 {W B} (f : Z -> M W B) c rest w : bind (load (c :: rest) 0) f w = f c w.
Proof. exact (bind_load_here f [] c rest w). Qed.
Lemma bind_load1 {W B} (f : Z -> M W B) b c rest w : bind (load (b :: c :: rest) 1) f w = f c w.
Proof. exact (bind_load_here f [b] c rest w). Qed.
Lemma hston_digits {W} (ds : list Z) c rest (w : W) : Forall (fun c => isxdigit c = true) ds -> isxdigit c = false ->
  forall n pre acc, (length ds < n)%nat ->
  hston (pre ++ ds ++ c :: rest) n (zlen pre) acc w =
    Ok (foldl (fun acc c => Z.lor (u64 (Z.shiftl acc 4)) (digit_val c)) acc ds) w.
Proof.
  intros Hd Hc. induction Hd as [|d ds Hx Hd IH]; intros [|n] pre acc Hn; cbn [length] in Hn; try lia;
    cbn [hston app]; rewrite bind_load_here.
  - by rewrite Hc.
  - rewrite Hx. cbn [negb foldl].
    specialize (IH n (pre ++ [d]) (Z.lor (u64 (Z.shiftl acc 4)) (digit_val d)) ltac:(lia)).
    rewrite <- app_assoc, zlen_app in IH. exact IH.
Qed.

(** ** A remote packet received *)
Definition plain (c : Z) : Prop := c <> REMOTE_SOM /\ c <> REMOTE_EOM /\ c <> SOP.
Section Received.
Context {W : Type} {GI : GdbIf W} {GS : GdbIfSpec W} {RI : RemoteIf W} {RS : RemoteSpec W}.
Variables (remote : Z -> list Z -> M W (list Z)) (fuel : nat).

Lemma next_char {B} (f : Z -> M W B) w b r : if_wf w -> rx w = b :: r ->
  exists w', bind gdb_if_getchar f w = f b w' /\ if_wf w' /\ rx w' = r /\ tx w' = tx w /\ rdp w' = rdp w.
Proof.
  intros Hw Hr. destruct (getchar_rx w b r Hw Hr) as (w' & Hg & ? & ? & ?).
  exists w'. rewrite (bind_Ok _ _ _ _ _ Hg). split_and!; try done. by eapply rdp_getchar.
Qed.
Ltac step_char Hw Hr w' Hw' Hr' Ht' Hd' :=
  match goal with |- context [bind gdb_if_getchar ?f ?w] =>
    destruct (next_char f w _ _ Hw Hr) as (w' & -> & Hw' & Hr' & Ht' & Hd') end.

(** The characters between '!' and '#' are handed over, a NUL behind them. *)
Lemma remote_packet_received size s : Forall plain s -> forall n i packet w r, if_wf w ->
  rx w = s ++ REMOTE_EOM :: r -> (length s < n)%nat -> 0 <= i -> i + zlen s <= size -> zlen packet = size + 1 ->
  exists w', iter n (remote_packet_body remote size) (i, packet) w =
      bind (remote (i + zlen s) (splice packet i (s ++ [0]))) (fun packet => ret packet) w' /\
    if_wf w' /\ rx w' = r /\ tx w' = tx w /\ rdp w' = rdp w.
Proof.
  induction 1 as [|c s (Hc1 & Hc2 & Hc3) Hs IH]; intros [|n] i packet w r Hw Hr Hn Hi Hle Hp; cbn [length] in Hn; try lia;
    rewrite iter_S; unfold remote_packet_body at 1; rewrite bind_bind; cbn [app] in Hr; step_char Hw Hr w1 Hw1 Hr1 Ht1 Hd1.
  - change (REMOTE_EOM =? REMOTE_SOM) with false. rewrite Z.eqb_refl. cbn match. change (zlen (@nil Z)) with 0 in *.
    rewrite bind_bind, bind_store by lia. cbn [app]. rewrite Z.add_0_r, <- splice_insert, splice_nil by lia.
    exists w1. split; [|done]. rewrite bind_bind. unfold bind, ret. by destruct (remote _ _ w1).
  - rewrite zlen_cons in Hle. pose proof (zlen_nonneg s).
    rewrite (proj2 (Z.eqb_neq _ _) Hc1), (proj2 (Z.eqb_neq _ _) Hc2), (proj2 (Z.eqb_neq _ _) Hc3), (proj2 (Z.ltb_lt _ _)) by lia.
    rewrite bind_bind, bind_store, bind_ret by lia.
    destruct (IH n (i + 1) (<[Z.to_nat i := c]> packet) w1 r) as (w' & Hrun & Hw' & Hr' & Ht' & Hd');
      try done; try lia; [by rewrite zlen_insert|].
    exists w'. rewrite Hrun, splice_insert, zlen_cons by lia. replace (i + 1 + zlen s) with (i + (zlen s + 1)) by lia.
    split; [done|]. split_and!; congruence.
Qed.
Lemma wait_start_som packet w r : if_wf w -> rx w = REMOTE_SOM :: r -> 0 < zlen packet -> (0 < fuel)%nat ->
  exists w', wait_start fuel packet w = Ok (false, <[0%nat := REMOTE_SOM]> packet) w' /\
    if_wf w' /\ rx w' = r /\ tx w' = tx w /\ rdp w' = rdp w.
Proof.
  intros Hw Hr Hp Hf. destruct fuel as [|n]; [lia|]. unfold wait_start. rewrite iter_S, bind_bind.
  step_char Hw Hr w1 Hw1 Hr1 Ht1 Hd1. rewrite bind_bind, bind_store by lia. by exists w1.
Qed.
(** One round of the wait for a packet, when a remote packet comes. *)
Lemma find_round size s packet w r : Forall plain s -> if_wf w ->
  rx w = REMOTE_SOM :: s ++ REMOTE_EOM :: r -> zlen packet = size + 1 -> zlen s <= size -> (length s < fuel)%nat ->
  exists packet1 w1, find_packet_body remote fuel size packet w =
      bind (remote (zlen s) packet1) (fun p => bind (load p 0) (fun c => ret (if c =? SOP then inr (false, p) else inl p))) w1 /\
    packet1 = splice (<[0%nat := REMOTE_SOM]> packet) 0 (s ++ [0]) /\
    if_wf w1 /\ rx w1 = r /\ tx w1 = tx w /\ rdp w1 = rdp w.
Proof.
  intros Hs Hw Hr Hp Hle Hf. pose proof (zlen_nonneg s). unfold find_packet_body.
  destruct (wait_start_som packet w _ Hw Hr) as (w0 & Hrun & Hw0 & Hr0 & Ht0 & Hd0); [lia|lia|].
  rewrite (bind_Ok _ _ _ _ _ Hrun). rewrite bind_load by (rewrite zlen_insert; lia).
  assert (zget (<[0%nat := REMOTE_SOM]> packet) 0 = REMOTE_SOM) as ->.
  { destruct packet; [unfold zlen in Hp; cbn in Hp; lia|done]. }
  rewrite Z.eqb_refl. unfold remote_packet.
  destruct (remote_packet_received size s Hs fuel 0 (<[0%nat := REMOTE_SOM]> packet) w0 r) as (w1 & Hrun1 & ? & ? & ? & ?);
    try done; [by rewrite zlen_insert|].
  eexists _, w1. split; [|split_and!; try done; congruence].
  unfold bind at 1. rewrite Hrun1. rewrite Z.add_0_l. unfold bind, ret. by destruct (remote (zlen s) _ w1).
Qed.
Lemma found_fault size packet w e w2 : find_packet_body remote fuel size packet w = Fault e w2 -> (0 < fuel)%nat ->
  gdb_getpacket remote fuel packet size w = Fault e w2.
Proof.
  intros Hrun Hf.
  assert (find_packet remote fuel size packet w = Fault e w2) as Hfind.
  { unfold find_packet. destruct fuel as [|n] eqn:En; [lia|]. rewrite iter_S. rewrite <- En in *. unfold bind. by rewrite Hrun. }
  unfold gdb_getpacket. destruct fuel as [|n] eqn:En; [lia|]. rewrite iter_S. rewrite <- En in *.
  unfold getpacket_body, bind. by rewrite Hfind.
Qed.
End Received.

(** ** Properties *)
Section Properties.
Context {W : Type} {GI : GdbIf W} {GS : GdbIfSpec W} {RI : RemoteIf W} {RS : RemoteSpec W}.
Variables (pad stale : Z) (fuel : nat).
Notation receive := (gdb_getpacket (remotePacketProcess pad stale) fuel).

(** The first character of the buffer is the packet's, which is not '$'. *)
Lemma first_plain s (p : list Z) : Forall plain s -> zlen s < zlen p -> zget (splice p 0 (s ++ [0])) 0 <> SOP.
Proof.
  intros Hs Hp. rewrite zget_splice by (rewrite ?zlen_app; change (zlen [0]) with 1; lia).
  pose proof (zlen_nonneg s). rewrite zlen_app. change (zlen [0]) with 1.
  rewrite (proj2 (Z.ltb_lt _ _)) by lia. cbn [andb Z.leb Z.compare Z.sub].
  destruct Hs as [|c s Hc Hs]; [done|]. apply Hc.
Qed.

(** before any pointer of the debug port is set, which is the state the
    variable starts in and nothing but its own INIT commands leaves, a remote
    packet in front of a GDB packet either is answered with one frame or with
    nothing, and the GDB packet behind it is then received whole, or its
    handling runs into undefined behaviour; whatever the functions behind the
    pointers would do, none is called, and the receiver does not get stuck. *)
Theorem remote_packet_isolated (s data packet r : list Z) (size : Z) (w : W) :
  if_wf w -> unset (rdp w) -> Forall plain s ->
  rx w = REMOTE_SOM :: s ++ REMOTE_EOM :: frame data ++ r ->
  zlen packet = size + 1 -> zlen s <= size -> zlen data <= size ->
  (length s < fuel)%nat -> (length data < fuel)%nat -> (2 <= fuel)%nat ->
  (exists answer p' w', receive packet size w = Ok (zlen data, p') w' /\ ztake (zlen data) p' = data /\
    rx w' = r /\ is_answer answer /\ tx w' = tx w ++ answer ++ [43]) \/
  (exists e w', receive packet size w = Fault e w' /\ debug_fault e).
Proof.
  intros Hw Hu Hs Hr Hp Hl1 Hl2 Hf1 Hf2 Hf3.
  destruct (find_round (remotePacketProcess pad stale) fuel size s packet w _ Hs Hw Hr)
    as (p1 & w1 & Hrun & Hp1 & Hw1 & Hr1 & Ht1 & Hd1); try done.
  assert (zlen p1 = size + 1) as Hz1.
  { subst p1. pose proof (zlen_nonneg s). rewrite zlen_splice; rewrite ?zlen_insert, ?zlen_app; change (zlen [0]) with 1; lia. }
  assert (zget p1 0 <> SOP) as Hns by (subst p1; apply first_plain; [done|rewrite zlen_insert; lia]).
  pose proof (emits_packet pad stale (zlen s) p1 w1) as He. unfold closed in He. rewrite Hd1 in He. specialize (He (conj Hw1 Hu)).
  unfold bind at 1 in Hrun. destruct (remotePacketProcess pad stale (zlen s) p1 w1) as [p2 w2| |e w2|]; try done.
  - left. destruct He as ([Hw2 _] & Hr2 & a & Ht2 & Ha & ->). pose proof (zlen_nonneg s).
    rewrite bind_load, (proj2 (Z.eqb_neq _ _) Hns) in Hrun by lia.
    assert (SOP :: body data ++ REMOTE_EOM :: fmt_X 2 (checksum (body data)) ++ r = frame data ++ r) as Hfr
      by (unfold frame; cbn [app]; by rewrite <- app_assoc).
    destruct (find_body_noise (remotePacketProcess pad stale) fuel size [] p1 w2 (body data ++ REMOTE_EOM :: fmt_X 2 (checksum (body data)) ++ r))
      as (p3 & w3 & Hrun3 & Hw3 & Hr3 & Ht3 & Hl3); [by constructor|done|by rewrite Hr2, Hr1|lia|cbn; lia|].
    destruct (found_frame (remotePacketProcess pad stale) fuel size data packet p3 w w3 r)
      as (p4 & w4 & Hrun4 & _ & Hr4 & Ht4 & Hdat & _); try done; [|by rewrite Hr3|congruence|].
    { unfold find_packet. rewrite (iter_mono _ 2) by (try done; rewrite iter_S, (bind_Ok _ _ _ _ _ Hrun), iter_S; by rewrite (bind_Ok _ _ _ _ _ Hrun3)).
      rewrite iter_S, (bind_Ok _ _ _ _ _ Hrun), iter_S. by rewrite (bind_Ok _ _ _ _ _ Hrun3). }
    exists a, p4, w4. split_and!; try done. by rewrite Ht4, Ht3, Ht2, Ht1, <- app_assoc.
  - right. exists e, w2. split; [|done]. by apply found_fault; [|lia].
Qed.

(** no command on the wires can be set up: the packet that initialises the
    SWD or the JTAG functions, "SS" or "JS", goes through the pointer to the
    controller, which nothing ever sets; so what getpacket_no_overrun asks of
    the handler does not hold of this one. *)
Theorem remote_init_undefined (kind : Z) (packet r : list Z) (size : Z) (w : W) :
  kind = REMOTE_SWDP_PACKET \/ kind = REMOTE_JTAG_PACKET ->
  if_wf w -> unset (rdp w) -> rx w = REMOTE_SOM :: kind :: REMOTE_INIT :: REMOTE_EOM :: r ->
  zlen packet = size + 1 -> 2 <= size -> (2 < fuel)%nat ->
  exists w', receive packet size w = Fault NullDeref w'.
Proof.
  intros Hk Hw Hu Hr Hp Hl Hf.
  destruct (find_round (remotePacketProcess pad stale) fuel size [kind; REMOTE_INIT] packet w r)
    as (p1 & w1 & Hrun & Hp1 & Hw1 & Hr1 & Ht1 & Hd1); try done.
  { destruct Hk as [-> | ->]; repeat constructor; done. }
  destruct packet as [|x0 [|x1 [|x2 packet]]]; try (rewrite ?zlen_cons in Hp; change (zlen (@nil Z)) with 0 in Hp; lia).
  assert (p1 = kind :: REMOTE_INIT :: 0 :: packet) as -> by (subst p1; done).
  assert (exists w2, remotePacketProcess pad stale 2 (kind :: REMOTE_INIT :: 0 :: packet) w1 = Fault NullDeref w2) as [w2 Hrem].
  { assert (rd_tc (rdp w1) = None) as Htc by (rewrite Hd1; apply Hu).
    unfold remotePacketProcess. rewrite bind_load0. destruct Hk as [-> | ->].
    - change (REMOTE_SWDP_PACKET =? REMOTE_SWDP_PACKET) with true. cbv match.
      unfold remotePacketProcessSWD. rewrite bind_bind, bind_load1.
      change (REMOTE_INIT =? REMOTE_INIT) with true. cbv match. unfold swdptap_init, bind. cbn.
      rewrite rdp_put. cbn. rewrite Htc. by eexists.
    - change (REMOTE_JTAG_PACKET =? REMOTE_SWDP_PACKET) with false. change (REMOTE_JTAG_PACKET =? REMOTE_JTAG_PACKET) with true.
      cbv match. unfold remotePacketProcessJTAG. rewrite bind_bind, bind_load1.
      change (REMOTE_INIT =? REMOTE_INIT) with true. cbv match. unfold bind. cbn.
      rewrite rdp_put. cbn. rewrite Htc. by eexists. }
  exists w2. apply found_fault; [|lia]. rewrite Hrun. unfold bind.
  change (zlen [kind; REMOTE_INIT]) with 2. by rewrite Hrem.
Qed.

Lemma putchars_run l w : if_wf w -> exists w', putchars l w = Ok tt w' /\ if_wf w' /\ tx w' = tx w ++ (u8 <$> l).
Proof.
  revert w. induction l as [|c l IH]; intros w Hw; [exists w; by rewrite app_nil_r|].
  destruct (putchar_spec w c false Hw) as (w1 & Hrun & Hw1 & _ & Ht1).
  destruct (IH w1 Hw1) as (w2 & Hrun2 & Hw2 & Ht2). exists w2. split; [|split; [done|by rewrite Ht2, Ht1, <- app_assoc]].
  unfold putchars. cbn. by rewrite (bind_Ok _ _ _ _ _ Hrun).
Qed.
Lemma u8_nibbles n x : u8 <$> nibbles n x = nibbles n x.
Proof.
  revert x. induction n as [|n IH]; intros x; [done|]. cbn. f_equal; [|destruct (_ =? 0); [done|apply IH]].
  pose proof (low_nibble x). unfold NTOH. destruct (Z.leb_spec (Z.land x 15) 9); apply u8_small; lia.
Qed.
Lemma u8_digits n x : u8 <$> rev (nibbles n x) = rev (nibbles n x).
Proof. change (map u8 (rev (nibbles n x)) = rev (nibbles n x)). rewrite List.map_rev. f_equal. apply u8_nibbles. Qed.

(** C40: an answer carries its number: [_respond] sends the answer mark, the
    code, the digits and the end mark, and [remotehston] reads the number back
    from where they stand, whatever is behind them. *)
Theorem respond_roundtrip (code v : Z) (w : W) : if_wf w -> is_byte code -> 0 <= v < 2 ^ 64 ->
  exists digits w', _respond code v w = Ok tt w' /\ tx w' = tx w ++ [REMOTE_RESP; code] ++ digits ++ [REMOTE_EOM] /\
    (length digits <= 16)%nat /\
    forall (before rest : list Z) (v0 : W),
      remotehston 17 (before ++ digits ++ REMOTE_EOM :: rest) (zlen before) v0 = Ok v v0.
Proof.
  intros Hw Hc Hv. exists (rev (nibbles 16 v)).
  destruct (putchars_run [REMOTE_RESP; code] w Hw) as (w1 & Hrun1 & Hw1 & Ht1).
  destruct (putchars_run (rev (nibbles 16 v)) w1 Hw1) as (w2 & Hrun2 & Hw2 & Ht2).
  destruct (putchar_spec w2 REMOTE_EOM true Hw2) as (w3 & Hrun3 & _ & _ & Ht3). exists w3.
  split; [unfold _respond; by rewrite (bind_Ok _ _ _ _ _ Hrun1), (bind_Ok _ _ _ _ _ Hrun2)|].
  rewrite u8_digits in Ht2. cbn [fmap list_fmap] in Ht1. change (u8 REMOTE_RESP) with REMOTE_RESP in Ht1. rewrite (u8_small code) in Ht1 by done.
  split; [by rewrite Ht3, Ht2, Ht1, <- !app_assoc|]. split; [rewrite length_rev; apply length_nibbles|]. intros before rest v0.
  unfold remotehston. rewrite hston_digits; [|apply Forall_rev, nibbles_digits|done|rewrite length_rev; pose proof (length_nibbles 16 v); lia].
  f_equal. apply read_nibbles; [|lia]. by change (16 ^ Z.of_nat 16) with (2 ^ 64).
Qed.

(** an answer made of bytes cannot be given: [_respond_buf] stores the two
    digits of the first byte with their NUL in an array of two. *)
Theorem respond_buf_overruns (code : Z) (buffer : list Z) (w : W) : if_wf w ->
  exists w', _respond_buf code buffer w = Fault OutOfBounds w' /\ tx w' = tx w ++ [REMOTE_RESP; u8 code].
Proof.
  intros Hw. destruct (putchars_run [REMOTE_RESP; code] w Hw) as (w1 & Hrun1 & Hw1 & Ht1). exists w1.
  split; [|exact Ht1]. unfold _respond_buf. rewrite (bind_Ok _ _ _ _ _ Hrun1). by destruct buffer.
Qed.
End Properties.

(** ** A host, and the variable as the program starts with it *)
Module RemoteSim.
Record world := { on_wire : Wire.wire; debug_port : remote_dp_t }.
Definition host {A} (m : M Wire.wire A) : M world A := fun w =>
  match m (on_wire w) with
  | Ok a v => Ok a {| on_wire := v; debug_port := debug_port w |}
  | Raise ty msg v => Raise ty msg {| on_wire := v; debug_port := debug_port w |}
  | Fault e v => Fault e {| on_wire := v; debug_port := debug_port w |}
  | Hang => Hang
  end.
#[global] Instance host_if : GdbIf world := {
  gdb_if_getchar := host gdb_if_getchar; gdb_if_getchar_to t := host (gdb_if_getchar_to t);
  gdb_if_putchar c f := host (gdb_if_putchar c f) }.
#[global, refine] Instance host_spec : GdbIfSpec world := {
  if_wf _ := True; rx w := rx (on_wire w); tx w := tx (on_wire w) }.
Proof.
  - intros w b r _ E. destruct (@getchar_rx _ _ Wire.wire_spec (on_wire w) b r I E) as (v & Hrun & _ & ? & ?).
    change (gdb_if_getchar (W := world) w) with (host (gdb_if_getchar (W := Wire.wire)) w). unfold host. rewrite Hrun. eexists; split_and!; done.
  - intros w _ E. change (gdb_if_getchar (W := world) w) with (host (gdb_if_getchar (W := Wire.wire)) w). unfold host. by rewrite (@getchar_blocks _ _ Wire.wire_spec (on_wire w) I E).
  - intros w t _. destruct (@getchar_to_spec _ _ Wire.wire_spec (on_wire w) t I) as (b & v & Hrun & _ & Ht & Hr).
    change (gdb_if_getchar_to (W := world) t w) with (host (gdb_if_getchar_to (W := Wire.wire) t) w). unfold host. rewrite Hrun. eexists _, _; split_and!; done.
  - intros w c f _. destruct (@putchar_spec _ _ Wire.wire_spec (on_wire w) c f I) as (v & Hrun & _ & ? & ?).
    change (gdb_if_putchar (W := world) c f w) with (host (gdb_if_putchar (W := Wire.wire) c f) w). unfold host. rewrite Hrun. eexists; split_and!; done.
Defined.
(** Wires with nothing at their other end. *)
#[global] Instance wires_if : RemoteIf world := {
  rdp := debug_port; put_rdp d w := {| on_wire := on_wire w; debug_port := d |};
  seq_in _ _ := ret 0; seq_in_parity _ _ := ret (0, false); seq_out _ _ _ := ret tt; seq_out_parity _ _ _ := ret tt;
  kind_read _ _ := ret 0; kind_low_access _ _ _ _ := ret 0; tc_jtagtap_init _ := ret tt }.
#[global] Instance wires_spec : RemoteSpec world.
Proof.
  split; try done.
  - intros c f w w' E. change (gdb_if_putchar (W := world) c f w) with (host (gdb_if_putchar (W := Wire.wire) c f) w) in E. unfold host in E.
    by destruct (gdb_if_putchar c f (on_wire w)); simplify_eq.
  - intros c w w' E. change (gdb_if_getchar (W := world) w) with (host (gdb_if_getchar (W := Wire.wire)) w) in E. unfold host in E.
    by destruct (gdb_if_getchar (on_wire w)); simplify_eq.
Defined.
Definition sends (l : list Z) : world := {| on_wire := Wire.of_bytes l; debug_port := remote_dp |}.
End RemoteSim.

Lemma remote_packet_isolated_witness : let w := RemoteSim.sends (str "!HC#" ++ frame (str "g") ++ str "+") in
  (exists answer p' w', gdb_getpacket (remotePacketProcess 4 0) 8 (memset 9 0) 8 w = Ok (1, p') w' /\ ztake 1 p' = str "g" /\
    rx w' = str "+" /\ is_answer answer /\ tx w' = tx w ++ answer ++ [43]) \/
  (exists e w', gdb_getpacket (remotePacketProcess 4 0) 8 (memset 9 0) 8 w = Fault e w' /\ debug_fault e).
Proof.
  apply (remote_packet_isolated 4 0 8 (str "HC") (str "g") (memset 9 0) (str "+") 8); try done; try lia.
  - repeat constructor; done.
  - vm_compute; lia.
  - vm_compute; lia.
Defined.
Lemma remote_init_undefined_witness : let w := RemoteSim.sends (str "!SS#") in
  exists w', gdb_getpacket (remotePacketProcess 4 0) 8 (memset 9 0) 8 w = Fault NullDeref w'.
Proof.
  apply (remote_init_undefined 4 0 8 REMOTE_SWDP_PACKET (memset 9 0) [] 8); try done; try lia.
Defined.
Lemma respond_roundtrip_witness : exists digits w',
  _respond REMOTE_RESP_OK 0xdead (RemoteSim.sends []) = Ok tt w' /\
  tx w' = tx (RemoteSim.sends []) ++ [REMOTE_RESP; REMOTE_RESP_OK] ++ digits ++ [REMOTE_EOM] /\ (length digits <= 16)%nat /\
  forall (before rest : list Z) (v0 : RemoteSim.world),
    remotehston 17 (before ++ digits ++ REMOTE_EOM :: rest) (zlen before) v0 = Ok 0xdead v0.
Proof. apply (respond_roundtrip REMOTE_RESP_OK 0xdead (RemoteSim.sends [])); try done; lia. Defined.
Lemma respond_buf_overruns_witness : exists w', _respond_buf REMOTE_RESP_OK [1; 2] (RemoteSim.sends []) = Fault OutOfBounds w' /\
  tx w' = tx (RemoteSim.sends []) ++ [REMOTE_RESP; REMOTE_RESP_OK].
Proof. by apply (respond_buf_overruns REMOTE_RESP_OK [1; 2] (RemoteSim.sends [])). Defined.
