(* ===== verification/Cortexa.v ===== *)
(** cortexa.c: the driver of Cortex-A cores.  A core is reached through its
    debug registers, which an access port for the debug bus shows as memory;
    instructions are put into its pipeline one by one, and data goes through
    the debug communication channel. *)

From Stdlib Require Import ZArith Lia String.
From stdpp Require Import base list numbers option gmap.
From S2P Require Import Prelude CLib GdbIf MemManager GdbPacket TargetState Target Platform Exception Morse Command Dap Adiv5 Objects Cortexm FlashDev Scan.

(** ** Constants *)
Definition DBGDIDR : Z := 0.
Definition DBGDTRRX : Z := 32.
Definition DBGITR : Z := 33.
Definition DBGDSCR : Z := 34.
Definition DBGDSCR_INSTRCOMPL : Z := 0x1000000.
Definition DBGDSCR_EXTDCCMODE_STALL : Z := 0x100000.
Definition DBGDSCR_EXTDCCMODE_FAST : Z := 0x200000.
Definition DBGDSCR_EXTDCCMODE_MASK : Z := 0x300000.
Definition DBGDSCR_HDBGEN : Z := 0x4000.
Definition DBGDSCR_ITREN : Z := 0x2000.
Definition DBGDSCR_INTDIS : Z := 0x800.
Definition DBGDSCR_SDABORT_L : Z := 0x40.
Definition DBGDSCR_MOE_MASK : Z := 0x3C.
Definition DBGDSCR_MOE_HALT_REQ : Z := 0.
Definition DBGDSCR_RESTARTED : Z := 2.
Definition DBGDSCR_HALTED : Z := 1.
Definition DBGDTRTX : Z := 35.
Definition DBGDRCR : Z := 36.
Definition DBGDRCR_CSE : Z := 4.
Definition DBGDRCR_RRQ : Z := 2.
Definition DBGDRCR_HRQ : Z := 1.
Definition DBGBVR (i : Z) : Z := 64 + i.
Definition DBGBCR (i : Z) : Z := 80 + i.
Definition DBGBCR_INST_MISMATCH : Z := 0x400000.
Definition DBGBCR_BAS_ANY : Z := 0x1E0.
Definition DBGBCR_BAS_LOW_HW : Z := 0x60.
Definition DBGBCR_BAS_HIGH_HW : Z := 0x180.
Definition DBGBCR_EN : Z := 1.
Definition MCR : Z := 0xee000010.
Definition MRC : Z := 0xee100010.
Definition CPREG (coproc opc1 rt crn crm opc2 : Z) : Z :=
  Z.lor (Z.lor (Z.lor (Z.lor (Z.lor (Z.shiftl opc1 21) (Z.shiftl crn 16)) (Z.shiftl rt 12)) (Z.shiftl coproc 8)) (Z.shiftl opc2 5)) crm.
Definition DBGDTRRXint : Z := CPREG 14 0 0 0 5 0.
Definition DBGDTRTXint : Z := CPREG 14 0 0 0 5 0.
Definition PAR : Z := CPREG 15 0 0 7 4 0.
Definition ATS1CPR : Z := CPREG 15 0 0 7 8 0.
Definition ICIALLU : Z := CPREG 15 0 0 7 5 0.
Definition CPSR_THUMB : Z := 32.
Definition ZYNQ_SLCR_UNLOCK : Z := 0xf8000008.
Definition ZYNQ_SLCR_UNLOCK_KEY : Z := 0xdf0d.
Definition ZYNQ_SLCR_PSS_RST_CTRL : Z := 0xf8000200.
Definition cortexa_driver_str : list Z := str "ARM Cortex-A".
Definition tdesc_cortex_a : list Z :=
  str "<?xml version=" ++ quoted (str "1.0") ++ str "?>"
  ++ str "<!DOCTYPE feature SYSTEM " ++ quoted (str "gdb-target.dtd") ++ str ">"
  ++ str "<target>"
  ++ str "  <architecture>arm</architecture>"
  ++ str "  <feature name=" ++ quoted (str "org.gnu.gdb.arm.core") ++ str ">"
  ++ concat ((fun i => tdesc_reg (str "r" ++ fmt_d i) (str "32") []) <$> seqZ 0 13)
  ++ tdesc_reg (str "sp") (str "32") data_ptr
  ++ tdesc_reg (str "lr") (str "32") code_ptr
  ++ tdesc_reg (str "pc") (str "32") code_ptr
  ++ tdesc_reg (str "cpsr") (str "32") []
  ++ str "  </feature>"
  ++ str "  <feature name=" ++ quoted (str "org.gnu.gdb.arm.vfp") ++ str ">"
  ++ tdesc_reg (str "fpscr") (str "32") []
  ++ concat ((fun i => tdesc_reg (str "d" ++ fmt_d i) (str "64") (str " type=" ++ quoted (str "float"))) <$> seqZ 0 16)
  ++ str "  </feature>"
  ++ str "</target>".

(** ** [struct cortexa_priv] *)
Record reg_cache := { rc_r : list Z; rc_cpsr : Z; rc_fpscr : Z; rc_d : list Z }.   (* 16 words, 16 double words *)
Record cortexa_priv := {
  ca_base : Z;
  ca_apb : positive;
  ca_regs : reg_cache;
  ca_bp_max : Z;
  ca_bp_mask : Z;
  ca_bcr0 : Z;
  ca_bvr0 : Z;
  ca_mmu_fault : bool;
}.
Definition sizeof_cortexa_priv : Z := 232.
Definition set_regs_cache c p : cortexa_priv :=
  {| ca_base := ca_base p; ca_apb := ca_apb p; ca_regs := c; ca_bp_max := ca_bp_max p; ca_bp_mask := ca_bp_mask p;
     ca_bcr0 := ca_bcr0 p; ca_bvr0 := ca_bvr0 p; ca_mmu_fault := ca_mmu_fault p |}.
Definition set_breaks mx mask bcr bvr p : cortexa_priv :=
  {| ca_base := ca_base p; ca_apb := ca_apb p; ca_regs := ca_regs p; ca_bp_max := mx; ca_bp_mask := mask;
     ca_bcr0 := bcr; ca_bvr0 := bvr; ca_mmu_fault := ca_mmu_fault p |}.
Definition set_bp_mask m p := set_breaks (ca_bp_max p) m (ca_bcr0 p) (ca_bvr0 p) p.
Definition set_mmu_fault b p : cortexa_priv :=
  {| ca_base := ca_base p; ca_apb := ca_apb p; ca_regs := ca_regs p; ca_bp_max := ca_bp_max p; ca_bp_mask := ca_bp_mask p;
     ca_bcr0 := ca_bcr0 p; ca_bvr0 := ca_bvr0 p; ca_mmu_fault := b |}.
Definition set_r i v c : reg_cache := {| rc_r := <[i := v]> (rc_r c); rc_cpsr := rc_cpsr c; rc_fpscr := rc_fpscr c; rc_d := rc_d c |}.
Definition set_status cpsr fpscr c : reg_cache := {| rc_r := rc_r c; rc_cpsr := cpsr; rc_fpscr := fpscr; rc_d := rc_d c |}.
Definition set_d i v c : reg_cache := {| rc_r := rc_r c; rc_cpsr := rc_cpsr c; rc_fpscr := rc_fpscr c; rc_d := <[i := v]> (rc_d c) |}.
(** The structure's bytes, and the structure they are. *)
Definition cache_bytes (c : reg_cache) : list Z :=
  words_bytes (rc_r c) ++ le_bytes 4 (rc_cpsr c) ++ le_bytes 4 (rc_fpscr c) ++ concat (le_bytes 8 <$> rc_d c).
Definition sizeof_reg_cache : Z := 200.
Definition bytes_cache (b : list Z) : reg_cache :=
  {| rc_r := byte_word b <$> seqZ 0 16; rc_cpsr := byte_word b 16; rc_fpscr := byte_word b 17;
     rc_d := (fun i => le_val (ztake 8 (zdrop (72 + 8 * i) b))) <$> seqZ 0 16 |}.
(** The blocks of such structures. *)
Class CaObj (E : Type) := {
  load_ca : positive -> M E cortexa_priv;
  store_ca : positive -> cortexa_priv -> M E unit;
}.

(** [bp_bas]: the byte lanes of a comparator. *)
Definition bp_bas (addr len : Z) : Z :=
  if len =? 4 then DBGBCR_BAS_ANY else if flag addr 2 then DBGBCR_BAS_HIGH_HW else DBGBCR_BAS_LOW_HW.
(** [ptr_for_reg]: where a register is in the structure, and its size. *)
Definition ptr_for_reg (reg : Z) : option Z * Z :=
  if (0 <=? reg) && (reg <=? 15) then (Some (4 * reg), 4)
  else if reg =? 16 then (Some 64, 4)
  else if reg =? 17 then (Some 68, 4)
  else if (18 <=? reg) && (reg <=? 33) then (Some (72 + 8 * (reg - 18)), 8)
  else (None, -1).
(** [dbgdscr] with the mode of the channel replaced. *)
Definition with_mode (dbgdscr mode : Z) : Z := Z.lor (Z.land dbgdscr (u32 (Z.lnot DBGDSCR_EXTDCCMODE_MASK))) mode.

Section Cortexa.
Context {E : Type} `{GdbIf E} `{MemIf E} `{ClockIf E} `{DpIf E} `{DpObj E} `{CaObj E}
        `{ProbeIf (cm_dev E)} `{HostIf (cm_dev E)} `{DRV : Driver (cm_dev E)}.
Notation MW := (M (world (cm_dev E))).
(** Rounds of the loops that only time bounds. *)
Variable polls : nat.

Definition ca_priv (p : positive) : MW cortexa_priv := let! h := priv_of p in on_dp (load_ca h).
Definition upd_ca (p : positive) (f : cortexa_priv -> cortexa_priv) : MW unit :=
  let! h := priv_of p in
  let! x := ca_priv p in
  on_dp (store_ca h (f x)).
Definition upd_cache (p : positive) (f : reg_cache -> reg_cache) : MW unit := upd_ca p (fun x => set_regs_cache (f (ca_regs x)) x).
Definition mmu_fault (p : positive) (b : bool) : MW unit := upd_ca p (set_mmu_fault b).

(** ** The debug registers *)
Definition apb_write (p : positive) (reg val : Z) : MW unit :=
  let! pr := ca_priv p in
  let! ap := load_ap (ca_apb pr) in
  do! adiv5_ap_write ap ADIV5_AP_TAR (u32 (ca_base pr + 4 * reg)) in
  do! adiv5_dp_low_access (ap_dp ap) ADIV5_LOW_WRITE ADIV5_AP_DRW val in
  ret tt.
Definition apb_read (p : positive) (reg : Z) : MW Z :=
  let! pr := ca_priv p in
  let! ap := load_ap (ca_apb pr) in
  do! adiv5_ap_write ap ADIV5_AP_TAR (u32 (ca_base pr + 4 * reg)) in
  do! adiv5_dp_low_access (ap_dp ap) ADIV5_LOW_READ ADIV5_AP_DRW 0 in
  adiv5_dp_low_access (ap_dp ap) ADIV5_LOW_READ ADIV5_DP_RDBUFF 0.
Definition gpreg_field (regno : Z) : Z := Z.shiftl (Z.land regno 0xf) 12.
Definition read_gpreg (p : positive) (regno : Z) : MW Z :=
  do! apb_write p DBGITR (Z.lor (Z.lor MCR DBGDTRTXint) (gpreg_field regno)) in
  apb_read p DBGDTRTX.
Definition write_gpreg (p : positive) (regno val : Z) : MW unit :=
  do! apb_write p DBGDTRRX val in
  apb_write p DBGITR (Z.lor (Z.lor MRC DBGDTRRXint) (gpreg_field regno)).
Definition va_to_pa (p : positive) (va : Z) : MW Z :=
  do! write_gpreg p 0 va in
  do! apb_write p DBGITR (Z.lor MCR ATS1CPR) in
  do! apb_write p DBGITR (Z.lor MRC PAR) in
  let! par := read_gpreg p 0 in
  do! when (flag par 1) (mmu_fault p true) in
  ret (Z.lor (Z.land par 0xfffff000) (Z.land va 0xfff)).

(** ** Memory, through instructions of the core *)
Fixpoint apb_reads (p : positive) (reg : Z) (n : nat) : MW (list Z) :=
  match n with
  | O => ret []
  | S n' => let! v := apb_read p reg in let! vs := apb_reads p reg n' in ret (v :: vs)
  end.
(** The mode for one access after the other, and back; what was read first. *)
Definition fast_mode (p : positive) : MW Z :=
  let! dbgdscr := apb_read p DBGDSCR in
  let dbgdscr := with_mode dbgdscr DBGDSCR_EXTDCCMODE_FAST in
  do! apb_write p DBGDSCR dbgdscr in
  ret dbgdscr.
Definition stall_mode (p : positive) (dbgdscr : Z) : MW unit := apb_write p DBGDSCR (with_mode dbgdscr DBGDSCR_EXTDCCMODE_STALL).
(** Whether the core says that an access was aborted; then that is cleared and
    remembered. *)
Definition aborted (p : positive) : MW bool :=
  let! dbgdscr := apb_read p DBGDSCR in
  if flag dbgdscr DBGDSCR_SDABORT_L then
    do! apb_write p DBGDRCR DBGDRCR_CSE in
    do! mmu_fault p true in
    ret true
  else ret false.
Definition cortexa_slow_mem_read (p : positive) (src len : Z) : MW (list Z) :=
  let words := u32 (len + Z.land src 3 + 3) / 4 in
  do! write_gpreg p 0 (Z.land src 0xfffffffc) in
  let! dbgdscr := fast_mode p in
  do! apb_write p DBGITR 0xecb05e01 in      (* ldc 14, cr5, [r0], #4 *)
  do! apb_read p DBGDTRTX in
  let! dest32 := apb_reads p DBGDTRTX (Z.to_nat words) in
  let! dest := load_n (words_bytes dest32) (Z.land src 3) len in
  do! stall_mode p dbgdscr in
  let! bad := aborted p in
  do! (if bad : bool then ret tt else do! apb_read p DBGDTRTX in ret tt) in
  ret dest.
Fixpoint write_each_byte (p : positive) (src : list Z) : MW unit :=
  match src with
  | [] => ret tt
  | b :: src' =>
      do! write_gpreg p 0 b in
      do! apb_write p DBGITR 0xe4cd0001 in  (* strb r0, [sp], #1 *)
      let! bad := aborted p in
      if bad : bool then ret tt else write_each_byte p src'
  end.
Definition cortexa_slow_mem_write_bytes (p : positive) (dest : Z) (src : list Z) : MW unit :=
  do! write_gpreg p 13 dest in
  write_each_byte p src.
Definition cortexa_slow_mem_write (p : positive) (dest : Z) (src : list Z) : MW unit :=
  let len := zlen src in
  if len =? 0 then ret tt else
  if flag dest 3 || flag len 3 then cortexa_slow_mem_write_bytes p dest src else
  do! write_gpreg p 0 dest in
  let! dbgdscr := fast_mode p in
  do! apb_write p DBGITR 0xeca05e01 in      (* stc 14, cr5, [r0], #4 *)
  do! for_each (bytes_words src) (fun v => apb_write p DBGDTRRX v) in
  do! stall_mode p dbgdscr in
  do! aborted p in
  ret tt.
Definition cortexa_check_error (p : positive) : MW bool :=
  let! pr := ca_priv p in
  do! mmu_fault p false in
  ret (ca_mmu_fault pr).

(** ** Registers: a copy of them while the core is halted *)
Definition cortexa_regs_read (p : positive) : MW (list Z) :=
  let! pr := ca_priv p in
  let! t := load_target p in
  load_n (cache_bytes (ca_regs pr)) 0 (regs_size t).
Definition store_cache (p : positive) (off : Z) (data : list Z) : MW unit :=
  let! pr := ca_priv p in
  let! b := store_n (cache_bytes (ca_regs pr)) off data in
  upd_cache p (fun _ => bytes_cache b).
Definition cortexa_regs_write (p : positive) (data : list Z) : MW unit :=
  let! t := load_target p in
  let! data := load_n data 0 (regs_size t) in
  store_cache p 0 data.
(** The result and the bytes stored. *)
Definition cortexa_reg_read (p : positive) (reg max : Z) : MW (Z * list Z) :=
  let '(r, s) := ptr_for_reg reg in
  if max <? u32 s then ret (-1, []) else
  let! off := deref r in
  let! pr := ca_priv p in
  let! data := load_n (cache_bytes (ca_regs pr)) off s in
  ret (s, data).
Definition cortexa_reg_write (p : positive) (reg : Z) (data : list Z) : MW Z :=
  let '(r, s) := ptr_for_reg reg in
  if zlen data <? u32 s then ret (-1) else
  let! off := deref r in
  let! data := load_n data 0 s in
  do! store_cache p off data in
  ret s.
Definition cortexa_regs_read_internal (p : positive) : MW unit :=
  do! for_each (seq 0 15) (fun i => let! v := read_gpreg p (Z.of_nat i) in upd_cache p (set_r i v)) in
  do! apb_write p DBGITR 0xe1a0000f in      (* mov r0, pc *)
  let! pc := read_gpreg p 0 in
  do! upd_cache p (set_r 15 pc) in
  do! apb_write p DBGITR 0xE10F0000 in      (* mrs r0, CPSR *)
  let! cpsr := read_gpreg p 0 in
  do! upd_cache p (fun c => set_status cpsr (rc_fpscr c) c) in
  do! apb_write p DBGITR 0xeef10a10 in      (* vmrs r0, fpscr *)
  let! fpscr := read_gpreg p 0 in
  do! upd_cache p (fun c => set_status (rc_cpsr c) fpscr c) in
  do! for_each (seq 0 16) (fun i =>
    do! apb_write p DBGITR (Z.lor 0xEC510B10 (Z.of_nat i)) in   (* vmov r0, r1, d0 *)
    let! hi := read_gpreg p 1 in
    let! lo := read_gpreg p 0 in
    upd_cache p (set_d i (Z.lor (Z.shiftl hi 32) lo))) in
  upd_cache p (fun c => set_r 15 (u32 (nth 15 (rc_r c) 0 - (if flag (rc_cpsr c) CPSR_THUMB then 4 else 8))) c).
Definition cortexa_regs_write_internal (p : positive) : MW unit :=
  let! pr := ca_priv p in
  let c := ca_regs pr in
  do! for_each (seq 0 16) (fun i =>
    do! write_gpreg p 1 (u32 (Z.shiftr (nth i (rc_d c) 0) 32)) in
    do! write_gpreg p 0 (u32 (nth i (rc_d c) 0)) in
    apb_write p DBGITR (Z.lor 0xec410b10 (Z.of_nat i))) in      (* vmov d[i], r0, r1 *)
  do! write_gpreg p 0 (rc_fpscr c) in
  do! apb_write p DBGITR 0xeee10a10 in      (* vmsr fpscr, r0 *)
  do! write_gpreg p 0 (rc_cpsr c) in
  do! apb_write p DBGITR 0xe12ff000 in      (* msr CPSR_fsxc, r0 *)
  do! write_gpreg p 0 (nth 15 (rc_r c) 0) in
  do! apb_write p DBGITR 0xe1a0f000 in      (* mov pc, r0 *)
  for_each (seq 0 15) (fun i => write_gpreg p (Z.of_nat i) (nth i (rc_r c) 0)).

(** ** Halt and resume *)
Definition cortexa_halt_request (p : positive) : MW unit :=
  let! r := try_catch EXCEPTION_TIMEOUT (apb_write p DBGDRCR DBGDRCR_HRQ) in
  match r with
  | inl _ => ret tt
  | inr _ => tc_printf (Some p) (str "Timeout sending interrupt, is target in WFI?" ++ nl)
  end.
Definition a_halted (p : positive) (dbgdscr : Z) : MW (target_halt_reason * Z) :=
  if negb (flag dbgdscr DBGDSCR_HALTED) then ret (TARGET_HALT_RUNNING, 0) else
  let dbgdscr := Z.lor dbgdscr DBGDSCR_ITREN in
  do! apb_write p DBGDSCR dbgdscr in
  let reason := if Z.land dbgdscr DBGDSCR_MOE_MASK =? DBGDSCR_MOE_HALT_REQ then TARGET_HALT_REQUEST else TARGET_HALT_BREAKPOINT in
  do! cortexa_regs_read_internal p in
  ret (reason, 0).
Definition cortexa_halt_poll (p : positive) : MW (target_halt_reason * Z) :=
  let! r := try_catch EXCEPTION_ALL (apb_read p DBGDSCR) in
  match r with
  | inl dbgdscr => a_halted p dbgdscr
  | inr (type, _) =>
      if type =? EXCEPTION_ERROR then
        let! t := load_target p in
        let! c := deref (t_tc t) in
        do! target_list_free c in ret (TARGET_HALT_ERROR, 0)
      else if type =? EXCEPTION_TIMEOUT then ret (TARGET_HALT_RUNNING, 0)
      else a_halted p 0
  end.
(** [do dbgdscr = ..; while (!(dbgdscr & bit) && !expired);] *)
Definition until_body (p : positive) (m : MW Z) (bit timeout : Z) (_ : unit) : MW (unit + Z) :=
  let! dbgdscr := m in
  if flag dbgdscr bit then ret (inr dbgdscr) else
  let! e := platform_timeout_is_expired timeout in
  ret (if e : bool then inr dbgdscr else inl tt).
Definition wait_until (p : positive) (m : MW Z) (bit timeout : Z) : MW Z := iter polls (until_body p m bit timeout) tt.
Definition cortexa_halt_resume (p : positive) (step : bool) : MW unit :=
  let! pr := ca_priv p in
  let addr := nth 15 (rc_r (ca_regs pr)) 0 in
  do! (if step then
         let bas := bp_bas addr (if flag (rc_cpsr (ca_regs pr)) CPSR_THUMB then 2 else 4) in
         do! apb_write p (DBGBVR 0) (Z.land addr 0xfffffffc) in
         apb_write p (DBGBCR 0) (Z.lor (Z.lor DBGBCR_INST_MISMATCH bas) DBGBCR_EN)
       else
         do! apb_write p (DBGBVR 0) (ca_bvr0 pr) in
         apb_write p (DBGBCR 0) (ca_bcr0 pr)) in
  do! cortexa_regs_write_internal p in
  do! apb_write p DBGITR (Z.lor MCR ICIALLU) in
  let! to := platform_timeout_set 200 in
  let! dbgdscr := wait_until p (apb_read p DBGDSCR) DBGDSCR_INSTRCOMPL to in
  let dbgdscr := if step then Z.lor dbgdscr DBGDSCR_INTDIS else Z.land dbgdscr (u32 (Z.lnot DBGDSCR_INTDIS)) in
  do! apb_write p DBGDSCR (Z.land dbgdscr (u32 (Z.lnot DBGDSCR_ITREN))) in
  do! wait_until p (do! apb_write p DBGDRCR (Z.lor DBGDRCR_CSE DBGDRCR_RRQ) in apb_read p DBGDSCR) DBGDSCR_RESTARTED to in
  ret tt.

(** ** Attach, detach, reset *)
Definition clear_breakpoints (p : positive) (n : Z) : MW unit := for_each (seqZ 0 n) (fun i => apb_write p (DBGBCR i) 0).
(** [while (!srst && !halted && --tries) platform_delay(200);] *)
Definition tries_body (p : positive) (tries : Z) : MW (Z + Z) :=
  let! t := load_target p in
  let! c := deref (t_tc t) in
  let! srst := platform_call c (srst_get_val c) in
  if srst : bool then ret (inr tries) else
  let! (r, _) := target_halt_poll (Some p) in
  if negb (bool_decide (r = TARGET_HALT_RUNNING)) then ret (inr tries) else
  if tries - 1 =? 0 then ret (inr 0) else
  do! platform_delay 200 in
  ret (inl (tries - 1)).
Definition cortexa_attach (p : positive) : MW bool :=
  let! pr := ca_priv p in
  do! target_check_error (Some p) in
  let! dbgdscr := apb_read p DBGDSCR in
  let dbgdscr := with_mode (Z.lor dbgdscr (Z.lor DBGDSCR_HDBGEN DBGDSCR_ITREN)) DBGDSCR_EXTDCCMODE_STALL in
  do! apb_write p DBGDSCR dbgdscr in
  do! target_halt_request (Some p) in
  let! tries := iter 10 (tries_body p) 10 in
  if tries =? 0 then ret false else
  do! clear_breakpoints p (ca_bp_max pr) in
  do! upd_ca p (fun x => set_breaks (ca_bp_max x) 0 0 (ca_bvr0 x) x) in
  let! t := load_target p in
  let! c := deref (t_tc t) in
  do! platform_call c (srst_set_val c false) in
  ret true.
Definition cortexa_detach (p : positive) : MW unit :=
  let! pr := ca_priv p in
  do! clear_breakpoints p (ca_bp_max pr) in
  do! cortexa_regs_write_internal p in
  do! apb_write p DBGITR (Z.lor MCR ICIALLU) in
  let! to := platform_timeout_set 200 in
  let! dbgdscr := wait_until p (apb_read p DBGDSCR) DBGDSCR_INSTRCOMPL to in
  do! apb_write p DBGDSCR (Z.land dbgdscr (u32 (Z.lnot (Z.lor DBGDSCR_HDBGEN DBGDSCR_ITREN)))) in
  apb_write p DBGDRCR (Z.lor DBGDRCR_CSE DBGDRCR_RRQ).
(** The exception of the last round. *)
Definition reconnect_body (p : positive) (timeout : Z) (_ : unit) : MW (unit + option (Z * list Z)) :=
  let! r := try_catch EXCEPTION_ALL (apb_read p DBGDIDR) in
  let caught := match r with inl _ => None | inr e => Some e end in
  let! e := platform_timeout_is_expired timeout in
  ret (if negb e && match caught with Some (type, _) => type =? EXCEPTION_ERROR | None => false end then inl tt else inr caught).
Definition cortexa_reset (p : positive) : MW unit :=
  do! target_mem_write32 (Some p) ZYNQ_SLCR_UNLOCK ZYNQ_SLCR_UNLOCK_KEY in
  do! target_mem_write32 (Some p) ZYNQ_SLCR_PSS_RST_CTRL 1 in
  let! t := load_target p in
  let! c := deref (t_tc t) in
  do! platform_call c (srst_set_val c true) in
  do! platform_call c (srst_set_val c false) in
  let! timeout := platform_timeout_set 1000 in
  let! caught := iter polls (reconnect_body p timeout) tt in
  do! match caught with
      | Some (type, msg) => if type =? EXCEPTION_ERROR then raise type msg else ret tt
      | None => ret tt
      end in
  do! platform_delay 100 in
  do! cortexa_attach p in
  ret tt.

(** ** Breakpoints *)
(** [for (i = 0; i < max; i++) if (!(mask & (1 << i))) break;] *)
Fixpoint free_comparator (n : nat) (i mask : Z) : Z :=
  match n with
  | O => i
  | S n' => if Z.land mask (Z.shiftl 1 i) =? 0 then i else free_comparator n' (i + 1) mask
  end.
Definition error_code (p : positive) : MW Z := let! e := target_check_error (Some p) in ret (if e : bool then 1 else 0).
Definition cortexa_breakwatch_set (p : positive) (bw : breakwatch) : MW (Z * breakwatch) :=
  let! pr := ca_priv p in
  if bw_type bw =? TARGET_BREAK_SOFT then
    if bw_size bw =? 2 then
      let! old := target_mem_read16 (Some p) (bw_addr bw) in
      do! target_mem_write16 (Some p) (bw_addr bw) 0xBE00 in
      let! e := error_code p in
      ret (e, set_reserved old bw)
    else if bw_size bw =? 4 then
      let! old := target_mem_read32 (Some p) (bw_addr bw) in
      do! target_mem_write32 (Some p) (bw_addr bw) 0xE1200070 in
      let! e := error_code p in
      ret (e, set_reserved old bw)
    else ret (-1, bw)
  else if bw_type bw =? TARGET_BREAK_HARD then
    if negb (bw_size bw =? 4) && negb (bw_size bw =? 2) then ret (-1, bw) else
    let i := free_comparator (Z.to_nat (ca_bp_max pr)) 0 (ca_bp_mask pr) in
    if i =? ca_bp_max pr then ret (-1, bw) else
    do! upd_ca p (set_bp_mask (u16 (Z.lor (ca_bp_mask pr) (Z.shiftl 1 i)))) in
    let! addr := va_to_pa p (bw_addr bw) in
    let bcr := Z.lor (bp_bas addr (bw_size bw)) DBGBCR_EN in
    do! apb_write p (DBGBVR i) (Z.land addr 0xfffffffc) in
    do! apb_write p (DBGBCR i) bcr in
    do! when (i =? 0) (upd_ca p (fun x => set_breaks (ca_bp_max x) (ca_bp_mask x) bcr (Z.land addr 0xfffffffc) x)) in
    ret (0, set_reserved i bw)
  else ret (1, bw).
Definition cortexa_breakwatch_clear (p : positive) (bw : breakwatch) : MW Z :=
  let! pr := ca_priv p in
  let! i := word_get (bw_reserved bw) 0 in
  if bw_type bw =? TARGET_BREAK_SOFT then
    if bw_size bw =? 2 then do! target_mem_write16 (Some p) (bw_addr bw) (u16 i) in error_code p
    else if bw_size bw =? 4 then do! target_mem_write32 (Some p) (bw_addr bw) i in error_code p
    else ret (-1)
  else if bw_type bw =? TARGET_BREAK_HARD then
    do! upd_ca p (set_bp_mask (u16 (Z.land (ca_bp_mask pr) (Z.lnot (Z.shiftl 1 i))))) in
    do! apb_write p (u16 (DBGBCR i)) 0 in
    do! when (i =? 0) (upd_ca p (fun x => set_breaks (ca_bp_max x) (ca_bp_mask x) 0 (ca_bvr0 x) x)) in
    ret 0
  else ret 1.

(** ** Finding a core *)
Definition blank_cache : reg_cache := {| rc_r := replicate 16 0; rc_cpsr := 0; rc_fpscr := 0; rc_d := replicate 16 0 |}.
Definition blank_ca (apb : positive) (debug_base : Z) : cortexa_priv :=
  {| ca_base := debug_base; ca_apb := apb; ca_regs := blank_cache; ca_bp_max := 0; ca_bp_mask := 0; ca_bcr0 := 0; ca_bvr0 := 0;
     ca_mmu_fault := false |}.
Definition set_check_error m t : target :=
  {| attached := attached t; t_tc := t_tc t; m_attach := m_attach t; m_detach := m_detach t; m_check_error := m;
     m_mem_read := m_mem_read t; m_mem_write := m_mem_write t; regs_size := regs_size t; tdesc := tdesc t;
     m_regs_read := m_regs_read t; m_regs_write := m_regs_write t; m_reg_read := m_reg_read t; m_reg_write := m_reg_write t;
     m_reset := m_reset t; m_halt_request := m_halt_request t; m_halt_poll := m_halt_poll t; m_halt_resume := m_halt_resume t;
     m_breakwatch_set := m_breakwatch_set t; m_breakwatch_clear := m_breakwatch_clear t; bw_list := bw_list t;
     t_designer := t_designer t; idcode := idcode t; target_storage := target_storage t; ram := ram t; flash := flash t;
     driver := driver t; core := core t; cpuid := cpuid t; cmdline := cmdline t; heapinfo := heapinfo t;
     commands := commands t; priv := priv t; m_extended_reset := m_extended_reset t; target_options := target_options t;
     unsafe_enabled := unsafe_enabled t |}.
Definition set_ca_methods t : target :=
  {| attached := attached t; t_tc := t_tc t; m_attach := Fdev "cortexa_attach"; m_detach := Fdev "cortexa_detach";
     m_check_error := m_check_error t; m_mem_read := m_mem_read t; m_mem_write := m_mem_write t; regs_size := sizeof_reg_cache;
     tdesc := Some tdesc_cortex_a; m_regs_read := Fdev "cortexa_regs_read"; m_regs_write := Fdev "cortexa_regs_write";
     m_reg_read := Fdev "cortexa_reg_read"; m_reg_write := Fdev "cortexa_reg_write"; m_reset := Fdev "cortexa_reset";
     m_halt_request := Fdev "cortexa_halt_request"; m_halt_poll := Fdev "cortexa_halt_poll";
     m_halt_resume := Fdev "cortexa_halt_resume"; m_breakwatch_set := Fdev "cortexa_breakwatch_set";
     m_breakwatch_clear := Fdev "cortexa_breakwatch_clear"; bw_list := bw_list t;
     t_designer := t_designer t; idcode := idcode t; target_storage := target_storage t; ram := ram t; flash := flash t;
     driver := driver t; core := core t; cpuid := cpuid t; cmdline := cmdline t; heapinfo := heapinfo t;
     commands := commands t; priv := priv t; m_extended_reset := m_extended_reset t; target_options := target_options t;
     unsafe_enabled := unsafe_enabled t |}.
Definition cortexa_probe (apb : positive) (debug_base : Z) : MW bool :=
  let! ap := load_ap apb in
  let! d := on_dp (load_dpo (ap_dp ap)) in
  let! t := target_new (o_tc d) in
  match t with
  | None => ret false
  | Some p =>
      do! adiv5_ap_ref apb in
      let! pr := MemManager_Alloc sizeof_cortexa_priv in
      match pr with
      | None => ret false
      | Some k =>
          do! upd_target p (set_priv (Some k)) in
          do! on_dp (store_ca k (blank_ca apb debug_base)) in
          do! upd_target p (set_memory_methods (Fdev "cortexa_slow_mem_read") (Fdev "cortexa_slow_mem_write")) in
          let! ap := load_ap apb in
          do! adiv5_ap_write ap ADIV5_AP_CSW (Z.lor (csw ap) ADIV5_AP_CSW_SIZE_WORD) in
          let! dbgdidr := apb_read p DBGDIDR in
          do! upd_ca p (fun x => set_breaks (Z.land (Z.shiftr dbgdidr 24) 15 + 1) (ca_bp_mask x) (ca_bcr0 x) (ca_bvr0 x) x) in
          do! upd_target p (fun t => set_driver cortexa_driver_str (set_check_error (Fdev "cortexa_check_error") t)) in
          do! upd_target p (fun t => set_ca_methods (set_conn (attached t) (Some (o_tc d)) t)) in
          ret true
      end
  end.
(** [t->priv_free] is the C library's [free], for a block of the pools. *)
Definition cortexa_priv_free (p : positive) : MW unit := crash OutOfBounds.
End Cortexa.

(** ** The driver

    What calls other methods of the target does so through the layer below. *)
Section CortexaDriver.
Context {E : Type} `{GdbIf E} `{MemIf E} `{ClockIf E} `{DpIf E} `{DpObj E} `{CaObj E}
        `{ProbeIf (cm_dev E)} `{HostIf (cm_dev E)}.
Variable polls : nat.
Variable other : Driver (cm_dev E).
Notation MW := (M (world (cm_dev E))).
Definition own {A} (p : positive) (m : target -> fptr) (n : string) (f device : MW A) : MW A := own_method m n f device p.
Definition cortexa_registers : Driver (cm_dev E) := {|
  drv_attach := drv_attach;
  drv_detach p := own p m_detach "cortexa_detach" (cortexa_detach polls p) (drv_detach p);
  drv_check_error p := own p m_check_error "cortexa_check_error" (cortexa_check_error p) (drv_check_error p);
  drv_mem_read p src len := own p m_mem_read "cortexa_slow_mem_read" (cortexa_slow_mem_read p src len) (drv_mem_read p src len);
  drv_mem_write p dest src := own p m_mem_write "cortexa_slow_mem_write" (cortexa_slow_mem_write p dest src) (drv_mem_write p dest src);
  drv_regs_read p := own p m_regs_read "cortexa_regs_read" (cortexa_regs_read p) (drv_regs_read p);
  drv_regs_write p data := own p m_regs_write "cortexa_regs_write" (cortexa_regs_write p data) (drv_regs_write p data);
  drv_reg_read p reg max := own p m_reg_read "cortexa_reg_read" (cortexa_reg_read p reg max) (drv_reg_read p reg max);
  drv_reg_write p reg data := own p m_reg_write "cortexa_reg_write" (cortexa_reg_write p reg data) (drv_reg_write p reg data);
  drv_reset := drv_reset;
  drv_halt_request p := own p m_halt_request "cortexa_halt_request" (cortexa_halt_request p) (drv_halt_request p);
  drv_halt_poll := drv_halt_poll;
  drv_halt_resume p step := own p m_halt_resume "cortexa_halt_resume" (cortexa_halt_resume polls p step) (drv_halt_resume p step);
  drv_breakwatch_set := drv_breakwatch_set; drv_breakwatch_clear := drv_breakwatch_clear;
  drv_priv_free p := own p m_mem_read "cortexa_slow_mem_read" (cortexa_priv_free p) (drv_priv_free p);
  drv_command := drv_command;
  drv_flash_erase := drv_flash_erase; drv_flash_write := drv_flash_write; drv_flash_done := drv_flash_done |}.
Definition cortexa_breaks : Driver (cm_dev E) :=
  let D0 := cortexa_registers in {|
  drv_attach := drv_attach; drv_detach := drv_detach; drv_check_error := drv_check_error;
  drv_mem_read := drv_mem_read; drv_mem_write := drv_mem_write; drv_regs_read := drv_regs_read; drv_regs_write := drv_regs_write;
  drv_reg_read := drv_reg_read; drv_reg_write := drv_reg_write; drv_reset := drv_reset; drv_halt_request := drv_halt_request;
  drv_halt_poll p := own p m_halt_poll "cortexa_halt_poll" (cortexa_halt_poll (DRV := D0) p) (drv_halt_poll p);
  drv_halt_resume := drv_halt_resume;
  drv_breakwatch_set p bw := own p m_breakwatch_set "cortexa_breakwatch_set" (cortexa_breakwatch_set (DRV := D0) p bw) (drv_breakwatch_set p bw);
  drv_breakwatch_clear p bw := own p m_breakwatch_clear "cortexa_breakwatch_clear" (cortexa_breakwatch_clear (DRV := D0) p bw) (drv_breakwatch_clear p bw);
  drv_priv_free := drv_priv_free; drv_command := drv_command;
  drv_flash_erase := drv_flash_erase; drv_flash_write := drv_flash_write; drv_flash_done := drv_flash_done |}.
Definition cortexa_driver : Driver (cm_dev E) :=
  let D1 := cortexa_breaks in {|
  drv_attach p := own p m_attach "cortexa_attach" (cortexa_attach (DRV := D1) p) (drv_attach p);
  drv_detach := drv_detach; drv_check_error := drv_check_error;
  drv_mem_read := drv_mem_read; drv_mem_write := drv_mem_write; drv_regs_read := drv_regs_read; drv_regs_write := drv_regs_write;
  drv_reg_read := drv_reg_read; drv_reg_write := drv_reg_write;
  drv_reset p := own p m_reset "cortexa_reset" (cortexa_reset (DRV := D1) polls p) (drv_reset p);
  drv_halt_request := drv_halt_request; drv_halt_poll := drv_halt_poll; drv_halt_resume := drv_halt_resume;
  drv_breakwatch_set := drv_breakwatch_set; drv_breakwatch_clear := drv_breakwatch_clear;
  drv_priv_free := drv_priv_free; drv_command := drv_command;
  drv_flash_erase := drv_flash_erase; drv_flash_write := drv_flash_write; drv_flash_done := drv_flash_done |}.
(** What adiv5.c calls for a core it finds. *)
Definition cortexa_if : CortexaIf (cm_dev E) := {| Scan.cortexa_probe := cortexa_probe |}.
End CortexaDriver.
