(* ===== verification/CortexaCore.v ===== *)
(** What cortexa.c relies on of an ARMv7-A core: its debug registers as a
    reference machine that executes the instructions put into it, the access
    port that shows them, and the runs of cortexa.c's accessors on it. *)

From Stdlib Require Import ZArith Lia String.
From stdpp Require Import base list numbers option gmap.
From S2P Require Import Prelude CLib GdbIf MemManager GdbPacket TargetState Target Platform Exception Morse Command Dap Adiv5 Objects Cortexm CoreSpec FlashDev Scan Cortexa.

(** ** The reference machine

    A halted core: the registers, those of the floating point unit, the two
    ends of the debug channel, the instruction held for the fast mode, the
    control bits of DBGDSCR, the sticky abort, and memory by byte with the
    addresses at which an access aborts. *)
Record acore := {
  a_reg : Z -> Z;
  a_cpsr : Z;
  a_fpscr : Z;
  a_d : Z -> Z;
  a_rx : Z;
  a_tx : Z;
  a_itr : Z;
  a_dscr : Z;
  a_abort : bool;
  a_mem : Z -> Z;
  a_ok : Z -> bool;
}.
Definition with_reg r k : acore :=
  {| a_reg := r; a_cpsr := a_cpsr k; a_fpscr := a_fpscr k; a_d := a_d k; a_rx := a_rx k; a_tx := a_tx k; a_itr := a_itr k;
     a_dscr := a_dscr k; a_abort := a_abort k; a_mem := a_mem k; a_ok := a_ok k |}.
Definition with_psr c f d k : acore :=
  {| a_reg := a_reg k; a_cpsr := c; a_fpscr := f; a_d := d; a_rx := a_rx k; a_tx := a_tx k; a_itr := a_itr k;
     a_dscr := a_dscr k; a_abort := a_abort k; a_mem := a_mem k; a_ok := a_ok k |}.
Definition with_dcc rx tx k : acore :=
  {| a_reg := a_reg k; a_cpsr := a_cpsr k; a_fpscr := a_fpscr k; a_d := a_d k; a_rx := rx; a_tx := tx; a_itr := a_itr k;
     a_dscr := a_dscr k; a_abort := a_abort k; a_mem := a_mem k; a_ok := a_ok k |}.
Definition with_ctl itr dscr ab k : acore :=
  {| a_reg := a_reg k; a_cpsr := a_cpsr k; a_fpscr := a_fpscr k; a_d := a_d k; a_rx := a_rx k; a_tx := a_tx k; a_itr := itr;
     a_dscr := dscr; a_abort := ab; a_mem := a_mem k; a_ok := a_ok k |}.
Definition with_mem m k : acore :=
  {| a_reg := a_reg k; a_cpsr := a_cpsr k; a_fpscr := a_fpscr k; a_d := a_d k; a_rx := a_rx k; a_tx := a_tx k; a_itr := a_itr k;
     a_dscr := a_dscr k; a_abort := a_abort k; a_mem := m; a_ok := a_ok k |}.
Definition set_reg n v k := with_reg (upd (a_reg k) n v) k.
Definition set_abort k := with_ctl (a_itr k) (a_dscr k) true k.

(** Memory, by words and bytes. *)
Definition word_ok k a : bool := forallb (a_ok k) [a; a + 1; a + 2; a + 3].
Definition word_bytes k a : list Z := [a_mem k a; a_mem k (a + 1); a_mem k (a + 2); a_mem k (a + 3)].
Definition put_byte (m : Z -> Z) (a v : Z) : Z -> Z := upd m a (u8 v).
Definition put_word (m : Z -> Z) (a v : Z) : Z -> Z :=
  fun j => if (a <=? j) && (j <? a + 4) then zget (le_bytes 4 v) (j - a) else m j.
Definition thumb k : bool := flag (a_cpsr k) CPSR_THUMB.

(** One instruction.  What instructions other than those cortexa.c uses do is
    left open; once an access has aborted none is executed. *)
Definition i_mcr (n : Z) : Z := Z.lor (Z.lor MCR DBGDTRTXint) (gpreg_field n).
Definition i_mrc (n : Z) : Z := Z.lor (Z.lor MRC DBGDTRRXint) (gpreg_field n).
Definition i_ldc : Z := 0xecb05e01.
Definition i_stc : Z := 0xeca05e01.
Definition i_strb : Z := 0xe4cd0001.
(** The one of [n] that [f] maps to [i]. *)
Definition which (f : Z -> Z) (n : nat) (i : Z) : option Z := List.find (fun j => f j =? i) (seqZ 0 (Z.of_nat n)).
Definition exec (i : Z) (k : acore) : option acore :=
  if a_abort k then Some k
  else match which i_mcr 15 i, which i_mrc 15 i with
  | Some n, _ => Some (with_dcc (a_rx k) (a_reg k n) k)
  | _, Some n => Some (set_reg n (a_rx k) k)
  | _, _ =>
  if i =? i_ldc then
    let a := a_reg k 0 in
    Some (if word_ok k a then set_reg 0 (u32 (a + 4)) (with_dcc (a_rx k) (le_val (word_bytes k a)) k) else set_abort k)
  else if i =? i_stc then
    let a := a_reg k 0 in
    Some (if word_ok k a then set_reg 0 (u32 (a + 4)) (with_mem (put_word (a_mem k) a (a_rx k)) k) else set_abort k)
  else if i =? i_strb then
    let a := a_reg k 13 in
    Some (if a_ok k a then set_reg 13 (u32 (a + 1)) (with_mem (put_byte (a_mem k) a (a_reg k 0)) k) else set_abort k)
  else if i =? 0xe1a0000f then Some (set_reg 0 (u32 (a_reg k 15 + (if thumb k then 4 else 8))) k)
  else if i =? 0xE10F0000 then Some (set_reg 0 (a_cpsr k) k)
  else if i =? 0xeef10a10 then Some (set_reg 0 (a_fpscr k) k)
  else if i =? 0xe12ff000 then Some (with_psr (a_reg k 0) (a_fpscr k) (a_d k) k)
  else if i =? 0xeee10a10 then Some (with_psr (a_cpsr k) (a_reg k 0) (a_d k) k)
  else if i =? 0xe1a0f000 then Some (set_reg 15 (a_reg k 0) k)
  else match which (fun j => Z.lor 0xEC510B10 j) 16 i, which (fun j => Z.lor 0xec410b10 j) 16 i with
  | Some n, _ => Some (set_reg 0 (u32 (a_d k n)) (set_reg 1 (Z.shiftr (a_d k n) 32) k))
  | _, Some n => Some (with_psr (a_cpsr k) (a_fpscr k) (upd (a_d k) n (Z.lor (Z.shiftl (a_reg k 1) 32) (a_reg k 0))) k)
  | _, _ => None
  end
  end.

(** The debug registers.  In the fast mode an access to the channel executes
    the instruction held. *)
Definition fast k : bool := Z.land (a_dscr k) DBGDSCR_EXTDCCMODE_MASK =? DBGDSCR_EXTDCCMODE_FAST.
Definition DSCR_CONTROL : Z := Z.lor (Z.lor (Z.lor DBGDSCR_EXTDCCMODE_MASK DBGDSCR_HDBGEN) DBGDSCR_ITREN) DBGDSCR_INTDIS.
Definition acore_write (reg v : Z) (k : acore) : option acore :=
  if reg =? DBGDTRRX then
    let k := with_dcc v (a_tx k) k in if fast k then exec (a_itr k) k else Some k
  else if reg =? DBGITR then
    if negb (flag (a_dscr k) DBGDSCR_ITREN) then None
    else if fast k then Some (with_ctl v (a_dscr k) (a_abort k) k) else exec v k
  else if reg =? DBGDSCR then Some (with_ctl (a_itr k) (Z.land v DSCR_CONTROL) (a_abort k) k)
  else if reg =? DBGDRCR then if v =? DBGDRCR_CSE then Some (with_ctl (a_itr k) (a_dscr k) false k) else None
  else None.
Definition dscr_value k : Z :=
  Z.lor (Z.lor (a_dscr k) (Z.lor DBGDSCR_INSTRCOMPL DBGDSCR_HALTED)) (if a_abort k then DBGDSCR_SDABORT_L else 0).
Definition acore_read (reg : Z) (k : acore) : option (Z * acore) :=
  if reg =? DBGDTRTX then
    if fast k then k' ← exec (a_itr k) k; Some (a_tx k, k') else Some (a_tx k, k)
  else if reg =? DBGDSCR then Some (dscr_value k, k)
  else None.

(** ** The access port

    Its address register and the result of the last read; the core's registers
    are words from [base] on. *)
Record aport := { p_sel : Z; p_tar : Z; p_rdbuf : Z; p_core : acore }.
Definition aport_access (base sel RnW addr v : Z) (q : aport) : option (Z * aport) :=
  let reg := (p_tar q - base) / 4 in
  let here := (p_sel q =? sel) && (p_tar q =? base + 4 * reg) in
  if RnW =? ADIV5_LOW_WRITE then
    if addr =? ADIV5_DP_SELECT then Some (0, {| p_sel := v; p_tar := p_tar q; p_rdbuf := p_rdbuf q; p_core := p_core q |})
    else if (addr =? ADIV5_AP_TAR) && (p_sel q =? sel) then
      Some (0, {| p_sel := p_sel q; p_tar := v; p_rdbuf := p_rdbuf q; p_core := p_core q |})
    else if (addr =? ADIV5_AP_DRW) && here then
      k ← acore_write reg v (p_core q); Some (0, {| p_sel := p_sel q; p_tar := p_tar q; p_rdbuf := p_rdbuf q; p_core := k |})
    else None
  else if (addr =? ADIV5_AP_DRW) && here then
    '(x, k) ← acore_read reg (p_core q); Some (p_rdbuf q, {| p_sel := p_sel q; p_tar := p_tar q; p_rdbuf := x; p_core := k |})
  else if addr =? ADIV5_DP_RDBUFF then Some (p_rdbuf q, q)
  else None.

Lemma port_tar base sel v tar buf k :
  aport_access base sel ADIV5_LOW_WRITE ADIV5_AP_TAR v {| p_sel := sel; p_tar := tar; p_rdbuf := buf; p_core := k |} =
  Some (0, {| p_sel := sel; p_tar := v; p_rdbuf := buf; p_core := k |}).
Proof. unfold aport_access. cbn [p_sel]. by rewrite (Z.eqb_refl sel). Qed.
Lemma port_write base sel reg v buf k k' : acore_write reg v k = Some k' ->
  aport_access base sel ADIV5_LOW_WRITE ADIV5_AP_DRW v {| p_sel := sel; p_tar := base + 4 * reg; p_rdbuf := buf; p_core := k |} =
  Some (0, {| p_sel := sel; p_tar := base + 4 * reg; p_rdbuf := buf; p_core := k' |}).
Proof.
  intros Hk. unfold aport_access. cbn [p_sel p_tar p_core p_rdbuf].
  replace ((base + 4 * reg - base) / 4) with reg by (replace (base + 4 * reg - base) with (reg * 4) by lia; by rewrite Z.div_mul).
  change (ADIV5_LOW_READ =? ADIV5_LOW_WRITE) with false. change (ADIV5_LOW_WRITE =? ADIV5_LOW_WRITE) with true.
  change (ADIV5_AP_DRW =? ADIV5_DP_SELECT) with false. change (ADIV5_AP_DRW =? ADIV5_AP_TAR) with false.
  change (ADIV5_AP_DRW =? ADIV5_AP_DRW) with true. rewrite !Z.eqb_refl. cbn [andb]. cbv match. by rewrite Hk.
Qed.
Lemma port_read base sel reg v buf k x k' : acore_read reg k = Some (x, k') ->
  aport_access base sel ADIV5_LOW_READ ADIV5_AP_DRW v {| p_sel := sel; p_tar := base + 4 * reg; p_rdbuf := buf; p_core := k |} =
  Some (buf, {| p_sel := sel; p_tar := base + 4 * reg; p_rdbuf := x; p_core := k' |}).
Proof.
  intros Hk. unfold aport_access. cbn [p_sel p_tar p_core p_rdbuf].
  replace ((base + 4 * reg - base) / 4) with reg by (replace (base + 4 * reg - base) with (reg * 4) by lia; by rewrite Z.div_mul).
  change (ADIV5_LOW_READ =? ADIV5_LOW_WRITE) with false. change (ADIV5_LOW_WRITE =? ADIV5_LOW_WRITE) with true.
  change (ADIV5_AP_DRW =? ADIV5_DP_SELECT) with false. change (ADIV5_AP_DRW =? ADIV5_AP_TAR) with false.
  change (ADIV5_AP_DRW =? ADIV5_AP_DRW) with true. rewrite !Z.eqb_refl. cbn [andb]. cbv match. by rewrite Hk.
Qed.

(** ** The interface

    Debug port [dp] leads to such a port, and block [h] holds the private data
    of a target of it. *)
Class APortSpec (E : Type) `{DpIf E} `{CaObj E} (dp h : positive) (cbase sel : Z) := {
  port_of : E -> aport;
  block : E -> cortexa_priv;
  port_access e RnW addr v r q : aport_access cbase sel RnW addr v (port_of e) = Some (r, q) ->
    exists e', dp_low_access dp RnW addr v e = Ok r e' /\ port_of e' = q /\ block e' = block e;
  block_load e : load_ca h e = Ok (block e) e;
  block_store e x : exists e', store_ca h x e = Ok tt e' /\ block e' = x /\ port_of e' = port_of e;
}.

(** ** Runs

    [runs m pr k a pr' k']: with the private data [pr] and the core [k], [m]
    returns [a] and leaves [pr'] and [k'], and nothing else in the state is
    changed but what is outside. *)
Section Runs.
Context {E : Type} `{GdbIf E} `{MemIf E} `{ClockIf E} `{DPI : DpIf E} `{DpObj E} `{CA : CaObj E}
        `{ProbeIf (cm_dev E)} `{HostIf (cm_dev E)}.
Context {dp h : positive} {cbase sel : Z} {S : APortSpec E dp h cbase sel}.
Variables (p : positive) (t : target) (ap : ADIv5_AP) (w0 : world (cm_dev E)).
Notation W := (world (cm_dev E)).
Notation MW := (M W).

(** What of the state stays: the target, its data's block, its access port. *)
Record attached_to : Prop := {
  at_heap : heap w0 !! p = Some t;
  at_priv : priv t = Some h;
  at_dp : ap_dp ap = dp;
  at_sel : u32 (Z.shiftl (apsel ap) 24) = sel;
  at_base : 0 <= cbase /\ cbase + 4096 <= 2 ^ 32;
}.
Definition on_port (pr : cortexa_priv) (q : aport) (w : W) : Prop :=
  exists e, w = set_out e w0 /\ block e = pr /\ port_of e = q /\ aps (dev w0) !! ca_apb pr = Some ap /\ ca_base pr = cbase.
Definition on (pr : cortexa_priv) (k : acore) (w : W) : Prop := exists q, on_port pr q w /\ p_core q = k.
Definition runs {A} (m : MW A) pr k (a : A) pr' k' : Prop := forall w, on pr k w -> exists w', m w = Ok a w' /\ on pr' k' w'.
Context (AT : attached_to).

Lemma runs_ret {A} (a : A) pr k : runs (ret a) pr k a pr k.
Proof. intros w Hw. by exists w. Qed.
Lemma runs_bind {A B} (m : MW A) (f : A -> MW B) pr k a pr1 k1 b pr2 k2 :
  runs m pr k a pr1 k1 -> runs (f a) pr1 k1 b pr2 k2 -> runs (bind m f) pr k b pr2 k2.
Proof.
  intros Hm Hf w Hw. destruct (Hm w Hw) as (w1 & Hrun & Hw1). destruct (Hf w1 Hw1) as (w2 & Hrun2 & Hw2).
  exists w2. by rewrite (bind_Ok _ _ _ _ _ Hrun).
Qed.
Lemma set_out_set_out e e' (w : W) : set_out e' (set_out e w) = set_out e' w.
Proof. done. Qed.
Lemma out_set_out e (w : W) : out (set_out e w) = e.
Proof. done. Qed.

Lemma run_priv_of w pr q : on_port pr q w -> priv_of p w = Ok h w.
Proof.
  intros (e & -> & _). unfold priv_of, load_target, deref_target, bind, get. cbn. rewrite (at_heap AT). cbn.
  by rewrite (at_priv AT).
Qed.
Lemma on_dp_out {A} (m : M E A) w a e : m (out w) = Ok a e -> on_dp m w = Ok a (set_out e w).
Proof. intros Hm. unfold on_dp, lift, beyond. change (outside (dev w)) with (out w). by rewrite Hm. Qed.
Lemma set_out_self e : set_out (out (set_out e w0)) (set_out e w0) = set_out e w0.
Proof. done. Qed.
Lemma run_ca_priv w pr q : on_port pr q w -> ca_priv p w = Ok pr w.
Proof.
  intros Hw. unfold ca_priv. rewrite (bind_Ok _ _ _ _ _ (run_priv_of w pr q Hw)). destruct Hw as (e & -> & Hb & _).
  erewrite on_dp_out by apply block_load. by rewrite set_out_self, out_set_out, Hb.
Qed.
Lemma runs_priv pr k : runs (ca_priv p) pr k pr pr k.
Proof. intros w (q & Hw & Hq). exists w. split; [by eapply run_ca_priv|by exists q]. Qed.
Lemma runs_upd_ca f pr k : ca_apb (f pr) = ca_apb pr -> ca_base (f pr) = ca_base pr ->
  runs (upd_ca p f) pr k tt (f pr) k.
Proof.
  intros Ha Hb w (q & Hw & Hq). unfold upd_ca.
  rewrite (bind_Ok _ _ _ _ _ (run_priv_of w pr q Hw)), (bind_Ok _ _ _ _ _ (run_ca_priv w pr q Hw)).
  destruct Hw as (e & -> & Hbl & Hpo & Hap & Hba). destruct (block_store e (f pr)) as (e' & Hst & Hbl' & Hpo').
  exists (set_out e' w0). split; [by erewrite on_dp_out by exact Hst|]. exists q. split; [|done]. exists e'.
  split_and!; try done; congruence.
Qed.
(** One access of the port. *)
Lemma run_port w pr q RnW addr v r q' : on_port pr q w -> aport_access cbase sel RnW addr v q = Some (r, q') ->
  exists w', adiv5_dp_low_access (ap_dp ap) RnW addr v w = Ok r w' /\ on_port pr q' w'.
Proof.
  intros (e & -> & Hbl & Hpo & Hap & Hba) Hq. rewrite <- Hpo in Hq.
  destruct (port_access e RnW addr v r q' Hq) as (e' & Hrun & Hpo' & Hbl'). exists (set_out e' w0).
  split; [|exists e'; split_and!; done || congruence]. rewrite (at_dp AT).
  unfold adiv5_dp_low_access, dp_low_access, world_dp, lift, cm_dp, beyond. cbn. by rewrite Hrun.
Qed.
Lemma run_load_ap w pr q : on_port pr q w -> load_ap (ca_apb pr) w = Ok ap w.
Proof. intros (e & -> & _ & _ & Hap & _). unfold load_ap, bind, get. cbn. by rewrite Hap. Qed.
(** TAR is written, the port selected first. *)
Lemma run_tar w pr q v : on_port pr q w ->
  exists w', adiv5_ap_write ap ADIV5_AP_TAR v w = Ok tt w' /\
    on_port pr {| p_sel := sel; p_tar := v; p_rdbuf := p_rdbuf q; p_core := p_core q |} w'.
Proof.
  intros Hw. unfold adiv5_ap_write, firmware_ap_write, adiv5_dp_write.
  assert (select_value ap ADIV5_AP_TAR = sel) as ->.
  { unfold select_value. change (Z.land ADIV5_AP_TAR 0xF0) with 0. rewrite Z.lor_0_r. apply AT. }
  destruct (run_port w pr q ADIV5_LOW_WRITE ADIV5_DP_SELECT sel _ _ Hw eq_refl) as (w1 & Hr1 & Hw1).
  rewrite bind_bind. change (dp_low_access (ap_dp ap) ADIV5_LOW_WRITE) with (adiv5_dp_low_access (W := W) (ap_dp ap) ADIV5_LOW_WRITE).
  rewrite (bind_Ok _ _ _ _ _ Hr1), bind_ret.
  destruct (run_port w1 pr _ ADIV5_LOW_WRITE ADIV5_AP_TAR v _ _ Hw1 (port_tar _ _ _ _ _ _)) as (w2 & Hr2 & Hw2).
  change (dp_low_access (ap_dp ap) ADIV5_LOW_WRITE) with (adiv5_dp_low_access (W := W) (ap_dp ap) ADIV5_LOW_WRITE).
  rewrite (bind_Ok _ _ _ _ _ Hr2). by exists w2.
Qed.
Lemma run_select w pr q reg : on_port pr q w -> 0 <= reg < 1024 ->
  exists w', adiv5_ap_write ap ADIV5_AP_TAR (u32 (ca_base pr + 4 * reg)) w = Ok tt w' /\
    on_port pr {| p_sel := sel; p_tar := cbase + 4 * reg; p_rdbuf := p_rdbuf q; p_core := p_core q |} w'.
Proof.
  intros Hw Hr. assert (ca_base pr = cbase) as -> by (destruct Hw as (e & _ & _ & _ & _ & Hb); exact Hb).
  destruct (at_base AT). rewrite u32_small by lia. by apply run_tar.
Qed.
Lemma runs_write reg v pr k k' : 0 <= reg < 1024 -> acore_write reg v k = Some k' -> runs (apb_write p reg v) pr k tt pr k'.
Proof.
  intros Hr Hk w (q & Hw & Hq). unfold apb_write.
  rewrite (bind_Ok _ _ _ _ _ (run_ca_priv w pr q Hw)), (bind_Ok _ _ _ _ _ (run_load_ap w pr q Hw)).
  destruct (run_select w pr q reg Hw Hr) as (w1 & Hr1 & Hw1). rewrite (bind_Ok _ _ _ _ _ Hr1). rewrite Hq in Hw1.
  destruct (run_port w1 pr _ _ _ v _ _ Hw1 (port_write _ _ _ _ _ _ _ Hk)) as (w2 & Hr2 & Hw2).
  rewrite (bind_Ok _ _ _ _ _ Hr2). exists w2. split; [done|]. by eexists.
Qed.
Lemma runs_read reg pr k x k' : 0 <= reg < 1024 -> acore_read reg k = Some (x, k') -> runs (apb_read p reg) pr k x pr k'.
Proof.
  intros Hr Hk w (q & Hw & Hq). unfold apb_read.
  rewrite (bind_Ok _ _ _ _ _ (run_ca_priv w pr q Hw)), (bind_Ok _ _ _ _ _ (run_load_ap w pr q Hw)).
  destruct (run_select w pr q reg Hw Hr) as (w1 & Hr1 & Hw1). rewrite (bind_Ok _ _ _ _ _ Hr1). rewrite Hq in Hw1.
  destruct (run_port w1 pr _ _ _ 0 _ _ Hw1 (port_read _ _ _ 0 _ _ _ _ Hk)) as (w2 & Hr2 & Hw2).
  rewrite (bind_Ok _ _ _ _ _ Hr2).
  destruct (run_port w2 pr _ ADIV5_LOW_READ ADIV5_DP_RDBUFF 0 _ _ Hw2 eq_refl) as (w3 & Hr3 & Hw3).
  exists w3. split; [exact Hr3|]. by eexists.
Qed.
End Runs.
