(* ===== verification/CortexaProps.v ===== *)
(** The theorems about cortexa.c: memory through the core's instructions, and
    the registers that are saved while it is halted. *)

From Stdlib Require Import ZArith Lia String.
From stdpp Require Import base list numbers option gmap.
From S2P Require Import Prelude CLib GdbIf MemManager GdbPacket TargetState Target Platform Exception Morse Command Dap Adiv5 Objects Cortexm CoreSpec CortexmCache CortexmProps CortexmRegs CortexmRun FlashDev Scan Cortexa CortexaCore.

(** ** Instructions *)
(** A statement about each of a few numbers. *)
Lemma each_upto (P : Z -> Prop) n i : Forall P (seqZ 0 n) -> 0 <= i < n -> P i.
Proof. intros H Hi. eapply Forall_forall in H; [exact H|]. apply elem_of_seqZ. lia. Qed.
Ltac each_instruction :=
  match goal with |- Forall _ ?l => let l' := eval vm_compute in l in change l with l' end;
  repeat (apply Forall_cons_2; [intros k Hk; unfold exec; rewrite Hk; reflexivity|]); apply Forall_nil_2.
Lemma exec_mcr n k : 0 <= n < 15 -> a_abort k = false -> exec (i_mcr n) k = Some (with_dcc (a_rx k) (a_reg k n) k).
Proof. intros Hn. revert k. pattern n. apply (each_upto _ 15); [each_instruction|done]. Qed.
Lemma exec_mrc n k : 0 <= n < 15 -> a_abort k = false -> exec (i_mrc n) k = Some (set_reg n (a_rx k) k).
Proof. intros Hn. revert k. pattern n. apply (each_upto _ 15); [each_instruction|done]. Qed.
Lemma exec_vmov_out n k : 0 <= n < 16 -> a_abort k = false ->
  exec (Z.lor 0xEC510B10 n) k = Some (set_reg 0 (u32 (a_d k n)) (set_reg 1 (Z.shiftr (a_d k n) 32) k)).
Proof. intros Hn. revert k. pattern n. apply (each_upto _ 16); [each_instruction|done]. Qed.
Lemma exec_vmov_in n k : 0 <= n < 16 -> a_abort k = false ->
  exec (Z.lor 0xec410b10 n) k =
    Some (with_psr (a_cpsr k) (a_fpscr k) (upd (a_d k) n (Z.lor (Z.shiftl (a_reg k 1) 32) (a_reg k 0))) k).
Proof. intros Hn. revert k. pattern n. apply (each_upto _ 16); [each_instruction|done]. Qed.

(** The steps of the instructions used in the fast mode. *)
Definition ldc_step k : acore :=
  if a_abort k then k
  else if word_ok k (a_reg k 0) then set_reg 0 (u32 (a_reg k 0 + 4)) (with_dcc (a_rx k) (le_val (word_bytes k (a_reg k 0))) k)
  else set_abort k.
Lemma exec_ldc k : exec i_ldc k = Some (ldc_step k).
Proof. unfold exec, ldc_step. destruct (a_abort k); [done|]. reflexivity. Qed.
Definition stc_step k : acore :=
  if a_abort k then k
  else if word_ok k (a_reg k 0) then set_reg 0 (u32 (a_reg k 0 + 4)) (with_mem (put_word (a_mem k) (a_reg k 0) (a_rx k)) k)
  else set_abort k.
Lemma exec_stc k : exec i_stc k = Some (stc_step k).
Proof. unfold exec, stc_step. destruct (a_abort k); [done|]. reflexivity. Qed.
Definition strb_step k : acore :=
  if a_ok k (a_reg k 13) then set_reg 13 (u32 (a_reg k 13 + 1)) (with_mem (put_byte (a_mem k) (a_reg k 13) (a_reg k 0)) k)
  else set_abort k.
Lemma exec_strb k : a_abort k = false -> exec i_strb k = Some (strb_step k).
Proof. intros Hk. unfold exec, strb_step. rewrite Hk. reflexivity. Qed.

(** ** The control register *)
Lemma land_with_mode x m c : Z.land (u32 (Z.lnot DBGDSCR_EXTDCCMODE_MASK)) c = c -> Z.land m c = 0 ->
  Z.land (with_mode x m) c = Z.land x c.
Proof. intros Hc Hm. unfold with_mode. by rewrite Z.land_lor_distr_l, <- Z.land_assoc, Hc, Hm, Z.lor_0_r. Qed.
Lemma mode_of x m : Z.land m DBGDSCR_EXTDCCMODE_MASK = m -> Z.land (with_mode x m) DBGDSCR_EXTDCCMODE_MASK = m.
Proof.
  intros Hm. unfold with_mode. rewrite Z.land_lor_distr_l, <- Z.land_assoc, Hm.
  change (Z.land (u32 (Z.lnot DBGDSCR_EXTDCCMODE_MASK)) DBGDSCR_EXTDCCMODE_MASK) with 0. by rewrite Z.land_0_r.
Qed.
Lemma land_dscr k c : Z.land (Z.lor (Z.lor DBGDSCR_INSTRCOMPL DBGDSCR_HALTED) DBGDSCR_SDABORT_L) c = 0 ->
  Z.land (dscr_value k) c = Z.land (a_dscr k) c.
Proof.
  intros Hc. rewrite Z.land_lor_distr_l in Hc. apply Z.lor_eq_0_iff in Hc as [H1 H2].
  unfold dscr_value. rewrite !Z.land_lor_distr_l. rewrite <- (Z.land_lor_distr_l DBGDSCR_INSTRCOMPL), H1, Z.lor_0_r.
  destruct (a_abort k); [by rewrite H2, Z.lor_0_r|by rewrite Z.land_0_l, Z.lor_0_r].
Qed.
Lemma control_itren v : Z.land (Z.land v DSCR_CONTROL) DBGDSCR_ITREN = Z.land v DBGDSCR_ITREN.
Proof. by rewrite <- Z.land_assoc. Qed.
Lemma control_mode v : Z.land (Z.land v DSCR_CONTROL) DBGDSCR_EXTDCCMODE_MASK = Z.land v DBGDSCR_EXTDCCMODE_MASK.
Proof. by rewrite <- Z.land_assoc. Qed.
(** The abort is told by DBGDSCR. *)
Lemma dscr_abort k : Z.land (a_dscr k) DBGDSCR_SDABORT_L = 0 -> flag (dscr_value k) DBGDSCR_SDABORT_L = a_abort k.
Proof.
  intros Hc. unfold flag, dscr_value. rewrite !Z.land_lor_distr_l, Hc. by destruct (a_abort k).
Qed.
Lemma control_abort v : Z.land (Z.land v DSCR_CONTROL) DBGDSCR_SDABORT_L = 0.
Proof. rewrite <- Z.land_assoc. apply Z.land_0_r. Qed.

(** A core that takes instructions: none has aborted, the mode is not the fast
    one. *)
Definition takes k : Prop := flag (a_dscr k) DBGDSCR_ITREN = true /\ fast k = false /\ a_abort k = false /\
  Z.land (a_dscr k) DBGDSCR_SDABORT_L = 0.
(** What of a core the instructions of a memory transfer leave: the registers
    but those in [rs], and where memory can be accessed. *)
Definition keeps (rs : list Z) k k' : Prop :=
  (forall n, n ∉ rs -> a_reg k' n = a_reg k n) /\ a_cpsr k' = a_cpsr k /\ a_fpscr k' = a_fpscr k /\ a_d k' = a_d k /\ a_ok k' = a_ok k.
Lemma keeps_refl rs k : keeps rs k k.
Proof. done. Qed.
Lemma keeps_trans rs k k1 k2 : keeps rs k k1 -> keeps rs k1 k2 -> keeps rs k k2.
Proof.
  intros (H1 & H2 & H3 & H4 & H5) (I1 & I2 & I3 & I4 & I5). split_and!; try congruence.
  intros n Hn. rewrite I1, H1; done.
Qed.
Lemma keeps_mono rs rs' k k' : (forall n, n ∈ rs -> n ∈ rs') -> keeps rs k k' -> keeps rs' k k'.
Proof. intros Hs (H1 & H2). split; [|done]. intros n Hn. apply H1. intros Hm. by apply Hn, Hs. Qed.

(** ** Memory as lists *)
Fixpoint mem_bytes (m : Z -> Z) (a : Z) (n : nat) : list Z :=
  match n with O => [] | S n' => m a :: mem_bytes m (a + 1) n' end.
Fixpoint mem_words k (a : Z) (n : nat) : list Z :=
  match n with O => [] | S n' => le_val (word_bytes k a) :: mem_words k (a + 4) n' end.
Definition byte_mem k : Prop := forall a, is_byte (a_mem k a).
Lemma words_bytes_mem k a n : byte_mem k -> words_bytes (mem_words k a n) = mem_bytes (a_mem k) a (4 * n).
Proof.
  intros Hb. revert a. induction n as [|n IH]; intros a; [done|].
  replace (4 * S n)%nat with (S (S (S (S (4 * n))))) by lia. unfold words_bytes in *. cbn [mem_words mem_bytes fmap list_fmap concat].
  rewrite IH. replace (a + 1 + 1) with (a + 2) by lia. replace (a + 2 + 1) with (a + 3) by lia. replace (a + 3 + 1) with (a + 4) by lia.
  assert (le_bytes 4 (le_val (word_bytes k a)) = word_bytes k a) as ->.
  { change 4%nat with (length (word_bytes k a)). apply le_bytes_val. repeat constructor; apply Hb. }
  done.
Qed.
Lemma length_mem_bytes m a n : length (mem_bytes m a n) = n.
Proof. revert a. induction n as [|n IH]; intros a; [done|]. cbn. by rewrite IH. Qed.
Lemma drop_mem_bytes m n : forall a j, drop j (mem_bytes m a n) = mem_bytes m (a + Z.of_nat j) (n - j).
Proof.
  induction n as [|n IH]; intros a [|j]; try done; [cbn [mem_bytes drop]; by rewrite Z.add_0_r|].
  cbn [mem_bytes drop]. rewrite IH. f_equal. lia.
Qed.
Lemma take_mem_bytes m n : forall a j, (j <= n)%nat -> take j (mem_bytes m a n) = mem_bytes m a j.
Proof.
  induction n as [|n IH]; intros a [|j] Hj; try done; [lia|]. cbn. rewrite IH by lia. done.
Qed.
(** What is stored at [a]. *)
Definition put_bytes (m : Z -> Z) (a : Z) (data : list Z) : Z -> Z :=
  fun j => if (a <=? j) && (j <? a + zlen data) then zget data (j - a) else m j.
Lemma mem_bytes_put m a data : mem_bytes (put_bytes m a data) a (length data) = data.
Proof.
  enough (forall n off, 0 <= off -> off + Z.of_nat n = zlen data ->
    mem_bytes (put_bytes m a data) (a + off) n = zdrop off data) as H.
  { specialize (H (length data) 0 ltac:(lia) ltac:(unfold zlen; lia)). rewrite Z.add_0_r in H. exact H. }
  induction n as [|n IH]; intros off Ho Hl; cbn [mem_bytes].
  - symmetry. apply drop_ge. unfold zlen in Hl. lia.
  - replace (a + off + 1) with (a + (off + 1)) by lia. rewrite IH by lia. unfold put_bytes.
    rewrite (proj2 (Z.leb_le _ _)), (proj2 (Z.ltb_lt _ _)) by lia. cbn [andb]. replace (a + off - a) with off by lia.
    unfold zdrop. replace (Z.to_nat (off + 1)) with (S (Z.to_nat off)) by lia. symmetry. apply drop_S, zget_lookup. lia.
Qed.

(** ** Loads *)
Fixpoint ldc_n (n : nat) k : acore := match n with O => k | S n' => ldc_n n' (ldc_step k) end.
Fixpoint tx_seq (n : nat) k : list Z := match n with O => [] | S n' => a_tx k :: tx_seq n' (ldc_step k) end.
Lemma ldc_keeps k : keeps [0] k (ldc_step k) /\ a_mem (ldc_step k) = a_mem k /\ a_dscr (ldc_step k) = a_dscr k /\
  a_itr (ldc_step k) = a_itr k.
Proof.
  unfold ldc_step. destruct (a_abort k); [done|]. destruct (word_ok _ _); [|done]. split; [|done]. split; [|done].
  intros n Hn. cbn. unfold upd. rewrite (proj2 (Z.eqb_neq _ _)); [done|]. intros ->. apply Hn. constructor.
Qed.
Lemma ldc_n_keeps n k : keeps [0] k (ldc_n n k) /\ a_mem (ldc_n n k) = a_mem k /\ a_dscr (ldc_n n k) = a_dscr k /\
  a_itr (ldc_n n k) = a_itr k.
Proof.
  revert k. induction n as [|n IH]; intros k; [done|]. cbn. destruct (ldc_keeps k) as (H1 & H2 & H3 & H4).
  destruct (IH (ldc_step k)) as (I1 & I2 & I3 & I4). split; [by eapply keeps_trans|]. split_and!; congruence.
Qed.
(** The words that can be accessed from [a] on. *)
Definition words_ok k (a : Z) (n : nat) : Prop := forall i, (i < n)%nat -> word_ok k (a + 4 * Z.of_nat i) = true.
Lemma word_ok_keeps rs k k' a : keeps rs k k' -> word_ok k' a = word_ok k a.
Proof. intros (_ & _ & _ & _ & H). unfold word_ok. by rewrite H. Qed.
Lemma ldc_words n : forall k, a_abort k = false -> words_ok k (a_reg k 0) n -> a_reg k 0 + 4 * Z.of_nat n <= 2 ^ 32 -> 0 <= a_reg k 0 ->
  tx_seq n (ldc_step k) = mem_words k (a_reg k 0) n /\ a_abort (ldc_n n k) = false /\
  a_reg (ldc_n n k) 0 = u32 (a_reg k 0 + 4 * Z.of_nat n) \/ n = O.
Proof.
  induction n as [|n IH]; intros k Ha Hw Hb H0; [by right|]. left.
  assert (ldc_step k = set_reg 0 (u32 (a_reg k 0 + 4)) (with_dcc (a_rx k) (le_val (word_bytes k (a_reg k 0))) k)) as Hs.
  { unfold ldc_step. rewrite Ha. specialize (Hw O ltac:(lia)). rewrite Z.add_0_r in Hw. by rewrite Hw. }
  cbn [tx_seq mem_words ldc_n]. destruct n as [|n].
  - cbn. rewrite Hs. cbn. unfold upd. cbn. split_and!; try done.
  - assert (a_reg (ldc_step k) 0 = a_reg k 0 + 4) as Hr.
    { rewrite Hs. cbn. unfold upd. cbn. apply u32_small. lia. }
    destruct (ldc_keeps k) as (Hk & Hm & _). destruct (IH (ldc_step k)) as [(H1 & H2 & H3)|]; try done.
    + by rewrite Hs.
    + rewrite Hr. intros i Hi. rewrite (word_ok_keeps _ _ _ _ Hk). replace (a_reg k 0 + 4 + 4 * Z.of_nat i) with (a_reg k 0 + 4 * Z.of_nat (S i)) by lia.
      apply Hw. lia.
    + rewrite Hr. lia.
    + rewrite Hr. lia.
    + rewrite Hr in H1, H3. split_and!; try done.
      * rewrite H1. rewrite Hs at 1. cbn [a_tx set_reg with_reg with_dcc]. f_equal.
        clear -Hm. generalize (a_reg k 0 + 4). intros a. generalize (S n). intros j. revert a.
        induction j as [|j IH]; intros a; [done|]. cbn [mem_words]. rewrite IH. unfold word_bytes. by rewrite Hm.
      * rewrite H3. f_equal. lia.
Qed.

Lemma length_tx_seq n k : length (tx_seq n k) = n.
Proof. revert k. induction n as [|n IH]; intros k; [done|]. cbn. by rewrite IH. Qed.
Lemma ldc_n_S n k : ldc_n (S n) k = ldc_step (ldc_n n k).
Proof. revert k. induction n as [|n IH]; intros k; [done|]. change (ldc_n (S (S n)) k) with (ldc_n (S n) (ldc_step k)). by rewrite IH. Qed.
Lemma mem_words_ext k k' a n : a_mem k' = a_mem k -> mem_words k' a n = mem_words k a n.
Proof. intros Hm. revert a. induction n as [|n IH]; intros a; [done|]. cbn [mem_words]. rewrite IH. unfold word_bytes. by rewrite Hm. Qed.
(** A run of loads that has not aborted has found every word. *)
Lemma ldc_not_aborted n : forall k, a_abort (ldc_n n k) = false -> is_u32 (a_reg k 0) ->
  forall i, (i < n)%nat -> word_ok k (u32 (a_reg k 0 + 4 * Z.of_nat i)) = true.
Proof.
  induction n as [|n IH]; intros k Hn Hr i Hi; [lia|]. cbn in Hn.
  assert (a_abort k = false /\ word_ok k (a_reg k 0) = true) as [Ha Hw].
  { assert (forall j k, a_abort k = true -> a_abort (ldc_n j k) = true) as Hst.
    { induction j as [|j IHj]; intros k1 Hk; [done|]. cbn. apply IHj. unfold ldc_step. by rewrite Hk. }
    destruct (a_abort k) eqn:Ha; [rewrite Hst in Hn; [done|unfold ldc_step; by rewrite Ha]|].
    destruct (word_ok k (a_reg k 0)) eqn:Hw; [done|]. rewrite Hst in Hn; [done|]. unfold ldc_step. by rewrite Ha, Hw. }
  destruct i as [|i]; [by rewrite Z.add_0_r, u32_small|].
  destruct (ldc_keeps k) as (Hk & _). rewrite <- (word_ok_keeps _ _ _ _ Hk).
  assert (a_reg (ldc_step k) 0 = u32 (a_reg k 0 + 4)) as Hr1 by (unfold ldc_step; rewrite Ha, Hw; done).
  replace (u32 (a_reg k 0 + 4 * Z.of_nat (S i))) with (u32 (a_reg (ldc_step k) 0 + 4 * Z.of_nat i)).
  - apply IH; [done|rewrite Hr1; apply u32_range|lia].
  - rewrite Hr1, u32_add_l. f_equal. lia.
Qed.

(** ** Stores *)
Fixpoint stc_n (vs : list Z) k : acore :=
  match vs with [] => k | v :: vs' => stc_n vs' (stc_step (with_dcc v (a_tx k) k)) end.
Lemma stc_keeps k : keeps [0] k (stc_step k) /\ a_dscr (stc_step k) = a_dscr k /\ a_itr (stc_step k) = a_itr k.
Proof.
  unfold stc_step. destruct (a_abort k); [done|]. destruct (word_ok _ _); [|done]. split; [|done]. split; [|done].
  intros n Hn. cbn. unfold upd. rewrite (proj2 (Z.eqb_neq _ _)); [done|]. intros ->. apply Hn. constructor.
Qed.
Lemma stc_n_keeps vs : forall k, keeps [0] k (stc_n vs k) /\ a_dscr (stc_n vs k) = a_dscr k.
Proof.
  induction vs as [|v vs IH]; intros k; [done|]. cbn [stc_n]. destruct (stc_keeps (with_dcc v (a_tx k) k)) as (H1 & H2 & _).
  destruct (IH (stc_step (with_dcc v (a_tx k) k))) as [I1 I2].
  split; [exact (keeps_trans _ _ _ _ H1 I1)|exact (eq_trans I2 H2)].
Qed.
Lemma put_bytes_app m a d e j : put_bytes (put_bytes m a d) (a + zlen d) e j = put_bytes m a (d ++ e) j.
Proof.
  unfold put_bytes. rewrite zlen_app. pose proof (zlen_nonneg d). pose proof (zlen_nonneg e).
  destruct (Z.leb_spec (a + zlen d) j); destruct (Z.ltb_spec j (a + zlen d + zlen e)); cbn [andb].
  - rewrite (proj2 (Z.leb_le a j)), (proj2 (Z.ltb_lt j _)) by lia. cbn [andb].
    rewrite zget_app, (proj2 (Z.ltb_ge _ _)) by lia. f_equal. lia.
  - rewrite (proj2 (Z.ltb_ge j (a + zlen d))), (proj2 (Z.ltb_ge j (a + (zlen d + zlen e)))) by lia. by rewrite !andb_false_r.
  - destruct (Z.leb_spec a j); cbn [andb]; [|done]. rewrite !(proj2 (Z.ltb_lt j _)) by lia. rewrite zget_app by lia.
    by rewrite (proj2 (Z.ltb_lt _ _)) by lia.
  - lia.
Qed.
Lemma put_bytes_ext m m' a d j : (forall i, m i = m' i) -> put_bytes m a d j = put_bytes m' a d j.
Proof. intros Hm. unfold put_bytes. by destruct (_ && _). Qed.
Lemma stc_words vs : forall k, a_abort k = false -> words_ok k (a_reg k 0) (length vs) ->
  0 <= a_reg k 0 -> a_reg k 0 + 4 * zlen vs <= 2 ^ 32 ->
  a_abort (stc_n vs k) = false /\ forall j, a_mem (stc_n vs k) j = put_bytes (a_mem k) (a_reg k 0) (words_bytes vs) j.
Proof.
  induction vs as [|v vs IH]; intros k Ha Hw H0 Hb.
  { split; [done|]. intros j. unfold put_bytes. change (zlen (words_bytes [])) with 0. rewrite Z.add_0_r. cbn.
    destruct (Z.leb_spec (a_reg k 0) j); [|done]. by rewrite (proj2 (Z.ltb_ge _ _)) by lia. }
  set (k1 := with_dcc v (a_tx k) k). rewrite zlen_cons in Hb. pose proof (zlen_nonneg vs).
  assert (stc_step k1 = set_reg 0 (u32 (a_reg k 0 + 4)) (with_mem (put_word (a_mem k) (a_reg k 0) v) k1)) as Hs.
  { unfold stc_step. change (a_abort k1) with (a_abort k). rewrite Ha. change (word_ok k1) with (word_ok k).
    change (a_reg k1 0) with (a_reg k 0). specialize (Hw O ltac:(cbn; lia)). rewrite Z.add_0_r in Hw. by rewrite Hw. }
  cbn [stc_n]. fold k1. destruct (decide (vs = [])) as [->|Hne].
  { cbn [stc_n]. rewrite Hs. split; [done|]. intros j. cbn. reflexivity. }
  assert (a_reg (stc_step k1) 0 = a_reg k 0 + 4) as Hr.
  { rewrite Hs. cbn. unfold upd. cbn. apply u32_small. destruct vs; [done|]. rewrite zlen_cons in Hb. pose proof (zlen_nonneg vs).
    unfold in_width. lia. }
  destruct (IH (stc_step k1)) as [I1 I2].
  - by rewrite Hs.
  - rewrite Hr. intros i Hi. destruct (stc_keeps k1) as (Hk & _). rewrite (word_ok_keeps _ _ _ _ Hk). change (word_ok k1) with (word_ok k).
    replace (a_reg k 0 + 4 + 4 * Z.of_nat i) with (a_reg k 0 + 4 * Z.of_nat (S i)) by lia. apply Hw. cbn. lia.
  - rewrite Hr. lia.
  - rewrite Hr. lia.
  - split; [done|]. intros j. rewrite I2, Hr. rewrite Hs at 1. change (words_bytes (v :: vs)) with (le_bytes 4 v ++ words_bytes vs).
    rewrite <- put_bytes_app. reflexivity.
Qed.

Lemma align_down src : is_u32 src -> Z.land src 0xfffffffc = src - src mod 4 /\ Z.land src 3 = src mod 4.
Proof.
  intros Hs. split; [|change 3 with (Z.ones 2); by rewrite Z.land_ones by lia].
  exact (line_down_pow 2 src ltac:(lia) Hs).
Qed.

(** ** The registers saved *)
Definition snapshot k : reg_cache :=
  {| rc_r := a_reg k <$> seqZ 0 16; rc_cpsr := a_cpsr k; rc_fpscr := a_fpscr k; rc_d := a_d k <$> seqZ 0 16 |}.
Definition cache_wf (c : reg_cache) : Prop := length (rc_r c) = 16%nat /\ length (rc_d c) = 16%nat.
Definition regs_wf k : Prop := (forall n, is_u32 (a_reg k n)) /\ (forall n, in_width 64 (a_d k n)).
Definition same_regs k k' : Prop :=
  (forall n, 0 <= n < 16 -> a_reg k' n = a_reg k n) /\ a_cpsr k' = a_cpsr k /\ a_fpscr k' = a_fpscr k /\
  (forall n, 0 <= n < 16 -> a_d k' n = a_d k n).
Lemma fill_r (f : Z -> Z) c : cache_wf c ->
  foldl (fun c i => set_r i (f (Z.of_nat i)) c) c (seq 0 15) =
    {| rc_r := (f <$> seqZ 0 15) ++ drop 15 (rc_r c); rc_cpsr := rc_cpsr c; rc_fpscr := rc_fpscr c; rc_d := rc_d c |}.
Proof. intros [Hl _]. destruct c as [l ? ? ?]. cbn in Hl. do 17 (destruct l as [|? l]; try done). Qed.
Lemma fill_d (f : Z -> Z) c : cache_wf c ->
  foldl (fun c i => set_d i (f (Z.of_nat i)) c) c (seq 0 16) =
    {| rc_r := rc_r c; rc_cpsr := rc_cpsr c; rc_fpscr := rc_fpscr c; rc_d := f <$> seqZ 0 16 |}.
Proof. intros [_ Hl]. destruct c as [? ? ? l]. cbn in Hl. do 17 (destruct l as [|? l]; try done). Qed.
Lemma double_halves d : in_width 64 d ->
  Z.lor (Z.shiftl (Z.shiftr d 32) 32) (u32 d) = d /\ u32 (Z.shiftr d 32) = Z.shiftr d 32.
Proof.
  intros Hd. unfold in_width in Hd. split.
  - unfold u32, wrap. rewrite <- Z.land_ones by lia. apply Z.bits_inj'. intros i Hi.
    rewrite Z.lor_spec, Z.land_spec, Z.shiftl_spec by lia. destruct (decide (i < 32)).
    + rewrite Z.testbit_neg_r, Z.ones_spec_low by lia. by rewrite andb_true_r.
    + rewrite Z.shiftr_spec, Z.ones_spec_high by lia. rewrite andb_false_r, orb_false_r. f_equal. lia.
  - apply u32_small. unfold in_width. rewrite Z.shiftr_div_pow2 by lia. split; [apply Z.div_pos; lia|apply Z.div_lt_upper_bound; lia].
Qed.

(** ** Transfers *)
Section Transfers.
Context {E : Type} `{GdbIf E} `{MemIf E} `{ClockIf E} `{DPI : DpIf E} `{DpObj E} `{CA : CaObj E}
        `{ProbeIf (cm_dev E)} `{HostIf (cm_dev E)}.
Context {dp h : positive} {cbase sel : Z} {S : APortSpec E dp h cbase sel}.
Variables (p : positive) (t : target) (ap : ADIv5_AP) (w0 : world (cm_dev E)).
Context (AT : attached_to (dp := dp) (h := h) (cbase := cbase) (sel := sel) p t ap w0).
Notation runs := (runs (S := S) ap w0).

Lemma runs_then {A B} (m : M _ A) (f : A -> M _ B) pr k a pr1 k1 b pr2 k2 :
  runs m pr k a pr1 k1 -> runs (f a) pr1 k1 b pr2 k2 -> runs (bind m f) pr k b pr2 k2.
Proof. apply runs_bind. Qed.
Lemma runs_as {A} (m : M _ A) pr pr1 k a pr2 pr3 k2 : runs m pr k a pr2 k2 -> pr1 = pr -> pr3 = pr2 -> runs m pr1 k a pr3 k2.
Proof. by intros Hm -> ->. Qed.
Lemma runs_dscr pr k : runs (apb_read p DBGDSCR) pr k (dscr_value k) pr k.
Proof. by eapply runs_read. Qed.
Lemma runs_set_dscr v pr k : runs (apb_write p DBGDSCR v) pr k tt pr (with_ctl (a_itr k) (Z.land v DSCR_CONTROL) (a_abort k) k).
Proof. by eapply runs_write. Qed.
Lemma runs_clear pr k : runs (apb_write p DBGDRCR DBGDRCR_CSE) pr k tt pr (with_ctl (a_itr k) (a_dscr k) false k).
Proof. by eapply runs_write. Qed.
Lemma runs_exec i pr k k' : flag (a_dscr k) DBGDSCR_ITREN = true -> fast k = false -> exec i k = Some k' ->
  runs (apb_write p DBGITR i) pr k tt pr k'.
Proof.
  intros Hi Hf He. eapply runs_write; [done|done|]. unfold acore_write. change (DBGITR =? DBGDTRRX) with false.
  change (DBGITR =? DBGITR) with true. by rewrite Hi, Hf.
Qed.
Lemma runs_hold i pr k : flag (a_dscr k) DBGDSCR_ITREN = true -> fast k = true ->
  runs (apb_write p DBGITR i) pr k tt pr (with_ctl i (a_dscr k) (a_abort k) k).
Proof.
  intros Hi Hf. eapply runs_write; [done|done|]. unfold acore_write. change (DBGITR =? DBGDTRRX) with false.
  change (DBGITR =? DBGITR) with true. by rewrite Hi, Hf.
Qed.
Lemma runs_tx_fast pr k k' : fast k = true -> exec (a_itr k) k = Some k' -> runs (apb_read p DBGDTRTX) pr k (a_tx k) pr k'.
Proof.
  intros Hf He. eapply runs_read; [done|done|]. unfold acore_read. change (DBGDTRTX =? DBGDTRTX) with true. by rewrite Hf, He.
Qed.
Lemma runs_tx pr k : fast k = false -> runs (apb_read p DBGDTRTX) pr k (a_tx k) pr k.
Proof.
  intros Hf. eapply runs_read; [done|done|]. unfold acore_read. change (DBGDTRTX =? DBGDTRTX) with true. by rewrite Hf.
Qed.
Lemma runs_rx v pr k : fast k = false -> runs (apb_write p DBGDTRRX v) pr k tt pr (with_dcc v (a_tx k) k).
Proof.
  intros Hf. eapply runs_write; [done|done|]. unfold acore_write. change (DBGDTRRX =? DBGDTRRX) with true.
  change (fast (with_dcc v (a_tx k) k)) with (fast k). by rewrite Hf.
Qed.
Lemma runs_rx_fast v pr k k' : fast k = true -> exec (a_itr k) (with_dcc v (a_tx k) k) = Some k' ->
  runs (apb_write p DBGDTRRX v) pr k tt pr k'.
Proof.
  intros Hf He. eapply runs_write; [done|done|]. unfold acore_write. change (DBGDTRRX =? DBGDTRRX) with true.
  change (fast (with_dcc v (a_tx k) k)) with (fast k). by rewrite Hf.
Qed.

(** General registers. *)
Lemma runs_write_gpreg n v pr k : takes k -> 0 <= n < 15 ->
  runs (write_gpreg p n v) pr k tt pr (set_reg n v (with_dcc v (a_tx k) k)).
Proof.
  intros (Hi & Hf & Ha & _) Hn. eapply runs_then; [by apply runs_rx|]. apply runs_exec; [done|done|].
  exact (exec_mrc n (with_dcc v (a_tx k) k) Hn Ha).
Qed.
Lemma runs_read_gpreg n pr k : takes k -> 0 <= n < 15 ->
  runs (read_gpreg p n) pr k (a_reg k n) pr (with_dcc (a_rx k) (a_reg k n) k).
Proof.
  intros (Hi & Hf & Ha & _) Hn. eapply runs_then; [apply runs_exec; [done|done|by apply exec_mcr]|].
  by apply (runs_tx pr (with_dcc (a_rx k) (a_reg k n) k)).
Qed.

(** The modes. *)
Definition in_fast v k : acore := with_ctl (a_itr k) (Z.land (with_mode v DBGDSCR_EXTDCCMODE_FAST) DSCR_CONTROL) (a_abort k) k.
Definition in_stall v k : acore := with_ctl (a_itr k) (Z.land (with_mode v DBGDSCR_EXTDCCMODE_STALL) DSCR_CONTROL) (a_abort k) k.
Lemma runs_fast pr k : runs (fast_mode p) pr k (with_mode (dscr_value k) DBGDSCR_EXTDCCMODE_FAST) pr (in_fast (dscr_value k) k).
Proof.
  eapply runs_then; [apply runs_dscr|]. eapply runs_then; [apply runs_set_dscr|]. apply runs_ret.
Qed.
Lemma fast_in_fast k v : fast (in_fast v k) = true.
Proof. unfold fast, in_fast. cbn [a_dscr with_ctl]. rewrite control_mode, mode_of by done. apply Z.eqb_refl. Qed.
Lemma fast_in_stall k v : fast (in_stall v k) = false.
Proof. unfold fast, in_stall. cbn [a_dscr with_ctl]. by rewrite control_mode, mode_of by done. Qed.
Lemma itren_fast k : flag (a_dscr (in_fast (dscr_value k) k)) DBGDSCR_ITREN = flag (a_dscr k) DBGDSCR_ITREN.
Proof. unfold flag, in_fast. cbn [a_dscr with_ctl]. by rewrite control_itren, land_with_mode, land_dscr by done. Qed.
Lemma itren_stall k k' : flag (a_dscr (in_stall (with_mode (dscr_value k) DBGDSCR_EXTDCCMODE_FAST) k')) DBGDSCR_ITREN = flag (a_dscr k) DBGDSCR_ITREN.
Proof. unfold flag, in_stall. cbn [a_dscr with_ctl]. by rewrite control_itren, !land_with_mode, land_dscr by done. Qed.

(** How a transfer ends: whether an access has aborted is told and cleared. *)
Definition noted k (pr : cortexa_priv) : cortexa_priv := if a_abort k then set_mmu_fault true pr else pr.
Definition cleared k : acore := with_ctl (a_itr k) (a_dscr k) false k.
Lemma cleared_same k : a_abort k = false -> cleared k = k.
Proof. intros Ha. unfold cleared, with_ctl. rewrite <- Ha. by destruct k. Qed.
Lemma runs_aborted pr k : Z.land (a_dscr k) DBGDSCR_SDABORT_L = 0 ->
  runs (aborted p) pr k (a_abort k) (noted k pr) (cleared k).
Proof.
  intros Hd. unfold aborted. eapply runs_then; [apply runs_dscr|]. rewrite dscr_abort by done.
  unfold noted, cleared. destruct (a_abort k) eqn:Ha.
  - eapply runs_then; [apply runs_clear|]. eapply runs_then; [by apply (runs_upd_ca p t ap w0 AT (set_mmu_fault true))|]. apply runs_ret.
  - rewrite (cleared_same k Ha : with_ctl (a_itr k) (a_dscr k) false k = k). apply runs_ret.
Qed.

(** *** Reading *)
Lemma runs_reads n : forall pr k, fast k = true -> a_itr k = i_ldc ->
  runs (apb_reads p DBGDTRTX n) pr k (tx_seq n k) pr (ldc_n n k).
Proof.
  induction n as [|n IH]; intros pr k Hf Hi; [apply runs_ret|]. cbn [apb_reads tx_seq ldc_n].
  destruct (ldc_keeps k) as (_ & _ & Hd & Hi'). eapply runs_then; [apply (runs_tx_fast pr k (ldc_step k)); [done|]|].
  { rewrite Hi. apply exec_ldc. }
  eapply runs_then; [apply IH; [unfold fast; by rewrite Hd|congruence]|]. apply runs_ret.
Qed.
(** The core when the reads start: the address in r0, the instruction held. *)
Definition read_start k (src : Z) : acore :=
  let k1 := set_reg 0 (Z.land src 0xfffffffc) (with_dcc (Z.land src 0xfffffffc) (a_tx k) k) in
  let k2 := in_fast (dscr_value k1) k1 in with_ctl i_ldc (a_dscr k2) (a_abort k2) k2.
Definition read_words (src len : Z) : nat := Z.to_nat (u32 (len + Z.land src 3 + 3) / 4).
Definition read_data k (src len : Z) : list Z := words_bytes (tx_seq (read_words src len) (ldc_step (read_start k src))).
Lemma read_start_keeps k src : keeps [0] k (read_start k src) /\ a_mem (read_start k src) = a_mem k /\
  a_abort (read_start k src) = a_abort k /\ a_reg (read_start k src) 0 = Z.land src 0xfffffffc.
Proof.
  split; [|done]. split; [|done]. intros n Hn. cbn. unfold upd. rewrite (proj2 (Z.eqb_neq _ _)); [done|]. intros ->. apply Hn. constructor.
Qed.
Lemma runs_slow_read src len pr k data : takes k ->
  Z.land src 3 + len <= zlen (read_data k src len) -> 0 <= len ->
  data = ztake len (zdrop (Z.land src 3) (read_data k src len)) ->
  let k' := ldc_n (Datatypes.S (read_words src len)) (read_start k src) in
  exists k2, runs (cortexa_slow_mem_read p src len) pr k data (noted k' pr) k2 /\ takes k2 /\ keeps [0] k k2 /\ a_mem k2 = a_mem k.
Proof.
  intros Ht Hl Hp -> k'. pose proof Ht as (Hi & Hf & Ha & _). set (k0 := read_start k src) in *.
  destruct (read_start_keeps k src) as (Hk0 & Hm0 & Ha0 & _). fold k0 in Hk0, Hm0, Ha0.
  destruct (ldc_n_keeps (Datatypes.S (read_words src len)) k0) as (Hk & Hm & Hd & _). fold k' in Hk, Hm, Hd.
  assert (fast k0 = true) as Hf0 by apply fast_in_fast.
  set (kd := with_dcc (Z.land src 0xfffffffc) (a_tx k) k).
  set (v := with_mode (dscr_value (set_reg 0 (Z.land src 0xfffffffc) kd)) DBGDSCR_EXTDCCMODE_FAST).
  exists (cleared (in_stall v k')).
  assert (takes (cleared (in_stall v k'))) as Hend.
  { split_and!; [|apply fast_in_stall|done|apply control_abort]. cbn [cleared a_dscr with_ctl]. unfold v. rewrite itren_stall. exact Hi. }
  split; [|split; [done|split; [exact (keeps_trans _ _ _ _ Hk0 Hk)|exact (eq_trans Hm Hm0)]]].
  unfold cortexa_slow_mem_read. eapply runs_then; [by apply runs_write_gpreg; [|lia]|].
  eapply runs_then; [apply runs_fast|]. eapply runs_then; [apply runs_hold; [rewrite itren_fast; exact Hi|apply fast_in_fast]|].
  change (with_ctl 3971702273 _ _ _) with k0.
  eapply runs_then; [apply (runs_tx_fast pr k0 (ldc_step k0) Hf0); apply exec_ldc|].
  destruct (ldc_keeps k0) as (_ & _ & Hd1 & Hi1).
  eapply runs_then; [apply runs_reads; [unfold fast; by rewrite Hd1|by rewrite Hi1]|].
  eapply (runs_then _ _ _ _ (ztake len (zdrop (Z.land src 3) (read_data k src len)))).
  { unfold load_n. fold (read_words src len). change (words_bytes (tx_seq _ _)) with (read_data k src len).
    rewrite !(proj2 (Z.leb_le _ _)); [apply runs_ret|lia|..]; try lia. by apply Z.land_nonneg; right. }
  eapply (runs_then _ _ _ _ _ pr (in_stall v k')); [exact (runs_set_dscr _ pr k')|].
  eapply (runs_then _ _ _ _ (a_abort k') (noted k' pr) (cleared (in_stall v k')));
    [exact (runs_aborted pr (in_stall v k') (control_abort _))|].
  eapply runs_then; [|apply runs_ret]. destruct (a_abort k'); [apply runs_ret|].
  eapply runs_then; [apply runs_tx; apply Hend|apply runs_ret].
Qed.
Lemma read_words_eq src len : is_u32 src -> 0 <= len -> len + 6 < 2 ^ 32 ->
  read_words src len = Z.to_nat ((len + src mod 4 + 3) / 4) /\ src mod 4 + len <= 4 * Z.of_nat (read_words src len).
Proof.
  intros Hs Hl Hb. unfold read_words. rewrite (proj2 (align_down src Hs)). pose proof (Z.mod_pos_bound src 4 ltac:(lia)).
  rewrite u32_small by lia. split; [done|]. pose proof (Z.div_mod (len + src mod 4 + 3) 4 ltac:(lia)).
  pose proof (Z.mod_pos_bound (len + src mod 4 + 3) 4 ltac:(lia)).
  rewrite Z2Nat.id by (apply Z.div_pos; lia). lia.
Qed.
Lemma zlen_read_data k src len : zlen (read_data k src len) = 4 * Z.of_nat (read_words src len).
Proof. unfold read_data. rewrite length_words_bytes. unfold zlen. by rewrite length_tx_seq. Qed.
(** The words read are the memory's, if all of them can be accessed. *)
Lemma read_data_mem k src len : takes k -> byte_mem k -> is_u32 src -> 0 <= len -> len + 6 < 2 ^ 32 -> src + len <= 2 ^ 32 ->
  words_ok k (src - src mod 4) (read_words src len) ->
  ztake len (zdrop (Z.land src 3) (read_data k src len)) = mem_bytes (a_mem k) src (Z.to_nat len) /\
  a_abort (ldc_n (Datatypes.S (read_words src len)) (read_start k src)) =
    negb (word_ok k (u32 (src - src mod 4 + 4 * Z.of_nat (read_words src len)))).
Proof.
  intros (_ & _ & Ha & _) Hb Hs Hl Hlim Hend Hok. destruct (align_down src Hs) as [Hdown Hlow]. rewrite Hlow.
  destruct (read_words_eq src len Hs Hl Hlim) as [_ Hcover].
  destruct (read_start_keeps k src) as (Hk0 & Hm0 & Ha0 & Hr0). rewrite Hdown in Hr0.
  pose proof (Z.mod_pos_bound src 4 ltac:(lia)) as Hmod. pose proof (Z.mod_le src 4 ltac:(apply Hs) ltac:(lia)).
  set (n := read_words src len) in *.
  assert (src - src mod 4 + 4 * Z.of_nat n <= 2 ^ 32 /\ 0 <= src - src mod 4) as [Hfit Hpos].
  { unfold n. destruct (read_words_eq src len Hs Hl Hlim) as [-> _]. rewrite Z2Nat.id by (apply Z.div_pos; lia).
    pose proof (Z.div_mod src 4 ltac:(lia)). pose proof (Z.mul_div_le (len + src mod 4 + 3) 4 ltac:(lia)).
    unfold in_width in Hs. lia. }
  assert (words_ok (read_start k src) (a_reg (read_start k src) 0) n) as Hok0.
  { rewrite Hr0. intros i Hi. rewrite (word_ok_keeps _ _ _ _ Hk0). by apply Hok. }
  assert (tx_seq n (ldc_step (read_start k src)) = mem_words k (src - src mod 4) n /\
    a_abort (ldc_n n (read_start k src)) = false /\
    a_reg (ldc_n n (read_start k src)) 0 = u32 (src - src mod 4 + 4 * Z.of_nat n)) as (Htx & Hab & Hr).
  { destruct (ldc_words n (read_start k src)) as [(I1 & I2 & I3)|Hn]; [congruence|done|rewrite Hr0; lia|rewrite Hr0; lia| |].
    - rewrite Hr0 in I1, I3. split; [|done]. rewrite I1. by apply mem_words_ext.
    - rewrite Hn. cbn [tx_seq mem_words ldc_n]. split_and!; [done|congruence|]. rewrite Hr0, Z.add_0_r. symmetry. apply u32_small. unfold in_width in *. lia. }
  split.
  - unfold read_data. fold n. rewrite Htx, words_bytes_mem by done. unfold zdrop, ztake. rewrite drop_mem_bytes, take_mem_bytes by lia.
    f_equal. rewrite Z2Nat.id by lia. lia.
  - rewrite ldc_n_S. unfold ldc_step. rewrite Hab, Hr. destruct (ldc_n_keeps n (read_start k src)) as (Hkn & _).
    rewrite (word_ok_keeps _ _ _ _ Hkn), (word_ok_keeps _ _ _ _ Hk0). by destruct (word_ok k _).
Qed.

(** *** Writing *)
Lemma runs_stores vs : forall pr k, fast k = true -> a_itr k = i_stc ->
  runs (for_each vs (fun v => apb_write p DBGDTRRX v)) pr k tt pr (stc_n vs k).
Proof.
  induction vs as [|v vs IH]; intros pr k Hf Hi; [apply runs_ret|]. cbn [for_each stc_n].
  destruct (stc_keeps (with_dcc v (a_tx k) k)) as (_ & Hd & Hi').
  eapply runs_then; [apply (runs_rx_fast v pr k (stc_step (with_dcc v (a_tx k) k))); [done|]|].
  { rewrite Hi. apply exec_stc. }
  apply IH; [unfold fast; by rewrite Hd|by rewrite Hi'].
Qed.
Definition write_start k (dest : Z) : acore :=
  let k1 := set_reg 0 dest (with_dcc dest (a_tx k) k) in
  let k2 := in_fast (dscr_value k1) k1 in with_ctl i_stc (a_dscr k2) (a_abort k2) k2.
Lemma runs_slow_write_words dest src n pr k : takes k -> is_u32 dest -> is_bytes src -> length src = (4 * n)%nat -> src <> [] ->
  dest mod 4 = 0 -> dest + zlen src <= 2 ^ 32 -> words_ok k dest n ->
  exists k2, runs (cortexa_slow_mem_write p dest src) pr k tt pr k2 /\ takes k2 /\ keeps [0] k k2 /\
    forall j, a_mem k2 j = put_bytes (a_mem k) dest src j.
Proof.
  intros Ht Hd Hb Hl Hne Hal Hlim Hok. pose proof Ht as (Hi & Hf & Ha & _). set (k0 := write_start k dest).
  assert (length (bytes_words src) = n) as Hn by (by apply length_bytes_words).
  set (k' := stc_n (bytes_words src) k0). destruct (stc_n_keeps (bytes_words src) k0) as [Hk Hdscr]. fold k' in Hk, Hdscr.
  destruct (stc_words (bytes_words src) k0) as [Hab Hm].
  { done. } { change (a_reg k0 0) with dest. rewrite Hn. exact Hok. } { apply Hd. }
  { change (a_reg k0 0) with dest. unfold zlen in *. rewrite Hn. lia. }
  rewrite (words_bytes_words n) in Hm by done. change (a_reg k0 0) with dest in Hm. fold k' in Hab, Hm.
  assert (keeps [0] k k0) as Hk0.
  { split; [|done]. intros m Hm'. cbn. unfold upd. rewrite (proj2 (Z.eqb_neq _ _)); [done|]. intros ->. apply Hm'. constructor. }
  set (v := with_mode (dscr_value (set_reg 0 dest (with_dcc dest (a_tx k) k))) DBGDSCR_EXTDCCMODE_FAST).
  exists (cleared (in_stall v k')). split; [|split; [|split; [exact (keeps_trans _ _ _ _ Hk0 Hk)|exact Hm]]].
  2: { split_and!; [|apply fast_in_stall|done|apply control_abort]. cbn [cleared a_dscr with_ctl]. unfold v. rewrite itren_stall. exact Hi. }
  unfold cortexa_slow_mem_write. rewrite (proj2 (Z.eqb_neq _ _)) by (destruct src; [done|]; rewrite zlen_cons; pose proof (zlen_nonneg src); lia).
  assert (flag dest 3 || flag (zlen src) 3 = false) as ->.
  { unfold flag. change 3 with (Z.ones 2). rewrite !Z.land_ones by lia. change (2 ^ 2) with 4. rewrite Hal. unfold zlen. rewrite Hl.
    replace (Z.of_nat (4 * n)) with (Z.of_nat n * 4) by lia. by rewrite Z.mod_mul. }
  eapply runs_then; [by apply runs_write_gpreg; [|lia]|]. eapply runs_then; [apply runs_fast|].
  eapply runs_then; [apply runs_hold; [rewrite itren_fast; exact Hi|apply fast_in_fast]|].
  eapply (runs_then _ _ _ _ _ pr k'); [apply (runs_stores _ pr k0); [apply fast_in_fast|done]|].
  eapply (runs_then _ _ _ _ _ pr (in_stall v k')); [exact (runs_set_dscr _ pr k')|].
  eapply (runs_then _ _ _ _ (a_abort k') (noted k' pr) (cleared (in_stall v k')));
    [exact (runs_aborted pr (in_stall v k') (control_abort _))|].
  unfold noted. rewrite Hab. apply runs_ret.
Qed.
Lemma runs_bytes src : forall pr k, takes k -> 0 <= a_reg k 13 -> a_reg k 13 + zlen src <= 2 ^ 32 -> is_bytes src ->
  (forall i, a_reg k 13 <= i < a_reg k 13 + zlen src -> a_ok k i = true) ->
  exists k2, runs (write_each_byte p src) pr k tt pr k2 /\ takes k2 /\ keeps [0; 13] k k2 /\
    forall j, a_mem k2 j = put_bytes (a_mem k) (a_reg k 13) src j.
Proof.
  induction src as [|b src IH]; intros pr k Ht H13 Hlim Hb Hok.
  { exists k. split; [apply runs_ret|]. split; [done|]. split; [done|]. intros j. unfold put_bytes. change (zlen []) with 0.
    destruct (Z.leb_spec (a_reg k 13) j); [|done]. by rewrite (proj2 (Z.ltb_ge _ _)) by lia. }
  apply Forall_cons_1 in Hb as [Hb0 Hb]. rewrite zlen_cons in Hlim, Hok. pose proof (zlen_nonneg src). pose proof Ht as (Hi & Hf & Ha & Hc).
  set (k1 := set_reg 0 b (with_dcc b (a_tx k) k)).
  set (k2 := set_reg 13 (u32 (a_reg k 13 + 1)) (with_mem (put_byte (a_mem k) (a_reg k 13) b) k1)).
  assert (exec i_strb k1 = Some k2) as He.
  { rewrite exec_strb by done. unfold strb_step. change (a_ok k1 (a_reg k1 13)) with (a_ok k (a_reg k 13)). by rewrite Hok by lia. }
  assert (keeps [0; 13] k k2) as Hk2.
  { split; [|done]. intros m Hm. cbn. unfold upd. rewrite !(proj2 (Z.eqb_neq _ _)); [done|..]; intros ->; apply Hm; set_solver. }
  assert (forall k3, runs (write_each_byte p src) pr k2 tt pr k3 -> runs (write_each_byte p (b :: src)) pr k tt pr k3) as Hstep.
  { intros k3 Hr. cbn [write_each_byte]. eapply runs_then; [by apply runs_write_gpreg; [|lia]|].
    eapply (runs_then _ _ _ _ _ pr k2); [by apply (runs_exec i_strb pr k1)|].
    eapply runs_then; [by apply (runs_aborted pr k2)|]. change (a_abort k2) with (a_abort k). unfold noted.
    change (a_abort k2) with (a_abort k). rewrite Ha. rewrite (cleared_same k2 Ha). exact Hr. }
  destruct (decide (src = [])) as [->|Hne].
  { exists k2. split; [apply Hstep, runs_ret|]. split; [done|]. split; [done|]. intros j. unfold put_bytes. cbn. unfold put_byte, upd.
    change (zlen [b]) with 1. destruct (Z.eqb_spec j (a_reg k 13)) as [->|Hj].
    - rewrite (proj2 (Z.leb_le _ _)), (proj2 (Z.ltb_lt _ _)) by lia. rewrite Z.sub_diag. by apply u8_small.
    - destruct (Z.leb_spec (a_reg k 13) j); [|done]. by rewrite (proj2 (Z.ltb_ge _ _)) by lia. }
  assert (a_reg k2 13 = a_reg k 13 + 1) as Hr13.
  { cbn. unfold upd. cbn. apply u32_small. destruct src; [done|]. rewrite zlen_cons in Hlim. pose proof (zlen_nonneg src). unfold in_width. lia. }
  destruct (IH pr k2) as (k3 & Hr & Ht3 & Hk3 & Hm3); try done; [lia|lia| |].
  { intros i Hir. rewrite Hr13 in Hir. change (a_ok k2 i) with (a_ok k i). apply Hok. lia. }
  exists k3. split; [by apply Hstep|]. split; [done|]. split; [by eapply keeps_trans|]. intros j. rewrite Hm3, Hr13.
  change (b :: src) with ([b] ++ src). rewrite <- put_bytes_app. change (zlen [b]) with 1. apply put_bytes_ext. intros i.
  cbn. unfold put_byte, upd, put_bytes. change (zlen [b]) with 1. destruct (Z.eqb_spec i (a_reg k 13)) as [->|Hj].
  - rewrite (proj2 (Z.leb_le _ _)), (proj2 (Z.ltb_lt _ _)) by lia. rewrite Z.sub_diag. by apply u8_small.
  - destruct (Z.leb_spec (a_reg k 13) i); [|done]. by rewrite (proj2 (Z.ltb_ge _ _)) by lia.
Qed.

(** *** Registers *)
Lemma runs_each (P : nat -> acore -> Prop) (body : nat -> M _ unit) pr N :
  (forall i k, (i < N)%nat -> P i k -> exists k', runs (body i) pr k tt pr k' /\ P (Datatypes.S i) k') ->
  forall k, P O k -> exists k', runs (for_each (seq 0 N) body) pr k tt pr k' /\ P N k'.
Proof.
  intros Hstep. enough (forall n i k, (i + n = N)%nat -> P i k ->
    exists k', runs (for_each (seq i n) body) pr k tt pr k' /\ P N k') as Hall by (intros k; by apply Hall).
  induction n as [|n IH]; intros i k Hn HP.
  - replace N with i by lia. exists k. split; [apply runs_ret|done].
  - destruct (Hstep i k ltac:(lia) HP) as (k1 & Hr & HP1). destruct (IH (Datatypes.S i) k1 ltac:(lia) HP1) as (k2 & Hr2 & HP2).
    exists k2. split; [|done]. by eapply runs_then.
Qed.
Lemma runs_upd_cache f pr k : runs (upd_cache p f) pr k tt (set_regs_cache (f (ca_regs pr)) pr) k.
Proof. by apply (runs_upd_ca p t ap w0 AT (fun x => set_regs_cache (f (ca_regs x)) x)). Qed.
(** A loop that stores what it reads in the structure. *)
Lemma runs_fill (I : acore -> Prop) (put : nat -> reg_cache -> reg_cache) (body : nat -> M _ unit) N :
  (forall i pr k, (i < N)%nat -> I k -> exists k', runs (body i) pr k tt (set_regs_cache (put i (ca_regs pr)) pr) k' /\ I k') ->
  forall pr k, I k -> exists k', runs (for_each (seq 0 N) body) pr k tt
    (set_regs_cache (foldl (fun c i => put i c) (ca_regs pr) (seq 0 N)) pr) k' /\ I k'.
Proof.
  intros Hstep. enough (forall n i pr k, (i + n = N)%nat -> I k -> exists k', runs (for_each (seq i n) body) pr k tt
    (set_regs_cache (foldl (fun c i => put i c) (ca_regs pr) (seq i n)) pr) k' /\ I k') as Hall by (intros pr k; by apply Hall).
  induction n as [|n IH]; intros i pr k Hn HI.
  - exists k. split; [|done]. cbn. replace (set_regs_cache (ca_regs pr) pr) with pr by (by destruct pr). apply runs_ret.
  - destruct (Hstep i pr k ltac:(lia) HI) as (k1 & Hr & HI1).
    destruct (IH (Datatypes.S i) (set_regs_cache (put i (ca_regs pr)) pr) k1 ltac:(lia) HI1) as (k2 & Hr2 & HI2).
    exists k2. split; [|done]. cbn. by eapply runs_then.
Qed.
(** The core's registers are [k0]'s; those of the floating point unit are. *)
Definition like k0 k : Prop := takes k /\ a_reg k = a_reg k0 /\ a_cpsr k = a_cpsr k0 /\ a_fpscr k = a_fpscr k0 /\ a_d k = a_d k0 /\ a_mem k = a_mem k0.
Definition like_fpu k0 k : Prop := takes k /\ a_d k = a_d k0 /\ a_mem k = a_mem k0.
Lemma runs_read_general k0 pr k : like k0 k -> exists k',
  runs (for_each (seq 0 15) (fun i => let! v := read_gpreg p (Z.of_nat i) in upd_cache p (set_r i v))) pr k tt
    (set_regs_cache (foldl (fun c i => set_r i (a_reg k0 (Z.of_nat i)) c) (ca_regs pr) (seq 0 15)) pr) k' /\ like k0 k'.
Proof.
  apply (runs_fill (like k0) (fun i => set_r i (a_reg k0 (Z.of_nat i)))). intros i pr1 k1 Hi (Ht & Hr & Hrest).
  eexists. split; [eapply runs_then; [apply runs_read_gpreg; [done|lia]|rewrite Hr; apply runs_upd_cache]|].
  split; [apply Ht|]. by split.
Qed.
Lemma runs_read_fpu k0 pr k : regs_wf k0 -> like_fpu k0 k -> exists k',
  runs (for_each (seq 0 16) (fun i =>
    do! apb_write p DBGITR (Z.lor 0xEC510B10 (Z.of_nat i)) in
    let! hi := read_gpreg p 1 in
    let! lo := read_gpreg p 0 in
    upd_cache p (set_d i (Z.lor (Z.shiftl hi 32) lo)))) pr k tt
    (set_regs_cache (foldl (fun c i => set_d i (a_d k0 (Z.of_nat i)) c) (ca_regs pr) (seq 0 16)) pr) k' /\ like_fpu k0 k'.
Proof.
  intros [_ Hwf]. apply (runs_fill (like_fpu k0) (fun i => set_d i (a_d k0 (Z.of_nat i)))). intros i pr1 k1 Hi (Ht & Hd & Hm).
  pose proof Ht as (Hi1 & Hf & Ha & _).
  eexists. split.
  - eapply runs_then; [apply runs_exec; [done|done|apply exec_vmov_out; [lia|done]]|].
    eapply runs_then; [apply runs_read_gpreg; [exact Ht|lia]|]. eapply runs_then; [apply runs_read_gpreg; [exact Ht|lia]|].
    cbn [a_reg with_dcc set_reg with_reg]. unfold upd. cbn [Z.eqb Pos.eqb]. rewrite Hd.
    rewrite (proj1 (double_halves _ (Hwf _))). apply runs_upd_cache.
  - split; [exact Ht|]. by split.
Qed.
(** An instruction that moves something to r0, and r0 read. *)
Lemma runs_via_r0 i v k : takes k -> exec i k = Some (set_reg 0 v k) ->
  exists k', (forall {B} (f : Z -> M _ B) pr b pr2 k2, runs (f v) pr k' b pr2 k2 ->
    runs (bind (apb_write p DBGITR i) (fun _ => bind (read_gpreg p 0) f)) pr k b pr2 k2) /\
    takes k' /\ a_cpsr k' = a_cpsr k /\ a_fpscr k' = a_fpscr k /\ a_d k' = a_d k /\ a_mem k' = a_mem k.
Proof.
  intros Ht He. pose proof Ht as (Hi & Hf & Ha & _). exists (with_dcc (a_rx k) v (set_reg 0 v k)).
  split; [|split_and!; done]. intros B f pr b pr2 k2 Hrun. eapply runs_then; [by apply runs_exec|].
  eapply runs_then; [apply runs_read_gpreg; [exact Ht|lia]|exact Hrun].
Qed.
Ltac plain_exec T :=
  match goal with |- exec _ ?x = _ => unfold exec; assert (a_abort x = false) as -> by exact (proj1 (proj2 (proj2 T))) end; reflexivity.
Lemma runs_save pr k : takes k -> regs_wf k -> cache_wf (ca_regs pr) ->
  exists k', runs (cortexa_regs_read_internal p) pr k tt (set_regs_cache (snapshot k) pr) k' /\ takes k' /\ a_mem k' = a_mem k.
Proof.
  intros Ht Hwf Hcw. destruct (runs_read_general k pr k) as (k1 & R1 & T1 & Q1 & C1 & F1 & D1 & M1); [done|].
  rewrite fill_r in R1 by done. set (d := if thumb k then 4 else 8).
  assert (u32 (a_reg k1 15 + (if thumb k1 then 4 else 8)) = u32 (a_reg k 15 + d)) as Hpc by (unfold thumb, d; by rewrite Q1, C1).
  destruct (runs_via_r0 0xe1a0000f (u32 (a_reg k 15 + d)) k1 T1) as (k2 & R2 & T2 & C2 & F2 & D2 & M2);
    [rewrite <- Hpc; plain_exec T1|].
  destruct (runs_via_r0 0xE10F0000 (a_cpsr k2) k2 T2) as (k3 & R3 & T3 & C3 & F3 & D3 & M3); [plain_exec T2|].
  destruct (runs_via_r0 0xeef10a10 (a_fpscr k3) k3 T3) as (k4 & R4 & T4 & C4 & F4 & D4 & M4); [plain_exec T3|].
  destruct Hcw as [Hlr Hld].
  set (c4 := {| rc_r := (a_reg k <$> seqZ 0 15) ++ [u32 (a_reg k 15 + d)]; rc_cpsr := a_cpsr k; rc_fpscr := a_fpscr k; rc_d := rc_d (ca_regs pr) |}).
  destruct (runs_read_fpu k (set_regs_cache c4 pr) k4) as (k5 & R5 & T5 & D5 & M5); [done|split_and!; congruence|].
  change (ca_regs (set_regs_cache c4 pr)) with c4 in R5. rewrite fill_d in R5 by done.
  exists k5. split; [|split; [done|congruence]].
  unfold cortexa_regs_read_internal. eapply runs_then; [exact R1|]. apply R2. eapply runs_then; [apply runs_upd_cache|].
  apply R3. eapply runs_then; [apply runs_upd_cache|]. apply R4. eapply runs_then; [apply runs_upd_cache|].
  eapply runs_then.
  - eapply runs_as; [exact R5| |reflexivity]. unfold c4. cbn. unfold set_regs_cache, set_status, set_r. cbn.
    rewrite C2, F3, F2, C1, F1. destruct (ca_regs pr) as [l ? ? ?]. cbn in Hlr. do 17 (destruct l as [|? l]; try done).
  - eapply runs_as; [apply runs_upd_cache|reflexivity|].
    assert (u32 (u32 (a_reg k 15 + d) - d) = a_reg k 15) as Hback.
    { rewrite <- Z.add_opp_r, u32_add_l. replace (a_reg k 15 + d + - d) with (a_reg k 15) by lia. apply u32_small, Hwf. }
    transitivity (set_regs_cache (set_r 15 (u32 (u32 (a_reg k 15 + d) - d)) {| rc_r := rc_r c4; rc_cpsr := a_cpsr k;
      rc_fpscr := a_fpscr k; rc_d := a_d k <$> seqZ 0 16 |}) pr); [by rewrite Hback|reflexivity].
Qed.
(** A value put in r0, and an instruction that moves it on. *)
Lemma runs_from_r0 i v pr k k' : takes k -> exec i (set_reg 0 v (with_dcc v (a_tx k) k)) = Some k' ->
  forall {B} (f : unit -> M _ B) b pr2 k2, runs (f tt) pr k' b pr2 k2 ->
    runs (bind (write_gpreg p 0 v) (fun _ => bind (apb_write p DBGITR i) f)) pr k b pr2 k2.
Proof.
  intros Ht He B f b pr2 k2 Hrun. pose proof Ht as (Hi & Hf & Ha & _).
  eapply runs_then; [apply runs_write_gpreg; [done|lia]|]. eapply runs_then; [by apply runs_exec|exact Hrun].
Qed.
Definition fpu_done (c : reg_cache) (m : Z -> Z) (i : nat) k : Prop :=
  takes k /\ a_mem k = m /\ forall j, (j < i)%nat -> a_d k (Z.of_nat j) = nth j (rc_d c) 0.
Lemma runs_write_fpu c pr k : takes k -> Forall (in_width 64) (rc_d c) -> exists k', runs (for_each (seq 0 16) (fun i =>
    do! write_gpreg p 1 (u32 (Z.shiftr (nth i (rc_d c) 0) 32)) in
    do! write_gpreg p 0 (u32 (nth i (rc_d c) 0)) in
    apb_write p DBGITR (Z.lor 0xec410b10 (Z.of_nat i)))) pr k tt pr k' /\ fpu_done c (a_mem k) 16 k'.
Proof.
  intros Ht Hw. apply (runs_each (fpu_done c (a_mem k))); [|split_and!; [done|done|lia]]. intros i k1 Hi (Ht1 & Hm1 & Hd1).
  assert (in_width 64 (nth i (rc_d c) 0)) as Hv.
  { destruct (nth_in_or_default i (rc_d c) 0) as [Hin| ->]; [|done]. apply list_elem_of_In in Hin. by eapply Forall_forall in Hw. }
  destruct (double_halves _ Hv) as [Hjoin Hhi]. pose proof Ht1 as (Hi1 & Hf1 & Ha1 & _).
  eexists. split.
  - eapply runs_then; [apply runs_write_gpreg; [done|lia]|]. eapply runs_then; [apply runs_write_gpreg; [exact Ht1|lia]|].
    apply runs_exec; [done|done|]. apply exec_vmov_in; [lia|done].
  - split; [exact Ht1|]. split; [exact Hm1|]. intros j Hj. cbn. unfold upd. cbn. rewrite Hhi, Hjoin.
    destruct (Z.eqb_spec (Z.of_nat j) (Z.of_nat i)) as [Hji|Hji]; [by replace j with i by lia|]. apply Hd1. lia.
Qed.
Definition general_done (c : reg_cache) k0 (i : nat) k : Prop :=
  takes k /\ a_mem k = a_mem k0 /\ a_d k = a_d k0 /\ a_cpsr k = a_cpsr k0 /\ a_fpscr k = a_fpscr k0 /\ a_reg k 15 = a_reg k0 15 /\
  forall j, (j < i)%nat -> a_reg k (Z.of_nat j) = nth j (rc_r c) 0.
Lemma runs_write_general c pr k : takes k -> exists k',
  runs (for_each (seq 0 15) (fun i => write_gpreg p (Z.of_nat i) (nth i (rc_r c) 0))) pr k tt pr k' /\ general_done c k 15 k'.
Proof.
  intros Ht. apply (runs_each (general_done c k)); [|split_and!; try done; lia].
  intros i k1 Hi (Ht1 & Hm & Hd & Hcp & Hfp & H15 & Hr). eexists. split; [apply runs_write_gpreg; [done|lia]|].
  split_and!; try done.
  - cbn. unfold upd. by rewrite (proj2 (Z.eqb_neq _ _)) by lia.
  - intros j Hj. cbn. unfold upd. destruct (Z.eqb_spec (Z.of_nat j) (Z.of_nat i)) as [Hji|Hji]; [by replace j with i by lia|]. apply Hr. lia.
Qed.
Lemma runs_restore pr k : takes k -> Forall (in_width 64) (rc_d (ca_regs pr)) ->
  exists k', runs (cortexa_regs_write_internal p) pr k tt pr k' /\ takes k' /\ a_mem k' = a_mem k /\
    (forall j, (j < 16)%nat -> a_reg k' (Z.of_nat j) = nth j (rc_r (ca_regs pr)) 0) /\
    a_cpsr k' = rc_cpsr (ca_regs pr) /\ a_fpscr k' = rc_fpscr (ca_regs pr) /\
    (forall j, (j < 16)%nat -> a_d k' (Z.of_nat j) = nth j (rc_d (ca_regs pr)) 0).
Proof.
  intros Ht Hw. set (c := ca_regs pr) in *. destruct (runs_write_fpu c pr k Ht Hw) as (k1 & R1 & T1 & M1 & D1).
  set (k2 := with_psr (a_cpsr k1) (rc_fpscr c) (a_d k1) (set_reg 0 (rc_fpscr c) (with_dcc (rc_fpscr c) (a_tx k1) k1))).
  set (k3 := with_psr (rc_cpsr c) (rc_fpscr c) (a_d k1) (set_reg 0 (rc_cpsr c) (with_dcc (rc_cpsr c) (a_tx k2) k2))).
  set (k4 := set_reg 15 (nth 15 (rc_r c) 0) (set_reg 0 (nth 15 (rc_r c) 0) (with_dcc (nth 15 (rc_r c) 0) (a_tx k3) k3))).
  destruct (runs_write_general c pr k4 T1) as (k5 & R5 & T5 & M5 & D5 & C5 & F5 & P5 & Q5).
  exists k5. split.
  - unfold cortexa_regs_write_internal. eapply runs_then; [apply (runs_priv p t ap w0 AT)|]. fold c. eapply runs_then; [exact R1|].
    apply (runs_from_r0 _ _ pr k1 k2 T1); [plain_exec T1|]. apply (runs_from_r0 _ _ pr k2 k3 T1); [plain_exec T1|].
    apply (runs_from_r0 _ _ pr k3 k4 T1); [plain_exec T1|]. exact R5.
  - split; [done|]. split; [exact (eq_trans M5 M1)|]. split; [|split; [exact C5|split; [exact F5|]]].
    + intros j Hj. destruct (decide (j = 15%nat)) as [->|Hne]; [exact P5|]. apply Q5. lia.
    + intros j Hj. rewrite D5. by apply D1.
Qed.
End Transfers.

(** ** Properties *)
Section Properties.
Context {E : Type} `{DPI : DpIf E} `{CA : CaObj E}.
Context {dp h : positive} {cbase sel : Z} {S : APortSpec E dp h cbase sel}.
Variables (p : positive) (t : target) (ap : ADIv5_AP) (w0 : world (cm_dev E)).
Notation runs := (runs (S := S) ap w0).
Notation at_port := (attached_to (dp := dp) (h := h) (cbase := cbase) (sel := sel) p t ap w0).

(** C16: a read of any address and length delivers exactly the bytes of the
    core's memory, if the words they are in can be accessed; of the core only
    r0 changes, and its copy waits in the structure.  The core fetches one word
    more: if that cannot be accessed, a fault is noted although none was. *)
Theorem slow_mem_read_correct (src len : Z) (pr : cortexa_priv) (k : acore) :
  at_port -> takes k -> byte_mem k -> is_u32 src -> 0 <= len -> len + 6 < 2 ^ 32 -> src + len <= 2 ^ 32 ->
  let words := Z.to_nat ((len + src mod 4 + 3) / 4) in
  words_ok k (src - src mod 4) words ->
  exists k', runs (cortexa_slow_mem_read p src len) pr k (mem_bytes (a_mem k) src (Z.to_nat len))
      (if word_ok k (u32 (src - src mod 4 + 4 * Z.of_nat words)) then pr else set_mmu_fault true pr) k' /\
    takes k' /\ keeps [0] k k' /\ a_mem k' = a_mem k.
Proof.
  intros AT Ht Hb Hs Hl Hlim Hend words Hok. destruct (read_words_eq src len Hs Hl Hlim) as [Hw Hcov]. unfold words in *. rewrite <- Hw in *.
  destruct (read_data_mem k src len Ht Hb Hs Hl Hlim Hend Hok) as [Hdata Hab].
  destruct (runs_slow_read p t ap w0 AT src len pr k (mem_bytes (a_mem k) src (Z.to_nat len)) Ht) as (k' & Hrun & Hrest).
  - rewrite zlen_read_data, (proj2 (align_down src Hs)). lia.
  - done.
  - by rewrite Hdata.
  - exists k'. split; [|done]. unfold noted in Hrun. rewrite Hab in Hrun. by destruct (word_ok k _).
Qed.

(** C17: a write of any address and length puts exactly the given bytes in the
    core's memory and changes no other byte, whether it goes by words through
    the channel's fast mode or byte by byte; of the core only r0 and r13
    change. *)
Theorem slow_mem_write_correct (dest : Z) (src : list Z) (pr : cortexa_priv) (k : acore) :
  at_port -> takes k -> is_u32 dest -> is_bytes src -> dest + zlen src <= 2 ^ 32 ->
  (forall a, dest <= a < dest + zlen src -> a_ok k a = true) ->
  exists k', runs (cortexa_slow_mem_write p dest src) pr k tt pr k' /\
    takes k' /\ keeps [0; 13] k k' /\ forall a, a_mem k' a = put_bytes (a_mem k) dest src a.
Proof.
  intros AT Ht Hd Hb Hlim Hok. destruct (decide (src = [])) as [->|Hne].
  { exists k. split; [apply runs_ret|]. split; [done|]. split; [done|]. intros a. unfold put_bytes. change (zlen []) with 0.
    destruct (Z.leb_spec dest a); [|done]. by rewrite (proj2 (Z.ltb_ge _ _)) by lia. }
  destruct (decide (dest mod 4 = 0 /\ zlen src mod 4 = 0)) as [[Hal Hln]|Hun].
  - destruct (runs_slow_write_words p t ap w0 AT dest src (Z.to_nat (zlen src / 4)) pr k) as (k' & Hrun & Ht' & Hk & Hm); try done.
    + pose proof (Z.div_mod (zlen src) 4 ltac:(lia)). pose proof (Z.div_pos (zlen src) 4 (zlen_nonneg src) ltac:(lia)). unfold zlen in *. lia.
    + intros i Hi. pose proof (Z.div_mod (zlen src) 4 ltac:(lia)). unfold word_ok. cbn [forallb]. rewrite !Hok by lia. done.
    + exists k'. split_and!; try done. eapply keeps_mono; [|exact Hk]. set_solver.
  - set (k1 := set_reg 13 dest (with_dcc dest (a_tx k) k)).
    destruct (runs_bytes p t ap w0 AT src pr k1) as (k' & Hrun & Ht' & Hk & Hm); try done; [apply Hd|].
    exists k'. split; [|split; [done|split; [|exact Hm]]].
    + unfold cortexa_slow_mem_write. rewrite (proj2 (Z.eqb_neq _ _)) by (destruct src; [done|]; rewrite zlen_cons; pose proof (zlen_nonneg src); lia).
      assert (flag dest 3 || flag (zlen src) 3 = true) as ->.
      { unfold flag. change 3 with (Z.ones 2). rewrite !Z.land_ones by lia. change (2 ^ 2) with 4.
        destruct (Z.eqb_spec (dest mod 4) 0); [|done]. destruct (Z.eqb_spec (zlen src mod 4) 0); [|done]. by destruct Hun. }
      eapply runs_bind; [apply (runs_write_gpreg p t ap w0 AT); [done|lia]|exact Hrun].
    + eapply keeps_trans; [|exact Hk]. split; [|done]. intros n Hn. cbn. unfold upd. rewrite (proj2 (Z.eqb_neq _ _)); [done|]. intros ->. apply Hn. set_solver.
Qed.

(** C19: an access to memory the core cannot access is reported: if a word of a
    read aborts, the next [check_error] answers true, and the one after it
    false; memory and the other registers are as they were. *)
Theorem read_abort_reported (src len : Z) (pr : cortexa_priv) (k : acore) (i : nat) :
  at_port -> takes k -> is_u32 src -> 0 <= len -> len + 6 < 2 ^ 32 ->
  (4 * Z.of_nat i <= len + src mod 4 + 3) -> word_ok k (u32 (src - src mod 4 + 4 * Z.of_nat i)) = false ->
  exists data k', zlen data = len /\
    runs (let! d := cortexa_slow_mem_read p src len in
          let! e := cortexa_check_error p in
          let! again := cortexa_check_error p in ret (d, e, again)) pr k (data, true, false) (set_mmu_fault false pr) k' /\
    takes k' /\ keeps [0] k k' /\ a_mem k' = a_mem k.
Proof.
  intros AT Ht Hs Hl Hlim Hi Hbad. destruct (read_words_eq src len Hs Hl Hlim) as [Hw Hcov].
  assert (Z.land src 3 + len <= zlen (read_data k src len)) as Hfit by (rewrite zlen_read_data, (proj2 (align_down src Hs)); lia).
  pose proof (Z.mod_pos_bound src 4 ltac:(lia)). destruct (align_down src Hs) as [Hdown Hlow].
  destruct (runs_slow_read p t ap w0 AT src len pr k _ Ht Hfit Hl eq_refl) as (k' & Hrun & Hrest).
  exists (ztake len (zdrop (Z.land src 3) (read_data k src len))), k'.
  split; [rewrite zlen_ztake; [done|]; rewrite zlen_zdrop by lia; lia|]. split; [|exact Hrest].
  assert (a_abort (ldc_n (Datatypes.S (read_words src len)) (read_start k src)) = true) as Hab.
  { destruct (a_abort _) eqn:Hn; [done|]. exfalso. destruct (read_start_keeps k src) as (Hk0 & _ & _ & Hr0). rewrite Hdown in Hr0.
    pose proof (Z.mod_le src 4 ltac:(apply Hs) ltac:(lia)).
    pose proof (ldc_not_aborted _ _ Hn ltac:(rewrite Hr0; unfold in_width in *; lia) i) as Hgood.
    rewrite (word_ok_keeps _ _ _ _ Hk0), Hr0, Hbad in Hgood. discriminate Hgood.
    rewrite Hw. pose proof (Z.div_le_lower_bound (len + src mod 4 + 3) 4 (Z.of_nat i) ltac:(lia) ltac:(lia)). lia. }
  unfold noted in Hrun. rewrite Hab in Hrun. eapply runs_bind; [exact Hrun|].
  assert (forall pr', runs (cortexa_check_error p) pr' k' (ca_mmu_fault pr') (set_mmu_fault false pr') k') as Hcheck.
  { intros pr'. unfold cortexa_check_error, mmu_fault. eapply runs_bind; [apply (runs_priv p t ap w0 AT)|].
    eapply runs_bind; [by apply (runs_upd_ca p t ap w0 AT (set_mmu_fault false))|]. apply runs_ret. }
  eapply runs_bind; [apply Hcheck|]. eapply runs_bind; [apply Hcheck|]. apply runs_ret.
Qed.

(** C18: the registers survive a stop: what [cortexa_regs_read_internal] saves
    when the core has halted is its registers, and whatever instructions are
    run on it until then, [cortexa_regs_write_internal] before it goes on puts
    every one of them back, general, status and floating point registers, pc
    included, and changes no memory. *)
Theorem registers_restored (pr : cortexa_priv) (k : acore) :
  at_port -> takes k -> regs_wf k -> cache_wf (ca_regs pr) ->
  exists pr1 k1, runs (cortexa_regs_read_internal p) pr k tt pr1 k1 /\ takes k1 /\ a_mem k1 = a_mem k /\
    ca_regs pr1 = snapshot k /\
    forall pr2 k2, takes k2 -> ca_regs pr2 = ca_regs pr1 ->
      exists k3, runs (cortexa_regs_write_internal p) pr2 k2 tt pr2 k3 /\ takes k3 /\ a_mem k3 = a_mem k2 /\ same_regs k k3.
Proof.
  intros AT Ht Hwf Hcw. destruct (runs_save p t ap w0 AT pr k Ht Hwf Hcw) as (k1 & Hrun & Ht1 & Hm1).
  exists (set_regs_cache (snapshot k) pr), k1. split_and!; try done. intros pr2 k2 Ht2 Hsame.
  change (ca_regs (set_regs_cache (snapshot k) pr)) with (snapshot k) in Hsame.
  destruct (runs_restore p t ap w0 AT pr2 k2 Ht2) as (k3 & Hrun3 & Ht3 & Hm3 & Hr & Hc & Hf & Hd).
  { rewrite Hsame. apply Forall_fmap, Forall_forall. intros n _. apply Hwf. }
  exists k3. split_and!; try done. rewrite Hsame in *. split_and!; try done.
  - intros n Hn. specialize (Hr (Z.to_nat n) ltac:(lia)). rewrite Z2Nat.id in Hr by lia. rewrite Hr.
    apply (each_upto (fun n => nth (Z.to_nat n) (a_reg k <$> seqZ 0 16) 0 = a_reg k n) 16); [by repeat constructor|done].
  - intros n Hn. specialize (Hd (Z.to_nat n) ltac:(lia)). rewrite Z2Nat.id in Hd by lia. rewrite Hd.
    apply (each_upto (fun n => nth (Z.to_nat n) (a_d k <$> seqZ 0 16) 0 = a_d k n) 16); [by repeat constructor|done].
Qed.
End Properties.

(** ** A core behind its port, and the properties on it *)
Module CaSim.
Record ca_out := { o_port : aport; o_block : cortexa_priv }.
#[export] Instance sim_dp : DpIf ca_out := {
  dp_low_access _ RnW addr v := fun e =>
    match aport_access 0x80000000 0 RnW addr v (o_port e) with
    | Some (r, q) => Ok r {| o_port := q; o_block := o_block e |}
    | None => Fault OutOfBounds e
    end;
  dp_read _ _ := ret 0;
}.
#[export] Instance sim_ca : CaObj ca_out := {
  load_ca _ := fun e => Ok (o_block e) e;
  store_ca _ x := fun e => Ok tt {| o_port := o_port e; o_block := x |};
}.
#[export] Instance sim_spec : APortSpec ca_out 1 7 0x80000000 0.
Proof.
  refine {| port_of := o_port; block := o_block |}.
  - intros e RnW addr v r q Hq. exists {| o_port := q; o_block := o_block e |}. split; [|done].
    change (match aport_access 0x80000000 0 RnW addr v (o_port e) with
            | Some (r, q) => Ok r {| o_port := q; o_block := o_block e |} | None => Fault OutOfBounds e end =
            Ok r {| o_port := q; o_block := o_block e |}). by rewrite Hq.
  - done.
  - intros e x. by exists {| o_port := o_port e; o_block := x |}.
Defined.
(** Sixteen registers, memory whose bytes are their addresses' low ones, of
    which 4 KiB can be accessed. *)
Definition core0 : acore :=
  {| a_reg := fun n => u32 (0x100 + n); a_cpsr := 0x1f; a_fpscr := 0; a_d := fun n => n mod 256; a_rx := 0; a_tx := 0; a_itr := 0;
     a_dscr := Z.lor DBGDSCR_ITREN DBGDSCR_EXTDCCMODE_STALL; a_abort := false; a_mem := fun a => a mod 256; a_ok := fun a => a <? 4096 |}.
Definition pr0 : cortexa_priv := set_breaks 6 0 0 0 (blank_ca 3 0x80000000).
Definition ap0 : ADIv5_AP :=
  {| ap_refcnt := 1; ap_dp := 1; apsel := 0; idr := 0x44770002; base := 0; csw := 0; ap_cortexm_demcr := 0; ap_storage := 0;
     ap_designer := 0x23b; ap_partno := 0 |}.
Definition t0 : target := set_priv (Some 7%positive) (set_ca_methods blank_target).
Definition w0 : world (cm_dev ca_out) :=
  {| heap := {[ 5%positive := t0 ]}; ctls := empty; pbuf := []; debug_bmp := false;
     dev := {| aps := {[ 3%positive := ap0 ]}; privs := empty; time0_sec := 0; local := [];
               outside := {| o_port := {| p_sel := 0; p_tar := 0; p_rdbuf := 0; p_core := core0 |}; o_block := pr0 |} |} |}.
Lemma at_w0 : attached_to (dp := 1) (h := 7) (cbase := 0x80000000) (sel := 0) 5 t0 ap0 w0.
Proof. by constructor. Qed.
Lemma takes0 : takes core0.
Proof. done. Qed.
Lemma byte0 : byte_mem core0.
Proof. intros a. apply (Z.mod_pos_bound a 256). lia. Qed.
Lemma below a : a < 4096 -> a_ok core0 a = true.
Proof. apply Z.ltb_lt. Qed.
Lemma words0 a n : a + 4 * Z.of_nat n <= 4096 -> words_ok core0 a n.
Proof. intros Ha i Hi. unfold word_ok. cbn [forallb]. by rewrite !below by lia. Qed.
Lemma regs0 : regs_wf core0.
Proof.
  split; intros n; [apply u32_range|]. cbn. pose proof (Z.mod_pos_bound n 256 ltac:(lia)). unfold in_width. lia.
Qed.
End CaSim.

Import CaSim.
Lemma slow_mem_read_correct_witness : exists k',
  runs (S := sim_spec) ap0 w0 (cortexa_slow_mem_read 5 0xff9 7) pr0 core0 (mem_bytes (a_mem core0) 0xff9 7) (set_mmu_fault true pr0) k' /\
  takes k' /\ keeps [0] core0 k' /\ a_mem k' = a_mem core0.
Proof.
  apply (slow_mem_read_correct (S := sim_spec) 5 t0 ap0 w0 0xff9 7 pr0 core0 at_w0 takes0 byte0);
    [done|done|done|done|by apply words0].
Defined.
Lemma slow_mem_write_correct_witness : exists k',
  runs (S := sim_spec) ap0 w0 (cortexa_slow_mem_write 5 0x101 [7; 8; 9]) pr0 core0 tt pr0 k' /\
  takes k' /\ keeps [0; 13] core0 k' /\ forall a, a_mem k' a = put_bytes (a_mem core0) 0x101 [7; 8; 9] a.
Proof.
  apply (slow_mem_write_correct (S := sim_spec) 5 t0 ap0 w0 0x101 [7; 8; 9] pr0 core0 at_w0 takes0);
    [done|by repeat apply Forall_cons_2|done|intros a [_ Ha]; apply below; change (zlen [7; 8; 9]) with 3 in Ha; lia].
Defined.
Lemma read_abort_reported_witness : exists data k', zlen data = 8 /\
  runs (S := sim_spec) ap0 w0
    (let! d := cortexa_slow_mem_read 5 0xffc 8 in let! e := cortexa_check_error 5 in let! again := cortexa_check_error 5 in ret (d, e, again))
    pr0 core0 (data, true, false) (set_mmu_fault false pr0) k' /\ takes k' /\ keeps [0] core0 k' /\ a_mem k' = a_mem core0.
Proof. apply (read_abort_reported (S := sim_spec) 5 t0 ap0 w0 0xffc 8 pr0 core0 1 at_w0 takes0); done. Defined.
Lemma registers_restored_witness : exists pr1 k1,
  runs (S := sim_spec) ap0 w0 (cortexa_regs_read_internal 5) pr0 core0 tt pr1 k1 /\ takes k1 /\ a_mem k1 = a_mem core0 /\
  ca_regs pr1 = snapshot core0 /\
  forall pr2 k2, takes k2 -> ca_regs pr2 = ca_regs pr1 ->
    exists k3, runs (S := sim_spec) ap0 w0 (cortexa_regs_write_internal 5) pr2 k2 tt pr2 k3 /\ takes k3 /\
      a_mem k3 = a_mem k2 /\ same_regs core0 k3.
Proof. by apply (registers_restored (S := sim_spec) 5 t0 ap0 w0 pr0 core0 at_w0 takes0 regs0). Defined.
