(* ===== verification/Session.v ===== *)
(** A debugger's session, end to end: requests to read and write memory from
    the bytes of the host's channel through the packets of gdb_packet.c, the
    server of gdb_main.c, target.c, cortexm.c and adiv5.c to a memory access
    port. *)

From Stdlib Require Import ZArith Lia String.
From stdpp Require Import base list numbers option gmap.
From S2P Require Import Prelude CLib HexUtils GdbIf MemManager GdbPacket TargetState Target TargetProps Platform Crc32 Exception Morse Command GdbMain GdbMainProps Dap Adiv5 Adiv5Props Objects Cortexm CoreSpec.

(** ** The probe

    One state has the channel to the host and the debug port; what one of the
    two does is nothing to the other. *)
Definition same_port {E} `{DapSpec E dp sel} (e e' : E) : Prop := (dap_wf e -> dap_wf e') /\ dap_of e' = dap_of e.
Definition same_line {E} `{GdbIfSpec E} (e e' : E) : Prop := (if_wf e -> if_wf e') /\ rx e' = rx e /\ tx e' = tx e.
Class ProbeSpec (E : Type) `{GS : GdbIfSpec E} {DP : DpIf E} {DO : DpObj E} {PI : ProbeIf (cm_dev E)} {dp sel} (DS : DapSpec E dp sel) := {
  getchar_port e b e' : gdb_if_getchar e = Ok b e' -> same_port e e';
  getchar_to_port e n b e' : gdb_if_getchar_to n e = Ok b e' -> same_port e e';
  putchar_port e c f e' : gdb_if_putchar c f e = Ok tt e' -> same_port e e';
  access_line e RnW addr v r e' : dp_low_access dp RnW addr v e = Ok r e' -> same_line e e';
  (* no access has failed, and the LEDs are neither *)
  error_clear e : dap_wf e -> exists e', dp_error dp e = Ok 0 e' /\ same_port e e' /\ same_line e e';
  idle_shown c b d : exists e', set_idle_state c b d = Ok tt (set_outside e' d) /\ same_port (outside d) e' /\ same_line (outside d) e';
}.

(** ** The two interfaces over the whole state *)
Section Whole.
Context {E : Type} {GI : GdbIf E} {GS : GdbIfSpec E} {DP : DpIf E} {DO : DpObj E} {PI : ProbeIf (cm_dev E)} {dp : positive} {sel : Z}
        {DS : DapSpec E dp sel} {PS : ProbeSpec E DS}.
Notation W := (world (cm_dev E)).

Lemma same_port_refl (e : E) : same_port e e.
Proof. done. Qed.
Lemma same_port_trans (e e1 e2 : E) : same_port e e1 -> same_port e1 e2 -> same_port e e2.
Proof. intros [H1 H2] [I1 I2]. split; [auto|congruence]. Qed.
Lemma same_line_trans (e e1 e2 : E) : same_line e e1 -> same_line e1 e2 -> same_line e e2.
Proof. intros (H1 & H2 & H3) (I1 & I2 & I3). split; [auto|]. split; congruence. Qed.
Lemma run_out {A} (m : M E A) (w : W) a e : m (out w) = Ok a e -> lift (beyond m) w = Ok a (set_out e w).
Proof. intros Hm. unfold lift, beyond. change (outside (dev w)) with (out w). by rewrite Hm. Qed.
Lemma hang_out {A} (m : M E A) (w : W) : m (out w) = Hang -> lift (beyond m) w = Hang.
Proof. intros Hm. unfold lift, beyond. change (outside (dev w)) with (out w). by rewrite Hm. Qed.

(** What the channel leaves alone: all but the outside, and of that the port. *)
Definition line_state (w0 w : W) : Prop := exists e, w = set_out e w0 /\ if_wf e /\ same_port (out w0) e.
#[refine] Definition line_of (w0 : W) : GdbIfSpec W := {| if_wf := line_state w0; rx w := rx (out w); tx w := tx (out w) |}.
Proof.
  - intros w b r (e & -> & Hw & Hp) Hr. destruct (getchar_rx e b r Hw Hr) as (e' & Hrun & Hw' & Hr' & Ht').
    exists (set_out e' w0). split; [by apply (run_out gdb_if_getchar (set_out e w0))|]. split; [|done]. exists e'.
    split; [done|]. split; [done|]. eapply same_port_trans; [exact Hp|]. by eapply getchar_port.
  - intros w (e & -> & Hw & Hp) Hr. apply (hang_out gdb_if_getchar). by apply getchar_blocks.
  - intros w n (e & -> & Hw & Hp). destruct (getchar_to_spec e n Hw) as (b & e' & Hrun & Hw' & Ht' & Hc).
    exists b, (set_out e' w0). split; [by apply (run_out (gdb_if_getchar_to n) (set_out e w0))|]. split; [|done]. exists e'.
    split; [done|]. split; [done|]. eapply same_port_trans; [exact Hp|]. by eapply getchar_to_port.
  - intros w b f (e & -> & Hw & Hp). destruct (putchar_spec e b f Hw) as (e' & Hrun & Hw' & Hr' & Ht').
    exists (set_out e' w0). split; [by apply (run_out (gdb_if_putchar b f) (set_out e w0))|]. split; [|done]. exists e'.
    split; [done|]. split; [done|]. eapply same_port_trans; [exact Hp|]. by eapply putchar_port.
Defined.
(** What the port leaves alone. *)
Definition port_state (w0 w : W) : Prop := exists e, w = set_out e w0 /\ dap_wf e /\ same_line (out w0) e.
#[refine] Definition port_of (w0 : W) : DapSpec W dp sel := {| dap_wf := port_state w0; dap_of w := dap_of (out w); apsel_byte := apsel_byte |}.
Proof.
  intros w RnW addr v reg (e & -> & Hw & Hl) Hv Hd Hok.
  destruct (low_access_step e RnW addr v reg Hw Hv Hd Hok) as (r & e' & Hrun & Hw' & Hst).
  exists r, (set_out e' w0). split; [by apply (run_out (dp_low_access dp RnW addr v) (set_out e w0))|]. split; [|done]. exists e'.
  split; [done|]. split; [done|]. eapply same_line_trans; [exact Hl|]. by eapply access_line.
Defined.
End Whole.

(** ** Packets *)
(** A packet the host acknowledges: sent at least once, and again only after a
    time without an answer. *)
Section Acked.
Context {W : Type} {GI : GdbIf W} {GS : GdbIfSpec W}.
Lemma acked_loop data n : forall tries (w : W) r, if_wf w -> is_bytes data -> 0 <= tries <= 3 -> n = S (Z.to_nat (3 - tries)) ->
  rx w = 43 :: r ->
  exists k s w', iter n (putpacket_body data) tries w = Ok tt w' /\ (1 <= k <= n)%nat /\ if_wf w' /\
    tx w' = tx w ++ concat (replicate k (frame data)) /\ rx w' = s ++ r /\ noise s /\ (length s <= 1)%nat.
Proof.
  induction n as [|n IH]; intros tries w r Hw Hd Ht Hn Hr; [lia|]. rewrite iter_S. unfold putpacket_body at 1. rewrite bind_bind.
  destruct (put_frame_spec data w Hw Hd) as (w1 & Hp1 & Hw1 & Hr1 & Ht1). rewrite (bind_Ok _ _ _ _ _ Hp1), bind_bind.
  destruct (getchar_to_spec w1 2000 Hw1) as (c & w2 & Hg & Hw2 & Ht2 & Hc). rewrite (bind_Ok _ _ _ _ _ Hg), bind_ret. rewrite Ht1 in Ht2.
  destruct Hc as [[-> Hc]|Hc]; rewrite Hr1, Hr in Hc.
  - destruct (Z.ltb_spec tries 3) as [Hlt|Hge]; cbn [negb Z.eqb Pos.eqb andb].
    + destruct (IH (tries + 1) w2 r Hw2 Hd ltac:(lia) ltac:(lia) Hc) as (k & s & w3 & Hrun & Hk & Hw3 & Ht3 & Hrest).
      exists (S k), s, w3. split; [exact Hrun|]. split; [lia|]. split; [done|]. split; [|done].
      by rewrite Ht3, Ht2, <- app_assoc.
    + exists 1%nat, [43], w2. split; [done|]. split; [lia|]. split; [done|]. split; [by cbn; rewrite app_nil_r|].
      split; [done|]. split; [by constructor|done].
  - injection Hc as <- Hc. exists 1%nat, [], w2. split; [done|]. split; [lia|]. split; [done|].
    split; [by cbn; rewrite app_nil_r|]. split; [done|split; [constructor|cbn; lia]].
Qed.
Lemma putpacket_acked data (w : W) r : if_wf w -> is_bytes data -> rx w = 43 :: r ->
  exists k s w', gdb_putpacket data w = Ok tt w' /\ (1 <= k <= 4)%nat /\ if_wf w' /\
    tx w' = tx w ++ concat (replicate k (frame data)) /\ rx w' = s ++ r /\ noise s /\ (length s <= 1)%nat.
Proof. intros Hw Hd Hr. by apply acked_loop. Qed.
End Acked.

(** ** The server on a Cortex-M target *)
Section Session.
Context {E : Type} {GI : GdbIf E} {GS : GdbIfSpec E} {MI : MemIf E} {CLK : ClockIf E} {DP : DpIf E} {DO : DpObj E}
        {PI : ProbeIf (cm_dev E)} {HI : HostIf (cm_dev E)} {DI : DeviceIf (cm_dev E)} {MO : MorseIf (cm_dev E)} {SI : ScanIf (cm_dev E)}
        {dp : positive} {sel : Z} {DS : DapSpec E dp sel} {PS : ProbeSpec E DS}.
Variables (polls : nat) (local_addr : Z) (other : Driver (cm_dev E)) (ctl_bytes : nat -> list Z) (fmt_2f : Z -> Z -> list Z).
Variable remote : Z -> list Z -> M (world (cm_dev E)) (list Z).
Variable fuel : nat.
Notation W := (world (cm_dev E)).
#[local] Instance server_driver : Driver (cm_dev E) := cortexm_driver polls local_addr other.
Notation turn := (loop_body ctl_bytes fmt_2f remote fuel).
Notation memory w := (d_mem (dap_of (out w))).

(** The debugger is attached to target [p], a Cortex-M without caches behind
    the access port. *)
Record debugging (c : nat) (p : positive) (w : W) : Prop := {
  db_ctl : exists tc, ctls w !! c = Some tc /\ cur_target tc = Some p /\ has_platform tc = true;
  db_target : exists t h pr ap, heap w !! p = Some t /\
    (m_mem_read t = Fdriver /\ m_mem_write t = Fdriver /\ m_check_error t = Fdriver) /\
    (priv t = Some h /\ privs (dev w) !! h = Some pr /\ has_cache pr = false) /\
    (aps (dev w) !! cp_ap pr = Some ap /\ ap_dp ap = dp /\ apsel ap = sel /\ is_u32 (csw ap) /\ Z.land (csw ap) 0x37 = 0);
  db_pbuf : zlen (pbuf w) = BUF_SIZE + 1;
  db_line : if_wf (out w);
  db_port : dap_wf (out w);
}.
Lemma set_out_id (w : W) : set_out (out w) w = w.
Proof. by destruct w as [? ? ? ? []]. Qed.
Lemma debugging_out c p w e : debugging c p w -> if_wf e -> dap_wf e -> debugging c p (set_out e w).
Proof. intros [] Hw Hd. by constructor. Qed.
Lemma debugging_pbuf c p w b : debugging c p w -> zlen b = BUF_SIZE + 1 -> debugging c p (set_pbuf b w).
Proof. intros [] Hb. by constructor. Qed.

(** *** A request arrives *)
Lemma run_idle c p b w : debugging c p w ->
  exists e, platform_call c (set_idle_state c b) w = Ok tt (set_out e w) /\ same_port (out w) e /\ same_line (out w) e.
Proof.
  intros Hd. destruct (db_ctl _ _ _ Hd) as (tc & Htc & _ & Hpl). destruct (idle_shown c b (dev w)) as (e & Hrun & Hp & Hl).
  exists e. split; [|done]. unfold platform_call, load_ctl, bind, get. rewrite Htc. unfold ret. rewrite Hpl. unfold lift. by rewrite Hrun.
Qed.
Definition head {B} (c : nat) (k : Z -> list Z -> M W B) : M W B :=
  do! platform_call c (set_idle_state c true) in
  let! w := get in
  let! (size, buf) := gdb_getpacket remote fuel (pbuf w) BUF_SIZE in
  do! modify (set_pbuf buf) in
  do! platform_call c (set_idle_state c false) in
  k size buf.
Lemma buffer_shape data p : ztake (zlen data) p = data -> zget p (zlen data) = 0 -> zlen data < zlen p ->
  exists stale, p = data ++ 0 :: stale.
Proof.
  intros Ht Hz Hl. exists (drop (S (length data)) p). pose proof (zlen_nonneg data).
  assert (Hlk : p !! length data = Some 0) by (rewrite <- Hz; replace (length data) with (Z.to_nat (zlen data)) by (unfold zlen; lia); apply zget_lookup; lia).
  rewrite <- (drop_S _ _ _ Hlk). rewrite <- Ht at 1. unfold ztake. unfold zlen at 1. rewrite Nat2Z.id. by rewrite take_drop.
Qed.
Lemma head_run {B} c p (k : Z -> list Z -> M W B) w skip data r : debugging c p w -> noise skip ->
  rx (out w) = skip ++ frame data ++ r -> zlen data <= BUF_SIZE -> (length skip < fuel)%nat -> (length data < fuel)%nat ->
  exists stale e, head c k w = k (zlen data) (data ++ 0 :: stale) (set_out e (set_pbuf (data ++ 0 :: stale) w)) /\
    debugging c p (set_out e (set_pbuf (data ++ 0 :: stale) w)) /\ dap_of e = dap_of (out w) /\ rx e = r /\ tx e = tx (out w) ++ [43].
Proof.
  intros Hd Hn Hr Hl Hf1 Hf2. destruct (run_idle c p true w Hd) as (e1 & Hi1 & (Hp1 & Hd1) & (Hw1 & Hr1 & Ht1)).
  pose proof (debugging_out c p w e1 Hd (Hw1 (db_line _ _ _ Hd)) (Hp1 (db_port _ _ _ Hd))) as Hdb1.
  assert (line_state (set_out e1 w) (set_out e1 w)) as Hs1 by (exists e1; split; [done|split; [apply Hdb1|apply same_port_refl]]).
  destruct (getpacket_frame (H0 := line_of (set_out e1 w)) remote fuel BUF_SIZE skip data (pbuf w) (set_out e1 w) r)
    as (b & w2 & Hrun & (e2 & -> & Hw2 & Hp2) & Hr2 & Ht2 & Htk & Hnul & Hlen); try done; [cbn; by rewrite Hr1|apply Hd|].
  destruct (buffer_shape data b Htk Hnul ltac:(lia)) as [stale ->].
  pose proof (debugging_pbuf c p _ _ (debugging_out c p _ e2 Hdb1 Hw2 (proj1 Hp2 (db_port _ _ _ Hdb1))) Hlen) as Hdb2.
  destruct (run_idle c p false _ Hdb2) as (e3 & Hi3 & (Hp3 & Hd3) & (Hw3 & Hr3 & Ht3)).
  exists stale, e3. split; [|split; [|split; [|split]]].
  - unfold head. rewrite (bind_Ok _ _ _ _ _ Hi1). unfold bind at 1, get. rewrite (bind_Ok _ _ _ _ _ Hrun).
    rewrite (bind_Ok _ _ _ _ _ (eq_refl : modify _ _ = Ok tt _)). by rewrite (bind_Ok _ _ _ _ _ Hi3).
  - by apply (debugging_out c p _ e3 Hdb2); [apply Hw3, Hdb2|apply Hp3, Hdb2].
  - rewrite Hd3. cbn. rewrite (proj2 Hp2). exact Hd1.
  - rewrite Hr3. exact Hr2.
  - rewrite Ht3. change (tx e2 = tx e1 ++ [43]) in Ht2. cbn. by rewrite Ht2, Ht1.
Qed.

(** *** Its answer *)
Lemma answer c p w reply r : debugging c p w -> is_bytes reply -> rx (out w) = 43 :: r ->
  exists k s e, gdb_putpacket reply w = Ok tt (set_out e w) /\ (1 <= k <= 4)%nat /\ debugging c p (set_out e w) /\ dap_of e = dap_of (out w) /\
    tx e = tx (out w) ++ concat (replicate k (frame reply)) /\ rx e = s ++ r /\ noise s /\ (length s <= 1)%nat.
Proof.
  intros Hd Hb Hr. assert (line_state w w) as Hs by (exists (out w); split; [by rewrite set_out_id|split; [apply Hd|apply same_port_refl]]).
  destruct (putpacket_acked (GS := line_of w) reply w r Hs Hb Hr) as (k & s & w' & Hrun & Hk & (e & -> & Hw & Hp) & Ht & Hr' & Hn & Hs1).
  exists k, s, e. split_and!; try done; try apply Hk; [|apply Hp]. apply debugging_out; [done|done|]. apply Hp, Hd.
Qed.

(** *** Memory *)
Lemma splice_all (buf src : list Z) : zlen src = zlen buf -> splice buf 0 src = src.
Proof.
  intros Hl. unfold splice, zdrop. change (ztake 0 buf) with (@nil Z). cbn [app]. rewrite drop_ge; [apply app_nil_r|]. unfold zlen in *. lia.
Qed.
Lemma run_target c p w : debugging c p w -> exists t h pr ap, load_target p w = Ok t w /\ deref_target (Some p) w = Ok (p, t) w /\
  m_mem_read t = Fdriver /\ m_mem_write t = Fdriver /\ m_check_error t = Fdriver /\
  (forall a n i, cortexm_cache_clean p a n i w = Ok tt w) /\ cortexm_ap p w = Ok (h, ap) w /\
  ap_dp ap = dp /\ apsel ap = sel /\ is_u32 (csw ap) /\ Z.land (csw ap) 0x37 = 0 /\ cp_ap pr = h.
Proof.
  intros Hd. destruct (db_target _ _ _ Hd) as (t & h & pr & ap & Hp & (Hm1 & Hm2 & Hm3) & (Hpv & Hpr & Hc) & Hap & Hrest).
  assert (Hlt : load_target p w = Ok t w) by (unfold load_target, deref_target, bind, get; by rewrite Hp).
  assert (Hl : load_priv p w = Ok pr w).
  { unfold load_priv, priv_of. rewrite bind_bind, (bind_Ok _ _ _ _ _ Hlt), Hpv. unfold deref. rewrite bind_ret. unfold bind, get. by rewrite Hpr. }
  exists t, (cp_ap pr), pr, ap. split; [done|]. split; [unfold deref_target, bind, get; by rewrite Hp|]. do 3 (split; [done|]).
  split; [|split; [|by split_and!; try apply Hrest]].
  - intros a n i. unfold cortexm_cache_clean. rewrite (bind_Ok _ _ _ _ _ Hl), Hc. done.
  - unfold cortexm_ap. rewrite (bind_Ok _ _ _ _ _ Hl). unfold load_ap, bind, get. by rewrite Hap.
Qed.
Lemma run_check c p w : debugging c p w -> exists e, target_check_error (Some p) w = Ok false (set_out e w) /\
  debugging c p (set_out e w) /\ dap_of e = dap_of (out w) /\ same_line (out w) e.
Proof.
  intros Hd. destruct (run_target c p w Hd) as (t & h & pr & ap & Hlt & _ & _ & _ & Hm & _ & Hap & Hdp & _).
  destruct (error_clear (out w) (db_port _ _ _ Hd)) as (e & Hrun & Hp & Hl). exists e. split; [|split; [|by split; [apply Hp|]]].
  - unfold target_check_error. rewrite (bind_Ok _ _ _ _ _ Hlt), Hm. unfold call.
    change (via p m_check_error (cortexm_check_error p) (fun _ => @drv_check_error _ other p) w = Ok false (set_out e w)).
    unfold via. rewrite (bind_Ok _ _ _ _ _ Hlt), Hm. unfold cortexm_check_error. rewrite (bind_Ok _ _ _ _ _ Hap), Hdp.
    unfold on_dp. by rewrite (bind_Ok _ _ _ _ _ (run_out _ _ _ _ Hrun)).
  - apply debugging_out; [done|apply Hl, Hd|apply Hp, Hd].
Qed.
Lemma run_mem_read c p w addr len : debugging c p w -> 0 <= addr -> 0 <= len < 2 ^ 32 -> addr + len <= 2 ^ 32 ->
  exists e, target_mem_read (Some p) addr len w = Ok (mem_bytes (memory w) addr len, false) (set_out e w) /\
    debugging c p (set_out e w) /\ d_mem (dap_of e) = memory w /\ same_line (out w) e.
Proof.
  intros Hd Ha Hl Hal. destruct (run_target c p w Hd) as (t & h & pr & ap & Hlt & Hdt & Hm & _ & _ & Hcc & Hap & Hdp & Hsel & Hcsw & Hcl & _).
  assert (port_state w w) as Hs by (exists (out w); split; [by rewrite set_out_id|split; [apply Hd|done]]).
  destruct (mem_read_ok (H0 := port_of w) ap (conj Hdp Hsel) (conj Hcsw Hcl) (memset len 0) addr len w Hs)
    as (w1 & Hrun & (e1 & -> & Hw1 & Hl1) & Hm1); try done; try lia; [rewrite zlen_memset; lia|].
  assert (Hdb1 : debugging c p (set_out e1 w)) by (apply debugging_out; [done|apply Hl1, Hd|done]).
  destruct (run_check c p _ Hdb1) as (e2 & Hck & Hdb2 & Hp2 & Hl2). exists e2. split; [|split; [exact Hdb2|split]].
  - unfold target_mem_read. rewrite (bind_Ok _ _ _ _ _ Hdt), Hm. unfold call.
    assert (drv_mem_read p addr len w = Ok (mem_bytes (memory w) addr len) (set_out e1 w)) as Hdrv.
    { change (memory_method p m_mem_read (cortexm_mem_read p addr len) (probe_mem_read local_addr p addr len) (@drv_mem_read _ other p addr len) w =
        Ok (mem_bytes (memory w) addr len) (set_out e1 w)).
      unfold memory_method, via. rewrite (bind_Ok _ _ _ _ _ Hlt), Hm. unfold cortexm_mem_read. rewrite (bind_Ok _ _ _ _ _ (Hcc _ _ _)), (bind_Ok _ _ _ _ _ Hap).
      unfold adiv5_mem_read. rewrite Hrun. f_equal. apply splice_all. by rewrite zlen_mem_bytes, zlen_memset by lia. }
    rewrite (bind_Ok _ _ _ _ _ Hdrv), (bind_Ok _ _ _ _ _ Hck). done.
  - rewrite Hp2. exact Hm1.
  - by eapply same_line_trans.
Qed.
Lemma run_mem_write c p w addr data : debugging c p w -> is_u32 addr -> is_bytes data -> addr + zlen data <= 2 ^ 32 -> zlen data < 2 ^ 32 ->
  exists e, target_mem_write (Some p) addr data w = Ok false (set_out e w) /\
    debugging c p (set_out e w) /\ (forall b, d_mem (dap_of e) b = stored (memory w) addr data b) /\ same_line (out w) e.
Proof.
  intros Hd Ha Hb Hal Hl. destruct (run_target c p w Hd) as (t & h & pr & ap & Hlt & Hdt & _ & Hm & _ & Hcc & Hap & Hdp & Hsel & Hcsw & Hcl & _).
  assert (port_state w w) as Hs by (exists (out w); split; [by rewrite set_out_id|split; [apply Hd|done]]).
  destruct (mem_write_ok (H0 := port_of w) ap (conj Hdp Hsel) (conj Hcsw Hcl) addr data w Hb Hs)
    as (w1 & Hrun & (e1 & -> & Hw1 & Hl1) & Hm1); try done.
  assert (Hdb1 : debugging c p (set_out e1 w)) by (apply debugging_out; [done|apply Hl1, Hd|done]).
  destruct (run_check c p _ Hdb1) as (e2 & Hck & Hdb2 & Hp2 & Hl2). exists e2. split; [|split; [exact Hdb2|split]].
  - unfold target_mem_write. rewrite (bind_Ok _ _ _ _ _ Hdt), Hm. unfold call.
    assert (drv_mem_write p addr data w = Ok tt (set_out e1 w)) as Hdrv.
    { change (memory_method p m_mem_write (cortexm_mem_write p addr data) (probe_mem_write local_addr p addr data) (@drv_mem_write _ other p addr data) w =
        Ok tt (set_out e1 w)).
      unfold memory_method, via. rewrite (bind_Ok _ _ _ _ _ Hlt), Hm. unfold cortexm_mem_write. rewrite (bind_Ok _ _ _ _ _ (Hcc _ _ _)), (bind_Ok _ _ _ _ _ Hap).
      exact Hrun. }
    by rewrite (bind_Ok _ _ _ _ _ Hdrv), Hck.
  - intros b. rewrite Hp2. exact (Hm1 b).
  - by eapply same_line_trans.
Qed.

(** *** Requests *)
Definition request_m n1 n2 addr len : list Z := str "m" ++ hex n1 addr ++ 44 :: hex n2 len.
Definition request_X n1 n2 addr data : list Z := chr "X" :: hex n1 addr ++ 44 :: hex n2 (zlen data) ++ 58 :: data.
(** A request has been received and answered with [reply], once or more; of
    what the host sent [r] is left, behind acknowledgements perhaps. *)
Definition answered (reply r : list Z) (w w' : W) : Prop :=
  exists k s, (1 <= k <= 4)%nat /\ noise s /\ (length s <= 1)%nat /\ rx (out w') = s ++ r /\
    tx (out w') = tx (out w) ++ 43 :: concat (replicate k (frame reply)).
Lemma hexify_bytes l : is_bytes (hexify_digits l).
Proof.
  assert (forall i, is_byte (zget hexdigits i)) as Hd.
  { intros i. unfold zget. destruct (i <? 0); [done|]. destruct (nth_in_or_default (Z.to_nat i) hexdigits 0) as [Hin| ->]; [|done].
    apply (proj1 (List.Forall_forall _ hexdigits)); [by repeat constructor|done]. }
  induction l as [|x l IH]; cbn; repeat (apply Forall_cons; split; try apply Hd); done.
Qed.
Lemma load_data {W0} (pre data rest : list Z) (w : W0) : load_n (pre ++ data ++ rest) (zlen pre) (zlen data) w = Ok data w.
Proof.
  pose proof (zlen_nonneg pre). pose proof (zlen_nonneg data). pose proof (zlen_nonneg rest).
  unfold load_n. rewrite !zlen_app, !(proj2 (Z.leb_le _ _)) by lia. cbn [andb]. unfold ret. f_equal.
  unfold ztake, zdrop, zlen. rewrite !Nat2Z.id, drop_app_length. apply take_app_length.
Qed.
Lemma handle_X_run p n1 n2 addr data stale w w1 : fits n1 addr -> fits n2 (zlen data) -> zlen (request_X n1 n2 addr data) < 2 ^ 32 ->
  pbuf w = request_X n1 n2 addr data ++ 0 :: stale ->
  target_mem_write (Some p) addr data w = Ok false w1 ->
  handle_X (Some p) (zlen (request_X n1 n2 addr data)) w = gdb_putpacketz (str "OK") w1.
Proof.
  intros Hf1 Hf2 Hlt Hpb Hw. set (bin := zlen (hex n1 addr) + zlen (hex n2 (zlen data)) + 3).
  assert (Hlen : zlen (request_X n1 n2 addr data) = bin + zlen data).
  { unfold request_X, bin. rewrite zlen_cons, zlen_app, zlen_cons, zlen_app, zlen_cons. lia. }
  pose proof (zlen_nonneg data). pose proof (zlen_nonneg (hex n1 addr)). pose proof (zlen_nonneg (hex n2 (zlen data))).
  assert (Hb : pbuf w = (chr "X" :: hex n1 addr ++ 44 :: hex n2 (zlen data) ++ [58]) ++ data ++ 0 :: stale).
  { rewrite Hpb. unfold request_X. cbn [app]. f_equal. rewrite <- !app_assoc. cbn [app]. by rewrite <- !app_assoc. }
  assert (Hscan : scan (lits "X" ++ [CHex nowidth; comma; CHex nowidth; colon; CPos]) (pbuf w) = ([addr; zlen data; bin], 2)).
  { rewrite Hpb. unfold request_X. cbn [app]. rewrite <- app_assoc. cbn [app]. rewrite <- app_assoc. by apply scan_data. }
  unfold handle_X, bind at 1, get. rewrite Hscan. unfold scanned. cbn [lookup list_lookup]. rewrite !bind_ret.
  rewrite Hlen, u32_small by (rewrite Hlen in Hlt; unfold bin in *; lia). rewrite (proj2 (Z.ltb_ge _ _)) by lia. rewrite bind_ret.
  assert (Hpre : bin = zlen (chr "X" :: hex n1 addr ++ 44 :: hex n2 (zlen data) ++ [58])).
  { rewrite zlen_cons, zlen_app, zlen_cons, zlen_app. unfold bin. change (zlen [58]) with 1. lia. }
  rewrite Hb, Hpre. rewrite (bind_Ok _ _ _ _ _ (load_data _ _ _ _)), (bind_Ok _ _ _ _ _ Hw). done.
Qed.
Lemma turn_cases c sysc ss : exists k, (forall w, turn c sysc ss w = head c k w) /\
  (forall size l, k size (chr "m" :: l) = (do! with_target c handle_m in ret (inl ss))) /\
  (forall size l, k size (chr "X" :: l) = (do! with_target c (fun t => handle_X t size) in ret (inl ss))).
Proof. eexists. split; [intros w; unfold head, loop_body; reflexivity|]. split; intros size l; reflexivity. Qed.
Lemma run_with_target c p (m : option positive -> M W unit) w : debugging c p w -> with_target c m w = m (Some p) w.
Proof.
  intros Hd. destruct (db_ctl _ _ _ Hd) as (tc & Htc & Hcur & _). assert (Hl : load_ctl c w = Ok tc w) by (unfold load_ctl, bind, get; by rewrite Htc).
  unfold with_target, cur. by rewrite bind_bind, (bind_Ok _ _ _ _ _ Hl), bind_ret, Hcur.
Qed.
Lemma answered_by c p w e1 k0 buf reply r : debugging c p (set_out e1 (set_pbuf buf w)) -> is_bytes reply -> rx e1 = 43 :: r ->
  tx e1 = tx (out w) ++ [43] -> dap_of e1 = k0 ->
  exists w', gdb_putpacket reply (set_out e1 (set_pbuf buf w)) = Ok tt w' /\ debugging c p w' /\ dap_of (out w') = k0 /\ answered reply r w w'.
Proof.
  intros Hd Hb Hr Ht Hk. destruct (answer c p _ reply r Hd Hb Hr) as (k & s & e & Hrun & Hk4 & Hd' & Hdap & Ht' & Hr' & Hn & Hs).
  eexists. split; [exact Hrun|]. split; [done|]. split; [by rewrite <- Hk|]. exists k, s. split_and!; try done; try lia.
  change (tx e = tx e1 ++ concat (replicate k (frame reply))) in Ht'. change (tx e = tx (out w) ++ 43 :: concat (replicate k (frame reply))).
  by rewrite Ht', Ht, <- app_assoc.
Qed.
Lemma request_read c p sysc ss w skip n1 n2 addr len r : debugging c p w -> noise skip ->
  fits n1 addr -> fits n2 len -> len <= 512 -> addr + len <= 2 ^ 32 ->
  rx (out w) = skip ++ frame (request_m n1 n2 addr len) ++ 43 :: r ->
  zlen (request_m n1 n2 addr len) <= BUF_SIZE -> (length skip < fuel)%nat -> (length (request_m n1 n2 addr len) < fuel)%nat ->
  exists w', turn c sysc ss w = Ok (inl ss) w' /\ debugging c p w' /\ d_mem (dap_of (out w')) = memory w /\
    answered (hexify_digits (mem_bytes (memory w) addr len)) r w w'.
Proof.
  intros Hd Hn Hf1 Hf2 Hl Hal Hr Hz Hfu1 Hfu2. destruct (turn_cases c sysc ss) as (k & Hturn & Hm & _). rewrite Hturn.
  destruct (head_run c p k w skip _ (43 :: r) Hd Hn Hr Hz Hfu1 Hfu2) as (stale & e1 & Hrun & Hd1 & Hp1 & Hr1 & Ht1). rewrite Hrun.
  set (b1 := request_m n1 n2 addr len ++ 0 :: stale) in *. set (w1 := set_out e1 (set_pbuf b1 w)) in *.
  change b1 with (chr "m" :: (hex n1 addr ++ 44 :: hex n2 len) ++ 0 :: stale) at 1. rewrite Hm.
  destruct (run_mem_read c p w1 addr len Hd1) as (e2 & Hread & Hd2 & Hp2 & Hl2); [apply Hf1|destruct (fits_u32 _ _ Hf2); lia|done|].
  pose proof (fits_u32 _ _ Hf2). pose proof (db_pbuf _ _ _ Hd2) as Hpb2.
  pose proof (handle_m_run p n1 n2 addr len w1 (set_out e2 w1) (mem_bytes (memory w1) addr len) stale Hf1 Hf2) as Hh.
  specialize (Hh ltac:(change (pbuf w1) with b1; unfold b1, request_m; rewrite <- !app_assoc; reflexivity) Hread).
  specialize (Hh ltac:(rewrite zlen_mem_bytes; lia) Hpb2). rewrite (proj2 (Z.ltb_ge _ _)) in Hh by lia. destruct Hh as (b & Hzb & Hh).
  assert (Hd3 : debugging c p (set_out e2 (set_pbuf b w))) by (apply (debugging_pbuf c p _ b Hd2 Hzb)).
  destruct (answered_by c p w e2 (dap_of e2) b (hexify_digits (mem_bytes (memory w1) addr len)) r Hd3 (hexify_bytes _))
    as (w' & Hput & Hdb' & Hp' & Hans); try done; [by rewrite (proj1 (proj2 Hl2))|by rewrite (proj2 (proj2 Hl2))|].
  exists w'. assert (memory w1 = memory w) as Hmem by (cbn; by rewrite Hp1). rewrite Hmem in *.
  split; [|split; [done|split; [|exact Hans]]].
  - rewrite (bind_Ok (with_target c handle_m) _ w1 tt w'); [done|]. by rewrite (run_with_target c p _ w1 Hd1), Hh.
  - by rewrite Hp', Hp2.
Qed.
Lemma request_bytes n1 n2 addr data : is_bytes data -> is_bytes (request_X n1 n2 addr data).
Proof.
  intros Hb. assert (forall n x, is_bytes (hex n x)) as Hh.
  { intros n x. unfold hex. revert x. induction (S n) as [|j IH]; intros x; [constructor|]. cbn [hex_fixed]. apply Forall_app. split; [apply IH|].
    constructor; [|constructor]. unfold digit_char. pose proof (Z.mod_pos_bound x 16 ltac:(lia)). unfold in_width. destruct (_ <? _); lia. }
  unfold request_X. apply Forall_cons. split; [done|]. apply Forall_app. split; [apply Hh|]. apply Forall_cons. split; [done|].
  apply Forall_app. split; [apply Hh|]. apply Forall_cons. by split.
Qed.
Lemma request_write c p sysc ss w skip n1 n2 addr data r : debugging c p w -> noise skip -> is_bytes data ->
  fits n1 addr -> fits n2 (zlen data) -> addr + zlen data <= 2 ^ 32 ->
  rx (out w) = skip ++ frame (request_X n1 n2 addr data) ++ 43 :: r ->
  zlen (request_X n1 n2 addr data) <= BUF_SIZE -> (length skip < fuel)%nat -> (length (request_X n1 n2 addr data) < fuel)%nat ->
  exists w', turn c sysc ss w = Ok (inl ss) w' /\ debugging c p w' /\ (forall b, d_mem (dap_of (out w')) b = stored (memory w) addr data b) /\
    answered (str "OK") r w w'.
Proof.
  intros Hd Hn Hb Hf1 Hf2 Hal Hr Hz Hfu1 Hfu2. destruct (turn_cases c sysc ss) as (k & Hturn & _ & Hx). rewrite Hturn.
  destruct (head_run c p k w skip _ (43 :: r) Hd Hn Hr Hz Hfu1 Hfu2) as (stale & e1 & Hrun & Hd1 & Hp1 & Hr1 & Ht1). rewrite Hrun.
  set (b1 := request_X n1 n2 addr data ++ 0 :: stale) in *. set (w1 := set_out e1 (set_pbuf b1 w)) in *.
  change b1 with (chr "X" :: (hex n1 addr ++ 44 :: hex n2 (zlen data) ++ 58 :: data) ++ 0 :: stale) at 1. rewrite Hx.
  pose proof (fits_u32 _ _ Hf2). pose proof (fits_u32 _ _ Hf1).
  destruct (run_mem_write c p w1 addr data Hd1) as (e2 & Hwrite & Hd2 & Hp2 & Hl2); try done; [lia|].
  assert (memory w1 = memory w) as Hmem by (cbn; by rewrite Hp1). rewrite Hmem in Hp2.
  pose proof (handle_X_run p n1 n2 addr data stale w1 (set_out e2 w1) Hf1 Hf2 ltac:(unfold BUF_SIZE in *; lia) eq_refl Hwrite) as Hh.
  destruct (answered_by c p w e2 (dap_of e2) b1 (str "OK") r Hd2) as (w' & Hput & Hdb' & Hp' & Hans);
    [by repeat constructor|by rewrite (proj1 (proj2 Hl2))|by rewrite (proj2 (proj2 Hl2))|done|].
  exists w'. split; [|split; [done|split; [by rewrite Hp'|exact Hans]]].
  rewrite (bind_Ok (with_target c _) _ w1 tt w'); [done|]. by rewrite (run_with_target c p _ w1 Hd1), Hh.
Qed.

Lemma length_hex n x : length (hex n x) = S n.
Proof. apply length_hex_fixed. Qed.
Lemma request_m_length n1 n2 addr len : fits n1 addr -> fits n2 len -> (length (request_m n1 n2 addr len) <= 18)%nat.
Proof. intros [H1 _] [H2 _]. unfold request_m. rewrite !length_app. cbn [length]. rewrite !length_hex. cbn. lia. Qed.
Lemma request_X_length n1 n2 addr data : fits n1 addr -> fits n2 (zlen data) -> (length (request_X n1 n2 addr data) <= 19 + length data)%nat.
Proof. intros [H1 _] [H2 _]. unfold request_X. cbn [length]. rewrite length_app. cbn [length]. rewrite length_app. cbn [length]. rewrite !length_hex. lia. Qed.

(** ** The properties *)

(** C3: end to end, a debugger's 'm' request is answered with the target's
    memory: whatever stands in front of its frame in the channel, one turn of
    the server's loop acknowledges it, reads exactly those bytes through
    target.c, cortexm.c and the access port, and sends them as one frame, again
    only if no acknowledgement comes in time; nothing in memory changes and the
    server is ready for the next request. *)
Theorem read_request_answered c p sysc ss w skip n1 n2 addr len r :
  debugging c p w -> noise skip -> fits n1 addr -> fits n2 len -> len <= 512 -> addr + len <= 2 ^ 32 ->
  rx (out w) = skip ++ frame (request_m n1 n2 addr len) ++ 43 :: r ->
  (length skip < fuel)%nat -> (32 <= fuel)%nat ->
  exists w', turn c sysc ss w = Ok (inl ss) w' /\ debugging c p w' /\ memory w' = memory w /\
    answered (hexify_digits (mem_bytes (memory w) addr len)) r w w'.
Proof.
  intros Hd Hn Hf1 Hf2 Hl Hal Hr Hfu Hfu2. pose proof (request_m_length n1 n2 addr len Hf1 Hf2).
  apply (request_read c p sysc ss w skip n1 n2 addr len r); try done; [unfold zlen, BUF_SIZE|]; lia.
Qed.

(** C1: a debugger that writes bytes with an 'X' request and reads them with an
    'm' request gets them back: two turns of the server's loop answer "OK" and
    the digits of the bytes written, whatever the bytes are, and memory is
    changed there and nowhere else. *)
Theorem written_then_read c p sysc ss w skip n1 n2 n3 addr data r :
  debugging c p w -> noise skip -> is_bytes data -> fits n1 addr -> fits n2 (zlen data) -> fits n3 (zlen data) ->
  zlen data <= 512 -> addr + zlen data <= 2 ^ 32 ->
  rx (out w) = skip ++ frame (request_X n1 n2 addr data) ++ 43 :: frame (request_m n1 n3 addr (zlen data)) ++ 43 :: r ->
  (length skip < fuel)%nat -> (540 <= fuel)%nat ->
  exists w1 w2, turn c sysc ss w = Ok (inl ss) w1 /\ turn c sysc ss w1 = Ok (inl ss) w2 /\
    answered (str "OK") (frame (request_m n1 n3 addr (zlen data)) ++ 43 :: r) w w1 /\ answered (hexify_digits data) r w1 w2 /\
    forall b, memory w2 b = stored (memory w) addr data b.
Proof.
  intros Hd Hn Hb Hf1 Hf2 Hf3 Hl Hal Hr Hfu Hfu2. pose proof (request_m_length n1 n3 addr (zlen data) Hf1 Hf3).
  pose proof (request_X_length n1 n2 addr data Hf1 Hf2).
  destruct (request_write c p sysc ss w skip n1 n2 addr data _ Hd Hn Hb Hf1 Hf2 Hal Hr) as (w1 & Hrun1 & Hd1 & Hm1 & Ha1);
    [unfold zlen, BUF_SIZE in *; lia|lia|unfold zlen in *; lia|]. pose proof Ha1 as (k1 & s1 & Hk1 & Hn1 & Hs1 & Hr1 & _).
  destruct (request_read c p sysc ss w1 s1 n1 n3 addr (zlen data) r Hd1 Hn1 Hf1 Hf3 Hl Hal Hr1) as (w2 & Hrun2 & Hd2 & Hm2 & Ha2);
    [unfold zlen, BUF_SIZE in *; lia|lia|lia|].
  exists w1, w2. rewrite (mem_bytes_stored (memory w)) in Ha2 by done. split_and!; try done. intros b. by rewrite Hm2.
Qed.
End Session.

(** ** A probe with a wire to the host and one access port *)
Module SessionSim.
Record sim := { s_line : Wire.wire; s_dap : dap }.
Definition on_line {A} (m : M Wire.wire A) : M sim A := fun e =>
  match m (s_line e) with
  | Ok a l => Ok a {| s_line := l; s_dap := s_dap e |}
  | Raise ty msg l => Raise ty msg {| s_line := l; s_dap := s_dap e |}
  | Fault why l => Fault why {| s_line := l; s_dap := s_dap e |}
  | Hang => Hang
  end.
Definition on_dap {A} (m : M dap A) : M sim A := fun e =>
  match m (s_dap e) with
  | Ok a d => Ok a {| s_line := s_line e; s_dap := d |}
  | Raise ty msg d => Raise ty msg {| s_line := s_line e; s_dap := d |}
  | Fault why d => Fault why {| s_line := s_line e; s_dap := d |}
  | Hang => Hang
  end.
Lemma line_Ok {A} (m : M Wire.wire A) e a e' : on_line m e = Ok a e' -> m (s_line e) = Ok a (s_line e') /\ s_dap e' = s_dap e.
Proof. unfold on_line. destruct (m (s_line e)); intros [= <- <-]. done. Qed.
Lemma dap_Ok {A} (m : M dap A) e a e' : on_dap m e = Ok a e' -> m (s_dap e) = Ok a (s_dap e') /\ s_line e' = s_line e.
Proof. unfold on_dap. destruct (m (s_dap e)); intros [= <- <-]. done. Qed.
#[export] Instance sim_gdb : GdbIf sim := {
  gdb_if_getchar := on_line gdb_if_getchar; gdb_if_getchar_to n := on_line (gdb_if_getchar_to n);
  gdb_if_putchar c f := on_line (gdb_if_putchar c f) }.
#[export] Instance sim_dp : DpIf sim := {
  dp_low_access p RnW addr v := on_dap (DapSim.sim_if.(dp_low_access) p RnW addr v); dp_read p addr := on_dap (DapSim.sim_if.(dp_read) p addr) }.
#[export, refine] Instance sim_line : GdbIfSpec sim := { if_wf _ := True; rx e := Wire.w_rx (s_line e); tx e := Wire.w_tx (s_line e) }.
Proof.
  - intros [l d] b r _ Hr. destruct (@getchar_rx _ _ Wire.wire_spec l b r I Hr) as (l' & Hrun & _ & Hr' & Ht').
    exists {| s_line := l'; s_dap := d |}. split; [unfold gdb_if_getchar, sim_gdb, on_line; cbn [s_line]; by rewrite Hrun|done].
  - intros [l d] _ Hr. unfold gdb_if_getchar, sim_gdb, on_line. cbn [s_line]. by rewrite (@getchar_blocks _ _ Wire.wire_spec l I Hr).
  - intros [l d] n _. destruct (@getchar_to_spec _ _ Wire.wire_spec l n I) as (b & l' & Hrun & _ & Hrest).
    exists b, {| s_line := l'; s_dap := d |}. split; [unfold gdb_if_getchar_to, sim_gdb, on_line; cbn [s_line]; by rewrite Hrun|done].
  - intros [l d] c f _. destruct (@putchar_spec _ _ Wire.wire_spec l c f I) as (l' & Hrun & _ & Hrest).
    exists {| s_line := l'; s_dap := d |}. split; [unfold gdb_if_putchar, sim_gdb, on_line; cbn [s_line]; by rewrite Hrun|done].
Defined.
#[export, refine] Instance sim_port : DapSpec sim 1 0 := { dap_wf e := DapSim.wf (s_dap e); dap_of := s_dap; apsel_byte := DapSim.zero_byte }.
Proof.
  intros [l d] RnW addr v reg Hw Hv Hd Hok. destruct (DapSim.sim_step 1 d RnW addr v reg Hw Hv Hd Hok) as (r & d' & Hrun & Hrest).
  exists r, {| s_line := l; s_dap := d' |}. split; [unfold dp_low_access, sim_dp, on_dap; cbn [s_dap]; by rewrite Hrun|done].
Defined.
#[export] Instance sim_mem : MemIf sim := { MemManager_Alloc _ := ret (Some 9%positive); MemManager_Free _ := ret tt }.
#[export] Instance sim_clock : ClockIf sim := { platform_time_ms := ret 0; platform_delay _ := ret tt }.
#[export] Instance sim_obj : DpObj sim := {
  load_dpo _ := ret {| o_refcnt := 1; o_idcode := 0x2ba01477; o_targetid := 0; o_fault := 0; o_tc := 0 |};
  store_dpo _ _ := ret tt; drop_dpo _ := ret tt; dp_error _ := ret 0; dp_abort _ _ := ret tt }.
#[export] Instance sim_probe : ProbeIf (cm_dev sim) := {
  get_voltage _ := ret (str "3.3V"); srst_set_val _ _ := ret tt; srst_get_val _ := ret false; target_set_power _ _ := ret tt;
  target_get_power _ := ret false; voltage_sense _ := ret 0; max_frequency_set _ _ := ret tt; max_frequency_get _ := ret 0;
  set_idle_state _ _ := ret tt }.
#[export] Instance sim_host : HostIf (cm_dev sim) := { host_call _ _ := ret 0 }.
#[export] Instance sim_device : DeviceIf (cm_dev sim) := { device_probe _ _ := ret false; extended_reset _ := ret tt }.
#[export] Instance sim_morse : MorseIf (cm_dev sim) := { morse _ _ := ret tt; get_morse_msg := ret None }.
#[export] Instance sim_scan : ScanIf (cm_dev sim) := { jtag_scan _ _ := ret 0; adiv5_swdp_scan _ _ := ret 0 }.
#[export] Instance sim_spec : ProbeSpec sim sim_port.
Proof.
  constructor.
  - intros e b e' [_ Hp]%line_Ok. unfold same_port. cbn. by rewrite Hp.
  - intros e n b e' [_ Hp]%line_Ok. unfold same_port. cbn. by rewrite Hp.
  - intros e c f e' [_ Hp]%line_Ok. unfold same_port. cbn. by rewrite Hp.
  - intros e RnW addr v r e' [_ Hl]%dap_Ok. unfold same_line. cbn. by rewrite Hl.
  - intros e He. by exists e.
  - intros c b d. exists (outside d). split; [by destruct d|]. done.
Qed.
Definition driver0 : Driver (cm_dev sim) := {|
  drv_attach _ := ret true; drv_detach _ := ret tt; drv_check_error _ := ret false; drv_mem_read _ _ n := ret (memset n 0);
  drv_mem_write _ _ _ := ret tt; drv_regs_read _ := ret []; drv_regs_write _ _ := ret tt; drv_reg_read _ _ _ := ret (0, []);
  drv_reg_write _ _ _ := ret 0; drv_reset _ := ret tt; drv_halt_request _ := ret tt; drv_halt_poll _ := ret (TARGET_HALT_RUNNING, 0);
  drv_halt_resume _ _ := ret tt; drv_breakwatch_set _ bw := ret (1, bw); drv_breakwatch_clear _ _ := ret 1;
  drv_priv_free _ := ret tt; drv_command _ _ _ := ret false; drv_flash_erase _ _ _ _ := ret 0; drv_flash_write _ _ _ _ := ret 0;
  drv_flash_done _ _ := ret 0 |}.
Definition t0 : target := set_conn true (Some 0%nat) (set_priv (Some 7%positive) (set_core_methods blank_target)).
Definition ap0 : ADIv5_AP := {| ap_refcnt := 1; ap_dp := 1; apsel := 0; idr := 0x24770011; base := 0xe00ff003; csw := 0x23000040;
  ap_cortexm_demcr := 0; ap_storage := 0; ap_designer := 0x20; ap_partno := 0x411 |}.
Definition ctl0 : controller := {| has_destroy_callback := true; has_printf := true; h_open := false; h_close := false; h_read := false;
  h_write := false; h_lseek := false; h_rename := false; h_unlink := false; h_stat := false; h_fstat := false; h_gettimeofday := false;
  h_isatty := false; h_system := false; errno_ := 0; interrupted := false; cur_target := Some 5%positive; last_target := None;
  target_list := [5%positive]; flash_mode := false; connect_assert_srst := false; cortexm_wait_timeout := 2000; running_status := false;
  has_platform := true |}.
(** Memory whose bytes are 0xA5, and what the host sends. *)
Definition dap0 : dap := {| d_select := 0; d_csw := 0; d_tar := 0; d_posted := 0; d_mem := fun _ => 0xA5 |}.
Definition w_with (input : list Z) : world (cm_dev sim) :=
  {| heap := {[ 5%positive := t0 ]}; ctls := {[ 0%nat := ctl0 ]}; pbuf := memset 1025 0; debug_bmp := false;
     dev := {| aps := {[ 3%positive := ap0 ]}; privs := {[ 7%positive := blank_priv 3 ]}; time0_sec := 4294967295; local := [];
               outside := {| s_line := Wire.of_bytes input; s_dap := dap0 |} |} |}.
Lemma debugging0 input : debugging (DS := sim_port) 0 5 (w_with input).
Proof.
  constructor; try done.
  - by exists ctl0.
  - exists t0, 7%positive, (blank_priv 3), ap0. done.
Qed.
Definition no_ctl (c : nat) : list Z := [].
Definition no_float (a b : Z) : list Z := [].
Definition no_remote (i : Z) (p : list Z) : M (world (cm_dev sim)) (list Z) := ret p.
Notation turn := (@loop_body (cm_dev sim) _ _ (cortexm_driver 10 0 driver0) _ _ _ _ no_ctl no_float no_remote 600).
(** An acknowledgement too many, bytes that frames escape, a Ctrl-C behind. *)
Definition bytes0 : list Z := [0x24; 0; 0x23; 0x7d; 0xff].
Definition read0 : list Z := 43 :: frame (request_m 7 0 0x20000101 5) ++ [43; 3].
Definition both0 : list Z := 43 :: frame (request_X 7 0 0x20000101 bytes0) ++ 43 :: frame (request_m 7 0 0x20000101 5) ++ [43; 3].
End SessionSim.

Import SessionSim.
Lemma read_request_answered_witness : exists w', turn 0 false false (w_with read0) = Ok (inl false) w' /\
  debugging (DS := sim_port) 0 5 w' /\ d_mem (dap_of (out w')) = (fun _ => 0xA5) /\
  answered (hexify_digits (mem_bytes (fun _ => 0xA5) 0x20000101 5)) [3] (w_with read0) w'.
Proof.
  apply (read_request_answered (PS := sim_spec) 10 0 driver0 no_ctl no_float no_remote 600 0 5 false false (w_with read0) [43] 7 0 0x20000101 5 [3]
    (debugging0 read0)); [by repeat apply Forall_cons_2|unfold fits; cbn; lia|unfold fits; cbn; lia|done|done|reflexivity|cbn; lia|lia].
Defined.
Lemma written_then_read_witness : exists w1 w2,
  turn 0 false false (w_with both0) = Ok (inl false) w1 /\ turn 0 false false w1 = Ok (inl false) w2 /\
  answered (str "OK") (frame (request_m 7 0 0x20000101 5) ++ [43; 3]) (w_with both0) w1 /\ answered (hexify_digits bytes0) [3] w1 w2 /\
  forall b, d_mem (dap_of (out w2)) b = stored (fun _ => 0xA5) 0x20000101 bytes0 b.
Proof.
  apply (written_then_read (PS := sim_spec) 10 0 driver0 no_ctl no_float no_remote 600 0 5 false false (w_with both0) [43] 7 0 0 0x20000101 bytes0 [3]
    (debugging0 both0)); [by repeat apply Forall_cons_2|by repeat apply Forall_cons_2|unfold fits; cbn; lia|unfold fits; change (zlen bytes0) with 5; cbn; lia|unfold fits; change (zlen bytes0) with 5; cbn; lia|done|done|reflexivity|cbn; lia|lia].
Defined.
