(* ===== verification/Pins.v ===== *)
(** The pins of the board: periph_conf.h's numbers, system_pins.c, mux_task.c,
    whose pins are the outputs of shift registers, and the functions of
    platform_target_interface_non_iso.c that set and read pins; the shift
    registers as a machine, and what they show whatever the tasks and
    interrupts do. *)

From Stdlib Require Import ZArith Lia String.
From stdpp Require Import base list numbers option relations.
From S2P Require Import Prelude CLib Platform.

(** ** periph_conf.h

    [platform_pin_t] is an int, of which the pins behind the shift registers have
    the sign bit; a pin is its 32 bits here. *)
Definition MUX_PIN_BIT : Z := 0x80000000.
Definition PIN_IS_MUX_PIN (pin : Z) : bool := flag pin MUX_PIN_BIT.
Definition PIN_MUX_DATA : Z := 15.
Definition PIN_MUX_OE : Z := 20.
Definition PIN_MUX_LATCH : Z := 21.
Definition PIN_MUX_CLK : Z := 22.
Definition PIN_TARGET1_TX : Z := 8.
Definition PIN_TARGET1_RX : Z := 9.
Definition PIN_NATIVE_COUNT : Z := 30.
Definition PIN_MUX_FIRST_PIN : Z := MUX_PIN_BIT.
Definition PIN_TARGET_1_LED_ACT : Z := PIN_MUX_FIRST_PIN.
Definition PIN_TARGET_1_LED_SER : Z := PIN_MUX_FIRST_PIN + 1.
Definition PIN_TARGET_1_LED_ERR : Z := PIN_MUX_FIRST_PIN + 2.
Definition PIN_TARGET_2_LED_SER : Z := PIN_MUX_FIRST_PIN + 4.
Definition PIN_TARGET_1_PWR_EN : Z := PIN_MUX_FIRST_PIN + 11.
Definition PIN_TARGET_1_RST : Z := PIN_MUX_FIRST_PIN + 12.
Definition PIN_MUX_COUNT : Z := 13.
Definition MUX_TASK_EVENT_UPDATE : Z := 1.
Definition SYSTEM_PRIORITY_LOWEST : Z := 1.

(** ** The SDK and FreeRTOS

    Pins, delays, and the tasks: the event bits of a task are set from tasks
    and from interrupts, and its wait clears them. *)
Class BoardIf (E : Type) := {
  gpio_init : Z -> M E unit;
  gpio_set_dir : Z -> bool -> M E unit;                 (* true: output *)
  gpio_put : Z -> bool -> M E unit;
  gpio_get : Z -> M E bool;
  busy_wait_us : Z -> M E unit;
  xTaskCreate : string -> Z -> M E bool;                (* thread, priority *)
  xTaskNotify : string -> Z -> M E bool;                (* the thread, the bits set *)
  xTaskNotifyFromISR : string -> Z -> M E (bool * bool);  (* status, a higher task was woken *)
  portYIELD_FROM_ISR : bool -> M E unit;
  xTaskNotifyWait : Z -> Z -> M E bool;                 (* bits to clear, ticks *)
  taskCHECK_IF_IN_ISR : M E bool;
}.

(** mux_task.c's [mux_pins_value], and everything else. *)
Record pins (E : Type) := { mux_pins_value : Z; board : E }.
Arguments Build_pins {E}. Arguments mux_pins_value {E}. Arguments board {E}.

Section Pins.
Context {E : Type} `{BoardIf E}.
Notation MP := (M (pins E)).
Definition set_pins_value v (w : pins E) : pins E := {| mux_pins_value := v; board := board w |}.
Definition set_board e (w : pins E) : pins E := {| mux_pins_value := mux_pins_value w; board := e |}.
Definition on_board {A} (m : M E A) : MP A := fun w =>
  match m (board w) with
  | Ok a e => Ok a (set_board e w)
  | Raise ty msg e => Raise ty msg (set_board e w)
  | Fault why e => Fault why (set_board e w)
  | Hang => Hang
  end.

(** ** mux_task.c *)
Definition pin_output (pin : Z) : MP unit :=
  do! on_board (gpio_init pin) in
  do! on_board (gpio_set_dir pin true) in
  on_board (gpio_put pin false).
Definition mux_task_pins_init : MP unit :=
  do! pin_output PIN_MUX_CLK in
  do! pin_output PIN_MUX_DATA in
  do! pin_output PIN_MUX_LATCH in
  pin_output PIN_MUX_OE.
(** One bit, the highest pin's first. *)
Definition shift_bit (gpio_state i : Z) : M E unit :=
  do! gpio_put PIN_MUX_CLK false in
  do! gpio_put PIN_MUX_DATA (negb (Z.land (Z.shiftr gpio_state i) 1 =? 0)) in
  do! busy_wait_us 1 in
  do! gpio_put PIN_MUX_CLK true in
  busy_wait_us 1.
(** [mux_task_pins_update] once the value is read: nothing the other tasks do
    to the value reaches it any more. *)
Definition shift_out (gpio_state : Z) : M E unit :=
  do! gpio_put PIN_MUX_LATCH false in
  do! busy_wait_us 1 in
  do! for_each (rev (seqZ 0 PIN_MUX_COUNT)) (shift_bit gpio_state) in
  gpio_put PIN_MUX_LATCH true.
Definition mux_task_pins_update : MP unit :=
  let! w := get in
  let gpio_state := mux_pins_value w in
  on_board (shift_out gpio_state).
Definition mux_task_init : MP unit :=
  do! mux_task_pins_init in
  do! on_board (xTaskCreate "mux_task" SYSTEM_PRIORITY_LOWEST) in
  ret tt.
(** One turn of the loop of [mux_task_thread]. *)
Definition mux_task_thread_body : MP unit :=
  do! mux_task_pins_update in
  do! on_board (xTaskNotifyWait MUX_TASK_EVENT_UPDATE 1000) in
  ret tt.
(** The number in the registers of a multiplexed pin. *)
Definition mux_index (pin : Z) : Z := Z.land pin (u32 (Z.lnot MUX_PIN_BIT)).
(** The two halves of [mux_pin_set]: the atomic change of the value, and the
    event for the task. *)
Definition mux_apply (pin : Z) (value : bool) (v : Z) : Z :=
  let mask := Z.shiftl 1 (mux_index pin) in
  if value then Z.lor v mask else Z.land v (u32 (Z.lnot mask)).
Definition mux_notify : MP unit :=
  let! isr := on_board taskCHECK_IF_IN_ISR in
  if isr : bool then
    let! (status, woken) := on_board (xTaskNotifyFromISR "mux_task" MUX_TASK_EVENT_UPDATE) in
    on_board (portYIELD_FROM_ISR woken)
  else
    do! on_board (xTaskNotify "mux_task" MUX_TASK_EVENT_UPDATE) in
    ret tt.
Definition mux_pin_set (pin : Z) (value : bool) : MP unit :=
  if PIN_IS_MUX_PIN pin then
    if PIN_MUX_COUNT <=? mux_index pin then ret tt else
    do! modify (fun w => set_pins_value (mux_apply pin value (mux_pins_value w)) w) in
    mux_notify
  else ret tt.
Definition mux_pin_get (pin : Z) : MP bool :=
  if PIN_IS_MUX_PIN pin && (mux_index pin <? PIN_MUX_COUNT) then
    let! w := get in ret (flag (mux_pins_value w) (Z.shiftl 1 (mux_index pin)))
  else ret false.

(** ** system_pins.c *)
Definition system_pins_init : MP unit := mux_task_init.
Definition system_pin_set_value (pin : Z) (value : bool) : MP unit :=
  if PIN_IS_MUX_PIN pin then mux_pin_set pin value
  else if pin <? PIN_NATIVE_COUNT then on_board (gpio_put pin value)
  else ret tt.
Definition system_pin_set (pin : Z) : MP unit := system_pin_set_value pin true.
Definition system_pin_clear (pin : Z) : MP unit := system_pin_set_value pin false.
(** For another pin the function ends without a result. *)
Definition system_pin_get (pin : Z) : MP bool :=
  if PIN_IS_MUX_PIN pin then mux_pin_get pin
  else if pin <? PIN_NATIVE_COUNT then on_board (gpio_get pin)
  else crash UninitRead.

(** ** platform_target_interface_non_iso.c *)
Context `{ClockIf E}.
Definition platform_target_interface_non_iso_srst_set_val (assert : bool) : MP unit :=
  do! system_pin_set_value PIN_TARGET_1_RST assert in
  on_board (platform_delay 1).
Definition platform_target_interface_non_iso_srst_get_val : MP bool := system_pin_get PIN_TARGET_1_RST.
Definition platform_target_interface_non_iso_set_power (power : bool) : MP unit := system_pin_set_value PIN_TARGET_1_PWR_EN (negb power).
Definition platform_target_interface_non_iso_get_power : MP bool :=
  let! b := system_pin_get PIN_TARGET_1_PWR_EN in ret (negb b).
Definition platform_target_interface_non_iso_set_idle_state (state : bool) : MP unit := system_pin_set_value PIN_TARGET_1_LED_ACT state.
Definition platform_target_interface_non_iso_set_error_state (state : bool) : MP unit := system_pin_set_value PIN_TARGET_1_LED_ERR state.
End Pins.

(** ** The shift registers

    Two of eight bits in a row: a rising clock shifts the data bit in, a
    rising latch shows what is in them. *)
Record chain := { c_clk : bool; c_latch : bool; c_data : bool; c_reg : Z; c_out : Z }.
Definition chain_put (pin : Z) (v : bool) (c : chain) : chain :=
  if pin =? PIN_MUX_CLK then
    {| c_clk := v; c_latch := c_latch c; c_data := c_data c;
       c_reg := if v && negb (c_clk c) then u16 (2 * c_reg c + Z.b2z (c_data c)) else c_reg c; c_out := c_out c |}
  else if pin =? PIN_MUX_LATCH then
    {| c_clk := c_clk c; c_latch := v; c_data := c_data c; c_reg := c_reg c;
       c_out := if v && negb (c_latch c) then c_reg c else c_out c |}
  else if pin =? PIN_MUX_DATA then
    {| c_clk := c_clk c; c_latch := c_latch c; c_data := v; c_reg := c_reg c; c_out := c_out c |}
  else c.

(** [chain_of]: the registers; [event]: whether the task's event is set. *)
Class BoardSpec (E : Type) `{BoardIf E} := {
  chain_of : E -> chain;
  event : E -> bool;
  put_ok e pin v : exists e', gpio_put pin v e = Ok tt e' /\ chain_of e' = chain_put pin v (chain_of e) /\ event e' = event e;
  wait_us_ok e n : exists e', busy_wait_us n e = Ok tt e' /\ chain_of e' = chain_of e /\ event e' = event e;
  in_isr_ok e : exists b e', taskCHECK_IF_IN_ISR e = Ok b e' /\ chain_of e' = chain_of e /\ event e' = event e;
  notify_ok e t : exists b e', xTaskNotify t MUX_TASK_EVENT_UPDATE e = Ok b e' /\ chain_of e' = chain_of e /\ event e' = true;
  notify_isr_ok e t : exists b e', xTaskNotifyFromISR t MUX_TASK_EVENT_UPDATE e = Ok b e' /\ chain_of e' = chain_of e /\ event e' = true;
  yield_ok e b : exists e', portYIELD_FROM_ISR b e = Ok tt e' /\ chain_of e' = chain_of e /\ event e' = event e;
  notify_wait_ok e n : exists b e', xTaskNotifyWait MUX_TASK_EVENT_UPDATE n e = Ok b e' /\ chain_of e' = chain_of e /\ event e' = false;
}.

Section Shift.
Context {E : Type} `{BS : BoardSpec E}.

Lemma shift_bit_ok e v i : exists e', shift_bit v i e = Ok tt e' /\ event e' = event e /\ c_latch (chain_of e') = c_latch (chain_of e) /\
  c_reg (chain_of e') = u16 (2 * c_reg (chain_of e) + Z.land (Z.shiftr v i) 1).
Proof.
  unfold shift_bit. destruct (put_ok e PIN_MUX_CLK false) as (e1 & R1 & C1 & V1). rewrite (bind_Ok _ _ _ _ _ R1).
  destruct (put_ok e1 PIN_MUX_DATA (negb (Z.land (Z.shiftr v i) 1 =? 0))) as (e2 & R2 & C2 & V2). rewrite (bind_Ok _ _ _ _ _ R2).
  destruct (wait_us_ok e2 1) as (e3 & R3 & C3 & V3). rewrite (bind_Ok _ _ _ _ _ R3).
  destruct (put_ok e3 PIN_MUX_CLK true) as (e4 & R4 & C4 & V4). rewrite (bind_Ok _ _ _ _ _ R4).
  destruct (wait_us_ok e4 1) as (e5 & R5 & C5 & V5). exists e5. split; [done|]. split; [congruence|].
  rewrite C5, C4, C3, C2, C1. split; [done|]. cbn. f_equal. f_equal.
  change 1 with (Z.ones 1). rewrite Z.land_ones by lia. change (2 ^ 1) with 2.
  pose proof (Z.mod_pos_bound (Z.shiftr v i) 2 ltac:(lia)). destruct (Z.eqb_spec (Z.shiftr v i mod 2) 0); cbn; lia.
Qed.
Lemma rev_seqZ (n : nat) : rev (seqZ 0 (Z.of_nat (S n))) = Z.of_nat n :: rev (seqZ 0 (Z.of_nat n)).
Proof. rewrite seqZ_S, rev_app_distr. done. Qed.
Lemma mod_next_bit v n : 0 <= n -> v mod 2 ^ (n + 1) = Z.land (Z.shiftr v n) 1 * 2 ^ n + v mod 2 ^ n.
Proof.
  intros Hn. change 1 with (Z.ones 1) at 2. rewrite Z.land_ones, Z.shiftr_div_pow2 by lia. change (2 ^ 1) with 2.
  rewrite Z.pow_add_r by lia. change (2 ^ 1) with 2. rewrite Z.rem_mul_r by lia. lia.
Qed.
Lemma shift_bits_ok v (n : nat) : forall e, exists e', for_each (rev (seqZ 0 (Z.of_nat n))) (shift_bit v) e = Ok tt e' /\
  event e' = event e /\ c_latch (chain_of e') = c_latch (chain_of e) /\
  u16 (c_reg (chain_of e')) = u16 (c_reg (chain_of e) * 2 ^ Z.of_nat n + v mod 2 ^ Z.of_nat n).
Proof.
  induction n as [|n IH]; intros e.
  - exists e. split_and!; try done. cbn. by rewrite Z.mod_1_r, Z.mul_1_r, Z.add_0_r.
  - rewrite rev_seqZ. cbn [for_each].
    destruct (shift_bit_ok e v (Z.of_nat n)) as (e1 & R1 & V1 & L1 & G1). rewrite (bind_Ok _ _ _ _ _ R1).
    destruct (IH e1) as (e2 & R2 & V2 & L2 & G2). exists e2. split; [done|]. split; [congruence|]. split; [congruence|].
    rewrite G2, G1. replace (Z.of_nat (S n)) with (Z.of_nat n + 1) by lia. rewrite mod_next_bit by lia. unfold u16, wrap. rewrite <- Z.add_mod_idemp_l, Z.mul_mod_idemp_l, Z.add_mod_idemp_l by lia.
    f_equal. rewrite Z.pow_add_r by lia. change (2 ^ 1) with 2. lia.
Qed.
(** The outputs show the value's bits. *)
Definition shows (e : E) (v : Z) : Prop := forall i, 0 <= i < PIN_MUX_COUNT -> Z.testbit (c_out (chain_of e)) i = Z.testbit v i.
Lemma shift_out_ok e v : exists e', shift_out v e = Ok tt e' /\ event e' = event e /\ shows e' v.
Proof.
  unfold shift_out. destruct (put_ok e PIN_MUX_LATCH false) as (e1 & R1 & C1 & V1). rewrite (bind_Ok _ _ _ _ _ R1).
  destruct (wait_us_ok e1 1) as (e2 & R2 & C2 & V2). rewrite (bind_Ok _ _ _ _ _ R2).
  destruct (shift_bits_ok v 13 e2) as (e3 & R3 & V3 & L3 & G3). change (Z.of_nat 13) with PIN_MUX_COUNT in *. rewrite (bind_Ok _ _ _ _ _ R3).
  destruct (put_ok e3 PIN_MUX_LATCH true) as (e4 & R4 & C4 & V4). exists e4. split; [done|]. split; [congruence|].
  intros i Hi. rewrite C4. rewrite C2, C1 in L3. cbn in L3. cbn. rewrite L3. cbn [negb]. change PIN_MUX_COUNT with 13 in *.
  assert (Hbit : forall x, Z.testbit (u16 x) i = Z.testbit x i) by (intros x; unfold u16, wrap; rewrite Z.mod_pow2_bits_low by lia; done).
  rewrite <- Hbit, G3, Hbit. rewrite <- (Z.mod_pow2_bits_low _ 13) by lia. rewrite Z.add_comm, Z.mod_add by lia.
  rewrite Z.mod_mod by lia. rewrite Z.mod_pow2_bits_low by lia. done.
Qed.
End Shift.

(** ** Tasks and interrupts at work

    The thread of mux_task.c reads the value, shifts it out, waits; any task
    or interrupt may be between the two halves of its [mux_pin_set]. *)
Section Interleaving.
Context {E : Type} `{BS : BoardSpec E}.
Inductive phase := Reading | Shifting (gpio_state : Z) | Waiting.
Record system := { s_pins : pins E; s_phase : phase; s_setting : nat }.
Definition pin_ok (pin : Z) : Prop := PIN_IS_MUX_PIN pin = true /\ mux_index pin < PIN_MUX_COUNT.
Inductive mux_step : system -> system -> Prop :=
| step_read w n : mux_step {| s_pins := w; s_phase := Reading; s_setting := n |} {| s_pins := w; s_phase := Shifting (mux_pins_value w); s_setting := n |}
| step_shift w v w' n : on_board (shift_out v) w = Ok tt w' ->
    mux_step {| s_pins := w; s_phase := Shifting v; s_setting := n |} {| s_pins := w'; s_phase := Waiting; s_setting := n |}
| step_wake w b w' n : on_board (xTaskNotifyWait MUX_TASK_EVENT_UPDATE 1000) w = Ok b w' ->
    mux_step {| s_pins := w; s_phase := Waiting; s_setting := n |} {| s_pins := w'; s_phase := Reading; s_setting := n |}
| step_apply w ph pin value n : pin_ok pin ->
    mux_step {| s_pins := w; s_phase := ph; s_setting := n |}
      {| s_pins := set_pins_value (mux_apply pin value (mux_pins_value w)) w; s_phase := ph; s_setting := S n |}
| step_notify w ph w' n : mux_notify w = Ok tt w' ->
    mux_step {| s_pins := w; s_phase := ph; s_setting := S n |} {| s_pins := w'; s_phase := ph; s_setting := n |}.

Lemma on_board_Ok {A} (m : M E A) w a e : m (board w) = Ok a e -> on_board m w = Ok a (set_board e w).
Proof. intros Hm. unfold on_board. by rewrite Hm. Qed.
Lemma on_board_inv {A} (m : M E A) w a w' : on_board m w = Ok a w' -> exists e, m (board w) = Ok a e /\ w' = set_board e w.
Proof. unfold on_board. destruct (m (board w)) as [x e| | |]; intros [= -> <-]. by exists e. Qed.
Lemma notify_run w : exists e, mux_notify w = Ok tt (set_board e w) /\ chain_of e = chain_of (board w) /\ event e = true.
Proof.
  unfold mux_notify. destruct (in_isr_ok (board w)) as (b & e1 & R1 & C1 & _). rewrite (bind_Ok _ _ _ _ _ (on_board_Ok _ _ _ _ R1)).
  destruct b.
  - destruct (notify_isr_ok e1 "mux_task") as ([st wk] & e2 & R2 & C2 & V2).
    rewrite (bind_Ok _ _ _ _ _ (on_board_Ok _ (set_board e1 w) _ _ R2)).
    destruct (yield_ok e2 wk) as (e3 & R3 & C3 & V3). exists e3.
    split; [exact (on_board_Ok _ (set_board e2 w) _ _ R3)|]. split; congruence.
  - destruct (notify_ok e1 "mux_task") as (st & e2 & R2 & C2 & V2). exists e2.
    rewrite (bind_Ok _ _ _ _ _ (on_board_Ok _ (set_board e1 w) _ _ R2)). split; [done|]. split; congruence.
Qed.
(** [mux_pin_set] is the two steps of the relation. *)
Lemma mux_pin_set_steps pin value w ph n : pin_ok pin -> exists w', mux_pin_set pin value w = Ok tt w' /\
  rtc mux_step {| s_pins := w; s_phase := ph; s_setting := n |} {| s_pins := w'; s_phase := ph; s_setting := n |}.
Proof.
  intros [Hm Hi]. set (w1 := set_pins_value (mux_apply pin value (mux_pins_value w)) w).
  destruct (notify_run w1) as (e & Hrun & _). exists (set_board e w1). split.
  - unfold mux_pin_set. rewrite Hm, (proj2 (Z.leb_gt _ _)) by lia. exact Hrun.
  - eapply rtc_l; [by apply step_apply|]. eapply rtc_l; [by apply step_notify|]. apply rtc_refl.
Qed.

(** What the thread still has to show it will be told of, or reads. *)
Definition told (s : system) : Prop := event (board (s_pins s)) = true \/ s_setting s <> O.
Definition follows (s : system) : Prop :=
  match s_phase s with
  | Reading => True
  | Shifting v => v = mux_pins_value (s_pins s) \/ told s
  | Waiting => shows (board (s_pins s)) (mux_pins_value (s_pins s)) \/ told s
  end.
Lemma follows_step s s' : mux_step s s' -> follows s -> follows s'.
Proof.
  intros Hst Hf. inversion Hst; subst; clear Hst; unfold follows, told in *; cbn in *.
  - by left.
  - apply on_board_inv in H0 as (e & Hrun & ->). destruct (shift_out_ok (board w) v) as (e1 & Hrun1 & Hev & Hsh).
    rewrite Hrun in Hrun1. injection Hrun1 as <-. destruct Hf as [-> |[Hf|Hf]]; [by left|right; left; cbn; by rewrite Hev|by right; right].
  - done.
  - destruct ph; [done|..]; by right; right.
  - destruct (notify_run w) as (e & Hrun & _ & Hev). rewrite H0 in Hrun. injection Hrun as ->. destruct ph; [done|..]; right; by left.
Qed.
Lemma follows_steps s s' : rtc mux_step s s' -> follows s -> follows s'.
Proof. induction 1 as [|s1 s2 s3 Hst _ IH]; [done|]. intros Hf. by apply IH, (follows_step s1). Qed.


(** What is set is read back; no other pin changes. *)
Lemma mux_bit pin value v i : pin_ok pin -> is_u32 v -> 0 <= mux_index pin -> 0 <= i < 32 ->
  Z.testbit (mux_apply pin value v) i = if i =? mux_index pin then value else Z.testbit v i.
Proof.
  intros [_ Hi] Hv H0 Hb. change PIN_MUX_COUNT with 13 in Hi. unfold mux_apply.
  assert (Hone : Z.testbit (Z.shiftl 1 (mux_index pin)) i = (i =? mux_index pin)).
  { rewrite Z.shiftl_1_l. destruct (Z.eqb_spec i (mux_index pin)) as [-> |Hne]; [by rewrite Z.pow2_bits_true|by rewrite Z.pow2_bits_false]. }
  destruct value.
  - rewrite Z.lor_spec, Hone. destruct (i =? mux_index pin); [by rewrite orb_true_r|by rewrite orb_false_r].
  - rewrite Z.land_spec. unfold u32, wrap. rewrite Z.mod_pow2_bits_low by lia. rewrite Z.lnot_spec, Hone by lia.
    destruct (i =? mux_index pin); [by rewrite andb_false_r|by rewrite andb_true_r].
Qed.
(** a multiplexed pin that is set is read back as it was set, by
    [system_pin_get] too, and every other pin as it was. *)
Theorem pin_set_get (pin other : Z) (value : bool) (w : pins E) :
  pin_ok pin -> pin_ok other -> is_u32 (mux_pins_value w) ->
  exists w', system_pin_set_value pin value w = Ok tt w' /\ system_pin_get pin w' = Ok value w' /\
    (mux_index other <> mux_index pin -> exists b, system_pin_get other w = Ok b w /\ system_pin_get other w' = Ok b w').
Proof.
  intros Hp Ho Hv. set (w1 := set_pins_value (mux_apply pin value (mux_pins_value w)) w).
  destruct (notify_run w1) as (e & Hrun & _). exists (set_board e w1).
  assert (Hidx : forall q, 0 <= mux_index q) by (intros q; apply Z.land_nonneg; by right).
  assert (Hget : forall q x, pin_ok q -> system_pin_get q x = Ok (Z.testbit (mux_pins_value x) (mux_index q)) x).
  { intros q x [Hm Hi]. unfold system_pin_get, mux_pin_get. rewrite Hm, (proj2 (Z.ltb_lt _ _)) by lia. cbn [andb].
    unfold bind, get, ret. f_equal. rewrite Z.shiftl_1_l. by rewrite flag_testbit. }
  destruct Hp as [Hm Hi]. split; [|split].
  - unfold system_pin_set_value, mux_pin_set. rewrite Hm, (proj2 (Z.leb_gt _ _)) by lia. exact Hrun.
  - rewrite Hget by done. f_equal. cbn. rewrite mux_bit; [by rewrite Z.eqb_refl|done|done|done|]. split; [done|]. change PIN_MUX_COUNT with 13 in Hi. lia.
  - intros Hne. exists (Z.testbit (mux_pins_value w) (mux_index other)). rewrite !Hget by done. split; [done|]. f_equal. cbn.
    rewrite mux_bit; [by rewrite (proj2 (Z.eqb_neq _ _) Hne)|done|done|done|]. split; [done|]. destruct Ho as [_ Ho]. change PIN_MUX_COUNT with 13 in Ho. lia.
Qed.
End Interleaving.

(** ** A board *)
Module PinsSim.
Record sim := { m_chain : chain; m_event : bool; m_isr : bool }.
Definition nothing {A} (a : A) : M sim A := ret a.
Definition set_event b : M sim unit := modify (fun e => {| m_chain := m_chain e; m_event := b; m_isr := m_isr e |}).
#[export] Instance sim_board : BoardIf sim := {
  gpio_init _ := nothing tt;
  gpio_set_dir _ _ := nothing tt;
  gpio_put pin v := modify (fun e => {| m_chain := chain_put pin v (m_chain e); m_event := m_event e; m_isr := m_isr e |});
  gpio_get _ := nothing false;
  busy_wait_us _ := nothing tt;
  xTaskCreate _ _ := nothing true;
  xTaskNotify _ _ := do! set_event true in ret true;
  xTaskNotifyFromISR _ _ := do! set_event true in ret (true, true);
  portYIELD_FROM_ISR _ := nothing tt;
  xTaskNotifyWait _ _ := do! set_event false in ret true;
  taskCHECK_IF_IN_ISR := let! e := get in ret (m_isr e);
}.
#[export, refine] Instance sim_spec : BoardSpec sim := { chain_of := m_chain; event := m_event }.
Proof. all: intros; repeat eexists. Defined.
Definition start (isr : bool) : pins sim :=
  {| mux_pins_value := 0; board := {| m_chain := {| c_clk := false; c_latch := false; c_data := false; c_reg := 0; c_out := 0 |}; m_event := false; m_isr := isr |} |}.
End PinsSim.
Import PinsSim.

Definition after (m : M (pins sim) unit) (w : pins sim) : pins sim := match m w with Ok _ w' => w' | _ => w end.
Lemma rst_pin_ok : pin_ok PIN_TARGET_1_RST. Proof. by vm_compute. Qed.
Lemma led_pin_ok : pin_ok PIN_TARGET_1_LED_ERR. Proof. by vm_compute. Qed.
(** An interrupt sets a pin while the thread shifts the old value out; one
    more turn of the thread shows it. *)
Definition sim_set : pins sim := set_pins_value (mux_apply PIN_TARGET_1_RST true 0) (start true).
Definition sim_shown : pins sim :=
  Eval vm_compute in after mux_task_pins_update (after mux_task_thread_body (after mux_notify sim_set)).
Lemma pin_set_get_witness : exists w, system_pin_set_value PIN_TARGET_1_RST true (start false) = Ok tt w /\ system_pin_get PIN_TARGET_1_RST w = Ok true w.
Proof.
  destruct (pin_set_get PIN_TARGET_1_RST PIN_TARGET_1_LED_ERR true (start false)) as (w & Hs & Hg & _).
  - apply rst_pin_ok.
  - apply led_pin_ok.
  - unfold in_width. cbn. lia.
  - exists w. by split.
Defined.
