(* ===== verification/Usb.v ===== *)
(** The probe as a USB device: usb_descriptors.c, what it tells the host it is;
    usb_cdc_task.c, the threads that carry bytes between TinyUSB's CDC
    interfaces and FreeRTOS stream buffers; usb_task.c; and what these threads
    carry, and in which order.  The bytes of a descriptor are written by macros
    of TinyUSB, which are parameters with the lengths TinyUSB states. *)

From Stdlib Require Import ZArith Lia String.
From stdpp Require Import base list numbers option gmap.
From S2P Require Import Prelude CLib MemManager.

Module Desc.
(** ** The device descriptor

    TinyUSB's structure; its constants are parameters. *)
Record tusb_desc_device_t := {
  bLength : Z; bDescriptorType : Z; bcdUSB : Z; bDeviceClass : Z; bDeviceSubClass : Z; bDeviceProtocol : Z;
  bMaxPacketSize0 : Z; idVendor : Z; idProduct : Z; bcdDevice : Z; iManufacturer : Z; iProduct : Z;
  iSerialNumber : Z; bNumConfigurations : Z;
}.
Definition USB_VID : Z := 0x1209.
Definition USB_PID : Z := 0x2730.
Definition USB_BCD : Z := 0x0200.
Definition CFG_TUD_ENDPOINT0_SIZE : Z := 64.
Definition desc_device (sizeof_desc TUSB_DESC_DEVICE TUSB_CLASS_MISC MISC_SUBCLASS_COMMON MISC_PROTOCOL_IAD : Z) : tusb_desc_device_t :=
  {| bLength := sizeof_desc; bDescriptorType := TUSB_DESC_DEVICE; bcdUSB := USB_BCD; bDeviceClass := TUSB_CLASS_MISC;
     bDeviceSubClass := MISC_SUBCLASS_COMMON; bDeviceProtocol := MISC_PROTOCOL_IAD; bMaxPacketSize0 := CFG_TUD_ENDPOINT0_SIZE;
     idVendor := USB_VID; idProduct := USB_PID; bcdDevice := USB_BCD; iManufacturer := 1; iProduct := 2;
     iSerialNumber := 3; bNumConfigurations := 1 |}.

(** ** String descriptors *)
Definition TUSB_DESC_STRING : Z := 3.
Definition string_desc_arr : list (list Z) :=
  [[0x09; 0x04]; str "TinyUSB"; str "TinyUSB Device"; str "123456"; str "TinyUSB CDC"].
(** The function's result is its array [_desc_str] of 32 half words, which it
    is given and returns, or NULL. *)
Definition tud_descriptor_string_cb (index : Z) (desc_str : list Z) : list Z * bool :=
  let finish d chr_count := (splice d 0 [Z.lor (Z.shiftl TUSB_DESC_STRING 8) (2 * chr_count + 2)], true) in
  if index =? 0 then finish (splice desc_str 1 [le_val (nth 0 string_desc_arr [])]) 1
  else match string_desc_arr !! Z.to_nat index with
       | None => (desc_str, false)
       | Some s =>
           let chr_count := Z.min 31 (u8 (zlen s)) in
           finish (splice desc_str 1 (ztake chr_count s)) chr_count
       end.

(** ** The configuration descriptor *)
Section Config.
Variable TUD_CONFIG_DESCRIPTOR : Z -> Z -> Z -> Z -> Z -> Z -> list Z.
Variable TUD_CDC_DESCRIPTOR : Z -> Z -> Z -> Z -> Z -> Z -> Z -> list Z.
Variable TUD_CONFIG_DESC_LEN TUD_CDC_DESC_LEN : Z.
Definition device_fs_endpoint_list : list Z :=
  [0x81; 0x02; 0x82; 0x83; 0x04; 0x84; 0x85; 0x06; 0x86; 0x87; 0x08; 0x88; 0x89; 0x0A; 0x8A; 0x8B; 0x0C; 0x8C; 0x8D; 0x0E; 0x8E].
Definition cdc_desc (i : Z) : list Z :=
  TUD_CDC_DESCRIPTOR (i * 2) 4 (zget device_fs_endpoint_list (i * 3)) 8
    (zget device_fs_endpoint_list (i * 3 + 1)) (zget device_fs_endpoint_list (i * 3 + 2)) 64.
Definition config_desc (interface_count : Z) : list Z :=
  TUD_CONFIG_DESCRIPTOR 1 (interface_count * 2) 0 (u16 (TUD_CONFIG_DESC_LEN + interface_count * TUD_CDC_DESC_LEN)) 0 500.
(** The function works on [device_fs_full_descriptor]; its accesses are inside
    it or undefined. *)
Definition put_desc (pos : Z) (d : list Z) : M (list Z) unit :=
  let! buf := get in
  if pos + zlen d <=? zlen buf then put (splice buf pos d) else crash OutOfBounds.
Definition device_make_usb_descriptor (interface_count : Z) : M (list Z) unit :=
  if 7 <? interface_count then ret tt else
  do! put_desc 0 (config_desc interface_count) in
  for_each (seqZ 0 interface_count) (fun i => put_desc (u16 (TUD_CONFIG_DESC_LEN + i * TUD_CDC_DESC_LEN)) (cdc_desc i)).
Definition tud_descriptor_configuration_cb (index : Z) : M (list Z) (list Z) := get.
End Config.

(** ** What the host reads *)
Section ConfigTheorems.
Variable TUD_CONFIG_DESCRIPTOR : Z -> Z -> Z -> Z -> Z -> Z -> list Z.
Variable TUD_CDC_DESCRIPTOR : Z -> Z -> Z -> Z -> Z -> Z -> Z -> list Z.
Definition config_len : Z := 9.
Definition cdc_len : Z := 66.
Hypothesis config_bytes : forall a b c d e f, zlen (TUD_CONFIG_DESCRIPTOR a b c d e f) = config_len.
Hypothesis cdc_bytes : forall a b c d e f g, zlen (TUD_CDC_DESCRIPTOR a b c d e f g) = cdc_len.
Notation cdc := (cdc_desc TUD_CDC_DESCRIPTOR).
Notation conf := (config_desc TUD_CONFIG_DESCRIPTOR config_len cdc_len).
(** [buf] begins with [d], behind which it is what [old] was. *)
Definition begins (d old buf : list Z) : Prop := zlen d <= zlen old /\ buf = d ++ zdrop (zlen d) old.
Lemma put_desc_begins d x old buf : begins d old buf -> zlen d + zlen x <= zlen old ->
  exists buf', put_desc (zlen d) x buf = Ok tt buf' /\ begins (d ++ x) old buf'.
Proof.
  intros [Hd ->] Hx. unfold put_desc, bind, get, put. pose proof (zlen_nonneg d). pose proof (zlen_nonneg x).
  rewrite zlen_app, zlen_zdrop by lia. rewrite (proj2 (Z.leb_le _ _)) by lia. eexists. split; [done|].
  split; [rewrite zlen_app; lia|]. unfold splice. rewrite zlen_app. rewrite <- app_assoc. f_equal.
  - unfold ztake, zlen. rewrite Nat2Z.id. apply take_app_length.
  - f_equal. unfold zdrop, zlen. rewrite drop_app, drop_drop. rewrite drop_ge by lia. cbn. f_equal. lia.
Qed.
Lemma zlen_cdcs (l : list Z) : zlen (concat (map cdc l)) = cdc_len * zlen l.
Proof.
  induction l as [|i l IH]; [done|]. cbn [map concat]. rewrite zlen_app, IH. unfold cdc_desc at 1. rewrite cdc_bytes.
  change (i :: l) with ([i] ++ l). rewrite zlen_app. change (zlen [i]) with 1. lia.
Qed.
Lemma put_cdcs (n : nat) old : forall buf, config_len + Z.of_nat n * cdc_len <= 512 -> zlen old = 512 -> forall c, zlen c = config_len -> begins c old buf ->
  exists buf', for_each (seqZ 0 (Z.of_nat n)) (fun i => put_desc (u16 (config_len + i * cdc_len)) (cdc i)) buf = Ok tt buf' /\
    begins (c ++ concat (map cdc (seqZ 0 (Z.of_nat n)))) old buf'.
Proof.
  induction n as [|n IH]; intros buf Hn Hold c Hc Hb; [exists buf; split; [done|]; by rewrite app_nil_r|].
  destruct (IH buf ltac:(unfold cdc_len in *; lia) Hold c Hc Hb) as (b1 & R1 & Hb1).
  rewrite seqZ_S, for_each_app, map_app, concat_app. rewrite (bind_Ok _ _ _ _ _ R1). cbn [for_each map concat].
  assert (Hlen : zlen (c ++ concat (map cdc (seqZ 0 (Z.of_nat n)))) = config_len + Z.of_nat n * cdc_len).
  { rewrite zlen_app, zlen_cdcs, Hc. unfold zlen. rewrite length_seqZ. unfold config_len, cdc_len. lia. }
  destruct (put_desc_begins _ (cdc (0 + Z.of_nat n)) _ _ Hb1) as (b2 & R2 & Hb2).
  { rewrite Hlen. unfold cdc_desc. rewrite cdc_bytes. unfold config_len, cdc_len in *. lia. }
  rewrite Z.add_0_l in *. unfold u16. rewrite wrap_small by (unfold config_len, cdc_len in *; lia). rewrite <- Hlen.
  exists b2. rewrite (bind_Ok _ _ _ _ _ R2). split; [done|]. by rewrite app_nil_r, app_assoc.
Qed.
(** The configuration descriptor is TinyUSB's header with the length of the
    whole in it, and behind it the descriptors of the interfaces, in order and
    without a gap; it fits the 512 bytes, whose rest stays; and no two
    interfaces share an endpoint. *)
Theorem configuration_layout (n : nat) (old : list Z) : (n <= 7)%nat -> zlen old = 512 ->
  exists buf, device_make_usb_descriptor TUD_CONFIG_DESCRIPTOR TUD_CDC_DESCRIPTOR config_len cdc_len (Z.of_nat n) old = Ok tt buf /\
    begins (TUD_CONFIG_DESCRIPTOR 1 (Z.of_nat n * 2) 0 (config_len + Z.of_nat n * cdc_len) 0 500 ++ concat (map cdc (seqZ 0 (Z.of_nat n)))) old buf /\
    zlen (TUD_CONFIG_DESCRIPTOR 1 (Z.of_nat n * 2) 0 (config_len + Z.of_nat n * cdc_len) 0 500 ++ concat (map cdc (seqZ 0 (Z.of_nat n)))) = config_len + Z.of_nat n * cdc_len /\
    NoDup device_fs_endpoint_list.
Proof.
  intros Hn Hold. unfold device_make_usb_descriptor. rewrite (proj2 (Z.ltb_ge _ _)) by lia.
  assert (Hconf : conf (Z.of_nat n) = TUD_CONFIG_DESCRIPTOR 1 (Z.of_nat n * 2) 0 (config_len + Z.of_nat n * cdc_len) 0 500).
  { unfold config_desc, u16. rewrite wrap_small; [done|]. unfold config_len, cdc_len. lia. }
  destruct (put_desc_begins [] (conf (Z.of_nat n)) old old) as (b1 & R1 & Hb1); [by split; [rewrite Hold|]|rewrite Hconf, config_bytes, Hold; done|].
  rewrite (bind_Ok _ _ _ _ _ R1).
  destruct (put_cdcs n old b1) with (c := conf (Z.of_nat n)) as (b2 & R2 & Hb2); [unfold config_len, cdc_len; lia|done|by rewrite Hconf|done|].
  exists b2. rewrite <- Hconf. split; [done|]. split; [done|]. split.
  - rewrite zlen_app, zlen_cdcs, Hconf, config_bytes. unfold zlen. rewrite length_seqZ. unfold config_len, cdc_len. lia.
  - apply (bool_decide_unpack _). by vm_compute.
Qed.
End ConfigTheorems.

(** With TinyUSB's lengths, and bytes that are all one. *)
Lemma configuration_layout_witness :
  let config := fun _ _ _ _ _ _ : Z => memset 9 1 in let cdc := fun _ _ _ _ _ _ _ : Z => memset 66 1 in
  exists buf, device_make_usb_descriptor config cdc 9 66 2 (memset 512 0) = Ok tt buf /\ ztake 141 buf = memset 141 1.
Proof.
  destruct (configuration_layout (fun _ _ _ _ _ _ => memset 9 1) (fun _ _ _ _ _ _ _ => memset 66 1) (fun _ _ _ _ _ _ => eq_refl)
    (fun _ _ _ _ _ _ _ => eq_refl) 2 (memset 512 0)) as (buf & Hrun & [_ Hbuf] & _); [lia|reflexivity|].
  exists buf. split; [exact Hrun|]. rewrite Hbuf. vm_compute. reflexivity.
Defined.

(** The descriptor of a string: in bytes how long it is and what it is, and
    its characters, each in two bytes; there is none for another index. *)
Theorem string_descriptor (index : Z) (desc : list Z) : 0 <= index < 256 -> zlen desc = 32 ->
  match (string_desc_arr !! Z.to_nat index) with
  | Some s =>
      let text := if index =? 0 then [0x0409] else s in
      exists d, tud_descriptor_string_cb index desc = (d, true) /\ zlen d = 32 /\
        ztake (1 + zlen text) d = [0x300 + 2 * zlen text + 2] ++ text /\ 2 * zlen text + 2 < 64
  | None => tud_descriptor_string_cb index desc = (desc, false)
  end.
Proof.
  intros Hi Hd. destruct (string_desc_arr !! Z.to_nat index) as [s|] eqn:Hs.
  - do 32 (destruct desc as [|? desc]; [done|]). destruct desc; [|unfold zlen in Hd; cbn [length] in Hd; lia].
    pose proof (lookup_lt_Some _ _ _ Hs) as Hlt. cbn [string_desc_arr length] in Hlt.
    assert (Hc : index = 0 \/ index = 1 \/ index = 2 \/ index = 3 \/ index = 4) by lia.
    destruct Hc as [-> |[-> |[-> |[-> | ->]]]]; injection Hs as <-; eexists; vm_compute; repeat split; reflexivity.
  - unfold tud_descriptor_string_cb. rewrite Hs. by destruct (Z.eqb_spec index 0) as [-> |].
Qed.
Lemma string_descriptor_witness : exists d, tud_descriptor_string_cb 3 (memset 32 0) = (d, true) /\ ztake 7 d = [0x30e] ++ str "123456".
Proof.
  destruct (string_descriptor 3 (memset 32 0)) as (d & Hd & _ & Ht & _); [lia|reflexivity|]. exists d. split; [exact Hd|exact Ht].
Defined.
End Desc.


(** ** The SDK

    FreeRTOS's tasks and stream buffers, the latter by handle: a send and a
    receive have a time they may wait ([portMAX_DELAY] is [-1]); TinyUSB's CDC
    functions, by interface. *)
Definition task := Z.
Definition stream := Z.
Class StreamsIf (E : Type) := {
  xStreamBufferCreate : Z -> Z -> M E stream;              (* size, trigger level *)
  xStreamBufferSpacesAvailable : stream -> M E Z;
  xStreamBufferReset : stream -> M E bool;
  xStreamBufferSend : stream -> list Z -> Z -> M E Z;      (* the number of bytes taken *)
  xStreamBufferReceive : stream -> Z -> Z -> M E (list Z);
}.
Class TasksIf (E : Type) := {
  xTaskCreate : string -> string -> Z -> Z -> Z -> M E task;   (* function, name, stack, parameter, priority *)
  vTaskCoreAffinitySet : task -> Z -> M E unit;
  xTaskNotify : option task -> Z -> M E bool;
  xTaskNotifyWait : Z -> M E (bool * Z);                   (* bits cleared; woken, the bits *)
}.
Class CdcIf (E : Type) := {
  tusb_init : M E unit;
  tud_task : M E unit;
  tud_cdc_n_connected : Z -> M E bool;
  tud_cdc_n_available : Z -> M E Z;
  tud_cdc_n_read : Z -> Z -> M E (list Z);
  tud_cdc_n_write : Z -> list Z -> M E Z;                  (* the number of bytes taken *)
  tud_cdc_n_write_flush : Z -> M E Z;
  tud_cdc_n_get_line_coding : Z -> M E (list Z);           (* the bytes of cdc_line_coding_t *)
}.

(** ** usb_cdc_task.h, tusb_config.h *)
Definition USB_CDC_DATA_EVENT_DATA_RX : Z := 0x01.
Definition USB_CDC_DATA_EVENT_CONNECTION_UPDATE : Z := 0x02.
Definition USB_CDC_DATA_EVENT_LINE_CODING_UPDATE : Z := 0x04.
Definition USB_CDC_DATA_EVENT_ALL : Z :=
  Z.lor (Z.lor USB_CDC_DATA_EVENT_DATA_RX USB_CDC_DATA_EVENT_CONNECTION_UPDATE) USB_CDC_DATA_EVENT_LINE_CODING_UPDATE.
Definition CFG_TUD_CDC : Z := 2.
Definition SYSTEM_WAIT_DONT_BLOCK : Z := 0.
Definition SYSTEM_PRIORITY_LOW : Z := 2.
(** TinyUSB's [cdc_line_coding_t]: 32 bits of rate, and three bytes. *)
Definition sizeof_line_coding : Z := 7.

(** ** The configurations *)
Record cdc_config_t := { interface : Z; rx_queue : Z; tx_queue : Z }.
Record cdc_test_config_t := { t_interface : Z; rx_stream : stream; tx_stream : stream; line_coding_stream : stream }.
Definition sizeof_cdc_config_t : Z := 12.

(** [rx_thread_list]; the configurations on the heap; everything else. *)
Record cdc_state (E : Type) := {
  rx_thread_list : list (option task);
  configs : gmap positive (cdc_config_t + cdc_test_config_t);
  usb : E;
}.
Arguments Build_cdc_state {E}. Arguments rx_thread_list {E}. Arguments configs {E}. Arguments usb {E}.

Section Cdc.
Context {E : Type} `{StreamsIf E} `{TasksIf E} `{CdcIf E} `{MemIf E}.
Variable configMINIMAL_STACK_SIZE configMAX_PRIORITIES : Z.
Notation MC := (M (cdc_state E)).
Implicit Types s : cdc_state E.
Definition in_usb {A} (m : M E A) : MC A := fun s =>
  let back e := {| rx_thread_list := rx_thread_list s; configs := configs s; usb := e |} in
  match m (usb s) with
  | Ok a e => Ok a (back e)
  | Raise ty msg e => Raise ty msg (back e)
  | Fault why e => Fault why (back e)
  | Hang => Hang
  end.
Definition set_rx_thread i t s : cdc_state E :=
  {| rx_thread_list := <[Z.to_nat i := Some t]> (rx_thread_list s); configs := configs s; usb := usb s |}.
Definition set_config p c s : cdc_state E :=
  {| rx_thread_list := rx_thread_list s; configs := <[p := c]> (configs s); usb := usb s |}.
Definition rx_thread i s : option task := mjoin (rx_thread_list s !! Z.to_nat i).

(** The structure is allocated with the size of the other one; the smallest
    pool's blocks hold its 16 bytes all the same.  A block that is not there is
    written to. *)
Definition usb_cdc_test_task_init (interface : Z) (rx_thread_name tx_thread_name : string) (rx tx line_coding : stream) : MC unit :=
  let! s := get in
  if (interface <? CFG_TUD_CDC) && bool_decide (rx_thread interface s = None) then
    let! p := in_usb (MemManager_Alloc sizeof_cdc_config_t) in
    let! h := deref p in
    do! modify (set_config h (inr {| t_interface := interface; rx_stream := rx; tx_stream := tx; line_coding_stream := line_coding |})) in
    let! rx_task := in_usb (xTaskCreate "cdc_rx_task_thread" rx_thread_name (configMINIMAL_STACK_SIZE * 2) (Zpos h) SYSTEM_PRIORITY_LOW) in
    do! in_usb (vTaskCoreAffinitySet rx_task 1) in
    do! modify (set_rx_thread interface rx_task) in
    let! tx_task := in_usb (xTaskCreate "cdc_tx_task_thread" tx_thread_name (configMINIMAL_STACK_SIZE * 2) (Zpos h) SYSTEM_PRIORITY_LOW) in
    in_usb (vTaskCoreAffinitySet tx_task 1)
  else ret tt.
Definition usb_cdc_task_init (i : Z) (rx_thread_name tx_thread_name : string) (rxq txq : Z) : MC unit :=
  let! s := get in
  if (i <? CFG_TUD_CDC) && bool_decide (rx_thread i s = None) then
    let! p := in_usb (MemManager_Alloc sizeof_cdc_config_t) in
    let! h := deref p in
    modify (set_config h (inl {| interface := i; rx_queue := rxq; tx_queue := txq |}))
  else ret tt.

(** ** TinyUSB's callbacks *)
Definition notify_rx (i event : Z) : MC unit :=
  if i <? CFG_TUD_CDC then
    let! s := get in
    do! in_usb (xTaskNotify (rx_thread i s) event) in ret tt
  else ret tt.
Definition tud_cdc_rx_cb (interface : Z) : MC unit := notify_rx interface USB_CDC_DATA_EVENT_DATA_RX.
Definition tud_cdc_line_state_cb (interface : Z) (dtr rts : bool) : MC unit := notify_rx interface USB_CDC_DATA_EVENT_CONNECTION_UPDATE.
Definition tud_cdc_line_coding_cb (interface : Z) : MC unit := notify_rx interface USB_CDC_DATA_EVENT_LINE_CODING_UPDATE.

(** ** The threads

    A turn of each thread's loop; a thread's configuration does not change
    once it runs.  The loops inside a turn go on as long as there is
    something to carry. *)
Variable config : cdc_test_config_t.
Definition rx_buf_size : Z := 512.
Definition forward_line_coding : M E unit :=
  let! line_coding := tud_cdc_n_get_line_coding (t_interface config) in
  let! space := xStreamBufferSpacesAvailable (line_coding_stream config) in
  do! when (space <? sizeof_line_coding) (do! xStreamBufferReset (line_coding_stream config) in ret tt) in
  do! xStreamBufferSend (line_coding_stream config) line_coding SYSTEM_WAIT_DONT_BLOCK in
  ret tt.
Definition rx_body (_ : unit) : M E (unit + unit) :=
  let! available := tud_cdc_n_available (t_interface config) in
  if available =? 0 then ret (inr tt) else
  let! rx_buf := tud_cdc_n_read (t_interface config) rx_buf_size in
  if zlen rx_buf =? 0 then ret (inr tt) else
  do! xStreamBufferSend (rx_stream config) rx_buf 200 in
  ret (inl tt).
Definition EOT : Z := 0x04.
Definition cdc_rx_turn (fuel : nat) (connectedFlag : bool) : M E bool :=
  let! (woken, notificationValue) := xTaskNotifyWait USB_CDC_DATA_EVENT_ALL in
  if negb woken then ret connectedFlag else
  do! when (flag notificationValue USB_CDC_DATA_EVENT_LINE_CODING_UPDATE) forward_line_coding in
  let! connected := tud_cdc_n_connected (t_interface config) in
  if negb connected && connectedFlag then
    do! xStreamBufferSend (rx_stream config) [EOT] SYSTEM_WAIT_DONT_BLOCK in ret false
  else
    let! connected := tud_cdc_n_connected (t_interface config) in
    let connectedFlag := if connected && negb connectedFlag then true else connectedFlag in
    do! iter fuel rx_body tt in
    ret connectedFlag.
(** [do .. while (received_bytes > 0)], entered with what was received. *)
Definition tx_body (cdc_buffer : list Z) : M E (list Z + unit) :=
  let! connected := tud_cdc_n_connected (t_interface config) in
  do! when connected (do! tud_cdc_n_write (t_interface config) cdc_buffer in ret tt) in
  let! received := xStreamBufferReceive (tx_stream config) 512 SYSTEM_WAIT_DONT_BLOCK in
  ret (if 0 <? zlen received then inl received else inr tt).
Definition cdc_tx_turn (fuel : nat) : M E unit :=
  let! received := xStreamBufferReceive (tx_stream config) 512 10 in
  if 0 <? zlen received then
    do! iter fuel tx_body received in
    do! tud_cdc_n_write_flush (t_interface config) in ret tt
  else ret tt.
(** [n] turns of each thread, from its start. *)
Fixpoint cdc_rx_turns (fuel n : nat) (connectedFlag : bool) : M E bool :=
  match n with
  | O => ret connectedFlag
  | S n => let! connectedFlag := cdc_rx_turn fuel connectedFlag in cdc_rx_turns fuel n connectedFlag
  end.
Definition cdc_rx_task_thread (fuel n : nat) : M E bool := cdc_rx_turns fuel n false.
Definition cdc_tx_task_thread (fuel n : nat) : M E unit := for_each (seq 0 n) (fun _ => cdc_tx_turn fuel).

(** ** usb_task.c *)
Definition usb_task_init : M E unit :=
  let! usb_task := xTaskCreate "usb_task_thread" "usb_task" configMINIMAL_STACK_SIZE 0 (configMAX_PRIORITIES - 1) in
  vTaskCoreAffinitySet usb_task 1.
Definition usb_task_thread (n : nat) : M E unit :=
  do! tusb_init in for_each (seq 0 n) (fun _ => tud_task).
End Cdc.

(** ** The ends of the threads

    [f_host]: what the host sent and is not yet read; [f_given]: what the rx
    stream has taken; [f_backlog]: what is or will be in the tx stream;
    [f_out]: what TinyUSB has taken to send to the host. *)
Record flows := { f_host : list Z; f_given : list Z; f_backlog : list Z; f_out : list Z }.
Class CdcSpec (E : Type) (c : cdc_test_config_t) `{StreamsIf E} `{TasksIf E} `{CdcIf E} := {
  flows_of : E -> flows;
  wait_ok e bits : exists r e', xTaskNotifyWait bits e = Ok r e' /\ flows_of e' = flows_of e;
  connected_ok e : exists b e', tud_cdc_n_connected (t_interface c) e = Ok b e' /\ flows_of e' = flows_of e;
  line_coding_ok e : exists l e', tud_cdc_n_get_line_coding (t_interface c) e = Ok l e' /\ flows_of e' = flows_of e;
  line_space_ok e : exists n e', xStreamBufferSpacesAvailable (line_coding_stream c) e = Ok n e' /\ flows_of e' = flows_of e;
  line_reset_ok e : exists b e', xStreamBufferReset (line_coding_stream c) e = Ok b e' /\ flows_of e' = flows_of e;
  line_send_ok e l t : exists n e', xStreamBufferSend (line_coding_stream c) l t e = Ok n e' /\ flows_of e' = flows_of e;
  available_ok e : exists n e', tud_cdc_n_available (t_interface c) e = Ok n e' /\ flows_of e' = flows_of e;
  read_ok e max : exists l e' rest, tud_cdc_n_read (t_interface c) max e = Ok l e' /\ f_host (flows_of e) = l ++ rest /\
    flows_of e' = {| f_host := rest; f_given := f_given (flows_of e); f_backlog := f_backlog (flows_of e); f_out := f_out (flows_of e) |};
  send_ok e l t : exists n e', xStreamBufferSend (rx_stream c) l t e = Ok n e' /\ 0 <= n <= zlen l /\
    flows_of e' = {| f_host := f_host (flows_of e); f_given := f_given (flows_of e) ++ ztake n l; f_backlog := f_backlog (flows_of e); f_out := f_out (flows_of e) |};
  receive_ok e max t : exists l e' rest, xStreamBufferReceive (tx_stream c) max t e = Ok l e' /\ f_backlog (flows_of e) = l ++ rest /\
    flows_of e' = {| f_host := f_host (flows_of e); f_given := f_given (flows_of e); f_backlog := rest; f_out := f_out (flows_of e) |};
  write_ok e l : exists n e', tud_cdc_n_write (t_interface c) l e = Ok n e' /\ 0 <= n <= zlen l /\
    flows_of e' = {| f_host := f_host (flows_of e); f_given := f_given (flows_of e); f_backlog := f_backlog (flows_of e); f_out := f_out (flows_of e) ++ ztake n l |};
  flush_ok e : exists n e', tud_cdc_n_write_flush (t_interface c) e = Ok n e' /\ flows_of e' = flows_of e;
}.

Section Carry.
Context {E : Type} {c : cdc_test_config_t} `{CS : CdcSpec E c}.
Implicit Types e : E.

(** ** From the host

    A piece is a read of the host's bytes of which the stream took [n], or the
    mark for a line that went down. *)
Inductive piece := Bytes (l : list Z) (n : Z) | Mark (n : Z).
Definition read_of (p : piece) : list Z := match p with Bytes l _ => l | Mark _ => [] end.
Definition given_of (p : piece) : list Z := match p with Bytes l n => ztake n l | Mark n => ztake n [EOT] end.
Definition whole (p : piece) : Prop := match p with Bytes l n => n = zlen l | Mark n => n = 1 end.
Definition stream_takes_all : Prop := forall e l t n e', xStreamBufferSend (rx_stream c) l t e = Ok n e' -> n = zlen l.
(** [ps] was carried between [e] and [e']. *)
Definition carried (ps : list piece) e e' : Prop :=
  f_host (flows_of e) = concat (map read_of ps) ++ f_host (flows_of e') /\
  f_given (flows_of e') = f_given (flows_of e) ++ concat (map given_of ps) /\
  f_backlog (flows_of e') = f_backlog (flows_of e) /\ f_out (flows_of e') = f_out (flows_of e) /\
  (stream_takes_all -> Forall whole ps).
Lemma carried_same e e' : flows_of e' = flows_of e -> carried [] e e'.
Proof. intros Hf. unfold carried. rewrite Hf. cbn. by rewrite app_nil_r. Qed.
Lemma carried_app ps qs e e1 e2 : carried ps e e1 -> carried qs e1 e2 -> carried (ps ++ qs) e e2.
Proof.
  intros (Hh & Hg & Hb & Ho & Hw) (Hh' & Hg' & Hb' & Ho' & Hw'). unfold carried. rewrite !map_app, !concat_app.
  split_and!; [by rewrite Hh, Hh', app_assoc|by rewrite Hg', Hg, app_assoc|congruence|congruence|].
  intros Ht. apply Forall_app. split; [by apply Hw|by apply Hw'].
Qed.
Lemma carried_shorter ps e e' : carried ps e e' -> (length (f_host (flows_of e')) <= length (f_host (flows_of e)))%nat.
Proof. intros (Hh & _). rewrite Hh, length_app. lia. Qed.

Lemma rx_body_ok e : exists r e', rx_body c tt e = Ok r e' /\ exists ps, carried ps e e' /\
  match r with inl _ => (length (f_host (flows_of e')) < length (f_host (flows_of e)))%nat | inr _ => True end.
Proof.
  unfold rx_body. destruct (available_ok e) as (n & e1 & R1 & F1). rewrite (bind_Ok _ _ _ _ _ R1).
  destruct (n =? 0); [exists (inr tt), e1; split; [done|]; exists []; split; [by apply carried_same|done]|].
  destruct (read_ok e1 rx_buf_size) as (l & e2 & rest & R2 & H2 & F2). rewrite (bind_Ok _ _ _ _ _ R2).
  destruct (Z.eqb_spec (zlen l) 0) as [Hz|Hz].
  - exists (inr tt), e2. split; [done|]. exists []. split; [|done]. apply carried_same. rewrite F2.
    assert (l = []) as -> by (apply length_zero_iff_nil; unfold zlen in Hz; lia). rewrite <- F1. cbn in H2. rewrite <- H2. by destruct (flows_of e1).
  - destruct (send_ok e2 l 200) as (m & e3 & R3 & Hm & F3). exists (inl tt), e3. rewrite (bind_Ok _ _ _ _ _ R3). split; [done|].
    exists [Bytes l m]. unfold carried. rewrite F3, F2, <- F1. cbn. rewrite !app_nil_r. split.
    + split_and!; try done. intros Ht. apply Forall_singleton. exact (Ht _ _ _ _ _ R3).
    + rewrite H2, length_app. unfold zlen in Hz. lia.
Qed.
Lemma rx_pump_ok fuel e : (length (f_host (flows_of e)) < fuel)%nat -> exists e' ps, iter fuel (rx_body c) tt e = Ok tt e' /\ carried ps e e'.
Proof.
  intros Hf. destruct (iter_total (rx_body c) (fun _ w => exists ps, carried ps e w) (fun _ w => exists ps, carried ps e w)
    (fun _ w => length (f_host (flows_of w)))) with (n := fuel) (s := tt) (w := e) as ([] & e' & Hrun & ps & Hps); [| |done|by exists e', ps].
  - intros [] w [ps Hps]. destruct (rx_body_ok w) as (r & w' & Hrun & qs & Hqs & Hr). exists r, w'. split; [done|].
    assert (Hc : exists ps, carried ps e w') by (exists (ps ++ qs); by eapply carried_app). by destruct r.
  - exists []. by apply carried_same.
Qed.
Lemma forward_ok e : exists e', forward_line_coding c e = Ok tt e' /\ flows_of e' = flows_of e.
Proof.
  unfold forward_line_coding. destruct (line_coding_ok e) as (l & e1 & R1 & F1). rewrite (bind_Ok _ _ _ _ _ R1).
  destruct (line_space_ok e1) as (n & e2 & R2 & F2). rewrite (bind_Ok _ _ _ _ _ R2).
  destruct (line_reset_ok e2) as (b & e3 & R3 & F3). destruct (n <? sizeof_line_coding); cbn [when]; [rewrite bind_bind, (bind_Ok _ _ _ _ _ R3), bind_ret|rewrite bind_ret].
  - destruct (line_send_ok e3 l SYSTEM_WAIT_DONT_BLOCK) as (m & e4 & R4 & F4). rewrite (bind_Ok _ _ _ _ _ R4). exists e4. split; [done|congruence].
  - destruct (line_send_ok e2 l SYSTEM_WAIT_DONT_BLOCK) as (m & e4 & R4 & F4). rewrite (bind_Ok _ _ _ _ _ R4). exists e4. split; [done|congruence].
Qed.
Lemma rx_turn_ok fuel b e : (length (f_host (flows_of e)) < fuel)%nat -> exists b' e' ps, cdc_rx_turn c fuel b e = Ok b' e' /\ carried ps e e'.
Proof.
  intros Hf. unfold cdc_rx_turn. destruct (wait_ok e USB_CDC_DATA_EVENT_ALL) as ([woken nv] & e1 & R1 & F1). rewrite (bind_Ok _ _ _ _ _ R1).
  destruct woken; cbn [negb]; [|exists b, e1, []; split; [done|by apply carried_same]].
  assert (Hl : exists e2, when (flag nv USB_CDC_DATA_EVENT_LINE_CODING_UPDATE) (forward_line_coding c) e1 = Ok tt e2 /\ flows_of e2 = flows_of e).
  { rewrite <- F1. destruct (flag nv _); cbn [when]; [apply forward_ok|by exists e1]. }
  destruct Hl as (e2 & R2 & F2). rewrite (bind_Ok _ _ _ _ _ R2).
  destruct (connected_ok e2) as (up & e3 & R3 & F3). rewrite (bind_Ok _ _ _ _ _ R3). rewrite <- F2, <- F3 in Hf. destruct (negb up && b).
  - destruct (send_ok e3 [EOT] SYSTEM_WAIT_DONT_BLOCK) as (m & e4 & R4 & Hm & F4). rewrite (bind_Ok _ _ _ _ _ R4). exists false, e4, [Mark m]. split; [done|].
    unfold carried. rewrite F4, F3, F2. cbn. rewrite app_nil_r. split_and!; try done. intros Ht. apply Forall_singleton. exact (Ht _ _ _ _ _ R4).
  - destruct (connected_ok e3) as (up' & e4 & R4 & F4). rewrite (bind_Ok _ _ _ _ _ R4). rewrite <- F4 in Hf.
    destruct (rx_pump_ok fuel e4 Hf) as (e5 & ps & R5 & Hps). rewrite (bind_Ok _ _ _ _ _ R5).
    exists (if up' && negb b then true else b), e5, ps. split; [done|]. apply (carried_app []  ps e e4); [|done]. apply carried_same. congruence.
Qed.
Lemma rx_turns_ok fuel n : forall b e, (length (f_host (flows_of e)) < fuel)%nat -> exists b' e' ps, cdc_rx_turns c fuel n b e = Ok b' e' /\ carried ps e e'.
Proof.
  induction n as [|n IH]; intros b e Hf; [exists b, e, []; split; [done|by apply carried_same]|].
  destruct (rx_turn_ok fuel b e Hf) as (b1 & e1 & ps & R1 & Hps). cbn [cdc_rx_turns]. rewrite (bind_Ok _ _ _ _ _ R1).
  destruct (IH b1 e1) as (b2 & e2 & qs & R2 & Hqs); [pose proof (carried_shorter _ _ _ Hps); lia|].
  exists b2, e2, (ps ++ qs). split; [done|by eapply carried_app].
Qed.
End Carry.

(** ** To the host *)
Section Out.
Context {E : Type} {c : cdc_test_config_t} `{CS : CdcSpec E c}.
Implicit Types e : E.
Definition stays_connected : Prop := forall e b e', tud_cdc_n_connected (t_interface c) e = Ok b e' -> b = true.
Definition usb_takes_all : Prop := forall e l n e', tud_cdc_n_write (t_interface c) l e = Ok n e' -> n = zlen l.
(** [l] was taken from the stream with [held] in the thread's buffer before and
    [buf] after, and [k] of it given to TinyUSB. *)
Definition sent (l k : list Z) e e' : Prop :=
  f_backlog (flows_of e) = l ++ f_backlog (flows_of e') /\ f_out (flows_of e') = f_out (flows_of e) ++ k /\
  f_host (flows_of e') = f_host (flows_of e) /\ f_given (flows_of e') = f_given (flows_of e).
Definition in_order (l k : list Z) : Prop := k `sublist_of` l /\ (stays_connected -> usb_takes_all -> k = l).
Lemma in_order_app l k l' k' : in_order l k -> in_order l' k' -> in_order (l ++ l') (k ++ k').
Proof. intros [Hs Hl] [Hs' Hl']. split; [by apply sublist_app|]. intros Hc Hu. by rewrite Hl, Hl'. Qed.
Lemma sent_same e e' : flows_of e' = flows_of e -> sent [] [] e e'.
Proof. intros Hf. unfold sent. rewrite Hf, app_nil_r. done. Qed.
Lemma sent_app l k l' k' e e1 e2 : sent l k e e1 -> sent l' k' e1 e2 -> sent (l ++ l') (k ++ k') e e2.
Proof.
  intros (Hb & Ho & Hh & Hg) (Hb' & Ho' & Hh' & Hg'). unfold sent. split_and!; [by rewrite Hb, Hb', app_assoc|by rewrite Ho', Ho, app_assoc|congruence..].
Qed.
Lemma sent_shorter l k e e' : sent l k e e' -> (length (f_backlog (flows_of e)) = length l + length (f_backlog (flows_of e')))%nat.
Proof. intros (Hb & _). by rewrite Hb, length_app. Qed.
Lemma ztake_sublist n (l : list Z) : ztake n l `sublist_of` l.
Proof. unfold ztake. rewrite <- (take_drop (Z.to_nat n) l) at 2. by apply sublist_inserts_r. Qed.
(** The buffer goes to TinyUSB, and the next bytes come into it. *)
Lemma tx_body_ok buf e : exists r e' k l, tx_body c buf e = Ok r e' /\ in_order buf k /\ sent l k e e' /\
  match r with inl buf' => l = buf' /\ buf' <> [] | inr _ => l = [] end.
Proof.
  unfold tx_body. destruct (connected_ok e) as (up & e1 & R1 & F1). rewrite (bind_Ok _ _ _ _ _ R1).
  assert (Hw : exists e2 k, when up (do! tud_cdc_n_write (t_interface c) buf in ret tt) e1 = Ok tt e2 /\ in_order buf k /\ sent [] k e e2).
  { destruct up; cbn [when].
    - destruct (write_ok e1 buf) as (n & e2 & R2 & Hn & F2). exists e2, (ztake n buf). rewrite (bind_Ok _ _ _ _ _ R2). split; [done|]. split.
      + split; [apply ztake_sublist|]. intros _ Hu. rewrite (Hu _ _ _ _ R2). unfold ztake, zlen. rewrite Nat2Z.id. apply firstn_all.
      + unfold sent. rewrite F2, F1. done.
    - exists e1, []. split; [done|]. split; [split; [apply sublist_nil_l|]|by apply sent_same]. intros Hc _. by specialize (Hc _ _ _ R1). }
  destruct Hw as (e2 & k & R2 & Hk & Hs). rewrite (bind_Ok _ _ _ _ _ R2).
  destruct (receive_ok e2 512 SYSTEM_WAIT_DONT_BLOCK) as (l & e3 & rest & R3 & Hb & F3). rewrite (bind_Ok _ _ _ _ _ R3).
  exists (if 0 <? zlen l then inl l else inr tt), e3, k, l. split; [done|]. split; [done|]. split.
  - assert (Hs3 : sent l [] e2 e3) by (unfold sent; rewrite F3; cbn; by rewrite app_nil_r).
    pose proof (sent_app _ _ _ _ _ _ _ Hs Hs3) as Hr. by rewrite app_nil_r in Hr.
  - destruct (Z.ltb_spec 0 (zlen l)) as [Hz|Hz]; [split; [done|]; by intros ->|]. unfold zlen in Hz. destruct l; [done|cbn in Hz; lia].
Qed.
Lemma tx_loop_ok fuel : forall buf e, (length (f_backlog (flows_of e)) < fuel)%nat -> exists e' l k,
  iter fuel (tx_body c) buf e = Ok tt e' /\ in_order (buf ++ l) k /\ sent l k e e'.
Proof.
  induction fuel as [|fuel IH]; intros buf e Hf; [lia|]. rewrite iter_S.
  destruct (tx_body_ok buf e) as (r & e1 & k & l & R1 & Hk & Hs & Hr). rewrite (bind_Ok _ _ _ _ _ R1). destruct r as [buf'|[]].
  - destruct Hr as [-> Hne]. destruct (IH buf' e1) as (e2 & l2 & k2 & R2 & Hk2 & Hs2).
    { pose proof (sent_shorter _ _ _ _ Hs). destruct buf'; [done|cbn in *; lia]. }
    exists e2, (buf' ++ l2), (k ++ k2). split; [done|]. split; [by apply in_order_app|by eapply sent_app].
  - subst l. exists e1, [], k. rewrite app_nil_r. done.
Qed.
Lemma tx_turn_ok fuel e : (length (f_backlog (flows_of e)) < fuel)%nat -> exists e' l k,
  cdc_tx_turn c fuel e = Ok tt e' /\ in_order l k /\ sent l k e e'.
Proof.
  intros Hf. unfold cdc_tx_turn. destruct (receive_ok e 512 10) as (l & e1 & rest & R1 & Hb & F1). rewrite (bind_Ok _ _ _ _ _ R1).
  assert (Hs1 : sent l [] e e1) by (unfold sent; rewrite F1; cbn; by rewrite app_nil_r).
  destruct (Z.ltb_spec 0 (zlen l)) as [Hz|Hz].
  - destruct (tx_loop_ok fuel l e1) as (e2 & l2 & k & R2 & Hk & Hs2); [pose proof (sent_shorter _ _ _ _ Hs1); lia|]. rewrite (bind_Ok _ _ _ _ _ R2).
    destruct (flush_ok e2) as (m & e3 & R3 & F3). rewrite (bind_Ok _ _ _ _ _ R3). exists e3, (l ++ l2), k. split; [done|]. split; [done|].
    pose proof (sent_app _ _ _ _ _ _ _ (sent_app _ _ _ _ _ _ _ Hs1 Hs2) (sent_same _ _ F3)) as Hr. by rewrite !app_nil_r in Hr.
  - assert (l = []) as -> by (unfold zlen in Hz; destruct l; [done|cbn in Hz; lia]). exists e1, [], []. split; [done|]. split; [by split|done].
Qed.
Lemma tx_thread_ok fuel (ns : list nat) : forall e, (length (f_backlog (flows_of e)) < fuel)%nat -> exists e' l k,
  for_each ns (fun _ => cdc_tx_turn c fuel) e = Ok tt e' /\ in_order l k /\ sent l k e e'.
Proof.
  induction ns as [|x ns IH]; intros e Hf; [exists e, [], []; split; [done|split; [by split|by apply sent_same]]|]. cbn [for_each].
  destruct (tx_turn_ok fuel e Hf) as (e1 & l & k & R1 & Hk & Hs). rewrite (bind_Ok _ _ _ _ _ R1).
  destruct (IH e1) as (e2 & l2 & k2 & R2 & Hk2 & Hs2); [pose proof (sent_shorter _ _ _ _ Hs); lia|].
  exists e2, (l ++ l2), (k ++ k2). split; [done|]. split; [by apply in_order_app|by eapply sent_app].
Qed.

End Out.

(** ** A port *)
Module CdcSim.
(** [m_room]: how much TinyUSB takes of a write. *)
Record sim := { m_flows : flows; m_event : Z; m_up : bool; m_room : Z }.
Definition set_flows f e : sim := {| m_flows := f; m_event := m_event e; m_up := m_up e; m_room := m_room e |}.
Definition port : cdc_test_config_t := {| t_interface := 0; rx_stream := 1; tx_stream := 2; line_coding_stream := 3 |}.
#[export] Instance sim_streams : StreamsIf sim := {
  xStreamBufferCreate _ _ := ret 1;
  xStreamBufferSpacesAvailable _ := ret 14;
  xStreamBufferReset _ := ret true;
  xStreamBufferSend h l t :=
    do! when (h =? 1) (modify (fun e => set_flows {| f_host := f_host (m_flows e); f_given := f_given (m_flows e) ++ l; f_backlog := f_backlog (m_flows e); f_out := f_out (m_flows e) |} e)) in
    ret (zlen l);
  xStreamBufferReceive h max t :=
    let! e := get in
    do! put (set_flows {| f_host := f_host (m_flows e); f_given := f_given (m_flows e); f_backlog := zdrop max (f_backlog (m_flows e)); f_out := f_out (m_flows e) |} e) in
    ret (ztake max (f_backlog (m_flows e)));
}.
#[export] Instance sim_tasks : TasksIf sim := {
  xTaskCreate _ _ _ _ _ := ret 1; vTaskCoreAffinitySet _ _ := ret tt; xTaskNotify _ _ := ret true;
  xTaskNotifyWait _ := let! e := get in ret (true, m_event e) }.
#[export] Instance sim_cdc : CdcIf sim := {
  tusb_init := ret tt; tud_task := ret tt;
  tud_cdc_n_connected _ := let! e := get in ret (m_up e);
  tud_cdc_n_available _ := let! e := get in ret (zlen (f_host (m_flows e)));
  tud_cdc_n_read _ max :=
    let! e := get in
    do! put (set_flows {| f_host := zdrop max (f_host (m_flows e)); f_given := f_given (m_flows e); f_backlog := f_backlog (m_flows e); f_out := f_out (m_flows e) |} e) in
    ret (ztake max (f_host (m_flows e)));
  tud_cdc_n_write _ l :=
    let! e := get in
    let n := Z.max 0 (Z.min (zlen l) (m_room e)) in
    do! put (set_flows {| f_host := f_host (m_flows e); f_given := f_given (m_flows e); f_backlog := f_backlog (m_flows e); f_out := f_out (m_flows e) ++ ztake n l |} e) in
    ret n;
  tud_cdc_n_write_flush _ := ret 0;
  tud_cdc_n_get_line_coding _ := ret [0; 194; 1; 0; 0; 0; 8];
}.
Lemma take_drop_z n (l : list Z) : l = ztake n l ++ zdrop n l.
Proof. symmetry. apply take_drop. Qed.
#[export, refine] Instance sim_spec : CdcSpec sim port := { flows_of := m_flows }.
Proof.
  - intros e bits. by eexists _, e.
  - intros e. by eexists _, e.
  - intros e. by eexists _, e.
  - intros e. by eexists _, e.
  - intros e. by eexists _, e.
  - intros e l t. by eexists _, e.
  - intros e. by eexists _, e.
  - intros e max. eexists _, _, (zdrop max (f_host (m_flows e))). split; [done|]. split; [apply take_drop_z|done].
  - intros e l t. exists (zlen l). eexists. split; [done|]. split; [pose proof (zlen_nonneg l); lia|]. cbn. unfold ztake, zlen. by rewrite Nat2Z.id, firstn_all.
  - intros e max t. eexists _, _, (zdrop max (f_backlog (m_flows e))). split; [done|]. split; [apply take_drop_z|done].
  - intros e l. eexists _, _. split; [unfold xStreamBufferReceive, tud_cdc_n_write, sim_streams, sim_cdc, bind, get, put, ret; cbn beta; reflexivity|]. split; [pose proof (zlen_nonneg l); lia|done].
  - intros e. by eexists _, e.
Defined.
Definition busy (room : Z) : sim :=
  {| m_flows := {| f_host := str "hello"; f_given := []; f_backlog := str "world"; f_out := [] |}; m_event := 7; m_up := true; m_room := room |}.
End CdcSim.
Import CdcSim.
(** What TinyUSB has no room for is lost, since the thread does not look at
    what [tud_cdc_n_write] took. *)
Example tx_drops : exists e', cdc_tx_task_thread port 9 2 (busy 3) = Ok tt e' /\ f_out (flows_of e') = str "wor" /\ f_backlog (flows_of e') = [].
Proof. eexists. split; [vm_compute; reflexivity|done]. Qed.
