(* ===== verification/UsbUart.v ===== *)
(** usb_uart_task.c: the bridge between a UART and the second USB serial port.
    Two DMA channels fill two buffers in turn, an interrupt hands a full buffer
    to a stream, a timer what is in one when nothing comes any more.  Behind the
    code: the UART and the DMA channels as a machine, and what holds of any
    sequence of bytes, transfers, interrupts and timer.  Trace macros are left
    out. *)

From Stdlib Require Import ZArith Lia String.
From stdpp Require Import base list numbers option gmap relations.
From S2P Require Import Prelude CLib MemManager Usb.

(** ** The SDK

    What a DMA channel is configured with (the settings the code makes; a
    channel chained to itself is not chained), where it transfers from and to,
    the fields of the registers the code writes, and the calls. *)
Record dma_channel_config := {
  c_data_size : Z; c_read_increment : bool; c_write_increment : bool; c_chain_to : Z; c_dreq : Z }.
Inductive address := RxBuffer (channel i : Z) | TxBuffer (channel : Z) | UartData (uart : Z).
Inductive hw_field :=
| CTRL_TRIG_EN (dma_channel : Z)
| UARTDMACR_RXDMAE (uart : Z) | UARTDMACR_TXDMAE (uart : Z)
| UARTIFLS_RXIFLSEL (uart : Z) | UARTIFLS_TXIFLSEL (uart : Z).
Inductive sdk_call :=
| system_pin_set (pin : Z)
| system_pin_clear (pin : Z)
| uart_set_irq_enables (uart : Z) (rx_has_data tx_needs_data : bool)
| uart_is_enabled (uart : Z)
| uart_deinit (uart : Z)
| uart_init (uart baudrate : Z)
| uart_set_hw_flow (uart : Z) (cts rts : bool)
| uart_set_format (uart data_bits stop_bits parity : Z)
| irq_set_exclusive_handler (irq : Z) (handler : string)
| irq_set_enabled (irq : Z) (enabled : bool)
| dma_claim_unused_channel
| dma_channel_configure (dma_channel : Z) (config : dma_channel_config) (write read : address) (transfer_count : Z) (trigger : bool)
| dma_channel_acknowledge_irq0 (dma_channel : Z)
| dma_channel_set_irq0_enabled (dma_channel : Z) (enabled : bool)
| dma_channel_get_irq0_status (dma_channel : Z)
| dma_channel_abort (dma_channel : Z)
| dma_transfer_count (dma_channel : Z)                     (* dma_channel_hw_addr(..)->transfer_count *)
| hw_write_masked (fields : list hw_field) (value : Z)     (* all fields of one register to [value] *)
| memset_timer (channel : Z)
| memset_buffer (buffer : address)                         (* to zero *)
| add_repeating_timer_ms (period : Z) (callback : string) (channel : Z)
| xStreamBufferSendFromISR (s : stream) (buffer : address) (length : Z)
| xStreamBufferReceive_to (s : stream) (buffer : address) (length ticks : Z)
| xTaskNotifyFromISR (t : task) (bits : Z)
| portYIELD_FROM_ISR                                       (* with the flag of the call before *)
| xTaskNotifyWait_uart (clear : Z).
Class SdkIf (E : Type) := { sdk_run : sdk_call -> M E Z }.

(** ** The state *)
Definition PLATFORM_USB_UART_INTERFACE_NUM : Z := 2.
Definition UART_RX_BUF_SIZE : Z := 1024.
Definition UART_RX_BUF_SIZE_IN_BYTES : Z := UART_RX_BUF_SIZE * 1.
Definition UART_TX_BUF_SIZE_IN_BYTES : Z := UART_RX_BUF_SIZE * 1.
Definition USB_UART_TASK_TX_COMPLETE : Z := 1.
Definition PIN_TARGET_1_LED_SER : Z := 0x80000001.
Definition PIN_TARGET_2_LED_SER : Z := 0x80000004.

(** The buffers and the timer are the hardware's to change: they are behind
    [SdkIf]. *)
Record usb_uart_config_t := {
  dma_rx_channel : list Z;
  dma_rx_paired_channel : list Z;
  dma_tx_channel : Z;
  dma_rx_config : list dma_channel_config;
  dma_tx_config : option dma_channel_config;
  dma_irq : Z;
  uart : Z;
  uart_irq : Z;
  rx_callback : string;
  rx_timeout_callback : string;
  dma_occured : bool;
  tx_stream : option stream;
  rx_stream : option stream;
  line_coding_stream : option stream;
  tx_thread : task;
  serial_led : Z;
}.
Record uart_state (E : Type) := { usb_uart_config_list : list usb_uart_config_t; cdc : cdc_state E }.
Arguments Build_uart_state {E}. Arguments usb_uart_config_list {E}. Arguments cdc {E}.

Definition set_occured (b : bool) (c : usb_uart_config_t) : usb_uart_config_t :=
  {| dma_rx_channel := dma_rx_channel c; dma_rx_paired_channel := dma_rx_paired_channel c; dma_tx_channel := dma_tx_channel c;
     dma_rx_config := dma_rx_config c; dma_tx_config := dma_tx_config c; dma_irq := dma_irq c; uart := uart c; uart_irq := uart_irq c;
     rx_callback := rx_callback c; rx_timeout_callback := rx_timeout_callback c; dma_occured := b; tx_stream := tx_stream c;
     rx_stream := rx_stream c; line_coding_stream := line_coding_stream c; tx_thread := tx_thread c; serial_led := serial_led c |}.

Section Uart.
Context {E : Type} `{SdkIf E} `{StreamsIf E} `{TasksIf E} `{MemIf E}.
Notation MU := (M (uart_state E)).
Implicit Types s : uart_state E.
Definition in_cdc {A} (m : M (cdc_state E) A) : MU A := fun s =>
  let back c := {| usb_uart_config_list := usb_uart_config_list s; cdc := c |} in
  match m (cdc s) with
  | Ok a c => Ok a (back c)
  | Raise ty msg c => Raise ty msg (back c)
  | Fault why c => Fault why (back c)
  | Hang => Hang
  end.
Definition sdk (c : sdk_call) : MU Z := in_cdc (in_usb (sdk_run c)).
Definition sdk_do (c : sdk_call) : MU unit := do! sdk c in ret tt.
Definition load_config (channel : Z) : MU usb_uart_config_t :=
  let! s := get in
  match usb_uart_config_list s !! Z.to_nat channel with Some c => ret c | None => crash OutOfBounds end.
Definition store_config (channel : Z) (c : usb_uart_config_t) : MU unit :=
  modify (fun s => {| usb_uart_config_list := <[Z.to_nat channel := c]> (usb_uart_config_list s); cdc := cdc s |}).
Definition set_dma_occured (channel : Z) (b : bool) : MU unit :=
  let! c := load_config channel in store_config channel (set_occured b c).
(** A channel's number and its configuration, by index. *)
Definition rx_channel (c : usb_uart_config_t) (i : Z) : Z := zget (dma_rx_channel c) i.
Definition rx_config (c : usb_uart_config_t) (i : Z) : MU dma_channel_config :=
  match dma_rx_config c !! Z.to_nat i with Some g => ret g | None => crash OutOfBounds end.

(** ** Receiving *)
Definition configure_rx (channel : Z) (c : usb_uart_config_t) (i : Z) : MU unit :=
  let! g := rx_config c i in
  sdk_do (dma_channel_configure (rx_channel c i) g (RxBuffer channel i) (UartData (uart c)) UART_RX_BUF_SIZE (i =? 0)).
Definition usb_uart_rx_callback (channel : Z) : MU unit :=
  if PLATFORM_USB_UART_INTERFACE_NUM <=? channel then ret tt else
  let! c := load_config channel in
  do! sdk_do (system_pin_set (serial_led c)) in
  do! sdk_do (uart_set_irq_enables (uart c) false false) in
  do! for_each [0; 1] (fun i =>
    do! configure_rx channel c i in
    do! sdk_do (dma_channel_acknowledge_irq0 (rx_channel c i)) in
    sdk_do (dma_channel_set_irq0_enabled (rx_channel c i) true)) in
  do! sdk_do (hw_write_masked [UARTDMACR_RXDMAE (uart c)] 1) in
  do! sdk_do (memset_timer channel) in
  sdk_do (add_repeating_timer_ms 50 (rx_timeout_callback c) channel).

(** The handler's counters of bytes are never read.  [hand_over] sends a full
    buffer to the stream. *)
Definition hand_over (j : Z) (c : usb_uart_config_t) (i : Z) : MU unit :=
  let! st := deref (rx_stream c) in
  do! sdk (xStreamBufferSendFromISR st (RxBuffer j i) UART_RX_BUF_SIZE_IN_BYTES) in
  sdk_do portYIELD_FROM_ISR.
Definition dma_handler_body (j : Z) : MU unit :=
  let! config := load_config j in
  if (rx_channel config 0 =? -1) || (rx_channel config 1 =? -1) then ret tt else
  let! st := sdk (dma_channel_get_irq0_status (rx_channel config 0)) in
  if negb (st =? 0) then
    let dma_channel := rx_channel config 0 in
    do! set_dma_occured j true in
    do! sdk_do (dma_channel_acknowledge_irq0 dma_channel) in
    hand_over j config 0
  else
  let! st := sdk (dma_channel_get_irq0_status (zget (dma_rx_paired_channel config) 0)) in
  if negb (st =? 0) then
    let dma_channel := zget (dma_rx_paired_channel config) 0 in
    do! set_dma_occured j true in
    do! sdk_do (dma_channel_acknowledge_irq0 dma_channel) in
    do! for_each [0; 1] (configure_rx j config) in
    hand_over j config 1
  else
  let! st := sdk (dma_channel_get_irq0_status (dma_tx_channel config)) in
  if negb (st =? 0) then
    do! sdk_do (dma_channel_acknowledge_irq0 (dma_tx_channel config)) in
    do! sdk_do (dma_channel_set_irq0_enabled (dma_tx_channel config) false) in
    do! sdk_do (hw_write_masked [UARTDMACR_TXDMAE (uart config)] 0) in
    do! sdk_do (xTaskNotifyFromISR (tx_thread config) USB_UART_TASK_TX_COMPLETE) in
    sdk_do portYIELD_FROM_ISR
  else ret tt.
Definition usb_uart_dma_handler : MU unit :=
  for_each (seqZ 0 PLATFORM_USB_UART_INTERFACE_NUM) dma_handler_body.

(** The SDK's numbers of the UARTs. *)
Definition uart0 : Z := 0.
Definition uart1 : Z := 1.
Definition flush_rx (channel : Z) (config : usb_uart_config_t) (i : Z) : MU unit :=
  let dma_channel := rx_channel config i in
  let dma_paired_channel := zget (dma_rx_paired_channel config) i in
  let! transfer_count := sdk (dma_transfer_count dma_channel) in
  let count_to_write := u32 (UART_RX_BUF_SIZE - transfer_count) in
  let byte_to_write := count_to_write in
  do! when ((0 <? count_to_write) && (count_to_write <? UART_RX_BUF_SIZE))
    (do! sdk (dma_transfer_count dma_paired_channel) in
     let! st := deref (rx_stream config) in
     sdk_do (xStreamBufferSendFromISR st (RxBuffer channel i) byte_to_write)) in
  do! sdk_do (dma_channel_acknowledge_irq0 dma_channel) in
  do! sdk_do (dma_channel_set_irq0_enabled dma_channel false) in
  do! sdk_do (dma_channel_abort dma_channel) in
  sdk_do (uart_set_irq_enables uart1 true false).
Definition usb_uart_timeout_callback (channel : Z) : MU bool :=
  if PLATFORM_USB_UART_INTERFACE_NUM <=? channel then ret false else
  let! config := load_config channel in
  if dma_occured config then
    do! set_dma_occured channel false in ret true
  else
    do! sdk_do (hw_write_masked [CTRL_TRIG_EN (rx_channel config 0)] 0) in
    do! sdk_do (hw_write_masked [CTRL_TRIG_EN (rx_channel config 1)] 0) in
    do! sdk_do (hw_write_masked [UARTDMACR_RXDMAE (uart config)] 0) in
    do! for_each [0; 1] (flush_rx channel config) in
    ret false.
Definition usb_uart_1_rx_interrupt : MU unit := usb_uart_rx_callback 0.
Definition usb_uart_1_timeout_interrupt : MU bool := usb_uart_timeout_callback 0.

(** ** Setting up *)
Definition zero_config : usb_uart_config_t :=
  {| dma_rx_channel := [0; 0]; dma_rx_paired_channel := [0; 0]; dma_tx_channel := 0; dma_rx_config := []; dma_tx_config := None; dma_irq := 0;
     uart := 0; uart_irq := 0; rx_callback := ""; rx_timeout_callback := ""; dma_occured := false; tx_stream := None; rx_stream := None;
     line_coding_stream := None; tx_thread := 0; serial_led := 0 |}.
Definition no_channels (c : usb_uart_config_t) : usb_uart_config_t :=
  {| dma_rx_channel := [-1; -1]; dma_rx_paired_channel := dma_rx_paired_channel c; dma_tx_channel := -1; dma_rx_config := dma_rx_config c;
     dma_tx_config := dma_tx_config c; dma_irq := dma_irq c; uart := uart c; uart_irq := uart_irq c; rx_callback := rx_callback c;
     rx_timeout_callback := rx_timeout_callback c; dma_occured := dma_occured c; tx_stream := None; rx_stream := None;
     line_coding_stream := None; tx_thread := tx_thread c; serial_led := serial_led c |}.
Definition usb_uart_init : MU unit :=
  for_each (seqZ 0 PLATFORM_USB_UART_INTERFACE_NUM) (fun i =>
    let! c := load_config i in
    do! store_config i (no_channels c) in
    do! sdk_do (memset_buffer (RxBuffer i 0)) in
    do! sdk_do (memset_buffer (RxBuffer i 1)) in
    sdk_do (memset_buffer (TxBuffer i))).

(** Numbers of the RP2040's SDK, and the stack size of FreeRTOSConfig.h. *)
Variable DMA_IRQ_0 UART0_IRQ UART1_IRQ DREQ_UART0_RX DREQ_UART1_RX DREQ_UART0_TX DREQ_UART1_TX configMINIMAL_STACK_SIZE : Z.
Definition usb_uart_interfaces_list : list Z := [uart1; uart0].
Definition usb_uart_dma_irq_list : list Z := [DMA_IRQ_0; DMA_IRQ_0].
Definition usb_uart_uart_irq_list : list Z := [UART1_IRQ; UART0_IRQ].
Definition usb_uart_uart_dreq_rx_list : list Z := [DREQ_UART1_RX; DREQ_UART0_RX].
Definition usb_uart_uart_dreq_tx_list : list Z := [DREQ_UART1_TX; DREQ_UART0_TX].
Definition usb_uart_led_list : list Z := [PIN_TARGET_1_LED_SER; PIN_TARGET_2_LED_SER].
Definition DMA_SIZE_8 : Z := 0.
(** The first is chained to the second, the second to itself: to nothing. *)
Definition rx_dma_config (channel rx0 rx1 i : Z) : dma_channel_config :=
  {| c_data_size := DMA_SIZE_8; c_read_increment := false; c_write_increment := true;
     c_chain_to := rx1; c_dreq := zget usb_uart_uart_dreq_rx_list channel |}.
Definition tx_dma_config (channel tx : Z) : dma_channel_config :=
  {| c_data_size := DMA_SIZE_8; c_read_increment := true; c_write_increment := false;
     c_chain_to := tx; c_dreq := zget usb_uart_uart_dreq_tx_list channel |}.
Definition usb_uart_config (channel : Z) (rxc : list dma_channel_config) (thread : task) (rx0 rx1 tx : Z) (txs rxs lcs : stream) : usb_uart_config_t :=
  {| dma_rx_channel := [rx0; rx1]; dma_rx_paired_channel := [rx1; rx0]; dma_tx_channel := tx; dma_rx_config := rxc;
     dma_tx_config := Some (tx_dma_config channel tx); dma_irq := zget usb_uart_dma_irq_list channel; uart := zget usb_uart_interfaces_list channel;
     uart_irq := zget usb_uart_uart_irq_list channel; rx_callback := "usb_uart_1_rx_interrupt"; rx_timeout_callback := "usb_uart_1_timeout_interrupt";
     dma_occured := false; tx_stream := Some txs; rx_stream := Some rxs; line_coding_stream := Some lcs; tx_thread := thread;
     serial_led := zget usb_uart_led_list channel |}.
Definition in_usb_state {A} (m : M E A) : MU A := in_cdc (in_usb m).
Definition usb_uart_add_interface (channel : Z) : MU unit :=
  if PLATFORM_USB_UART_INTERFACE_NUM <=? channel then ret tt else
  let! c := load_config channel in
  if negb (rx_channel c 0 =? -1) || negb (rx_channel c 1 =? -1) || negb (dma_tx_channel c =? -1) then ret tt else
  let! txs := in_usb_state (xStreamBufferCreate (UART_TX_BUF_SIZE_IN_BYTES * 2) UART_TX_BUF_SIZE_IN_BYTES) in
  let! rxs := in_usb_state (xStreamBufferCreate (UART_RX_BUF_SIZE_IN_BYTES * 4) UART_RX_BUF_SIZE_IN_BYTES) in
  let! lcs := in_usb_state (xStreamBufferCreate (sizeof_line_coding * 2) sizeof_line_coding) in
  do! in_cdc (usb_cdc_test_task_init configMINIMAL_STACK_SIZE 1 "usb_uart_cdc_rx_thread" "usb_uart_cdc_tx_thread" txs rxs lcs) in
  let! rx0 := sdk dma_claim_unused_channel in
  let! rx1 := sdk dma_claim_unused_channel in
  let! tx := sdk dma_claim_unused_channel in
  let old := tx_thread c in
  do! store_config channel (usb_uart_config channel (dma_rx_config c) old rx0 rx1 tx txs rxs lcs) in
  do! sdk_do (irq_set_exclusive_handler (zget usb_uart_dma_irq_list channel) "usb_uart_dma_handler") in
  do! sdk_do (irq_set_enabled (zget usb_uart_dma_irq_list channel) true) in
  let rxc := map (rx_dma_config channel rx0 rx1) [0; 1] in
  do! store_config channel (usb_uart_config channel rxc old rx0 rx1 tx txs rxs lcs) in
  let! tx_handle := in_usb_state (xTaskCreate "usb_uart_tx_thread" "usb_uart_tx_thread" configMINIMAL_STACK_SIZE channel SYSTEM_PRIORITY_LOW) in
  let! lc_handle := in_usb_state (xTaskCreate "usb_uart_line_coding_thread" "usb_uart_line_coding_thread" configMINIMAL_STACK_SIZE channel SYSTEM_PRIORITY_LOW) in
  do! store_config channel (usb_uart_config channel rxc tx_handle rx0 rx1 tx txs rxs lcs) in
  do! in_usb_state (vTaskCoreAffinitySet tx_handle 1) in
  in_usb_state (vTaskCoreAffinitySet lc_handle 1).

(** ** The threads: a turn of each

    The transmit thread also looks at how much is left in its stream, to no
    effect. *)
Definition tx_thread_body (channel : Z) : MU unit :=
  let! config := load_config channel in
  let! st := deref (tx_stream config) in
  let! received_bytes := sdk (xStreamBufferReceive_to st (TxBuffer channel) UART_TX_BUF_SIZE_IN_BYTES 50) in
  if 0 <? received_bytes then
    do! sdk_do (system_pin_set PIN_TARGET_1_LED_SER) in
    let! enabled := sdk (uart_is_enabled (uart config)) in
    when (negb (enabled =? 0))
      (let! g := deref (dma_tx_config config) in
       do! sdk_do (dma_channel_configure (dma_tx_channel config) g (UartData (uart config)) (TxBuffer channel) received_bytes true) in
       do! sdk_do (dma_channel_acknowledge_irq0 (dma_tx_channel config)) in
       do! sdk_do (dma_channel_set_irq0_enabled (dma_tx_channel config) true) in
       do! sdk_do (hw_write_masked [UARTDMACR_TXDMAE (uart config)] 1) in
       sdk_do (xTaskNotifyWait_uart USB_UART_TASK_TX_COMPLETE))
  else sdk_do (system_pin_clear PIN_TARGET_1_LED_SER).
Definition stop_channel (dma_channel : Z) : MU unit :=
  do! sdk_do (dma_channel_set_irq0_enabled dma_channel false) in
  do! sdk_do (dma_channel_abort dma_channel) in
  sdk_do (hw_write_masked [CTRL_TRIG_EN dma_channel] 0).
Definition line_coding_body (channel : Z) : MU unit :=
  let! config := load_config channel in
  let! st := deref (line_coding_stream config) in
  let! line_coding := in_usb_state (xStreamBufferReceive st sizeof_line_coding (-1)) in
  when (zlen line_coding =? sizeof_line_coding)
    (let bit_rate := le_val (ztake 4 line_coding) in
     let stop_bits := zget line_coding 4 in
     let parity := zget line_coding 5 in
     let data_bits := zget line_coding 6 in
     do! for_each [0; 1] (fun i => stop_channel (rx_channel config i)) in
     do! stop_channel (dma_tx_channel config) in
     do! sdk_do (uart_deinit (uart config)) in
     do! sdk_do (uart_init (uart config) bit_rate) in
     do! sdk_do (uart_set_hw_flow (uart config) false false) in
     do! sdk_do (uart_set_format (uart config) data_bits (stop_bits + 1) parity) in
     do! sdk_do (irq_set_exclusive_handler (uart_irq config) (rx_callback config)) in
     do! sdk_do (irq_set_enabled (uart_irq config) true) in
     do! sdk_do (hw_write_masked [UARTDMACR_RXDMAE (uart config); UARTDMACR_TXDMAE (uart config)] 0) in
     do! sdk_do (hw_write_masked [UARTIFLS_RXIFLSEL (uart config)] 2) in
     do! sdk_do (hw_write_masked [UARTIFLS_TXIFLSEL (uart config)] 2) in
     sdk_do (uart_set_irq_enables (uart config) true false)).
End Uart.

(** ** The hardware

    The RP2040's UART with its receive FIFO and the two DMA channels that empty
    it, as the code relies on them.  [d_left] is what TRANS_COUNT reads: the
    transfers left of a channel that works, and of one that does not what it
    read last; [d_reload] is what starting the channel puts there.  [h_given] is
    all the stream was handed (it has room for it). *)
Record dma := {
  d_buf : Z; d_at : Z; d_left : Z; d_reload : Z; d_busy : bool; d_en : bool; d_irq : bool; d_irqen : bool; d_chain : bool }.
Record hw := {
  h_fifo : list Z; h_rx_irq : bool; h_rxdmae : bool; h_first : dma; h_second : dma; h_buf0 : list Z; h_buf1 : list Z;
  h_tx_irq : bool; h_timer : bool; h_given : list Z }.
Definition upd_first (f : dma -> dma) (h : hw) : hw :=
  {| h_fifo := h_fifo h; h_rx_irq := h_rx_irq h; h_rxdmae := h_rxdmae h; h_first := f (h_first h); h_second := h_second h; h_buf0 := h_buf0 h;
     h_buf1 := h_buf1 h; h_tx_irq := h_tx_irq h; h_timer := h_timer h; h_given := h_given h |}.
Definition upd_second (f : dma -> dma) (h : hw) : hw :=
  {| h_fifo := h_fifo h; h_rx_irq := h_rx_irq h; h_rxdmae := h_rxdmae h; h_first := h_first h; h_second := f (h_second h); h_buf0 := h_buf0 h;
     h_buf1 := h_buf1 h; h_tx_irq := h_tx_irq h; h_timer := h_timer h; h_given := h_given h |}.
Definition upd_uart (fifo : list Z) (rx_irq rxdmae tx_irq timer : bool) (given : list Z) (h : hw) : hw :=
  {| h_fifo := fifo; h_rx_irq := rx_irq; h_rxdmae := rxdmae; h_first := h_first h; h_second := h_second h; h_buf0 := h_buf0 h;
     h_buf1 := h_buf1 h; h_tx_irq := tx_irq; h_timer := timer; h_given := given |}.
Definition set_rx_irq v h := upd_uart (h_fifo h) v (h_rxdmae h) (h_tx_irq h) (h_timer h) (h_given h) h.
Definition set_rxdmae v h := upd_uart (h_fifo h) (h_rx_irq h) v (h_tx_irq h) (h_timer h) (h_given h) h.
Definition set_tx_irq v h := upd_uart (h_fifo h) (h_rx_irq h) (h_rxdmae h) v (h_timer h) (h_given h) h.
Definition set_timer v h := upd_uart (h_fifo h) (h_rx_irq h) (h_rxdmae h) (h_tx_irq h) v (h_given h) h.
Definition set_fifo v h := upd_uart v (h_rx_irq h) (h_rxdmae h) (h_tx_irq h) (h_timer h) (h_given h) h.
Definition give l h := upd_uart (h_fifo h) (h_rx_irq h) (h_rxdmae h) (h_tx_irq h) (h_timer h) (h_given h ++ l) h.
Definition set_bufs b0 b1 (h : hw) : hw :=
  {| h_fifo := h_fifo h; h_rx_irq := h_rx_irq h; h_rxdmae := h_rxdmae h; h_first := h_first h; h_second := h_second h; h_buf0 := b0;
     h_buf1 := b1; h_tx_irq := h_tx_irq h; h_timer := h_timer h; h_given := h_given h |}.
Definition buffer (i : Z) (h : hw) : list Z := if i =? 0 then h_buf0 h else h_buf1 h.
Definition set_buffer (i : Z) (l : list Z) (h : hw) : hw := if i =? 0 then set_bufs l (h_buf1 h) h else set_bufs (h_buf0 h) l h.

(** What the calls do to a channel. *)
Definition configured (i n : Z) (trigger chain : bool) (d : dma) : dma :=
  {| d_buf := i; d_at := 0; d_left := if trigger then n else d_left d; d_reload := n; d_busy := if trigger then true else d_busy d; d_en := true;
     d_irq := d_irq d; d_irqen := d_irqen d; d_chain := chain |}.
Definition acknowledged (d : dma) : dma :=
  {| d_buf := d_buf d; d_at := d_at d; d_left := d_left d; d_reload := d_reload d; d_busy := d_busy d; d_en := d_en d; d_irq := false;
     d_irqen := d_irqen d; d_chain := d_chain d |}.
Definition irq_enabled (v : bool) (d : dma) : dma :=
  {| d_buf := d_buf d; d_at := d_at d; d_left := d_left d; d_reload := d_reload d; d_busy := d_busy d; d_en := d_en d; d_irq := d_irq d;
     d_irqen := v; d_chain := d_chain d |}.
Definition enabled (v : bool) (d : dma) : dma :=
  {| d_buf := d_buf d; d_at := d_at d; d_left := d_left d; d_reload := d_reload d; d_busy := d_busy d; d_en := v; d_irq := d_irq d;
     d_irqen := d_irqen d; d_chain := d_chain d |}.
Definition aborted (d : dma) : dma :=
  {| d_buf := d_buf d; d_at := d_at d; d_left := d_left d; d_reload := d_reload d; d_busy := false; d_en := d_en d; d_irq := d_irq d;
     d_irqen := d_irqen d; d_chain := d_chain d |}.
Definition started (d : dma) : dma :=
  {| d_buf := d_buf d; d_at := d_at d; d_left := d_reload d; d_reload := d_reload d; d_busy := true; d_en := d_en d; d_irq := d_irq d;
     d_irqen := d_irqen d; d_chain := d_chain d |}.
(** One byte through a channel. *)
Definition moved (d : dma) : dma :=
  {| d_buf := d_buf d; d_at := d_at d + 1; d_left := d_left d - 1; d_reload := d_reload d; d_busy := negb (d_left d =? 1); d_en := d_en d;
     d_irq := (d_left d =? 1) || d_irq d; d_irqen := d_irqen d; d_chain := d_chain d |}.
Definition pending (d : dma) : bool := d_irq d && d_irqen d.
Definition works (h : hw) (d : dma) : bool := d_busy d && d_en d && h_rxdmae h.

Section Machine.
(** The channels claimed, and the stream. *)
Variables (a b t : Z) (s : stream).
Definition on_channel (ch : Z) (f : dma -> dma) (h : hw) : hw :=
  if ch =? a then upd_first f h else if ch =? b then upd_second f h else h.
Definition effect (c : sdk_call) (h : hw) : hw :=
  match c with
  | uart_set_irq_enables u rx _ => if u =? uart1 then set_rx_irq rx h else h
  | dma_channel_configure ch g (RxBuffer 0 i) (UartData 1) n trigger => on_channel ch (configured i n trigger (negb (c_chain_to g =? ch))) h
  | dma_channel_acknowledge_irq0 ch => if ch =? t then set_tx_irq false h else on_channel ch acknowledged h
  | dma_channel_set_irq0_enabled ch v => on_channel ch (irq_enabled v) h
  | dma_channel_abort ch => on_channel ch aborted h
  | hw_write_masked [CTRL_TRIG_EN ch] v => on_channel ch (enabled (negb (v =? 0))) h
  | hw_write_masked [UARTDMACR_RXDMAE 1] v => set_rxdmae (negb (v =? 0)) h
  | add_repeating_timer_ms _ _ 0 => set_timer true h
  | xStreamBufferSendFromISR st (RxBuffer 0 i) n => if st =? s then give (ztake n (buffer i h)) h else h
  | _ => h
  end.
Definition answer (c : sdk_call) (h : hw) (r : Z) : Prop :=
  match c with
  | dma_channel_get_irq0_status ch =>
      (r =? 0) = negb (if ch =? a then pending (h_first h) else if ch =? b then pending (h_second h) else if ch =? t then h_tx_irq h else false)
  | dma_transfer_count ch => r = if ch =? a then d_left (h_first h) else if ch =? b then d_left (h_second h) else r
  | _ => True
  end.
(** A byte moves; a channel that is through starts the one it is chained to. *)
Definition move_first (h : hw) : hw :=
  match h_fifo h with
  | [] => h
  | x :: fifo =>
      let d := h_first h in
      let h := upd_first moved (set_fifo fifo (set_buffer (d_buf d) (splice (buffer (d_buf d) h) (d_at d) [x]) h)) in
      if (d_left d =? 1) && d_chain d then upd_second started h else h
  end.
Definition move_second (h : hw) : hw :=
  match h_fifo h with
  | [] => h
  | x :: fifo =>
      let d := h_second h in
      let h := upd_second moved (set_fifo fifo (set_buffer (d_buf d) (splice (buffer (d_buf d) h) (d_at d) [x]) h)) in
      if (d_left d =? 1) && d_chain d then upd_first started h else h
  end.
End Machine.
Class UartSpec (E : Type) (a b t : Z) (s : stream) `{SdkIf E} := {
  hw_of : E -> hw;
  sdk_ok c e : exists r e', sdk_run c e = Ok r e' /\ hw_of e' = effect a b t s c (hw_of e) /\ answer a b t c (hw_of e) r;
}.

(** ** Runs over the hardware *)
Section Runs.
Context {E : Type} {a b t : Z} {st : stream} `{US : UartSpec E a b t st}.
Notation MU := (M (uart_state E)).
Implicit Types s : uart_state E.
Definition view s : hw := hw_of (usb (cdc s)).
(** From every state with these configurations and this hardware [m] returns,
    in one with which [Q] holds. *)
Definition runs {A} (m : MU A) (l : list usb_uart_config_t) (h : hw) (Q : A -> list usb_uart_config_t -> hw -> Prop) : Prop :=
  forall s, usb_uart_config_list s = l -> view s = h -> exists r s', m s = Ok r s' /\ Q r (usb_uart_config_list s') (view s').
Lemma uart_ret {A} (r : A) l h (Q : A -> _ -> _ -> Prop) : Q r l h -> runs (ret r) l h Q.
Proof. intros HQ s <- <-. by exists r, s. Qed.
Lemma uart_bind {A B} (m : MU A) (f : A -> MU B) l h Q :
  runs m l h (fun r l' h' => runs (f r) l' h' Q) -> runs (bind m f) l h Q.
Proof.
  intros Hm s Hl Hh. destruct (Hm s Hl Hh) as (r & s1 & R1 & H1). destruct (H1 s1 eq_refl eq_refl) as (r2 & s2 & R2 & HQ).
  exists r2, s2. by rewrite (bind_Ok _ _ _ _ _ R1).
Qed.
Lemma runs_sdk c l h (Q : Z -> _ -> _ -> Prop) : (forall r, answer a b t c h r -> Q r l (effect a b t st c h)) -> runs (sdk c) l h Q.
Proof.
  intros HQ s <- <-. destruct (sdk_ok c (usb (cdc s))) as (r & e' & Hrun & Heff & Hans). unfold sdk, in_cdc, in_usb. rewrite Hrun.
  eexists r, _. split; [done|]. unfold view. cbn. rewrite Heff. by apply HQ.
Qed.
Lemma runs_sdk_do c l h (Q : unit -> _ -> _ -> Prop) : Q tt l (effect a b t st c h) -> runs (sdk_do c) l h Q.
Proof. intros HQ. unfold sdk_do. apply uart_bind, runs_sdk. intros r _. by apply uart_ret. Qed.
Lemma runs_load channel c l h (Q : usb_uart_config_t -> _ -> _ -> Prop) : l !! Z.to_nat channel = Some c -> Q c l h -> runs (load_config channel) l h Q.
Proof. intros Hc HQ s <- <-. unfold load_config, bind, get. rewrite Hc. by exists c, s. Qed.
Lemma runs_store channel c l h (Q : unit -> _ -> _ -> Prop) : Q tt (<[Z.to_nat channel := c]> l) h -> runs (store_config channel c) l h Q.
Proof. intros HQ s <- <-. by eexists tt, _. Qed.
Lemma runs_deref {A} (p : A) l h (Q : A -> _ -> _ -> Prop) : Q p l h -> runs (deref (Some p)) l h Q.
Proof. apply uart_ret. Qed.
Lemma runs_weaken {A} (m : MU A) l h (Q Q' : A -> _ -> _ -> Prop) : runs m l h Q -> (forall r l' h', Q r l' h' -> Q' r l' h') -> runs m l h Q'.
Proof. intros Hm HQ s Hl Hh. destruct (Hm s Hl Hh) as (r & s' & Hr & H1). exists r, s'. split; [done|by apply HQ]. Qed.
End Runs.

(** One step of a run. *)
Ltac uart_step :=
  lazymatch goal with
  | |- runs (bind _ _) _ _ _ => apply uart_bind
  | |- runs (ret _) _ _ _ => apply uart_ret
  | |- runs (sdk_do _) _ _ _ => apply runs_sdk_do
  | |- runs (sdk _) _ _ _ => apply runs_sdk; let r := fresh "r" in let Hr := fresh "Ans" in intros r Hr
  | |- runs (load_config _) _ _ _ => eapply runs_load; [reflexivity|]
  | |- runs (store_config _ _) _ _ _ => apply runs_store
  | |- runs (deref (Some _)) _ _ _ => apply runs_deref
  | |- runs (set_dma_occured _ _) _ _ _ => unfold set_dma_occured
  | |- runs (hand_over _ _ _) _ _ _ => unfold hand_over
  | |- runs (configure_rx _ _ _) _ _ _ => unfold configure_rx
  | |- runs (for_each (_ :: _) _) _ _ _ => cbn [for_each]
  | |- runs (for_each [] _) _ _ _ => cbn [for_each]
  | |- runs (when _ _) _ _ _ => cbn [when]
  end.

Section Channel.
Context {E : Type} {a b t : Z} {st : stream} `{US : UartSpec E a b t st}.
Hypothesis a_b : a <> b.
Hypothesis a_t : a <> t.
Hypothesis b_t : b <> t.
Hypothesis a_used : a <> -1.
Hypothesis b_used : b <> -1.
(** The configuration of channel 0 once it is added, [occured] or not, and one
    of channel 1, that is not. *)
Definition is_uart (c : usb_uart_config_t) : Prop :=
  dma_rx_channel c = [a; b] /\ dma_rx_paired_channel c = [b; a] /\ dma_tx_channel c = t /\
  (exists g0 g1, dma_rx_config c = [g0; g1] /\ c_chain_to g0 = b /\ c_chain_to g1 = b) /\ uart c = uart1 /\ rx_stream c = Some st.
Definition is_unused (c : usb_uart_config_t) : Prop := dma_rx_channel c = [-1; -1].
Definition configured_list (l : list usb_uart_config_t) : Prop := exists c0 c1, l = [c0; c1] /\ is_uart c0 /\ is_unused c1.

(** ** A session

    What a channel is doing: filling its buffer, waiting to be started, full
    with the interrupt pending, or empty again. *)
Definition filling (i n : Z) (chain : bool) (d : dma) : Prop :=
  0 <= n < UART_RX_BUF_SIZE /\ d = {| d_buf := i; d_at := n; d_left := UART_RX_BUF_SIZE - n; d_reload := UART_RX_BUF_SIZE; d_busy := true; d_en := true;
    d_irq := false; d_irqen := true; d_chain := chain |}.
Definition at_rest (d : dma) : Prop := d_left d = 0 \/ d_left d = UART_RX_BUF_SIZE.
Definition armed (i : Z) (d : dma) : Prop :=
  at_rest d /\ d = {| d_buf := i; d_at := 0; d_left := d_left d; d_reload := UART_RX_BUF_SIZE; d_busy := false; d_en := true;
    d_irq := false; d_irqen := true; d_chain := false |}.
Definition full (irq : bool) (d : dma) : Prop :=
  d_left d = 0 /\ d_busy d = false /\ d_en d = true /\ d_irq d = irq /\ d_irqen d = true.
Definition unused (d : dma) : Prop := d_busy d = false /\ pending d = false.

(** The parts of a session, and the bytes the buffers hold in each. *)
Inductive phase (h : hw) : list Z -> Prop :=
| Silent : unused (h_first h) -> unused (h_second h) -> h_timer h = false -> phase h []
| InFirst n : filling 0 n true (h_first h) -> armed 1 (h_second h) -> h_timer h = true -> h_rx_irq h = false -> h_rxdmae h = true -> phase h (ztake n (h_buf0 h))
| FirstFull n : full true (h_first h) -> filling 1 n false (h_second h) -> h_timer h = true -> h_rx_irq h = false -> h_rxdmae h = true -> phase h (h_buf0 h ++ ztake n (h_buf1 h))
| InSecond n : full false (h_first h) -> filling 1 n false (h_second h) -> h_timer h = true -> h_rx_irq h = false -> h_rxdmae h = true -> phase h (ztake n (h_buf1 h))
| SecondFull : full false (h_first h) -> full true (h_second h) -> h_timer h = true -> h_rx_irq h = false -> h_rxdmae h = true -> phase h (h_buf1 h)
| BothFull : full true (h_first h) -> full true (h_second h) -> h_timer h = true -> h_rx_irq h = false -> h_rxdmae h = true -> phase h (h_buf0 h ++ h_buf1 h).
Definition buffers_ok (h : hw) : Prop := zlen (h_buf0 h) = UART_RX_BUF_SIZE /\ zlen (h_buf1 h) = UART_RX_BUF_SIZE.
(** Everything that arrived is with the stream, in a buffer or in the FIFO, in
    this order. *)
Definition carries (arrived : list Z) (h : hw) : Prop :=
  buffers_ok h /\ exists held, phase h held /\ arrived = h_given h ++ held ++ h_fifo h.

Lemma eqb_ab : (a =? b) = false. Proof. by apply Z.eqb_neq. Qed.
Lemma eqb_ba : (b =? a) = false. Proof. by apply Z.eqb_neq. Qed.
Lemma eqb_at : (a =? t) = false. Proof. by apply Z.eqb_neq. Qed.
Lemma eqb_bt : (b =? t) = false. Proof. by apply Z.eqb_neq. Qed.
Lemma eqb_ta : (t =? a) = false. Proof. by apply Z.eqb_neq. Qed.
Lemma eqb_tb : (t =? b) = false. Proof. by apply Z.eqb_neq. Qed.
Lemma eqb_a1 : (a =? -1) = false. Proof. by apply Z.eqb_neq. Qed.
Lemma eqb_b1 : (b =? -1) = false. Proof. by apply Z.eqb_neq. Qed.
Lemma runs_rx_config c g i l h (Q : dma_channel_config -> _ -> _ -> Prop) : dma_rx_config c !! Z.to_nat i = Some g -> Q g l h -> runs (rx_config c i) l h Q.
Proof. intros Hg HQ. unfold rx_config. rewrite Hg. by apply uart_ret. Qed.
Lemma is_uart_occured v c : is_uart c -> is_uart (set_occured v c).
Proof. done. Qed.
(** What the steps of a run look up in the configuration, and of what is
    pending. *)
Ltac uart_config Hc :=
  destruct Hc as (Hch & Hpa & Htx & (g0 & g1 & Hcf & Hg0 & Hg1) & Hu & Hst);
  match type of Hch with dma_rx_channel ?c = _ =>
    assert (rx_channel c 0 = a) by (unfold rx_channel; by rewrite Hch); assert (rx_channel c 1 = b) by (unfold rx_channel; by rewrite Hch);
    assert (zget (dma_rx_paired_channel c) 0 = b) by (by rewrite Hpa); assert (zget (dma_rx_paired_channel c) 1 = a) by (by rewrite Hpa);
    assert (dma_rx_config c !! Z.to_nat 0 = Some g0) by (by rewrite Hcf); assert (dma_rx_config c !! Z.to_nat 1 = Some g1) by (by rewrite Hcf)
  end.
Ltac uart_facts :=
  repeat match goal with
  | Hx : rx_channel ?c ?i = _ |- context [rx_channel ?c ?i] => rewrite Hx
  | Hx : zget (dma_rx_paired_channel ?c) ?i = _ |- context [zget (dma_rx_paired_channel ?c) ?i] => rewrite Hx
  | Hx : dma_tx_channel ?c = _ |- context [dma_tx_channel ?c] => rewrite Hx
  | Hx : uart ?c = _ |- context [uart ?c] => rewrite Hx
  | Hx : rx_stream ?c = _ |- context [rx_stream ?c] => rewrite Hx
  | Hx : c_chain_to ?g = _ |- context [c_chain_to ?g] => rewrite Hx
  | Hx : dma_occured ?c = _ |- context [dma_occured ?c] => rewrite Hx
  | Hx : (?r =? 0) = _ |- context [?r =? 0] => rewrite Hx
  | Hx : pending ?d = _ |- context [pending ?d] => rewrite Hx
  | Hx : h_tx_irq ?h = _ |- context [h_tx_irq ?h] => rewrite Hx
  end.
Ltac channels := unfold on_channel; rewrite ?Z.eqb_refl, ?eqb_ab, ?eqb_ba, ?eqb_at, ?eqb_bt, ?eqb_ta, ?eqb_tb, ?eqb_a1, ?eqb_b1.
Ltac uart_answers :=
  repeat match goal with
  | Hr : answer _ _ _ _ _ _ |- _ =>
      cbn [answer] in Hr; rewrite ?Z.eqb_refl, ?eqb_ab, ?eqb_ba, ?eqb_at, ?eqb_bt, ?eqb_ta, ?eqb_tb in Hr
  end.
Ltac uart_run :=
  repeat (first [ uart_step | (eapply runs_rx_config; [eassumption|]) ]; cbv beta; uart_answers; uart_facts;
    cbn [effect answer negb Z.eqb Z.compare Pos.eqb orb andb uart1]; channels; uart_facts; channels; cbn [negb orb andb when]; cbv iota).

Lemma rx_callback_ok l h arrived : configured_list l -> carries arrived h -> h_timer h = false -> at_rest (h_second h) ->
  runs usb_uart_1_rx_interrupt l h (fun _ l' h' => configured_list l' /\ carries arrived h').
Proof.
  intros (c0 & c1 & -> & Hc & Hc1) [Hb (held & Hph & Harr)] Htm Hrest. pose proof Hc as Hc0. unfold usb_uart_1_rx_interrupt, usb_uart_rx_callback.
  destruct Hph as [[Hb0 Hp0] [Hb1 Hp1] _| | | | |]; try congruence. uart_config Hc. cbn [PLATFORM_USB_UART_INTERFACE_NUM Z.leb Z.compare].
  uart_run. split; [by exists c0, c1|]. split; [exact Hb|]. eexists. split; [apply (InFirst _ 0)|exact Harr]; try done.
  split; [exact Hrest|]. cbn. unfold irq_enabled, acknowledged, configured. cbn. by rewrite Hb1.
Qed.

Lemma full_buffer i h : buffers_ok h -> ztake UART_RX_BUF_SIZE_IN_BYTES (buffer i h) = buffer i h.
Proof.
  intros [H0 H1]. unfold ztake. apply firstn_all2. unfold buffer, zlen, UART_RX_BUF_SIZE_IN_BYTES, UART_RX_BUF_SIZE in *. destruct (i =? 0); lia.
Qed.
Lemma not_pending i n ch d : filling i n ch d -> pending d = false.
Proof. intros [_ ->]. done. Qed.
Lemma full_pending irq d : full irq d -> pending d = irq.
Proof. intros (_ & _ & _ & Hi & He). unfold pending. rewrite Hi, He. apply andb_true_r. Qed.
Lemma armed_pending i d : armed i d -> pending d = false.
Proof. intros [_ ->]. done. Qed.
Lemma took_first h arrived : carries arrived h -> pending (h_first h) = true -> carries arrived (give (h_buf0 h) (upd_first acknowledged h)).
Proof.
  intros [Hb (held & Hph & Harr)] P. split; [exact Hb|].
  assert (Hack : forall d, full true d -> full false (acknowledged d)) by (intros d (? & ? & ? & ? & ?); done).
  destruct Hph as [[_ Hu] _ _|n Hf _ _ _ _|n Hf Hs Htm Hq Hr|n Hf _ _ _ _|Hf _ _ _ _|Hf Hs Htm Hq Hr].
  - congruence.
  - pose proof (not_pending _ _ _ _ Hf). congruence.
  - eexists. split; [by apply (InSecond _ n); [apply Hack|..]|]. cbn. by rewrite Harr, <- !app_assoc.
  - pose proof (full_pending _ _ Hf). congruence.
  - pose proof (full_pending _ _ Hf). congruence.
  - eexists. split; [by apply SecondFull; [apply Hack|..]|]. cbn. by rewrite Harr, <- !app_assoc.
Qed.
Lemma took_second h arrived : carries arrived h -> pending (h_first h) = false -> pending (h_second h) = true ->
  carries arrived (give (h_buf1 h) (upd_second (configured 1 UART_RX_BUF_SIZE false false)
    (upd_first (configured 0 UART_RX_BUF_SIZE true true) (upd_second acknowledged h)))).
Proof.
  intros [Hb (held & Hph & Harr)] P0 P1. split; [exact Hb|].
  destruct Hph as [_ [_ Hu] _|n _ Hs _ _ _|n _ Hs _ _ _|n _ Hs _ _ _|Hf Hs Htm Hq Hr|Hf _ _ _ _].
  - congruence.
  - pose proof (armed_pending _ _ Hs). congruence.
  - pose proof (not_pending _ _ _ _ Hs). congruence.
  - pose proof (not_pending _ _ _ _ Hs). congruence.
  - destruct Hf as (_ & _ & _ & Hi & He), Hs as (Hl & Hbu & _ & _ & He1). eexists. split; [apply (InFirst _ 0)|]; try done.
    + split; [done|]. cbn. unfold configured. by rewrite Hi, He.
    + split; [by left|]. cbn. unfold configured, acknowledged. cbn. by rewrite Hbu, He1.
    + cbn. rewrite Harr, <- app_assoc. done.
  - pose proof (full_pending _ _ Hf). congruence.
Qed.
Lemma other_irq h arrived : carries arrived h -> carries arrived (set_tx_irq false h).
Proof. intros [Hb (held & Hph & Harr)]. split; [exact Hb|]. exists held. split; [|exact Harr]. destruct Hph;
  [by apply Silent|by apply (InFirst (set_tx_irq false h) n)|by apply (FirstFull (set_tx_irq false h) n)|by apply (InSecond (set_tx_irq false h) n)
  |by apply (SecondFull (set_tx_irq false h))|by apply (BothFull (set_tx_irq false h))]. Qed.

Lemma dma_handler_ok l h arrived : configured_list l -> carries arrived h ->
  runs usb_uart_dma_handler l h (fun _ l' h' => configured_list l' /\ carries arrived h').
Proof.
  intros (c0 & c1 & -> & Hc & Hc1) Hcar. pose proof Hc as Hc0. unfold usb_uart_dma_handler.
  change (seqZ 0 PLATFORM_USB_UART_INTERFACE_NUM) with [0; 1].
  assert (Hun : rx_channel c1 0 = -1) by (unfold rx_channel; by rewrite Hc1). uart_config Hc.
  unfold dma_handler_body. destruct (pending (h_first h)) eqn:P0.
  - uart_run. split; [by exists (set_occured true c0), c1|]. pose proof (took_first h arrived Hcar P0) as Hres.
    rewrite full_buffer by apply Hcar. exact Hres.
  - destruct (pending (h_second h)) eqn:P1.
    + uart_run. split; [by exists (set_occured true c0), c1|]. pose proof (took_second h arrived Hcar P0 P1) as Hres.
      rewrite full_buffer by apply Hcar. exact Hres.
    + destruct (h_tx_irq h) eqn:P2; uart_run; (split; [by exists c0, c1|]); [by apply other_irq|done].
Qed.

(** What the timer hands over of a channel that has [left] transfers left. *)
Definition flushed (i left : Z) (h : hw) : hw :=
  if (0 <? UART_RX_BUF_SIZE - left) && (UART_RX_BUF_SIZE - left <? UART_RX_BUF_SIZE) then give (ztake (UART_RX_BUF_SIZE - left) (buffer i h)) h else h.
Definition stopped (d : dma) : dma := aborted (irq_enabled false (acknowledged d)).
Lemma flush_first c l h (Q : unit -> _ -> _ -> Prop) : is_uart c -> 0 <= d_left (h_first h) <= UART_RX_BUF_SIZE ->
  Q tt l (set_rx_irq true (upd_first stopped (flushed 0 (d_left (h_first h)) h))) -> runs (flush_rx 0 c 0) l h Q.
Proof.
  intros Hc Hl HQ. uart_config Hc. unfold flush_rx. uart_run. subst r. unfold u32. rewrite wrap_small by (unfold UART_RX_BUF_SIZE in *; lia).
  unfold flushed in HQ. destruct (_ && _); uart_run; exact HQ.
Qed.
Lemma flush_second c l h (Q : unit -> _ -> _ -> Prop) : is_uart c -> 0 <= d_left (h_second h) <= UART_RX_BUF_SIZE ->
  Q tt l (set_rx_irq true (upd_second stopped (flushed 1 (d_left (h_second h)) h))) -> runs (flush_rx 0 c 1) l h Q.
Proof.
  intros Hc Hl HQ. uart_config Hc. unfold flush_rx. uart_run. subst r. unfold u32. rewrite wrap_small by (unfold UART_RX_BUF_SIZE in *; lia).
  unfold flushed in HQ. destruct (_ && _); uart_run; exact HQ.
Qed.
Lemma give_nothing h : give [] h = h.
Proof. unfold give, upd_uart. rewrite app_nil_r. by destruct h. Qed.
Lemma flushed_part i n h : 0 <= n < UART_RX_BUF_SIZE -> flushed i (UART_RX_BUF_SIZE - n) h = give (ztake n (buffer i h)) h.
Proof.
  intros Hn. unfold flushed. replace (UART_RX_BUF_SIZE - (UART_RX_BUF_SIZE - n)) with n by lia.
  rewrite (proj2 (Z.ltb_lt n _)) by lia. rewrite andb_true_r. destruct (Z.ltb_spec 0 n); [done|].
  replace n with 0 by lia. by rewrite give_nothing.
Qed.
Lemma flushed_rest i d h : at_rest d -> flushed i (d_left d) h = h.
Proof. intros [-> | ->]; done. Qed.

Lemma timeout_ok l h arrived : configured_list l -> carries arrived h -> h_timer h = true -> pending (h_first h) = false -> pending (h_second h) = false ->
  runs usb_uart_1_timeout_interrupt l h (fun again l' h' => configured_list l' /\ h_fifo h' = h_fifo h /\
    if again : bool then h' = h else h_rx_irq h' = true /\ carries arrived (set_timer false h')).
Proof.
  intros (c0 & c1 & -> & Hc & Hc1) [Hb (held & Hph & Harr)] Htm P0 P1. pose proof Hc as Hc0. unfold usb_uart_1_timeout_interrupt, usb_uart_timeout_callback.
  cbn [PLATFORM_USB_UART_INTERFACE_NUM Z.leb Z.compare]. uart_config Hc. destruct (dma_occured c0) eqn:Hocc.
  - uart_run. split; [by exists (set_occured false c0), c1|done].
  - uart_run. set (h1 := set_rxdmae _ _).
    assert (Hleft : (exists n, 0 <= n < UART_RX_BUF_SIZE /\ held = ztake n (h_buf0 h) /\ d_left (h_first h) = UART_RX_BUF_SIZE - n /\ at_rest (h_second h)) \/
                    (exists n, 0 <= n < UART_RX_BUF_SIZE /\ held = ztake n (h_buf1 h) /\ at_rest (h_first h) /\ d_left (h_second h) = UART_RX_BUF_SIZE - n)).
    { destruct Hph as [_ _ Ht|n Hf Hs _ _ _|n Hf Hs _ _ _|n Hf Hs _ _ _|Hf Hs _ _ _|Hf Hs _ _ _]; [congruence| | | | |].
      - left. exists n. destruct Hf as [Hn ->], Hs as [Hr _]. done.
      - pose proof (full_pending _ _ Hf). congruence.
      - right. exists n. destruct Hf as (Hl & _), Hs as [Hn ->]. split_and!; try done; try apply Hn. by left.
      - pose proof (full_pending _ _ Hs). congruence.
      - pose proof (full_pending _ _ Hs). congruence. }
    assert (Hr0 : 0 <= d_left (h_first h1) <= UART_RX_BUF_SIZE) by (cbn; unfold at_rest, UART_RX_BUF_SIZE in *; destruct Hleft as [(? & ?)|(? & ?)]; lia).
    assert (Hr1 : 0 <= d_left (h_second h1) <= UART_RX_BUF_SIZE) by (cbn; unfold at_rest, UART_RX_BUF_SIZE in *; destruct Hleft as [(? & ?)|(? & ?)]; lia).
    apply flush_first; [done..|]. uart_step. apply flush_second; [done| |].
    { unfold flushed. destruct (_ && _); exact Hr1. }
    uart_run. split; [by exists c0, c1|].
    destruct Hleft as [(n & Hn & -> & Hl0 & Hl1)|(n & Hn & -> & Hl0 & Hl1)].
    + change (d_left (h_first h1)) with (d_left (h_first h)). rewrite Hl0, flushed_part by done.
      change (d_left (h_second (set_rx_irq true (upd_first stopped (give (ztake n (buffer 0 h1)) h1))))) with (d_left (h_second h)).
      rewrite (flushed_rest 1 (h_second h)) by done. split; [done|]. split; [done|]. split; [exact Hb|]. exists []. split; [by apply Silent|].
      cbn. by rewrite Harr, <- app_assoc.
    + change (d_left (h_first h1)) with (d_left (h_first h)). rewrite (flushed_rest 0 (h_first h)) by done.
      change (d_left (h_second (set_rx_irq true (upd_first stopped h1)))) with (d_left (h_second h)). rewrite Hl1, flushed_part by done.
      split; [done|]. split; [done|]. split; [exact Hb|]. exists []. split; [by apply Silent|].
      cbn. by rewrite Harr, <- app_assoc.
Qed.

End Channel.

(** ** What the hardware does by itself *)
Lemma arrive_ok h arrived x : carries arrived h -> carries (arrived ++ [x]) (set_fifo (h_fifo h ++ [x]) h).
Proof.
  intros [Hb (held & Hph & Harr)]. split; [exact Hb|]. exists held. split; [|cbn; by rewrite Harr, !app_assoc].
  destruct Hph; [by apply Silent|by apply (InFirst (set_fifo _ h) n)|by apply (FirstFull (set_fifo _ h) n)|by apply (InSecond (set_fifo _ h) n)
  |by apply (SecondFull (set_fifo _ h))|by apply (BothFull (set_fifo _ h))].
Qed.
Lemma sent_ok h arrived : carries arrived h -> carries arrived (set_tx_irq true h).
Proof.
  intros [Hb (held & Hph & Harr)]. split; [exact Hb|]. exists held. split; [|exact Harr].
  destruct Hph; [by apply Silent|by apply (InFirst (set_tx_irq true h) n)|by apply (FirstFull (set_tx_irq true h) n)|by apply (InSecond (set_tx_irq true h) n)
  |by apply (SecondFull (set_tx_irq true h))|by apply (BothFull (set_tx_irq true h))].
Qed.
Lemma ztake_put n x l : 0 <= n < zlen l -> ztake (n + 1) (splice l n [x]) = ztake n l ++ [x].
Proof.
  intros Hn. unfold splice. change (zlen [x]) with 1. unfold ztake, zlen in *.
  replace (Z.to_nat (n + 1)) with (length (take (Z.to_nat n) l ++ [x])) by (rewrite length_app, length_take; cbn; lia).
  rewrite app_assoc. apply take_app_length.
Qed.
Lemma ztake_whole n (l : list Z) : zlen l <= n -> ztake n l = l.
Proof. intros Hn. unfold ztake, zlen in *. apply firstn_all2. lia. Qed.

Lemma not_working h d : d_busy d = false -> works h d = false.
Proof. intros Hb. unfold works. by rewrite Hb. Qed.
Lemma move_first_ok h arrived : carries arrived h -> works h (h_first h) = true -> carries arrived (move_first h).
Proof.
  intros Hcar Hw. unfold move_first. destruct (h_fifo h) as [|x fifo] eqn:Hfifo; [done|].
  destruct Hcar as [[Hb0 Hb1] (held & Hph & Harr)]. rewrite Hfifo in Harr.
  assert (Hf : exists n, filling 0 n true (h_first h) /\ armed 1 (h_second h) /\ h_timer h = true /\ h_rx_irq h = false /\ h_rxdmae h = true /\ held = ztake n (h_buf0 h)).
  { destruct Hph as [[Hu _] _ _|n|n Hf|n Hf|Hf|Hf]; [rewrite not_working in Hw; [done|exact Hu]|by exists n| | | |];
      (rewrite not_working in Hw; [done|apply Hf]). }
  destruct Hf as (n & [Hn Hd0] & [Hr Hd1] & Htm & Hq & Hdm & ->). rewrite Hd0. cbn [d_left d_chain d_buf d_at buffer set_buffer Z.eqb].
  assert (Hz : zlen (splice (h_buf0 h) n [x]) = UART_RX_BUF_SIZE) by (rewrite zlen_splice; [done|lia|change (zlen [x]) with 1; lia]).
  assert (Hput : arrived = h_given h ++ ztake (n + 1) (splice (h_buf0 h) n [x]) ++ fifo) by (rewrite ztake_put by lia; by rewrite Harr, <- app_assoc).
  destruct (Z.eqb_spec (UART_RX_BUF_SIZE - n) 1) as [Hl|Hl]; cbn [andb].
  - split; [by split|]. eexists. split; [apply (FirstFull _ 0)|]; try done; cbn.
    + rewrite Hd0. unfold moved, full. cbn [d_left d_busy d_en d_irq d_irqen]. rewrite Hl. split_and!; lia || done.
    + rewrite Hd1. split; [done|]. done.
    + rewrite app_nil_r. rewrite ztake_whole in Hput by lia. done.
  - split; [by split|]. eexists. split; [apply (InFirst _ (n + 1))|exact Hput]; try done; cbn.
    rewrite Hd0. split; [lia|]. unfold moved. cbn [d_left d_busy d_en d_irq d_irqen d_buf d_at d_reload d_chain orb].
    rewrite (proj2 (Z.eqb_neq _ _) Hl). cbn [negb orb]. f_equal. lia.
Qed.
Lemma move_second_ok h arrived : carries arrived h -> works h (h_second h) = true -> carries arrived (move_second h).
Proof.
  intros Hcar Hw. unfold move_second. destruct (h_fifo h) as [|x fifo] eqn:Hfifo; [done|].
  destruct Hcar as [[Hb0 Hb1] (held & Hph & Harr)]. rewrite Hfifo in Harr.
  assert (Hf : exists n irq front, filling 1 n false (h_second h) /\ full irq (h_first h) /\ h_timer h = true /\ h_rx_irq h = false /\ h_rxdmae h = true /\
    front = (if irq then h_buf0 h else []) /\ held = front ++ ztake n (h_buf1 h)).
  { destruct Hph as [_ [Hu _] _|n _ [_ Hs]|n Hf Hs|n Hf Hs|Hf Hs|Hf Hs]; [rewrite not_working in Hw; [done|exact Hu]|rewrite not_working in Hw; [done|by rewrite Hs]
      |by exists n, true, (h_buf0 h)|by exists n, false, []| |]; (rewrite not_working in Hw; [done|apply Hs]). }
  destruct Hf as (n & irq & front & [Hn Hd1] & Hd0 & Htm & Hq & Hdm & Hfr & ->). rewrite Hd1. cbn [d_left d_chain d_buf d_at buffer set_buffer Z.eqb].
  rewrite andb_false_r.
  assert (Hz : zlen (splice (h_buf1 h) n [x]) = UART_RX_BUF_SIZE) by (rewrite zlen_splice; [done|lia|change (zlen [x]) with 1; lia]).
  assert (Hput : arrived = h_given h ++ (front ++ ztake (n + 1) (splice (h_buf1 h) n [x])) ++ fifo)
    by (rewrite ztake_put by lia; rewrite Harr; by rewrite <- !app_assoc).
  split; [by split|]. exists (front ++ ztake (n + 1) (splice (h_buf1 h) n [x])). split; [|exact Hput]. set (h' := upd_second moved _).
  destruct (Z.eqb_spec (UART_RX_BUF_SIZE - n) 1) as [Hl|Hl].
  - rewrite ztake_whole by lia. assert (Hfull : full true (moved (h_second h))).
    { rewrite Hd1. unfold moved, full. cbn [d_left d_busy d_en d_irq d_irqen]. rewrite Hl. split_and!; lia || done. }
    subst front. destruct irq; [by apply (BothFull h')|by apply (SecondFull h')].
  - assert (Hfill : filling 1 (n + 1) false (moved (h_second h))).
    { rewrite Hd1. split; [lia|]. unfold moved. cbn [d_left d_busy d_en d_irq d_irqen d_buf d_at d_reload d_chain orb].
      rewrite (proj2 (Z.eqb_neq _ _) Hl). cbn [negb orb]. f_equal. lia. }
    subst front. destruct irq; [by apply (FirstFull h' (n + 1))|by apply (InSecond h' (n + 1))].
Qed.

(** ** Bytes, interrupts and the timer, in any order *)
Section System.
Context {E : Type} {a b t : Z} {st : stream} `{US : UartSpec E a b t st}.
Definition set_hardware (e : E) (s : uart_state E) : uart_state E :=
  {| usb_uart_config_list := usb_uart_config_list s;
     cdc := {| rx_thread_list := rx_thread_list (cdc s); configs := configs (cdc s); usb := e |} |}.
(** A byte arrives, a channel moves one, or the transmitter's channel is
    through. *)
Inductive hw_change : hw * list Z -> hw * list Z -> Prop :=
| hw_arrive h arr x : hw_change (h, arr) (set_fifo (h_fifo h ++ [x]) h, arr ++ [x])
| hw_move_first h arr : works h (h_first h) = true -> hw_change (h, arr) (move_first h, arr)
| hw_move_second h arr : works h (h_second h) = true -> hw_change (h, arr) (move_second h, arr)
| hw_sent h arr : hw_change (h, arr) (set_tx_irq true h, arr).
(** A session starts with the second channel's counter at rest; the timer's
    interrupt comes when no receive channel's is pending.  What happens
    otherwise is below. *)
Inductive system_step : uart_state E * list Z -> uart_state E * list Z -> Prop :=
| by_hardware s arr e arr' : hw_change (view s, arr) (hw_of e, arr') -> system_step (s, arr) (set_hardware e s, arr')
| by_uart_irq s arr s' : h_rx_irq (view s) = true -> h_fifo (view s) <> [] -> at_rest (h_second (view s)) ->
    usb_uart_1_rx_interrupt s = Ok tt s' -> system_step (s, arr) (s', arr)
| by_dma_irq s arr s' : usb_uart_dma_handler s = Ok tt s' -> system_step (s, arr) (s', arr)
| by_timer s arr again s' e : h_timer (view s) = true -> pending (h_first (view s)) = false -> pending (h_second (view s)) = false ->
    usb_uart_1_timeout_interrupt s = Ok again s' -> hw_of e = (if again : bool then view s' else set_timer false (view s')) ->
    system_step (s, arr) (set_hardware e s', arr).
Hypothesis channels_differ : a <> b /\ a <> t /\ b <> t.
Hypothesis channels_claimed : a <> -1 /\ b <> -1.
Definition good (x : uart_state E * list Z) : Prop := configured_list (a := a) (b := b) (t := t) (st := st) (usb_uart_config_list x.1) /\ carries x.2 (view x.1).
Lemma runs_Ok {A} (m : M (uart_state E) A) s Q r s' : runs m (usb_uart_config_list s) (view s) Q -> m s = Ok r s' -> Q r (usb_uart_config_list s') (view s').
Proof. intros Hr Hm. destruct (Hr s eq_refl eq_refl) as (r1 & s1 & Hm1 & HQ). rewrite Hm in Hm1. by injection Hm1 as -> ->. Qed.
Lemma irq_silent h arr : carries arr h -> h_rx_irq h = true -> h_timer h = false.
Proof. intros [_ (held & Hph & _)] Hq. destruct Hph; congruence. Qed.
Lemma hw_change_ok x y : hw_change x y -> carries x.2 x.1 -> carries y.2 y.1.
Proof. intros [h arr c|h arr Hw|h arr Hw|h arr] Hc; [by apply arrive_ok|by apply move_first_ok|by apply move_second_ok|by apply sent_ok]. Qed.
Lemma system_step_ok x y : system_step x y -> good x -> good y.
Proof.
  destruct channels_differ as (Hab & Hat & Hbt), channels_claimed as (Ha & Hb).
  intros [s arr e arr' Hh|s arr s' Hq Hf Hr Hrun|s arr s' Hrun|s arr again s' e Htm P0 P1 Hrun He] [Hl Hc]; unfold good in *; cbn [fst snd] in *.
  - split; [done|]. exact (hw_change_ok _ _ Hh Hc).
  - exact (runs_Ok _ _ _ _ _ (rx_callback_ok Hab Hat Hbt _ _ _ Hl Hc (irq_silent _ _ Hc Hq) Hr) Hrun).
  - exact (runs_Ok _ _ _ _ _ (dma_handler_ok Hab Hat Hbt Ha Hb _ _ _ Hl Hc) Hrun).
  - destruct (runs_Ok _ _ _ _ _ (timeout_ok Hab Hat Hbt Ha Hb _ _ _ Hl Hc Htm P0 P1) Hrun) as (Hl' & _ & Hres).
    split; [done|]. change (view (set_hardware e s')) with (hw_of e). rewrite He. destruct again; [by rewrite Hres|apply Hres].
Qed.
Lemma system_steps_ok x y : rtc system_step x y -> good x -> good y.
Proof. induction 1 as [|x y z Hxy _ IH]; [done|]. intros Hg. by apply IH, (system_step_ok x). Qed.
Lemma phase_held h held : buffers_ok h -> phase h held -> zlen held <= 2 * UART_RX_BUF_SIZE /\ (h_timer h = false -> held = []).
Proof.
  intros [H0 H1]. assert (Ht : forall n (l : list Z), zlen (ztake n l) <= zlen l) by (intros n l; unfold ztake, zlen; rewrite length_take; lia).
  unfold UART_RX_BUF_SIZE in *. pose proof (fun n => Ht n (h_buf0 h)) as T0. pose proof (fun n => Ht n (h_buf1 h)) as T1.
  intros [|n|n|n| |]; rewrite ?zlen_app; (split; [|congruence]); try specialize (T0 n); try specialize (T1 n); try done; lia.
Qed.

End System.

(** ** A board *)
Module UartSim.
Definition ch0 : Z := 3.
Definition ch1 : Z := 4.
Definition ch_tx : Z := 5.
Definition rxs : stream := 7.
Definition reply (c : sdk_call) (h : hw) : Z :=
  match c with
  | dma_channel_get_irq0_status ch => Z.b2z (if ch =? ch0 then pending (h_first h) else if ch =? ch1 then pending (h_second h) else if ch =? ch_tx then h_tx_irq h else false)
  | dma_transfer_count ch => if ch =? ch0 then d_left (h_first h) else if ch =? ch1 then d_left (h_second h) else 0
  | _ => 0
  end.
#[export] Instance sim_sdk : SdkIf hw := { sdk_run c := let! h := get in do! put (effect ch0 ch1 ch_tx rxs c h) in ret (reply c h) }.
#[export, refine] Instance sim_uart : UartSpec hw ch0 ch1 ch_tx rxs := { hw_of h := h }.
Proof.
  intros c h. eexists _, _. split; [reflexivity|]. split; [reflexivity|]. destruct c; try exact I; cbn [answer reply].
  - destruct (if dma_channel =? ch0 then _ else _); reflexivity.
  - destruct (dma_channel =? ch0); [reflexivity|]. by destruct (dma_channel =? ch1).
Defined.
Definition idle_channel : dma :=
  {| d_buf := 2; d_at := 0; d_left := 0; d_reload := 0; d_busy := false; d_en := false; d_irq := false; d_irqen := false; d_chain := false |}.
Definition line_idle : hw :=
  {| h_fifo := []; h_rx_irq := true; h_rxdmae := false; h_first := idle_channel; h_second := idle_channel; h_buf0 := memset 1024 0;
     h_buf1 := memset 1024 0; h_tx_irq := false; h_timer := false; h_given := [] |}.
Definition start : uart_state hw :=
  {| usb_uart_config_list := [usb_uart_config 11 20 21 20 22 0 (map (rx_dma_config 21 23 0 ch0 ch1) [0; 1]) 1 ch0 ch1 ch_tx 6 rxs 8; no_channels zero_config];
     cdc := {| rx_thread_list := [None; None]; configs := ∅; usb := line_idle |} |}.
(** What happens, as functions: bytes that arrive and go through the channel
    that works, an interrupt, the timer. *)
Definition on_hardware (f : hw -> hw) (s : uart_state hw) : uart_state hw := set_hardware (f (view s)) s.
Definition byte_in (x : Z) (h : hw) : hw :=
  let h := set_fifo (h_fifo h ++ [x]) h in
  if works h (h_first h) then move_first h else if works h (h_second h) then move_second h else h.
Definition handled {A} (m : M (uart_state hw) A) (s : uart_state hw) : uart_state hw := match m s with Ok _ s' => s' | _ => s end.
Definition timer (s : uart_state hw) : uart_state hw :=
  match usb_uart_1_timeout_interrupt s with Ok again s' => if again then s' else on_hardware (set_timer false) s' | _ => s end.
(** A session with the bytes [l]: the first wakes the receiver. *)
Definition session (x : Z) (l : list Z) (s : uart_state hw) : uart_state hw :=
  let s := handled usb_uart_1_rx_interrupt (on_hardware (byte_in x) s) in
  fold_left (fun s x => on_hardware (byte_in x) s) l (on_hardware move_first s).
End UartSim.
Import UartSim.
(** The timer's interrupt before that of a full buffer: the 1024 bytes are
    lost. *)
Example timer_before_full_buffer_loses :
  let s := timer (session 1 (memset 1023 1) start) in h_given (view s) = [] /\ pending (h_first (view s)) = false /\ h_timer (view s) = false.
Proof. vm_compute. done. Qed.
(** A session that ends with [n] bytes in the second buffer leaves the second
    counter part-way: if stopping the channel does not clear it, the next
    session hands these bytes over again. *)
Example second_counter_left_repeats :
  let s := timer (timer (handled usb_uart_dma_handler (session 1 (memset 1023 1 ++ [7; 8]) start))) in
  let s := timer (session 9 [] s) in
  zdrop 1024 (h_given (view s)) = [7; 8] ++ [9] ++ [7; 8].
Proof. vm_compute. done. Qed.
