(* ===== verification/Board.v ===== *)
(** The board's own services: system_func.c's log with main.c's log task, and
    platform.c: the clock, and the frequency of the target interface, which is
    kept in the probe's configuration. *)

From Stdlib Require Import ZArith Lia String.
From stdpp Require Import base list numbers option gmap sets relations.
From S2P Require Import Prelude CLib MemManager Eeprom DeviceConfig Platform Swd.

(** * The log *)

(** FreeRTOS's queue of addresses and its mutex, the queue to the command line's
    port, the blocks of the pools as texts, the microsecond clock and the kernel's delay. *)
Class LogIf (E : Type) := {
  xQueueCreate : Z -> Z -> M E unit;                       (* length, item size *)
  xSemaphoreCreateRecursiveMutex : M E unit;
  xSemaphoreTake : Z -> M E unit;
  xSemaphoreGive : M E unit;
  xQueueSendToBack : positive -> Z -> M E bool;
  xQueueReceive : Z -> M E (option positive);
  xQueueSend_cli : Z -> Z -> M E bool;
  heap_write : positive -> list Z -> M E unit;
  heap_text : positive -> M E (list Z);
  time_us_64 : M E Z;
  time_us_32 : M E Z;
  taskCHECK_IF_IN_ISR : M E bool;
  vTaskDelay : Z -> M E unit;
}.
Definition SYSTEM_WAIT_DONT_BLOCK : Z := 0.
Definition SYSTEM_WAIT_FOREVER : Z := 0xffffffff.
Definition LOG_BUFFER_SIZE : Z := 512.

Section Log.
Context {E : Type} `{LogIf E} `{MemIf E}.
Definition System_Init : M E unit :=
  do! xQueueCreate 10 4 in xSemaphoreCreateRecursiveMutex.
Definition System_IsInInterrupt : M E bool := taskCHECK_IF_IN_ISR.
Definition System_Assert : M E unit := ret tt.
Definition System_Log_Lock : M E unit := xSemaphoreTake SYSTEM_WAIT_FOREVER.
Definition System_Log_Unlock : M E unit := xSemaphoreGive.
Definition System_GetUptime : M E Z := time_us_64.
Definition System_SendLogToTask (address : positive) : M E unit :=
  let! result := xQueueSendToBack address SYSTEM_WAIT_DONT_BLOCK in
  if result : bool then ret tt else MemManager_Free (Some address).
(** [text]: what the message and its arguments format to. *)
Definition System_Log (text : list Z) : M E unit :=
  let! buffer := MemManager_Alloc LOG_BUFFER_SIZE in
  match buffer with
  | None => ret tt
  | Some p =>
      do! heap_write p (ztake (LOG_BUFFER_SIZE - 1) text) in
      let dataWritten := zlen text in
      when ((0 <? dataWritten) && (dataWritten <? LOG_BUFFER_SIZE)) (System_SendLogToTask p)
  end.
(** logging_common.h's macro around it. *)
Definition SdkLog (text : Z -> list Z) : M E unit :=
  do! System_Log_Lock in
  let! currentTime := System_GetUptime in
  do! System_Log (text currentTime) in
  System_Log_Unlock.
Definition System_ReceiveLog : M E (option positive) := xQueueReceive SYSTEM_WAIT_FOREVER.
(** A turn of main.c's [LogTaskThread]: the last character has bit 15 set. *)
Definition log_item (len i c : Z) : Z := if i =? len - 1 then Z.lor 0x8000 c else c.
Definition LogTaskThread_body : M E unit :=
  let! message := System_ReceiveLog in
  match message with
  | None => ret tt
  | Some p =>
      let! text := heap_text p in
      let len := zlen text in
      do! for_each (seqZ 0 len) (fun i => do! xQueueSend_cli (log_item len i (zget text i)) SYSTEM_WAIT_DONT_BLOCK in ret tt) in
      MemManager_Free (Some p)
  end.

(** ** platform.c: the clock *)
Definition platform_time_ms : M E Z :=
  let! current_time := System_GetUptime in ret (u32 (current_time / 1000)).
Definition platform_delay (ms : Z) : M E unit := vTaskDelay ms.
Definition SEGGER_SYSVIEW_X_GetTimestamp : M E Z := time_us_32.
(** What this board has none of. *)
Definition platform_hwversion : Z := 0.
Definition platform_init : M E unit := ret tt.
Definition platform_target_voltage : list Z := str "not supported".
Definition platform_target_voltage_sense : Z := 0.
End Log.

(** * The frequency of the target interface *)

Definition PIO_MIN_FREQUENCY : Z := 1000.
Definition PIO_MAX_FREQUENCY : Z := 40000000.
Definition TARGET_INTERFACE_1_MIN_FREQUENCY : Z := PIO_MIN_FREQUENCY.
Definition TARGET_INTERFACE_1_MAX_FREQUENCY : Z := 20000000.
Definition DEVICE_CONF_TARGET_INTERFACE_CONFIG_1_FREQ : Z := 14.

(** The fields of a controller these functions use: [target_interface_param],
    with those that SWD uses as the record of Swd, and the pointers that are
    set, by name. *)
Record board_controller := {
  param : target_interface_param;
  min_frequency : Z;
  max_frequency : Z;
  current_frequency : Z;
  frequency_setting_id : Z;
  methods : list (string * string);
}.
Definition interface_methods : list (string * string) :=
  let t n := ("platform_target_interface_non_iso_" ++ n)%string in
  [("platform_get_voltage", "platform_target_voltage"); ("platform_srst_set_val", t "srst_set_val"); ("platform_srst_get_val", t "srst_get_val");
   ("platform_target_set_power", t "set_power"); ("platform_target_get_power", t "get_power"); ("platform_target_voltage_sense", "platform_target_voltage_sense");
   ("platform_target_set_idle_state", t "set_idle_state"); ("platform_target_set_error_state", t "set_error_state");
   ("swdptap_seq_out_parity", t "seq_out_parity"); ("swdptap_seq_out", t "seq_out"); ("swdptap_seq_in", t "seq_in"); ("swdptap_seq_in_parity", t "seq_in_parity");
   ("swdptap_low_write", t "swd_low_write"); ("swdptap_low_access", t "swd_low_access"); ("jtagtap_next", t "jtag_next"); ("jtagtap_tms_seq", t "jtag_tms_seq");
   ("jtagtap_tdi_tdo_seq", t "jtag_tdi_tdo_seq"); ("jtagtap_tdi_seq", t "jtag_tdi_seq");
   ("platform_max_frequency_set", "platform_target_interface_max_frequency_set"); ("platform_max_frequency_get", "platform_target_interface_max_frequency_get");
   ("jtagtap_init", "jtagtap_init")]%string.

Record freq_state (E : Type) := { tc : board_controller; config : dconf E }.
Arguments Build_freq_state {E}. Arguments tc {E}. Arguments config {E}.
Definition set_frequency (div f : Z) (c : board_controller) : board_controller :=
  {| param := {| current_program := current_program (param c); clkdiv := div; update_clkdiv := true; tms_direction := tms_direction (param c) |};
     min_frequency := min_frequency c; max_frequency := max_frequency c; current_frequency := f;
     frequency_setting_id := frequency_setting_id c; methods := methods c |}.
Definition interface_defaults (c : board_controller) : board_controller :=
  {| param := {| current_program := PIO_PROGRAM_NOT_SET; clkdiv := clkdiv (param c); update_clkdiv := update_clkdiv (param c);
                 tms_direction := TARGET_INTERFACE_TMS_DIR_NOT_INITIALIZED |};
     min_frequency := TARGET_INTERFACE_1_MIN_FREQUENCY; max_frequency := TARGET_INTERFACE_1_MAX_FREQUENCY; current_frequency := current_frequency c;
     frequency_setting_id := DEVICE_CONF_TARGET_INTERFACE_CONFIG_1_FREQ; methods := interface_methods |}.

Section Frequency.
Context {E : Type} `{EepromIf E}.
(** The single precision quotient [PIO_SYSCLK / frequency / 2]. *)
Variable float_clkdiv : Z -> Z.
Notation MF := (M (freq_state E)).
Implicit Types s : freq_state E.
Definition on_config {A} (m : M (dconf E) A) : MF A := fun s =>
  let back c := {| tc := tc s; config := c |} in
  match m (config s) with
  | Ok a c => Ok a (back c)
  | Raise ty msg c => Raise ty msg (back c)
  | Fault why c => Fault why (back c)
  | Hang => Hang
  end.
Definition upd_tc (f : board_controller -> board_controller) : MF unit := modify (fun s => {| tc := f (tc s); config := config s |}).
(** [None]: the result -1, the only one below 0. *)
Definition platform_calculate_pio_clkdiv (frequency : Z) : option Z :=
  if (frequency <? PIO_MIN_FREQUENCY) || (PIO_MAX_FREQUENCY <? frequency) then None else Some (float_clkdiv frequency).
Definition platform_max_frequency_set (frequency : Z) : MF bool :=
  let! s := get in
  if (frequency <? min_frequency (tc s)) || (max_frequency (tc s) <? frequency) then ret false else
  match platform_calculate_pio_clkdiv frequency with
  | None => ret false
  | Some clkdiv => do! upd_tc (set_frequency clkdiv frequency) in ret true
  end.
Definition platform_target_interface_max_frequency_set (frequency : Z) : MF unit :=
  let! ok := platform_max_frequency_set frequency in
  when ok
    (let! s := get in
     do! on_config (device_config_set_value (frequency_setting_id (tc s)) (le_bytes 4 frequency) 4) in ret tt).
Definition platform_target_interface_max_frequency_get : MF Z := let! s := get in ret (current_frequency (tc s)).
Definition platform_target_interface_non_iso_init : MF unit :=
  do! upd_tc interface_defaults in
  let! s := get in
  let! (n, frequency) := on_config (device_config_get_value (frequency_setting_id (tc s)) 4) in
  when (n =? 4) (do! platform_max_frequency_set (le_val frequency) in ret tt).
End Frequency.

(** * What holds of the log

    The blocks held from the pools for messages, the queue (ten addresses at
    most), the text in each block, and what the command line's port was sent. *)
Record log_view := { v_held : gset positive; v_queue : list positive; v_text : positive -> list Z; v_cli : list Z }.
Class LogSpec (E : Type) `{LogIf E} `{MemIf E} := {
  log_of : E -> log_view;
  alloc_ok e n : exists r e', MemManager_Alloc n e = Ok r e' /\
    match r with
    | None => log_of e' = log_of e
    | Some p => p ∉ v_held (log_of e) /\
        log_of e' = {| v_held := {[p]} ∪ v_held (log_of e); v_queue := v_queue (log_of e); v_text := v_text (log_of e); v_cli := v_cli (log_of e) |}
    end;
  free_ok e p : exists e', MemManager_Free (Some p) e = Ok tt e' /\
    log_of e' = {| v_held := v_held (log_of e) ∖ {[p]}; v_queue := v_queue (log_of e); v_text := v_text (log_of e); v_cli := v_cli (log_of e) |};
  write_ok e p l : exists e', heap_write p l e = Ok tt e' /\
    log_of e' = {| v_held := v_held (log_of e); v_queue := v_queue (log_of e); v_text := fun q => if decide (q = p) then l else v_text (log_of e) q; v_cli := v_cli (log_of e) |};
  text_ok e p : heap_text p e = Ok (v_text (log_of e) p) e;
  send_ok e p t : exists b e', xQueueSendToBack p t e = Ok b e' /\
    log_of e' = {| v_held := v_held (log_of e); v_queue := if b : bool then v_queue (log_of e) ++ [p] else v_queue (log_of e); v_text := v_text (log_of e); v_cli := v_cli (log_of e) |};
  receive_ok e p r t : v_queue (log_of e) = p :: r -> exists e', xQueueReceive t e = Ok (Some p) e' /\
    log_of e' = {| v_held := v_held (log_of e); v_queue := r; v_text := v_text (log_of e); v_cli := v_cli (log_of e) |};
  cli_ok e c t : exists b e', xQueueSend_cli c t e = Ok b e' /\
    log_of e' = {| v_held := v_held (log_of e); v_queue := v_queue (log_of e); v_text := v_text (log_of e);
                   v_cli := if b : bool then v_cli (log_of e) ++ [c] else v_cli (log_of e) |};
}.

Section LogTheorems.
Context {E : Type} `{LS : LogSpec E}.
Implicit Types e : E.
(** The blocks that messages hold are the queue's, each once. *)
Definition balanced e : Prop := NoDup (v_queue (log_of e)) /\ v_held (log_of e) = list_to_set (v_queue (log_of e)).
(** A message that fits is logged, the task takes one. *)
Inductive log_step e e' : Prop :=
| a_message text : 0 < zlen text < LOG_BUFFER_SIZE -> System_Log text e = Ok tt e' -> log_step e e'
| a_turn : v_queue (log_of e) <> [] -> LogTaskThread_body e = Ok tt e' -> log_step e e'.

Lemma log_fits text e : exists e', System_Log text e = Ok tt e' /\ exists r,
  match r with
  | None => v_held (log_of e') = v_held (log_of e) /\ v_queue (log_of e') = v_queue (log_of e)
  | Some (p, sent) => p ∉ v_held (log_of e) /\
      if (0 <? zlen text) && (zlen text <? LOG_BUFFER_SIZE) then
        if sent : bool then v_held (log_of e') = {[p]} ∪ v_held (log_of e) /\ v_queue (log_of e') = v_queue (log_of e) ++ [p]
        else v_held (log_of e') = v_held (log_of e) /\ v_queue (log_of e') = v_queue (log_of e)
      else v_held (log_of e') = {[p]} ∪ v_held (log_of e) /\ v_queue (log_of e') = v_queue (log_of e)
  end.
Proof.
  unfold System_Log. destruct (alloc_ok e LOG_BUFFER_SIZE) as (r & e1 & R1 & V1). rewrite (bind_Ok _ _ _ _ _ R1). destruct r as [p|].
  - destruct V1 as [Hp V1]. destruct (write_ok e1 p (ztake (LOG_BUFFER_SIZE - 1) text)) as (e2 & R2 & V2). rewrite (bind_Ok _ _ _ _ _ R2). cbv zeta.
    destruct ((0 <? zlen text) && (zlen text <? LOG_BUFFER_SIZE)); cbn [when].
    + unfold System_SendLogToTask. destruct (send_ok e2 p SYSTEM_WAIT_DONT_BLOCK) as (b & e3 & R3 & V3). rewrite (bind_Ok _ _ _ _ _ R3). destruct b.
      * exists e3. split; [done|]. exists (Some (p, true)). split; [done|]. by rewrite V3, V2, V1.
      * destruct (free_ok e3 p) as (e4 & R4 & V4). exists e4. split; [done|]. exists (Some (p, false)). split; [done|].
        rewrite V4, V3, V2, V1. cbn. split; [|done]. set_solver.
    + exists e2. split; [done|]. exists (Some (p, true)). split; [done|]. by rewrite V2, V1.
  - exists e1. split; [done|]. exists None. by rewrite V1.
Qed.
Lemma items_ok text len (l : list Z) : forall e, exists e', for_each l (fun i => do! xQueueSend_cli (log_item len i (zget text i)) SYSTEM_WAIT_DONT_BLOCK in ret tt) e = Ok tt e' /\
  v_held (log_of e') = v_held (log_of e) /\ v_queue (log_of e') = v_queue (log_of e).
Proof.
  induction l as [|i l IH]; intros e; [by exists e|]. cbn [for_each]. rewrite bind_bind.
  destruct (cli_ok e (log_item len i (zget text i)) SYSTEM_WAIT_DONT_BLOCK) as (b & e1 & R1 & V1). rewrite (bind_Ok _ _ _ _ _ R1), bind_ret.
  destruct (IH e1) as (e2 & R2 & Hh & Hq). exists e2. split; [done|]. by rewrite Hh, Hq, V1.
Qed.
Lemma task_takes e p r : v_queue (log_of e) = p :: r -> exists e', LogTaskThread_body e = Ok tt e' /\
  v_held (log_of e') = v_held (log_of e) ∖ {[p]} /\ v_queue (log_of e') = r.
Proof.
  intros Hq. unfold LogTaskThread_body, System_ReceiveLog. destruct (receive_ok e p r SYSTEM_WAIT_FOREVER Hq) as (e1 & R1 & V1).
  rewrite (bind_Ok _ _ _ _ _ R1). rewrite (bind_Ok _ _ _ _ _ (text_ok e1 p)). cbv zeta.
  destruct (items_ok (v_text (log_of e1) p) (zlen (v_text (log_of e1) p)) (seqZ 0 (zlen (v_text (log_of e1) p))) e1) as (e2 & R2 & Hh & Hq2).
  rewrite (bind_Ok _ _ _ _ _ R2). destruct (free_ok e2 p) as (e3 & R3 & V3). exists e3. split; [done|]. rewrite V3. cbn. by rewrite Hh, Hq2, V1.
Qed.
Lemma log_step_balanced e e' : log_step e e' -> balanced e -> balanced e'.
Proof.
  intros [text Ht Hrun|Hne Hrun] [Hnd Hh]; unfold balanced.
  - destruct (log_fits text e) as (e1 & R1 & r & Hr). rewrite Hrun in R1. injection R1 as <-.
    rewrite (proj2 (Z.ltb_lt 0 _)), (proj2 (Z.ltb_lt (zlen text) _)) in Hr by lia. cbn [andb] in Hr.
    destruct r as [[p sent]|]; [destruct Hr as [Hp Hr]; destruct sent|]; destruct Hr as [-> ->]; [|done..]. split.
    + apply NoDup_app. split; [done|]. split; [|apply NoDup_singleton]. intros x Hx Hin. apply list_elem_of_singleton in Hin as ->. rewrite Hh in Hp. set_solver.
    + rewrite Hh, list_to_set_app_L. set_solver.
  - destruct (v_queue (log_of e)) as [|p r] eqn:Hq; [done|]. destruct (task_takes e p r Hq) as (e1 & R1 & Hh1 & Hq1). rewrite Hrun in R1. injection R1 as <-.
    apply NoDup_cons in Hnd as [Hp Hnd]. rewrite Hh1, Hq1, Hh. split; [done|]. cbn. set_solver.
Qed.
(** C32: no block is lost as long as messages are between 1 and 511 bytes long: in
    every state reached by logging and by the task's turns, the blocks held are
    the queue's, each once; and both return. *)
Theorem log_balanced e e' : balanced e -> rtc log_step e e' ->
  balanced e' /\ (forall text, exists e2, System_Log text e' = Ok tt e2) /\ (v_queue (log_of e') <> [] -> exists e2, LogTaskThread_body e' = Ok tt e2).
Proof.
  intros Hb Hst. assert (Hb' : balanced e') by (induction Hst as [|x y z Hxy _ IH]; [done|by apply IH, (log_step_balanced x)]). split; [done|]. split.
  - intros text. destruct (log_fits text e') as (e2 & R & _). by exists e2.
  - intros Hq. destruct (v_queue (log_of e')) as [|p r] eqn:Hqe; [done|]. destruct (task_takes e' p r Hqe) as (e2 & R & _). by exists e2.
Qed.
(** A message of 512 bytes or more takes a block, if there is one, that nothing
    gives back: it is in no queue. *)
Theorem log_long_leaks text e e' : LOG_BUFFER_SIZE <= zlen text -> System_Log text e = Ok tt e' -> balanced e ->
  v_held (log_of e') = v_held (log_of e) \/ exists p, p ∈ v_held (log_of e') /\ p ∉ v_queue (log_of e') /\ v_held (log_of e') = {[p]} ∪ v_held (log_of e).
Proof.
  intros Hlen Hrun [Hnd Hh]. destruct (log_fits text e) as (e1 & R1 & r & Hr). rewrite Hrun in R1. injection R1 as <-.
  rewrite (proj2 (Z.ltb_ge (zlen text) _)) in Hr by lia. rewrite andb_false_r in Hr.
  destruct r as [[p sent]|]; [|left; apply Hr]. destruct Hr as (Hp & Hh' & Hq). right. exists p. rewrite Hh', Hq. rewrite Hh in *. set_solver.
Qed.
End LogTheorems.

(** * What holds of the frequency *)
Section FrequencyTheorems.
Context {E : Type} `{EepromSpec E}.
Variable float_clkdiv : Z -> Z.
Notation init := (platform_target_interface_non_iso_init).
Notation set_max := (platform_target_interface_max_frequency_set float_clkdiv).
Implicit Types s : freq_state E.
(** The configuration in memory is valid and the one in the EEPROM. *)
Definition synced (c : dconf E) : Prop := wf 0 c /\ is_bytes (rom (ee c)) /\ valid (conf c) /\ stored (rom (ee c)) = conf c.
Definition in_limits (c : board_controller) (f : Z) : Prop :=
  PIO_MIN_FREQUENCY <= f <= PIO_MAX_FREQUENCY /\ min_frequency c <= f <= max_frequency c.
Lemma set_in_limits s f : in_limits (tc s) f ->
  platform_max_frequency_set float_clkdiv f s = Ok true {| tc := set_frequency (float_clkdiv f) f (tc s); config := config s |}.
Proof.
  intros [Hp Hm]. unfold platform_max_frequency_set, platform_calculate_pio_clkdiv, bind, get.
  rewrite !(proj2 (Z.ltb_ge _ _)) by lia. reflexivity.
Qed.
Lemma set_out_of_limits s f : ~ in_limits (tc s) f -> platform_max_frequency_set float_clkdiv f s = Ok false s.
Proof.
  intros Hn. unfold platform_max_frequency_set, platform_calculate_pio_clkdiv, bind, get, in_limits in *.
  destruct ((f <? min_frequency (tc s)) || (max_frequency (tc s) <? f)) eqn:Hm; [done|].
  destruct ((f <? PIO_MIN_FREQUENCY) || (PIO_MAX_FREQUENCY <? f)) eqn:Hp; [done|]. lia.
Qed.
(** What the EEPROM holds after its first 33 bytes are written over. *)
Lemma stored_over c r : zlen c = sizeof_conf -> zlen r = 256 -> get_field f_mac c = ztake 6 (zdrop EEPROM_ADDR_MAC r) -> stored (splice r 0 (ztake 33 c)) = c.
Proof.
  intros Hc Hr Hm. unfold stored, sizeof_conf, EEPROM_ADDR_MAC in *. assert (H33 : zlen (ztake 33 c) = 33) by (apply zlen_ztake; lia).
  assert (H1 : ztake 33 (splice r 0 (ztake 33 c)) = ztake 33 c) by (rewrite <- H33 at 1; apply ztake_splice0; lia).
  assert (H2 : ztake 6 (zdrop 250 (splice r 0 (ztake 33 c))) = ztake 6 (zdrop 33 c)).
  { change (ztake 6 (zdrop 33 c)) with (get_field f_mac c). rewrite Hm. f_equal. unfold splice. rewrite H33. change (ztake 0 r) with (@nil Z). cbn [app].
    unfold zdrop. rewrite drop_app, drop_drop. rewrite drop_ge by (unfold zlen in H33; lia). cbn [app]. f_equal. unfold zlen in H33. lia. }
  rewrite H1, H2. unfold ztake, zdrop. rewrite (firstn_all2 (drop _ c)); [apply take_drop|]. rewrite length_drop. unfold zlen in Hc. lia.
Qed.
Lemma set_value_synced c id f v : synced c -> 1 <= id -> device_config_get_setting_pointer id = Some f -> zlen v = f_size f -> is_bytes v -> apart f f_mac ->
  exists c', device_config_set_value id v (zlen v) c = Ok (zlen v) c' /\ synced c' /\ get_field f (conf c') = v.
Proof.
  intros (Hw & Hb & Hv & Hs) Hid Hf Hl Hvb Ha. destruct (set_value_stored 0 c id f v Hw Hid Hf Hl Hvb) as (c' & Hrun & Hw' & Hget & Hoth & Hsame & Hnew).
  exists c'. split; [done|]. split; [|done]. destruct (decide (get_field f (conf c) = v)) as [Heq|Hne]; [by rewrite (Hsame Heq)|].
  destruct (Hnew Hne) as [Hval Hrom]. pose proof Hw as [Hlen _ _ _ Hrl]. pose proof Hw' as [Hlen' Hcb' _ _ _]. split; [done|]. split; [|split; [done|]].
  - rewrite Hrom. unfold splice. rewrite !Forall_app. split_and!; [by apply Forall_take|by apply Forall_take|by apply Forall_drop].
  - rewrite Hrom. apply stored_over; [done|done|]. rewrite Hoth; [|unfold in_conf; rewrite Hlen; unfold sizeof_conf; cbn; lia|done|left; cbn; lia].
    rewrite <- Hs. unfold get_field, stored. change (f_off f_mac) with 33. change (f_size f_mac) with 6.
    assert (H33 : zlen (ztake 33 (rom (ee c))) = 33) by (apply zlen_ztake; lia).
    unfold zdrop at 1. rewrite drop_app, (drop_ge (ztake 33 _)) by (unfold zlen in H33; lia). cbn [app].
    replace (Z.to_nat 33 - length (ztake 33 (rom (ee c))))%nat with O by (unfold zlen in H33; lia). rewrite drop_0.
    unfold ztake. rewrite take_take. f_equal.
Qed.
Lemma init_reads s f : synced (config s) -> get_field (f_frequency 0) (conf (config s)) = le_bytes 4 f -> 0 <= f < 2 ^ 32 ->
  exists s', init float_clkdiv s = Ok tt s' /\ config s' = config s /\
    tc s' = if decide (in_limits (interface_defaults (tc s)) f) then set_frequency (float_clkdiv f) f (interface_defaults (tc s)) else interface_defaults (tc s).
Proof.
  intros (Hw & _) Hf Hr. unfold platform_target_interface_non_iso_init, upd_tc, bind at 1, modify. set (s1 := Build_freq_state _ _).
  unfold bind at 1, get. change (frequency_setting_id (tc s1)) with 14.
  assert (Hget : on_config (device_config_get_value 14 4) s1 = Ok (4, le_bytes 4 f) s1).
  { unfold on_config. change (config s1) with (config s). rewrite (get_value_correct 0 (config s) 14 4 Hw). cbn [device_config_get_setting_pointer].
    change (f_size (f_frequency 0) =? 4) with true. cbv iota. by rewrite Hf. }
  rewrite (bind_Ok _ _ _ _ _ Hget). cbn [when Z.eqb Pos.eqb]. rewrite le_val_bytes, Z.mod_small by (cbn; lia).
  destruct (decide _) as [Hi|Hi].
  - rewrite (bind_Ok _ _ _ _ _ (set_in_limits s1 f Hi)). by eexists.
  - rewrite (bind_Ok _ _ _ _ _ (set_out_of_limits s1 f Hi)). by eexists.
Qed.
End FrequencyTheorems.

Section Persistence.
Context {E : Type} `{EepromSpec E}.
Variable float_clkdiv : Z -> Z.
Implicit Types s : freq_state E.
(** The controller as platform_target_interface_non_iso_init leaves it, but for
    the frequency. *)
Definition interface_ready (c : board_controller) : Prop :=
  min_frequency c = TARGET_INTERFACE_1_MIN_FREQUENCY /\ max_frequency c = TARGET_INTERFACE_1_MAX_FREQUENCY /\
  frequency_setting_id c = DEVICE_CONF_TARGET_INTERFACE_CONFIG_1_FREQ.
End Persistence.

(** ** On the EEPROM of eeprom.c

    Storing a new frequency is where eeprom.c's overrun is met: the 33 bytes
    that are written are more than its transfer buffer takes at once. *)
Section Overrun.
Context {W : Type} `{I2cIf W}.
Lemma write_all_overruns (x : dconf W) d : mutex x = Some d -> exists y, device_config_write_all_settings x = Fault OutOfBounds y.
Proof.
  destruct x as [c m e]. cbn. intros ->.
  unfold device_config_write_all_settings, device_config_calculate_crc, device_config_lock, device_config_unlock, bind, get, put, modify, ret, set_mutex, set_conf.
  cbn [mutex conf ee]. unfold on_ee. cbn [ee].
  unfold eeprom_write, i2c_eeprom. rewrite eeprom_write_overrun; [by eexists|done|done|done].
Qed.
Theorem new_frequency_overruns (float_clkdiv : Z -> Z) (s : freq_state W) (f : Z) :
  interface_ready (tc s) -> TARGET_INTERFACE_1_MIN_FREQUENCY <= f <= TARGET_INTERFACE_1_MAX_FREQUENCY ->
  zlen (conf (config s)) = sizeof_conf -> mutex (config s) = Some 0 -> get_field (f_frequency 0) (conf (config s)) <> le_bytes 4 f ->
  exists s', platform_target_interface_max_frequency_set float_clkdiv f s = Fault OutOfBounds s'.
Proof.
  intros (Hmin & Hmax & Hid) Hf Hlen Hmx Hne. unfold TARGET_INTERFACE_1_MIN_FREQUENCY, TARGET_INTERFACE_1_MAX_FREQUENCY, PIO_MIN_FREQUENCY in *.
  assert (Hlim : in_limits (tc s) f) by (unfold in_limits, PIO_MIN_FREQUENCY, PIO_MAX_FREQUENCY; lia).
  unfold platform_target_interface_max_frequency_set. rewrite (bind_Ok _ _ _ _ _ (set_in_limits float_clkdiv s f Hlim)). cbn [when].
  unfold bind at 1, get. cbn [tc set_frequency frequency_setting_id]. rewrite Hid.
  assert (Hrun : exists c', device_config_set_value 14 (le_bytes 4 f) 4 (config s) = Fault OutOfBounds c').
  { assert (Hq : eqb_str (get_field (f_frequency 0) (conf (config s))) (le_bytes 4 f) = false).
    { destruct (eqb_str _ _) eqn:Hq; [|done]. apply eqb_str_eq in Hq. done. }
    destruct (config s) as [c m e]. cbn [conf mutex] in *. subst m. unfold device_config_set_value.
    change ((4 =? 0) || (DEVICE_CONF_MAX_ID <? 14)) with false. cbv iota. unfold device_config_lock at 1. rewrite bind_bind. unfold bind at 1, get. cbn [mutex].
    unfold bind at 1, put. cbn [device_config_get_setting_pointer]. change (f_size (f_frequency 0) =? 4) with true. cbv iota.
    assert (Hload : forall s, load_n (W := dconf W) (le_bytes 4 f) 0 4 s = Ok (le_bytes 4 f) s) by reflexivity.
    rewrite bind_bind, (bind_Ok _ _ _ _ _ (Hload _)), bind_bind. unfold bind at 1, get. cbn [conf set_mutex]. rewrite Hq, bind_bind. unfold bind at 1, put.
    rewrite bind_ret. change (0 <? 4) with true. cbv iota. rewrite bind_bind.
    set (c1 := set_conf (set_field (f_frequency 0) (le_bytes 4 f) c) _).
    destruct (write_all_overruns c1 1 eq_refl) as (c2 & Hw). exists c2. unfold bind at 1. by rewrite Hw. }
  destruct Hrun as (c' & Hrun). unfold on_config, bind at 1. cbn [config]. change DEVICE_CONF_TARGET_INTERFACE_CONFIG_1_FREQ with 14. rewrite Hrun. by eexists.
Qed.
End Overrun.

(** ** A log, and a configuration *)
Module LogSim.
Definition upd_held f v := {| v_held := f (v_held v); v_queue := v_queue v; v_text := v_text v; v_cli := v_cli v |}.
Definition set_queue q v := {| v_held := v_held v; v_queue := q; v_text := v_text v; v_cli := v_cli v |}.
#[export] Instance sim_mem : MemIf log_view := {
  MemManager_Alloc _ := let! v := get in do! put (upd_held (fun X => {[fresh (v_held v)]} ∪ X) v) in ret (Some (fresh (v_held v)));
  MemManager_Free p := match p with Some p => modify (upd_held (fun X => X ∖ {[p]})) | None => ret tt end;
}.
#[export] Instance sim_log : LogIf log_view := {
  xQueueCreate _ _ := ret tt; xSemaphoreCreateRecursiveMutex := ret tt; xSemaphoreTake _ := ret tt; xSemaphoreGive := ret tt;
  xQueueSendToBack p _ :=
    let! v := get in
    if (length (v_queue v) <? 10)%nat then do! put (set_queue (v_queue v ++ [p]) v) in ret true else ret false;
  xQueueReceive _ := let! v := get in match v_queue v with p :: r => do! put (set_queue r v) in ret (Some p) | [] => hang end;
  xQueueSend_cli c _ := do! modify (fun v => {| v_held := v_held v; v_queue := v_queue v; v_text := v_text v; v_cli := v_cli v ++ [c] |}) in ret true;
  heap_write p l := modify (fun v => {| v_held := v_held v; v_queue := v_queue v; v_text := fun q => if decide (q = p) then l else v_text v q; v_cli := v_cli v |});
  heap_text p := let! v := get in ret (v_text v p);
  time_us_64 := ret 0; time_us_32 := ret 0; taskCHECK_IF_IN_ISR := ret false; vTaskDelay _ := ret tt;
}.
#[export, refine] Instance sim_spec : LogSpec log_view := { log_of v := v }.
Proof.
  - intros v n. exists (Some (fresh (v_held v))). eexists. split; [reflexivity|]. split; [apply is_fresh|done].
  - intros v p. by eexists.
  - intros v p l. by eexists.
  - done.
  - intros v p t. unfold xQueueSendToBack, sim_log, bind, get. destruct (_ <? _)%nat; [by eexists true, _|]. exists false, v. split; [done|]. by destruct v.
  - intros v p r t Hq. unfold xQueueReceive, sim_log, bind, get. rewrite Hq. by eexists.
  - intros v c t. by eexists true, _.
Defined.
Definition quiet : log_view := {| v_held := ∅; v_queue := []; v_text _ := []; v_cli := [] |}.
End LogSim.
Import LogSim.
Lemma log_balanced_witness : exists v, rtc log_step quiet v /\ v_cli v = [72; 0x8069] /\ balanced v.
Proof.
  assert (Hst : exists v, rtc log_step quiet v /\ v_cli v = [72; 0x8069]).
  { eexists. split; [|shelve]. eapply rtc_l; [apply (a_message _ _ (str "Hi")); [split; reflexivity|vm_compute; reflexivity]|].
    eapply rtc_l; [apply a_turn; [done|vm_compute; reflexivity]|]. apply rtc_refl.
    Unshelve. reflexivity. }
  destruct Hst as (v & Hst & Hcli). exists v. split; [done|]. split; [done|].
  refine (proj1 (log_balanced quiet v _ Hst)). split; [constructor|done].
Defined.
Definition sim_config : dconf (list Z) :=
  {| conf := sealed (memset 39 0); mutex := Some 0; ee := ztake 33 (sealed (memset 39 0)) ++ memset 223 0 |}.
Definition sim_tc : board_controller :=
  interface_defaults {| param := {| current_program := PIO_PROGRAM_NOT_SET; clkdiv := 0; update_clkdiv := false; tms_direction := TARGET_INTERFACE_TMS_DIR_NOT_INITIALIZED |};
    min_frequency := 0; max_frequency := 0; current_frequency := 0; frequency_setting_id := 0; methods := [] |}.
Lemma sim_config_synced : synced sim_config.
Proof.
  split; [|split; [|split]]; [|apply Forall_app; split; [|apply Forall_replicate; split; lia]|vm_compute; reflexivity|vm_compute; reflexivity].
  - constructor; try done. apply (sealed_valid (memset 39 0)); [done|apply Forall_replicate; split; lia].
  - apply Forall_take, (sealed_valid (memset 39 0)); [done|apply Forall_replicate; split; lia].
Qed.
